(* ===== verification/_CoqProject ===== *)
-Q . S2P
Prelude.v
GoStrings.v
Common.v
ReporterResource.v
Representations.v
Resource.v
ResourceProps.v
Json.v
DataModel.v
Relations.v
Outbox.v
Store.v
Tables.v
Schema.v
SchemaProps.v
MetaAuthz.v
RelationsRepo.v
RelationsRepoProps.v
Proto.v
SpiceDB.v
GRPCRelations.v
GRPCRelationsProps.v
Consumer.v
Examples.v
Offsets.v
ConsumerProps.v
Replication.v
StoreProps.v
StoreInv.v
Usecase.v
UsecaseProps.v
Duplicates.v
OutboxProps.v
TupleCrud.v
AccessProps.v
FetchProps.v
Convergence.v
CatchUp.v
NoStale.v
Authn.v
AuthnConfig.v
Service.v
TupleService.v
Middleware.v
MiddlewareProps.v
AuthnProps.v
ServiceProps.v
Server.v
SpiceDBProps.v
SpiceDBZed.v
RelationsConfig.v
DeleteJob.v
DeleteJobProps.v
Pubsub.v
PubsubProps.v
ReadYourWrites.v
SchemaLoad.v
SchemaLoadProps.v
Settings.v
SettingsProps.v
Serve.v
ServeProps.v
FakeRepo.v
FakeRepoProps.v
FakeUsecase.v
HealthCheck.v
Metrics.v
MetricsProps.v
Streams.v
StreamsProps.v
Migrations.v
MigrationsProps.v
Columns.v
ColumnsProps.v
Flags.v
Startup.v
StartupProps.v
Wiring.v
WiringProps.v
Waiting.v
