(* ===== verification/Prelude.v ===== *)
(** * A verification of the Kessel inventory service

    The program is the Go service under src/: reporters send representations
    of resources, the service stores them in versioned tables and announces
    every change in a transactional outbox, a Kafka consumer turns the
    announcements into relationship tuples of an authorization backend, and
    the check endpoints answer from that backend.

    ** Parts, and the files that model them

    Domain.  internal/biz/model.  Common.v has the value types with their
    validating constructors (common.go, errors.go), ReporterResource.v and
    Representations.v the reporter resource, its key, counters and tombstone
    and the versioned payloads, Resource.v the aggregate: [NewResource],
    [Resource_Update], [Resource_Delete], its events and snapshots
    (resource.go).  Relations.v has references, tuples, filters, consistency
    and the diff of relation values.  GoStrings.v models the functions of
    strings and strconv that these use.

    Schemas.  Schema.v: tuple calculation of the default schema and from
    relation definitions, report validation, the in-memory repository
    (schema.go, schema_service.go, inmemory_schema_repository.go).
    SchemaLoad.v: its loaders from a directory and from JSON, and the command
    that writes the JSON (cmd/schema/schema.go).

    Storage.  DataModel.v: the rows of the four tables and their validators
    (internal/data/model).  Store.v: [Save], [FindResourceByKeys],
    [FindCurrentAndPreviousVersionedRepresentations],
    [FindLatestRepresentations], [HasTransactionIdBeenProcessed]
    (internal/data/resource_repository.go) over the class [GormDB] of the
    statements that GORM runs, and the retry loop
    [HandleSerializableTransaction] (gorm_transaction_manager.go).  [GormLaws]
    holds what the documentation of GORM and PostgreSQL says of the statements;
    Tables.v is a concrete database that satisfies it.  FakeRepo.v: the
    in-memory repository and transaction manager that the tests use
    (fake_resource_repository.go, fake_transaction_manager.go).  Migrations.v:
    the schema migrations, the check of their list and the advisory lock under
    which they run (migrate.go, internal/data/migrations).  Columns.v: the columns
    and indices in the tags of their structs and of internal/data/model (modules
    [Frozen] and [Stored]).

    Outbox.  Json.v models what the code uses of encoding/json, numbers through
    float64 included.  Outbox.v: tuple and resource events, their JSON, the
    messages of the write-ahead log (tuple_event.go, model_legacy/
    outboxevents.go, data/outboxeventsrepository.go).

    Relations backends.  RelationsRepo.v: the interface [RelationsRepository]
    as a class, the in-memory backend with versions and retained snapshots
    (module [Simple], relations_simple.go) and the allow-all backend.
    SpiceDB.v: the repository over SpiceDB with its locks and fencing tokens
    (spicedb_relations_repository.go); SpiceDBZed.v is a store to run it on.
    GRPCRelations.v: the repository over the Relations API with its token cache
    (grpc_relations_repository.go).  RelationsConfig.v: how one of them is
    chosen and built (internal/config/relations).  The consumer writes tuples
    only through the last two ([relationsEnabled]); the examples of the whole
    pipeline in Examples.v run it over the Relations API, with a small API
    (module [Backend] of GRPCRelationsProps.v) behind it.

    Consumer.  Consumer.v: internal/consumer/consumer.go; parsing, replication
    with retries and fencing, offsets, rebalancing, shutdown, the poll loop.

    Notifications.  Pubsub.v: internal/pubsub; the listen manager whose
    subscribers wait for their replication, and the PostgreSQL driver.

    Access.  MetaAuthz.v: claims, both meta-authorizers, the self subject.
    Authn.v and AuthnConfig.v: internal/authn; the authenticators, the
    first-match chain and its configuration.

    Use cases.  Usecase.v: internal/biz/usecase/resources; TupleCrud.v:
    internal/biz/usecase/tuples.

    Endpoints.  Proto.v: the protobuf messages.  Service.v and TupleService.v:
    internal/service/resources and internal/service/tuples; every endpoint with
    its conversions.  Middleware.v: internal/middleware and the order in which
    the gRPC and HTTP servers apply it.  Streams.v: the interceptors that count
    and log streams (internal/server/grpc/streamcounter.go, streamlogger.go), and
    the loops of the endpoints over a stream of the in-process backend.
    Server.v: a request through the whole stack.  HealthCheck.v: the health
    endpoints (internal/service/health, internal/data/health).

    Process.  Settings.v: options and configuration of storage, servers,
    consumer and the rest, and the injection of a ClowdApp
    (internal/storage, internal/server, internal/consumer, internal/config).
    Flags.v: the keys of their fields and their flags, and how the root command
    reads flags, environment and file (cmd/root.go).  Startup.v: the rest of the
    root command, its loggers (cmd/common), the log of the configuration and
    cmd/migrate.  Serve.v and Wiring.v: cmd/serve/serve.go; configuration,
    construction and wiring, restarts of the consumer, shutdown, with the
    construction of the servers (internal/server).  Waiting.v: the circuit breaker
    behind which a report waits for the consumer.  DeleteJob.v: cmd/jobs/resource_delete_job.go.  Metrics.v: the job
    that counts resources (cmd/jobs/metrics_collect_job.go) and the collector that
    publishes its counts and the statistics of Kafka (internal/metricscollector).

    ** How the model is written

    A Go function is a function with the same name; methods with pointer
    receivers return the receiver as they leave it.  [(T, error)] is [result],
    an error is a chain ([go_error]) of which the parts that errors.Is,
    errors.As and status.Code inspect are kept; a run-time panic is the value
    [EPanic], which no wrapping changes.  A [uint] is a [Z] in the range of 64
    bits with its wrap-around written out ([u64]).  A nil pointer is [None].
    The clock, fresh UUIDs, other transactions, the outcome of a COMMIT, of a
    Kafka commit or of waiting for a notification are arguments.  Logs, metrics
    and traces are dropped, but for the parts that are about them.

    Code outside the repository enters as a class: the database ([GormDB]), the
    Kafka client ([KafkaClient]), the JSON schema validator ([JsonSchemaLib]),
    UUID and time printing ([OutboxLib]), SpiceDB ([SpiceDBClient] with
    [SpiceDBLaws]), the Relations API ([KesselClient] with [KesselLaws] and
    [KesselChecks]), the file system
    ([FileSystem]), TLS ([TLSLib]), the PostgreSQL pool ([PgPool]), gormigrate and
    the schema statements ([Gormigrate], [SchemaDB]), viper ([Viper] with
    [ViperLaws]), gobreaker ([GoBreaker] with [GoBreakerLaws]), the order of a range
    over a map ([GoRange]); Examples.v, Tables.v, SpiceDBZed.v and the witnesses
    instantiate them.

    Three recursions are not structural and take fuel.  The retry of the consumer
    has no bound when OperationMaxRetries is -1; [Retry_returns] shows how much
    is enough: one more than the number of the first attempt that succeeds, or
    than the limit; with a limit, no message needs more
    ([consume_message_returns]).  The batches of the delete job need one more
    than the rows of the largest table ([delete_job_returns]), the loop over a
    stream one more than its items ([stream_loop_sends]).  Loops over what
    the environment answers (polling, waiting, restarting the consumer) are
    structural in the list of these answers.

    ** What is proved

    ResourceProps.v: an update advances the lifecycle order, common versions
    are never reused, deletes are idempotent, a report after a delete starts a
    new generation, snapshots round-trip.  SchemaProps.v: tuple calculation is
    the difference of the tuples that the two representations denote, the
    default schema is an instance of it, validation accepts exactly what the
    schemas accept, the schema repository is a two-level map.

    StoreProps.v: transactions are all or nothing and serialization failures
    are retried; the invariant [db_wf] of the tables.  StoreInv.v and
    UsecaseProps.v: what [Save] writes, and that the invariant holds in
    every reachable state.  Duplicates.v: the duplicate error is only ever
    about the transaction id, and reports are idempotent while the idempotency
    check is enabled.  OutboxProps.v: what a committed report or delete stores, and
    that in outbox mode wal it is announced once, with the versions stored.
    FetchProps.v: the consumer reads back what was stored.

    ConsumerProps.v: the tuple event survives the outbox, a delete filter
    selects one tuple.  Replication.v: a processed message moves the tuple
    store to the current representation, redelivery changes nothing, retries
    end.  Offsets.v: offsets are conserved, delivery is at least once, and every
    message is dealt with in bounded time.  Convergence.v composes the outbox,
    the log, the consumer and the tuple store: reports and deletes of any
    resources, failed, half-done and repeated deliveries and restarts interleave,
    and once the log is read the store holds the tuples of the last common
    representation.  CatchUp.v: every delivery moves the consumer on until it gets
    there, and over the Relations API the check for update then answers what that
    representation says.
    NoStale.v: when the resource is also deleted and reported again, the store
    keeps no tuple that the last representation lacks, and none once the resource
    is deleted; its end shows why it may miss some.  These are about one
    partition read in order, a resource whose object no other reporter instance
    shares, reports that announce their changes (outbox mode wal), and versions
    below 2^53, which JSON numbers keep; all but NoStale.v are about a resource
    that is not deleted.
    RelationsRepoProps.v: checks are at least as fresh as their token.
    SpiceDBProps.v: writes and deletes do to SpiceDB what the interface
    promises, for the tuples and filters that it can express ([spice_tuple],
    [spice_filter]); a lock that is held has one holder, and tokens that are stale
    and not empty are fenced off.  GRPCRelationsProps.v: the same promises over
    the Relations API, with the relation of a subject, and tokens are never used
    after they expired.  PubsubProps.v: a notification that
    finds room wakes its subscriber.  ReadYourWrites.v: a report that waits finds
    its own tuples, since the consumer notifies after it delivered them; this
    needs a transaction id that no other entry of the log has.

    AccessProps.v: the policies of the authorizers, who may write, how a
    consistency requirement is resolved, bulk checks.  AuthnProps.v and MiddlewareProps.v: no
    operation outside the white list is reached without claims, over gRPC, HTTP
    and streams, and how errors become statuses.  ServiceProps.v: which requests
    are converted and to what, and that every path names a resource by the same
    key.  Server.v: what read-only mode protects and who writes tuples.

    FakeRepoProps.v and FakeUsecase.v: reports and deletes do the same on the
    in-memory repository as on the tables, for ASCII keys without a bar that do not
    differ by case only and find no two rows that tie; its histories of common
    representations differ.
    MigrationsProps.v: which lists of migrations are accepted, and that processes
    migrating one database behave as if they did it one after the other.
    ColumnsProps.v: the conflicts that the repository theorems are about are the
    unique indices the migrations create, the bounds of the row validators, and that
    validated rows fit their columns.
    MetricsProps.v: the instruments show what is in the tables, and what the
    retention keeps.  StreamsProps.v: a stream is counted and logged once.

    SchemaLoadProps.v: the two ways to load the schemas agree.
    SettingsProps.v: the connection string can be read back, the ClowdApp's
    database is the one connected to.  ServeProps.v: an accepted configuration
    is never refused later, and how the consumer is restarted.  StartupProps.v:
    which source sets an option, and that no secret is in the log of the
    configuration.  WiringProps.v: a process that was started enforces what its
    options say.  Waiting.v: how little a consumer that does not answer costs
    the clients.
    DeleteJobProps.v: the job can be re-run until it succeeds, terminates, and
    keeps the tables well formed.

    Some theorems show where the program falls short.  NoStale.v,
    CatchUp.v and FetchProps.v: a resource that is deleted and reported again in
    its old workspace has no workspace tuple; a resource whose first common data
    comes with an update, and the delete of a resource that never had any, cannot
    be processed by the consumer.  [first_lock_race]: two clients both acquire a
    lock that both found free.  [stale_token_fenced]: the empty token, which the
    consumer has after it lost its partitions, passes the check of any holder.  [rejected_token_falls_back]: a denial does not
    end the chain of authenticators.  [reconnect_deadlocks] and
    [full_channel_drops]: the listener does not survive the loss of its
    connection, and drops notifications.  [consumer_failures]: a consumer that
    cannot subscribe blocks for ever.  [client_ca_ignored]: client CAs that
    cannot be opened are ignored.  [validated_rows_fit]: a validated instance id
    of a common representation need not fit its column.  [option_precedence]: three
    flags are not named after their keys and lose against the file.

    ** What is not modelled

    The fixtures in testdata.go, the mocks and the fake metrics collector; the
    container for tests; the SQL that GORM derives from the structs in the
    migrations; the SDK of OpenTelemetry; the output of the logger; the text of the
    flags' help; the conversions between a value type and the string or number it
    stands for, which are the identity here; helpers that nothing calls
    (internal/service/common, DecodeJWTClaims, RollbackLast).  A COMMIT that
    fails has not taken effect: an error of the connection after the server has
    committed is not modelled.  A call to unlock the advisory lock of the
    migrations always releases it.  Goroutines are
    modelled where their interleaving matters: the offsets of the consumer, waiting
    for notifications, transactions, locks and migrations.

    This file holds the errors, results, machine integers and list lemmas that
    the other files share, and the tactics. *)
From stdpp Require Import base tactics list strings gmap option.
From Stdlib Require Import ZArith Lia.

Set Default Goal Selector "!".

(** * Errors

    A Go [error] is a chain: a sentinel value, a formatted message, or an
    error wrapped with [%w].  Only what the code inspects ([errors.Is],
    [errors.As], [status.Convert]) is kept; of a message text the constant
    part is kept. *)

Inductive sentinel :=
  (* internal/biz/model/errors.go *)
  | ErrEmpty | ErrTooLong | ErrTooSmall | ErrInvalidURL | ErrInvalidUUID
  | ErrVersionConflict | ErrReporterDuplicate | ErrResourceNotFound
  | ErrResourceSchemaNotFound | ErrReporterSchemaNotFound | ErrInvalidData
  | ErrEmptyReporterList | ErrNoRepresentationProvided
  | ErrResourceAlreadyExists | ErrInventoryIdMismatch | ErrDatabaseError
  (* gorm *)
  | ErrRecordNotFound | ErrDuplicatedKey
  (* usecase and metaauthorizer *)
  | ErrSelfSubjectMissing | ErrMetaAuthorizerUnavailable
  | ErrMetaAuthorizationDenied | ErrMetaAuthzContextMissing
  (* consumer, pubsub, gobreaker, io *)
  | ErrClosed | ErrMaxRetries | ErrWaitContextCancelled
  | ErrOpenState | ErrTooManyRequests | EOF
  (* context *)
  | ContextCanceled | ContextDeadlineExceeded.

Inductive grpc_code :=
  | OK | Canceled | Unknown | InvalidArgument | DeadlineExceeded | NotFound
  | AlreadyExists | PermissionDenied | ResourceExhausted | FailedPrecondition
  | Aborted | OutOfRange | Unimplemented | Internal | Unavailable | DataLoss
  | Unauthenticated.

Inductive go_error :=
  | ESentinel (s : sentinel)                        (* errors.New           *)
  | EMsg (msg : string)                             (* fmt.Errorf, no %w    *)
  | EWrap (msg : string) (cause : go_error)         (* fmt.Errorf with %w   *)
  | EValidation (field msg : string)                (* model.ValidationError *)
  | EStatus (c : grpc_code) (msg : string)          (* status.Error(f)      *)
  | EKratos (c : grpc_code) (reason : string) (cause : go_error)
                                    (* kratos errors.BadRequest, Unauthorized, ... *)
  | EPg (code : string)                             (* *pgconn.PgError      *)
  | ESqlite (code : Z)                              (* sqlite3.Error        *)
  | EPanic (what : string).       (* not an error value: a run-time panic that
                                     unwinds the call                          *)

#[export] Instance sentinel_eq_dec : EqDecision sentinel.
Proof. solve_decision. Defined.
#[export] Instance grpc_code_eq_dec : EqDecision grpc_code.
Proof. solve_decision. Defined.
#[export] Instance go_error_eq_dec : EqDecision go_error.
Proof. solve_decision. Defined.

(** [errors.Is(err, target)] for a sentinel target: walk the chain. *)
Fixpoint errors_Is (e : go_error) (target : sentinel) : bool :=
  match e with
  | ESentinel s => bool_decide (s = target)
  | EWrap _ c | EKratos _ _ c => errors_Is c target
  | _ => false
  end.

(** [errors.As(err, &pgErr)], [errors.As(err, &sqliteErr)],
    [errors.As(err, &kratosErr)]: the first link of the type. *)
Fixpoint errors_As_pg (e : go_error) : option string :=
  match e with
  | EPg c => Some c
  | EWrap _ c | EKratos _ _ c => errors_As_pg c
  | _ => None
  end.

Fixpoint errors_As_sqlite (e : go_error) : option Z :=
  match e with
  | ESqlite c => Some c
  | EWrap _ c | EKratos _ _ c => errors_As_sqlite c
  | _ => None
  end.

Fixpoint errors_As_kratos (e : go_error) : option string :=
  match e with
  | EKratos _ r _ => Some r
  | EWrap _ c => errors_As_kratos c
  | _ => None
  end.

(** [status.Convert(err).Code()]: the code of the first link that carries a
    gRPC status, [Unknown] when there is none. *)
Fixpoint status_Code (e : go_error) : grpc_code :=
  match e with
  | EStatus c _ => c
  | EWrap _ c => status_Code c
  | EKratos c _ _ => c
  | _ => Unknown
  end.

(** * Results: [(T, error)] *)

Inductive result (A : Type) :=
  | Ok (a : A)
  | Err (e : go_error).
Arguments Ok {A} a.
Arguments Err {A} e.

#[export] Instance result_eq_dec {A} `{EqDecision A} : EqDecision (result A).
Proof. solve_decision. Defined.

Declare Scope go_scope.
Delimit Scope go_scope with go.
Open Scope go_scope.

(** [x, err := m; if err != nil { return err }; k] *)
Notation "'let!' x ':=' m 'in' k" :=
  (match m with Ok x => k | Err e => Err e end)
  (at level 200, x name, m at level 100, k at level 200,
   format "'[v' 'let!'  x  ':='  m  'in' '/' k ']'") : go_scope.

(** [if err := m; err != nil { return err }; k] for [m : result unit] *)
Notation "'check!' m 'in' k" :=
  (match m with Ok _ => k | Err e => Err e end)
  (at level 200, m at level 100, k at level 200,
   format "'[v' 'check!'  m  'in' '/' k ']'") : go_scope.

(** [fmt.Errorf("msg: %w", err)] applied to the error of a result. *)
Definition wrap_err {A} (msg : string) (m : result A) : result A :=
  match m with
  | Ok a => Ok a
  | Err (EPanic what) => Err (EPanic what)   (* a panic is not wrapped *)
  | Err e => Err (EWrap msg e)
  end.

Definition is_panic (e : go_error) : bool :=
  match e with EPanic _ => true | _ => false end.

Definition is_ok {A} (m : result A) : bool :=
  match m with Ok _ => true | Err _ => false end.

Lemma errors_Is_wrap msg e s : errors_Is (EWrap msg e) s = errors_Is e s.
Proof. done. Qed.

Lemma wrap_err_ok {A} msg (m : result A) a : wrap_err msg m = Ok a <-> m = Ok a.
Proof. destruct m as [|[]]; simpl; split; congruence. Qed.

(** * Machine integers: Go's [uint] is 64 bits wide *)

Definition two64 : Z := 18446744073709551616.
Definition u64 (z : Z) : Z := (z mod two64)%Z.
Definition is_u64 (z : Z) : Prop := (0 <= z < two64)%Z.
Definition max_u64 : Z := 18446744073709551615.

#[export] Instance is_u64_dec z : Decision (is_u64 z).
Proof. unfold is_u64. apply _. Defined.

Lemma u64_range z : is_u64 (u64 z).
Proof. unfold is_u64, u64, two64. apply Z.mod_pos_bound. lia. Qed.

Lemma u64_small z : is_u64 z -> u64 z = z.
Proof. unfold is_u64, u64. intros. by apply Z.mod_small. Qed.

Lemma u64_succ_small z : is_u64 z -> z <> max_u64 -> u64 (z + 1) = (z + 1)%Z.
Proof.
  unfold is_u64, max_u64. intros H Hm. apply u64_small.
  unfold is_u64, two64 in *. lia.
Qed.

(** * Pointers and nil-able maps

    A pointer [*T] to immutable data is [option T]; [nil] is [None]. *)

Definition is_nil {A} (p : option A) : bool :=
  match p with None => true | Some _ => false end.

(** * Options and lists *)

Lemma forall_Some {A} (P : A -> Prop) x : (forall y, Some x = Some y -> P y) <-> P x.
Proof. naive_solver. Qed.

Lemma exists_elem_cons {A} (P : A -> Prop) x l :
  (exists y, y ∈ x :: l /\ P y) <-> P x \/ exists y, y ∈ l /\ P y.
Proof. setoid_rewrite elem_of_cons. naive_solver. Qed.

Lemma exists_elem_nil {A} (P : A -> Prop) : (exists y, y ∈ @nil A /\ P y) <-> False.
Proof. setoid_rewrite elem_of_nil. naive_solver. Qed.

(** [f] identifies the elements of [l]. *)
Definition distinct_on {A B} (f : A -> B) (l : list A) : Prop :=
  forall a b, a ∈ l -> b ∈ l -> f a = f b -> a = b.

(** [l'] is [l] with [x] in place of the elements of key [k]. *)
Definition upserted {A K} `{EqDecision K} (key : A -> K) (k : K) (x : A) (l l' : list A) : Prop :=
  key x = k /\ l' ≡ₚ x :: filter (fun r => key r <> k) l.

Lemma upserted_elem {A K} `{EqDecision K} (key : A -> K) k x l l' y :
  upserted key k x l l' -> y ∈ l' <-> y = x \/ y ∈ l /\ key y <> k.
Proof. intros [_ ->]. rewrite elem_of_cons, list_elem_of_filter. naive_solver. Qed.

Lemma upserted_distinct {A B K} `{EqDecision K} (f : A -> B) (key : A -> K) k x l l' :
  upserted key k x l l' -> distinct_on f l ->
  (forall y, y ∈ l -> f y = f x -> key y = k) -> distinct_on f l'.
Proof.
  intros Hu Hd Hx a b. rewrite !(upserted_elem _ _ _ _ _ _ Hu). intros [->|[Ha Na]] [->|[Hb Nb]] E.
  - done.
  - by edestruct Nb; apply Hx.
  - by edestruct Na; apply Hx.
  - by apply Hd.
Qed.

Lemma upserted_NoDup {A K} `{EqDecision K} (key : A -> K) k x l l' :
  upserted key k x l l' -> NoDup (key <$> l) -> NoDup (key <$> l').
Proof.
  intros [Hk ->] Hl. simpl. constructor.
  - rewrite list_elem_of_fmap. intros (y & E & Hy). apply list_elem_of_filter in Hy as [Hy _].
    congruence.
  - eapply sublist_NoDup; [exact Hl|]. apply fmap_sublist, sublist_filter.
Qed.

(** * Automation *)

Create HintDb inv.
#[export] Hint Resolve u64_range u64_small : inv.

(** Case analysis on every [match]/[if] of the hypotheses and the goal that
    blocks evaluation, closing the contradictory branches. *)
Ltac break :=
  repeat (case_match || simplify_eq/=); try done.

Ltac break_in H :=
  repeat (match type of H with
          | context [match ?x with _ => _ end] => destruct x eqn:?
          end; simplify_eq/=); try done.

(** [Ok]-inversion of a [let!] chain in hypothesis [H]. *)
Ltac inv_ok H :=
  repeat (match type of H with
          | context [match ?x with Ok _ => _ | Err _ => _ end] =>
              let E := fresh "E" in destruct x eqn:E; [|discriminate H]
          | context [if ?b then _ else _] =>
              let E := fresh "B" in destruct b eqn:E; try discriminate H
          | Ok _ = Ok _ => injection H as H; subst
          end).

Ltac split_all := repeat match goal with |- _ /\ _ => split end.
