(* ===== verification/GoStrings.v ===== *)
(** Go's [strings] and [strconv] functions the sources call, on ASCII text.

    A Go string is a byte string; [Ascii.ascii] is a byte.  [strings.TrimSpace],
    [strings.ToLower] and [strings.EqualFold] are modelled on bytes below 128,
    where Go takes its ASCII branch: the theorems about what they make of a name
    ([ascii_report] in ServiceProps.v, [ascii_key] in FakeUsecase.v, and that on
    [NewResourceType] in Common.v) take [is_ascii] hypotheses.  The comparisons
    with "null" and "bearer" are exact, as none of their letters folds to one
    outside ASCII.  Everything else is exact on all bytes. *)
From stdpp Require Import base tactics list strings.
From Stdlib Require Import ZArith Lia Ascii DecimalString Decimal DecimalPos DecimalZ.
From S2P Require Import Prelude.

Local Open Scope string_scope.

(** * Bytes *)

Definition is_space (c : ascii) : bool :=
  let n := nat_of_ascii c in
  (Nat.eqb n 32 || (Nat.leb 9 n && Nat.leb n 13))%bool.

Definition is_upper (c : ascii) : bool :=
  let n := nat_of_ascii c in (Nat.leb 65 n && Nat.leb n 90)%bool.

Definition lower (c : ascii) : ascii :=
  if is_upper c then ascii_of_nat (nat_of_ascii c + 32) else c.

Fixpoint string_map (f : ascii -> ascii) (s : string) : string :=
  match s with
  | EmptyString => EmptyString
  | String c s' => String (f c) (string_map f s')
  end.

Fixpoint string_forall (p : ascii -> bool) (s : string) : bool :=
  match s with
  | EmptyString => true
  | String c s' => p c && string_forall p s'
  end.

Definition is_ascii (s : string) : bool :=
  string_forall (fun c => Nat.ltb (nat_of_ascii c) 128) s.

(** * strings *)

Fixpoint trim_left (s : string) : string :=
  match s with
  | EmptyString => EmptyString
  | String c s' => if is_space c then trim_left s' else s
  end.

Fixpoint trim_right (s : string) : string :=
  match s with
  | EmptyString => EmptyString
  | String c s' =>
      match trim_right s' with
      | EmptyString => if is_space c then EmptyString else String c EmptyString
      | r => String c r
      end
  end.

Definition TrimSpace (s : string) : string := trim_right (trim_left s).
Definition ToLower (s : string) : string := string_map lower s.
Definition EqualFold (s t : string) : bool := bool_decide (ToLower s = ToLower t).

(** [strings.ReplaceAll(s, old, new)] for one-byte [old] and [new]. *)
Definition ReplaceAll1 (s : string) (old new : ascii) : string :=
  string_map (fun c => if bool_decide (c = old) then new else c) s.

(** [strings.ContainsAny(s, chars)] *)
Fixpoint ContainsAny (s : string) (chars : list ascii) : bool :=
  match s with
  | EmptyString => false
  | String c s' => bool_decide (c ∈ chars) || ContainsAny s' chars
  end.

(** [strings.Join(l, sep)] *)
Fixpoint Join (l : list string) (sep : string) : string :=
  match l with
  | [] => ""
  | [s] => s
  | s :: l' => s +:+ sep +:+ Join l' sep
  end.

(** [strings.SplitN(s, c, 2)] when it yields two parts: what is before and after
    the first [c]. *)
Fixpoint Cut (s : string) (c : ascii) : option (string * string) :=
  match s with
  | "" => None
  | String a rest =>
      if bool_decide (a = c) then Some ("", rest)
      else match Cut rest c with
           | Some (before, after) => Some (String a before, after)
           | None => None
           end
  end.

(** [strings.Split(s, c)] *)
Fixpoint Split (s : string) (c : ascii) : list string :=
  match s with
  | "" => [""]
  | String a rest =>
      if bool_decide (a = c) then "" :: Split rest c
      else match Split rest c with
           | w :: ws => String a w :: ws
           | [] => [String a ""]
           end
  end.

Definition HasPrefix (s prefix : string) : bool := String.prefix prefix s.

Definition TrimPrefix (s prefix : string) : string :=
  if HasPrefix s prefix
  then String.substring (String.length prefix) (String.length s - String.length prefix) s
  else s.

(** [len(s)] in bytes *)
Definition len (s : string) : Z := Z.of_nat (String.length s).

(** * strconv

    [FormatInt(z, 10)] and [ParseInt(s, 10, 64)]: an optional sign, then decimal
    digits whose value is an [int64]. *)
Definition FormatInt (z : Z) : string := NilEmpty.string_of_int (Z.to_int z).

Definition parse_dec (s : string) : option Z :=
  match NilEmpty.int_of_string s with
  | Some (Pos d) =>
      if bool_decide (s = "") then None
      else let z := Z.of_int (Pos d) in
           if bool_decide (z < 2 ^ 63)%Z then Some z else None
  | Some (Neg d) =>
      if bool_decide (s = "-") then None
      else let z := Z.of_int (Neg d) in
           if bool_decide (- 2 ^ 63 <= z)%Z then Some z else None
  | None => None
  end.

Definition ParseInt (s : string) : option Z :=
  match s with
  | String "+"%char rest =>
      match rest with String "-"%char _ => None | _ => parse_dec rest end
  | _ => parse_dec s
  end.

(** * Facts *)

Lemma string_map_idem f s :
  (forall c, f (f c) = f c) -> string_map f (string_map f s) = string_map f s.
Proof. intros Hf. induction s as [|c s IH]; simpl; [done|]. by rewrite Hf, IH. Qed.

Lemma string_map_empty f s : string_map f s = "" <-> s = "".
Proof. destruct s; simpl; split; congruence. Qed.

Ltac all_bytes := intros c; destruct c as [b0 b1 b2 b3 b4 b5 b6 b7];
  destruct b0, b1, b2, b3, b4, b5, b6, b7; reflexivity.

Lemma lower_idem : forall c, lower (lower c) = lower c.
Proof. all_bytes. Qed.

Lemma lower_not_upper : forall c, is_upper (lower c) = false.
Proof. all_bytes. Qed.

Lemma lower_is_space : forall c, is_space (lower c) = is_space c.
Proof. all_bytes. Qed.

Lemma ToLower_idem s : ToLower (ToLower s) = ToLower s.
Proof. apply string_map_idem, lower_idem. Qed.

Lemma ToLower_empty s : ToLower s = "" <-> s = "".
Proof. apply string_map_empty. Qed.

Lemma EqualFold_refl s : EqualFold s s = true.
Proof. unfold EqualFold. by rewrite bool_decide_eq_true. Qed.

Lemma EqualFold_sym s t : EqualFold s t = EqualFold t s.
Proof. apply bool_decide_ext. by split. Qed.

Lemma EqualFold_iff s t : EqualFold s t = true <-> ToLower s = ToLower t.
Proof. unfold EqualFold. by rewrite bool_decide_eq_true. Qed.

Lemma EqualFold_lower s t : ToLower s = s -> ToLower t = t ->
  EqualFold s t = bool_decide (s = t).
Proof. intros Hs Ht. unfold EqualFold. by rewrite Hs, Ht. Qed.

Lemma trim_left_idem s : trim_left (trim_left s) = trim_left s.
Proof.
  induction s as [|c s IH]; simpl; [done|].
  destruct (is_space c) eqn:E; [done|]. simpl. by rewrite E.
Qed.

Lemma trim_right_cons c s :
  trim_right (String c s) =
  match trim_right s with
  | "" => if is_space c then "" else String c ""
  | r => String c r
  end.
Proof. done. Qed.

Lemma trim_right_idem s : trim_right (trim_right s) = trim_right s.
Proof.
  induction s as [|c s IH]; [done|].
  rewrite trim_right_cons. destruct (trim_right s) as [|d r] eqn:E.
  - destruct (is_space c) eqn:Ec; [done|]. simpl. by rewrite Ec.
  - rewrite trim_right_cons, IH. done.
Qed.

(** A string that does not start with a space keeps its first byte when its
    end is trimmed. *)
Lemma trim_left_right s :
  trim_left s = s -> trim_left (trim_right s) = trim_right s.
Proof.
  destruct s as [|c s]; [done|]. simpl. intros H.
  destruct (is_space c) eqn:Ec.
  - exfalso. assert (Hl : forall t, (String.length (trim_left t) <= String.length t)%nat).
    { induction t as [|d t IHt]; simpl; [lia|]. destruct (is_space d); simpl; lia. }
    specialize (Hl s). rewrite H in Hl. simpl in Hl. lia.
  - destruct (trim_right s); simpl; by rewrite Ec.
Qed.

Lemma TrimSpace_idem s : TrimSpace (TrimSpace s) = TrimSpace s.
Proof.
  unfold TrimSpace.
  rewrite (trim_left_right (trim_left s)) by apply trim_left_idem.
  apply trim_right_idem.
Qed.

(** Trimming commutes with a bytewise map that keeps the white space apart. *)
Section trim_map.
Context (f : ascii -> ascii) (Hf : forall c, is_space (f c) = is_space c).

Lemma trim_left_map s : trim_left (string_map f s) = string_map f (trim_left s).
Proof.
  induction s as [|c s IH]; simpl; [done|]. rewrite Hf.
  destruct (is_space c); [done|]. done.
Qed.

Lemma trim_right_map s : trim_right (string_map f s) = string_map f (trim_right s).
Proof.
  induction s as [|c s IH]; [done|].
  cbn [string_map]. rewrite !trim_right_cons, IH, Hf.
  destruct (trim_right s); simpl; [|done]. by destruct (is_space c).
Qed.

Lemma TrimSpace_map s : TrimSpace (string_map f s) = string_map f (TrimSpace s).
Proof. unfold TrimSpace. by rewrite trim_left_map, trim_right_map. Qed.
End trim_map.

Lemma TrimSpace_ToLower s : TrimSpace (ToLower s) = ToLower (TrimSpace s).
Proof. apply TrimSpace_map, lower_is_space. Qed.

Lemma ReplaceAll1_absent s old new :
  old <> new -> ContainsAny (ReplaceAll1 s old new) [old] = false.
Proof.
  intros Hne. induction s as [|c s IH]; simpl; [done|].
  fold (ReplaceAll1 s old new). rewrite IH, orb_false_r. apply bool_decide_eq_false.
  rewrite list_elem_of_singleton. case_bool_decide; congruence.
Qed.

Lemma ReplaceAll1_id s old new :
  ContainsAny s [old] = false -> ReplaceAll1 s old new = s.
Proof.
  unfold ReplaceAll1. induction s as [|c s IH]; simpl; [done|].
  intros [Hc Hs]%orb_false_iff. apply bool_decide_eq_false in Hc.
  rewrite list_elem_of_singleton in Hc. rewrite IH by done. case_bool_decide; congruence.
Qed.

Lemma to_int_wf z : Z.to_int z <> Pos Nil /\ Z.to_int z <> Neg Nil.
Proof.
  split; destruct z; simpl; try done; intros [= Hn];
    by apply (DecimalPos.Unsigned.to_uint_nonnil _ Hn).
Qed.

Lemma int_of_FormatInt z : NilEmpty.int_of_string (FormatInt z) = Some (Z.to_int z).
Proof. apply NilEmpty.isi; apply to_int_wf. Qed.

Lemma parse_dec_FormatInt z : (- 2 ^ 63 <= z < 2 ^ 63)%Z -> parse_dec (FormatInt z) = Some z.
Proof.
  intros Hz. unfold parse_dec. rewrite int_of_FormatInt. unfold FormatInt.
  destruct (to_int_wf z) as [Hp Hn]. pose proof (DecimalZ.of_to z) as Hd.
  destruct (Z.to_int z) as [d|d]; cbv zeta; rewrite Hd;
    (rewrite bool_decide_eq_false_2; [|intros Hs; destruct d; simpl in Hs; congruence]);
    by rewrite bool_decide_eq_true_2 by lia.
Qed.

Lemma FormatInt_Parse z : (- 2 ^ 63 <= z < 2 ^ 63)%Z -> ParseInt (FormatInt z) = Some z.
Proof.
  intros Hz. rewrite <- (parse_dec_FormatInt z Hz). pose proof (int_of_FormatInt z) as Hi.
  unfold FormatInt in *. destruct (Z.to_int z) as [[]|]; simpl in *; done.
Qed.

Lemma FormatInt_inj z1 z2 : FormatInt z1 = FormatInt z2 -> z1 = z2.
Proof.
  intros H. apply DecimalZ.to_int_inj.
  apply (f_equal NilEmpty.int_of_string) in H. rewrite !int_of_FormatInt in H. congruence.
Qed.

(** * Concatenation *)

Lemma sapp_nil s : "" +:+ s = s.
Proof. reflexivity. Qed.
Lemma sapp_cons c s t : String c s +:+ t = String c (s +:+ t).
Proof. reflexivity. Qed.
Create HintDb sapp discriminated.
#[export] Hint Rewrite sapp_nil sapp_cons : sapp.

Lemma app_assoc_string (a b c : string) : (a +:+ b) +:+ c = a +:+ b +:+ c.
Proof. induction a as [|x a IH]; autorewrite with sapp; [done|]. by rewrite IH. Qed.

Lemma app_nil_string (a : string) : a +:+ "" = a.
Proof. induction a as [|x a IH]; autorewrite with sapp; [done|]. by rewrite IH. Qed.
