(* ===== verification/Common.v ===== *)
(** internal/common.go, internal/biz/model/common.go and errors.go: JSON
    objects, the tiny types of the domain and the validation helpers.

    A tiny type over [string], [uint] or [bool] is its underlying type, so its
    [Serialize] and [Deserialize] are the identity; what the model keeps of it
    is its constructor, with the validation and the normalisation it does. *)
From stdpp Require Import base tactics list strings gmap.
From Stdlib Require Import ZArith Lia Ascii.
From S2P Require Import Prelude GoStrings.

Local Open Scope string_scope.

(** * JSON values: Go's [interface{}] as [encoding/json] fills it

    A number carries its integral value: no code modelled here reads a
    fractional one. *)
#[local] Unset Elimination Schemes.
Inductive json :=
  | JNull
  | JBool (b : bool)
  | JNum (z : Z)
  | JStr (s : string)
  | JArr (l : list json)
  | JObj (fields : list (string * json)).
#[local] Set Elimination Schemes.

(** [internal.JsonObject] and [Representation]: a map that may be nil. *)
Abbreviation JsonObject := (option (gmap string json)).
Abbreviation Representation := (option (gmap string json)).

(** [len(m)]: 0 on a nil map. *)
Definition rep_len (r : Representation) : nat :=
  match r with None => 0 | Some m => size m end.

(** [m[k]] with the comma-ok form: a nil map has no key. *)
Definition rep_get (r : Representation) (k : string) : option json :=
  match r with None => None | Some m => m !! k end.

(** [len( *p) > 0] guarded by [p != nil]. *)
Definition has_data (p : option Representation) : bool :=
  match p with None => false | Some r => bool_decide (0 < rep_len r)%nat end.

Definition NewEmptyRepresentation : Representation := Some ∅.

Definition NewRepresentation (data : JsonObject) : result Representation :=
  match data with
  | None => Err (EMsg "representation data cannot be nil")
  | Some _ => Ok data
  end.

(** * Identifiers

    A [uuid.UUID] is 16 bytes, here the number they spell; [uuid.Nil] is 0. *)
Abbreviation uuid := Z (only parsing).
Definition uuid_Nil : uuid := 0%Z.

(** [time.Time]: an instant; the zero [time.Time] is 0. *)
Abbreviation time := Z (only parsing).
Definition zero_time : time := 0%Z.

Abbreviation Version := Z (only parsing).
Abbreviation Generation := Z (only parsing).
Abbreviation Tombstone := bool (only parsing).
Abbreviation ResourceId := Z (only parsing).
Abbreviation ReporterResourceId := Z (only parsing).
Abbreviation ResourceType := string (only parsing).
Abbreviation ReporterType := string (only parsing).
Abbreviation ReporterInstanceId := string (only parsing).
Abbreviation LocalResourceId := string (only parsing).
Abbreviation ConsistencyToken := string (only parsing).
Abbreviation ContinuationToken := string (only parsing).
Abbreviation ReporterVersion := string (only parsing).
Abbreviation ApiHref := string (only parsing).
Abbreviation ConsoleHref := string (only parsing).
Abbreviation TransactionId := string (only parsing).
Abbreviation LockId := string (only parsing).
Abbreviation LockToken := string (only parsing).

Definition initialReporterRepresentationVersion : Z := 0.
Definition initialGeneration : Z := 0.
Definition initialTombstone : bool := false.

Definition Version_Increment (v : Version) : Version := u64 (v + 1).

Definition Version_Decrement (v : Version) : Version :=
  if bool_decide (v = 0)%Z then 0%Z else u64 (v - 1).

Definition Generation_Increment (g : Generation) : Generation := u64 (g + 1).

Definition NewResourceId (id : uuid) : result ResourceId :=
  if bool_decide (id = uuid_Nil) then Err (EWrap "ResourceId" (ESentinel ErrInvalidUUID))
  else Ok id.

Definition NewReporterResourceId (id : uuid) : result ReporterResourceId :=
  if bool_decide (id = uuid_Nil)
  then Err (EWrap "ReporterResourceId" (ESentinel ErrInvalidUUID))
  else Ok id.

(** [uuid.Parse] is github.com/google/uuid's. *)
Definition NewReporterResourceIdFromString (uuid_Parse : string -> result uuid)
    (id : string) : result ReporterResourceId :=
  let id := TrimSpace id in
  if bool_decide (id = "") then Err (EWrap "ReporterResourceId" (ESentinel ErrEmpty))
  else match uuid_Parse id with
       | Err _ => Err (EWrap "ReporterResourceId" (ESentinel ErrInvalidUUID))
       | Ok parsedUUID => NewReporterResourceId parsedUUID
       end.

(** The constructors of the string types: trim, reject the empty string,
    normalise. *)
Definition new_trimmed (name s : string) : result string :=
  let s := TrimSpace s in
  if bool_decide (s = "") then Err (EWrap name (ESentinel ErrEmpty)) else Ok s.

Definition NewResourceType (resourceType : string) : result ResourceType :=
  let resourceType := TrimSpace resourceType in
  if bool_decide (resourceType = "") then Err (EWrap "ResourceType" (ESentinel ErrEmpty))
  else Ok (ToLower (ReplaceAll1 resourceType "/" "_")).

Definition NewReporterType (reporterType : string) : result ReporterType :=
  let reporterType := TrimSpace reporterType in
  if bool_decide (reporterType = "") then Err (EWrap "ReporterType" (ESentinel ErrEmpty))
  else Ok (ToLower reporterType).

Definition NewReporterInstanceId (reporterInstanceId : string) : result ReporterInstanceId :=
  let reporterInstanceId := TrimSpace reporterInstanceId in
  if bool_decide (reporterInstanceId = "")
  then Err (EWrap "ReporterInstanceId" (ESentinel ErrEmpty))
  else Ok (ToLower reporterInstanceId).

Definition NewConsistencyToken (token : string) : result ConsistencyToken :=
  new_trimmed "ConsistencyToken" token.
Definition NewReporterVersion (version : string) : result ReporterVersion :=
  new_trimmed "ReporterVersion" version.
Definition NewURI (uri : string) : result string := new_trimmed "URI" uri.

Definition NewApiHref (href : string) : result ApiHref :=
  match NewURI href with
  | Err _ => Err (EWrap "ApiHref" (ESentinel ErrEmpty))
  | Ok uri => Ok uri
  end.

Definition NewConsoleHref (href : string) : result ConsoleHref :=
  match NewURI href with
  | Err _ => Err (EWrap "ConsoleHref" (ESentinel ErrEmpty))
  | Ok uri => Ok uri
  end.

Definition NewLocalResourceId (id : string) : result LocalResourceId :=
  new_trimmed "LocalResourceId" id.
Definition NewTransactionId (transactionId : string) : TransactionId := transactionId.
Definition NewLockId (id : string) : result LockId := new_trimmed "LockId" id.
Definition NewLockToken (token : string) : result LockToken := new_trimmed "LockToken" token.

(** internal/biz/model/relation.go *)
Definition NewRelation (relation : string) : result string :=
  let relation := TrimSpace relation in
  if bool_decide (relation = "") then Err (EWrap "Relation" (ESentinel ErrEmpty))
  else if ContainsAny relation [" "; "009"; "010"; "013"]%char
  then Err (EWrap "Relation contains whitespace" (ESentinel ErrInvalidData))
  else Ok relation.

(** * Validation helpers (errors.go) *)

Definition ValidateRequired (field : string) (isValid : bool) : option go_error :=
  if isValid then None else Some (EWrap field (ESentinel ErrEmpty)).

Definition ValidateStringRequired (field value : string) : option go_error :=
  ValidateRequired field (bool_decide (TrimSpace value <> "")).

Definition ValidateUUIDRequired (field : string) (id : uuid) : option go_error :=
  if bool_decide (id = uuid_Nil) then Some (EWrap field (ESentinel ErrInvalidUUID)) else None.

Definition ValidateMaxLength (field value : string) (maxLength : Z) : option go_error :=
  if bool_decide (maxLength < len value)%Z
  then Some (EWrap field (ESentinel ErrTooLong)) else None.

Definition ValidateMinValue (field : string) (value minValue : Z) : option go_error :=
  if bool_decide (value < minValue)%Z then Some (EWrap field (ESentinel ErrTooSmall)) else None.

Definition ValidateMinValueUint (field : string) (value minValue : Z) : option go_error :=
  ValidateMinValue field value minValue.

Definition ValidateOptionalString (field : string) (value : option string) (maxLength : Z)
    : option go_error :=
  match value with
  | None => None
  | Some v => ValidateMaxLength field v maxLength
  end.

(** [url.Parse] is a parameter: whether net/url accepts the string. *)
Definition ValidateOptionalURL (url_Parse_ok : string -> bool)
    (field value : string) (maxLength : Z) : option go_error :=
  if bool_decide (value = "") then None
  else if bool_decide (maxLength < len value)%Z then Some (EWrap field (ESentinel ErrTooLong))
  else if negb (url_Parse_ok value) then Some (EWrap field (ESentinel ErrInvalidURL))
  else None.

(** The message of an error, as [err.Error()] spells it for the errors the
    helpers build; [sentinel_text] is the text of the sentinels. *)
Definition sentinel_text (s : sentinel) : string :=
  match s with
  | ErrEmpty => "cannot be empty"
  | ErrTooLong => "exceeds maximum length"
  | ErrTooSmall => "below minimum value"
  | ErrInvalidURL => "invalid url"
  | ErrInvalidUUID => "invalid uuid"
  | ErrVersionConflict => "optimistic concurrency failure"
  | ErrReporterDuplicate => "reporter already exists for resource"
  | ErrResourceNotFound => "resource not found"
  | ErrResourceSchemaNotFound => "resource schema not found"
  | ErrReporterSchemaNotFound => "reporter schema not found"
  | ErrInvalidData => "invalid data structure"
  | ErrEmptyReporterList => "must have at least one reporter resource"
  | ErrNoRepresentationProvided =>
      "at least one of reporterRepresentation or commonRepresentation must be provided"
  | ErrResourceAlreadyExists => "resource already exists"
  | ErrInventoryIdMismatch => "resource inventory id mismatch"
  | ErrDatabaseError => "database error"
  | ErrSelfSubjectMissing => "self subject missing"
  | ErrMetaAuthorizerUnavailable => "meta authorizer unavailable"
  | ErrMetaAuthorizationDenied => "meta authorization denied"
  | ErrMetaAuthzContextMissing => "meta authorization context missing"
  | ErrRecordNotFound => "record not found"
  | ErrDuplicatedKey => "duplicated key not allowed"
  | ErrClosed => "consumer closed"
  | ErrMaxRetries => "max retries reached"
  | ErrWaitContextCancelled => "context cancelled while waiting for notification"
  | ErrOpenState => "circuit breaker is open"
  | ErrTooManyRequests => "too many requests"
  | EOF => "EOF"
  | ContextCanceled => "context canceled"
  | ContextDeadlineExceeded => "context deadline exceeded"
  end.

Fixpoint error_text (e : go_error) : string :=
  match e with
  | ESentinel s => sentinel_text s
  | EMsg m => m
  | EWrap m c => error_text c +:+ ": " +:+ m
  | EValidation f m => f +:+ ": " +:+ m
  | EStatus _ m => m
  | EKratos _ _ c => error_text c
  | EPg c => c
  | ESqlite c => FormatInt c
  | EPanic m => m
  end.

Definition to_validation_error (e : go_error) : go_error :=
  match e with
  | EValidation _ _ => e
  | _ => EValidation "unknown" (error_text e)
  end.

(** [AggregateErrors(errs...)]: nil entries are skipped. *)
Definition AggregateErrors (errs : list (option go_error)) : option go_error :=
  match to_validation_error <$> omap id errs with
  | [] => None
  | [ve] => Some ve
  | ves => Some (EMsg (Join (error_text <$> ves) "; "))
  end.

(** * Facts *)

Lemma Version_Increment_range v : is_u64 (Version_Increment v).
Proof. apply u64_range. Qed.

Lemma Generation_Increment_range g : is_u64 (Generation_Increment g).
Proof. apply u64_range. Qed.

Lemma Version_Increment_small v :
  is_u64 v -> v <> max_u64 -> Version_Increment v = (v + 1)%Z.
Proof. apply u64_succ_small. Qed.

Lemma Generation_Increment_small g :
  is_u64 g -> g <> max_u64 -> Generation_Increment g = (g + 1)%Z.
Proof. apply u64_succ_small. Qed.

Lemma has_data_Some p : has_data p = true <-> exists m, p = Some (Some m) /\ m <> ∅.
Proof.
  destruct p as [[m|]|]; unfold has_data, rep_len.
  - rewrite bool_decide_eq_true. split.
    + intros Hm. exists m. split; [done|]. apply map_size_non_empty_iff. lia.
    + intros (m' & [= <-] & Hm%map_size_non_empty_iff). lia.
  - split; [done|]. intros (m' & ? & ?). congruence.
  - split; [done|]. intros (m' & ? & ?). congruence.
Qed.

Lemma AggregateErrors_None errs :
  AggregateErrors errs = None <-> Forall (fun e => e = None) errs.
Proof.
  unfold AggregateErrors. induction errs as [|[e|] errs IH]; simpl.
  - split; constructor.
  - split; [|intros H; by inversion H].
    intros H. by break_in H.
  - rewrite IH, Forall_cons. intuition.
Qed.

#[export] Hint Resolve Version_Increment_range Generation_Increment_range : inv.

(** The normal form of a resource type: not empty, lower case, without ["/"]
    and without surrounding white space. *)
Definition normal_type (s : string) : Prop :=
  s <> "" /\ ToLower s = s /\ ContainsAny s ["/"%char] = false /\ TrimSpace s = s.

Definition slash_to_underscore (c : ascii) : ascii :=
  if bool_decide (c = "/"%char) then "_"%char else c.

Lemma slash_space : forall c, is_space (slash_to_underscore c) = is_space c.
Proof. all_bytes. Qed.

Lemma lower_slash : forall c, bool_decide (lower c = "/"%char) = bool_decide (c = "/"%char).
Proof. all_bytes. Qed.

Lemma elem_slash c : bool_decide (c ∈ ["/"%char]) = bool_decide (c = "/"%char).
Proof. apply bool_decide_ext, list_elem_of_singleton. Qed.

Lemma ContainsAny_ToLower_slash s :
  ContainsAny (ToLower s) ["/"%char] = ContainsAny s ["/"%char].
Proof.
  induction s as [|c s IH]; [done|]. cbn [ToLower string_map ContainsAny].
  unfold ToLower in IH. by rewrite IH, !elem_slash, lower_slash.
Qed.

Lemma NewResourceType_spec s r : NewResourceType s = Ok r -> normal_type r.
Proof.
  unfold NewResourceType. case_bool_decide as Hs; [done|]. intros [= <-].
  unfold normal_type. split_all.
  - intros He. apply Hs. apply string_map_empty in He. by apply string_map_empty in He.
  - apply ToLower_idem.
  - rewrite ContainsAny_ToLower_slash. by apply ReplaceAll1_absent.
  - rewrite TrimSpace_ToLower. f_equal. unfold ReplaceAll1.
    rewrite (TrimSpace_map slash_to_underscore slash_space). f_equal. apply TrimSpace_idem.
Qed.

Lemma NewResourceType_normal s : normal_type s -> NewResourceType s = Ok s.
Proof.
  intros (Hne & Hl & Hc & Ht). unfold NewResourceType. rewrite Ht.
  case_bool_decide; [done|]. rewrite ReplaceAll1_id by done. by rewrite Hl.
Qed.

(** The normal form of a reporter type or instance id. *)
Lemma NewReporterType_spec s r :
  NewReporterType s = Ok r -> r <> "" /\ ToLower r = r /\ TrimSpace r = r.
Proof.
  unfold NewReporterType. case_bool_decide as Hs; [done|]. intros [= <-]. split_all.
  - by rewrite ToLower_empty.
  - apply ToLower_idem.
  - by rewrite TrimSpace_ToLower, TrimSpace_idem.
Qed.

(** A resource type accepted by [NewResourceType] is in normal form (not
    empty, lower case, no ["/"], trimmed), and the constructor accepts exactly
    the strings that are not white space and is idempotent: a second
    normalisation changes nothing. *)
Theorem NewResourceType_normalises (s : string) (Hs : is_ascii s = true) :
  (TrimSpace s = "" /\ NewResourceType s = Err (EWrap "ResourceType" (ESentinel ErrEmpty))) \/
  (exists r, NewResourceType s = Ok r /\ normal_type r /\ NewResourceType r = Ok r).
Proof.
  destruct (NewResourceType s) as [r|e] eqn:E.
  - right. exists r. pose proof (NewResourceType_spec _ _ E) as Hn.
    split_all; [done|done|]. by apply NewResourceType_normal.
  - left. revert E. unfold NewResourceType. case_bool_decide; [|done]. by intros [= <-].
Qed.

Lemma NewResourceType_normalises_witness :
  is_ascii " K8s/Cluster " = true /\
  exists r, NewResourceType " K8s/Cluster " = Ok r /\ r = "k8s_cluster".
Proof.
  split; [reflexivity|].
  destruct (NewResourceType_normalises " K8s/Cluster " eq_refl) as [[H _]|(r & Hr & _)].
  - vm_compute in H. discriminate H.
  - exists r. split; [exact Hr|]. vm_compute in Hr. injection Hr as Hr. symmetry. exact Hr.
Defined.
