(* ===== verification/ReporterResource.v ===== *)
(** internal/biz/model/reporter.go, reporter_resource.go and the reporter
    snapshots of snapshots.go: the key of a reporter resource, its version,
    generation and tombstone, and the operations that move them. *)
From stdpp Require Import base tactics list strings gmap.
From Stdlib Require Import ZArith Lia.
From S2P Require Import Prelude GoStrings Common.

Local Open Scope string_scope.

(** * Data *)

Record ReporterId := {
  reporterType : ReporterType;
  reporterInstanceId : ReporterInstanceId;
}.

Record ReporterResourceKey := {
  localResourceID : LocalResourceId;
  resourceType : ResourceType;
  reporter : ReporterId;
}.

#[export] Instance ReporterId_eq_dec : EqDecision ReporterId.
Proof. solve_decision. Defined.
#[export] Instance ReporterResourceKey_eq_dec : EqDecision ReporterResourceKey.
Proof. solve_decision. Defined.

Record ReporterResource := {
  rr_id : ReporterResourceId;
  rr_key : ReporterResourceKey;
  rr_resourceID : ResourceId;
  rr_apiHref : ApiHref;
  rr_consoleHref : option ConsoleHref;
  rr_representationVersion : Version;
  rr_generation : Generation;
  rr_tombstone : Tombstone;
  rr_createdAt : time;
  rr_updatedAt : time;
}.

(** snapshots.go *)
Record ReporterResourceKeySnapshot := {
  ks_LocalResourceID : string;
  ks_ReporterType : string;
  ks_ResourceType : string;
  ks_ReporterInstanceID : string;
}.

Record ReporterResourceSnapshot := {
  rs_ID : uuid;
  rs_Key : ReporterResourceKeySnapshot;
  rs_ResourceID : uuid;
  rs_APIHref : string;
  rs_ConsoleHref : option string;
  rs_RepresentationVersion : Z;
  rs_Generation : Z;
  rs_Tombstone : bool;
  rs_CreatedAt : time;
  rs_UpdatedAt : time;
}.

(** * Construction *)

Definition NewReporterId (reporterType : ReporterType) (reporterInstanceId : ReporterInstanceId)
    : ReporterId :=
  {| reporterType := reporterType; reporterInstanceId := reporterInstanceId |}.

Definition NewReporterResourceKey (localResourceID : LocalResourceId)
    (resourceType : ResourceType) (reporterType : ReporterType)
    (reporterInstanceId : ReporterInstanceId) : result ReporterResourceKey :=
  let reporterId := NewReporterId reporterType reporterInstanceId in
  Ok {| localResourceID := localResourceID; resourceType := resourceType;
        reporter := reporterId |}.

(** [now] is the value of the call [time.Now()]. *)
Definition NewReporterResource (now : time) (id : ReporterResourceId)
    (localResourceId : LocalResourceId) (resourceType : ResourceType)
    (reporterType : ReporterType) (reporterInstanceId : ReporterInstanceId)
    (resourceId : ResourceId) (apiHref : ApiHref) (consoleHref : option ConsoleHref)
    : result ReporterResource :=
  let! reporterResourceKey :=
    wrap_err "ReporterResource invalid key"
      (NewReporterResourceKey localResourceId resourceType reporterType reporterInstanceId) in
  Ok {| rr_id := id;
        rr_key := reporterResourceKey;
        rr_resourceID := resourceId;
        rr_apiHref := apiHref;
        rr_consoleHref := consoleHref;
        rr_representationVersion := initialReporterRepresentationVersion;
        rr_generation := initialGeneration;
        rr_tombstone := initialTombstone;
        rr_createdAt := now;
        rr_updatedAt := now |}.

(** * Behaviour *)

Definition startNewGeneration (rr : ReporterResource) : ReporterResource :=
  {| rr_id := rr_id rr; rr_key := rr_key rr; rr_resourceID := rr_resourceID rr;
     rr_apiHref := rr_apiHref rr; rr_consoleHref := rr_consoleHref rr;
     rr_representationVersion := initialReporterRepresentationVersion;
     rr_generation := Generation_Increment (rr_generation rr);
     rr_tombstone := false;
     rr_createdAt := rr_createdAt rr; rr_updatedAt := rr_updatedAt rr |}.

Definition tombstoned (rr : ReporterResource) : bool := rr_tombstone rr.

Definition ReporterResource_Update (now : time) (rr : ReporterResource)
    (apiHref : ApiHref) (consoleHref : option ConsoleHref) : ReporterResource :=
  let rr :=
    {| rr_id := rr_id rr; rr_key := rr_key rr; rr_resourceID := rr_resourceID rr;
       rr_apiHref := apiHref; rr_consoleHref := consoleHref;
       rr_representationVersion := Version_Increment (rr_representationVersion rr);
       rr_generation := rr_generation rr; rr_tombstone := rr_tombstone rr;
       rr_createdAt := rr_createdAt rr; rr_updatedAt := now |} in
  if tombstoned rr then startNewGeneration rr else rr.

Definition ReporterResource_Delete (now : time) (rr : ReporterResource) : ReporterResource :=
  {| rr_id := rr_id rr; rr_key := rr_key rr; rr_resourceID := rr_resourceID rr;
     rr_apiHref := rr_apiHref rr; rr_consoleHref := rr_consoleHref rr;
     rr_representationVersion := Version_Increment (rr_representationVersion rr);
     rr_generation := rr_generation rr;
     rr_tombstone := true;
     rr_createdAt := rr_createdAt rr; rr_updatedAt := now |}.

(** * Snapshots *)

Definition ReporterResource_Serialize (rr : ReporterResource) : ReporterResourceSnapshot :=
  {| rs_ID := rr_id rr;
     rs_Key := {| ks_LocalResourceID := localResourceID (rr_key rr);
                  ks_ReporterType := reporterType (reporter (rr_key rr));
                  ks_ResourceType := resourceType (rr_key rr);
                  ks_ReporterInstanceID := reporterInstanceId (reporter (rr_key rr)) |};
     rs_ResourceID := rr_resourceID rr;
     rs_APIHref := rr_apiHref rr;
     rs_ConsoleHref := rr_consoleHref rr;
     rs_RepresentationVersion := rr_representationVersion rr;
     rs_Generation := rr_generation rr;
     rs_Tombstone := rr_tombstone rr;
     rs_CreatedAt := rr_createdAt rr;
     rs_UpdatedAt := rr_updatedAt rr |}.

Definition DeserializeReporterId (reporterType reporterInstanceId : string) : ReporterId :=
  {| reporterType := reporterType; reporterInstanceId := reporterInstanceId |}.

Definition DeserializeReporterResourceKey
    (localResourceId resourceType reporterType reporterInstanceId : string)
    : ReporterResourceKey :=
  {| localResourceID := localResourceId; resourceType := resourceType;
     reporter := DeserializeReporterId reporterType reporterInstanceId |}.

Definition DeserializeReporterResource (snapshot : ReporterResourceSnapshot) : ReporterResource :=
  {| rr_id := rs_ID snapshot;
     rr_key := DeserializeReporterResourceKey (ks_LocalResourceID (rs_Key snapshot))
                 (ks_ResourceType (rs_Key snapshot)) (ks_ReporterType (rs_Key snapshot))
                 (ks_ReporterInstanceID (rs_Key snapshot));
     rr_resourceID := rs_ResourceID snapshot;
     rr_apiHref := rs_APIHref snapshot;
     rr_consoleHref := rs_ConsoleHref snapshot;
     rr_representationVersion := rs_RepresentationVersion snapshot;
     rr_generation := rs_Generation snapshot;
     rr_tombstone := rs_Tombstone snapshot;
     rr_createdAt := rs_CreatedAt snapshot;
     rr_updatedAt := rs_UpdatedAt snapshot |}.

(** * Key matching

    The comparison [findReporterResourceToUpdateByKey] makes between a stored
    key and the key of the request (resource.go:310). *)
Definition key_matches (storedKey key : ReporterResourceKey) : bool :=
  EqualFold (localResourceID storedKey) (localResourceID key) &&
  EqualFold (resourceType storedKey) (resourceType key) &&
  EqualFold (reporterType (reporter storedKey)) (reporterType (reporter key)) &&
  (bool_decide (reporterInstanceId (reporter key) = "") ||
   EqualFold (reporterInstanceId (reporter storedKey)) (reporterInstanceId (reporter key))).

Lemma key_matches_refl k : key_matches k k = true.
Proof. unfold key_matches. by rewrite !EqualFold_refl, orb_true_r. Qed.

(** * Invariant: version and generation are machine words *)

Definition rr_wf (rr : ReporterResource) : Prop :=
  is_u64 (rr_representationVersion rr) /\ is_u64 (rr_generation rr).

Lemma DeserializeReporterResource_Serialize rr :
  DeserializeReporterResource (ReporterResource_Serialize rr) = rr.
Proof. by destruct rr as [? [? ? [? ?]] ? ? ? ? ? ? ? ?]. Qed.

Lemma NewReporterResource_wf now id l t rt ri rid h c rr :
  NewReporterResource now id l t rt ri rid h c = Ok rr -> rr_wf rr.
Proof. unfold NewReporterResource. simpl. intros [= <-]. by split. Qed.

Lemma ReporterResource_Update_wf now rr h c :
  rr_wf rr -> rr_wf (ReporterResource_Update now rr h c).
Proof.
  unfold rr_wf, ReporterResource_Update, tombstoned. simpl. intros [Hv Hg].
  case_match; simpl; auto with inv. split; [done|auto with inv].
Qed.

Lemma ReporterResource_Delete_wf now rr : rr_wf rr -> rr_wf (ReporterResource_Delete now rr).
Proof. unfold rr_wf. simpl. intros [Hv Hg]. auto with inv. Qed.

#[export] Hint Resolve NewReporterResource_wf ReporterResource_Update_wf
  ReporterResource_Delete_wf : inv.

(** * The lifecycle order

    (generation, representation version), compared lexicographically. *)
Definition lifecycle_lt (a b : ReporterResource) : Prop :=
  (rr_generation a < rr_generation b)%Z \/
  (rr_generation a = rr_generation b /\
   (rr_representationVersion a < rr_representationVersion b)%Z).

Definition counters_not_full (rr : ReporterResource) : Prop :=
  rr_representationVersion rr <> max_u64 /\ rr_generation rr <> max_u64.

#[export] Instance counters_not_full_dec rr : Decision (counters_not_full rr).
Proof. unfold counters_not_full. apply _. Defined.

Lemma Update_lifecycle_lt now rr h c :
  rr_wf rr -> counters_not_full rr -> lifecycle_lt rr (ReporterResource_Update now rr h c).
Proof.
  intros [Hv Hg] [Fv Fg]. unfold lifecycle_lt, ReporterResource_Update, tombstoned. simpl.
  destruct (rr_tombstone rr); simpl.
  - left. rewrite Generation_Increment_small by done. lia.
  - right. rewrite Version_Increment_small by done. lia.
Qed.

Lemma Delete_lifecycle_lt now rr :
  rr_wf rr -> counters_not_full rr -> lifecycle_lt rr (ReporterResource_Delete now rr).
Proof.
  intros [Hv Hg] [Fv Fg]. right. simpl.
  rewrite Version_Increment_small by done. lia.
Qed.
