(* ===== verification/Representations.v ===== *)
(** internal/biz/model/representations.go, reporter_representation.go,
    common_representation.go and their snapshots: the versioned payloads of a
    report and the pair the consumer reads back. *)
From stdpp Require Import base tactics list strings gmap.
From Stdlib Require Import ZArith Lia.
From S2P Require Import Prelude GoStrings Common ReporterResource.

Local Open Scope string_scope.

(** * Reporter representations

    [ReporterDataRepresentation] and [ReporterDeleteRepresentation] embed
    [ReporterRepresentation] and add nothing to it. *)

Record ReporterRepresentation := {
  rrep_data : Representation;
  rrep_reporterResourceID : ReporterResourceId;
  rrep_version : Version;
  rrep_generation : Generation;
  rrep_reporterVersion : option ReporterVersion;
  rrep_commonVersion : option Version;
  rrep_tombstone : Tombstone;
  rrep_transactionId : TransactionId;
}.
Abbreviation ReporterDataRepresentation := ReporterRepresentation (only parsing).
Abbreviation ReporterDeleteRepresentation := ReporterRepresentation (only parsing).

Record ReporterRepresentationSnapshot := {
  rreps_Data : JsonObject;
  rreps_ReporterResourceID : uuid;
  rreps_Version : Z;
  rreps_Generation : Z;
  rreps_ReporterVersion : option string;
  rreps_CommonVersion : option Z;
  rreps_TransactionId : string;
  rreps_Tombstone : bool;
  rreps_CreatedAt : time;
}.

Definition NewReporterDataRepresentation (reporterResourceID : ReporterResourceId)
    (version : Version) (generation : Generation) (data : Representation)
    (commonVersion : option Version) (reporterVersion : option ReporterVersion)
    (transactionId : TransactionId) : result ReporterDataRepresentation :=
  if bool_decide (reporterResourceID = uuid_Nil)
  then Err (EWrap "ReporterResourceId" (ESentinel ErrInvalidUUID))
  else if is_nil data
  then Err (EWrap "ReporterDataRepresentation data" (ESentinel ErrInvalidData))
  else Ok {| rrep_data := data;
             rrep_reporterResourceID := reporterResourceID;
             rrep_version := version;
             rrep_generation := generation;
             rrep_commonVersion := commonVersion;
             rrep_reporterVersion := reporterVersion;
             rrep_tombstone := false;
             rrep_transactionId := transactionId |}.

Definition NewReporterDeleteRepresentation (reporterResourceID : ReporterResourceId)
    (version : Version) (generation : Generation) : result ReporterDeleteRepresentation :=
  if bool_decide (reporterResourceID = uuid_Nil)
  then Err (EWrap "ReporterResourceId" (ESentinel ErrInvalidUUID))
  else Ok {| rrep_data := None;
             rrep_reporterResourceID := reporterResourceID;
             rrep_version := version;
             rrep_generation := generation;
             rrep_commonVersion := None;
             rrep_reporterVersion := None;
             rrep_tombstone := true;
             rrep_transactionId := "" |}.

(** [now] is the [time.Now()] of [CreatedAt]. *)
Definition ReporterRepresentation_Serialize (now : time) (rr : ReporterRepresentation)
    : ReporterRepresentationSnapshot :=
  {| rreps_Data := rrep_data rr;
     rreps_ReporterResourceID := rrep_reporterResourceID rr;
     rreps_Version := rrep_version rr;
     rreps_Generation := rrep_generation rr;
     rreps_ReporterVersion := rrep_reporterVersion rr;
     rreps_CommonVersion := rrep_commonVersion rr;
     rreps_TransactionId := rrep_transactionId rr;
     rreps_Tombstone := rrep_tombstone rr;
     rreps_CreatedAt := now |}.

Definition DeserializeReporterDataRepresentation
    (snapshot : option ReporterRepresentationSnapshot) : option ReporterDataRepresentation :=
  match snapshot with
  | None => None
  | Some s =>
      Some {| rrep_data := rreps_Data s;
              rrep_reporterResourceID := rreps_ReporterResourceID s;
              rrep_version := rreps_Version s;
              rrep_generation := rreps_Generation s;
              rrep_reporterVersion := rreps_ReporterVersion s;
              rrep_commonVersion := rreps_CommonVersion s;
              rrep_tombstone := rreps_Tombstone s;
              rrep_transactionId := rreps_TransactionId s |}
  end.

(** * Common representations *)

Record CommonRepresentation := {
  crep_data : Representation;
  crep_resourceId : ResourceId;
  crep_version : Version;
  crep_reporter : ReporterId;
  crep_transactionId : TransactionId;
}.

Record CommonRepresentationSnapshot := {
  creps_Data : JsonObject;
  creps_ResourceId : uuid;
  creps_Version : Z;
  creps_ReportedByReporterType : string;
  creps_ReportedByReporterInstance : string;
  creps_TransactionId : string;
  creps_CreatedAt : time;
}.

Definition NewCommonRepresentation (resourceId : ResourceId) (data : Representation)
    (version : Version) (reporterType : ReporterType) (reporterInstanceId : ReporterInstanceId)
    (transactionId : TransactionId) : result CommonRepresentation :=
  if bool_decide (resourceId = uuid_Nil)
  then Err (EWrap "ResourceId" (ESentinel ErrInvalidUUID))
  else if bool_decide (TrimSpace reporterType = "")
  then Err (EWrap "ReporterType" (ESentinel ErrEmpty))
  else if bool_decide (TrimSpace reporterInstanceId = "")
  then Err (EWrap "ReporterInstanceId" (ESentinel ErrEmpty))
  else if bool_decide (rep_len data = 0%nat)
  then Err (EWrap "CommonRepresentation data" (ESentinel ErrInvalidData))
  else if is_nil data
  then Err (EMsg "CommonRepresentation requires non-empty data")
  else Ok {| crep_data := data;
             crep_resourceId := resourceId;
             crep_version := version;
             crep_reporter := NewReporterId reporterType reporterInstanceId;
             crep_transactionId := transactionId |}.

Definition CommonRepresentation_Serialize (now : time) (cr : CommonRepresentation)
    : CommonRepresentationSnapshot :=
  {| creps_Data := crep_data cr;
     creps_ResourceId := crep_resourceId cr;
     creps_Version := crep_version cr;
     creps_ReportedByReporterType := reporterType (crep_reporter cr);
     creps_ReportedByReporterInstance := reporterInstanceId (crep_reporter cr);
     creps_TransactionId := crep_transactionId cr;
     creps_CreatedAt := now |}.

Definition DeserializeCommonRepresentation (snapshot : CommonRepresentationSnapshot)
    : CommonRepresentation :=
  {| crep_data := creps_Data snapshot;
     crep_resourceId := creps_ResourceId snapshot;
     crep_version := creps_Version snapshot;
     crep_reporter := {| reporterType := creps_ReportedByReporterType snapshot;
                         reporterInstanceId := creps_ReportedByReporterInstance snapshot |};
     crep_transactionId := creps_TransactionId snapshot |}.

(** * Representations: the view tuple calculation reads *)

Record Representations := {
  commonData : Representation;
  commonVersion : option Version;
  reporterData : Representation;
  reporterRepresentationVersion : option Version;
}.

Definition nonempty (r : Representation) : bool := bool_decide (0 < rep_len r)%nat.

Definition NewRepresentations (commonData : Representation) (commonVersion : option Version)
    (reporterData : Representation) (reporterRepresentationVersion : option Version)
    : result Representations :=
  let hasCommon := nonempty commonData && negb (is_nil commonVersion) in
  let hasReporter := nonempty reporterData && negb (is_nil reporterRepresentationVersion) in
  if negb hasCommon && negb hasReporter
  then Err (EMsg "at least one of common or reporter representation must be present")
  else if negb (Bool.eqb (nonempty commonData) (negb (is_nil commonVersion)))
  then Err (EMsg "common data and common version must both be present or both be absent")
  else if negb (Bool.eqb (nonempty reporterData) (negb (is_nil reporterRepresentationVersion)))
  then Err (EMsg "reporter data and reporter representation version must both be present or both be absent")
  else Ok {| commonData := commonData; commonVersion := commonVersion;
             reporterData := reporterData;
             reporterRepresentationVersion := reporterRepresentationVersion |}.

Definition HasCommon (r : Representations) : bool :=
  nonempty (commonData r) && negb (is_nil (commonVersion r)).

(** The methods take a pointer receiver that may be nil. *)
Definition StringField (r : option Representations) (fieldName : string) : string :=
  match r with
  | Some r =>
      if HasCommon r then
        match rep_get (commonData r) fieldName with
        | Some (JStr value) => value
        | _ => ""
        end
      else ""
  | None => ""
  end.

Definition WorkspaceID (r : option Representations) : string := StringField r "workspace_id".

Definition json_strings (arr : list json) : list string :=
  omap (fun item => match item with JStr s => Some s | _ => None end) arr.

(** A nil slice and an empty one are both [[]]: no caller tells them apart. *)
Definition StringSliceField (r : option Representations) (fieldName : string) : list string :=
  match r with
  | None => []
  | Some r =>
      if negb (HasCommon r) then []
      else match rep_get (commonData r) fieldName with
           | Some (JArr arr) => json_strings arr
           | _ => []
           end
  end.

(** * Facts *)

Definition representations_wf (r : Representations) : Prop :=
  (HasCommon r = true \/
   (nonempty (reporterData r) && negb (is_nil (reporterRepresentationVersion r))) = true) /\
  nonempty (commonData r) = negb (is_nil (commonVersion r)) /\
  nonempty (reporterData r) = negb (is_nil (reporterRepresentationVersion r)).

Lemma NewRepresentations_wf cd cv rd rv r :
  NewRepresentations cd cv rd rv = Ok r -> representations_wf r.
Proof.
  unfold NewRepresentations, representations_wf, HasCommon.
  intros H. break_in H; simpl; rewrite ?negb_false_iff in *.
  repeat match goal with H : Bool.eqb _ _ = true |- _ => apply eqb_prop in H end.
  match goal with H : (negb _ && negb _) = false |- _ =>
    apply andb_false_iff in H; rewrite !negb_false_iff in H end.
  done.
Qed.

Lemma nonempty_Some m : nonempty (Some m) = true <-> m <> ∅.
Proof.
  unfold nonempty, rep_len. rewrite bool_decide_eq_true, <- map_size_non_empty_iff. lia.
Qed.

(** A row of [common_representations] always gives a representation: its data
    is not empty. *)
Lemma NewRepresentations_common m v : m <> ∅ ->
  NewRepresentations (Some m) (Some v) None None =
  Ok {| commonData := Some m; commonVersion := Some v;
        reporterData := None; reporterRepresentationVersion := None |}.
Proof.
  intros Hm%nonempty_Some. unfold NewRepresentations. by rewrite Hm.
Qed.

Lemma NewCommonRepresentation_ok id data v rt ri tx :
  id <> uuid_Nil -> TrimSpace rt <> "" -> TrimSpace ri <> "" -> has_data (Some data) = true ->
  NewCommonRepresentation id data v rt ri tx =
  Ok {| crep_data := data; crep_resourceId := id; crep_version := v;
        crep_reporter := NewReporterId rt ri; crep_transactionId := tx |}.
Proof.
  intros Hid Hrt Hri (m & [= ->] & Hm%map_size_non_empty_iff)%has_data_Some.
  unfold NewCommonRepresentation. by rewrite !bool_decide_eq_false_2.
Qed.

Lemma NewCommonRepresentation_inv id data v rt ri tx cr :
  NewCommonRepresentation id data v rt ri tx = Ok cr ->
  id <> uuid_Nil /\ TrimSpace rt <> "" /\ TrimSpace ri <> "" /\
  has_data (Some data) = true /\
  cr = {| crep_data := data; crep_resourceId := id; crep_version := v;
          crep_reporter := NewReporterId rt ri; crep_transactionId := tx |}.
Proof.
  unfold NewCommonRepresentation. intros H. inv_ok H.
  repeat match goal with B : bool_decide _ = false |- _ => apply bool_decide_eq_false in B end.
  split_all; try done. simpl. apply bool_decide_eq_true. lia.
Qed.
