(* ===== verification/Resource.v ===== *)
(** internal/biz/model/resource.go, resource_report_event.go and
    resource_delete_event.go: the Resource aggregate.  [Resource_Update] and
    [Resource_Delete] are methods on a pointer: they return the resource as
    the call leaves it, also when it fails, next to the error. *)
From stdpp Require Import base tactics list strings gmap.
From Stdlib Require Import ZArith Lia.
From S2P Require Import Prelude GoStrings Common ReporterResource Representations.

Local Open Scope string_scope.

Definition initialCommonVersion : Z := 0.

(** * Events *)

Record ResourceReportEvent := {
  re_id : ResourceId;
  re_resourceType : ResourceType;
  re_reporterId : ReporterId;
  re_localResourceId : LocalResourceId;
  re_apiHref : ApiHref;
  re_consoleHref : option ConsoleHref;
  re_reporterRepresentation : option ReporterDataRepresentation;
  re_commonRepresentation : option CommonRepresentation;
  re_createdAt : time;
  re_updatedAt : time;
}.

Record ResourceDeleteEvent := {
  de_id : ResourceId;
  de_resourceType : ResourceType;
  de_reporterId : ReporterId;
  de_localResourceId : LocalResourceId;
  de_reporterRepresentation : ReporterDeleteRepresentation;
  de_createdAt : time;
  de_updatedAt : time;
}.

Definition NewResourceReportEvent (resourceId : ResourceId) (resourceType : ResourceType)
    (reporterType : ReporterType) (reporterInstanceId : ReporterInstanceId)
    (localResourceId : LocalResourceId) (apiHref : ApiHref) (consoleHref : option ConsoleHref)
    (reporterDataRepresentation : option ReporterDataRepresentation)
    (commonRepresentation : option CommonRepresentation) : result ResourceReportEvent :=
  if is_nil reporterDataRepresentation && is_nil commonRepresentation
  then Err (ESentinel ErrNoRepresentationProvided)
  else Ok {| re_id := resourceId;
             re_resourceType := resourceType;
             re_reporterId := NewReporterId reporterType reporterInstanceId;
             re_localResourceId := localResourceId;
             re_apiHref := apiHref;
             re_consoleHref := consoleHref;
             re_reporterRepresentation := reporterDataRepresentation;
             re_commonRepresentation := commonRepresentation;
             re_createdAt := zero_time;
             re_updatedAt := zero_time |}.

Definition SetTimestamps (re : ResourceReportEvent) (createdAt updatedAt : time)
    : ResourceReportEvent :=
  {| re_id := re_id re; re_resourceType := re_resourceType re;
     re_reporterId := re_reporterId re; re_localResourceId := re_localResourceId re;
     re_apiHref := re_apiHref re; re_consoleHref := re_consoleHref re;
     re_reporterRepresentation := re_reporterRepresentation re;
     re_commonRepresentation := re_commonRepresentation re;
     re_createdAt := createdAt; re_updatedAt := updatedAt |}.

Definition re_CurrentCommonVersion (re : ResourceReportEvent) : option Version :=
  crep_version <$> re_commonRepresentation re.

Definition re_CurrentReporterRepresentationVersion (re : ResourceReportEvent) : option Version :=
  rrep_version <$> re_reporterRepresentation re.

Definition re_ReporterVersion (re : ResourceReportEvent) : option ReporterVersion :=
  match re_reporterRepresentation re with
  | None => None
  | Some rr => rrep_reporterVersion rr
  end.

Definition re_Data (re : ResourceReportEvent) : JsonObject :=
  match re_reporterRepresentation re with
  | None => None
  | Some rr => rrep_data rr
  end.

Definition re_WorkspaceId (re : ResourceReportEvent) : option string :=
  match re_commonRepresentation re with
  | None => None
  | Some cr => match rep_get (crep_data cr) "workspace_id" with
               | Some (JStr s) => Some s
               | _ => None
               end
  end.

Definition re_ReporterResourceKey (re : ResourceReportEvent) : ReporterResourceKey :=
  {| localResourceID := re_localResourceId re; resourceType := re_resourceType re;
     reporter := re_reporterId re |}.

Definition NewResourceDeleteEvent (resourceId : ResourceId) (resourceType : ResourceType)
    (reporterType : ReporterType) (reporterInstanceId : ReporterInstanceId)
    (localResourceId : LocalResourceId)
    (reporterRepresentation : ReporterDeleteRepresentation) : result ResourceDeleteEvent :=
  Ok {| de_id := resourceId;
        de_resourceType := resourceType;
        de_reporterId := NewReporterId reporterType reporterInstanceId;
        de_localResourceId := localResourceId;
        de_reporterRepresentation := reporterRepresentation;
        de_createdAt := zero_time;
        de_updatedAt := zero_time |}.

Definition de_CurrentCommonVersion (de : ResourceDeleteEvent) : option Version := None.

Definition de_CurrentReporterRepresentationVersion (de : ResourceDeleteEvent) : option Version :=
  Some (rrep_version (de_reporterRepresentation de)).

Definition de_ReporterResourceKey (de : ResourceDeleteEvent) : ReporterResourceKey :=
  {| localResourceID := de_localResourceId de; resourceType := de_resourceType de;
     reporter := de_reporterId de |}.

Definition DeserializeResourceEvent
    (reporterRepresentationSnapshot : option ReporterRepresentationSnapshot)
    (commonRepresentationSnapshot : option CommonRepresentationSnapshot)
    (createdAt updatedAt : time) : ResourceReportEvent :=
  {| re_id := uuid_Nil; re_resourceType := "";
     re_reporterId := {| reporterType := ""; reporterInstanceId := "" |};
     re_localResourceId := ""; re_apiHref := ""; re_consoleHref := None;
     re_reporterRepresentation :=
       DeserializeReporterDataRepresentation reporterRepresentationSnapshot;
     re_commonRepresentation := DeserializeCommonRepresentation <$> commonRepresentationSnapshot;
     re_createdAt := createdAt; re_updatedAt := updatedAt |}.

(** * The aggregate *)

Record Resource := {
  r_id : ResourceId;
  r_resourceType : ResourceType;
  r_commonVersion : option Version;
  r_lastCommonVersion : option Version;
  r_consistencyToken : ConsistencyToken;
  r_reporterResources : list ReporterResource;
  r_resourceReportEvents : list ResourceReportEvent;
  r_resourceDeleteEvents : list ResourceDeleteEvent;
}.

Definition resourceEventAndRepresentations (resourceId : ResourceId)
    (resourceType : ResourceType) (reporterType : ReporterType)
    (reporterInstanceId : ReporterInstanceId) (transactionId : TransactionId)
    (localResourceId : LocalResourceId) (reporterResourceId : ReporterResourceId)
    (apiHref : ApiHref) (consoleHref : option ConsoleHref)
    (reporterData commonData : option Representation)
    (reporterVersion : option ReporterVersion) (representationVersion : Version)
    (generation : Generation) (commonVersion : option Version)
    : result ResourceReportEvent :=
  if is_nil reporterData && is_nil commonData
  then Err (ESentinel ErrNoRepresentationProvided)
  else
    let! reporterRepresentation :=
      match reporterData with
      | None => Ok None
      | Some d =>
          let! rr := wrap_err "invalid ReporterRepresentation"
            (NewReporterDataRepresentation reporterResourceId representationVersion
               generation d commonVersion reporterVersion transactionId) in
          Ok (Some rr)
      end in
    let! commonRepresentation :=
      match commonData with
      | None => Ok None
      | Some d =>
          let cv := match commonVersion with Some v => v | None => 0%Z end in
          let! cr := wrap_err "invalid CommonRepresentation"
            (NewCommonRepresentation resourceId d cv reporterType reporterInstanceId
               transactionId) in
          Ok (Some cr)
      end in
    wrap_err "invalid ResourceReportEvent"
      (NewResourceReportEvent resourceId resourceType reporterType reporterInstanceId
         localResourceId apiHref consoleHref reporterRepresentation commonRepresentation).

(** [now]: the instants of the two [time.Now()] calls (the reporter resource's
    and the event's) are one value. *)
Definition NewResource (now : time) (id : ResourceId) (localResourceId : LocalResourceId)
    (resourceType : ResourceType) (reporterType : ReporterType)
    (reporterInstanceId : ReporterInstanceId) (transactionId : TransactionId)
    (reporterResourceId : ReporterResourceId) (apiHref : ApiHref)
    (consoleHref : option ConsoleHref)
    (reporterRepresentationData commonRepresentationData : option Representation)
    (reporterVersion : option ReporterVersion) : result Resource :=
  let reporterRepresentationData :=
    if is_nil reporterRepresentationData && negb (is_nil commonRepresentationData)
    then Some NewEmptyRepresentation else reporterRepresentationData in
  let commonVersion :=
    if has_data commonRepresentationData then Some initialCommonVersion else None in
  let! reporterResource := wrap_err "resource invalid ReporterResource"
    (NewReporterResource now reporterResourceId localResourceId resourceType reporterType
       reporterInstanceId id apiHref consoleHref) in
  let! resourceEvent := wrap_err "resource invalid ResourceReportEvent"
    (resourceEventAndRepresentations (rr_resourceID reporterResource) resourceType
       reporterType reporterInstanceId transactionId localResourceId
       (rr_id reporterResource) apiHref consoleHref reporterRepresentationData
       commonRepresentationData reporterVersion
       (rr_representationVersion reporterResource) (rr_generation reporterResource)
       commonVersion) in
  let resourceEvent := SetTimestamps resourceEvent now now in
  Ok {| r_id := id;
        r_resourceType := resourceType;
        r_commonVersion := commonVersion;
        r_lastCommonVersion := commonVersion;
        r_consistencyToken := "";
        r_reporterResources := [reporterResource];
        r_resourceReportEvents := [resourceEvent];
        r_resourceDeleteEvents := [] |}.

(** A pointer into [r.reporterResources] is an index of the slice. *)
Definition findReporterResourceToUpdateByKey (r : Resource) (key : ReporterResourceKey)
    : result (nat * ReporterResource) :=
  match list_find (fun rr => key_matches (rr_key rr) key = true) (r_reporterResources r) with
  | Some p => Ok p
  | None => Err (EMsg "reporter resource with key not found in resource")
  end.

Definition GetTimestamps (r : Resource) : time * time :=
  match r_resourceReportEvents r with
  | re :: _ => (re_createdAt re, re_updatedAt re)
  | [] => (zero_time, zero_time)
  end.

(** The version an update gives the common representation it carries. *)
Definition next_common_version (r : Resource) : Version :=
  match r_commonVersion r, r_lastCommonVersion r with
  | Some cv, _ => Version_Increment cv
  | None, Some lcv => Version_Increment lcv
  | None, None => initialCommonVersion
  end.

Definition set_common_versions (r : Resource) (cv last : option Version) : Resource :=
  {| r_id := r_id r; r_resourceType := r_resourceType r;
     r_commonVersion := cv; r_lastCommonVersion := last;
     r_consistencyToken := r_consistencyToken r;
     r_reporterResources := r_reporterResources r;
     r_resourceReportEvents := r_resourceReportEvents r;
     r_resourceDeleteEvents := r_resourceDeleteEvents r |}.

Definition set_reporter (r : Resource) (i : nat) (rr : ReporterResource) : Resource :=
  {| r_id := r_id r; r_resourceType := r_resourceType r;
     r_commonVersion := r_commonVersion r; r_lastCommonVersion := r_lastCommonVersion r;
     r_consistencyToken := r_consistencyToken r;
     r_reporterResources := <[i := rr]> (r_reporterResources r);
     r_resourceReportEvents := r_resourceReportEvents r;
     r_resourceDeleteEvents := r_resourceDeleteEvents r |}.

Definition set_report_events (r : Resource) (evs : list ResourceReportEvent) : Resource :=
  {| r_id := r_id r; r_resourceType := r_resourceType r;
     r_commonVersion := r_commonVersion r; r_lastCommonVersion := r_lastCommonVersion r;
     r_consistencyToken := r_consistencyToken r;
     r_reporterResources := r_reporterResources r;
     r_resourceReportEvents := evs;
     r_resourceDeleteEvents := r_resourceDeleteEvents r |}.

Definition set_delete_events (r : Resource) (evs : list ResourceDeleteEvent) : Resource :=
  {| r_id := r_id r; r_resourceType := r_resourceType r;
     r_commonVersion := r_commonVersion r; r_lastCommonVersion := r_lastCommonVersion r;
     r_consistencyToken := r_consistencyToken r;
     r_reporterResources := r_reporterResources r;
     r_resourceReportEvents := r_resourceReportEvents r;
     r_resourceDeleteEvents := evs |}.

Definition Resource_Update (now : time) (r : Resource) (key : ReporterResourceKey)
    (apiHref : ApiHref) (consoleHref : option ConsoleHref)
    (reporterVersion : option ReporterVersion)
    (reporterRepresentationData commonRepresentationData : option Representation)
    (transactionId : TransactionId) : Resource * option go_error :=
  let commonVersion :=
    if has_data commonRepresentationData then Some (next_common_version r) else None in
  let r :=
    match commonVersion with
    | Some _ => set_common_versions r commonVersion commonVersion
    | None => set_common_versions r None (r_lastCommonVersion r)
    end in
  match findReporterResourceToUpdateByKey r key with
  | Err e => (r, Some e)
  | Ok (i, rr) =>
      let rr := ReporterResource_Update now rr apiHref consoleHref in
      let r := set_reporter r i rr in
      match resourceEventAndRepresentations (rr_resourceID rr) (resourceType key)
              (reporterType (reporter key)) (reporterInstanceId (reporter key))
              transactionId (localResourceID key) (rr_id rr) apiHref consoleHref
              reporterRepresentationData commonRepresentationData reporterVersion
              (rr_representationVersion rr) (rr_generation rr) commonVersion with
      | Err e => (r, Some (EWrap "failed to create updated ResourceReportEvent" e))
      | Ok resourceEvent =>
          let existingCreatedAt := (GetTimestamps r).1 in
          let resourceEvent := SetTimestamps resourceEvent existingCreatedAt now in
          (set_report_events r [resourceEvent], None)
      end
  end.

Definition deleteEventAndRepresentations (resourceId : ResourceId)
    (resourceType : ResourceType) (reporterType : ReporterType)
    (reporterInstanceId : ReporterInstanceId) (localResourceId : LocalResourceId)
    (reporterResourceId : ReporterResourceId) (representationVersion : Version)
    (generation : Generation) : result ResourceDeleteEvent :=
  let! reporterDeleteRepresentation := wrap_err "invalid ReporterRepresentation"
    (NewReporterDeleteRepresentation reporterResourceId representationVersion generation) in
  wrap_err "invalid ResourceReportEvent"
    (NewResourceDeleteEvent resourceId resourceType reporterType reporterInstanceId
       localResourceId reporterDeleteRepresentation).

Definition Resource_Delete (now : time) (r : Resource) (key : ReporterResourceKey)
    : Resource * option go_error :=
  match findReporterResourceToUpdateByKey r key with
  | Err e => (r, Some e)
  | Ok (i, rr) =>
      if rr_tombstone rr then (r, None)
      else
        let rr := ReporterResource_Delete now rr in
        let r := set_reporter r i rr in
        match deleteEventAndRepresentations (rr_resourceID rr) (resourceType key)
                (reporterType (reporter key)) (reporterInstanceId (reporter key))
                (localResourceID key) (rr_id rr) (rr_representationVersion rr)
                (rr_generation rr) with
        | Err e => (r, Some (EWrap "failed to create ResourceDeleteEvent" e))
        | Ok ev => (set_delete_events r [ev], None)
        end
  end.

(** * Snapshots *)

Record ResourceSnapshot := {
  res_ID : uuid;
  res_Type : string;
  res_CommonVersion : option Z;
  res_LastCommonVersion : option Z;
  res_ConsistencyToken : string;
  res_CreatedAt : time;
  res_UpdatedAt : time;
}.

(** The zero [ReporterResourceSnapshot], for a resource without reporters. *)
Definition empty_reporter_snapshot : ReporterResourceSnapshot :=
  {| rs_ID := uuid_Nil;
     rs_Key := {| ks_LocalResourceID := ""; ks_ReporterType := ""; ks_ResourceType := "";
                  ks_ReporterInstanceID := "" |};
     rs_ResourceID := uuid_Nil; rs_APIHref := ""; rs_ConsoleHref := None;
     rs_RepresentationVersion := 0; rs_Generation := 0; rs_Tombstone := false;
     rs_CreatedAt := zero_time; rs_UpdatedAt := zero_time |}.

Definition Resource_Serialize (now : time) (r : Resource)
    : ResourceSnapshot * ReporterResourceSnapshot *
      option ReporterRepresentationSnapshot * option CommonRepresentationSnapshot :=
  let '(createdAt, updatedAt) := GetTimestamps r in
  let resourceSnapshot :=
    {| res_ID := r_id r;
       res_Type := r_resourceType r;
       res_CommonVersion := r_commonVersion r;
       res_LastCommonVersion := r_lastCommonVersion r;
       res_ConsistencyToken := r_consistencyToken r;
       res_CreatedAt := createdAt;
       res_UpdatedAt := updatedAt |} in
  let reporterResourceSnapshot :=
    match r_reporterResources r with
    | rr :: _ => ReporterResource_Serialize rr
    | [] => empty_reporter_snapshot
    end in
  let fromReport :=
    match r_resourceReportEvents r with
    | re :: _ => ReporterRepresentation_Serialize now <$> re_reporterRepresentation re
    | [] => None
    end in
  let commonRepresentationSnapshot :=
    match r_resourceReportEvents r with
    | re :: _ => CommonRepresentation_Serialize now <$> re_commonRepresentation re
    | [] => None
    end in
  let reporterRepresentationSnapshot :=
    match r_resourceDeleteEvents r with
    | de :: _ => Some (ReporterRepresentation_Serialize now (de_reporterRepresentation de))
    | [] => fromReport
    end in
  (resourceSnapshot, reporterResourceSnapshot, reporterRepresentationSnapshot,
   commonRepresentationSnapshot).

Definition DeserializeResource (resourceSnapshot : option ResourceSnapshot)
    (reporterResourceSnapshots : list ReporterResourceSnapshot)
    (reporterRepresentationSnapshot : option ReporterRepresentationSnapshot)
    (commonRepresentationSnapshot : option CommonRepresentationSnapshot) : option Resource :=
  match resourceSnapshot with
  | None => None
  | Some s =>
      Some {| r_id := res_ID s;
              r_resourceType := res_Type s;
              r_commonVersion := res_CommonVersion s;
              r_lastCommonVersion := res_LastCommonVersion s;
              r_consistencyToken := res_ConsistencyToken s;
              r_reporterResources := DeserializeReporterResource <$> reporterResourceSnapshots;
              r_resourceReportEvents :=
                [DeserializeResourceEvent reporterRepresentationSnapshot
                   commonRepresentationSnapshot (res_CreatedAt s) (res_UpdatedAt s)];
              r_resourceDeleteEvents := [] |}
  end.
