(* ===== verification/ResourceProps.v ===== *)
(** Properties of the Resource aggregate (Resource.v): what a successful
    update or delete does to every part of the resource, the version and
    lifecycle order, idempotent deletes, revival, and the snapshot round trip. *)
From stdpp Require Import base tactics list strings gmap.
From Stdlib Require Import ZArith Lia.
From S2P Require Import Prelude GoStrings Common ReporterResource Representations Resource.

Local Open Scope string_scope.

(** * Finding the reporter resource *)

Lemma find_reporter_Ok r key i rr :
  findReporterResourceToUpdateByKey r key = Ok (i, rr) ->
  r_reporterResources r !! i = Some rr /\ key_matches (rr_key rr) key = true.
Proof.
  unfold findReporterResourceToUpdateByKey.
  destruct (list_find _ _) as [p|] eqn:E; [|done]. intros [= ->].
  apply list_find_Some in E as (? & ? & _). done.
Qed.

(** Replacing the reporter found by one with the same key keeps it found. *)
Lemma find_reporter_set r key i rr rr' :
  findReporterResourceToUpdateByKey r key = Ok (i, rr) ->
  rr_key rr' = rr_key rr ->
  findReporterResourceToUpdateByKey (set_reporter r i rr') key = Ok (i, rr').
Proof.
  unfold findReporterResourceToUpdateByKey. intros H Hk.
  destruct (list_find _ (r_reporterResources r)) as [p|] eqn:E; [|done].
  injection H as ->. apply list_find_Some in E as (Hi & Hm & Hlt).
  enough (Hf : list_find (fun rr => key_matches (rr_key rr) key = true)
                 (r_reporterResources (set_reporter r i rr')) = Some (i, rr'))
    by by rewrite Hf.
  apply list_find_Some. simpl. split_all.
  - apply list_lookup_insert_eq. by eapply lookup_lt_Some.
  - by rewrite Hk.
  - intros j y Hj Hji. rewrite list_lookup_insert_ne in Hj by lia. eauto.
Qed.

(** [findReporterResourceToUpdateByKey] reads the reporters only. *)
Lemma find_reporter_ext r1 r2 key :
  r_reporterResources r1 = r_reporterResources r2 ->
  findReporterResourceToUpdateByKey r1 key = findReporterResourceToUpdateByKey r2 key.
Proof. unfold findReporterResourceToUpdateByKey. by intros ->. Qed.

(** * The report event of a payload *)

(** What a successful report event contains. *)
Record event_of (ev : ResourceReportEvent) (rid : ResourceId) (rrid : ReporterResourceId)
    (key : ReporterResourceKey) (repd comd : option Representation)
    (rver : option ReporterVersion) (v : Version) (g : Generation) (cv : option Version)
    (tx : TransactionId) : Prop := {
  ev_id : re_id ev = rid;
  ev_key : re_ReporterResourceKey ev = key;
  ev_reporter : re_reporterRepresentation ev =
    (fun d => {| rrep_data := d; rrep_reporterResourceID := rrid; rrep_version := v;
                 rrep_generation := g; rrep_reporterVersion := rver;
                 rrep_commonVersion := cv; rrep_tombstone := false;
                 rrep_transactionId := tx |}) <$> repd;
  ev_common : re_commonRepresentation ev =
    (fun d => {| crep_data := d; crep_resourceId := rid;
                 crep_version := default 0%Z cv;
                 crep_reporter := reporter key; crep_transactionId := tx |}) <$> comd;
  ev_common_data : forall d, comd = Some d -> has_data comd = true;
  ev_some : repd <> None \/ comd <> None;
}.

Lemma resourceEvent_ok rid t rt ri tx l rrid h c repd comd rver v g cv ev :
  resourceEventAndRepresentations rid t rt ri tx l rrid h c repd comd rver v g cv = Ok ev ->
  event_of ev rid rrid
    {| localResourceID := l; resourceType := t;
       reporter := {| reporterType := rt; reporterInstanceId := ri |} |}
    repd comd rver v g cv tx.
Proof.
  unfold resourceEventAndRepresentations. intros H.
  destruct (is_nil repd && is_nil comd) eqn:Hn; [done|].
  assert (Hs : repd <> None \/ comd <> None)
    by (destruct repd, comd; simpl in Hn; try done; by (left + right)).
  inv_ok H.
  rename a into rrep. rename a0 into crep. apply wrap_err_ok in H.
  unfold NewResourceReportEvent in H. destruct (is_nil rrep && is_nil crep); [done|].
  injection H as <-. split; simpl; try done.
  - destruct repd as [d|]; [|by injection E as <-].
    inv_ok E. apply wrap_err_ok in E1. unfold NewReporterDataRepresentation in E1.
    by inv_ok E1.
  - destruct comd as [d|]; [|by injection E0 as <-].
    inv_ok E0. apply wrap_err_ok in E1.
    apply NewCommonRepresentation_inv in E1 as (? & ? & ? & ? & ->). by destruct cv.
  - intros d ->. inv_ok E0. apply wrap_err_ok in E1.
    by apply NewCommonRepresentation_inv in E1 as (? & ? & ? & ? & ->).
Qed.

Lemma SetTimestamps_event_of ev rid rrid key repd comd rver v g cv tx t1 t2 :
  event_of ev rid rrid key repd comd rver v g cv tx ->
  event_of (SetTimestamps ev t1 t2) rid rrid key repd comd rver v g cv tx.
Proof. intros [? ? ? ? ? ?]. by split. Qed.

(** * Updates *)

Definition common_version_of (r : Resource) (comd : option Representation) : option Version :=
  if has_data comd then Some (next_common_version r) else None.

(** What a successful update does, part by part. *)
Record updated (now : time) (r : Resource) (key : ReporterResourceKey) (h : ApiHref)
    (c : option ConsoleHref) (rver : option ReporterVersion)
    (repd comd : option Representation) (tx : TransactionId) (r' : Resource)
    (i : nat) (rr : ReporterResource) : Prop := {
  up_found : findReporterResourceToUpdateByKey r key = Ok (i, rr);
  up_reporters :
    r_reporterResources r' = <[i := ReporterResource_Update now rr h c]> (r_reporterResources r);
  up_id : r_id r' = r_id r;
  up_type : r_resourceType r' = r_resourceType r;
  up_token : r_consistencyToken r' = r_consistencyToken r;
  up_deletes : r_resourceDeleteEvents r' = r_resourceDeleteEvents r;
  up_cv : r_commonVersion r' = common_version_of r comd;
  up_last : r_lastCommonVersion r' =
    (if has_data comd then Some (next_common_version r) else r_lastCommonVersion r);
  up_event : exists ev, r_resourceReportEvents r' = [ev] /\
    re_createdAt ev = (GetTimestamps r).1 /\ re_updatedAt ev = now /\
    event_of ev (rr_resourceID rr) (rr_id rr) key repd comd rver
      (rr_representationVersion (ReporterResource_Update now rr h c))
      (rr_generation (ReporterResource_Update now rr h c)) (common_version_of r comd) tx;
}.

Lemma RR_Update_id now rr h c : rr_id (ReporterResource_Update now rr h c) = rr_id rr.
Proof. unfold ReporterResource_Update. by case_match. Qed.
Lemma RR_Update_key now rr h c : rr_key (ReporterResource_Update now rr h c) = rr_key rr.
Proof. unfold ReporterResource_Update. by case_match. Qed.
Lemma RR_Update_alive now rr h c : rr_tombstone (ReporterResource_Update now rr h c) = false.
Proof. unfold ReporterResource_Update, tombstoned. simpl. by destruct (rr_tombstone rr) eqn:E. Qed.
Lemma RR_Update_resourceID now rr h c :
  rr_resourceID (ReporterResource_Update now rr h c) = rr_resourceID rr.
Proof. unfold ReporterResource_Update. by case_match. Qed.

Lemma Resource_Update_ok now r key h c rver repd comd tx r' :
  Resource_Update now r key h c rver repd comd tx = (r', None) ->
  exists i rr, updated now r key h c rver repd comd tx r' i rr.
Proof.
  unfold Resource_Update. fold (common_version_of r comd).
  set (r0 := match common_version_of r comd with Some _ => _ | None => _ end).
  assert (H0 : r_reporterResources r0 = r_reporterResources r /\ r_id r0 = r_id r /\
    r_resourceType r0 = r_resourceType r /\ r_consistencyToken r0 = r_consistencyToken r /\
    r_resourceDeleteEvents r0 = r_resourceDeleteEvents r /\
    r_resourceReportEvents r0 = r_resourceReportEvents r /\
    r_commonVersion r0 = common_version_of r comd /\
    r_lastCommonVersion r0 =
      (if has_data comd then Some (next_common_version r) else r_lastCommonVersion r)).
  { unfold r0, common_version_of. by destruct (has_data comd). }
  destruct H0 as (Hrr & Hid & Hty & Htok & Hdel & Hrep & Hcv & Hlast). clearbody r0.
  rewrite (find_reporter_ext _ _ key Hrr).
  destruct (findReporterResourceToUpdateByKey r key) as [[i rr]|] eqn:Hf; [|done].
  destruct (resourceEventAndRepresentations _ _ _ _ _ _ _ _ _ _ _ _ _ _ _) as [ev|] eqn:Hev;
    [|done].
  apply resourceEvent_ok in Hev. rewrite RR_Update_resourceID, RR_Update_id in Hev.
  intros [= <-]. exists i, rr. split; simpl; try done; [by rewrite Hrr|].
  eexists. split; [done|]. unfold GetTimestamps. simpl. rewrite Hrep. split_all; try done.
  destruct key as [l t [rt ri]]. by apply SetTimestamps_event_of.
Qed.

(** * Deletes *)

Lemma Resource_Delete_ok now r key r' :
  Resource_Delete now r key = (r', None) ->
  exists i rr, findReporterResourceToUpdateByKey r key = Ok (i, rr) /\
    if rr_tombstone rr then r' = r
    else exists ev, rr_id rr <> uuid_Nil /\
      r' = set_delete_events (set_reporter r i (ReporterResource_Delete now rr)) [ev] /\
      de_id ev = rr_resourceID rr /\ de_ReporterResourceKey ev = key /\
      de_reporterRepresentation ev =
        {| rrep_data := None; rrep_reporterResourceID := rr_id rr;
           rrep_version := Version_Increment (rr_representationVersion rr);
           rrep_generation := rr_generation rr; rrep_reporterVersion := None;
           rrep_commonVersion := None; rrep_tombstone := true; rrep_transactionId := "" |}.
Proof.
  unfold Resource_Delete.
  destruct (findReporterResourceToUpdateByKey r key) as [[i rr]|]; [|done].
  intros H. exists i, rr. split; [done|]. destruct (rr_tombstone rr); [congruence|].
  unfold deleteEventAndRepresentations, NewReporterDeleteRepresentation in H. simpl in H.
  case_bool_decide as Hid; [done|]. simpl in H. injection H as <-.
  eexists. split_all; try done. by destruct key as [l t [rt ri]].
Qed.

(** * Invariant *)

(** The versions are machine words, and a resource that has a common version
    has no later one. *)
Record resource_wf (r : Resource) : Prop := {
  wf_reporters : Forall rr_wf (r_reporterResources r);
  wf_last : forall v, r_lastCommonVersion r = Some v -> is_u64 v;
  wf_cv : forall v, r_commonVersion r = Some v -> r_lastCommonVersion r = Some v;
}.

Lemma next_common_version_range r : is_u64 (next_common_version r).
Proof. unfold next_common_version. repeat case_match; auto with inv; done. Qed.

Lemma NewResource_wf now id l t rt ri tx rrid h c repd comd rver r :
  NewResource now id l t rt ri tx rrid h c repd comd rver = Ok r -> resource_wf r.
Proof.
  unfold NewResource. intros H.
  match type of H with context [wrap_err _ (NewReporterResource ?a1 ?a2 ?a3 ?a4 ?a5 ?a6 ?a7 ?a8 ?a9)] =>
    destruct (NewReporterResource a1 a2 a3 a4 a5 a6 a7 a8 a9) as [rr|] eqn:Err end; [|done].
  cbn [wrap_err] in H.
  match type of H with match ?m with _ => _ end = _ => destruct m as [ev|] end; [|done].
  injection H as <-. split; simpl.
  - constructor; [eauto with inv|constructor].
  - intros v. by destruct (has_data comd); intros [= <-].
  - done.
Qed.

Lemma updated_wf now r key h c rver repd comd tx r' i rr :
  resource_wf r -> updated now r key h c rver repd comd tx r' i rr -> resource_wf r'.
Proof.
  intros [Hr Hl Hc] [? Hrr ? ? ? ? Hcv Hlast ?]. split.
  - rewrite Hrr. apply Forall_insert; [done|]. apply ReporterResource_Update_wf.
    eapply Forall_lookup_1; [done|]. by apply (find_reporter_Ok _ key).
  - intros v. rewrite Hlast. destruct (has_data comd); [|apply Hl].
    intros [= <-]. apply next_common_version_range.
  - intros v. rewrite Hcv, Hlast. unfold common_version_of. by destruct (has_data comd).
Qed.

Lemma Delete_wf now r key r' :
  resource_wf r -> Resource_Delete now r key = (r', None) -> resource_wf r'.
Proof.
  intros Hwf (i & rr & Hf & H)%Resource_Delete_ok. destruct (rr_tombstone rr); [by subst|].
  destruct H as (ev & Hid & -> & _). destruct Hwf as [Hr Hl Hc]. split; simpl; try done.
  apply Forall_insert; [done|]. apply ReporterResource_Delete_wf.
  eapply Forall_lookup_1; [done|]. by apply (find_reporter_Ok _ key).
Qed.

#[export] Hint Resolve NewResource_wf updated_wf Delete_wf : inv.

(** * A concrete resource, for the witnesses *)

Definition ex_key : ReporterResourceKey :=
  {| localResourceID := "host-1"; resourceType := "host";
     reporter := {| reporterType := "hbi"; reporterInstanceId := "hbi-1" |} |}.

Definition ex_common (ws : string) : option Representation :=
  Some (Some {[ "workspace_id" := JStr ws ]}).

Definition ex_rr (v g : Z) (t : bool) : ReporterResource :=
  {| rr_id := 7; rr_key := ex_key; rr_resourceID := 5; rr_apiHref := "/a";
     rr_consoleHref := None; rr_representationVersion := v; rr_generation := g;
     rr_tombstone := t; rr_createdAt := 10; rr_updatedAt := 10 |}.

Definition ex_resource (rr : ReporterResource) (cv last : option Z) : Resource :=
  {| r_id := 5; r_resourceType := "host"; r_commonVersion := cv; r_lastCommonVersion := last;
     r_consistencyToken := "tok"; r_reporterResources := [rr];
     r_resourceReportEvents := [DeserializeResourceEvent None None 10 10];
     r_resourceDeleteEvents := [] |}.

Lemma ex_resource_wf v g t cv last :
  is_u64 v -> is_u64 g -> (forall x, last = Some x -> is_u64 x) ->
  (forall x, cv = Some x -> last = Some x) -> resource_wf (ex_resource (ex_rr v g t) cv last).
Proof. intros. split; simpl; try done. constructor; [done|constructor]. Defined.

Ltac ex_wf := apply ex_resource_wf; [vm_compute; done|vm_compute; done|
  (intros ? [= <-]; vm_compute; done) || (intros ? [=])|congruence].

(** * Properties *)

(** A successful update moves exactly one reporter resource, the one whose
    key matches, strictly forward in (generation, version) order and leaves it
    live; it keeps its identity, every other reporter resource is untouched,
    and the resource stays well formed. *)
Theorem Update_advances_lifecycle now r key h c rver repd comd tx r'
    (Hwf : resource_wf r)
    (Hroom : Forall counters_not_full (r_reporterResources r))
    (Hup : Resource_Update now r key h c rver repd comd tx = (r', None)) :
  exists i rr rr',
    r_reporterResources r !! i = Some rr /\ key_matches (rr_key rr) key = true /\
    r_reporterResources r' !! i = Some rr' /\
    lifecycle_lt rr rr' /\ rr_tombstone rr' = false /\
    rr_id rr' = rr_id rr /\ rr_key rr' = rr_key rr /\
    (forall j, j <> i -> r_reporterResources r' !! j = r_reporterResources r !! j) /\
    r_id r' = r_id r /\ resource_wf r'.
Proof.
  apply Resource_Update_ok in Hup as (i & rr & Hup).
  pose proof (find_reporter_Ok _ _ _ _ (up_found _ _ _ _ _ _ _ _ _ _ _ _ Hup)) as [Hi Hk].
  exists i, rr, (ReporterResource_Update now rr h c).
  rewrite (up_reporters _ _ _ _ _ _ _ _ _ _ _ _ Hup). split_all; try done.
  - apply list_lookup_insert_eq. by eapply lookup_lt_Some.
  - apply Update_lifecycle_lt; [|by eapply (Forall_lookup_1 counters_not_full)].
    eapply Forall_lookup_1; [apply Hwf|done].
  - unfold ReporterResource_Update, tombstoned. simpl. by destruct (rr_tombstone rr) eqn:?.
  - apply RR_Update_id.
  - apply RR_Update_key.
  - intros j Hj. by apply list_lookup_insert_ne.
  - by apply (up_id _ _ _ _ _ _ _ _ _ _ _ _ Hup).
  - eauto with inv.
Qed.

Lemma Update_advances_lifecycle_witness :
  exists r', r_reporterResources r' !! 0%nat <> r_reporterResources
    (ex_resource (ex_rr 3 1 false) (Some 4%Z) (Some 4%Z)) !! 0%nat /\ resource_wf r'.
Proof.
  destruct (Update_advances_lifecycle 20 (ex_resource (ex_rr 3 1 false) (Some 4%Z) (Some 4%Z))
    ex_key "/b" None None (Some (Some ∅)) (ex_common "ws") "tx" _
    ltac:(ex_wf) ltac:(vm_compute; repeat constructor; discriminate) eq_refl)
    as (i & rr & rr' & Hi & _ & Hi' & Hlt & _ & _ & _ & _ & _ & Hwf).
  eexists. split; [|exact Hwf]. vm_compute. discriminate.
Defined.

(** Common versions never collide: an update that carries common data gives
    it the successor of the highest version persisted so far (0 when there is
    none), also after updates without common data cleared the current version;
    the event's common representation carries this version and the reporter
    representation refers to it.  An update without common data clears the
    current version and keeps the highest one. *)
Theorem Update_common_version_fresh now r key h c rver repd comd tx r'
    (Hwf : resource_wf r) (Hroom : r_lastCommonVersion r <> Some max_u64)
    (Hup : Resource_Update now r key h c rver repd comd tx = (r', None)) :
  exists ev, r_resourceReportEvents r' = [ev] /\
    if has_data comd then
      exists v, v = from_option (fun l => l + 1)%Z 0%Z (r_lastCommonVersion r) /\
        r_commonVersion r' = Some v /\ r_lastCommonVersion r' = Some v /\
        re_CurrentCommonVersion ev = Some v /\
        (forall rep, re_reporterRepresentation ev = Some rep -> rrep_commonVersion rep = Some v)
    else r_commonVersion r' = None /\ r_lastCommonVersion r' = r_lastCommonVersion r /\
         re_CurrentCommonVersion ev = None.
Proof.
  apply Resource_Update_ok in Hup as (i & rr & []). destruct up_event0 as (ev & Hev & _ & _ & []).
  exists ev. split; [done|]. unfold re_CurrentCommonVersion, common_version_of in *.
  destruct (has_data comd) eqn:Hd.
  - exists (next_common_version r). split_all; try done.
    + unfold next_common_version. destruct Hwf as [_ Hl Hc].
      destruct (r_commonVersion r) as [cv|] eqn:Ecv.
      * rewrite (Hc cv eq_refl). simpl. apply Version_Increment_small; [auto|].
        rewrite (Hc cv eq_refl) in Hroom. congruence.
      * destruct (r_lastCommonVersion r) as [l|] eqn:El; [|done]. simpl.
        apply Version_Increment_small; [auto|congruence].
    + rewrite ev_common0. apply has_data_Some in Hd as (m & -> & _). done.
    + intros rep. rewrite ev_reporter0. destruct repd; simpl; [|done]. by intros [= <-].
  - split_all; try done. rewrite ev_common0. destruct comd as [d|]; [|done].
    specialize (ev_common_data0 d eq_refl). congruence.
Qed.

Lemma Update_common_version_fresh_witness :
  exists ev, re_CurrentCommonVersion ev = Some 5%Z.
Proof.
  destruct (Update_common_version_fresh 20 (ex_resource (ex_rr 3 1 false) None (Some 4%Z))
    ex_key "/b" None None (Some (Some ∅)) (ex_common "ws") "tx" _
    ltac:(ex_wf) ltac:(vm_compute; discriminate) eq_refl) as (ev & _ & Hev).
  exists ev. vm_compute in Hev. destruct Hev as (v & -> & _ & _ & Hv & _). exact Hv.
Defined.

Lemma find_reporter_delete_set now r key i rr ev :
  findReporterResourceToUpdateByKey r key = Ok (i, rr) ->
  findReporterResourceToUpdateByKey
    (set_delete_events (set_reporter r i (ReporterResource_Delete now rr)) [ev]) key =
  Ok (i, ReporterResource_Delete now rr).
Proof.
  intros Hf. rewrite (find_reporter_ext _ (set_reporter r i (ReporterResource_Delete now rr))) by done.
  by eapply find_reporter_set.
Qed.

(** Deleting is idempotent: after a successful delete the same delete
    succeeds again and changes nothing, neither the reporter resource nor the
    pending delete event. *)
Theorem Delete_idempotent now now' r key r'
    (Hdel : Resource_Delete now r key = (r', None)) :
  Resource_Delete now' r' key = (r', None).
Proof.
  apply Resource_Delete_ok in Hdel as (i & rr & Hf & H).
  destruct (rr_tombstone rr) eqn:Ht.
  - subst r'. unfold Resource_Delete. by rewrite Hf, Ht.
  - destruct H as (ev & _ & -> & _). unfold Resource_Delete.
    by rewrite (find_reporter_delete_set now r key i rr ev Hf).
Qed.

Lemma Delete_idempotent_witness :
  exists r', Resource_Delete 20 (ex_resource (ex_rr 3 1 false) None (Some 4%Z)) ex_key = (r', None) /\
    length (r_resourceDeleteEvents r') = 1%nat /\ Resource_Delete 30 r' ex_key = (r', None).
Proof.
  eexists. split; [vm_compute; reflexivity|]. split; [reflexivity|].
  exact (Delete_idempotent 20 30 (ex_resource (ex_rr 3 1 false) None (Some 4%Z)) ex_key _ eq_refl).
Defined.

(** A report after a delete revives the reporter resource in a new
    generation: the generation is the successor of the deleted one, the
    version restarts at 0, the tombstone is cleared, and the reporter
    representation of the report event carries exactly these counters. *)
Theorem Update_after_Delete_revives now now' r key r1 r2 h c rver repd comd tx
    (Hdel : Resource_Delete now r key = (r1, None))
    (Hup : Resource_Update now' r1 key h c rver repd comd tx = (r2, None)) :
  exists i rr rr2 ev,
    r_reporterResources r !! i = Some rr /\ r_reporterResources r2 !! i = Some rr2 /\
    rr_generation rr2 = Generation_Increment (rr_generation rr) /\
    rr_representationVersion rr2 = 0%Z /\ rr_tombstone rr2 = false /\
    r_resourceReportEvents r2 = [ev] /\
    (forall rep, re_reporterRepresentation ev = Some rep ->
       rrep_version rep = 0%Z /\ rrep_generation rep = rr_generation rr2 /\
       rrep_tombstone rep = false).
Proof.
  apply Resource_Delete_ok in Hdel as (i & rr & Hf & H).
  apply Resource_Update_ok in Hup as (j & rd & [Hfj Hrr _ _ _ _ _ _ (ev & Hev & _ & _ & Heo)]).
  assert (Hd : exists rd', r_reporterResources r1 !! i = Some rd' /\ (j, rd) = (i, rd') /\
    rr_generation rd' = rr_generation rr /\ rr_tombstone rd' = true).
  { destruct (rr_tombstone rr) eqn:Ht.
    - subst r1. exists rr. pose proof (find_reporter_Ok _ _ _ _ Hf) as [Hi _].
      split_all; done || congruence.
    - destruct H as (dev & _ & -> & _).
      rewrite (find_reporter_delete_set now r key i rr dev Hf) in Hfj.
      exists (ReporterResource_Delete now rr). split_all; try done; [|congruence].
      simpl. apply find_reporter_Ok in Hf as [Hi _].
      apply list_lookup_insert_eq. by eapply lookup_lt_Some. }
  destruct Hd as (rd' & Hi1 & [= -> ->] & Hg & Ht).
  exists i, rr, (ReporterResource_Update now' rd' h c), ev.
  apply find_reporter_Ok in Hf as [Hi _].
  destruct Heo as [_ _ Hrep _ _ _].
  unfold ReporterResource_Update, tombstoned in *. rewrite Ht in *. simpl in *.
  rewrite Hrr, Hg. split_all; try done.
  - apply list_lookup_insert_eq. by eapply lookup_lt_Some.
  - intros rep. rewrite Hrep. destruct repd; simpl; [|done]. intros [= <-]. by rewrite <- Hg.
Qed.

Lemma Update_after_Delete_revives_witness :
  exists r2 i rr2, r_reporterResources r2 !! i = Some rr2 /\ rr_generation rr2 = 2%Z.
Proof.
  destruct (Update_after_Delete_revives 20 30 (ex_resource (ex_rr 3 1 false) None (Some 4%Z))
    ex_key _ _ "/b" None None (Some (Some ∅)) None "tx" eq_refl eq_refl)
    as (i & rr & rr2 & ev & Hi & Hi2 & Hg & _).
  eexists _, i, rr2. split; [exact Hi2|]. rewrite Hg.
  destruct i as [|i]; [|destruct i; discriminate Hi]. injection Hi as <-. reflexivity.
Defined.

(** Errors leave nothing to save: an update without any representation
    fails with ErrNoRepresentationProvided (when the reporter is known), one
    whose key matches no reporter fails before it changes a reporter, and in
    neither case does the resource have a new event. *)
Theorem Update_errors_publish_nothing now r key h c rver repd comd tx r' e
    (Hup : Resource_Update now r key h c rver repd comd tx = (r', Some e)) :
  r_resourceReportEvents r' = r_resourceReportEvents r /\
  r_resourceDeleteEvents r' = r_resourceDeleteEvents r /\
  (findReporterResourceToUpdateByKey r key = Err e ->
     r_reporterResources r' = r_reporterResources r) /\
  (is_ok (findReporterResourceToUpdateByKey r key) = true -> repd = None -> comd = None ->
     errors_Is e ErrNoRepresentationProvided = true).
Proof.
  revert Hup. unfold Resource_Update. fold (common_version_of r comd).
  set (r0 := match common_version_of r comd with Some _ => _ | None => _ end).
  assert (H0 : r_reporterResources r0 = r_reporterResources r /\
    r_resourceDeleteEvents r0 = r_resourceDeleteEvents r /\
    r_resourceReportEvents r0 = r_resourceReportEvents r)
    by (unfold r0, common_version_of; by destruct (has_data comd)).
  destruct H0 as (Hrr & Hdel & Hrep). clearbody r0.
  rewrite (find_reporter_ext _ _ key Hrr).
  destruct (findReporterResourceToUpdateByKey r key) as [[i rr]|e0].
  - destruct (resourceEventAndRepresentations _ _ _ _ _ _ _ _ _ _ _ _ _ _ _) as [ev|] eqn:Hev;
      [done|].
    intros [= <- <-]. split_all; try done. intros _ -> ->. by injection Hev as <-.
  - intros [= <- <-]. split_all; done.
Qed.

Lemma Update_errors_publish_nothing_witness :
  exists e, (Resource_Update 20 (ex_resource (ex_rr 3 1 false) None None) ex_key "/b" None None
    None None "tx").2 = Some e /\ errors_Is e ErrNoRepresentationProvided = true.
Proof.
  eexists. split; [reflexivity|].
  apply (Update_errors_publish_nothing 20 (ex_resource (ex_rr 3 1 false) None None) ex_key "/b"
    None None None None "tx" _ _ eq_refl); reflexivity.
Defined.

(** The snapshots lose nothing of a resource with one reporter: rebuilding
    the resource from the snapshots [Serialize] takes gives back its identity,
    type, versions, consistency token, reporter resource, timestamps and both
    representations. *)
Theorem Serialize_roundtrip now r rr ev snap rsnap repsnap csnap
    (Hrr : r_reporterResources r = [rr]) (Hev : r_resourceReportEvents r = [ev])
    (Hdel : r_resourceDeleteEvents r = [])
    (Hser : Resource_Serialize now r = (snap, rsnap, repsnap, csnap)) :
  exists r' ev', DeserializeResource (Some snap) [rsnap] repsnap csnap = Some r' /\
    r_id r' = r_id r /\ r_resourceType r' = r_resourceType r /\
    r_commonVersion r' = r_commonVersion r /\ r_lastCommonVersion r' = r_lastCommonVersion r /\
    r_consistencyToken r' = r_consistencyToken r /\
    r_reporterResources r' = r_reporterResources r /\
    GetTimestamps r' = GetTimestamps r /\
    r_resourceReportEvents r' = [ev'] /\
    re_reporterRepresentation ev' = re_reporterRepresentation ev /\
    re_commonRepresentation ev' = re_commonRepresentation ev.
Proof.
  unfold Resource_Serialize, GetTimestamps in *. rewrite Hrr, Hev, Hdel in *.
  injection Hser as <- <- <- <-. eexists _, _. split; [done|]. split_all; try done.
  - simpl. by rewrite DeserializeReporterResource_Serialize.
  - simpl. by destruct (re_reporterRepresentation ev) as [[]|].
  - simpl. by destruct (re_commonRepresentation ev) as [[? ? ? [] ?]|].
Qed.

Lemma Serialize_roundtrip_witness :
  exists r', r_reporterResources r' = [ex_rr 3 1 false].
Proof.
  destruct (Serialize_roundtrip 20 (ex_resource (ex_rr 3 1 false) None (Some 4%Z)) _ _ _ _ _ _
    eq_refl eq_refl eq_refl eq_refl) as (r' & ev' & _ & _ & _ & _ & _ & _ & H & _).
  exists r'. exact H.
Defined.
