(* ===== verification/Json.v ===== *)
(** The part of Go's [encoding/json] that the outbox and the consumer use, on
    JSON trees: the text of a document and its escapes are not modelled, the
    values that come out are.

    - an [interface{}] target holds a number as a [float64]: an integer of
      2^53 or more is rounded when it is read, and printed with the shortest
      digits that read back to the same [float64];
    - a struct target matches a key exactly, or else ignoring case; unknown
      keys are skipped, [null] leaves a plain field and clears a pointer, and
      a later duplicate of a key overwrites an earlier one. *)
From stdpp Require Import base tactics list strings gmap.
From Stdlib Require Import ZArith Lia Ascii.
From S2P Require Import Prelude GoStrings Common.

Local Open Scope string_scope.

(** * Numbers *)

Definition two53 : Z := 9007199254740992.

(** [float64(z)] for [z >= 0]: 53 significant bits, ties to even. *)
Definition float64_of (z : Z) : Z :=
  if (z <? two53)%Z then z
  else
    let e := (Z.log2 z - 52)%Z in
    let u := (2 ^ e)%Z in
    let q := (z / u)%Z in
    let r := (z mod u)%Z in
    let up := ((u <? 2 * r) || ((2 * r =? u) && Z.odd q))%Z in
    ((if up then q + 1 else q) * u)%Z.

(** The shortest decimal that reads back as the [float64] [z]: the multiple
    of the largest power of ten (at most 10^n) next to [z] that does. *)
Fixpoint shortest (n : nat) (z : Z) : Z :=
  match n with
  | O => z
  | S k =>
      let p := (10 ^ Z.of_nat n)%Z in
      let lo := (z / p * p)%Z in
      let hi := (lo + p)%Z in
      let lo_ok := (float64_of lo =? z)%Z in
      let hi_ok := (float64_of hi =? z)%Z in
      if lo_ok && (negb hi_ok || (z - lo <=? hi - z)%Z) then lo
      else if hi_ok then hi
      else shortest k z
  end.

(** A number read from text into [interface{}], and printed from it. *)
Definition read_number (z : Z) : Z :=
  if (z <? 0)%Z then (- float64_of (- z))%Z else float64_of z.
Definition print_number (z : Z) : Z :=
  if (z <? 0)%Z then (- shortest 20 (- z))%Z else shortest 20 z.

Lemma float64_of_small z : (z < two53)%Z -> float64_of z = z.
Proof. intros H. unfold float64_of. by rewrite (proj2 (Z.ltb_lt _ _) H). Qed.

Lemma float64_of_big z : (two53 <= z)%Z -> (two53 <= float64_of z)%Z.
Proof.
  intros H. unfold float64_of. rewrite (proj2 (Z.ltb_ge _ _) H).
  assert (Hlog : (53 <= Z.log2 z)%Z).
  { change 53%Z with (Z.log2 two53). by apply Z.log2_le_mono. }
  set (e := (Z.log2 z - 52)%Z). set (u := (2 ^ e)%Z).
  assert (Hu : (2 <= u)%Z) by (apply (Z.pow_le_mono_r 2 1); unfold e; lia).
  assert (Hz : (2 ^ 52 * u <= z)%Z).
  { unfold u, e. rewrite <- Z.pow_add_r by lia.
    replace (52 + (Z.log2 z - 52))%Z with (Z.log2 z) by lia.
    apply Z.log2_spec. unfold two53 in H. lia. }
  assert (Hq : (2 ^ 52 <= z / u)%Z) by (apply Z.div_le_lower_bound; lia).
  change two53 with (2 ^ 52 * 2)%Z. cbv zeta. fold e u.
  case_match; nia.
Qed.

Lemma float64_of_small_inv c z : (z < two53)%Z -> float64_of c = z -> c = z.
Proof.
  intros Hz <-. destruct (Z_lt_ge_dec c two53) as [H|H].
  - by rewrite (float64_of_small c).
  - pose proof (float64_of_big c). lia.
Qed.

Lemma shortest_small n z : (0 <= z < two53)%Z -> shortest n z = z.
Proof.
  intros Hz. induction n as [|k IH]; [done|]. cbn [shortest].
  set (p := (10 ^ Z.of_nat (S k))%Z).
  destruct (float64_of (z / p * p) =? z)%Z eqn:Elo.
  - apply Z.eqb_eq, float64_of_small_inv in Elo; [|lia].
    destruct (float64_of (z / p * p + p) =? z)%Z eqn:Ehi; cbn [negb orb andb]; [|done].
    apply Z.eqb_eq, float64_of_small_inv in Ehi; [|lia].
    case_match; congruence.
  - cbn [andb]. destruct (float64_of (z / p * p + p) =? z)%Z eqn:Ehi; [|done].
    by apply Z.eqb_eq, float64_of_small_inv in Ehi; [|lia].
Qed.

Lemma read_number_small z : (0 <= z < two53)%Z -> read_number z = z.
Proof.
  intros H. unfold read_number. rewrite (proj2 (Z.ltb_ge _ _)) by lia.
  by rewrite float64_of_small by lia.
Qed.

Lemma print_number_small z : (0 <= z < two53)%Z -> print_number z = z.
Proof.
  intros H. unfold print_number. rewrite (proj2 (Z.ltb_ge _ _)) by lia.
  by rewrite shortest_small by lia.
Qed.

(** * [interface{}] values *)

(** Every number of a value rewritten. *)
Fixpoint map_numbers (f : Z -> Z) (j : json) : json :=
  match j with
  | JNum z => JNum (f z)
  | JArr l => JArr (map (map_numbers f) l)
  | JObj fs => JObj (map (fun kv => (kv.1, map_numbers f kv.2)) fs)
  | _ => j
  end.

(** [json.Unmarshal(text, &v)] with [v interface{}], and [json.Marshal(v)]. *)
Definition unmarshal_any : json -> json := map_numbers read_number.
Definition marshal_any : json -> json := map_numbers print_number.

(** [json.Marshal] of a [map[string]interface{}]: Go sorts the keys; no reader
    depends on their order. *)
Definition marshal_object (o : JsonObject) : json :=
  match o with
  | None => JNull
  | Some m => JObj (map (fun kv => (kv.1, marshal_any kv.2)) (map_to_list m))
  end.

(** [json.Unmarshal(text, &m)] into a map that holds [m] already. *)
Definition unmarshal_object (j : json) (m : gmap string json) : result JsonObject :=
  match j with
  | JNull => Ok None
  | JObj fs =>
      Ok (Some (foldl (fun acc kv => <[kv.1 := unmarshal_any kv.2]> acc) m fs))
  | _ => Err (EMsg "json: cannot unmarshal into Go value of type JsonObject")
  end.

(** * Structs *)

Definition type_error : go_error := EMsg "json: cannot unmarshal into Go struct field".

(** The struct field that a key of the document names. *)
Definition struct_field (names : list string) (k : string) : option string :=
  if bool_decide (k ∈ names) then Some k else List.find (EqualFold k) names.

(** The fields of the document in order, each stored by [set]. *)
Fixpoint unmarshal_fields {A} (names : list string) (set : string -> json -> A -> result A)
    (fs : list (string * json)) (a : A) : result A :=
  match fs with
  | [] => Ok a
  | (k, j) :: fs' =>
      match struct_field names k with
      | None => unmarshal_fields names set fs' a
      | Some n => let! a' := set n j a in unmarshal_fields names set fs' a'
      end
  end.

Definition unmarshal_struct {A} (names : list string) (set : string -> json -> A -> result A)
    (j : json) (a : A) : result A :=
  match j with
  | JNull => Ok a
  | JObj fs => unmarshal_fields names set fs a
  | _ => Err type_error
  end.

(** A [string] field. *)
Definition unmarshal_string (j : json) (old : string) : result string :=
  match j with JStr s => Ok s | JNull => Ok old | _ => Err type_error end.

(** A pointer to a [uint]: a number that is not a [uint64] is a type error. *)
Definition unmarshal_uint_ptr (j : json) : result (option Z) :=
  match j with
  | JNull => Ok None
  | JNum z => if bool_decide (is_u64 z) then Ok (Some z) else Err type_error
  | _ => Err type_error
  end.
