(* ===== verification/DataModel.v ===== *)
(** internal/data/model: the rows of the four tables, their conversion from and
    to domain snapshots, and the validating constructors. *)
From stdpp Require Import base tactics list strings gmap.
From Stdlib Require Import ZArith Lia Ascii.
From S2P Require Import Prelude GoStrings Common ReporterResource Representations Resource.

Local Open Scope string_scope.
Local Open Scope Z_scope.

(** * Field sizes *)

Definition MaxLocalResourceIDLength : Z := 128.
Definition MaxReporterTypeLength : Z := 128.
Definition MaxResourceTypeLength : Z := 128.
Definition MaxReporterInstanceIDLength : Z := 256.
Definition MaxReporterVersionLength : Z := 128.
Definition MaxAPIHrefLength : Z := 512.
Definition MaxConsoleHrefLength : Z := 512.
Definition MaxTransactionIdLength : Z := 128.
Definition MinVersionValue : Z := 0.
Definition MinGenerationValue : Z := 0.
Definition MinCommonVersion : Z := 0.

(** * Rows *)

Record ResourceRow := {
  rw_ID : uuid;
  rw_Type : string;
  rw_CommonVersion : option Z;
  rw_ConsistencyToken : string;
  rw_CreatedAt : time;
  rw_UpdatedAt : time;
}.

Record ReporterResourceRow := {
  rrw_ID : uuid;
  rrw_LocalResourceID : string;
  rrw_ReporterType : string;
  rrw_ResourceType : string;
  rrw_ReporterInstanceID : string;
  rrw_ResourceID : uuid;
  rrw_APIHref : string;
  rrw_ConsoleHref : option string;
  rrw_RepresentationVersion : Z;
  rrw_Generation : Z;
  rrw_Tombstone : bool;
  rrw_CreatedAt : time;
  rrw_UpdatedAt : time;
}.

Record ReporterRepresentationRow := {
  rpw_Data : JsonObject;
  rpw_ReporterResourceID : uuid;
  rpw_Version : Z;
  rpw_Generation : Z;
  rpw_ReporterVersion : option string;
  rpw_CommonVersion : option Z;
  rpw_TransactionId : string;
  rpw_Tombstone : bool;
  rpw_CreatedAt : time;
}.

Record CommonRepresentationRow := {
  cw_Data : JsonObject;
  cw_ResourceId : uuid;
  cw_Version : Z;
  cw_ReportedByReporterType : string;
  cw_ReportedByReporterInstance : string;
  cw_TransactionId : string;
  cw_CreatedAt : time;
}.

(** * Snapshots *)

Definition DeserializeResourceFromSnapshot (s : ResourceSnapshot) : ResourceRow :=
  {| rw_ID := res_ID s; rw_Type := res_Type s; rw_CommonVersion := res_CommonVersion s;
     rw_ConsistencyToken := res_ConsistencyToken s;
     rw_CreatedAt := res_CreatedAt s; rw_UpdatedAt := res_UpdatedAt s |}.

Definition ResourceRow_SerializeToSnapshot (r : ResourceRow) : ResourceSnapshot :=
  {| res_ID := rw_ID r; res_Type := rw_Type r; res_CommonVersion := rw_CommonVersion r;
     res_LastCommonVersion := None; res_ConsistencyToken := rw_ConsistencyToken r;
     res_CreatedAt := rw_CreatedAt r; res_UpdatedAt := rw_UpdatedAt r |}.

Definition DeserializeReporterResourceFromSnapshot (s : ReporterResourceSnapshot)
    : ReporterResourceRow :=
  {| rrw_ID := rs_ID s;
     rrw_LocalResourceID := ks_LocalResourceID (rs_Key s);
     rrw_ReporterType := ks_ReporterType (rs_Key s);
     rrw_ResourceType := ks_ResourceType (rs_Key s);
     rrw_ReporterInstanceID := ks_ReporterInstanceID (rs_Key s);
     rrw_ResourceID := rs_ResourceID s; rrw_APIHref := rs_APIHref s;
     rrw_ConsoleHref := rs_ConsoleHref s;
     rrw_RepresentationVersion := rs_RepresentationVersion s;
     rrw_Generation := rs_Generation s; rrw_Tombstone := rs_Tombstone s;
     rrw_CreatedAt := rs_CreatedAt s; rrw_UpdatedAt := rs_UpdatedAt s |}.

Definition ReporterResourceRow_SerializeToSnapshot (r : ReporterResourceRow)
    : ReporterResourceSnapshot :=
  {| rs_ID := rrw_ID r;
     rs_Key := {| ks_LocalResourceID := rrw_LocalResourceID r;
                  ks_ReporterType := rrw_ReporterType r;
                  ks_ResourceType := rrw_ResourceType r;
                  ks_ReporterInstanceID := rrw_ReporterInstanceID r |};
     rs_ResourceID := rrw_ResourceID r; rs_APIHref := rrw_APIHref r;
     rs_ConsoleHref := rrw_ConsoleHref r;
     rs_RepresentationVersion := rrw_RepresentationVersion r;
     rs_Generation := rrw_Generation r; rs_Tombstone := rrw_Tombstone r;
     rs_CreatedAt := rrw_CreatedAt r; rs_UpdatedAt := rrw_UpdatedAt r |}.

Definition DeserializeReporterRepresentationFromSnapshot (s : ReporterRepresentationSnapshot)
    : ReporterRepresentationRow :=
  {| rpw_Data := rreps_Data s; rpw_ReporterResourceID := rreps_ReporterResourceID s;
     rpw_Version := rreps_Version s; rpw_Generation := rreps_Generation s;
     rpw_ReporterVersion := rreps_ReporterVersion s; rpw_CommonVersion := rreps_CommonVersion s;
     rpw_TransactionId := rreps_TransactionId s; rpw_Tombstone := rreps_Tombstone s;
     rpw_CreatedAt := rreps_CreatedAt s |}.

Definition ReporterRepresentationRow_SerializeToSnapshot (r : ReporterRepresentationRow)
    : ReporterRepresentationSnapshot :=
  {| rreps_Data := rpw_Data r; rreps_ReporterResourceID := rpw_ReporterResourceID r;
     rreps_Version := rpw_Version r; rreps_Generation := rpw_Generation r;
     rreps_ReporterVersion := rpw_ReporterVersion r; rreps_CommonVersion := rpw_CommonVersion r;
     rreps_TransactionId := rpw_TransactionId r; rreps_Tombstone := rpw_Tombstone r;
     rreps_CreatedAt := rpw_CreatedAt r |}.

Definition DeserializeCommonRepresentationFromSnapshot (s : CommonRepresentationSnapshot)
    : CommonRepresentationRow :=
  {| cw_Data := creps_Data s; cw_ResourceId := creps_ResourceId s;
     cw_Version := creps_Version s;
     cw_ReportedByReporterType := creps_ReportedByReporterType s;
     cw_ReportedByReporterInstance := creps_ReportedByReporterInstance s;
     cw_TransactionId := creps_TransactionId s; cw_CreatedAt := creps_CreatedAt s |}.

Definition CommonRepresentationRow_SerializeToSnapshot (r : CommonRepresentationRow)
    : CommonRepresentationSnapshot :=
  {| creps_Data := cw_Data r; creps_ResourceId := cw_ResourceId r;
     creps_Version := cw_Version r;
     creps_ReportedByReporterType := cw_ReportedByReporterType r;
     creps_ReportedByReporterInstance := cw_ReportedByReporterInstance r;
     creps_TransactionId := cw_TransactionId r; creps_CreatedAt := cw_CreatedAt r |}.

(** * Validating constructors *)

(** [if err := m; err != nil { return nil, err }; return x, nil] *)
Definition validated {A} (x : A) (err : option go_error) : result A :=
  match err with Some e => Err e | None => Ok x end.

(** [url_ok]: whether net/url parses the string. *)
Definition validateReporterResource (url_ok : string -> bool) (r : ReporterResourceRow)
    : option go_error :=
  let consoleHref := default "" (rrw_ConsoleHref r) in
  AggregateErrors
    [ValidateUUIDRequired "ID" (rrw_ID r);
     ValidateStringRequired "LocalResourceID" (rrw_LocalResourceID r);
     ValidateMaxLength "LocalResourceID" (rrw_LocalResourceID r) MaxLocalResourceIDLength;
     ValidateStringRequired "ReporterType" (rrw_ReporterType r);
     ValidateMaxLength "ReporterType" (rrw_ReporterType r) MaxReporterTypeLength;
     ValidateStringRequired "ResourceType" (rrw_ResourceType r);
     ValidateMaxLength "ResourceType" (rrw_ResourceType r) MaxResourceTypeLength;
     ValidateStringRequired "ReporterInstanceID" (rrw_ReporterInstanceID r);
     ValidateMaxLength "ReporterInstanceID" (rrw_ReporterInstanceID r) MaxReporterInstanceIDLength;
     ValidateUUIDRequired "ResourceID" (rrw_ResourceID r);
     ValidateMinValue "Generation" (rrw_Generation r) MinGenerationValue;
     ValidateMinValue "RepresentationVersion" (rrw_RepresentationVersion r) 0;
     ValidateOptionalURL url_ok "APIHref" (rrw_APIHref r) MaxAPIHrefLength;
     ValidateOptionalURL url_ok "ConsoleHref" consoleHref MaxConsoleHrefLength].

Definition NewReporterResourceRow (url_ok : string -> bool) (id : uuid)
    (localResourceID reporterType resourceType reporterInstanceID : string)
    (resourceID : uuid) (apiHref : string) (consoleHref : option string)
    (representationVersion generation : Z) (tombstone : bool) : result ReporterResourceRow :=
  let rr := {| rrw_ID := id; rrw_LocalResourceID := localResourceID;
               rrw_ReporterType := reporterType; rrw_ResourceType := resourceType;
               rrw_ReporterInstanceID := reporterInstanceID; rrw_ResourceID := resourceID;
               rrw_APIHref := apiHref; rrw_ConsoleHref := consoleHref;
               rrw_RepresentationVersion := representationVersion;
               rrw_Generation := generation; rrw_Tombstone := tombstone;
               rrw_CreatedAt := zero_time; rrw_UpdatedAt := zero_time |} in
  validated rr (validateReporterResource url_ok rr).

Definition validateReporterRepresentation (rr : ReporterRepresentationRow) : option go_error :=
  if rpw_Tombstone rr && negb (is_nil (rpw_CommonVersion rr))
  then Some (EValidation "CommonVersion" "must be nil when Tombstone is true")
  else
    let commonVersionErr :=
      match rpw_CommonVersion rr with
      | None => None
      | Some v => ValidateMinValueUint "CommonVersion" v MinCommonVersion
      end in
    AggregateErrors
      [ValidateUUIDRequired "ReporterResourceID" (rpw_ReporterResourceID rr);
       ValidateMinValueUint "Version" (rpw_Version rr) MinVersionValue;
       ValidateMinValueUint "Generation" (rpw_Generation rr) MinGenerationValue;
       commonVersionErr;
       ValidateMaxLength "TransactionId" (rpw_TransactionId rr) MaxTransactionIdLength;
       ValidateOptionalString "ReporterVersion" (rpw_ReporterVersion rr) MaxReporterVersionLength].

Definition NewReporterRepresentationRow (data : JsonObject) (reporterResourceID : uuid)
    (version generation : Z) (commonVersion : option Z) (transactionId : string)
    (tombstone : bool) (reporterVersion : option string) : result ReporterRepresentationRow :=
  let rr := {| rpw_Data := data; rpw_ReporterResourceID := reporterResourceID;
               rpw_Version := version; rpw_Generation := generation;
               rpw_ReporterVersion := reporterVersion; rpw_CommonVersion := commonVersion;
               rpw_TransactionId := transactionId; rpw_Tombstone := tombstone;
               rpw_CreatedAt := zero_time |} in
  validated rr (validateReporterRepresentation rr).

Definition validateCommonRepresentation (cr : CommonRepresentationRow) : option go_error :=
  AggregateErrors
    [ValidateUUIDRequired "ResourceId" (cw_ResourceId cr);
     ValidateMinValueUint "Version" (cw_Version cr) MinVersionValue;
     ValidateStringRequired "ReportedByReporterType" (cw_ReportedByReporterType cr);
     ValidateMaxLength "ReportedByReporterType" (cw_ReportedByReporterType cr) MaxReporterTypeLength;
     ValidateStringRequired "ReportedByReporterInstance" (cw_ReportedByReporterInstance cr);
     ValidateMaxLength "ReportedByReporterInstance" (cw_ReportedByReporterInstance cr)
       MaxReporterInstanceIDLength;
     ValidateMaxLength "TransactionId" (cw_TransactionId cr) MaxTransactionIdLength].

Definition NewCommonRepresentationRow (resourceId : uuid) (data : JsonObject) (version : Z)
    (reportedByReporterType reportedByReporterInstance transactionId : string)
    : result CommonRepresentationRow :=
  let cr := {| cw_Data := data; cw_ResourceId := resourceId; cw_Version := version;
               cw_ReportedByReporterType := reportedByReporterType;
               cw_ReportedByReporterInstance := reportedByReporterInstance;
               cw_TransactionId := transactionId; cw_CreatedAt := zero_time |} in
  validated cr (validateCommonRepresentation cr).
