(* ===== verification/Relations.v ===== *)
(** internal/biz/model: references, relation tuples, tuple filters,
    consistency, the relation diff and TuplesToReplicate. *)
From stdpp Require Import base tactics list strings gmap sets.
From Stdlib Require Import ZArith Lia.
From S2P Require Import Prelude GoStrings Common ReporterResource Representations.

Local Open Scope string_scope.

Abbreviation Relation := string (only parsing).

(** * References (resource_reference.go, subject_reference.go,
      representation_type.go) *)

Record ReporterReference := {
  rref_reporterType : ReporterType;
  rref_instanceId : option ReporterInstanceId;
}.

Record ResourceReference := {
  ref_resourceType : ResourceType;
  ref_resourceId : LocalResourceId;
  ref_reporter : option ReporterReference;
}.

Record SubjectReference := {
  sub_resource : ResourceReference;
  sub_relation : option Relation;
}.

Record RepresentationType := {
  rtype_resourceType : ResourceType;
  rtype_reporterType : option ReporterType;
}.

#[export] Instance ReporterReference_eq_dec : EqDecision ReporterReference.
Proof. solve_decision. Defined.
#[export] Instance ResourceReference_eq_dec : EqDecision ResourceReference.
Proof. solve_decision. Defined.
#[export] Instance SubjectReference_eq_dec : EqDecision SubjectReference.
Proof. solve_decision. Defined.

Definition NewReporterReference (reporterType : ReporterType)
    (instanceId : option ReporterInstanceId) : ReporterReference :=
  {| rref_reporterType := reporterType; rref_instanceId := instanceId |}.

Definition NewResourceReference (resourceType : ResourceType) (resourceId : LocalResourceId)
    (reporter : option ReporterReference) : ResourceReference :=
  {| ref_resourceType := resourceType; ref_resourceId := resourceId; ref_reporter := reporter |}.

Definition HasReporter (r : ResourceReference) : bool := negb (is_nil (ref_reporter r)).
Definition HasInstanceId (r : ReporterReference) : bool := negb (is_nil (rref_instanceId r)).

Definition NewSubjectReference (resource : ResourceReference) (relation : option Relation)
    : SubjectReference := {| sub_resource := resource; sub_relation := relation |}.

Definition NewSubjectReferenceWithoutRelation (resource : ResourceReference)
    : SubjectReference := {| sub_resource := resource; sub_relation := None |}.

Definition RequireReporterType (rt : RepresentationType) : result ReporterType :=
  match rtype_reporterType rt with
  | None => Err (EMsg "RepresentationType: reporter type is required but not set")
  | Some t => Ok t
  end.

(** * Relationships and tuples (relationship.go, relations_tuple.go) *)

Record Relationship := {
  rel_object : ResourceReference;
  rel_relation : Relation;
  rel_subject : SubjectReference;
}.

Record RelationsTuple := {
  tup_object : ResourceReference;
  tup_relation : Relation;
  tup_subject : SubjectReference;
}.

#[export] Instance Relationship_eq_dec : EqDecision Relationship.
Proof. solve_decision. Defined.
#[export] Instance RelationsTuple_eq_dec : EqDecision RelationsTuple.
Proof. solve_decision. Defined.

Definition NewRelationship (object : ResourceReference) (relation : Relation)
    (subject : SubjectReference) : Relationship :=
  {| rel_object := object; rel_relation := relation; rel_subject := subject |}.

Definition WorkspaceRelation : string := "workspace".
Definition RbacNamespace : string := "rbac".

Definition NewRelationTupleForSubject (key : ReporterResourceKey)
    (relationName subjectNamespace subjectResourceType subjectId : string) : RelationsTuple :=
  let reporter := NewReporterReference (reporterType (reporter key)) None in
  let object := NewResourceReference (resourceType key) (localResourceID key) (Some reporter) in
  let subjectReporter := NewReporterReference subjectNamespace None in
  let subjectResource :=
    NewResourceReference subjectResourceType subjectId (Some subjectReporter) in
  let subject := NewSubjectReferenceWithoutRelation subjectResource in
  {| tup_object := object; tup_relation := relationName; tup_subject := subject |}.

Definition NewWorkspaceRelationsTuple (workspaceID : string) (key : ReporterResourceKey)
    : RelationsTuple :=
  NewRelationTupleForSubject key WorkspaceRelation RbacNamespace WorkspaceRelation workspaceID.

(** * Filters (tuple_filter.go) *)

Record TupleSubjectFilter := {
  sf_subjectType : option ResourceType;
  sf_reporterType : option ReporterType;
  sf_subjectId : option LocalResourceId;
  sf_relation : option Relation;
}.

Record TupleFilter := {
  tf_objectType : option ResourceType;
  tf_reporterType : option ReporterType;
  tf_objectId : option LocalResourceId;
  tf_relation : option Relation;
  tf_subject : option TupleSubjectFilter;
}.

Definition NewTupleFilter : TupleFilter :=
  {| tf_objectType := None; tf_reporterType := None; tf_objectId := None;
     tf_relation := None; tf_subject := None |}.
Definition WithObjectType (f : TupleFilter) (t : ResourceType) : TupleFilter :=
  {| tf_objectType := Some t; tf_reporterType := tf_reporterType f;
     tf_objectId := tf_objectId f; tf_relation := tf_relation f; tf_subject := tf_subject f |}.
Definition WithReporterType (f : TupleFilter) (t : ReporterType) : TupleFilter :=
  {| tf_objectType := tf_objectType f; tf_reporterType := Some t;
     tf_objectId := tf_objectId f; tf_relation := tf_relation f; tf_subject := tf_subject f |}.
Definition WithObjectId (f : TupleFilter) (id : LocalResourceId) : TupleFilter :=
  {| tf_objectType := tf_objectType f; tf_reporterType := tf_reporterType f;
     tf_objectId := Some id; tf_relation := tf_relation f; tf_subject := tf_subject f |}.
Definition WithRelation (f : TupleFilter) (r : Relation) : TupleFilter :=
  {| tf_objectType := tf_objectType f; tf_reporterType := tf_reporterType f;
     tf_objectId := tf_objectId f; tf_relation := Some r; tf_subject := tf_subject f |}.
Definition WithSubject (f : TupleFilter) (s : TupleSubjectFilter) : TupleFilter :=
  {| tf_objectType := tf_objectType f; tf_reporterType := tf_reporterType f;
     tf_objectId := tf_objectId f; tf_relation := tf_relation f; tf_subject := Some s |}.

Definition NewTupleSubjectFilter : TupleSubjectFilter :=
  {| sf_subjectType := None; sf_reporterType := None; sf_subjectId := None;
     sf_relation := None |}.
Definition SF_WithSubjectType (f : TupleSubjectFilter) (t : ResourceType) : TupleSubjectFilter :=
  {| sf_subjectType := Some t; sf_reporterType := sf_reporterType f;
     sf_subjectId := sf_subjectId f; sf_relation := sf_relation f |}.
Definition SF_WithReporterType (f : TupleSubjectFilter) (t : ReporterType) : TupleSubjectFilter :=
  {| sf_subjectType := sf_subjectType f; sf_reporterType := Some t;
     sf_subjectId := sf_subjectId f; sf_relation := sf_relation f |}.
Definition SF_WithSubjectId (f : TupleSubjectFilter) (id : LocalResourceId) : TupleSubjectFilter :=
  {| sf_subjectType := sf_subjectType f; sf_reporterType := sf_reporterType f;
     sf_subjectId := Some id; sf_relation := sf_relation f |}.
Definition SF_WithRelation (f : TupleSubjectFilter) (r : Relation) : TupleSubjectFilter :=
  {| sf_subjectType := sf_subjectType f; sf_reporterType := sf_reporterType f;
     sf_subjectId := sf_subjectId f; sf_relation := Some r |}.

(** * Consistency (consistency.go): a nil interface is [None] *)

Inductive Consistency :=
  | unspecifiedConsistency
  | minimizeLatencyConsistency
  | atLeastAsAcknowledgedConsistency
  | atLeastAsFreshConsistency (token : ConsistencyToken).

Inductive ConsistencyType :=
  | ConsistencyUnspecified | ConsistencyMinimizeLatency
  | ConsistencyAtLeastAsAcknowledged | ConsistencyAtLeastAsFresh.

#[export] Instance Consistency_eq_dec : EqDecision Consistency.
Proof. solve_decision. Defined.
#[export] Instance ConsistencyType_eq_dec : EqDecision ConsistencyType.
Proof. solve_decision. Defined.

Definition MinimizeLatencyToken : ConsistencyToken := "".

Definition Consistency_Type (c : Consistency) : ConsistencyType :=
  match c with
  | unspecifiedConsistency => ConsistencyUnspecified
  | minimizeLatencyConsistency => ConsistencyMinimizeLatency
  | atLeastAsAcknowledgedConsistency => ConsistencyAtLeastAsAcknowledged
  | atLeastAsFreshConsistency _ => ConsistencyAtLeastAsFresh
  end.

Definition normalizeConsistency (c : option Consistency) : Consistency :=
  match c with None => unspecifiedConsistency | Some c => c end.

Definition ConsistencyTypeOf (c : option Consistency) : ConsistencyType :=
  Consistency_Type (normalizeConsistency c).

Definition ConsistencyAtLeastAsFreshToken (c : option Consistency) : option ConsistencyToken :=
  match normalizeConsistency c with
  | atLeastAsFreshConsistency token => Some token
  | _ => None
  end.

(** * Results and parameters of the relations repository *)

Record Pagination := { pg_Limit : Z; pg_Continuation : option ContinuationToken }.
Record FencingCheck := { fc_lockId : LockId; fc_lockToken : LockToken }.
Record CheckResult := { cr_allowed : bool; cr_consistencyToken : ConsistencyToken }.
Record CheckBulkResultItem := {
  cbi_allowed : bool; cbi_err : option go_error; cbi_errorCode : Z }.
Record CheckBulkResultPair := {
  cbp_request : Relationship; cbp_result : CheckBulkResultItem }.
Record CheckBulkResult := {
  cbr_pairs : list CheckBulkResultPair; cbr_consistencyToken : ConsistencyToken }.
Record TuplesResult := { tr_consistencyToken : ConsistencyToken }.
Record AcquireLockResult := { al_lockToken : LockToken }.
Record HealthResult := { hr_status : string; hr_code : Z }.
Record LookupObjectsItem := {
  loi_object : ResourceReference; loi_continuationToken : ContinuationToken }.
Record LookupSubjectsItem := {
  lsi_subject : SubjectReference; lsi_continuationToken : ContinuationToken }.
Record ReadTuplesItem := {
  rti_object : ResourceReference; rti_relation : Relation; rti_subject : SubjectReference;
  rti_continuationToken : ContinuationToken; rti_consistencyToken : ConsistencyToken }.

#[export] Instance FencingCheck_eq_dec : EqDecision FencingCheck.
Proof. solve_decision. Defined.

(** * Tuples to replicate (tuples_to_replicate.go) *)

Record TuplesToReplicate := {
  tuplesToCreate : option (list RelationsTuple);
  tuplesToDelete : option (list RelationsTuple);
}.

Definition slice_ptr {A} (l : list A) : option (list A) :=
  match l with [] => None | _ => Some l end.

Definition NewTuplesToReplicate (create del : list RelationsTuple) : result TuplesToReplicate :=
  Ok {| tuplesToCreate := slice_ptr create; tuplesToDelete := slice_ptr del |}.

Definition has_tuples (p : option (list RelationsTuple)) : bool :=
  match p with Some (_ :: _) => true | _ => false end.

Definition IsEmpty (ttr : TuplesToReplicate) : bool :=
  negb (has_tuples (tuplesToCreate ttr)) && negb (has_tuples (tuplesToDelete ttr)).

Definition HasTuplesToCreate (ttr : TuplesToReplicate) : bool :=
  negb (is_nil (tuplesToCreate ttr)).
Definition HasTuplesToDelete (ttr : TuplesToReplicate) : bool :=
  negb (is_nil (tuplesToDelete ttr)).

(** * The relation diff (relation_diff.go)

    The sources build the two lists by ranging over Go maps, whose iteration
    order is unspecified; [elements] is one order, and the theorems speak of
    the members of the lists only. *)
Definition DiffRelationValues (key : ReporterResourceKey)
    (relationName subjectNamespace subjectResourceType : string)
    (currentValues previousValues : list string)
    : list RelationsTuple * list RelationsTuple :=
  let previousSet : gset string := list_to_set previousValues in
  let currentSet : gset string := list_to_set currentValues in
  let tuple v :=
    NewRelationTupleForSubject key relationName subjectNamespace subjectResourceType v in
  (tuple <$> elements (filter (fun v => v ∉ previousSet) currentSet),
   tuple <$> elements (filter (fun v => v ∉ currentSet) previousSet)).

(** * Facts *)

Lemma NewRelationTupleForSubject_inj key rel ns rt : Inj (=) (=)
  (NewRelationTupleForSubject key rel ns rt).
Proof. by intros v1 v2 [= ->]. Qed.

Lemma NewTuplesToReplicate_lists create del ttr :
  NewTuplesToReplicate create del = Ok ttr ->
  default [] (tuplesToCreate ttr) = create /\ default [] (tuplesToDelete ttr) = del.
Proof. intros [= <-]. simpl. by destruct create, del. Qed.

Lemma IsEmpty_iff ttr :
  IsEmpty ttr = true <->
  default [] (tuplesToCreate ttr) = [] /\ default [] (tuplesToDelete ttr) = [].
Proof. destruct ttr as [[[|]|] [[|]|]]; unfold IsEmpty; simpl; intuition done. Qed.

Lemma has_tuples_slice_ptr l : has_tuples (slice_ptr l) = negb (bool_decide (l = [])).
Proof. by destruct l. Qed.

(** Membership in the two lists of a diff. *)
Lemma Diff_create_iff key rel ns rt cur prev t :
  t ∈ (DiffRelationValues key rel ns rt cur prev).1 <->
  exists v, t = NewRelationTupleForSubject key rel ns rt v /\ v ∈ cur /\ v ∉ prev.
Proof.
  unfold DiffRelationValues. simpl. rewrite list_elem_of_fmap.
  setoid_rewrite elem_of_elements. setoid_rewrite elem_of_filter.
  setoid_rewrite elem_of_list_to_set. naive_solver.
Qed.

Lemma Diff_delete_iff key rel ns rt cur prev t :
  t ∈ (DiffRelationValues key rel ns rt cur prev).2 <->
  exists v, t = NewRelationTupleForSubject key rel ns rt v /\ v ∈ prev /\ v ∉ cur.
Proof.
  unfold DiffRelationValues. simpl. rewrite list_elem_of_fmap.
  setoid_rewrite elem_of_elements. setoid_rewrite elem_of_filter.
  setoid_rewrite elem_of_list_to_set. naive_solver.
Qed.

Lemma Diff_NoDup key rel ns rt cur prev :
  NoDup (DiffRelationValues key rel ns rt cur prev).1 /\
  NoDup (DiffRelationValues key rel ns rt cur prev).2.
Proof.
  split; apply NoDup_fmap_2; try apply NewRelationTupleForSubject_inj; apply NoDup_elements.
Qed.
