(* ===== verification/Outbox.v ===== *)
(** The outbox: internal/biz/model/tuple_event.go and event_operation_type.go,
    the JSON form of a key (reporter_resource.go), the events built from a
    domain event (internal/biz/model_legacy/outboxevents.go) and the write-ahead
    log messages that carry them (internal/data/outboxeventsrepository.go). *)
From stdpp Require Import base tactics list strings gmap.
From Stdlib Require Import ZArith Lia Ascii.
From S2P Require Import Prelude GoStrings Common ReporterResource Representations Resource Json.

Local Open Scope string_scope.

(** * Operation types *)

Inductive eventOperationType := OperationTypeCreated | OperationTypeUpdated | OperationTypeDeleted.

#[export] Instance eventOperationType_eq_dec : EqDecision eventOperationType.
Proof. solve_decision. Defined.

Definition op_string (o : eventOperationType) : string :=
  match o with
  | OperationTypeCreated => "created"
  | OperationTypeUpdated => "updated"
  | OperationTypeDeleted => "deleted"
  end.

Definition op_MarshalJSON (o : eventOperationType) : json := JStr (op_string o).

Definition op_UnmarshalJSON (j : json) : result eventOperationType :=
  let! s := unmarshal_string j "" in
  if bool_decide (s = "created") then Ok OperationTypeCreated
  else if bool_decide (s = "updated") then Ok OperationTypeUpdated
  else if bool_decide (s = "deleted") then Ok OperationTypeDeleted
  else Err (EMsg "invalid operation type").

(** * The JSON form of a reporter resource key *)

Definition ReporterResourceKey_MarshalJSON (rrk : ReporterResourceKey) : json :=
  JObj [("local_resource_id", JStr (localResourceID rrk));
        ("resource_type", JStr (resourceType rrk));
        ("reporter",
          JObj [("reporter_type", JStr (reporterType (reporter rrk)));
                ("reporter_instance_id", JStr (reporterInstanceId (reporter rrk)))])].

(** The [temp] structs of [UnmarshalJSON]: one setter per nesting level. *)
Definition reporterJSON_set (f : string) (j : json) (r : string * string)
    : result (string * string) :=
  if bool_decide (f = "reporter_type")
  then (let! s := unmarshal_string j r.1 in Ok (s, r.2))
  else (let! s := unmarshal_string j r.2 in Ok (r.1, s)).

Definition reporterResourceKeyJSON_set (f : string) (j : json)
    (t : string * string * (string * string)) : result (string * string * (string * string)) :=
  if bool_decide (f = "local_resource_id")
  then (let! s := unmarshal_string j t.1.1 in Ok ((s, t.1.2), t.2))
  else if bool_decide (f = "resource_type")
  then (let! s := unmarshal_string j t.1.2 in Ok ((t.1.1, s), t.2))
  else (let! r := unmarshal_struct ["reporter_type"; "reporter_instance_id"]
                    reporterJSON_set j t.2 in Ok (t.1, r)).

Definition ReporterResourceKey_UnmarshalJSON (j : json) : result ReporterResourceKey :=
  let! temp := wrap_err "failed to unmarshal ReporterResourceKey"
    (unmarshal_struct ["local_resource_id"; "resource_type"; "reporter"]
       reporterResourceKeyJSON_set j (("", ""), ("", ""))) in
  Ok (DeserializeReporterResourceKey temp.1.1 temp.1.2 temp.2.1 temp.2.2).

(** * Tuple events *)

Record TupleEvent := {
  te_reporterResourceKey : ReporterResourceKey;
  te_commonVersion : option Version;
  te_reporterRepresentationVersion : option Version;
}.

#[export] Instance TupleEvent_eq_dec : EqDecision TupleEvent.
Proof. solve_decision. Defined.

Definition zero_key : ReporterResourceKey :=
  {| localResourceID := ""; resourceType := "";
     reporter := {| reporterType := ""; reporterInstanceId := "" |} |}.

Definition NewTupleEvent (reporterResourceKey : ReporterResourceKey)
    (commonVersion reporterRepresentationVersion : option Version) : result TupleEvent :=
  if bool_decide (reporterResourceKey = zero_key)
  then Err (EWrap "reporterResourceKey" (ESentinel ErrEmpty))
  else if is_nil commonVersion && is_nil reporterRepresentationVersion
  then Err (EMsg "at least one version (commonVersion or reporterRepresentationVersion) must be present")
  else Ok {| te_reporterResourceKey := reporterResourceKey;
             te_commonVersion := commonVersion;
             te_reporterRepresentationVersion := reporterRepresentationVersion |}.

(** A field tagged [omitempty]: absent when the pointer is nil. *)
Definition omitempty {A} (name : string) (enc : A -> json) (p : option A)
    : list (string * json) :=
  match p with None => [] | Some a => [(name, enc a)] end.

Definition TupleEvent_MarshalJSON (te : TupleEvent) : json :=
  JObj (("reporter_resource_key", ReporterResourceKey_MarshalJSON (te_reporterResourceKey te))
        :: (omitempty "common_version" JNum (te_commonVersion te)
            ++ omitempty "reporter_representation_version" JNum
                 (te_reporterRepresentationVersion te))%list).

Definition tupleEventJSON_set (f : string) (j : json) (t : TupleEvent) : result TupleEvent :=
  if bool_decide (f = "reporter_resource_key")
  then (let! k := ReporterResourceKey_UnmarshalJSON j in
        Ok {| te_reporterResourceKey := k; te_commonVersion := te_commonVersion t;
              te_reporterRepresentationVersion := te_reporterRepresentationVersion t |})
  else if bool_decide (f = "common_version")
  then (let! v := unmarshal_uint_ptr j in
        Ok {| te_reporterResourceKey := te_reporterResourceKey t; te_commonVersion := v;
              te_reporterRepresentationVersion := te_reporterRepresentationVersion t |})
  else (let! v := unmarshal_uint_ptr j in
        Ok {| te_reporterResourceKey := te_reporterResourceKey t;
              te_commonVersion := te_commonVersion t;
              te_reporterRepresentationVersion := v |}).

Definition zero_tuple_event : TupleEvent :=
  {| te_reporterResourceKey := zero_key; te_commonVersion := None;
     te_reporterRepresentationVersion := None |}.

Definition TupleEvent_UnmarshalJSON (j : json) : result TupleEvent :=
  unmarshal_struct
    ["reporter_resource_key"; "common_version"; "reporter_representation_version"]
    tupleEventJSON_set j zero_tuple_event.

(** * Outbox events *)

(** The libraries the outbox calls: google/uuid and the RFC 3339 form of
    [time.Time], which fails on a year outside [0,9999]. *)
Class OutboxLib := {
  uuid_String : uuid -> string;
  time_MarshalJSON : time -> result string;
}.

Definition TupleAggregateType : string := "kessel.tuples".
Definition ResourceAggregateType : string := "kessel.resources".

Record OutboxEvent := {
  oe_ID : uuid;
  oe_AggregateType : string;
  oe_AggregateID : string;
  oe_Operation : eventOperationType;
  oe_TxId : string;
  oe_Payload : JsonObject;
}.

(** The resource event, as published for other services.  [EventResourceMetadata]
    also has labels, which no code fills. *)
Record EventResourceMetadata := {
  em_Id : string; em_ResourceType : string; em_OrgId : string;
  em_CreatedAt : option time; em_UpdatedAt : option time; em_DeletedAt : option time;
  em_WorkspaceId : option string;
}.

Record EventResourceReporter := {
  er_ReporterInstanceId : string; er_ReporterType : string; er_ConsoleHref : option string;
  er_ApiHref : string; er_LocalResourceId : string; er_ReporterVersion : option string;
}.

Record EventResourceData := {
  erd_Metadata : EventResourceMetadata;
  erd_ReporterData : EventResourceReporter;
  erd_ResourceData : JsonObject;
}.

Record ResourceEvent := {
  rev_Specversion : string; rev_Type : string; rev_Source : string; rev_Id : string;
  rev_Subject : string; rev_Time : time; rev_DataContentType : string;
  rev_Data : EventResourceData;
}.

(** The interface [model.ResourceEvent] and its two implementations. *)
Inductive DomainEvent :=
  | ReportEvent (e : ResourceReportEvent)
  | DeleteEvent (e : ResourceDeleteEvent).

Definition ev_Id (e : DomainEvent) : ResourceId :=
  match e with ReportEvent e => re_id e | DeleteEvent e => de_id e end.
Definition ev_ReporterResourceKey (e : DomainEvent) : ReporterResourceKey :=
  match e with
  | ReportEvent e => re_ReporterResourceKey e | DeleteEvent e => de_ReporterResourceKey e end.
Definition ev_CurrentCommonVersion (e : DomainEvent) : option Version :=
  match e with
  | ReportEvent e => re_CurrentCommonVersion e | DeleteEvent e => de_CurrentCommonVersion e end.
Definition ev_CurrentReporterRepresentationVersion (e : DomainEvent) : option Version :=
  match e with
  | ReportEvent e => re_CurrentReporterRepresentationVersion e
  | DeleteEvent e => de_CurrentReporterRepresentationVersion e
  end.

Definition makeEventType (eventType resourceType operation : string) : string :=
  "redhat.inventory." +:+ eventType +:+ "." +:+ resourceType +:+ "." +:+ operation.

Definition makeEventSubject (eventType resourceType resourceId : string) : string :=
  "/" +:+ Join [eventType; resourceType; resourceId] "/".

Section OutboxEvents.
Context `{OutboxLib}.

(** [newResourceEvent]: [now] and [eventId] are the results of [time.Now()] and
    [uuid.NewUUID()]. *)
Definition event_times (operationType : eventOperationType) (now : time)
    (e : ResourceReportEvent) : option time * option time * option time * time :=
  match operationType with
  | OperationTypeCreated => (Some (re_createdAt e), None, None, re_createdAt e)
  | OperationTypeUpdated => (None, Some (re_updatedAt e), None, re_updatedAt e)
  | OperationTypeDeleted => (None, None, Some now, now)
  end.

Definition newResourceEvent (now : time) (eventId : result uuid)
    (operationType : eventOperationType) (e : ResourceReportEvent) : result ResourceEvent :=
  let! id := eventId in
  let '(createdAt, updatedAt, deletedAt, reportedTime) := event_times operationType now e in
  let rt := re_resourceType e in
  Ok {| rev_Specversion := "1.0";
        rev_Type := makeEventType "resources" rt (op_string operationType);
        rev_Source := "";
        rev_Id := uuid_String id;
        rev_Subject := makeEventSubject "resources" rt (uuid_String (re_id e));
        rev_Time := reportedTime;
        rev_DataContentType := "application/json";
        rev_Data := {|
          erd_Metadata := {|
            em_Id := uuid_String (re_id e); em_ResourceType := rt; em_OrgId := "";
            em_CreatedAt := createdAt; em_UpdatedAt := updatedAt; em_DeletedAt := deletedAt;
            em_WorkspaceId := re_WorkspaceId e |};
          erd_ReporterData := {|
            er_ReporterInstanceId := reporterInstanceId (re_reporterId e);
            er_ReporterType := reporterType (re_reporterId e);
            er_ConsoleHref := re_consoleHref e; er_ApiHref := re_apiHref e;
            er_LocalResourceId := re_localResourceId e;
            er_ReporterVersion := re_ReporterVersion e |};
          erd_ResourceData := re_Data e |} |}.

(** [json.Marshal] of the structs, by their tags.  A [*time.Time] tagged
    [omitempty] is absent when nil, [resource_data] when the map is empty. *)
Definition marshal_time (name : string) (t : option time) : result (list (string * json)) :=
  match t with
  | None => Ok []
  | Some t => let! s := time_MarshalJSON t in Ok [(name, JStr s)]
  end.

Definition EventResourceMetadata_Marshal (m : EventResourceMetadata) : result json :=
  let! created := marshal_time "created_at" (em_CreatedAt m) in
  let! updated := marshal_time "updated_at" (em_UpdatedAt m) in
  let! deleted := marshal_time "deleted_at" (em_DeletedAt m) in
  Ok (JObj ([("id", JStr (em_Id m)); ("resource_type", JStr (em_ResourceType m));
             ("org_id", JStr (em_OrgId m))]
            ++ created ++ updated ++ deleted
            ++ omitempty "workspace_id" JStr (em_WorkspaceId m))%list).

Definition EventResourceReporter_Marshal (r : EventResourceReporter) : json :=
  JObj ([("reporter_instance_id", JStr (er_ReporterInstanceId r));
         ("reporter_type", JStr (er_ReporterType r))]
        ++ omitempty "console_href" JStr (er_ConsoleHref r)
        ++ [("api_href", JStr (er_ApiHref r));
            ("local_resource_id", JStr (er_LocalResourceId r))]
        ++ omitempty "reporter_version" JStr (er_ReporterVersion r))%list.

Definition EventResourceData_Marshal (d : EventResourceData) : result json :=
  let! metadata := EventResourceMetadata_Marshal (erd_Metadata d) in
  Ok (JObj ([("metadata", metadata);
             ("reporter_data", EventResourceReporter_Marshal (erd_ReporterData d))]
            ++ (if nonempty (erd_ResourceData d)
                then [("resource_data", marshal_object (erd_ResourceData d))] else []))%list).

Definition ResourceEvent_Marshal (e : ResourceEvent) : result json :=
  let! t := time_MarshalJSON (rev_Time e) in
  let! data := EventResourceData_Marshal (rev_Data e) in
  Ok (JObj [("specversion", JStr (rev_Specversion e)); ("type", JStr (rev_Type e));
            ("source", JStr (rev_Source e)); ("id", JStr (rev_Id e));
            ("subject", JStr (rev_Subject e)); ("time", JStr t);
            ("datacontenttype", JStr (rev_DataContentType e)); ("data", data)]).

Definition convertResourceToResourceEvent (now : time) (eventId : result uuid)
    (e : ResourceReportEvent) (operationType : eventOperationType) : result JsonObject :=
  let! resourceEvent :=
    wrap_err "failed to create resource event" (newResourceEvent now eventId operationType e) in
  let! marshalledJson :=
    wrap_err "failed to marshal resource to json" (ResourceEvent_Marshal resourceEvent) in
  wrap_err "failed to unmarshal json to payload" (unmarshal_object marshalledJson ∅).

Definition convertResourceToTupleEvent (reporterResourceKey : ReporterResourceKey)
    (currentCommonVersion currentReporterRepresentationVersion : option Version)
    : result JsonObject :=
  let! tuple := wrap_err "failed to create Tuple Event"
    (NewTupleEvent reporterResourceKey currentCommonVersion
       currentReporterRepresentationVersion) in
  wrap_err "failed to unmarshal json to payload"
    (unmarshal_object (TupleEvent_MarshalJSON tuple) ∅).

Definition NewOutboxEventsFromResourceEvent (now : time) (eventId : result uuid)
    (domainResourceEvent : DomainEvent) (operationType : eventOperationType)
    (txid : TransactionId) : result (OutboxEvent * OutboxEvent) :=
  let! tuplePayload := wrap_err "failed to convert resource to tuple event"
    (convertResourceToTupleEvent (ev_ReporterResourceKey domainResourceEvent)
       (ev_CurrentCommonVersion domainResourceEvent)
       (ev_CurrentReporterRepresentationVersion domainResourceEvent)) in
  let! payload :=
    match operationType, domainResourceEvent with
    | OperationTypeDeleted, _ => Ok (Some ∅)
    | _, ReportEvent reportEvent =>
        wrap_err "failed to convert resource to payload"
          (convertResourceToResourceEvent now eventId reportEvent operationType)
    | _, DeleteEvent _ =>
        Err (EMsg "expected ResourceReportEvent for create/update operation")
    end in
  let aggregateID := uuid_String (ev_Id domainResourceEvent) in
  Ok ({| oe_ID := uuid_Nil; oe_AggregateType := ResourceAggregateType;
         oe_AggregateID := aggregateID; oe_Operation := operationType;
         oe_TxId := ""; oe_Payload := payload |},
      {| oe_ID := uuid_Nil; oe_AggregateType := TupleAggregateType;
         oe_AggregateID := aggregateID; oe_Operation := operationType;
         oe_TxId := NewTransactionId txid; oe_Payload := tuplePayload |}).

(** * Write-ahead log messages *)

Record walOutboxMessage := {
  wm_ID : string; wm_AggregateType : string; wm_AggregateID : string;
  wm_Operation : string; wm_TxID : string; wm_Payload : JsonObject;
}.

(** [newV7] is the result of [uuid.NewV7()], called when the event has no id. *)
Definition mapOutboxEventToWALMessage (newV7 : result uuid) (event : OutboxEvent)
    : result walOutboxMessage :=
  let! id :=
    if bool_decide (oe_ID event = uuid_Nil)
    then wrap_err "failed to generate uuid for WAL message" newV7 else Ok (oe_ID event) in
  Ok {| wm_ID := uuid_String id; wm_AggregateType := oe_AggregateType event;
        wm_AggregateID := oe_AggregateID event; wm_Operation := op_string (oe_Operation event);
        wm_TxID := oe_TxId event; wm_Payload := oe_Payload event |}.

Definition walOutboxMessage_Marshal (msg : walOutboxMessage) : json :=
  JObj [("id", JStr (wm_ID msg)); ("aggregatetype", JStr (wm_AggregateType msg));
        ("aggregateid", JStr (wm_AggregateID msg)); ("operation", JStr (wm_Operation msg));
        ("txid", JStr (wm_TxID msg)); ("payload", marshal_object (wm_Payload msg))].

(** The log: one [(prefix, content)] per [pg_logical_emit_message]. *)
Abbreviation WAL := (list (string * json)) (only parsing).

(** A publisher appends to the log of the transaction.  [exec] is the error of
    the [tx.Exec] statement, if it has one. *)
Definition publishOutboxEventWAL (newV7 : result uuid) (exec : option go_error)
    (wal : WAL) (event : OutboxEvent) : result WAL :=
  let! msg := wrap_err "failed to create WAL message"
                (mapOutboxEventToWALMessage newV7 event) in
  match exec with
  | Some e => Err (EWrap "failed to emit WAL message" e)
  | None => Ok (wal ++ [(oe_AggregateType event, walOutboxMessage_Marshal msg)])%list
  end.

Definition publishNoOpOutboxEvent (wal : WAL) (event : OutboxEvent) : result WAL := Ok wal.

(** [SetOutboxPublisher(mode)]; [storage.OutboxModeWAL] is "wal". *)
Definition SetOutboxPublisher (mode : string) (newV7 : result uuid) (exec : option go_error)
    : WAL -> OutboxEvent -> result WAL :=
  if bool_decide (mode = "wal") then publishOutboxEventWAL newV7 exec
  else publishNoOpOutboxEvent.
End OutboxEvents.
