(* ===== verification/Store.v ===== *)
(** The resource repository: internal/data/resource_repository.go over the
    tables of internal/data/model, and the transaction manager of
    internal/data/gorm_transaction_manager.go.

    GORM and the database behind it are not part of the repository: the class
    [GormDB] holds the statements the repository issues, and [GormLaws] what
    their documentation promises.  [Tables], in Tables.v, is a
    concrete database that satisfies them. *)
From stdpp Require Import base tactics list strings gmap sorting.
From Stdlib Require Import ZArith Lia Ascii.
From S2P Require Import Prelude GoStrings Common ReporterResource Representations Resource.
From S2P Require Import Json DataModel Outbox.

Local Open Scope string_scope.

(** * The database interface *)

(** [D] is the state of the database as a transaction sees it.  A statement
    that fails aborts its transaction, so it only yields its error. *)
Class GormDB (D : Type) := {
  resource_rows : D -> list ResourceRow;
  reporter_resource_rows : D -> list ReporterResourceRow;
  reporter_representation_rows : D -> list ReporterRepresentationRow;
  common_representation_rows : D -> list CommonRepresentationRow;
  emitted : D -> list (string * json);
  save_resource : ResourceRow -> D -> result D;                  (* tx.Save   *)
  save_reporter_resource : ReporterResourceRow -> D -> result D; (* tx.Save   *)
  create_reporter_representation : ReporterRepresentationRow -> D -> result D; (* tx.Create *)
  create_common_representation : CommonRepresentationRow -> D -> result D;     (* tx.Create *)
  emit_message : string -> json -> D -> result D;    (* pg_logical_emit_message *)
  update_ktn : string -> string -> D -> result D;    (* UPDATE resource SET ktn *)
  query_error : D -> option go_error;                (* the error of a SELECT *)
  bind_error : Z -> option go_error;                 (* the driver refuses a uint parameter *)
}.

(** A row as GORM stores it: [CreatedAt] and [UpdatedAt] may be filled in. *)
Definition same_resource (a b : ResourceRow) : Prop :=
  rw_ID a = rw_ID b /\ rw_Type a = rw_Type b /\ rw_CommonVersion a = rw_CommonVersion b
  /\ rw_ConsistencyToken a = rw_ConsistencyToken b.

Definition same_reporter_resource (a b : ReporterResourceRow) : Prop :=
  rrw_ID a = rrw_ID b /\ rrw_LocalResourceID a = rrw_LocalResourceID b
  /\ rrw_ReporterType a = rrw_ReporterType b /\ rrw_ResourceType a = rrw_ResourceType b
  /\ rrw_ReporterInstanceID a = rrw_ReporterInstanceID b
  /\ rrw_ResourceID a = rrw_ResourceID b /\ rrw_APIHref a = rrw_APIHref b
  /\ rrw_ConsoleHref a = rrw_ConsoleHref b
  /\ rrw_RepresentationVersion a = rrw_RepresentationVersion b
  /\ rrw_Generation a = rrw_Generation b /\ rrw_Tombstone a = rrw_Tombstone b.

(** The range of a [bigint] column that holds a Go [uint]. *)
Definition bigint (z : Z) : Prop := (0 <= z < 9223372036854775808)%Z.

#[export] Instance bigint_dec z : Decision (bigint z).
Proof. unfold bigint. apply _. Defined.

Definition bigint_opt (z : option Z) : Prop := match z with Some z => bigint z | None => True end.

#[export] Instance bigint_opt_dec z : Decision (bigint_opt z).
Proof. destruct z; simpl; apply _. Defined.

(** The indices: primary keys, and the partial unique index on a transaction
    id that is not empty. *)
Definition rpw_key (r : ReporterRepresentationRow) : uuid * Z * Z :=
  (rpw_ReporterResourceID r, rpw_Version r, rpw_Generation r).
Definition cw_key (r : CommonRepresentationRow) : uuid * Z := (cw_ResourceId r, cw_Version r).

Definition txid_clash (a b : string) : Prop := a = b /\ a <> "".

Definition rpw_conflict (row r : ReporterRepresentationRow) : Prop :=
  rpw_key r = rpw_key row \/ txid_clash (rpw_TransactionId row) (rpw_TransactionId r).
Definition cw_conflict (row r : CommonRepresentationRow) : Prop :=
  cw_key r = cw_key row \/ txid_clash (cw_TransactionId row) (cw_TransactionId r).

#[export] Instance rpw_conflict_dec row r : Decision (rpw_conflict row r).
Proof. unfold rpw_conflict, txid_clash. apply _. Defined.
#[export] Instance cw_conflict_dec row r : Decision (cw_conflict row r).
Proof. unfold cw_conflict, txid_clash. apply _. Defined.

(** The unique index reporter_resource_key_idx. *)
Definition rrw_index (r : ReporterResourceRow) : string * string * string * string * Z * Z :=
  (rrw_LocalResourceID r, rrw_ReporterType r, rrw_ResourceType r, rrw_ReporterInstanceID r,
   rrw_RepresentationVersion r, rrw_Generation r).

Definition rrw_conflict (row r : ReporterResourceRow) : Prop :=
  rrw_ID r <> rrw_ID row /\ rrw_index r = rrw_index row.

#[export] Instance rrw_conflict_dec row r : Decision (rrw_conflict row r).
Proof. unfold rrw_conflict. apply _. Defined.

(** The tables other than the one a statement writes. *)
Definition frame_resources {D} `{GormDB D} (d d' : D) : Prop :=
  reporter_resource_rows d' = reporter_resource_rows d
  /\ reporter_representation_rows d' = reporter_representation_rows d
  /\ common_representation_rows d' = common_representation_rows d /\ emitted d' = emitted d.
Definition frame_reporter_resources {D} `{GormDB D} (d d' : D) : Prop :=
  resource_rows d' = resource_rows d
  /\ reporter_representation_rows d' = reporter_representation_rows d
  /\ common_representation_rows d' = common_representation_rows d /\ emitted d' = emitted d.
Definition frame_reporter_representations {D} `{GormDB D} (d d' : D) : Prop :=
  resource_rows d' = resource_rows d /\ reporter_resource_rows d' = reporter_resource_rows d
  /\ common_representation_rows d' = common_representation_rows d /\ emitted d' = emitted d.
Definition frame_common_representations {D} `{GormDB D} (d d' : D) : Prop :=
  resource_rows d' = resource_rows d /\ reporter_resource_rows d' = reporter_resource_rows d
  /\ reporter_representation_rows d' = reporter_representation_rows d
  /\ emitted d' = emitted d.
Definition frame_emitted {D} `{GormDB D} (d d' : D) : Prop :=
  resource_rows d' = resource_rows d /\ reporter_resource_rows d' = reporter_resource_rows d
  /\ reporter_representation_rows d' = reporter_representation_rows d
  /\ common_representation_rows d' = common_representation_rows d.

(** What the documentation of GORM and PostgreSQL says of these statements:
    [Save] is an upsert by primary key, [Create] an insert that a unique index
    may refuse with [ErrDuplicatedKey] (the connection is opened with
    [TranslateError]) and for no other reason, a version out of the range of
    its column is refused, an emitted message is appended to the log.  [Find]
    and [Scan] never yield [ErrRecordNotFound], and no error of the database is
    a Kratos error ([plain]). *)
Definition plain (e : go_error) : Prop := errors_As_kratos e = None.

Definition plain_result {A} (m : result A) : Prop :=
  match m with Ok _ => True | Err e => plain e end.

Class GormLaws (D : Type) `{GormDB D} `{OutboxLib} := {
  query_plain : forall d e, query_error d = Some e ->
    plain e /\ errors_Is e ErrRecordNotFound = false;
  save_resource_plain : forall row d, plain_result (save_resource row d);
  save_reporter_resource_plain : forall row d, plain_result (save_reporter_resource row d);
  create_reporter_representation_plain : forall row d,
    plain_result (create_reporter_representation row d);
  create_common_representation_plain : forall row d,
    plain_result (create_common_representation row d);
  emit_message_plain : forall p c d, plain_result (emit_message p c d);
  create_reporter_representation_only_dup : forall row d e,
    create_reporter_representation row d = Err e -> errors_Is e ErrDuplicatedKey ->
    Exists (rpw_conflict row) (reporter_representation_rows d);
  create_common_representation_only_dup : forall row d e,
    create_common_representation row d = Err e -> errors_Is e ErrDuplicatedKey ->
    Exists (cw_conflict row) (common_representation_rows d);
  bind_bigint : forall v, bigint v -> bind_error v = None;
  save_resource_ok : forall row d d', save_resource row d = Ok d' ->
    frame_resources d d' /\ bigint_opt (rw_CommonVersion row)
    /\ exists row', same_resource row row' /\
      resource_rows d' ≡ₚ row' :: filter (fun r => rw_ID r <> rw_ID row) (resource_rows d);
  save_reporter_resource_ok : forall row d d', save_reporter_resource row d = Ok d' ->
    frame_reporter_resources d d'
    /\ bigint (rrw_RepresentationVersion row) /\ bigint (rrw_Generation row)
    /\ Forall (fun r => ~ rrw_conflict row r) (reporter_resource_rows d)
    /\ exists row', same_reporter_resource row row' /\
      reporter_resource_rows d' ≡ₚ
        row' :: filter (fun r => rrw_ID r <> rrw_ID row) (reporter_resource_rows d);
  save_reporter_resource_dup : forall row d,
    Exists (rrw_conflict row) (reporter_resource_rows d) ->
    exists e, save_reporter_resource row d = Err e /\ errors_Is e ErrDuplicatedKey;
  create_reporter_representation_ok : forall row d d',
    create_reporter_representation row d = Ok d' ->
    frame_reporter_representations d d' /\ bigint (rpw_Version row) /\ bigint (rpw_Generation row)
    /\ reporter_representation_rows d' ≡ₚ row :: reporter_representation_rows d
    /\ Forall (fun r => ~ rpw_conflict row r) (reporter_representation_rows d);
  create_reporter_representation_dup : forall row d,
    Exists (rpw_conflict row) (reporter_representation_rows d) ->
    exists e, create_reporter_representation row d = Err e /\ errors_Is e ErrDuplicatedKey;
  create_common_representation_ok : forall row d d',
    create_common_representation row d = Ok d' ->
    frame_common_representations d d' /\ bigint (cw_Version row)
    /\ common_representation_rows d' ≡ₚ row :: common_representation_rows d
    /\ Forall (fun r => ~ cw_conflict row r) (common_representation_rows d);
  create_common_representation_dup : forall row d,
    Exists (cw_conflict row) (common_representation_rows d) ->
    exists e, create_common_representation row d = Err e /\ errors_Is e ErrDuplicatedKey;
  emit_message_ok : forall prefix content d d', emit_message prefix content d = Ok d' ->
    frame_emitted d d' /\ emitted d' = (emitted d ++ [(prefix, content)])%list;
  update_ktn_ok : forall id tok d d', update_ktn id tok d = Ok d' ->
    frame_resources d d' /\ exists rows, resource_rows d' ≡ₚ rows /\
      Forall2 (fun r r' => rw_ID r' = rw_ID r /\ rw_Type r' = rw_Type r
                 /\ rw_CommonVersion r' = rw_CommonVersion r
                 /\ rw_ConsistencyToken r'
                    = if bool_decide (uuid_String (rw_ID r) = id) then tok
                      else rw_ConsistencyToken r)
        (resource_rows d) rows;
}.

(** * The repository *)

(** One row of the result of [FindResourceByKeys]. *)
Record FindResourceByKeysResult := {
  fr_ReporterResourceID : uuid;
  fr_RepresentationVersion : Z;
  fr_Generation : Z;
  fr_Tombstone : bool;
  fr_CommonVersion : option Z;
  fr_LastCommonVersion : option Z;
  fr_ResourceID : uuid;
  fr_ResourceType : string;
  fr_LocalResourceID : string;
  fr_ReporterType : string;
  fr_ReporterInstanceID : string;
  fr_APIHref : string;
  fr_ConsoleHref : option string;
  fr_ConsistencyToken : string;
  fr_CreatedAt : time;
  fr_UpdatedAt : time;
}.

Definition ToSnapshots (result : FindResourceByKeysResult)
    : ResourceSnapshot * ReporterResourceSnapshot :=
  ({| res_ID := fr_ResourceID result; res_Type := fr_ResourceType result;
      res_CommonVersion := fr_CommonVersion result;
      res_LastCommonVersion := fr_LastCommonVersion result;
      res_ConsistencyToken := fr_ConsistencyToken result;
      res_CreatedAt := fr_CreatedAt result; res_UpdatedAt := fr_UpdatedAt result |},
   {| rs_ID := fr_ReporterResourceID result;
      rs_Key := {| ks_LocalResourceID := fr_LocalResourceID result;
                   ks_ReporterType := fr_ReporterType result;
                   ks_ResourceType := fr_ResourceType result;
                   ks_ReporterInstanceID := fr_ReporterInstanceID result |};
      rs_ResourceID := fr_ResourceID result; rs_APIHref := fr_APIHref result;
      rs_ConsoleHref := fr_ConsoleHref result;
      rs_RepresentationVersion := fr_RepresentationVersion result;
      rs_Generation := fr_Generation result; rs_Tombstone := fr_Tombstone result;
      rs_CreatedAt := fr_CreatedAt result; rs_UpdatedAt := fr_UpdatedAt result |}).

Definition ToSnapshotsFromResults (results : list FindResourceByKeysResult)
    : option ResourceSnapshot * list ReporterResourceSnapshot :=
  match results with
  | [] => (None, [])
  | r :: _ => (Some (ToSnapshots r).1, (fun r => (ToSnapshots r).2) <$> results)
  end.

(** The WHERE clause on [rr]: an empty reporter instance id matches any. *)
Definition buildReporterResourceKeyQuery (key : ReporterResourceKey) (rr : ReporterResourceRow)
    : bool :=
  bool_decide (rrw_LocalResourceID rr = localResourceID key)
  && bool_decide (rrw_ResourceType rr = resourceType key)
  && bool_decide (rrw_ReporterType rr = reporterType (reporter key))
  && (bool_decide (reporterInstanceId (reporter key) = "")
      || bool_decide (rrw_ReporterInstanceID rr = reporterInstanceId (reporter key))).

(** [SELECT MAX(version)]: NULL over no rows. *)
Definition max_version (vs : list Z) : option Z :=
  foldr (fun v acc => Some (match acc with None => v | Some m => Z.max v m end)) None vs.

(** ORDER BY tombstone ASC, representation_version DESC, generation DESC. *)
Definition result_before (a b : FindResourceByKeysResult) : Prop :=
  let key r := ((if fr_Tombstone r then 1 else 0), - fr_RepresentationVersion r,
                - fr_Generation r)%Z in
  let '(ta, va, ga) := key a in
  let '(tb, vb, gb) := key b in
  (ta < tb \/ ta = tb /\ (va < vb \/ va = vb /\ ga <= gb))%Z.

#[export] Instance result_before_dec : RelDecision result_before.
Proof. intros a b. unfold result_before. simpl. apply _. Defined.

Definition version_desc (a b : CommonRepresentationRow) : Prop :=
  (cw_Version b <= cw_Version a)%Z.

#[export] Instance version_desc_dec : RelDecision version_desc.
Proof. intros a b. unfold version_desc. apply _. Defined.

(** What one call of the process draws from outside: the clock, the fresh
    UUIDs of [uuid.NewV7()] and [uuid.NewUUID()], and the outbox mode. *)
Record env := {
  env_now : time;
  env_resourceId : result uuid;
  env_reporterResourceId : result uuid;
  env_eventId : result uuid;
  env_walId1 : result uuid;
  env_walId2 : result uuid;
  env_outboxMode : string;
}.

Section Repository.
Context {D : Type} `{GormDB D} `{OutboxLib}.

Definition NextResourceId (e : env) : result ResourceId :=
  let! uuidV7 := env_resourceId e in NewResourceId uuidV7.

Definition NextReporterResourceId (e : env) : result ReporterResourceId :=
  let! uuidV7 := env_reporterResourceId e in NewReporterResourceId uuidV7.

(** The publisher of the mode, on the database: [publishOutboxEventWAL] emits
    its message as a statement of the transaction. *)
Definition outboxPublisher (mode : string) (newV7 : result uuid) (event : OutboxEvent) (d : D)
    : result D :=
  if bool_decide (mode = "wal") then
    let! msg := wrap_err "failed to create WAL message"
                  (mapOutboxEventToWALMessage newV7 event) in
    wrap_err "failed to emit WAL message"
      (emit_message (oe_AggregateType event) (walOutboxMessage_Marshal msg) d)
  else Ok d.

Definition handleOutboxEvents (e : env) (resourceEvent : DomainEvent)
    (operationType : eventOperationType) (txid : TransactionId) (d : D) : result D :=
  let! messages := NewOutboxEventsFromResourceEvent (env_now e) (env_eventId e)
                     resourceEvent operationType txid in
  let! d := outboxPublisher (env_outboxMode e) (env_walId1 e) messages.1 d in
  outboxPublisher (env_outboxMode e) (env_walId2 e) messages.2 d.

Definition ReasonNonUniqueTransactionID : string := "NON-UNIQUE TRANSACTION ID".

(** The error of a [tx.Create]: a duplicate key becomes a bad request. *)
Definition create_error (msg : string) {A} (m : result A) : result A :=
  match m with
  | Ok a => Ok a
  | Err err =>
      if errors_Is err ErrDuplicatedKey
      then Err (EKratos InvalidArgument ReasonNonUniqueTransactionID err)
      else Err (EWrap msg err)
  end.

Definition Save (e : env) (resource : Resource) (operationType : eventOperationType)
    (txid : TransactionId) (d : D) : result D :=
  let '(resourceSnapshot, reporterResourceSnapshot, reporterRepresentationSnapshot,
        commonRepresentationSnapshot) := Resource_Serialize (env_now e) resource in
  let! d := wrap_err "failed to save resource"
    (save_resource (DeserializeResourceFromSnapshot resourceSnapshot) d) in
  let! d := wrap_err "failed to save reporter resource"
    (save_reporter_resource
       (DeserializeReporterResourceFromSnapshot reporterResourceSnapshot) d) in
  let! d :=
    match reporterRepresentationSnapshot with
    | None => Ok d
    | Some s => create_error "failed to save reporter representation"
        (create_reporter_representation (DeserializeReporterRepresentationFromSnapshot s) d)
    end in
  let! d :=
    match commonRepresentationSnapshot with
    | None => Ok d
    | Some s => create_error "failed to save common representation"
        (create_common_representation (DeserializeCommonRepresentationFromSnapshot s) d)
    end in
  match operationType with
  | OperationTypeDeleted =>
      match r_resourceDeleteEvents resource with
      | [] => Ok d
      | de :: _ => handleOutboxEvents e (DeleteEvent de) operationType txid d
      end
  | _ =>
      match r_resourceReportEvents resource with
      | [] => Err (EPanic "index out of range [0] with length 0")
      | re :: _ => handleOutboxEvents e (ReportEvent re) operationType txid d
      end
  end.

(** The rows of the join [rr], [rr2], [res]. *)
Definition last_common_version (d : D) (resource_id : uuid) : option Z :=
  max_version (cw_Version <$>
    filter (fun cr => cw_ResourceId cr = resource_id) (common_representation_rows d)).

Definition join_result (d : D) (rr2 : ReporterResourceRow) (res : ResourceRow)
    : FindResourceByKeysResult :=
  {| fr_ReporterResourceID := rrw_ID rr2;
     fr_RepresentationVersion := rrw_RepresentationVersion rr2;
     fr_Generation := rrw_Generation rr2; fr_Tombstone := rrw_Tombstone rr2;
     fr_CommonVersion := rw_CommonVersion res;
     fr_LastCommonVersion := last_common_version d (rw_ID res);
     fr_ResourceID := rw_ID res; fr_ResourceType := rrw_ResourceType rr2;
     fr_LocalResourceID := rrw_LocalResourceID rr2; fr_ReporterType := rrw_ReporterType rr2;
     fr_ReporterInstanceID := rrw_ReporterInstanceID rr2; fr_APIHref := rrw_APIHref rr2;
     fr_ConsoleHref := rrw_ConsoleHref rr2; fr_ConsistencyToken := rw_ConsistencyToken res;
     fr_CreatedAt := rw_CreatedAt res; fr_UpdatedAt := rw_UpdatedAt res |}.

Definition key_rows (d : D) (key : ReporterResourceKey) : list ReporterResourceRow :=
  List.filter (buildReporterResourceKeyQuery key) (reporter_resource_rows d).

Definition joined_results (d : D) (key : ReporterResourceKey) : list FindResourceByKeysResult :=
  rr ← key_rows d key;
  rr2 ← filter (fun rr2 => rrw_ResourceID rr2 = rrw_ResourceID rr) (reporter_resource_rows d);
  res ← filter (fun res => rw_ID res = rrw_ResourceID rr2) (resource_rows d);
  [join_result d rr2 res].

Definition FindResourceByKeys (d : D) (key : ReporterResourceKey) : result Resource :=
  match query_error d with
  | Some err => Err (EWrap "failed to find resource by keys" err)
  | None =>
      let results := merge_sort result_before (joined_results d key) in
      let '(resourceSnapshot, reporterResourceSnapshots) := ToSnapshotsFromResults results in
      match DeserializeResource resourceSnapshot reporterResourceSnapshots None None with
      | None => Err (ESentinel ErrRecordNotFound)
      | Some resource => Ok resource
      end
  end.

(** The rows of the join of [rr] with the common representations. *)
Definition common_rows (d : D) (key : ReporterResourceKey) : list CommonRepresentationRow :=
  rr ← key_rows d key;
  filter (fun cr => cw_ResourceId cr = rrw_ResourceID rr) (common_representation_rows d).

(** The loop over the rows that picks [current] and [previous]. *)
Fixpoint pick_versions (cv : Z) (rows : list CommonRepresentationRow)
    (acc : option Representations * option Representations)
    : result (option Representations * option Representations) :=
  match rows with
  | [] => Ok acc
  | row :: rows' =>
      let! rep := wrap_err "failed to create representation"
        (NewRepresentations (cw_Data row) (Some (cw_Version row)) None None) in
      pick_versions cv rows'
        (if bool_decide (cw_Version row = cv) then (Some rep, acc.2)
         else if bool_decide (0 < cv)%Z && bool_decide (cw_Version row = u64 (cv - 1))
         then (acc.1, Some rep) else acc)
  end.

Definition version_selected (operationType : eventOperationType) (cv v : Z) : bool :=
  match operationType with
  | OperationTypeCreated => bool_decide (v = cv)
  | _ => bool_decide (v = cv) || bool_decide (v = u64 (cv - 1))
  end.

(** The error of the query: a statement that fails, or a parameter that the
    driver cannot bind; [cv-1] wraps around at 0. *)
Definition versions_query_error (d : D) (operationType : eventOperationType) (cv : Z)
    : option go_error :=
  match query_error d, bind_error cv, operationType with
  | Some err, _, _ => Some err
  | None, Some err, _ => Some err
  | None, None, OperationTypeCreated => None
  | None, None, _ => bind_error (u64 (cv - 1))
  end.

Definition FindCurrentAndPreviousVersionedRepresentations (d : D) (key : ReporterResourceKey)
    (currentCommonVersion : option Version) (operationType : eventOperationType)
    : result (option Representations * option Representations) :=
  match currentCommonVersion with
  | None => Ok (None, None)
  | Some cv =>
      match versions_query_error d operationType cv with
      | Some err => Err (EWrap "failed to find common representations by version" err)
      | None =>
          pick_versions cv
            (List.filter (fun cr => version_selected operationType cv (cw_Version cr))
               (common_rows d key)) (None, None)
      end
  end.

(** ORDER BY version DESC LIMIT 1 *)
Definition latest_row (rows : list CommonRepresentationRow) : option CommonRepresentationRow :=
  head (merge_sort version_desc rows).

(** [Scan] of no row leaves the zero struct: nil data and version 0. *)
Definition FindLatestRepresentations (d : D) (key : ReporterResourceKey)
    : result Representations :=
  match query_error d with
  | Some err => Err (EWrap "failed to find latest representations" err)
  | None =>
      let '(data, version) :=
        match latest_row (common_rows d key) with
        | Some row => (cw_Data row, cw_Version row)
        | None => (None, 0%Z)
        end in
      wrap_err "failed to create representation"
        (NewRepresentations data (Some version) None None)
  end.

Definition HasTransactionIdBeenProcessed (d : D) (transactionId : TransactionId) : result bool :=
  match query_error d with
  | Some err => Err (EWrap "failed to check representations for the transaction_id" err)
  | None =>
      Ok (existsb (fun r => bool_decide (rpw_TransactionId r = transactionId))
            (reporter_representation_rows d)
          || existsb (fun r => bool_decide (cw_TransactionId r = transactionId))
               (common_representation_rows d))
  end.
End Repository.

(** * The interface the use cases and the consumer program against

    internal/biz/model/resource_repository.go; [R] is what the repository
    stores.  A call that fails inside a transaction leaves no trace of it. *)
Class ResourceRepository (R : Type) := {
  repo_NextResourceId : env -> result ResourceId;
  repo_NextReporterResourceId : env -> result ReporterResourceId;
  repo_Save : env -> Resource -> eventOperationType -> TransactionId -> R -> result R;
  repo_FindResourceByKeys : R -> ReporterResourceKey -> result Resource;
  repo_FindCurrentAndPreviousVersionedRepresentations :
    R -> ReporterResourceKey -> option Version -> eventOperationType ->
    result (option Representations * option Representations);
  repo_FindLatestRepresentations : R -> ReporterResourceKey -> result Representations;
  repo_HasTransactionIdBeenProcessed : R -> TransactionId -> result bool;
}.

#[export] Instance resourceRepository {D} `{GormDB D} `{OutboxLib} : ResourceRepository D := {|
  repo_NextResourceId := NextResourceId;
  repo_NextReporterResourceId := NextReporterResourceId;
  repo_Save := Save;
  repo_FindResourceByKeys := FindResourceByKeys;
  repo_FindCurrentAndPreviousVersionedRepresentations :=
    FindCurrentAndPreviousVersionedRepresentations;
  repo_FindLatestRepresentations := FindLatestRepresentations;
  repo_HasTransactionIdBeenProcessed := HasTransactionIdBeenProcessed;
|}.

(** * The transaction manager *)

Definition isSerializationFailure (err : go_error) : bool :=
  bool_decide (errors_As_pg err = Some "40001")
  || bool_decide (errors_As_sqlite err = Some 1%Z).

Section TransactionManager.
Context {R A : Type}.

(** The world of one call: attempt [i] runs on the state the other
    transactions left ([concurrent i]), and [commit i] is the error of its
    COMMIT.  Isolation is serializable: nothing interleaves with an attempt
    that commits.  [txFunc i] is the closure as attempt [i] runs it, with the
    clock and the fresh ids of that attempt; it also returns the variable the
    closure captures ([operationType] of the caller). *)
Context (concurrent : nat -> R -> R) (commit : nat -> option go_error).

Fixpoint attempts (left i : nat) (txFunc : nat -> R -> result (R * A)) (err : option go_error)
    (d : R) : R * result A :=
  match left with
  | O => (d, Err (match err with
                  | Some e => EWrap "transaction failed after all attempts" e
                  | None => EMsg "transaction failed after all attempts"
                  end))
  | S left' =>
      let d := concurrent i d in
      match txFunc i d with
      | Err err =>
          if is_panic err then (d, Err err)
          else if isSerializationFailure err then attempts left' (S i) txFunc (Some err) d
          else (d, Err (EWrap "transaction failed" err))
      | Ok (d', a) =>
          match commit i with
          | Some err =>
              if isSerializationFailure err then attempts left' (S i) txFunc (Some err) d
              else (d, Err (EWrap "committing transaction failed" err))
          | None => (d', Ok a)
          end
      end
  end.

Definition HandleSerializableTransaction (maxSerializationRetries : nat)
    (txFunc : nat -> R -> result (R * A)) (d : R) : R * result A :=
  attempts maxSerializationRetries 0 txFunc None d.

(** What the other transactions did to the state before attempt [n]. *)
Fixpoint others (i n : nat) (d : R) : R :=
  match n with O => d | S n' => others (S i) n' (concurrent i d) end.
End TransactionManager.
