(* ===== verification/Tables.v ===== *)
(** A concrete database: the four tables as lists of rows, with their primary
    keys and unique indices.  It satisfies the laws the repository relies on,
    and the witnesses of the development run on it. *)
From stdpp Require Import base tactics list strings gmap.
From Stdlib Require Import ZArith Lia Ascii.
From S2P Require Import Prelude GoStrings Common ReporterResource Representations Resource.
From S2P Require Import Json DataModel Outbox Store.

Local Open Scope string_scope.

(** [tb_error] is the SQLSTATE every statement fails with, if it is set. *)
Record Tables := {
  tb_resources : list ResourceRow;
  tb_reporter_resources : list ReporterResourceRow;
  tb_reporter_representations : list ReporterRepresentationRow;
  tb_common_representations : list CommonRepresentationRow;
  tb_emitted : list (string * json);
  tb_error : option string;
}.

Definition empty_tables : Tables :=
  {| tb_resources := []; tb_reporter_resources := []; tb_reporter_representations := [];
     tb_common_representations := []; tb_emitted := []; tb_error := None |}.

Definition out_of_range : go_error := EPg "22003".

Definition guarded (d : Tables) (ok : bool) (err : go_error) (d' : Tables) : result Tables :=
  match tb_error d with
  | Some code => Err (EPg code)
  | None => if ok then Ok d' else Err err
  end.

Definition tb_save_resource (row : ResourceRow) (d : Tables) : result Tables :=
  guarded d (bool_decide (bigint_opt (rw_CommonVersion row))) out_of_range
    {| tb_resources := row :: filter (fun r => rw_ID r <> rw_ID row) (tb_resources d);
       tb_reporter_resources := tb_reporter_resources d;
       tb_reporter_representations := tb_reporter_representations d;
       tb_common_representations := tb_common_representations d;
       tb_emitted := tb_emitted d; tb_error := tb_error d |}.

Definition tb_save_reporter_resource (row : ReporterResourceRow) (d : Tables) : result Tables :=
  if decide (Exists (rrw_conflict row) (tb_reporter_resources d))
  then Err (ESentinel ErrDuplicatedKey)
  else guarded d (bool_decide (bigint (rrw_RepresentationVersion row) /\ bigint (rrw_Generation row)))
    out_of_range
    {| tb_resources := tb_resources d;
       tb_reporter_resources :=
         row :: filter (fun r => rrw_ID r <> rrw_ID row) (tb_reporter_resources d);
       tb_reporter_representations := tb_reporter_representations d;
       tb_common_representations := tb_common_representations d;
       tb_emitted := tb_emitted d; tb_error := tb_error d |}.

(** An insert: the duplicate is reported first, then the range. *)
Definition tb_create_reporter_representation (row : ReporterRepresentationRow) (d : Tables)
    : result Tables :=
  if decide (Exists (rpw_conflict row) (tb_reporter_representations d))
  then Err (ESentinel ErrDuplicatedKey)
  else guarded d (bool_decide (bigint (rpw_Version row) /\ bigint (rpw_Generation row)))
    out_of_range
    {| tb_resources := tb_resources d; tb_reporter_resources := tb_reporter_resources d;
       tb_reporter_representations := row :: tb_reporter_representations d;
       tb_common_representations := tb_common_representations d;
       tb_emitted := tb_emitted d; tb_error := tb_error d |}.

Definition tb_create_common_representation (row : CommonRepresentationRow) (d : Tables)
    : result Tables :=
  if decide (Exists (cw_conflict row) (tb_common_representations d))
  then Err (ESentinel ErrDuplicatedKey)
  else guarded d (bool_decide (bigint (cw_Version row))) out_of_range
    {| tb_resources := tb_resources d; tb_reporter_resources := tb_reporter_resources d;
       tb_reporter_representations := tb_reporter_representations d;
       tb_common_representations := row :: tb_common_representations d;
       tb_emitted := tb_emitted d; tb_error := tb_error d |}.

Definition tb_emit (prefix : string) (content : json) (d : Tables) : result Tables :=
  guarded d true out_of_range
    {| tb_resources := tb_resources d; tb_reporter_resources := tb_reporter_resources d;
       tb_reporter_representations := tb_reporter_representations d;
       tb_common_representations := tb_common_representations d;
       tb_emitted := (tb_emitted d ++ [(prefix, content)])%list; tb_error := tb_error d |}.

Section Tables.
Context `{OutboxLib}.

Definition with_ktn (id tok : string) (r : ResourceRow) : ResourceRow :=
  {| rw_ID := rw_ID r; rw_Type := rw_Type r; rw_CommonVersion := rw_CommonVersion r;
     rw_ConsistencyToken :=
       if bool_decide (uuid_String (rw_ID r) = id) then tok else rw_ConsistencyToken r;
     rw_CreatedAt := rw_CreatedAt r; rw_UpdatedAt := rw_UpdatedAt r |}.

Definition tb_update_ktn (id tok : string) (d : Tables) : result Tables :=
  guarded d true out_of_range
    {| tb_resources := with_ktn id tok <$> tb_resources d;
       tb_reporter_resources := tb_reporter_resources d;
       tb_reporter_representations := tb_reporter_representations d;
       tb_common_representations := tb_common_representations d;
       tb_emitted := tb_emitted d; tb_error := tb_error d |}.

#[export] Instance Tables_db : GormDB Tables := {|
  resource_rows := tb_resources;
  reporter_resource_rows := tb_reporter_resources;
  reporter_representation_rows := tb_reporter_representations;
  common_representation_rows := tb_common_representations;
  emitted := tb_emitted;
  save_resource := tb_save_resource;
  save_reporter_resource := tb_save_reporter_resource;
  create_reporter_representation := tb_create_reporter_representation;
  create_common_representation := tb_create_common_representation;
  emit_message := tb_emit;
  update_ktn := tb_update_ktn;
  query_error d := EPg <$> tb_error d;
  bind_error v := if bool_decide (bigint v) then None else Some out_of_range;
|}.

Lemma guarded_Ok d ok err d1 d' : guarded d ok err d1 = Ok d' -> ok = true /\ d' = d1.
Proof. unfold guarded. destruct (tb_error d), ok; by intros [= <-]. Qed.

Lemma guarded_plain d ok d1 : plain_result (guarded d ok out_of_range d1).
Proof. unfold guarded. by destruct (tb_error d), ok. Qed.

Lemma guarded_not_dup d ok d1 e :
  guarded d ok out_of_range d1 = Err e -> errors_Is e ErrDuplicatedKey = false.
Proof. unfold guarded. by destruct (tb_error d), ok; intros [= <-]. Qed.

#[export] Program Instance Tables_laws : GormLaws Tables.
Next Obligation. intros d e. simpl. destruct (tb_error d); by intros [= <-]; split. Qed.
Next Obligation. intros. apply guarded_plain. Qed.
Next Obligation.
  intros. simpl. unfold tb_save_reporter_resource. case_decide; [done|apply guarded_plain].
Qed.
Next Obligation.
  intros. simpl. unfold tb_create_reporter_representation.
  case_decide; [done|apply guarded_plain].
Qed.
Next Obligation.
  intros. simpl. unfold tb_create_common_representation.
  case_decide; [done|apply guarded_plain].
Qed.
Next Obligation. intros. apply guarded_plain. Qed.
Next Obligation.
  intros row d e. simpl. unfold tb_create_reporter_representation. case_decide; [done|].
  intros ->%guarded_not_dup. by intros [].
Qed.
Next Obligation.
  intros row d e. simpl. unfold tb_create_common_representation. case_decide; [done|].
  intros ->%guarded_not_dup. by intros [].
Qed.
Next Obligation. intros v Hv. simpl. by rewrite bool_decide_eq_true_2. Qed.
Next Obligation.
  intros row d d' [Hb%bool_decide_eq_true ->]%guarded_Ok. split; [by split_all|].
  split; [done|]. by exists row.
Qed.
Next Obligation.
  intros row d d'. simpl. unfold tb_save_reporter_resource.
  destruct (decide _) as [|Hn]; [done|]. intros [[Hb1 Hb2]%bool_decide_eq_true ->]%guarded_Ok.
  split; [by split_all|]. split_all; [done..| |by exists row].
  by apply not_Exists_Forall in Hn; [|apply _].
Qed.
Next Obligation.
  intros row d Hex. simpl in *. unfold tb_save_reporter_resource.
  rewrite decide_True by done. by eexists.
Qed.
Next Obligation.
  intros row d d'. simpl. unfold tb_create_reporter_representation.
  destruct (decide _) as [|Hn]; [done|]. intros [[Hb1 Hb2]%bool_decide_eq_true ->]%guarded_Ok.
  split; [by split_all|]. split_all; [done..|]. by apply not_Exists_Forall in Hn; [|apply _].
Qed.
Next Obligation.
  intros row d Hex. simpl in *. unfold tb_create_reporter_representation.
  rewrite decide_True by done. by eexists.
Qed.
Next Obligation.
  intros row d d'. simpl. unfold tb_create_common_representation.
  destruct (decide _) as [|Hn]; [done|]. intros [Hb%bool_decide_eq_true ->]%guarded_Ok.
  split; [by split_all|]. split_all; [done..|]. by apply not_Exists_Forall in Hn; [|apply _].
Qed.
Next Obligation.
  intros row d Hex. simpl in *. unfold tb_create_common_representation.
  rewrite decide_True by done. by eexists.
Qed.
Next Obligation. intros p c d d' [_ ->]%guarded_Ok. by split; [split_all|]. Qed.
Next Obligation.
  intros id tok d d' [_ ->]%guarded_Ok. split; [by split_all|]. eexists. split; [reflexivity|].
  simpl. apply Forall2_fmap_r, Forall_Forall2_diag, Forall_forall. intros r _. by split_all.
Qed.
End Tables.
