(* ===== verification/Schema.v ===== *)
(** internal/biz/model/schema.go, schema_service.go, schema_repository.go and
    internal/data/schema_*.go, inmemory_schema_repository.go: schemas, tuple
    calculation, the schema repository and report validation.

    The interface [model.Schema] has the implementations of the sources as its
    constructors; a nil [Schema] is [None].  JSON-schema validation is
    github.com/xeipuuv/gojsonschema's and enters through [JsonSchemaLib]. *)
From stdpp Require Import base tactics list strings gmap sets.
From Stdlib Require Import ZArith Lia.
From S2P Require Import Prelude GoStrings Common ReporterResource Representations Relations.

Local Open Scope string_scope.

(** * Relation definitions (schema.go) *)

Record RelationDef := {
  rd_fieldName : string;
  rd_relationName : string;
  rd_subjectNamespace : string;
  rd_subjectResourceType : string;
  rd_multiValued : bool;
}.

Definition NewRelationDef (fieldName relationName subjectNamespace subjectResourceType : string)
    (multiValued : bool) : result RelationDef :=
  if bool_decide (fieldName = "") then Err (EMsg "field name is required")
  else if bool_decide (relationName = "") then Err (EMsg "relation name is required")
  else if bool_decide (subjectNamespace = "") then Err (EMsg "subject namespace is required")
  else if bool_decide (subjectResourceType = "")
  then Err (EMsg "subject resource type is required")
  else Ok {| rd_fieldName := fieldName; rd_relationName := relationName;
             rd_subjectNamespace := subjectNamespace;
             rd_subjectResourceType := subjectResourceType; rd_multiValued := multiValued |}.

(** The values of a relation's field in a representation. *)
Definition relation_values (rel : RelationDef) (r : option Representations) : list string :=
  if rd_multiValued rel then StringSliceField r (rd_fieldName rel)
  else match StringField r (rd_fieldName rel) with "" => [] | v => [v] end.

(** The creates and deletes of one relation definition. *)
Definition relation_diff (rel : RelationDef) (current previous : option Representations)
    (key : ReporterResourceKey) : list RelationsTuple * list RelationsTuple :=
  DiffRelationValues key (rd_relationName rel) (rd_subjectNamespace rel)
    (rd_subjectResourceType rel) (relation_values rel current) (relation_values rel previous).

(** [allCreates = append(allCreates, creates...)], and the same for deletes. *)
Definition diff_round (current previous : option Representations) (key : ReporterResourceKey)
    (acc : list RelationsTuple * list RelationsTuple) (rel : RelationDef)
    : list RelationsTuple * list RelationsTuple :=
  let '(creates, deletes) := relation_diff rel current previous key in
  ((acc.1 ++ creates)%list, (acc.2 ++ deletes)%list).

Definition CalculateTuplesFromRelationDefs (relations : list RelationDef)
    (current previous : option Representations) (key : ReporterResourceKey)
    : result TuplesToReplicate :=
  let '(allCreates, allDeletes) := foldl (diff_round current previous key) ([], []) relations in
  NewTuplesToReplicate allCreates allDeletes.

(** * Schemas *)

Class JsonSchemaLib := {
  (** The validation of a document against a JSON schema text: an error when
      the schema cannot be loaded, else the list of violations. *)
  gojsonschema_Validate : string -> JsonObject -> result (list string);
}.

Inductive Schema :=
  | DefaultSchema
  | JsonSchemaWithWorkspaces (jsonSchema : string)
  | JsonSchemaWithRelations (jsonSchema : string) (relations : list RelationDef).

Definition DefaultSchema_CalculateTuples (currentRepresentation previousRepresentation :
    option Representations) (key : ReporterResourceKey) : result TuplesToReplicate :=
  let currentWorkspaceID := WorkspaceID currentRepresentation in
  let previousWorkspaceID := WorkspaceID previousRepresentation in
  if bool_decide (previousWorkspaceID <> "") &&
     bool_decide (previousWorkspaceID = currentWorkspaceID)
  then Ok {| tuplesToCreate := None; tuplesToDelete := None |}
  else
    let tuplesToCreate :=
      if bool_decide (currentWorkspaceID <> "")
      then [NewWorkspaceRelationsTuple currentWorkspaceID key] else [] in
    let tuplesToDelete :=
      if bool_decide (previousWorkspaceID <> "")
      then [NewWorkspaceRelationsTuple previousWorkspaceID key] else [] in
    NewTuplesToReplicate tuplesToCreate tuplesToDelete.

Definition validateJsonSchema `{JsonSchemaLib} (jsonSchema : string) (data : JsonObject)
    : result bool :=
  match gojsonschema_Validate jsonSchema data with
  | Err e => Err (EWrap "validation error" e)
  | Ok [] => Ok true
  | Ok errMsgs => Err (EMsg ("validation failed: " +:+ Join errMsgs "; "))
  end.

Definition Schema_Validate `{JsonSchemaLib} (s : Schema) (data : JsonObject) : result bool :=
  match s with
  | DefaultSchema => Ok true
  | JsonSchemaWithWorkspaces js => validateJsonSchema js data
  | JsonSchemaWithRelations js _ => validateJsonSchema js data
  end.

Definition Schema_CalculateTuples (s : Schema) (current previous : option Representations)
    (key : ReporterResourceKey) : result TuplesToReplicate :=
  match s with
  | DefaultSchema => DefaultSchema_CalculateTuples current previous key
  | JsonSchemaWithWorkspaces _ => DefaultSchema_CalculateTuples current previous key
  | JsonSchemaWithRelations _ rels => CalculateTuplesFromRelationDefs rels current previous key
  end.

(** schema_features_service.go, schema_factory.go *)
Definition featureNamespace : string := "features".

Definition serviceRelations : list RelationDef :=
  [ {| rd_fieldName := "allowed_workspaces"; rd_relationName := "allowed_workspaces";
       rd_subjectNamespace := RbacNamespace; rd_subjectResourceType := "workspace";
       rd_multiValued := true |};
    {| rd_fieldName := "billing_account"; rd_relationName := "billing_account";
       rd_subjectNamespace := featureNamespace; rd_subjectResourceType := "billing_account";
       rd_multiValued := true |};
    {| rd_fieldName := "parent"; rd_relationName := "parent";
       rd_subjectNamespace := featureNamespace; rd_subjectResourceType := "service";
       rd_multiValued := false |} ].

Definition billingAccountRelations : list RelationDef :=
  [ {| rd_fieldName := "workspaces"; rd_relationName := "workspace";
       rd_subjectNamespace := RbacNamespace; rd_subjectResourceType := "workspace";
       rd_multiValued := true |} ].

Definition DefaultSchemaFactory (_ : ResourceType) (jsonSchema : string) : Schema :=
  JsonSchemaWithWorkspaces jsonSchema.

Definition FeaturesAwareSchemaFactory (resourceType : ResourceType) (jsonSchema : string)
    : Schema :=
  if bool_decide (resourceType = "service") then JsonSchemaWithRelations jsonSchema serviceRelations
  else if bool_decide (resourceType = "billing_account")
  then JsonSchemaWithRelations jsonSchema billingAccountRelations
  else JsonSchemaWithWorkspaces jsonSchema.

(** * Schema representations and the repository interface *)

Record ResourceSchemaRepresentation := {
  rsr_resourceType : ResourceType;
  rsr_schema : option Schema;
}.

Record ReporterSchemaRepresentation := {
  psr_resourceType : ResourceType;
  psr_reporterType : ReporterType;
  psr_schema : option Schema;
}.

Definition NewResourceSchemaRepresentation (resourceType : ResourceType) (schema : option Schema)
    : result ResourceSchemaRepresentation :=
  if bool_decide (resourceType = "") then Err (EMsg "resource type is required")
  else Ok {| rsr_resourceType := resourceType; rsr_schema := schema |}.

Definition NewReporterSchemaRepresentation (resourceType : ResourceType)
    (reporterType : ReporterType) (schema : option Schema)
    : result ReporterSchemaRepresentation :=
  if bool_decide (resourceType = "") then Err (EMsg "resource type is required")
  else if bool_decide (reporterType = "") then Err (EMsg "reporter type is required")
  else Ok {| psr_resourceType := resourceType; psr_reporterType := reporterType;
             psr_schema := schema |}.

(** schema_repository.go: what the schema service reads. *)
Class SchemaRepository (S : Type) := {
  GetResourceSchema : S -> ResourceType -> result ResourceSchemaRepresentation;
  GetReporterSchema : S -> ResourceType -> ReporterType -> result ReporterSchemaRepresentation;
}.

(** * The schema service (schema_service.go) *)

Section SchemaService.
Context {S : Type} `{SchemaRepository S} `{JsonSchemaLib}.
Implicit Type sc : S.

Definition CalculateTuplesForResource sc (current previous : option Representations)
    (key : ReporterResourceKey) : result TuplesToReplicate :=
  match GetResourceSchema sc (resourceType key) with
  | Err e =>
      if errors_Is e ErrResourceSchemaNotFound
      then Schema_CalculateTuples DefaultSchema current previous key
      else Err e
  | Ok resource =>
      match rsr_schema resource with
      | Some schema => Schema_CalculateTuples schema current previous key
      | None => Err (EPanic "invalid memory address or nil pointer dereference")
      end
  end.

(** [(bool, error)] of the source; an error comes with [false]. *)
Definition IsReporterForResource sc (resourceType : ResourceType) (reporterType : ReporterType)
    : bool * option go_error :=
  match GetReporterSchema sc resourceType reporterType with
  | Err e =>
      if errors_Is e ErrResourceSchemaNotFound || errors_Is e ErrReporterSchemaNotFound
      then (false, None) else (false, Some e)
  | Ok _ => (true, None)
  end.

(** [if !hasData { rep = NewEmptyRepresentation() }] *)
Definition or_empty (r : Representation) : Representation :=
  if nonempty r then r else NewEmptyRepresentation.

Definition CommonShallowValidate sc (resourceType : ResourceType)
    (commonRepresentation : Representation) : result unit :=
  match GetResourceSchema sc resourceType with
  | Err e => Err (EWrap "failed to load common representation schema" e)
  | Ok resource =>
      match rsr_schema resource with
      | None => Err (EMsg "no schema found")
      | Some schema =>
          match Schema_Validate schema (or_empty commonRepresentation) with
          | Ok _ => Ok tt
          | Err e =>
              if nonempty commonRepresentation then Err e
              else Err (EWrap "missing 'common' field in payload - schema has required fields" e)
          end
      end
  end.

Definition ReporterShallowValidate sc (resourceType : ResourceType)
    (reporterType : ReporterType) (reporterRepresentation : Representation) : result unit :=
  let! reporter := GetReporterSchema sc resourceType reporterType in
  match psr_schema reporter with
  | None =>
      if nonempty reporterRepresentation
      then Err (EMsg "no schema found, but reporter representation was provided. Submission is not allowed")
      else Ok tt
  | Some schema =>
      match Schema_Validate schema (or_empty reporterRepresentation) with
      | Ok _ => Ok tt
      | Err e =>
          if nonempty reporterRepresentation then Err e
          else Err (EWrap "missing 'reporter' field in payload - schema has required fields" e)
      end
  end.

Definition ValidateReportAgainstSchema sc (resourceType : ResourceType)
    (reporterType : ReporterType)
    (commonRepresentation reporterRepresentation : option Representation) : result unit :=
  match IsReporterForResource sc resourceType reporterType with
  | (false, Some e) => Err e
  | (false, None) => Err (EMsg "reporter does not report resource types")
  | (true, _) =>
      check! match reporterRepresentation with
             | None => Ok tt
             | Some r => ReporterShallowValidate sc resourceType reporterType r
             end in
      match commonRepresentation with
      | None => Ok tt
      | Some r => CommonShallowValidate sc resourceType r
      end
  end.
End SchemaService.

(** * The in-memory repository (inmemory_schema_repository.go) *)

Record resourceEntry := {
  re_schema : ResourceSchemaRepresentation;
  re_reporters : gmap string ReporterSchemaRepresentation;
}.

Abbreviation InMemorySchemaRepository := (gmap string resourceEntry).

Module InMemory.
Definition NewInMemorySchemaRepository : InMemorySchemaRepository := ∅.

Definition getResourceEntry (o : InMemorySchemaRepository) (resourceType : ResourceType)
    : result resourceEntry :=
  match o !! resourceType with
  | Some entry => Ok entry
  | None => Err (ESentinel ErrResourceSchemaNotFound)
  end.

Definition GetResourceSchemas (o : InMemorySchemaRepository) : list ResourceType :=
  (map_to_list o).*1.

Definition CreateResourceSchema (o : InMemorySchemaRepository)
    (resource : ResourceSchemaRepresentation) : result InMemorySchemaRepository :=
  match o !! rsr_resourceType resource with
  | Some _ => Err (EMsg "resource already exists")
  | None => Ok (<[rsr_resourceType resource :=
                   {| re_schema := resource; re_reporters := ∅ |}]> o)
  end.

Definition GetResourceSchema (o : InMemorySchemaRepository) (resourceType : ResourceType)
    : result ResourceSchemaRepresentation :=
  match o !! resourceType with
  | None => Err (ESentinel ErrResourceSchemaNotFound)
  | Some resource => Ok (re_schema resource)
  end.

Definition UpdateResourceSchema (o : InMemorySchemaRepository)
    (resource : ResourceSchemaRepresentation) : result InMemorySchemaRepository :=
  match o !! rsr_resourceType resource with
  | None => Err (ESentinel ErrResourceSchemaNotFound)
  | Some entry => Ok (<[rsr_resourceType resource :=
                         {| re_schema := resource; re_reporters := re_reporters entry |}]> o)
  end.

Definition DeleteResourceSchema (o : InMemorySchemaRepository) (resourceType : ResourceType)
    : result InMemorySchemaRepository :=
  match o !! resourceType with
  | None => Err (ESentinel ErrResourceSchemaNotFound)
  | Some _ => Ok (delete resourceType o)
  end.

Definition GetReporterSchemas (o : InMemorySchemaRepository) (resourceType : ResourceType)
    : result (list ReporterType) :=
  let! entry := getResourceEntry o resourceType in
  Ok (psr_reporterType <$> (map_to_list (re_reporters entry)).*2).

(** [entry.reporters[...] = ...] through the pointer to the entry. *)
Definition set_reporters (o : InMemorySchemaRepository) (resourceType : ResourceType)
    (entry : resourceEntry) (reps : gmap string ReporterSchemaRepresentation)
    : InMemorySchemaRepository :=
  <[resourceType := {| re_schema := re_schema entry; re_reporters := reps |}]> o.

Definition CreateReporterSchema (o : InMemorySchemaRepository)
    (resourceReporter : ReporterSchemaRepresentation) : result InMemorySchemaRepository :=
  let! entry := getResourceEntry o (psr_resourceType resourceReporter) in
  match re_reporters entry !! psr_reporterType resourceReporter with
  | Some _ => Err (EMsg "reporter for entry already exist")
  | None => Ok (set_reporters o (psr_resourceType resourceReporter) entry
                  (<[psr_reporterType resourceReporter := resourceReporter]>
                     (re_reporters entry)))
  end.

Definition GetReporterSchema (o : InMemorySchemaRepository) (resourceType : ResourceType)
    (reporterType : ReporterType) : result ReporterSchemaRepresentation :=
  let! entry := getResourceEntry o resourceType in
  match re_reporters entry !! reporterType with
  | None => Err (ESentinel ErrReporterSchemaNotFound)
  | Some reporter => Ok reporter
  end.

Definition UpdateReporterSchema (o : InMemorySchemaRepository)
    (resourceReporter : ReporterSchemaRepresentation) : result InMemorySchemaRepository :=
  let! entry := getResourceEntry o (psr_resourceType resourceReporter) in
  match re_reporters entry !! psr_reporterType resourceReporter with
  | None => Err (ESentinel ErrReporterSchemaNotFound)
  | Some _ => Ok (set_reporters o (psr_resourceType resourceReporter) entry
                    (<[psr_reporterType resourceReporter := resourceReporter]>
                       (re_reporters entry)))
  end.

Definition DeleteReporterSchema (o : InMemorySchemaRepository) (resourceType : ResourceType)
    (reporterType : ReporterType) : result InMemorySchemaRepository :=
  let! entry := getResourceEntry o resourceType in
  match re_reporters entry !! reporterType with
  | None => Err (ESentinel ErrReporterSchemaNotFound)
  | Some _ => Ok (set_reporters o resourceType entry (delete reporterType (re_reporters entry)))
  end.
End InMemory.

#[export] Instance InMemorySchemaRepository_repository :
  SchemaRepository InMemorySchemaRepository := {
  GetResourceSchema := InMemory.GetResourceSchema;
  GetReporterSchema := InMemory.GetReporterSchema;
}.
