(* ===== verification/SchemaProps.v ===== *)
(** Properties of tuple calculation, of the schema service and of the
    in-memory schema repository (Relations.v, Schema.v). *)
From stdpp Require Import base tactics list strings gmap sets.
From Stdlib Require Import ZArith Lia.
From S2P Require Import Prelude GoStrings Common ReporterResource Representations Relations Schema.

Local Open Scope string_scope.

(** * Tuple calculation *)

(** The tuples a list of relation definitions prescribes for a
    representation: the specification the diff implements. *)
Definition spec_tuples (relations : list RelationDef) (r : option Representations)
    (key : ReporterResourceKey) (t : RelationsTuple) : Prop :=
  exists rel v, rel ∈ relations /\ v ∈ relation_values rel r /\
    t = NewRelationTupleForSubject key (rd_relationName rel) (rd_subjectNamespace rel)
          (rd_subjectResourceType rel) v.

(** Relation definitions that write distinct (relation, subject type) pairs. *)
Definition distinct_relations (relations : list RelationDef) : Prop :=
  NoDup ((fun rel => (rd_relationName rel, rd_subjectNamespace rel,
                      rd_subjectResourceType rel)) <$> relations).

#[export] Instance distinct_relations_dec rels : Decision (distinct_relations rels).
Proof. unfold distinct_relations. apply _. Defined.

Lemma distinct_same rels r1 r2 : distinct_relations rels -> r1 ∈ rels -> r2 ∈ rels ->
  rd_relationName r1 = rd_relationName r2 ->
  rd_subjectNamespace r1 = rd_subjectNamespace r2 ->
  rd_subjectResourceType r1 = rd_subjectResourceType r2 -> r1 = r2.
Proof.
  unfold distinct_relations. induction rels as [|r rels IH]; [by intros _ ?%not_elem_of_nil|].
  rewrite fmap_cons, NoDup_cons, !elem_of_cons. intros [Hn Hd] H1 H2 E1 E2 E3.
  destruct H1 as [->|H1], H2 as [->|H2]; try done; [| |by apply IH];
    exfalso; apply Hn; apply list_elem_of_fmap; [exists r2|exists r1];
    (split; [congruence|done]).
Qed.

Definition spec_tuple_list (relations : list RelationDef) (r : option Representations)
    (key : ReporterResourceKey) : list RelationsTuple :=
  relations ≫= fun rel =>
    NewRelationTupleForSubject key (rd_relationName rel) (rd_subjectNamespace rel)
      (rd_subjectResourceType rel) <$> relation_values rel r.

Lemma spec_tuples_iff rels r key t :
  spec_tuples rels r key t <-> t ∈ spec_tuple_list rels r key.
Proof.
  unfold spec_tuples, spec_tuple_list. rewrite list_elem_of_bind.
  setoid_rewrite list_elem_of_fmap. naive_solver.
Qed.

#[export] Instance spec_tuples_dec rels r key t : Decision (spec_tuples rels r key t).
Proof.
  refine (cast_if (decide (t ∈ spec_tuple_list rels r key))); by rewrite spec_tuples_iff.
Defined.

Lemma fold_diff_members rels current previous key acc t :
  (t ∈ (foldl (diff_round current previous key) acc rels).1 <->
     t ∈ acc.1 \/ exists rel, rel ∈ rels /\ t ∈ (relation_diff rel current previous key).1) /\
  (t ∈ (foldl (diff_round current previous key) acc rels).2 <->
     t ∈ acc.2 \/ exists rel, rel ∈ rels /\ t ∈ (relation_diff rel current previous key).2).
Proof.
  revert acc. induction rels as [|rel rels IH]; intros acc; cbn [foldl].
  - rewrite !exists_elem_nil. tauto.
  - destruct (IH (diff_round current previous key acc rel)) as [H1 H2].
    rewrite H1, H2, !exists_elem_cons. unfold diff_round.
    destruct (relation_diff rel current previous key) as [cs ds]. simpl.
    rewrite !elem_of_app. tauto.
Qed.

Lemma CalculateTuples_members rels current previous key ttr t :
  CalculateTuplesFromRelationDefs rels current previous key = Ok ttr ->
  (t ∈ default [] (tuplesToCreate ttr) <->
     exists rel, rel ∈ rels /\ t ∈ (relation_diff rel current previous key).1) /\
  (t ∈ default [] (tuplesToDelete ttr) <->
     exists rel, rel ∈ rels /\ t ∈ (relation_diff rel current previous key).2).
Proof.
  unfold CalculateTuplesFromRelationDefs.
  pose proof (fold_diff_members rels current previous key ([], []) t) as [H1 H2].
  destruct (foldl _ _ _) as [cs ds]. intros [-> ->]%NewTuplesToReplicate_lists.
  simpl in *. rewrite elem_of_nil in *. naive_solver.
Qed.

Lemma CalculateTuples_spec rels current previous key ttr t :
  distinct_relations rels ->
  CalculateTuplesFromRelationDefs rels current previous key = Ok ttr ->
  (t ∈ default [] (tuplesToCreate ttr) <->
     spec_tuples rels current key t /\ ~ spec_tuples rels previous key t) /\
  (t ∈ default [] (tuplesToDelete ttr) <->
     spec_tuples rels previous key t /\ ~ spec_tuples rels current key t).
Proof.
  intros Hd Hc. destruct (CalculateTuples_members _ _ _ _ _ t Hc) as [Hcr Hde].
  assert (Hdiff : forall cur prev, (exists rel, rel ∈ rels /\ exists v,
      t = NewRelationTupleForSubject key (rd_relationName rel) (rd_subjectNamespace rel)
            (rd_subjectResourceType rel) v /\
      v ∈ relation_values rel cur /\ v ∉ relation_values rel prev) <->
      spec_tuples rels cur key t /\ ~ spec_tuples rels prev key t).
  { intros cur prev. split.
    - intros (rel & Hr & v & -> & Hv & Hnv). split; [by exists rel, v|].
      intros (rel' & v' & Hr' & Hv' & [= E1 E2 E3 E4]). subst v'.
      by rewrite <- (distinct_same rels rel rel') in Hv'.
    - intros [(rel & v & Hr & Hv & ->) Hn]. exists rel. split; [done|]. exists v.
      split_all; try done. intros Hp. apply Hn. by exists rel, v. }
  split.
  - rewrite Hcr, <- Hdiff. unfold relation_diff. by setoid_rewrite Diff_create_iff.
  - rewrite Hde, <- Hdiff. unfold relation_diff. by setoid_rewrite Diff_delete_iff.
Qed.

(** C22. Tuple calculation from relation definitions is a set difference against
    the specification: the tuples to create are exactly those the current
    representation prescribes and the previous one does not, the tuples to
    delete exactly the converse; so a store that holds what the previous
    representation prescribes holds, after the creates and the deletes, what
    the current one prescribes. *)
Theorem CalculateTuplesFromRelationDefs_diff rels current previous key ttr
    (Hd : distinct_relations rels)
    (Hc : CalculateTuplesFromRelationDefs rels current previous key = Ok ttr) (t : RelationsTuple) :
  (t ∈ default [] (tuplesToCreate ttr) <->
     spec_tuples rels current key t /\ ~ spec_tuples rels previous key t) /\
  (t ∈ default [] (tuplesToDelete ttr) <->
     spec_tuples rels previous key t /\ ~ spec_tuples rels current key t) /\
  ((spec_tuples rels previous key t \/ t ∈ default [] (tuplesToCreate ttr)) /\
     ~ t ∈ default [] (tuplesToDelete ttr) <-> spec_tuples rels current key t).
Proof.
  destruct (CalculateTuples_spec rels current previous key ttr t Hd Hc) as [H1 H2].
  split_all; try done. rewrite H1, H2.
  destruct (decide (spec_tuples rels current key t)), (decide (spec_tuples rels previous key t));
    tauto.
Qed.

Definition ex_service_reps (ws : list string) : option Representations :=
  Some {| commonData := Some {[ "allowed_workspaces" := JArr (JStr <$> ws) ]};
          commonVersion := Some 1%Z; reporterData := None;
          reporterRepresentationVersion := None |}.

Definition ex_service_key : ReporterResourceKey :=
  {| localResourceID := "svc"; resourceType := "service";
     reporter := {| reporterType := "features"; reporterInstanceId := "f1" |} |}.

Lemma CalculateTuplesFromRelationDefs_diff_witness :
  exists ttr, CalculateTuplesFromRelationDefs serviceRelations (ex_service_reps ["a"; "b"])
    (ex_service_reps ["b"; "c"]) ex_service_key = Ok ttr /\
    NewRelationTupleForSubject ex_service_key "allowed_workspaces" "rbac" "workspace" "a"
      ∈ default [] (tuplesToCreate ttr).
Proof.
  assert (Hd : distinct_relations serviceRelations)
    by (apply (bool_decide_unpack _); vm_compute; exact I).
  destruct (CalculateTuplesFromRelationDefs serviceRelations (ex_service_reps ["a"; "b"])
    (ex_service_reps ["b"; "c"]) ex_service_key) as [ttr|e] eqn:Hc; [|vm_compute in Hc; discriminate].
  exists ttr. split; [reflexivity|].
  destruct (CalculateTuplesFromRelationDefs_diff serviceRelations (ex_service_reps ["a"; "b"])
    (ex_service_reps ["b"; "c"]) ex_service_key ttr Hd Hc
    (NewRelationTupleForSubject ex_service_key "allowed_workspaces" "rbac" "workspace" "a"))
    as [[_ H] _].
  apply H. apply (bool_decide_unpack _). vm_compute. exact I.
Defined.

(** The relation the default schema writes, as a relation definition. *)
Definition workspaceRelations : list RelationDef :=
  [ {| rd_fieldName := "workspace_id"; rd_relationName := WorkspaceRelation;
       rd_subjectNamespace := RbacNamespace; rd_subjectResourceType := WorkspaceRelation;
       rd_multiValued := false |} ].

Lemma filter_difference (X Y : gset string) : filter (fun v => v ∉ Y) X = X ∖ Y.
Proof. apply set_eq. intros x. rewrite elem_of_filter. set_solver. Qed.

(** On scalar values the set difference is a comparison. *)
Lemma Diff_scalar key rel ns rt (c p : list string) :
  (length c <= 1)%nat -> (length p <= 1)%nat ->
  DiffRelationValues key rel ns rt c p =
  if decide (c = p) then ([], [])
  else (NewRelationTupleForSubject key rel ns rt <$> c, NewRelationTupleForSubject key rel ns rt <$> p).
Proof.
  intros Hc Hp. unfold DiffRelationValues. rewrite !filter_difference.
  destruct (decide (c = p)) as [->|Hne].
  { by rewrite difference_diag_L, elements_empty. }
  assert (E : forall a b : list string, (length a <= 1)%nat -> (length b <= 1)%nat -> a <> b ->
    elements (list_to_set a ∖ list_to_set b : gset string) = a).
  { intros a b Ha Hb Hab.
    assert (Hs : list_to_set a ∖ list_to_set b = (list_to_set a : gset string)).
    { destruct a as [|a [|? ?]], b as [|b [|? ?]]; simpl in *; try lia; set_solver. }
    rewrite Hs. destruct a as [|a [|? ?]]; simpl in *; [done| |lia].
    rewrite (right_id_L ∅ (∪)). apply elements_singleton. }
  rewrite !E by done. done.
Qed.

Lemma DefaultSchema_relation_defs current previous key :
  DefaultSchema_CalculateTuples current previous key =
  CalculateTuplesFromRelationDefs workspaceRelations current previous key.
Proof.
  unfold CalculateTuplesFromRelationDefs, workspaceRelations, DefaultSchema_CalculateTuples.
  cbn [foldl]. unfold diff_round, relation_diff, relation_values, WorkspaceID.
  cbn [rd_multiValued rd_fieldName rd_relationName rd_subjectNamespace rd_subjectResourceType].
  generalize (StringField current "workspace_id") as c.
  generalize (StringField previous "workspace_id") as p. intros p c.
  rewrite Diff_scalar by (by destruct c, p; simpl; lia).
  destruct p as [|p0 p], c as [|c0 c]; simpl; try done.
  repeat case_bool_decide; case_decide; simpl; try done; congruence.
Qed.

(** The default schema's tuple calculation equals the calculation from the
    one relation definition workspace_id -> rbac/workspace: the early return
    for an unchanged workspace and the set difference agree on all inputs. *)
Theorem DefaultSchema_is_workspace_relation current previous key :
  DefaultSchema_CalculateTuples current previous key =
  CalculateTuplesFromRelationDefs workspaceRelations current previous key.
Proof. apply DefaultSchema_relation_defs. Qed.

(** The relation definitions a schema replicates. *)
Definition schema_relations (s : Schema) : list RelationDef :=
  match s with
  | DefaultSchema | JsonSchemaWithWorkspaces _ => workspaceRelations
  | JsonSchemaWithRelations _ rels => rels
  end.

Lemma Schema_CalculateTuples_relations s current previous key :
  Schema_CalculateTuples s current previous key =
  CalculateTuplesFromRelationDefs (schema_relations s) current previous key.
Proof. destruct s; simpl; [apply DefaultSchema_relation_defs..|done]. Qed.

(** * The schema service *)

(** Report validation, decided by the registered schemas: what a payload is
    checked against. *)
Definition accepts `{JsonSchemaLib} (schema : Schema) (r : Representation) : bool :=
  is_ok (Schema_Validate schema (or_empty r)).

(** A report is accepted exactly when the reporter has a schema for the
    resource type, its reporter representation (if any) satisfies it, an
    abstract reporter (no schema) sends no data, and the common representation
    (if any) satisfies the resource type's registered schema.  An absent
    common representation is not checked. *)
Theorem ValidateReport_accepts_iff {S} `{SchemaRepository S} `{JsonSchemaLib}
    (sc : S) rt pt comd repd :
  ValidateReportAgainstSchema sc rt pt comd repd = Ok tt <->
  exists ps, GetReporterSchema sc rt pt = Ok ps /\
    (forall r, repd = Some r ->
       match psr_schema ps with
       | Some schema => accepts schema r = true
       | None => nonempty r = false
       end) /\
    (forall r, comd = Some r ->
       exists rs schema, GetResourceSchema sc rt = Ok rs /\ rsr_schema rs = Some schema /\
         accepts schema r = true).
Proof.
  unfold ValidateReportAgainstSchema, IsReporterForResource, accepts.
  destruct (GetReporterSchema sc rt pt) as [ps|e] eqn:Hps.
  2:{ split; [by destruct (_ || _)|by intros (ps & ? & _)]. }
  assert (Hrep : (match repd with None => Ok tt | Some r => ReporterShallowValidate sc rt pt r end
      = Ok tt) <-> (forall r, repd = Some r -> match psr_schema ps with
       | Some schema => is_ok (Schema_Validate schema (or_empty r)) = true
       | None => nonempty r = false end)).
  { destruct repd as [r|]; [|naive_solver]. unfold ReporterShallowValidate. rewrite Hps.
    rewrite forall_Some. destruct (psr_schema ps); [destruct (Schema_Validate _ _)|];
      destruct (nonempty r); simpl; split; done. }
  assert (Hcom : (match comd with None => Ok tt | Some r => CommonShallowValidate sc rt r end
      = Ok tt) <-> (forall r, comd = Some r -> exists rs schema, GetResourceSchema sc rt = Ok rs /\
         rsr_schema rs = Some schema /\ is_ok (Schema_Validate schema (or_empty r)) = true)).
  { destruct comd as [r|]; [|naive_solver]. unfold CommonShallowValidate.
    rewrite forall_Some. destruct (GetResourceSchema sc rt) as [rs|]; [|naive_solver].
    destruct (rsr_schema rs) as [sch|] eqn:Hs; [|naive_solver].
    destruct (Schema_Validate sch (or_empty r)) eqn:Hv.
    - split; [|done]. intros _. exists rs, sch. by rewrite Hv.
    - split; [by destruct (nonempty r)|]. intros (rs' & sch' & [= <-] & Hs' & Hok).
      rewrite Hs in Hs'. injection Hs' as <-. by rewrite Hv in Hok. }
  split.
  - intros Hv. exists ps. split; [done|].
    destruct (match repd with None => _ | Some r => _ end) as [[]|] eqn:E; [|done].
    split; [by apply Hrep|by apply Hcom].
  - intros (ps' & [= <-] & H1 & H2). apply Hrep in H1. rewrite H1. by apply Hcom.
Qed.

(** A validator that asks for a workspace_id, for the witnesses. *)
Definition ex_validator : JsonSchemaLib := {|
  gojsonschema_Validate := fun _ d =>
    match rep_get d "workspace_id" with Some _ => Ok [] | None => Ok ["workspace_id is required"] end |}.

(** * The in-memory repository *)

(** The abstract view of the repository: which reporter schemas it has. *)
Definition reporter_schemas (o : InMemorySchemaRepository) (rt pt : string)
    : option ReporterSchemaRepresentation := o !! rt ≫= fun e => re_reporters e !! pt.

(** The in-memory schema repository behaves as a map of resource schemas
    with a map of reporter schemas below each: a created or updated schema is
    read back, updating a resource schema keeps its reporters, a reporter can
    only be created below an existing resource and only once, creating a
    resource adds no reporter, and deleting a resource schema removes its
    reporters with it and touches no other resource. *)
Theorem InMemory_repository_laws (o o' : InMemorySchemaRepository) :
  (forall rs, InMemory.CreateResourceSchema o rs = Ok o' ->
     o !! rsr_resourceType rs = None /\
     InMemory.GetResourceSchema o' (rsr_resourceType rs) = Ok rs /\
     forall rt pt, reporter_schemas o' rt pt = reporter_schemas o rt pt) /\
  (forall rs, InMemory.UpdateResourceSchema o rs = Ok o' ->
     InMemory.GetResourceSchema o' (rsr_resourceType rs) = Ok rs /\
     forall rt pt, reporter_schemas o' rt pt = reporter_schemas o rt pt) /\
  (forall rt, InMemory.DeleteResourceSchema o rt = Ok o' ->
     InMemory.GetResourceSchema o' rt = Err (ESentinel ErrResourceSchemaNotFound) /\
     (forall pt, reporter_schemas o' rt pt = None) /\
     forall rt', rt' <> rt -> o' !! rt' = o !! rt') /\
  (forall ps, InMemory.CreateReporterSchema o ps = Ok o' ->
     is_Some (o !! psr_resourceType ps) /\
     reporter_schemas o (psr_resourceType ps) (psr_reporterType ps) = None /\
     InMemory.GetReporterSchema o' (psr_resourceType ps) (psr_reporterType ps) = Ok ps /\
     InMemory.CreateReporterSchema o' ps = Err (EMsg "reporter for entry already exist")) /\
  (forall rt pt, InMemory.DeleteReporterSchema o rt pt = Ok o' ->
     InMemory.GetReporterSchema o' rt pt = Err (ESentinel ErrReporterSchemaNotFound) /\
     InMemory.GetResourceSchema o' rt = InMemory.GetResourceSchema o rt).
Proof.
  unfold reporter_schemas. split_all.
  - unfold InMemory.CreateResourceSchema, InMemory.GetResourceSchema. intros rs H.
    destruct (o !! rsr_resourceType rs) eqn:E; [done|]. injection H as <-.
    rewrite lookup_insert_eq. split_all; try done. intros rt pt. rewrite lookup_insert.
    case_decide; [|done]. subst. by rewrite E.
  - unfold InMemory.UpdateResourceSchema, InMemory.GetResourceSchema. intros rs H.
    destruct (o !! rsr_resourceType rs) eqn:E; [|done]. injection H as <-.
    rewrite lookup_insert_eq. split_all; try done. intros rt pt. rewrite lookup_insert.
    case_decide; [|done]. subst. by rewrite E.
  - unfold InMemory.DeleteResourceSchema, InMemory.GetResourceSchema. intros rt H.
    destruct (o !! rt) eqn:E; [|done]. injection H as <-. rewrite lookup_delete_eq.
    split_all; try done. intros rt' Hne. by rewrite lookup_delete_ne.
  - unfold InMemory.CreateReporterSchema, InMemory.GetReporterSchema, InMemory.getResourceEntry,
      InMemory.set_reporters. intros ps H.
    destruct (o !! psr_resourceType ps) as [en|] eqn:E; [|done]. simpl.
    destruct (re_reporters en !! psr_reporterType ps) eqn:E2; [done|]. injection H as <-.
    rewrite lookup_insert_eq. simpl. rewrite lookup_insert_eq. split_all; done.
  - unfold InMemory.DeleteReporterSchema, InMemory.GetReporterSchema, InMemory.getResourceEntry,
      InMemory.set_reporters, InMemory.GetResourceSchema. intros rt pt H.
    destruct (o !! rt) as [en|] eqn:E; [|done].
    destruct (re_reporters en !! pt) eqn:E2; [|done]. injection H as <-.
    rewrite lookup_insert_eq. simpl. by rewrite lookup_delete_eq.
Qed.
