(* ===== verification/MetaAuthz.v ===== *)
(** Who may call what: internal/authn/api (claims and authorization context),
    internal/biz/usecase/metaauthorizer (enforcement, the two authorizers) and
    the self-subject strategy of internal/biz/usecase/resources. *)
From stdpp Require Import base tactics list strings gmap.
From Stdlib Require Import ZArith Lia Ascii.
From S2P Require Import Prelude GoStrings Common ReporterResource Relations.

Local Open Scope string_scope.

(** * Claims and context *)

Definition ProtocolHTTP : string := "http".
Definition ProtocolGRPC : string := "grpc".
Definition ProtocolUnknown : string := "unknown".

Definition AuthTypeOIDC : string := "oidc".
Definition AuthTypeXRhIdentity : string := "x-rh-identity".
Definition AuthTypeAllowUnauthenticated : string := "allow-unauthenticated".

Record Claims := {
  cl_SubjectId : string;
  cl_OrganizationId : string;
  cl_Issuer : string;
  cl_ClientID : string;
  cl_AuthType : string;
}.

Definition UnauthenticatedClaims : Claims :=
  {| cl_SubjectId := ""; cl_OrganizationId := ""; cl_Issuer := ""; cl_ClientID := "";
     cl_AuthType := AuthTypeAllowUnauthenticated |}.

Definition Claims_IsAuthenticated (c : option Claims) : bool :=
  match c with
  | None => false
  | Some c => bool_decide (cl_AuthType c <> AuthTypeAllowUnauthenticated)
  end.

Record AuthzContext := {
  ac_Protocol : string;
  ac_Subject : option Claims;
}.

Definition AuthzContext_IsAuthenticated (a : AuthzContext) : bool :=
  if is_nil (ac_Subject a) then false else Claims_IsAuthenticated (ac_Subject a).

Definition ExtractPrincipal (a : AuthzContext) : string :=
  match ac_Subject a with
  | None => "unknown"
  | Some s =>
      if bool_decide (cl_ClientID s <> "") then cl_ClientID s
      else if bool_decide (cl_SubjectId s <> "") then cl_SubjectId s
      else "unknown"
  end.

(** A request context holds an authorization context or not. *)
Abbreviation Ctx := (option AuthzContext) (only parsing).

(** * Meta-authorization *)

Inductive MetaObject :=
  | InventoryResource (reporterType : ReporterType) (resourceType : ResourceType)
      (localResourceId : LocalResourceId)
  | ResourceTypeRef (reporterType : ReporterType) (resourceType : ResourceType)
  | TupleSystem.

Definition NewInventoryResourceFromKey (key : ReporterResourceKey) : MetaObject :=
  InventoryResource (reporterType (reporter key)) (resourceType key) (localResourceID key).

Definition RelationCheckSelf : string := "check_self".
Definition RelationLookupResources : string := "lookup_resources".
Definition RelationLookupSubjects : string := "lookup_subjects".
Definition RelationReportResource : string := "report_resource".
Definition RelationCheckForUpdate : string := "check_for_update".
Definition RelationDeleteResource : string := "delete_resource".
Definition RelationCheck : string := "check".
Definition RelationCheckBulk : string := "check_bulk".
Definition RelationCheckForUpdateBulk : string := "check_for_update_bulk".
Definition RelationCreateTuples : string := "create_tuples".
Definition RelationDeleteTuples : string := "delete_tuples".
Definition RelationReadTuples : string := "read_tuples".
Definition RelationAcquireLock : string := "acquire_lock".

Definition SimpleMetaAuthorizer_Check (object : MetaObject) (relation : string)
    (authzCtx : AuthzContext) : result bool :=
  if bool_decide (ac_Protocol authzCtx = ProtocolUnknown) then Ok false
  else if bool_decide (ac_Protocol authzCtx = ProtocolGRPC)
  then Ok (bool_decide (relation <> RelationCheckSelf))
  else if AuthzContext_IsAuthenticated authzCtx
          && match ac_Subject authzCtx with
             | Some c => bool_decide (cl_AuthType c = AuthTypeXRhIdentity)
             | None => false
             end
  then Ok (bool_decide (relation = RelationCheckSelf))
  else Ok false.

Fixpoint allowed_by (allowlist : list string) (clientID : string) : bool :=
  match allowlist with
  | [] => false
  | allowed :: rest =>
      if bool_decide (allowed = "*") then true
      else if bool_decide (allowed = clientID) then true
      else allowed_by rest clientID
  end.

Definition isInAllowlist (claims : Claims) (allowlist : list string) : bool :=
  if bool_decide (cl_ClientID claims = "") then false
  else allowed_by allowlist (cl_ClientID claims).

Definition WhitelistMetaAuthorizer_Check (allowlist : list string) (object : MetaObject)
    (relation : string) (authzCtx : AuthzContext) : result bool :=
  if negb (AuthzContext_IsAuthenticated authzCtx) then Ok false
  else if bool_decide (ac_Protocol authzCtx <> ProtocolGRPC) then Ok false
  else match ac_Subject authzCtx with
       | None => Err (EPanic "invalid memory address or nil pointer dereference")
       | Some subject =>
           if bool_decide (cl_AuthType subject <> AuthTypeOIDC) then Ok false
           else Ok (isInAllowlist subject allowlist)
       end.

(** The interface [MetaAuthorizer]; a nil authorizer is [None]. *)
Abbreviation MetaAuthorizer := (MetaObject -> string -> AuthzContext -> result bool).

Definition EnforceMetaAuthzObject (ctx : Ctx) (authorizer : option MetaAuthorizer)
    (relation : string) (metaObject : MetaObject) : result unit :=
  match ctx with
  | None => Err (ESentinel ErrMetaAuthzContextMissing)
  | Some authzCtx =>
      match authorizer with
      | None => Err (ESentinel ErrMetaAuthorizerUnavailable)
      | Some check =>
          let! allowed := check metaObject relation authzCtx in
          if negb allowed then Err (ESentinel ErrMetaAuthorizationDenied) else Ok tt
      end
  end.

(** * The self subject *)

Record RedHatRbacSelfSubjectStrategy := {
  st_enabled : bool;
  st_xRhIdentityDomain : string;
  st_oidcIssuerDomains : option (gmap string string);
}.

Definition resolveOIDCIssuerDomain (s : RedHatRbacSelfSubjectStrategy) (issuer : string) : string :=
  if bool_decide (issuer = "") then ""
  else match st_oidcIssuerDomains s with
       | None => ""
       | Some domains =>
           match domains !! issuer with
           | Some domain => if bool_decide (domain <> "") then domain else ""
           | None => ""
           end
       end.

Definition deriveSubjectID (s : option RedHatRbacSelfSubjectStrategy)
    (authzContext : AuthzContext) : result string :=
  match s with
  | None => Err (EMsg "self-subject strategy disabled")
  | Some s =>
      if negb (st_enabled s) then Err (EMsg "self-subject strategy disabled")
      else if negb (AuthzContext_IsAuthenticated authzContext) then Ok ""
      else match ac_Subject authzContext with
      | None => Ok ""
      | Some claims =>
          let subjectID := TrimSpace (cl_SubjectId claims) in
          if bool_decide (cl_AuthType claims = AuthTypeXRhIdentity) then
            if bool_decide (subjectID = "") then Err (EMsg "missing subject for x-rh-identity")
            else if bool_decide (st_xRhIdentityDomain s = "")
            then Err (EMsg "missing x-rh-identity domain configuration")
            else Ok (st_xRhIdentityDomain s +:+ "/" +:+ subjectID)
          else if bool_decide (cl_AuthType claims = AuthTypeOIDC) then
            if bool_decide (cl_Issuer claims = "") then Err (EMsg "missing issuer for oidc")
            else
              let domain := resolveOIDCIssuerDomain s (cl_Issuer claims) in
              if bool_decide (domain = "") then Err (EMsg "unsupported issuer for oidc")
              else if bool_decide (subjectID = "") then Err (EMsg "missing subject for oidc")
              else Ok (domain +:+ "/" +:+ subjectID)
          else Err (EMsg "unsupported auth type")
      end
  end.

Definition buildSubjectReference (subjectID : string) : result SubjectReference :=
  let! localResourceId := wrap_err "invalid subject ID" (NewLocalResourceId subjectID) in
  let! resourceType := wrap_err "invalid resource type" (NewResourceType "principal") in
  let! reporterType := wrap_err "invalid reporter type" (NewReporterType "rbac") in
  let reporter := NewReporterReference reporterType None in
  Ok (NewSubjectReferenceWithoutRelation
        (NewResourceReference resourceType localResourceId (Some reporter))).

Definition SubjectFromAuthorizationContext (s : option RedHatRbacSelfSubjectStrategy)
    (authzContext : AuthzContext) : result SubjectReference :=
  let! subjectID := deriveSubjectID s authzContext in
  if bool_decide (subjectID = "") then Err (EMsg "subject not found")
  else buildSubjectReference subjectID.

(** ** Options *)

Record OIDCIssuerDomainEntry := { oe_Issuer : string; oe_Domain : string }.

Record RedHatRbacOptions := {
  ro_Enabled : bool;
  ro_XRhIdentityDomain : string;
  ro_OIDCIssuerDomains : list OIDCIssuerDomainEntry;
  ro_OIDCIssuerDomainMap : option (gmap string string);
}.

(** [SelfSubjectOptions] holds a pointer to its only field. *)
Abbreviation SelfSubjectOptions := (option RedHatRbacOptions) (only parsing).

Definition NewSelfSubjectOptions : SelfSubjectOptions :=
  Some {| ro_Enabled := false; ro_XRhIdentityDomain := ""; ro_OIDCIssuerDomains := [];
          ro_OIDCIssuerDomainMap := None |}.

Definition SelfSubjectOptions_Validate (o : SelfSubjectOptions) : list go_error :=
  match o with
  | Some r =>
      if ro_Enabled r then
        ((if bool_decide (ro_XRhIdentityDomain r = "")
          then [EMsg "selfsubject.redhat-rbac.issuer-domain is required when enabled"] else [])
         ++ (if bool_decide (size (default ∅ (ro_OIDCIssuerDomainMap r)) = 0%nat)
             then [EMsg "selfsubject.redhat-rbac.oidcIssuerDomains is required when enabled"]
             else []))%list
      else []
  | None => []
  end.

Fixpoint domain_map_from (entries : list OIDCIssuerDomainEntry) (out : gmap string string)
    : result (gmap string string) :=
  match entries with
  | [] => Ok out
  | entry :: rest =>
      if bool_decide (oe_Issuer entry = "")
      then Err (EMsg "selfsubject.redhat-rbac.oidcIssuerDomains.iss is required")
      else if bool_decide (oe_Domain entry = "")
      then Err (EMsg "selfsubject.redhat-rbac.oidcIssuerDomains.domain is required")
      else domain_map_from rest (<[oe_Issuer entry := oe_Domain entry]> out)
  end.

Definition buildOIDCIssuerDomainMap (entries : list OIDCIssuerDomainEntry)
    : result (gmap string string) := domain_map_from entries ∅.

(** [Complete] mutates the options and returns the errors. *)
Definition SelfSubjectOptions_Complete (o : SelfSubjectOptions)
    : SelfSubjectOptions * list go_error :=
  match o with
  | None => (None, [])
  | Some r =>
      let with_map m := {| ro_Enabled := ro_Enabled r;
                           ro_XRhIdentityDomain := ro_XRhIdentityDomain r;
                           ro_OIDCIssuerDomains := ro_OIDCIssuerDomains r;
                           ro_OIDCIssuerDomainMap := Some m |} in
      match ro_OIDCIssuerDomains r with
      | _ :: _ =>
          match buildOIDCIssuerDomainMap (ro_OIDCIssuerDomains r) with
          | Err err => (Some r, [err])
          | Ok mapped => (Some (with_map mapped), [])
          end
      | [] =>
          match ro_OIDCIssuerDomainMap r with
          | None => (Some (with_map ∅), [])
          | Some _ => (Some r, [])
          end
      end
  end.

Definition SelfSubjectOptions_Build (o : SelfSubjectOptions)
    : option RedHatRbacSelfSubjectStrategy :=
  match o with
  | None => None
  | Some r =>
      if negb (ro_Enabled r) then None
      else Some {| st_enabled := ro_Enabled r; st_xRhIdentityDomain := ro_XRhIdentityDomain r;
                   st_oidcIssuerDomains := ro_OIDCIssuerDomainMap r |}
  end.
