(* ===== verification/RelationsRepo.v ===== *)
(** The relations repository: the interface of
    internal/biz/model/relations_repository.go, and its two implementations
    that live in the process, internal/data/relations_simple.go and
    relations_allow_all.go. *)
From stdpp Require Import base tactics list strings gmap sorting.
From Stdlib Require Import ZArith Lia Ascii.
From S2P Require Import Prelude GoStrings Common ReporterResource Relations.

Local Open Scope string_scope.

(** * The interface

    [T] is the state of the tuple store.  A write returns the new state beside
    its result: a call may fail after its effect.  A [ResultStream] is the list
    of the items it yields before [io.EOF].  [rel_implementation] is the dynamic
    type behind the interface. *)
Inductive implementation := GRPCImpl | SpiceDBImpl | AllowAllImpl | SimpleImpl.

Class RelationsRepository (T : Type) := {
  rel_implementation : implementation;
  rel_Health : T -> result HealthResult;
  rel_Check : T -> Relationship -> option Consistency -> result CheckResult;
  rel_CheckForUpdate : T -> Relationship -> result CheckResult;
  rel_CheckBulk : T -> list Relationship -> option Consistency -> result CheckBulkResult;
  rel_CheckForUpdateBulk : T -> list Relationship -> result CheckBulkResult;
  rel_LookupObjects : T -> RepresentationType -> Relation -> SubjectReference ->
    option Pagination -> option Consistency -> result (list LookupObjectsItem);
  rel_LookupSubjects : T -> ResourceReference -> Relation -> RepresentationType ->
    option Relation -> option Pagination -> option Consistency ->
    result (list LookupSubjectsItem);
  rel_CreateTuples : list RelationsTuple -> bool -> option FencingCheck -> T ->
    T * result TuplesResult;
  rel_DeleteTuples : TupleFilter -> option FencingCheck -> T -> T * result TuplesResult;
  rel_ReadTuples : T -> TupleFilter -> option Pagination -> option Consistency ->
    result (list ReadTuplesItem);
  rel_AcquireLock : LockId -> T -> T * result AcquireLockResult;
}.

(** * Tuples as keys *)

Record simpleTupleKey := {
  tk_ResourceNamespace : string;
  tk_ResourceType : string;
  tk_ResourceID : string;
  tk_Relation : string;
  tk_SubjectNamespace : string;
  tk_SubjectType : string;
  tk_SubjectID : string;
}.

#[export] Instance simpleTupleKey_eq_dec : EqDecision simpleTupleKey.
Proof. solve_decision. Defined.

#[export] Instance simpleTupleKey_countable : Countable simpleTupleKey.
Proof.
  refine (inj_countable'
    (fun k => (tk_ResourceNamespace k, tk_ResourceType k, tk_ResourceID k, tk_Relation k,
               tk_SubjectNamespace k, tk_SubjectType k, tk_SubjectID k))
    (fun '(a, b, c, d, e, f, g) => Build_simpleTupleKey a b c d e f g) _).
  by intros [].
Defined.

(** The fields of a reference: the namespace is "" without a reporter. *)
Definition simpleResourceRefFields (ref : ResourceReference) : string * string * string :=
  (match ref_reporter ref with Some r => rref_reporterType r | None => "" end,
   ref_resourceType ref, ref_resourceId ref).

Definition key_of_fields (obj : ResourceReference) (relation : Relation)
    (sub : ResourceReference) : simpleTupleKey :=
  let '(ons, oty, oid) := simpleResourceRefFields obj in
  let '(sns, sty, sid) := simpleResourceRefFields sub in
  {| tk_ResourceNamespace := ons; tk_ResourceType := oty; tk_ResourceID := oid;
     tk_Relation := relation;
     tk_SubjectNamespace := sns; tk_SubjectType := sty; tk_SubjectID := sid |}.

Definition simpleTupleKeyFromModelTuple (tuple : RelationsTuple) : simpleTupleKey :=
  key_of_fields (tup_object tuple) (tup_relation tuple) (sub_resource (tup_subject tuple)).

(** A filter field that is nil matches every value. *)
Definition field_matches (f : option string) (v : string) : bool :=
  match f with None => true | Some s => bool_decide (s = v) end.

Definition simpleMatchesTupleFilter (key : simpleTupleKey) (filter : TupleFilter) : bool :=
  field_matches (tf_reporterType filter) (tk_ResourceNamespace key)
  && field_matches (tf_objectType filter) (tk_ResourceType key)
  && field_matches (tf_objectId filter) (tk_ResourceID key)
  && field_matches (tf_relation filter) (tk_Relation key)
  && match tf_subject filter with
     | None => true
     | Some sf =>
         field_matches (sf_reporterType sf) (tk_SubjectNamespace key)
         && field_matches (sf_subjectType sf) (tk_SubjectType key)
         && field_matches (sf_subjectId sf) (tk_SubjectID key)
     end.

(** * What a tuple store promises

    [stored] is the set of tuples a fully consistent read sees, the relation of
    the subject aside.  An upsert adds its tuples, a delete removes the tuples
    its filter matches; a call that fails has had its effect or none.  [upserts]
    says that a write with upsert
    touches tuples that exist, so it never fails because one does. *)
Definition plain_filter (flt : TupleFilter) : Prop :=
  match tf_subject flt with Some sf => sf_relation sf = None | None => True end.

Class TupleStore (T : Type) `{RelationsRepository T} := {
  stored : T -> gset simpleTupleKey;
  create_stored : forall ts f t t' r, rel_CreateTuples ts true f t = (t', Ok r) ->
    stored t' = list_to_set (simpleTupleKeyFromModelTuple <$> ts) ∪ stored t;
  create_failed : forall ts f t t' e, rel_CreateTuples ts true f t = (t', Err e) ->
    stored t' = stored t
    \/ stored t' = list_to_set (simpleTupleKeyFromModelTuple <$> ts) ∪ stored t;
  delete_stored : forall flt f t t' r, plain_filter flt -> rel_DeleteTuples flt f t = (t', Ok r) ->
    stored t' = filter (fun k => simpleMatchesTupleFilter k flt = false) (stored t);
  delete_failed : forall flt f t t' e, plain_filter flt -> rel_DeleteTuples flt f t = (t', Err e) ->
    stored t' = stored t
    \/ stored t' = filter (fun k => simpleMatchesTupleFilter k flt = false) (stored t);
  lock_stored : forall l t t' r, rel_AcquireLock l t = (t', r) -> stored t' = stored t;
  upserts : T -> Prop;
  create_upserts : forall ts f t t' e, upserts t -> rel_CreateTuples ts true f t = (t', Err e) ->
    status_Code e <> AlreadyExists;
  upserts_create : forall ts f t, upserts t -> upserts (rel_CreateTuples ts true f t).1;
  upserts_delete : forall flt f t, upserts t -> upserts (rel_DeleteTuples flt f t).1;
}.

(** * SimpleRelationsRepository *)

(** [int64] with its wrap-around. *)
Definition i64 (z : Z) : Z := ((z + 2 ^ 63) mod 2 ^ 64 - 2 ^ 63)%Z.

Record SimpleRelationsRepository := {
  s_version : Z;
  s_tuples : gset simpleTupleKey;
  s_snapshots : gmap Z (gset simpleTupleKey);
  s_healthError : option go_error;
  s_createTuplesError : option go_error;
  s_deleteTuplesError : option go_error;
  s_acquireLockError : option go_error;
  s_locks : gmap string string;
}.

Module Simple.
Definition NewSimpleRelationsRepository : SimpleRelationsRepository :=
  {| s_version := 1; s_tuples := ∅; s_snapshots := ∅; s_healthError := None;
     s_createTuplesError := None; s_deleteTuplesError := None; s_acquireLockError := None;
     s_locks := ∅ |}.

Definition with_tuples (s : SimpleRelationsRepository) (ts : gset simpleTupleKey)
    : SimpleRelationsRepository :=
  {| s_version := s_version s; s_tuples := ts; s_snapshots := s_snapshots s;
     s_healthError := s_healthError s; s_createTuplesError := s_createTuplesError s;
     s_deleteTuplesError := s_deleteTuplesError s; s_acquireLockError := s_acquireLockError s;
     s_locks := s_locks s |}.

Definition with_snapshots (s : SimpleRelationsRepository) (sn : gmap Z (gset simpleTupleKey))
    : SimpleRelationsRepository :=
  {| s_version := s_version s; s_tuples := s_tuples s; s_snapshots := sn;
     s_healthError := s_healthError s; s_createTuplesError := s_createTuplesError s;
     s_deleteTuplesError := s_deleteTuplesError s; s_acquireLockError := s_acquireLockError s;
     s_locks := s_locks s |}.

Definition with_errors (s : SimpleRelationsRepository) (h c d a : option go_error)
    : SimpleRelationsRepository :=
  {| s_version := s_version s; s_tuples := s_tuples s; s_snapshots := s_snapshots s;
     s_healthError := h; s_createTuplesError := c; s_deleteTuplesError := d;
     s_acquireLockError := a; s_locks := s_locks s |}.

Definition advanceVersion (s : SimpleRelationsRepository) : SimpleRelationsRepository :=
  {| s_version := i64 (s_version s + 1); s_tuples := s_tuples s; s_snapshots := s_snapshots s;
     s_healthError := s_healthError s; s_createTuplesError := s_createTuplesError s;
     s_deleteTuplesError := s_deleteTuplesError s; s_acquireLockError := s_acquireLockError s;
     s_locks := s_locks s |}.

Definition RetainCurrentSnapshot (s : SimpleRelationsRepository)
    : SimpleRelationsRepository * Z :=
  (with_snapshots s (<[s_version s := s_tuples s]> (s_snapshots s)), s_version s).

Definition ReleaseSnapshot (s : SimpleRelationsRepository) (version : Z)
    : SimpleRelationsRepository := with_snapshots s (delete version (s_snapshots s)).

Definition ClearSnapshots (s : SimpleRelationsRepository) : SimpleRelationsRepository :=
  with_snapshots s ∅.

Definition Reset (s : SimpleRelationsRepository) : SimpleRelationsRepository :=
  NewSimpleRelationsRepository.

Definition SetHealthError (s : SimpleRelationsRepository) (err : option go_error) :=
  with_errors s err (s_createTuplesError s) (s_deleteTuplesError s) (s_acquireLockError s).
Definition SetCreateTuplesError (s : SimpleRelationsRepository) (err : option go_error) :=
  with_errors s (s_healthError s) err (s_deleteTuplesError s) (s_acquireLockError s).
Definition SetDeleteTuplesError (s : SimpleRelationsRepository) (err : option go_error) :=
  with_errors s (s_healthError s) (s_createTuplesError s) err (s_acquireLockError s).
Definition SetAcquireLockError (s : SimpleRelationsRepository) (err : option go_error) :=
  with_errors s (s_healthError s) (s_createTuplesError s) (s_deleteTuplesError s) err.

Definition Grant (s : SimpleRelationsRepository)
    (subjectID relation namespace resourceType resourceID : string)
    : SimpleRelationsRepository :=
  advanceVersion (with_tuples s
    ({[ {| tk_ResourceNamespace := namespace; tk_ResourceType := resourceType;
           tk_ResourceID := resourceID; tk_Relation := relation;
           tk_SubjectNamespace := "rbac"; tk_SubjectType := "principal";
           tk_SubjectID := subjectID |} ]} ∪ s_tuples s)).

(** [slices.BinarySearch] on a sorted slice: the first index whose element is
    not below the target; here the element itself, if there is one. *)
Definition first_at_least (versions : list Z) (requested : Z) : option Z :=
  List.find (fun v => (requested <=? v)%Z) versions.

Definition getTuplesForToken (s : SimpleRelationsRepository) (token : string)
    : gset simpleTupleKey :=
  let requested :=
    if bool_decide (token <> "") then default 0%Z (ParseInt token) else 0%Z in
  let versions := merge_sort Z.le ((map_to_list (s_snapshots s)).*1 ++ [s_version s])%list in
  match first_at_least versions requested with
  | Some v =>
      if bool_decide (v = s_version s) then s_tuples s else default ∅ (s_snapshots s !! v)
  | None => s_tuples s
  end.

Definition consistencyToSimpleToken (c : option Consistency) : string :=
  default "" (ConsistencyAtLeastAsFreshToken c).

Definition token_of (s : SimpleRelationsRepository) : ConsistencyToken := FormatInt (s_version s).

Definition simpleHasTupleInSnapshot (tuples : gset simpleTupleKey) (rel : Relationship) : bool :=
  bool_decide (key_of_fields (rel_object rel) (rel_relation rel)
                 (sub_resource (rel_subject rel)) ∈ tuples).

Definition Health (s : SimpleRelationsRepository) : result HealthResult :=
  match s_healthError s with
  | Some err => Err err
  | None => Ok {| hr_status := "OK"; hr_code := 200 |}
  end.

Definition Check (s : SimpleRelationsRepository) (rel : Relationship)
    (consistency : option Consistency) : result CheckResult :=
  let tuples := getTuplesForToken s (consistencyToSimpleToken consistency) in
  Ok {| cr_allowed := simpleHasTupleInSnapshot tuples rel; cr_consistencyToken := token_of s |}.

Definition CheckForUpdate (s : SimpleRelationsRepository) (rel : Relationship)
    : result CheckResult :=
  Ok {| cr_allowed := simpleHasTupleInSnapshot (s_tuples s) rel;
        cr_consistencyToken := token_of s |}.

Definition bulk_pairs (tuples : gset simpleTupleKey) (rels : list Relationship)
    : list CheckBulkResultPair :=
  (fun rel => {| cbp_request := rel;
                 cbp_result := {| cbi_allowed := simpleHasTupleInSnapshot tuples rel;
                                  cbi_err := None; cbi_errorCode := 0 |} |}) <$> rels.

Definition CheckBulk (s : SimpleRelationsRepository) (rels : list Relationship)
    (consistency : option Consistency) : result CheckBulkResult :=
  let tuples := getTuplesForToken s (consistencyToSimpleToken consistency) in
  Ok {| cbr_pairs := bulk_pairs tuples rels; cbr_consistencyToken := token_of s |}.

Definition CheckForUpdateBulk (s : SimpleRelationsRepository) (rels : list Relationship)
    : result CheckBulkResult :=
  Ok {| cbr_pairs := bulk_pairs (s_tuples s) rels; cbr_consistencyToken := token_of s |}.

(** A requested type or namespace of "" matches any. *)
Definition any_or_equal (want v : string) : bool :=
  bool_decide (want = "") || bool_decide (v = want).

Definition ref_of (namespace resourceType resourceID : string) : ResourceReference :=
  NewResourceReference resourceType resourceID (Some (NewReporterReference namespace None)).

Definition LookupObjects (s : SimpleRelationsRepository) (objectType : RepresentationType)
    (relation : Relation) (subject : SubjectReference) (_ : option Pagination)
    (_ : option Consistency) : result (list LookupObjectsItem) :=
  let requestedNamespace := default "" (rtype_reporterType objectType) in
  let '(subNs, subType, subId) := simpleResourceRefFields (sub_resource subject) in
  Ok ((fun key => {| loi_object := ref_of (tk_ResourceNamespace key) (tk_ResourceType key)
                                     (tk_ResourceID key);
                     loi_continuationToken := "" |}) <$>
      List.filter (fun key =>
        any_or_equal requestedNamespace (tk_ResourceNamespace key)
        && any_or_equal (rtype_resourceType objectType) (tk_ResourceType key)
        && bool_decide (tk_Relation key = relation)
        && (bool_decide (tk_SubjectNamespace key = subNs)
            && bool_decide (tk_SubjectType key = subType)
            && bool_decide (tk_SubjectID key = subId))) (elements (s_tuples s))).

Definition LookupSubjects (s : SimpleRelationsRepository) (object : ResourceReference)
    (relation : Relation) (subjectType : RepresentationType) (_ : option Relation)
    (_ : option Pagination) (_ : option Consistency) : result (list LookupSubjectsItem) :=
  let '(objNs, objType, objId) := simpleResourceRefFields object in
  let wantSubjectNamespace := default "" (rtype_reporterType subjectType) in
  Ok ((fun key => {| lsi_subject := NewSubjectReferenceWithoutRelation
                       (ref_of (tk_SubjectNamespace key) (tk_SubjectType key) (tk_SubjectID key));
                     lsi_continuationToken := "" |}) <$>
      List.filter (fun key =>
        (bool_decide (tk_ResourceNamespace key = objNs)
         && bool_decide (tk_ResourceType key = objType)
         && bool_decide (tk_ResourceID key = objId))
        && bool_decide (tk_Relation key = relation)
        && (any_or_equal wantSubjectNamespace (tk_SubjectNamespace key)
            && any_or_equal (rtype_resourceType subjectType) (tk_SubjectType key)))
        (elements (s_tuples s))).

Definition CreateTuples (tuples : list RelationsTuple) (_ : bool) (_ : option FencingCheck)
    (s : SimpleRelationsRepository) : SimpleRelationsRepository * result TuplesResult :=
  match s_createTuplesError s with
  | Some err => (s, Err err)
  | None =>
      let added := foldl (fun acc tuple => {[ simpleTupleKeyFromModelTuple tuple ]} ∪ acc)
                     (s_tuples s) tuples in
      let s := advanceVersion (with_tuples s added) in
      (s, Ok {| tr_consistencyToken := token_of s |})
  end.

Definition DeleteTuples (flt : TupleFilter) (_ : option FencingCheck)
    (s : SimpleRelationsRepository) : SimpleRelationsRepository * result TuplesResult :=
  match s_deleteTuplesError s with
  | Some err => (s, Err err)
  | None =>
      let s := advanceVersion (with_tuples s
        (filter (fun key => simpleMatchesTupleFilter key flt = false) (s_tuples s))) in
      (s, Ok {| tr_consistencyToken := token_of s |})
  end.

Definition ReadTuples (s : SimpleRelationsRepository) (flt : TupleFilter)
    (_ : option Pagination) (_ : option Consistency) : result (list ReadTuplesItem) :=
  Ok ((fun key => {| rti_object := ref_of (tk_ResourceNamespace key) (tk_ResourceType key)
                                     (tk_ResourceID key);
                     rti_relation := tk_Relation key;
                     rti_subject := NewSubjectReferenceWithoutRelation
                       (ref_of (tk_SubjectNamespace key) (tk_SubjectType key)
                          (tk_SubjectID key));
                     rti_continuationToken := "";
                     rti_consistencyToken := MinimizeLatencyToken |}) <$>
      List.filter (fun key => simpleMatchesTupleFilter key flt) (elements (s_tuples s))).

Definition AcquireLock (lockId : LockId) (s : SimpleRelationsRepository)
    : SimpleRelationsRepository * result AcquireLockResult :=
  match s_acquireLockError s with
  | Some err => (s, Err err)
  | None =>
      let token := "token-" +:+ lockId in
      ({| s_version := s_version s; s_tuples := s_tuples s; s_snapshots := s_snapshots s;
          s_healthError := s_healthError s; s_createTuplesError := s_createTuplesError s;
          s_deleteTuplesError := s_deleteTuplesError s;
          s_acquireLockError := s_acquireLockError s;
          s_locks := <[lockId := token]> (s_locks s) |},
       Ok {| al_lockToken := token |})
  end.
End Simple.

#[export] Instance SimpleRelationsRepository_relations :
    RelationsRepository SimpleRelationsRepository := {|
  rel_implementation := SimpleImpl;
  rel_Health := Simple.Health;
  rel_Check := Simple.Check;
  rel_CheckForUpdate := Simple.CheckForUpdate;
  rel_CheckBulk := Simple.CheckBulk;
  rel_CheckForUpdateBulk := Simple.CheckForUpdateBulk;
  rel_LookupObjects := Simple.LookupObjects;
  rel_LookupSubjects := Simple.LookupSubjects;
  rel_CreateTuples := Simple.CreateTuples;
  rel_DeleteTuples := Simple.DeleteTuples;
  rel_ReadTuples := Simple.ReadTuples;
  rel_AcquireLock := Simple.AcquireLock;
|}.

(** * AllowAllRelationsRepository: no state *)

Inductive AllowAllRelationsRepository := AllowAll.

Definition allow_pairs (rels : list Relationship) : list CheckBulkResultPair :=
  (fun rel => {| cbp_request := rel;
                 cbp_result := {| cbi_allowed := true; cbi_err := None; cbi_errorCode := 0 |} |})
  <$> rels.

#[export] Instance AllowAllRelationsRepository_relations :
    RelationsRepository AllowAllRelationsRepository := {|
  rel_implementation := AllowAllImpl;
  rel_Health _ := Ok {| hr_status := "OK"; hr_code := 200 |};
  rel_Check _ _ _ := Ok {| cr_allowed := true; cr_consistencyToken := MinimizeLatencyToken |};
  rel_CheckForUpdate _ _ :=
    Ok {| cr_allowed := true; cr_consistencyToken := MinimizeLatencyToken |};
  rel_CheckBulk _ rels _ :=
    Ok {| cbr_pairs := allow_pairs rels; cbr_consistencyToken := MinimizeLatencyToken |};
  rel_CheckForUpdateBulk _ rels :=
    Ok {| cbr_pairs := allow_pairs rels; cbr_consistencyToken := MinimizeLatencyToken |};
  rel_LookupObjects _ _ _ _ _ _ := Ok [];
  rel_LookupSubjects _ _ _ _ _ _ _ := Ok [];
  rel_CreateTuples _ _ _ t := (t, Ok {| tr_consistencyToken := MinimizeLatencyToken |});
  rel_DeleteTuples _ _ t := (t, Ok {| tr_consistencyToken := MinimizeLatencyToken |});
  rel_ReadTuples _ _ _ _ := Ok [];
  rel_AcquireLock _ t := (t, Ok {| al_lockToken := "" |});
|}.
