(* ===== verification/RelationsRepoProps.v ===== *)
(** SimpleRelationsRepository keeps the promises of [TupleStore], answers
    reads from what is stored, and a check that asks for a token is answered
    from a state at least as fresh as the token. *)
From stdpp Require Import base tactics list strings gmap sorting.
From Stdlib Require Import ZArith Lia Ascii.
From S2P Require Import Prelude GoStrings Common ReporterResource Relations RelationsRepo.

Local Open Scope string_scope.

(** * The promises of a tuple store *)

Lemma foldl_union_set (ts : list RelationsTuple) (s : gset simpleTupleKey) :
  foldl (fun acc tuple => {[ simpleTupleKeyFromModelTuple tuple ]} ∪ acc) s ts
  = list_to_set (simpleTupleKeyFromModelTuple <$> ts) ∪ s.
Proof.
  revert s. induction ts as [|t ts IH]; intros s; simpl; [set_solver|].
  rewrite IH. set_solver.
Qed.

#[export] Program Instance SimpleRelationsRepository_store :
    TupleStore SimpleRelationsRepository := {|
  stored := s_tuples;
  upserts s := forall e, s_createTuplesError s = Some e -> status_Code e <> AlreadyExists;
|}.
Next Obligation.
  simpl. unfold Simple.CreateTuples. intros ts f t t' r. case_match; intros; simplify_eq.
  simpl. apply foldl_union_set.
Qed.
Next Obligation.
  simpl. unfold Simple.CreateTuples. intros ts f t t' r. case_match; intros; simplify_eq. by left.
Qed.
Next Obligation.
  simpl. unfold Simple.DeleteTuples. intros flt f t t' r _. case_match; intros; by simplify_eq.
Qed.
Next Obligation.
  simpl. unfold Simple.DeleteTuples. intros flt f t t' r _. case_match; intros; simplify_eq. by left.
Qed.
Next Obligation.
  simpl. unfold Simple.AcquireLock. intros l t t' r. case_match; intros; by simplify_eq.
Qed.
Next Obligation.
  simpl. unfold Simple.CreateTuples. intros ts f t t' e Hu. case_match; intros; simplify_eq. eauto.
Qed.
Next Obligation.
  simpl. unfold Simple.CreateTuples. intros ts f t Hu. case_match; naive_solver.
Qed.
Next Obligation.
  simpl. unfold Simple.DeleteTuples. intros flt f t Hu. case_match; naive_solver.
Qed.

(** * Reads *)

Lemma ReadTuples_filter s flt pg c items item :
  Simple.ReadTuples s flt pg c = Ok items ->
  item ∈ items <->
  exists k, k ∈ s_tuples s /\ simpleMatchesTupleFilter k flt = true
       /\ item = {| rti_object := Simple.ref_of (tk_ResourceNamespace k) (tk_ResourceType k)
                                    (tk_ResourceID k);
                    rti_relation := tk_Relation k;
                    rti_subject := NewSubjectReferenceWithoutRelation
                      (Simple.ref_of (tk_SubjectNamespace k) (tk_SubjectType k) (tk_SubjectID k));
                    rti_continuationToken := "";
                    rti_consistencyToken := MinimizeLatencyToken |}.
Proof.
  unfold Simple.ReadTuples. intros [= <-]. rewrite list_elem_of_fmap.
  setoid_rewrite list_elem_of_In. setoid_rewrite filter_In.
  setoid_rewrite <- list_elem_of_In. setoid_rewrite elem_of_elements. naive_solver.
Qed.

(** A write with upsert is visible to the next fully consistent check, and a
    delete that matches the relationship hides it. *)
Lemma CheckForUpdate_stored s rel :
  Simple.CheckForUpdate s rel = Ok {|
    cr_allowed := bool_decide (key_of_fields (rel_object rel) (rel_relation rel)
                                 (sub_resource (rel_subject rel)) ∈ stored s);
    cr_consistencyToken := Simple.token_of s |}.
Proof. done. Qed.

(** * Freshness *)

(** The operations that change the repository, with the history of the states
    by version; an [int64] version does not wrap around. *)
Inductive history :
    SimpleRelationsRepository -> gmap Z (gset simpleTupleKey) -> Prop :=
  | hist_init :
      history Simple.NewSimpleRelationsRepository {[1%Z := ∅]}
  | hist_create s h ts u f s' r :
      history s h -> (s_version s < 2 ^ 63 - 1)%Z ->
      Simple.CreateTuples ts u f s = (s', Ok r) ->
      history s' (<[s_version s' := s_tuples s']> h)
  | hist_delete s h flt f s' r :
      history s h -> (s_version s < 2 ^ 63 - 1)%Z ->
      Simple.DeleteTuples flt f s = (s', Ok r) ->
      history s' (<[s_version s' := s_tuples s']> h)
  | hist_grant s h a b c d e :
      history s h -> (s_version s < 2 ^ 63 - 1)%Z ->
      history (Simple.Grant s a b c d e)
        (<[s_version (Simple.Grant s a b c d e) := s_tuples (Simple.Grant s a b c d e)]> h)
  | hist_retain s h :
      history s h -> history (Simple.RetainCurrentSnapshot s).1 h
  | hist_release s h v :
      history s h -> history (Simple.ReleaseSnapshot s v) h
  | hist_clear s h :
      history s h -> history (Simple.ClearSnapshots s) h.

(** Every retained snapshot, and the current state, is in the history. *)
Record history_wf (s : SimpleRelationsRepository) (h : gmap Z (gset simpleTupleKey)) : Prop := {
  hw_current : h !! s_version s = Some (s_tuples s);
  hw_snapshots : forall v ts, s_snapshots s !! v = Some ts ->
    (v <= s_version s)%Z /\ h !! v = Some ts;
  hw_version : (1 <= s_version s < 2 ^ 63)%Z;
  hw_range : forall v ts, h !! v = Some ts -> (1 <= v <= s_version s)%Z;
}.

Lemma i64_succ v : (1 <= v < 2 ^ 63 - 1)%Z -> i64 (v + 1) = (v + 1)%Z.
Proof. intros Hv. unfold i64. rewrite Z.mod_small; lia. Qed.

Lemma advance_wf s h ts :
  history_wf s h -> (s_version s < 2 ^ 63 - 1)%Z ->
  let s' := Simple.advanceVersion (Simple.with_tuples s ts) in
  history_wf s' (<[s_version s' := s_tuples s']> h).
Proof.
  intros [Hc Hs Hv Hr] Hlt s'. subst s'. simpl. rewrite i64_succ by lia.
  split; simpl; rewrite ?i64_succ by lia.
  - by rewrite lookup_insert_eq.
  - intros v ts' Hts. apply Hs in Hts as [Hle Hh].
    rewrite lookup_insert_ne by lia. split; [lia|done].
  - lia.
  - intros v ts' Hts. destruct (decide (v = s_version s + 1)%Z) as [->|Hne]; [lia|].
    rewrite lookup_insert_ne in Hts by congruence. apply Hr in Hts. lia.
Qed.

Lemma history_invariant s h : history s h -> history_wf s h.
Proof.
  induction 1 as [|s h ts u f s' r _ IH Hlt Hc|s h flt f s' r _ IH Hlt Hd
                  |s h a b c d e _ IH Hlt|s h _ IH|s h v _ IH|s h _ IH].
  - split; simpl.
    + by rewrite lookup_singleton_eq.
    + done.
    + lia.
    + intros v ts [<- _]%lookup_singleton_Some. lia.
  - unfold Simple.CreateTuples in Hc. case_match; simplify_eq. by apply advance_wf.
  - unfold Simple.DeleteTuples in Hd. case_match; simplify_eq. by apply advance_wf.
  - by apply advance_wf.
  - destruct IH as [Hc Hs Hv Hr]. split; simpl; try done.
    intros v ts [[<- <-]|[_ Hts]]%lookup_insert_Some; [split; [lia|done]|by apply Hs].
  - destruct IH as [Hc Hs Hv Hr]. split; simpl; try done.
    intros v' ts [_ Hts]%lookup_delete_Some. by apply Hs.
  - destruct IH as [Hc Hs Hv Hr]. by split.
Qed.

Lemma first_at_least_Some vs req v :
  Simple.first_at_least vs req = Some v -> v ∈ vs /\ (req <= v)%Z.
Proof.
  unfold Simple.first_at_least. intros H. apply List.find_some in H as [Hin Hle].
  split; [by apply list_elem_of_In|lia].
Qed.

Lemma getTuplesForToken_fresh s h v :
  history_wf s h -> (0 <= v <= s_version s)%Z ->
  exists v', (v <= v' <= s_version s)%Z
    /\ h !! v' = Some (Simple.getTuplesForToken s (FormatInt v)).
Proof.
  intros [Hc Hs Hv Hr] Hle. unfold Simple.getTuplesForToken.
  rewrite FormatInt_Parse by lia. simpl.
  replace (if bool_decide (FormatInt v <> "") then v else 0%Z) with v.
  2:{ case_bool_decide as Hf; [done|].
      pose proof (FormatInt_Parse v) as Hp. rewrite Hf in Hp. discriminate Hp. lia. }
  set (vs := merge_sort _ _).
  assert (Hperm : vs ≡ₚ ((map_to_list (s_snapshots s)).*1 ++ [s_version s])%list)
    by apply merge_sort_Permutation.
  destruct (Simple.first_at_least vs v) as [v'|] eqn:Ef.
  - apply first_at_least_Some in Ef as [Hin Hle']. rewrite Hperm in Hin.
    exists v'. case_bool_decide as Hcur; [subst; split; [lia|done]|].
    apply elem_of_app in Hin as [Hin|Hin%list_elem_of_singleton]; [|done].
    apply list_elem_of_fmap in Hin as ([v0 ts] & -> & Hin%elem_of_map_to_list).
    simpl in *. destruct (Hs _ _ Hin) as [? ?]. rewrite Hin. simpl. split; [lia|done].
  - exists (s_version s). split; [lia|done].
Qed.

(** A check [AtLeastAsFresh] with the token of version [v] is answered from
    the tuples of some version between [v] and the current one, whatever
    snapshots are retained: never from a state older than the token. *)
Theorem Check_at_least_as_fresh s h v rel :
  history s h -> (0 <= v <= s_version s)%Z ->
  exists v' ts, (v <= v' <= s_version s)%Z /\ h !! v' = Some ts
    /\ Simple.Check s rel (Some (atLeastAsFreshConsistency (FormatInt v)))
       = Ok {| cr_allowed := bool_decide (key_of_fields (rel_object rel) (rel_relation rel)
                                            (sub_resource (rel_subject rel)) ∈ ts);
               cr_consistencyToken := FormatInt (s_version s) |}.
Proof.
  intros Hh Hv. destruct (getTuplesForToken_fresh s h v) as (v' & Hle & Hts);
    [by apply history_invariant|done|].
  by exists v', (Simple.getTuplesForToken s (FormatInt v)).
Qed.

Definition ex_granted : SimpleRelationsRepository :=
  Simple.Grant (Simple.RetainCurrentSnapshot Simple.NewSimpleRelationsRepository).1
    "alice" "view" "hbi" "host" "h1".

Definition ex_history : gmap Z (gset simpleTupleKey) :=
  <[s_version ex_granted := s_tuples ex_granted]> {[1%Z := ∅]}.

Lemma Check_at_least_as_fresh_witness :
  exists v' ts, (2 <= v' <= s_version ex_granted)%Z
    /\ ex_history !! v' = Some ts
    /\ Simple.Check ex_granted
         {| rel_object := Simple.ref_of "hbi" "host" "h1"; rel_relation := "view";
            rel_subject := NewSubjectReferenceWithoutRelation
                             (Simple.ref_of "rbac" "principal" "alice") |}
         (Some (atLeastAsFreshConsistency (FormatInt 2)))
       = Ok {| cr_allowed := bool_decide
                 ({| tk_ResourceNamespace := "hbi"; tk_ResourceType := "host";
                     tk_ResourceID := "h1"; tk_Relation := "view";
                     tk_SubjectNamespace := "rbac"; tk_SubjectType := "principal";
                     tk_SubjectID := "alice" |} ∈ ts);
               cr_consistencyToken := FormatInt (s_version ex_granted) |}.
Proof.
  refine (Check_at_least_as_fresh ex_granted ex_history 2 _ _ _).
  - apply hist_grant; [apply hist_retain, hist_init|vm_compute; reflexivity].
  - vm_compute. split; discriminate.
Defined.
