(* ===== verification/Proto.v ===== *)
(** The messages of api/kessel/inventory/v1beta2 that the services exchange.

    A message field is a pointer ([option]); an [optional] scalar is a pointer
    too; a repeated message field is a list of pointers.  A generated getter
    reads through nil pointers ([pget]); a Go field access does not.  A
    [structpb.Struct] is the map that its [AsMap] returns. *)
From stdpp Require Import base tactics list strings gmap.
From Stdlib Require Import ZArith.
From S2P Require Import Prelude Common.

Local Open Scope string_scope.

(** [m.GetF()]: the zero value [z] when [m] is nil. *)
Definition pget {M A} (f : M -> A) (z : A) (m : option M) : A :=
  match m with Some m => f m | None => z end.

(** [m.GetF()] for a message field. *)
Definition pmsg {M A} (f : M -> option A) (m : option M) : option A := pget f None m.

(** [m.GetF()] for an [optional string] field. *)
Definition pstr {M} (f : M -> option string) (m : option M) : string :=
  pget (fun m => default "" (f m)) "" m.

Abbreviation Struct := (gmap string json) (only parsing).

Module pb.
Record ConsistencyToken := { Token : string }.

Inductive requirement :=
  | MinimizeLatency (b : bool)
  | AtLeastAsFresh (t : option ConsistencyToken)
  | AtLeastAsAcknowledged (b : bool).
Record Consistency := { Requirement : option requirement }.

(** The getters of the oneof. *)
Definition GetMinimizeLatency (c : option Consistency) : bool :=
  match pmsg Requirement c with Some (MinimizeLatency b) => b | _ => false end.
Definition GetAtLeastAsAcknowledged (c : option Consistency) : bool :=
  match pmsg Requirement c with Some (AtLeastAsAcknowledged b) => b | _ => false end.
Definition GetAtLeastAsFresh (c : option Consistency) : option ConsistencyToken :=
  match pmsg Requirement c with Some (AtLeastAsFresh t) => t | _ => None end.

Record ReporterReference := { rr_Type : string; rr_InstanceId : option string }.
Record ResourceReference := {
  ResourceType : string; ResourceId : string; Reporter : option ReporterReference }.
Record SubjectReference := { sr_Relation : option string; sr_Resource : option ResourceReference }.
Record RepresentationType := { rt_ResourceType : string; rt_ReporterType : option string }.
Record RequestPagination := { Limit : Z; rp_ContinuationToken : option string }.
Record ResponsePagination := { ContinuationToken : string }.

Inductive Allowed := ALLOWED_UNSPECIFIED | ALLOWED_TRUE | ALLOWED_FALSE.

Inductive WriteVisibility :=
  | WRITE_VISIBILITY_UNSPECIFIED | IMMEDIATE | MINIMIZE_LATENCY
  | WV_UNRECOGNIZED (n : Z).

(** ** Reports and deletes *)

(** [TransactionId] is the only alternative of the oneof [idempotency_key]. *)
Record RepresentationMetadata := {
  LocalResourceId : string; ApiHref : string; ConsoleHref : option string;
  ReporterVersion : option string; TransactionId : option string }.
Record ResourceRepresentations := {
  Metadata : option RepresentationMetadata;
  Common : option Struct;
  rp_Reporter : option Struct }.
Record ReportResourceRequest := {
  InventoryId : option string; Type_ : string; ReporterType : string;
  ReporterInstanceId : string; Representations : option ResourceRepresentations;
  WriteVisibility_ : WriteVisibility }.
Record DeleteResourceRequest := { Reference : option ResourceReference }.

(** ** Checks *)

Record CheckRequest := {
  c_Object : option ResourceReference; c_Relation : string;
  c_Subject : option SubjectReference; c_Consistency : option Consistency }.
Record CheckForUpdateRequest := {
  cu_Object : option ResourceReference; cu_Relation : string;
  cu_Subject : option SubjectReference }.
Record CheckSelfRequest := {
  cs_Object : option ResourceReference; cs_Relation : string;
  cs_Consistency : option Consistency }.

(** [CheckResponse], [CheckForUpdateResponse] and [CheckSelfResponse] have the
    same two fields. *)
Record CheckResponse := { cr_Allowed : Allowed; cr_ConsistencyToken : option ConsistencyToken }.

Record CheckBulkRequestItem := {
  bi_Object : option ResourceReference; bi_Relation : string;
  bi_Subject : option SubjectReference }.
Record CheckBulkRequest := {
  b_Items : list (option CheckBulkRequestItem); b_Consistency : option Consistency }.
Record CheckForUpdateBulkRequest := { ub_Items : list (option CheckBulkRequestItem) }.
Record CheckSelfBulkRequestItem := {
  si_Object : option ResourceReference; si_Relation : string }.
Record CheckSelfBulkRequest := {
  sb_Items : list (option CheckSelfBulkRequestItem); sb_Consistency : option Consistency }.

(** [google.rpc.Status] *)
Record Status := { Code : Z; Message : string }.
Inductive bulk_response := Item (allowed : Allowed) | Error_ (s : Status).

(** The response pairs of the three bulk endpoints, over their request item. *)
Record BulkResponsePair (item : Type) := {
  p_Request : option item; p_Response : bulk_response }.
Record BulkResponse (item : Type) := {
  br_Pairs : list (BulkResponsePair item); br_ConsistencyToken : option ConsistencyToken }.

(** ** Lists *)

Record StreamedListObjectsRequest := {
  lo_ObjectType : option RepresentationType; lo_Relation : string;
  lo_Subject : option SubjectReference; lo_Pagination : option RequestPagination;
  lo_Consistency : option Consistency }.
Record StreamedListObjectsResponse := {
  lor_Object : ResourceReference; lor_Pagination : ResponsePagination }.
Record StreamedListSubjectsRequest := {
  ls_Resource : option ResourceReference; ls_Relation : string;
  ls_SubjectType : option RepresentationType; ls_SubjectRelation : option string;
  ls_Pagination : option RequestPagination; ls_Consistency : option Consistency }.
Record StreamedListSubjectsResponse := {
  lsr_Subject : SubjectReference; lsr_Pagination : ResponsePagination }.

(** ** Tuples *)

Record RelationObjectType := { Namespace : string; Name : string }.
Record RelationObjectReference := { ro_Type : option RelationObjectType; Id : string }.
Record RelationSubjectReference := {
  rs_Relation : option string; rs_Subject : option RelationObjectReference }.
Record Relationship := {
  r_Resource : option RelationObjectReference; r_Relation : string;
  r_Subject : option RelationSubjectReference }.
Record RelationFencingCheck := { LockId : string; LockToken : string }.
Record RelationSubjectFilter := {
  SubjectNamespace : option string; SubjectType : option string;
  SubjectId : option string; sf_Relation : option string }.
Record RelationTupleFilter := {
  ResourceNamespace : option string; tf_ResourceType : option string;
  tf_ResourceId : option string; tf_Relation : option string;
  SubjectFilter : option RelationSubjectFilter }.
Record CreateTuplesRequest := {
  Upsert : bool; Tuples : list (option Relationship);
  ct_FencingCheck : option RelationFencingCheck }.
Record DeleteTuplesRequest := {
  dt_Filter : option RelationTupleFilter; dt_FencingCheck : option RelationFencingCheck }.
Record ReadTuplesRequest := {
  rd_Filter : option RelationTupleFilter; rd_Pagination : option RequestPagination;
  rd_Consistency : option Consistency }.
Record AcquireLockRequest := { al_LockId : string }.

(** [CreateTuplesResponse] and [DeleteTuplesResponse]. *)
Record TuplesResponse := { tr_ConsistencyToken : option ConsistencyToken }.
Record ReadTuplesResponse := {
  rdr_Tuple : Relationship; rdr_Pagination : option ResponsePagination;
  rdr_ConsistencyToken : option ConsistencyToken }.
Record AcquireLockResponse := { alr_LockToken : string }.
End pb.

Arguments pb.p_Request {item}.
Arguments pb.p_Response {item}.
Arguments pb.br_Pairs {item}.
Arguments pb.br_ConsistencyToken {item}.
Arguments pb.Build_BulkResponsePair {item}.
Arguments pb.Build_BulkResponse {item}.
