(* ===== verification/SpiceDB.v ===== *)
(** internal/data/spicedb_relations_repository.go: the relations repository over
    SpiceDB.

    SpiceDB and its client are not part of the repository: the class
    [SpiceDBClient] holds the calls that the repository makes.  SpiceDBProps.v
    has [SpiceDBLaws], what the API's documentation says of them, and
    SpiceDBZed.v a small store that satisfies the laws.  Counters and logs are
    dropped. *)
From stdpp Require Import base tactics list strings gmap.
From Stdlib Require Import ZArith Lia Ascii.
From S2P Require Import Prelude GoStrings Common ReporterResource Relations RelationsRepo.

Local Open Scope string_scope.

(** * The messages of authzed.api.v1 *)
Module v1.
Record ObjectReference := { ObjectType : string; ObjectId : string }.
Record SubjectReference := { Object : ObjectReference; sr_OptionalRelation : string }.
Record Relationship := {
  Resource : ObjectReference; Relation_ : string; Subject : SubjectReference }.
Record SubjectFilter := {
  SubjectType : string; OptionalSubjectId : string;
  sf_OptionalRelation : option string }.
Record RelationshipFilter := {
  ResourceType : string; OptionalResourceId : string; OptionalRelation : string;
  OptionalSubjectFilter : option SubjectFilter }.

(** [OPERATION_MUST_MATCH] is the only precondition the code uses. *)
Record Precondition := { must_match : RelationshipFilter }.

Inductive Operation := OPERATION_CREATE | OPERATION_TOUCH | OPERATION_DELETE.
Record RelationshipUpdate := { Operation_ : Operation; u_Relationship : Relationship }.

Inductive Consistency :=
  | MinimizeLatency | AtLeastAsFresh (token : string) | FullyConsistent.

Inductive Permissionship :=
  | PERMISSIONSHIP_UNSPECIFIED | NO_PERMISSION | HAS_PERMISSION | CONDITIONAL_PERMISSION.

Record CheckItem := {
  ci_Resource : ObjectReference; Permission : string; ci_Subject : SubjectReference }.
Record CheckPermissionRequest := { c_Consistency : Consistency; c_Item : CheckItem }.
Record CheckPermissionResponse := { Permissionship_ : Permissionship; CheckedAt : string }.
Record CheckBulkPermissionsRequest := {
  b_Consistency : Consistency; b_Items : list CheckItem }.
Inductive CheckBulkPermissionsPair :=
  | PairItem (p : Permissionship)
  | PairError (code : Z) (message : string).
Record CheckBulkPermissionsResponse := {
  b_Pairs : list CheckBulkPermissionsPair; b_CheckedAt : string }.

Record LookupResourcesRequest := {
  lr_Consistency : Consistency; ResourceObjectType : string; lr_Permission : string;
  lr_Subject : SubjectReference; lr_OptionalLimit : Z; lr_OptionalCursor : option string }.
Record LookupResourcesResponse := {
  ResourceObjectId : string; lr_AfterResultCursor : option string }.
Record LookupSubjectsRequest := {
  ls_Consistency : Consistency; ls_Resource : ObjectReference; ls_Permission : string;
  SubjectObjectType : string; OptionalSubjectRelation : string; OptionalConcreteLimit : Z;
  ls_OptionalCursor : option string }.
Record LookupSubjectsResponse := {
  SubjectObjectId : string; ls_AfterResultCursor : option string }.
Record WriteRelationshipsRequest := {
  Updates : list RelationshipUpdate; w_OptionalPreconditions : list Precondition }.
Record DeleteRelationshipsRequest := {
  RelationshipFilter_ : RelationshipFilter; d_OptionalPreconditions : list Precondition }.
Record ReadRelationshipsRequest := {
  rd_Consistency : Consistency; rd_Filter : RelationshipFilter; rd_OptionalLimit : Z;
  rd_OptionalCursor : option string }.
Record ReadRelationshipsResponse := {
  rd_Relationship : option Relationship; rd_AfterResultCursor : option string;
  ReadAt : string }.

Inductive HealthStatus := HealthUnknown | SERVING | NOT_SERVING | SERVICE_UNKNOWN.

#[global] Instance ObjectReference_eq_dec : EqDecision ObjectReference.
Proof. solve_decision. Defined.
#[global] Instance SubjectReference_eq_dec : EqDecision SubjectReference.
Proof. solve_decision. Defined.
#[global] Instance Relationship_eq_dec : EqDecision Relationship.
Proof. solve_decision. Defined.
End v1.

(** A gRPC server stream as the client receives it: the messages, then [io.EOF]
    ([None]) or an error. *)
Definition stream (A : Type) : Type := list A * option go_error.

(** * The client *)
Class SpiceDBClient (C : Type) := {
  zed_WriteSchema : string -> C -> C * result unit;
  zed_Health : C -> result v1.HealthStatus;
  zed_CheckPermission : C -> v1.CheckPermissionRequest -> result v1.CheckPermissionResponse;
  zed_CheckBulkPermissions :
    C -> v1.CheckBulkPermissionsRequest -> result v1.CheckBulkPermissionsResponse;
  zed_LookupResources :
    C -> v1.LookupResourcesRequest -> result (stream v1.LookupResourcesResponse);
  zed_LookupSubjects :
    C -> v1.LookupSubjectsRequest -> result (stream v1.LookupSubjectsResponse);
  zed_WriteRelationships : v1.WriteRelationshipsRequest -> C -> C * result string;
  zed_DeleteRelationships : v1.DeleteRelationshipsRequest -> C -> C * result string;
  zed_ReadRelationships :
    C -> v1.ReadRelationshipsRequest -> result (stream v1.ReadRelationshipsResponse);
}.

(** * Conversions *)

Definition relationPrefix : string := "t_".
Definition lockType : string := "kessel/lock".
Definition lockVersionType : string := "kessel/lockversion".
Definition lockVersionRelation : string := "version".
Definition defaultStreamingLimit : Z := 1000.

Definition addRelationPrefix (relation prefix : string) : string :=
  if negb (HasPrefix relation prefix) then prefix +:+ relation else relation.
Definition stripRelationPrefix (relation prefix : string) : string := TrimPrefix relation prefix.

Definition optionalRelationToString (r : option Relation) : string := default "" r.
Definition optionalRelationToStringWithPrefix (r : option Relation) : string :=
  match r with None => "" | Some r => addRelationPrefix r relationPrefix end.
Definition optionalLocalResourceIdToString (id : option LocalResourceId) : string := default "" id.

Definition resourceReferenceToSpiceDBType (ref : ResourceReference) : string :=
  match ref_reporter ref with
  | None => ref_resourceType ref
  | Some r => rref_reporterType r +:+ "/" +:+ ref_resourceType ref
  end.

Definition representationTypeToSpiceDBType (rt : RepresentationType) : string :=
  match rtype_reporterType rt with
  | None => rtype_resourceType rt
  | Some r => r +:+ "/" +:+ rtype_resourceType rt
  end.

Definition spiceDBTypeToResourceReference (spicedbType id : string) : result ResourceReference :=
  match Split spicedbType "/" with
  | [ty] => Ok (NewResourceReference ty id None)
  | [ns; ty] => Ok (NewResourceReference ty id (Some (NewReporterReference ns None)))
  | _ => Err (EMsg "invalid spicedb type")
  end.

(** [&v1.ObjectReference{...}] of a reference. *)
Definition object_of (ref : ResourceReference) : v1.ObjectReference :=
  {| v1.ObjectType := resourceReferenceToSpiceDBType ref; v1.ObjectId := ref_resourceId ref |}.

(** [&v1.SubjectReference{...}] of a subject: its relation is not prefixed. *)
Definition subject_of (subj : SubjectReference) : v1.SubjectReference :=
  {| v1.Object := object_of (sub_resource subj);
     v1.sr_OptionalRelation := optionalRelationToString (sub_relation subj) |}.

Definition relationshipToCheckBulkItem (rel : Relationship) : v1.CheckItem :=
  {| v1.ci_Resource := object_of (rel_object rel); v1.Permission := rel_relation rel;
     v1.ci_Subject := subject_of (rel_subject rel) |}.

Definition spicePairToCheckBulkResultPair (pair : v1.CheckBulkPermissionsPair)
    (originalRequest : Relationship) : CheckBulkResultPair :=
  {| cbp_request := originalRequest;
     cbp_result :=
       match pair with
       | v1.PairError code message =>
           {| cbi_allowed := false; cbi_err := Some (EMsg message); cbi_errorCode := code |}
       | v1.PairItem p =>
           {| cbi_allowed := match p with v1.HAS_PERMISSION => true | _ => false end;
              cbi_err := None; cbi_errorCode := 0%Z |}
       end |}.

Definition relationsTupleToSpiceDBRelationship (tuple : RelationsTuple) : v1.Relationship :=
  {| v1.Resource := object_of (tup_object tuple);
     v1.Relation_ := addRelationPrefix (tup_relation tuple) relationPrefix;
     v1.Subject := subject_of (tup_subject tuple) |}.

(** A type filter: the namespace and the type come together.  [ns_name] and
    [ty_name] are what the error calls them. *)
Definition type_filter (ns ty : option string) (ns_name ty_name : string) : result string :=
  match ns, ty with
  | Some _, None => Err (EMsg ("if " +:+ ns_name +:+ " is specified then "
                               +:+ ty_name +:+ " must also be specified"))
  | None, Some _ => Err (EMsg ("if " +:+ ty_name +:+ " is specified then "
                               +:+ ns_name +:+ " must also be specified"))
  | Some ns, Some ty => Ok (ns +:+ "/" +:+ ty)
  | None, None => Ok ""
  end.

Definition tupleFilterToSpiceDBFilter (filter : TupleFilter) : result v1.RelationshipFilter :=
  let! resourceType := type_filter (tf_reporterType filter) (tf_objectType filter)
                           "reporter type" "resource type" in
  let! subject :=
    match tf_subject filter with
    | None => Ok None
    | Some sf =>
        let! subjectType := type_filter (sf_reporterType sf) (sf_subjectType sf)
                              "subject reporter type" "subject type" in
        Ok (Some {| v1.SubjectType := subjectType;
                    v1.OptionalSubjectId := optionalLocalResourceIdToString (sf_subjectId sf);
                    v1.sf_OptionalRelation := sf_relation sf |})
    end in
  Ok {| v1.ResourceType := resourceType;
        v1.OptionalResourceId := optionalLocalResourceIdToString (tf_objectId filter);
        v1.OptionalRelation := optionalRelationToStringWithPrefix (tf_relation filter);
        v1.OptionalSubjectFilter := subject |}.

Definition determineConsistency (fullyConsistentAsDefault : bool)
    (consistency : option Consistency) : v1.Consistency :=
  match normalizeConsistency consistency with
  | atLeastAsFreshConsistency token => v1.AtLeastAsFresh token
  | minimizeLatencyConsistency => v1.MinimizeLatency
  | _ => if fullyConsistentAsDefault then v1.FullyConsistent else v1.MinimizeLatency
  end.

(** [uint32] limits. *)
Definition effectiveLimit (pagination : option Pagination) (defaultLimit : Z) : Z :=
  match pagination with
  | Some p => if bool_decide (0 < pg_Limit p)%Z && bool_decide (pg_Limit p < defaultLimit)%Z
              then pg_Limit p else defaultLimit
  | None => defaultLimit
  end.

Definition cursor_of (pagination : option Pagination) : option string :=
  match pagination with Some p => pg_Continuation p | None => None end.

(** ** Streams: [Recv] of the three wrappers *)

Definition type_reference (rt : RepresentationType) (id : string) : ResourceReference :=
  NewResourceReference (rtype_resourceType rt) id
    ((fun r => NewReporterReference r None) <$> rtype_reporterType rt).

Definition lookupObjects_Recv (objectType : RepresentationType) (msg : v1.LookupResourcesResponse)
    : result LookupObjectsItem :=
  Ok {| loi_object := type_reference objectType (v1.ResourceObjectId msg);
        loi_continuationToken := default "" (v1.lr_AfterResultCursor msg) |}.

Definition lookupSubjects_Recv (subjectType : RepresentationType) (msg : v1.LookupSubjectsResponse)
    : result LookupSubjectsItem :=
  Ok {| lsi_subject := NewSubjectReferenceWithoutRelation
          (type_reference subjectType (v1.SubjectObjectId msg));
        lsi_continuationToken := default "" (v1.ls_AfterResultCursor msg) |}.

Definition readTuples_Recv (msg : v1.ReadRelationshipsResponse) : result ReadTuplesItem :=
  match v1.rd_Relationship msg with
  | None => Err (EPanic "invalid memory address or nil pointer dereference")
  | Some spiceRel =>
      let obj := v1.Resource spiceRel in
      let sub := v1.Object (v1.Subject spiceRel) in
      let! objRef := wrap_err "invalid resource type"
        (spiceDBTypeToResourceReference (v1.ObjectType obj) (v1.ObjectId obj)) in
      let! subjResourceRef := wrap_err "invalid subject type"
        (spiceDBTypeToResourceReference (v1.ObjectType sub) (v1.ObjectId sub)) in
      let rel := v1.sr_OptionalRelation (v1.Subject spiceRel) in
      let subjRelation := if bool_decide (rel <> "") then Some rel else None in
      Ok {| rti_object := objRef;
            rti_relation := stripRelationPrefix (v1.Relation_ spiceRel) relationPrefix;
            rti_subject := NewSubjectReference subjResourceRef subjRelation;
            rti_continuationToken := default "" (v1.rd_AfterResultCursor msg);
            rti_consistencyToken := v1.ReadAt msg |}
  end.

(** What a reader of the wrapped stream receives: up to the first error. *)
Fixpoint recv_all {A B} (recv : A -> result B) (msgs : list A) (last : option go_error)
    : stream B :=
  match msgs with
  | [] => ([], last)
  | m :: rest =>
      match recv m with
      | Err err => ([], Some err)
      | Ok item => let '(items, err) := recv_all recv rest last in (item :: items, err)
      end
  end.

(** * The repository *)

(** [initOnce] and [initErr]: [None] before the first call. *)
Record SpiceDBRelationsRepository (C : Type) := mkSpiceDB {
  sp_client : C;
  sp_init : option (option go_error);
  sp_schemaFile : result string;       (* what [readFile(schemaFilePath)] yields *)
  sp_fullyConsistentAsDefault : bool;
}.
Arguments mkSpiceDB {C}.
Arguments sp_client {C}.
Arguments sp_init {C}.
Arguments sp_schemaFile {C}.
Arguments sp_fullyConsistentAsDefault {C}.

Module SpiceDB.
Section Repository.
Context {C : Type} `{SpiceDBClient C}.
Implicit Type s : SpiceDBRelationsRepository C.

Definition with_client s (c : C) : SpiceDBRelationsRepository C :=
  mkSpiceDB c (sp_init s) (sp_schemaFile s) (sp_fullyConsistentAsDefault s).

Definition initialize s : SpiceDBRelationsRepository C * option go_error :=
  match sp_init s with
  | Some initErr => (s, initErr)
  | None =>
      let '(c, initErr) :=
        match sp_schemaFile s with
        | Err err => (sp_client s, Some (EWrap "failed to load schema file" err))
        | Ok schema =>
            match zed_WriteSchema schema (sp_client s) with
            | (c, Err err) => (c, Some err)
            | (c, Ok _) => (c, None)
            end
        end in
      (mkSpiceDB c (Some initErr) (sp_schemaFile s) (sp_fullyConsistentAsDefault s), initErr)
  end.

(** [if err := s.initialize(ctx); err != nil { return err }; k] *)
Definition initialized {A} s
    (k : SpiceDBRelationsRepository C -> SpiceDBRelationsRepository C * result A)
    : SpiceDBRelationsRepository C * result A :=
  match initialize s with
  | (s, Some err) => (s, Err err)
  | (s, None) => k s
  end.

(** [timeout] says whether the deadline passed while the answer was awaited. *)
Definition Health (timeout : bool) s : result HealthResult :=
  let! resp := zed_Health (sp_client s) in
  if timeout then Err (EMsg "timeout connecting to backend")
  else match resp with
       | v1.NOT_SERVING => Ok {| hr_status := "NOT_SERVING"; hr_code := 503 |}
       | v1.SERVICE_UNKNOWN => Ok {| hr_status := "SERVICE_UNKNOWN"; hr_code := 503 |}
       | v1.SERVING => Ok {| hr_status := "SERVING"; hr_code := 200 |}
       | v1.HealthUnknown => Err (EMsg "error connecting to backend")
       end.

Definition check_permission s (c : v1.Consistency) (rel : Relationship) : result CheckResult :=
  let! resp := wrap_err "error invoking CheckPermission in SpiceDB"
    (zed_CheckPermission (sp_client s)
       {| v1.c_Consistency := c; v1.c_Item := relationshipToCheckBulkItem rel |}) in
  Ok {| cr_allowed := match v1.Permissionship_ resp with v1.HAS_PERMISSION => true | _ => false end;
        cr_consistencyToken := v1.CheckedAt resp |}.

Definition Check (rel : Relationship) (consistency : option Consistency) s :=
  initialized s (fun s =>
    (s, check_permission s
          (determineConsistency (sp_fullyConsistentAsDefault s) consistency) rel)).

Definition CheckForUpdate (rel : Relationship) s :=
  initialized s (fun s => (s, check_permission s v1.FullyConsistent rel)).

(** [rels[i]] is out of range when there are more answers than requests. *)
Fixpoint bulk_pairs (pairs : list v1.CheckBulkPermissionsPair) (rels : list Relationship)
    : result (list CheckBulkResultPair) :=
  match pairs, rels with
  | [], _ => Ok []
  | p :: ps, rel :: rels =>
      let! rest := bulk_pairs ps rels in Ok (spicePairToCheckBulkResultPair p rel :: rest)
  | _ :: _, [] => Err (EPanic "index out of range")
  end.

Definition check_bulk s (c : v1.Consistency) (rels : list Relationship) : result CheckBulkResult :=
  let! resp := wrap_err "error invoking CheckBulkPermissions in SpiceDB"
    (zed_CheckBulkPermissions (sp_client s)
       {| v1.b_Consistency := c; v1.b_Items := relationshipToCheckBulkItem <$> rels |}) in
  let! pairs := bulk_pairs (v1.b_Pairs resp) rels in
  Ok {| cbr_pairs := pairs; cbr_consistencyToken := v1.b_CheckedAt resp |}.

Definition CheckBulk (rels : list Relationship) (consistency : option Consistency) s :=
  initialized s (fun s =>
    (s, check_bulk s (determineConsistency (sp_fullyConsistentAsDefault s) consistency) rels)).

Definition CheckForUpdateBulk (rels : list Relationship) s :=
  initialized s (fun s => (s, check_bulk s v1.FullyConsistent rels)).

Definition LookupObjects (objectType : RepresentationType) (relation : Relation)
    (subject : SubjectReference) (pagination : option Pagination)
    (consistency : option Consistency) s :=
  initialized s (fun s =>
    (s, let! client := wrap_err "error invoking LookupResources in SpiceDB"
          (zed_LookupResources (sp_client s)
             {| v1.lr_Consistency :=
                  determineConsistency (sp_fullyConsistentAsDefault s) consistency;
                v1.ResourceObjectType := representationTypeToSpiceDBType objectType;
                v1.lr_Permission := relation; v1.lr_Subject := subject_of subject;
                v1.lr_OptionalLimit := effectiveLimit pagination defaultStreamingLimit;
                v1.lr_OptionalCursor := cursor_of pagination |}) in
        Ok (recv_all (lookupObjects_Recv objectType) client.1 client.2))).

Definition LookupSubjects (object : ResourceReference) (relation : Relation)
    (subjectType : RepresentationType) (subjectRelation : option Relation)
    (pagination : option Pagination) (consistency : option Consistency) s :=
  initialized s (fun s =>
    (s, let! client := wrap_err "error invoking LookupSubjects in SpiceDB"
          (zed_LookupSubjects (sp_client s)
             {| v1.ls_Consistency :=
                  determineConsistency (sp_fullyConsistentAsDefault s) consistency;
                v1.ls_Resource := object_of object; v1.ls_Permission := relation;
                v1.SubjectObjectType := representationTypeToSpiceDBType subjectType;
                v1.OptionalSubjectRelation := optionalRelationToString subjectRelation;
                v1.OptionalConcreteLimit :=
                  match pagination with Some p => pg_Limit p | None => 0%Z end;
                v1.ls_OptionalCursor := cursor_of pagination |}) in
        Ok (recv_all (lookupSubjects_Recv subjectType) client.1 client.2))).

(** The relationship that a lock token stands for, and its filter. *)
Definition lock_relationship (lockId token : string) : v1.Relationship :=
  {| v1.Resource := {| v1.ObjectType := lockType; v1.ObjectId := lockId |};
     v1.Relation_ := addRelationPrefix lockVersionRelation relationPrefix;
     v1.Subject := {| v1.Object := {| v1.ObjectType := lockVersionType; v1.ObjectId := token |};
                      v1.sr_OptionalRelation := "" |} |}.

Definition fencing_precondition (fencing : option FencingCheck) : list v1.Precondition :=
  match fencing with
  | None => []
  | Some f =>
      [{| v1.must_match :=
            {| v1.ResourceType := lockType; v1.OptionalResourceId := fc_lockId f;
               v1.OptionalRelation := addRelationPrefix lockVersionRelation relationPrefix;
               v1.OptionalSubjectFilter :=
                 Some {| v1.SubjectType := lockVersionType;
                         v1.OptionalSubjectId := fc_lockToken f;
                         v1.sf_OptionalRelation := None |} |} |}]
  end.

Definition CreateTuples (tuples : list RelationsTuple) (upsert : bool)
    (fencing : option FencingCheck) s :=
  initialized s (fun s =>
    let operation := if upsert then v1.OPERATION_TOUCH else v1.OPERATION_CREATE in
    let '(c, res) :=
      zed_WriteRelationships
        {| v1.Updates := (fun tuple =>
             {| v1.Operation_ := operation;
                v1.u_Relationship := relationsTupleToSpiceDBRelationship tuple |}) <$> tuples;
           v1.w_OptionalPreconditions := fencing_precondition fencing |} (sp_client s) in
    (with_client s c,
     let! token := wrap_err "error writing relationships to SpiceDB" res in
     Ok {| tr_consistencyToken := token |})).

Definition DeleteTuples (filter : TupleFilter) (fencing : option FencingCheck) s :=
  initialized s (fun s =>
    match tupleFilterToSpiceDBFilter filter with
    | Err err => (s, Err (EWrap "SpiceDB request validation" err))
    | Ok relationshipFilter =>
        let '(c, res) :=
          zed_DeleteRelationships
            {| v1.RelationshipFilter_ := relationshipFilter;
               v1.d_OptionalPreconditions := fencing_precondition fencing |} (sp_client s) in
        (with_client s c,
         let! token := wrap_err "error invoking DeleteRelationships in SpiceDB" res in
         Ok {| tr_consistencyToken := token |})
    end).

Definition ReadTuples (filter : TupleFilter) (pagination : option Pagination)
    (consistency : option Consistency) s :=
  initialized s (fun s =>
    (s, let! relationshipFilter :=
          wrap_err "SpiceDB request validation" (tupleFilterToSpiceDBFilter filter) in
        let! client := wrap_err "error invoking ReadRelationships in SpiceDB"
          (zed_ReadRelationships (sp_client s)
             {| v1.rd_Consistency :=
                  determineConsistency (sp_fullyConsistentAsDefault s) consistency;
                v1.rd_Filter := relationshipFilter;
                v1.rd_OptionalLimit := effectiveLimit pagination defaultStreamingLimit;
                v1.rd_OptionalCursor := cursor_of pagination |}) in
        Ok (recv_all readTuples_Recv client.1 client.2))).

(** ** The lock *)

Definition lock_filter (lockId : string) : v1.RelationshipFilter :=
  {| v1.ResourceType := lockType; v1.OptionalResourceId := lockId;
     v1.OptionalRelation := addRelationPrefix lockVersionRelation relationPrefix;
     v1.OptionalSubjectFilter := None |}.

(** The first half: the lock relationship that exists, if any. *)
Definition read_lock (c : C) (lockId : LockId) : result (option v1.Relationship) :=
  let! readClient := wrap_err "error invoking ReadRelationships in SpiceDB"
    (zed_ReadRelationships c
       {| v1.rd_Consistency := v1.FullyConsistent; v1.rd_Filter := lock_filter lockId;
          v1.rd_OptionalLimit := 0; v1.rd_OptionalCursor := None |}) in
  match readClient with
  | (existingLock :: _, _) => Ok (v1.rd_Relationship existingLock)
  | ([], None) => Ok None
  | ([], Some err) =>
      if errors_Is err EOF then Ok None else Err (EWrap "error reading existing lock" err)
  end.

(** The second half: replace what was read, on the condition that it is still
    there. *)
Definition lock_request (lockId : LockId) (newFencingToken : string)
    (existingLock : option v1.Relationship) : v1.WriteRelationshipsRequest :=
  let create := {| v1.Operation_ := v1.OPERATION_CREATE;
                   v1.u_Relationship := lock_relationship lockId newFencingToken |} in
  match existingLock with
  | None => {| v1.Updates := [create]; v1.w_OptionalPreconditions := [] |}
  | Some rel =>
      {| v1.Updates := [{| v1.Operation_ := v1.OPERATION_DELETE; v1.u_Relationship := rel |};
                        create];
         v1.w_OptionalPreconditions :=
           [{| v1.must_match :=
                 {| v1.ResourceType := v1.ObjectType (v1.Resource rel);
                    v1.OptionalResourceId := v1.ObjectId (v1.Resource rel);
                    v1.OptionalRelation := v1.Relation_ rel;
                    v1.OptionalSubjectFilter :=
                      Some {| v1.SubjectType := v1.ObjectType (v1.Object (v1.Subject rel));
                              v1.OptionalSubjectId := v1.ObjectId (v1.Object (v1.Subject rel));
                              v1.sf_OptionalRelation := None |} |} |}] |}
  end.

Definition write_lock (lockId : LockId) (newFencingToken : string)
    (existingLock : option v1.Relationship) (c : C) : C * result AcquireLockResult :=
  let '(c, res) := zed_WriteRelationships (lock_request lockId newFencingToken existingLock) c in
  (c, let! _ := wrap_err "error writing relationships to SpiceDB" res in
      Ok {| al_lockToken := newFencingToken |}).

(** [newFencingToken] is the UUID drawn; [others] is what other clients do to
    the backend between the read and the write. *)
Definition AcquireLock (newFencingToken : string) (others : C -> C) (lockId : LockId) s :=
  initialized s (fun s =>
    match read_lock (sp_client s) lockId with
    | Err err => (s, Err err)
    | Ok existingLock =>
        let '(c, res) := write_lock lockId newFencingToken existingLock (others (sp_client s)) in
        (with_client s c, res)
    end).
End Repository.
End SpiceDB.
