(* ===== verification/GRPCRelations.v ===== *)
(** internal/data/grpc_relations_repository.go and
    grpc_relations_repository_token.go: the relations repository over the
    Relations API.

    The API's client, the token endpoint, the JWT parser and the clock are
    parameters; the messages are those of kessel/relations/v1beta1.  The clock
    does not advance within a call.  Counters and logs are dropped. *)
From stdpp Require Import base tactics list strings gmap.
From Stdlib Require Import ZArith Lia Ascii.
From S2P Require Import Prelude GoStrings Common ReporterResource Relations RelationsRepo Proto SpiceDB.

Local Open Scope string_scope.

(** * The messages of kessel/relations/v1beta1 *)
Module kesselapi.
Record ObjectType := { Namespace : string; Name : string }.
Record ObjectReference := { Type_ : option ObjectType; Id : string }.
Record SubjectReference := { s_Relation : option string; s_Subject : option ObjectReference }.
Record Relationship := {
  Resource : option ObjectReference; Relation_ : string; Subject : option SubjectReference }.
Record ConsistencyToken := { Token : string }.
Inductive Consistency := MinimizeLatency | AtLeastAsFresh (token : ConsistencyToken).
Record RequestPagination := { Limit : Z; ContinuationToken : option string }.
Record FencingCheck := { LockId : string; LockToken : string }.
Record SubjectFilter := {
  SubjectNamespace : option string; SubjectType : option string; SubjectId : option string;
  f_Relation : option string }.
Record RelationTupleFilter := {
  ResourceNamespace : option string; ResourceType : option string;
  ResourceId : option string; t_Relation : option string;
  SubjectFilter_ : option SubjectFilter }.

Inductive Allowed := ALLOWED_UNSPECIFIED | ALLOWED_TRUE | ALLOWED_FALSE.

Record CheckRequest := {
  c_Resource : ObjectReference; c_Relation : string; c_Subject : SubjectReference;
  c_Consistency : Consistency }.
Record CheckForUpdateRequest := {
  u_Resource : ObjectReference; u_Relation : string; u_Subject : SubjectReference }.
Record CheckResponse := { Allowed_ : Allowed; c_ConsistencyToken : option ConsistencyToken }.
Record CheckBulkRequestItem := {
  i_Resource : ObjectReference; i_Relation : string; i_Subject : SubjectReference }.

(** The oneof [response] of a pair: an item, an error, or neither. *)
Inductive pair_response := PairItem (a : Allowed) | PairError (code : Z) (message : string).
Record CheckBulkResponse := {
  Pairs : list (option pair_response); b_ConsistencyToken : option ConsistencyToken }.

Record LookupResourcesRequest := {
  l_ResourceType : ObjectType; l_Relation : string; l_Subject : SubjectReference;
  l_Pagination : option RequestPagination; l_Consistency : Consistency }.
Record LookupSubjectsRequest := {
  ls_Resource : ObjectReference; ls_Relation : string; ls_SubjectType : ObjectType;
  ls_SubjectRelation : option string; ls_Pagination : option RequestPagination;
  ls_Consistency : Consistency }.
(** [ResponsePagination], nil or with its token. *)
Record LookupResourcesResponse := {
  lr_Resource : option ObjectReference; lr_Pagination : option string }.
Record LookupSubjectsResponse := {
  lsr_Subject : option SubjectReference; lsr_Pagination : option string }.
Record CreateTuplesRequest := {
  Upsert : bool; Tuples : list Relationship; ct_FencingCheck : option FencingCheck }.
Record DeleteTuplesRequest := {
  Filter : RelationTupleFilter; dt_FencingCheck : option FencingCheck }.
Record ReadTuplesRequest := {
  r_Filter : RelationTupleFilter; r_Pagination : option RequestPagination;
  r_Consistency : Consistency }.
Record ReadTuplesResponse := {
  Tuple : option Relationship; rr_Pagination : option string;
  rr_ConsistencyToken : option ConsistencyToken }.
End kesselapi.

(** The per-call credentials: whether they need transport security, and the
    [Authorization] header. *)
Record credentials := { RequireTransportSecurity : bool; Authorization : string }.
Abbreviation CallOptions := (option credentials) (only parsing).

Definition WithBearerToken (token : string) : credentials :=
  {| RequireTransportSecurity := true; Authorization := "Bearer " +:+ token |}.
Definition WithInsecureBearerToken (token : string) : credentials :=
  {| RequireTransportSecurity := false; Authorization := "Bearer " +:+ token |}.

(** * The clients *)
Class KesselClient (K : Type) := {
  kc_GetReadyz : CallOptions -> K -> result (string * Z);
  kc_Check : CallOptions -> K -> kesselapi.CheckRequest -> result kesselapi.CheckResponse;
  kc_CheckForUpdate :
    CallOptions -> K -> kesselapi.CheckForUpdateRequest -> result kesselapi.CheckResponse;
  kc_CheckBulk : CallOptions -> K -> list kesselapi.CheckBulkRequestItem ->
    kesselapi.Consistency -> result kesselapi.CheckBulkResponse;
  kc_CheckForUpdateBulk : CallOptions -> K -> list kesselapi.CheckBulkRequestItem ->
    result kesselapi.CheckBulkResponse;
  kc_LookupResources : CallOptions -> K -> kesselapi.LookupResourcesRequest ->
    result (stream kesselapi.LookupResourcesResponse);
  kc_LookupSubjects : CallOptions -> K -> kesselapi.LookupSubjectsRequest ->
    result (stream kesselapi.LookupSubjectsResponse);
  kc_CreateTuples : CallOptions -> kesselapi.CreateTuplesRequest -> K ->
    K * result (option kesselapi.ConsistencyToken);
  kc_DeleteTuples : CallOptions -> kesselapi.DeleteTuplesRequest -> K ->
    K * result (option kesselapi.ConsistencyToken);
  kc_ReadTuples : CallOptions -> K -> kesselapi.ReadTuplesRequest ->
    result (stream kesselapi.ReadTuplesResponse);
  kc_AcquireLock : CallOptions -> string -> K -> K * result string;
}.

Record TokenResponse := { AccessToken : string; ExpiresIn : Z; RefreshToken : string }.

(** The claim [exp] of a JWT, in seconds when it is a number. *)
Inductive exp_claim := ExpSeconds (s : Z) | ExpOther.

(** [http_post] sends a form: a transport error, or the status code and the
    body; [json_TokenResponse] is [json.Unmarshal] into a [TokenResponse];
    [jwt_exp] is [None] for what does not parse, [Some None] without [exp]. *)
Class TokenEndpoint (W : Type) := {
  http_NewRequest : string -> option go_error;
  http_post : string -> list (string * string) -> W -> W * result (Z * result string);
  json_TokenResponse : string -> result TokenResponse;
  jwt_exp : string -> option (option exp_claim);
}.

(** * The token client *)

(** Times are in nanoseconds. *)
Definition second : Z := 1000000000.
Definition tokenLifeDuration : Z := 5 * 60 * second.
Definition cacheCleanupInterval : Z := 5 * 60 * second.
Definition client_credentials_granttype : string := "client_credentials".

(** An entry of [go-cache] has a value and the time it expires at. *)
Record tokenClient := {
  ClientID : string;
  ClientSecret : string;
  URL : string;
  EnableOIDCAuth : bool;
  Insecure : bool;
  cache : gmap string (string * Z);
}.

Definition cache_Get (c : gmap string (string * Z)) (now : Z) (key : string) : option string :=
  match c !! key with
  | Some (v, expiration) => if bool_decide (now > expiration)%Z then None else Some v
  | None => None
  end.

Definition GetCachedToken (a : tokenClient) (now : Z) (tokenKey : string) : result string :=
  match cache_Get (cache a) now tokenKey with
  | Some ct => Ok ct
  | None => Err (EMsg "failed to retrieve cached token")
  end.

Section Tokens.
Context {W : Type} `{TokenEndpoint W}.

(** The type assertion on [exp] panics when it is not a number. *)
Definition IsJWTTokenExpired (now : Z) (accessToken : string) : result (bool * Z) :=
  match jwt_exp accessToken with
  | Some (Some (ExpSeconds s)) => Ok (bool_decide (now > s * second)%Z, (s * second)%Z)
  | Some (Some ExpOther) => Err (EPanic "interface conversion: not float64")
  | _ => Ok (true, 0%Z)
  end.

Definition fetch_token (a : tokenClient) (w : W) : W * result TokenResponse :=
  match http_NewRequest (URL a) with
  | Some err => (w, Err (EWrap "failed to create token request" err))
  | None =>
      let form := [("client_id", ClientID a); ("client_secret", ClientSecret a);
                   ("grant_type", client_credentials_granttype)] in
      let '(w, resp) := http_post (URL a) form w in
      (w, let! resp := wrap_err "token request failed" resp in
          let! body := wrap_err "failed to parse token response" resp.2 in
          if bool_decide (resp.1 <> 200%Z) then Err (EMsg "unexpected status code")
          else wrap_err "failed to unmarshal token response" (json_TokenResponse body))
  end.

Definition token_key (a : tokenClient) : string := URL a +:+ ClientID a.

Definition cache_Set (a : tokenClient) (now : Z) (key value : string) : tokenClient :=
  {| ClientID := ClientID a; ClientSecret := ClientSecret a; URL := URL a;
     EnableOIDCAuth := EnableOIDCAuth a; Insecure := Insecure a;
     cache := <[key := (value, now + cacheCleanupInterval)%Z]> (cache a) |}.

Definition getToken (now : Z) (a : tokenClient) (w : W)
    : tokenClient * W * result TokenResponse :=
  let cachedToken := match GetCachedToken a now (token_key a) with Ok ct => ct | Err _ => "" end in
  match IsJWTTokenExpired now cachedToken with
  | Err panic => (a, w, Err panic)
  | Ok (IsExpired, _) =>
      if bool_decide (cachedToken <> "") && negb IsExpired
      then (a, w, Ok {| AccessToken := cachedToken; ExpiresIn := 0; RefreshToken := "" |})
      else
        match fetch_token a w with
        | (w, Err err) => (a, w, Err err)
        | (w, Ok tokenResponse) =>
            (cache_Set a now (token_key a) (AccessToken tokenResponse), w, Ok tokenResponse)
        end
  end.
End Tokens.

(** * Conversions *)

Definition resourceReferenceToV1Beta1 (ref : ResourceReference) : kesselapi.ObjectReference :=
  {| kesselapi.Type_ := Some {|
       kesselapi.Namespace :=
         match ref_reporter ref with Some r => rref_reporterType r | None => "" end;
       kesselapi.Name := ref_resourceType ref |};
     kesselapi.Id := ref_resourceId ref |}.

Definition subjectToV1Beta1 (sub : SubjectReference) : kesselapi.SubjectReference :=
  {| kesselapi.s_Subject := Some (resourceReferenceToV1Beta1 (sub_resource sub));
     kesselapi.s_Relation := sub_relation sub |}.

Definition consistencyToV1Beta1 (c : option Consistency) : kesselapi.Consistency :=
  match ConsistencyAtLeastAsFreshToken c with
  | Some token => kesselapi.AtLeastAsFresh {| kesselapi.Token := token |}
  | None => kesselapi.MinimizeLatency
  end.

Definition tokenFromV1Beta1 (t : option kesselapi.ConsistencyToken) : ConsistencyToken :=
  match t with None => MinimizeLatencyToken | Some t => kesselapi.Token t end.

Definition paginationToV1Beta1 (pagination : option Pagination)
    : option kesselapi.RequestPagination :=
  (fun p => {| kesselapi.Limit := pg_Limit p;
               kesselapi.ContinuationToken := pg_Continuation p |}) <$> pagination.

Definition fencingCheckToV1Beta1 (fencing : FencingCheck) : kesselapi.FencingCheck :=
  {| kesselapi.LockId := fc_lockId fencing; kesselapi.LockToken := fc_lockToken fencing |}.

Definition relationshipsToCheckBulkV1Beta1 (rels : list Relationship)
    : list kesselapi.CheckBulkRequestItem :=
  (fun rel => {| kesselapi.i_Resource := resourceReferenceToV1Beta1 (rel_object rel);
                 kesselapi.i_Relation := rel_relation rel;
                 kesselapi.i_Subject := subjectToV1Beta1 (rel_subject rel) |}) <$> rels.

Definition codes_Internal : Z := 13.

Definition result_item (pair : option kesselapi.pair_response) : CheckBulkResultItem :=
  match pair with
  | Some (kesselapi.PairError code message) =>
      {| cbi_allowed := false; cbi_err := Some (EMsg ("check failed: " +:+ message));
         cbi_errorCode := code |}
  | Some (kesselapi.PairItem a) =>
      {| cbi_allowed := match a with kesselapi.ALLOWED_TRUE => true | _ => false end;
         cbi_err := None; cbi_errorCode := 0%Z |}
  | None =>
      {| cbi_allowed := false;
         cbi_err := Some (EMsg "malformed backend response: both error and item are nil");
         cbi_errorCode := codes_Internal |}
  end.

(** The pairs are as many as the requests once the lengths are compared. *)
Definition checkBulkResultFromV1Beta1 (respPairs : list (option kesselapi.pair_response))
    (rels : list Relationship) (protoToken : option kesselapi.ConsistencyToken)
    : result CheckBulkResult :=
  if bool_decide (length respPairs <> length rels)
  then Err (EStatus Internal "internal error: mismatched backend check results")
  else Ok {| cbr_pairs := zip_with (fun pair rel =>
               {| cbp_request := rel; cbp_result := result_item pair |}) respPairs rels;
             cbr_consistencyToken := tokenFromV1Beta1 protoToken |}.

Definition tuplesToV1Beta1 (tuples : list RelationsTuple) : list kesselapi.Relationship :=
  (fun tuple => {| kesselapi.Resource := Some (resourceReferenceToV1Beta1 (tup_object tuple));
                   kesselapi.Relation_ := tup_relation tuple;
                   kesselapi.Subject := Some (subjectToV1Beta1 (tup_subject tuple)) |}) <$> tuples.

Definition tupleFilterToV1Beta1 (filter : TupleFilter) : kesselapi.RelationTupleFilter :=
  {| kesselapi.ResourceNamespace := tf_reporterType filter;
     kesselapi.ResourceType := tf_objectType filter;
     kesselapi.ResourceId := tf_objectId filter;
     kesselapi.t_Relation := tf_relation filter;
     kesselapi.SubjectFilter_ :=
       (fun sf => {| kesselapi.SubjectNamespace := sf_reporterType sf;
                     kesselapi.SubjectType := sf_subjectType sf;
                     kesselapi.SubjectId := sf_subjectId sf;
                     kesselapi.f_Relation := sf_relation sf |}) <$> tf_subject filter |}.

(** ** Streams: [Recv] of the three adapters *)

(** The reference that a message stands for, read through nil pointers. *)
Definition referenceFromV1Beta1 (o : option kesselapi.ObjectReference) : ResourceReference :=
  let ty := pmsg kesselapi.Type_ o in
  NewResourceReference (pget kesselapi.Name "" ty) (pget kesselapi.Id "" o)
    (Some (NewReporterReference (pget kesselapi.Namespace "" ty) None)).

(** [subject.Relation] is a field access: it panics on a nil subject. *)
Definition subjectFromV1Beta1 (s : option kesselapi.SubjectReference) : result SubjectReference :=
  match s with
  | None => Err (EPanic "invalid memory address or nil pointer dereference")
  | Some sub =>
      Ok (NewSubjectReference (referenceFromV1Beta1 (kesselapi.s_Subject sub))
            (kesselapi.s_Relation sub))
  end.

Definition lookupObjectsStream_Recv (resp : kesselapi.LookupResourcesResponse)
    : result LookupObjectsItem :=
  Ok {| loi_object := referenceFromV1Beta1 (kesselapi.lr_Resource resp);
        loi_continuationToken := default "" (kesselapi.lr_Pagination resp) |}.

Definition lookupSubjectsStream_Recv (resp : kesselapi.LookupSubjectsResponse)
    : result LookupSubjectsItem :=
  let! subjectRef := subjectFromV1Beta1 (kesselapi.lsr_Subject resp) in
  Ok {| lsi_subject := subjectRef;
        lsi_continuationToken := default "" (kesselapi.lsr_Pagination resp) |}.

Definition readTuplesStream_Recv (resp : kesselapi.ReadTuplesResponse) : result ReadTuplesItem :=
  let tuple := kesselapi.Tuple resp in
  let object := referenceFromV1Beta1 (pmsg kesselapi.Resource tuple) in
  let! subjectRef := subjectFromV1Beta1 (pmsg kesselapi.Subject tuple) in
  Ok {| rti_object := object; rti_relation := pget kesselapi.Relation_ "" tuple;
        rti_subject := subjectRef;
        rti_continuationToken := default "" (kesselapi.rr_Pagination resp);
        rti_consistencyToken := pget kesselapi.Token "" (kesselapi.rr_ConsistencyToken resp) |}.

(** * The repository *)

(** [gr_now] is the time of the call. *)
Record GRPCRelationsRepository (W K : Type) := mkGRPC {
  gr_tokenClient : tokenClient;
  gr_sso : W;
  gr_conn : K;
  gr_now : Z;
}.
Arguments mkGRPC {W K}.
Arguments gr_tokenClient {W K}.
Arguments gr_sso {W K}.
Arguments gr_conn {W K}.
Arguments gr_now {W K}.

Module GRPC.
Section Repository.
Context {W K : Type} `{TokenEndpoint W} `{KesselClient K}.
Implicit Type a : GRPCRelationsRepository W K.

Definition with_conn a (k : K) : GRPCRelationsRepository W K :=
  mkGRPC (gr_tokenClient a) (gr_sso a) k (gr_now a).

Definition getCallOptions a : GRPCRelationsRepository W K * result CallOptions :=
  if EnableOIDCAuth (gr_tokenClient a) then
    let '(tc, w, token) := getToken (gr_now a) (gr_tokenClient a) (gr_sso a) in
    (mkGRPC tc w (gr_conn a) (gr_now a),
     let! token := wrap_err "failed to request token" token in
     Ok (Some (if Insecure (gr_tokenClient a)
               then WithInsecureBearerToken (AccessToken token)
               else WithBearerToken (AccessToken token))))
  else (a, Ok None).

(** [opts, err := a.getCallOptions(); if err != nil { return err }; k opts] *)
Definition with_options {A} a
    (k : CallOptions -> GRPCRelationsRepository W K -> GRPCRelationsRepository W K * result A)
    : GRPCRelationsRepository W K * result A :=
  match getCallOptions a with
  | (a, Err err) => (a, Err err)
  | (a, Ok opts) => k opts a
  end.

Definition Health a : GRPCRelationsRepository W K * result HealthResult :=
  with_options a (fun opts a =>
    (a, let! resp := kc_GetReadyz opts (gr_conn a) in
        Ok {| hr_status := resp.1; hr_code := resp.2 |})).

Definition check_result (resp : kesselapi.CheckResponse) : CheckResult :=
  {| cr_allowed := match kesselapi.Allowed_ resp with kesselapi.ALLOWED_TRUE => true | _ => false end;
     cr_consistencyToken := tokenFromV1Beta1 (kesselapi.c_ConsistencyToken resp) |}.

Definition Check (rel : Relationship) (consistency : option Consistency) a :=
  with_options a (fun opts a =>
    (a, let! resp := kc_Check opts (gr_conn a)
          {| kesselapi.c_Resource := resourceReferenceToV1Beta1 (rel_object rel);
             kesselapi.c_Relation := rel_relation rel;
             kesselapi.c_Subject := subjectToV1Beta1 (rel_subject rel);
             kesselapi.c_Consistency := consistencyToV1Beta1 consistency |} in
        Ok (check_result resp))).

Definition CheckForUpdate (rel : Relationship) a :=
  with_options a (fun opts a =>
    (a, let! resp := kc_CheckForUpdate opts (gr_conn a)
          {| kesselapi.u_Resource := resourceReferenceToV1Beta1 (rel_object rel);
             kesselapi.u_Relation := rel_relation rel;
             kesselapi.u_Subject := subjectToV1Beta1 (rel_subject rel) |} in
        Ok (check_result resp))).

Definition CheckBulk (rels : list Relationship) (consistency : option Consistency) a :=
  let protoItems := relationshipsToCheckBulkV1Beta1 rels in
  with_options a (fun opts a =>
    (a, let! resp := kc_CheckBulk opts (gr_conn a) protoItems (consistencyToV1Beta1 consistency) in
        checkBulkResultFromV1Beta1 (kesselapi.Pairs resp) rels
          (kesselapi.b_ConsistencyToken resp))).

Definition CheckForUpdateBulk (rels : list Relationship) a :=
  let protoItems := relationshipsToCheckBulkV1Beta1 rels in
  with_options a (fun opts a =>
    (a, let! resp := kc_CheckForUpdateBulk opts (gr_conn a) protoItems in
        checkBulkResultFromV1Beta1 (kesselapi.Pairs resp) rels
          (kesselapi.b_ConsistencyToken resp))).

Definition LookupObjects (objectType : RepresentationType) (relation : Relation)
    (subject : SubjectReference) (pagination : option Pagination)
    (consistency : option Consistency) a :=
  with_options a (fun opts a =>
    (a, let! reporterType := wrap_err "LookupObjects requires reporter type"
          (RequireReporterType objectType) in
        let! stream := kc_LookupResources opts (gr_conn a)
          {| kesselapi.l_ResourceType := {| kesselapi.Namespace := reporterType;
                                            kesselapi.Name := rtype_resourceType objectType |};
             kesselapi.l_Relation := relation; kesselapi.l_Subject := subjectToV1Beta1 subject;
             kesselapi.l_Pagination := paginationToV1Beta1 pagination;
             kesselapi.l_Consistency := consistencyToV1Beta1 consistency |} in
        Ok (recv_all lookupObjectsStream_Recv stream.1 stream.2))).

Definition LookupSubjects (object : ResourceReference) (relation : Relation)
    (subjectType : RepresentationType) (subjectRelation : option Relation)
    (pagination : option Pagination) (consistency : option Consistency) a :=
  with_options a (fun opts a =>
    (a, let! subReporterType := wrap_err "LookupSubjects requires subject reporter type"
          (RequireReporterType subjectType) in
        let! stream := kc_LookupSubjects opts (gr_conn a)
          {| kesselapi.ls_Resource := resourceReferenceToV1Beta1 object;
             kesselapi.ls_Relation := relation;
             kesselapi.ls_SubjectType := {| kesselapi.Namespace := subReporterType;
                                            kesselapi.Name := rtype_resourceType subjectType |};
             kesselapi.ls_SubjectRelation := subjectRelation;
             kesselapi.ls_Pagination := paginationToV1Beta1 pagination;
             kesselapi.ls_Consistency := consistencyToV1Beta1 consistency |} in
        Ok (recv_all lookupSubjectsStream_Recv stream.1 stream.2))).

Definition CreateTuples (tuples : list RelationsTuple) (upsert : bool)
    (fencing : option FencingCheck) a :=
  with_options a (fun opts a =>
    let '(k, resp) := kc_CreateTuples opts
      {| kesselapi.Upsert := upsert; kesselapi.Tuples := tuplesToV1Beta1 tuples;
         kesselapi.ct_FencingCheck := fencingCheckToV1Beta1 <$> fencing |} (gr_conn a) in
    (with_conn a k,
     let! token := resp in Ok {| tr_consistencyToken := tokenFromV1Beta1 token |})).

Definition DeleteTuples (filter : TupleFilter) (fencing : option FencingCheck) a :=
  with_options a (fun opts a =>
    let '(k, resp) := kc_DeleteTuples opts
      {| kesselapi.Filter := tupleFilterToV1Beta1 filter;
         kesselapi.dt_FencingCheck := fencingCheckToV1Beta1 <$> fencing |} (gr_conn a) in
    (with_conn a k,
     let! token := resp in Ok {| tr_consistencyToken := tokenFromV1Beta1 token |})).

Definition ReadTuples (filter : TupleFilter) (pagination : option Pagination)
    (consistency : option Consistency) a :=
  with_options a (fun opts a =>
    (a, let! stream := kc_ReadTuples opts (gr_conn a)
          {| kesselapi.r_Filter := tupleFilterToV1Beta1 filter;
             kesselapi.r_Pagination := paginationToV1Beta1 pagination;
             kesselapi.r_Consistency := consistencyToV1Beta1 consistency |} in
        Ok (recv_all readTuplesStream_Recv stream.1 stream.2))).

Definition AcquireLock (lockId : LockId) a :=
  with_options a (fun opts a =>
    let '(k, resp) := kc_AcquireLock opts lockId (gr_conn a) in
    (with_conn a k, let! token := resp in Ok {| al_lockToken := token |})).

(** The interface, where a read is answered from the state at the call; a
    stream that ends with an error is an error. *)
Definition drained {A} (r : result (stream A)) : result (list A) :=
  let! s := r in match s.2 with None => Ok s.1 | Some err => Err err end.

#[global] Instance relations : RelationsRepository (GRPCRelationsRepository W K) := {|
  rel_implementation := GRPCImpl;
  rel_Health a := (Health a).2;
  rel_Check a rel c := (Check rel c a).2;
  rel_CheckForUpdate a rel := (CheckForUpdate rel a).2;
  rel_CheckBulk a rels c := (CheckBulk rels c a).2;
  rel_CheckForUpdateBulk a rels := (CheckForUpdateBulk rels a).2;
  rel_LookupObjects a ty rel sub pg c := drained (LookupObjects ty rel sub pg c a).2;
  rel_LookupSubjects a obj rel ty srel pg c := drained (LookupSubjects obj rel ty srel pg c a).2;
  rel_CreateTuples := CreateTuples;
  rel_DeleteTuples := DeleteTuples;
  rel_ReadTuples a flt pg c := drained (ReadTuples flt pg c a).2;
  rel_AcquireLock := AcquireLock;
|}.
End Repository.
End GRPC.
