(* ===== verification/GRPCRelationsProps.v ===== *)
(** The repository over the Relations API keeps the promises of a tuple store
    when the API does, so the consumer's theorems hold over it; its tokens are
    cached no longer than they are valid; tuples and bulk checks survive the
    translation. *)
From stdpp Require Import base tactics list strings gmap.
From Stdlib Require Import ZArith Lia Ascii.
From S2P Require Import Prelude GoStrings Common ReporterResource Relations RelationsRepo Proto SpiceDB GRPCRelations.

Local Open Scope string_scope.

(** * What the API promises *)

(** A tuple as the API keeps it: the fields of its two references and its
    relation, and the relation of its subject. *)
Definition tuple_id : Type := simpleTupleKey * option string.

Definition wire_id (r : kesselapi.Relationship) : tuple_id :=
  (key_of_fields (referenceFromV1Beta1 (kesselapi.Resource r)) (kesselapi.Relation_ r)
     (referenceFromV1Beta1 (pmsg kesselapi.s_Subject (kesselapi.Subject r))),
   pmsg kesselapi.s_Relation (kesselapi.Subject r)).

Definition wire_matches (f : kesselapi.RelationTupleFilter) (t : tuple_id) : bool :=
  let k := t.1 in
  field_matches (kesselapi.ResourceNamespace f) (tk_ResourceNamespace k)
  && field_matches (kesselapi.ResourceType f) (tk_ResourceType k)
  && field_matches (kesselapi.ResourceId f) (tk_ResourceID k)
  && field_matches (kesselapi.t_Relation f) (tk_Relation k)
  && match kesselapi.SubjectFilter_ f with
     | None => true
     | Some sf =>
         field_matches (kesselapi.SubjectNamespace sf) (tk_SubjectNamespace k)
         && field_matches (kesselapi.SubjectType sf) (tk_SubjectType k)
         && field_matches (kesselapi.SubjectId sf) (tk_SubjectID k)
         && field_matches (kesselapi.f_Relation sf) (default "" t.2)
     end.

(** The API, message by message.  A write that succeeds adds the relationships
    of the request, and without [Upsert] found none of them; a delete that
    succeeds removes the relationships that the filter of the request matches;
    both only if the token of the fencing check holds its lock, which is so of
    the token that [AcquireLock] answers with.  A call that fails has had its
    effect or none, and an upsert never fails because a tuple exists. *)
Class KesselLaws (K : Type) `{KesselClient K} := {
  kc_stored : K -> gset tuple_id;
  kc_holds : K -> string -> string -> bool;
  kc_create_ok : forall o req k k' r, kc_CreateTuples o req k = (k', Ok r) ->
    kc_stored k' = list_to_set (wire_id <$> kesselapi.Tuples req) ∪ kc_stored k /\
    (kesselapi.Upsert req = false -> forall t, t ∈ kesselapi.Tuples req -> wire_id t ∉ kc_stored k) /\
    (forall f, kesselapi.ct_FencingCheck req = Some f ->
       kc_holds k (kesselapi.LockId f) (kesselapi.LockToken f) = true);
  kc_create_err : forall o req k k' e, kc_CreateTuples o req k = (k', Err e) ->
    (kesselapi.Upsert req = true -> status_Code e <> AlreadyExists) /\
    (kc_stored k' = kc_stored k \/
     kc_stored k' = list_to_set (wire_id <$> kesselapi.Tuples req) ∪ kc_stored k);
  kc_delete_ok : forall o req k k' r, kc_DeleteTuples o req k = (k', Ok r) ->
    kc_stored k' = filter (fun t => wire_matches (kesselapi.Filter req) t = false) (kc_stored k) /\
    (forall f, kesselapi.dt_FencingCheck req = Some f ->
       kc_holds k (kesselapi.LockId f) (kesselapi.LockToken f) = true);
  kc_delete_err : forall o req k k' e, kc_DeleteTuples o req k = (k', Err e) ->
    kc_stored k' = kc_stored k \/
    kc_stored k' = filter (fun t => wire_matches (kesselapi.Filter req) t = false) (kc_stored k);
  kc_lock : forall o l k k' r, kc_AcquireLock o l k = (k', r) -> kc_stored k' = kc_stored k;
  kc_lock_ok : forall o l k k' token, kc_AcquireLock o l k = (k', Ok token) ->
    kc_holds k' l token = true;
}.

(** The tuple that a check for update asks for. *)
Definition asked (req : kesselapi.CheckForUpdateRequest) : tuple_id :=
  wire_id {| kesselapi.Resource := Some (kesselapi.u_Resource req);
             kesselapi.Relation_ := kesselapi.u_Relation req;
             kesselapi.Subject := Some (kesselapi.u_Subject req) |}.

(** The same relation of the same object. *)
Definition same_relation (k k' : simpleTupleKey) : Prop :=
  tk_ResourceNamespace k = tk_ResourceNamespace k' /\ tk_ResourceType k = tk_ResourceType k' /\
  tk_ResourceID k = tk_ResourceID k' /\ tk_Relation k = tk_Relation k'.

(** A check for update reads the latest tuples.  [kc_direct] are the relations
    of the API's schema that are not computed from others: unless a tuple of
    the relation names a set of subjects, a subject is in the relation if and
    only if it has the tuple. *)
Class KesselChecks (K : Type) `{KesselLaws K} := {
  kc_direct : string -> string -> string -> Prop;
  kc_check_direct : forall o k req r,
    let t := asked req in
    kc_direct (tk_ResourceNamespace t.1) (tk_ResourceType t.1) (tk_Relation t.1) ->
    t.2 = None ->
    (forall t', t' ∈ kc_stored k -> same_relation t'.1 t.1 -> t'.2 = None) ->
    kc_CheckForUpdate o k req = Ok r ->
    kesselapi.Allowed_ r = kesselapi.ALLOWED_TRUE <-> t ∈ kc_stored k;
}.

(** The errors of HTTP and of JSON carry no gRPC status. *)
Class TokenLaws (W : Type) `{TokenEndpoint W} := {
  request_unknown : forall u e, http_NewRequest u = Some e -> status_Code e = Unknown;
  post_unknown : forall u f w w' e, http_post u f w = (w', Err e) -> status_Code e = Unknown;
  body_unknown : forall u f w w' c e, http_post u f w = (w', Ok (c, Err e)) ->
    status_Code e = Unknown;
  json_unknown : forall b e, json_TokenResponse b = Err e -> status_Code e = Unknown;
}.

(** A tuple of the model and what a filter of the model matches, with the
    relation of the subject. *)
Definition identity (t : RelationsTuple) : tuple_id :=
  (simpleTupleKeyFromModelTuple t, sub_relation (tup_subject t)).

Definition selects (flt : TupleFilter) (t : tuple_id) : bool :=
  simpleMatchesTupleFilter t.1 flt
  && match tf_subject flt with
     | None => true
     | Some sf => field_matches (sf_relation sf) (default "" t.2)
     end.

Lemma wire_ids tuples : wire_id <$> tuplesToV1Beta1 tuples = identity <$> tuples.
Proof.
  unfold tuplesToV1Beta1. rewrite <- list_fmap_compose. apply list_fmap_ext. by intros _ t _.
Qed.

Lemma wire_filter f t : wire_matches (tupleFilterToV1Beta1 f) t = selects f t.
Proof.
  unfold wire_matches, selects, simpleMatchesTupleFilter. simpl.
  destruct (tf_subject f); simpl; by rewrite ?andb_true_r, ?andb_assoc.
Qed.

Lemma selects_plain f t : plain_filter f -> selects f t = simpleMatchesTupleFilter t.1 f.
Proof.
  unfold selects, plain_filter. destruct (tf_subject f) as [sf|]; [intros ->|]; by rewrite andb_true_r.
Qed.

Lemma wrap_err_status {A} msg (r : result A) e :
  wrap_err msg r = Err e -> exists e', r = Err e' /\ status_Code e = status_Code e'.
Proof. destruct r as [|e']; [done|]. destruct e'; intros [= <-]; eauto. Qed.

Section Store.
Context {W K : Type} `{TokenLaws W} `{KesselLaws K}.
Implicit Type a : GRPCRelationsRepository W K.

Lemma fetch_token_unknown tc w w' e :
  fetch_token tc w = (w', Err e) -> status_Code e = Unknown.
Proof.
  unfold fetch_token. destruct (http_NewRequest (URL tc)) eqn:Hr.
  { intros [= _ <-]. simpl. by eapply request_unknown. }
  destruct (http_post _ _ w) as [w1 [[code body]|e1]] eqn:Hp; simpl; intros [= _ He].
  - revert He. destruct (wrap_err _ body) as [b|e2] eqn:Hb; simpl.
    + case_bool_decide; [by intros [= <-]|]. intros (e' & Hj & ->)%wrap_err_status.
      by eapply json_unknown.
    + intros [= <-]. apply wrap_err_status in Hb as (e' & -> & ->). by eapply body_unknown.
  - destruct (wrap_err_status "token request failed" (Err e1 : result (Z * result string)) e)
      as (e' & [= <-] & ->); [by destruct e1; simplify_eq/=|]. by eapply post_unknown.
Qed.

Lemma getToken_unknown now tc w tc' w' e :
  getToken now tc w = (tc', w', Err e) -> status_Code e = Unknown.
Proof.
  unfold getToken, IsJWTTokenExpired.
  destruct (GetCachedToken tc now (token_key tc)) as [ct|]; [|set (ct := "")];
    (destruct (jwt_exp ct) as [[[s|]|]|]; [|by intros [= _ _ <-]| |]); try (case_match; [done|]);
    destruct (fetch_token tc w) as [w1 [t|e1]] eqn:Hf; try done; intros [= _ _ <-];
    by eapply fetch_token_unknown.
Qed.

(** The credentials are obtained without touching the tuples, and their
    failure has no gRPC status. *)
Lemma getCallOptions_conn a : gr_conn (GRPC.getCallOptions a).1 = gr_conn a.
Proof.
  unfold GRPC.getCallOptions. destruct (EnableOIDCAuth _); [|done].
  by destruct (getToken _ _ _) as [[??]?].
Qed.

Lemma getCallOptions_none a : EnableOIDCAuth (gr_tokenClient a) = false ->
  (GRPC.getCallOptions a).2 = Ok None.
Proof. unfold GRPC.getCallOptions. by intros ->. Qed.

Lemma getCallOptions_unknown a a' e :
  GRPC.getCallOptions a = (a', Err e) -> status_Code e = Unknown.
Proof.
  unfold GRPC.getCallOptions. destruct (EnableOIDCAuth _); [|done].
  destruct (getToken _ _ _) as [[tc w] [t|e1]] eqn:Ht; [done|]. intros [= _ He].
  apply getToken_unknown in Ht. by destruct e1; simplify_eq/=.
Qed.

(** A call either stops at the credentials or runs on the same connection. *)
Lemma with_options_step {A} a k a' (r : result A) :
  GRPC.with_options a k = (a', r) ->
  (exists e, r = Err e /\ status_Code e = Unknown /\ gr_conn a' = gr_conn a) \/
  (exists opts a1, gr_conn a1 = gr_conn a /\ k opts a1 = (a', r)).
Proof.
  unfold GRPC.with_options. pose proof (getCallOptions_conn a) as Hc.
  destruct (GRPC.getCallOptions a) as [a1 [opts|e]] eqn:Ho; simpl in Hc; intros Hk.
  - right. eauto.
  - left. simplify_eq. apply getCallOptions_unknown in Ho. eauto.
Qed.

Definition created (ts : list RelationsTuple) a : gset tuple_id :=
  list_to_set (identity <$> ts) ∪ kc_stored (gr_conn a).

Definition kept (flt : TupleFilter) a : gset tuple_id :=
  filter (fun t => selects flt t = false) (kc_stored (gr_conn a)).

(** The token of the check, if there is one, holds its lock. *)
Definition fenced (f : option FencingCheck) a : Prop :=
  forall fc, f = Some fc -> kc_holds (gr_conn a) (fc_lockId fc) (fc_lockToken fc) = true.

Lemma CreateTuples_stored ts upsert f a a' r :
  GRPC.CreateTuples ts upsert f a = (a', r) ->
  match r with
  | Ok _ => kc_stored (gr_conn a') = created ts a /\ fenced f a /\
      (upsert = false -> forall t, t ∈ ts -> identity t ∉ kc_stored (gr_conn a))
  | Err e => (upsert = true -> status_Code e <> AlreadyExists) /\
      (kc_stored (gr_conn a') = kc_stored (gr_conn a) \/ kc_stored (gr_conn a') = created ts a)
  end.
Proof.
  unfold created, fenced.
  intros [(e & -> & He & ->)|(opts & a1 & <- & Hk)]%with_options_step; [rewrite He; auto|].
  destruct (kc_CreateTuples _ _ _) as [k' [t|e]] eqn:Hc; simplify_eq/=.
  - apply kc_create_ok in Hc as (Hs & Hnew & Hf). simpl in *. rewrite wire_ids in Hs.
    split_and!; [done| |].
    + intros fc ->. exact (Hf _ eq_refl).
    + intros Hu x Hx Hin.
      assert (Hw : identity x ∈ wire_id <$> tuplesToV1Beta1 ts)
        by (rewrite wire_ids; apply list_elem_of_fmap; eauto).
      apply list_elem_of_fmap in Hw as (w & Hw & Hin'). apply (Hnew Hu w Hin'). by rewrite <- Hw.
  - apply kc_create_err in Hc. simpl in Hc. by rewrite wire_ids in Hc.
Qed.

Lemma filter_wire (flt : TupleFilter) (s : gset tuple_id) :
  filter (fun t => wire_matches (tupleFilterToV1Beta1 flt) t = false) s =
  filter (fun t => selects flt t = false) s.
Proof. apply set_eq. intros k. by rewrite !elem_of_filter, wire_filter. Qed.

Lemma DeleteTuples_stored flt f a a' r : GRPC.DeleteTuples flt f a = (a', r) ->
  match r with
  | Ok _ => kc_stored (gr_conn a') = kept flt a /\ fenced f a
  | Err _ => kc_stored (gr_conn a') = kc_stored (gr_conn a) \/
             kc_stored (gr_conn a') = kept flt a
  end.
Proof.
  unfold kept, fenced.
  intros [(e & -> & He & ->)|(opts & a1 & <- & Hk)]%with_options_step; [auto|].
  destruct (kc_DeleteTuples _ _ _) as [k' [t|e]] eqn:Hc; simplify_eq/=.
  - apply kc_delete_ok in Hc as [Hs Hf]. simpl in *. rewrite filter_wire in Hs. split; [done|].
    intros fc ->. exact (Hf _ eq_refl).
  - apply kc_delete_err in Hc. simpl in Hc. by rewrite filter_wire in Hc.
Qed.

Lemma AcquireLock_stored l a a' r : GRPC.AcquireLock l a = (a', r) ->
  kc_stored (gr_conn a') = kc_stored (gr_conn a) /\
  forall res, r = Ok res -> kc_holds (gr_conn a') l (al_lockToken res) = true.
Proof.
  intros [(e & -> & He & ->)|(opts & a1 & <- & Hk)]%with_options_step; [done|].
  destruct (kc_AcquireLock _ _ _) as [k' [t|e]] eqn:Hc; simplify_eq/=;
    (split; [by eapply kc_lock|]); [|done]. intros res [= <-]. by eapply kc_lock_ok.
Qed.

(** ** The interface of the consumer *)

(** The tuples, the relation of the subject aside. *)
Definition bare (s : gset tuple_id) : gset simpleTupleKey := set_map fst s.

Lemma bare_created (ts : list RelationsTuple) a :
  bare (created ts a) = list_to_set (simpleTupleKeyFromModelTuple <$> ts) ∪ bare (kc_stored (gr_conn a)).
Proof.
  apply set_eq. intros k. unfold bare, created.
  rewrite elem_of_union, !elem_of_map, elem_of_list_to_set, list_elem_of_fmap.
  setoid_rewrite elem_of_union. setoid_rewrite elem_of_list_to_set. setoid_rewrite list_elem_of_fmap.
  split.
  - intros (x & -> & [(t & -> & Ht)|Hx]); [left; by exists t|right; by exists x].
  - intros [(t & -> & Ht)|(x & -> & Hx)]; [exists (identity t)|exists x]; eauto.
Qed.

Lemma bare_kept (flt : TupleFilter) a : plain_filter flt ->
  bare (kept flt a)
  = filter (fun k => simpleMatchesTupleFilter k flt = false) (bare (kc_stored (gr_conn a))).
Proof.
  intros Hp. apply set_eq. intros k. unfold bare, kept. rewrite elem_of_filter, !elem_of_map.
  setoid_rewrite elem_of_filter. setoid_rewrite (selects_plain _ _ Hp). naive_solver.
Qed.

#[export] Program Instance GRPC_store : TupleStore (GRPCRelationsRepository W K) := {|
  stored a := bare (kc_stored (gr_conn a));
  upserts _ := True;
|}.
Next Obligation.
  intros ts f a a' r Hc. apply CreateTuples_stored in Hc as (-> & _). apply bare_created.
Qed.
Next Obligation.
  intros ts f a a' r Hc. apply CreateTuples_stored in Hc as [_ [-> | ->]]; [by left|right].
  apply bare_created.
Qed.
Next Obligation.
  intros flt f a a' r Hp Hd. apply DeleteTuples_stored in Hd as [-> _]. by apply bare_kept.
Qed.
Next Obligation.
  intros flt f a a' r Hp Hd. apply DeleteTuples_stored in Hd as [-> | ->]; [by left|right].
  by apply bare_kept.
Qed.
Next Obligation. intros l a a' r Hl. simpl. by apply AcquireLock_stored in Hl as [-> _]. Qed.
Next Obligation. intros ts f a a' e _ Hc. apply CreateTuples_stored in Hc as [Hs _]. by apply Hs. Qed.
Next Obligation. done. Qed.
Next Obligation. done. Qed.

(** A check for update that the API answers is the API's answer. *)
Lemma CheckForUpdate_direct `{!KesselChecks K} a rel r :
  let k := key_of_fields (rel_object rel) (rel_relation rel) (sub_resource (rel_subject rel)) in
  kc_direct (tk_ResourceNamespace k) (tk_ResourceType k) (tk_Relation k) ->
  sub_relation (rel_subject rel) = None ->
  (forall t, t ∈ kc_stored (gr_conn a) -> same_relation t.1 k -> t.2 = None) ->
  (GRPC.CheckForUpdate rel a).2 = Ok r -> cr_allowed r = true <-> k ∈ bare (kc_stored (gr_conn a)).
Proof.
  intros k Hdir Hrel Hplain. destruct (GRPC.CheckForUpdate rel a) as [a' res] eqn:Hc. simpl. intros ->.
  apply with_options_step in Hc as [(e & [=] & _)|(opts & a1 & Hconn & Hk)].
  injection Hk as <- Hr. destruct (kc_CheckForUpdate _ _ _) as [resp|] eqn:Hresp; [|done].
  injection Hr as <-. rewrite Hconn in Hresp.
  assert (Hask : asked {| kesselapi.u_Resource := resourceReferenceToV1Beta1 (rel_object rel);
                          kesselapi.u_Relation := rel_relation rel;
                          kesselapi.u_Subject := subjectToV1Beta1 (rel_subject rel) |} = (k, None))
    by (rewrite <- Hrel; done).
  assert (Hin : kesselapi.Allowed_ resp = kesselapi.ALLOWED_TRUE <-> (k, None) ∈ kc_stored (gr_conn a)).
  { rewrite <- Hask. by eapply kc_check_direct; rewrite ?Hask. }
  trans (kesselapi.Allowed_ resp = kesselapi.ALLOWED_TRUE);
    [unfold GRPC.check_result; simpl; by destruct (kesselapi.Allowed_ resp)|].
  rewrite Hin. unfold bare. rewrite elem_of_map. split; [intros ?; by exists (k, None)|].
  intros ([k' srel] & -> & Ht). simpl in *. by rewrite <- (Hplain (k', srel) Ht).
Qed.

Lemma CheckForUpdate_answers a rel opts :
  (GRPC.getCallOptions a).2 = Ok opts ->
  (forall req, is_ok (kc_CheckForUpdate opts (gr_conn a) req) = true) ->
  exists r, (GRPC.CheckForUpdate rel a).2 = Ok r.
Proof.
  intros Ho Hans. unfold GRPC.CheckForUpdate, GRPC.with_options.
  pose proof (getCallOptions_conn a) as Hconn.
  destruct (GRPC.getCallOptions a) as [a1 o]. simpl in *. subst o. simpl. rewrite Hconn.
  set (req := kesselapi.Build_CheckForUpdateRequest _ _ _). specialize (Hans req).
  destruct (kc_CheckForUpdate _ _ req); [|done]. by eexists.
Qed.

(** C19. The repository over the Relations API passes on what it is asked.  The
    API keeps relationships and speaks messages (KesselLaws); in terms of the
    tuples and filters of the model, with the relation of the subject, and
    whatever happens to the credentials: a write that succeeds adds exactly its
    tuples, found none of them without upsert, and its fencing check held; a
    delete that succeeds removes exactly the tuples that its filter selects, and
    its fencing check held; a call that fails has had its effect or none, and an
    upsert never reports that a tuple exists; acquiring a lock leaves the tuples
    alone and answers with a token that holds it. *)
Theorem grpc_tuples_refine a a' :
  (forall ts upsert f r, GRPC.CreateTuples ts upsert f a = (a', r) ->
     match r with
     | Ok _ => kc_stored (gr_conn a') = created ts a /\ fenced f a /\
         (upsert = false -> forall t, t ∈ ts -> identity t ∉ kc_stored (gr_conn a))
     | Err e => (upsert = true -> status_Code e <> AlreadyExists) /\
         (kc_stored (gr_conn a') = kc_stored (gr_conn a) \/
          kc_stored (gr_conn a') = created ts a)
     end) /\
  (forall flt f r, GRPC.DeleteTuples flt f a = (a', r) ->
     match r with
     | Ok _ => kc_stored (gr_conn a') = kept flt a /\ fenced f a
     | Err _ => kc_stored (gr_conn a') = kc_stored (gr_conn a) \/
                kc_stored (gr_conn a') = kept flt a
     end) /\
  (forall l r, GRPC.AcquireLock l a = (a', r) ->
     kc_stored (gr_conn a') = kc_stored (gr_conn a) /\
     forall res, r = Ok res -> kc_holds (gr_conn a') l (al_lockToken res) = true).
Proof.
  split_and!; intros *; [apply CreateTuples_stored|apply DeleteTuples_stored
    |apply AcquireLock_stored].
Qed.
End Store.

(** * Tokens *)
Section Tokens.
Context {W : Type} `{TokenEndpoint W}.

Lemma cached_token_served now now' tc w token s :
  (now <= now' <= now + cacheCleanupInterval)%Z -> (now' <= s * second)%Z ->
  token <> "" -> jwt_exp token = Some (Some (ExpSeconds s)) ->
  let tc' := cache_Set tc now (token_key tc) token in
  getToken now' tc' w =
    (tc', w, Ok {| AccessToken := token; ExpiresIn := 0; RefreshToken := "" |}).
Proof.
  intros Hnow Hexp Hne Hjwt tc'. unfold getToken, GetCachedToken, cache_Get.
  assert (cache tc' !! token_key tc' = Some (token, now + cacheCleanupInterval)%Z) as ->
    by apply lookup_insert_eq.
  rewrite (bool_decide_eq_false_2 (now' > _)%Z) by lia. unfold IsJWTTokenExpired. rewrite Hjwt.
  rewrite (bool_decide_eq_false_2 (now' > _)%Z) by lia.
  by rewrite (bool_decide_eq_true_2 (token <> "")) by done.
Qed.

(** A token that is not fetched is a JWT from the cache that has not
    expired; a token that is fetched serves the calls of the next five minutes
    without another request, up to its own expiry; a failure leaves the cache
    as it was. *)
Theorem getToken_valid now tc (w : W) tc' w' r :
  getToken now tc w = (tc', w', r) ->
  match r with
  | Err _ => tc' = tc
  | Ok t =>
      (tc' = tc /\ w' = w /\
       exists s, jwt_exp (AccessToken t) = Some (Some (ExpSeconds s)) /\ (now <= s * second)%Z) \/
      (fetch_token tc w = (w', Ok t) /\
       forall now' s w2,
         (now <= now' <= now + cacheCleanupInterval)%Z -> (now' <= s * second)%Z ->
         AccessToken t <> "" -> jwt_exp (AccessToken t) = Some (Some (ExpSeconds s)) ->
         exists t', getToken now' tc' w2 = (tc', w2, Ok t') /\ AccessToken t' = AccessToken t)
  end.
Proof.
  unfold getToken at 1.
  destruct (IsJWTTokenExpired now _) as [[IsExpired ?]|e] eqn:Hexp; [|by intros [= <- _ <-]].
  destruct (_ && negb IsExpired) eqn:Hcached.
  - intros [= <- <- <-]. left. split_and!; [done..|]. simpl.
    apply andb_true_iff in Hcached as [_ ->%negb_true_iff]. revert Hexp. unfold IsJWTTokenExpired.
    destruct (jwt_exp _) as [[[s|]|]|]; try done. intros [= Hs _]. exists s. split; [done|].
    apply bool_decide_eq_false in Hs. lia.
  - destruct (fetch_token tc w) as [w1 [t|e]]; intros [= <- <- <-]; [|done]. right.
    split; [done|]. intros now' s w2 Hnow Hs Hne Hjwt. eexists.
    split; [by apply (cached_token_served _ _ _ _ _ s)|done].
Qed.
End Tokens.

(** * Tuples and bulk checks *)

(** A reference as the API has it: a reporter, without an instance. *)
Definition wire_reference (ref : ResourceReference) : Prop :=
  exists ns, ref_reporter ref = Some {| rref_reporterType := ns; rref_instanceId := None |}.

Lemma reference_roundtrip ref :
  wire_reference ref -> referenceFromV1Beta1 (Some (resourceReferenceToV1Beta1 ref)) = ref.
Proof. intros [ns Hr]. destruct ref. simpl in *. subst. done. Qed.

(** A tuple sent to the API and read back is the same tuple, and its token
    is the one the response carries. *)
Theorem grpc_tuple_roundtrip t pagination token :
  wire_reference (tup_object t) -> wire_reference (sub_resource (tup_subject t)) ->
  readTuplesStream_Recv
    {| kesselapi.Tuple := head (tuplesToV1Beta1 [t]); kesselapi.rr_Pagination := pagination;
       kesselapi.rr_ConsistencyToken := token |} =
  Ok {| rti_object := tup_object t; rti_relation := tup_relation t; rti_subject := tup_subject t;
        rti_continuationToken := default "" pagination;
        rti_consistencyToken := tokenFromV1Beta1 token |}.
Proof.
  intros Ho Hs. unfold readTuplesStream_Recv. cbn -[referenceFromV1Beta1].
  rewrite !reference_roundtrip by done. destruct t as [? ? []]. by destruct token.
Qed.

(** A bulk check is answered item by item in the order of the requests, or
    refused: a backend that answers with another number of pairs is an error,
    never a shifted or shortened answer, and a pair that is an error or empty
    does not allow. *)
Theorem grpc_bulk_pointwise pairs rels token r :
  checkBulkResultFromV1Beta1 pairs rels token = r ->
  match r with
  | Err e => length pairs <> length rels /\ status_Code e = Internal
  | Ok res =>
      cbp_request <$> cbr_pairs res = rels /\
      forall i pair, pairs !! i = Some pair ->
        exists rel item, cbr_pairs res !! i = Some {| cbp_request := rel; cbp_result := item |} /\
          rels !! i = Some rel /\
          (cbi_allowed item = true <->
             pair = Some (kesselapi.PairItem kesselapi.ALLOWED_TRUE)) /\
          (cbi_err item = None <-> exists a, pair = Some (kesselapi.PairItem a))
  end.
Proof.
  unfold checkBulkResultFromV1Beta1. case_bool_decide as Hl; intros <-; [done|]. simpl.
  split.
  - revert rels Hl. induction pairs as [|p pairs IH]; intros [|rel rels] Hl; try done. simpl.
    f_equal. apply IH. by injection Hl.
  - intros i pair Hi. destruct (lookup_lt_is_Some_2 rels i) as [rel Hrel].
    { rewrite <- Hl. by eapply lookup_lt_Some. }
    exists rel, (result_item pair). rewrite lookup_zip_with, Hi, Hrel. split_and!; [done..| |];
      destruct pair as [[[]|]|]; simpl; naive_solver.
Qed.

(** * A backend that keeps the promises *)
Module Backend.
(** The API in memory; with [ap_error] the deletes fail. *)
Record api := {
  ap_tuples : gset tuple_id;
  ap_locks : gmap string string;
  ap_error : option go_error;
}.

Definition with_tuples (k : api) (ts : gset tuple_id) : api :=
  {| ap_tuples := ts; ap_locks := ap_locks k; ap_error := ap_error k |}.

Definition with_error (k : api) (e : option go_error) : api :=
  {| ap_tuples := ap_tuples k; ap_locks := ap_locks k; ap_error := e |}.

Definition holds (k : api) (lock token : string) : bool :=
  bool_decide (ap_locks k !! lock = Some token).

Definition fence_ok (k : api) (f : option kesselapi.FencingCheck) : bool :=
  match f with
  | None => true
  | Some f => holds k (kesselapi.LockId f) (kesselapi.LockToken f)
  end.

Definition answer (k : api) (t : tuple_id) : kesselapi.CheckResponse :=
  {| kesselapi.Allowed_ := if bool_decide (t ∈ ap_tuples k) then kesselapi.ALLOWED_TRUE
                           else kesselapi.ALLOWED_FALSE;
     kesselapi.c_ConsistencyToken := None |}.

Definition fence_error : go_error := EStatus FailedPrecondition "fencing check failed".

#[export] Instance client : KesselClient api := {|
  kc_GetReadyz _ _ := Ok ("OK", 200%Z);
  kc_Check _ k req :=
    Ok (answer k (asked {| kesselapi.u_Resource := kesselapi.c_Resource req;
                           kesselapi.u_Relation := kesselapi.c_Relation req;
                           kesselapi.u_Subject := kesselapi.c_Subject req |}));
  kc_CheckForUpdate _ k req := Ok (answer k (asked req));
  kc_CheckBulk _ _ _ _ := Err (EStatus Unimplemented "");
  kc_CheckForUpdateBulk _ _ _ := Err (EStatus Unimplemented "");
  kc_LookupResources _ _ _ := Ok ([], None);
  kc_LookupSubjects _ _ _ := Ok ([], None);
  kc_CreateTuples _ req k :=
    if negb (fence_ok k (kesselapi.ct_FencingCheck req)) then (k, Err fence_error)
    else if kesselapi.Upsert req
            || forallb (fun t => bool_decide (wire_id t ∉ ap_tuples k)) (kesselapi.Tuples req)
    then (with_tuples k (list_to_set (wire_id <$> kesselapi.Tuples req) ∪ ap_tuples k),
          Ok (Some {| kesselapi.Token := "created" |}))
    else (k, Err (EStatus AlreadyExists "tuple exists"));
  kc_DeleteTuples _ req k :=
    if negb (fence_ok k (kesselapi.dt_FencingCheck req)) then (k, Err fence_error)
    else match ap_error k with
         | Some e => (k, Err e)
         | None =>
             (with_tuples k (filter (fun t => wire_matches (kesselapi.Filter req) t = false)
                               (ap_tuples k)), Ok None)
         end;
  kc_ReadTuples _ _ _ := Ok ([], None);
  kc_AcquireLock _ l k :=
    ({| ap_tuples := ap_tuples k; ap_locks := <[l := "token-of-" +:+ l]> (ap_locks k);
        ap_error := ap_error k |}, Ok ("token-of-" +:+ l));
|}.

#[export] Program Instance laws : KesselLaws api := {| kc_stored := ap_tuples; kc_holds := holds |}.
Next Obligation.
  simpl. intros _ req k k' r. destruct (fence_ok _ _) eqn:Hf; [|done]. simpl.
  destruct (_ || _) eqn:Hu; [|done]. intros [= <- _]. split_and!; [done| |].
  - intros Hup t Ht. rewrite Hup in Hu. simpl in Hu. rewrite forallb_forall in Hu.
    by apply list_elem_of_In, Hu, bool_decide_eq_true in Ht.
  - intros f E. by rewrite E in Hf.
Qed.
Next Obligation.
  simpl. intros _ req k k' r. destruct (fence_ok _ _) eqn:Hf; [|intros [= <- <-]; auto]. simpl.
  destruct (kesselapi.Upsert req); simpl; [done|].
  destruct (forallb _ _); [done|]. intros [= <- <-]. auto.
Qed.
Next Obligation.
  simpl. intros _ req k k' r. destruct (fence_ok _ _) eqn:Hf; [|done]. simpl.
  destruct (ap_error k); [done|]. intros [= <- _]. split; [done|]. intros f E. by rewrite E in Hf.
Qed.
Next Obligation.
  simpl. intros _ req k k' r. destruct (fence_ok _ _) eqn:Hf; [|intros [= <- _]; auto]. simpl.
  destruct (ap_error k); intros [= <- _]; auto.
Qed.
Next Obligation. simpl. intros. by simplify_eq. Qed.
Next Obligation.
  simpl. intros _ l k k' token [= <- <-]. apply bool_decide_eq_true. apply lookup_insert_eq.
Qed.

#[export] Program Instance checks : KesselChecks api := {| kc_direct _ _ _ := True |}.
Next Obligation.
  simpl. intros _ k req r _ _ _ [= <-]. unfold answer. simpl. by case_bool_decide.
Qed.

(** An endpoint that numbers its tokens; each expires at the 100th second. *)
#[export] Instance sso : TokenEndpoint nat := {|
  http_NewRequest _ := None;
  http_post _ _ n := (S n, Ok (200%Z, Ok (FormatInt (Z.of_nat n))));
  json_TokenResponse body :=
    Ok {| AccessToken := "jwt-" +:+ body; ExpiresIn := 100; RefreshToken := "" |};
  jwt_exp token :=
    if bool_decide (token = "") then None else Some (Some (ExpSeconds 100));
|}.

#[export] Program Instance sso_laws : TokenLaws nat.
Next Obligation. done. Qed.
Next Obligation. done. Qed.
Next Obligation. simpl. intros. by simplify_eq. Qed.
Next Obligation. done. Qed.

Definition client_of (oidc : bool) : tokenClient :=
  {| ClientID := "id"; ClientSecret := "secret"; URL := "https://sso"; EnableOIDCAuth := oidc;
     Insecure := false; cache := ∅ |}.
End Backend.

#[local] Existing Instances Backend.client Backend.laws Backend.sso Backend.sso_laws.

Definition ex_api : Backend.api :=
  {| Backend.ap_tuples := ∅; Backend.ap_locks := {["group/0" := "token"]};
     Backend.ap_error := None |}.
Definition ex_grpc : GRPCRelationsRepository nat Backend.api :=
  mkGRPC (Backend.client_of true) 0 ex_api 0.
Definition ex_grpc_tuple : RelationsTuple := {|
  tup_object := NewResourceReference "host" "h1" (Some (NewReporterReference "hbi" None));
  tup_relation := "workspace";
  tup_subject := NewSubjectReferenceWithoutRelation
    (NewResourceReference "workspace" "w1" (Some (NewReporterReference "rbac" None))) |}.

(** The same subject with a relation is another tuple. *)
Definition ex_grpc_members : RelationsTuple := {|
  tup_object := tup_object ex_grpc_tuple; tup_relation := "workspace";
  tup_subject := NewSubjectReference (sub_resource (tup_subject ex_grpc_tuple)) (Some "member") |}.

(** The first call fetches a token, and the write arrives. *)
Definition ex_both : GRPCRelationsRepository nat Backend.api * result TuplesResult :=
  GRPC.CreateTuples [ex_grpc_tuple; ex_grpc_members] false
    (Some {| fc_lockId := "group/0"; fc_lockToken := "token" |}) ex_grpc.

Lemma ex_both_ok : ex_both.2 = Ok {| tr_consistencyToken := "created" |} /\ gr_sso ex_both.1 = 1.
Proof. by vm_compute. Qed.

Lemma grpc_tuples_refine_witness :
  kc_stored (gr_conn ex_both.1) = created [ex_grpc_tuple; ex_grpc_members] ex_grpc.
Proof.
  assert (E : ex_both = (ex_both.1, Ok {| tr_consistencyToken := "created" |}))
    by (rewrite <- (proj1 ex_both_ok); by destruct ex_both).
  exact (proj1 (proj1 (grpc_tuples_refine ex_grpc ex_both.1) _ _ _ _ E)).
Defined.

Definition ex_fetched : tokenClient :=
  cache_Set (Backend.client_of true) 0 "https://ssoid" "jwt-0".

Lemma ex_first_fetch :
  getToken 0 (Backend.client_of true) 0 = (ex_fetched, 1,
    Ok {| AccessToken := "jwt-0"; ExpiresIn := 100; RefreshToken := "" |}).
Proof. vm_compute. reflexivity. Qed.

Lemma getToken_valid_witness :
  exists t, getToken (7 * second) ex_fetched 1 = (ex_fetched, 1, Ok t) /\ AccessToken t = "jwt-0".
Proof.
  destruct (getToken_valid 0 (Backend.client_of true) 0 ex_fetched 1
    (Ok {| AccessToken := "jwt-0"; ExpiresIn := 100; RefreshToken := "" |})
    ex_first_fetch) as [(_ & Hw & _)|[_ Hreuse]]; [discriminate Hw|].
  apply (Hreuse (7 * second)%Z 100%Z 1);
    [vm_compute; split; discriminate|vm_compute; discriminate|discriminate|reflexivity].
Defined.

Lemma grpc_tuple_roundtrip_witness :
  readTuplesStream_Recv
    {| kesselapi.Tuple := head (tuplesToV1Beta1 [ex_grpc_tuple]);
       kesselapi.rr_Pagination := Some "next"; kesselapi.rr_ConsistencyToken := None |} =
  Ok {| rti_object := tup_object ex_grpc_tuple; rti_relation := tup_relation ex_grpc_tuple;
        rti_subject := tup_subject ex_grpc_tuple; rti_continuationToken := "next";
        rti_consistencyToken := "" |}.
Proof.
  apply (grpc_tuple_roundtrip ex_grpc_tuple (Some "next") None);
    [by exists "hbi"|by exists "rbac"].
Defined.

Lemma grpc_bulk_pointwise_witness :
  let rel := {| rel_object := tup_object ex_grpc_tuple; rel_relation := "view";
                rel_subject := tup_subject ex_grpc_tuple |} in
  length [Some (kesselapi.PairItem kesselapi.ALLOWED_TRUE)] <> length [rel; rel] /\
  status_Code (EStatus Internal "") = Internal.
Proof.
  intros rel.
  exact (grpc_bulk_pointwise [Some (kesselapi.PairItem kesselapi.ALLOWED_TRUE)] [rel; rel] None
    (Err (EStatus Internal "internal error: mismatched backend check results")) eq_refl).
Defined.
