(* ===== verification/Consumer.v ===== *)
(** internal/consumer/consumer.go: the loop that reads tuple events from Kafka,
    replicates their tuples to the relations repository and stores the
    consistency token.

    Kafka, the notifier and the backend's clock are outside the repository:
    [KafkaClient] is the interface [Consumer] of the source, the error of
    [Notifier.Notify] is a parameter, and the pauses between retries are not
    modelled.  Logs and metrics are dropped. *)
From stdpp Require Import base tactics list strings gmap.
From Stdlib Require Import ZArith Lia Ascii.
From S2P Require Import Prelude GoStrings Common ReporterResource Representations Resource.
From S2P Require Import Json DataModel Outbox Store Relations RelationsRepo Schema.

Local Open Scope string_scope.

(** * Messages *)

Record TopicPartition := { tp_Topic : string; tp_Partition : Z; tp_Offset : Z }.

#[export] Instance TopicPartition_eq_dec : EqDecision TopicPartition.
Proof. solve_decision. Defined.

(** A value or key that is not a JSON document is [None]. *)
Record Message := {
  msg_TopicPartition : TopicPartition;
  msg_Headers : list (string * string);
  msg_Key : option json;
  msg_Value : option json;
}.

Definition nil_dereference : go_error :=
  EPanic "invalid memory address or nil pointer dereference".

Definition requiredHeaders : list string := ["operation"; "txid"].

Definition collect_headers (hs : list (string * string)) : gmap string string :=
  foldl (fun m v => if bool_decide (v.1 ∈ requiredHeaders) then <[v.1 := v.2]> m else m) ∅ hs.

(** The required keys are all there, and the operation is not empty. *)
Definition ParseHeaders (msg : Message) : result (gmap string string) :=
  let headers := collect_headers (msg_Headers msg) in
  if negb (bool_decide (dom headers = list_to_set requiredHeaders))
     || bool_decide (headers !! "operation" = Some "")
  then Err (EMsg "required headers are missing which would result in message processing failures")
  else Ok headers.

(** [headers[k]]: "" for a key that is absent. *)
Definition header (headers : gmap string string) (k : string) : string :=
  default "" (headers !! k).

(** The field [schema] of a payload, of type [map[string]interface{}]: only
    its type matters. *)
Definition schema_field (j : json) : result unit :=
  match j with JNull | JObj _ => Ok tt | _ => Err type_error end.

Definition MessagePayload_set (f : string) (j : json) (payload : json) : result json :=
  if bool_decide (f = "schema") then (let! _ := schema_field j in Ok payload)
  else Ok (unmarshal_any j).

(** A JSON [null] leaves the pointer [msgPayload] nil, and so does a [null]
    payload with the pointer [tuple] that is returned. *)
Definition ParseMessage (msg : option json) : result (option TupleEvent) :=
  match msg with
  | None => Err (EMsg "error unmarshaling msgPayload")
  | Some JNull => Err nil_dereference
  | Some j =>
      match unmarshal_struct ["schema"; "payload"] MessagePayload_set j JNull with
      | Err _ => Err (EMsg "error unmarshaling msgPayload")
      | Ok relationsRequest =>
          match marshal_any relationsRequest with
          | JNull => Ok None
          | payloadJson =>
              match TupleEvent_UnmarshalJSON payloadJson with
              | Err _ => Err (EMsg "error unmarshaling tuple payload")
              | Ok tuple => Ok (Some tuple)
              end
          end
      end
  end.

Definition KeyPayload_set (f : string) (j : json) (id : string) : result string :=
  if bool_decide (f = "schema") then (let! _ := schema_field j in Ok id)
  else unmarshal_string j id.

Definition ParseMessageKey (msg : option json) : result string :=
  match msg with
  | None => Err (EMsg "error unmarshaling msgPayload")
  | Some JNull => Err nil_dereference
  | Some j =>
      match unmarshal_struct ["schema"; "payload"] KeyPayload_set j "" with
      | Err _ => Err (EMsg "error unmarshaling msgPayload")
      | Ok inventoryID => Ok inventoryID
      end
  end.

(** [int(partition.Offset) % commitModulo == 0]; the options require
    [commitModulo > 0], a zero would panic. *)
Definition checkIfCommit (partition : TopicPartition) (commitModulo : Z) : bool :=
  bool_decide (Z.rem (tp_Offset partition) commitModulo = 0)%Z.

(** * Tuples *)

Definition tupleToFilter (tuple : RelationsTuple) : TupleFilter :=
  let obj := tup_object tuple in
  let sub := sub_resource (tup_subject tuple) in
  let filter :=
    WithSubject
      (WithRelation
         (WithObjectId (WithObjectType NewTupleFilter (ref_resourceType obj)) (ref_resourceId obj))
         (tup_relation tuple))
      (SF_WithSubjectId (SF_WithSubjectType NewTupleSubjectFilter (ref_resourceType sub))
         (ref_resourceId sub)) in
  let filter :=
    match ref_reporter obj with
    | Some r => WithReporterType filter (rref_reporterType r)
    | None => filter
    end in
  let filter :=
    match ref_reporter sub, tf_subject filter with
    | Some r, Some sf => WithSubject filter (SF_WithReporterType sf (rref_reporterType r))
    | _, _ => filter
    end in
  match sub_relation (tup_subject tuple), tf_subject filter with
  | Some rel, Some sf => WithSubject filter (SF_WithRelation sf rel)
  | _, _ => filter
  end.

Section Tuples.
Context {T : Type} `{RelationsRepository T}.

(** The lock the consumer holds. *)
Context (fc : FencingCheck).

Definition CreateTuple (tuples : option (list RelationsTuple)) (t : T) : T * result string :=
  match tuples with
  | None | Some [] => (t, Err (EMsg "no tuples provided"))
  | Some ((firstTuple :: _) as ts) =>
      match rel_CreateTuples ts true (Some fc) t with
      | (t, Ok result) => (t, Ok (tr_consistencyToken result))
      | (t, Err err) =>
          if bool_decide (status_Code err = FailedPrecondition)
          then (t, Err (EWrap "invalid fencing token" err))
          else if bool_decide (status_Code err = AlreadyExists)
          then
            let rel := NewRelationship (tup_object firstTuple) (tup_relation firstTuple)
                         (tup_subject firstTuple) in
            match rel_Check t rel (Some minimizeLatencyConsistency) with
            | Err checkErr => (t, Err (EWrap "failed to fetch consistency token" checkErr))
            | Ok checkResult => (t, Ok (cr_consistencyToken checkResult))
            end
          else (t, Err (EWrap "error creating tuple" err))
      end
  end.

Fixpoint delete_each (tuples : list RelationsTuple) (token : string) (t : T)
    : T * result string :=
  match tuples with
  | [] => (t, Ok token)
  | tuple :: rest =>
      match rel_DeleteTuples (tupleToFilter tuple) (Some fc) t with
      | (t, Err err) =>
          (t, Err (if bool_decide (status_Code err = FailedPrecondition)
                   then EWrap "invalid fencing token" err
                   else EWrap "error deleting tuple" err))
      | (t, Ok result) =>
          delete_each rest
            (if bool_decide (token = "") then tr_consistencyToken result else token) t
      end
  end.

Definition DeleteTuple (tuples : list RelationsTuple) (t : T) : T * result string :=
  delete_each tuples "" t.

Definition UpdateTuple (tuplesToCreate tuplesToDelete : option (list RelationsTuple)) (t : T)
    : T * result string :=
  match
    (if has_tuples tuplesToCreate
     then match CreateTuple tuplesToCreate t with
          | (t, Ok createToken) => (t, Ok createToken)
          | (t, Err err) => (t, Err (EWrap "failed to create tuples" err))
          end
     else (t, Ok ""))
  with
  | (t, Err err) => (t, Err err)
  | (t, Ok token) =>
      match tuplesToDelete with
      | Some ((_ :: _) as ts) =>
          match DeleteTuple ts t with
          | (t, Err err) => (t, Err (EWrap "failed to delete tuples" err))
          | (t, Ok deleteToken) => (t, Ok (if bool_decide (token = "") then deleteToken else token))
          end
      | _ => (t, Ok token)
      end
  end.

(** [Retry]: with [OperationMaxRetries = -1] the loop has no bound, so it runs
    on fuel; [None] says that the fuel is used up. *)
Fixpoint retry_loop (fuel : nat) (operationMaxRetries attempts : Z)
    (operation : T -> T * result string) (t : T) : option (T * result string) :=
  match fuel with
  | O => None
  | S fuel' =>
      if (operationMaxRetries =? -1)%Z || (attempts <? operationMaxRetries)%Z then
        match operation t with
        | (t, Ok resp) => Some (t, Ok resp)
        | (t, Err err) =>
            if is_panic err then Some (t, Err err)
            else retry_loop fuel' operationMaxRetries (attempts + 1) operation t
        end
      else Some (t, Err (ESentinel ErrMaxRetries))
  end.

Definition Retry (fuel : nat) (operationMaxRetries : Z) (operation : T -> T * result string)
    (t : T) : option (T * result string) :=
  retry_loop fuel operationMaxRetries 0 operation t.
End Tuples.

(** * The consumer object *)

(** The interface [Consumer]: the Kafka client.  [kafka_committed] is the list
    of the offsets the broker accepted. *)
Class KafkaClient (K : Type) := {
  kafka_committed : K -> list TopicPartition;
  CommitOffsets : list TopicPartition -> K -> K * option go_error;
  kafka_Close : K -> K * option go_error;
  IsClosed : K -> bool;
}.

Class KafkaLaws (K : Type) `{KafkaClient K} := {
  commit_ok : forall ps k k', CommitOffsets ps k = (k', None) ->
    kafka_committed k' = (kafka_committed k ++ ps)%list;
  commit_failed : forall ps k k' e, CommitOffsets ps k = (k', Some e) ->
    kafka_committed k' = kafka_committed k;
  close_committed : forall k, kafka_committed (kafka_Close k).1 = kafka_committed k;
}.

Record ConsumerConfig := {
  cfg_CommitModulo : Z;
  cfg_ConsumerGroupID : string;
  cfg_OperationMaxRetries : Z;
  cfg_notifier : bool;           (* a notifier is configured *)
}.

(** The consumer's own fields, and the systems it works on: the inventory
    database, the tuple store, the Kafka client and the notifications sent. *)
Record InventoryConsumer (R T K : Type) := mkConsumer {
  ic_OffsetStorage : list TopicPartition;
  ic_shutdownInProgress : bool;
  ic_lockId : LockId;
  ic_lockToken : LockToken;
  ic_DB : R;
  ic_Relations : T;
  ic_Consumer : K;
  ic_notified : list string;
}.
Arguments mkConsumer {R T K}.
Arguments ic_OffsetStorage {R T K}.
Arguments ic_shutdownInProgress {R T K}.
Arguments ic_lockId {R T K}.
Arguments ic_lockToken {R T K}.
Arguments ic_DB {R T K}.
Arguments ic_Relations {R T K}.
Arguments ic_Consumer {R T K}.
Arguments ic_notified {R T K}.

Section InventoryConsumer.
Context {D T K S : Type} `{GormDB D} `{OutboxLib} `{RelationsRepository T} `{KafkaClient K}
  `{SchemaRepository S}.
Implicit Type i : InventoryConsumer D T K.

Definition set_offsets i (os : list TopicPartition) : InventoryConsumer D T K :=
  mkConsumer os (ic_shutdownInProgress i) (ic_lockId i) (ic_lockToken i) (ic_DB i)
    (ic_Relations i) (ic_Consumer i) (ic_notified i).
Definition set_shutdown i : InventoryConsumer D T K :=
  mkConsumer (ic_OffsetStorage i) true (ic_lockId i) (ic_lockToken i) (ic_DB i)
    (ic_Relations i) (ic_Consumer i) (ic_notified i).
Definition set_lock i (id : LockId) (token : LockToken) : InventoryConsumer D T K :=
  mkConsumer (ic_OffsetStorage i) (ic_shutdownInProgress i) id token (ic_DB i)
    (ic_Relations i) (ic_Consumer i) (ic_notified i).
Definition set_DB i (d : D) : InventoryConsumer D T K :=
  mkConsumer (ic_OffsetStorage i) (ic_shutdownInProgress i) (ic_lockId i) (ic_lockToken i) d
    (ic_Relations i) (ic_Consumer i) (ic_notified i).
Definition set_Relations i (t : T) : InventoryConsumer D T K :=
  mkConsumer (ic_OffsetStorage i) (ic_shutdownInProgress i) (ic_lockId i) (ic_lockToken i)
    (ic_DB i) t (ic_Consumer i) (ic_notified i).
Definition set_Consumer i (k : K) : InventoryConsumer D T K :=
  mkConsumer (ic_OffsetStorage i) (ic_shutdownInProgress i) (ic_lockId i) (ic_lockToken i)
    (ic_DB i) (ic_Relations i) k (ic_notified i).
Definition add_notified i (txid : string) : InventoryConsumer D T K :=
  mkConsumer (ic_OffsetStorage i) (ic_shutdownInProgress i) (ic_lockId i) (ic_lockToken i)
    (ic_DB i) (ic_Relations i) (ic_Consumer i) (ic_notified i ++ [txid])%list.

(** [commitStoredOffsets]: the storage is taken under the lock, the commit
    runs without it, and a failure puts the batch back in front.  [arrived] is
    what other threads stored while the commit ran. *)
Definition take_offsets i : InventoryConsumer D T K * list TopicPartition :=
  (set_offsets i [], ic_OffsetStorage i).

Definition restore_offsets i (batch : list TopicPartition) : InventoryConsumer D T K :=
  match ic_OffsetStorage i with
  | [] => set_offsets i batch
  | os => set_offsets i (batch ++ os)%list
  end.

Definition commitStoredOffsets i (arrived : list TopicPartition)
    : InventoryConsumer D T K * option go_error :=
  match ic_OffsetStorage i with
  | [] => (i, None)
  | _ =>
      let '(i, offsetsToCommit) := take_offsets i in
      let '(k, err) := CommitOffsets offsetsToCommit (ic_Consumer i) in
      let i := set_offsets (set_Consumer i k) (ic_OffsetStorage i ++ arrived)%list in
      match err with
      | Some e => (restore_offsets i offsetsToCommit, Some e)
      | None => (i, None)
      end
  end.

Context (cfg : ConsumerConfig) (schemas : S).

(** The two functions of an [operationConfig]. *)
Definition fetchRepresentations (operation : eventOperationType) (d : D)
    (key : ReporterResourceKey) (version : option Version)
    : result (option Representations * option Representations) :=
  match operation with
  | OperationTypeDeleted =>
      let! previous := FindLatestRepresentations d key in Ok (None, Some previous)
  | _ => FindCurrentAndPreviousVersionedRepresentations d key version operation
  end.

Definition executeSpiceDB (operation : eventOperationType) (fc : FencingCheck)
    (tuples : TuplesToReplicate) (t : T) : T * result string :=
  match operation with
  | OperationTypeCreated => CreateTuple fc (tuplesToCreate tuples) t
  | OperationTypeUpdated => UpdateTuple fc (tuplesToCreate tuples) (tuplesToDelete tuples) t
  | OperationTypeDeleted =>
      match tuplesToDelete tuples with
      | None => (t, Err nil_dereference)
      | Some ts =>
          match DeleteTuple fc ts t with
          | (t, Ok _) => (t, Ok "")
          | (t, Err err) => (t, Err err)
          end
      end
  end.

(** [processRelationsOperation]; [None]: the retries ran out of fuel. *)
Definition processRelationsOperation (fuel : nat) (operation : eventOperationType)
    (msg : Message) i : option (InventoryConsumer D T K * result string) :=
  match ParseMessage (msg_Value msg) with
  | Err err => Some (i, Err err)
  | Ok None => Some (i, Err nil_dereference)
  | Ok (Some tupleEvent) =>
      let key := te_reporterResourceKey tupleEvent in
      match fetchRepresentations operation (ic_DB i) key (te_commonVersion tupleEvent) with
      | Err err => Some (i, Err err)
      | Ok (current, previous) =>
          match CalculateTuplesForResource schemas current previous key with
          | Err err => Some (i, Err err)
          | Ok tuplesToReplicate =>
              if IsEmpty tuplesToReplicate then Some (i, Ok "")
              else
                let fc := {| fc_lockId := ic_lockId i; fc_lockToken := ic_lockToken i |} in
                match Retry fuel (cfg_OperationMaxRetries cfg)
                        (executeSpiceDB operation fc tuplesToReplicate) (ic_Relations i) with
                | None => None
                | Some (t, res) => Some (set_Relations i t, res)
                end
          end
      end
  end.

Definition operation_of (s : string) : option eventOperationType :=
  if bool_decide (s = "created") then Some OperationTypeCreated
  else if bool_decide (s = "updated") then Some OperationTypeUpdated
  else if bool_decide (s = "deleted") then Some OperationTypeDeleted
  else None.

(** The type switch at the start of [Consume]. *)
Definition relationsEnabled : bool :=
  match rel_implementation (T := T) with
  | GRPCImpl | SpiceDBImpl => true
  | AllowAllImpl | SimpleImpl => false
  end.

(** A message whose operation is unknown, or any message when no backend
    writes tuples, is dropped without an error. *)
Definition ProcessMessage (fuel : nat) (headers : gmap string string) (msg : Message) i
    : option (InventoryConsumer D T K * result string) :=
  match operation_of (header headers "operation") with
  | Some operation =>
      if relationsEnabled then processRelationsOperation fuel operation msg i
      else Some (i, Ok "")
  | None => Some (i, Ok "")
  end.

Definition UpdateConsistencyToken (resourceId token : string) i
    : InventoryConsumer D T K * option go_error :=
  match update_ktn resourceId token (ic_DB i) with
  | Ok d => (set_DB i d, None)
  | Err err => (i, Some err)
  end.

Definition UpdateConsistencyTokenIfPresent (resourceId token : string) i
    : InventoryConsumer D T K * option go_error :=
  if bool_decide (token = "") then (i, None) else UpdateConsistencyToken resourceId token i.

(** [Shutdown]: [ErrClosed] is the normal outcome. *)
Definition Shutdown i (arrived : list TopicPartition) : InventoryConsumer D T K * go_error :=
  if IsClosed (ic_Consumer i) then (i, ESentinel ErrClosed)
  else
    let i := set_shutdown i in
    let i := match ic_OffsetStorage i with
             | [] => i
             | _ => (commitStoredOffsets i arrived).1
             end in
    let '(k, err) := kafka_Close (ic_Consumer i) in
    let i := set_Consumer i k in
    (i, match err with Some e => e | None => ESentinel ErrClosed end).

(** * One message of the loop *)

Inductive flow := Continue | Stop | Crash.

(** A message that was processed: notify the producer, store the offset and
    commit the batch when the offset says so. *)
Definition finish_message (notify : option go_error) (arrived : list TopicPartition)
    (headers : gmap string string) (e : Message) i : InventoryConsumer D T K :=
  let txid := header headers "txid" in
  let i := if cfg_notifier cfg && bool_decide (txid <> "") && is_nil notify
           then add_notified i txid else i in
  let i := set_offsets i (ic_OffsetStorage i ++ [msg_TopicPartition e])%list in
  if checkIfCommit (msg_TopicPartition e) (cfg_CommitModulo cfg)
  then (commitStoredOffsets i arrived).1 else i.

(** The case [*kafka.Message] of [Consume].  [notify] is the error of the
    notifier.  [Stop] ends the loop, [Crash] is a panic. *)
Definition consume_message (fuel : nat) (notify : option go_error) (arrived : list TopicPartition)
    (e : Message) i : option (InventoryConsumer D T K * flow) :=
  match ParseHeaders e with
  | Err _ => Some (i, Stop)
  | Ok headers =>
      match ProcessMessage fuel headers e i with
      | None => None
      | Some (i, Err err) => Some (i, if is_panic err then Crash else Stop)
      | Some (i, Ok resp) =>
          if bool_decide (header headers "operation" <> op_string OperationTypeDeleted) then
            match ParseMessageKey (msg_Key e) with
            | Err (EPanic _) => Some (i, Crash)
            | keyResult =>
                let inventoryID := match keyResult with Ok id => id | Err _ => "" end in
                match UpdateConsistencyTokenIfPresent inventoryID resp i with
                | (i, Some _) => Some (i, Continue)
                | (i, None) => Some (finish_message notify arrived headers e i, Continue)
                end
            end
          else Some (finish_message notify arrived headers e i, Continue)
      end
  end.

(** * Rebalancing *)

Inductive RebalanceEvent :=
  | AssignedPartitions (ps : list TopicPartition)
  | RevokedPartitions (ps : list TopicPartition)
  | OtherEvent.

Definition acquire (lockId : LockId) (t : T) : T * result string :=
  match rel_AcquireLock lockId t with
  | (t, Ok result) => (t, Ok (al_lockToken result))
  | (t, Err err) => (t, Err err)
  end.

Definition RebalanceCallback (fuel : nat) (arrived : list TopicPartition)
    (event : RebalanceEvent) i : option (InventoryConsumer D T K * option go_error) :=
  match event with
  | AssignedPartitions [] => Some (i, None)
  | AssignedPartitions (p :: _) =>
      match NewLockId (cfg_ConsumerGroupID cfg +:+ "/" +:+ FormatInt (tp_Partition p)) with
      | Err err => Some (i, Some err)
      | Ok lockId =>
          let i := set_lock i lockId (ic_lockToken i) in
          match Retry fuel (cfg_OperationMaxRetries cfg) (acquire lockId) (ic_Relations i) with
          | None => None
          | Some (t, Ok token) => Some (set_lock (set_Relations i t) lockId token, None)
          | Some (t, Err err) => Some (set_lock (set_Relations i t) lockId "", Some err)
          end
      end
  | RevokedPartitions _ =>
      if ic_shutdownInProgress i then Some (set_lock i "" "", None)
      else match ic_OffsetStorage i with
           | [] => Some (set_lock i "" "", None)
           | _ => let '(i, err) := commitStoredOffsets i arrived in
                  Some (set_lock i "" "", err)
           end
  | OtherEvent => Some (i, None)
  end.

(** * The loop

    [Consume] polls until a signal arrives or a message stops it, then shuts
    down.  A fatal error of Kafka is sent on [Errors], a channel that [New] leaves
    nil: the send blocks for ever. *)
Inductive Event :=
  | EvNone | EvMessage (m : Message) (notify : option go_error)
  | EvError (fatal : bool) | EvOther | EvSignal
  | EvRebalance (ev : RebalanceEvent).

Inductive loop_state := LoopPolls | LoopEnds | LoopPanics | LoopBlocks.

Fixpoint consume_loop (fuel : nat) (events : list Event) i
    : option (InventoryConsumer D T K * loop_state) :=
  match events with
  | [] => Some (i, LoopPolls)
  | ev :: rest =>
      match ev with
      | EvNone | EvOther | EvError false => consume_loop fuel rest i
      | EvSignal => Some (i, LoopEnds)
      | EvError true => Some (i, LoopBlocks)
      | EvRebalance r =>
          match RebalanceCallback fuel [] r i with
          | None => None
          | Some (i, _) => consume_loop fuel rest i
          end
      | EvMessage m notify =>
          match consume_message fuel notify [] m i with
          | None => None
          | Some (i, Continue) => consume_loop fuel rest i
          | Some (i, Stop) => Some (i, LoopEnds)
          | Some (i, Crash) => Some (i, LoopPanics)
          end
      end
  end.

Definition Consume (fuel : nat) (events : list Event) i
    : option (InventoryConsumer D T K * loop_state * option go_error) :=
  match consume_loop fuel events i with
  | None => None
  | Some (i, LoopEnds) =>
      let '(i, err) := Shutdown i [] in
      Some (i, LoopEnds, Some (if errors_Is err ErrClosed then err
                           else EMsg "error in consumer shutdown"))
  | Some (i, f) => Some (i, f, None)
  end.
End InventoryConsumer.
