(* ===== verification/Examples.v ===== *)
(** Concrete parameters for the witnesses: a UUID and time printer, a Kafka
    client, a repository over a Relations API in memory, and a small inventory
    with one host. *)
From stdpp Require Import base tactics list strings gmap.
From Stdlib Require Import ZArith Lia Ascii.
From S2P Require Import Prelude GoStrings Proto SpiceDB GRPCRelations GRPCRelationsProps.
From S2P Require Import Common ReporterResource Representations Resource Relations RelationsRepo.
From S2P Require Import Json DataModel Outbox Store Tables Schema Consumer.

Local Open Scope string_scope.

#[export] Instance ex_outbox_lib : OutboxLib := {|
  uuid_String := FormatInt;
  time_MarshalJSON t := Ok (FormatInt t);
|}.

(** A Kafka client that accepts every commit until it is closed. *)
Record ex_kafka := { ek_committed : list TopicPartition; ek_closed : bool }.

#[export] Instance ex_kafka_client : KafkaClient ex_kafka := {|
  kafka_committed := ek_committed;
  CommitOffsets ps k :=
    if ek_closed k then (k, Some (EMsg "client closed"))
    else ({| ek_committed := ek_committed k ++ ps; ek_closed := false |}, None);
  kafka_Close k := ({| ek_committed := ek_committed k; ek_closed := true |}, None);
  IsClosed := ek_closed;
|}.

#[export] Instance ex_kafka_laws : KafkaLaws ex_kafka.
Proof.
  split; simpl.
  - intros ps k k'. destruct (ek_closed k); by intros [= <-].
  - intros ps k k' e. destruct (ek_closed k); by intros [= <- _].
  - done.
Qed.

Definition ex_host_key : ReporterResourceKey :=
  {| localResourceID := "host-1"; resourceType := "host";
     reporter := {| reporterType := "hbi"; reporterInstanceId := "i1" |} |}.

Definition ex_workspace (ws : string) : JsonObject := Some {["workspace_id" := JStr ws]}.

(** A host whose common representation moved from workspace w1 to w2. *)
Definition ex_common_row (v : Z) (ws : string) : CommonRepresentationRow :=
  {| cw_Data := ex_workspace ws; cw_ResourceId := 1; cw_Version := v;
     cw_ReportedByReporterType := "hbi"; cw_ReportedByReporterInstance := "i1";
     cw_TransactionId := "tx-" +:+ FormatInt v; cw_CreatedAt := 0 |}.

Definition ex_moved_host : Tables :=
  {| tb_resources :=
       [{| rw_ID := 1; rw_Type := "host"; rw_CommonVersion := Some 1%Z;
           rw_ConsistencyToken := ""; rw_CreatedAt := 0; rw_UpdatedAt := 0 |}];
     tb_reporter_resources :=
       [{| rrw_ID := 2; rrw_LocalResourceID := "host-1"; rrw_ReporterType := "hbi";
           rrw_ResourceType := "host"; rrw_ReporterInstanceID := "i1"; rrw_ResourceID := 1;
           rrw_APIHref := "http://x"; rrw_ConsoleHref := None;
           rrw_RepresentationVersion := 1; rrw_Generation := 0; rrw_Tombstone := false;
           rrw_CreatedAt := 0; rrw_UpdatedAt := 0 |}];
     tb_reporter_representations := [];
     tb_common_representations := [ex_common_row 1 "w2"; ex_common_row 0 "w1"];
     tb_emitted := []; tb_error := None |}.

Definition ex_config : ConsumerConfig :=
  {| cfg_CommitModulo := 10; cfg_ConsumerGroupID := "group"; cfg_OperationMaxRetries := 3;
     cfg_notifier := true |}.

(** The repository over a Relations API in memory, without credentials. *)
Definition ex_relations : Type := GRPCRelationsRepository nat Backend.api.

#[export] Instance ex_repository : RelationsRepository ex_relations :=
  @GRPC.relations _ _ Backend.sso Backend.client.

#[export] Instance ex_store : TupleStore ex_relations :=
  @GRPC_store _ _ Backend.sso Backend.sso_laws Backend.client Backend.laws.

Definition ex_no_tuples : ex_relations := mkGRPC (Backend.client_of false) 0 ex_api 0.

(** With an error the API refuses the deletes. *)
Definition ex_with_error (s : ex_relations) (e : option go_error) : ex_relations :=
  mkGRPC (gr_tokenClient s) (gr_sso s) (Backend.with_error (gr_conn s) e) (gr_now s).

Definition ex_consumer (s : ex_relations)
    : InventoryConsumer Tables ex_relations ex_kafka :=
  mkConsumer [] false "group/0" "token" ex_moved_host s
    {| ek_committed := []; ek_closed := false |} [].

(** The event of the move, as the outbox published it. *)
Definition ex_update_event : TupleEvent :=
  {| te_reporterResourceKey := ex_host_key; te_commonVersion := Some 1%Z;
     te_reporterRepresentationVersion := Some 1%Z |}.

Definition ex_update_message : Message :=
  {| msg_TopicPartition := {| tp_Topic := "outbox"; tp_Partition := 0; tp_Offset := 10 |};
     msg_Headers := [("operation", "updated"); ("txid", "tx-1"); ("id", "7")];
     msg_Key := Some (JObj [("payload", JStr "1")]);
     msg_Value := Some (JObj [("schema", JObj []);
                              ("payload", TupleEvent_MarshalJSON ex_update_event)]) |}.

Definition ex_schemas : InMemorySchemaRepository := InMemory.NewInMemorySchemaRepository.
