(* ===== verification/Offsets.v ===== *)
(** Offsets: the storage, the batches being committed and what the broker has
    accepted, with the interleavings of the message loop, the shutdown and the
    rebalance callback. *)
From stdpp Require Import base tactics list strings gmap.
From Stdlib Require Import ZArith Lia Ascii.
From S2P Require Import Prelude GoStrings Common ReporterResource Representations Resource.
From S2P Require Import Json DataModel Outbox Store Tables Relations RelationsRepo RelationsRepoProps Schema Consumer.
From S2P Require Import Examples.

Local Open Scope string_scope.

Section Offsets.
Context {D T K : Type} `{GormDB D} `{OutboxLib} `{RelationsRepository T} `{KafkaLaws K}.
Implicit Type i : InventoryConsumer D T K.

(** The offsets a consumer accounts for. *)
Definition offsets i : list TopicPartition :=
  (ic_OffsetStorage i ++ kafka_committed (ic_Consumer i))%list.

(** The steps on the offsets, each atomic under [offsetMutex] or a call of the
    Kafka client: the batches [fl] are being committed by some thread, [seen]
    are the offsets of the messages processed so far. *)
Inductive ostep : InventoryConsumer D T K * list (list TopicPartition) * list TopicPartition ->
    InventoryConsumer D T K * list (list TopicPartition) * list TopicPartition -> Prop :=
  | os_store i fl seen p :
      ostep (i, fl, seen)
        (set_offsets i (ic_OffsetStorage i ++ [p])%list, fl, (seen ++ [p])%list)
  | os_take i fl seen i' batch :
      ic_OffsetStorage i <> [] -> take_offsets i = (i', batch) ->
      ostep (i, fl, seen) (i', batch :: fl, seen)
  | os_committed i fl1 batch fl2 seen k :
      CommitOffsets batch (ic_Consumer i) = (k, None) ->
      ostep (i, (fl1 ++ batch :: fl2)%list, seen) (set_Consumer i k, (fl1 ++ fl2)%list, seen)
  | os_failed i fl1 batch fl2 seen k e :
      CommitOffsets batch (ic_Consumer i) = (k, Some e) ->
      ostep (i, (fl1 ++ batch :: fl2)%list, seen)
        (restore_offsets (set_Consumer i k) batch, (fl1 ++ fl2)%list, seen)
  | os_shutdown i fl seen : ostep (i, fl, seen) (set_shutdown i, fl, seen)
  | os_lock i fl seen id tok : ostep (i, fl, seen) (set_lock i id tok, fl, seen)
  | os_close i fl seen :
      ostep (i, fl, seen) (set_Consumer i (kafka_Close (ic_Consumer i)).1, fl, seen).

(** Every processed offset is stored, in flight or committed, exactly once. *)
Definition conserved
    (s : InventoryConsumer D T K * list (list TopicPartition) * list TopicPartition) : Prop :=
  let '(i, fl, seen) := s in
  (ic_OffsetStorage i ++ concat fl ++ kafka_committed (ic_Consumer i))%list ≡ₚ seen.

Lemma restore_offsets_storage i batch :
  ic_OffsetStorage (restore_offsets i batch) = (batch ++ ic_OffsetStorage i)%list
  /\ ic_Consumer (restore_offsets i batch) = ic_Consumer i.
Proof.
  unfold restore_offsets. destruct (ic_OffsetStorage i) eqn:E; simpl; by rewrite ?app_nil_r.
Qed.

Lemma ostep_conserved s s' : conserved s -> ostep s s' -> conserved s'.
Proof.
  intros Hs Hstep. destruct Hstep; simpl in *; try done.
  - rewrite <- Hs. solve_Permutation.
  - unfold take_offsets in *. simplify_eq/=. rewrite <- Hs. solve_Permutation.
  - rewrite concat_app in *. simpl in *. erewrite commit_ok by done.
    rewrite <- Hs. solve_Permutation.
  - destruct (restore_offsets_storage (set_Consumer i k) batch) as [-> ->]. simpl.
    rewrite concat_app in *. simpl in *. erewrite commit_failed by done.
    rewrite <- Hs. solve_Permutation.
  - by rewrite close_committed.
Qed.

Lemma conserved_steps s s' : rtc ostep s s' -> conserved s -> conserved s'.
Proof. induction 1; eauto using ostep_conserved. Qed.

(** [commitStoredOffsets] run by one thread is a take followed by the end of
    its commit. *)
Lemma commitStoredOffsets_steps i i' err seen :
  commitStoredOffsets i [] = (i', err) -> rtc ostep (i, [], seen) (i', [], seen).
Proof.
  unfold commitStoredOffsets. destruct (ic_OffsetStorage i) as [|p ps] eqn:E.
  { intros [= <- _]. apply rtc_refl. }
  destruct (take_offsets i) as [i1 batch] eqn:Et.
  assert (Hst : ic_OffsetStorage i1 = []) by (unfold take_offsets in Et; by simplify_eq/=).
  destruct (CommitOffsets batch (ic_Consumer i1)) as [k [e|]] eqn:Ec; simpl; intros Heq;
    (eapply rtc_l; [by apply os_take; [rewrite E|]|]); apply rtc_once.
  - assert (Hi : set_offsets (set_Consumer i1 k) (ic_OffsetStorage i1 ++ [])%list
                 = set_Consumer i1 k) by (destruct i1; simpl in *; by subst).
    rewrite Hi in Heq. simplify_eq. by eapply (os_failed _ [] batch []).
  - assert (Hi : set_offsets (set_Consumer i1 k) (ic_OffsetStorage i1 ++ [])%list
                 = set_Consumer i1 k) by (destruct i1; simpl in *; by subst).
    rewrite Hi in Heq. simplify_eq. by eapply (os_committed _ [] batch []).
Qed.

Lemma commitStoredOffsets_offsets i i' err :
  commitStoredOffsets i [] = (i', err) -> offsets i' ≡ₚ offsets i.
Proof.
  intros Hc. apply (commitStoredOffsets_steps _ _ _ (offsets i)) in Hc.
  refine (conserved_steps _ _ Hc _). unfold conserved, offsets. reflexivity.
Qed.

(** C8. No processed offset is lost or committed twice: whatever the
    interleaving of the loop, the shutdown and the rebalance callback, and
    whichever commits fail, the offsets of the processed messages are, each
    once, the stored ones, those in flight and those the broker accepted. *)
Theorem offsets_conserved i0 i fl seen :
  ic_OffsetStorage i0 = [] -> kafka_committed (ic_Consumer i0) = [] ->
  rtc ostep (i0, [], []) (i, fl, seen) ->
  (ic_OffsetStorage i ++ concat fl ++ kafka_committed (ic_Consumer i))%list ≡ₚ seen.
Proof.
  intros Hs Hc Hrtc. apply (conserved_steps _ _ Hrtc). simpl. by rewrite Hs, Hc.
Qed.
End Offsets.

Section Messages.
Context {D T K S : Type} `{GormDB D} `{OutboxLib} `{RelationsRepository T} `{KafkaLaws K}
  `{SchemaRepository S}.
Context (cfg : ConsumerConfig) (schemas : S).
Implicit Type i : InventoryConsumer D T K.

Lemma ProcessMessage_offsets fuel headers e i i' res :
  ProcessMessage cfg schemas fuel headers e i = Some (i', res) -> offsets i' = offsets i.
Proof.
  unfold ProcessMessage, processRelationsOperation, offsets. intros Hp.
  repeat case_match; by simplify_eq/=.
Qed.

Lemma UpdateConsistencyTokenIfPresent_offsets id tok i i' err :
  UpdateConsistencyTokenIfPresent id tok i = (i', err) -> offsets i' = offsets i.
Proof.
  unfold UpdateConsistencyTokenIfPresent, UpdateConsistencyToken, offsets. intros Hu.
  repeat case_match; by simplify_eq/=.
Qed.

(** Storing the offset of a message that was processed. *)
Lemma store_offset_offsets i p i' err :
  commitStoredOffsets (set_offsets i (ic_OffsetStorage i ++ [p])%list) [] = (i', err) ->
  offsets i' ≡ₚ (offsets i ++ [p])%list.
Proof.
  intros Hc%commitStoredOffsets_offsets. rewrite Hc. unfold offsets. simpl. solve_Permutation.
Qed.

Lemma finish_message_offsets notify headers e i :
  offsets (finish_message cfg notify [] headers e i) ≡ₚ (offsets i ++ [msg_TopicPartition e])%list.
Proof.
  unfold finish_message.
  match goal with |- context [if ?b then add_notified i ?t else i] =>
    set (i1 := if b then add_notified i t else i) end.
  assert (Ho : offsets i1 = offsets i) by (unfold i1; by case_match).
  rewrite <- Ho. cbv zeta. case_match.
  - destruct (commitStoredOffsets _ _) as [i2 err] eqn:Hc. by apply store_offset_offsets in Hc.
  - unfold offsets. simpl. solve_Permutation.
Qed.

(** ** Every message is dealt with *)

Lemma retry_loop_total fuel max attempts (operation : T -> T * result string) t :
  (0 <= max)%Z -> (Z.max 0 (max - attempts) < Z.of_nat fuel)%Z ->
  is_Some (retry_loop fuel max attempts operation t).
Proof.
  intros Hmax. revert attempts t. induction fuel as [|fuel IH]; intros attempts t Hf; simpl; [lia|].
  replace (max =? -1)%Z with false by lia. simpl.
  destruct (Z.ltb_spec attempts max); [|by eexists].
  destruct (operation t) as [t1 [r|e]]; [by eexists|]. destruct (is_panic e); [by eexists|].
  apply IH. lia.
Qed.

Lemma ProcessMessage_total fuel headers e i : (0 <= cfg_OperationMaxRetries cfg)%Z ->
  (cfg_OperationMaxRetries cfg < Z.of_nat fuel)%Z ->
  is_Some (ProcessMessage cfg schemas fuel headers e i).
Proof.
  intros Hmax Hf. unfold ProcessMessage, processRelationsOperation.
  destruct (operation_of _) as [op|]; [|by eexists]. destruct relationsEnabled; [|by eexists].
  destruct (ParseMessage _) as [[ev|]|]; [|by eexists..].
  destruct (fetchRepresentations _ _ _ _) as [[cur prev]|]; [|by eexists].
  destruct (CalculateTuplesForResource _ _ _ _) as [ttr|]; [|by eexists].
  destruct (IsEmpty ttr); [by eexists|]. unfold Retry.
  destruct (retry_loop_total fuel (cfg_OperationMaxRetries cfg) 0
    (executeSpiceDB op {| fc_lockId := ic_lockId i; fc_lockToken := ic_lockToken i |} ttr)
    (ic_Relations i)) as [[t' res] ->]; [lia..|]. by eexists.
Qed.

(** C35. With a retry limit the consumer deals with every message in bounded
    time: whatever the message, the database and the backend do, one more step
    than the limit is enough fuel for the iteration of the loop to end. *)
Theorem consume_message_returns fuel notify arrived e i
    (Hmax : (0 <= cfg_OperationMaxRetries cfg)%Z)
    (Hfuel : (cfg_OperationMaxRetries cfg < Z.of_nat fuel)%Z) :
  exists i' f, consume_message cfg schemas fuel notify arrived e i = Some (i', f).
Proof.
  unfold consume_message. destruct (ParseHeaders e) as [headers|]; [|by eexists _, _].
  destruct (ProcessMessage_total fuel headers e i Hmax Hfuel) as [[i1 [resp|err]] ->];
    [|by eexists _, _].
  case_bool_decide; [|by eexists _, _].
  destruct (ParseMessageKey (msg_Key e)) as [id|[]];
    try (by eexists _, _); destruct (UpdateConsistencyTokenIfPresent _ _ _) as [i2 []];
    by eexists _, _.
Qed.

(** C12. Delivery is at least once.  The offset of a message is recorded, once,
    only when its processing succeeded; a message that stops or crashes the
    loop leaves the offsets as they were, so the broker delivers it again. *)
Theorem consume_message_at_least_once fuel notify e i i' f :
  consume_message cfg schemas fuel notify [] e i = Some (i', f) ->
  (f <> Continue -> offsets i' = offsets i)
  /\ (offsets i' ≡ₚ offsets i
      \/ offsets i' ≡ₚ (offsets i ++ [msg_TopicPartition e])%list
         /\ exists headers i1 resp, ParseHeaders e = Ok headers
            /\ ProcessMessage cfg schemas fuel headers e i = Some (i1, Ok resp)).
Proof.
  unfold consume_message.
  destruct (ParseHeaders e) as [headers|] eqn:Hh; [|intros [= <- <-]; by auto].
  destruct (ProcessMessage cfg schemas fuel headers e i) as [[i1 [resp|err]]|] eqn:Hp; [| |done].
  2:{ apply ProcessMessage_offsets in Hp. intros [= <- _]. rewrite Hp. by auto. }
  pose proof (ProcessMessage_offsets _ _ _ _ _ _ Hp) as Ho.
  assert (Hdone : forall i2, offsets i2 = offsets i1 ->
    Some (finish_message cfg notify [] headers e i2, Continue) = Some (i', f) ->
    f = Continue /\ offsets i' ≡ₚ (offsets i ++ [msg_TopicPartition e])%list).
  { intros i2 Hi2 [= <- <-]. split; [done|]. by rewrite finish_message_offsets, Hi2, Ho. }
  case_bool_decide as Hop.
  2:{ intros [-> Hd]%Hdone; [|done]. split; [done|]. right. split; [done|]. by eexists _, _, _. }
  assert (Hupd : forall id, match UpdateConsistencyTokenIfPresent id resp i1 with
            | (i2, Some _) => Some (i2, Continue)
            | (i2, None) => Some (finish_message cfg notify [] headers e i2, Continue)
            end = Some (i', f) -> f = Continue /\ (offsets i' ≡ₚ offsets i
              \/ offsets i' ≡ₚ (offsets i ++ [msg_TopicPartition e])%list)).
  { intros id. destruct (UpdateConsistencyTokenIfPresent id resp i1) as [i2 [err|]] eqn:Hu;
      apply UpdateConsistencyTokenIfPresent_offsets in Hu.
    - intros [= <- <-]. rewrite Hu, Ho. by auto.
    - intros [-> Hd]%Hdone; [by auto|done]. }
  intros Hm. destruct (ParseMessageKey (msg_Key e)) as [id|err]; [|destruct err];
    try (apply Hupd in Hm as [-> Hd]; (split; [done|]);
         destruct Hd as [Hd|Hd]; [by left|right; split; [done|]; by eexists _, _, _]).
  simplify_eq. rewrite Ho. by auto.
Qed.
End Messages.

(** Two messages are stored, the first is being committed when the second
    arrives, the commit succeeds. *)
Definition ex_tp (o : Z) : TopicPartition :=
  {| tp_Topic := "outbox"; tp_Partition := 0; tp_Offset := o |}.

Definition ex_idle : InventoryConsumer Tables ex_relations ex_kafka :=
  ex_consumer ex_no_tuples.

Definition ex_committed : InventoryConsumer Tables ex_relations ex_kafka :=
  set_Consumer (set_offsets ex_idle [ex_tp 2]) {| ek_committed := [ex_tp 1]; ek_closed := false |}.

Lemma offsets_conserved_witness :
  rtc ostep (ex_idle, [], []) (ex_committed, [], [ex_tp 1; ex_tp 2])
  /\ (ic_OffsetStorage ex_committed ++ concat [] ++ kafka_committed (ic_Consumer ex_committed))%list
     ≡ₚ [ex_tp 1; ex_tp 2].
Proof.
  assert (Hs : rtc ostep (ex_idle, [], []) (ex_committed, [], [ex_tp 1; ex_tp 2])).
  { eapply rtc_l; [apply (os_store ex_idle [] [] (ex_tp 1))|].
    eapply rtc_l; [apply os_take; [discriminate|reflexivity]|].
    eapply rtc_l; [apply (os_store _ _ _ (ex_tp 2))|].
    eapply rtc_l; [apply (os_committed _ [] [ex_tp 1] []); reflexivity|]. apply rtc_refl. }
  split; [exact Hs|].
  exact (offsets_conserved ex_idle ex_committed [] [ex_tp 1; ex_tp 2] eq_refl eq_refl Hs).
Defined.

Definition ex_consumed : option (InventoryConsumer Tables ex_relations ex_kafka * flow) :=
  consume_message ex_config ex_schemas 5 None [] ex_update_message ex_idle.

Lemma ex_consumed_records :
  match ex_consumed with
  | Some (i, Continue) => bool_decide (kafka_committed (ic_Consumer i) = [ex_tp 10])
  | _ => false
  end = true.
Proof. vm_compute. reflexivity. Qed.

Lemma consume_message_at_least_once_witness :
  exists i, ex_consumed = Some (i, Continue)
    /\ exists headers i1 resp, ParseHeaders ex_update_message = Ok headers
       /\ ProcessMessage ex_config ex_schemas 5 headers ex_update_message ex_idle
          = Some (i1, Ok resp).
Proof.
  pose proof ex_consumed_records as Hr.
  destruct ex_consumed as [[i f]|] eqn:Hc; [|discriminate Hr].
  destruct f; [|discriminate Hr..]. apply bool_decide_eq_true in Hr.
  exists i. split; [done|]. unfold ex_consumed in Hc.
  destruct (consume_message_at_least_once ex_config ex_schemas 5 None ex_update_message
              ex_idle i Continue Hc) as [_ [Ho|[_ Hp]]]; [|exact Hp].
  exfalso. unfold offsets in Ho. rewrite Hr in Ho. apply Permutation_length in Ho.
  rewrite length_app in Ho. simpl in Ho. lia.
Defined.

Lemma consume_message_returns_witness : exists i' f,
  consume_message ex_config ex_schemas 4 None [] ex_update_message ex_idle = Some (i', f).
Proof.
  apply (consume_message_returns ex_config ex_schemas 4 None [] ex_update_message ex_idle);
    vm_compute; [discriminate|reflexivity].
Defined.
