(* ===== verification/ConsumerProps.v ===== *)
(** The consumer: what reaches it is what the outbox wrote, replicating a
    message changes the tuple store by exactly the tuples of the message
    whatever fails in between, retries end, and no offset is lost. *)
From stdpp Require Import base tactics list strings gmap.
From Stdlib Require Import ZArith Lia Ascii.
From S2P Require Import Prelude GoStrings Common ReporterResource Representations Resource.
From S2P Require Import Json DataModel Outbox Store Relations RelationsRepo RelationsRepoProps Schema Consumer.

Local Open Scope string_scope.

(** * From the outbox to the consumer *)

(** The value Debezium puts on the topic for a tuple event: the payload under
    its schema envelope. *)
Definition kafka_value (schema : list (string * json)) (payload : JsonObject) : json :=
  JObj [("schema", JObj schema); ("payload", marshal_object payload)].

Definition small_version (v : option Version) : Prop :=
  forall z, v = Some z -> (0 <= z < two53)%Z.

#[export] Instance small_version_dec v : Decision (small_version v).
Proof.
  destruct v as [z|]; [|left; done].
  destruct (decide (0 <= z < two53)%Z); [left|right]; unfold small_version; naive_solver.
Defined.

Lemma small_is_u64 z : (0 <= z < two53)%Z -> is_u64 z.
Proof. unfold two53, is_u64, two64. lia. Qed.

(** Decoding a number that was printed, read and printed again. *)
Lemma unmarshal_small_version z :
  small_version (Some z) ->
  unmarshal_uint_ptr (JNum (print_number (read_number (print_number z)))) = Ok (Some z).
Proof.
  intros H. assert (Hz : (0 <= z < two53)%Z) by auto.
  rewrite !(print_number_small z), (read_number_small z), (print_number_small z) by done. simpl.
  by rewrite bool_decide_eq_true_2 by auto using small_is_u64.
Qed.

(** Evaluate the closed parts of a decoding step: the order of the keys of a
    map, the field a key names, the comparison of two field names. *)
Ltac decode_step :=
  match goal with
  | |- context [map_to_list ?m] =>
      let v := eval vm_compute in (map_to_list m) in change (map_to_list m) with v
  | |- context [struct_field ?n ?k] =>
      let v := eval vm_compute in (struct_field n k) in change (struct_field n k) with v
  | |- context [bool_decide (@eq string ?a ?b)] =>
      let v := eval vm_compute in (bool_decide (@eq string a b)) in
      lazymatch v with
      | true => change (bool_decide (@eq string a b)) with true
      | false => change (bool_decide (@eq string a b)) with false
      end
  end.

Ltac decode :=
  repeat (decode_step;
          cbn -[map_to_list struct_field bool_decide read_number print_number
                unmarshal_uint_ptr]).

(** A tuple event, decoded to a payload and parsed from the topic. *)
Lemma tuple_payload_parsed ev payload schema :
  small_version (te_commonVersion ev) -> small_version (te_reporterRepresentationVersion ev) ->
  unmarshal_object (TupleEvent_MarshalJSON ev) ∅ = Ok payload ->
  ParseMessage (Some (kafka_value schema payload)) = Ok (Some ev).
Proof.
  destruct ev as [[l t [rt ri]] cv rv]. simpl. intros Hcv Hrv.
  destruct cv as [cv|], rv as [rv|];
    cbn; intros [= <-]; unfold kafka_value, marshal_object, ParseMessage, TupleEvent_UnmarshalJSON;
    cbn -[map_to_list struct_field bool_decide read_number print_number unmarshal_uint_ptr];
    rewrite ?(read_number_small cv), ?(read_number_small rv) by auto;
    unfold TupleEvent_UnmarshalJSON, ReporterResourceKey_UnmarshalJSON; decode;
    unfold tupleEventJSON_set, ReporterResourceKey_UnmarshalJSON,
      reporterResourceKeyJSON_set, reporterJSON_set, MessagePayload_set; decode;
    by rewrite ?unmarshal_small_version by done.
Qed.

(** C25. The consumer reads back exactly the event the transaction published:
    the key and the versions of a tuple event, built, stored in the outbox and
    parsed, are unchanged as long as the versions are below 2^53 (they travel
    as JSON numbers held in a [float64]). *)
Theorem TupleEvent_outbox_roundtrip key cv rv payload schema :
  small_version cv -> small_version rv ->
  convertResourceToTupleEvent key cv rv = Ok payload ->
  ParseMessage (Some (kafka_value schema payload))
  = Ok (Some {| te_reporterResourceKey := key; te_commonVersion := cv;
                te_reporterRepresentationVersion := rv |}).
Proof.
  intros Hcv Hrv. unfold convertResourceToTupleEvent, NewTupleEvent. case_bool_decide; [done|].
  destruct (is_nil cv && is_nil rv); [done|]. intros Hp%wrap_err_ok.
  by apply tuple_payload_parsed.
Qed.

Definition ex_outbox_key : ReporterResourceKey :=
  {| localResourceID := "host-1"; resourceType := "host";
     reporter := {| reporterType := "hbi"; reporterInstanceId := "i1" |} |}.

Lemma TupleEvent_outbox_roundtrip_witness :
  exists payload,
    convertResourceToTupleEvent ex_outbox_key (Some 7%Z) (Some 9%Z) = Ok payload
    /\ ParseMessage (Some (kafka_value [("type", JStr "struct")] payload))
       = Ok (Some {| te_reporterResourceKey := ex_outbox_key; te_commonVersion := Some 7%Z;
                     te_reporterRepresentationVersion := Some 9%Z |}).
Proof.
  destruct (convertResourceToTupleEvent ex_outbox_key (Some 7%Z) (Some 9%Z)) as [p|] eqn:E;
    [|discriminate E].
  exists p. split; [done|].
  apply (TupleEvent_outbox_roundtrip ex_outbox_key (Some 7%Z) (Some 9%Z) p); [| |done];
    apply (bool_decide_unpack _); vm_compute; exact I.
Defined.

(** The bound is sharp: the version 2^53 + 1 is read back as 2^53. *)
Example outbox_precision :
  exists payload,
    convertResourceToTupleEvent ex_outbox_key (Some 9007199254740993%Z) None = Ok payload
    /\ ParseMessage (Some (kafka_value [] payload))
       = Ok (Some {| te_reporterResourceKey := ex_outbox_key;
                     te_commonVersion := Some 9007199254740992%Z;
                     te_reporterRepresentationVersion := None |}).
Proof. eexists. split; [reflexivity|]. vm_compute. reflexivity. Qed.

(** * Filters *)

(** A tuple the schemas produce: both sides name their reporter type, and the
    subject is the resource itself. *)
Definition namespaced (tuple : RelationsTuple) : Prop :=
  HasReporter (tup_object tuple) /\ HasReporter (sub_resource (tup_subject tuple)) /\
  sub_relation (tup_subject tuple) = None.

#[export] Instance namespaced_dec tuple : Decision (namespaced tuple).
Proof. unfold namespaced. apply _. Defined.

Lemma NewRelationTupleForSubject_namespaced key rel ns ty id :
  namespaced (NewRelationTupleForSubject key rel ns ty id).
Proof. by split. Qed.

(** The filter the consumer deletes a tuple with matches that tuple and no
    other one: deleting never removes a tuple of another resource, relation or
    subject. *)
Lemma tupleToFilter_exact tuple k :
  namespaced tuple ->
  simpleMatchesTupleFilter k (tupleToFilter tuple) = true
  <-> k = simpleTupleKeyFromModelTuple tuple.
Proof.
  destruct tuple as [[ot oi [[ort oinst]|]] r [[st si [[srt sinst]|]] srel]];
    intros (Ho & Hs & Hr); try done.
  destruct k as [a b c d e f g], srel; unfold simpleMatchesTupleFilter;
    cbn -[bool_decide]; rewrite ?andb_true_iff, ?bool_decide_eq_true; clear;
    (split; [intros; destruct_and?; congruence|intros [=]; by subst]).
Qed.

Lemma tupleToFilter_plain tuple : namespaced tuple -> plain_filter (tupleToFilter tuple).
Proof.
  intros (Ho & Hs & Hr). unfold tupleToFilter. rewrite Hr.
  destruct (ref_reporter (tup_object tuple)), (ref_reporter (sub_resource (tup_subject tuple))); done.
Qed.

Definition ex_tuple (ws : string) : RelationsTuple := NewWorkspaceRelationsTuple ws ex_outbox_key.

(** * Replicating the tuples of one message *)

Abbreviation tkey := simpleTupleKeyFromModelTuple (only parsing).

Definition keys_of (p : option (list RelationsTuple)) : gset simpleTupleKey :=
  list_to_set (tkey <$> default [] p).

(** What a set of tuples becomes: the tuples to create added, then those to
    delete removed. *)
Definition replicated (ttr : TuplesToReplicate) (s : gset simpleTupleKey) : gset simpleTupleKey :=
  (keys_of (tuplesToCreate ttr) ∪ s) ∖ keys_of (tuplesToDelete ttr).

Definition all_namespaced (ttr : TuplesToReplicate) : Prop :=
  Forall namespaced (default [] (tuplesToDelete ttr)).

(** The second set agrees with the first on the tuples that are not touched, and
    holds nothing more than it and the tuples to create. *)
Definition agree (ttr : TuplesToReplicate) (s s' : gset simpleTupleKey) : Prop :=
  s ∖ (keys_of (tuplesToCreate ttr) ∪ keys_of (tuplesToDelete ttr))
  = s' ∖ (keys_of (tuplesToCreate ttr) ∪ keys_of (tuplesToDelete ttr)) /\
  s' ⊆ keys_of (tuplesToCreate ttr) ∪ s.

Lemma replicated_agree ttr s s' : agree ttr s s' -> replicated ttr s = replicated ttr s'.
Proof.
  unfold agree, replicated.
  generalize (keys_of (tuplesToCreate ttr)) as C, (keys_of (tuplesToDelete ttr)) as E.
  intros C E [H _]. apply set_eq. intros x.
  assert (Hx : x ∈ s ∖ (C ∪ E) <-> x ∈ s' ∖ (C ∪ E)) by (by rewrite H).
  rewrite !elem_of_difference, !elem_of_union in *.
  destruct (decide (x ∈ C)), (decide (x ∈ E)); tauto.
Qed.

Lemma agree_trans ttr a b c : agree ttr a b -> agree ttr b c -> agree ttr a c.
Proof. unfold agree. intros [-> ?] [-> ?]. split; [done|set_solver]. Qed.

Lemma filter_exact tuple (s : gset simpleTupleKey) :
  namespaced tuple ->
  filter (fun k => simpleMatchesTupleFilter k (tupleToFilter tuple) = false) s
  = s ∖ {[tkey tuple]}.
Proof.
  intros Hn. apply set_eq. intros k. rewrite elem_of_filter, elem_of_difference,
    elem_of_singleton, <- tupleToFilter_exact by done.
  rewrite not_true_iff_false. naive_solver.
Qed.

(** Creating [C] and then failing to delete all of [X] touches nothing else. *)
Lemma partial_agree (C X s s2 : gset simpleTupleKey) :
  (C ∪ s) ∖ X = s2 ∖ X -> s2 ⊆ C ∪ s -> s ∖ (C ∪ X) = s2 ∖ (C ∪ X) /\ s2 ⊆ C ∪ s.
Proof.
  intros H Hsub. split; [|done]. apply set_eq. intros x.
  assert (Hx : x ∈ (C ∪ s) ∖ X <-> x ∈ s2 ∖ X) by (by rewrite H).
  rewrite !elem_of_difference, !elem_of_union in *. tauto.
Qed.

Section Replication.
Context {T : Type} `{TupleStore T} (fc : FencingCheck).

Lemma CreateTuple_spec ts t t' r :
  upserts t -> CreateTuple fc ts t = (t', r) ->
  upserts t' /\
  match r with
  | Ok _ => stored t' = keys_of ts ∪ stored t
  | Err _ => stored t' = stored t \/ stored t' = keys_of ts ∪ stored t
  end.
Proof.
  unfold CreateTuple. intros Hu Hc. destruct ts as [[|u ts]|]; [simplify_eq; auto| |simplify_eq; auto].
  pose proof (upserts_create (u :: ts) (Some fc) t Hu) as Hu'.
  destruct (rel_CreateTuples (u :: ts) true (Some fc) t) as [t1 [res|e]] eqn:E; simpl in Hu'.
  - apply create_stored in E. by simplify_eq.
  - pose proof (create_upserts _ _ _ _ _ Hu E) as Hne. apply create_failed in E.
    rewrite (bool_decide_eq_false_2 (status_Code e = AlreadyExists)) in Hc by done.
    case_bool_decide; by simplify_eq.
Qed.

Lemma delete_each_spec ts tok t t' r :
  Forall namespaced ts -> upserts t -> delete_each fc ts tok t = (t', r) ->
  upserts t' /\
  match r with
  | Ok _ => stored t' = stored t ∖ list_to_set (tkey <$> ts)
  | Err _ => stored t ∖ list_to_set (tkey <$> ts) = stored t' ∖ list_to_set (tkey <$> ts) /\
             stored t' ⊆ stored t
  end.
Proof.
  revert tok t. induction ts as [|u ts IH]; intros tok t Hn Hu Hd.
  { simpl in Hd. simplify_eq. split; [done|]. simpl. set_solver. }
  apply Forall_cons in Hn as [Hu1 Hn]. simpl in Hd.
  pose proof (upserts_delete (tupleToFilter u) (Some fc) t Hu) as Hu'.
  destruct (rel_DeleteTuples (tupleToFilter u) (Some fc) t) as [t1 [res|e]] eqn:E; simpl in Hu'.
  - apply delete_stored in E; [|by apply tupleToFilter_plain]. rewrite filter_exact in E by done.
    apply IH in Hd as [Hup Hd]; [|done..]. split; [done|]. simpl.
    destruct r; rewrite E in Hd; set_solver.
  - simplify_eq. apply delete_failed in E; [|by apply tupleToFilter_plain]. rewrite filter_exact in E by done.
    split; [done|]. simpl. destruct E as [-> | ->]; set_solver.
Qed.

(** The first half of an update. *)
Lemma UpdateTuple_creates cs t : upserts t ->
  exists t1 r1, (if has_tuples cs
     then match CreateTuple fc cs t with
          | (t, Ok createToken) => (t, Ok createToken)
          | (t, Err err) => (t, Err (EWrap "failed to create tuples" err))
          end
     else (t, Ok "")) = (t1, r1) /\ upserts t1 /\
  match r1 with
  | Ok _ => stored t1 = keys_of cs ∪ stored t
  | Err _ => stored t1 = stored t \/ stored t1 = keys_of cs ∪ stored t
  end.
Proof.
  intros Hu. destruct cs as [[|c cs]|]; cbn [has_tuples].
  - exists t, (Ok ""). split_all; [done..|]. unfold keys_of. simpl. set_solver.
  - destruct (CreateTuple fc (Some (c :: cs)) t) as [t1 r1] eqn:E.
    apply CreateTuple_spec in E as [? E]; [|done].
    destruct r1; eexists _, _; (split; [reflexivity|]); by split.
  - exists t, (Ok ""). split_all; [done..|]. unfold keys_of. simpl. set_solver.
Qed.

Lemma UpdateTuple_spec ttr t t' r :
  all_namespaced ttr -> upserts t ->
  UpdateTuple fc (tuplesToCreate ttr) (tuplesToDelete ttr) t = (t', r) ->
  upserts t' /\
  match r with
  | Ok _ => stored t' = replicated ttr (stored t)
  | Err _ => agree ttr (stored t) (stored t')
  end.
Proof.
  unfold all_namespaced, replicated, agree, UpdateTuple. intros Hn Hu He.
  destruct (UpdateTuple_creates (tuplesToCreate ttr) t Hu) as (t1 & r1 & Hc & Hu1 & Hs1).
  rewrite Hc in He. clear Hc.
  destruct r1 as [tok|e]; [|simplify_eq; split; [done|]; destruct Hs1 as [-> | ->]; set_solver].
  destruct (tuplesToDelete ttr) as [[|d ds]|] eqn:Ed.
  - simplify_eq. split; [done|]. rewrite Hs1. unfold keys_of. simpl. set_solver.
  - destruct (DeleteTuple fc (d :: ds) t1) as [t2 r2] eqn:E.
    apply delete_each_spec in E as [? E]; [|done..].
    assert (Hk : keys_of (Some (d :: ds)) = list_to_set (tkey <$> d :: ds)) by done.
    rewrite Hk. rewrite Hs1 in E. destruct r2; simplify_eq; (split; [done|]); [done|].
    destruct E. by apply partial_agree.
  - simplify_eq. split; [done|]. rewrite Hs1. unfold keys_of. simpl. set_solver.
Qed.

Lemma executeSpiceDB_spec op ttr t t' r :
  all_namespaced ttr -> upserts t ->
  (op = OperationTypeCreated -> tuplesToDelete ttr = None) ->
  (op = OperationTypeDeleted -> tuplesToCreate ttr = None /\ is_Some (tuplesToDelete ttr)) ->
  executeSpiceDB op fc ttr t = (t', r) ->
  upserts t' /\
  match r with
  | Ok _ => stored t' = replicated ttr (stored t)
  | Err _ => agree ttr (stored t) (stored t')
  end.
Proof.
  unfold executeSpiceDB. intros Hn Hu Hop Hdel He. destruct op.
  - unfold replicated, agree. rewrite Hop by done.
    apply CreateTuple_spec in He as [? He]; [|done]. split; [done|].
    destruct r; [rewrite He|destruct He as [-> | ->]]; unfold keys_of; simpl; set_solver.
  - by apply UpdateTuple_spec.
  - unfold all_namespaced, replicated, agree in *.
    destruct Hdel as [Hc [ds Hd]]; [done|]. rewrite Hd in *. rewrite Hc.
    destruct (DeleteTuple fc ds t) as [t2 r2] eqn:E.
    apply delete_each_spec in E as [? E]; [|done..].
    assert (Hk : keys_of (Some ds) = list_to_set (tkey <$> ds)) by done.
    assert (Hk0 : keys_of None = ∅) by done. rewrite Hk, Hk0.
    destruct r2; simplify_eq; (split; [done|]); [rewrite E; set_solver|].
    destruct E. apply partial_agree; by rewrite (left_id_L ∅ (∪)).
Qed.
End Replication.
