(* ===== verification/Replication.v ===== *)
(** Replication of a resource's tuples: retries, the effect of a whole message
    on the tuple store, and redelivery. *)
From stdpp Require Import base tactics list strings gmap.
From Stdlib Require Import ZArith Lia Ascii.
From S2P Require Import Prelude GoStrings Common ReporterResource Representations Resource.
From S2P Require Import Json DataModel Outbox Store Relations RelationsRepo RelationsRepoProps Schema SchemaProps.
From S2P Require Import Consumer Tables Examples ConsumerProps.

Local Open Scope string_scope.

(** * Retries *)

Section Retries.
Context {T : Type} (max : Z) (operation : T -> T * result string).

(** Invariant reasoning on the loop: [I] survives a failure, a success gives
    [Q]. *)
Lemma retry_loop_ind (I : T -> Prop) (Q : T -> string -> Prop) :
  (forall t t' e, I t -> operation t = (t', Err e) -> I t') ->
  (forall t t' r, I t -> operation t = (t', Ok r) -> Q t' r) ->
  forall fuel attempts t t' res, I t ->
  retry_loop fuel max attempts operation t = Some (t', res) ->
  match res with Ok r => Q t' r | Err _ => I t' end.
Proof.
  intros Herr Hok fuel. induction fuel as [|fuel IH]; intros attempts t t' res Ht H; [done|].
  simpl in H. destruct (_ || _); [|by simplify_eq].
  destruct (operation t) as [t1 [r|e]] eqn:E; [simplify_eq; eauto|].
  destruct (is_panic e); [simplify_eq; eauto|]. by eapply IH; [eapply Herr|].
Qed.

(** The state before attempt [n], if the first [n] attempts fail. *)
Fixpoint failed_state (n : nat) (t : T) : T :=
  match n with O => t | S n' => failed_state n' (operation t).1 end.

Definition fails (t : T) : Prop :=
  exists t' e, operation t = (t', Err e) /\ is_panic e = false.

Lemma retry_loop_skip n : forall fuel attempts t,
  (forall m, (m < n)%nat -> fails (failed_state m t)) ->
  (max = -1 \/ attempts + Z.of_nat n <= max)%Z ->
  retry_loop (n + fuel) max attempts operation t
  = retry_loop fuel max (attempts + Z.of_nat n) operation (failed_state n t).
Proof.
  induction n as [|n IH]; intros fuel attempts t Hf Hmax; cbn [Nat.add failed_state].
  { by replace (attempts + Z.of_nat 0)%Z with attempts by lia. }
  destruct (Hf 0%nat) as (t1 & e & Ho & Hp); [lia|]. simpl in Ho. cbn [retry_loop].
  replace ((max =? -1)%Z || (attempts <? max)%Z) with true
    by (symmetry; apply orb_true_iff; destruct Hmax; [left|right]; lia).
  rewrite Ho, Hp. cbn [fst]. rewrite IH.
  - f_equal. lia.
  - intros m Hm. specialize (Hf (S m)). simpl in Hf. rewrite Ho in Hf. apply Hf. lia.
  - destruct Hmax; [by left|right; lia].
Qed.
End Retries.

(** [Retry] returns the result of the first attempt that succeeds, if one
    of the allowed attempts does ([OperationMaxRetries] of them, any number
    when it is -1), and [ErrMaxRetries] after exactly that many failures
    otherwise: with a bound it always ends. *)
Theorem Retry_returns {T} (max : Z) (operation : T -> T * result string) (t : T) (n : nat) :
  (forall m, (m < n)%nat -> fails operation (failed_state operation m t)) ->
  ((max = -1 \/ Z.of_nat n < max)%Z -> forall t' r,
     operation (failed_state operation n t) = (t', Ok r) ->
     forall fuel, (n < fuel)%nat -> Retry fuel max operation t = Some (t', Ok r))
  /\ (Z.of_nat n = max -> forall fuel, (n < fuel)%nat ->
     Retry fuel max operation t
     = Some (failed_state operation n t, Err (ESentinel ErrMaxRetries))).
Proof.
  intros Hf. unfold Retry. split.
  - intros Hmax t' r Ho fuel Hfuel.
    replace fuel with (n + S (fuel - n - 1))%nat by lia.
    rewrite retry_loop_skip by (done || lia). cbn [retry_loop].
    replace ((max =? -1)%Z || (0 + Z.of_nat n <? max)%Z) with true
      by (symmetry; apply orb_true_iff; destruct Hmax; [left|right]; lia).
    by rewrite Ho.
  - intros Hmax fuel Hfuel. replace fuel with (n + S (fuel - n - 1))%nat by lia.
    rewrite retry_loop_skip by (done || lia). cbn [retry_loop].
    by replace ((max =? -1)%Z || (0 + Z.of_nat n <? max)%Z) with false
      by (symmetry; apply orb_false_iff; split; lia).
Qed.

(** An operation on a counter that succeeds on its third call. *)
Definition ex_flaky (t : nat) : nat * result string :=
  (S t, if (2 <=? t)%nat then Ok "token" else Err (EMsg "unavailable")).

Lemma Retry_returns_witness :
  Retry 10 5 ex_flaky 0%nat = Some (3%nat, Ok "token")
  /\ Retry 10 2 ex_flaky 0%nat = Some (2%nat, Err (ESentinel ErrMaxRetries)).
Proof.
  assert (Hf : forall m, (m < 2)%nat -> fails ex_flaky (failed_state ex_flaky m 0)).
  { intros m Hm. destruct m as [|[|m]]; [by do 2 eexists..|lia]. }
  split.
  - apply (Retry_returns 5 ex_flaky 0%nat 2 Hf); [lia|reflexivity|lia].
  - apply (Retry_returns 2 ex_flaky 0%nat 2 Hf); [reflexivity|lia].
Defined.

(** * The tuples of a representation *)

Definition tuples_of (rels : list RelationDef) (r : option Representations)
    (key : ReporterResourceKey) : gset simpleTupleKey :=
  list_to_set (tkey <$> spec_tuple_list rels r key).

Lemma spec_tuple_key_inj rels r r' key t t' :
  spec_tuples rels r key t -> spec_tuples rels r' key t' -> tkey t = tkey t' -> t = t'.
Proof.
  intros (rel & v & _ & _ & ->) (rel' & v' & _ & _ & ->) H.
  unfold tkey in H. cbn in H. injection H as H1 H2 H3 H4.
  unfold NewRelationTupleForSubject, NewReporterReference. congruence.
Qed.

Lemma elem_of_tuples_of rels r key k :
  k ∈ tuples_of rels r key <-> exists t, k = tkey t /\ spec_tuples rels r key t.
Proof.
  unfold tuples_of. rewrite elem_of_list_to_set, list_elem_of_fmap.
  by setoid_rewrite <- spec_tuples_iff.
Qed.

Lemma elem_of_tuples_of_key rels r r' key t :
  spec_tuples rels r' key t -> tkey t ∈ tuples_of rels r key <-> spec_tuples rels r key t.
Proof.
  intros Ht. rewrite elem_of_tuples_of. split; [|eauto].
  intros (t' & Hk & Ht'). by rewrite (spec_tuple_key_inj rels r' r key t t').
Qed.

(** The tuples to create and delete, as a difference of denotations. *)
Lemma CalculateTuples_keys rels current previous key ttr :
  distinct_relations rels ->
  CalculateTuplesFromRelationDefs rels current previous key = Ok ttr ->
  keys_of (tuplesToCreate ttr) = tuples_of rels current key ∖ tuples_of rels previous key
  /\ keys_of (tuplesToDelete ttr) = tuples_of rels previous key ∖ tuples_of rels current key.
Proof.
  intros Hd Hc.
  assert (Hgen : forall p cur prev,
    (forall t, t ∈ default [] p <-> spec_tuples rels cur key t /\ ~ spec_tuples rels prev key t) ->
    keys_of p = tuples_of rels cur key ∖ tuples_of rels prev key).
  { intros p cur prev Hp. apply set_eq. intros k. unfold keys_of.
    rewrite elem_of_list_to_set, list_elem_of_fmap, elem_of_difference.
    rewrite (elem_of_tuples_of rels cur). split.
    - intros (t & -> & [H1 H2]%Hp). split; [by exists t|].
      by rewrite (elem_of_tuples_of_key rels prev cur).
    - intros [(t & -> & Ht) Hn]. exists t. split; [done|]. apply Hp. split; [done|].
      by rewrite <- (elem_of_tuples_of_key rels prev cur). }
  split; apply Hgen; intros t; by destruct (CalculateTuples_spec _ _ _ _ _ t Hd Hc).
Qed.

Lemma CalculateTuples_namespaced rels current previous key ttr :
  CalculateTuplesFromRelationDefs rels current previous key = Ok ttr -> all_namespaced ttr.
Proof.
  intros Hc. apply Forall_forall. intros t Ht.
  destruct (CalculateTuples_members _ _ _ _ _ t Hc) as [_ Hm].
  apply Hm in Ht as (rel & _ & Ht).
  unfold relation_diff in Ht. apply Diff_delete_iff in Ht as (v & -> & _).
  apply NewRelationTupleForSubject_namespaced.
Qed.

Lemma keys_of_slice_empty l : keys_of (slice_ptr l) = ∅ -> slice_ptr l = None.
Proof. destruct l; [done|]. unfold keys_of. simpl. set_solver. Qed.

Lemma CalculateTuples_slices rels current previous key ttr :
  CalculateTuplesFromRelationDefs rels current previous key = Ok ttr ->
  exists cs ds, tuplesToCreate ttr = slice_ptr cs /\ tuplesToDelete ttr = slice_ptr ds.
Proof.
  unfold CalculateTuplesFromRelationDefs. destruct (foldl _ _ _) as [cs ds].
  intros [= <-]. by exists cs, ds.
Qed.

Lemma tuples_of_None rels key : tuples_of rels None key = ∅.
Proof.
  apply set_eq. intros k. rewrite elem_of_tuples_of. split; [|set_solver].
  intros (t & _ & rel & v & _ & Hv & _). exfalso. unfold relation_values in Hv.
  destruct (rd_multiValued rel); simpl in Hv; by apply not_elem_of_nil in Hv.
Qed.

(** * One message *)

Lemma pick_versions_no_previous cv rows acc cur prev :
  Forall (fun r => cw_Version r = cv) rows ->
  pick_versions cv rows acc = Ok (cur, prev) -> prev = acc.2.
Proof.
  revert acc. induction rows as [|row rows IH]; intros acc Hall Hp; [by simplify_eq/=|].
  apply Forall_cons in Hall as [Hv Hall]. cbn [pick_versions] in Hp.
  destruct (wrap_err _ _); [|done]. apply IH in Hp as ->; [|done].
  by rewrite bool_decide_eq_true_2.
Qed.

Section OneMessage.
Context {D T K S : Type} `{GormDB D} `{OutboxLib} `{TupleStore T} `{KafkaClient K}
  `{SchemaRepository S}.
Context (cfg : ConsumerConfig) (schemas : S).
Implicit Type i : InventoryConsumer D T K.

Lemma fetch_created d key v cur prev :
  fetchRepresentations OperationTypeCreated d key v = Ok (cur, prev) -> prev = None.
Proof.
  simpl. unfold FindCurrentAndPreviousVersionedRepresentations.
  destruct v as [cv|]; [|by intros [= <- <-]]. case_match; [done|].
  intros Hp%pick_versions_no_previous; [done|].
  apply Forall_forall. intros row Hin. apply list_elem_of_In, filter_In in Hin as [_ Hv].
  by apply bool_decide_eq_true in Hv.
Qed.

Lemma fetch_deleted d key v cur prev :
  fetchRepresentations OperationTypeDeleted d key v = Ok (cur, prev) -> cur = None.
Proof. simpl. by destruct (FindLatestRepresentations d key); intros [= <- <-]. Qed.

(** The relation definitions that apply to a resource type. *)
Definition relations_for (rt : ResourceType) : option (list RelationDef) :=
  match GetResourceSchema schemas rt with
  | Err e => if errors_Is e ErrResourceSchemaNotFound then Some workspaceRelations else None
  | Ok resource => schema_relations <$> rsr_schema resource
  end.

Lemma CalculateTuplesForResource_relations current previous key rels :
  relations_for (resourceType key) = Some rels ->
  CalculateTuplesForResource schemas current previous key
  = CalculateTuplesFromRelationDefs rels current previous key.
Proof.
  unfold relations_for, CalculateTuplesForResource. destruct (GetResourceSchema _ _) as [r|e].
  - destruct (rsr_schema r); [|done]. intros [= <-]. apply Schema_CalculateTuples_relations.
  - destruct (errors_Is _ _); [|done]. intros [= <-]. apply DefaultSchema_relation_defs.
Qed.

Definition diff_applied (rels : list RelationDef) (key : ReporterResourceKey)
    (cur prev : option Representations) (s : gset simpleTupleKey) : gset simpleTupleKey :=
  ((tuples_of rels cur key ∖ tuples_of rels prev key) ∪ s)
  ∖ (tuples_of rels prev key ∖ tuples_of rels cur key).

(** What the consumer keeps while it processes a message. *)
Definition same_but_relations i i' : Prop :=
  ic_DB i' = ic_DB i /\ ic_OffsetStorage i' = ic_OffsetStorage i
  /\ ic_Consumer i' = ic_Consumer i /\ ic_notified i' = ic_notified i
  /\ ic_lockId i' = ic_lockId i /\ ic_lockToken i' = ic_lockToken i
  /\ ic_shutdownInProgress i' = ic_shutdownInProgress i.

Lemma replicated_diff rels cur prev key ttr s :
  distinct_relations rels ->
  CalculateTuplesFromRelationDefs rels cur prev key = Ok ttr ->
  replicated ttr s = diff_applied rels key cur prev s.
Proof.
  intros Hd Hc. destruct (CalculateTuples_keys _ _ _ _ _ Hd Hc) as [Hk1 Hk2].
  unfold replicated, diff_applied. by rewrite Hk1, Hk2.
Qed.

(** The shape of the tuples of each operation. *)
Lemma operation_tuples op d key v cur prev rels ttr :
  distinct_relations rels ->
  fetchRepresentations op d key v = Ok (cur, prev) ->
  CalculateTuplesFromRelationDefs rels cur prev key = Ok ttr -> IsEmpty ttr = false ->
  (op = OperationTypeCreated -> tuplesToDelete ttr = None) /\
  (op = OperationTypeDeleted -> tuplesToCreate ttr = None /\ is_Some (tuplesToDelete ttr)).
Proof.
  intros Hd Hf Hc He. destruct (CalculateTuples_keys _ _ _ _ _ Hd Hc) as [Hk1 Hk2].
  destruct (CalculateTuples_slices _ _ _ _ _ Hc) as (cs & ds & Hcs & Hds).
  split; intros ->.
  - apply fetch_created in Hf as ->. rewrite tuples_of_None in Hk2. rewrite Hds in *.
    apply keys_of_slice_empty. rewrite Hk2. set_solver.
  - apply fetch_deleted in Hf as ->. rewrite tuples_of_None in Hk1. rewrite Hcs in *.
    assert (Hn : slice_ptr cs = None) by (apply keys_of_slice_empty; rewrite Hk1; set_solver).
    split; [done|]. rewrite Hds. unfold IsEmpty in He. rewrite Hcs, Hn, Hds in He.
    destruct ds; [done|]. simpl. eauto.
Qed.

(** The tuples on which two representations differ. *)
Definition changed (rels : list RelationDef) (key : ReporterResourceKey)
    (cur prev : option Representations) : gset simpleTupleKey :=
  (tuples_of rels cur key ∖ tuples_of rels prev key)
  ∪ (tuples_of rels prev key ∖ tuples_of rels cur key).

Lemma process_message fuel op msg i i' res ev cur prev rels :
  processRelationsOperation cfg schemas fuel op msg i = Some (i', res) ->
  ParseMessage (msg_Value msg) = Ok (Some ev) ->
  fetchRepresentations op (ic_DB i) (te_reporterResourceKey ev) (te_commonVersion ev)
    = Ok (cur, prev) ->
  relations_for (resourceType (te_reporterResourceKey ev)) = Some rels ->
  distinct_relations rels -> upserts (ic_Relations i) ->
  same_but_relations i i' /\ upserts (ic_Relations i') /\
  match res with
  | Ok _ => stored (ic_Relations i')
            = diff_applied rels (te_reporterResourceKey ev) cur prev (stored (ic_Relations i))
  | Err _ => stored (ic_Relations i') ∖ changed rels (te_reporterResourceKey ev) cur prev
             = stored (ic_Relations i) ∖ changed rels (te_reporterResourceKey ev) cur prev /\
             stored (ic_Relations i')
             ⊆ tuples_of rels cur (te_reporterResourceKey ev) ∪ stored (ic_Relations i)
  end.
Proof.
  intros Hp Hm Hf Hr Hd Hu. unfold processRelationsOperation in Hp. rewrite Hm, Hf in Hp.
  rewrite (CalculateTuplesForResource_relations _ _ _ _ Hr) in Hp.
  destruct (CalculateTuplesFromRelationDefs _ _ _ _) as [ttr|] eqn:Hc; [|simplify_eq; split_all; done || set_solver].
  destruct (CalculateTuples_keys _ _ _ _ _ Hd Hc) as [Hk1 Hk2].
  destruct (IsEmpty ttr) eqn:He.
  { simplify_eq. split; [by split_all|]. split; [done|]. apply IsEmpty_iff in He as [Hcs Hds].
    rewrite <- (replicated_diff _ _ _ _ _ _ Hd Hc). unfold replicated, keys_of.
    rewrite Hcs, Hds. simpl. set_solver. }
  destruct (operation_tuples _ _ _ _ _ _ _ _ Hd Hf Hc He) as [Hcr Hde].
  set (fc := {| fc_lockId := ic_lockId i; fc_lockToken := ic_lockToken i |}) in *.
  destruct (Retry _ _ _ _) as [[t r]|] eqn:Hre; [|done]. simplify_eq.
  split; [by split_all|]. change (ic_Relations (set_Relations i t)) with t.
  apply (retry_loop_ind _ _
    (fun t1 => upserts t1 /\ agree ttr (stored (ic_Relations i)) (stored t1))
    (fun t1 _ => upserts t1 /\ stored t1 = replicated ttr (stored (ic_Relations i)))) in Hre.
  - destruct res.
    + destruct Hre as [? Hre]. by rewrite Hre, (replicated_diff _ _ _ _ _ _ Hd Hc).
    + destruct Hre as [? Hag]. destruct Hag as [Hag Hsub]. rewrite Hk1, Hk2 in Hag.
      rewrite Hk1 in Hsub. split; [done|]. split; [done|set_solver].
  - intros t1 t2 e [Hu1 Hag] He1.
    apply executeSpiceDB_spec in He1 as [? He1]; [|eauto using CalculateTuples_namespaced..].
    split; [done|]. by eapply agree_trans.
  - intros t1 t2 r [Hu1 Hag] He1.
    apply executeSpiceDB_spec in He1 as [? He1]; [|eauto using CalculateTuples_namespaced..].
    split; [done|]. rewrite He1. symmetry. by apply replicated_agree.
  - split; [done|]. split; [done|set_solver].
Qed.

Lemma diff_applied_idem rels key cur prev s :
  diff_applied rels key cur prev (diff_applied rels key cur prev s)
  = diff_applied rels key cur prev s.
Proof.
  unfold diff_applied. generalize (tuples_of rels cur key) as C, (tuples_of rels prev key) as P.
  intros C P. apply set_eq. intros x.
  rewrite !elem_of_difference, !elem_of_union, !elem_of_difference, !elem_of_union,
    !elem_of_difference. destruct (decide (x ∈ C)), (decide (x ∈ P)); tauto.
Qed.

Lemma diff_applied_sync rels key cur prev s :
  tuples_of rels prev key ⊆ s ->
  tuples_of rels cur key ⊆ diff_applied rels key cur prev s
  /\ (forall k, k ∈ tuples_of rels prev key -> k ∈ diff_applied rels key cur prev s ->
        k ∈ tuples_of rels cur key)
  /\ (forall k, k ∉ tuples_of rels cur key -> k ∉ tuples_of rels prev key ->
        k ∈ diff_applied rels key cur prev s <-> k ∈ s).
Proof.
  unfold diff_applied. generalize (tuples_of rels cur key) as C, (tuples_of rels prev key) as P.
  intros C P Hs. split_all.
  - intros x Hx. specialize (Hs x). rewrite elem_of_difference, elem_of_union, !elem_of_difference.
    destruct (decide (x ∈ P)); tauto.
  - intros x Hp. rewrite elem_of_difference, elem_of_union, !elem_of_difference.
    destruct (decide (x ∈ C)); tauto.
  - intros x Hc Hp. rewrite elem_of_difference, elem_of_union, !elem_of_difference. tauto.
Qed.

(** C6. A message the consumer processes moves the tuple store from the
    previous representation of the resource to the current one.  If the store
    held the tuples of the previous representation, it now holds those of the
    current one, none that only the previous one had, and every other tuple is
    as before; this holds however many attempts failed half-way.  A message
    that fails for good touches no tuple of another resource.  Neither changes
    the inventory database or the offsets. *)
Theorem message_replicates fuel op msg i i' res ev cur prev rels :
  processRelationsOperation cfg schemas fuel op msg i = Some (i', res) ->
  ParseMessage (msg_Value msg) = Ok (Some ev) ->
  fetchRepresentations op (ic_DB i) (te_reporterResourceKey ev) (te_commonVersion ev)
    = Ok (cur, prev) ->
  relations_for (resourceType (te_reporterResourceKey ev)) = Some rels ->
  distinct_relations rels -> upserts (ic_Relations i) ->
  let C := tuples_of rels cur (te_reporterResourceKey ev) in
  let P := tuples_of rels prev (te_reporterResourceKey ev) in
  same_but_relations i i'
  /\ (forall k, k ∉ C -> k ∉ P ->
        k ∈ stored (ic_Relations i') <-> k ∈ stored (ic_Relations i))
  /\ (is_ok res = true -> P ⊆ stored (ic_Relations i) ->
        C ⊆ stored (ic_Relations i')
        /\ forall k, k ∈ P -> k ∈ stored (ic_Relations i') -> k ∈ C).
Proof.
  intros Hp Hm Hf Hr Hd Hu C P.
  destruct (process_message _ _ _ _ _ _ _ _ _ _ Hp Hm Hf Hr Hd Hu) as (Hsame & _ & Hres).
  split; [done|]. destruct res as [tok|e]; fold C P in Hres.
  - rewrite Hres. split.
    + intros k Hc Hp'. unfold diff_applied. fold C P.
      rewrite elem_of_difference, elem_of_union, !elem_of_difference. tauto.
    + intros _ Hs. by destruct (diff_applied_sync rels (te_reporterResourceKey ev) cur prev _ Hs)
        as (H1' & H2' & _).
  - split; [|done]. intros k Hc Hp'.
    assert (Hk : k ∈ stored (ic_Relations i') ∖ changed rels (te_reporterResourceKey ev) cur prev
      <-> k ∈ stored (ic_Relations i) ∖ changed rels (te_reporterResourceKey ev) cur prev)
      by (by rewrite (proj1 Hres)).
    unfold changed in Hk. fold C P in Hk.
    rewrite !elem_of_difference, !elem_of_union, !elem_of_difference in Hk. tauto.
Qed.

(** Delivery is at least once, and a message delivered again after it was
    processed changes nothing in the tuple store. *)
Theorem redelivery_idempotent fuel op msg i i1 i2 r1 r2 ev cur prev rels :
  processRelationsOperation cfg schemas fuel op msg i = Some (i1, Ok r1) ->
  processRelationsOperation cfg schemas fuel op msg i1 = Some (i2, Ok r2) ->
  ParseMessage (msg_Value msg) = Ok (Some ev) ->
  fetchRepresentations op (ic_DB i) (te_reporterResourceKey ev) (te_commonVersion ev)
    = Ok (cur, prev) ->
  relations_for (resourceType (te_reporterResourceKey ev)) = Some rels ->
  distinct_relations rels -> upserts (ic_Relations i) -> upserts (ic_Relations i1) ->
  stored (ic_Relations i2) = stored (ic_Relations i1).
Proof.
  intros Hp1 Hp2 Hm Hf Hr Hd Hu Hu1.
  destruct (process_message _ _ _ _ _ _ _ _ _ _ Hp1 Hm Hf Hr Hd Hu) as ([Hdb _] & _ & Hs1).
  rewrite <- Hdb in Hf.
  destruct (process_message _ _ _ _ _ _ _ _ _ _ Hp2 Hm Hf Hr Hd Hu1) as (_ & _ & Hs2).
  rewrite Hs2, Hs1. apply diff_applied_idem.
Qed.
End OneMessage.

(** The message of the example: the host moves from workspace w1 to w2, the
    first attempt of the backend works. *)
Definition ex_before : InventoryConsumer Tables ex_relations ex_kafka :=
  ex_consumer (rel_CreateTuples [ex_tuple "w1"] true None ex_no_tuples).1.

Definition ex_run (i : InventoryConsumer Tables ex_relations ex_kafka)
    : option (InventoryConsumer Tables ex_relations ex_kafka * result string) :=
  processRelationsOperation ex_config ex_schemas 5 OperationTypeUpdated ex_update_message i.

Definition succeeds {A} (r : option (A * result string)) : bool :=
  match r with Some (_, Ok _) => true | _ => false end.

Lemma ex_run_succeeds : succeeds (ex_run ex_before) = true.
Proof. vm_compute. reflexivity. Qed.

Definition ex_reps (v : Z) (ws : string) : option Representations :=
  Some {| commonData := ex_workspace ws; commonVersion := Some v;
          reporterData := None; reporterRepresentationVersion := None |}.

Lemma ex_fetch :
  fetchRepresentations OperationTypeUpdated ex_moved_host ex_host_key (Some 1%Z)
  = Ok (ex_reps 1 "w2", ex_reps 0 "w1").
Proof. vm_compute. reflexivity. Qed.

Lemma message_replicates_witness :
  exists i' tok, ex_run ex_before = Some (i', Ok tok)
    /\ tkey (ex_tuple "w2") ∈ stored (ic_Relations i')
    /\ tkey (ex_tuple "w1") ∉ stored (ic_Relations i').
Proof.
  pose proof ex_run_succeeds as Hok.
  destruct (ex_run ex_before) as [[i' [tok|e]]|] eqn:Hp; [|discriminate Hok..].
  exists i', tok. split; [done|]. unfold ex_run in Hp.
  destruct (message_replicates (D := Tables) (T := ex_relations)
              ex_config ex_schemas 5 OperationTypeUpdated ex_update_message
              ex_before i' (Ok tok) ex_update_event (ex_reps 1 "w2") (ex_reps 0 "w1")
              workspaceRelations Hp)
    as (_ & _ & H); [reflexivity|exact ex_fetch|reflexivity| | |].
  - apply (bool_decide_unpack _). vm_compute. exact I.
  - done.
  - destruct H as [H1 H2]; [reflexivity| |].
    + apply (bool_decide_unpack _). vm_compute. exact I.
    + split.
      * apply H1. apply (bool_decide_unpack _). vm_compute. exact I.
      * intros Hin. apply (H2 (tkey (ex_tuple "w1"))) in Hin.
        -- revert Hin. apply (bool_decide_unpack (~ _)). vm_compute. exact I.
        -- apply (bool_decide_unpack _). vm_compute. exact I.
Defined.

Definition ex_after : InventoryConsumer Tables ex_relations ex_kafka :=
  match ex_run ex_before with Some (i, _) => i | None => ex_before end.

Lemma ex_rerun_succeeds : succeeds (ex_run ex_after) = true.
Proof. vm_compute. reflexivity. Qed.

Lemma ex_after_upserts : upserts (ic_Relations ex_after).
Proof. done. Qed.

Lemma redelivery_idempotent_witness :
  exists i1 i2 r1 r2, ex_run ex_before = Some (i1, Ok r1) /\ ex_run i1 = Some (i2, Ok r2)
    /\ stored (ic_Relations i2) = stored (ic_Relations i1).
Proof.
  pose proof ex_run_succeeds as Hok1. pose proof ex_rerun_succeeds as Hok2.
  destruct (ex_run ex_before) as [[i1 [r1|]]|] eqn:Hp1; [|discriminate Hok1..].
  assert (Hi : i1 = ex_after) by (unfold ex_after; by rewrite Hp1). subst i1.
  destruct (ex_run ex_after) as [[i2 [r2|]]|] eqn:Hp2; [|discriminate Hok2..].
  exists ex_after, i2, r1, r2. split; [done|]. split; [done|].
  unfold ex_run in Hp1, Hp2.
  apply (redelivery_idempotent (D := Tables) (T := ex_relations)
           ex_config ex_schemas 5 OperationTypeUpdated ex_update_message
           ex_before ex_after i2 r1 r2 ex_update_event (ex_reps 1 "w2") (ex_reps 0 "w1")
           workspaceRelations Hp1 Hp2);
    [reflexivity|exact ex_fetch|reflexivity| | |].
  - apply (bool_decide_unpack _). vm_compute. exact I.
  - done.
  - apply ex_after_upserts.
Defined.
