(* ===== verification/StoreInv.v ===== *)
(** [Save] as one update of the four tables, and the condition on the rows it
    writes under which the invariant [db_wf] of StoreProps.v is kept and no
    unique index but the one on the transaction id can refuse it. *)
From stdpp Require Import base tactics list strings gmap sorting.
From Stdlib Require Import ZArith Lia Ascii.
From S2P Require Import Prelude GoStrings Common ReporterResource Representations Resource.
From S2P Require Import ResourceProps Json DataModel Outbox Store StoreProps.

Local Open Scope string_scope.

(** * The rows of a resource *)

Record rows := {
  ro_resource : ResourceRow;
  ro_reporter : ReporterResourceRow;
  ro_representation : option ReporterRepresentationRow;
  ro_common : option CommonRepresentationRow;
}.

Definition rows_of (now : time) (r : Resource) : rows :=
  let '(s1, s2, s3, s4) := Resource_Serialize now r in
  {| ro_resource := DeserializeResourceFromSnapshot s1;
     ro_reporter := DeserializeReporterResourceFromSnapshot s2;
     ro_representation := DeserializeReporterRepresentationFromSnapshot <$> s3;
     ro_common := DeserializeCommonRepresentationFromSnapshot <$> s4 |}.

Definition option_cons {A} (x : option A) (l : list A) : list A :=
  match x with Some x => x :: l | None => l end.

Lemma elem_of_option_cons {A} (x : option A) l y :
  y ∈ option_cons x l <-> x = Some y \/ y ∈ l.
Proof. destruct x; simpl; rewrite ?elem_of_cons; naive_solver. Qed.

Section Written.
Context {D : Type} `{GormDB D} `{OutboxLib} `{!GormLaws D}.

(** The tables before and after a [Save] of the rows [w]. *)
Record written (w : rows) (d d' : D) : Prop := {
  wr_resource : exists row', same_resource (ro_resource w) row' /\
    upserted rw_ID (rw_ID (ro_resource w)) row' (resource_rows d) (resource_rows d');
  wr_reporter : exists row', same_reporter_resource (ro_reporter w) row' /\
    upserted rrw_ID (rrw_ID (ro_reporter w)) row' (reporter_resource_rows d)
      (reporter_resource_rows d');
  wr_representation :
    reporter_representation_rows d'
      ≡ₚ option_cons (ro_representation w) (reporter_representation_rows d);
  wr_common :
    common_representation_rows d' ≡ₚ option_cons (ro_common w) (common_representation_rows d);
  wr_range : bigint (rrw_RepresentationVersion (ro_reporter w))
    /\ bigint (rrw_Generation (ro_reporter w));
  wr_common_range : forall c, ro_common w = Some c -> bigint (cw_Version c);
}.

Lemma frame_emitted_trans d1 d2 d3 :
  frame_emitted d1 d2 -> frame_emitted d2 d3 -> frame_emitted d1 d3.
Proof.
  intros (E1 & E2 & E3 & E4) (F1 & F2 & F3 & F4). unfold frame_emitted. by rewrite F1, F2, F3, F4.
Qed.

Lemma outboxPublisher_frame mode v7 ev (d d' : D) :
  outboxPublisher mode v7 ev d = Ok d' -> frame_emitted d d'.
Proof.
  unfold outboxPublisher. case_bool_decide; [|by intros [= <-]]. intros Hp. inv_ok Hp.
  by apply wrap_err_ok, emit_message_ok in Hp as [? _].
Qed.

Lemma handleOutboxEvents_frame e ev op txid (d d' : D) :
  handleOutboxEvents e ev op txid d = Ok d' -> frame_emitted d d'.
Proof.
  unfold handleOutboxEvents. intros Hp. inv_ok Hp.
  eapply frame_emitted_trans; eapply outboxPublisher_frame; done.
Qed.

Lemma create_error_ok msg {A} (m : result A) a : create_error msg m = Ok a -> m = Ok a.
Proof. unfold create_error. destruct m as [|err]; [done|]. by destruct (errors_Is _ _). Qed.

(** The two inserts of [Save]. *)
Lemma create_representation_opt s (d d' : D) :
  match s with
  | None => Ok d
  | Some s => create_error "failed to save reporter representation"
      (create_reporter_representation (DeserializeReporterRepresentationFromSnapshot s) d)
  end = Ok d' ->
  frame_reporter_representations d d' /\
  reporter_representation_rows d' ≡ₚ
    option_cons (DeserializeReporterRepresentationFromSnapshot <$> s)
      (reporter_representation_rows d).
Proof.
  destruct s as [s|]; [|by intros [= <-]]. intros Hc%create_error_ok.
  by apply create_reporter_representation_ok in Hc as (? & _ & _ & ? & _).
Qed.

Lemma create_common_opt s (d d' : D) :
  match s with
  | None => Ok d
  | Some s => create_error "failed to save common representation"
      (create_common_representation (DeserializeCommonRepresentationFromSnapshot s) d)
  end = Ok d' ->
  frame_common_representations d d' /\
  common_representation_rows d' ≡ₚ
    option_cons (DeserializeCommonRepresentationFromSnapshot <$> s)
      (common_representation_rows d) /\
  forall c, DeserializeCommonRepresentationFromSnapshot <$> s = Some c -> bigint (cw_Version c).
Proof.
  destruct s as [s|]; [|by intros [= <-]]. intros Hc%create_error_ok.
  apply create_common_representation_ok in Hc as (? & ? & ? & _).
  split_all; [done..|]. by intros c [= <-].
Qed.

(** The last part of [Save] only emits messages. *)
Lemma outbox_part_frame e r op txid (d d' : D) :
  match op with
  | OperationTypeDeleted =>
      match r_resourceDeleteEvents r with
      | [] => Ok d
      | de :: _ => handleOutboxEvents e (DeleteEvent de) op txid d
      end
  | _ =>
      match r_resourceReportEvents r with
      | [] => Err (EPanic "index out of range [0] with length 0")
      | re :: _ => handleOutboxEvents e (ReportEvent re) op txid d
      end
  end = Ok d' -> frame_emitted d d'.
Proof.
  destruct op, (r_resourceDeleteEvents r), (r_resourceReportEvents r); try done;
    try (by intros [= <-]); apply handleOutboxEvents_frame.
Qed.

Lemma Save_written e r op txid (d d' : D) :
  Save e r op txid d = Ok d' -> written (rows_of (env_now e) r) d d'.
Proof.
  unfold Save, rows_of. destruct (Resource_Serialize _ _) as [[[s1 s2] s3] s4]. intros Hs.
  destruct (wrap_err "failed to save resource" _) as [d1|] eqn:E1; [|done].
  destruct (wrap_err "failed to save reporter resource" _) as [d2|] eqn:E2; [|done].
  match type of Hs with match ?m with _ => _ end = _ => destruct m as [d3|] eqn:E3; [|done] end.
  match type of Hs with match ?m with _ => _ end = _ => destruct m as [d4|] eqn:E4; [|done] end.
  apply wrap_err_ok, save_resource_ok in E1 as ((F11 & F12 & F13 & _) & _ & row1 & S1 & U1).
  apply wrap_err_ok, save_reporter_resource_ok in E2
    as ((F21 & F22 & F23 & _) & B1 & B2 & _ & row2 & S2 & U2).
  apply create_representation_opt in E3 as ((F31 & F32 & F33 & _) & P3).
  apply create_common_opt in E4 as ((F41 & F42 & F43 & _) & P4 & B4).
  apply outbox_part_frame in Hs as (F51 & F52 & F53 & F54).
  split; simpl; try done.
  - exists row1. split; [done|]. split; [symmetry; apply S1|].
    by rewrite F51, F41, F31, F21.
  - exists row2. split; [done|]. split; [symmetry; apply S2|].
    by rewrite F52, F42, F32, U2, F11.
  - by rewrite F53, F43, P3, F22, F12.
  - by rewrite F54, P4, F33, F23, F13.
Qed.

(** * Rows that fit the tables *)

Definition next_version (last : option Z) : Z :=
  match last with Some l => (l + 1)%Z | None => 0%Z end.

(** The rows continue the history of their resource: they belong to its only
    reporter row or to a fresh one, move it forward, and carry the next common
    version. *)
Record admissible (d : D) (w : rows) : Prop := {
  ad_resource : rrw_ResourceID (ro_reporter w) = rw_ID (ro_resource w);
  ad_same : forall r, r ∈ reporter_resource_rows d ->
    rrw_ID r = rrw_ID (ro_reporter w) <-> rrw_ResourceID r = rw_ID (ro_resource w);
  ad_key : forall r, r ∈ reporter_resource_rows d ->
    rrw_key r = rrw_key (ro_reporter w) -> rrw_ID r = rrw_ID (ro_reporter w);
  ad_pos : forall r, r ∈ reporter_resource_rows d -> rrw_ID r = rrw_ID (ro_reporter w) ->
    pos_le (rrw_Generation r) (rrw_RepresentationVersion r)
      (rrw_Generation (ro_reporter w)) (rrw_RepresentationVersion (ro_reporter w));
  ad_representation : forall p, ro_representation w = Some p ->
    rpw_key p = (rrw_ID (ro_reporter w), rrw_RepresentationVersion (ro_reporter w),
                 rrw_Generation (ro_reporter w)) /\
    forall r, r ∈ reporter_resource_rows d -> rrw_ID r = rrw_ID (ro_reporter w) ->
      pos_lt (rrw_Generation r) (rrw_RepresentationVersion r)
        (rrw_Generation (ro_reporter w)) (rrw_RepresentationVersion (ro_reporter w));
  ad_common : forall c, ro_common w = Some c ->
    cw_ResourceId c = rw_ID (ro_resource w) /\ has_data (Some (cw_Data c)) = true /\
    cw_Version c = next_version (last_common_version d (rw_ID (ro_resource w))) /\
    rw_CommonVersion (ro_resource w) = Some (cw_Version c);
  ad_no_common : ro_common w = None -> forall v, rw_CommonVersion (ro_resource w) = Some v ->
    last_common_version d (rw_ID (ro_resource w)) = Some v;
}.

Lemma written_common_at w (d d' : D) id v : written w d d' ->
  common_at d' id v <->
  common_at d id v \/ exists c, ro_common w = Some c /\ cw_ResourceId c = id /\ cw_Version c = v.
Proof.
  intros Hw. unfold common_at. setoid_rewrite (wr_common _ _ _ Hw).
  setoid_rewrite elem_of_option_cons. naive_solver.
Qed.

Lemma last_common_version_ext (d d' : D) id :
  (forall v, common_at d' id v <-> common_at d id v) ->
  last_common_version d' id = last_common_version d id.
Proof.
  intros Heq. destruct (last_common_version d id) as [m|] eqn:E.
  - apply last_common_version_Some in E as [? ?]. apply last_common_version_Some.
    setoid_rewrite Heq. done.
  - rewrite last_common_version_None in *. by setoid_rewrite Heq.
Qed.

(** The next version is above every version there is. *)
Lemma next_version_above (d : D) id v :
  common_at d id v -> (v < next_version (last_common_version d id))%Z.
Proof.
  intros Hc. destruct (last_common_version d id) as [m|] eqn:E; simpl.
  - apply last_common_version_Some in E as [_ Hm]. specialize (Hm v Hc). lia.
  - by apply last_common_version_None with (v := v) in E.
Qed.

Lemma written_last_other w (d d' : D) id : written w d d' -> admissible d w ->
  id <> rw_ID (ro_resource w) -> last_common_version d' id = last_common_version d id.
Proof.
  intros Hw Ha Hid. apply last_common_version_ext. intros v.
  rewrite (written_common_at _ _ _ _ _ Hw). split; [|by left].
  intros [?|(c & Hc & <- & _)]; [done|]. by destruct Hid; apply (ad_common _ _ Ha).
Qed.

Lemma written_last_same w (d d' : D) : written w d d' -> admissible d w ->
  last_common_version d' (rw_ID (ro_resource w)) =
  match ro_common w with
  | Some c => Some (cw_Version c)
  | None => last_common_version d (rw_ID (ro_resource w))
  end.
Proof.
  intros Hw Ha. destruct (ro_common w) as [c|] eqn:Hc.
  - destruct (ad_common _ _ Ha _ Hc) as (Hid & _ & Hv & _).
    apply last_common_version_Some. setoid_rewrite (written_common_at _ _ _ _ _ Hw).
    split; [right; by exists c|]. intros v [Hat%next_version_above|(c' & Hc' & _ & <-)]; [lia|].
    by simplify_eq.
  - apply last_common_version_ext. intros v. rewrite (written_common_at _ _ _ _ _ Hw), Hc.
    naive_solver.
Qed.

(** ** The parts of the invariant *)

Lemma written_contiguous w (d d' : D) : written w d d' -> admissible d w -> db_wf d ->
  forall id v x, common_at d' id v -> (0 <= x <= v)%Z -> common_at d' id x.
Proof.
  intros Hw Ha Hwf id v x. rewrite !(written_common_at _ _ _ _ _ Hw).
  intros [Hat|(c & Hc & <- & <-)] Hx; [left; by eapply wf_common_contiguous|].
  destruct (ad_common _ _ Ha _ Hc) as (Hid & _ & Hv & _).
  destruct (decide (x = cw_Version c)) as [->|Hne]; [right; by exists c|left].
  rewrite Hid. destruct (last_common_version d _) as [l|] eqn:E; simpl in Hv; [|lia].
  apply last_common_version_Some in E as [E _]. eapply wf_common_contiguous; [done|done|lia].
Qed.

Lemma written_common_key w (d d' : D) : written w d d' -> admissible d w -> db_wf d ->
  distinct_on cw_key (common_representation_rows d').
Proof.
  intros Hw Ha Hwf.
  assert (Hnew : forall c x, ro_common w = Some c -> x ∈ common_representation_rows d ->
                             cw_key x <> cw_key c).
  { intros c x Hc Hx [= E1 E2]. destruct (ad_common _ _ Ha _ Hc) as (Hid & _ & Hv & _).
    assert (Hat : common_at d (rw_ID (ro_resource w)) (cw_Version x))
      by (exists x; split_all; congruence).
    apply next_version_above in Hat. lia. }
  intros a b. rewrite (wr_common _ _ _ Hw), !elem_of_option_cons.
  intros [Ha'|Ha'] [Hb|Hb] E; [by simplify_eq|by edestruct Hnew|by edestruct Hnew|].
  by apply (wf_common_key _ Hwf).
Qed.

Lemma written_version w (d d' : D) : written w d d' -> admissible d w -> db_wf d ->
  forall res v, res ∈ resource_rows d' -> rw_CommonVersion res = Some v ->
    last_common_version d' (rw_ID res) = Some v.
Proof.
  intros Hw Ha Hwf res v. destruct (wr_resource _ _ _ Hw) as (row & (Hid & _ & Hcv & _) & Hu).
  rewrite (upserted_elem _ _ _ _ _ _ Hu). intros [->|[Hin Hne]] Hv.
  - rewrite <- Hid, (written_last_same _ _ _ Hw Ha). rewrite <- Hcv in Hv.
    destruct (ro_common w) as [c|] eqn:Hc; [|by apply (ad_no_common _ _ Ha)].
    rewrite <- Hv. symmetry. by apply (ad_common _ _ Ha).
  - rewrite (written_last_other _ _ _ _ Hw Ha Hne). by eapply wf_version.
Qed.

Lemma written_representation w (d d' : D) : written w d d' -> admissible d w -> db_wf d ->
  forall p, p ∈ reporter_representation_rows d' ->
  exists r, r ∈ reporter_resource_rows d' /\ rrw_ID r = rpw_ReporterResourceID p /\
    pos_le (rpw_Generation p) (rpw_Version p) (rrw_Generation r) (rrw_RepresentationVersion r).
Proof.
  intros Hw Ha Hwf p.
  destruct (wr_reporter _ _ _ Hw) as (row & (I & _ & _ & _ & _ & _ & _ & _ & V & G & _) & Hu).
  rewrite (wr_representation _ _ _ Hw), elem_of_option_cons.
  setoid_rewrite (upserted_elem _ _ _ _ _ _ Hu). intros [Hp|Hp].
  - apply (ad_representation _ _ Ha) in Hp as [Hk _]. unfold rpw_key in Hk. simplify_eq.
    exists row. split; [by left|]. split; [congruence|]. unfold pos_le. lia.
  - apply (wf_representation _ Hwf) in Hp as (r & Hr & <- & Hle).
    destruct (decide (rrw_ID r = rrw_ID (ro_reporter w))) as [E|E]; [|by exists r; auto].
    exists row. split; [by left|]. split; [congruence|].
    pose proof (ad_pos _ _ Ha r Hr E). unfold pos_le in *. lia.
Qed.

Lemma written_wf w (d d' : D) : written w d d' -> admissible d w -> db_wf d -> db_wf d'.
Proof.
  intros Hw Ha Hwf.
  destruct (wr_resource _ _ _ Hw) as (row1 & S1 & U1).
  destruct (wr_reporter _ _ _ Hw) as (row2 & S2 & U2).
  assert (Hrid : rrw_ResourceID row2 = rw_ID row1).
  { destruct S1 as (<- & _), S2 as (_ & _ & _ & _ & _ & <- & _). apply Ha. }
  split.
  - eapply upserted_NoDup; [exact U1|apply Hwf].
  - eapply upserted_distinct; [exact U2|apply Hwf|]. intros y _ ->. by destruct S2 as (<- & _).
  - eapply upserted_distinct; [exact U2|apply Hwf|]. intros y Hy E. apply (ad_key _ _ Ha); [done|].
    rewrite E. unfold rrw_key. by destruct S2 as (_ & -> & -> & -> & -> & _).
  - eapply upserted_distinct; [exact U2|apply Hwf|]. intros y Hy E. apply (ad_same _ _ Ha); [done|].
    rewrite E, Hrid. by destruct S1 as (<- & _).
  - intros r. setoid_rewrite (upserted_elem _ _ _ _ _ _ U1).
    rewrite (upserted_elem _ _ _ _ _ _ U2). intros [->|[Hr Hne]]; [by exists row1; auto|].
    apply (wf_rr_parent _ Hwf) in Hr as Hp. destruct Hp as (res & Hin & E). exists res.
    split; [|done]. right. split; [done|]. rewrite E. by rewrite <- (ad_same _ _ Ha).
  - intros r. rewrite (upserted_elem _ _ _ _ _ _ U2). intros [->|[Hr _]]; [|by apply Hwf].
    destruct S2 as (_ & _ & _ & _ & _ & _ & _ & _ & <- & <- & _). apply Hw.
  - by apply (written_representation w d).
  - intros c. rewrite (wr_common _ _ _ Hw), elem_of_option_cons.
    setoid_rewrite (upserted_elem _ _ _ _ _ _ U1). intros [Hc|Hc].
    + apply (ad_common _ _ Ha) in Hc as (-> & _). exists row1. destruct S1 as (<- & _). auto.
    + apply (wf_common_parent _ Hwf) in Hc as (res & Hin & <-).
      destruct (decide (rw_ID res = rw_ID (ro_resource w))) as [->|]; [|by exists res; auto].
      exists row1. destruct S1 as (<- & _). auto.
  - intros c. rewrite (wr_common _ _ _ Hw), elem_of_option_cons.
    intros [Hc|Hc]; [by apply (wr_common_range _ _ _ Hw)|by apply Hwf].
  - intros c. rewrite (wr_common _ _ _ Hw), elem_of_option_cons.
    intros [Hc|Hc]; [by apply (ad_common _ _ Ha)|by apply Hwf].
  - by apply (written_common_key w d).
  - by apply (written_contiguous w d).
  - by apply (written_version w d).
Qed.

(** Rows that fit meet no unique index but the one on transaction ids. *)
Lemma admissible_no_clash w (d : D) : admissible d w -> db_wf d ->
  (forall r, r ∈ reporter_resource_rows d -> ~ rrw_conflict (ro_reporter w) r) /\
  (forall p r, ro_representation w = Some p -> r ∈ reporter_representation_rows d ->
     rpw_conflict p r -> txid_clash (rpw_TransactionId p) (rpw_TransactionId r)) /\
  (forall c r, ro_common w = Some c -> r ∈ common_representation_rows d ->
     cw_conflict c r -> txid_clash (cw_TransactionId c) (cw_TransactionId r)).
Proof.
  intros Ha Hwf. split_all.
  - intros r Hr [Hne Hidx]. apply Hne, (ad_key _ _ Ha _ Hr). unfold rrw_index, rrw_key in *.
    congruence.
  - intros p r Hp Hr [Hk|?]; [exfalso|done].
    destruct (ad_representation _ _ Ha _ Hp) as [Hkp Hlt]. rewrite Hkp in Hk.
    unfold rpw_key in Hk. simplify_eq.
    destruct (wf_representation _ Hwf r Hr) as (rr & Hin & Hid & Hle).
    specialize (Hlt rr Hin ltac:(congruence)). unfold pos_le, pos_lt in *. lia.
  - intros c r Hc Hr [Hk|?]; [exfalso|done].
    destruct (ad_common _ _ Ha _ Hc) as (Hid & _ & Hv & _). injection Hk as Hk1 Hk2.
    assert (Hat : common_at d (rw_ID (ro_resource w)) (cw_Version r)).
    { exists r. split_all; congruence. }
    apply next_version_above in Hat. lia.
Qed.

(** * Finding a resource *)

Definition rr_of_row (d : D) (row : ReporterResourceRow) (res : ResourceRow) : ReporterResource :=
  DeserializeReporterResource (ToSnapshots (join_result d row res)).2.

Lemma key_rows_elem (d : D) key row :
  row ∈ key_rows d key <->
  row ∈ reporter_resource_rows d /\ buildReporterResourceKeyQuery key row = true.
Proof. unfold key_rows. by rewrite !list_elem_of_In, filter_In. Qed.

Lemma joined_results_elem (d : D) key x : db_wf d ->
  x ∈ joined_results d key <-> exists row res, row ∈ reporter_resource_rows d /\
    buildReporterResourceKeyQuery key row = true /\ res ∈ resource_rows d /\
    rw_ID res = rrw_ResourceID row /\ x = join_result d row res.
Proof.
  intros Hwf. unfold joined_results. rewrite list_elem_of_bind.
  setoid_rewrite list_elem_of_bind. setoid_rewrite list_elem_of_bind.
  setoid_rewrite list_elem_of_filter. setoid_rewrite list_elem_of_singleton.
  setoid_rewrite key_rows_elem. split.
  - intros (row & (row2 & (res & -> & Hid & Hres) & Hsame & Hrow2) & Hrow & Hq).
    assert (row2 = row) as -> by (by apply (wf_rr_resource _ Hwf)). by exists row, res.
  - intros (row & res & Hrow & Hq & Hres & Hid & ->). exists row. split; [|done].
    exists row. split; [|done]. by exists res.
Qed.

(** The resource [FindResourceByKeys] returns: its first reporter resource is
    a row the query selects, and the resource is the one of that row. *)
Record found (d : D) (key : ReporterResourceKey) (r : Resource) (row : ReporterResourceRow)
    (res : ResourceRow) : Prop := {
  fo_row : row ∈ reporter_resource_rows d;
  fo_query : buildReporterResourceKeyQuery key row = true;
  fo_res : res ∈ resource_rows d;
  fo_parent : rw_ID res = rrw_ResourceID row;
  fo_id : r_id r = rw_ID res;
  fo_type : r_resourceType r = rrw_ResourceType row;
  fo_cv : r_commonVersion r = rw_CommonVersion res;
  fo_last : r_lastCommonVersion r = last_common_version d (rw_ID res);
  fo_token : r_consistencyToken r = rw_ConsistencyToken res;
  fo_reporters : exists rest, r_reporterResources r = rr_of_row d row res :: rest;
  fo_events : exists t1 t2, r_resourceReportEvents r = [DeserializeResourceEvent None None t1 t2];
  fo_deletes : r_resourceDeleteEvents r = [];
}.

(** The order of the query on the rows. *)
Definition row_before (a b : ReporterResourceRow) : Prop :=
  ((if rrw_Tombstone a then 1 else 0) < (if rrw_Tombstone b then 1 else 0) \/
   rrw_Tombstone a = rrw_Tombstone b /\
   (rrw_RepresentationVersion b < rrw_RepresentationVersion a \/
    rrw_RepresentationVersion a = rrw_RepresentationVersion b /\
    rrw_Generation b <= rrw_Generation a))%Z.

Lemma result_before_rows (d : D) row1 res1 row2 res2 :
  result_before (join_result d row1 res1) (join_result d row2 res2) <-> row_before row1 row2.
Proof.
  unfold result_before, row_before. simpl. destruct (rrw_Tombstone row1), (rrw_Tombstone row2);
    split; intros Hb; simpl in *; try lia; destruct Hb as [?|[? ?]]; try lia; try done;
    right; (split; [done|lia]).
Qed.

#[local] Instance result_before_total : Total result_before.
Proof. intros a b. unfold result_before. lia. Qed.

#[local] Instance result_before_trans : Transitive result_before.
Proof. intros a b c. unfold result_before. lia. Qed.

(** The row it answers with is first in the order of the query. *)
Lemma FindResourceByKeys_first (d : D) key r : db_wf d ->
  FindResourceByKeys d key = Ok r -> exists row res, found d key r row res /\
    forall row', row' ∈ key_rows d key -> row_before row row'.
Proof.
  intros Hwf. unfold FindResourceByKeys. destruct (query_error d); [done|].
  destruct (merge_sort result_before (joined_results d key)) as [|x xs] eqn:E; [done|].
  assert (Hx : x ∈ joined_results d key).
  { rewrite <- (merge_sort_Permutation result_before), E. by left. }
  apply joined_results_elem in Hx as (row & res & Hrow & Hq & Hres & Hid & ->); [|done].
  intros [= <-]. exists row, res. split; [split; try done; simpl; eauto|].
  intros row' [Hrow' Hq']%key_rows_elem. destruct (wf_rr_parent _ Hwf _ Hrow') as (res' & Hres' & Hid').
  apply (result_before_rows d row res row' res').
  assert (Hin : join_result d row' res' ∈ joined_results d key)
    by (apply joined_results_elem; [done|]; by exists row', res').
  rewrite <- (merge_sort_Permutation result_before), E, elem_of_cons in Hin.
  destruct Hin as [->|Hin]; [unfold result_before; lia|].
  assert (Hs := StronglySorted_merge_sort result_before (joined_results d key)). rewrite E in Hs.
  apply StronglySorted_inv in Hs as [_ Hs]. rewrite Forall_forall in Hs. by apply Hs.
Qed.

Lemma FindResourceByKeys_Ok (d : D) key r : db_wf d ->
  FindResourceByKeys d key = Ok r -> exists row res, found d key r row res.
Proof.
  intros Hwf Hf. destruct (FindResourceByKeys_first _ _ _ Hwf Hf) as (row & res & Hr & _). eauto.
Qed.

(** It carries no event of its own, with or without the invariant. *)
Lemma FindResourceByKeys_events (d : D) key r : FindResourceByKeys d key = Ok r ->
  r_resourceDeleteEvents r = [] /\
  exists t1 t2, r_resourceReportEvents r = [DeserializeResourceEvent None None t1 t2].
Proof.
  unfold FindResourceByKeys. destruct (query_error d); [done|].
  destruct (merge_sort _ _); simpl; [done|]. intros [= <-]. simpl. eauto.
Qed.

Lemma FindResourceByKeys_not_found (d : D) key err : db_wf d ->
  FindResourceByKeys d key = Err err -> errors_Is err ErrRecordNotFound ->
  forall row, row ∈ reporter_resource_rows d -> buildReporterResourceKeyQuery key row = false.
Proof.
  intros Hwf. unfold FindResourceByKeys. destruct (query_error d) as [e|] eqn:Hq.
  { intros [= <-]. apply query_plain in Hq as [_ Hq]. simpl. by rewrite Hq. }
  destruct (merge_sort result_before (joined_results d key)) as [|x xs] eqn:E; [|done].
  intros _ _ row Hrow. apply not_true_is_false. intros Hb.
  destruct (wf_rr_parent _ Hwf row Hrow) as (res & Hres & Hid).
  assert (Hx : join_result d row res ∈ joined_results d key)
    by (apply joined_results_elem; [done|]; by exists row, res).
  rewrite <- (merge_sort_Permutation result_before), E in Hx. by apply not_elem_of_nil in Hx.
Qed.

(** ** The consistency token of a resource *)

Lemma update_ktn_wf id tok (d d' : D) : update_ktn id tok d = Ok d' -> db_wf d -> db_wf d'.
Proof.
  intros ((F1 & F2 & F3 & _) & rows & Hp & Hall)%update_ktn_ok Hwf.
  assert (Hids : rw_ID <$> rows = rw_ID <$> resource_rows d).
  { apply list_eq_Forall2, Forall2_fmap. eapply Forall2_flip, Forall2_impl; [exact Hall|].
    by intros ? ? (-> & _). }
  assert (Hfwd : forall x, (exists res, res ∈ resource_rows d /\ rw_ID res = x) ->
                           exists res, res ∈ resource_rows d' /\ rw_ID res = x).
  { intros x (res & Hres & <-). setoid_rewrite Hp.
    assert (Hin : rw_ID res ∈ rw_ID <$> rows) by (rewrite Hids; by apply list_elem_of_fmap_2).
    apply list_elem_of_fmap in Hin as (res' & -> & ?). by exists res'. }
  assert (Hat : forall x v, common_at d' x v <-> common_at d x v)
    by (intros; unfold common_at; by rewrite F3).
  split; rewrite ?F1, ?F2, ?F3; try apply Hwf.
  - rewrite Hp, Hids. apply Hwf.
  - intros r Hr. by apply Hfwd, Hwf.
  - intros c Hc. by apply Hfwd, Hwf.
  - intros x v w. rewrite !Hat. apply Hwf.
  - intros res' v. rewrite Hp. intros [i Hi]%list_elem_of_lookup Hv.
    destruct (Forall2_lookup_r _ _ _ _ _ Hall Hi) as (res & Hres & E1 & _ & E2 & _).
    apply list_elem_of_lookup_2 in Hres.
    rewrite (last_common_version_ext d d') by (by intros). rewrite E1.
    apply (wf_version _ Hwf); congruence.
Qed.
End Written.
