(* ===== verification/Usecase.v ===== *)
(** internal/biz/usecase/resources/resource_service.go and commands.go: the use
    cases of the inventory, over the interfaces of the repositories.  Logs and
    metrics are dropped. *)
From stdpp Require Import base tactics list strings gmap.
From Stdlib Require Import ZArith Lia Ascii.
From S2P Require Import Prelude GoStrings Common ReporterResource Representations Resource.
From S2P Require Import Outbox Store Relations RelationsRepo Schema MetaAuthz.

Local Open Scope string_scope.

(** * Commands *)

Inductive WriteVisibility :=
  | WriteVisibilityUnspecified | WriteVisibilityMinimizeLatency | WriteVisibilityConsistent.

Record ReportResourceCommand := {
  rc_LocalResourceId : LocalResourceId;
  rc_ResourceType : ResourceType;
  rc_ReporterType : ReporterType;
  rc_ReporterInstanceId : ReporterInstanceId;
  rc_ApiHref : ApiHref;
  rc_ConsoleHref : option ConsoleHref;
  rc_ReporterVersion : option ReporterVersion;
  rc_TransactionId : option TransactionId;
  rc_ReporterRepresentation : option Representation;
  rc_CommonRepresentation : option Representation;
  rc_WriteVisibility : WriteVisibility;
}.

Definition with_transaction_id (cmd : ReportResourceCommand) (txid : TransactionId)
    : ReportResourceCommand :=
  {| rc_LocalResourceId := rc_LocalResourceId cmd; rc_ResourceType := rc_ResourceType cmd;
     rc_ReporterType := rc_ReporterType cmd; rc_ReporterInstanceId := rc_ReporterInstanceId cmd;
     rc_ApiHref := rc_ApiHref cmd; rc_ConsoleHref := rc_ConsoleHref cmd;
     rc_ReporterVersion := rc_ReporterVersion cmd; rc_TransactionId := Some txid;
     rc_ReporterRepresentation := rc_ReporterRepresentation cmd;
     rc_CommonRepresentation := rc_CommonRepresentation cmd;
     rc_WriteVisibility := rc_WriteVisibility cmd |}.

Record CheckBulkItem := {
  bi_Resource : ResourceReference; bi_Relation : Relation; bi_Subject : SubjectReference }.
Record CheckBulkCommand := {
  bc_Items : list CheckBulkItem; bc_Consistency : option Consistency }.
Record CheckForUpdateBulkCommand := { ub_Items : list CheckBulkItem }.
Record CheckSelfBulkItem := { sbi_Resource : ResourceReference; sbi_Relation : Relation }.
Record CheckSelfBulkCommand := {
  sb_Items : list CheckSelfBulkItem; sb_Consistency : option Consistency }.

(** The results of the use-case layer. *)
Record UCheckBulkResultItem := {
  ui_Allowed : bool; ui_Error : option go_error; ui_ErrorCode : Z }.
Record UCheckBulkResultPair := {
  up_Request : CheckBulkItem; up_Result : UCheckBulkResultItem }.
Record UCheckBulkResult := {
  ur_Pairs : list UCheckBulkResultPair; ur_ConsistencyToken : ConsistencyToken }.

Record LookupObjectsCommand := {
  lo_ObjectType : RepresentationType; lo_Relation : Relation; lo_Subject : SubjectReference;
  lo_Pagination : option Pagination; lo_Consistency : option Consistency }.
Record LookupSubjectsCommand := {
  ls_Resource : ResourceReference; ls_Relation : Relation; ls_SubjectType : RepresentationType;
  ls_SubjectRelation : option Relation; ls_Pagination : option Pagination;
  ls_Consistency : option Consistency }.

Record UsecaseConfig := {
  uc_ReadAfterWriteEnabled : bool;
  uc_ReadAfterWriteAllowlist : list string;
  uc_ConsumerEnabled : bool;
  uc_DefaultToAtLeastAsAcknowledged : bool;
  uc_IdempotencyCheckEnabled : bool;
}.

Definition NewUsecaseConfig : UsecaseConfig :=
  {| uc_ReadAfterWriteEnabled := false; uc_ReadAfterWriteAllowlist := [];
     uc_ConsumerEnabled := false; uc_DefaultToAtLeastAsAcknowledged := false;
     uc_IdempotencyCheckEnabled := true |}.

(** * Helpers *)

Definition isDuplicateTransactionError (err : go_error) : bool :=
  match errors_As_kratos err with
  | Some reason => bool_decide (reason = ReasonNonUniqueTransactionID)
  | None => false
  end.

(** [uuid.NewV7()] is drawn by the caller. *)
Definition getNextTransactionID (newV7 : result string) : result TransactionId :=
  let! txid := newV7 in Ok (NewTransactionId txid).

Definition checkBulkItemsToRelationships (items : list CheckBulkItem) : list Relationship :=
  (fun item => NewRelationship (bi_Resource item) (bi_Relation item) (bi_Subject item)) <$> items.

Definition validateBulkResultLength (expected actual : nat) : result unit :=
  if bool_decide (actual <> expected)
  then Err (EStatus Internal "internal error: mismatched check results") else Ok tt.

Definition checkBulkResultFromModel (r : CheckBulkResult) : UCheckBulkResult :=
  {| ur_Pairs := (fun p =>
       {| up_Request := {| bi_Resource := rel_object (cbp_request p);
                           bi_Relation := rel_relation (cbp_request p);
                           bi_Subject := rel_subject (cbp_request p) |};
          up_Result := {| ui_Allowed := cbi_allowed (cbp_result p);
                          ui_Error := cbi_err (cbp_result p);
                          ui_ErrorCode := cbi_errorCode (cbp_result p) |} |}) <$> cbr_pairs r;
     ur_ConsistencyToken := cbr_consistencyToken r |}.

Fixpoint isSPInAllowlist (callerSubject : string) (allowlist : list string) : bool :=
  match allowlist with
  | [] => false
  | sp :: rest =>
      if bool_decide (sp = callerSubject) || bool_decide (sp = "*") then true
      else isSPInAllowlist callerSubject rest
  end.

Definition reporterKeyFromResourceRef (ref : ResourceReference) : result ReporterResourceKey :=
  let '(reporterType, instanceId) :=
    match ref_reporter ref with
    | Some r => (rref_reporterType r, default "" (rref_instanceId r))
    | None => ("", "")
    end in
  NewReporterResourceKey (ref_resourceId ref) (ref_resourceType ref) reporterType instanceId.

(** [metaauthorizer.NewInventoryResource(ref.Reporter().ReporterType(), ...)]:
    a reference without a reporter is a nil dereference. *)
Definition meta_object_of_ref (ref : ResourceReference) : result MetaObject :=
  match ref_reporter ref with
  | None => Err (EPanic "invalid memory address or nil pointer dereference")
  | Some r => Ok (InventoryResource (rref_reporterType r) (ref_resourceType ref)
                    (ref_resourceId ref))
  end.

Definition tokens_unavailable : go_error :=
  EStatus InvalidArgument "inventory-managed consistency tokens aren't available".

Section Usecase.
Context {R T S : Type} `{ResourceRepository R} `{RelationsRepository T} `{SchemaRepository S}
  `{JsonSchemaLib}.

(** The fields of [Usecase] that do not change. *)
Record Usecase := {
  u_schemas : S;
  u_MetaAuthorizer : option MetaAuthorizer;
  u_Config : UsecaseConfig;
  u_ListenManager : bool;
  u_SelfSubjectStrategy : option RedHatRbacSelfSubjectStrategy;
  u_maxSerializationRetries : nat;
}.

Definition enforceMetaAuthzObject (uc : Usecase) (ctx : Ctx) (relation : string)
    (metaObject : MetaObject) : result unit :=
  EnforceMetaAuthzObject ctx (u_MetaAuthorizer uc) relation metaObject.

Definition enforce_ref (uc : Usecase) (ctx : Ctx) (relation : string) (ref : ResourceReference)
    : result unit :=
  let! obj := meta_object_of_ref ref in enforceMetaAuthzObject uc ctx relation obj.

Definition computeReadAfterWrite (uc : Usecase) (writeVisibility : WriteVisibility)
    (callerSubject : string) : bool :=
  match writeVisibility with
  | WriteVisibilityUnspecified | WriteVisibilityMinimizeLatency => false
  | WriteVisibilityConsistent =>
      u_ListenManager uc && uc_ReadAfterWriteEnabled (u_Config uc)
      && isSPInAllowlist callerSubject (uc_ReadAfterWriteAllowlist (u_Config uc))
  end.

(** ** Writes *)

Definition createResource (e : env) (cmd : ReportResourceCommand) (txid : TransactionId) (d : R)
    : result R :=
  let! resourceId := repo_NextResourceId e in
  let! reporterResourceId := repo_NextReporterResourceId e in
  match rc_TransactionId cmd with
  | None => Err (EPanic "invalid memory address or nil pointer dereference")
  | Some transactionId =>
      let! resource := NewResource (env_now e) resourceId (rc_LocalResourceId cmd)
        (rc_ResourceType cmd) (rc_ReporterType cmd) (rc_ReporterInstanceId cmd) transactionId
        reporterResourceId (rc_ApiHref cmd) (rc_ConsoleHref cmd)
        (rc_ReporterRepresentation cmd) (rc_CommonRepresentation cmd) (rc_ReporterVersion cmd) in
      repo_Save e resource OperationTypeCreated txid d
  end.

Definition updateResource (e : env) (cmd : ReportResourceCommand) (existingResource : Resource)
    (txid : TransactionId) (d : R) : result R :=
  let! reporterResourceKey := NewReporterResourceKey (rc_LocalResourceId cmd)
    (rc_ResourceType cmd) (rc_ReporterType cmd) (rc_ReporterInstanceId cmd) in
  match rc_TransactionId cmd with
  | None => Err (EPanic "invalid memory address or nil pointer dereference")
  | Some transactionId =>
      match Resource_Update (env_now e) existingResource reporterResourceKey (rc_ApiHref cmd)
              (rc_ConsoleHref cmd) (rc_ReporterVersion cmd) (rc_ReporterRepresentation cmd)
              (rc_CommonRepresentation cmd) transactionId with
      | (_, Some err) => Err (EWrap "failed to update resource" err)
      | (existingResource, None) =>
          repo_Save e existingResource OperationTypeUpdated txid d
      end
  end.

(** The closure of the transaction, and the [operationType] it captures. *)
Definition report_tx (e : env) (cmd : ReportResourceCommand) (key : ReporterResourceKey)
    (txid : TransactionId) (d : R) : result (R * eventOperationType) :=
  match repo_FindResourceByKeys d key with
  | Err err =>
      if errors_Is err ErrRecordNotFound then
        let! d := createResource e cmd txid d in Ok (d, OperationTypeCreated)
      else Err (EWrap "failed to lookup existing resource" err)
  | Ok res => let! d := updateResource e cmd res txid d in Ok (d, OperationTypeUpdated)
  end.

(** The closure of [Delete]. *)
Definition delete_tx (e : env) (key : ReporterResourceKey) (txid : TransactionId) (d : R)
    : result R :=
  match repo_FindResourceByKeys d key with
  | Ok res =>
      match Resource_Delete (env_now e) res key with
      | (_, Some err) => Err (EWrap "failed to delete resource" err)
      | (res, None) => repo_Save e res OperationTypeDeleted txid d
      end
  | Err err =>
      if errors_Is err ErrRecordNotFound then Err (ESentinel ErrResourceNotFound)
      else Err (ESentinel ErrDatabaseError)
  end.

(** What a call of the transaction manager meets: the other transactions, the
    outcome of each COMMIT, and what each attempt draws. *)
Record world := {
  w_concurrent : nat -> R -> R;
  w_commit : nat -> option go_error;
  w_env : nat -> env;
}.

Definition run_report (uc : Usecase) (w : world) (cmd : ReportResourceCommand)
    (key : ReporterResourceKey) (txid : TransactionId) (d : R)
    : R * result eventOperationType :=
  HandleSerializableTransaction (w_concurrent w) (w_commit w) (u_maxSerializationRetries uc)
    (fun i => report_tx (w_env w i) cmd key txid) d.

(** Waiting for the consumer: a timeout or an open circuit is not an error. *)
Definition wait_outcome (wait : option go_error) : result unit :=
  match wait with
  | None => Ok tt
  | Some err =>
      if errors_Is err ErrWaitContextCancelled || errors_Is err ErrOpenState
         || errors_Is err ErrTooManyRequests
      then Ok tt else Err err
  end.

(** [newV7] and [retryV7] are the draws of [getNextTransactionID], [w] and
    [w2] the worlds of the first call of [reportResource] and of the second,
    [wait] the outcome of waiting for the notification. *)
Definition ReportResource (uc : Usecase) (ctx : Ctx) (newV7 retryV7 : result string)
    (w w2 : world) (wait : option go_error) (cmd : ReportResourceCommand) (d : R)
    : R * result unit :=
  match ctx with
  | None | Some {| ac_Subject := None |} =>
      (d, Err (EStatus Unauthenticated "authentication required"))
  | Some {| ac_Subject := Some subject |} =>
      match NewReporterResourceKey (rc_LocalResourceId cmd) (rc_ResourceType cmd)
              (rc_ReporterType cmd) (rc_ReporterInstanceId cmd) with
      | Err _ => (d, Err (EStatus InvalidArgument "failed to create reporter resource key"))
      | Ok reporterResourceKey =>
          match enforceMetaAuthzObject uc ctx RelationReportResource
                  (NewInventoryResourceFromKey reporterResourceKey) with
          | Err err => (d, Err err)
          | Ok _ =>
              match getNextTransactionID newV7 with
              | Err err => (d, Err err)
              | Ok txid =>
                  let transactionId :=
                    match rc_TransactionId cmd with
                    | None | Some "" => txid
                    | Some t => t
                    end in
                  let cmd := with_transaction_id cmd transactionId in
                  match ValidateReportAgainstSchema (u_schemas uc) (rc_ResourceType cmd)
                          (rc_ReporterType cmd) (rc_CommonRepresentation cmd)
                          (rc_ReporterRepresentation cmd) with
                  | Err _ =>
                      (d, Err (EStatus InvalidArgument "failed validation for report resource"))
                  | Ok _ =>
                      let readAfterWriteEnabled :=
                        computeReadAfterWrite uc (rc_WriteVisibility cmd)
                          (cl_SubjectId subject) in
                      match (if uc_IdempotencyCheckEnabled (u_Config uc)
                             then repo_HasTransactionIdBeenProcessed d transactionId
                             else Ok false) with
                      | Err err => (d, Err (EWrap "failed to check transaction ID" err))
                      | Ok true => (d, Ok tt)
                      | Ok false =>
                          let '(d, res) := run_report uc w cmd reporterResourceKey txid d in
                          let '(d, res) :=
                            match res with
                            | Err err =>
                                if negb (uc_IdempotencyCheckEnabled (u_Config uc))
                                   && isDuplicateTransactionError err
                                then match getNextTransactionID retryV7 with
                                     | Err retryErr => (d, Err retryErr)
                                     | Ok retryTxid =>
                                         run_report uc w2 (with_transaction_id cmd retryTxid)
                                           reporterResourceKey txid d
                                     end
                                else (d, res)
                            | Ok _ => (d, res)
                            end in
                          match res with
                          | Err err => (d, Err err)
                          | Ok _ =>
                              if readAfterWriteEnabled && uc_ConsumerEnabled (u_Config uc)
                              then (d, wait_outcome wait) else (d, Ok tt)
                          end
                      end
                  end
              end
          end
      end
  end.

Definition Delete (uc : Usecase) (ctx : Ctx) (newV7 : result string) (w : world)
    (reporterResourceKey : ReporterResourceKey) (d : R) : R * result unit :=
  match enforceMetaAuthzObject uc ctx RelationDeleteResource
          (NewInventoryResourceFromKey reporterResourceKey) with
  | Err err => (d, Err err)
  | Ok _ =>
      match getNextTransactionID newV7 with
      | Err err => (d, Err err)
      | Ok txid =>
          HandleSerializableTransaction (w_concurrent w) (w_commit w)
            (u_maxSerializationRetries uc)
            (fun i d => let! d := delete_tx (w_env w i) reporterResourceKey txid d in
                        Ok (d, tt)) d
      end
  end.

(** ** Consistency *)

(** "" stands for "no token": the resource is not in the inventory. *)
Definition lookupConsistencyTokenFromDB (d : R) (ref : ResourceReference) : result string :=
  let! key := wrap_err "failed to build reporter resource key from reference"
                (reporterKeyFromResourceRef ref) in
  match repo_FindResourceByKeys d key with
  | Err err => if errors_Is err ErrRecordNotFound then Ok "" else Err err
  | Ok res => Ok (r_consistencyToken res)
  end.

Definition resolveFromDB (d : R) (ref : ResourceReference) : result Consistency :=
  let! tokenStr := lookupConsistencyTokenFromDB d ref in
  if bool_decide (tokenStr = "") then Ok minimizeLatencyConsistency
  else Ok (atLeastAsFreshConsistency tokenStr).

Definition resolveConsistency (uc : Usecase) (d : R) (consistency : option Consistency)
    (ref : ResourceReference) (overrideFeatureFlag : bool) : result Consistency :=
  match ConsistencyTypeOf consistency with
  | ConsistencyMinimizeLatency => Ok minimizeLatencyConsistency
  | ConsistencyAtLeastAsFresh => Ok (normalizeConsistency consistency)
  | ConsistencyAtLeastAsAcknowledged => resolveFromDB d ref
  | ConsistencyUnspecified =>
      if uc_DefaultToAtLeastAsAcknowledged (u_Config uc) && negb overrideFeatureFlag
      then resolveFromDB d ref else Ok minimizeLatencyConsistency
  end.

Definition selfSubjectFromContext (uc : Usecase) (ctx : Ctx) : result SubjectReference :=
  match ctx with
  | None => Err (ESentinel ErrMetaAuthzContextMissing)
  | Some authzCtx =>
      match u_SelfSubjectStrategy uc with
      | None => Err (ESentinel ErrSelfSubjectMissing)
      | Some s =>
          match SubjectFromAuthorizationContext (Some s) authzCtx with
          | Err _ => Err (ESentinel ErrSelfSubjectMissing)
          | Ok subjectRef => Ok subjectRef
          end
      end
  end.

(** ** Checks *)

Definition checkPermission (t : T) (relation : Relation) (sub : SubjectReference)
    (ref : ResourceReference) (consistency : Consistency) : result CheckResult :=
  rel_Check t (NewRelationship ref relation sub) (Some consistency).

Definition Check (uc : Usecase) (ctx : Ctx) (d : R) (t : T) (relation : Relation)
    (sub : SubjectReference) (ref : ResourceReference) (consistency : option Consistency)
    : result CheckResult :=
  check! enforce_ref uc ctx RelationCheck ref in
  let! resolved := resolveConsistency uc d consistency ref false in
  checkPermission t relation sub ref resolved.

Definition CheckSelf (uc : Usecase) (ctx : Ctx) (d : R) (t : T) (relation : Relation)
    (ref : ResourceReference) (consistency : option Consistency) : result CheckResult :=
  check! enforce_ref uc ctx RelationCheckSelf ref in
  let! subjectRef := selfSubjectFromContext uc ctx in
  let! resolved := resolveConsistency uc d consistency ref true in
  checkPermission t relation subjectRef ref resolved.

Definition CheckForUpdate (uc : Usecase) (ctx : Ctx) (t : T) (relation : Relation)
    (sub : SubjectReference) (ref : ResourceReference) : result CheckResult :=
  check! enforce_ref uc ctx RelationCheckForUpdate ref in
  rel_CheckForUpdate t (NewRelationship ref relation sub).

(** [for _, item := range items { if err := enforce(item); err != nil ... }] *)
Fixpoint enforce_all (uc : Usecase) (ctx : Ctx) (relation : string)
    (refs : list ResourceReference) : result unit :=
  match refs with
  | [] => Ok tt
  | ref :: rest => check! enforce_ref uc ctx relation ref in enforce_all uc ctx relation rest
  end.

(** The tail of the bulk checks: the answer has one pair per request. *)
Definition bulk_result (rels : list Relationship) (m : result CheckBulkResult)
    : result UCheckBulkResult :=
  let! res := m in
  check! validateBulkResultLength (length rels) (length (cbr_pairs res)) in
  Ok (checkBulkResultFromModel res).

Definition CheckForUpdateBulk (uc : Usecase) (ctx : Ctx) (t : T)
    (cmd : CheckForUpdateBulkCommand) : result UCheckBulkResult :=
  check! enforce_all uc ctx RelationCheckForUpdateBulk (bi_Resource <$> ub_Items cmd) in
  let rels := checkBulkItemsToRelationships (ub_Items cmd) in
  bulk_result rels (rel_CheckForUpdateBulk t rels).

Definition CheckBulk (uc : Usecase) (ctx : Ctx) (t : T) (cmd : CheckBulkCommand)
    : result UCheckBulkResult :=
  if bool_decide (ConsistencyTypeOf (bc_Consistency cmd) = ConsistencyAtLeastAsAcknowledged)
  then Err tokens_unavailable
  else
    check! enforce_all uc ctx RelationCheckBulk (bi_Resource <$> bc_Items cmd) in
    let rels := checkBulkItemsToRelationships (bc_Items cmd) in
    bulk_result rels (rel_CheckBulk t rels (bc_Consistency cmd)).

Definition CheckSelfBulk (uc : Usecase) (ctx : Ctx) (t : T) (cmd : CheckSelfBulkCommand)
    : result UCheckBulkResult :=
  if bool_decide (ConsistencyTypeOf (sb_Consistency cmd) = ConsistencyAtLeastAsAcknowledged)
  then Err tokens_unavailable
  else
    check! enforce_all uc ctx RelationCheckSelf (sbi_Resource <$> sb_Items cmd) in
    let! subjectRef := selfSubjectFromContext uc ctx in
    let rels := (fun item => NewRelationship (sbi_Resource item) (sbi_Relation item) subjectRef)
                <$> sb_Items cmd in
    bulk_result rels (rel_CheckBulk t rels (sb_Consistency cmd)).

(** ** Lookups *)

Definition LookupObjects (uc : Usecase) (ctx : Ctx) (t : T) (cmd : LookupObjectsCommand)
    : result (list LookupObjectsItem) :=
  if bool_decide (ConsistencyTypeOf (lo_Consistency cmd) = ConsistencyAtLeastAsAcknowledged)
  then Err tokens_unavailable
  else
    let metaObject := ResourceTypeRef (default "" (rtype_reporterType (lo_ObjectType cmd)))
                        (rtype_resourceType (lo_ObjectType cmd)) in
    check! enforceMetaAuthzObject uc ctx RelationLookupResources metaObject in
    rel_LookupObjects t (lo_ObjectType cmd) (lo_Relation cmd) (lo_Subject cmd)
      (lo_Pagination cmd) (lo_Consistency cmd).

Definition LookupSubjects (uc : Usecase) (ctx : Ctx) (t : T) (cmd : LookupSubjectsCommand)
    : result (list LookupSubjectsItem) :=
  if bool_decide (ConsistencyTypeOf (ls_Consistency cmd) = ConsistencyAtLeastAsAcknowledged)
  then Err tokens_unavailable
  else
    check! enforce_ref uc ctx RelationLookupSubjects (ls_Resource cmd) in
    rel_LookupSubjects t (ls_Resource cmd) (ls_Relation cmd) (ls_SubjectType cmd)
      (ls_SubjectRelation cmd) (ls_Pagination cmd) (ls_Consistency cmd).
End Usecase.
