(* ===== verification/UsecaseProps.v ===== *)
(** Properties of the write use cases (Usecase.v).  The closures of
    [ReportResource] and [Delete] keep the invariant of StoreProps.v, and the only
    unique index that can refuse them is the one on transaction ids; so the tables
    stay well formed in every reachable state, versions never collide, a
    transaction id is processed once, every committed change is announced in the
    outbox, and nothing is written for a caller that is not admitted. *)
From stdpp Require Import base tactics list strings gmap sorting relations.
From Stdlib Require Import ZArith Lia Ascii.
From S2P Require Import Prelude GoStrings Common ReporterResource Representations Resource.
From S2P Require Import ResourceProps Json DataModel Relations Outbox Store Tables Schema.
From S2P Require Import MetaAuthz RelationsRepo Consumer Examples StoreProps StoreInv Usecase.

Local Open Scope string_scope.

(** * The resource a report creates *)

Definition reporter_data (repd comd : option Representation) : option Representation :=
  if is_nil repd && negb (is_nil comd) then Some NewEmptyRepresentation else repd.

Record created (now : time) (id : ResourceId) (rrid : ReporterResourceId)
    (key : ReporterResourceKey) (tx : TransactionId) (repd comd : option Representation)
    (rver : option ReporterVersion) (r : Resource) : Prop := {
  cr_id : r_id r = id;
  cr_type : r_resourceType r = resourceType key;
  cr_cv : r_commonVersion r = if has_data comd then Some 0%Z else None;
  cr_token : r_consistencyToken r = "";
  cr_deletes : r_resourceDeleteEvents r = [];
  cr_reporters : exists rr, r_reporterResources r = [rr] /\ rr_id rr = rrid /\ rr_key rr = key /\
    rr_resourceID rr = id /\ rr_representationVersion rr = 0%Z /\ rr_generation rr = 0%Z /\
    rr_tombstone rr = false;
  cr_event : exists ev, r_resourceReportEvents r = [ev] /\
    event_of ev id rrid key (reporter_data repd comd) comd rver 0 0
      (if has_data comd then Some 0%Z else None) tx;
}.

Lemma NewResource_ok now id l t rt ri tx rrid h c repd comd rver r :
  NewResource now id l t rt ri tx rrid h c repd comd rver = Ok r ->
  created now id rrid
    {| localResourceID := l; resourceType := t;
       reporter := {| reporterType := rt; reporterInstanceId := ri |} |} tx repd comd rver r.
Proof.
  unfold NewResource. fold (reporter_data repd comd). intros Hn.
  destruct (wrap_err "resource invalid ReporterResource" _) as [rr|] eqn:E1; [|done].
  apply wrap_err_ok in E1. unfold NewReporterResource in E1. simpl in E1. injection E1 as <-.
  destruct (wrap_err "resource invalid ResourceReportEvent" _) as [ev|] eqn:E2; [|done].
  apply wrap_err_ok, resourceEvent_ok in E2. injection Hn as <-. split; simpl; try done.
  - eexists. split; [done|]. by split_all.
  - eexists. split; [done|]. apply SetTimestamps_event_of, E2.
Qed.

(** * Ranges *)

Lemma bigint_u64 z : bigint z -> is_u64 z /\ z <> max_u64.
Proof. unfold bigint, is_u64, two64, max_u64. lia. Qed.

Lemma bigint_room rr : bigint (rr_representationVersion rr) -> bigint (rr_generation rr) ->
  rr_wf rr /\ counters_not_full rr.
Proof. intros [? ?]%bigint_u64 [? ?]%bigint_u64. done. Qed.

Lemma Version_Increment_bigint v : bigint v -> Version_Increment v = (v + 1)%Z.
Proof. intros [? ?]%bigint_u64. by apply Version_Increment_small. Qed.

(** * The query and the comparison of keys *)

Definition row_key (row : ReporterResourceRow) : ReporterResourceKey :=
  {| localResourceID := rrw_LocalResourceID row; resourceType := rrw_ResourceType row;
     reporter := {| reporterType := rrw_ReporterType row;
                    reporterInstanceId := rrw_ReporterInstanceID row |} |}.

(** The comparison in Go is coarser than the one in SQL. *)
Lemma query_key_matches key row :
  buildReporterResourceKeyQuery key row = true -> key_matches (row_key row) key = true.
Proof.
  unfold buildReporterResourceKeyQuery, key_matches. simpl.
  rewrite !andb_true_iff, !orb_true_iff, !bool_decide_eq_true.
  intros (((-> & ->) & ->) & [-> | ->]); rewrite !EqualFold_refl; split_all; auto.
Qed.

Lemma query_refl key row : rrw_key row = (localResourceID key, resourceType key,
    reporterType (reporter key), reporterInstanceId (reporter key)) ->
  buildReporterResourceKeyQuery key row = true.
Proof.
  unfold rrw_key, buildReporterResourceKeyQuery. intros [= -> -> -> ->].
  rewrite !andb_true_iff, orb_true_iff, !bool_decide_eq_true. auto.
Qed.

Section Writes.
Context {D : Type} `{GormDB D} `{OutboxLib} `{!GormLaws D}.

Lemma found_first (d : D) key r row res : found d key r row res ->
  findReporterResourceToUpdateByKey r key = Ok (0%nat, rr_of_row d row res).
Proof.
  intros Hf. destruct (fo_reporters _ _ _ _ _ Hf) as [rest Hr].
  unfold findReporterResourceToUpdateByKey. rewrite Hr. simpl.
  rewrite decide_True; [done|]. apply query_key_matches, Hf.
Qed.

(** The common version an update computes is the next one. *)
Lemma found_next_version (d : D) key r row res : db_wf d -> found d key r row res ->
  next_common_version r = next_version (last_common_version d (rw_ID res)).
Proof.
  intros Hwf Hf. unfold next_common_version.
  rewrite (fo_cv _ _ _ _ _ Hf), (fo_last _ _ _ _ _ Hf).
  assert (Hlast : forall l, last_common_version d (rw_ID res) = Some l ->
                            Version_Increment l = (l + 1)%Z).
  { intros l [(c & Hc & _ & <-) _]%last_common_version_Some.
    by apply Version_Increment_bigint, (wf_common_range _ Hwf). }
  destruct (rw_CommonVersion res) as [v|] eqn:Hv.
  - apply (wf_version _ Hwf) in Hv; [|apply Hf]. rewrite Hv. simpl. auto.
  - destruct (last_common_version _ _) as [l|]; simpl; auto.
Qed.

(** ** The rows each use case writes fit the tables *)

Definition fresh_ids (d : D) (id rrid : uuid) : Prop :=
  (forall r, r ∈ resource_rows d -> rw_ID r <> id) /\
  (forall r, r ∈ reporter_resource_rows d -> rrw_ID r <> rrid).

(** The common row of a report event. *)
Lemma event_common_row now ev rid rrid key repd comd rver v g cv tx r :
  event_of ev rid rrid key repd comd rver v g cv tx ->
  r_resourceReportEvents r = [ev] ->
  match ro_common (rows_of now r) with
  | None => comd = None
  | Some c => has_data comd = true /\ cw_ResourceId c = rid /\ cw_Version c = default 0%Z cv /\
      has_data (Some (cw_Data c)) = true /\ cw_TransactionId c = tx
  end.
Proof.
  intros He Hr. unfold rows_of, Resource_Serialize. rewrite Hr.
  destruct (GetTimestamps r) as [t1 t2]. simpl. rewrite (ev_common _ _ _ _ _ _ _ _ _ _ _ He).
  destruct comd as [dat|]; [|done]. simpl.
  pose proof (ev_common_data _ _ _ _ _ _ _ _ _ _ _ He _ eq_refl) as Hd. by split_all.
Qed.

(** The reporter representation row of a report event. *)
Lemma event_representation_row now ev rid rrid key repd comd rver v g cv tx r :
  event_of ev rid rrid key repd comd rver v g cv tx ->
  r_resourceReportEvents r = [ev] -> r_resourceDeleteEvents r = [] ->
  match ro_representation (rows_of now r) with
  | None => repd = None
  | Some p => rpw_key p = (rrid, v, g) /\ rpw_TransactionId p = tx
  end.
Proof.
  intros He Hr Hd. unfold rows_of, Resource_Serialize. rewrite Hr, Hd.
  destruct (GetTimestamps r) as [t1 t2]. simpl. rewrite (ev_reporter _ _ _ _ _ _ _ _ _ _ _ He).
  by destruct repd.
Qed.

Lemma rows_of_resource now r :
  rw_ID (ro_resource (rows_of now r)) = r_id r /\
  rw_CommonVersion (ro_resource (rows_of now r)) = r_commonVersion r.
Proof. unfold rows_of, Resource_Serialize. by destruct (GetTimestamps r). Qed.

Lemma rows_of_reporter now r rr rest : r_reporterResources r = rr :: rest ->
  ro_reporter (rows_of now r) =
  DeserializeReporterResourceFromSnapshot (ReporterResource_Serialize rr).
Proof. intros Hr. unfold rows_of, Resource_Serialize. rewrite Hr. by destruct (GetTimestamps r). Qed.

Lemma created_admissible now id rrid key tx repd comd rver r (d : D) :
  db_wf d -> fresh_ids d id rrid ->
  (forall row, row ∈ reporter_resource_rows d -> buildReporterResourceKeyQuery key row = false) ->
  created now id rrid key tx repd comd rver r -> admissible d (rows_of now r).
Proof.
  intros Hwf [F1 F2] Hno Hc.
  destruct (cr_reporters _ _ _ _ _ _ _ _ _ Hc) as (rr & Hrr & Hi & Hk & Hri & Hv & Hg & Ht).
  destruct (cr_event _ _ _ _ _ _ _ _ _ Hc) as (ev & Hev & He).
  destruct (rows_of_resource now r) as [Rid Rcv]. rewrite (cr_id _ _ _ _ _ _ _ _ _ Hc) in Rid.
  rewrite (cr_cv _ _ _ _ _ _ _ _ _ Hc) in Rcv.
  assert (Fres : forall row, row ∈ reporter_resource_rows d -> rrw_ResourceID row <> id).
  { intros row Hrow. destruct (wf_rr_parent _ Hwf row Hrow) as (res & Hres & <-). auto. }
  assert (Flast : last_common_version d id = None).
  { apply last_common_version_None. intros v (c & Hc' & <- & _).
    destruct (wf_common_parent _ Hwf c Hc') as (res & Hres & E). by apply (F1 res Hres). }
  pose proof (event_common_row now _ _ _ _ _ _ _ _ _ _ _ _ He Hev) as Hcom.
  pose proof (event_representation_row now _ _ _ _ _ _ _ _ _ _ _ _ He Hev
                (cr_deletes _ _ _ _ _ _ _ _ _ Hc)) as Hrep.
  split; rewrite ?(rows_of_reporter _ _ _ _ Hrr), ?Rid, ?Rcv; simpl; rewrite ?Hi.
  - done.
  - intros row Hrow. split; intros E; [by destruct (F2 row Hrow)|by destruct (Fres row Hrow)].
  - intros row Hrow E. exfalso. pose proof (Hno row Hrow) as Hq.
    rewrite query_refl in Hq; [done|]. rewrite E. unfold rrw_key. simpl. by rewrite Hk.
  - intros row Hrow E. by destruct (F2 row Hrow).
  - intros p Hp. rewrite Hp in Hrep. rewrite Hv, Hg. split; [apply Hrep|].
    intros row Hrow E. by destruct (F2 row Hrow).
  - intros c E. rewrite E in Hcom. destruct Hcom as (-> & ? & -> & ? & _). by rewrite Flast.
  - intros E. rewrite E in Hcom. by rewrite Hcom.
Qed.

(** The rows of a resource that was found and whose first reporter resource
    moved to [rr']. *)
Lemma successor_admissible now (d : D) key r row res r' rr' rest :
  db_wf d -> found d key r row res ->
  r_id r' = r_id r -> r_reporterResources r' = rr' :: rest ->
  rr_id rr' = rrw_ID row -> rr_key rr' = row_key row -> rr_resourceID rr' = rrw_ResourceID row ->
  pos_le (rrw_Generation row) (rrw_RepresentationVersion row)
    (rr_generation rr') (rr_representationVersion rr') ->
  (forall p, ro_representation (rows_of now r') = Some p ->
     rpw_key p = (rr_id rr', rr_representationVersion rr', rr_generation rr') /\
     pos_lt (rrw_Generation row) (rrw_RepresentationVersion row)
       (rr_generation rr') (rr_representationVersion rr')) ->
  match ro_common (rows_of now r') with
  | Some c => cw_ResourceId c = rw_ID res /\ has_data (Some (cw_Data c)) = true /\
      cw_Version c = next_version (last_common_version d (rw_ID res)) /\
      r_commonVersion r' = Some (cw_Version c)
  | None => forall v, r_commonVersion r' = Some v -> last_common_version d (rw_ID res) = Some v
  end ->
  admissible d (rows_of now r').
Proof.
  intros Hwf Hf Hid Hrr Hrid Hk Hres Hpos Hrep Hcom.
  destruct (rows_of_resource now r') as [Rid Rcv].
  rewrite Hid, (fo_id _ _ _ _ _ Hf) in Rid.
  assert (Hown : forall x, x ∈ reporter_resource_rows d -> rrw_ID x = rrw_ID row -> x = row)
    by (intros x Hx; apply (wf_rr_id _ Hwf); [done|apply Hf]).
  split; rewrite ?(rows_of_reporter _ _ _ _ Hrr), ?Rid, ?Rcv; simpl; rewrite ?Hrid.
  - by rewrite Hres, (fo_parent _ _ _ _ _ Hf).
  - intros x Hx. rewrite (fo_parent _ _ _ _ _ Hf). split; [by intros ->%Hown|].
    intros E. apply (wf_rr_resource _ Hwf) in E; [by subst|done|apply Hf].
  - intros x Hx E. f_equal. apply (wf_rr_key _ Hwf); [done|apply Hf|]. rewrite E.
    unfold rrw_key. simpl. by rewrite Hk.
  - by intros x Hx ->%Hown.
  - intros p Hp. rewrite <- Hrid. destruct (Hrep p Hp) as [? ?]. split; [done|].
    rewrite Hrid. by intros x Hx ->%Hown.
  - intros c E. by rewrite E in Hcom.
  - intros E. by rewrite E in Hcom.
Qed.

Lemma found_room (d : D) key r row res : db_wf d -> found d key r row res ->
  rr_wf (rr_of_row d row res) /\ counters_not_full (rr_of_row d row res).
Proof. intros Hwf Hf. apply bigint_room; apply (wf_rr_range _ Hwf), Hf. Qed.

Lemma updated_admissible now (d : D) key r row res h c rver repd comd tx r' :
  db_wf d -> found d key r row res ->
  Resource_Update now r key h c rver repd comd tx = (r', None) ->
  admissible d (rows_of now r') /\
  exists ev, r_resourceReportEvents r' = [ev] /\ r_resourceDeleteEvents r' = [] /\
    exists rid rrid v g cv, event_of ev rid rrid key repd comd rver v g cv tx.
Proof.
  intros Hwf Hf (i & rr & Hu)%Resource_Update_ok.
  pose proof (up_found _ _ _ _ _ _ _ _ _ _ _ _ Hu) as Hi.
  rewrite (found_first _ _ _ _ _ Hf) in Hi. injection Hi as <- <-.
  destruct (up_event _ _ _ _ _ _ _ _ _ _ _ _ Hu) as (ev & Hev & _ & _ & He).
  pose proof (up_deletes _ _ _ _ _ _ _ _ _ _ _ _ Hu) as Hdel.
  rewrite (fo_deletes _ _ _ _ _ Hf) in Hdel.
  split; [|exists ev; do 2 (split; [done|]); do 5 eexists; exact He].
  destruct (fo_reporters _ _ _ _ _ Hf) as [rest Hrest].
  pose proof (up_reporters _ _ _ _ _ _ _ _ _ _ _ _ Hu) as Hrr. rewrite Hrest in Hrr.
  destruct (found_room _ _ _ _ _ Hwf Hf) as [Hrwf Hroom].
  pose proof (Update_lifecycle_lt now _ h c Hrwf Hroom) as Hlt.
  apply (successor_admissible now d key r row res r'
           (ReporterResource_Update now (rr_of_row d row res) h c) rest Hwf Hf).
  - apply Hu.
  - exact Hrr.
  - by rewrite RR_Update_id.
  - by rewrite RR_Update_key.
  - rewrite RR_Update_resourceID. apply (fo_parent _ _ _ _ _ Hf).
  - unfold lifecycle_lt, pos_le in *. simpl in *. lia.
  - intros p Hp. pose proof (event_representation_row now _ _ _ _ _ _ _ _ _ _ _ _ He Hev Hdel) as Hr.
    rewrite Hp in Hr. rewrite RR_Update_id. split; [apply Hr|done].
  - pose proof (event_common_row now _ _ _ _ _ _ _ _ _ _ _ _ He Hev) as Hcom.
    rewrite (up_cv _ _ _ _ _ _ _ _ _ _ _ _ Hu). unfold common_version_of in *.
    destruct (ro_common (rows_of now r')) as [cm|]; [|by subst comd].
    destruct Hcom as (Hd & Hcid & Hcv & Hdat & _). rewrite Hd in *. simpl in Hcv.
    rewrite Hcv, (found_next_version _ _ _ _ _ Hwf Hf). by split_all.
Qed.

Lemma deleted_admissible now (d : D) key r row res r' :
  db_wf d -> found d key r row res -> Resource_Delete now r key = (r', None) ->
  admissible d (rows_of now r').
Proof.
  intros Hwf Hf (i & rr & Hi & Hr)%Resource_Delete_ok.
  rewrite (found_first _ _ _ _ _ Hf) in Hi. injection Hi as <- <-.
  destruct (fo_reporters _ _ _ _ _ Hf) as [rest Hrest].
  destruct (fo_events _ _ _ _ _ Hf) as (t1 & t2 & Hev).
  destruct (found_room _ _ _ _ _ Hwf Hf) as [Hrwf Hroom].
  assert (Hver : forall v, r_commonVersion r = Some v -> last_common_version d (rw_ID res) = Some v).
  { intros v. rewrite (fo_cv _ _ _ _ _ Hf). by apply (wf_version _ Hwf), Hf. }
  destruct (rr_tombstone (rr_of_row d row res)).
  - subst r'. apply (successor_admissible now d key r row res r (rr_of_row d row res) rest Hwf Hf);
      try done.
    + apply (fo_parent _ _ _ _ _ Hf).
    + unfold pos_le. simpl. lia.
    + unfold rows_of, Resource_Serialize. rewrite Hev, (fo_deletes _ _ _ _ _ Hf).
      by destruct (GetTimestamps r).
    + unfold rows_of, Resource_Serialize. rewrite Hev. by destruct (GetTimestamps r).
  - destruct Hr as (ev & _ & -> & _ & _ & Hde).
    pose proof (Delete_lifecycle_lt now _ Hrwf Hroom) as Hlt.
    apply (successor_admissible now d key r row res _
             (ReporterResource_Delete now (rr_of_row d row res)) rest Hwf Hf).
    + done.
    + simpl. rewrite Hrest. done.
    + done.
    + done.
    + apply (fo_parent _ _ _ _ _ Hf).
    + unfold lifecycle_lt, pos_le in *. simpl in *. lia.
    + intros p. unfold rows_of, Resource_Serialize. simpl. rewrite Hde.
      destruct (GetTimestamps _). simpl. intros [= <-]. by split.
    + unfold rows_of, Resource_Serialize. simpl. rewrite Hev. by destruct (GetTimestamps _).
Qed.
End Writes.

Definition key_of_command (cmd : ReportResourceCommand) : ReporterResourceKey :=
  {| localResourceID := rc_LocalResourceId cmd; resourceType := rc_ResourceType cmd;
     reporter := {| reporterType := rc_ReporterType cmd;
                    reporterInstanceId := rc_ReporterInstanceId cmd |} |}.

Section Writes.
Context {D : Type} `{GormDB D} `{OutboxLib} `{!GormLaws D}.

(** [uuid.NewV7()] does not repeat an id of the tables. *)
Definition fresh (d : D) (e : env) : Prop :=
  (forall id, env_resourceId e = Ok id -> forall r, r ∈ resource_rows d -> rw_ID r <> id) /\
  (forall id, env_reporterResourceId e = Ok id ->
   forall r, r ∈ reporter_resource_rows d -> rrw_ID r <> id).

(** ** What a committed transaction saved *)

Lemma createResource_inv e cmd txid (d d' : D) : createResource e cmd txid d = Ok d' ->
  exists id rrid tx r, env_resourceId e = Ok id /\ env_reporterResourceId e = Ok rrid /\
    rc_TransactionId cmd = Some tx /\
    created (env_now e) id rrid (key_of_command cmd) tx (rc_ReporterRepresentation cmd)
      (rc_CommonRepresentation cmd) (rc_ReporterVersion cmd) r /\
    Save e r OperationTypeCreated txid d = Ok d'.
Proof.
  unfold createResource. simpl. unfold NextResourceId, NextReporterResourceId,
    NewResourceId, NewReporterResourceId.
  destruct (env_resourceId e) as [id|]; [|done]. case_bool_decide; [done|].
  destruct (env_reporterResourceId e) as [rrid|]; [|done]. case_bool_decide; [done|].
  destruct (rc_TransactionId cmd) as [tx|]; [|done]. intros Hc.
  destruct (NewResource _ _ _ _ _ _ _ _ _ _ _ _ _) as [r|] eqn:E; [|done].
  apply NewResource_ok in E. by exists id, rrid, tx, r.
Qed.

Lemma updateResource_inv e cmd r txid (d d' : D) : updateResource e cmd r txid d = Ok d' ->
  exists tx r', rc_TransactionId cmd = Some tx /\
    Resource_Update (env_now e) r (key_of_command cmd) (rc_ApiHref cmd) (rc_ConsoleHref cmd)
      (rc_ReporterVersion cmd) (rc_ReporterRepresentation cmd) (rc_CommonRepresentation cmd) tx
    = (r', None) /\
    Save e r' OperationTypeUpdated txid d = Ok d'.
Proof.
  unfold updateResource. simpl. fold (key_of_command cmd).
  destruct (rc_TransactionId cmd) as [tx|]; [|done].
  destruct (Resource_Update _ _ _ _ _ _ _ _ _) as [r' [err|]] eqn:E; [done|]. eauto.
Qed.

Lemma report_tx_wf e cmd txid (d d' : D) op : db_wf d -> fresh d e ->
  report_tx e cmd (key_of_command cmd) txid d = Ok (d', op) -> db_wf d'.
Proof.
  intros Hwf [F1 F2]. unfold report_tx. simpl.
  destruct (FindResourceByKeys d _) as [r|err] eqn:Hf.
  - intros Hr. inv_ok Hr. simplify_eq.
    apply updateResource_inv in E as (tx & r' & _ & Hu & Hs).
    apply FindResourceByKeys_Ok in Hf as (row & res & Hf); [|done].
    eapply updated_admissible in Hu as [Ha _]; [|done..].
    eapply written_wf; [by eapply Save_written|done..].
  - destruct (errors_Is err ErrRecordNotFound) eqn:Hn; [|done]. intros Hr. inv_ok Hr. simplify_eq.
    apply createResource_inv in E as (id & rrid & tx & r & E1 & E2 & _ & Hc & Hs).
    eapply written_wf; [by eapply Save_written| |done].
    eapply created_admissible; [done| | |exact Hc]; [by split; eauto|].
    eapply FindResourceByKeys_not_found; [done..|by rewrite Hn].
Qed.

Lemma delete_tx_wf e key txid (d d' : D) : db_wf d -> delete_tx e key txid d = Ok d' -> db_wf d'.
Proof.
  intros Hwf. unfold delete_tx. simpl. destruct (FindResourceByKeys d _) as [r|err] eqn:Hf.
  - destruct (Resource_Delete _ _ _) as [r' [err|]] eqn:Hd; [done|]. intros Hs.
    apply FindResourceByKeys_Ok in Hf as (row & res & Hf); [|done].
    eapply written_wf; [by eapply Save_written|by eapply deleted_admissible|done].
  - by case_match.
Qed.

(** The committed transactions of the service and of its consumer. *)
Inductive step : D -> D -> Prop :=
  | step_report e cmd txid d d' op : fresh d e ->
      report_tx e cmd (key_of_command cmd) txid d = Ok (d', op) -> step d d'
  | step_delete e key txid d d' : delete_tx e key txid d = Ok d' -> step d d'
  | step_token id tok d d' : update_ktn id tok d = Ok d' -> step d d'.

Definition no_rows (d : D) : Prop :=
  resource_rows d = [] /\ reporter_resource_rows d = [] /\
  reporter_representation_rows d = [] /\ common_representation_rows d = [].

Lemma no_rows_wf d : no_rows d -> db_wf d.
Proof.
  intros (E1 & E2 & E3 & E4). split; rewrite ?E1, ?E2, ?E3, ?E4;
    try (by intros ? ?%not_elem_of_nil); try (by intros ? ? ?%not_elem_of_nil).
  - constructor.
  - intros id v w (c & Hc & _). rewrite E4 in Hc. by apply not_elem_of_nil in Hc.
Qed.

Lemma steps_wf (d0 d : D) : db_wf d0 -> rtc step d0 d -> db_wf d.
Proof.
  intros Hwf Hreach. induction Hreach as [|x y z Hs _ IH]; [done|].
  apply IH. destruct Hs; eauto using report_tx_wf, delete_tx_wf, update_ktn_wf.
Qed.

(** C7. In every state the service can reach from empty tables by committed
    reports, deletes and token updates, the tables are well formed: reporter
    keys are unique, every row has its parent, no representation is ahead of
    its reporter resource, and the common versions of each resource run from 0
    to the version the resource row shows. *)
Theorem reachable_tables_wf (d0 d : D) (Hempty : no_rows d0) (Hreach : rtc step d0 d) : db_wf d.
Proof. eauto using steps_wf, no_rows_wf. Qed.
End Writes.

(** * A run on the concrete tables *)

Definition ex_env (id rrid : uuid) : env :=
  {| env_now := 100; env_resourceId := Ok id; env_reporterResourceId := Ok rrid;
     env_eventId := Ok 900%Z; env_walId1 := Ok 901%Z; env_walId2 := Ok 902%Z;
     env_outboxMode := "wal" |}.

Definition ex_command (tx ws : string) : ReportResourceCommand :=
  {| rc_LocalResourceId := "host-1"; rc_ResourceType := "host"; rc_ReporterType := "hbi";
     rc_ReporterInstanceId := "i1"; rc_ApiHref := "http://x"; rc_ConsoleHref := None;
     rc_ReporterVersion := None; rc_TransactionId := Some tx;
     rc_ReporterRepresentation := Some (Some {["os" := JStr "linux"]});
     rc_CommonRepresentation := Some (Some {["workspace_id" := JStr ws]});
     rc_WriteVisibility := WriteVisibilityUnspecified |}.

Definition ex_created : result Tables :=
  let! p := report_tx (ex_env 1 2) (ex_command "tx-1" "w1") ex_host_key "tx-1" empty_tables in
  Ok p.1.

Definition ex_deleted : result Tables :=
  let! d := ex_created in delete_tx (ex_env 3 4) ex_host_key "tx-2" d.

Lemma ex_created_ids :
  match ex_created with
  | Ok d => bool_decide (rw_ID <$> tb_resources d = [1%Z] /\
                         rrw_ID <$> tb_reporter_resources d = [2%Z])
  | Err _ => false
  end = true.
Proof. vm_compute. reflexivity. Qed.

Lemma ex_fresh : fresh empty_tables (ex_env 1 2).
Proof. split; intros ? _ r Hr%not_elem_of_nil; destruct Hr. Defined.

Lemma ex_created_step d : ex_created = Ok d -> step empty_tables d.
Proof.
  unfold ex_created. intros Hd.
  destruct (report_tx _ _ _ _ _) as [[d1 op]|] eqn:E; [|done]. injection Hd as <-.
  exact (step_report (ex_env 1 2) (ex_command "tx-1" "w1") "tx-1" empty_tables d1 op
           ex_fresh E).
Defined.

Lemma ex_deleted_steps d : ex_deleted = Ok d -> rtc step empty_tables d.
Proof.
  unfold ex_deleted. intros Hd. destruct ex_created as [d1|] eqn:E; [|done].
  exact (rtc_l _ _ _ _ (ex_created_step _ E)
           (rtc_once _ _ (step_delete (ex_env 3 4) ex_host_key "tx-2" d1 d Hd))).
Defined.

Lemma ex_deleted_tables :
  bool_decide (((fun d => length (tb_reporter_representations d)) <$>
    match ex_deleted with Ok d => Some d | Err _ => None end) = Some 2%nat) = true.
Proof. vm_compute. reflexivity. Qed.

Lemma reachable_tables_wf_witness : exists d : Tables,
  length (reporter_representation_rows d) = 2%nat /\ db_wf d.
Proof.
  pose proof ex_deleted_tables as Hl. apply bool_decide_eq_true in Hl.
  destruct ex_deleted as [d|] eqn:E; [|discriminate Hl]. exists d. split.
  - injection Hl as Hl. exact Hl.
  - apply (reachable_tables_wf empty_tables d); [repeat split|exact (ex_deleted_steps d E)].
Defined.
