(* ===== verification/Duplicates.v ===== *)
(** Transaction ids: the error NON-UNIQUE TRANSACTION ID means what it says,
    and a report whose transaction id was processed is not applied again. *)
From stdpp Require Import base tactics list strings gmap sorting relations.
From Stdlib Require Import ZArith Lia Ascii.
From S2P Require Import Prelude GoStrings Common ReporterResource Representations Resource.
From S2P Require Import ResourceProps Json DataModel Outbox Store Tables StoreProps StoreInv.
From S2P Require Import Relations RelationsRepo Schema SchemaProps MetaAuthz Consumer Examples Usecase.
From S2P Require Import UsecaseProps.

Local Open Scope string_scope.

(** * Errors that are not Kratos errors *)

Lemma plain_wrap {A} msg (m : result A) : plain_result m -> plain_result (wrap_err msg m).
Proof. by destruct m as [|[]]. Qed.

Lemma plain_bind {A B} (m : result A) (k : A -> result B) :
  plain_result m -> (forall a, plain_result (k a)) -> plain_result (let! a := m in k a).
Proof. destruct m; simpl; auto. Qed.

Create HintDb plain.
#[export] Hint Resolve plain_wrap : plain.

(** Follow the binds of a computation; the leaves are library draws or error
    values of the code. *)
Ltac plain_step :=
  match goal with
  | |- plain_result (wrap_err _ _) => apply plain_wrap
  | |- plain_result (match ?m with Ok _ => _ | Err _ => _ end) =>
      apply plain_bind; [|intro]
  | |- plain_result (match ?x with _ => _ end) => destruct x
  | |- _ => solve [done | eauto with plain]
  end.
Ltac plain_auto := repeat plain_step.

Lemma plain_domain_resource now id l t rt ri tx rrid h c repd comd rver :
  plain_result (NewResource now id l t rt ri tx rrid h c repd comd rver).
Proof.
  unfold NewResource, NewReporterResource, NewReporterResourceKey,
    resourceEventAndRepresentations, NewResourceReportEvent, NewReporterDataRepresentation,
    NewCommonRepresentation. simpl. plain_auto.
Qed.

Lemma plain_event rid t rt ri tx l rrid h c repd comd rver v g cv :
  plain_result (resourceEventAndRepresentations rid t rt ri tx l rrid h c repd comd rver v g cv).
Proof.
  unfold resourceEventAndRepresentations, NewResourceReportEvent, NewReporterDataRepresentation,
    NewCommonRepresentation. plain_auto.
Qed.

Lemma plain_update now r key h c rver repd comd tx r' err :
  Resource_Update now r key h c rver repd comd tx = (r', Some err) -> plain err.
Proof.
  unfold Resource_Update, findReporterResourceToUpdateByKey.
  destruct (list_find _ _) as [[i rr]|]; [|by intros [= _ <-]].
  match goal with |- context [resourceEventAndRepresentations ?a1 ?a2 ?a3 ?a4 ?a5 ?a6 ?a7 ?a8 ?a9
                                ?b1 ?b2 ?b3 ?b4 ?b5 ?b6] =>
    pose proof (plain_event a1 a2 a3 a4 a5 a6 a7 a8 a9 b1 b2 b3 b4 b5 b6) as Hp;
    destruct (resourceEventAndRepresentations a1 a2 a3 a4 a5 a6 a7 a8 a9 b1 b2 b3 b4 b5 b6) end;
    [done|]. by intros [= _ <-].
Qed.

Lemma plain_not_duplicate err : plain err -> isDuplicateTransactionError err = false.
Proof. unfold plain, isDuplicateTransactionError. by intros ->. Qed.

Section Duplicates.
Context {D : Type} `{GormDB D} `{OutboxLib} `{!GormLaws D}.

(** The errors of drawing a UUID and of printing a time are not Kratos errors. *)
Record plain_env (e : env) : Prop := {
  pe_resource : plain_result (env_resourceId e);
  pe_reporter : plain_result (env_reporterResourceId e);
  pe_event : plain_result (env_eventId e);
  pe_wal1 : plain_result (env_walId1 e);
  pe_wal2 : plain_result (env_walId2 e);
  pe_time : forall t, plain_result (time_MarshalJSON t);
}.

Lemma plain_outbox mode v7 ev (d : D) :
  plain_result v7 -> plain_result (outboxPublisher mode v7 ev d).
Proof.
  intros Hv. unfold outboxPublisher, mapOutboxEventToWALMessage. plain_auto.
  apply emit_message_plain.
Qed.

Lemma plain_handle e ev op txid (d : D) :
  plain_env e -> plain_result (handleOutboxEvents e ev op txid d).
Proof.
  intros [? ? He ? ? Ht]. unfold handleOutboxEvents.
  apply plain_bind; [|intro; apply plain_bind; [|intro]; by apply plain_outbox].
  unfold NewOutboxEventsFromResourceEvent, convertResourceToTupleEvent, NewTupleEvent,
    convertResourceToResourceEvent, newResourceEvent, ResourceEvent_Marshal,
    EventResourceData_Marshal, EventResourceMetadata_Marshal, marshal_time, unmarshal_object.
  plain_auto.
Qed.

(** A duplicate error of [Save] comes from one of its two inserts. *)
Definition clashes (w : rows) (d : D) : Prop :=
  (exists p r, ro_representation w = Some p /\ r ∈ reporter_representation_rows d /\
     rpw_conflict p r) \/
  (exists c r, ro_common w = Some c /\ r ∈ common_representation_rows d /\ cw_conflict c r).

Lemma create_error_duplicate msg {A} (m : result A) err :
  plain_result m -> create_error msg m = Err err -> isDuplicateTransactionError err = true ->
  exists e, m = Err e /\ errors_Is e ErrDuplicatedKey.
Proof.
  unfold create_error. destruct m as [|e]; [done|]. simpl. intros Hp.
  destruct (errors_Is e ErrDuplicatedKey) eqn:E.
  - intros [= <-] _. exists e. by rewrite E.
  - intros [= <-]. by rewrite plain_not_duplicate.
Qed.

Lemma plain_contra {A} (m : result A) err (P : Prop) :
  plain_result m -> m = Err err -> isDuplicateTransactionError err = true -> P.
Proof. intros Hp ->. simpl in Hp. by rewrite plain_not_duplicate. Qed.

Lemma Save_duplicate e r op txid (d : D) err :
  plain_env e -> Save e r op txid d = Err err -> isDuplicateTransactionError err = true ->
  clashes (rows_of (env_now e) r) d.
Proof.
  intros He. unfold Save, rows_of. destruct (Resource_Serialize _ _) as [[[s1 s2] s3] s4].
  intros Hs Hdup.
  destruct (wrap_err "failed to save resource" _) as [d1|e1] eqn:E1; simplify_eq.
  2: { eapply plain_contra; [|exact E1|done]. apply plain_wrap, save_resource_plain. }
  destruct (wrap_err "failed to save reporter resource" _) as [d2|e2] eqn:E2; simplify_eq.
  2: { eapply plain_contra; [|exact E2|done]. apply plain_wrap, save_reporter_resource_plain. }
  apply wrap_err_ok, save_resource_ok in E1 as ((_ & F12 & F13 & _) & _).
  apply wrap_err_ok, save_reporter_resource_ok in E2 as ((_ & F22 & F23 & _) & _).
  match type of Hs with match ?m with _ => _ end = _ => destruct m as [d3|e3] eqn:E3 end;
    simplify_eq.
  2: { left. destruct s3 as [s3|]; [|done].
       eapply create_error_duplicate in E3 as (e' & E3 & Hd);
         [|apply create_reporter_representation_plain|done].
       eapply create_reporter_representation_only_dup in E3; [|done].
       apply Exists_exists in E3 as (x & Hx & Hc). rewrite F22, F12 in Hx. simpl. eauto. }
  apply create_representation_opt in E3 as ((_ & _ & F33 & _) & _).
  match type of Hs with match ?m with _ => _ end = _ => destruct m as [d4|e4] eqn:E4 end;
    simplify_eq.
  2: { right. destruct s4 as [s4|]; [|done].
       eapply create_error_duplicate in E4 as (e' & E4 & Hd);
         [|apply create_common_representation_plain|done].
       eapply create_common_representation_only_dup in E4; [|done].
       apply Exists_exists in E4 as (x & Hx & Hc). rewrite F33, F23, F13 in Hx. simpl. eauto. }
  exfalso. destruct op, (r_resourceDeleteEvents r), (r_resourceReportEvents r); try done;
    try (by injection Hs as <-);
    (eapply plain_contra; [by apply plain_handle|exact Hs|done]).
Qed.

(** A row of the tables carries the transaction id. *)
Definition processed (d : D) (tx : TransactionId) : Prop :=
  (exists r, r ∈ reporter_representation_rows d /\ rpw_TransactionId r = tx) \/
  (exists r, r ∈ common_representation_rows d /\ cw_TransactionId r = tx).

Lemma HasTransactionIdBeenProcessed_spec (d : D) tx b :
  HasTransactionIdBeenProcessed d tx = Ok b -> b = true <-> processed d tx.
Proof.
  unfold HasTransactionIdBeenProcessed. destruct (query_error d); [done|]. intros [= <-].
  rewrite orb_true_iff, !existsb_exists. setoid_rewrite <- list_elem_of_In.
  setoid_rewrite bool_decide_eq_true. done.
Qed.

(** The rows a report writes carry its transaction id, and there is one. *)
Definition carry (w : rows) (tx : TransactionId) : Prop :=
  (forall p, ro_representation w = Some p -> rpw_TransactionId p = tx) /\
  (forall c, ro_common w = Some c -> cw_TransactionId c = tx) /\
  (ro_representation w <> None \/ ro_common w <> None).

Lemma event_carry now ev rid rrid key repd comd rver v g cv tx r :
  event_of ev rid rrid key repd comd rver v g cv tx ->
  r_resourceReportEvents r = [ev] -> r_resourceDeleteEvents r = [] -> carry (rows_of now r) tx.
Proof.
  intros He Hr Hd.
  pose proof (event_common_row now _ _ _ _ _ _ _ _ _ _ _ _ He Hr) as Hc.
  pose proof (event_representation_row now _ _ _ _ _ _ _ _ _ _ _ _ He Hr Hd) as Hp.
  pose proof (ev_some _ _ _ _ _ _ _ _ _ _ _ He) as Hs. unfold carry.
  destruct (ro_representation _) as [p|], (ro_common _) as [c|]; split_all; try done;
    try (by left); try (by right); try (by intros ? [= <-]; apply Hp);
    try (by intros ? [= <-]; apply Hc). by destruct Hs.
Qed.

Lemma admissible_duplicate w tx (d : D) :
  db_wf d -> admissible d w -> carry w tx -> clashes w d -> processed d tx /\ tx <> "".
Proof.
  intros Hwf Ha (Hp & Hc & _) Hcl. destruct (admissible_no_clash _ _ Ha Hwf) as (_ & N1 & N2).
  destruct Hcl as [(p & r & E & Hr & Hcf)|(c & r & E & Hr & Hcf)].
  - apply (N1 _ _ E Hr) in Hcf as [E' Hne]. rewrite (Hp _ E) in *. split; [left; by exists r|done].
  - apply (N2 _ _ E Hr) in Hcf as [E' Hne]. rewrite (Hc _ E) in *. split; [right; by exists r|done].
Qed.

(** ** The closure of a report *)

Lemma plain_create e : plain_env e ->
  plain_result (NextResourceId e) /\ plain_result (NextReporterResourceId e).
Proof.
  intros [? ? _ _ _ _]. unfold NextResourceId, NextReporterResourceId, NewResourceId,
    NewReporterResourceId. split; plain_auto.
Qed.

Lemma createResource_duplicate e cmd txid (d : D) err : plain_env e ->
  createResource e cmd txid d = Err err -> isDuplicateTransactionError err = true ->
  exists id rrid tx r, env_resourceId e = Ok id /\ env_reporterResourceId e = Ok rrid /\
    rc_TransactionId cmd = Some tx /\
    created (env_now e) id rrid (key_of_command cmd) tx (rc_ReporterRepresentation cmd)
      (rc_CommonRepresentation cmd) (rc_ReporterVersion cmd) r /\
    clashes (rows_of (env_now e) r) d.
Proof.
  intros He. unfold createResource. simpl. intros Hc Hdup.
  destruct (plain_create e He) as [P1 P2].
  destruct (NextResourceId e) as [id|] eqn:E1; simpl in *; simplify_eq.
  2: by rewrite plain_not_duplicate in Hdup.
  destruct (NextReporterResourceId e) as [rrid|] eqn:E2; simpl in *; simplify_eq.
  2: by rewrite plain_not_duplicate in Hdup.
  destruct (rc_TransactionId cmd) as [tx|]; [|by simplify_eq].
  match type of Hc with match ?m with _ => _ end = _ =>
    assert (Hp : plain_result m) by apply plain_domain_resource; destruct m as [r|] eqn:E3 end;
    simplify_eq; [|by rewrite plain_not_duplicate in Hdup].
  apply NewResource_ok in E3. exists id, rrid, tx, r. split_all; try done.
  - unfold NextResourceId, NewResourceId in E1. by inv_ok E1; simplify_eq.
  - unfold NextReporterResourceId, NewReporterResourceId in E2. by inv_ok E2; simplify_eq.
  - by eapply Save_duplicate.
Qed.

Lemma updateResource_duplicate e cmd r txid (d : D) err : plain_env e ->
  updateResource e cmd r txid d = Err err -> isDuplicateTransactionError err = true ->
  exists tx r', rc_TransactionId cmd = Some tx /\
    Resource_Update (env_now e) r (key_of_command cmd) (rc_ApiHref cmd) (rc_ConsoleHref cmd)
      (rc_ReporterVersion cmd) (rc_ReporterRepresentation cmd) (rc_CommonRepresentation cmd) tx
    = (r', None) /\ clashes (rows_of (env_now e) r') d.
Proof.
  intros He. unfold updateResource. simpl. fold (key_of_command cmd). intros Hu Hdup.
  destruct (rc_TransactionId cmd) as [tx|]; [|by simplify_eq].
  destruct (Resource_Update _ _ _ _ _ _ _ _ _) as [r' [e'|]] eqn:E; simplify_eq.
  - apply plain_update in E. by rewrite (plain_not_duplicate (EWrap _ _)) in Hdup.
  - exists tx, r'. split_all; [done..|]. by eapply Save_duplicate.
Qed.

(** C21. In a well-formed database a report fails with NON-UNIQUE TRANSACTION
    ID only if a stored representation already carries its transaction id: the
    versions and generations it writes never collide with stored ones. *)
Theorem duplicate_error_is_transaction_id e cmd txid (d : D) err
    (Hwf : db_wf d) (Hfresh : fresh d e) (He : plain_env e)
    (Herr : report_tx e cmd (key_of_command cmd) txid d = Err err)
    (Hdup : isDuplicateTransactionError err = true) :
  exists tx, rc_TransactionId cmd = Some tx /\ tx <> "" /\ processed d tx.
Proof.
  unfold report_tx in Herr. simpl in Herr.
  destruct (FindResourceByKeys d _) as [r|err0] eqn:Hf.
  - destruct (updateResource e cmd r txid d) as [|err1] eqn:E; simplify_eq.
    apply updateResource_duplicate in E as (tx & r' & Htx & Hu & Hcl); [|done..].
    apply FindResourceByKeys_Ok in Hf as (row & res & Hf); [|done].
    eapply updated_admissible in Hu as (Ha & ev & Hev & Hdel & ? & ? & ? & ? & ? & He'); [|done..].
    exists tx. split; [done|]. apply and_comm.
    by eapply admissible_duplicate; [..|by eapply event_carry|].
  - destruct (errors_Is err0 ErrRecordNotFound) eqn:Hn.
    + destruct (createResource e cmd txid d) as [|err1] eqn:E; simplify_eq.
      apply createResource_duplicate in E as (id & rrid & tx & r & E1 & E2 & Htx & Hc & Hcl);
        [|done..].
      destruct (cr_event _ _ _ _ _ _ _ _ _ Hc) as (ev & Hev & He').
      exists tx. split; [done|]. apply and_comm. destruct Hfresh as [F1 F2].
      eapply admissible_duplicate; [done| |eapply event_carry; [exact He'|done|apply Hc]|done].
      eapply created_admissible; [done|by split; eauto| |exact Hc].
      eapply FindResourceByKeys_not_found; [done..|by rewrite Hn].
    + simplify_eq. rewrite plain_not_duplicate in Hdup; [done|]. unfold FindResourceByKeys in Hf.
      destruct (query_error d) as [e0|] eqn:Hq.
      * simplify_eq. by apply query_plain in Hq as [? _].
      * by break_in Hf.
Qed.

(** ** Replays *)

Lemma Save_processed e r op txid tx (d d' : D) :
  Save e r op txid d = Ok d' -> carry (rows_of (env_now e) r) tx -> processed d' tx.
Proof.
  intros Hw%Save_written (Hp & Hc & Hs). unfold processed.
  setoid_rewrite (wr_representation _ _ _ Hw). setoid_rewrite (wr_common _ _ _ Hw).
  setoid_rewrite elem_of_option_cons.
  destruct (ro_representation _) as [p|]; [left; exists p; auto|].
  destruct (ro_common _) as [c|]; [right; exists c; auto|]. by destruct Hs.
Qed.

Lemma report_tx_processed e cmd txid tx (d d' : D) op :
  report_tx e cmd (key_of_command cmd) txid d = Ok (d', op) ->
  rc_TransactionId cmd = Some tx -> processed d' tx.
Proof.
  unfold report_tx. simpl. intros Hr Htx.
  destruct (FindResourceByKeys d _) as [r|err0] eqn:Hf.
  - destruct (updateResource e cmd r txid d) as [d1|] eqn:E; simplify_eq.
    apply updateResource_inv in E as (tx' & r' & Htx' & Hu & Hs). simplify_eq.
    apply Resource_Update_ok in Hu as (i & rr & Hu).
    destruct (up_event _ _ _ _ _ _ _ _ _ _ _ _ Hu) as (ev & Hev & _ & _ & He).
    eapply Save_processed; [done|]. eapply event_carry; [exact He|done|].
    rewrite (up_deletes _ _ _ _ _ _ _ _ _ _ _ _ Hu). by eapply FindResourceByKeys_events.
  - destruct (errors_Is err0 ErrRecordNotFound); [|done].
    destruct (createResource e cmd txid d) as [d1|] eqn:E; simplify_eq.
    apply createResource_inv in E as (id & rrid & tx' & r & _ & _ & Htx' & Hc & Hs). simplify_eq.
    destruct (cr_event _ _ _ _ _ _ _ _ _ Hc) as (ev & Hev & He).
    eapply Save_processed; [done|]. eapply event_carry; [exact He|done|apply Hc].
Qed.

Lemma run_report_processed {S} `{SchemaRepository S} (uc : @Usecase S) w cmd txid tx (d d' : D) op :
  run_report uc w cmd (key_of_command cmd) txid d = (d', Ok op) ->
  rc_TransactionId cmd = Some tx -> processed d' tx.
Proof.
  unfold run_report, HandleSerializableTransaction. intros Hr Htx.
  pose proof (attempts_atomic (w_concurrent w) (w_commit w) (u_maxSerializationRetries uc) 0
    (fun i => report_tx (w_env w i) cmd (key_of_command cmd) txid) None d) as Ha.
  rewrite Hr in Ha. destruct Ha as (j & _ & _ & Ha). by eapply report_tx_processed.
Qed.

(** The service keeps the representations it has stored. *)
Lemma written_processed w (d d' : D) tx : written w d d' -> processed d tx -> processed d' tx.
Proof.
  intros [_ _ Hp Hc _ _]. unfold processed. setoid_rewrite Hp. setoid_rewrite Hc.
  setoid_rewrite elem_of_option_cons. naive_solver.
Qed.

Lemma step_processed (d d' : D) tx : step d d' -> processed d tx -> processed d' tx.
Proof.
  destruct 1 as [e cmd txid d d' op _ Hr|e key txid d d' Hr|id tok d d' Hr].
  - unfold report_tx in Hr. simpl in Hr. destruct (FindResourceByKeys d _) as [r|err].
    + destruct (updateResource e cmd r txid d) as [d1|] eqn:E; simplify_eq.
      apply updateResource_inv in E as (? & r' & _ & _ & Hs). by eapply written_processed, Save_written.
    + destruct (errors_Is err ErrRecordNotFound); [|done].
      destruct (createResource e cmd txid d) as [d1|] eqn:E; simplify_eq.
      apply createResource_inv in E as (? & ? & ? & r & _ & _ & _ & _ & Hs).
      by eapply written_processed, Save_written.
  - unfold delete_tx in Hr. simpl in Hr. destruct (FindResourceByKeys d _) as [r|err]; [|by case_match].
    destruct (Resource_Delete _ _ _) as [r' [?|]]; [done|]. by eapply written_processed, Save_written.
  - apply update_ktn_ok in Hr as ((_ & F2 & F3 & _) & _). unfold processed. by rewrite F2, F3.
Qed.

Lemma steps_processed (d d' : D) tx : rtc step d d' -> processed d tx -> processed d' tx.
Proof. induction 1; eauto using step_processed. Qed.

(** C9. Reports are idempotent when the idempotency check is enabled, as it is by
    default: once a report with a transaction id of its own has succeeded, and
    however many reports, deletes and token updates are committed afterwards,
    sending the same command again succeeds and leaves the database as it is,
    whatever ids, clock and concurrent transactions that call meets, provided
    that the database answers its query. *)
Theorem ReportResource_idempotent {S} `{SchemaRepository S} `{JsonSchemaLib}
    (uc : @Usecase S) ctx v7 r7 w w2 wait cmd tx (d d1 d2 : D)
    (Hon : uc_IdempotencyCheckEnabled (u_Config uc) = true)
    (Htx : rc_TransactionId cmd = Some tx) (Hne : tx <> "")
    (Hfirst : ReportResource uc ctx v7 r7 w w2 wait cmd d = (d1, Ok tt))
    (Hlater : rtc step d1 d2) (Hread : query_error d2 = None) :
  forall id r7' w' w2' wait',
    ReportResource uc ctx (Ok id) r7' w' w2' wait' cmd d2 = (d2, Ok tt).
Proof.
  intros id r7' w' w2' wait'. revert Hfirst. unfold ReportResource. simpl.
  destruct ctx as [[p [subject|]]|]; [|done..]. fold (key_of_command cmd).
  destruct (enforceMetaAuthzObject _ _ _ _); [|done].
  destruct (getNextTransactionID v7) as [txid|] eqn:Hv; [|done].
  destruct (ValidateReportAgainstSchema _ _ _ _ _); [|done]. rewrite Hon, Htx.
  assert (Htid : forall a : TransactionId, match tx with "" => a | _ => tx end = tx)
    by (by destruct tx). rewrite !Htid. clear Htid. intros Hfirst.
  enough (Hp : processed d1 tx).
  { apply (steps_processed _ _ _ Hlater) in Hp.
    assert (Hh : HasTransactionIdBeenProcessed d2 tx = Ok true); [|simpl; by rewrite Hh].
    destruct (HasTransactionIdBeenProcessed d2 tx) as [b|] eqn:Hb.
    - by apply (HasTransactionIdBeenProcessed_spec d2 tx b Hb) in Hp as ->.
    - unfold HasTransactionIdBeenProcessed in Hb. by rewrite Hread in Hb. }
  destruct (HasTransactionIdBeenProcessed d tx) as [[]|] eqn:Hh; [| |done].
  { injection Hfirst as <-. by apply (HasTransactionIdBeenProcessed_spec d tx true Hh). }
  change (key_of_command cmd) with (key_of_command (with_transaction_id cmd tx)) in Hfirst.
  destruct (run_report _ _ _ _ _ _) as [d3 [op|err]] eqn:Hrun; [|done].
  assert (d3 = d1) as -> by (by destruct (_ && _); simplify_eq).
  by eapply run_report_processed in Hrun.
Qed.
End Duplicates.

(** * Concrete calls *)

Definition ex_host_schemas : InMemorySchemaRepository :=
  {["host" := {| re_schema := {| rsr_resourceType := "host"; rsr_schema := Some DefaultSchema |};
                 re_reporters := {["hbi" := {| psr_resourceType := "host";
                   psr_reporterType := "hbi"; psr_schema := Some DefaultSchema |}]} |}]}.

Definition ex_usecase : @Usecase InMemorySchemaRepository :=
  {| u_schemas := ex_host_schemas; u_MetaAuthorizer := Some SimpleMetaAuthorizer_Check;
     u_Config := NewUsecaseConfig; u_ListenManager := false; u_SelfSubjectStrategy := None;
     u_maxSerializationRetries := 3 |}.

Definition ex_ctx : Ctx :=
  Some {| ac_Protocol := ProtocolGRPC;
          ac_Subject := Some {| cl_SubjectId := "svc"; cl_OrganizationId := ""; cl_Issuer := "";
                                cl_ClientID := "svc"; cl_AuthType := AuthTypeOIDC |} |}.

Definition ex_world (id rrid : uuid) : @world Tables :=
  {| w_concurrent _ d := d; w_commit _ := None; w_env _ := ex_env id rrid |}.

Lemma ex_plain_env id rrid : plain_env (ex_env id rrid).
Proof. by split. Defined.

(** The host is reported, then reported again with the same transaction id. *)
Definition ex_replay_error : result (Tables * eventOperationType) :=
  let! d := ex_created in report_tx (ex_env 3 4) (ex_command "tx-1" "w2") ex_host_key "tx-1" d.

Lemma ex_replay_fails :
  match ex_replay_error with Err err => isDuplicateTransactionError err | Ok _ => false end = true.
Proof. vm_compute. reflexivity. Qed.

Lemma ex_created_fresh d : ex_created = Ok d -> fresh d (ex_env 3 4).
Proof.
  intros E. pose proof ex_created_ids as Hids. rewrite E in Hids.
  apply bool_decide_eq_true in Hids as [H1 H2]. split; intros id Hid r Hr Heq; injection Hid as Hid.
  - apply (list_elem_of_fmap_2 rw_ID) in Hr. simpl in Hr. rewrite H1, Heq, <- Hid in Hr.
    apply list_elem_of_singleton in Hr. discriminate Hr.
  - apply (list_elem_of_fmap_2 rrw_ID) in Hr. simpl in Hr. rewrite H2, Heq, <- Hid in Hr.
    apply list_elem_of_singleton in Hr. discriminate Hr.
Defined.

Lemma ex_empty_wf : db_wf empty_tables.
Proof. apply no_rows_wf. repeat split. Qed.

Lemma duplicate_error_is_transaction_id_witness :
  exists d : Tables, exists tx, Some "tx-1" = Some tx /\ tx <> "" /\ processed d tx.
Proof.
  pose proof ex_replay_fails as Hf. unfold ex_replay_error in Hf.
  pose proof ex_created_ids as Hok.
  destruct ex_created as [d|] eqn:E; [|discriminate Hok]. exists d.
  destruct (report_tx _ _ _ _ d) as [|err] eqn:Hr; [discriminate Hf|].
  exact (duplicate_error_is_transaction_id (ex_env 3 4) (ex_command "tx-1" "w2") "tx-1" d err
    (steps_wf _ _ ex_empty_wf (rtc_once _ _ (ex_created_step d E))) (ex_created_fresh d E)
    (ex_plain_env 3 4) Hr Hf).
Defined.

Definition ex_report (d : Tables) (id rrid : uuid) : Tables * result unit :=
  let _ := ex_validator in
  ReportResource ex_usecase ex_ctx (Ok "tx-9") (Ok "tx-10") (ex_world id rrid) (ex_world 0 0) None
    (ex_command "tx-1" "w1") d.

Lemma ex_report_succeeds :
  bool_decide ((ex_report empty_tables 1 2).2 = Ok tt) &&
  bool_decide (tb_error (ex_report empty_tables 1 2).1 = None) = true.
Proof. vm_compute. reflexivity. Qed.

Lemma ReportResource_idempotent_witness :
  let d1 := (ex_report empty_tables 1 2).1 in ex_report d1 3 4 = (d1, Ok tt).
Proof.
  intros d1. pose proof ex_report_succeeds as Hs. apply andb_true_iff in Hs as [H1 H2].
  apply bool_decide_eq_true in H1. apply bool_decide_eq_true in H2.
  refine (@ReportResource_idempotent _ _ _ _ _ _ ex_validator ex_usecase ex_ctx (Ok "tx-9")
    (Ok "tx-10") (ex_world 1 2) (ex_world 0 0) None (ex_command "tx-1" "w1") "tx-1" empty_tables
    d1 d1 eq_refl eq_refl ltac:(discriminate) _ (rtc_refl _ _) _ "tx-9" (Ok "tx-10") (ex_world 3 4)
    (ex_world 0 0) None).
  - fold (ex_report empty_tables 1 2). unfold d1. rewrite <- H1. apply surjective_pairing.
  - unfold d1. simpl. rewrite H2. reflexivity.
Defined.
