(* ===== verification/OutboxProps.v ===== *)
(** The transactional outbox: a committed change and the messages that announce
    it are one transaction, and the announced versions are the stored ones. *)
From stdpp Require Import base tactics list strings gmap sorting relations.
From Stdlib Require Import ZArith Lia Ascii.
From S2P Require Import Prelude GoStrings Common ReporterResource Representations Resource.
From S2P Require Import ResourceProps Json DataModel Outbox Store Tables StoreProps StoreInv.
From S2P Require Import Relations RelationsRepo Schema MetaAuthz Consumer Examples Usecase UsecaseProps.

Local Open Scope string_scope.

Section OutboxProps.
Context {D : Type} `{GormDB D} `{OutboxLib} `{!GormLaws D}.

(** [Save] emits what its last part emits. *)
Lemma Save_emitted e r op txid (d d' : D) : Save e r op txid d = Ok d' ->
  exists d4, emitted d4 = emitted d /\
    match op with
    | OperationTypeDeleted =>
        match r_resourceDeleteEvents r with
        | [] => Ok d4
        | de :: _ => handleOutboxEvents e (DeleteEvent de) op txid d4
        end
    | _ =>
        match r_resourceReportEvents r with
        | [] => Err (EPanic "index out of range [0] with length 0")
        | re :: _ => handleOutboxEvents e (ReportEvent re) op txid d4
        end
    end = Ok d'.
Proof.
  unfold Save. destruct (Resource_Serialize _ _) as [[[s1 s2] s3] s4]. intros Hs.
  destruct (wrap_err "failed to save resource" _) as [d1|] eqn:E1; [|done].
  destruct (wrap_err "failed to save reporter resource" _) as [d2|] eqn:E2; [|done].
  match type of Hs with match ?m with _ => _ end = _ => destruct m as [d3|] eqn:E3; [|done] end.
  match type of Hs with match ?m with _ => _ end = _ => destruct m as [d4|] eqn:E4; [|done] end.
  apply wrap_err_ok, save_resource_ok in E1 as ((_ & _ & _ & F1) & _).
  apply wrap_err_ok, save_reporter_resource_ok in E2 as ((_ & _ & _ & F2) & _).
  apply create_representation_opt in E3 as ((_ & _ & _ & F3) & _).
  apply create_common_opt in E4 as ((_ & _ & _ & F4) & _).
  exists d4. split; [by rewrite F4, F3, F2, F1|done].
Qed.

Definition wal_message (id : string) (ev : OutboxEvent) : string * json :=
  (oe_AggregateType ev,
   walOutboxMessage_Marshal
     {| wm_ID := id; wm_AggregateType := oe_AggregateType ev; wm_AggregateID := oe_AggregateID ev;
        wm_Operation := op_string (oe_Operation ev); wm_TxID := oe_TxId ev;
        wm_Payload := oe_Payload ev |}).

Lemma outboxPublisher_wal v7 ev (d d' : D) : outboxPublisher "wal" v7 ev d = Ok d' ->
  exists id, emitted d' = (emitted d ++ [wal_message id ev])%list.
Proof.
  unfold outboxPublisher, mapOutboxEventToWALMessage. rewrite bool_decide_eq_true_2 by done.
  intros Hp. destruct (wrap_err "failed to create WAL message" _) as [msg|] eqn:E; [|done].
  apply wrap_err_ok in E. apply wrap_err_ok, emit_message_ok in Hp as [_ ->].
  match type of E with match ?m with _ => _ end = _ => destruct m as [id|]; [|done] end.
  injection E as <-. by eexists.
Qed.

Lemma handleOutboxEvents_wal e ev op txid (d d' : D) :
  env_outboxMode e = "wal" -> handleOutboxEvents e ev op txid d = Ok d' ->
  exists o1 o2 id1 id2,
    NewOutboxEventsFromResourceEvent (env_now e) (env_eventId e) ev op txid = Ok (o1, o2) /\
    emitted d' = (emitted d ++ [wal_message id1 o1; wal_message id2 o2])%list.
Proof.
  unfold handleOutboxEvents. intros ->.
  destruct (NewOutboxEventsFromResourceEvent _ _ _ _ _) as [[o1 o2]|]; [|done]. simpl. intros Hp.
  destruct (outboxPublisher _ _ o1 d) as [d1|] eqn:E; [|done].
  apply outboxPublisher_wal in E as [id1 E]. apply outboxPublisher_wal in Hp as [id2 Hp].
  exists o1, o2, id1, id2. split; [done|]. by rewrite Hp, E, <- (assoc_L app).
Qed.

(** The two events of a domain event. *)
Lemma NewOutboxEvents_shape now eid ev op txid o1 o2 :
  NewOutboxEventsFromResourceEvent now eid ev op txid = Ok (o1, o2) ->
  oe_AggregateType o1 = ResourceAggregateType /\ oe_Operation o1 = op /\
  oe_AggregateID o1 = oe_AggregateID o2 /\
  oe_AggregateType o2 = TupleAggregateType /\ oe_Operation o2 = op /\ oe_TxId o2 = txid /\
  unmarshal_object (TupleEvent_MarshalJSON
    {| te_reporterResourceKey := ev_ReporterResourceKey ev;
       te_commonVersion := ev_CurrentCommonVersion ev;
       te_reporterRepresentationVersion := ev_CurrentReporterRepresentationVersion ev |}) ∅
  = Ok (oe_Payload o2).
Proof.
  unfold NewOutboxEventsFromResourceEvent, convertResourceToTupleEvent. intros Hn.
  destruct (wrap_err "failed to convert resource to tuple event" _) as [pl|] eqn:E; [|done].
  apply wrap_err_ok in E.
  destruct (wrap_err "failed to create Tuple Event" _) as [te|] eqn:E2; [|done].
  apply wrap_err_ok in E, E2. unfold NewTupleEvent in E2.
  case_bool_decide; [done|]. destruct (is_nil _ && is_nil _); [done|]. injection E2 as <-.
  match type of Hn with match ?m with _ => _ end = _ => destruct m; [|done] end.
  by injection Hn as <- <-.
Qed.

(** ** Committed changes *)

(** The rows [p] and [c] were added, and the log got the resource event and a
    tuple event for the key with exactly their versions. *)
Definition announced (d d' : D) (key : ReporterResourceKey) (op : eventOperationType)
    (txid : TransactionId) (p : option ReporterRepresentationRow)
    (c : option CommonRepresentationRow) : Prop :=
  reporter_representation_rows d' ≡ₚ option_cons p (reporter_representation_rows d) /\
  common_representation_rows d' ≡ₚ option_cons c (common_representation_rows d) /\
  exists resourceMessage id aggregateID payload,
    emitted d' = (emitted d ++
      [(ResourceAggregateType, resourceMessage);
       (TupleAggregateType, walOutboxMessage_Marshal
          {| wm_ID := id; wm_AggregateType := TupleAggregateType; wm_AggregateID := aggregateID;
             wm_Operation := op_string op; wm_TxID := txid; wm_Payload := payload |})])%list /\
    unmarshal_object (TupleEvent_MarshalJSON
      {| te_reporterResourceKey := key; te_commonVersion := cw_Version <$> c;
         te_reporterRepresentationVersion := rpw_Version <$> p |}) ∅ = Ok payload.

Lemma handle_announced e ev op txid (d d4 d' : D) w :
  env_outboxMode e = "wal" -> emitted d4 = emitted d ->
  handleOutboxEvents e ev op txid d4 = Ok d' -> written w d d' ->
  cw_Version <$> ro_common w = ev_CurrentCommonVersion ev ->
  rpw_Version <$> ro_representation w = ev_CurrentReporterRepresentationVersion ev ->
  announced d d' (ev_ReporterResourceKey ev) op txid (ro_representation w) (ro_common w).
Proof.
  intros Hmode H4 Hh Hw Hc Hp. split; [apply Hw|]. split; [apply Hw|].
  apply handleOutboxEvents_wal in Hh as (o1 & o2 & id1 & id2 & Ho & He); [|done].
  apply NewOutboxEvents_shape in Ho as (A1 & _ & _ & A2 & O2 & T2 & Hpl).
  exists (wal_message id1 o1).2, id2, (oe_AggregateID o2), (oe_Payload o2).
  rewrite Hc, Hp. split; [|done]. rewrite He, H4. unfold wal_message. simpl.
  by rewrite A1, A2, O2, T2.
Qed.

(** What a transaction adds and says: with the outbox in mode [wal] the rows are
    announced, in any other mode nothing is emitted. *)
Definition committed (e : env) (d d' : D) (key : ReporterResourceKey) (op : eventOperationType)
    (txid : TransactionId) (p : option ReporterRepresentationRow)
    (c : option CommonRepresentationRow) : Prop :=
  if bool_decide (env_outboxMode e = "wal") then announced d d' key op txid p c
  else reporter_representation_rows d' ≡ₚ option_cons p (reporter_representation_rows d) /\
       common_representation_rows d' ≡ₚ option_cons c (common_representation_rows d) /\
       emitted d' = emitted d.

Lemma handle_silent e ev op txid (d d' : D) :
  env_outboxMode e <> "wal" -> handleOutboxEvents e ev op txid d = Ok d' -> d' = d.
Proof.
  intros Hm. unfold handleOutboxEvents, outboxPublisher. rewrite bool_decide_eq_false_2 by done.
  destruct (NewOutboxEventsFromResourceEvent _ _ _ _ _); [|done]. by intros [= ->].
Qed.

Lemma handle_committed e ev op txid (d d4 d' : D) w :
  emitted d4 = emitted d -> handleOutboxEvents e ev op txid d4 = Ok d' -> written w d d' ->
  cw_Version <$> ro_common w = ev_CurrentCommonVersion ev ->
  rpw_Version <$> ro_representation w = ev_CurrentReporterRepresentationVersion ev ->
  committed e d d' (ev_ReporterResourceKey ev) op txid (ro_representation w) (ro_common w).
Proof.
  intros H4 Hh Hw Hc Hp. unfold committed. case_bool_decide as Hm; [by eapply handle_announced|].
  split_all; [apply Hw|apply Hw|]. by apply handle_silent in Hh as ->.
Qed.

Lemma Save_report_committed e r op txid key ev (d d' : D) :
  op <> OperationTypeDeleted ->
  Save e r op txid d = Ok d' -> r_resourceReportEvents r = [ev] ->
  r_resourceDeleteEvents r = [] -> re_ReporterResourceKey ev = key ->
  committed e d d' key op txid (ro_representation (rows_of (env_now e) r))
    (ro_common (rows_of (env_now e) r)).
Proof.
  intros Hop Hs Hr Hd <-. pose proof (Save_written _ _ _ _ _ _ Hs) as Hw.
  apply Save_emitted in Hs as (d4 & H4 & Hs). rewrite Hr in Hs.
  apply (handle_committed e (ReportEvent ev) op txid d d4); [done| |exact Hw| |].
  - by destruct op.
  - unfold rows_of, Resource_Serialize. rewrite Hr. destruct (GetTimestamps r). simpl.
    unfold re_CurrentCommonVersion. by destruct (re_commonRepresentation ev).
  - unfold rows_of, Resource_Serialize. rewrite Hr, Hd. destruct (GetTimestamps r). simpl.
    unfold re_CurrentReporterRepresentationVersion. by destruct (re_reporterRepresentation ev).
Qed.

Lemma Save_report_announced e r op txid key ev (d d' : D) :
  env_outboxMode e = "wal" -> op <> OperationTypeDeleted ->
  Save e r op txid d = Ok d' -> r_resourceReportEvents r = [ev] ->
  r_resourceDeleteEvents r = [] -> re_ReporterResourceKey ev = key ->
  announced d d' key op txid (ro_representation (rows_of (env_now e) r))
    (ro_common (rows_of (env_now e) r)).
Proof.
  intros Hmode Hop Hs Hr Hd Hk. pose proof (Save_report_committed _ _ _ _ _ _ _ _ Hop Hs Hr Hd Hk) as Hc.
  unfold committed in Hc. by rewrite bool_decide_eq_true_2 in Hc.
Qed.

(** The rows [p] and [c] are the representations of the command, both or the
    one that it has; the first report of a resource without reporter data gets an
    empty reporter representation. *)
Definition reported (cmd : ReportResourceCommand) (op : eventOperationType)
    (p : option ReporterRepresentationRow) (c : option CommonRepresentationRow) : Prop :=
  match (match op with
         | OperationTypeCreated =>
             reporter_data (rc_ReporterRepresentation cmd) (rc_CommonRepresentation cmd)
         | _ => rc_ReporterRepresentation cmd
         end) with
  | Some data => exists row, p = Some row /\ rpw_Data row = data /\
      rpw_ReporterVersion row = rc_ReporterVersion cmd /\ rpw_Tombstone row = false /\
      Some (rpw_TransactionId row) = rc_TransactionId cmd
  | None => p = None
  end /\
  match rc_CommonRepresentation cmd with
  | Some data => exists row, c = Some row /\ cw_Data row = data /\
      cw_ReportedByReporterType row = rc_ReporterType cmd /\
      cw_ReportedByReporterInstance row = rc_ReporterInstanceId cmd /\
      Some (cw_TransactionId row) = rc_TransactionId cmd
  | None => c = None
  end.

Lemma event_reported now cmd op ev rid rrid repd v g cv tx r :
  event_of ev rid rrid (key_of_command cmd) repd (rc_CommonRepresentation cmd)
    (rc_ReporterVersion cmd) v g cv tx ->
  r_resourceReportEvents r = [ev] -> r_resourceDeleteEvents r = [] ->
  rc_TransactionId cmd = Some tx ->
  match op with
  | OperationTypeCreated =>
      reporter_data (rc_ReporterRepresentation cmd) (rc_CommonRepresentation cmd)
  | _ => rc_ReporterRepresentation cmd
  end = repd ->
  reported cmd op (ro_representation (rows_of now r)) (ro_common (rows_of now r)).
Proof.
  intros He Hr Hd Htx Hrep. unfold reported. rewrite Hrep, Htx.
  unfold rows_of, Resource_Serialize. rewrite Hr, Hd. destruct (GetTimestamps r) as [t1 t2]. simpl.
  rewrite (ev_reporter _ _ _ _ _ _ _ _ _ _ _ He), (ev_common _ _ _ _ _ _ _ _ _ _ _ He).
  split; [destruct repd|destruct (rc_CommonRepresentation cmd)]; try done; eexists; by split_all.
Qed.

(** C11. Every committed report is stored, and with the outbox in mode wal it is
    announced exactly once.  The transaction adds the representations of the
    command, with their data, reporter and transaction id, those that the
    command has and no others (a first report without reporter data gets an
    empty reporter representation).  In mode wal it also emits one resource
    event and one tuple event, and the tuple event names the reported key, the
    operation and the very versions that were stored; in any other mode, the
    default none included, it emits nothing. *)
Theorem report_announced e cmd txid (d d' : D) op
    (Hrun : report_tx e cmd (key_of_command cmd) txid d = Ok (d', op)) :
  exists p c, reported cmd op p c /\ committed e d d' (key_of_command cmd) op txid p c.
Proof.
  unfold report_tx in Hrun. simpl in Hrun.
  destruct (FindResourceByKeys d _) as [r|err] eqn:Hf.
  - destruct (updateResource e cmd r txid d) as [d1|] eqn:E; [|done]. injection Hrun as <- <-.
    apply updateResource_inv in E as (tx & r' & Htx & Hu & Hs).
    apply Resource_Update_ok in Hu as (i & rr & Hu).
    destruct (up_event _ _ _ _ _ _ _ _ _ _ _ _ Hu) as (ev & Hev & _ & _ & He).
    assert (Hdel : r_resourceDeleteEvents r' = []).
    { rewrite (up_deletes _ _ _ _ _ _ _ _ _ _ _ _ Hu). by eapply FindResourceByKeys_events. }
    do 2 eexists. split; [|eapply Save_report_committed; [done|exact Hs|exact Hev|exact Hdel|apply He]].
    by eapply event_reported.
  - destruct (errors_Is err ErrRecordNotFound); [|done].
    destruct (createResource e cmd txid d) as [d1|] eqn:E; [|done]. injection Hrun as <- <-.
    apply createResource_inv in E as (id & rrid & tx & r & _ & _ & Htx & Hc & Hs).
    destruct (cr_event _ _ _ _ _ _ _ _ _ Hc) as (ev & Hev & He).
    pose proof (cr_deletes _ _ _ _ _ _ _ _ _ Hc) as Hdel.
    do 2 eexists. split; [|eapply Save_report_committed; [done|exact Hs|exact Hev|exact Hdel|apply He]].
    by eapply event_reported.
Qed.

(** The rows of a committed delete, and what it announces. *)
Lemma delete_tx_inv e key txid (d d' : D) :
  delete_tx e key txid d = Ok d' ->
  exists r r', FindResourceByKeys d key = Ok r /\ Resource_Delete (env_now e) r key = (r', None) /\
    let w := rows_of (env_now e) r' in
    written w d d' /\ ro_common w = None /\
    match ro_representation w with
    | Some p => rpw_Tombstone p = true /\
        committed e d d' key OperationTypeDeleted txid (Some p) None
    | None => emitted d' = emitted d
    end.
Proof.
  intros Hrun. unfold delete_tx in Hrun. simpl in Hrun.
  destruct (FindResourceByKeys d key) as [r|err] eqn:Hf; [|by case_match].
  destruct (FindResourceByKeys_events _ _ _ Hf) as [Hdel (t1 & t2 & Hev)].
  destruct (Resource_Delete _ _ _) as [r' [err|]] eqn:Hd; [done|].
  exists r, r'. split; [done|]. split; [done|]. simpl.
  apply Resource_Delete_ok in Hd as (i & rr & _ & Hr').
  pose proof (Save_written _ _ _ _ _ _ Hrun) as Hw. split; [done|].
  apply Save_emitted in Hrun as (d4 & H4 & Hs).
  destruct (rr_tombstone rr).
  - subst r'. rewrite Hdel in Hs. injection Hs as <-.
    unfold rows_of, Resource_Serialize. rewrite Hev, Hdel. by destruct (GetTimestamps r).
  - destruct Hr' as (ev & _ & -> & _ & <- & Hde). simpl in Hs.
    eapply handle_committed in Hs; [|exact H4|exact Hw| |].
    + unfold rows_of, Resource_Serialize in *. simpl in *. rewrite Hev, Hde in *.
      destruct (GetTimestamps _). simpl in *. by split_all.
    + unfold rows_of, Resource_Serialize. simpl. rewrite Hev. by destruct (GetTimestamps _).
    + unfold rows_of, Resource_Serialize. simpl. by destruct (GetTimestamps _).
Qed.

(** The row [row'] is [row] as a tombstone, with its next version. *)
Definition tombstone_of (row row' : ReporterResourceRow) (p : ReporterRepresentationRow) : Prop :=
  rrw_ID row' = rrw_ID row /\ row_key row' = row_key row /\ rrw_Tombstone row' = true /\
  rpw_Tombstone p = true /\ rpw_ReporterResourceID p = rrw_ID row /\
  rpw_Version p = Version_Increment (rrw_RepresentationVersion row) /\
  rrw_RepresentationVersion row' = rpw_Version p /\ rrw_Generation row' = rrw_Generation row.

Lemma deleted_row now (d d' : D) key r row res r' : found d key r row res ->
  Resource_Delete now r key = (r', None) -> written (rows_of now r') d d' ->
  if rrw_Tombstone row then ro_representation (rows_of now r') = None
  else exists p row', ro_representation (rows_of now r') = Some p /\
         row' ∈ reporter_resource_rows d' /\ tombstone_of row row' p.
Proof.
  intros Hf (i & rr & Hi & Hr')%Resource_Delete_ok Hw.
  rewrite (found_first _ _ _ _ _ Hf) in Hi. injection Hi as <- <-.
  destruct (fo_reporters _ _ _ _ _ Hf) as [rest Hrest].
  destruct (fo_events _ _ _ _ _ Hf) as (t1 & t2 & Hev).
  change (rr_tombstone (rr_of_row d row res)) with (rrw_Tombstone row) in Hr'.
  destruct (rrw_Tombstone row) eqn:Ht.
  { subst r'. unfold rows_of, Resource_Serialize. rewrite Hev, (fo_deletes _ _ _ _ _ Hf).
    by destruct (GetTimestamps r). }
  destruct Hr' as (ev & _ & -> & _ & _ & Hde).
  destruct (wr_reporter _ _ _ Hw) as (row' & Hs & Hu).
  erewrite rows_of_reporter in Hs by (simpl; rewrite Hrest; done).
  destruct Hs as (S1 & S2 & S3 & S4 & S5 & S6 & S7 & S8 & S9 & S10 & S11).
  eexists _, row'. split; [|split].
  - unfold rows_of, Resource_Serialize. simpl. rewrite Hde. by destruct (GetTimestamps _).
  - apply (upserted_elem _ _ _ _ _ _ Hu). by left.
  - unfold tombstone_of, row_key. simpl in *. split_all; try done; congruence.
Qed.

(** C26. What a committed delete does.  In well-formed tables it finds a row of
    the key.  If the row is a tombstone, no representation is stored and nothing is
    emitted.  If it is not, the row becomes a tombstone with its next version,
    one tombstone representation with that version is stored, and no common
    one; and with the outbox in mode wal that deletion is announced once under
    the key, in any other mode nothing is emitted. *)
Theorem delete_announced e key txid (d d' : D) (Hwf : db_wf d)
    (Hrun : delete_tx e key txid d = Ok d') :
  exists row, row ∈ reporter_resource_rows d /\ buildReporterResourceKeyQuery key row = true /\
    if rrw_Tombstone row
    then emitted d' = emitted d /\
         reporter_representation_rows d' ≡ₚ reporter_representation_rows d /\
         common_representation_rows d' ≡ₚ common_representation_rows d
    else exists p row', row' ∈ reporter_resource_rows d' /\ tombstone_of row row' p /\
           committed e d d' key OperationTypeDeleted txid (Some p) None.
Proof.
  destruct (delete_tx_inv _ _ _ _ _ Hrun) as (r & r' & Hfind & Hd & Hw & Hn & Ha).
  destruct (FindResourceByKeys_Ok _ _ _ Hwf Hfind) as (row & res & Hf).
  exists row. split; [apply Hf|]. split; [apply Hf|].
  pose proof (deleted_row _ _ _ _ _ _ _ _ Hf Hd Hw) as Hrow.
  destruct (rrw_Tombstone row).
  - rewrite Hrow in Ha. split; [done|]. destruct Hw as [_ _ Hp Hc _ _].
    by rewrite Hn in Hc; rewrite Hrow in Hp.
  - destruct Hrow as (p & row' & Hp & Hin & Ht). rewrite Hp in Ha. exists p, row'.
    split; [done|]. split; [done|apply Ha].
Qed.
End OutboxProps.

(** * Concrete runs *)

Lemma report_announced_witness :
  exists (d' : Tables) op p c, reported (ex_command "tx-1" "w1") op p c /\
    announced empty_tables d' ex_host_key op "tx-1" p c.
Proof.
  pose proof ex_created_ids as Hok. unfold ex_created in Hok.
  destruct (report_tx (ex_env 1 2) (ex_command "tx-1" "w1") ex_host_key "tx-1" empty_tables)
    as [[d' op]|] eqn:E; [|discriminate Hok]. exists d', op.
  exact (report_announced (ex_env 1 2) (ex_command "tx-1" "w1") "tx-1" empty_tables d' op E).
Defined.

Lemma ex_created_wf d : ex_created = Ok d -> db_wf d.
Proof.
  intros Hd. pose proof (rtc_once _ _ (ex_created_step d Hd)) as Hs. clear Hd.
  by apply (steps_wf empty_tables d); [apply no_rows_wf|].
Qed.

Lemma ex_created_all_live :
  match ex_created with
  | Ok d => forallb (fun row => negb (rrw_Tombstone row)) (tb_reporter_resources d)
  | Err _ => false
  end = true.
Proof. vm_compute. reflexivity. Qed.

Lemma ex_created_live d row : ex_created = Ok d -> row ∈ reporter_resource_rows d ->
  rrw_Tombstone row = false.
Proof.
  intros Hd Hrow. pose proof ex_created_all_live as Hl. rewrite Hd in Hl. clear Hd.
  rewrite forallb_forall in Hl. by apply list_elem_of_In, Hl, negb_true_iff in Hrow.
Qed.

Lemma delete_announced_witness : exists (d d' : Tables) row p row',
  row ∈ reporter_resource_rows d /\ rrw_Tombstone row = false /\
  row' ∈ reporter_resource_rows d' /\ tombstone_of row row' p /\
  announced d d' ex_host_key OperationTypeDeleted "tx-2" (Some p) None.
Proof.
  pose proof ex_deleted_tables as Hok. unfold ex_deleted in Hok.
  destruct ex_created as [d|] eqn:Ec; [|discriminate Hok].
  destruct (delete_tx (ex_env 3 4) ex_host_key "tx-2" d) as [d'|] eqn:E; [|discriminate Hok].
  assert (Hwf : db_wf d) by exact (ex_created_wf d Ec).
  destruct (delete_announced (ex_env 3 4) ex_host_key "tx-2" d d' Hwf E) as (row & Hrow & _ & Hd).
  destruct (rrw_Tombstone row) eqn:Ht; [rewrite (ex_created_live d row Ec Hrow) in Ht; discriminate Ht|].
  destruct Hd as (p & row' & Hin & Htomb & Han). exists d, d', row, p, row'.
  split; [exact Hrow|]. split; [exact Ht|]. split; [exact Hin|]. split; [exact Htomb|exact Han].
Defined.
