(* ===== verification/TupleCrud.v ===== *)
(** internal/biz/usecase/tuples: the tuple operations kept for RBAC, each behind
    a meta-authorization of the tuple system.  Logs are dropped. *)
From stdpp Require Import base tactics list strings gmap.
From Stdlib Require Import ZArith Lia.
From S2P Require Import Prelude GoStrings Common ReporterResource Representations Relations.
From S2P Require Import RelationsRepo MetaAuthz.

Local Open Scope string_scope.

Module TupleCrud.
(** The package's own [FencingCheck] mirrors the model's. *)
Record UFencingCheck := { uf_LockId : LockId; uf_LockToken : LockToken }.

Record CreateTuplesCommand := {
  ct_Tuples : list RelationsTuple; ct_Upsert : bool; ct_FencingCheck : option UFencingCheck }.
Record DeleteTuplesCommand := {
  dt_Filter : TupleFilter; dt_FencingCheck : option UFencingCheck }.
Record ReadTuplesCommand := {
  rt_Filter : TupleFilter; rt_Pagination : option Pagination;
  rt_Consistency : option Consistency }.
Record AcquireLockCommand := { lk_LockId : LockId }.

Definition fencing_of (f : option UFencingCheck) : option FencingCheck :=
  (fun f => {| fc_lockId := uf_LockId f; fc_lockToken := uf_LockToken f |}) <$> f.

Section UseCase.
Context {T : Type} `{RelationsRepository T}.
Implicit Type t : T.

Definition CreateTuples (authorizer : option MetaAuthorizer) (ctx : Ctx)
    (cmd : CreateTuplesCommand) t : T * result ConsistencyToken :=
  match EnforceMetaAuthzObject ctx authorizer RelationCreateTuples TupleSystem with
  | Err err => (t, Err err)
  | Ok _ =>
      let '(t, res) := rel_CreateTuples (ct_Tuples cmd) (ct_Upsert cmd)
                         (fencing_of (ct_FencingCheck cmd)) t in
      (t, let! result := res in Ok (tr_consistencyToken result))
  end.

Definition DeleteTuples (authorizer : option MetaAuthorizer) (ctx : Ctx)
    (cmd : DeleteTuplesCommand) t : T * result ConsistencyToken :=
  match EnforceMetaAuthzObject ctx authorizer RelationDeleteTuples TupleSystem with
  | Err err => (t, Err err)
  | Ok _ =>
      let '(t, res) := rel_DeleteTuples (dt_Filter cmd) (fencing_of (dt_FencingCheck cmd)) t in
      (t, let! result := res in Ok (tr_consistencyToken result))
  end.

Definition ReadTuples (authorizer : option MetaAuthorizer) (ctx : Ctx)
    (cmd : ReadTuplesCommand) t : result (list ReadTuplesItem) :=
  check! EnforceMetaAuthzObject ctx authorizer RelationReadTuples TupleSystem in
  rel_ReadTuples t (rt_Filter cmd) (rt_Pagination cmd) (rt_Consistency cmd).

Definition AcquireLock (authorizer : option MetaAuthorizer) (ctx : Ctx)
    (cmd : AcquireLockCommand) t : T * result LockToken :=
  match EnforceMetaAuthzObject ctx authorizer RelationAcquireLock TupleSystem with
  | Err err => (t, Err err)
  | Ok _ =>
      let '(t, res) := rel_AcquireLock (lk_LockId cmd) t in
      (t, let! result := res in Ok (al_lockToken result))
  end.
End UseCase.
End TupleCrud.
