(* ===== verification/AccessProps.v ===== *)
(** Who may do what, and how fresh an answer is: the meta-authorizers, the self
    subject, admission of writes, the resolution of a consistency requirement,
    and bulk checks. *)
From stdpp Require Import base tactics list strings gmap sorting relations.
From Stdlib Require Import ZArith Lia Ascii.
From S2P Require Import Prelude GoStrings Common ReporterResource Representations Resource.
From S2P Require Import Json DataModel Outbox Store Tables StoreProps StoreInv.
From S2P Require Import Relations RelationsRepo Schema SchemaProps MetaAuthz Consumer Examples Usecase.
From S2P Require Import UsecaseProps Duplicates TupleCrud.

Local Open Scope string_scope.

(** * Meta-authorization *)

Lemma EnforceMetaAuthzObject_ok ctx authorizer relation obj :
  EnforceMetaAuthzObject ctx authorizer relation obj = Ok tt ->
  exists authz check, ctx = Some authz /\ authorizer = Some check /\
    check obj relation authz = Ok true.
Proof.
  unfold EnforceMetaAuthzObject. destruct ctx as [a|], authorizer as [c|]; try done.
  destruct (c obj relation a) as [[]|] eqn:E; [|done..]. by exists a, c.
Qed.

Lemma allowed_by_iff allowlist id :
  allowed_by allowlist id = true <-> "*" ∈ allowlist \/ id ∈ allowlist.
Proof.
  induction allowlist as [|a l IH]; simpl.
  - rewrite !elem_of_nil. by split; [|intros []].
  - rewrite !elem_of_cons. case_bool_decide; [subst; tauto|]. case_bool_decide; [subst; tauto|].
    rewrite IH. intuition congruence.
Qed.

(** The allowlist authorizer never fails, and it allows a request exactly
    when it comes over gRPC from an OIDC caller with a client id that the list
    names or that the wildcard covers; object and relation play no role. *)
Theorem WhitelistMetaAuthorizer_policy allowlist obj relation authz :
  exists allowed, WhitelistMetaAuthorizer_Check allowlist obj relation authz = Ok allowed /\
  (allowed = true <->
   exists c, ac_Subject authz = Some c /\ ac_Protocol authz = ProtocolGRPC /\
     cl_AuthType c = AuthTypeOIDC /\ cl_ClientID c <> "" /\
     ("*" ∈ allowlist \/ cl_ClientID c ∈ allowlist)).
Proof.
  unfold WhitelistMetaAuthorizer_Check, AuthzContext_IsAuthenticated, Claims_IsAuthenticated,
    isInAllowlist.
  destruct (ac_Subject authz) as [c|]; simpl; [|exists false; naive_solver].
  case_bool_decide as Hauth; simpl.
  2: { exists false. split; [done|]. split; [done|]. intros (x & Hx & _ & Ht & _).
       injection Hx as ->. rewrite Hauth in Ht. discriminate Ht. }
  case_bool_decide; simpl; [exists false; naive_solver|].
  case_bool_decide; simpl; [exists false; naive_solver|].
  eexists. split; [done|].
  case_bool_decide; [naive_solver|]. rewrite allowed_by_iff. naive_solver.
Qed.

(** The simple authorizer lets a caller check its own access only over
    HTTP with an x-rh-identity, and everything else only over gRPC. *)
Theorem SimpleMetaAuthorizer_policy obj relation authz :
  ac_Protocol authz = ProtocolGRPC \/ ac_Protocol authz = ProtocolHTTP ->
  exists allowed, SimpleMetaAuthorizer_Check obj relation authz = Ok allowed /\
  (allowed = true <->
   (relation = RelationCheckSelf /\ ac_Protocol authz = ProtocolHTTP /\
      exists c, ac_Subject authz = Some c /\ cl_AuthType c = AuthTypeXRhIdentity) \/
   (relation <> RelationCheckSelf /\ ac_Protocol authz = ProtocolGRPC)).
Proof.
  unfold SimpleMetaAuthorizer_Check, AuthzContext_IsAuthenticated, Claims_IsAuthenticated.
  intros Hp. rewrite bool_decide_eq_false_2 by (by destruct Hp as [-> | ->]).
  case_bool_decide as Hg.
  { eexists. split; [done|]. rewrite bool_decide_eq_true, Hg. split; [auto|].
    intros [(_ & Hh & _)|[? _]]; [discriminate Hh|done]. }
  destruct Hp as [?|Hp]; [done|]. rewrite Hp.
  destruct (ac_Subject authz) as [c|]; simpl; [|exists false; naive_solver].
  destruct (decide (cl_AuthType c = AuthTypeXRhIdentity)) as [Ht|Ht].
  - rewrite Ht. simpl. eexists. split; [done|]. rewrite bool_decide_eq_true. naive_solver.
  - rewrite (bool_decide_eq_false_2 (_ = AuthTypeXRhIdentity)), andb_false_r by done.
    exists false. naive_solver.
Qed.

Lemma SimpleMetaAuthorizer_policy_witness :
  exists allowed, SimpleMetaAuthorizer_Check TupleSystem RelationCheck
    {| ac_Protocol := ProtocolGRPC; ac_Subject := None |} = Ok allowed /\
  (allowed = true <->
   (RelationCheck = RelationCheckSelf /\ ProtocolGRPC = ProtocolHTTP /\
      exists c, @None Claims = Some c /\ cl_AuthType c = AuthTypeXRhIdentity) \/
   (RelationCheck <> RelationCheckSelf /\ ProtocolGRPC = ProtocolGRPC)).
Proof.
  apply (SimpleMetaAuthorizer_policy TupleSystem RelationCheck
    {| ac_Protocol := ProtocolGRPC; ac_Subject := None |}). left. reflexivity.
Defined.

(** * The self subject *)

Lemma deriveSubjectID_ok s authz id : deriveSubjectID (Some s) authz = Ok id -> id <> "" ->
  st_enabled s = true /\
  exists c domain, ac_Subject authz = Some c /\ domain <> "" /\ TrimSpace (cl_SubjectId c) <> "" /\
    id = domain +:+ "/" +:+ TrimSpace (cl_SubjectId c) /\
    (cl_AuthType c = AuthTypeXRhIdentity /\ domain = st_xRhIdentityDomain s \/
     cl_AuthType c = AuthTypeOIDC /\
       exists domains, st_oidcIssuerDomains s = Some domains /\
         domains !! cl_Issuer c = Some domain).
Proof.
  unfold deriveSubjectID. destruct (st_enabled s); [|done]. simpl. intros Hd Hne. split; [done|].
  destruct (AuthzContext_IsAuthenticated authz); simpl in Hd; [|by injection Hd as <-].
  destruct (ac_Subject authz) as [c|]; [|by injection Hd as <-]. exists c.
  case_bool_decide as Hx.
  - case_bool_decide; [done|]. case_bool_decide; [done|]. injection Hd as <-.
    exists (st_xRhIdentityDomain s). split_all; [done..|by left].
  - case_bool_decide as Ho; [|done]. case_bool_decide; [done|]. case_bool_decide as Hdom; [done|].
    case_bool_decide; [done|]. injection Hd as <-.
    exists (resolveOIDCIssuerDomain s (cl_Issuer c)). split_all; [done..|]. right.
    split; [done|]. unfold resolveOIDCIssuerDomain in *. case_bool_decide; [done|].
    destruct (st_oidcIssuerDomains s) as [ds|]; [|done]. exists ds. split; [done|].
    destruct (ds !! cl_Issuer c); [|done]. by case_bool_decide.
Qed.

(** The subject of a self check is a principal of rbac whose id is the
    trimmed subject of an authenticated caller, qualified by a domain that is
    not empty: the configured domain for x-rh-identity, the domain of the
    token's issuer for OIDC. *)
Theorem self_subject_qualified s authz sub
    (Hsub : SubjectFromAuthorizationContext (Some s) authz = Ok sub) :
  st_enabled s = true /\
  exists c domain, ac_Subject authz = Some c /\ domain <> "" /\ TrimSpace (cl_SubjectId c) <> "" /\
    (cl_AuthType c = AuthTypeXRhIdentity /\ domain = st_xRhIdentityDomain s \/
     cl_AuthType c = AuthTypeOIDC /\
       exists domains, st_oidcIssuerDomains s = Some domains /\
         domains !! cl_Issuer c = Some domain) /\
    sub_relation sub = None /\
    sub_resource sub =
      {| ref_resourceType := "principal";
         ref_resourceId := TrimSpace (domain +:+ "/" +:+ TrimSpace (cl_SubjectId c));
         ref_reporter := Some {| rref_reporterType := "rbac"; rref_instanceId := None |} |}.
Proof.
  unfold SubjectFromAuthorizationContext in Hsub.
  destruct (deriveSubjectID _ _) as [id|] eqn:Hid; [|done]. case_bool_decide as Hne; [done|].
  destruct (deriveSubjectID_ok s authz id Hid Hne) as (Hon & c & dom & Hc & Hd & Ht & -> & Hcase).
  split; [done|]. exists c, dom. do 4 (split; [done|]).
  unfold buildSubjectReference, NewLocalResourceId, new_trimmed in Hsub. inv_ok Hsub.
  apply wrap_err_ok in E. case_bool_decide; [done|]. injection E as <-.
  apply wrap_err_ok in E0, E1. vm_compute in E0, E1. by simplify_eq.
Qed.

Definition ex_strategy : RedHatRbacSelfSubjectStrategy :=
  {| st_enabled := true; st_xRhIdentityDomain := "redhat"; st_oidcIssuerDomains := None |}.

Definition ex_http_ctx : AuthzContext :=
  {| ac_Protocol := ProtocolHTTP;
     ac_Subject := Some {| cl_SubjectId := " u1 "; cl_OrganizationId := "o"; cl_Issuer := "";
                           cl_ClientID := ""; cl_AuthType := AuthTypeXRhIdentity |} |}.

Lemma self_subject_qualified_witness : exists sub,
  SubjectFromAuthorizationContext (Some ex_strategy) ex_http_ctx = Ok sub /\
  ref_resourceId (sub_resource sub) = "redhat/u1" /\ st_enabled ex_strategy = true.
Proof.
  eexists. split; [vm_compute; reflexivity|]. split; [reflexivity|].
  eapply (self_subject_qualified ex_strategy ex_http_ctx). vm_compute. reflexivity.
Defined.

(** * Admission of writes *)

Section Admission.
Context {D S : Type} `{GormDB D} `{OutboxLib} `{!GormLaws D} `{SchemaRepository S}
  `{JsonSchemaLib}.
Implicit Types (uc : @Usecase S) (d : D).

(** C27. A report changes the database only for an authenticated caller that
    the meta-authorizer allowed to report this very resource, with payloads
    that the schemas of the resource type and the reporter accept. *)
Theorem ReportResource_admitted uc ctx v7 r7 w w2 wait cmd d
    (Hchanged : (ReportResource uc ctx v7 r7 w w2 wait cmd d).1 <> d) :
  exists authz check, ctx = Some authz /\ is_Some (ac_Subject authz) /\
    u_MetaAuthorizer uc = Some check /\
    check (InventoryResource (rc_ReporterType cmd) (rc_ResourceType cmd) (rc_LocalResourceId cmd))
      RelationReportResource authz = Ok true /\
    ValidateReportAgainstSchema (u_schemas uc) (rc_ResourceType cmd) (rc_ReporterType cmd)
      (rc_CommonRepresentation cmd) (rc_ReporterRepresentation cmd) = Ok tt.
Proof.
  revert Hchanged. unfold ReportResource. simpl. destruct ctx as [[p [subject|]]|]; [|done..].
  destruct (enforceMetaAuthzObject uc _ _ _) as [[]|] eqn:Henf; [|done].
  unfold enforceMetaAuthzObject in Henf.
  apply EnforceMetaAuthzObject_ok in Henf as (authz & check & [= <-] & Hauth & Hcheck).
  destruct (getNextTransactionID v7) as [txid|]; [|done].
  destruct (ValidateReportAgainstSchema _ _ _ _ _) as [[]|] eqn:Hval; [|done].
  intros _. exists {| ac_Protocol := p; ac_Subject := Some subject |}, check.
  by split_all.
Qed.

(** A delete changes the database only for a caller that the
    meta-authorizer allowed to delete this very resource. *)
Lemma Delete_admitted uc ctx v7 w key d
    (Hchanged : (Delete uc ctx v7 w key d).1 <> d) :
  exists authz check, ctx = Some authz /\ u_MetaAuthorizer uc = Some check /\
    check (NewInventoryResourceFromKey key) RelationDeleteResource authz = Ok true.
Proof.
  revert Hchanged. unfold Delete.
  destruct (enforceMetaAuthzObject uc _ _ _) as [[]|] eqn:Henf; [|done].
  unfold enforceMetaAuthzObject in Henf.
  apply EnforceMetaAuthzObject_ok in Henf as (authz & check & -> & Hauth & Hcheck).
  intros _. by exists authz, check.
Qed.

(** * The tuple system *)

Inductive tuple_command :=
  | CmdCreate (c : TupleCrud.CreateTuplesCommand)
  | CmdDelete (c : TupleCrud.DeleteTuplesCommand)
  | CmdLock (c : TupleCrud.AcquireLockCommand).

Definition tuple_relation (c : tuple_command) : string :=
  match c with
  | CmdCreate _ => RelationCreateTuples
  | CmdDelete _ => RelationDeleteTuples
  | CmdLock _ => RelationAcquireLock
  end.

Definition run_tuple_command {T} `{RelationsRepository T} (authorizer : option MetaAuthorizer)
    (ctx : Ctx) (c : tuple_command) (t : T) : T :=
  match c with
  | CmdCreate c => (TupleCrud.CreateTuples authorizer ctx c t).1
  | CmdDelete c => (TupleCrud.DeleteTuples authorizer ctx c t).1
  | CmdLock c => (TupleCrud.AcquireLock authorizer ctx c t).1
  end.

(** The tuple endpoints change the relations backend only for a caller that the
    meta-authorizer allowed the very operation on the tuple system. *)
Lemma tuple_command_admitted {T} `{RelationsRepository T} authorizer ctx c (t : T)
    (Hchanged : run_tuple_command authorizer ctx c t <> t) :
  exists authz check, ctx = Some authz /\ authorizer = Some check /\
    check TupleSystem (tuple_relation c) authz = Ok true.
Proof.
  apply EnforceMetaAuthzObject_ok.
  destruct c; revert Hchanged; simpl;
    unfold TupleCrud.CreateTuples, TupleCrud.DeleteTuples, TupleCrud.AcquireLock;
    destruct (EnforceMetaAuthzObject _ _ _ _) as [[]|]; done.
Qed.

(** * Consistency *)

(** The key that a reference denotes. *)
Definition key_of_ref (ref : ResourceReference) : ReporterResourceKey :=
  {| localResourceID := ref_resourceId ref; resourceType := ref_resourceType ref;
     reporter :=
       {| reporterType := match ref_reporter ref with
                          | Some r => rref_reporterType r | None => "" end;
          reporterInstanceId := match ref_reporter ref with
                                | Some r => default "" (rref_instanceId r) | None => "" end |} |}.

Lemma reporterKeyFromResourceRef_key ref : reporterKeyFromResourceRef ref = Ok (key_of_ref ref).
Proof. unfold reporterKeyFromResourceRef, key_of_ref. by destruct (ref_reporter ref). Qed.

(** A requirement of "at least as acknowledged" becomes the consistency
    token stored with the referenced resource; without a token, or for a
    resource the inventory does not hold, it becomes minimize-latency. *)
Theorem resolveConsistency_acknowledged uc d ref override c
    (Hwf : db_wf d)
    (Hres : resolveConsistency uc d (Some atLeastAsAcknowledgedConsistency) ref override = Ok c) :
  (exists row res, row ∈ reporter_resource_rows d /\
     buildReporterResourceKeyQuery (key_of_ref ref) row = true /\
     res ∈ resource_rows d /\ rw_ID res = rrw_ResourceID row /\
     c = if bool_decide (rw_ConsistencyToken res = "") then minimizeLatencyConsistency
         else atLeastAsFreshConsistency (rw_ConsistencyToken res)) \/
  (c = minimizeLatencyConsistency /\
   forall row, row ∈ reporter_resource_rows d ->
     buildReporterResourceKeyQuery (key_of_ref ref) row = false).
Proof.
  unfold resolveConsistency, resolveFromDB, lookupConsistencyTokenFromDB in Hres. simpl in Hres.
  rewrite reporterKeyFromResourceRef_key in Hres. simpl in Hres.
  destruct (FindResourceByKeys d (key_of_ref ref)) as [r|err] eqn:Hf.
  - left. apply FindResourceByKeys_Ok in Hf as (row & res & Hf); [|done]. exists row, res.
    rewrite (fo_token _ _ _ _ _ Hf) in Hres. destruct Hf. split_all; [done..|].
    by case_bool_decide; injection Hres as <-.
  - right. destruct (errors_Is err ErrRecordNotFound) eqn:Hn; [|done].
    injection Hres as <-. split; [done|]. eapply FindResourceByKeys_not_found; [done..|by rewrite Hn].
Qed.
End Admission.

(** * Bulk checks *)

Lemma enforce_all_ok {S} (uc : @Usecase S) ctx relation refs :
  enforce_all uc ctx relation refs = Ok tt ->
  Forall (fun ref => enforce_ref uc ctx relation ref = Ok tt) refs.
Proof.
  induction refs as [|ref refs IH]; simpl; [constructor|].
  destruct (enforce_ref uc ctx relation ref) as [[]|] eqn:E; [|done]. auto.
Qed.

(** A bulk check answers every item, in the order of the request, with the
    answer a single check of that item gives at the same consistency, and only
    when the caller may check every item. *)
Theorem CheckBulk_pointwise {S} (uc : @Usecase S) ctx (s : SimpleRelationsRepository) cmd res
    (Hbulk : CheckBulk uc ctx s cmd = Ok res) :
  Forall2 (fun item pair =>
      up_Request pair = item /\ ui_Error (up_Result pair) = None /\
      enforce_ref uc ctx RelationCheckBulk (bi_Resource item) = Ok tt /\
      rel_Check s (NewRelationship (bi_Resource item) (bi_Relation item) (bi_Subject item))
        (bc_Consistency cmd)
      = Ok {| cr_allowed := ui_Allowed (up_Result pair);
              cr_consistencyToken := ur_ConsistencyToken res |})
    (bc_Items cmd) (ur_Pairs res).
Proof.
  unfold CheckBulk in Hbulk. case_bool_decide; [done|].
  destruct (enforce_all _ _ _ _) as [[]|] eqn:He; [|done]. apply enforce_all_ok, Forall_fmap in He.
  unfold bulk_result in Hbulk. simpl in Hbulk.
  destruct (validateBulkResultLength _ _); [|done]. injection Hbulk as <-. simpl.
  unfold Simple.bulk_pairs, checkBulkItemsToRelationships. rewrite <- !list_fmap_compose.
  apply Forall2_fmap_r, Forall_Forall2_diag. eapply Forall_impl; [exact He|].
  intros item Hi. simpl. split_all; try done. by destruct item.
Qed.

(** * Concrete calls *)

Lemma ex_report_changes :
  bool_decide (length (tb_resources (ex_report empty_tables 1 2).1) = 1%nat) = true.
Proof. vm_compute. reflexivity. Qed.

Lemma ReportResource_admitted_witness :
  ValidateReportAgainstSchema (H0 := ex_validator) ex_host_schemas "host" "hbi"
    (rc_CommonRepresentation (ex_command "tx-1" "w1"))
    (rc_ReporterRepresentation (ex_command "tx-1" "w1")) = Ok tt.
Proof.
  edestruct (ReportResource_admitted (H2 := ex_validator) ex_usecase ex_ctx (Ok "tx-9")
    (Ok "tx-10") (ex_world 1 2) (ex_world 0 0) None (ex_command "tx-1" "w1") empty_tables)
    as (authz & check & _ & _ & _ & _ & Hv); [|exact Hv].
  intros Heq. pose proof ex_report_changes as Hl. unfold ex_report in Hl. rewrite Heq in Hl.
  vm_compute in Hl. discriminate Hl.
Defined.

(** The reported host, with the token the consumer stored. *)
Definition ex_tokened : result Tables :=
  let! d := ex_created in update_ktn "1" "zed-1" d.

Definition ex_host_ref : ResourceReference :=
  NewResourceReference "host" "host-1" (Some (NewReporterReference "hbi" (Some "i1"))).

Lemma ex_tokened_resolves :
  match ex_tokened with
  | Ok d => bool_decide (resolveConsistency ex_usecase d
              (Some atLeastAsAcknowledgedConsistency) ex_host_ref false
              = Ok (atLeastAsFreshConsistency "zed-1"))
  | Err _ => false
  end = true.
Proof. vm_compute. reflexivity. Qed.

Lemma ex_tokened_wf d : ex_tokened = Ok d -> db_wf d.
Proof.
  unfold ex_tokened. destruct ex_created as [d1|] eqn:E; [|discriminate]. intros Hu.
  exact (steps_wf _ _ ex_empty_wf (rtc_l _ _ _ _ (ex_created_step d1 E)
           (rtc_once _ _ (step_token _ _ d1 d Hu)))).
Qed.

Lemma resolveConsistency_acknowledged_witness : exists d : Tables, exists row res,
  row ∈ reporter_resource_rows d /\
  buildReporterResourceKeyQuery (key_of_ref ex_host_ref) row = true /\
  res ∈ resource_rows d /\ rw_ID res = rrw_ResourceID row /\
  atLeastAsFreshConsistency "zed-1" =
    if bool_decide (rw_ConsistencyToken res = "") then minimizeLatencyConsistency
    else atLeastAsFreshConsistency (rw_ConsistencyToken res).
Proof.
  pose proof ex_tokened_resolves as Hr.
  destruct ex_tokened as [d|] eqn:E; [|discriminate Hr]. apply bool_decide_eq_true in Hr.
  exists d.
  destruct (resolveConsistency_acknowledged ex_usecase d ex_host_ref false
    (atLeastAsFreshConsistency "zed-1") (ex_tokened_wf d E) Hr) as [Hl|[Hc _]];
    [exact Hl|discriminate Hc].
Defined.

Definition ex_bulk : CheckBulkCommand :=
  let sub := NewSubjectReferenceWithoutRelation
    (NewResourceReference "principal" "u1" (Some (NewReporterReference "rbac" None))) in
  {| bc_Items := [{| bi_Resource := ex_host_ref; bi_Relation := "view"; bi_Subject := sub |};
                  {| bi_Resource := ex_host_ref; bi_Relation := "edit"; bi_Subject := sub |}];
     bc_Consistency := None |}.

Definition ex_grants : SimpleRelationsRepository :=
  Simple.Grant Simple.NewSimpleRelationsRepository "u1" "view" "hbi" "host" "host-1".

Lemma CheckBulk_pointwise_witness : exists res,
  CheckBulk ex_usecase ex_ctx ex_grants ex_bulk = Ok res /\
  (fun p => ui_Allowed (up_Result p)) <$> ur_Pairs res = [true; false] /\
  length (bc_Items ex_bulk) = length (ur_Pairs res).
Proof.
  eexists. split; [vm_compute; reflexivity|]. split; [vm_compute; reflexivity|].
  eapply Forall2_length, (CheckBulk_pointwise ex_usecase ex_ctx ex_grants ex_bulk).
  vm_compute. reflexivity.
Defined.
