(* ===== verification/FetchProps.v ===== *)
(** What the consumer reads back: in a well-formed database the versions that a
    tuple event names are there, with their predecessor; and the two states in
    which the reads of the consumer fail. *)
From stdpp Require Import base tactics list strings gmap sorting relations.
From Stdlib Require Import ZArith Lia Ascii.
From S2P Require Import Prelude GoStrings Common ReporterResource Representations Resource.
From S2P Require Import Json DataModel Outbox Store Tables StoreProps StoreInv.
From S2P Require Import Relations RelationsRepo Schema SchemaProps MetaAuthz Consumer Examples Usecase.
From S2P Require Import UsecaseProps.

Local Open Scope string_scope.

(** The representation of a common row. *)
Definition rep_of_row (c : CommonRepresentationRow) : Representations :=
  {| commonData := cw_Data c; commonVersion := Some (cw_Version c);
     reporterData := None; reporterRepresentationVersion := None |}.

Lemma NewRepresentations_row c : has_data (Some (cw_Data c)) = true ->
  NewRepresentations (cw_Data c) (Some (cw_Version c)) None None = Ok (rep_of_row c).
Proof.
  intros (m & [= Hm] & Hne)%has_data_Some. unfold rep_of_row. rewrite Hm.
  by apply NewRepresentations_common.
Qed.

(** [o] is the representation of a row of [rows] with version [v], or the
    initial [o0] when there is none. *)
Definition picked (rows : list CommonRepresentationRow) (v : Z)
    (o0 o : option Representations) : Prop :=
  (exists c, c ∈ rows /\ cw_Version c = v /\ o = Some (rep_of_row c)) \/
  ((forall c, c ∈ rows -> cw_Version c <> v) /\ o = o0).

Lemma picked_skip c rows v o0 o :
  cw_Version c <> v -> picked rows v o0 o -> picked (c :: rows) v o0 o.
Proof.
  intros Hne [(x & Hx & Hv & ->)|[Hno ->]]; [left; exists x|right]; rewrite ?elem_of_cons; auto.
  split; [|done]. intros y [->|Hy]%elem_of_cons; auto.
Qed.

Lemma picked_hit c rows v o0 o :
  cw_Version c = v -> picked rows v (Some (rep_of_row c)) o -> picked (c :: rows) v o0 o.
Proof.
  intros Hv [(x & Hx & Hv' & ->)|[_ ->]]; left; [exists x|exists c]; rewrite elem_of_cons; auto.
Qed.

Lemma pick_versions_picked cv rows : (0 < cv)%Z -> is_u64 cv ->
  Forall (fun c => has_data (Some (cw_Data c)) = true) rows -> forall acc,
  exists cur prev, pick_versions cv rows acc = Ok (cur, prev) /\
    picked rows cv acc.1 cur /\ picked rows (cv - 1) acc.2 prev.
Proof.
  intros Hcv Hu Hdata. induction Hdata as [|c rows Hc _ IH]; intros [a1 a2]; simpl.
  { exists a1, a2. split; [done|]. split; right; (split; [|done]); by intros ? ?%not_elem_of_nil. }
  rewrite (NewRepresentations_row c Hc). simpl.
  rewrite (bool_decide_eq_true_2 (0 < cv)%Z) by done. simpl.
  rewrite u64_small by (unfold is_u64 in *; lia).
  case_bool_decide as E1; [|case_bool_decide as E2].
  - destruct (IH (Some (rep_of_row c), a2)) as (cur & prev & -> & H1 & H2).
    exists cur, prev. split; [done|]. split; [by apply picked_hit|].
    apply picked_skip; [lia|done].
  - destruct (IH (a1, Some (rep_of_row c))) as (cur & prev & -> & H1 & H2).
    exists cur, prev. split; [done|]. split; [by apply picked_skip|by apply picked_hit].
  - destruct (IH (a1, a2)) as (cur & prev & -> & H1 & H2).
    exists cur, prev. split; [done|]. split; by apply picked_skip.
Qed.

Section Fetch.
Context {D : Type} `{GormDB D} `{OutboxLib} `{!GormLaws D}.

(** A key with a reporter instance selects one row, and its common rows. *)
Lemma common_rows_elem (d : D) row c : db_wf d -> row ∈ reporter_resource_rows d ->
  rrw_ReporterInstanceID row <> "" ->
  c ∈ common_rows d (row_key row) <->
  c ∈ common_representation_rows d /\ cw_ResourceId c = rrw_ResourceID row.
Proof.
  intros Hwf Hrow Hinst. unfold common_rows. rewrite list_elem_of_bind.
  setoid_rewrite list_elem_of_filter. setoid_rewrite key_rows_elem. split.
  - intros (row' & [Hid Hc] & Hrow' & Hq). split; [done|].
    enough (row' = row) by by subst. apply (wf_rr_key _ Hwf); [done..|].
    revert Hq. unfold buildReporterResourceKeyQuery, rrw_key. simpl.
    rewrite !andb_true_iff, orb_true_iff, !bool_decide_eq_true.
    intros (((-> & ->) & ->) & [?| ->]); done.
  - intros [Hc Hid]. exists row. split_all; try done. by apply query_refl.
Qed.

(** For a tuple event of an update the consumer reads what was stored: in
    a well-formed database, for the key of a stored reporter resource and a
    stored common version above 0, the query yields the data of that version
    as current and the data of the version before it as previous. *)
Theorem fetch_stored_versions (d : D) row cv
    (Hwf : db_wf d) (Hread : query_error d = None)
    (Hrow : row ∈ reporter_resource_rows d) (Hinst : rrw_ReporterInstanceID row <> "")
    (Hat : common_at d (rrw_ResourceID row) cv) (Hcv : (0 < cv)%Z) :
  exists c p,
    FindCurrentAndPreviousVersionedRepresentations d (row_key row) (Some cv)
      OperationTypeUpdated = Ok (Some (rep_of_row c), Some (rep_of_row p)) /\
    c ∈ common_representation_rows d /\ cw_ResourceId c = rrw_ResourceID row /\
    cw_Version c = cv /\
    p ∈ common_representation_rows d /\ cw_ResourceId p = rrw_ResourceID row /\
    cw_Version p = (cv - 1)%Z.
Proof.
  assert (Hb : bigint cv).
  { destruct Hat as (c & Hc & _ & <-). by apply (wf_common_range _ Hwf). }
  destruct (bigint_u64 _ Hb) as [Hu _].
  assert (Hprev : common_at d (rrw_ResourceID row) (cv - 1)).
  { eapply wf_common_contiguous; [done|exact Hat|lia]. }
  unfold FindCurrentAndPreviousVersionedRepresentations, versions_query_error.
  rewrite Hread, bind_bigint by done.
  assert (Hu1 : u64 (cv - 1) = (cv - 1)%Z) by (apply u64_small; unfold is_u64 in *; lia).
  rewrite Hu1, bind_bigint by (unfold bigint in *; lia).
  set (rows := List.filter _ _).
  assert (Hrows : forall c, c ∈ rows <-> (c ∈ common_representation_rows d /\
            cw_ResourceId c = rrw_ResourceID row) /\ (cw_Version c = cv \/ cw_Version c = cv - 1)%Z).
  { intros c. unfold rows. rewrite !list_elem_of_In, filter_In, <- !list_elem_of_In.
    rewrite common_rows_elem by done. simpl.
    by rewrite orb_true_iff, !bool_decide_eq_true, Hu1. }
  destruct (pick_versions_picked cv rows Hcv Hu) with (acc := (@None Representations,
    @None Representations)) as (cur & prev & Hpick & H1 & H2).
  { apply Forall_forall. intros c [[Hc _] _]%Hrows. by apply (wf_common_data _ Hwf). }
  destruct Hat as (c & Hc & Hcid & Hcv'). destruct Hprev as (p & Hp & Hpid & Hpv).
  destruct H1 as [(c' & Hc' & Hv1 & ->)|[Hno _]]; [|by destruct (Hno c); [apply Hrows; auto|]].
  destruct H2 as [(p' & Hp' & Hv2 & ->)|[Hno _]]; [|by destruct (Hno p); [apply Hrows; auto|]].
  exists c', p'. apply Hrows in Hc' as [[? ?] _], Hp' as [[? ?] _]. by rewrite Hpick.
Qed.
End Fetch.

(** * Reads that fail *)

Section Failures.
Context {D : Type} `{GormDB D} `{OutboxLib} `{!GormLaws D}.

(** For a resource that never had common data the read of the consumer on
    a delete fails: no row is scanned, and the zero row has no data. *)
Theorem FindLatestRepresentations_without_common (d : D) row
    (Hwf : db_wf d) (Hread : query_error d = None)
    (Hrow : row ∈ reporter_resource_rows d) (Hinst : rrw_ReporterInstanceID row <> "")
    (Hnone : forall v, ~ common_at d (rrw_ResourceID row) v) :
  exists err, FindLatestRepresentations d (row_key row) = Err err.
Proof.
  unfold FindLatestRepresentations. rewrite Hread.
  assert (Hnil : common_rows d (row_key row) = []).
  { apply elem_of_nil_inv. intros c [Hc Hid]%common_rows_elem; [|done..].
    apply (Hnone (cw_Version c)). by exists c. }
  rewrite Hnil. by eexists.
Qed.
End Failures.

(** * Concrete histories *)

Definition with_common (common : option Representation) (cmd : ReportResourceCommand)
    : ReportResourceCommand :=
  {| rc_LocalResourceId := rc_LocalResourceId cmd; rc_ResourceType := rc_ResourceType cmd;
     rc_ReporterType := rc_ReporterType cmd; rc_ReporterInstanceId := rc_ReporterInstanceId cmd;
     rc_ApiHref := rc_ApiHref cmd; rc_ConsoleHref := rc_ConsoleHref cmd;
     rc_ReporterVersion := rc_ReporterVersion cmd; rc_TransactionId := rc_TransactionId cmd;
     rc_ReporterRepresentation := rc_ReporterRepresentation cmd;
     rc_CommonRepresentation := common; rc_WriteVisibility := rc_WriteVisibility cmd |}.

(** A history: each command is reported in turn, with fresh ids. *)
Fixpoint ex_reports (cmds : list ReportResourceCommand) (id : Z) (d : Tables) : result Tables :=
  match cmds with
  | [] => Ok d
  | cmd :: rest =>
      let! p := report_tx (ex_env id (id + 1)) cmd (key_of_command cmd) "tx" d in
      ex_reports rest (id + 2) p.1
  end.

(** Every id of the tables is below [id]. *)
Definition ids_below (id : Z) (d : Tables) : bool :=
  forallb (fun r => rw_ID r <? id)%Z (tb_resources d) &&
  forallb (fun r => rrw_ID r <? id + 1)%Z (tb_reporter_resources d).

Fixpoint ex_all_fresh (cmds : list ReportResourceCommand) (id : Z) (d : Tables) : bool :=
  match cmds with
  | [] => true
  | cmd :: rest =>
      ids_below id d &&
      match report_tx (ex_env id (id + 1)) cmd (key_of_command cmd) "tx" d with
      | Ok p => ex_all_fresh rest (id + 2) p.1
      | Err _ => true
      end
  end.

Lemma ids_below_fresh id d : ids_below id d = true -> fresh d (ex_env id (id + 1)).
Proof.
  unfold ids_below. rewrite andb_true_iff, !forallb_forall. setoid_rewrite <- list_elem_of_In.
  setoid_rewrite Z.ltb_lt. intros [H1 H2].
  split; simpl; intros i [= <-] r Hr; [specialize (H1 r Hr)|specialize (H2 r Hr)]; lia.
Qed.

Lemma ex_reports_steps cmds id d d' : ex_all_fresh cmds id d = true ->
  ex_reports cmds id d = Ok d' -> rtc step d d'.
Proof.
  revert id d. induction cmds as [|cmd rest IH]; intros id d; simpl.
  { intros _ [= <-]. apply rtc_refl. }
  intros [Hid Hrest]%andb_true_iff Hr.
  destruct (report_tx _ _ _ _ _) as [[d1 op]|] eqn:E; [|done].
  eapply rtc_l; [|by eapply IH]. by eapply step_report; [apply ids_below_fresh|].
Qed.

(** A host that moves from w1 to w2, and one reported without common data. *)
Definition ex_move : list ReportResourceCommand :=
  [ex_command "tx-1" "w1"; ex_command "tx-2" "w2"].
Definition ex_bare : list ReportResourceCommand := [with_common None (ex_command "tx-1" "")].

(** The ids and versions a history leaves. *)
Definition ex_shape (cmds : list ReportResourceCommand) (commons : list (Z * Z)) : bool :=
  match ex_reports cmds 1 empty_tables with
  | Ok d => ex_all_fresh cmds 1 empty_tables &&
      bool_decide ((fun r => (rrw_ReporterInstanceID r, rrw_ResourceID r))
                     <$> tb_reporter_resources d = [("i1", 1%Z)] /\
                   row_key <$> tb_reporter_resources d = [ex_host_key] /\
                   cw_key <$> tb_common_representations d = commons /\ tb_error d = None)
  | Err _ => false
  end.

Lemma ex_shape_inv cmds commons : ex_shape cmds commons = true ->
  exists (d : Tables) row, rtc step empty_tables d /\ row ∈ reporter_resource_rows d /\
    rrw_ReporterInstanceID row = "i1" /\ rrw_ResourceID row = 1%Z /\ row_key row = ex_host_key /\
    query_error d = None /\ cw_key <$> common_representation_rows d = commons.
Proof.
  unfold ex_shape. destruct (ex_reports cmds 1 empty_tables) as [d|] eqn:E; [|done].
  intros [Hf (H1 & Hk & H2 & H3)%bool_decide_eq_true]%andb_true_iff. exists d. simpl.
  destruct (tb_reporter_resources d) as [|row [|? ?]]; try done. exists row.
  injection H1 as H1 H1'. simpl in Hk. apply (f_equal head) in Hk. simpl in Hk.
  rewrite H3, list_elem_of_singleton.
  split; [exact (ex_reports_steps cmds 1 empty_tables d Hf E)|]. split_all; [done..| |done|done].
  by apply (inj Some).
Qed.

Lemma common_at_keys (d : Tables) commons id v :
  cw_key <$> common_representation_rows d = commons ->
  common_at d id v <-> (id, v) ∈ commons.
Proof.
  intros <-. rewrite list_elem_of_fmap. unfold common_at, cw_key. split.
  - intros (c & Hc & <- & <-). by exists c.
  - intros (c & [= -> ->] & Hc). by exists c.
Qed.

Lemma fetch_stored_versions_witness : exists d : Tables, exists c p,
  FindCurrentAndPreviousVersionedRepresentations d ex_host_key (Some 1%Z)
    OperationTypeUpdated = Ok (Some (rep_of_row c), Some (rep_of_row p)) /\
  cw_Version c = 1%Z /\ cw_Version p = 0%Z.
Proof.
  destruct (ex_shape_inv ex_move [(1, 1); (1, 0)]%Z ltac:(vm_compute; reflexivity))
    as (d & row & Hst & Hrow & Hi & Hid & Hk & Hq & Hc).
  destruct (fetch_stored_versions d row 1) as (c & p & Hf & _ & _ & Hv & _ & _ & Hv').
  - exact (steps_wf _ _ (no_rows_wf empty_tables ltac:(repeat split)) Hst).
  - exact Hq.
  - exact Hrow.
  - rewrite Hi. discriminate.
  - rewrite Hid. apply (common_at_keys _ _ _ _ Hc). left.
  - lia.
  - exists d, c, p. rewrite Hk in Hf. exact (conj Hf (conj Hv Hv')).
Defined.

Lemma FindLatestRepresentations_without_common_witness : exists d : Tables, exists err,
  FindLatestRepresentations d ex_host_key = Err err.
Proof.
  destruct (ex_shape_inv ex_bare [] ltac:(vm_compute; reflexivity))
    as (d & row & Hst & Hrow & Hi & Hid & Hk & Hq & Hc).
  exists d. rewrite <- Hk. apply (FindLatestRepresentations_without_common d row).
  - exact (steps_wf _ _ (no_rows_wf empty_tables ltac:(repeat split)) Hst).
  - exact Hq.
  - exact Hrow.
  - rewrite Hi. discriminate.
  - intros v Hv. apply (common_at_keys _ _ _ _ Hc) in Hv. by apply not_elem_of_nil in Hv.
Defined.
