(* ===== verification/Convergence.v ===== *)
(** The whole pipeline: committed reports, the log of their tuple events and the
    consumer that replays it.  However reports, failures, restarts and
    redeliveries are interleaved, once the log is consumed the tuple store holds
    the tuples of the last stored version of a resource and no other tuple of
    that resource. *)
From stdpp Require Import base tactics list strings gmap sorting relations.
From Stdlib Require Import ZArith Lia Ascii.
From S2P Require Import Prelude GoStrings Common ReporterResource Representations Resource.
From S2P Require Import ResourceProps Json DataModel Outbox Store Tables StoreProps StoreInv.
From S2P Require Import Relations RelationsRepo RelationsRepoProps Schema SchemaProps MetaAuthz Consumer Examples.
From S2P Require Import ConsumerProps Replication Usecase UsecaseProps OutboxProps FetchProps.

Local Open Scope string_scope.

(** * The stored versions of a key *)

Lemma head_unique {A} (l : list A) x :
  (forall y z, y ∈ l -> z ∈ l -> y = z) -> head l = Some x <-> x ∈ l.
Proof.
  intros Hu. destruct l as [|y l]; simpl; [by rewrite elem_of_nil|]. split.
  - intros [= ->]. left.
  - intros Hx. f_equal. apply Hu; [left|done].
Qed.

Section Versions.
Context {D : Type} `{GormDB D} `{OutboxLib} `{!GormLaws D}.

(** The common row with version [v] of the resource that [key] reports. *)
Definition version_row (d : D) (key : ReporterResourceKey) (v : Z)
    : option CommonRepresentationRow :=
  head (filter (fun c => cw_Version c = v) (common_rows d key)).

(** [c] belongs to the resource that [key] reports. *)
Definition belongs (d : D) (key : ReporterResourceKey) (c : CommonRepresentationRow) : Prop :=
  exists row, row ∈ reporter_resource_rows d /\ row_key row = key /\
    cw_ResourceId c = rrw_ResourceID row.

Lemma query_key key row : reporterInstanceId (reporter key) <> "" ->
  buildReporterResourceKeyQuery key row = true <-> row_key row = key.
Proof.
  intros Hi. split.
  - unfold buildReporterResourceKeyQuery.
    rewrite !andb_true_iff, orb_true_iff, !bool_decide_eq_true.
    destruct key as [l t [rt ri]]. unfold row_key. simpl in *.
    intros (((-> & ->) & ->) & [?| ->]); done.
  - intros <-. by apply query_refl.
Qed.

Lemma row_key_inj r1 r2 : row_key r1 = row_key r2 <-> rrw_key r1 = rrw_key r2.
Proof. unfold row_key, rrw_key. split; [by intros [= -> -> -> ->]|by intros [= -> -> -> ->]]. Qed.

Lemma version_row_Some (d : D) key v c : db_wf d -> reporterInstanceId (reporter key) <> "" ->
  version_row d key v = Some c <->
  c ∈ common_representation_rows d /\ cw_Version c = v /\ belongs d key c.
Proof.
  intros Hwf Hi.
  assert (Hin : forall c, c ∈ filter (fun c => cw_Version c = v) (common_rows d key) <->
    c ∈ common_representation_rows d /\ cw_Version c = v /\ belongs d key c).
  { intros x. rewrite list_elem_of_filter. unfold common_rows, belongs.
    rewrite list_elem_of_bind. setoid_rewrite list_elem_of_filter. setoid_rewrite key_rows_elem.
    setoid_rewrite query_key; [|done..]. naive_solver. }
  unfold version_row. rewrite head_unique; [apply Hin|].
  intros y z (Hy & Hyv & ry & ? & ? & Hyr)%Hin (Hz & Hzv & rz & ? & ? & Hzr)%Hin.
  apply (wf_common_key _ Hwf); [done..|]. unfold cw_key. rewrite Hyr, Hzr, Hyv, Hzv.
  do 2 f_equal. apply (wf_rr_key _ Hwf); [done..|]. apply row_key_inj. congruence.
Qed.

(** ** What a transaction does to them *)

(** The rows [w] were saved for a row that [key] selects. *)
Record effect (d d' : D) (key : ReporterResourceKey) (w : rows) : Prop := {
  ef_wf : db_wf d;
  ef_written : written w d d';
  ef_admissible : admissible d w;
  ef_query : buildReporterResourceKeyQuery key (ro_reporter w) = true;
  ef_keeps : forall r, r ∈ reporter_resource_rows d -> rrw_ID r = rrw_ID (ro_reporter w) ->
    row_key r = row_key (ro_reporter w);
  ef_known : forall u, common_at d (rw_ID (ro_resource w)) u ->
    exists r, r ∈ reporter_resource_rows d /\ rrw_ID r = rrw_ID (ro_reporter w);
}.

Lemma effect_wf d d' key w : effect d d' key w -> db_wf d'.
Proof. intros [? ? ? _ _ _]. by eapply written_wf. Qed.

(** In the tables before, the common versions of the saved resource are those
    of the key of its row. *)
Lemma effect_common_at d d' key w c : effect d d' key w ->
  c ∈ common_representation_rows d ->
  belongs d (row_key (ro_reporter w)) c <-> cw_ResourceId c = rw_ID (ro_resource w).
Proof.
  intros He Hc. pose proof (ef_admissible _ _ _ _ He) as Ha. split.
  - intros (r & Hr & Hk%row_key_inj & ->). by apply (ad_same _ _ Ha), (ad_key _ _ Ha).
  - intros Hid. destruct (ef_known _ _ _ _ He (cw_Version c)) as (r & Hr & Hrid).
    { by exists c. }
    exists r. split_all; [done|by apply (ef_keeps _ _ _ _ He)|].
    rewrite Hid. symmetry. by apply (ad_same _ _ Ha).
Qed.

Lemma effect_rows d d' key w : effect d d' key w ->
  exists row, row_key row = row_key (ro_reporter w) /\
    rrw_ResourceID row = rw_ID (ro_resource w) /\
    forall r, r ∈ reporter_resource_rows d' <->
      r = row \/ r ∈ reporter_resource_rows d /\ rrw_ID r <> rrw_ID (ro_reporter w).
Proof.
  intros He. destruct (wr_reporter _ _ _ (ef_written _ _ _ _ He)) as (row & Hs & Hu).
  exists row. split_all.
  - apply row_key_inj. unfold rrw_key. by destruct Hs as (_ & -> & -> & -> & -> & _).
  - destruct Hs as (_ & _ & _ & _ & _ & <- & _). apply (ef_admissible _ _ _ _ He).
  - intros r. apply (upserted_elem _ _ _ _ _ _ Hu).
Qed.

Lemma effect_belongs_old d d' key w k c : effect d d' key w ->
  c ∈ common_representation_rows d -> belongs d' k c <-> belongs d k c.
Proof.
  intros He Hc. pose proof (ef_admissible _ _ _ _ He) as Ha.
  destruct (effect_rows _ _ _ _ He) as (row & Hk & Hr & Hu).
  unfold belongs. setoid_rewrite Hu. split.
  - intros (r & [->|[Hin _]] & <- & Hid); [|by exists r]. rewrite Hk.
    apply (effect_common_at _ _ _ _ _ He Hc). congruence.
  - intros (r & Hin & <- & Hid).
    destruct (decide (rrw_ID r = rrw_ID (ro_reporter w))) as [E|E]; [|by exists r; auto].
    exists row. split; [by left|]. rewrite Hk, Hr. split.
    + symmetry. by apply (ef_keeps _ _ _ _ He).
    + rewrite Hid. by apply (ad_same _ _ Ha).
Qed.

Lemma effect_belongs_new d d' key w k c : effect d d' key w -> ro_common w = Some c ->
  belongs d' k c <-> row_key (ro_reporter w) = k.
Proof.
  intros He Hc. pose proof (ef_admissible _ _ _ _ He) as Ha.
  destruct (ad_common _ _ Ha _ Hc) as (Hid & _).
  destruct (effect_rows _ _ _ _ He) as (row & Hk & Hr & Hu).
  unfold belongs. setoid_rewrite Hu. split.
  - intros (r & [->|[Hin _]] & <- & Hid'); [done|]. symmetry.
    apply (ef_keeps _ _ _ _ He); [done|]. apply (ad_same _ _ Ha); [done|]. congruence.
  - intros <-. exists row. split; [by left|]. split; congruence.
Qed.

(** The saved common row, if any, is a new version of the key of its row; all
    other versions of all keys stay. *)
Lemma effect_version_row d d' key w k v : effect d d' key w ->
  reporterInstanceId (reporter k) <> "" ->
  version_row d' k v =
  match ro_common w with
  | Some c => if decide (row_key (ro_reporter w) = k /\ cw_Version c = v) then Some c
              else version_row d k v
  | None => version_row d k v
  end.
Proof.
  intros He Hi. pose proof (ef_wf _ _ _ _ He) as Hwf. pose proof (effect_wf _ _ _ _ He) as Hwf'.
  apply option_eq. intros x. rewrite (version_row_Some d') by done.
  rewrite (wr_common _ _ _ (ef_written _ _ _ _ He)), elem_of_option_cons.
  assert (Hold : x ∈ common_representation_rows d /\ cw_Version x = v /\ belongs d' k x <->
                 version_row d k v = Some x).
  { rewrite version_row_Some by done. split; intros (Hx & ? & Hb); split_all; try done;
      by apply (effect_belongs_old _ _ _ _ _ _ He Hx). }
  destruct (ro_common w) as [c|] eqn:Hc; [|naive_solver].
  destruct (ad_common _ _ (ef_admissible _ _ _ _ He) _ Hc) as (Hid & _ & Hv & _).
  pose proof (effect_belongs_new _ _ _ _ k _ He Hc) as Hnew. case_decide as Hd.
  - destruct Hd as [<- <-]. split; [|by intros [= <-]; split_all; [left|..]; try done; apply Hnew].
    intros [[Hx|Hx] [Hxv Hb]]; [done|]. exfalso.
    apply (effect_belongs_old _ _ _ _ _ _ He Hx), (effect_common_at _ _ _ _ _ He Hx) in Hb.
    assert (Hat : common_at d (rw_ID (ro_resource w)) (cw_Version x)) by (by exists x).
    apply next_version_above in Hat. lia.
  - rewrite <- Hold. split; [|naive_solver]. intros [[[= <-]|Hx] [Hxv Hb]]; [|done].
    by destruct Hd; split; [apply Hnew|].
Qed.

(** The stored versions of [key] are 0 to [n - 1]. *)
Definition versions_counted (d : D) (key : ReporterResourceKey) (n : nat) : Prop :=
  forall v, is_Some (version_row d key v) <-> (0 <= v < Z.of_nat n)%Z.

Lemma effect_next d d' key w k n c : effect d d' key w ->
  reporterInstanceId (reporter k) <> "" -> versions_counted d k n ->
  ro_common w = Some c -> row_key (ro_reporter w) = k ->
  cw_Version c = Z.of_nat n /\ versions_counted d' k (S n).
Proof.
  unfold versions_counted. intros He Hi Hn Hc <-. pose proof (ef_wf _ _ _ _ He) as Hwf.
  assert (Hat : forall v, common_at d (rw_ID (ro_resource w)) v <-> (0 <= v < Z.of_nat n)%Z).
  { intros v. rewrite <- (Hn v). unfold is_Some. setoid_rewrite version_row_Some; [|done..].
    split; intros (x & Hx); exists x.
    - destruct Hx as (Hx & Hid & Hv). split_all; try done.
      by apply (effect_common_at _ _ _ _ _ He Hx).
    - destruct Hx as (Hx & Hv & Hb). split_all; try done.
      by apply (effect_common_at _ _ _ _ _ He Hx). }
  destruct (ad_common _ _ (ef_admissible _ _ _ _ He) _ Hc) as (_ & _ & Hv & _).
  assert (Hcv : cw_Version c = Z.of_nat n).
  { rewrite Hv. destruct (last_common_version d _) as [m|] eqn:E; simpl.
    - apply last_common_version_Some in E as [Hm Hmax]. apply Hat in Hm.
      specialize (Hmax (Z.of_nat n - 1)%Z). rewrite Hat in Hmax. lia.
    - destruct n as [|n]; [done|]. rewrite last_common_version_None in E.
      destruct (E 0%Z). apply Hat. lia. }
  split; [done|]. intros v. rewrite (effect_version_row _ _ _ _ _ _ He Hi), Hc.
  case_decide as Hd; [split; [destruct Hd; lia|by eexists]|].
  rewrite Hn. split; [lia|]. destruct (decide (v = Z.of_nat n)) as [->|]; [|lia].
  by destruct Hd.
Qed.

(** ** The transactions *)

Lemma query_ext key r1 r2 : row_key r1 = row_key r2 ->
  buildReporterResourceKeyQuery key r1 = buildReporterResourceKeyQuery key r2.
Proof. unfold buildReporterResourceKeyQuery, row_key. by intros [= -> -> -> ->]. Qed.

(** Rows saved for a resource that was found. *)
Lemma found_effect d d' key w r row res : db_wf d -> found d key r row res ->
  written w d d' -> admissible d w -> row_key (ro_reporter w) = row_key row ->
  rrw_ID (ro_reporter w) = rrw_ID row -> effect d d' key w.
Proof.
  intros Hwf Hf Hw Ha Hk Hid. split; try done.
  - rewrite (query_ext key _ row) by done. apply Hf.
  - intros r1 Hr1 E. rewrite Hk. f_equal. apply (wf_rr_id _ Hwf); [done|apply Hf|congruence].
  - intros u _. exists row. split; [apply Hf|done].
Qed.

Lemma report_effect e cmd txid (d d' : D) op :
  db_wf d -> fresh d e -> env_outboxMode e = "wal" ->
  report_tx e cmd (key_of_command cmd) txid d = Ok (d', op) ->
  op <> OperationTypeDeleted /\
  exists w, effect d d' (key_of_command cmd) w /\
    announced d d' (key_of_command cmd) op txid (ro_representation w) (ro_common w) /\
    (op = OperationTypeCreated -> forall c, ro_common w = Some c -> cw_Version c = 0%Z) /\
    rrw_Tombstone (ro_reporter w) = false /\
    reported cmd op (ro_representation w) (ro_common w).
Proof.
  intros Hwf [F1 F2] Hmode Hrun. unfold report_tx in Hrun. simpl in Hrun.
  destruct (FindResourceByKeys d _) as [r|err] eqn:Hfind.
  - destruct (updateResource e cmd r txid d) as [d1|] eqn:E; [|done]. injection Hrun as <- <-.
    split; [done|]. apply updateResource_inv in E as (tx & r' & Htx & Hu & Hs).
    destruct (FindResourceByKeys_Ok _ _ _ Hwf Hfind) as (row & res & Hf).
    destruct (updated_admissible _ _ _ _ _ _ _ _ _ _ _ _ _ Hwf Hf Hu)
      as (Ha & ev & Hev & Hdel & rid & rrid & v & g & cv & He).
    exists (rows_of (env_now e) r'). destruct (fo_reporters _ _ _ _ _ Hf) as [rest Hrest].
    apply Resource_Update_ok in Hu as (i & rr & Hu).
    pose proof (up_found _ _ _ _ _ _ _ _ _ _ _ _ Hu) as Hi.
    rewrite (found_first _ _ _ _ _ Hf) in Hi. injection Hi as <- <-.
    pose proof (up_reporters _ _ _ _ _ _ _ _ _ _ _ _ Hu) as Hrr. rewrite Hrest in Hrr.
    split; [|split; [|split; [done|split]]].
    + apply (found_effect _ _ _ _ r row res Hwf Hf); [by eapply Save_written|done|..];
        rewrite (rows_of_reporter _ _ _ _ Hrr).
      * transitivity (rr_key (ReporterResource_Update (env_now e) (rr_of_row d row res)
          (rc_ApiHref cmd) (rc_ConsoleHref cmd))); [|by rewrite RR_Update_key].
        by destruct (rr_key _) as [? ? []] eqn:Ek; unfold row_key; simpl; rewrite Ek.
      * simpl. by rewrite RR_Update_id.
    + eapply Save_report_announced; [done|done|exact Hs|exact Hev|exact Hdel|apply He].
    + rewrite (rows_of_reporter _ _ _ _ Hrr). apply RR_Update_alive.
    + by eapply event_reported.
  - destruct (errors_Is err ErrRecordNotFound) eqn:Hn; [|done].
    destruct (createResource e cmd txid d) as [d1|] eqn:E; [|done]. injection Hrun as <- <-.
    split; [done|]. apply createResource_inv in E as (id & rrid & tx & r & E1 & E2 & Htx & Hc & Hs).
    assert (Hno := FindResourceByKeys_not_found _ _ _ Hwf Hfind ltac:(by rewrite Hn)).
    destruct (cr_event _ _ _ _ _ _ _ _ _ Hc) as (ev & Hev & He).
    destruct (cr_reporters _ _ _ _ _ _ _ _ _ Hc) as (rr & Hrr & Hi & Hk & _ & _ & _ & Hal).
    assert (Hro := rows_of_reporter (env_now e) _ _ _ Hrr).
    exists (rows_of (env_now e) r). split_all.
    + split; [done|by eapply Save_written| |..].
      * eapply created_admissible; [done|split; eauto|done|exact Hc].
      * rewrite Hro. apply query_refl. unfold rrw_key. simpl. by rewrite Hk.
      * intros r0 Hr0 E. destruct (F2 _ E2 r0 Hr0). rewrite E, Hro. simpl. by rewrite Hi.
      * intros u (c & Hc' & Hid & _). exfalso.
        destruct (wf_common_parent _ Hwf c Hc') as (res & Hres & E). apply (F1 _ E1 res Hres).
        rewrite E, Hid. destruct (rows_of_resource (env_now e) r) as [-> _]. apply Hc.
    + eapply Save_report_announced; [done|done|exact Hs|exact Hev|apply Hc|apply He].
    + intros _ c Hcom. pose proof (event_common_row (env_now e) _ _ _ _ _ _ _ _ _ _ _ _ He Hev) as Hx.
      rewrite Hcom in Hx. destruct Hx as (Hd & _ & -> & _). by rewrite Hd.
    + by rewrite Hro.
    + eapply event_reported; [exact He|exact Hev|apply Hc|done..].
Qed.

Lemma delete_effect e key txid (d d' : D) :
  db_wf d -> env_outboxMode e = "wal" -> delete_tx e key txid d = Ok d' ->
  exists w, effect d d' key w /\ ro_common w = None /\
    match ro_representation w with
    | Some p => announced d d' key OperationTypeDeleted txid (Some p) None
    | None => emitted d' = emitted d /\ exists row, row ∈ reporter_resource_rows d /\
        buildReporterResourceKeyQuery key row = true /\ rrw_Tombstone row = true
    end.
Proof.
  intros Hwf Hmode (r & r' & Hfind & Hd & Hw & Hn & Ha)%delete_tx_inv.
  unfold committed in Ha. rewrite bool_decide_eq_true_2 in Ha by done.
  destruct (FindResourceByKeys_Ok _ _ _ Hwf Hfind) as (row & res & Hf).
  exists (rows_of (env_now e) r'). destruct (fo_reporters _ _ _ _ _ Hf) as [rest Hrest].
  pose proof (deleted_admissible _ _ _ _ _ _ _ Hwf Hf Hd) as Hadm.
  apply Resource_Delete_ok in Hd as (i & rr & Hi & Hr').
  rewrite (found_first _ _ _ _ _ Hf) in Hi. injection Hi as <- <-. split; [|split; [done|]].
  - apply (found_effect _ _ _ _ r row res Hwf Hf Hw Hadm); destruct (rr_tombstone _).
    1, 3: subst r'; by rewrite (rows_of_reporter _ _ _ _ Hrest).
    all: destruct Hr' as (ev & _ & -> & _ & _ & _);
      by erewrite rows_of_reporter by (simpl; rewrite Hrest; done).
  - destruct (ro_representation _) as [p|] eqn:Hp; [by destruct Ha|]. split; [done|].
    exists row. split; [apply Hf|]. split; [apply Hf|].
    destruct (rr_tombstone (rr_of_row d row res)) eqn:Ht; [exact Ht|exfalso].
    destruct Hr' as (ev & _ & -> & _). revert Hp. unfold rows_of, Resource_Serialize. simpl.
    by destruct (GetTimestamps _).
Qed.
End Versions.

(** * Reading a version back *)

Lemma pick_versions_current cv rows :
  Forall (fun c => has_data (Some (cw_Data c)) = true) rows -> forall acc cur prev,
  pick_versions cv rows acc = Ok (cur, prev) ->
  picked rows cv acc.1 cur /\ ((cv <= 0)%Z -> prev = acc.2).
Proof.
  induction 1 as [|c rows Hc _ IH]; intros [a1 a2] cur prev; cbn [pick_versions].
  { intros [= <- <-]. split; [|done]. right. split; [|done]. by intros ? ?%not_elem_of_nil. }
  rewrite (NewRepresentations_row c Hc). simpl. case_bool_decide as E1.
  - intros [H1 H2]%IH. split; [by apply picked_hit|done].
  - case_bool_decide as E2; [destruct (bool_decide (cw_Version c = u64 (cv - 1)))|].
    1, 2: intros [H1 H2]%IH; split; [by apply picked_skip|lia].
    intros [H1 H2]%IH. split; [by apply picked_skip|done].
Qed.

(** The latest row is one with the highest version. *)
#[local] Instance version_desc_trans : Transitive version_desc.
Proof. unfold version_desc. intros a b c. lia. Qed.
#[local] Instance version_desc_total : Total version_desc.
Proof. unfold version_desc. intros a b. lia. Qed.

Lemma latest_row_max rows c : latest_row rows = Some c ->
  c ∈ rows /\ forall x, x ∈ rows -> (cw_Version x <= cw_Version c)%Z.
Proof.
  unfold latest_row. intros Hh.
  pose proof (StronglySorted_merge_sort version_desc rows) as Hs.
  pose proof (merge_sort_Permutation version_desc rows) as Hp.
  destruct (merge_sort version_desc rows) as [|y l]; [done|]. injection Hh as ->.
  apply StronglySorted_inv in Hs as [_ Hall]. rewrite Forall_forall in Hall. split.
  - rewrite <- Hp. left.
  - intros x. rewrite <- Hp, elem_of_cons. intros [->|Hx]; [done|by apply Hall].
Qed.

Lemma latest_row_None rows : latest_row rows = None -> rows = [].
Proof.
  unfold latest_row. pose proof (merge_sort_Permutation version_desc rows) as Hp.
  destruct (merge_sort _ _); [|done]. intros _. by apply Permutation_nil.
Qed.

Section Reading.
Context {D : Type} `{GormDB D} `{OutboxLib} `{!GormLaws D}.

Definition rep_at (d : D) (key : ReporterResourceKey) (v : Z) : option Representations :=
  rep_of_row <$> version_row d key v.

Lemma rows_at (d : D) key v : db_wf d -> reporterInstanceId (reporter key) <> "" ->
  forall c, c ∈ common_rows d key -> cw_Version c = v -> version_row d key v = Some c.
Proof.
  intros Hwf Hi c Hc Hv. apply version_row_Some; [done..|].
  unfold common_rows in Hc. apply list_elem_of_bind in Hc as (row & Hc & Hrow).
  apply list_elem_of_filter in Hc as [Hid Hc]. apply key_rows_elem in Hrow as [Hrow Hq].
  split_all; [done..|]. exists row. split_all; [done| |done]. by apply query_key in Hq.
Qed.

Lemma common_rows_data (d : D) key : db_wf d ->
  Forall (fun c => has_data (Some (cw_Data c)) = true) (common_rows d key).
Proof.
  intros Hwf. apply Forall_forall. intros c Hc. unfold common_rows in Hc.
  apply list_elem_of_bind in Hc as (row & Hc & _). apply list_elem_of_filter in Hc as [_ Hc].
  by apply (wf_common_data _ Hwf).
Qed.

Lemma picked_at (d : D) key v f o : db_wf d -> reporterInstanceId (reporter key) <> "" ->
  (forall c, cw_Version c = v -> f c = true) ->
  picked (List.filter f (common_rows d key)) v None o -> o = rep_at d key v.
Proof.
  intros Hwf Hi Hf Hp. unfold rep_at. destruct Hp as [(c & Hc & Hv & ->)|[Hno ->]].
  - apply list_elem_of_In, filter_In in Hc as [Hc%list_elem_of_In _].
    by rewrite (rows_at _ _ _ Hwf Hi c).
  - destruct (version_row d key v) as [c|] eqn:E; [exfalso|done]. unfold version_row in E.
    assert (Hc : c ∈ filter (fun c => cw_Version c = v) (common_rows d key)).
    { destruct (filter _ _); [done|]. injection E as ->. left. }
    apply list_elem_of_filter in Hc as [Hv Hc]. apply (Hno c); [|done].
    apply list_elem_of_In, filter_In. split; [by apply list_elem_of_In|by apply Hf].
Qed.

(** A read for the version [cv] of a key yields that version, and the one
    before it; a create only reads version 0, which has none before it. *)
Lemma fetch_at op (d : D) key cv cur prev : db_wf d ->
  reporterInstanceId (reporter key) <> "" -> op <> OperationTypeDeleted ->
  (op = OperationTypeCreated -> cv = 0%Z) -> bigint cv ->
  fetchRepresentations op d key (Some cv) = Ok (cur, prev) ->
  cur = rep_at d key cv /\ prev = rep_at d key (cv - 1).
Proof.
  intros Hwf Hi Hop Hcr Hb Hf. destruct (bigint_u64 _ Hb) as [Hu _].
  assert (Hneg : (cv <= 0)%Z -> rep_at d key (cv - 1) = None).
  { intros Hle. unfold rep_at. destruct (version_row _ _ _) as [c|] eqn:E; [exfalso|done].
    apply version_row_Some in E as (Hc & Hv & _); [|done..].
    apply (wf_common_range _ Hwf) in Hc. unfold bigint in *. lia. }
  assert (Hpick : pick_versions cv (List.filter (fun cr => version_selected op cv (cw_Version cr))
    (common_rows d key)) (None, None) = Ok (cur, prev)).
  { destruct op; [..|done]; simpl in Hf;
      by destruct (versions_query_error d _ cv). }
  assert (Hdata : Forall (fun c => has_data (Some (cw_Data c)) = true)
    (List.filter (fun cr => version_selected op cv (cw_Version cr)) (common_rows d key))).
  { apply Forall_forall. intros c Hc. apply list_elem_of_In, filter_In in Hc as [Hc _].
    pose proof (common_rows_data d key Hwf) as Hall. rewrite Forall_forall in Hall.
    by apply Hall, list_elem_of_In. }
  assert (Hself : forall c, cw_Version c = cv -> version_selected op cv (cw_Version c) = true).
  { intros c ->. destruct op; simpl; by rewrite bool_decide_eq_true_2. }
  destruct (decide (0 < cv)%Z) as [Hpos|Hle].
  - destruct op; [specialize (Hcr eq_refl); lia|..|done].
    destruct (pick_versions_picked cv _ Hpos Hu Hdata (None, None)) as (? & ? & Hp & H1 & H2).
    rewrite Hp in Hpick. injection Hpick as -> ->.
    split; eapply picked_at; [done|done|exact Hself|done|done|done| |done].
    intros c Hc. simpl. rewrite Hc, (u64_small (cv - 1)) by (unfold is_u64 in *; lia).
    by rewrite (bool_decide_eq_true_2 (cv - 1 = cv - 1)%Z), orb_true_r.
  - destruct (pick_versions_current _ _ Hdata _ _ _ Hpick) as [H1 H2].
    rewrite Hneg, H2 by lia. split; [|done]. eapply picked_at; [done|done|exact Hself|done].
Qed.
End Reading.

(** * Following a sequence of tuple sets

    [C] gives the tuples of each version.  The store has followed it up to
    [a], and some change up to [b >= a] may already have been applied, in
    whole or in part: a tuple on which the versions from [a] to [b] agree is
    stored exactly when it is one of theirs. *)
Section Tracks.
Context (C : nat -> gset simpleTupleKey) (P : simpleTupleKey -> Prop).

Definition tracks (a b : nat) (s : gset simpleTupleKey) : Prop :=
  forall k, P k -> (forall u, (a <= u <= b)%nat -> k ∈ C u <-> k ∈ C a) -> k ∈ s <-> k ∈ C a.

(** A change that was applied, once or again. *)
Lemma tracks_applied a b s s' : (a <= b)%nat -> tracks a b s ->
  s' = ((C (S a) ∖ C a) ∪ s) ∖ (C a ∖ C (S a)) -> tracks (S a) (b `max` S a) s'.
Proof.
  intros Hab Ht -> k Hk Hst. specialize (Ht k Hk).
  rewrite elem_of_difference, elem_of_union, !elem_of_difference.
  destruct (decide (k ∈ C a)) as [Ha|Ha], (decide (k ∈ C (S a))) as [Hs|Hs]; try tauto.
  - rewrite Ht; [tauto|]. intros u Hu. destruct (decide (u = a)) as [->|]; [done|].
    rewrite Hst by lia. tauto.
  - rewrite Ht; [tauto|]. intros u Hu. destruct (decide (u = a)) as [->|]; [done|].
    rewrite Hst by lia. tauto.
Qed.

(** A change of which any part was applied. *)
Lemma tracks_partial a b s s' : (a <= b)%nat -> tracks a b s ->
  s' ∖ ((C (S a) ∖ C a) ∪ (C a ∖ C (S a))) = s ∖ ((C (S a) ∖ C a) ∪ (C a ∖ C (S a))) ->
  tracks a (b `max` S a) s'.
Proof.
  intros Hab Ht Heq k Hk Hst.
  assert (Hold : k ∈ s <-> k ∈ C a) by (apply Ht; [done|]; intros u Hu; apply Hst; lia).
  assert (Hs : k ∈ C (S a) <-> k ∈ C a) by (apply Hst; lia).
  assert (He : k ∈ s' ∖ ((C (S a) ∖ C a) ∪ (C a ∖ C (S a)))
    <-> k ∈ s ∖ ((C (S a) ∖ C a) ∪ (C a ∖ C (S a)))) by (by rewrite Heq).
  rewrite !elem_of_difference, !elem_of_union, !elem_of_difference in He. tauto.
Qed.

(** Going back to an earlier version. *)
Lemma tracks_rewind a a' b s : (a' <= a <= b)%nat -> tracks a b s -> tracks a' b s.
Proof.
  intros Hab Ht k Hk Hst. rewrite <- (Hst a) by lia. apply Ht; [done|].
  intros u Hu. by rewrite (Hst u), (Hst a) by lia.
Qed.

Lemma tracks_frame a b s s' : (forall k, P k -> k ∈ s' <-> k ∈ s) -> tracks a b s -> tracks a b s'.
Proof. intros Heq Ht k Hk Hst. rewrite Heq by done. by apply Ht. Qed.
End Tracks.

Lemma tracks_ext C C' P a b s : (a <= b)%nat -> (forall u, (u <= b)%nat -> C' u = C u) ->
  tracks C P a b s -> tracks C' P a b s.
Proof.
  intros Hab Heq Ht k Hk Hst. rewrite Heq by lia. apply Ht; [done|].
  intros u Hu. rewrite <- !Heq by lia. by apply Hst.
Qed.

(** * The tuples of a key *)

(** A tuple whose object is the resource that [key] names.  The object carries
    no reporter instance. *)
Definition owned (key : ReporterResourceKey) (k : simpleTupleKey) : Prop :=
  tk_ResourceNamespace k = reporterType (reporter key) /\
  tk_ResourceType k = resourceType key /\ tk_ResourceID k = localResourceID key.

Definition same_object (key key' : ReporterResourceKey) : Prop :=
  reporterType (reporter key) = reporterType (reporter key') /\
  resourceType key = resourceType key' /\ localResourceID key = localResourceID key'.

Lemma tuples_owned rels r key k : k ∈ tuples_of rels r key -> owned key k.
Proof. intros (t & -> & rel & v & _ & _ & ->)%elem_of_tuples_of. by repeat split. Qed.

Lemma owned_same key key' k : owned key k -> owned key' k -> same_object key key'.
Proof. unfold owned, same_object. intros (-> & -> & ->) (-> & -> & ->). done. Qed.

Lemma query_same_object key key' row : buildReporterResourceKeyQuery key' row = true ->
  row_key row = key -> same_object key key'.
Proof.
  unfold buildReporterResourceKeyQuery, same_object. rewrite !andb_true_iff, !bool_decide_eq_true.
  intros (((<- & <-) & <-) & _) <-. done.
Qed.

(** * The log and the messages *)

(** What the event router of Debezium makes of an entry of the log, as
    development/configs/debezium-connector.json configures it: the operation and
    the transaction id become headers, the aggregate id the key, the payload the
    value. *)
Inductive routed : json -> Message -> Prop :=
  | routed_intro id aggregate aggregateID op txid payload keySchema schema tp :
      routed
        (JObj [("id", JStr id); ("aggregatetype", JStr aggregate);
               ("aggregateid", JStr aggregateID); ("operation", JStr op);
               ("txid", JStr txid); ("payload", payload)])
        {| msg_TopicPartition := tp;
           msg_Headers := [("id", id); ("operation", op); ("txid", txid)];
           msg_Key := Some (JObj [("schema", JObj keySchema); ("payload", JStr aggregateID)]);
           msg_Value := Some (JObj [("schema", JObj schema); ("payload", payload)]) |}.

(** An entry of the log that announces a tuple event. *)
Definition published (x : eventOperationType * TupleEvent) (content : json) : Prop :=
  exists id aggregateID txid payload,
    content = walOutboxMessage_Marshal
      {| wm_ID := id; wm_AggregateType := TupleAggregateType; wm_AggregateID := aggregateID;
         wm_Operation := op_string x.1; wm_TxID := txid; wm_Payload := payload |} /\
    unmarshal_object (TupleEvent_MarshalJSON x.2) ∅ = Ok payload.

Definition small_event (ev : TupleEvent) : Prop :=
  small_version (te_commonVersion ev) /\ small_version (te_reporterRepresentationVersion ev).

Lemma operation_of_string op : operation_of (op_string op) = Some op.
Proof. by destruct op. Qed.

Lemma routed_published x content msg headers :
  routed content msg -> published x content -> small_event x.2 -> ParseHeaders msg = Ok headers ->
  operation_of (header headers "operation") = Some x.1 /\
  ParseMessage (msg_Value msg) = Ok (Some x.2).
Proof.
  intros Hr (id & aid & txid & payload & -> & Hp) [Hs1 Hs2] Hh.
  inversion Hr; subst. cbn [msg_Value]. split.
  - revert Hh. unfold ParseHeaders. case_match; [done|]. intros [= <-].
    unfold header, collect_headers. simpl. rewrite <- (operation_of_string x.1). done.
  - lazymatch goal with
    | |- context [("schema", JObj ?schema)] =>
        exact (tuple_payload_parsed x.2 payload schema Hs1 Hs2 Hp)
    end.
Qed.

Section Pipeline.
Context {D T K S : Type} `{GormDB D} `{OutboxLib} `{TupleStore T} `{KafkaClient K}
  `{SchemaRepository S} `{!GormLaws D}.
Context (cfg : ConsumerConfig) (schemas : S).
Implicit Type i : InventoryConsumer D T K.

(** The tuple events of the log, in order. *)
Definition tuple_messages (d : D) : list json :=
  snd <$> filter (fun m => m.1 = TupleAggregateType) (emitted d).

(** ** One delivery *)

Lemma finish_message_frame notify arrived headers msg i :
  ic_Relations (finish_message cfg notify arrived headers msg i) = ic_Relations i /\
  ic_DB (finish_message cfg notify arrived headers msg i) = ic_DB i.
Proof.
  unfold finish_message.
  set (i1 := if cfg_notifier cfg && _ && _ then _ else _).
  assert (Hi1 : ic_Relations i1 = ic_Relations i /\ ic_DB i1 = ic_DB i)
    by (unfold i1; by destruct (_ && _ && _)).
  destruct (checkIfCommit _ _); [|done]. unfold commitStoredOffsets.
  destruct (ic_OffsetStorage _); [done|]. simpl.
  destruct (CommitOffsets _ _) as [k [e|]]; [|done]. unfold restore_offsets. by case_match.
Qed.

(** The tables the pipeline reads are the same. *)
Definition same_tables (d d' : D) : Prop :=
  d' = d \/ exists id tok, update_ktn id tok d = Ok d'.

Lemma UpdateConsistencyTokenIfPresent_frame id tok i i' err :
  UpdateConsistencyTokenIfPresent id tok i = (i', err) ->
  ic_Relations i' = ic_Relations i /\ same_tables (ic_DB i) (ic_DB i').
Proof.
  unfold UpdateConsistencyTokenIfPresent, UpdateConsistencyToken, same_tables.
  case_bool_decide; [intros [= <- _]; auto|].
  destruct (update_ktn _ _ _) as [d|e] eqn:E; intros [= <- _]; [|by auto]. simpl. eauto.
Qed.

(** A message is processed, or the loop stops before it. *)
Lemma consume_message_inv fuel notify arrived msg i i' f :
  consume_message cfg schemas fuel notify arrived msg i = Some (i', f) ->
  (i' = i /\ f <> Continue) \/
  exists headers i1 res, ParseHeaders msg = Ok headers /\
    ProcessMessage cfg schemas fuel headers msg i = Some (i1, res) /\
    ic_Relations i' = ic_Relations i1 /\ same_tables (ic_DB i1) (ic_DB i') /\
    (f = Continue -> is_ok res = true).
Proof.
  unfold consume_message. destruct (ParseHeaders msg) as [headers|e]; [|by intros [= <- <-]; left].
  destruct (ProcessMessage _ _ _ _ _ _) as [[i1 [resp|e]]|] eqn:Hp; [..|done]; intros Hc; right;
    exists headers, i1.
  - exists (Ok resp). do 2 (split; [done|]).
    enough (ic_Relations i' = ic_Relations i1 /\ same_tables (ic_DB i1) (ic_DB i')) as [? ?]
      by (by split_all).
    assert (Hrefl : same_tables (ic_DB i1) (ic_DB i1)) by (by left).
    revert Hc. destruct (bool_decide _).
    + destruct (ParseMessageKey _) as [id|[]]; try (by intros [= <- <-]);
        destruct (UpdateConsistencyTokenIfPresent _ _ _) as [i2 [e|]] eqn:Hu;
        apply UpdateConsistencyTokenIfPresent_frame in Hu as [<- Hu]; intros [= <- _];
        try done; by destruct (finish_message_frame notify arrived headers msg i2) as [-> ->].
    + intros [= <- _]. by destruct (finish_message_frame notify arrived headers msg i1) as [-> ->].
  - exists (Err e). injection Hc as <- <-. split_all; try done; [by left|by destruct (is_panic e)].
Qed.

(** The relations of every type have distinct names. *)
Definition schemas_distinct : Prop :=
  forall rt rels, relations_for schemas rt = Some rels -> distinct_relations rels.

Lemma diff_applied_changed rels key cur prev s :
  diff_applied rels key cur prev s ∖ changed rels key cur prev = s ∖ changed rels key cur prev.
Proof.
  apply set_eq. intros k. unfold diff_applied, changed.
  rewrite !elem_of_difference, !elem_of_union, !elem_of_difference. tauto.
Qed.

Lemma diff_applied_within rels key cur prev s :
  diff_applied rels key cur prev s ⊆ tuples_of rels cur key ∪ s.
Proof.
  intros k. unfold diff_applied.
  rewrite elem_of_difference, !elem_of_union, elem_of_difference. tauto.
Qed.

(** What a delivery does to the store: nothing before the loop stops, or
    some of the change from the previous to the current representation, and
    all of it if the loop goes on. *)
Definition delivery (d : D) (op : eventOperationType) (ev : TupleEvent) (f : flow)
    (s s' : gset simpleTupleKey) : Prop :=
  (s' = s /\ f <> Continue) \/
  exists cur prev rels,
    fetchRepresentations op d (te_reporterResourceKey ev) (te_commonVersion ev) = Ok (cur, prev) /\
    relations_for schemas (resourceType (te_reporterResourceKey ev)) = Some rels /\
    s' ∖ changed rels (te_reporterResourceKey ev) cur prev
    = s ∖ changed rels (te_reporterResourceKey ev) cur prev /\
    s' ⊆ tuples_of rels cur (te_reporterResourceKey ev) ∪ s /\
    (f = Continue -> s' = diff_applied rels (te_reporterResourceKey ev) cur prev s).

Lemma processed_delivery fuel op msg i i1 res ev f :
  schemas_distinct -> upserts (ic_Relations i) ->
  ParseMessage (msg_Value msg) = Ok (Some ev) ->
  processRelationsOperation cfg schemas fuel op msg i = Some (i1, res) ->
  (f = Continue -> is_ok res = true) ->
  upserts (ic_Relations i1) /\ ic_DB i1 = ic_DB i /\
  delivery (ic_DB i) op ev f (stored (ic_Relations i)) (stored (ic_Relations i1)).
Proof.
  intros Hd Hu Hm Hp Hf.
  destruct (fetchRepresentations op (ic_DB i) (te_reporterResourceKey ev) (te_commonVersion ev))
    as [[cur prev]|e] eqn:Hfe.
  2: { unfold processRelationsOperation in Hp. rewrite Hm, Hfe in Hp. injection Hp as <- <-.
       split_all; [done..|]. left. split; [done|]. intros Hc. by specialize (Hf Hc). }
  destruct (relations_for schemas (resourceType (te_reporterResourceKey ev))) as [rels|] eqn:Hr.
  - destruct (process_message _ _ _ _ _ _ _ _ _ _ _ _ Hp Hm Hfe Hr (Hd _ _ Hr) Hu)
      as ([Hdb _] & Hu' & Hres).
    split_all; [done..|]. right. exists cur, prev, rels. split_all; [done..| | |].
    + destruct res; [rewrite Hres; apply diff_applied_changed|apply Hres].
    + destruct res; [rewrite Hres; apply diff_applied_within|apply Hres].
    + intros Hc. specialize (Hf Hc). by destruct res.
  - assert (Hcalc : exists e, CalculateTuplesForResource schemas cur prev
                                (te_reporterResourceKey ev) = Err e).
    { unfold relations_for in Hr. unfold CalculateTuplesForResource.
      destruct (GetResourceSchema _ _) as [r|e]; [destruct (rsr_schema r); [done|by eexists]|].
      destruct (errors_Is _ _); [done|by eexists]. }
    destruct Hcalc as [e Hcalc]. unfold processRelationsOperation in Hp.
    rewrite Hm, Hfe, Hcalc in Hp. injection Hp as <- <-.
    split_all; [done..|]. left. split; [done|]. intros Hc. by specialize (Hf Hc).
Qed.

Lemma consumed_delivery fuel notify arrived content msg x i i' f :
  schemas_distinct -> relationsEnabled (T := T) = true -> upserts (ic_Relations i) ->
  routed content msg -> published x content -> small_event x.2 ->
  consume_message cfg schemas fuel notify arrived msg i = Some (i', f) ->
  upserts (ic_Relations i') /\ same_tables (ic_DB i) (ic_DB i') /\
  delivery (ic_DB i) x.1 x.2 f (stored (ic_Relations i)) (stored (ic_Relations i')).
Proof.
  intros Hd Hen Hu Hr Hp Hs [[-> Hf]|(headers & i1 & res & Hh & Hpm & Hrel & Hdb & Hf)]%consume_message_inv.
  { split_all; [done|by left|by left]. }
  destruct (routed_published _ _ _ _ Hr Hp Hs Hh) as [Hop Hm].
  unfold ProcessMessage in Hpm. rewrite Hop, Hen in Hpm.
  destruct (processed_delivery _ _ _ _ _ _ _ f Hd Hu Hm Hpm Hf) as (Hu' & Hdb' & Hdel).
  rewrite Hrel. rewrite Hdb' in Hdb. by split_all.
Qed.

(** ** Runs

    The state of the pipeline: the consumer with its database and its tuple
    store, and the position of the next entry of the log it reads. *)
Record pipeline := { pl_consumer : InventoryConsumer D T K; pl_position : nat }.

(** The versions in the tables are exact as a [float64]. *)
Definition small_rows (d : D) : Prop :=
  (forall c, c ∈ common_representation_rows d -> small_version (Some (cw_Version c))) /\
  (forall p, p ∈ reporter_representation_rows d -> small_version (Some (rpw_Version p))).

(** The steps of a run, seen from a resource [key] that is not deleted and that
    no other reporter instance reports:
    - a report of any resource is committed;
    - a delete of another resource is committed;
    - the next entry of the log is delivered; the position advances if the
      loop goes on, and stays if it stops or crashes;
    - the consumer is replaced or restarted at an earlier position, and other
      clients write tuples of other resources. *)
Inductive pipeline_step (key : ReporterResourceKey) : pipeline -> pipeline -> Prop :=
  | pl_report e cmd txid i d' op pos :
      fresh (ic_DB i) e -> env_outboxMode e = "wal" ->
      (same_object key (key_of_command cmd) -> key_of_command cmd = key) ->
      report_tx e cmd (key_of_command cmd) txid (ic_DB i) = Ok (d', op) -> small_rows d' ->
      pipeline_step key {| pl_consumer := i; pl_position := pos |}
        {| pl_consumer := set_DB i d'; pl_position := pos |}
  | pl_delete e key' txid i d' pos :
      env_outboxMode e = "wal" -> ~ same_object key key' ->
      delete_tx e key' txid (ic_DB i) = Ok d' -> small_rows d' ->
      pipeline_step key {| pl_consumer := i; pl_position := pos |}
        {| pl_consumer := set_DB i d'; pl_position := pos |}
  | pl_message fuel notify arrived content msg i i' f pos :
      tuple_messages (ic_DB i) !! pos = Some content -> routed content msg ->
      consume_message cfg schemas fuel notify arrived msg i = Some (i', f) ->
      pipeline_step key {| pl_consumer := i; pl_position := pos |}
        {| pl_consumer := i';
           pl_position := match f with Continue => Datatypes.S pos | _ => pos end |}
  | pl_restart i i' pos pos' :
      (pos' <= pos)%nat -> ic_DB i' = ic_DB i -> upserts (ic_Relations i') ->
      (forall k, owned key k -> k ∈ stored (ic_Relations i') <-> k ∈ stored (ic_Relations i)) ->
      pipeline_step key {| pl_consumer := i; pl_position := pos |}
        {| pl_consumer := i'; pl_position := pos' |}.

Definition pipeline_start (key : ReporterResourceKey) (p : pipeline) : Prop :=
  no_rows (ic_DB (pl_consumer p)) /\ emitted (ic_DB (pl_consumer p)) = [] /\
  pl_position p = 0%nat /\ upserts (ic_Relations (pl_consumer p)) /\
  forall k, owned key k -> k ∉ stored (ic_Relations (pl_consumer p)).

(** ** The invariant *)

Section Invariant.
Context (key : ReporterResourceKey) (rels : list RelationDef).
Context (Hinst : reporterInstanceId (reporter key) <> "").

(** The version of [key] that an event announces. *)
Definition announced_version (x : eventOperationType * TupleEvent) : option Z :=
  if decide (te_reporterResourceKey x.2 = key) then te_commonVersion x.2 else None.

Definition seen (evs : list (eventOperationType * TupleEvent)) : nat :=
  length (omap announced_version evs).

Definition version_tuples (d : D) (u : nat) : gset simpleTupleKey :=
  tuples_of rels (rep_at d key (Z.of_nat u - 1)) key.

Record event_ok (x : eventOperationType * TupleEvent) : Prop := {
  eo_small : small_event x.2;
  eo_alone : same_object key (te_reporterResourceKey x.2) -> te_reporterResourceKey x.2 = key;
  eo_op : te_reporterResourceKey x.2 = key ->
    (x.1 = OperationTypeDeleted -> te_commonVersion x.2 = None) /\
    (x.1 = OperationTypeCreated -> forall v, te_commonVersion x.2 = Some v -> v = 0%Z);
}.

(** The event of a delete of [key]. *)
Definition deletes (x : eventOperationType * TupleEvent) : Prop :=
  te_reporterResourceKey x.2 = key /\ x.1 = OperationTypeDeleted.

(** The log [evs] announces the stored versions of [key] in order. *)
Record logged (d : D) (evs : list (eventOperationType * TupleEvent)) : Prop := {
  lg_wf : db_wf d;
  lg_published : Forall2 published evs (tuple_messages d);
  lg_events : Forall event_ok evs;
  lg_versions : omap announced_version evs = Z.of_nat <$> seq 0 (seen evs);
  lg_count : versions_counted d key (seen evs);
}.

Record converging (p : pipeline) (evs : list (eventOperationType * TupleEvent)) (hw : nat)
    : Prop := {
  cg_logged : logged (ic_DB (pl_consumer p)) evs;
  cg_alive : Forall (fun x => ~ deletes x) evs;
  cg_position : (pl_position p <= hw <= length evs)%nat;
  cg_upserts : upserts (ic_Relations (pl_consumer p));
  cg_tracks : tracks (version_tuples (ic_DB (pl_consumer p))) (owned key)
    (seen (take (pl_position p) evs)) (seen (take hw evs))
    (stored (ic_Relations (pl_consumer p)));
}.

Lemma seen_app l1 l2 : seen (l1 ++ l2)%list = (seen l1 + seen l2)%nat.
Proof. unfold seen. by rewrite omap_app, length_app. Qed.

Lemma seen_take_mono evs n m : (n <= m)%nat -> (seen (take n evs) <= seen (take m evs))%nat.
Proof.
  intros Hle. replace m with (n + (m - n))%nat by lia.
  rewrite <- (take_take_drop evs n (m - n)), seen_app. lia.
Qed.

Lemma seen_take_S evs n x : evs !! n = Some x ->
  seen (take (Datatypes.S n) evs)
  = (seen (take n evs) + if announced_version x then 1 else 0)%nat.
Proof.
  intros Hx. rewrite (take_S_r _ _ _ Hx), seen_app. f_equal. unfold seen. simpl.
  by destruct (announced_version x).
Qed.

Lemma logged_event d evs n x : logged d evs -> evs !! n = Some x -> event_ok x.
Proof.
  intros Hl Hx. pose proof (lg_events _ _ Hl) as Ho. rewrite Forall_forall in Ho.
  by eapply Ho, list_elem_of_lookup_2.
Qed.

(** The entry at [n] announces the version that follows those before it. *)
Lemma logged_next d evs n x v : logged d evs -> evs !! n = Some x ->
  announced_version x = Some v -> v = Z.of_nat (seen (take n evs)).
Proof.
  intros Hl Hx Hv. pose proof (lg_versions _ _ Hl) as He.
  rewrite <- (take_drop_middle _ _ _ Hx), omap_app in He at 1. cbn [omap list_omap] in He.
  assert (Hlk : (Z.of_nat <$> seq 0 (seen evs)) !! seen (take n evs) = Some v).
  { rewrite <- He. rewrite lookup_app_r by (unfold seen; lia).
    unfold seen. rewrite Nat.sub_diag. simpl. by rewrite Hv. }
  rewrite list_lookup_fmap in Hlk.
  destruct (seq 0 (seen evs) !! seen (take n evs)) as [u|] eqn:E; [|done].
  apply lookup_seq in E as [-> _]. by injection Hlk as <-.
Qed.

Lemma same_tables_versions d d' u : same_tables d d' -> version_tuples d' u = version_tuples d u.
Proof.
  intros [->|(id & tok & ((F1 & _ & F3 & _) & _)%update_ktn_ok)]; [done|].
  unfold version_tuples, rep_at, version_row, common_rows, key_rows. by rewrite F1, F3.
Qed.

Lemma same_tables_logged d d' evs : same_tables d d' -> logged d evs -> logged d' evs.
Proof.
  intros [->|(id & tok & Hk)] [Hwf Hp He Hv Hc]; [done|]. pose proof Hk as Hk'.
  apply update_ktn_ok in Hk' as ((F1 & _ & F3 & F4) & _). split; try done.
  - by eapply update_ktn_wf.
  - unfold tuple_messages. by rewrite F4.
  - unfold versions_counted, version_row, common_rows, key_rows. rewrite F1, F3. exact Hc.
Qed.

Lemma changed_owned rs key' cur prev k : k ∈ changed rs key' cur prev -> owned key' k.
Proof.
  unfold changed. rewrite elem_of_union, !elem_of_difference.
  intros [[? _]|[? _]]; by eapply tuples_owned.
Qed.

Lemma unchanged_outside (s s' c : gset simpleTupleKey) k :
  s' ∖ c = s ∖ c -> k ∉ c -> k ∈ s' <-> k ∈ s.
Proof.
  intros Heq Hk. assert (Hx : k ∈ s' ∖ c <-> k ∈ s ∖ c) by (by rewrite Heq).
  rewrite !elem_of_difference in Hx. tauto.
Qed.

(** An entry that neither announces a version of [key] nor its delete leaves its
    tuples alone. *)
Lemma delivery_other d x f s s' k : event_ok x -> announced_version x = None -> ~ deletes x ->
  delivery d x.1 x.2 f s s' -> owned key k -> k ∈ s' <-> k ∈ s.
Proof.
  intros Hok Hv Hnd [[-> _]|(cur & prev & rs & Hf & _ & Hout & _ & _)] Hk; [done|].
  apply (unchanged_outside _ _ _ _ Hout). intros Hc. unfold announced_version in Hv.
  case_decide as Hkey; [|by apply Hkey, (eo_alone _ Hok), (owned_same _ _ k); [|eapply changed_owned]].
  assert (Hop : x.1 <> OperationTypeDeleted) by (by intros ?; apply Hnd). rewrite Hv in Hf.
  assert (cur = None /\ prev = None) as [-> ->] by (destruct x.1; [..|done]; by injection Hf as <- <-).
  unfold changed in Hc. rewrite elem_of_union, !elem_of_difference in Hc. tauto.
Qed.

(** An entry that announces the version [seen] applies its change. *)
Lemma delivery_next d evs x f s s' a : logged d evs ->
  relations_for schemas (resourceType key) = Some rels ->
  event_ok x -> announced_version x = Some (Z.of_nat a) -> delivery d x.1 x.2 f s s' ->
  (s' = s /\ f <> Continue) \/
  let C := version_tuples d in
  s' ∖ ((C (Datatypes.S a) ∖ C a) ∪ (C a ∖ C (Datatypes.S a)))
  = s ∖ ((C (Datatypes.S a) ∖ C a) ∪ (C a ∖ C (Datatypes.S a))) /\
  (f = Continue -> s' = ((C (Datatypes.S a) ∖ C a) ∪ s) ∖ (C a ∖ C (Datatypes.S a))).
Proof.
  intros Hl Hrels Hok Hv [?|(cur & prev & rs & Hf & Hr & Hout & _ & Hcont)]; [by left|right].
  unfold announced_version in Hv. case_decide as Hkey; [|done].
  destruct (eo_op _ Hok Hkey) as [Hop Hcr]. rewrite Hkey in *. rewrite Hrels in Hr.
  injection Hr as <-. rewrite Hv in Hf. rewrite Hv in Hop.
  assert (Hb : bigint (Z.of_nat a)).
  { destruct (eo_small _ Hok) as [Hsm _]. rewrite Hv in Hsm. specialize (Hsm _ eq_refl).
    unfold two53, bigint in *. lia. }
  apply fetch_at in Hf as [-> ->]; [|apply Hl|done|by intros ?%Hop|by intros Ho; apply Hcr|done].
  unfold version_tuples. replace (Z.of_nat (Datatypes.S a) - 1)%Z with (Z.of_nat a) by lia.
  by split.
Qed.

Lemma converging_message i i' f pos evs hw x :
  relations_for schemas (resourceType key) = Some rels ->
  converging {| pl_consumer := i; pl_position := pos |} evs hw -> evs !! pos = Some x ->
  upserts (ic_Relations i') -> same_tables (ic_DB i) (ic_DB i') ->
  delivery (ic_DB i) x.1 x.2 f (stored (ic_Relations i)) (stored (ic_Relations i')) ->
  exists hw', converging
    {| pl_consumer := i'; pl_position := match f with Continue => Datatypes.S pos | _ => pos end |}
    evs hw'.
Proof.
  intros Hrels [Hl Hal Hpos Hu Ht] Hx Hu' Hdb Hdel. cbn [pl_consumer pl_position] in *.
  pose proof (lookup_lt_Some _ _ _ Hx) as Hlen.
  assert (Hok := logged_event _ _ _ _ Hl Hx).
  set (a := seen (take pos evs)) in *. set (b := seen (take hw evs)) in *.
  assert (Hab : (a <= b)%nat) by (apply seen_take_mono; lia).
  set (hw' := (hw `max` Datatypes.S pos)%nat).
  assert (Hb : seen (take hw' evs) = (b `max` seen (take (Datatypes.S pos) evs))%nat).
  { unfold hw', b. destruct (Nat.max_spec hw (Datatypes.S pos)) as [[Hle ->]|[Hle ->]];
      [pose proof (seen_take_mono evs hw (Datatypes.S pos))
      |pose proof (seen_take_mono evs (Datatypes.S pos) hw)]; lia. }
  rewrite (seen_take_S _ _ _ Hx) in Hb. fold a in Hb.
  assert (Hmake : forall a' b' hw1, (match f with Continue => Datatypes.S pos | _ => pos end <= hw1 <= length evs)%nat ->
    a' = seen (take (match f with Continue => Datatypes.S pos | _ => pos end) evs) ->
    b' = seen (take hw1 evs) -> (a' <= b')%nat ->
    tracks (version_tuples (ic_DB i)) (owned key) a' b' (stored (ic_Relations i')) ->
    converging {| pl_consumer := i';
      pl_position := match f with Continue => Datatypes.S pos | _ => pos end |} evs hw1).
  { intros a' b' hw1 Hhw -> -> Hle Htr. split; cbn [pl_consumer pl_position]; [|done..|].
    - by eapply same_tables_logged.
    - eapply tracks_ext; [done| |done]. intros u _. by apply same_tables_versions. }
  destruct (announced_version x) as [v|] eqn:Hv; cbn beta iota in Hb.
  - pose proof (logged_next _ _ _ _ _ Hl Hx Hv) as ->. fold a in Hv.
    destruct (delivery_next _ _ _ _ _ _ _ Hl Hrels Hok Hv Hdel) as [[Hs Hf]|[Hpart Hall]].
    + exists hw. apply (Hmake a b); [destruct f; done|by destruct f|done|done|by rewrite Hs].
    + exists hw'. destruct f.
      * apply (Hmake (Datatypes.S a) (b `max` Datatypes.S a)%nat); [lia| |lia|lia|].
        -- rewrite (seen_take_S _ _ _ Hx), Hv. unfold a. lia.
        -- by apply (tracks_applied _ _ _ _ (stored (ic_Relations i))); [|..|apply Hall].
      * apply (Hmake a (b `max` Datatypes.S a)%nat); [lia|done|lia|lia|]. by eapply tracks_partial.
      * apply (Hmake a (b `max` Datatypes.S a)%nat); [lia|done|lia|lia|]. by eapply tracks_partial.
  - exists hw'. apply (Hmake a b); [destruct f; lia| |lia|done|].
    + destruct f; [|done..]. rewrite (seen_take_S _ _ _ Hx), Hv. unfold a. lia.
    + eapply tracks_frame; [|exact Ht]. intros k.
      apply (delivery_other (ic_DB i) x f); [done..| |done]. rewrite Forall_forall in Hal.
      by eapply Hal, list_elem_of_lookup_2.
Qed.

(** ** Transactions and restarts *)

(** The rows of a transaction for [key'] are a version of [key] only if
    [key'] is [key]. *)
Lemma effect_key d d' key' w : effect d d' key' w ->
  (same_object key key' -> key' = key) -> row_key (ro_reporter w) = key <-> key' = key.
Proof.
  intros He Hal. pose proof (ef_query _ _ _ _ He) as Hq. split.
  - intros Hk. by apply Hal, (query_same_object _ _ (ro_reporter w)).
  - intros ->. by apply query_key in Hq.
Qed.

(** The count of versions after a transaction, and the versions it keeps. *)
Lemma effect_count d d' key' w n : effect d d' key' w ->
  (same_object key key' -> key' = key) -> versions_counted d key n ->
  match ro_common w with
  | Some c => if decide (key' = key) then cw_Version c = Z.of_nat n /\
                                          versions_counted d' key (Datatypes.S n)
              else versions_counted d' key n
  | None => versions_counted d' key n
  end /\
  forall u, (u <= n)%nat -> version_tuples d' u = version_tuples d u.
Proof.
  intros He Hal Hn. pose proof (effect_key _ _ _ _ He Hal) as Hk.
  pose proof (fun v => effect_version_row _ _ _ _ key v He Hinst) as Hrow.
  destruct (ro_common w) as [c|] eqn:Hc.
  - assert (Hnext := fun E => effect_next _ _ _ _ key n c He Hinst Hn Hc E).
    destruct (decide (key' = key)) as [Hd|Hd].
    + destruct (Hnext (proj2 Hk Hd)) as [Hv Hn']. split; [done|]. intros u Hu.
      unfold version_tuples, rep_at. rewrite Hrow, decide_False; [done|]. lia.
    + assert (Hsame : forall v, version_row d' key v = version_row d key v).
      { intros v. rewrite Hrow, decide_False; [done|]. intros [E _]. tauto. }
      split; [intros v; by rewrite Hsame|]. intros u _.
      unfold version_tuples, rep_at. by rewrite Hsame.
  - split; [intros v; by rewrite Hrow|]. intros u _. unfold version_tuples, rep_at. by rewrite Hrow.
Qed.

Lemma announced_messages d d' key' op txid p c : announced d d' key' op txid p c ->
  exists content, tuple_messages d' = (tuple_messages d ++ [content])%list /\
    published (op, {| te_reporterResourceKey := key'; te_commonVersion := cw_Version <$> c;
                      te_reporterRepresentationVersion := rpw_Version <$> p |}) content.
Proof.
  intros (_ & _ & rm & id & aid & payload & He & Hp). eexists. split; [|by do 4 eexists].
  unfold tuple_messages. rewrite He, filter_app, fmap_app. done.
Qed.

Lemma announced_small d d' key' op txid p c : announced d d' key' op txid p c -> small_rows d' ->
  small_version (cw_Version <$> c) /\ small_version (rpw_Version <$> p).
Proof.
  intros (Hp & Hc & _) [Hs1 Hs2]. split.
  - destruct c as [c|]; [|by intros ?]. apply Hs1. rewrite Hc. left.
  - destruct p as [p|]; [|by intros ?]. apply Hs2. rewrite Hp. left.
Qed.

(** A transaction that announces its rows appends one entry to the log. *)
Lemma logged_announced d d' key' w op txid evs : logged d evs -> effect d d' key' w ->
  (same_object key key' -> key' = key) -> small_rows d' ->
  announced d d' key' op txid (ro_representation w) (ro_common w) ->
  (op = OperationTypeDeleted -> ro_common w = None) ->
  (op = OperationTypeCreated -> forall c, ro_common w = Some c -> cw_Version c = 0%Z) ->
  exists x, logged d' (evs ++ [x])%list /\ x.1 = op /\ te_reporterResourceKey x.2 = key' /\
    te_commonVersion x.2 = cw_Version <$> ro_common w.
Proof.
  intros Hl He Hal Hsm Han Hde Hcr.
  destruct (announced_messages _ _ _ _ _ _ _ Han) as (content & Hm & Hpub).
  destruct (effect_count _ _ _ _ _ He Hal (lg_count _ _ Hl)) as [Hcount _].
  set (x := (op, _)) in Hpub. exists x. split; [|done].
  assert (Hx : announced_version x = if decide (key' = key) then cw_Version <$> ro_common w else None)
    by done.
  assert (Hseen : seen (evs ++ [x]) = (seen evs + if announced_version x then 1 else 0)%nat)
    by (rewrite seen_app; f_equal; unfold seen; simpl; by destruct (announced_version x)).
  split.
  - by eapply effect_wf.
  - rewrite Hm. apply Forall2_app; [apply Hl|]. by repeat constructor.
  - apply Forall_app. split; [apply Hl|]. apply Forall_singleton. split; simpl.
    + by eapply announced_small.
    + done.
    + intros _. split; [by intros ->%Hde|]. intros Ho v Hv.
      destruct (ro_common w) as [c|]; [|done]. injection Hv as <-. by apply Hcr.
  - rewrite omap_app, (lg_versions _ _ Hl), Hseen. cbn [omap list_omap]. rewrite Hx in *.
    case_decide; [|by rewrite Nat.add_0_r, app_nil_r].
    destruct (ro_common w) as [c|]; simpl; [|by rewrite Nat.add_0_r, app_nil_r].
    destruct Hcount as [-> _]. by rewrite Nat.add_1_r, seq_S, fmap_app.
  - rewrite Hseen, Hx. destruct (ro_common w) as [c|], (decide (key' = key)); simpl;
      rewrite ?Nat.add_0_r, ?Nat.add_1_r; [apply Hcount|done..].
Qed.

(** A transaction with no entry in the log. *)
Lemma logged_silent d d' key' w evs : logged d evs -> effect d d' key' w ->
  (same_object key key' -> key' = key) -> emitted d' = emitted d -> ro_common w = None ->
  logged d' evs.
Proof.
  intros Hl He Hal Hem Hc.
  destruct (effect_count _ _ _ _ _ He Hal (lg_count _ _ Hl)) as [Hcount _]. rewrite Hc in Hcount.
  split; [by eapply effect_wf| |apply Hl|apply Hl|done]. unfold tuple_messages. rewrite Hem. apply Hl.
Qed.

(** The log grew: what was read before is unchanged. *)
Lemma converging_transaction i d' pos evs hw key' w more :
  converging {| pl_consumer := i; pl_position := pos |} evs hw ->
  effect (ic_DB i) d' key' w -> (same_object key key' -> key' = key) ->
  logged d' (evs ++ more)%list -> Forall (fun x => ~ deletes x) more ->
  converging {| pl_consumer := set_DB i d'; pl_position := pos |} (evs ++ more)%list hw.
Proof.
  intros [Hl Hnd Hpos Hu Ht] He Hal Hl' Hmore. split; cbn [pl_consumer pl_position] in *; try done.
  - by apply Forall_app.
  - rewrite length_app. lia.
  - change (ic_DB (set_DB i d')) with d'. change (ic_Relations (set_DB i d')) with (ic_Relations i).
    rewrite !take_app_le by lia. eapply tracks_ext; [apply seen_take_mono; lia| |exact Ht].
    intros u Hu'. eapply effect_count; [done|done|apply Hl|].
    assert (Hle := seen_take_mono evs hw (length evs) ltac:(lia)). rewrite firstn_all in Hle. lia.
Qed.

(** What a step adds to the log and to the versions of [key]; what was there
    stays. *)
Record grown (d : D) (evs : list (eventOperationType * TupleEvent)) (d' : D)
    (evs' : list (eventOperationType * TupleEvent)) : Prop := {
  gr_events : evs `prefix_of` evs';
  gr_messages : tuple_messages d `prefix_of` tuple_messages d';
  gr_versions : forall u, (u <= seen evs)%nat -> version_tuples d' u = version_tuples d u;
}.

Lemma grown_trans d1 evs1 d2 evs2 d3 evs3 :
  grown d1 evs1 d2 evs2 -> grown d2 evs2 d3 evs3 -> grown d1 evs1 d3 evs3.
Proof.
  intros [He1 Hm1 Hv1] [He2 Hm2 Hv2]. split; [by etrans|by etrans|]. intros u Hu.
  rewrite Hv2, Hv1; [done..|]. destruct He1 as [more ->]. rewrite seen_app. lia.
Qed.

Lemma same_tables_grown d d' evs : same_tables d d' -> grown d evs d' evs.
Proof.
  intros Hs. split; [done| |by intros u _; apply same_tables_versions].
  destruct Hs as [->|(id & tok & ((_ & _ & _ & F4) & _)%update_ktn_ok)]; [done|].
  unfold tuple_messages. by rewrite F4.
Qed.

Lemma converging_step_grown p p' evs hw :
  relations_for schemas (resourceType key) = Some rels -> schemas_distinct ->
  relationsEnabled (T := T) = true ->
  converging p evs hw -> pipeline_step key p p' -> exists evs' hw', converging p' evs' hw' /\
    grown (ic_DB (pl_consumer p)) evs (ic_DB (pl_consumer p')) evs'.
Proof.
  intros Hrels Hd Hen Hc Hs. pose proof (cg_logged _ _ _ Hc) as Hl.
  destruct Hs as [e cmd txid i d' op pos Hfr Hw Hal Hrun Hsm|e key' txid i d' pos Hw Hne Hrun Hsm
    |fuel notify arrived content msg i i' f pos Hm Hr Hrun|i i' pos pos' Hle Hdb Hu Hsame];
    cbn [pl_consumer pl_position] in *.
  - change (ic_DB (set_DB i d')) with d'.
    destruct (report_effect _ _ _ _ _ _ (lg_wf _ _ Hl) Hfr Hw Hrun) as (Hop & w & He & Han & Hcr & _).
    destruct (logged_announced _ _ _ _ _ _ _ Hl He Hal Hsm Han) as (x & Hl' & <- & _); [done..|].
    exists (evs ++ [x])%list, hw. split.
    + eapply converging_transaction; [done..|]. apply Forall_singleton. by intros [_ ?].
    + split; [by apply prefix_app_r| |by eapply effect_count; [..|apply Hl]].
      destruct (announced_messages _ _ _ _ _ _ _ Han) as (content & -> & _). by apply prefix_app_r.
  - change (ic_DB (set_DB i d')) with d'.
    assert (Hal : same_object key key' -> key' = key) by done.
    destruct (delete_effect _ _ _ _ _ (lg_wf _ _ Hl) Hw Hrun) as (w & He & Hn & Han).
    assert (Hver := proj2 (effect_count _ _ _ _ _ He Hal (lg_count _ _ Hl))).
    destruct (ro_representation w) as [p|] eqn:Hp.
    + rewrite <- Hp, <- Hn in Han.
      destruct (logged_announced _ _ _ _ _ _ _ Hl He Hal Hsm Han) as (x & Hl' & _ & Hk & _); [done..|].
      exists (evs ++ [x])%list, hw. split.
      * eapply converging_transaction; [done..|].
        apply Forall_singleton. intros [E _]. apply Hne. by rewrite <- Hk, E.
      * split; [by apply prefix_app_r| |done].
        destruct (announced_messages _ _ _ _ _ _ _ Han) as (content & -> & _). by apply prefix_app_r.
    + destruct Han as [Hem Hrow]. exists evs, hw. split.
      * rewrite <- (app_nil_r evs). eapply converging_transaction; [done..| |done].
        rewrite app_nil_r. by eapply logged_silent.
      * split; [done| |done]. unfold tuple_messages. by rewrite Hem.
  - destruct (Forall2_lookup_r _ _ _ _ _ (lg_published _ _ Hl) Hm) as (x & Hx & Hpub).
    assert (Hok := logged_event _ _ _ _ Hl Hx).
    destruct (consumed_delivery _ _ _ _ _ _ _ _ _ Hd Hen (cg_upserts _ _ _ Hc) Hr Hpub
                (eo_small _ Hok) Hrun) as (Hu' & Hdb & Hdel).
    destruct (converging_message _ _ _ _ _ _ _ Hrels Hc Hx Hu' Hdb Hdel) as [hw' ?].
    exists evs, hw'. split; [done|by apply same_tables_grown].
  - exists evs, hw. rewrite Hdb. split; [|apply same_tables_grown; by left].
    destruct Hc as [_ Hnd Hpos _ Ht]. cbn [pl_consumer pl_position] in *.
    split; cbn [pl_consumer pl_position]; rewrite ?Hdb; [done|done|lia|done|].
    eapply tracks_frame; [exact Hsame|]. eapply tracks_rewind; [|exact Ht].
    split; apply seen_take_mono; lia.
Qed.

Lemma converging_step p p' evs hw :
  relations_for schemas (resourceType key) = Some rels -> schemas_distinct ->
  relationsEnabled (T := T) = true ->
  converging p evs hw -> pipeline_step key p p' -> exists evs' hw', converging p' evs' hw'.
Proof.
  intros Hrels Hd Hen Hc Hs.
  destruct (converging_step_grown _ _ _ _ Hrels Hd Hen Hc Hs) as (evs' & hw' & Hc' & _). eauto.
Qed.

Lemma converging_start p : pipeline_start key p -> converging p [] 0.
Proof.
  destruct p as [i pos]. intros (Hno & Hem & Hpos & Hu & Hst). simpl in *. subst pos.
  split; cbn [pl_consumer pl_position]; [|done|simpl; lia|done|].
  - split; try done.
    + by apply no_rows_wf.
    + unfold tuple_messages. rewrite Hem. constructor.
    + intros v. unfold version_row, common_rows, key_rows. destruct Hno as (_ & -> & _). simpl.
      split; [by intros [? ?]|]. unfold seen. simpl. lia.
  - intros k Hk _. split; [by intros ?%Hst|]. unfold version_tuples, rep_at, version_row, common_rows, key_rows.
    destruct Hno as (_ & -> & _). simpl. by rewrite tuples_of_None, elem_of_empty.
Qed.

Lemma converging_run p p' evs hw :
  relations_for schemas (resourceType key) = Some rels -> schemas_distinct ->
  relationsEnabled (T := T) = true ->
  converging p evs hw -> rtc (pipeline_step key) p p' -> exists evs' hw', converging p' evs' hw'.
Proof.
  intros Hrels Hd Hen Hc Hrun. revert evs hw Hc. induction Hrun as [|p1 p2 p3 Hs _ IH]; [eauto|].
  intros evs hw Hc. destruct (converging_step _ _ _ _ Hrels Hd Hen Hc Hs) as (? & ? & ?). eauto.
Qed.

Lemma latest_counted d n : db_wf d -> versions_counted d key n ->
  latest_row (common_rows d key) = version_row d key (Z.of_nat n - 1).
Proof.
  intros Hwf Hn. assert (Hat := rows_at d key).
  destruct (latest_row (common_rows d key)) as [c|] eqn:E.
  - apply latest_row_max in E as [Hc Hmax]. symmetry. apply Hat; [done..|].
    assert (Hcn := proj1 (Hn (cw_Version c)) ltac:(eexists; by apply Hat)).
    destruct (proj2 (Hn (Z.of_nat n - 1)%Z) ltac:(lia)) as [x Hx].
    assert (Hxc : x ∈ common_rows d key /\ cw_Version x = (Z.of_nat n - 1)%Z).
    { unfold version_row in Hx. destruct (filter _ _) as [|y l] eqn:Ef; [done|].
      injection Hx as ->. assert (Hin : x ∈ x :: l) by left. rewrite <- Ef in Hin.
      by apply list_elem_of_filter in Hin as [? ?]. }
    destruct Hxc as [Hx1 Hx2]. specialize (Hmax x Hx1). lia.
  - apply latest_row_None in E. unfold version_row. by rewrite E.
Qed.

Lemma latest_version_tuples d evs : logged d evs ->
  version_tuples d (seen evs) = tuples_of rels (rep_of_row <$> latest_row (common_rows d key)) key.
Proof.
  intros Hl. unfold version_tuples, rep_at. by rewrite (latest_counted d (seen evs)) by apply Hl.
Qed.
End Invariant.

Lemma drained_in_sync key rels p0 p :
  reporterInstanceId (reporter key) <> "" ->
  relations_for schemas (resourceType key) = Some rels ->
  schemas_distinct -> relationsEnabled (T := T) = true ->
  pipeline_start key p0 -> rtc (pipeline_step key) p0 p ->
  pl_position p = length (tuple_messages (ic_DB (pl_consumer p))) ->
  forall k, owned key k ->
    k ∈ stored (ic_Relations (pl_consumer p)) <->
    k ∈ tuples_of rels
          (rep_of_row <$> latest_row (common_rows (ic_DB (pl_consumer p)) key)) key.
Proof.
  intros Hinst Hrels Hdistinct Henabled Hstart Hrun Hdone k Hk.
  apply (converging_start key rels) in Hstart.
  destruct (converging_run _ _ Hinst _ _ _ _ Hrels Hdistinct Henabled Hstart Hrun)
    as (evs & hw & [Hl _ Hpos Hu Ht]).
  pose proof (Forall2_length _ _ _ (lg_published _ _ _ Hl)) as Hlen.
  rewrite (latest_counted key Hinst _ (seen key evs)) by apply Hl.
  rewrite Hdone, <- Hlen in Ht, Hpos. replace hw with (length evs) in Ht by lia.
  rewrite firstn_all in Ht. apply Ht; [done|]. intros u Hu'. by replace u with (seen key evs) by lia.
Qed.

(** C1. Replication converges.  Start with empty tables, an empty log and no
    tuple of the resource [key] in the store, and let reports of any resources,
    deletes of other resources, deliveries that succeed, fail half-way or
    crash, restarts at an earlier position and redeliveries be interleaved in
    any order.  Whenever the consumer has read the whole log, a tuple of the
    resource is in the store if and only if it is a tuple of the last common
    representation that was stored for it. *)
Theorem replication_converges key rels p0 p
    (Hinst : reporterInstanceId (reporter key) <> "")
    (Hrels : relations_for schemas (resourceType key) = Some rels)
    (Hdistinct : schemas_distinct) (Henabled : relationsEnabled (T := T) = true)
    (Hstart : pipeline_start key p0) (Hrun : rtc (pipeline_step key) p0 p)
    (Hdone : pl_position p = length (tuple_messages (ic_DB (pl_consumer p)))) :
  forall k, owned key k ->
    k ∈ stored (ic_Relations (pl_consumer p)) <->
    k ∈ tuples_of rels
          (rep_of_row <$> latest_row (common_rows (ic_DB (pl_consumer p)) key)) key.
Proof. by eapply drained_in_sync. Qed.
End Pipeline.

(** * A run *)

(** The router as a function, with empty schemas. *)
Definition route (tp : TopicPartition) (content : json) : option Message :=
  match content with
  | JObj [(f1, JStr id); (f2, JStr aggregate); (f3, JStr aggregateID); (f4, JStr op);
          (f5, JStr txid); (f6, payload)] =>
      if bool_decide (f1 = "id" /\ f2 = "aggregatetype" /\ f3 = "aggregateid" /\ f4 = "operation" /\
                      f5 = "txid" /\ f6 = "payload")
      then Some {| msg_TopicPartition := tp;
                   msg_Headers := [("id", id); ("operation", op); ("txid", txid)];
                   msg_Key := Some (JObj [("schema", JObj []); ("payload", JStr aggregateID)]);
                   msg_Value := Some (JObj [("schema", JObj []); ("payload", payload)]) |}
      else None
  | _ => None
  end.

Lemma route_routed tp content msg : route tp content = Some msg -> routed content msg.
Proof.
  unfold route. intros Hr. repeat (case_match; try done).
  match goal with Hb : bool_decide _ = true |- _ => apply bool_decide_eq_true in Hb; destruct_and! Hb end.
  simplify_eq. constructor.
Qed.

Definition ex_pipeline : Type := @pipeline Tables ex_relations ex_kafka.

Definition ex_pipeline_start : ex_pipeline :=
  {| pl_consumer := mkConsumer [] false "group/0" "token" empty_tables
       ex_no_tuples {| ek_committed := []; ek_closed := false |} [];
     pl_position := 0 |}.

(** A report of the host, a delivery, a restart at a position with or without
    a failure of the deletes of the backend. *)
Inductive ex_action := ExReport (id : Z) (ws : string) | ExDeliver | ExRestart (pos : nat) (down : bool).

Definition small_rows_b (d : Tables) : bool :=
  forallb (fun c => bool_decide (small_version (Some (cw_Version c)))) (tb_common_representations d)
  && forallb (fun p => bool_decide (small_version (Some (rpw_Version p))))
       (tb_reporter_representations d).

Lemma small_rows_b_true d : small_rows_b d = true -> small_rows d.
Proof.
  unfold small_rows_b. rewrite andb_true_iff, !forallb_forall. intros [H1 H2].
  split; intros x Hx; apply list_elem_of_In in Hx;
    [apply H1 in Hx|apply H2 in Hx]; by apply bool_decide_eq_true in Hx.
Qed.

Definition ex_act (a : ex_action) (p : ex_pipeline) : option ex_pipeline :=
  let i := pl_consumer p in
  match a with
  | ExReport id ws =>
      let cmd := ex_command (FormatInt id) ws in
      match report_tx (ex_env id (id + 1)) cmd (key_of_command cmd) (FormatInt id) (ic_DB i) with
      | Ok (d', _) =>
          if ids_below id (ic_DB i) && small_rows_b d'
          then Some {| pl_consumer := set_DB i d'; pl_position := pl_position p |} else None
      | Err _ => None
      end
  | ExDeliver =>
      match tuple_messages (ic_DB i) !! pl_position p with
      | Some content =>
          match route {| tp_Topic := "outbox"; tp_Partition := 0; tp_Offset := 1 |} content with
          | Some msg =>
              match consume_message ex_config ex_schemas 5 None [] msg i with
              | Some (i', f) =>
                  Some {| pl_consumer := i';
                          pl_position := match f with Continue => S (pl_position p)
                                         | _ => pl_position p end |}
              | None => None
              end
          | None => None
          end
      | None => None
      end
  | ExRestart pos down =>
      if (pos <=? pl_position p)%nat
      then Some {| pl_consumer := set_Relations i (ex_with_error (ic_Relations i)
                     (if down then Some (EMsg "unavailable") else None));
                   pl_position := pos |}
      else None
  end.

Lemma ex_act_step a p p' : ex_act a p = Some p' ->
  pipeline_step ex_config ex_schemas ex_host_key p p'.
Proof.
  destruct p as [i pos], a as [id ws| |pos' down]; simpl; intros Ha.
  - destruct (report_tx _ _ _ _ _) as [[d' op]|] eqn:E; [|done].
    destruct (ids_below id (ic_DB i)) eqn:Hid; [|done]. destruct (small_rows_b d') eqn:Hs; [|done].
    injection Ha as <-. eapply pl_report; [..|exact E|by apply small_rows_b_true]; try done.
    by apply ids_below_fresh.
  - destruct (tuple_messages _ !! _) as [content|] eqn:Hc; [|done].
    destruct (route _ _) as [msg|] eqn:Hr; [|done]. apply route_routed in Hr.
    destruct (consume_message _ _ _ _ _ _ _) as [[i' f]|] eqn:E; [|done]. injection Ha as <-.
    by eapply pl_message.
  - destruct (pos' <=? pos)%nat eqn:Hle; [|done]. injection Ha as <-.
    by apply pl_restart; [apply Nat.leb_le|..].
Qed.

Fixpoint ex_acts (l : list ex_action) (p : ex_pipeline) : option ex_pipeline :=
  match l with
  | [] => Some p
  | a :: l => match ex_act a p with Some p' => ex_acts l p' | None => None end
  end.

Lemma ex_acts_run l p p' : ex_acts l p = Some p' ->
  rtc (pipeline_step ex_config ex_schemas ex_host_key) p p'.
Proof.
  revert p. induction l as [|a l IH]; intros p; simpl; [intros [= ->]; apply rtc_refl|].
  destruct (ex_act a p) as [p1|] eqn:E; [|done]. intros Hr.
  eapply rtc_l; [by apply (ex_act_step a)|by apply IH].
Qed.

Lemma ex_schemas_relations rt : relations_for ex_schemas rt = Some workspaceRelations.
Proof. done. Qed.

Lemma ex_schemas_distinct : schemas_distinct ex_schemas.
Proof.
  intros rt rels. rewrite ex_schemas_relations. intros [= <-].
  apply (bool_decide_unpack _). vm_compute. exact I.
Qed.

Lemma ex_pipeline_starts : pipeline_start ex_host_key ex_pipeline_start.
Proof.
  split; [by repeat split|]. split; [done|]. split; [done|]. split; [done|].
  intros k _. apply not_elem_of_empty.
Qed.

(** The host is reported in w1 and moves to w2; the delivery of the move fails
    half-way; after a restart both entries are delivered again while the host
    moves on to w3. *)
Definition ex_history : list ex_action :=
  [ExReport 1 "w1"; ExDeliver; ExReport 3 "w2"; ExRestart 1 true; ExDeliver; ExReport 5 "w3";
   ExRestart 0 false; ExDeliver; ExDeliver; ExDeliver].

Definition ex_final (l : list ex_action) : bool :=
  match ex_acts l ex_pipeline_start with
  | Some p => bool_decide
      (pl_position p = 3%nat /\ length (tuple_messages (ic_DB (pl_consumer p))) = 3%nat /\
       stored (ic_Relations (pl_consumer p)) = {[ tkey (ex_tuple "w3") ]})
  | None => false
  end.

Lemma ex_history_final : ex_final ex_history = true.
Proof. vm_compute. reflexivity. Qed.

Lemma replication_converges_witness :
  exists p : ex_pipeline, rtc (pipeline_step ex_config ex_schemas ex_host_key) ex_pipeline_start p /\
    pl_position p = 3%nat /\
    forall k, owned ex_host_key k ->
      k ∈ stored (ic_Relations (pl_consumer p)) <->
      k ∈ tuples_of workspaceRelations
            (rep_of_row <$> latest_row (common_rows (ic_DB (pl_consumer p)) ex_host_key)) ex_host_key.
Proof.
  pose proof ex_history_final as Hf. unfold ex_final in Hf.
  destruct (ex_acts ex_history ex_pipeline_start) as [p|] eqn:E; [|discriminate Hf].
  apply bool_decide_eq_true in Hf as (Hpos & Hlen & _).
  exists p. split; [exact (ex_acts_run _ _ _ E)|]. split; [exact Hpos|].
  apply (replication_converges ex_config ex_schemas ex_host_key workspaceRelations
           ex_pipeline_start p); [discriminate|reflexivity|exact ex_schemas_distinct|reflexivity|
           exact ex_pipeline_starts|exact (ex_acts_run _ _ _ E)|congruence].
Defined.
