(* ===== verification/CatchUp.v ===== *)
(** Progress of the pipeline of Convergence.v: while the database answers and
    the backend takes writes, every delivery moves on to the next entry, so the
    consumer catches up with the log.
    Then the answers: once the consumer has read the log, a check for update over
    the Relations API tells the workspace (or any other relation of the schema)
    of the last representation stored. *)
From stdpp Require Import base tactics list strings gmap sorting relations.
From Stdlib Require Import ZArith Lia Ascii.
From S2P Require Import Prelude GoStrings Proto SpiceDB GRPCRelations GRPCRelationsProps.
From S2P Require Import Common ReporterResource Representations Resource.
From S2P Require Import ResourceProps Json DataModel Relations Outbox Store Tables Schema.
From S2P Require Import SchemaProps MetaAuthz RelationsRepo RelationsRepoProps Consumer Examples.
From S2P Require Import ConsumerProps Replication StoreProps StoreInv Usecase.
From S2P Require Import UsecaseProps Duplicates OutboxProps FetchProps Convergence.

Local Open Scope string_scope.

Section CatchUp.
Context {D T K S : Type} `{GormDB D} `{OutboxLib} `{TupleStore T} `{KafkaClient K}
  `{SchemaRepository S} `{!GormLaws D}.
Context (cfg : ConsumerConfig) (schemas : S).
Implicit Type i : InventoryConsumer D T K.

(** [up] says that the backend takes the writes made under a lock, and stays
    so. *)
Record accepts_writes (fc : FencingCheck) (up : T -> Prop) : Prop := {
  aw_create : forall ts t, up t ->
    exists t' r, rel_CreateTuples ts true (Some fc) t = (t', Ok r) /\ up t';
  aw_delete : forall flt t, up t ->
    exists t' r, rel_DeleteTuples flt (Some fc) t = (t', Ok r) /\ up t';
}.

Definition fc_of i : FencingCheck := {| fc_lockId := ic_lockId i; fc_lockToken := ic_lockToken i |}.

(** The reads that the delivery of [msg] makes succeed. *)
Definition readable (d : D) (msg : Message) : bool :=
  match ParseHeaders msg, ParseMessage (msg_Value msg) with
  | Ok headers, Ok (Some ev) =>
      match operation_of (header headers "operation") with
      | Some op => is_ok (fetchRepresentations op d (te_reporterResourceKey ev) (te_commonVersion ev))
      | None => true
      end
  | _, _ => true
  end.

Section Up.
Context (fc : FencingCheck) (up : T -> Prop) (Hup : accepts_writes fc up).

Lemma CreateTuple_up ts t : up t -> has_tuples ts = true ->
  exists t' tok, CreateTuple fc ts t = (t', Ok tok) /\ up t'.
Proof.
  intros Ht Hts. destruct ts as [[|x ts]|]; [done| |done]. unfold CreateTuple.
  destruct (aw_create _ _ Hup (x :: ts) t Ht) as (t' & r & -> & ?). eauto.
Qed.

Lemma delete_each_up ts tok t : up t ->
  exists t' tok', delete_each fc ts tok t = (t', Ok tok') /\ up t'.
Proof.
  revert tok t. induction ts as [|x ts IH]; intros tok t Ht; simpl; [eauto|].
  destruct (aw_delete _ _ Hup (tupleToFilter x) t Ht) as (t1 & r & -> & Ht1). by apply IH.
Qed.

Lemma UpdateTuple_up cs ds t : up t ->
  exists t' tok, UpdateTuple fc cs ds t = (t', Ok tok) /\ up t'.
Proof.
  intros Ht. unfold UpdateTuple.
  assert (Hc : exists t1 tok1, (if has_tuples cs
     then match CreateTuple fc cs t with
          | (t, Ok createToken) => (t, Ok createToken)
          | (t, Err err) => (t, Err (EWrap "failed to create tuples" err))
          end
     else (t, Ok "")) = (t1, Ok tok1) /\ up t1).
  { destruct (has_tuples cs) eqn:E; [|eauto].
    destruct (CreateTuple_up cs t Ht E) as (t1 & tok1 & -> & ?). eauto. }
  destruct Hc as (t1 & tok1 & -> & Ht1). destruct ds as [[|x ds]|]; [eauto| |eauto].
  unfold DeleteTuple. destruct (delete_each_up (x :: ds) "" t1 Ht1) as (t2 & tok2 & -> & ?). eauto.
Qed.

Lemma execute_up op ttr t : up t ->
  (op = OperationTypeCreated -> has_tuples (tuplesToCreate ttr) = true) ->
  (op = OperationTypeDeleted -> is_Some (tuplesToDelete ttr)) ->
  exists t' tok, executeSpiceDB op fc ttr t = (t', Ok tok) /\ up t'.
Proof.
  intros Ht Hc Hd. destruct op; simpl.
  - by apply CreateTuple_up; [|apply Hc].
  - by apply UpdateTuple_up.
  - destruct (Hd eq_refl) as [ts ->].
    unfold DeleteTuple. destruct (delete_each_up ts "" t Ht) as (t2 & tok2 & -> & ?). eauto.
Qed.
End Up.

(** Some attempt is allowed. *)
Definition attempts_allowed : bool :=
  (cfg_OperationMaxRetries cfg =? -1)%Z || (0 <? cfg_OperationMaxRetries cfg)%Z.

Lemma process_up up op msg i ev cur prev rels fuel :
  attempts_allowed = true -> accepts_writes (fc_of i) up -> up (ic_Relations i) ->
  ParseMessage (msg_Value msg) = Ok (Some ev) ->
  fetchRepresentations op (ic_DB i) (te_reporterResourceKey ev) (te_commonVersion ev)
    = Ok (cur, prev) ->
  relations_for schemas (resourceType (te_reporterResourceKey ev)) = Some rels ->
  distinct_relations rels ->
  exists t tok, processRelationsOperation cfg schemas (Datatypes.S fuel) op msg i
    = Some (set_Relations i t, Ok tok) /\ up t.
Proof.
  intros Hmax Hup Hu Hm Hf Hr Hd. unfold processRelationsOperation. rewrite Hm, Hf.
  rewrite (CalculateTuplesForResource_relations _ _ _ _ _ Hr).
  destruct (CalculateTuplesFromRelationDefs _ _ _ _) as [ttr|e] eqn:Hc.
  2: { unfold CalculateTuplesFromRelationDefs in Hc. by destruct (foldl _ _ _). }
  destruct (IsEmpty ttr) eqn:He; [exists (ic_Relations i), ""; by destruct i|].
  destruct (operation_tuples _ _ _ _ _ _ _ _ Hd Hf Hc He) as [Hcr Hde]. fold (fc_of i).
  destruct (execute_up _ _ Hup op ttr (ic_Relations i) Hu) as (t & tok & Hex & Hut).
  { intros Ho. unfold IsEmpty in He. rewrite (Hcr Ho) in He. by destruct (has_tuples _). }
  { intros Ho. by apply Hde. }
  exists t, tok. split; [|done]. unfold Retry. cbn [retry_loop].
  unfold attempts_allowed in Hmax. by rewrite Hmax, Hex.
Qed.

(** * One delivery *)

Lemma ParseHeaders_routed content msg x : routed content msg -> published x content ->
  exists headers, ParseHeaders msg = Ok headers.
Proof.
  intros Hr (id & aid & txid & payload & -> & _). inversion Hr; subst. eexists.
  unfold ParseHeaders. cbn [msg_Headers]. rewrite bool_decide_eq_true_2.
  - rewrite bool_decide_eq_false_2; [done|]. by destruct x.1.
  - unfold collect_headers. simpl. rewrite !dom_insert_L, dom_empty_L. set_solver.
Qed.

Lemma ParseMessageKey_routed content msg : routed content msg ->
  exists id, ParseMessageKey (msg_Key msg) = Ok id.
Proof. intros []. by eexists. Qed.

Lemma finish_message_lock notify arrived headers msg i :
  fc_of (finish_message cfg notify arrived headers msg i) = fc_of i.
Proof.
  unfold finish_message.
  set (i1 := if cfg_notifier cfg && _ && _ then _ else _).
  assert (Hi1 : fc_of i1 = fc_of i) by (unfold i1; by destruct (_ && _ && _)).
  destruct (checkIfCommit _ _); [|done]. unfold commitStoredOffsets.
  destruct (ic_OffsetStorage _); [done|]. simpl.
  destruct (CommitOffsets _ _) as [k [e|]]; [|done]. unfold restore_offsets. by case_match.
Qed.

Lemma token_lock id tok i i' err :
  UpdateConsistencyTokenIfPresent id tok i = (i', err) -> fc_of i' = fc_of i.
Proof.
  unfold UpdateConsistencyTokenIfPresent, UpdateConsistencyToken.
  case_bool_decide; [by intros [= <- _]|]. by destruct (update_ktn _ _ _); intros [= <- _].
Qed.

(** The setting of a run that makes progress: replication is enabled, attempts
    are allowed, every type has its relations. *)
Record ready : Prop := {
  rd_enabled : relationsEnabled (T := T) = true;
  rd_attempts : attempts_allowed = true;
  rd_distinct : schemas_distinct schemas;
  rd_relations : forall rt, is_Some (relations_for schemas rt);
}.

Lemma consume_up up content msg x i fuel notify arrived :
  ready -> accepts_writes (fc_of i) up -> up (ic_Relations i) ->
  routed content msg -> published x content -> small_event x.2 -> readable (ic_DB i) msg = true ->
  exists i', consume_message cfg schemas (Datatypes.S fuel) notify arrived msg i = Some (i', Continue) /\
    up (ic_Relations i') /\ fc_of i' = fc_of i.
Proof.
  intros [Hen Hatt Hdist Hrel] Hup Hu Hr Hp Hs Hread.
  destruct (ParseHeaders_routed _ _ _ Hr Hp) as [headers Hh].
  destruct (routed_published _ _ _ _ Hr Hp Hs Hh) as [Hop Hm].
  unfold readable in Hread. rewrite Hh, Hm, Hop in Hread.
  destruct (fetchRepresentations _ _ _ _) as [[cur prev]|] eqn:Hf; [|done].
  destruct (Hrel (resourceType (te_reporterResourceKey x.2))) as [rels Hrels].
  destruct (process_up up _ _ _ _ _ _ _ fuel Hatt Hup Hu Hm Hf Hrels (Hdist _ _ Hrels))
    as (t & tok & Hproc & Hut).
  unfold consume_message, ProcessMessage. rewrite Hh, Hop, Hen, Hproc.
  assert (Hfin : forall i2, ic_Relations i2 = t -> fc_of i2 = fc_of i ->
    up (ic_Relations (finish_message cfg notify arrived headers msg i2)) /\
    fc_of (finish_message cfg notify arrived headers msg i2) = fc_of i).
  { intros i2 E1 E2. destruct (finish_message_frame cfg notify arrived headers msg i2) as [-> _].
    rewrite finish_message_lock, E1. by split. }
  destruct (bool_decide _); [|eexists; split; [done|by apply Hfin]].
  destruct (ParseMessageKey_routed _ _ Hr) as [id ->].
  destruct (UpdateConsistencyTokenIfPresent _ _ _) as [i2 err] eqn:Ht.
  pose proof (token_lock _ _ _ _ _ Ht) as Hl.
  apply UpdateConsistencyTokenIfPresent_frame in Ht as [Hrl _].
  destruct err; (eexists; split; [done|]); [by rewrite Hrl|]. by apply Hfin.
Qed.

(** * The rest of the log *)

(** The tables, whatever tokens the consumer stores in them, answer the reads
    of every entry of the log. *)
Definition answers (d : D) : Prop :=
  forall d', rtc same_tables d d' -> forall content msg, content ∈ tuple_messages d ->
    routed content msg -> readable d' msg = true.

Lemma same_tables_messages (d d' : D) : same_tables d d' -> tuple_messages d' = tuple_messages d.
Proof.
  intros [->|(id & tok & ((_ & _ & _ & F4) & _)%update_ktn_ok)]; [done|].
  unfold tuple_messages. by rewrite F4.
Qed.

Lemma published_routed x content : published x content -> exists msg, routed content msg.
Proof.
  intros (id & aid & txid & payload & -> & _). eexists.
  exact (routed_intro _ _ _ _ _ _ [] [] {| tp_Topic := ""; tp_Partition := 0; tp_Offset := 0 |}).
Qed.

(** Deliveries of the next entry: of any message that the router makes of it,
    with any number of attempts, whatever the notifier answers and whatever
    offsets arrive meanwhile. *)
Inductive delivers : pipeline -> pipeline -> Prop :=
  | delivers_next fuel notify arrived content msg i i' f pos :
      tuple_messages (ic_DB i) !! pos = Some content -> routed content msg ->
      consume_message cfg schemas (Datatypes.S fuel) notify arrived msg i = Some (i', f) ->
      delivers {| pl_consumer := i; pl_position := pos |}
        {| pl_consumer := i';
           pl_position := match f with Continue => Datatypes.S pos | _ => pos end |}.

(** Every delivery of the next entry succeeds. *)
Definition moves_on (p : pipeline (D := D) (T := T) (K := K)) : Prop :=
  forall fuel notify arrived content msg,
    tuple_messages (ic_DB (pl_consumer p)) !! pl_position p = Some content -> routed content msg ->
    exists i', consume_message cfg schemas (Datatypes.S fuel) notify arrived msg (pl_consumer p)
               = Some (i', Continue).

Section Drain.
Context (key : ReporterResourceKey) (rels : list RelationDef) (up : T -> Prop).
Context (Hready : ready) (Hinst : reporterInstanceId (reporter key) <> "").
Context (Hrels : relations_for schemas (resourceType key) = Some rels).

(** While the consumer works on the log of [d]. *)
Record working (d : D) (p : pipeline) : Prop := {
  wk_converging : exists evs hw, converging key rels p evs hw;
  wk_accepts : accepts_writes (fc_of (pl_consumer p)) up;
  wk_up : up (ic_Relations (pl_consumer p));
  wk_answers : answers (ic_DB (pl_consumer p));
  wk_tables : rtc same_tables d (ic_DB (pl_consumer p));
}.

Lemma next_event (p : pipeline (D := D) (T := T) (K := K)) evs hw content : converging key rels p evs hw ->
  tuple_messages (ic_DB (pl_consumer p)) !! pl_position p = Some content ->
  exists x, evs !! pl_position p = Some x /\ published x content /\ small_event x.2.
Proof.
  intros Hc Hm. pose proof (cg_logged _ _ _ _ _ Hc) as Hl.
  destruct (Forall2_lookup_r _ _ _ _ _ (lg_published _ _ _ Hl) Hm) as (x & Hx & Hp).
  exists x. split_and!; [done..|]. apply (eo_small _ _ (logged_event _ _ _ _ _ Hl Hx)).
Qed.

Lemma working_moves_on d p : working d p -> moves_on p.
Proof.
  intros [(evs & hw & Hc) Hacc Hu Hans _] fuel notify arrived content msg Hm Hr.
  destruct (next_event _ _ _ _ Hc Hm) as (x & _ & Hp & Hs).
  edestruct (consume_up up) as (i' & Hi & _); [done..| |eauto].
  eapply Hans; [done|by eapply list_elem_of_lookup_2|done].
Qed.

Lemma working_delivers d p p' : working d p -> delivers p p' ->
  working d p' /\ pl_position p' = Datatypes.S (pl_position p) /\ pipeline_step cfg schemas key p p'.
Proof.
  intros [(evs & hw & Hc) Hacc Hu Hans Htab] Hd.
  assert (Hstep : pipeline_step cfg schemas key p p') by (destruct Hd; by econstructor).
  destruct Hd as [fuel notify arrived content msg i i' f pos Hm Hr Hcon].
  cbn [pl_consumer pl_position] in *.
  destruct (next_event _ _ _ _ Hc Hm) as (x & Hx & Hp & Hs).
  destruct (consume_up up content msg x i fuel notify arrived Hready Hacc Hu Hr Hp Hs)
    as (i2 & Hcon' & Hu' & Hfc); [by eapply Hans; [|eapply list_elem_of_lookup_2|]|].
  rewrite Hcon in Hcon'. injection Hcon' as <- ->.
  destruct (consumed_delivery _ _ _ _ _ _ _ _ _ _ _ (rd_distinct Hready) (rd_enabled Hready)
    (cg_upserts _ _ _ _ _ Hc) Hr Hp Hs Hcon) as (Hup' & Hdb & Hdel).
  split; [|done]. split; cbn [pl_consumer].
  - destruct (converging_message _ _ _ Hinst _ _ _ _ _ _ _ Hrels Hc Hx Hup' Hdb Hdel) as [hw' Hc'].
    eauto.
  - by rewrite Hfc.
  - done.
  - intros d' Hd' c m Hcm. rewrite (same_tables_messages _ _ Hdb) in Hcm.
    eapply Hans; [by eapply rtc_l|done].
  - by eapply rtc_r.
Qed.

Lemma working_run d n p p' : working d p -> nsteps delivers n p p' ->
  working d p' /\ pl_position p' = (pl_position p + n)%nat /\
  rtc (pipeline_step cfg schemas key) p p'.
Proof.
  intros Hw Hrun. revert Hw. induction Hrun as [p|n p p1 p' Hs _ IH]; intros Hw.
  - split_and!; [done|lia|done].
  - destruct (working_delivers _ _ _ Hw Hs) as (Hw1 & Hpos & Hstep).
    destruct (IH Hw1) as (Hw' & Hpos' & Hrun). split_and!; [done|lia|by eapply rtc_l].
Qed.
End Drain.

Lemma same_tables_rows (d d' : D) key : rtc same_tables d d' ->
  common_rows d' key = common_rows d key /\ tuple_messages d' = tuple_messages d.
Proof.
  induction 1 as [|a b c Hs _ [-> ->]]; [done|]. split; [|by apply same_tables_messages].
  destruct Hs as [->|(id & tok & ((F1 & _ & F3 & _) & _)%update_ktn_ok)]; [done|].
  unfold common_rows, key_rows. by rewrite F1, F3.
Qed.

Lemma working_reads d (p : pipeline (D := D) (T := T) (K := K)) key rels up : working key rels up d p ->
  tuple_messages (ic_DB (pl_consumer p)) = tuple_messages d /\
  (pl_position p <= length (tuple_messages d))%nat.
Proof.
  intros [(evs & hw & Hc) _ _ _ Htab]. destruct (same_tables_rows _ _ key Htab) as [_ Hm].
  split; [done|]. rewrite <- Hm.
  rewrite <- (Forall2_length _ _ _ (lg_published _ _ _ (cg_logged _ _ _ _ _ Hc))).
  pose proof (cg_position _ _ _ _ _ Hc). lia.
Qed.

Lemma working_next d (p : pipeline (D := D) (T := T) (K := K)) key rels up : ready -> working key rels up d p ->
  (pl_position p < length (tuple_messages d))%nat -> exists p', delivers p p'.
Proof.
  intros Hrd Hw Hlt. destruct (working_reads _ _ _ _ _ Hw) as [Hm _]. rewrite <- Hm in Hlt.
  destruct (lookup_lt_is_Some_2 _ _ Hlt) as [content Hc].
  destruct (wk_converging _ _ _ _ _ Hw) as (evs & hw & Hcv).
  destruct (next_event _ _ _ _ _ _ Hcv Hc) as (x & _ & Hp & _).
  destruct (published_routed _ _ Hp) as [msg Hr].
  destruct (working_moves_on _ _ _ Hrd _ _ Hw 0%nat None [] content msg Hc Hr) as [i' Hi].
  destruct p as [i pos]. eexists. by eapply delivers_next.
Qed.


(** * An entry that cannot be read *)

Lemma report_of_known e cmd txid (d d' : D) op row : db_wf d ->
  row ∈ reporter_resource_rows d -> buildReporterResourceKeyQuery (key_of_command cmd) row = true ->
  report_tx e cmd (key_of_command cmd) txid d = Ok (d', op) -> op = OperationTypeUpdated.
Proof.
  intros Hwf Hrow Hq. unfold report_tx. simpl.
  destruct (FindResourceByKeys d _) as [r|err] eqn:Hf; [by destruct (updateResource _ _ _ _ _); intros [= _ <-]|].
  destruct (errors_Is err ErrRecordNotFound) eqn:Hn; [|done].
  by rewrite (FindResourceByKeys_not_found _ _ _ Hwf Hf ltac:(by rewrite Hn) row Hrow) in Hq.
Qed.

(** The update to version 0 cannot be fetched. *)
Lemma fetch_version_zero (d : D) key :
  (forall v, (2 ^ 63 <= v < 2 ^ 64)%Z -> is_Some (bind_error v)) ->
  exists err, fetchRepresentations OperationTypeUpdated d key (Some 0%Z)
              = Err (EWrap "failed to find common representations by version" err).
Proof.
  intros Hrefuse. simpl. unfold versions_query_error.
  destruct (query_error d) as [e|]; [by exists e|].
  destruct (bind_error 0) as [e|]; [by exists e|].
  destruct (Hrefuse (u64 (0 - 1)) ltac:(vm_compute; split; congruence)) as [e ->]. by exists e.
Qed.

(** C39. A resource that was reported without common data and is then reported
    with it blocks the consumer.  The report is an update with common version 0;
    to deliver its entry the consumer asks for the versions 0 and 0 - 1, and the
    latter is 2^64 - 1 as an unsigned integer.  If the driver refuses unsigned
    parameters with the high bit set, as database/sql and pgx do, then every
    delivery of the entry stops the loop and changes nothing, whatever happened
    to the database meanwhile. *)
Theorem first_common_in_update_unreadable key e cmd txid (d d' : D) op row data
    (Hrefuse : forall v, (2 ^ 63 <= v < 2 ^ 64)%Z -> is_Some (bind_error v))
    (Henabled : relationsEnabled (T := T) = true)
    (Hinst : reporterInstanceId (reporter key) <> "") (Hwf : db_wf d)
    (Hrow : row ∈ reporter_resource_rows d) (Hkey : row_key row = key)
    (Hnone : common_rows d key = []) (Hcmd : key_of_command cmd = key)
    (Hcommon : rc_CommonRepresentation cmd = Some data)
    (Hfresh : fresh d e) (Hwal : env_outboxMode e = "wal")
    (Hreport : report_tx e cmd (key_of_command cmd) txid d = Ok (d', op)) (Hsmall : small_rows d') :
  op = OperationTypeUpdated /\ is_Some (version_row d' key 0) /\
  exists content, tuple_messages d' = (tuple_messages d ++ [content])%list /\
    forall fuel notify arrived msg (i : InventoryConsumer D T K), routed content msg ->
      consume_message cfg schemas fuel notify arrived msg i = Some (i, Stop).
Proof.
  assert (Hop : op = OperationTypeUpdated).
  { eapply report_of_known; [done|exact Hrow| |done]. rewrite Hcmd. by apply query_key. }
  destruct (report_effect _ _ _ _ _ _ Hwf Hfresh Hwal Hreport) as (_ & w & He & Han & _ & _ & _ & Hrep).
  rewrite Hcommon in Hrep. destruct Hrep as (c & Hc & _).
  rewrite Hcmd in He, Han.
  assert (Hkw : row_key (ro_reporter w) = key)
    by (by apply (query_key _ _ Hinst), (ef_query _ _ _ _ He)).
  assert (Hn : versions_counted d key 0).
  { intros v. unfold version_row. rewrite Hnone. simpl. split; [by intros [? ?]|lia]. }
  destruct (effect_next _ _ _ _ key 0 c He Hinst Hn Hc Hkw) as [Hv Hn'].
  change (Z.of_nat 0) with 0%Z in Hv. split; [done|]. split; [apply Hn'; lia|].
  destruct (announced_messages _ _ _ _ _ _ _ Han) as (content & Hm & Hpub).
  exists content. split; [done|]. intros fuel notify arrived msg i Hr.
  destruct (ParseHeaders_routed _ _ _ Hr Hpub) as [headers Hh].
  assert (Hse : small_event {| te_reporterResourceKey := key; te_commonVersion := cw_Version <$> ro_common w;
     te_reporterRepresentationVersion := rpw_Version <$> ro_representation w |})
    by (by eapply announced_small).
  destruct (routed_published _ _ _ _ Hr Hpub Hse Hh) as [Hop' Hmsg]. simpl in Hop', Hmsg.
  rewrite Hc in Hmsg. simpl in Hmsg. rewrite Hv in Hmsg. subst op.
  unfold consume_message, ProcessMessage, processRelationsOperation.
  rewrite Hh, Hop', Henabled, Hmsg.
  destruct (fetch_version_zero (ic_DB i) key Hrefuse) as [err Hf].
  cbn [te_reporterResourceKey te_commonVersion] in *. by rewrite Hf.
Qed.
End CatchUp.

(** * A run *)

(** What the consumer reads does not depend on the tokens. *)
Lemma Tables_same_fetch op (d d' : Tables) key v : rtc same_tables d d' ->
  fetchRepresentations op d' key v = fetchRepresentations op d key v.
Proof.
  induction 1 as [|a b c Hs _ ->]; [done|].
  destruct Hs as [->|(id & tok & [_ ->]%guarded_Ok)]; [done|]. by destruct op.
Qed.

(** Two messages of one entry are read alike. *)
Lemma readable_routed (d d' : Tables) x content m m' :
  published x content -> small_event x.2 -> routed content m -> routed content m' ->
  rtc same_tables d d' -> readable d m = true -> readable d' m' = true.
Proof.
  intros Hp Hs Hm Hm' Hd. unfold readable.
  destruct (ParseHeaders_routed _ _ _ Hm Hp) as [h Hh].
  destruct (ParseHeaders_routed _ _ _ Hm' Hp) as [h' Hh'].
  destruct (routed_published _ _ _ _ Hm Hp Hs Hh) as [E1 E2].
  destruct (routed_published _ _ _ _ Hm' Hp Hs Hh') as [E1' E2'].
  by rewrite Hh, Hh', E1, E2, E1', E2', (Tables_same_fetch _ d d').
Qed.

Definition ex_topic : TopicPartition := {| tp_Topic := "outbox"; tp_Partition := 0; tp_Offset := 1 |}.

Definition readable_log (d : Tables) : bool :=
  forallb (fun content => match route ex_topic content with
                          | Some msg => readable d msg | None => false end) (tuple_messages d).

Lemma readable_log_answers d evs : logged ex_host_key d evs -> readable_log d = true -> answers d.
Proof.
  intros Hl Hb d' Hd content msg Hin Hr. unfold readable_log in Hb. rewrite forallb_forall in Hb.
  specialize (Hb content (proj1 (list_elem_of_In _ _) Hin)).
  destruct (route ex_topic content) as [m|] eqn:Hm; [|done]. apply route_routed in Hm.
  apply list_elem_of_lookup in Hin as [n Hn].
  destruct (Forall2_lookup_r _ _ _ _ _ (lg_published _ _ _ Hl) Hn) as (x & Hx & Hp).
  eapply readable_routed; [done|apply (eo_small _ _ (logged_event _ _ _ _ _ Hl Hx))|exact Hm|done..].
Qed.

Definition ex_fence : FencingCheck := {| fc_lockId := "group/0"; fc_lockToken := "token" |}.

(** No credentials are needed, the lock is held and the API takes deletes. *)
Definition ex_up (s : ex_relations) : Prop :=
  EnableOIDCAuth (gr_tokenClient s) = false /\
  Backend.holds (gr_conn s) "group/0" "token" = true /\ Backend.ap_error (gr_conn s) = None.

Lemma ex_accepts_writes : accepts_writes ex_fence ex_up.
Proof.
  split.
  - intros ts s (Ho & Hh & He). simpl. unfold GRPC.CreateTuples, GRPC.with_options, GRPC.getCallOptions.
    rewrite Ho. simpl. rewrite Hh. simpl. do 2 eexists. by split.
  - intros flt s (Ho & Hh & He). simpl. unfold GRPC.DeleteTuples, GRPC.with_options, GRPC.getCallOptions.
    rewrite Ho. simpl. rewrite Hh, He. simpl. do 2 eexists. by split.
Qed.

Lemma ex_ready : ready ex_config ex_schemas.
Proof. split; [done..|exact ex_schemas_distinct|]. intros rt. by rewrite ex_schemas_relations. Qed.

(** Two reports that wait for the consumer. *)
Definition ex_backlog : list ex_action := [ExReport 1 "w1"; ExReport 3 "w2"].

(** They are delivered, the second one with an error of the notifier. *)
Definition ex_deliver (notify : option go_error) (p : ex_pipeline) : option ex_pipeline :=
  let i := pl_consumer p in
  content ← tuple_messages (ic_DB i) !! pl_position p;
  msg ← route ex_topic content;
  r ← consume_message ex_config ex_schemas 1 notify [] msg i;
  Some {| pl_consumer := r.1;
          pl_position := match r.2 with Continue => S (pl_position p) | _ => pl_position p end |}.

Lemma ex_deliver_delivers notify p p' : ex_deliver notify p = Some p' ->
  delivers ex_config ex_schemas p p'.
Proof.
  destruct p as [i pos]. unfold ex_deliver. cbn [pl_consumer pl_position].
  intros (content & Hc & (msg & Hm & ([i' f] & Hi & [= <-])%bind_Some)%bind_Some)%bind_Some.
  apply route_routed in Hm. by eapply delivers_next.
Qed.

Definition ex_delivered (p : ex_pipeline) : option ex_pipeline :=
  p ← ex_deliver None p; ex_deliver (Some (EMsg "notifier down")) p.

Definition ex_backlog_state : bool :=
  match ex_acts ex_backlog ex_pipeline_start with
  | Some p => readable_log (ic_DB (pl_consumer p)) && bool_decide (ex_up (ic_Relations (pl_consumer p)))
              && bool_decide (fc_of (pl_consumer p) = ex_fence) && bool_decide (pl_position p = 0%nat)
              && bool_decide (length (tuple_messages (ic_DB (pl_consumer p))) = 2%nat)
              && match ex_delivered p with Some _ => true | None => false end
  | None => false
  end.

Lemma ex_backlog_ok : ex_backlog_state = true.
Proof. vm_compute. reflexivity. Qed.


(** * Tuples and values *)

(** The tuple of the resource [key], the relation [rel] and the subject [v]. *)
Definition value_key (key : ReporterResourceKey) (rel : RelationDef) (v : string) : simpleTupleKey :=
  tkey (NewRelationTupleForSubject key (rd_relationName rel) (rd_subjectNamespace rel)
          (rd_subjectResourceType rel) v).

Lemma value_key_owned key rel v : owned key (value_key key rel v).
Proof. by repeat split. Qed.

Lemma value_key_tuples rels rel r key v : distinct_relations rels -> rel ∈ rels ->
  value_key key rel v ∈ tuples_of rels r key <-> v ∈ relation_values rel r.
Proof.
  intros Hd Hrel. rewrite elem_of_tuples_of. split.
  - intros (t & Hk & rel' & v' & Hrel' & Hv' & ->). unfold value_key, tkey in Hk. cbn in Hk.
    injection Hk as E1 E2 E3 ->.
    apply list_elem_of_lookup in Hrel as [i Hi], Hrel' as [j Hj].
    assert (i = j) as ->; [|congruence].
    eapply (NoDup_lookup _ i j (rd_relationName rel, rd_subjectNamespace rel,
      rd_subjectResourceType rel)); [exact Hd| |]; rewrite list_lookup_fmap, ?Hi, ?Hj; simpl; congruence.
  - intros Hv. eexists. split; [reflexivity|]. by exists rel, v.
Qed.

(** A reference to the resource that [key] names, and to the subject [v]. *)
Definition refers (ref : ResourceReference) (key : ReporterResourceKey) : Prop :=
  simpleResourceRefFields ref = (reporterType (reporter key), resourceType key, localResourceID key).

Definition refers_subject (sub : SubjectReference) (rel : RelationDef) (v : string) : Prop :=
  simpleResourceRefFields (sub_resource sub)
  = (rd_subjectNamespace rel, rd_subjectResourceType rel, v).

Lemma relationship_key ref key sub rel v : refers ref key -> refers_subject sub rel v ->
  key_of_fields ref (rd_relationName rel) (sub_resource sub) = value_key key rel v.
Proof.
  unfold refers, refers_subject, key_of_fields. intros -> ->. done.
Qed.

Definition last_representation {D} `{GormDB D} (d : D) (key : ReporterResourceKey)
    : option Representations :=
  rep_of_row <$> latest_row (common_rows d key).

(** C4. From a report to an answer.  Let the pipeline of the service run as in
    the convergence theorem, its consumer writing tuples over the Relations
    API.  Once the consumer has read the log, a check for update of a relation of
    the schema, by a caller that may make it, goes over the same API: if the API
    does not compute the relation from others and no tuple of the resource names
    a set of subjects, it is allowed if and only if the last common
    representation stored names the subject; and it is answered if the
    credentials are granted and the API answers. *)
Theorem answers_reflect_last_report (W A D K S S' : Type) (HW : TokenEndpoint W) (HWL : TokenLaws W)
    (HA : KesselClient A) (HAL : KesselLaws A) (HAC : KesselChecks A)
    (HD : GormDB D) (HO : OutboxLib)
    (HK : KafkaClient K) (HS : SchemaRepository S) (HL : GormLaws D) (HS' : SchemaRepository S')
    (cfg : ConsumerConfig) (schemas : S) (key : ReporterResourceKey) (rels : list RelationDef)
    (p0 p : pipeline (D := D) (T := GRPCRelationsRepository W A) (K := K))
    (uc : Usecase (S := S')) (ctx : Ctx) (ref : ResourceReference) (rel : RelationDef)
    (sub : SubjectReference) (v : string)
    (Hinst : reporterInstanceId (reporter key) <> "")
    (Hrels : relations_for schemas (resourceType key) = Some rels)
    (Hdistinct : schemas_distinct schemas)
    (Hstart : pipeline_start key p0) (Hrun : rtc (pipeline_step cfg schemas key) p0 p)
    (Hdone : pl_position p = length (tuple_messages (ic_DB (pl_consumer p))))
    (Href : refers ref key) (Hrel : rel ∈ rels)
    (Hsub : refers_subject sub rel v) (Hset : sub_relation sub = None)
    (Hdirect : kc_direct (reporterType (reporter key)) (resourceType key) (rd_relationName rel))
    (Hplain : forall t, t ∈ kc_stored (gr_conn (ic_Relations (pl_consumer p))) -> owned key t.1 ->
                t.2 = None)
    (Hadmitted : enforce_ref uc ctx RelationCheckForUpdate ref = Ok tt) :
  let s := ic_Relations (pl_consumer p) in
  let check := CheckForUpdate uc ctx s (rd_relationName rel) sub ref in
  (forall r, check = Ok r ->
     cr_allowed r = true <-> v ∈ relation_values rel (last_representation (ic_DB (pl_consumer p)) key)) /\
  (forall opts, (GRPC.getCallOptions s).2 = Ok opts ->
     (forall req, is_ok (kc_CheckForUpdate opts (gr_conn s) req) = true) -> exists r, check = Ok r).
Proof.
  intros s check. assert (Hcheck : check = rel_CheckForUpdate s (NewRelationship ref (rd_relationName rel) sub))
    by (unfold check, CheckForUpdate; by rewrite Hadmitted).
  rewrite Hcheck. split; [|intros opts Ho Hans; by eapply CheckForUpdate_answers].
  intros r Hr. rewrite <- (value_key_tuples rels rel _ key v (Hdistinct _ _ Hrels) Hrel).
  assert (Hen : relationsEnabled (T := GRPCRelationsRepository W A) = true) by done.
  rewrite <- (drained_in_sync cfg schemas key rels p0 p Hinst Hrels Hdistinct Hen Hstart Hrun Hdone
             (value_key key rel v) (value_key_owned key rel v)).
  rewrite <- (relationship_key _ _ _ _ _ Href Hsub).
  apply (CheckForUpdate_direct s (NewRelationship ref (rd_relationName rel) sub) r); [..|exact Hr];
    cbn [rel_object rel_relation rel_subject NewRelationship]; rewrite ?(relationship_key _ _ _ _ _ Href Hsub);
    [done..|].
  intros t Ht (E1 & E2 & E3 & _). apply (Hplain t Ht). split; [exact E1|split; [exact E2|exact E3]].
Qed.

(** * A run *)

Definition ex_host_ref : ResourceReference :=
  NewResourceReference "host" "host-1" (Some (NewReporterReference "hbi" (Some "i1"))).

Definition ex_workspace_subject (ws : string) : SubjectReference :=
  NewSubjectReferenceWithoutRelation
    (NewResourceReference "workspace" ws (Some (NewReporterReference "rbac" None))).

Definition ex_workspace_relation : RelationDef :=
  {| rd_fieldName := "workspace_id"; rd_relationName := WorkspaceRelation;
     rd_subjectNamespace := RbacNamespace; rd_subjectResourceType := WorkspaceRelation;
     rd_multiValued := false |}.

(** The host moved through w1 and w2 to w3 (the history of Convergence.v, with a
    failed delivery and a redelivery): the check says yes to w3 and no to w1. *)
Definition ex_answers (l : list ex_action) : bool :=
  match ex_acts l ex_pipeline_start with
  | Some p => bool_decide
      (relation_values ex_workspace_relation
         (last_representation (ic_DB (pl_consumer p)) ex_host_key) = ["w3"] /\
       EnableOIDCAuth (gr_tokenClient (ic_Relations (pl_consumer p))) = false /\
       set_Forall (fun t => t.2 = None) (Backend.ap_tuples (gr_conn (ic_Relations (pl_consumer p)))))
  | None => false
  end.

Lemma ex_history_answers : ex_answers ex_history = true.
Proof. vm_compute. reflexivity. Qed.

Lemma answers_reflect_last_report_witness :
  exists p : ex_pipeline, rtc (pipeline_step ex_config ex_schemas ex_host_key) ex_pipeline_start p /\
    forall ws, (exists r, CheckForUpdate ex_usecase ex_ctx (ic_Relations (pl_consumer p))
                  (rd_relationName ex_workspace_relation) (ex_workspace_subject ws) ex_host_ref = Ok r /\
                (cr_allowed r = true <-> ws = "w3")).
Proof.
  pose proof ex_history_final as Hf. unfold ex_final in Hf.
  pose proof ex_history_answers as Hl. unfold ex_answers in Hl.
  destruct (ex_acts ex_history ex_pipeline_start) as [p|] eqn:E; [|discriminate Hf].
  apply bool_decide_eq_true in Hf as (Hpos & Hlen & _).
  apply bool_decide_eq_true in Hl as (Hl & Ho & Hplain).
  exists p. split; [exact (ex_acts_run _ _ _ E)|]. intros ws.
  destruct (answers_reflect_last_report nat Backend.api Tables ex_kafka _ _ Backend.sso
    Backend.sso_laws Backend.client Backend.laws Backend.checks _ _ _ _ _ _ ex_config ex_schemas
    ex_host_key workspaceRelations ex_pipeline_start p ex_usecase ex_ctx ex_host_ref
    ex_workspace_relation (ex_workspace_subject ws) ws ltac:(discriminate) eq_refl
    ex_schemas_distinct ex_pipeline_starts (ex_acts_run _ _ _ E) (eq_trans Hpos (eq_sym Hlen)) eq_refl
    (list_elem_of_here _ _) eq_refl eq_refl I (fun t Ht _ => Hplain t Ht) eq_refl)
    as [Hcheck Hans].
  destruct (Hans None (getCallOptions_none _ Ho)) as [r Hr]; [reflexivity|].
  exists r. split; [exact Hr|].
  exact (iff_trans (Hcheck r Hr)
           (eq_ind_r (fun l => ws ∈ l <-> ws = "w3") (list_elem_of_singleton _ _) Hl)).
Defined.

(** The host is reported without common data, and then in w1. *)
Definition ex_report_of (id : Z) (cmd : ReportResourceCommand) (d : Tables)
    : result (Tables * eventOperationType) :=
  report_tx (ex_env id (id + 1)) cmd (key_of_command cmd) (FormatInt id) d.

Definition ex_bare_first : result (Tables * eventOperationType) :=
  ex_report_of 1 (with_common None (ex_command "tx-1" "")) empty_tables.

Definition ex_bare_shape (first : result (Tables * eventOperationType)) : bool :=
  match first with
  | Ok (d, _) =>
      match ex_report_of 3 (ex_command "tx-2" "w1") d with
      | Ok (d', op) => bool_decide
          (ids_below 3 d = true /\ small_rows_b d' = true /\
           (row_key <$> tb_reporter_resources d) = [ex_host_key] /\ common_rows d ex_host_key = [])
      | Err _ => false
      end
  | Err _ => false
  end.

Lemma ex_bare_shape_true : ex_bare_shape ex_bare_first = true.
Proof. vm_compute. reflexivity. Qed.

Lemma ex_bare_wf d op : ex_bare_first = Ok (d, op) -> db_wf d.
Proof.
  unfold ex_bare_first, ex_report_of. apply report_tx_wf; [by apply no_rows_wf|exact ex_fresh].
Qed.

Lemma ex_bare_shape_inv first : ex_bare_shape first = true -> exists (d d' : Tables) o op row,
  first = Ok (d, o) /\ ex_report_of 3 (ex_command "tx-2" "w1") d = Ok (d', op) /\
  fresh d (ex_env 3 4) /\ small_rows d' /\ row ∈ reporter_resource_rows d /\
  row_key row = ex_host_key /\ common_rows d ex_host_key = [].
Proof.
  unfold ex_bare_shape. intros Hb. destruct first as [[d o]|]; [|discriminate Hb].
  destruct (ex_report_of 3 _ d) as [[d' op]|] eqn:E2; [|discriminate Hb].
  apply bool_decide_eq_true in Hb as (Hid & Hsm & Hk & Hc).
  destruct (tb_reporter_resources d) as [|row rest] eqn:Hrows; [discriminate Hk|].
  apply (f_equal head) in Hk. apply (inj Some) in Hk.
  exists d, d', o, op, row. split; [reflexivity|]. split; [exact E2|].
  split; [exact (ids_below_fresh 3 _ Hid)|]. split; [exact (small_rows_b_true _ Hsm)|].
  split; [simpl; rewrite Hrows; left|]. split; [exact Hk|exact Hc].
Qed.

Lemma first_common_in_update_unreadable_witness :
  exists (d d' : Tables) content, tuple_messages d' = (tuple_messages d ++ [content])%list /\
    forall msg (i : InventoryConsumer Tables ex_relations ex_kafka), routed content msg ->
      consume_message ex_config ex_schemas 5 None [] msg i = Some (i, Stop).
Proof.
  destruct (ex_bare_shape_inv _ ex_bare_shape_true)
    as (d & d' & o & op & row & E1 & E & Hfr & Hsm & Hrow & Hk & Hc).
  pose proof (ex_bare_wf _ _ E1) as Hwf.
  destruct (first_common_in_update_unreadable (T := ex_relations) (K := ex_kafka) ex_config ex_schemas
    ex_host_key (ex_env 3 4) (ex_command "tx-2" "w1") (FormatInt 3) d d' op row
    (Some {["workspace_id" := JStr "w1"]})) as (_ & _ & content & Hm & Hstop);
    [|reflexivity|discriminate|exact Hwf|exact Hrow|exact Hk|exact Hc|reflexivity|reflexivity
    |exact Hfr|reflexivity|exact E|exact Hsm|].
  - intros v Hv. simpl. rewrite bool_decide_eq_false_2; [eexists; reflexivity|unfold bigint; lia].
  - exists d, d', content. split; [exact Hm|]. intros msg i Hr. exact (Hstop 5%nat None [] msg i Hr).
Defined.
