(* ===== verification/NoStale.v ===== *)
(** The lifecycle of a resource in the pipeline of Convergence.v: now it may also
    be deleted and reported again, any number of times.  Then the store need not
    hold all the tuples of the last representation, but it never
    keeps one that the last representation does not have, and none once the
    resource is deleted.
    At the end: a resource that is deleted and reported again as it was before
    stays without its tuples. *)
From stdpp Require Import base tactics list strings gmap sorting relations.
From Stdlib Require Import ZArith Lia Ascii.
From S2P Require Import Prelude GoStrings Common ReporterResource Representations Resource.
From S2P Require Import ResourceProps Json DataModel Relations Outbox Store Tables Schema.
From S2P Require Import SchemaProps MetaAuthz RelationsRepo RelationsRepoProps Consumer Examples.
From S2P Require Import ConsumerProps Replication StoreProps StoreInv Usecase.
From S2P Require Import UsecaseProps OutboxProps FetchProps Convergence.

Local Open Scope string_scope.

#[export] Instance flow_eq_dec : EqDecision flow.
Proof. solve_decision. Defined.

Section Lifecycle.
Context {D T K S : Type} `{GormDB D} `{OutboxLib} `{TupleStore T} `{KafkaClient K}
  `{SchemaRepository S} `{!GormLaws D}.
Context (cfg : ConsumerConfig) (schemas : S).

(** The steps of the pipeline, and deletes of the resource itself. *)
Inductive lifecycle_step (key : ReporterResourceKey) : pipeline -> pipeline -> Prop :=
  | lc_step (p p' : pipeline (D := D) (T := T) (K := K)) :
      pipeline_step cfg schemas key p p' -> lifecycle_step key p p'
  | lc_delete e txid i d' pos :
      env_outboxMode e = "wal" -> delete_tx e key txid (ic_DB i) = Ok d' -> small_rows d' ->
      lifecycle_step key {| pl_consumer := i; pl_position := pos |}
        {| pl_consumer := set_DB i d'; pl_position := pos |}.

(** The resource is deleted: its row is a tombstone. *)
Definition is_deleted (d : D) (key : ReporterResourceKey) : Prop :=
  exists row, row ∈ reporter_resource_rows d /\ row_key row = key /\ rrw_Tombstone row = true.

Section Invariant.
Context (key : ReporterResourceKey) (rels : list RelationDef).
Context (Hinst : reporterInstanceId (reporter key) <> "").
Implicit Type evs : list (eventOperationType * TupleEvent).

(** Among the first [j] entries is a delete that no version follows. *)
Definition retired evs (j : nat) : Prop :=
  exists i x, (i < j)%nat /\ evs !! i = Some x /\ deletes key x /\
    seen key (take i evs) = seen key evs.

(** What a consumer that has read the first [j] entries may keep. *)
Definition allowed (d : D) evs (j : nat) (k : simpleTupleKey) : Prop :=
  ~ retired evs j /\ k ∈ version_tuples key rels d (seen key (take j evs)).

Definition bounded (d : D) evs (pos hw : nat) (s : gset simpleTupleKey) : Prop :=
  forall k, owned key k -> k ∈ s -> exists j, (pos <= j <= hw)%nat /\ allowed d evs j k.

Record guarded (p : pipeline (D := D) (T := T) (K := K)) evs (hw : nat) : Prop := {
  gd_logged : logged key (ic_DB (pl_consumer p)) evs;
  gd_position : (pl_position p <= hw <= length evs)%nat;
  gd_upserts : upserts (ic_Relations (pl_consumer p));
  gd_bounded : bounded (ic_DB (pl_consumer p)) evs (pl_position p) hw
    (stored (ic_Relations (pl_consumer p)));
  gd_deleted : is_deleted (ic_DB (pl_consumer p)) key -> retired evs (length evs);
}.

Lemma seen_take_le evs n : (seen key (take n evs) <= seen key evs)%nat.
Proof.
  rewrite <- (take_drop n evs) at 2. rewrite seen_app. lia.
Qed.

(** ** Deliveries *)

(** Before and right after an entry that announces a version, no delete is
    final. *)
Lemma version_not_retired evs pos x v : evs !! pos = Some x ->
  announced_version key x = Some v -> ~ retired evs (Datatypes.S pos).
Proof.
  intros Hx Hv (i & y & Hi & _ & _ & Hs).
  pose proof (seen_take_mono key evs i pos ltac:(lia)).
  pose proof (seen_take_le evs (Datatypes.S pos)) as Hle.
  rewrite (seen_take_S _ _ _ _ Hx), Hv in Hle. lia.
Qed.

Lemma retired_mono evs j j' : (j <= j')%nat -> retired evs j -> retired evs j'.
Proof. intros Hle (i & x & Hi & Hx). exists i, x. split; [lia|done]. Qed.

(** The entry of a delete carries no version. *)
Lemma deletes_no_version x : event_ok key x -> deletes key x -> announced_version key x = None.
Proof.
  intros Hok [Hk Hd]. unfold announced_version. rewrite decide_True by done.
  by apply (eo_op _ _ Hok Hk).
Qed.

(** An entry other than a final delete changes nothing of what may be kept. *)
Lemma allowed_skip d evs pos x k : evs !! pos = Some x -> announced_version key x = None ->
  (deletes key x -> seen key (take pos evs) <> seen key evs) ->
  allowed d evs pos k -> allowed d evs (Datatypes.S pos) k.
Proof.
  intros Hx Hv Hdel [Hr Hk]. split.
  - intros (i & y & Hi & Hy & Hd & Hs). destruct (decide (i = pos)) as [->|Hne].
    + rewrite Hx in Hy. injection Hy as <-. by apply (Hdel Hd).
    + apply Hr. exists i, y. split; [lia|done].
  - rewrite (seen_take_S _ _ _ _ Hx), Hv. by rewrite Nat.add_0_r.
Qed.

(** A delete reads the last version stored. *)
Lemma fetch_delete d evs v cur prev : logged key d evs ->
  fetchRepresentations OperationTypeDeleted d key v = Ok (cur, prev) ->
  cur = None /\ prev = rep_at d key (Z.of_nat (seen key evs) - 1).
Proof.
  intros Hl. unfold fetchRepresentations, FindLatestRepresentations, rep_at.
  destruct (query_error d); [done|].
  rewrite (latest_counted key Hinst d (seen key evs)) by apply Hl.
  destruct (version_row d key _) as [c|] eqn:Hc; [|done].
  apply version_row_Some in Hc as (Hc & _); [|apply Hl|done].
  rewrite NewRepresentations_row by apply (wf_common_data _ (lg_wf _ _ _ Hl) _ Hc).
  by intros [= <- <-].
Qed.

(** It removes the tuples of that version, and adds none. *)
Lemma delivery_delete d evs x f s s' : logged key d evs ->
  relations_for schemas (resourceType key) = Some rels -> deletes key x ->
  delivery schemas d x.1 x.2 f s s' ->
  s' ⊆ s /\ (f = Continue -> forall k, k ∈ s' -> k ∉ version_tuples key rels d (seen key evs)).
Proof.
  intros Hl Hrels [Hk Hop] [[-> Hf]|(cur & prev & rs & Hf & Hr & _ & Hsub & Hcont)]; [done|].
  rewrite Hk, Hop in *. rewrite Hrels in Hr. injection Hr as <-.
  apply (fetch_delete _ _ _ _ _ Hl) in Hf as [-> ->]. rewrite tuples_of_None in Hsub.
  split; [set_solver|]. intros E k. rewrite (Hcont E). unfold diff_applied, version_tuples.
  rewrite tuples_of_None. set_solver.
Qed.

Lemma same_tables_allowed d d' evs j k : same_tables d d' ->
  allowed d evs j k -> allowed d' evs j k.
Proof. intros Hd [Hr Hk]. split; [done|]. by rewrite (same_tables_versions key rels d d'). Qed.

(** An entry that announces a version. *)
Lemma bounded_version d evs pos hw x v f s s' : logged key d evs ->
  relations_for schemas (resourceType key) = Some rels -> evs !! pos = Some x ->
  announced_version key x = Some v -> delivery schemas d x.1 x.2 f s s' ->
  bounded d evs pos hw s ->
  bounded d evs (match f with Continue => Datatypes.S pos | _ => pos end)
    (hw `max` Datatypes.S pos) s'.
Proof.
  intros Hl Hrels Hx Hv Hdel Hb k Hk Hin.
  pose proof (logged_event _ _ _ _ _ Hl Hx) as Hok.
  pose proof (logged_next _ _ _ _ _ _ Hl Hx Hv) as ->.
  assert (Hnr := version_not_retired _ _ _ _ Hx Hv).
  assert (Hnext : k ∈ version_tuples key rels d (Datatypes.S (seen key (take pos evs))) ->
    allowed d evs (Datatypes.S pos) k).
  { intros Hv'. split; [done|]. by rewrite (seen_take_S _ _ _ _ Hx), Hv, Nat.add_1_r. }
  assert (Hhere : k ∈ version_tuples key rels d (seen key (take pos evs)) -> allowed d evs pos k).
  { intros Hv'. split; [|done]. intros Hr. apply Hnr. eapply retired_mono; [|done]. lia. }
  set (C := version_tuples key rels d) in *. set (a := seen key (take pos evs)) in *.
  destruct (delivery_next schemas key rels Hinst _ _ _ _ _ _ a Hl Hrels Hok Hv Hdel)
    as [[-> Hf]|[Hpart Hall]].
  { destruct (Hb k Hk Hin) as (j & Hj & Ha). exists j. split; [destruct f; [done|lia..]|done]. }
  destruct (decide (k ∈ C (Datatypes.S a))) as [Hs|Hs].
  { exists (Datatypes.S pos). split; [destruct f; lia|by apply Hnext]. }
  destruct (decide (f = Continue)) as [->|Hf].
  - rewrite (Hall eq_refl), elem_of_difference, elem_of_union, !elem_of_difference in Hin.
    assert (k ∉ C a) by tauto. destruct (Hb k Hk ltac:(tauto)) as (j & Hj & Ha). exists j.
    split; [|done]. destruct (decide (j = pos)) as [->|]; [|lia]. by destruct Ha.
  - assert (Hpos : match f with Continue => Datatypes.S pos | _ => pos end = pos) by (by destruct f).
    rewrite Hpos. destruct (decide (k ∈ C a)) as [Ha|Ha]; [exists pos; split; [lia|by apply Hhere]|].
    apply (unchanged_outside _ _ _ k Hpart) in Hin.
    + destruct (Hb k Hk Hin) as (j & Hj & ?). exists j. split; [lia|done].
    + rewrite elem_of_union, !elem_of_difference. tauto.
Qed.

(** A delete of the resource. *)
Lemma bounded_delete d evs pos hw x f s s' : logged key d evs ->
  relations_for schemas (resourceType key) = Some rels -> evs !! pos = Some x ->
  deletes key x -> delivery schemas d x.1 x.2 f s s' -> (pos <= hw)%nat -> bounded d evs pos hw s ->
  bounded d evs (match f with Continue => Datatypes.S pos | _ => pos end)
    (hw `max` Datatypes.S pos) s'.
Proof.
  intros Hl Hrels Hx Hd Hdel Hle Hb k Hk Hin.
  pose proof (deletes_no_version _ (logged_event _ _ _ _ _ Hl Hx) Hd) as Hv.
  destruct (delivery_delete _ _ _ _ _ _ Hl Hrels Hd Hdel) as [Hsub Hall].
  destruct (Hb k Hk (Hsub k Hin)) as (j & Hj & Ha).
  destruct (decide (f = Continue)) as [->|Hf].
  2: { exists j. split; [destruct f; [done|lia..]|done]. }
  destruct (decide (seen key (take pos evs) = seen key evs)) as [Heq|Hne].
  - destruct (Hall eq_refl k Hin). destruct Ha as [_ Ha].
    pose proof (seen_take_mono key evs pos j ltac:(lia)). pose proof (seen_take_le evs j).
    by replace (seen key evs) with (seen key (take j evs)) by lia.
  - destruct (decide (j = pos)) as [->|]; [|exists j; split; [lia|done]].
    exists (Datatypes.S pos). split; [lia|]. by eapply allowed_skip.
Qed.

(** Any other entry. *)
Lemma bounded_other d evs pos hw x f s s' : logged key d evs -> evs !! pos = Some x ->
  announced_version key x = None -> ~ deletes key x -> delivery schemas d x.1 x.2 f s s' ->
  bounded d evs pos hw s ->
  bounded d evs (match f with Continue => Datatypes.S pos | _ => pos end)
    (hw `max` Datatypes.S pos) s'.
Proof.
  intros Hl Hx Hv Hnd Hdel Hb k Hk Hin.
  apply (delivery_other schemas key _ _ _ _ _ _ (logged_event _ _ _ _ _ Hl Hx) Hv Hnd Hdel Hk) in Hin.
  destruct (Hb k Hk Hin) as (j & Hj & Ha).
  destruct (decide (f = Continue)) as [->|Hf].
  2: { exists j. split; [destruct f; [done|lia..]|done]. }
  destruct (decide (j = pos)) as [->|]; [|exists j; split; [lia|done]].
  exists (Datatypes.S pos). split; [lia|]. by eapply allowed_skip.
Qed.

Lemma same_tables_deleted d d' : same_tables d d' -> is_deleted d' key -> is_deleted d key.
Proof.
  intros [->|(id & tok & ((F1 & _) & _)%update_ktn_ok)]; [done|].
  unfold is_deleted. by rewrite F1.
Qed.

Lemma guarded_message i i' f pos evs hw x :
  relations_for schemas (resourceType key) = Some rels ->
  guarded {| pl_consumer := i; pl_position := pos |} evs hw -> evs !! pos = Some x ->
  upserts (ic_Relations i') -> same_tables (ic_DB i) (ic_DB i') ->
  delivery schemas (ic_DB i) x.1 x.2 f (stored (ic_Relations i)) (stored (ic_Relations i')) ->
  guarded
    {| pl_consumer := i'; pl_position := match f with Continue => Datatypes.S pos | _ => pos end |}
    evs (hw `max` Datatypes.S pos).
Proof.
  intros Hrels [Hl Hpos Hu Hb Hde] Hx Hu' Hdb Hdel. cbn [pl_consumer pl_position] in *.
  pose proof (lookup_lt_Some _ _ _ Hx) as Hlen.
  split; cbn [pl_consumer pl_position]; [by eapply same_tables_logged|destruct f; lia|done| |].
  2: { intros E. by eapply Hde, same_tables_deleted. }
  assert (Hb' : bounded (ic_DB i) evs (match f with Continue => Datatypes.S pos | _ => pos end)
    (hw `max` Datatypes.S pos) (stored (ic_Relations i'))).
  { destruct (announced_version key x) as [v|] eqn:Hv; [by eapply bounded_version|].
    destruct (decide (deletes key x)) as [Hd|Hd];
      [eapply bounded_delete; [done..|lia|done]|by eapply bounded_other]. }
  intros k Hk Hin. destruct (Hb' k Hk Hin) as (j & Hj & Ha). exists j. split; [done|].
  by eapply same_tables_allowed.
Qed.

(** ** Transactions *)

Lemma retired_app evs more : seen key more = 0%nat -> retired evs (length evs) ->
  retired (evs ++ more) (length (evs ++ more)).
Proof.
  intros Hm (i & x & Hi & Hx & Hd & Hs). exists i, x. rewrite length_app, seen_app, Hm.
  rewrite take_app_le, lookup_app_l by lia. split_all; [lia|done|done|lia].
Qed.

Lemma retired_delete evs x : deletes key x -> announced_version key x = None ->
  retired (evs ++ [x]) (length (evs ++ [x])).
Proof.
  intros Hd Hv. exists (length evs), x. rewrite length_app, seen_app, take_app_length.
  split_all; [simpl; lia| |done|].
  - rewrite lookup_app_r, Nat.sub_diag by lia. done.
  - unfold seen at 3. simpl. rewrite Hv. simpl. lia.
Qed.

Lemma allowed_app d d' evs more j k : (j <= length evs)%nat ->
  (forall u, (u <= seen key evs)%nat -> version_tuples key rels d' u = version_tuples key rels d u) ->
  allowed d evs j k -> allowed d' (evs ++ more) j k.
Proof.
  intros Hj Hv [Hr Hk]. rewrite <- (Hv _ (seen_take_le evs j)) in Hk.
  split; [|by rewrite take_app_le by lia].
  intros (i & x & Hi & Hx & Hd & Hs). apply Hr. exists i, x.
  rewrite lookup_app_l in Hx by lia. rewrite take_app_le, seen_app in Hs by lia.
  pose proof (seen_take_le evs i). split_all; [done..|lia].
Qed.

Lemma guarded_transaction i d' pos evs hw key' w more :
  guarded {| pl_consumer := i; pl_position := pos |} evs hw ->
  effect (ic_DB i) d' key' w -> (same_object key key' -> key' = key) ->
  logged key d' (evs ++ more)%list ->
  (is_deleted d' key -> retired (evs ++ more) (length (evs ++ more))) ->
  guarded {| pl_consumer := set_DB i d'; pl_position := pos |} (evs ++ more) hw.
Proof.
  intros [Hl Hpos Hu Hb _] He Hal Hl' Hde. cbn [pl_consumer pl_position] in *.
  split; cbn [pl_consumer pl_position]; [done|rewrite length_app; lia|done| |done].
  intros k Hk Hin. destruct (Hb k Hk Hin) as (j & Hj & Ha). exists j. split; [done|].
  eapply allowed_app; [lia| |done].
  by apply (effect_count key rels Hinst _ _ _ _ _ He Hal (lg_count _ _ _ Hl)).
Qed.

(** Whether the resource is deleted after a transaction. *)
Lemma effect_deleted d d' key' w : effect d d' key' w ->
  (same_object key key' -> key' = key) -> is_deleted d' key ->
  if decide (key' = key) then rrw_Tombstone (ro_reporter w) = true else is_deleted d key.
Proof.
  intros He Hal (r & Hr & Hk & Ht).
  pose proof (effect_key key Hinst _ _ _ _ He Hal) as Hkey.
  destruct (wr_reporter _ _ _ (ef_written _ _ _ _ He)) as (row & Hs & Hu).
  assert (Hrow : row_key row = row_key (ro_reporter w) /\
                 rrw_Tombstone row = rrw_Tombstone (ro_reporter w)).
  { split; [|by destruct Hs as (_ & _ & _ & _ & _ & _ & _ & _ & _ & _ & ->)].
    apply row_key_inj. unfold rrw_key. by destruct Hs as (_ & -> & -> & -> & -> & _). }
  destruct Hrow as [Hrk Hrt].
  apply (upserted_elem _ _ _ _ _ _ Hu) in Hr as [->|[Hr Hne]].
  - rewrite decide_True by (apply Hkey; congruence). congruence.
  - destruct (decide (key' = key)) as [E|E]; [exfalso|by exists r].
    apply Hne, (ad_key _ _ (ef_admissible _ _ _ _ He)); [done|].
    apply row_key_inj. rewrite Hk. symmetry. by apply Hkey.
Qed.

Lemma guarded_report i d' pos evs hw e cmd txid op :
  guarded {| pl_consumer := i; pl_position := pos |} evs hw ->
  fresh (ic_DB i) e -> env_outboxMode e = "wal" ->
  (same_object key (key_of_command cmd) -> key_of_command cmd = key) ->
  report_tx e cmd (key_of_command cmd) txid (ic_DB i) = Ok (d', op) -> small_rows d' ->
  exists evs', guarded {| pl_consumer := set_DB i d'; pl_position := pos |} evs' hw.
Proof.
  intros Hg Hfr Hw Hal Hrun Hsm. pose proof (gd_logged _ _ _ Hg) as Hl. cbn [pl_consumer] in Hl.
  destruct (report_effect _ _ _ _ _ _ (lg_wf _ _ _ Hl) Hfr Hw Hrun)
    as (Hop & w & He & Han & Hcr & Ht & _).
  destruct (logged_announced key rels Hinst _ _ _ _ _ _ _ Hl He Hal Hsm Han)
    as (x & Hl' & _ & Hk & _); [done..|].
  exists (evs ++ [x])%list. eapply guarded_transaction; [done..|].
  intros Hde%(effect_deleted _ _ _ _ He Hal). destruct (decide _) as [|Hne]; [congruence|].
  apply retired_app; [|by apply (gd_deleted _ _ _ Hg)].
  assert (Hv : announced_version key x = None) by (unfold announced_version; rewrite decide_False; congruence).
  unfold seen. simpl. by rewrite Hv.
Qed.

Lemma guarded_delete i d' pos evs hw e key' txid :
  guarded {| pl_consumer := i; pl_position := pos |} evs hw ->
  env_outboxMode e = "wal" -> (same_object key key' -> key' = key) ->
  delete_tx e key' txid (ic_DB i) = Ok d' -> small_rows d' ->
  exists evs', guarded {| pl_consumer := set_DB i d'; pl_position := pos |} evs' hw.
Proof.
  intros Hg Hw Hal Hrun Hsm. pose proof (gd_logged _ _ _ Hg) as Hl. cbn [pl_consumer] in Hl.
  assert (Hold := gd_deleted _ _ _ Hg). cbn [pl_consumer] in Hold.
  destruct (delete_effect _ _ _ _ _ (lg_wf _ _ _ Hl) Hw Hrun) as (w & He & Hn & Han).
  pose proof (effect_deleted _ _ _ _ He Hal) as Hde.
  destruct (ro_representation w) as [p|] eqn:Hp.
  - rewrite <- Hp, <- Hn in Han.
    destruct (logged_announced key rels Hinst _ _ _ _ _ _ _ Hl He Hal Hsm Han)
      as (x & Hl' & Hop & Hk & Hcv); [done..|].
    exists (evs ++ [x])%list. eapply guarded_transaction; [done..|]. intros Hd'.
    assert (Hv : announced_version key x = None).
    { unfold announced_version. rewrite Hcv, Hn.
      destruct (decide (te_reporterResourceKey x.2 = key)); reflexivity. }
    specialize (Hde Hd'). destruct (decide (key' = key)) as [E|E].
    + apply retired_delete; [split; congruence|done].
    + apply retired_app; [unfold seen; simpl; by rewrite Hv|by apply Hold].
  - destruct Han as [Hem (row & Hrow & Hq & Ht)]. exists (evs ++ [])%list.
    eapply guarded_transaction; [done..| |].
    + rewrite app_nil_r. by eapply logged_silent.
    + intros Hd'. rewrite app_nil_r. apply Hold. specialize (Hde Hd').
      destruct (decide (key' = key)) as [->|]; [|done].
      exists row. split_all; [done| |done]. by apply query_key in Hq.
Qed.

(** ** Runs *)

Lemma guarded_step p p' evs hw :
  relations_for schemas (resourceType key) = Some rels -> schemas_distinct schemas ->
  relationsEnabled (T := T) = true ->
  guarded p evs hw -> lifecycle_step key p p' -> exists evs' hw', guarded p' evs' hw'.
Proof.
  intros Hrels Hd Hen Hg Hs. destruct Hs as [p1 p2 Hs|e txid i d' pos Hw Hrun Hsm].
  2: { destruct (guarded_delete _ _ _ _ _ _ _ _ Hg Hw (fun _ => eq_refl) Hrun Hsm). eauto. }
  destruct Hs as [e cmd txid i d' op pos Hfr Hw Hal Hrun Hsm|e key' txid i d' pos Hw Hne Hrun Hsm
    |fuel notify arrived content msg i i' f pos Hm Hr Hrun|i i' pos pos' Hle Hdb Hu Hsame].
  - destruct (guarded_report _ _ _ _ _ _ _ _ _ Hg Hfr Hw Hal Hrun Hsm). eauto.
  - destruct (guarded_delete _ _ _ _ _ _ _ _ Hg Hw (fun E => False_ind _ (Hne E)) Hrun Hsm). eauto.
  - pose proof (gd_logged _ _ _ Hg) as Hl. cbn [pl_consumer] in Hl.
    destruct (Forall2_lookup_r _ _ _ _ _ (lg_published _ _ _ Hl) Hm) as (x & Hx & Hpub).
    assert (Hok := logged_event _ _ _ _ _ Hl Hx).
    destruct (consumed_delivery _ _ _ _ _ _ _ _ _ _ _ Hd Hen (gd_upserts _ _ _ Hg) Hr Hpub
                (eo_small _ _ Hok) Hrun) as (Hu' & Hdb & Hdel).
    eexists _, _. by eapply guarded_message.
  - exists evs, hw. destruct Hg as [Hl Hpos _ Hb Hde]. cbn [pl_consumer pl_position] in *.
    split; cbn [pl_consumer pl_position]; rewrite ?Hdb; [done|lia|done| |done].
    intros k Hk Hin%Hsame; [|done]. destruct (Hb k Hk Hin) as (j & Hj & Ha).
    exists j. split; [lia|done].
Qed.

Lemma guarded_start p : pipeline_start key p -> guarded p [] 0.
Proof.
  intros Hst. destruct (converging_start key rels p Hst) as [Hl _ Hpos Hu _].
  destruct Hst as (Hno & _ & _ & _ & Hempty). split; [done..| |].
  - by intros k Hk ?%Hempty.
  - intros (row & Hrow & _). destruct Hno as (_ & Hno & _). rewrite Hno in Hrow.
    by apply not_elem_of_nil in Hrow.
Qed.

Lemma guarded_run p p' evs hw :
  relations_for schemas (resourceType key) = Some rels -> schemas_distinct schemas ->
  relationsEnabled (T := T) = true ->
  guarded p evs hw -> rtc (lifecycle_step key) p p' -> exists evs' hw', guarded p' evs' hw'.
Proof.
  intros Hrels Hd Hen Hg Hrun. revert evs hw Hg. induction Hrun as [|p1 p2 p3 Hs _ IH]; [eauto|].
  intros evs hw Hg. destruct (guarded_step _ _ _ _ Hrels Hd Hen Hg Hs) as (? & ? & ?). eauto.
Qed.
End Invariant.

Lemma drained_no_stale key rels p evs hw : reporterInstanceId (reporter key) <> "" ->
  guarded key rels p evs hw ->
  pl_position p = length (tuple_messages (ic_DB (pl_consumer p))) ->
  forall k, owned key k -> k ∈ stored (ic_Relations (pl_consumer p)) ->
    ~ is_deleted (ic_DB (pl_consumer p)) key /\
    k ∈ tuples_of rels
          (rep_of_row <$> latest_row (common_rows (ic_DB (pl_consumer p)) key)) key.
Proof.
  intros Hinst [Hl Hpos _ Hb Hde] Hdone k Hk Hin.
  pose proof (Forall2_length _ _ _ (lg_published _ _ _ Hl)) as Hlen.
  rewrite <- (latest_version_tuples key rels Hinst _ _ Hl).
  destruct (Hb k Hk Hin) as (j & Hj & Hr & Ha). replace j with (length evs) in * by lia.
  rewrite firstn_all in Ha. by split; [intros ?%Hde|].
Qed.

(** C3. No stale tuples.  Let the pipeline run as in the convergence theorem,
    and let the resource [key] itself also be deleted and reported again, any
    number of times and before or after the consumer has read of it.  Whenever
    the consumer has read the whole log, every tuple of the resource in the
    store is a tuple of the last common representation stored for it, and if the
    resource is deleted, the store has no tuple of it. *)
Theorem no_stale_tuples key rels p0 p
    (Hinst : reporterInstanceId (reporter key) <> "")
    (Hrels : relations_for schemas (resourceType key) = Some rels)
    (Hdistinct : schemas_distinct schemas) (Henabled : relationsEnabled (T := T) = true)
    (Hstart : pipeline_start key p0) (Hrun : rtc (lifecycle_step key) p0 p)
    (Hdone : pl_position p = length (tuple_messages (ic_DB (pl_consumer p)))) :
  forall k, owned key k -> k ∈ stored (ic_Relations (pl_consumer p)) ->
    ~ is_deleted (ic_DB (pl_consumer p)) key /\
    k ∈ tuples_of rels
          (rep_of_row <$> latest_row (common_rows (ic_DB (pl_consumer p)) key)) key.
Proof.
  destruct (guarded_run key rels Hinst _ _ _ _ Hrels Hdistinct Henabled
    (guarded_start key rels _ Hstart) Hrun) as (evs & hw & Hg).
  by eapply drained_no_stale.
Qed.

(** The delivery of a version with the tuples of the version before it changes
    nothing. *)
Lemma delivery_same_version key rels d evs x f s s' k :
  reporterInstanceId (reporter key) <> "" ->
  relations_for schemas (resourceType key) = Some rels ->
  logged key d (evs ++ [x])%list -> ~ deletes key x ->
  version_tuples key rels d (seen key (evs ++ [x])) = version_tuples key rels d (seen key evs) ->
  delivery schemas d x.1 x.2 f s s' -> owned key k -> k ∈ s' <-> k ∈ s.
Proof.
  intros Hinst Hrels Hl Hnd Hsame Hdel Hk.
  assert (Hx : (evs ++ [x])%list !! length evs = Some x) by (by apply list_lookup_middle).
  assert (Hok := logged_event _ _ _ _ _ Hl Hx).
  destruct (announced_version key x) as [v|] eqn:Hv; [|by eapply delivery_other].
  assert (Hvn := logged_next _ _ _ _ _ _ Hl Hx Hv). rewrite take_app_length in Hvn. subst v.
  assert (Hseen : seen key (evs ++ [x]) = Datatypes.S (seen key evs))
    by (rewrite seen_app; unfold seen at 2; simpl; rewrite Hv; simpl; lia).
  rewrite Hseen in Hsame.
  destruct (delivery_next schemas key rels Hinst _ _ _ _ _ _ _ Hl Hrels Hok Hv Hdel) as [[-> _]|[Hout _]];
    [done|]. rewrite Hsame in Hout. apply (unchanged_outside _ _ _ _ Hout).
  rewrite elem_of_union, !elem_of_difference. tauto.
Qed.

(** C38. A resource that was deleted and is reported again as it was has no
    tuples.  Let a run of the pipeline (see C3) lead to a state where the
    consumer has read the log and the resource is deleted; let the resource then
    be reported again with the tuples of its last common representation, the
    same workspace for instance; and let the entry of that report be delivered.
    The resource is then live, but the store has none of its tuples: the
    consumer compares the new version with the one before the delete and finds
    no difference. *)
Theorem revived_host_has_no_workspace_tuple key rels p0 i pos e cmd txid d' op
    fuel notify arrived content msg i' f
    (Hinst : reporterInstanceId (reporter key) <> "")
    (Hrels : relations_for schemas (resourceType key) = Some rels)
    (Hdistinct : schemas_distinct schemas) (Henabled : relationsEnabled (T := T) = true)
    (Hstart : pipeline_start key p0)
    (Hrun : rtc (lifecycle_step key) p0 {| pl_consumer := i; pl_position := pos |})
    (Hdone : pos = length (tuple_messages (ic_DB i))) (Hdeleted : is_deleted (ic_DB i) key)
    (Hcmd : key_of_command cmd = key) (Hfresh : fresh (ic_DB i) e) (Hwal : env_outboxMode e = "wal")
    (Hreport : report_tx e cmd key txid (ic_DB i) = Ok (d', op)) (Hsmall : small_rows d')
    (Hsame : tuples_of rels (rep_of_row <$> latest_row (common_rows d' key)) key
             = tuples_of rels (rep_of_row <$> latest_row (common_rows (ic_DB i) key)) key)
    (Hnext : tuple_messages d' !! pos = Some content) (Hrouted : routed content msg)
    (Hdeliver : consume_message cfg schemas fuel notify arrived msg (set_DB i d') = Some (i', f)) :
  ~ is_deleted (ic_DB i') key /\
  forall k, owned key k -> k ∉ stored (ic_Relations i').
Proof.
  rewrite <- Hcmd in Hreport.
  assert (Hal : same_object key (key_of_command cmd) -> key_of_command cmd = key) by done.
  destruct (guarded_run key rels Hinst _ _ _ _ Hrels Hdistinct Henabled
    (guarded_start key rels _ Hstart) Hrun) as (evs & hw & Hg).
  pose proof (gd_logged _ _ _ _ _ Hg) as Hl. cbn [pl_consumer] in Hl.
  pose proof (Forall2_length _ _ _ (lg_published _ _ _ Hl)) as Hlen.
  destruct (report_effect _ _ _ _ _ _ (lg_wf _ _ _ Hl) Hfresh Hwal Hreport)
    as (Hop & w & He & Han & Hcr & Ht & _).
  destruct (logged_announced key rels Hinst _ _ _ _ _ _ _ Hl He Hal Hsmall Han)
    as (x & Hl' & Hxop & Hxk & _); [done..|].
  assert (Hx : (evs ++ [x])%list !! pos = Some x)
    by (rewrite Hdone, <- Hlen; by apply list_lookup_middle).
  destruct (Forall2_lookup_r _ _ _ _ _ (lg_published _ _ _ Hl') Hnext) as (y & Hy & Hpub).
  rewrite Hx in Hy. injection Hy as <-.
  destruct (consumed_delivery cfg schemas _ _ _ _ _ _ _ _ _ Hdistinct Henabled
    (gd_upserts _ _ _ _ _ Hg : upserts (ic_Relations (set_DB i d'))) Hrouted Hpub
    (eo_small _ _ (logged_event _ _ _ _ _ Hl' Hx)) Hdeliver) as (_ & Hdb & Hdel).
  split.
  - intros Hd'%(same_tables_deleted key _ _ Hdb)%(effect_deleted key Hinst _ _ _ _ He Hal).
    rewrite decide_True in Hd' by done. congruence.
  - assert (Hver : version_tuples key rels d' (seen key (evs ++ [x]))
                   = version_tuples key rels d' (seen key evs)).
    { rewrite (latest_version_tuples key rels Hinst _ _ Hl'), Hsame.
      rewrite <- (latest_version_tuples key rels Hinst _ _ Hl).
      symmetry. by apply (effect_count key rels Hinst _ _ _ _ _ He Hal (lg_count _ _ _ Hl)). }
    assert (Hnd : ~ deletes key x) by (intros [_ ?]; congruence).
    intros k Hk Hin. apply (delivery_same_version key rels d' evs x f _ _ k Hinst Hrels Hl' Hnd Hver
                              Hdel Hk) in Hin.
    by apply (drained_no_stale key rels _ _ _ Hinst Hg Hdone k Hk) in Hin as [? _].
Qed.
End Lifecycle.

(** * A run *)

(** A step of Convergence.v, or a delete of the host. *)
Definition ex_life (a : option ex_action) (p : ex_pipeline) : option ex_pipeline :=
  match a with
  | Some a => ex_act a p
  | None =>
      let i := pl_consumer p in
      match delete_tx (ex_env 90 91) ex_host_key "" (ic_DB i) with
      | Ok d' => if small_rows_b d'
                 then Some {| pl_consumer := set_DB i d'; pl_position := pl_position p |} else None
      | Err _ => None
      end
  end.

Fixpoint ex_lives (l : list (option ex_action)) (p : ex_pipeline) : option ex_pipeline :=
  match l with
  | [] => Some p
  | a :: l => match ex_life a p with Some p' => ex_lives l p' | None => None end
  end.

Lemma ex_lives_run l p p' : ex_lives l p = Some p' ->
  rtc (lifecycle_step ex_config ex_schemas ex_host_key) p p'.
Proof.
  revert p. induction l as [|a l IH]; intros p; simpl; [intros [= ->]; apply rtc_refl|].
  destruct (ex_life a p) as [p1|] eqn:E; [|done]. intros Hr.
  eapply rtc_l; [|by apply IH]. destruct a as [a|].
  { apply lc_step. by apply (ex_act_step a). }
  destruct p as [i pos]. simpl in E.
  destruct (delete_tx _ _ _ _) as [d'|] eqn:Hd; [|done]. destruct (small_rows_b d') eqn:Hs; [|done].
  injection E as <-. eapply lc_delete; [|exact Hd|by apply small_rows_b_true]. done.
Qed.

(** The host is reported in w1, deleted, and reported again in w2 before the
    consumer reads of the delete; later it is deleted for good, and the log is
    read once more. *)
Definition ex_revived : list (option ex_action) :=
  [Some (ExReport 1 "w1"); Some ExDeliver; None; Some (ExReport 3 "w2"); Some ExDeliver;
   Some ExDeliver].

Definition ex_gone : list (option ex_action) :=
  (ex_revived ++ [None; Some ExDeliver; Some (ExRestart 0 false); Some ExDeliver; Some ExDeliver;
                  Some ExDeliver; Some ExDeliver])%list.

Definition ex_ends (l : list (option ex_action)) (s : gset simpleTupleKey) (deleted : bool) : bool :=
  match ex_lives l ex_pipeline_start with
  | Some p => bool_decide
      (pl_position p = length (tuple_messages (ic_DB (pl_consumer p))) /\
       stored (ic_Relations (pl_consumer p)) = s /\
       (rrw_Tombstone <$> reporter_resource_rows (ic_DB (pl_consumer p))) = [deleted] /\
       (row_key <$> reporter_resource_rows (ic_DB (pl_consumer p))) = [ex_host_key])
  | None => false
  end.

Lemma ex_revived_ends : ex_ends ex_revived {[ tkey (ex_tuple "w2") ]} false = true.
Proof. vm_compute. reflexivity. Qed.

Lemma ex_gone_ends : ex_ends ex_gone ∅ true = true.
Proof. vm_compute. reflexivity. Qed.

Lemma ex_tuple_owned ws : owned ex_host_key (tkey (ex_tuple ws)).
Proof. by repeat split. Qed.

Lemma ex_ends_run l s deleted : ex_ends l s deleted = true -> exists p,
  rtc (lifecycle_step ex_config ex_schemas ex_host_key) ex_pipeline_start p /\
  pl_position p = length (tuple_messages (ic_DB (pl_consumer p))) /\
  stored (ic_Relations (pl_consumer p)) = s /\
  (is_deleted (ic_DB (pl_consumer p)) ex_host_key <-> deleted = true).
Proof.
  unfold ex_ends. destruct (ex_lives l ex_pipeline_start) as [p|] eqn:E; [|done].
  intros (Hpos & Hs & Ht & Hk)%bool_decide_eq_true. exists p.
  split; [by eapply ex_lives_run|]. split; [done|]. split; [done|]. unfold is_deleted.
  destruct (reporter_resource_rows _) as [|row [|]]; [done| |done].
  apply (f_equal (default false ∘ head)) in Ht. apply (f_equal (default ex_host_key ∘ head)) in Hk.
  simpl in Ht, Hk. split.
  - intros (r & ->%list_elem_of_singleton & _ & Hr). congruence.
  - intros ->. exists row. split; [by apply list_elem_of_singleton|done].
Qed.

Lemma no_stale_tuples_witness :
  (exists p, rtc (lifecycle_step ex_config ex_schemas ex_host_key) ex_pipeline_start p /\
     tkey (ex_tuple "w2") ∈ stored (ic_Relations (pl_consumer p)) /\
     tkey (ex_tuple "w2") ∈ tuples_of workspaceRelations
       (rep_of_row <$> latest_row (common_rows (ic_DB (pl_consumer p)) ex_host_key)) ex_host_key) /\
  (exists p, rtc (lifecycle_step ex_config ex_schemas ex_host_key) ex_pipeline_start p /\
     is_deleted (ic_DB (pl_consumer p)) ex_host_key /\
     tkey (ex_tuple "w2") ∉ stored (ic_Relations (pl_consumer p))).
Proof.
  split.
  - destruct (ex_ends_run _ _ _ ex_revived_ends) as (p & Hrun & Hpos & Hs & _).
    assert (Hin : tkey (ex_tuple "w2") ∈ stored (ic_Relations (pl_consumer p)))
      by (rewrite Hs; by apply elem_of_singleton).
    exists p. split; [exact Hrun|]. split; [exact Hin|].
    apply (no_stale_tuples ex_config ex_schemas ex_host_key workspaceRelations ex_pipeline_start p);
      [discriminate|reflexivity|exact ex_schemas_distinct|reflexivity|exact ex_pipeline_starts|
       exact Hrun|exact Hpos|exact (ex_tuple_owned "w2")|exact Hin].
  - destruct (ex_ends_run _ _ _ ex_gone_ends) as (p & Hrun & Hpos & _ & Hd).
    exists p. split; [exact Hrun|]. split; [by apply Hd|]. intros Hin.
    destruct (no_stale_tuples ex_config ex_schemas ex_host_key workspaceRelations ex_pipeline_start p
      ltac:(discriminate) eq_refl ex_schemas_distinct eq_refl ex_pipeline_starts Hrun Hpos
      _ (ex_tuple_owned "w2") Hin) as [Hn _]. by apply Hn, Hd.
Defined.


(** * A host that is revived *)

(** The host is reported in w1, deleted, and reported again in w1; the consumer
    keeps up. *)
Definition ex_was_in_w1 : list (option ex_action) :=
  [Some (ExReport 1 "w1"); Some ExDeliver; None; Some ExDeliver].

Definition ex_again (i : InventoryConsumer Tables ex_relations ex_kafka)
    : result (Tables * eventOperationType) :=
  report_tx (ex_env 5 6) (ex_command "5" "w1") ex_host_key "5" (ic_DB i).

Definition ex_topic_of (d : Tables) (pos : nat) : option (json * Message) :=
  content ← tuple_messages d !! pos;
  msg ← route {| tp_Topic := "outbox"; tp_Partition := 0; tp_Offset := 1 |} content;
  Some (content, msg).

Definition ex_revival : bool :=
  match ex_lives ex_was_in_w1 ex_pipeline_start with
  | Some {| pl_consumer := i; pl_position := pos |} =>
      match ex_again i with
      | Ok (d', _) =>
          match ex_topic_of d' pos with
          | Some (_, msg) =>
              match consume_message ex_config ex_schemas 5 None [] msg (set_DB i d') with
              | Some (i', Continue) => bool_decide
                  (pos = length (tuple_messages (ic_DB i)) /\ ids_below 5 (ic_DB i) = true /\
                   small_rows_b d' = true /\
                   (rrw_Tombstone <$> reporter_resource_rows (ic_DB i)) = [true] /\
                   (row_key <$> reporter_resource_rows (ic_DB i)) = [ex_host_key] /\
                   tuples_of workspaceRelations
                     (rep_of_row <$> latest_row (common_rows d' ex_host_key)) ex_host_key
                   = tuples_of workspaceRelations
                       (rep_of_row <$> latest_row (common_rows (ic_DB i) ex_host_key)) ex_host_key /\
                   tkey (ex_tuple "w1") ∈ tuples_of workspaceRelations
                     (rep_of_row <$> latest_row (common_rows d' ex_host_key)) ex_host_key)
              | _ => false
              end
          | None => false
          end
      | Err _ => false
      end
  | None => false
  end.

Lemma ex_revival_true : ex_revival = true.
Proof. vm_compute. reflexivity. Qed.

Lemma one_row_deleted (d : Tables) key : (rrw_Tombstone <$> reporter_resource_rows d) = [true] ->
  (row_key <$> reporter_resource_rows d) = [key] -> is_deleted d key.
Proof.
  unfold is_deleted. destruct (reporter_resource_rows d) as [|row [|]]; try done.
  intros [= Ht] [= Hk]. exists row. split; [by apply list_elem_of_singleton|done].
Qed.

Lemma revived_host_has_no_workspace_tuple_witness :
  exists (i i' : InventoryConsumer Tables ex_relations ex_kafka) d' op,
    is_deleted (ic_DB i) ex_host_key /\ ex_again i = Ok (d', op) /\
    tkey (ex_tuple "w1") ∈ tuples_of workspaceRelations
      (rep_of_row <$> latest_row (common_rows d' ex_host_key)) ex_host_key /\
    ~ is_deleted (ic_DB i') ex_host_key /\ tkey (ex_tuple "w1") ∉ stored (ic_Relations i').
Proof.
  pose proof ex_revival_true as Hf. unfold ex_revival in Hf.
  destruct (ex_lives ex_was_in_w1 ex_pipeline_start) as [[i pos]|] eqn:E1; [|discriminate Hf].
  destruct (ex_again i) as [[d' op]|] eqn:E2; [|discriminate Hf].
  destruct (ex_topic_of d' pos) as [[content msg]|] eqn:E3; [|discriminate Hf].
  destruct (consume_message _ _ _ _ _ _ _) as [[i' []]|] eqn:E4; try discriminate Hf.
  apply bool_decide_eq_true in Hf as (Hpos & Hid & Hsm & Htomb & Hkey & Hsame & Hin).
  apply bind_Some in E3 as (c & Hc & (m & Hm & [= -> ->])%bind_Some).
  pose proof (one_row_deleted _ _ Htomb Hkey) as Hdel.
  destruct (revived_host_has_no_workspace_tuple ex_config ex_schemas ex_host_key workspaceRelations
    ex_pipeline_start i pos (ex_env 5 6) (ex_command "5" "w1") "5" d' op 5 None [] content msg i'
    Continue) as [Hlive Hno];
    [discriminate|reflexivity|exact ex_schemas_distinct|reflexivity|exact ex_pipeline_starts
    |exact (ex_lives_run _ _ _ E1)|exact Hpos|exact Hdel|reflexivity|exact (ids_below_fresh 5 _ Hid)
    |reflexivity|exact E2|exact (small_rows_b_true _ Hsm)|exact Hsame|exact Hc
    |exact (route_routed _ _ _ Hm)|exact E4|].
  exists i, i', d', op. split; [exact Hdel|]. split; [exact E2|]. split; [exact Hin|].
  split; [exact Hlive|]. apply Hno. exact (ex_tuple_owned "w1").
Defined.
