(* ===== verification/Authn.v ===== *)
(** Authentication: internal/authn (the authenticators, the first-match
    aggregator, the routing by protocol, configuration) and
    internal/middleware/authn.go, authn_common.go, stream_authn.go.

    The verification of a token and the decoding of the x-rh-identity header
    are of libraries ([AuthnLib]); loggers are dropped. *)
From stdpp Require Import base tactics list strings gmap.
From Stdlib Require Import ZArith Lia Ascii.
From S2P Require Import Prelude GoStrings Common ReporterResource Relations MetaAuthz.

Local Open Scope string_scope.

(** * Transports *)

Definition KindHTTP : string := "http".
Definition KindGRPC : string := "grpc".

(** [transport.Transporter]: its kind, operation and request header. *)
Record Transporter := {
  tr_Kind : string;
  tr_Operation : string;
  tr_Header : string -> string;
}.

(** [metadata.MD] with lower-case keys, as [metadata.New] builds it. *)
Abbreviation MD := (gmap string (list string)) (only parsing).

Module grpcMetadataHeader.
Definition Values (md : MD) (key : string) : list string := default [] (md !! ToLower key).

Definition Get (md : MD) (key : string) : string :=
  match Values md key with
  | [] => ""
  | v :: _ => v
  end.

Definition Set_ (md : MD) (key value : string) : MD := <[ToLower key := [value]]> md.

Definition Add (md : MD) (key value : string) : MD :=
  <[ToLower key := (Values md key ++ [value])%list]> md.

Definition Keys (md : MD) : list string := (map_to_list md).*1.
End grpcMetadataHeader.

Definition grpcStreamTransporter (md : MD) (op : string) : Transporter :=
  {| tr_Kind := KindGRPC; tr_Operation := op; tr_Header := grpcMetadataHeader.Get md |}.

(** * Decisions and authenticators *)

(** [api.Decision] is a string. *)
Abbreviation Decision_ := string (only parsing).
Definition Allow : Decision_ := "ALLOW".
Definition Deny : Decision_ := "DENY".
Definition Ignore : Decision_ := "IGNORE".

Abbreviation Authenticator := (Transporter -> option Claims * Decision_).

(** ** Options of the OIDC authenticator *)

Record OIDCOptions := {
  oo_ClientId : string;
  oo_AuthorizationServerURL : string;
  oo_InsecureClient : bool;
  oo_SkipClientIDCheck : bool;
  oo_EnforceAudCheck : bool;
  oo_SkipIssuerCheck : bool;
  oo_PrincipalUserDomain : string;
  oo_GrpcEndpoints : list string;
}.

Definition NewOIDCOptions : OIDCOptions :=
  {| oo_ClientId := ""; oo_AuthorizationServerURL := ""; oo_InsecureClient := false;
     oo_SkipClientIDCheck := false; oo_EnforceAudCheck := false; oo_SkipIssuerCheck := false;
     oo_PrincipalUserDomain := ""; oo_GrpcEndpoints := [] |}.

Definition with_PrincipalUserDomain (o : OIDCOptions) (d : string) : OIDCOptions :=
  {| oo_ClientId := oo_ClientId o; oo_AuthorizationServerURL := oo_AuthorizationServerURL o;
     oo_InsecureClient := oo_InsecureClient o; oo_SkipClientIDCheck := oo_SkipClientIDCheck o;
     oo_EnforceAudCheck := oo_EnforceAudCheck o; oo_SkipIssuerCheck := oo_SkipIssuerCheck o;
     oo_PrincipalUserDomain := d; oo_GrpcEndpoints := oo_GrpcEndpoints o |}.

Record TokenClaims := {
  tc_Audience : string;
  tc_Issuer : string;
  tc_Subject : string;
  tc_PreferredUsername : string;
  tc_ClientID : string;
}.

(** [identity.Identity] of platform-go-middlewares, the fields the code reads;
    [User] is a pointer to a record of which the user id is read. *)
Record Identity := {
  id_Type : string;
  id_OrgID : string;
  id_User : option string;
}.

Class AuthnLib := {
  IDToken : Type;
  (* coreosoidc.NewProvider(url) *)
  oidc_NewProvider : string -> result unit;
  (* provider.Verifier(config).Verify(token) *)
  oidc_Verify : OIDCOptions -> string -> result IDToken;
  (* tok.Claims(u) *)
  oidc_Claims : IDToken -> result TokenClaims;
  (* identity.DecodeAndCheckIdentity(header) *)
  DecodeAndCheckIdentity : string -> result Identity;
}.

Definition GetBearerToken (t : Transporter) : string :=
  let bearer := tr_Header t "Authorization" in
  if bool_decide (7 < len bearer)%Z
     && bool_decide (ToLower (String.substring 0 6 bearer) = "bearer")
  then String.substring 7 (String.length bearer - 7) bearer
  else "".

(** ** The authenticators *)

Definition Unauthenticated_Authenticate : Authenticator :=
  fun _ => (Some UnauthenticatedClaims, Allow).

Definition identityTypeUser : string := "User".

Definition convertPlatformClaims (platformIdentity : Identity) : Claims :=
  if bool_decide (id_Type platformIdentity = identityTypeUser) then
    {| cl_SubjectId := default "" (id_User platformIdentity);
       cl_OrganizationId := id_OrgID platformIdentity;
       cl_Issuer := ""; cl_ClientID := ""; cl_AuthType := AuthTypeXRhIdentity |}
  else {| cl_SubjectId := ""; cl_OrganizationId := ""; cl_Issuer := ""; cl_ClientID := "";
          cl_AuthType := AuthTypeXRhIdentity |}.

(** ** Completed configuration *)

Record ChainCompletedConfig := {
  cc_Type : string;
  cc_EnabledHTTP : bool;
  cc_EnabledGRPC : bool;
  cc_OIDCConfig : option OIDCOptions;
}.

Definition FirstMatch : string := "first_match".

Record AuthenticatorCompletedConfig := {
  acc_Type : string;
  acc_ChainConfigs : list ChainCompletedConfig;
}.

(** [CompletedConfig]: its only field is a pointer. *)
Abbreviation CompletedConfig := (option AuthenticatorCompletedConfig) (only parsing).

Definition GetOIDCConfig (c : CompletedConfig) : option OIDCOptions :=
  match c with
  | None => None
  | Some a => head (omap (fun cc => if bool_decide (cc_Type cc = "oidc") then cc_OIDCConfig cc
                                    else None) (acc_ChainConfigs a))
  end.

Section Authenticators.
Context `{AuthnLib}.

Definition XRhIdentity_Authenticate : Authenticator := fun t =>
  let identityHeader := tr_Header t "x-rh-identity" in
  if bool_decide (identityHeader = "") then (None, Ignore)
  else match DecodeAndCheckIdentity identityHeader with
       | Err _ => (None, Deny)
       | Ok xrhid => (Some (convertPlatformClaims xrhid), Allow)
       end.

(** [oidc.New]: without a domain the principals are of "localhost". *)
Definition OIDC_New (c : OIDCOptions) : result OIDCOptions :=
  check! wrap_err "failed to create provider"
           (oidc_NewProvider (oo_AuthorizationServerURL c)) in
  Ok (if bool_decide (oo_PrincipalUserDomain c = "")
      then with_PrincipalUserDomain c "localhost" else c).

(** The guard on the endpoints: [None] when the authenticator does not apply,
    otherwise whether a token is required. *)
Definition endpoint_required (o : OIDCOptions) (t : Transporter) : option bool :=
  match oo_GrpcEndpoints o with
  | [] => Some false
  | endpoints => if bool_decide (tr_Operation t ∈ endpoints) then Some true else None
  end.

Definition OIDC_Authenticate (o : OIDCOptions) : Authenticator := fun t =>
  match endpoint_required o t with
  | None => (None, Ignore)
  | Some required =>
      let rawToken := GetBearerToken t in
      if bool_decide (rawToken = "") then (None, if required then Deny else Ignore)
      else match oidc_Verify o rawToken with
      | Err _ => (None, Deny)
      | Ok tok =>
          match oidc_Claims tok with
          | Err _ => (None, Deny)
          | Ok u =>
              if oo_EnforceAudCheck o && bool_decide (tc_Audience u <> oo_ClientId o)
              then (None, Deny)
              else if bool_decide (tc_Subject u <> "")
                      && bool_decide (oo_PrincipalUserDomain o <> "")
              then (Some {| cl_SubjectId := tc_Subject u; cl_OrganizationId := "";
                            cl_Issuer := tc_Issuer u; cl_ClientID := tc_ClientID u;
                            cl_AuthType := AuthTypeOIDC |}, Allow)
              else (None, Deny)
          end
      end
  end.

(** ** The aggregator *)

(** The loop over the chain with its two counters. *)
Fixpoint first_match_loop (auths : list Authenticator) (t : Transporter)
    (denyCount ignoreCount : nat) : option Claims + nat * nat :=
  match auths with
  | [] => inr (denyCount, ignoreCount)
  | a :: rest =>
      let '(claims, decision) := a t in
      if bool_decide (decision = Allow) then inl claims
      else if bool_decide (decision = Deny) then first_match_loop rest t (S denyCount) ignoreCount
      else if bool_decide (decision = Ignore)
      then first_match_loop rest t denyCount (S ignoreCount)
      else first_match_loop rest t denyCount ignoreCount
  end.

Definition FirstMatch_Authenticate (auths : list Authenticator) : Authenticator := fun t =>
  match first_match_loop auths t 0 0 with
  | inl claims => (claims, Allow)
  | inr (denyCount, ignoreCount) =>
      if bool_decide (length auths = 0%nat) then (None, Deny)
      else if bool_decide (denyCount = length auths) then (None, Deny)
      else if bool_decide (ignoreCount = length auths) then (None, Ignore)
      else (None, Deny)
  end.

Definition protocolRouting_Authenticate (http grpc : Authenticator) : Authenticator := fun t =>
  if bool_decide (tr_Kind t = KindHTTP) then http t
  else if bool_decide (tr_Kind t = KindGRPC) then grpc t
  else (None, Deny).

(** ** Construction *)

Definition TypeOIDC : string := "oidc".
Definition TypeGuest : string := "guest".
Definition TypeAllowUnauthenticated : string := "allow-unauthenticated".
Definition TypeXRhIdentity : string := "x-rh-identity".

(** [config interface{}]: nil, or an OIDC configuration (itself a pointer). *)
Definition CreateAuthenticator (authType : string) (config : option (option OIDCOptions))
    : result Authenticator :=
  if bool_decide (authType = TypeOIDC) then
    match config with
    | None => Err (EMsg "oidc authenticator requires *oidc.CompletedConfig")
    | Some None => Err (EMsg "oidc authenticator requires non-nil config")
    | Some (Some oidcConfig) => let! o := OIDC_New oidcConfig in Ok (OIDC_Authenticate o)
    end
  else if bool_decide (authType = TypeGuest) || bool_decide (authType = TypeAllowUnauthenticated)
  then if negb (is_nil config) then Err (EMsg "guest authenticator does not require config")
       else Ok Unauthenticated_Authenticate
  else if bool_decide (authType = TypeXRhIdentity)
  then if negb (is_nil config)
       then Err (EMsg "x-rh-identity authenticator does not require config")
       else Ok XRhIdentity_Authenticate
  else Err (EMsg "unknown authenticator type").

(** One entry of the chain. *)
Definition chain_authenticator (chainConfig : ChainCompletedConfig) : result Authenticator :=
  if bool_decide (cc_Type chainConfig = TypeOIDC) then
    match cc_OIDCConfig chainConfig with
    | None => Err (EMsg "oidc authenticator requires config")
    | Some o => wrap_err "failed to create oidc authenticator"
                  (CreateAuthenticator TypeOIDC (Some (Some o)))
    end
  else if bool_decide (cc_Type chainConfig = TypeGuest)
          || bool_decide (cc_Type chainConfig = TypeAllowUnauthenticated)
  then wrap_err "failed to create allow-unauthenticated authenticator"
         (CreateAuthenticator TypeAllowUnauthenticated None)
  else if bool_decide (cc_Type chainConfig = TypeXRhIdentity)
  then wrap_err "failed to create x-rh-identity authenticator"
         (CreateAuthenticator TypeXRhIdentity None)
  else Err (EMsg "unknown authenticator type in chain").

Definition enabled_for (protocol : string) (c : ChainCompletedConfig) : result bool :=
  if bool_decide (protocol = ProtocolHTTP) then Ok (cc_EnabledHTTP c)
  else if bool_decide (protocol = ProtocolGRPC) then Ok (cc_EnabledGRPC c)
  else Err (EMsg "unknown protocol").

Fixpoint build_chain (protocol : string) (chain : list ChainCompletedConfig)
    : result (list Authenticator) :=
  match chain with
  | [] => Ok []
  | chainConfig :: rest =>
      let! enabled := enabled_for protocol chainConfig in
      if enabled then
        let! auth := chain_authenticator chainConfig in
        let! auths := build_chain protocol rest in
        Ok (auth :: auths)
      else build_chain protocol rest
  end.

Definition NewForProtocol (config : CompletedConfig) (protocol : string) : result Authenticator :=
  match config with
  | None => Err (EMsg "authenticator configuration is required")
  | Some a =>
      if bool_decide (acc_Type a <> FirstMatch)
      then Err (EMsg "unknown authenticator strategy type")
      else
        let! auths := build_chain protocol (acc_ChainConfigs a) in
        match auths with
        | [] => Err (EMsg "no authenticators were successfully created or enabled")
        | _ => Ok (FirstMatch_Authenticate auths)
        end
  end.

Definition Authn_New (config : CompletedConfig) : result Authenticator :=
  let! httpAuth := NewForProtocol config ProtocolHTTP in
  let! grpcAuth := NewForProtocol config ProtocolGRPC in
  Ok (protocolRouting_Authenticate httpAuth grpcAuth).
End Authenticators.
