(* ===== verification/AuthnConfig.v ===== *)
(** Configuration of the authentication chain: internal/authn/options.go and
    config.go.  What [mapstructure] read from the configuration file is the
    value of [Options]; a configuration block is a map that may be nil. *)
From stdpp Require Import base tactics list strings gmap.
From Stdlib Require Import ZArith Lia Ascii.
From S2P Require Import Prelude GoStrings Common ReporterResource Relations MetaAuthz Authn.

Local Open Scope string_scope.

Record Transport := { tp_HTTP : option bool; tp_GRPC : option bool }.

Record ChainEntry := {
  ce_Type : string;
  ce_Enable : option bool;
  ce_Transport : option Transport;
  ce_Config : JsonObject;
}.

Record AuthenticatorConfig := { ag_Type : string; ag_Chain : list ChainEntry }.

(** [ChainEntryOptions] and [AuthenticatorOptions] have the fields of
    [ChainEntry] and [AuthenticatorConfig]; the conversion copies them. *)
Record AuthnOptions := {
  ao_Authenticator : option AuthenticatorConfig;
  ao_AllowUnauthenticated : option bool;
  ao_OIDC : option OIDCOptions;
}.

Definition NewAuthnOptions : AuthnOptions :=
  {| ao_Authenticator := None; ao_AllowUnauthenticated := None; ao_OIDC := None |}.

Definition OIDCConfigKeyAuthServerURL : string := "authn-server-url".
Definition OIDCConfigKeyClientID : string := "client-id".

(** ** Validate *)

Definition validTypes : list string :=
  ["oidc"; "guest"; "allow-unauthenticated"; "x-rh-identity"].

Definition validate_entry (entry : ChainEntry) : list go_error :=
  if bool_decide (ce_Type entry = "") then [EMsg "chain entry type is required"]
  else if bool_decide (ce_Type entry ∉ validTypes) then [EMsg "invalid chain entry type"]
  else [].

Definition AuthnOptions_Validate (o : AuthnOptions) : list go_error :=
  match ao_Authenticator o with
  | Some a =>
      ((if bool_decide (ag_Type a = "") then [EMsg "authenticator type is required"] else [])
       ++ (match ag_Chain a with
           | [] => [EMsg "authenticator chain must contain at least one entry"]
           | _ => []
           end)
       ++ (ag_Chain a ≫= validate_entry))%list
  | None =>
      match ao_AllowUnauthenticated o with
      | Some true =>
          match ao_OIDC o with
          | Some _ => [EMsg "cannot use both 'allow-unauthenticated' (legacy) and 'oidc' (legacy)"]
          | None => []
          end
      | _ =>
          match ao_OIDC o with
          | Some _ => []
          | None => [EMsg "authenticator configuration is required"]
          end
      end
  end.

(** ** NewConfig *)

(** [if cond { m[k] = v }] *)
Definition set_if (cond : bool) (k : string) (v : json) (m : gmap string json)
    : gmap string json := if cond then <[k := v]> m else m.

Definition legacy_oidc_map (o : OIDCOptions) : gmap string json :=
  set_if (bool_decide (oo_PrincipalUserDomain o <> "")) "principal-user-domain"
    (JStr (oo_PrincipalUserDomain o))
  (set_if (oo_SkipIssuerCheck o) "skip-issuer-check" (JBool (oo_SkipIssuerCheck o))
  (set_if (oo_EnforceAudCheck o) "enforce-aud-check" (JBool (oo_EnforceAudCheck o))
  (set_if (oo_SkipClientIDCheck o) "skip-client-id-check" (JBool (oo_SkipClientIDCheck o))
  (set_if (oo_InsecureClient o) "insecure-client" (JBool (oo_InsecureClient o))
  (set_if (bool_decide (oo_ClientId o <> "")) OIDCConfigKeyClientID (JStr (oo_ClientId o))
  (set_if (bool_decide (oo_AuthorizationServerURL o <> "")) OIDCConfigKeyAuthServerURL
    (JStr (oo_AuthorizationServerURL o)) ∅)))))).

Definition single_chain (ty : string) (config : JsonObject) : option AuthenticatorConfig :=
  Some {| ag_Type := "first_match";
          ag_Chain := [{| ce_Type := ty; ce_Enable := None; ce_Transport := None;
                          ce_Config := config |}] |}.

(** [Config] holds one pointer. *)
Definition NewAuthnConfig (o : AuthnOptions) : option AuthenticatorConfig :=
  match ao_Authenticator o with
  | Some a => Some {| ag_Type := ag_Type a; ag_Chain := ag_Chain a |}
  | None =>
      match ao_AllowUnauthenticated o with
      | Some true => single_chain "allow-unauthenticated" None
      | _ =>
          match ao_OIDC o with
          | Some oidc => single_chain "oidc" (Some (legacy_oidc_map oidc))
          | None => None
          end
      end
  end.

(** ** Complete *)

(** [if v, ok := m[k].(string); ok { field = v }] *)
Definition string_or (m : gmap string json) (k old : string) : string :=
  match m !! k with Some (JStr s) => s | _ => old end.
Definition bool_or (m : gmap string json) (k : string) (old : bool) : bool :=
  match m !! k with Some (JBool b) => b | _ => old end.

Fixpoint endpoints_of (l : list json) : result (list string) :=
  match l with
  | [] => Ok []
  | ep :: rest =>
      match ep with
      | JStr epStr =>
          if bool_decide (epStr = "") then Err (EMsg "grpc-endpoints entry is empty")
          else let! endpoints := endpoints_of rest in Ok (epStr :: endpoints)
      | _ => Err (EMsg "grpc-endpoints entry is not a string")
      end
  end.

Definition read_endpoints (m : gmap string json) (old : list string) : result (list string) :=
  match m !! "grpc-endpoints" with
  | None => Ok old
  | Some (JArr grpcEndpoints) => endpoints_of grpcEndpoints
  | Some _ => Err (EMsg "grpc-endpoints must be an array")
  end.

Definition oidc_options_of (m : gmap string json) : result OIDCOptions :=
  let o := NewOIDCOptions in
  let! endpoints := read_endpoints m (oo_GrpcEndpoints o) in
  Ok {| oo_ClientId := string_or m OIDCConfigKeyClientID (oo_ClientId o);
        oo_AuthorizationServerURL :=
          string_or m OIDCConfigKeyAuthServerURL (oo_AuthorizationServerURL o);
        oo_InsecureClient := bool_or m "insecure-client" (oo_InsecureClient o);
        oo_SkipClientIDCheck := bool_or m "skip-client-id-check" (oo_SkipClientIDCheck o);
        oo_EnforceAudCheck := bool_or m "enforce-aud-check" (oo_EnforceAudCheck o);
        oo_SkipIssuerCheck := bool_or m "skip-issuer-check" (oo_SkipIssuerCheck o);
        oo_PrincipalUserDomain :=
          string_or m "principal-user-domain" (oo_PrincipalUserDomain o);
        oo_GrpcEndpoints := endpoints |}.

(** Every failure of an entry is one error; [oidc.Config.Complete] has none. *)
Definition completeChainEntry (entry : ChainEntry) : result ChainCompletedConfig :=
  let baseEnabled := default true (ce_Enable entry) in
  let transportHTTP :=
    match ce_Transport entry with Some t => default true (tp_HTTP t) | None => true end in
  let transportGRPC :=
    match ce_Transport entry with Some t => default true (tp_GRPC t) | None => true end in
  let enableHTTP := baseEnabled && transportHTTP in
  let enableGRPC := baseEnabled && transportGRPC in
  let chainConfig oidc := {| cc_Type := ce_Type entry; cc_EnabledHTTP := enableHTTP;
                             cc_EnabledGRPC := enableGRPC; cc_OIDCConfig := oidc |} in
  if bool_decide (ce_Type entry ∈ ["guest"; "allow-unauthenticated"; "x-rh-identity"])
  then Ok (chainConfig None)
  else if bool_decide (ce_Type entry = "oidc") then
    if negb enableHTTP && negb enableGRPC then Ok (chainConfig None)
    else match ce_Config entry with
         | None => Err (EMsg "oidc authenticator requires config")
         | Some m => let! o := oidc_options_of m in Ok (chainConfig (Some o))
         end
  else Err (EMsg "unknown authenticator type").

(** The entries that complete, and the errors of the others. *)
Fixpoint complete_chain (chain : list ChainEntry) : list ChainCompletedConfig * list go_error :=
  match chain with
  | [] => ([], [])
  | entry :: rest =>
      let '(configs, errs) := complete_chain rest in
      match completeChainEntry entry with
      | Err err => (configs, err :: errs)
      | Ok chainConfig => (chainConfig :: configs, errs)
      end
  end.

Definition count_enabled (f : ChainCompletedConfig -> bool) (l : list ChainCompletedConfig) : nat :=
  length (List.filter f l).

Definition AuthnConfig_Complete (c : option AuthenticatorConfig) : CompletedConfig * list go_error :=
  match c with
  | None => (None, [EMsg "authenticator configuration is required"])
  | Some a =>
      if bool_decide (ag_Type a <> FirstMatch)
      then (None, [EMsg "invalid authenticator strategy type"])
      else
        let '(chainConfigs, errs) := complete_chain (ag_Chain a) in
        let errs :=
          (errs
           ++ (if bool_decide (count_enabled cc_EnabledHTTP chainConfigs = 0%nat)
               then [EMsg "at least one authenticator in the chain must be enabled for http"]
               else [])
           ++ (if bool_decide (count_enabled cc_EnabledGRPC chainConfigs = 0%nat)
               then [EMsg "at least one authenticator in the chain must be enabled for grpc"]
               else []))%list in
        match errs with
        | _ :: _ => (None, errs)
        | [] => (Some {| acc_Type := ag_Type a; acc_ChainConfigs := chainConfigs |}, [])
        end
  end.
