(* ===== verification/Service.v ===== *)
(** internal/service/resources/kesselinventoryservice.go: requests become
    commands, results become responses, and the endpoints run the use cases of
    Usecase.v in between.  Logs are dropped. *)
From stdpp Require Import base tactics list strings gmap.
From Stdlib Require Import ZArith Lia Ascii.
From S2P Require Import Prelude GoStrings Common ReporterResource Representations Resource.
From S2P Require Import Outbox Store Relations RelationsRepo Schema MetaAuthz Usecase Proto.

Local Open Scope string_scope.

Definition nil_dereference : go_error :=
  EPanic "invalid memory address or nil pointer dereference".

(** [status.Errorf(codes.InvalidArgument, "...%v", err)]: the cause stays as
    text only. *)
Definition invalid_argument {A} (m : result A) : result A :=
  match m with
  | Ok a => Ok a
  | Err (EPanic what) => Err (EPanic what)
  | Err e => Err (EStatus InvalidArgument (error_text e))
  end.

(** [for i, x := range l { y, err := f(x, i); if err != nil { return err } }] *)
Fixpoint map_index {A B} (f : A -> nat -> result B) (l : list A) (i : nat) : result (list B) :=
  match l with
  | [] => Ok []
  | x :: rest =>
      let! y := f x i in
      let! ys := map_index f rest (S i) in
      Ok (y :: ys)
  end.

Definition at_index (what : string) (i : nat) : string :=
  what +:+ " at index " +:+ FormatInt (Z.of_nat i).

(** [var p *T; if v != "" { x, err := mk(v); if err != nil {...}; p = &x }] *)
Definition unless_empty {A} (v : string) (mk : string -> result A) : result (option A) :=
  if bool_decide (v <> "") then let! x := mk v in Ok (Some x) else Ok None.

(** * From protobuf *)

Definition resourceReferenceFromProto (resource : option pb.ResourceReference)
    : result ResourceReference :=
  let! localResourceId := NewLocalResourceId (pget pb.ResourceId "" resource) in
  let! resourceType := NewResourceType (pget pb.ResourceType "" resource) in
  let! reporterType := NewReporterType (pget pb.rr_Type "" (pmsg pb.Reporter resource)) in
  let! instanceId :=
    unless_empty (pstr pb.rr_InstanceId (pmsg pb.Reporter resource)) NewReporterInstanceId in
  let reporter := NewReporterReference reporterType instanceId in
  Ok (NewResourceReference resourceType localResourceId (Some reporter)).

(** [subject.Resource] is a field access: a nil subject panics. *)
Definition subjectReferenceFromProto (subject : option pb.SubjectReference)
    : result SubjectReference :=
  match subject with
  | None => Err nil_dereference
  | Some s =>
      let res := pb.sr_Resource s in
      let! localResourceId := NewLocalResourceId (pget pb.ResourceId "" res) in
      let! resourceType := NewResourceType (pget pb.ResourceType "" res) in
      let! reporterType := NewReporterType (pget pb.rr_Type "" (pmsg pb.Reporter res)) in
      let reporter := NewReporterReference reporterType None in
      let resource := NewResourceReference resourceType localResourceId (Some reporter) in
      let rel := default "" (pb.sr_Relation s) in
      if bool_decide (rel <> "") then
        let! relation := NewRelation rel in Ok (NewSubjectReference resource (Some relation))
      else Ok (NewSubjectReferenceWithoutRelation resource)
  end.

Definition protoToCheckBulkItem (item : option pb.CheckBulkRequestItem) (idx : nat)
    : result CheckBulkItem :=
  let! resourceRef := wrap_err (at_index "invalid resource" idx)
                        (resourceReferenceFromProto (pmsg pb.bi_Object item)) in
  let! subjectRef := wrap_err (at_index "invalid subject" idx)
                       (subjectReferenceFromProto (pmsg pb.bi_Subject item)) in
  let! relation := wrap_err (at_index "invalid relation" idx)
                     (NewRelation (pget pb.bi_Relation "" item)) in
  Ok {| bi_Resource := resourceRef; bi_Relation := relation; bi_Subject := subjectRef |}.

Definition toCheckForUpdateBulkCommand (req : pb.CheckForUpdateBulkRequest)
    : result CheckForUpdateBulkCommand :=
  let! items := map_index protoToCheckBulkItem (pb.ub_Items req) 0 in
  Ok {| ub_Items := items |}.

Definition consistencyFromProto (c : option pb.Consistency) : Consistency :=
  if pb.GetMinimizeLatency c then minimizeLatencyConsistency
  else if pb.GetAtLeastAsAcknowledged c then atLeastAsAcknowledgedConsistency
  else match pb.GetAtLeastAsFresh c with
       | Some t => atLeastAsFreshConsistency (pb.Token t)
       | None => unspecifiedConsistency
       end.

Definition toCheckBulkCommand (req : pb.CheckBulkRequest) : result CheckBulkCommand :=
  let! items := map_index protoToCheckBulkItem (pb.b_Items req) 0 in
  Ok {| bc_Items := items; bc_Consistency := Some (consistencyFromProto (pb.b_Consistency req)) |}.

Definition protoToCheckSelfBulkItem (item : option pb.CheckSelfBulkRequestItem) (i : nat)
    : result CheckSelfBulkItem :=
  let! resourceRef := wrap_err (at_index "invalid resource" i)
                        (resourceReferenceFromProto (pmsg pb.si_Object item)) in
  let! relation := wrap_err (at_index "invalid relation" i)
                     (NewRelation (pget pb.si_Relation "" item)) in
  Ok {| sbi_Resource := resourceRef; sbi_Relation := relation |}.

Definition toCheckSelfBulkCommand (req : pb.CheckSelfBulkRequest) : result CheckSelfBulkCommand :=
  let! items := map_index protoToCheckSelfBulkItem (pb.sb_Items req) 0 in
  Ok {| sb_Items := items;
        sb_Consistency := Some (consistencyFromProto (pb.sb_Consistency req)) |}.

(** [NewContinuationToken] accepts every string. *)
Definition paginationFromProto (p : option pb.RequestPagination) : option Pagination :=
  (fun p => {| pg_Limit := pb.Limit p; pg_Continuation := pb.rp_ContinuationToken p |}) <$> p.

Definition ToLookupObjectsCommand (request : option pb.StreamedListObjectsRequest)
    : result LookupObjectsCommand :=
  match request with
  | None => Err (EMsg "request is nil")
  | Some request =>
      let! resourceType := wrap_err "invalid resource type"
        (NewResourceType (pget pb.rt_ResourceType "" (pb.lo_ObjectType request))) in
      let! reporterType := wrap_err "invalid reporter type"
        (NewReporterType (pstr pb.rt_ReporterType (pb.lo_ObjectType request))) in
      let! relation := wrap_err "invalid relation" (NewRelation (pb.lo_Relation request)) in
      let! subjectRef := wrap_err "invalid subject"
        (subjectReferenceFromProto (pb.lo_Subject request)) in
      Ok {| lo_ObjectType := {| rtype_resourceType := resourceType;
                                rtype_reporterType := Some reporterType |};
            lo_Relation := relation; lo_Subject := subjectRef;
            lo_Pagination := paginationFromProto (pb.lo_Pagination request);
            lo_Consistency := Some (consistencyFromProto (pb.lo_Consistency request)) |}
  end.

Definition ToLookupSubjectsCommand (request : option pb.StreamedListSubjectsRequest)
    : result LookupSubjectsCommand :=
  match request with
  | None => Err (EMsg "request is nil")
  | Some request =>
      let! resourceRef := wrap_err "invalid resource"
        (resourceReferenceFromProto (pb.ls_Resource request)) in
      let! relation := wrap_err "invalid relation" (NewRelation (pb.ls_Relation request)) in
      let! subjectResType := wrap_err "invalid subject type"
        (NewResourceType (pget pb.rt_ResourceType "" (pb.ls_SubjectType request))) in
      let! subjectReporter := wrap_err "invalid subject reporter"
        (NewReporterType (pstr pb.rt_ReporterType (pb.ls_SubjectType request))) in
      let! subjectRelation :=
        unless_empty (default "" (pb.ls_SubjectRelation request))
          (fun r => wrap_err "invalid subject relation" (NewRelation r)) in
      Ok {| ls_Resource := resourceRef; ls_Relation := relation;
            ls_SubjectType := {| rtype_resourceType := subjectResType;
                                 rtype_reporterType := Some subjectReporter |};
            ls_SubjectRelation := subjectRelation;
            ls_Pagination := paginationFromProto (pb.ls_Pagination request);
            ls_Consistency := Some (consistencyFromProto (pb.ls_Consistency request)) |}
  end.

Definition reporterKeyFromResourceReference (resource : option pb.ResourceReference)
    : result ReporterResourceKey :=
  let! localResourceId := NewLocalResourceId (pget pb.ResourceId "" resource) in
  let! resourceType := NewResourceType (pget pb.ResourceType "" resource) in
  let! reporterType := NewReporterType (pget pb.rr_Type "" (pmsg pb.Reporter resource)) in
  let instanceId := pstr pb.rr_InstanceId (pmsg pb.Reporter resource) in
  let! reporterInstanceId :=
    if bool_decide (instanceId <> "") then NewReporterInstanceId instanceId else Ok "" in
  NewReporterResourceKey localResourceId resourceType reporterType reporterInstanceId.

Definition writeVisibilityFromProto (wv : pb.WriteVisibility) : WriteVisibility :=
  match wv with
  | pb.IMMEDIATE => WriteVisibilityConsistent
  | pb.MINIMIZE_LATENCY => WriteVisibilityMinimizeLatency
  | _ => WriteVisibilityUnspecified
  end.

(** [AsMap] never returns a nil map. *)
Definition representationFromProtoStruct (s : option Struct) (name : string)
    : result (option Representation) :=
  match s with
  | None => Ok None
  | Some m =>
      if bool_decide (size m = 0%nat) then Ok None
      else let! rep := wrap_err ("invalid " +:+ name +:+ " representation")
                         (NewRepresentation (Some m)) in
           Ok (Some rep)
  end.

Definition toReportResourceCommand (r : pb.ReportResourceRequest) : result ReportResourceCommand :=
  let representations := pb.Representations r in
  let metadata := pmsg pb.Metadata representations in
  let! localResourceId := wrap_err "invalid local resource ID"
    (NewLocalResourceId (pget pb.LocalResourceId "" metadata)) in
  let! resourceType := wrap_err "invalid resource type" (NewResourceType (pb.Type_ r)) in
  let! reporterType := wrap_err "invalid reporter type" (NewReporterType (pb.ReporterType r)) in
  let! reporterInstanceId := wrap_err "invalid reporter instance ID"
    (NewReporterInstanceId (pb.ReporterInstanceId r)) in
  let! apiHref := wrap_err "invalid API href" (NewApiHref (pget pb.ApiHref "" metadata)) in
  let! consoleHref :=
    unless_empty (pstr pb.ConsoleHref metadata)
      (fun v => wrap_err "invalid console href" (NewConsoleHref v)) in
  let! reporterVersion :=
    unless_empty (pstr pb.ReporterVersion metadata)
      (fun v => wrap_err "invalid reporter version" (NewReporterVersion v)) in
  let! reporterRepresentation :=
    representationFromProtoStruct (pmsg pb.rp_Reporter representations) "reporter" in
  let! commonRepresentation :=
    representationFromProtoStruct (pmsg pb.Common representations) "common" in
  let transactionId :=
    match pstr pb.TransactionId metadata with
    | "" => None
    | v => Some (NewTransactionId v)
    end in
  Ok {| rc_LocalResourceId := localResourceId; rc_ResourceType := resourceType;
        rc_ReporterType := reporterType; rc_ReporterInstanceId := reporterInstanceId;
        rc_ApiHref := apiHref; rc_ConsoleHref := consoleHref;
        rc_ReporterVersion := reporterVersion; rc_TransactionId := transactionId;
        rc_ReporterRepresentation := reporterRepresentation;
        rc_CommonRepresentation := commonRepresentation;
        rc_WriteVisibility := writeVisibilityFromProto (pb.WriteVisibility_ r) |}.

(** * To protobuf *)

Definition code_number (c : grpc_code) : Z :=
  match c with
  | OK => 0 | Canceled => 1 | Unknown => 2 | InvalidArgument => 3 | DeadlineExceeded => 4
  | NotFound => 5 | AlreadyExists => 6 | PermissionDenied => 7 | ResourceExhausted => 8
  | FailedPrecondition => 9 | Aborted => 10 | OutOfRange => 11 | Unimplemented => 12
  | Internal => 13 | Unavailable => 14 | DataLoss => 15 | Unauthenticated => 16
  end.

(** [if token != "" { resp.ConsistencyToken = &pb.ConsistencyToken{...} }];
    [MinimizeLatencyToken] is "". *)
Definition token_to_proto (token : ConsistencyToken) : option pb.ConsistencyToken :=
  if bool_decide (token <> "") then Some {| pb.Token := token |} else None.

Definition allowed_to_proto (allowed : bool) : pb.Allowed :=
  if allowed then pb.ALLOWED_TRUE else pb.ALLOWED_FALSE.

Definition error_code_or_internal (code : Z) : Z :=
  if bool_decide (code = 0%Z) then code_number Internal else code.

Definition checkBulkResultItemToProtoFields (item : UCheckBulkResultItem)
    : pb.Allowed * option pb.Status :=
  let allowed := allowed_to_proto (ui_Allowed item) in
  match ui_Error item with
  | None => (allowed, None)
  | Some err => (allowed, Some {| pb.Code := error_code_or_internal (ui_ErrorCode item);
                                  pb.Message := error_text err |})
  end.

(** [if i < len(items) { requestItem = items[i] }] *)
Definition item_at {A} (items : list (option A)) (i : nat) : option A :=
  match items !! i with Some x => x | None => None end.

Definition fromCheckBulkResult (result : UCheckBulkResult) (req : pb.CheckBulkRequest)
    : pb.BulkResponse pb.CheckBulkRequestItem :=
  {| pb.br_Pairs := imap (fun i pair =>
       let '(allowed, errStatus) := checkBulkResultItemToProtoFields (up_Result pair) in
       {| pb.p_Request := item_at (pb.b_Items req) i;
          pb.p_Response := match errStatus with
                           | Some s => pb.Error_ s
                           | None => pb.Item allowed
                           end |}) (ur_Pairs result);
     pb.br_ConsistencyToken := token_to_proto (ur_ConsistencyToken result) |}.

Definition fromCheckForUpdateBulkResult (result : UCheckBulkResult)
    (req : pb.CheckForUpdateBulkRequest) : pb.BulkResponse pb.CheckBulkRequestItem :=
  {| pb.br_Pairs := imap (fun i pair =>
       let '(allowed, errStatus) := checkBulkResultItemToProtoFields (up_Result pair) in
       {| pb.p_Request := item_at (pb.ub_Items req) i;
          pb.p_Response := match errStatus with
                           | Some s => pb.Error_ s
                           | None => pb.Item allowed
                           end |}) (ur_Pairs result);
     pb.br_ConsistencyToken := token_to_proto (ur_ConsistencyToken result) |}.

Definition fromCheckSelfBulkResult (result : UCheckBulkResult) (req : pb.CheckSelfBulkRequest)
    : pb.BulkResponse pb.CheckSelfBulkRequestItem :=
  {| pb.br_Pairs := imap (fun i pair =>
       let itemResponse := pb.Item (allowed_to_proto (ui_Allowed (up_Result pair))) in
       {| pb.p_Request := item_at (pb.sb_Items req) i;
          pb.p_Response :=
            match ui_Error (up_Result pair) with
            | Some err =>
                pb.Error_ {| pb.Code := error_code_or_internal (ui_ErrorCode (up_Result pair));
                             pb.Message := error_text err |}
            | None => itemResponse
            end |}) (ur_Pairs result);
     pb.br_ConsistencyToken := token_to_proto (ur_ConsistencyToken result) |}.

Definition viewResponseFromAuthzRequestV1beta2 (allowed : bool) (token : ConsistencyToken)
    : pb.CheckResponse :=
  {| pb.cr_Allowed := allowed_to_proto allowed; pb.cr_ConsistencyToken := token_to_proto token |}.

Definition updateResponseFromAuthzRequestV1beta2 (allowed : bool) (token : ConsistencyToken)
    : pb.CheckResponse :=
  {| pb.cr_Allowed := allowed_to_proto allowed; pb.cr_ConsistencyToken := token_to_proto token |}.

(** A reference without the instance of its reporter. *)
Definition resource_to_proto (obj : ResourceReference) : pb.ResourceReference :=
  {| pb.ResourceType := ref_resourceType obj; pb.ResourceId := ref_resourceId obj;
     pb.Reporter := (fun r => {| pb.rr_Type := rref_reporterType r; pb.rr_InstanceId := None |})
                    <$> ref_reporter obj |}.

Definition ToLookupObjectsResponse (item : LookupObjectsItem) : pb.StreamedListObjectsResponse :=
  {| pb.lor_Object := resource_to_proto (loi_object item);
     pb.lor_Pagination := {| pb.ContinuationToken := loi_continuationToken item |} |}.

Definition ToLookupSubjectsResponse (item : LookupSubjectsItem)
    : pb.StreamedListSubjectsResponse :=
  {| pb.lsr_Subject :=
       {| pb.sr_Relation := sub_relation (lsi_subject item);
          pb.sr_Resource := Some (resource_to_proto (sub_resource (lsi_subject item))) |};
     pb.lsr_Pagination := {| pb.ContinuationToken := lsi_continuationToken item |} |}.

(** * The endpoints *)

(** The loop of a server stream: [stream.Send] of the [i]-th message fails with
    [send i], after which nothing more is sent.  Yields what was sent. *)
Fixpoint send_all {A} (send : nat -> option go_error) (i : nat) (msgs : list A)
    : list A * result unit :=
  match msgs with
  | [] => ([], Ok tt)
  | m :: rest =>
      match send i with
      | Some err => ([], Err err)
      | None => let '(sent, res) := send_all send (S i) rest in (m :: sent, res)
      end
  end.

Module InventoryService.
Section Endpoints.
Context {R T S : Type} `{ResourceRepository R} `{RelationsRepository T} `{SchemaRepository S}
  `{JsonSchemaLib}.
Implicit Types (uc : @Usecase S) (ctx : Ctx) (d : R) (t : T).

Definition ReportResource uc ctx (newV7 retryV7 : result string) (w w2 : @world R)
    (wait : option go_error) (r : pb.ReportResourceRequest) d : R * result unit :=
  match invalid_argument (toReportResourceCommand r) with
  | Err err => (d, Err err)
  | Ok cmd => Usecase.ReportResource uc ctx newV7 retryV7 w w2 wait cmd d
  end.

Definition DeleteResource uc ctx (newV7 : result string) (w : @world R)
    (r : pb.DeleteResourceRequest) d : R * result unit :=
  match reporterKeyFromResourceReference (pb.Reference r) with
  | Err err => (d, Err err)
  | Ok reporterResourceKey => Usecase.Delete uc ctx newV7 w reporterResourceKey d
  end.

Definition Check uc ctx d t (req : pb.CheckRequest) : result pb.CheckResponse :=
  let! resourceRef := resourceReferenceFromProto (pb.c_Object req) in
  let! subjectRef := subjectReferenceFromProto (pb.c_Subject req) in
  let! relation := NewRelation (pb.c_Relation req) in
  let consistency := consistencyFromProto (pb.c_Consistency req) in
  let! res := Usecase.Check uc ctx d t relation subjectRef resourceRef (Some consistency) in
  Ok (viewResponseFromAuthzRequestV1beta2 (cr_allowed res) (cr_consistencyToken res)).

Definition CheckForUpdate uc ctx t (req : pb.CheckForUpdateRequest) : result pb.CheckResponse :=
  let! resourceRef := resourceReferenceFromProto (pb.cu_Object req) in
  let! subjectRef := subjectReferenceFromProto (pb.cu_Subject req) in
  let! relation := NewRelation (pb.cu_Relation req) in
  let! res := Usecase.CheckForUpdate uc ctx t relation subjectRef resourceRef in
  Ok (updateResponseFromAuthzRequestV1beta2 (cr_allowed res) (cr_consistencyToken res)).

Definition CheckForUpdateBulk uc ctx t (req : pb.CheckForUpdateBulkRequest)
    : result (pb.BulkResponse pb.CheckBulkRequestItem) :=
  let! cmd := invalid_argument (toCheckForUpdateBulkCommand req) in
  let! resp := Usecase.CheckForUpdateBulk uc ctx t cmd in
  Ok (fromCheckForUpdateBulkResult resp req).

Definition CheckBulk uc ctx t (req : pb.CheckBulkRequest)
    : result (pb.BulkResponse pb.CheckBulkRequestItem) :=
  let! cmd := invalid_argument (toCheckBulkCommand req) in
  let! resp := Usecase.CheckBulk uc ctx t cmd in
  Ok (fromCheckBulkResult resp req).

Definition CheckSelf uc ctx d t (req : pb.CheckSelfRequest) : result pb.CheckResponse :=
  let! resourceRef := resourceReferenceFromProto (pb.cs_Object req) in
  let! relation := NewRelation (pb.cs_Relation req) in
  let consistency := consistencyFromProto (pb.cs_Consistency req) in
  let! res := Usecase.CheckSelf uc ctx d t relation resourceRef (Some consistency) in
  Ok {| pb.cr_Allowed := allowed_to_proto (cr_allowed res);
        pb.cr_ConsistencyToken := token_to_proto (cr_consistencyToken res) |}.

Definition CheckSelfBulk uc ctx t (req : pb.CheckSelfBulkRequest)
    : result (pb.BulkResponse pb.CheckSelfBulkRequestItem) :=
  match pb.sb_Items req with
  | [] => Err (EStatus InvalidArgument "items array cannot be empty")
  | _ =>
      let! cmd := toCheckSelfBulkCommand req in
      let! resp := Usecase.CheckSelfBulk uc ctx t cmd in
      Ok (fromCheckSelfBulkResult resp req)
  end.

Definition StreamedListObjects uc ctx t (send : nat -> option go_error)
    (req : option pb.StreamedListObjectsRequest)
    : list pb.StreamedListObjectsResponse * result unit :=
  match ToLookupObjectsCommand req with
  | Err err => ([], Err err)
  | Ok lookupCmd =>
      match Usecase.LookupObjects uc ctx t lookupCmd with
      | Err err => ([], Err err)
      | Ok clientStream => send_all send 0 (ToLookupObjectsResponse <$> clientStream)
      end
  end.

Definition StreamedListSubjects uc ctx t (send : nat -> option go_error)
    (req : option pb.StreamedListSubjectsRequest)
    : list pb.StreamedListSubjectsResponse * result unit :=
  match ToLookupSubjectsCommand req with
  | Err err => ([], Err err)
  | Ok lookupCmd =>
      match Usecase.LookupSubjects uc ctx t lookupCmd with
      | Err err => ([], Err err)
      | Ok clientStream => send_all send 0 (ToLookupSubjectsResponse <$> clientStream)
      end
  end.
End Endpoints.
End InventoryService.
