(* ===== verification/TupleService.v ===== *)
(** internal/service/tuples/tuples.go: the deprecated tuple endpoints, over the
    use cases of TupleCrud.v.  [Deserialize*] of a tiny string type is the
    identity, so nothing is normalised here. *)
From stdpp Require Import base tactics list strings gmap.
From Stdlib Require Import ZArith Lia.
From S2P Require Import Prelude GoStrings Common ReporterResource Representations Relations.
From S2P Require Import RelationsRepo MetaAuthz TupleCrud Proto Service.

Local Open Scope string_scope.

Module TupleService.
(** * From protobuf *)

Definition fencingCheckFromProto (fc : option pb.RelationFencingCheck)
    : result (option TupleCrud.UFencingCheck) :=
  match fc with
  | None => Ok None
  | Some fc =>
      let! lockId := wrap_err "invalid fencing lock id" (NewLockId (pb.LockId fc)) in
      let! lockToken := wrap_err "invalid fencing lock token" (NewLockToken (pb.LockToken fc)) in
      Ok (Some {| TupleCrud.uf_LockId := lockId; TupleCrud.uf_LockToken := lockToken |})
  end.

(** [rel.GetSubject().Relation] is a field access, after the subject's id has
    been read through getters. *)
Definition relationshipToRelationsTuple (rel : option pb.Relationship) : result RelationsTuple :=
  let res := pmsg pb.r_Resource rel in
  let! resourceId := wrap_err "invalid resource ID" (NewLocalResourceId (pget pb.Id "" res)) in
  let objReporter :=
    NewReporterReference (pget pb.Namespace "" (pmsg pb.ro_Type res)) None in
  let object := NewResourceReference (pget pb.Name "" (pmsg pb.ro_Type res)) resourceId
                  (Some objReporter) in
  let sub := pmsg pb.rs_Subject (pmsg pb.r_Subject rel) in
  let! subjectId := wrap_err "invalid subject ID" (NewLocalResourceId (pget pb.Id "" sub)) in
  let subReporter :=
    NewReporterReference (pget pb.Namespace "" (pmsg pb.ro_Type sub)) None in
  let subResource := NewResourceReference (pget pb.Name "" (pmsg pb.ro_Type sub)) subjectId
                       (Some subReporter) in
  match pmsg pb.r_Subject rel with
  | None => Err nil_dereference
  | Some s =>
      let subjectRef :=
        match pb.rs_Relation s with
        | Some r => NewSubjectReference subResource (Some r)
        | None => NewSubjectReferenceWithoutRelation subResource
        end in
      Ok {| tup_object := object; tup_relation := pget pb.r_Relation "" rel;
            tup_subject := subjectRef |}
  end.

Definition relationshipsToRelationsTuples (rels : list (option pb.Relationship))
    : result (list RelationsTuple) :=
  map_index (fun rel i => wrap_err (at_index "invalid relationship" i)
                            (relationshipToRelationsTuple rel)) rels 0.

(** [if p != nil { f = f.With( *p ) }] *)
Definition with_opt {F A} (set : F -> A -> F) (p : option A) (f : F) : F :=
  match p with Some a => set f a | None => f end.

Definition subjectFilterFromProto (sf : pb.RelationSubjectFilter) : TupleSubjectFilter :=
  with_opt SF_WithRelation (pb.sf_Relation sf)
  (with_opt SF_WithSubjectId (pb.SubjectId sf)
  (with_opt SF_WithSubjectType (pb.SubjectType sf)
  (with_opt SF_WithReporterType (pb.SubjectNamespace sf) NewTupleSubjectFilter))).

Definition tupleFilterFromProto (pf : option pb.RelationTupleFilter) : TupleFilter :=
  match pf with
  | None => NewTupleFilter
  | Some pf =>
      let filter :=
        with_opt WithRelation (pb.tf_Relation pf)
        (with_opt WithObjectId (pb.tf_ResourceId pf)
        (with_opt WithObjectType (pb.tf_ResourceType pf)
        (with_opt WithReporterType (pb.ResourceNamespace pf) NewTupleFilter))) in
      match pb.SubjectFilter pf with
      | Some sf => WithSubject filter (subjectFilterFromProto sf)
      | None => filter
      end
  end.

Definition paginationFromProto (p : option pb.RequestPagination) : option Pagination :=
  match p with
  | None => None
  | Some p => Some {| pg_Limit := pb.Limit p; pg_Continuation := pb.rp_ContinuationToken p |}
  end.

Definition consistencyFromProto (c : option pb.Consistency) : Consistency :=
  match c with
  | None => unspecifiedConsistency
  | Some _ =>
      if pb.GetMinimizeLatency c then minimizeLatencyConsistency
      else if pb.GetAtLeastAsAcknowledged c then atLeastAsAcknowledgedConsistency
      else match pb.GetAtLeastAsFresh c with
           | Some t => atLeastAsFreshConsistency (pb.Token t)
           | None => unspecifiedConsistency
           end
  end.

Definition toCreateTuplesCommand (req : pb.CreateTuplesRequest)
    : result TupleCrud.CreateTuplesCommand :=
  let! tuples := relationshipsToRelationsTuples (pb.Tuples req) in
  let! fc := fencingCheckFromProto (pb.ct_FencingCheck req) in
  Ok {| TupleCrud.ct_Tuples := tuples; TupleCrud.ct_Upsert := pb.Upsert req;
        TupleCrud.ct_FencingCheck := fc |}.

Definition toDeleteTuplesCommand (req : pb.DeleteTuplesRequest)
    : result TupleCrud.DeleteTuplesCommand :=
  let! fc := fencingCheckFromProto (pb.dt_FencingCheck req) in
  Ok {| TupleCrud.dt_Filter := tupleFilterFromProto (pb.dt_Filter req);
        TupleCrud.dt_FencingCheck := fc |}.

Definition toReadTuplesCommand (req : pb.ReadTuplesRequest) : result TupleCrud.ReadTuplesCommand :=
  Ok {| TupleCrud.rt_Filter := tupleFilterFromProto (pb.rd_Filter req);
        TupleCrud.rt_Pagination := paginationFromProto (pb.rd_Pagination req);
        TupleCrud.rt_Consistency := Some (consistencyFromProto (pb.rd_Consistency req)) |}.

Definition toAcquireLockCommand (req : pb.AcquireLockRequest)
    : result TupleCrud.AcquireLockCommand :=
  let! lockId := wrap_err "invalid lock id" (NewLockId (pb.al_LockId req)) in
  Ok {| TupleCrud.lk_LockId := lockId |}.

(** * To protobuf *)

Definition fromCreateTuplesResult (token : ConsistencyToken) : pb.TuplesResponse :=
  {| pb.tr_ConsistencyToken := token_to_proto token |}.
Definition fromDeleteTuplesResult (token : ConsistencyToken) : pb.TuplesResponse :=
  {| pb.tr_ConsistencyToken := token_to_proto token |}.

Definition namespace_of (ref : ResourceReference) : string :=
  match ref_reporter ref with Some r => rref_reporterType r | None => "" end.

Definition object_to_proto (ref : ResourceReference) : pb.RelationObjectReference :=
  {| pb.ro_Type := Some {| pb.Namespace := namespace_of ref; pb.Name := ref_resourceType ref |};
     pb.Id := ref_resourceId ref |}.

Definition readTuplesItemToProto (item : ReadTuplesItem) : pb.ReadTuplesResponse :=
  let tuple :=
    {| pb.r_Resource := Some (object_to_proto (rti_object item));
       pb.r_Relation := rti_relation item;
       pb.r_Subject :=
         Some {| pb.rs_Relation := sub_relation (rti_subject item);
                 pb.rs_Subject := Some (object_to_proto (sub_resource (rti_subject item))) |} |} in
  {| pb.rdr_Tuple := tuple;
     pb.rdr_Pagination :=
       if bool_decide (rti_continuationToken item <> "")
       then Some {| pb.ContinuationToken := rti_continuationToken item |} else None;
     pb.rdr_ConsistencyToken := token_to_proto (rti_consistencyToken item) |}.

(** * The endpoints *)
Section Endpoints.
Context {T : Type} `{RelationsRepository T}.
Implicit Types (uc : option MetaAuthorizer) (ctx : Ctx) (t : T).

Definition CreateTuples uc ctx (req : pb.CreateTuplesRequest) t : T * result pb.TuplesResponse :=
  match toCreateTuplesCommand req with
  | Err err => (t, Err err)
  | Ok cmd =>
      let '(t, res) := TupleCrud.CreateTuples uc ctx cmd t in
      (t, let! token := res in Ok (fromCreateTuplesResult token))
  end.

Definition DeleteTuples uc ctx (req : pb.DeleteTuplesRequest) t : T * result pb.TuplesResponse :=
  match toDeleteTuplesCommand req with
  | Err err => (t, Err err)
  | Ok cmd =>
      let '(t, res) := TupleCrud.DeleteTuples uc ctx cmd t in
      (t, let! token := res in Ok (fromDeleteTuplesResult token))
  end.

Definition ReadTuples uc ctx (send : nat -> option go_error) (req : pb.ReadTuplesRequest) t
    : list pb.ReadTuplesResponse * result unit :=
  match toReadTuplesCommand req with
  | Err err => ([], Err err)
  | Ok cmd =>
      match TupleCrud.ReadTuples uc ctx cmd t with
      | Err err => ([], Err err)
      | Ok modelStream => send_all send 0 (readTuplesItemToProto <$> modelStream)
      end
  end.

Definition AcquireLock uc ctx (req : pb.AcquireLockRequest) t
    : T * result pb.AcquireLockResponse :=
  match toAcquireLockCommand req with
  | Err err => (t, Err err)
  | Ok cmd =>
      let '(t, res) := TupleCrud.AcquireLock uc ctx cmd t in
      (t, let! token := res in Ok {| pb.alr_LockToken := token |})
  end.
End Endpoints.
End TupleService.
