(* ===== verification/Middleware.v ===== *)
(** internal/middleware: sanitising, validation, error mapping, read-only mode,
    pagination and the two authentication layers; internal/server: the chains
    that the gRPC and the HTTP server build from them.  Logs and metrics are
    dropped. *)
From stdpp Require Import base tactics list strings gmap.
From Stdlib Require Import ZArith Lia Ascii.
From S2P Require Import Prelude GoStrings Common ReporterResource Relations MetaAuthz Authn.
From S2P Require Import Proto.

Local Open Scope string_scope.

(** * sanitize.go *)

(** A value that [hasNullsRecursive] reports: nil, the string "null" in any case,
    or a map with such a value.  Lists are not searched. *)
Fixpoint null_inside (val : json) : bool :=
  match val with
  | JNull => true
  | JStr v => EqualFold v "null"
  | JObj v => existsb (fun kv => null_inside kv.2) v
  | _ => false
  end.

Definition fields_have_nulls (v : list (string * json)) : bool :=
  existsb (fun kv => null_inside kv.2) v.

Definition hasNullsRecursive (m : gmap string json) : bool :=
  fields_have_nulls (map_to_list m).

(** What the loop of [RemoveNulls] stores for a value, if anything. *)
Fixpoint clean_value (val : json) : option json :=
  match val with
  | JNull => None
  | JStr v => if EqualFold v "null" then None else Some (JStr v)
  | JObj v =>
      let cleaned :=
        if negb (fields_have_nulls v) then v
        else (fix go (fs : list (string * json)) :=
                match fs with
                | [] => []
                | (key, val) :: rest =>
                    match clean_value val with
                    | Some val => (key, val) :: go rest
                    | None => go rest
                    end
                end) v in
      match cleaned with [] => None | _ => Some (JObj cleaned) end
  | _ => Some val
  end.

Definition RemoveNulls (m : gmap string json) : gmap string json :=
  if negb (hasNullsRecursive m) then m else omap clean_value m.

(** * validation.go *)

(** The unary requests of the two services. *)
Inductive Request :=
  | ReportResourceRequest (r : pb.ReportResourceRequest)
  | DeleteResourceRequest (r : pb.DeleteResourceRequest)
  | CheckRequest (r : pb.CheckRequest)
  | CheckForUpdateRequest (r : pb.CheckForUpdateRequest)
  | CheckBulkRequest (r : pb.CheckBulkRequest)
  | CheckForUpdateBulkRequest (r : pb.CheckForUpdateBulkRequest)
  | CheckSelfRequest (r : pb.CheckSelfRequest)
  | CheckSelfBulkRequest (r : pb.CheckSelfBulkRequest)
  | CreateTuplesRequest (r : pb.CreateTuplesRequest)
  | DeleteTuplesRequest (r : pb.DeleteTuplesRequest)
  | AcquireLockRequest (r : pb.AcquireLockRequest).

(** The libraries: [protovalidate.Validate], and [structpb.NewStruct]. *)
Class ProtoLib := {
  validator_Validate : Request -> result unit;
  structpb_NewStruct : gmap string json -> result Struct;
}.

Section Sanitize.
Context `{ProtoLib}.

Definition sanitizeStruct (s : option Struct) (name : string) : result (option Struct) :=
  match s with
  | None => Ok None
  | Some m =>
      if negb (hasNullsRecursive m) then Ok (Some m)
      else let! rebuilt := wrap_err ("failed to rebuild " +:+ name +:+ " struct")
                             (structpb_NewStruct (RemoveNulls m)) in
           Ok (Some rebuilt)
  end.

Definition with_reporter (reps : pb.ResourceRepresentations) (s : option Struct)
    : pb.ResourceRepresentations :=
  {| pb.Metadata := pb.Metadata reps; pb.Common := pb.Common reps; pb.rp_Reporter := s |}.

Definition with_representations (rr : pb.ReportResourceRequest)
    (reps : pb.ResourceRepresentations) : pb.ReportResourceRequest :=
  {| pb.InventoryId := pb.InventoryId rr; pb.Type_ := pb.Type_ rr;
     pb.ReporterType := pb.ReporterType rr; pb.ReporterInstanceId := pb.ReporterInstanceId rr;
     pb.Representations := Some reps; pb.WriteVisibility_ := pb.WriteVisibility_ rr |}.

(** The request as the call leaves it. *)
Definition sanitizeReportResourceRequest (rr : pb.ReportResourceRequest)
    : result pb.ReportResourceRequest :=
  match pb.Representations rr with
  | Some reps =>
      match pb.rp_Reporter reps with
      | None => Ok rr
      | Some _ =>
          let! s := sanitizeStruct (pb.rp_Reporter reps) "reporter" in
          Ok (with_representations rr (with_reporter reps s))
      end
  | None => Ok rr
  end.
End Sanitize.

(** * error_mapping.go *)

(** The switch of [MapError], in its order. *)
Definition mapped_errors : list (sentinel * (grpc_code * string)) :=
  [ (ErrMetaAuthzContextMissing, (Unauthenticated, "authz context missing"));
    (ErrSelfSubjectMissing, (Unauthenticated, "self subject missing"));
    (ErrMetaAuthorizerUnavailable, (Internal, "meta authorizer unavailable"));
    (ErrMetaAuthorizationDenied, (PermissionDenied, "meta authorization denied"));
    (ErrResourceNotFound, (NotFound, "resource not found"));
    (ErrResourceAlreadyExists, (AlreadyExists, "resource already exists"));
    (ErrInventoryIdMismatch, (FailedPrecondition, "resource inventory id mismatch"));
    (ErrDatabaseError, (Internal, "internal error"));
    (ErrEmpty, (InvalidArgument, "required field is empty"));
    (ErrTooLong, (InvalidArgument, "field exceeds maximum length"));
    (ErrTooSmall, (InvalidArgument, "field below minimum value"));
    (ErrInvalidURL, (InvalidArgument, "invalid URL"));
    (ErrInvalidUUID, (InvalidArgument, "invalid UUID"));
    (ErrInvalidData, (InvalidArgument, "invalid data structure"));
    (ContextCanceled, (Canceled, "request canceled"));
    (ContextDeadlineExceeded, (DeadlineExceeded, "request deadline exceeded")) ].

Fixpoint first_mapped (cases : list (sentinel * (grpc_code * string))) (err : go_error)
    : go_error :=
  match cases with
  | [] => err
  | (target, (code, msg)) :: rest =>
      if errors_Is err target then EStatus code msg else first_mapped rest err
  end.

(** A panic is not an error value: it passes. *)
Definition MapError (err : go_error) : go_error :=
  if is_panic err then err
  else if bool_decide (status_Code err <> Unknown) then err
  else if errors_Is err ErrNoRepresentationProvided
  then EStatus InvalidArgument (error_text err)
  else first_mapped mapped_errors err.

(** * read_only.go *)

Definition writeEndpoints : list string :=
  [ "/kessel.inventory.v1beta2.KesselInventoryService/ReportResource";
    "/kessel.inventory.v1beta2.KesselInventoryService/DeleteResource";
    "/api/kessel/v1beta2/resources" ].

Definition IsWriteEndpoint (endpoint : string) : bool := bool_decide (endpoint ∈ writeEndpoints).

(** * pagination.go *)

Definition i64 (z : Z) : Z := ((z + 2 ^ 63) mod 2 ^ 64 - 2 ^ 63)%Z.

Record PaginationRequest := {
  pr_Page : Z;
  pr_MaxSize : Z;
  pr_Filter : Z * Z;          (* the offset and the limit of the query *)
}.

(** [if p, err := strconv.Atoi(s); err == nil && p > 0 { v = p }] *)
Definition positive_or (s : string) (dflt : Z) : Z :=
  match ParseInt s with
  | Some p => if bool_decide (0 < p)%Z then p else dflt
  | None => dflt
  end.

(** From the query parameters "page" and "size"; "" when absent. *)
Definition Pagination_ (pageStr sizeStr : string) : PaginationRequest :=
  let page := if bool_decide (pageStr <> "") then positive_or pageStr 1 else 1%Z in
  let size := if bool_decide (sizeStr <> "") then positive_or sizeStr 10 else 10%Z in
  let size := if bool_decide (100 < size)%Z then 100%Z else size in
  {| pr_Page := page; pr_MaxSize := size;
     pr_Filter := (i64 ((page - 1) * size), size) |}.

(** * authn_common.go, authn.go, stream_authn.go *)

Definition unauthorized (msg : string) : go_error :=
  EKratos Unauthenticated "UNAUTHORIZED" (EMsg msg).

Definition ErrWrongContext : go_error := unauthorized "Wrong context for middleware".

Definition validateAuthDecision (decision : Decision_) (claims : option Claims)
    : option go_error :=
  if bool_decide (decision = Deny) then Some (unauthorized "Authentication denied")
  else if bool_decide (decision = Ignore)
  then Some (unauthorized "No valid authentication found")
  else if bool_decide (decision <> Allow) then Some (unauthorized "Authentication failed")
  else match claims with
       | None => Some (unauthorized "Invalid claims: authenticator returned Allow with nil claims")
       | Some _ => None
       end.

Section Middlewares.
Context `{AuthnLib} `{ProtoLib}.
Context {St Resp : Type}.

(** What a request context carries. *)
Record ReqCtx := {
  rq_transport : option Transporter;
  rq_authz : Ctx;
  rq_token : option IDToken;
  rq_rawToken : option string;
}.

Definition with_authz (ctx : ReqCtx) (a : Ctx) : ReqCtx :=
  {| rq_transport := rq_transport ctx; rq_authz := a; rq_token := rq_token ctx;
     rq_rawToken := rq_rawToken ctx |}.

Definition NewRawTokenContext (ctx : ReqCtx) (rawToken : string) : ReqCtx :=
  {| rq_transport := rq_transport ctx; rq_authz := rq_authz ctx; rq_token := rq_token ctx;
     rq_rawToken := Some rawToken |}.

Definition ensureAuthzContext (ctx : ReqCtx) (claims : option Claims) : ReqCtx :=
  match rq_authz ctx with
  | Some _ => ctx
  | None =>
      let protocol :=
        match rq_transport ctx with
        | None => ProtocolUnknown
        | Some t =>
            if bool_decide (tr_Kind t = KindHTTP) then ProtocolHTTP
            else if bool_decide (tr_Kind t = KindGRPC) then ProtocolGRPC
            else ProtocolUnknown
        end in
      with_authz ctx (Some {| ac_Protocol := protocol; ac_Subject := claims |})
  end.

(** The bearer token of an authorization header, kept for older callers. *)
Definition bearer_of (authHeader : string) : option string :=
  match Cut authHeader " " with
  | Some (scheme, rawToken) => if EqualFold scheme "bearer" then Some rawToken else None
  | None => None
  end.

Definition keep_token (ctx : ReqCtx) (authHeader : string) : ReqCtx :=
  match rq_token ctx with
  | Some _ => ctx
  | None => match bearer_of authHeader with
            | Some rawToken => NewRawTokenContext ctx rawToken
            | None => ctx
            end
  end.

Abbreviation Handler := (ReqCtx -> Request -> St -> St * result Resp).

Definition Authentication (authenticator : Authenticator) (next : Handler) : Handler :=
  fun ctx req st =>
    match rq_transport ctx with
    | None => (st, Err ErrWrongContext)
    | Some t =>
        let '(claims, decision) := authenticator t in
        match validateAuthDecision decision claims with
        | Some err => (st, Err err)
        | None =>
            let ctx := ensureAuthzContext ctx claims in
            next (keep_token ctx (tr_Header t "Authorization")) req st
        end
    end.

Definition Validation (handler : Handler) : Handler := fun ctx req st =>
  match validator_Validate req with
  | Err err => (st, Err (EKratos InvalidArgument "VALIDATOR" err))
  | Ok _ =>
      match req with
      | ReportResourceRequest rr =>
          match sanitizeReportResourceRequest rr with
          | Err err => (st, Err (EKratos InvalidArgument "SANITIZER" err))
          | Ok rr => handler ctx (ReportResourceRequest rr) st
          end
      | _ => handler ctx req st
      end
  end.

Definition map_result_error (m : result Resp) : result Resp :=
  match m with Ok a => Ok a | Err e => Err (MapError e) end.

Definition ErrorMapping (next : Handler) : Handler := fun ctx req st =>
  let '(st, res) := next ctx req st in (st, map_result_error res).

Definition UnaryReadOnlyInterceptor (fullMethod : string) (handler : Handler) : Handler :=
  fun ctx req st =>
    if IsWriteEndpoint fullMethod
    then (st, Err (EStatus Unavailable "write endpoint and server is in read-only mode"))
    else handler ctx req st.

Definition HTTPReadOnlyMiddleware (handler : Handler) : Handler := fun ctx req st =>
  match rq_transport ctx with
  | None => handler ctx req st
  | Some t =>
      if IsWriteEndpoint (tr_Operation t)
      then (st, Err (EKratos Unavailable "READ_ONLY_MODE"
                       (EMsg "write endpoint and server is in read-only mode")))
      else handler ctx req st
  end.

(** ** Streams

    A stream handler runs in a context and yields what it sent. *)
Definition preserveStreamTokenContext (ctx : ReqCtx) (md : MD) : ReqCtx :=
  match rq_token ctx with
  | Some _ => ctx
  | None =>
      match grpcMetadataHeader.Values md "authorization" with
      | [] => ctx
      | authHeader :: _ =>
          match bearer_of authHeader with
          | Some rawToken => NewRawTokenContext ctx rawToken
          | None => ctx
          end
      end
  end.

Abbreviation StreamHandler := (ReqCtx -> St -> St * result unit).

(** [md] is the incoming metadata of the stream, if any. *)
Definition StreamAuth_Interceptor (authenticator : Authenticator) (md : option MD)
    (fullMethod : string) (handler : StreamHandler) : StreamHandler := fun ctx st =>
  match md with
  | None => (st, Err (unauthorized "Missing metadata for stream method"))
  | Some md =>
      let '(claims, decision) := authenticator (grpcStreamTransporter md fullMethod) in
      match validateAuthDecision decision claims with
      | Some err => (st, Err err)
      | None =>
          let ctx := ensureAuthzContext ctx claims in
          handler (preserveStreamTokenContext ctx md) st
      end
  end.

Definition ErrorMappingStreamInterceptor (handler : StreamHandler) : StreamHandler :=
  fun ctx st =>
    let '(st, res) := handler ctx st in
    (st, match res with Ok a => Ok a | Err e => Err (MapError e) end).

(** [recv] is what [RecvMsg] of the stream yields; [Validate] is protovalidate on
    the requests of the stream. *)
Definition validating_RecvMsg {Req} (Validate : Req -> result unit) (recv : result Req)
    : result Req :=
  let! m := recv in
  match Validate m with
  | Err err => Err (EKratos InvalidArgument "VALIDATOR" err)
  | Ok _ => Ok m
  end.

Definition StreamValidationInterceptor {Req} (Validate : Req -> result unit)
    (handler : result Req -> StreamHandler) : result Req -> StreamHandler :=
  fun recv => handler (validating_RecvMsg Validate recv).

(** The generated handler of a server stream reads its one request and calls
    the service. *)
Definition stream_stub {Req} (h : ReqCtx -> Req -> St -> St * result unit) (recv : result Req)
    : StreamHandler := fun ctx st =>
  match recv with
  | Err err => (st, Err err)
  | Ok req => h ctx req st
  end.

(** [NewWithDeps] of internal/server/grpc, for the streaming methods: the
    interceptors that count and log are in Streams.v. *)
Definition grpc_stream_chain {Req} (Validate : Req -> result unit) (authenticator : Authenticator)
    (md : option MD) (fullMethod : string) (h : ReqCtx -> Req -> St -> St * result unit)
    (recv : result Req) : StreamHandler :=
  StreamAuth_Interceptor authenticator md fullMethod
    (StreamValidationInterceptor Validate
       (fun recv => ErrorMappingStreamInterceptor (stream_stub h recv)) recv).

(** ** The chains of the servers *)

(** [NewWhiteListMatcher]: whether the selected middlewares apply. *)
Definition whiteList : list string :=
  [ "/kessel.inventory.v1.KesselInventoryHealthService/GetReadyz";
    "/kessel.inventory.v1.KesselInventoryHealthService/GetLivez";
    "/grpc.health.v1.Health/Check"; "/metrics" ].

Definition NewWhiteListMatcher (operation : string) : bool :=
  negb (bool_decide (operation ∈ whiteList)).

(** The middlewares of kratos: [selector.Server(m).Match(f).Build()] and
    [recovery.Recovery()]. *)
Class KratosLib := {
  selector_Server : (string -> bool) -> (Handler -> Handler) -> Handler -> Handler;
  recovery_Recovery : Handler -> Handler;
}.

(** Their documentation: the selected middleware applies to the operations that
    match; a panic of the handler is answered with an error, and what the
    handler returns is returned. *)
Class KratosLaws `{KratosLib} := {
  selector_law f m h ctx t req st :
    rq_transport ctx = Some t ->
    selector_Server f m h ctx req st =
      if f (tr_Operation t) then m h ctx req st else h ctx req st;
  recovery_law h ctx req st :
    recovery_Recovery h ctx req st =
      match h ctx req st with
      | (st, Err (EPanic _)) =>
          (st, Err (EKratos Internal "UNKNOWN" (EMsg "unknown request error")))
      | r => r
      end;
}.

Context `{KratosLib}.

(** [NewWithDeps] of internal/server/grpc, for the unary methods.  Kratos chains
    its own interceptor, which runs the middlewares, before those of
    [kgrpc.Options]: the read-only interceptor runs last. *)
Definition grpc_chain (authenticator : Authenticator) (readOnlyMode : bool) (fullMethod : string)
    (h : Handler) : Handler :=
  recovery_Recovery
    (Validation
       (selector_Server NewWhiteListMatcher (Authentication authenticator)
          (ErrorMapping (if readOnlyMode then UnaryReadOnlyInterceptor fullMethod h else h)))).

(** [NewWithDeps] of internal/server/http. *)
Definition http_chain (authenticator : Authenticator) (readOnlyMode : bool) (h : Handler)
    : Handler :=
  recovery_Recovery
    (Validation
       (selector_Server NewWhiteListMatcher (Authentication authenticator)
          (ErrorMapping (if readOnlyMode then HTTPReadOnlyMiddleware h else h)))).
End Middlewares.
