(* ===== verification/MiddlewareProps.v ===== *)
(** What the middlewares guarantee: requests are sanitised, errors leave with a
    status code, nothing runs unauthenticated, read-only mode, page bounds. *)
From stdpp Require Import base tactics list strings gmap.
From Stdlib Require Import ZArith Lia Ascii.
From S2P Require Import Prelude GoStrings Common ReporterResource Relations MetaAuthz Authn.
From S2P Require Import Proto Middleware.

Local Open Scope string_scope.

(** * Sanitising *)

(** Induction over a JSON value and the values inside it. *)
Lemma json_nested_ind (P : json -> Prop) :
  P JNull -> (forall b, P (JBool b)) -> (forall z, P (JNum z)) -> (forall s, P (JStr s)) ->
  (forall l, Forall P l -> P (JArr l)) ->
  (forall fs, Forall (fun kv => P kv.2) fs -> P (JObj fs)) ->
  forall j, P j.
Proof.
  intros Hn Hb Hz Hs Ha Ho. fix IH 1. intros [|b|z|s|l|fs].
  - exact Hn.
  - apply Hb.
  - apply Hz.
  - apply Hs.
  - apply Ha. induction l as [|x l IHl]; constructor; [apply IH|exact IHl].
  - apply Ho. induction fs as [|[k x] fs IHl]; constructor; [apply IH|exact IHl].
Qed.

(** The loop of [RemoveNulls] on the fields of a nested map. *)
Definition clean_fields (fs : list (string * json)) : list (string * json) :=
  omap (fun kv => (fun v => (kv.1, v)) <$> clean_value kv.2) fs.

Lemma clean_value_obj v :
  clean_value (JObj v) =
    let cleaned := if negb (fields_have_nulls v) then v else clean_fields v in
    match cleaned with [] => None | _ => Some (JObj cleaned) end.
Proof.
  cbn [clean_value]. destruct (fields_have_nulls v); simpl; [|done].
  assert (forall fs, (fix go (fs : list (string * json)) :=
                match fs with
                | [] => []
                | (key, val) :: rest =>
                    match clean_value val with
                    | Some val => (key, val) :: go rest
                    | None => go rest
                    end
                end) fs = clean_fields fs) as ->; [|done].
  induction fs as [|[k x] fs IH]; [done|]. cbn. rewrite IH. by destruct (clean_value x).
Qed.

Lemma clean_value_no_nulls v v' : clean_value v = Some v' -> null_inside v' = false.
Proof.
  revert v'. induction v as [|b|z|s|l _|fs IH] using json_nested_ind; intros v' Hv.
  - done.
  - by injection Hv as <-.
  - by injection Hv as <-.
  - cbn in Hv. destruct (EqualFold s "null") eqn:E; [done|]. by injection Hv as <-.
  - by injection Hv as <-.
  - rewrite clean_value_obj in Hv.
    assert (Hc : fields_have_nulls
              (if negb (fields_have_nulls fs) then fs else clean_fields fs) = false).
    { destruct (fields_have_nulls fs) eqn:E; simpl; [|done]. clear E Hv.
      induction IH as [|[k x] fs Hx _ IHfs]; [done|]. cbn.
      destruct (clean_value x) eqn:E; cbn; [|done]. by rewrite (Hx j E). }
    cbv zeta in Hv. destruct (if negb _ then _ else _); [done|]. by injection Hv as <-.
Qed.

Lemma clean_value_keeps v : null_inside v = false -> v <> JObj [] -> clean_value v = Some v.
Proof.
  destruct v as [| | |s| |fs]; try done.
  - cbn. by intros ->.
  - intros Hn Hv. rewrite clean_value_obj. change (null_inside (JObj fs)) with (fields_have_nulls fs) in Hn.
    rewrite Hn. simpl. by destruct fs.
Qed.

Lemma hasNullsRecursive_false m :
  hasNullsRecursive m = false <-> forall k v, m !! k = Some v -> null_inside v = false.
Proof.
  unfold hasNullsRecursive, fields_have_nulls. rewrite <- not_true_iff_false, existsb_exists.
  split.
  - intros Hn k v Hk. apply not_true_is_false. intros Hv. apply Hn. exists (k, v).
    split; [|done]. by apply list_elem_of_In, elem_of_map_to_list.
  - intros Hn ([k v] & Hin & Hv). apply list_elem_of_In, elem_of_map_to_list in Hin.
    simpl in Hv. by rewrite (Hn _ _ Hin) in Hv.
Qed.

Lemma RemoveNulls_no_nulls m : hasNullsRecursive (RemoveNulls m) = false.
Proof.
  unfold RemoveNulls. destruct (hasNullsRecursive m) eqn:E; simpl; [|done].
  apply hasNullsRecursive_false. intros k v. rewrite lookup_omap_Some.
  intros (x & Hx & _). by eapply clean_value_no_nulls.
Qed.

Lemma RemoveNulls_keeps m k v :
  m !! k = Some v -> null_inside v = false -> v <> JObj [] -> RemoveNulls m !! k = Some v.
Proof.
  intros Hk Hn Hv. unfold RemoveNulls. destruct (hasNullsRecursive m); simpl; [|done].
  apply lookup_omap_Some. eauto using clean_value_keeps.
Qed.

Lemma RemoveNulls_drops m k : m !! k = Some JNull -> RemoveNulls m !! k = None.
Proof.
  intros Hk. unfold RemoveNulls. destruct (hasNullsRecursive m) eqn:E; simpl.
  - by rewrite lookup_omap, Hk.
  - by pose proof (proj1 (hasNullsRecursive_false m) E _ _ Hk).
Qed.

Section Sanitize.
Context `{ProtoLib}.

(** Sanitising a report leaves a reporter representation without a null
    at any depth of its maps, keeps every value that has none and is not an
    empty map, and changes nothing else of the request. *)
Theorem sanitized_report (HNewStruct : forall m, structpb_NewStruct m = Ok m) rr reps m :
  pb.Representations rr = Some reps -> pb.rp_Reporter reps = Some m ->
  exists m', sanitizeReportResourceRequest rr =
      Ok (with_representations rr (with_reporter reps (Some m'))) /\
    hasNullsRecursive m' = false /\
    (forall k v, m !! k = Some v -> null_inside v = false -> v <> JObj [] -> m' !! k = Some v) /\
    (forall k, m !! k = Some JNull -> m' !! k = None) /\
    (forall k, is_Some (m' !! k) -> is_Some (m !! k)).
Proof.
  intros Hr Hm. exists (RemoveNulls m).
  unfold sanitizeReportResourceRequest, sanitizeStruct. rewrite Hr, Hm.
  split_and!; [|apply RemoveNulls_no_nulls|apply RemoveNulls_keeps|apply RemoveNulls_drops|].
  - destruct (hasNullsRecursive m) eqn:E; simpl; [by rewrite HNewStruct|].
    do 3 f_equal. unfold RemoveNulls. by rewrite E.
  - intros k [v Hv]. unfold RemoveNulls in Hv. destruct (hasNullsRecursive m); simpl in Hv; [|eauto].
    apply lookup_omap_Some in Hv as (x & _ & Hx). eauto.
Qed.
End Sanitize.

#[local] Instance identity_ProtoLib : ProtoLib :=
  {| validator_Validate _ := Ok tt; structpb_NewStruct m := Ok m |}.

Definition dirty_report : pb.ReportResourceRequest :=
  {| pb.InventoryId := None; pb.Type_ := "host"; pb.ReporterType := "hbi";
     pb.ReporterInstanceId := "i"; pb.WriteVisibility_ := pb.IMMEDIATE;
     pb.Representations := Some
       {| pb.Metadata := None; pb.Common := None;
          pb.rp_Reporter := Some {["a" := JStr "NULL"; "b" := JObj [("c", JNull); ("d", JNum 1)];
                                   "e" := JArr [JNull]; "f" := JNull]} |} |}.

Lemma sanitized_report_witness :
  match pb.Representations dirty_report with
  | Some reps =>
      match pb.rp_Reporter reps with
      | Some m =>
          (m !! "e" = Some (JArr [JNull]) /\ m !! "f" = Some JNull) /\
          exists m', sanitizeReportResourceRequest dirty_report =
              Ok (with_representations dirty_report (with_reporter reps (Some m'))) /\
            hasNullsRecursive m' = false /\
            (forall k v, m !! k = Some v -> null_inside v = false -> v <> JObj [] -> m' !! k = Some v) /\
            (forall k, m !! k = Some JNull -> m' !! k = None) /\
            (forall k, is_Some (m' !! k) -> is_Some (m !! k))
      | None => False
      end
  | None => False
  end.
Proof. split; [by vm_compute|]. by apply (@sanitized_report identity_ProtoLib (fun _ => eq_refl)). Defined.

(** * Error mapping *)

Definition mapped_sentinels : list sentinel := ErrNoRepresentationProvided :: mapped_errors.*1.

(** A chain of errors ends in one sentinel at most. *)
Lemma errors_Is_unique e s s' : errors_Is e s = true -> errors_Is e s' = true -> s = s'.
Proof.
  induction e; simpl; try done. intros H%bool_decide_eq_true H'%bool_decide_eq_true. congruence.
Qed.

Lemma first_mapped_none cases e :
  (forall s, s ∈ cases.*1 -> errors_Is e s = false) -> first_mapped cases e = e.
Proof.
  induction cases as [|[s [c msg]] cases IH]; [done|]. simpl. intros H.
  rewrite (H s), IH; [done| |by left]. intros. apply H. by right.
Qed.

Lemma first_mapped_hit cases e s c msg :
  NoDup cases.*1 -> (s, (c, msg)) ∈ cases -> errors_Is e s = true ->
  first_mapped cases e = EStatus c msg.
Proof.
  induction cases as [|[s' [c' msg']] cases IH]; [by rewrite elem_of_nil|].
  simpl. intros [Hs Hnd]%NoDup_cons Hin He. destruct (errors_Is e s') eqn:E.
  - pose proof (errors_Is_unique _ _ _ He E) as <-.
    apply elem_of_cons in Hin as [[= -> ->]|Hin]; [done|]. destruct Hs. by apply (list_elem_of_fmap_2 fst) in Hin.
  - apply elem_of_cons in Hin as [[= -> -> ->]|Hin]; [congruence|]. by apply IH.
Qed.

Lemma MapError_status_kept e : status_Code e <> Unknown -> MapError e = e.
Proof. intros H. unfold MapError. rewrite bool_decide_eq_true_2 by done. by destruct (is_panic e). Qed.

Lemma MapError_sentinel e s c msg :
  (s, (c, msg)) ∈ mapped_errors -> errors_Is e s = true -> status_Code e = Unknown ->
  MapError e = EStatus c msg.
Proof.
  intros Hin He Hc. unfold MapError. rewrite Hc, bool_decide_eq_false_2 by tauto.
  destruct (is_panic e) eqn:Ep; [by destruct e|].
  destruct (errors_Is e ErrNoRepresentationProvided) eqn:E.
  - pose proof (errors_Is_unique _ _ _ He E) as ->. exfalso. revert Hin.
    apply (bool_decide_unpack _). by vm_compute.
  - eapply first_mapped_hit; [|done..]. apply (bool_decide_unpack _). by vm_compute.
Qed.

Lemma MapError_unmapped e :
  (forall s, s ∈ mapped_sentinels -> errors_Is e s = false) -> MapError e = e.
Proof.
  intros H. unfold MapError. rewrite (H ErrNoRepresentationProvided) by by left.
  rewrite first_mapped_none; [by repeat case_match|]. intros. apply H. by right.
Qed.

Lemma mapped_codes s c msg : (s, (c, msg)) ∈ mapped_errors -> c <> Unknown.
Proof.
  assert (H : Forall (fun x => x.2.1 <> Unknown) mapped_errors)
    by (apply (bool_decide_unpack _); by vm_compute).
  intros Hin. by apply (proj1 (Forall_forall _ _) H _ Hin).
Qed.

Lemma MapError_known e s :
  s ∈ mapped_sentinels -> errors_Is e s = true -> status_Code (MapError e) <> Unknown.
Proof.
  intros Hs He. destruct (decide (status_Code e = Unknown)) as [Hc|Hc];
    [|by rewrite MapError_status_kept].
  apply elem_of_cons in Hs as [->|Hs].
  - unfold MapError. rewrite Hc, He, bool_decide_eq_false_2 by tauto. by destruct e.
  - apply list_elem_of_fmap in Hs as ([s' [c msg]] & -> & Hin).
    rewrite (MapError_sentinel _ _ _ _ Hin He Hc). by apply mapped_codes in Hin.
Qed.

(** An error that carries a status passes unchanged; otherwise a sentinel
    of the table decides the status, whatever wraps it; an error leaves without
    a status only if it came without one and none of the sentinels is in its
    chain; mapping twice changes nothing. *)
Theorem MapError_classifies e :
  (status_Code e <> Unknown -> MapError e = e) /\
  (forall s c msg, (s, (c, msg)) ∈ mapped_errors -> errors_Is e s = true ->
     status_Code e = Unknown -> MapError e = EStatus c msg) /\
  (status_Code (MapError e) = Unknown <->
     status_Code e = Unknown /\ forall s, s ∈ mapped_sentinels -> errors_Is e s = false) /\
  MapError (MapError e) = MapError e.
Proof.
  assert (Hiff : status_Code (MapError e) = Unknown <->
     status_Code e = Unknown /\ forall s, s ∈ mapped_sentinels -> errors_Is e s = false).
  { split.
    - intros Hu. split.
      + destruct (decide (status_Code e = Unknown)); [done|]. by rewrite MapError_status_kept in Hu.
      + intros s Hs. apply not_true_is_false. intros He. by apply (MapError_known e s).
    - intros [Hc H]. by rewrite MapError_unmapped. }
  split_and!; [apply MapError_status_kept|intros; by eapply MapError_sentinel|done|].
  destruct (decide (status_Code (MapError e) = Unknown)) as [Hu|Hu].
  - apply Hiff in Hu as [_ H]. by rewrite !(MapError_unmapped e).
  - by apply MapError_status_kept.
Qed.

(** * Pagination *)

Lemma positive_or_pos s dflt : (0 < dflt)%Z -> (0 < positive_or s dflt)%Z.
Proof. intros. unfold positive_or. destruct (ParseInt s); [case_bool_decide|]; lia. Qed.

Lemma i64_small z : (- 2 ^ 63 <= z < 2 ^ 63)%Z -> i64 z = z.
Proof. intros. unfold i64. rewrite Z.mod_small; lia. Qed.

(** Whatever the query parameters are, a page is at least 1 and its size
    between 1 and 100; the query starts where the pages before end, for every
    page that 64 bits can address. *)
Theorem Pagination_bounds pageStr sizeStr :
  let r := Pagination_ pageStr sizeStr in
  (1 <= pr_Page r)%Z /\ (1 <= pr_MaxSize r <= 100)%Z /\ (pr_Filter r).2 = pr_MaxSize r /\
  ((pr_Page r <= 2 ^ 63 / 100)%Z ->
   (pr_Filter r).1 = ((pr_Page r - 1) * pr_MaxSize r)%Z).
Proof.
  simpl. set (page := if bool_decide (pageStr <> "") then _ else _).
  set (size := if bool_decide (sizeStr <> "") then _ else _).
  assert (1 <= page)%Z.
  { unfold page. case_bool_decide; [|lia]. pose proof (positive_or_pos pageStr 1). lia. }
  assert (1 <= size)%Z.
  { unfold size. case_bool_decide; [|lia]. pose proof (positive_or_pos sizeStr 10). lia. }
  assert (1 <= (if bool_decide (100 < size) then 100 else size) <= 100)%Z
    by (case_bool_decide; lia).
  split_and!; [done|lia..|done|]. intros Hp. apply i64_small.
  change (2 ^ 63 / 100)%Z with 92233720368547758%Z in Hp. nia.
Qed.

(** * The chains *)

Definition protocol_of (t : Transporter) : string :=
  if bool_decide (tr_Kind t = KindHTTP) then ProtocolHTTP
  else if bool_decide (tr_Kind t = KindGRPC) then ProtocolGRPC
  else ProtocolUnknown.

Lemma validateAuthDecision_None decision claims :
  validateAuthDecision decision claims = None <->
  decision = Allow /\ exists c, claims = Some c.
Proof.
  unfold validateAuthDecision. split.
  - repeat case_bool_decide; try done. destruct claims; [|done]. intros _.
    split; [|by eexists]. by destruct (decide (decision = Allow)).
  - intros (-> & c & ->). done.
Qed.

Section Chains.
Context `{AuthnLib} `{ProtoLib} {St Resp : Type} {KL : @KratosLib _ St Resp}
  {KLaws : @KratosLaws _ St Resp KL}.
Abbreviation Handler := (ReqCtx -> Request -> St -> St * result Resp).
Implicit Types (h : Handler) (st : St).

Lemma keep_token_authz ctx s : rq_authz (keep_token ctx s) = rq_authz ctx.
Proof. unfold keep_token. by repeat case_match. Qed.

Lemma ensureAuthzContext_fresh ctx t claims :
  rq_transport ctx = Some t -> rq_authz ctx = None ->
  rq_authz (ensureAuthzContext ctx claims) =
    Some {| ac_Protocol := protocol_of t; ac_Subject := claims |}.
Proof. intros Ht Ha. unfold ensureAuthzContext. by rewrite Ht, Ha. Qed.

(** The request that reaches the handler: a report is sanitised first. *)
Definition passed_on (req req' : Request) : Prop :=
  match req with
  | ReportResourceRequest rr =>
      exists rr', sanitizeReportResourceRequest rr = Ok rr' /\ req' = ReportResourceRequest rr'
  | _ => req' = req
  end.

(** What runs behind an authentication that did not reject. *)
Definition authenticated_run (auth : Authenticator) (ctx : ReqCtx) (t : Transporter) (h : Handler)
    (req : Request) (st st' : St) (res : result Resp) : Prop :=
  exists claims ctx' req' r,
    auth t = (Some claims, Allow) /\
    rq_authz ctx' = Some {| ac_Protocol := protocol_of t; ac_Subject := Some claims |} /\
    validator_Validate req = Ok tt /\ passed_on req req' /\
    h ctx' req' st = (st', r) /\ (is_ok res = true -> res = r).

Lemma Authentication_run auth h ctx t req st st' res :
  rq_transport ctx = Some t -> rq_authz ctx = None ->
  Authentication auth h ctx req st = (st', res) ->
  (st' = st /\ is_ok res = false) \/
  exists claims ctx', auth t = (Some claims, Allow) /\
    rq_authz ctx' = Some {| ac_Protocol := protocol_of t; ac_Subject := Some claims |} /\
    h ctx' req st = (st', res).
Proof.
  intros Ht Ha. unfold Authentication. rewrite Ht. destruct (auth t) as [claims decision].
  destruct (validateAuthDecision decision claims) eqn:E.
  - intros [= <- <-]. by left.
  - apply validateAuthDecision_None in E as (-> & c & ->). intros Hrun. right.
    eexists c, _. split; [done|]. split; [|exact Hrun].
    rewrite keep_token_authz. by apply ensureAuthzContext_fresh.
Qed.

Lemma Validation_run (h : Handler) ctx req st st' res :
  Validation h ctx req st = (st', res) ->
  (st' = st /\ is_ok res = false) \/
  exists req', validator_Validate req = Ok tt /\ passed_on req req' /\ h ctx req' st = (st', res).
Proof.
  unfold Validation. destruct (validator_Validate req) as [[]|e] eqn:E; [|intros [= <- <-]; by left].
  destruct req; try (intros Hr; right; by eexists).
  destruct (sanitizeReportResourceRequest r) as [r'|] eqn:Es; [|intros [= <- <-]; by left].
  intros Hr. right. eexists. split; [done|]. split; [|exact Hr]. by exists r'.
Qed.

Lemma recovery_run (h : Handler) ctx req st st' res :
  recovery_Recovery h ctx req st = (st', res) ->
  exists r, h ctx req st = (st', r) /\ (is_ok res = true -> res = r) /\ is_ok r = is_ok res.
Proof.
  rewrite recovery_law. destruct (h ctx req st) as [s r].
  destruct r as [a|[]]; intros [= <- <-]; eexists; (split; [done|]); by split.
Qed.

Lemma ErrorMapping_run (h : Handler) ctx req st st' res :
  ErrorMapping h ctx req st = (st', res) ->
  exists r, h ctx req st = (st', r) /\ (is_ok res = true -> res = r) /\ is_ok r = is_ok res.
Proof.
  unfold ErrorMapping. destruct (h ctx req st) as [s [a|e]]; intros [= <- <-]; by eexists.
Qed.

Lemma chain_run auth h ctx t req st st' res :
  rq_transport ctx = Some t -> rq_authz ctx = None -> tr_Operation t ∉ whiteList ->
  recovery_Recovery (Validation (selector_Server NewWhiteListMatcher (Authentication auth)
    (ErrorMapping h))) ctx req st = (st', res) ->
  (st' = st /\ is_ok res = false) \/ authenticated_run auth ctx t h req st st' res.
Proof.
  intros Ht Ha Hop Hrun. apply recovery_run in Hrun as (r1 & Hrun & Hr1 & Ho1).
  rewrite <- Ho1. apply Validation_run in Hrun as [Hrun|(req' & Hv & Hp & Hrun)]; [by left|].
  rewrite (selector_law _ _ _ _ t) in Hrun by done.
  unfold NewWhiteListMatcher in Hrun. rewrite bool_decide_eq_false_2 in Hrun by done. simpl in Hrun.
  apply (Authentication_run _ _ _ t) in Hrun as [Hrun|(claims & ctx' & Hauth & Hc & Hrun)];
    [by left| |done..].
  apply ErrorMapping_run in Hrun as (r2 & Hrun & Hr2 & Ho2). right.
  exists claims, ctx', req', r2. split_and!; [done..|]. intros Hok. rewrite Hr1 by done.
  apply Hr2. by rewrite Ho1.
Qed.

(** A handler that calls another or fails without effect, as one behind the
    read-only mode does. *)
Definition guards (h' h : Handler) : Prop := forall ctx req st,
  h' ctx req st = h ctx req st \/ exists e, h' ctx req st = (st, Err e).

Lemma behind_guard_run auth h' h ctx t req st st' res :
  guards h' h -> authenticated_run auth ctx t h' req st st' res ->
  (st' = st /\ is_ok res = false) \/ authenticated_run auth ctx t h req st st' res.
Proof.
  intros Hg (claims & ctx' & req' & r & Hau & Hc & Hv & Hp & Hrun & Hr).
  destruct (Hg ctx' req' st) as [He|[e He]]; rewrite He in Hrun.
  - right. by exists claims, ctx', req', r.
  - injection Hrun as <- <-. left. split; [done|]. destruct res; [by specialize (Hr eq_refl)|done].
Qed.

Lemma grpc_guards (ro : bool) fullMethod h :
  guards (if ro then UnaryReadOnlyInterceptor fullMethod h else h) h.
Proof.
  intros ctx req st. destruct ro; [|by left]. unfold UnaryReadOnlyInterceptor.
  destruct (IsWriteEndpoint fullMethod); [right; by eexists|by left].
Qed.

Lemma http_guards (ro : bool) h : guards (if ro then HTTPReadOnlyMiddleware h else h) h.
Proof.
  intros ctx req st. destruct ro; [|by left]. unfold HTTPReadOnlyMiddleware.
  destruct (rq_transport ctx) as [t|]; [|by left].
  destruct (IsWriteEndpoint (tr_Operation t)); [right; by eexists|by left].
Qed.

(** A request that is valid and authenticated reaches the handler. *)
Lemma chain_admits auth h ctx t req req' claims st :
  rq_transport ctx = Some t -> tr_Operation t ∉ whiteList ->
  validator_Validate req = Ok tt -> passed_on req req' -> auth t = (Some claims, Allow) ->
  exists ctx', recovery_Recovery (Validation (selector_Server NewWhiteListMatcher
      (Authentication auth) (ErrorMapping h))) ctx req st
    = recovery_Recovery (ErrorMapping h) ctx' req' st.
Proof.
  intros Ht Hop Hv Hp Hauth. eexists. rewrite !recovery_law. unfold Validation. rewrite Hv.
  assert (forall r, selector_Server NewWhiteListMatcher (Authentication auth) (ErrorMapping h)
    ctx r st = ErrorMapping h (keep_token (ensureAuthzContext ctx (Some claims))
                                 (tr_Header t "Authorization")) r st) as Hsel.
  { intros r. rewrite (selector_law _ _ _ _ t) by done. unfold NewWhiteListMatcher.
    rewrite bool_decide_eq_false_2 by done. simpl. unfold Authentication. by rewrite Ht, Hauth. }
  destruct req; simpl in Hp; [destruct Hp as (rr' & -> & ->)|subst req'..]; by rewrite Hsel.
Qed.

(** A request that is not valid is answered with the validator's error. *)
Lemma chain_rejects_invalid (h : Handler) ctx req st err :
  validator_Validate req = Err err ->
  recovery_Recovery (Validation h) ctx req st
    = (st, Err (EKratos InvalidArgument "VALIDATOR" err)).
Proof. intros Hv. rewrite recovery_law. unfold Validation. by rewrite Hv. Qed.

(** A valid request that the authenticator does not allow with claims is
    unauthenticated. *)
Lemma chain_rejects_unauthenticated auth h ctx t req req' st :
  rq_transport ctx = Some t -> tr_Operation t ∉ whiteList ->
  validator_Validate req = Ok tt -> passed_on req req' ->
  (forall claims, auth t <> (Some claims, Allow)) ->
  exists msg, recovery_Recovery (Validation (selector_Server NewWhiteListMatcher
      (Authentication auth) h)) ctx req st = (st, Err (unauthorized msg)).
Proof.
  intros Ht Hop Hv Hp Hauth. rewrite recovery_law. unfold Validation. rewrite Hv.
  assert (exists msg, forall r, selector_Server NewWhiteListMatcher (Authentication auth) h ctx r st
    = (st, Err (unauthorized msg))) as [msg Hsel].
  { destruct (auth t) as [claims decision] eqn:Ha.
    assert (exists msg, validateAuthDecision decision claims = Some (unauthorized msg))
      as [msg Hd].
    { unfold validateAuthDecision. repeat case_bool_decide; [by eexists..|].
      destruct claims as [c|]; [|by eexists]. destruct (Hauth c).
      by destruct (decide (decision = Allow)) as [->|]. }
    exists msg. intros r. rewrite (selector_law _ _ _ _ t) by done. unfold NewWhiteListMatcher.
    rewrite bool_decide_eq_false_2 by done. simpl. unfold Authentication. by rewrite Ht, Ha, Hd. }
  exists msg. destruct req; simpl in Hp; [destruct Hp as (rr' & -> & ->)|..]; by rewrite Hsel.
Qed.

(** C18. Over gRPC and over HTTP, an operation that is not on the white list
    changes the state or answers without error only if the request is valid
    and the authenticator allowed its transport with claims; its handler then
    runs once, on the state as it was, with these claims and the protocol of
    the transport in its context. *)
Theorem chains_authenticate auth readOnlyMode fullMethod h ctx t req st st' res :
  rq_transport ctx = Some t -> rq_authz ctx = None -> tr_Operation t ∉ whiteList ->
  grpc_chain auth readOnlyMode fullMethod h ctx req st = (st', res) \/
  http_chain auth readOnlyMode h ctx req st = (st', res) ->
  (st' = st /\ is_ok res = false) \/ authenticated_run auth ctx t h req st st' res.
Proof.
  intros Ht Ha Hop [Hrun|Hrun]; (apply (chain_run _ _ _ t) in Hrun as [|Hrun]; [by left| |done..]);
    (eapply behind_guard_run; [|exact Hrun]); [apply grpc_guards|apply http_guards].
Qed.

Lemma preserveStreamTokenContext_authz ctx md :
  rq_authz (preserveStreamTokenContext ctx md) = rq_authz ctx.
Proof. unfold preserveStreamTokenContext. by repeat case_match. Qed.

(** A streaming method changes the state or ends without error only if the
    stream has metadata that the authenticator allows with claims and its
    request is valid; its handler runs once, with these claims in its context. *)
Theorem streams_authenticate {Req} (Validate : Req -> result unit) auth md fullMethod
    (h : ReqCtx -> Req -> St -> St * result unit) recv ctx st st' res :
  rq_authz ctx = None ->
  grpc_stream_chain Validate auth md fullMethod h recv ctx st = (st', res) ->
  (st' = st /\ is_ok res = false) \/
  exists md' claims ctx' a req r,
    md = Some md' /\ auth (grpcStreamTransporter md' fullMethod) = (Some claims, Allow) /\
    rq_authz ctx' = Some a /\ ac_Subject a = Some claims /\
    recv = Ok req /\ Validate req = Ok tt /\
    h ctx' req st = (st', r) /\ is_ok r = is_ok res.
Proof.
  intros Ha. unfold grpc_stream_chain, StreamAuth_Interceptor, StreamValidationInterceptor.
  destruct md as [md|]; [|intros [= <- <-]; by left].
  destruct (auth _) as [claims decision] eqn:Hauth.
  destruct (validateAuthDecision decision claims) eqn:Ev; [intros [= <- <-]; by left|].
  apply validateAuthDecision_None in Ev as (-> & c & ->).
  unfold ErrorMappingStreamInterceptor, stream_stub.
  destruct recv as [req|e]; simpl; [|intros [= <- <-]; by left].
  destruct (Validate req) as [[]|e] eqn:Hv; [|intros [= <- <-]; by left].
  set (ctx' := preserveStreamTokenContext _ md).
  destruct (h ctx' req st) as [s r] eqn:Hh. intros [= <- <-]. right.
  eexists md, c, ctx', _, req, r.
  split_and!; [done..| | |done|done|done|by destruct r].
  - unfold ctx'. rewrite preserveStreamTokenContext_authz. unfold ensureAuthzContext. by rewrite Ha.
  - done.
Qed.
End Chains.
