(* ===== verification/AuthnProps.v ===== *)
(** The decisions of the authentication chain, and which chain a configuration
    yields. *)
From stdpp Require Import base tactics list strings gmap.
From Stdlib Require Import ZArith Lia Ascii.
From S2P Require Import Prelude GoStrings Common ReporterResource Relations MetaAuthz Authn.
From S2P Require Import AuthnConfig.

Local Open Scope string_scope.

(** * The aggregator *)

Section Aggregator.
Implicit Types (auths : list Authenticator) (t : Transporter).

Definition decision_of t (a : Authenticator) : Decision_ := (a t).2.

(** The counters of the loop, when no authenticator allows. *)
Definition counted (d : Decision_) t auths : nat :=
  length (List.filter (fun a => bool_decide (decision_of t a = d)) auths).

Lemma first_match_loop_inr auths t d i :
  (forall a, a ∈ auths -> decision_of t a <> Allow) ->
  first_match_loop auths t d i = inr ((counted Deny t auths + d)%nat, (counted Ignore t auths + i)%nat).
Proof.
  revert d i. induction auths as [|a auths IH]; intros d i Hn; [done|].
  assert (Ha : decision_of t a <> Allow) by (apply Hn; by left).
  assert (IH' := fun d i => IH d i (fun x Hx => Hn x (list_elem_of_further _ _ _ Hx))).
  clear IH Hn. revert Ha. unfold counted, decision_of in *. cbn [first_match_loop List.filter].
  destruct (a t) as [c dec]. cbn [snd]. intros Ha.
  rewrite (bool_decide_eq_false_2 (dec = Allow)) by done.
  destruct (decide (dec = Deny)) as [->|Hd].
  - rewrite IH'. simpl. f_equal. f_equal; lia.
  - rewrite (bool_decide_eq_false_2 (dec = Deny)) by done.
    destruct (decide (dec = Ignore)) as [->|Hi]; simpl; rewrite IH'.
    + simpl. do 2 f_equal. lia.
    + by rewrite (bool_decide_eq_false_2 (dec = Ignore)).
Qed.

Lemma first_match_loop_inl pre a post t d i claims :
  (forall x, x ∈ pre -> decision_of t x <> Allow) -> a t = (claims, Allow) ->
  first_match_loop (pre ++ a :: post) t d i = inl claims.
Proof.
  revert d i. induction pre as [|x pre IH]; intros d i Hn Ha; simpl; [by rewrite Ha|].
  assert (Hx : decision_of t x <> Allow) by (apply Hn; by left). unfold decision_of in Hx.
  destruct (x t) as [c dec]. simpl in Hx. rewrite bool_decide_eq_false_2 by done.
  repeat case_bool_decide; apply IH; try done; intros y Hy; apply Hn; by right.
Qed.

Lemma counted_all d t auths :
  counted d t auths = length auths <-> forall a, a ∈ auths -> decision_of t a = d.
Proof.
  unfold counted. induction auths as [|x auths IH]; simpl.
  - split; [by intros _ a ?%elem_of_nil|done].
  - pose proof (List.filter_length_le (fun a => bool_decide (decision_of t a = d)) auths).
    case_bool_decide as Hx; simpl.
    + split.
      * intros [= Hl] a [->|Ha]%elem_of_cons; [done|]. by apply IH.
      * intros Ha. f_equal. apply IH. intros. apply Ha. by right.
    + split; [lia|]. intros Ha. destruct Hx. apply Ha. by left.
Qed.

(** The first authenticator that allows. *)
Lemma first_allow t auths :
  (forall a, a ∈ auths -> decision_of t a <> Allow) \/
  exists pre a post, auths = (pre ++ a :: post)%list /\ decision_of t a = Allow /\
    forall x, x ∈ pre -> decision_of t x <> Allow.
Proof.
  induction auths as [|x auths IH]; [left; by intros a ?%elem_of_nil|].
  destruct (decide (decision_of t x = Allow)) as [Hx|Hx].
  - right. exists [], x, auths. split_and!; [done..|]. by intros ? ?%elem_of_nil.
  - destruct IH as [IH|(pre & a & post & -> & Ha & Hpre)].
    + left. by intros a [->|Ha]%elem_of_cons; [|apply IH].
    + right. exists (x :: pre), a, post. split_and!; [done..|].
      by intros y [->|Hy]%elem_of_cons; [|apply Hpre].
Qed.

(** The aggregator answers with the claims of the first authenticator
    that allows; when none does, it ignores exactly if there is one and all
    ignore, and denies otherwise.  A denial stops nobody behind it. *)
Theorem FirstMatch_policy auths t :
  (forall pre a post claims, auths = (pre ++ a :: post)%list ->
     (forall x, x ∈ pre -> decision_of t x <> Allow) -> a t = (claims, Allow) ->
     FirstMatch_Authenticate auths t = (claims, Allow)) /\
  ((forall a, a ∈ auths -> decision_of t a <> Allow) ->
     FirstMatch_Authenticate auths t =
       (None, if bool_decide (auths <> []) &&
                 bool_decide (Forall (fun a => decision_of t a = Ignore) auths)
              then Ignore else Deny)).
Proof.
  unfold FirstMatch_Authenticate. split.
  - intros pre a post claims -> Hpre Ha. by erewrite first_match_loop_inl.
  - intros Hn. rewrite first_match_loop_inr by done. rewrite !Nat.add_0_r.
    destruct auths as [|x auths]; [done|]. rewrite (bool_decide_eq_true_2 (x :: auths <> [])) by done.
    rewrite (bool_decide_eq_false_2 (length (x :: auths) = 0%nat)) by done.
    destruct (decide (counted Deny t (x :: auths) = length (x :: auths))) as [Hd|Hd].
    + rewrite (bool_decide_eq_true_2 _ Hd). rewrite bool_decide_eq_false_2; [done|].
      rewrite Forall_cons. intros [Hi _].
      pose proof (proj1 (counted_all _ _ _) Hd x ltac:(by left)) as Hx. by rewrite Hi in Hx.
    + rewrite (bool_decide_eq_false_2 _ Hd). simpl.
      rewrite (bool_decide_ext (counted Ignore t (x :: auths) = length (x :: auths))
                 (Forall (fun a => decision_of t a = Ignore) (x :: auths)));
        [by case_bool_decide|]. by rewrite counted_all, Forall_forall.
Qed.
End Aggregator.

Section Fallback.
Context `{AuthnLib}.

(** A request whose bearer token does not verify is denied by the OIDC
    authenticator, yet a chain that ends with allow-unauthenticated lets it in
    as an unauthenticated caller. *)
Theorem rejected_token_falls_back o t required e :
  endpoint_required o t = Some required -> GetBearerToken t <> "" ->
  oidc_Verify o (GetBearerToken t) = Err e ->
  OIDC_Authenticate o t = (None, Deny) /\
  FirstMatch_Authenticate [OIDC_Authenticate o; Unauthenticated_Authenticate] t =
    (Some UnauthenticatedClaims, Allow).
Proof.
  intros Hr Ht Hv. assert (Ho : OIDC_Authenticate o t = (None, Deny)).
  { unfold OIDC_Authenticate. rewrite Hr, Hv. by rewrite bool_decide_eq_false_2. }
  split; [done|]. unfold FirstMatch_Authenticate. cbn [first_match_loop]. by rewrite Ho.
Qed.

(** * Configurations *)

Lemma complete_chain_nil chain configs :
  complete_chain chain = (configs, []) ->
  Forall2 (fun e c => completeChainEntry e = Ok c) chain configs.
Proof.
  revert configs. induction chain as [|e chain IH]; simpl; intros configs Hc.
  - injection Hc as <-. constructor.
  - destruct (complete_chain chain) as [cs errs]. destruct (completeChainEntry e) eqn:E; [|done].
    injection Hc as <- ->. constructor; [done|]. by apply IH.
Qed.

(** An entry that is complete and enabled can be built. *)
Lemma completed_entry_builds (Hprov : forall url, oidc_NewProvider url = Ok tt) e c :
  completeChainEntry e = Ok c -> cc_EnabledHTTP c || cc_EnabledGRPC c = true ->
  exists a, chain_authenticator c = Ok a.
Proof.
  unfold completeChainEntry. intros Hc Hen.
  case_bool_decide as Hty.
  - injection Hc as <-. simpl in *. unfold chain_authenticator, CreateAuthenticator. simpl.
    rewrite !elem_of_cons, elem_of_nil in Hty.
    destruct Hty as [-> |[-> |[-> |[]]]]; simpl; by eexists.
  - case_bool_decide as Hoidc; [|done].
    destruct (negb _ && negb _) eqn:Hdis in Hc.
    + injection Hc as <-. simpl in Hen. apply andb_true_iff in Hdis as [H1 H2].
      apply orb_true_iff in Hen as [Hen|Hen]; rewrite Hen in *; done.
    + destruct (ce_Config e) as [m|]; [|done]. destruct (oidc_options_of m) as [o|] eqn:Eo; [|done].
      injection Hc as <-. unfold chain_authenticator, CreateAuthenticator, OIDC_New. simpl.
      rewrite Hoidc, Hprov. simpl. by eexists.
Qed.

(** The entries of a protocol, in the order of the configuration. *)
Definition enabled_entries (protocol : string) (l : list ChainCompletedConfig)
    : list ChainCompletedConfig :=
  List.filter (fun c => match enabled_for protocol c with Ok b => b | Err _ => false end) l.

Lemma build_chain_ok protocol configs :
  (forall c, c ∈ configs -> exists b, enabled_for protocol c = Ok b /\
     (b = true -> exists a, chain_authenticator c = Ok a)) ->
  exists auths, build_chain protocol configs = Ok auths /\
    Forall2 (fun c a => chain_authenticator c = Ok a) (enabled_entries protocol configs) auths.
Proof.
  induction configs as [|c configs IH]; intros Hc; [by exists []|].
  destruct IH as (auths & IH1 & IH2); [intros; apply Hc; by right|].
  destruct (Hc c) as (b & Hb & Ha); [by left|]. simpl. rewrite Hb.
  destruct b; [|by exists auths]. destruct (Ha eq_refl) as [a Ea]. rewrite Ea, IH1.
  exists (a :: auths). split; [done|]. by constructor.
Qed.

(** A configuration that completes without errors starts: whenever the
    identity providers can be reached, authenticators for both protocols are
    built, each a non-empty first-match chain with one authenticator per entry
    enabled for the protocol, in the order of the configuration. *)
Theorem completed_config_builds (Hprov : forall url, oidc_NewProvider url = Ok tt) c cfg :
  AuthnConfig_Complete c = (cfg, []) ->
  exists a https grpcs, cfg = Some a /\
    Forall2 (fun cc au => chain_authenticator cc = Ok au)
      (enabled_entries ProtocolHTTP (acc_ChainConfigs a)) https /\
    Forall2 (fun cc au => chain_authenticator cc = Ok au)
      (enabled_entries ProtocolGRPC (acc_ChainConfigs a)) grpcs /\
    https <> [] /\ grpcs <> [] /\
    Authn_New cfg = Ok (protocolRouting_Authenticate (FirstMatch_Authenticate https)
                          (FirstMatch_Authenticate grpcs)).
Proof.
  unfold AuthnConfig_Complete. destruct c as [a|]; [|done].
  case_bool_decide as Hty; [done|]. destruct (complete_chain (ag_Chain a)) as [ccs errs] eqn:Ec.
  destruct errs as [|e0 es]; [simpl|done].
  case_bool_decide as Hh; [done|]. case_bool_decide as Hg; [done|]. simpl. intros [= <-].
  apply complete_chain_nil in Ec. eexists. simpl.
  assert (Hb : forall c, c ∈ ccs -> cc_EnabledHTTP c || cc_EnabledGRPC c = true ->
                 exists au, chain_authenticator c = Ok au).
  { intros cc Hin. apply list_elem_of_lookup in Hin as [i Hi].
    eapply Forall2_lookup_r in Ec as (e & _ & He); [|done]. by apply (completed_entry_builds Hprov e). }
  destruct (build_chain_ok ProtocolHTTP ccs) as (https & Hb1 & Hf1).
  { intros cc Hin. eexists. split; [done|]. intros E. apply Hb; [done|]. by rewrite E. }
  destruct (build_chain_ok ProtocolGRPC ccs) as (grpcs & Hb2 & Hf2).
  { intros cc Hin. eexists. split; [done|]. intros E. apply Hb; [done|]. rewrite E. apply orb_true_r. }
  assert (Hn1 : https <> []).
  { intros ->. apply Forall2_length in Hf1. by apply Hh. }
  assert (Hn2 : grpcs <> []).
  { intros ->. apply Forall2_length in Hf2. by apply Hg. }
  exists https, grpcs. split_and!; [done..|].
  unfold Authn_New, NewForProtocol. cbn [acc_Type acc_ChainConfigs]. rewrite Hb1, Hb2.
  rewrite bool_decide_eq_false_2 by tauto. by destruct https, grpcs.
Qed.
End Fallback.

(** ** The legacy format *)

Definition without_endpoints (o : OIDCOptions) : OIDCOptions :=
  {| oo_ClientId := oo_ClientId o; oo_AuthorizationServerURL := oo_AuthorizationServerURL o;
     oo_InsecureClient := oo_InsecureClient o; oo_SkipClientIDCheck := oo_SkipClientIDCheck o;
     oo_EnforceAudCheck := oo_EnforceAudCheck o; oo_SkipIssuerCheck := oo_SkipIssuerCheck o;
     oo_PrincipalUserDomain := oo_PrincipalUserDomain o; oo_GrpcEndpoints := [] |}.

Lemma lookup_set_if_ne b k v m k' : k <> k' -> set_if b k v m !! k' = m !! k'.
Proof. intros. unfold set_if. destruct b; [|done]. by rewrite lookup_insert_ne. Qed.

Lemma lookup_set_if_eq b k v m : m !! k = None -> set_if b k v m !! k = if b then Some v else None.
Proof. intros. unfold set_if. destruct b; [|done]. by rewrite lookup_insert_eq. Qed.

(** Reads one key of [legacy_oidc_map]. *)
Ltac legacy_lookup :=
  unfold legacy_oidc_map, OIDCConfigKeyClientID, OIDCConfigKeyAuthServerURL;
  repeat first
    [ rewrite lookup_set_if_ne by discriminate
    | rewrite lookup_set_if_eq
        by (repeat (rewrite lookup_set_if_ne by discriminate); apply lookup_empty)
    | rewrite lookup_empty ].

Lemma string_or_legacy k s m :
  m !! k = (if bool_decide (s <> "") then Some (JStr s) else None) -> string_or m k "" = s.
Proof.
  intros Hk. unfold string_or. rewrite Hk. destruct (decide (s = "")) as [-> |Hs]; [done|].
  by rewrite bool_decide_eq_true_2.
Qed.

Lemma bool_or_legacy k (b : bool) m :
  m !! k = (if b then Some (JBool b) else None) -> bool_or m k false = b.
Proof. intros Hk. unfold bool_or. rewrite Hk. by destruct b. Qed.

Lemma oidc_options_of_legacy o : oidc_options_of (legacy_oidc_map o) = Ok (without_endpoints o).
Proof.
  unfold oidc_options_of.
  assert (read_endpoints (legacy_oidc_map o) (oo_GrpcEndpoints NewOIDCOptions) = Ok []) as ->.
  { unfold read_endpoints. by legacy_lookup. }
  simpl. unfold without_endpoints. f_equal.
  f_equal; (apply string_or_legacy || apply bool_or_legacy); by legacy_lookup.
Qed.

(** The legacy OIDC block is accepted and becomes a chain of one OIDC
    authenticator, enabled for both protocols, with every option of the block
    but the endpoints, which are lost: it then applies to all endpoints. *)
Theorem legacy_oidc_completed opts o :
  ao_Authenticator opts = None -> ao_AllowUnauthenticated opts <> Some true ->
  ao_OIDC opts = Some o ->
  AuthnOptions_Validate opts = [] /\
  AuthnConfig_Complete (NewAuthnConfig opts) =
    (Some {| acc_Type := FirstMatch;
             acc_ChainConfigs := [{| cc_Type := TypeOIDC; cc_EnabledHTTP := true;
                                     cc_EnabledGRPC := true;
                                     cc_OIDCConfig := Some (without_endpoints o) |}] |}, []).
Proof.
  intros Ha Hu Ho. unfold AuthnOptions_Validate, NewAuthnConfig. rewrite Ha, Ho.
  destruct (ao_AllowUnauthenticated opts) as [[]|]; [done|..];
    (split; [done|]); unfold single_chain, AuthnConfig_Complete, complete_chain, completeChainEntry;
    cbn [ag_Type ag_Chain ce_Config ce_Type ce_Enable ce_Transport]; rewrite oidc_options_of_legacy;
    reflexivity.
Qed.

(** ** Instances *)

(** A provider that knows one token. *)
#[local] Instance demo_AuthnLib : AuthnLib :=
  {| IDToken := string;
     oidc_NewProvider _ := Ok tt;
     oidc_Verify _ token :=
       if bool_decide (token = "good") then Ok token else Err (EMsg "failed to verify signature");
     oidc_Claims tok := Ok {| tc_Audience := "inventory"; tc_Issuer := "https://sso";
                              tc_Subject := "u1"; tc_PreferredUsername := "u";
                              tc_ClientID := "c1" |};
     DecodeAndCheckIdentity _ := Err (EMsg "bad header") |}.

Definition bad_token_transport : Transporter :=
  {| tr_Kind := KindGRPC; tr_Operation := "/kessel.inventory.v1beta2.KesselInventoryService/Check";
     tr_Header k := if bool_decide (k = "Authorization") then "Bearer forged" else "" |}.

Lemma rejected_token_falls_back_witness :
  (endpoint_required NewOIDCOptions bad_token_transport = Some false /\
   GetBearerToken bad_token_transport <> "") /\
  OIDC_Authenticate NewOIDCOptions bad_token_transport = (None, Deny) /\
  FirstMatch_Authenticate [OIDC_Authenticate NewOIDCOptions; Unauthenticated_Authenticate]
    bad_token_transport = (Some UnauthenticatedClaims, Allow).
Proof.
  split; [by vm_compute|].
  by apply (@rejected_token_falls_back demo_AuthnLib NewOIDCOptions bad_token_transport false
              (EMsg "failed to verify signature")).
Defined.

Definition two_entries : option AuthenticatorConfig :=
  Some {| ag_Type := "first_match";
          ag_Chain := [ {| ce_Type := "x-rh-identity"; ce_Enable := None;
                           ce_Transport := Some {| tp_HTTP := None; tp_GRPC := Some false |};
                           ce_Config := None |};
                        {| ce_Type := "oidc"; ce_Enable := None; ce_Transport := None;
                           ce_Config := Some {["authn-server-url" := JStr "https://sso"]} |} ] |}.

Lemma completed_config_builds_witness :
  exists cfg, AuthnConfig_Complete two_entries = (cfg, []) /\
  exists a https grpcs, cfg = Some a /\
    Forall2 (fun cc au => chain_authenticator cc = Ok au)
      (enabled_entries ProtocolHTTP (acc_ChainConfigs a)) https /\
    Forall2 (fun cc au => chain_authenticator cc = Ok au)
      (enabled_entries ProtocolGRPC (acc_ChainConfigs a)) grpcs /\
    https <> [] /\ grpcs <> [] /\
    Authn_New cfg = Ok (protocolRouting_Authenticate (FirstMatch_Authenticate https)
                          (FirstMatch_Authenticate grpcs)).
Proof.
  eexists. split; [by vm_compute|].
  apply (@completed_config_builds demo_AuthnLib (fun _ => eq_refl) two_entries). by vm_compute.
Defined.

Definition legacy_opts : AuthnOptions :=
  {| ao_Authenticator := None; ao_AllowUnauthenticated := Some false;
     ao_OIDC := Some {| oo_ClientId := "inventory"; oo_AuthorizationServerURL := "https://sso";
                        oo_InsecureClient := true; oo_SkipClientIDCheck := false;
                        oo_EnforceAudCheck := true; oo_SkipIssuerCheck := false;
                        oo_PrincipalUserDomain := ""; oo_GrpcEndpoints := ["/e"] |} |}.

Lemma legacy_oidc_completed_witness :
  match ao_OIDC legacy_opts with
  | Some o =>
      (ao_Authenticator legacy_opts = None /\ ao_AllowUnauthenticated legacy_opts = Some false) /\
      AuthnOptions_Validate legacy_opts = [] /\
      AuthnConfig_Complete (NewAuthnConfig legacy_opts) =
        (Some {| acc_Type := FirstMatch;
                 acc_ChainConfigs := [{| cc_Type := TypeOIDC; cc_EnabledHTTP := true;
                                         cc_EnabledGRPC := true;
                                         cc_OIDCConfig := Some (without_endpoints o) |}] |}, [])
  | None => False
  end.
Proof. split; [done|]. by apply (legacy_oidc_completed legacy_opts). Defined.
