(* ===== verification/ServiceProps.v ===== *)
(** What the protobuf services guarantee: commands in normal form, one answer
    per item, status codes of bad requests, keys that agree between the
    endpoints, and messages that can be sent back. *)
From stdpp Require Import base tactics list strings gmap.
From Stdlib Require Import ZArith Lia Ascii.
From S2P Require Import Prelude GoStrings Common ReporterResource Representations Resource.
From S2P Require Import Outbox Store Relations RelationsRepo Schema MetaAuthz Usecase TupleCrud Proto.
From S2P Require Import Service TupleService Middleware MiddlewareProps.

Local Open Scope string_scope.

(** * Normal forms *)

Definition nonblank (s : string) : Prop := TrimSpace s <> "".
Definition trimmed (s : string) : Prop := s <> "" /\ TrimSpace s = s.
Definition lower_trimmed (s : string) : Prop := s <> "" /\ ToLower s = s /\ TrimSpace s = s.

#[export] Instance nonblank_dec s : Decision (nonblank s).
Proof. unfold nonblank. apply _. Defined.

Lemma new_trimmed_ok name s r : new_trimmed name s = Ok r <-> nonblank s /\ r = TrimSpace s.
Proof.
  unfold new_trimmed, nonblank. case_bool_decide; [naive_solver|].
  split; [by intros [= <-]|by intros [_ ->]].
Qed.

Lemma new_trimmed_trimmed name s r : new_trimmed name s = Ok r -> trimmed r.
Proof. intros [H ->]%new_trimmed_ok. split; [done|]. apply TrimSpace_idem. Qed.

Lemma new_trimmed_fixed name s : trimmed s -> new_trimmed name s = Ok s.
Proof. intros [Hn Ht]. apply new_trimmed_ok. unfold nonblank. by rewrite Ht. Qed.

Lemma NewResourceType_nonblank s : is_ok (NewResourceType s) = true <-> nonblank s.
Proof. unfold NewResourceType, nonblank. by case_bool_decide. Qed.
Lemma NewReporterType_nonblank s : is_ok (NewReporterType s) = true <-> nonblank s.
Proof. unfold NewReporterType, nonblank. by case_bool_decide. Qed.
Lemma NewReporterInstanceId_nonblank s : is_ok (NewReporterInstanceId s) = true <-> nonblank s.
Proof. unfold NewReporterInstanceId, nonblank. by case_bool_decide. Qed.
Lemma new_trimmed_nonblank name s : is_ok (new_trimmed name s) = true <-> nonblank s.
Proof. unfold new_trimmed, nonblank. by case_bool_decide. Qed.

Lemma NewReporterInstanceId_as_type s r :
  NewReporterInstanceId s = Ok r -> NewReporterType s = Ok r.
Proof. unfold NewReporterInstanceId, NewReporterType. by case_bool_decide. Qed.

Lemma NewReporterType_fixed s : lower_trimmed s -> NewReporterType s = Ok s.
Proof.
  intros (Hn & Hl & Ht). unfold NewReporterType. rewrite Ht. case_bool_decide; [done|]. by rewrite Hl.
Qed.

Lemma NewApiHref_trimmed s r : NewApiHref s = Ok r -> trimmed r.
Proof.
  unfold NewApiHref. destruct (NewURI s) eqn:E; [|done]. intros [= <-]. by eapply new_trimmed_trimmed.
Qed.
Lemma NewConsoleHref_trimmed s r : NewConsoleHref s = Ok r -> trimmed r.
Proof.
  unfold NewConsoleHref. destruct (NewURI s) eqn:E; [|done]. intros [= <-]. by eapply new_trimmed_trimmed.
Qed.
Lemma NewApiHref_nonblank s : is_ok (NewApiHref s) = true <-> nonblank s.
Proof. rewrite <- (new_trimmed_nonblank "URI"). unfold NewApiHref, NewURI. by destruct (new_trimmed _ _). Qed.
Lemma NewConsoleHref_nonblank s : is_ok (NewConsoleHref s) = true <-> nonblank s.
Proof. rewrite <- (new_trimmed_nonblank "URI"). unfold NewConsoleHref, NewURI. by destruct (new_trimmed _ _). Qed.

Lemma is_ok_wrap {A} msg (m : result A) : is_ok (wrap_err msg m) = is_ok m.
Proof. by destruct m as [|[]]. Qed.

Lemma is_ok_bind {A B} (m : result A) (f : A -> result B) :
  is_ok (let! x := m in f x) = true <-> exists a, m = Ok a /\ is_ok (f a) = true.
Proof. destruct m; naive_solver. Qed.

(** * Reports *)

Definition normal_command (cmd : ReportResourceCommand) : Prop :=
  trimmed (rc_LocalResourceId cmd) /\ normal_type (rc_ResourceType cmd) /\
  lower_trimmed (rc_ReporterType cmd) /\ lower_trimmed (rc_ReporterInstanceId cmd) /\
  trimmed (rc_ApiHref cmd) /\
  (forall h, rc_ConsoleHref cmd = Some h -> trimmed h) /\
  (forall v, rc_ReporterVersion cmd = Some v -> trimmed v) /\
  rc_TransactionId cmd <> Some "" /\
  (forall r, rc_ReporterRepresentation cmd = Some r -> (0 < rep_len r)%nat) /\
  (forall r, rc_CommonRepresentation cmd = Some r -> (0 < rep_len r)%nat).

Lemma representationFromProtoStruct_data s name o :
  representationFromProtoStruct s name = Ok o -> forall r, o = Some r -> (0 < rep_len r)%nat.
Proof.
  unfold representationFromProtoStruct. destruct s as [m|]; [|by intros [= <-]].
  case_bool_decide as Hm; [by intros [= <-]|]. simpl. intros [= <-] r [= <-]. simpl. lia.
Qed.

Lemma representationFromProtoStruct_total s name :
  is_ok (representationFromProtoStruct s name) = true.
Proof. unfold representationFromProtoStruct. destruct s; [|done]. by case_bool_decide. Qed.

Lemma unless_empty_some {A} v (mk : string -> result A) o x :
  unless_empty v mk = Ok o -> o = Some x -> mk v = Ok x.
Proof.
  unfold unless_empty. case_bool_decide; [|by intros [= <-]].
  destruct (mk v); [|done]. by intros [= <-] [= <-].
Qed.

(** A constructor of a string type: accepts what is not blank, with a value that
    satisfies [good], and otherwise fails with the sentinel of empty fields. *)
Definition nonblank_mk (good : string -> Prop) (mk : string -> result string) : Prop :=
  forall s, match mk s with
            | Ok r => nonblank s /\ good r
            | Err e => ~ nonblank s /\ errors_Is e ErrEmpty = true /\ status_Code e = Unknown
            end.

Lemma nonblank_mk_wrap good mk msg :
  nonblank_mk good mk -> nonblank_mk good (fun s => wrap_err msg (mk s)).
Proof. intros H s. specialize (H s). destruct (mk s) as [|[]]; simpl in *; tauto. Qed.

Lemma mk_trimmed name : nonblank_mk trimmed (new_trimmed name).
Proof.
  intros s. unfold new_trimmed, nonblank. case_bool_decide; [tauto|].
  split; [done|]. split; [done|apply TrimSpace_idem].
Qed.

Lemma mk_resource_type : nonblank_mk normal_type NewResourceType.
Proof.
  intros s. destruct (NewResourceType s) eqn:E.
  - split; [|by eapply NewResourceType_spec]. revert E. unfold NewResourceType. by case_bool_decide.
  - revert E. unfold NewResourceType, nonblank. case_bool_decide; [|done]. intros [= <-]. tauto.
Qed.

Lemma mk_reporter_type : nonblank_mk lower_trimmed NewReporterType.
Proof.
  intros s. destruct (NewReporterType s) eqn:E.
  - split; [|by eapply NewReporterType_spec]. revert E. unfold NewReporterType. by case_bool_decide.
  - revert E. unfold NewReporterType, nonblank. case_bool_decide; [|done]. intros [= <-]. tauto.
Qed.

Lemma mk_instance_id : nonblank_mk lower_trimmed NewReporterInstanceId.
Proof.
  intros s. pose proof (mk_reporter_type s) as H. revert H.
  unfold NewReporterInstanceId, NewReporterType. by case_bool_decide.
Qed.

Lemma mk_api_href : nonblank_mk trimmed NewApiHref.
Proof.
  intros s. pose proof (mk_trimmed "URI" s) as H. revert H. unfold NewApiHref, NewURI.
  destruct (new_trimmed "URI" s); [done|]. intros [? _]. done.
Qed.

Lemma mk_console_href : nonblank_mk trimmed NewConsoleHref.
Proof.
  intros s. pose proof (mk_trimmed "URI" s) as H. revert H. unfold NewConsoleHref, NewURI.
  destruct (new_trimmed "URI" s); [done|]. intros [? _]. done.
Qed.

Create HintDb constructors.
#[export] Hint Resolve nonblank_mk_wrap mk_trimmed mk_resource_type mk_reporter_type
  mk_instance_id mk_api_href mk_console_href : constructors.

(** An optional field: absent or not blank. *)
Definition absent_or_nonblank (s : string) : Prop := s = "" \/ nonblank s.

Lemma unless_empty_spec good mk v :
  nonblank_mk good mk ->
  match unless_empty v mk with
  | Ok o => absent_or_nonblank v /\ forall x, o = Some x -> good x
  | Err e => ~ absent_or_nonblank v /\ errors_Is e ErrEmpty = true /\ status_Code e = Unknown
  end.
Proof.
  intros H. unfold unless_empty, absent_or_nonblank. case_bool_decide as Hv.
  - specialize (H v). destruct (mk v); [|tauto]. destruct H as [H1 H2].
    split; [by right|]. by intros x [= <-].
  - split; [|done]. left. by destruct (decide (v = "")).
Qed.

(** What a report has to have. *)
Definition reportable (r : pb.ReportResourceRequest) : Prop :=
  let metadata := pmsg pb.Metadata (pb.Representations r) in
  nonblank (pget pb.LocalResourceId "" metadata) /\ nonblank (pb.Type_ r) /\
  nonblank (pb.ReporterType r) /\ nonblank (pb.ReporterInstanceId r) /\
  nonblank (pget pb.ApiHref "" metadata) /\
  absent_or_nonblank (pstr pb.ConsoleHref metadata) /\
  absent_or_nonblank (pstr pb.ReporterVersion metadata).

(** Runs one constructor of a conversion: in the branch of its failure the
    goal follows from the specification. *)
Ltac step_mk good mk v :=
  let H := fresh "H" in
  assert (H : nonblank_mk good mk) by (unfold NewLocalResourceId, NewReporterVersion; eauto with constructors);
  specialize (H v); cbv beta in H;
  let t := eval cbv beta in (mk v) in destruct t; [destruct H|unfold reportable; tauto].

Lemma toReportResourceCommand_ok_or_empty r :
  match toReportResourceCommand r with
  | Ok cmd => reportable r /\ normal_command cmd
  | Err e => ~ reportable r /\ errors_Is e ErrEmpty = true
  end.
Proof.
  unfold toReportResourceCommand.
  set (md := pmsg pb.Metadata (pb.Representations r)).
  step_mk trimmed (fun v => wrap_err "invalid local resource ID" (NewLocalResourceId v))
    (pget pb.LocalResourceId "" md).
  step_mk normal_type (fun v => wrap_err "invalid resource type" (NewResourceType v)) (pb.Type_ r).
  step_mk lower_trimmed (fun v => wrap_err "invalid reporter type" (NewReporterType v))
    (pb.ReporterType r).
  step_mk lower_trimmed (fun v => wrap_err "invalid reporter instance ID" (NewReporterInstanceId v))
    (pb.ReporterInstanceId r).
  step_mk trimmed (fun v => wrap_err "invalid API href" (NewApiHref v)) (pget pb.ApiHref "" md).
  pose proof (unless_empty_spec trimmed _ (pstr pb.ConsoleHref md)
    (nonblank_mk_wrap _ _ "invalid console href" mk_console_href)) as Hch.
  destruct (unless_empty (pstr pb.ConsoleHref md) _); [|unfold reportable; tauto].
  pose proof (unless_empty_spec trimmed _ (pstr pb.ReporterVersion md)
    (nonblank_mk_wrap _ _ "invalid reporter version" (mk_trimmed "ReporterVersion"))) as Hrv.
  unfold NewReporterVersion.
  destruct (unless_empty (pstr pb.ReporterVersion md) _); [|unfold reportable; tauto].
  destruct (representationFromProtoStruct _ "reporter") as [rr|] eqn:Er;
    [|pose proof (representationFromProtoStruct_total (pmsg pb.rp_Reporter (pb.Representations r)) "reporter") as Ht;
      by rewrite Er in Ht].
  destruct (representationFromProtoStruct _ "common") as [cr|] eqn:Ec;
    [|pose proof (representationFromProtoStruct_total (pmsg pb.Common (pb.Representations r)) "common") as Ht;
      by rewrite Ec in Ht].
  split; [unfold reportable; fold md; tauto|]. unfold normal_command; simpl.
  destruct Hch as [_ Hch], Hrv as [_ Hrv]. split_and!; try done.
  - by destruct (pstr pb.TransactionId md).
  - by eapply representationFromProtoStruct_data.
  - by eapply representationFromProtoStruct_data.
Qed.

(** The fields of a report that are trimmed or lowered are ASCII text: there the
    white space is that of ASCII, and so are the letters that have a case. *)
Definition ascii_report (r : pb.ReportResourceRequest) : bool :=
  let metadata := pmsg pb.Metadata (pb.Representations r) in
  forallb is_ascii
    [pget pb.LocalResourceId "" metadata; pb.Type_ r; pb.ReporterType r; pb.ReporterInstanceId r;
     pget pb.ApiHref "" metadata; pstr pb.ConsoleHref metadata; pstr pb.ReporterVersion metadata].

(** C28. A report whose identifying fields, links and version are ASCII text
    converts exactly if its identifying fields and its link are not blank and its
    optional fields are absent or not blank.  The command is then in normal form:
    trimmed, types and instance in lower case, no empty transaction id,
    representations absent or with data.  Any other such report is answered with
    the error for empty fields. *)
Theorem toReportResourceCommand_normal r :
  ascii_report r = true ->
  match toReportResourceCommand r with
  | Ok cmd => reportable r /\ normal_command cmd
  | Err e => ~ reportable r /\ errors_Is e ErrEmpty = true
  end.
Proof. intros _. apply toReportResourceCommand_ok_or_empty. Qed.

(** A report of a host as a client may spell it, and one whose id is blank. *)
Definition spelt_report (id : string) : pb.ReportResourceRequest :=
  {| pb.InventoryId := None; pb.Type_ := " Host "; pb.ReporterType := "HBI";
     pb.ReporterInstanceId := "I-1"; pb.WriteVisibility_ := pb.IMMEDIATE;
     pb.Representations := Some
       {| pb.Metadata := Some {| pb.LocalResourceId := id; pb.ApiHref := "/hosts/1";
                                 pb.ConsoleHref := None; pb.ReporterVersion := Some "1.0";
                                 pb.TransactionId := None |};
          pb.Common := None; pb.rp_Reporter := Some {["satellite_id" := JStr "s1"]} |} |}.

Lemma toReportResourceCommand_normal_witness :
  (exists cmd, toReportResourceCommand (spelt_report " h1 ") = Ok cmd /\ normal_command cmd /\
     rc_LocalResourceId cmd = "h1" /\ rc_ResourceType cmd = "host") /\
  ~ reportable (spelt_report "  ").
Proof.
  split.
  - pose proof (toReportResourceCommand_normal (spelt_report " h1 ") eq_refl) as H.
    destruct (toReportResourceCommand (spelt_report " h1 ")) as [cmd|e] eqn:E.
    + exists cmd. split; [reflexivity|]. split; [apply H|].
      assert (Ok cmd = toReportResourceCommand (spelt_report " h1 ")) as Hc by (symmetry; exact E).
      vm_compute in Hc. injection Hc as ->. split; reflexivity.
    + vm_compute in E. discriminate E.
  - pose proof (toReportResourceCommand_normal (spelt_report "  ") eq_refl) as H.
    destruct (toReportResourceCommand (spelt_report "  ")) as [cmd|e] eqn:E; [|apply H].
    vm_compute in E. discriminate E.
Defined.

(** * Keys *)

(** The reference by which a client names the resource of a report. *)
Definition reference_of_report (r : pb.ReportResourceRequest) : option pb.ResourceReference :=
  Some {| pb.ResourceType := pb.Type_ r;
          pb.ResourceId := pget pb.LocalResourceId "" (pmsg pb.Metadata (pb.Representations r));
          pb.Reporter := Some {| pb.rr_Type := pb.ReporterType r;
                                 pb.rr_InstanceId := Some (pb.ReporterInstanceId r) |} |}.

(** A delete and a check that name the resource by the spelling of the
    report reach the very key under which the report stored it. *)
Theorem request_paths_same_key r cmd :
  toReportResourceCommand r = Ok cmd ->
  exists key ref,
    NewReporterResourceKey (rc_LocalResourceId cmd) (rc_ResourceType cmd) (rc_ReporterType cmd)
      (rc_ReporterInstanceId cmd) = Ok key /\
    reporterKeyFromResourceReference (reference_of_report r) = Ok key /\
    resourceReferenceFromProto (reference_of_report r) = Ok ref /\
    reporterKeyFromResourceRef ref = Ok key.
Proof.
  unfold toReportResourceCommand. intros Hc. inv_ok Hc. rewrite !wrap_err_ok in *.
  unfold reference_of_report, reporterKeyFromResourceReference, resourceReferenceFromProto,
    unless_empty, reporterKeyFromResourceRef.
  assert (Hne : pb.ReporterInstanceId r <> "").
  { pose proof (mk_instance_id (pb.ReporterInstanceId r)) as Hs. intros He. rewrite He in *.
    by match goal with H : NewReporterInstanceId _ = Ok _ |- _ => rewrite H in Hs end. }
  unfold pstr, pmsg in *. simpl.
  rewrite !(bool_decide_eq_true_2 _ Hne).
  repeat match goal with H : ?m = Ok _ |- context [?m] => rewrite H end.
  eexists _, _. split_and!; reflexivity.
Qed.

(** * Bulk checks *)

Lemma map_index_spec {A B} (f : A -> nat -> result B) l i ys :
  map_index f l i = Ok ys ->
  length ys = length l /\
  forall j x, l !! j = Some x -> exists y, ys !! j = Some y /\ f x (i + j)%nat = Ok y.
Proof.
  revert i ys. induction l as [|x l IH]; intros i ys; simpl; [by intros [= <-]|].
  destruct (f x i) as [y|] eqn:Ef; [|done]. destruct (map_index f l (S i)) as [zs|] eqn:Em; [|done].
  intros [= <-]. apply IH in Em as [Hl Hj]. split; [simpl; congruence|].
  intros [|j] z Hz; simpl in *.
  - injection Hz as <-. exists y. by rewrite Nat.add_0_r.
  - destruct (Hj _ _ Hz) as (w & Hw & Hf). exists w. by rewrite Nat.add_succ_r.
Qed.

Lemma map_index_error {A B} (f : A -> nat -> result B) l i e :
  map_index f l i = Err e ->
  exists j x, l !! j = Some x /\ f x (i + j)%nat = Err e /\
    forall k z, (k < j)%nat -> l !! k = Some z -> is_ok (f z (i + k)%nat) = true.
Proof.
  revert i. induction l as [|x l IH]; intros i; simpl; [done|].
  destruct (f x i) as [y|e'] eqn:Ef.
  - destruct (map_index f l (S i)) eqn:Em; [done|]. intros [= ->].
    destruct (IH _ Em) as (j & z & Hz & Hf & Hk). exists (S j), z.
    rewrite Nat.add_succ_r. split_and!; [done..|]. intros [|k] w Hlt Hw; simpl in *.
    + injection Hw as <-. by rewrite Nat.add_0_r, Ef.
    + rewrite Nat.add_succ_r. apply (Hk k); [lia|done].
  - intros [= ->]. exists 0%nat, x. rewrite Nat.add_0_r. split_and!; [done..|]. lia.
Qed.

(** The pairs of a bulk response against the request items. *)
Definition answers_items {A} (items : list (option A)) (resp : pb.BulkResponse A) : Prop :=
  pb.p_Request <$> pb.br_Pairs resp = items.

Lemma imap_item_at {A B} (items : list (option A)) (l : list B)
    (F : nat -> B -> pb.BulkResponsePair A) :
  length l = length items -> (forall i b, pb.p_Request (F i b) = item_at items i) ->
  pb.p_Request <$> imap F l = items.
Proof.
  intros Hl HF. apply list_eq. intros i. rewrite list_lookup_fmap, list_lookup_imap.
  destruct (l !! i) as [b|] eqn:Eb; simpl.
  - rewrite HF. unfold item_at. destruct (items !! i) eqn:Ei; [done|].
    apply lookup_lt_Some in Eb. apply lookup_ge_None in Ei. lia.
  - symmetry. apply lookup_ge_None. apply lookup_ge_None in Eb. lia.
Qed.

Lemma invalid_argument_ok {A} (m : result A) a : invalid_argument m = Ok a <-> m = Ok a.
Proof. destruct m as [|[]]; simpl; split; congruence. Qed.

Lemma bulk_result_length rels m res :
  bulk_result rels m = Ok res -> length (ur_Pairs res) = length rels.
Proof.
  unfold bulk_result. destruct m as [r|]; [|done]. unfold validateBulkResultLength.
  case_bool_decide as Hl; [done|]. intros [= <-]. simpl. rewrite length_fmap. lia.
Qed.

Section Bulk.
Context {R T S : Type} `{ResourceRepository R} `{RelationsRepository T} `{SchemaRepository S}
  `{JsonSchemaLib}.
Implicit Types (uc : @Usecase S) (ctx : Ctx) (t : T).

Lemma CheckBulk_length uc ctx t cmd res :
  CheckBulk uc ctx t cmd = Ok res -> length (ur_Pairs res) = length (bc_Items cmd).
Proof.
  unfold CheckBulk. case_bool_decide; [done|]. destruct (enforce_all _ _ _ _); [|done].
  intros Hb%bulk_result_length. rewrite Hb. apply length_fmap.
Qed.

Lemma CheckForUpdateBulk_length uc ctx t cmd res :
  CheckForUpdateBulk uc ctx t cmd = Ok res -> length (ur_Pairs res) = length (ub_Items cmd).
Proof.
  unfold CheckForUpdateBulk. destruct (enforce_all _ _ _ _); [|done].
  intros Hb%bulk_result_length. rewrite Hb. apply length_fmap.
Qed.

Lemma CheckSelfBulk_length uc ctx t cmd res :
  CheckSelfBulk uc ctx t cmd = Ok res -> length (ur_Pairs res) = length (sb_Items cmd).
Proof.
  unfold CheckSelfBulk. case_bool_decide; [done|]. destruct (enforce_all _ _ _ _); [|done].
  destruct (selfSubjectFromContext _ _); [|done].
  intros Hb%bulk_result_length. rewrite Hb. apply length_fmap.
Qed.

(** Each bulk endpoint, whatever the backend, answers with one pair per
    item of the request, in its order and with the item itself. *)
Theorem bulk_endpoints_answer_items uc ctx t :
  (forall req resp, InventoryService.CheckBulk uc ctx t req = Ok resp ->
     answers_items (pb.b_Items req) resp) /\
  (forall req resp, InventoryService.CheckForUpdateBulk uc ctx t req = Ok resp ->
     answers_items (pb.ub_Items req) resp) /\
  (forall req resp, InventoryService.CheckSelfBulk uc ctx t req = Ok resp ->
     answers_items (pb.sb_Items req) resp).
Proof.
  split_and!; intros req resp.
  - unfold InventoryService.CheckBulk, toCheckBulkCommand. intros Hc.
    destruct (map_index _ _ _) as [items|[]] eqn:Em; try done. simpl in Hc.
    destruct (CheckBulk _ _ _ _) as [res|] eqn:Ec; [|done]. injection Hc as <-.
    apply imap_item_at; [|intros i b; by destruct (checkBulkResultItemToProtoFields _)].
    apply map_index_spec in Em as [<- _]. by apply CheckBulk_length in Ec.
  - unfold InventoryService.CheckForUpdateBulk, toCheckForUpdateBulkCommand. intros Hc.
    destruct (map_index _ _ _) as [items|[]] eqn:Em; try done. simpl in Hc.
    destruct (CheckForUpdateBulk _ _ _ _) as [res|] eqn:Ec; [|done]. injection Hc as <-.
    apply imap_item_at; [|intros i b; by destruct (checkBulkResultItemToProtoFields _)].
    apply map_index_spec in Em as [<- _]. by apply CheckForUpdateBulk_length in Ec.
  - unfold InventoryService.CheckSelfBulk, toCheckSelfBulkCommand. intros Hc.
    destruct (pb.sb_Items req) as [|i0 its] eqn:Ei; [done|]. rewrite <- Ei in *.
    destruct (map_index _ _ _) as [items|] eqn:Em; [|done].
    destruct (CheckSelfBulk _ _ _ _) as [res|] eqn:Ec; [|done]. injection Hc as <-.
    apply imap_item_at; [|done].
    apply map_index_spec in Em as [<- _]. by apply CheckSelfBulk_length in Ec.
Qed.
End Bulk.

(** * Bad requests *)

(** A failure is one of the input's: an empty field or invalid data. *)
Definition bad_request {A} (m : result A) : Prop :=
  forall e, m = Err e -> status_Code e = Unknown /\
    (errors_Is e ErrEmpty = true \/ errors_Is e ErrInvalidData = true).

Lemma bad_request_mapped {A} (m : result A) e :
  bad_request m -> m = Err e -> status_Code (MapError e) = InvalidArgument.
Proof.
  intros Hb [Hu [He|He]]%Hb.
  - rewrite (MapError_sentinel e ErrEmpty InvalidArgument "required field is empty"); [done| |done..].
    apply (bool_decide_unpack _). by vm_compute.
  - rewrite (MapError_sentinel e ErrInvalidData InvalidArgument "invalid data structure"); [done| |done..].
    apply (bool_decide_unpack _). by vm_compute.
Qed.

Lemma bad_request_ok {A} (a : A) : bad_request (Ok a).
Proof. by intros e. Qed.

Lemma bad_request_bind {A B} (m : result A) (f : A -> result B) :
  bad_request m -> (forall a, bad_request (f a)) -> bad_request (let! x := m in f x).
Proof. intros Hm Hf e. destruct m as [a|e']; [apply Hf|]. intros [= <-]. by apply Hm. Qed.

Lemma bad_request_wrap {A} msg (m : result A) : bad_request m -> bad_request (wrap_err msg m).
Proof. intros Hm e. destruct m as [a|e']; [done|]. specialize (Hm e' eq_refl).
  destruct e'; intros [= <-]; simpl in *; tauto. Qed.

Lemma bad_request_mk good mk s : nonblank_mk good mk -> bad_request (mk s).
Proof. intros Hm e E. specialize (Hm s). rewrite E in Hm. tauto. Qed.

Lemma bad_request_relation s : bad_request (NewRelation s).
Proof.
  intros e. unfold NewRelation. case_bool_decide; [intros [= <-]; simpl; tauto|].
  case_match; [intros [= <-]; simpl; tauto|done].
Qed.

Lemma bad_request_unless_empty {A} v (mk : string -> result A) :
  (forall s, bad_request (mk s)) -> bad_request (unless_empty v mk).
Proof.
  intros Hm. unfold unless_empty. case_bool_decide; [|apply bad_request_ok].
  apply bad_request_bind; [apply Hm|intros; apply bad_request_ok].
Qed.

Lemma bad_request_map_index {A B} (f : A -> nat -> result B) l i :
  (forall x j, bad_request (f x j)) -> bad_request (map_index f l i).
Proof.
  intros Hf. revert i. induction l as [|x l IH]; intros i; [apply bad_request_ok|].
  apply bad_request_bind; [apply Hf|]. intros y. apply bad_request_bind; [apply IH|].
  intros. apply bad_request_ok.
Qed.

Create HintDb bad_request.
#[export] Hint Resolve bad_request_ok bad_request_wrap bad_request_relation : bad_request.
#[export] Hint Extern 1 (bad_request (NewResourceType _)) =>
  apply (bad_request_mk _ _ _ mk_resource_type) : bad_request.
#[export] Hint Extern 1 (bad_request (NewReporterType _)) =>
  apply (bad_request_mk _ _ _ mk_reporter_type) : bad_request.
#[export] Hint Extern 1 (bad_request (NewReporterInstanceId _)) =>
  apply (bad_request_mk _ _ _ mk_instance_id) : bad_request.
#[export] Hint Extern 1 (bad_request (NewLocalResourceId _)) =>
  apply (bad_request_mk _ _ _ (mk_trimmed _)) : bad_request.
#[export] Hint Extern 1 (bad_request (NewLockId _)) =>
  apply (bad_request_mk _ _ _ (mk_trimmed _)) : bad_request.
#[export] Hint Extern 1 (bad_request (NewLockToken _)) =>
  apply (bad_request_mk _ _ _ (mk_trimmed _)) : bad_request.

(** Walks a conversion: its steps are bad requests, so it is one. *)
Ltac bad_request_tac :=
  repeat first
    [ apply bad_request_bind; [|intros ?]
    | apply bad_request_unless_empty; intros ?
    | case_bool_decide
    | solve [eauto with bad_request] ].

Lemma resourceReferenceFromProto_bad r : bad_request (resourceReferenceFromProto r).
Proof. unfold resourceReferenceFromProto. bad_request_tac. Qed.

Lemma subjectReferenceFromProto_bad s : bad_request (subjectReferenceFromProto (Some s)).
Proof. unfold subjectReferenceFromProto. bad_request_tac. Qed.

Lemma reporterKeyFromResourceReference_bad r : bad_request (reporterKeyFromResourceReference r).
Proof. unfold reporterKeyFromResourceReference, NewReporterResourceKey. bad_request_tac. Qed.

#[export] Hint Resolve resourceReferenceFromProto_bad subjectReferenceFromProto_bad
  reporterKeyFromResourceReference_bad : bad_request.

Lemma toCheckSelfBulkCommand_bad req : bad_request (toCheckSelfBulkCommand req).
Proof.
  apply bad_request_bind; [|intros; apply bad_request_ok]. apply bad_request_map_index. intros x j.
  unfold protoToCheckSelfBulkItem. bad_request_tac.
Qed.

(** The subject's id is read before its relation, so a nil subject is an empty
    id and not a nil dereference. *)
Lemma relationshipToRelationsTuple_bad rel :
  bad_request (TupleService.relationshipToRelationsTuple rel).
Proof.
  unfold TupleService.relationshipToRelationsTuple.
  apply bad_request_bind; [eauto with bad_request|]. intros resourceId.
  destruct (pmsg pb.r_Subject rel) as [s|].
  - apply bad_request_bind; [eauto with bad_request|]. intros. apply bad_request_ok.
  - intros e He. simpl in He. injection He as <-. simpl. tauto.
Qed.

Lemma fencingCheckFromProto_bad fc : bad_request (TupleService.fencingCheckFromProto fc).
Proof. destruct fc; simpl; bad_request_tac. Qed.

Lemma toCreateTuplesCommand_bad req : bad_request (TupleService.toCreateTuplesCommand req).
Proof.
  apply bad_request_bind.
  - apply bad_request_map_index. intros x j. apply bad_request_wrap, relationshipToRelationsTuple_bad.
  - intros. apply bad_request_bind; [apply fencingCheckFromProto_bad|intros; apply bad_request_ok].
Qed.

Lemma toDeleteTuplesCommand_bad req : bad_request (TupleService.toDeleteTuplesCommand req).
Proof. apply bad_request_bind; [apply fencingCheckFromProto_bad|intros; apply bad_request_ok]. Qed.

Lemma toAcquireLockCommand_bad req : bad_request (TupleService.toAcquireLockCommand req).
Proof. unfold TupleService.toAcquireLockCommand. bad_request_tac. Qed.

Lemma ToLookupSubjectsCommand_bad req : bad_request (ToLookupSubjectsCommand (Some req)).
Proof. unfold ToLookupSubjectsCommand. bad_request_tac. Qed.

Lemma ToLookupObjectsCommand_bad req s :
  pb.lo_Subject req = Some s -> bad_request (ToLookupObjectsCommand (Some req)).
Proof. intros Hs. unfold ToLookupObjectsCommand. rewrite Hs. bad_request_tac. Qed.

Lemma invalid_argument_bad {A} (m : result A) e :
  invalid_argument m = Err e -> is_panic e = true \/ status_Code e = InvalidArgument.
Proof. destruct m as [|[]]; simpl; try done; intros [= <-]; simpl; tauto. Qed.

(** A request that does not convert is answered with InvalidArgument,
    whichever endpoint it is sent to.  The tuple endpoints never panic; the
    others panic only where a required subject is missing. *)
Theorem bad_requests_invalid_argument :
  (forall r e, invalid_argument (toReportResourceCommand r) = Err e ->
     status_Code (MapError e) = InvalidArgument) /\
  (forall r e, reporterKeyFromResourceReference r = Err e ->
     status_Code (MapError e) = InvalidArgument) /\
  (forall r e, resourceReferenceFromProto r = Err e -> status_Code (MapError e) = InvalidArgument) /\
  (forall s e, subjectReferenceFromProto (Some s) = Err e ->
     status_Code (MapError e) = InvalidArgument) /\
  (forall req e, invalid_argument (toCheckBulkCommand req) = Err e ->
     is_panic e = true \/ status_Code (MapError e) = InvalidArgument) /\
  (forall req e, toCheckSelfBulkCommand req = Err e -> status_Code (MapError e) = InvalidArgument) /\
  (forall req e, ToLookupSubjectsCommand (Some req) = Err e ->
     status_Code (MapError e) = InvalidArgument) /\
  (forall req e s, pb.lo_Subject req = Some s -> ToLookupObjectsCommand (Some req) = Err e ->
     status_Code (MapError e) = InvalidArgument) /\
  (forall req e, TupleService.toCreateTuplesCommand req = Err e ->
     status_Code (MapError e) = InvalidArgument) /\
  (forall req e, TupleService.toDeleteTuplesCommand req = Err e ->
     status_Code (MapError e) = InvalidArgument) /\
  (forall req e, TupleService.toAcquireLockCommand req = Err e ->
     status_Code (MapError e) = InvalidArgument).
Proof.
  split_and!; intros *.
  - pose proof (toReportResourceCommand_ok_or_empty r) as Hr.
    destruct (toReportResourceCommand r) as [cmd|e']; [done|].
    destruct Hr as [_ Hr]. destruct e'; simpl in *; try done; intros [= <-];
      by rewrite MapError_status_kept.
  - apply bad_request_mapped, reporterKeyFromResourceReference_bad.
  - apply bad_request_mapped, resourceReferenceFromProto_bad.
  - apply bad_request_mapped, subjectReferenceFromProto_bad.
  - intros [?|He]%invalid_argument_bad; [by left|right].
    by rewrite MapError_status_kept; [|rewrite He].
  - apply bad_request_mapped, toCheckSelfBulkCommand_bad.
  - apply bad_request_mapped, ToLookupSubjectsCommand_bad.
  - intros Hs. by eapply bad_request_mapped, ToLookupObjectsCommand_bad.
  - apply bad_request_mapped, toCreateTuplesCommand_bad.
  - apply bad_request_mapped, toDeleteTuplesCommand_bad.
  - apply bad_request_mapped, toAcquireLockCommand_bad.
Qed.

(** * Round trips *)

(** A reference as the backends return it: normal, the reporter without an
    instance. *)
Definition plain_reference (ref : ResourceReference) : Prop :=
  trimmed (ref_resourceId ref) /\ normal_type (ref_resourceType ref) /\
  exists ty, ref_reporter ref = Some {| rref_reporterType := ty; rref_instanceId := None |} /\
    lower_trimmed ty.

Lemma resource_to_proto_roundtrip ref :
  plain_reference ref -> resourceReferenceFromProto (Some (resource_to_proto ref)) = Ok ref.
Proof.
  intros (Hid & Hty & ty & Hr & Hl). destruct ref as [rt id rep]. simpl in *. subst rep.
  unfold resourceReferenceFromProto, resource_to_proto, NewLocalResourceId. simpl.
  by rewrite new_trimmed_fixed, NewResourceType_normal, NewReporterType_fixed.
Qed.

Lemma NewRelation_fixed r : trimmed r -> ContainsAny r [" "; "009"; "010"; "013"]%char = false ->
  NewRelation r = Ok r.
Proof.
  intros [Hn Ht] Hc. unfold NewRelation. rewrite Ht, Hc. by rewrite bool_decide_eq_false_2.
Qed.

(** What the list endpoints return can be sent back: an object or a
    subject of a response, used in a check, denotes the reference that the
    backend returned. *)
Theorem listed_references_roundtrip :
  (forall item, plain_reference (loi_object item) ->
     resourceReferenceFromProto (Some (pb.lor_Object (ToLookupObjectsResponse item))) =
       Ok (loi_object item)) /\
  (forall item, plain_reference (sub_resource (lsi_subject item)) ->
     (forall r, sub_relation (lsi_subject item) = Some r ->
        trimmed r /\ ContainsAny r [" "; "009"; "010"; "013"]%char = false) ->
     subjectReferenceFromProto (Some (pb.lsr_Subject (ToLookupSubjectsResponse item))) =
       Ok (lsi_subject item)).
Proof.
  split; [intros item; apply resource_to_proto_roundtrip|].
  intros [[ref rel] tok] Hp Hrel. simpl in *.
  destruct ref as [rt id rep], Hp as (Hid & Hty & ty & Hr & Hl). simpl in *. subst rep.
  unfold subjectReferenceFromProto, NewLocalResourceId. simpl.
  rewrite new_trimmed_fixed, NewResourceType_normal, NewReporterType_fixed by done.
  destruct rel as [r|]; simpl; [|done]. destruct (Hrel r eq_refl) as [Ht Hc].
  rewrite bool_decide_eq_true_2 by apply Ht. by rewrite NewRelation_fixed.
Qed.

(** A tuple read over the tuple service and created again is the same
    tuple, if its references have reporters without instances and trimmed ids:
    nothing is normalised on the way. *)
Theorem read_tuple_roundtrip item oty sty :
  ref_reporter (rti_object item) = Some {| rref_reporterType := oty; rref_instanceId := None |} ->
  ref_reporter (sub_resource (rti_subject item)) =
    Some {| rref_reporterType := sty; rref_instanceId := None |} ->
  trimmed (ref_resourceId (rti_object item)) ->
  trimmed (ref_resourceId (sub_resource (rti_subject item))) ->
  TupleService.relationshipToRelationsTuple
    (Some (pb.rdr_Tuple (TupleService.readTuplesItemToProto item))) =
  Ok {| tup_object := rti_object item; tup_relation := rti_relation item;
        tup_subject := rti_subject item |}.
Proof.
  destruct item as [[ort oid orep] rel [[srt sid srep] srel] ct tok]. simpl.
  intros -> -> Ho Hs.
  unfold TupleService.relationshipToRelationsTuple, NewLocalResourceId. simpl.
  rewrite !new_trimmed_fixed by done. simpl. by destruct srel.
Qed.

(** * Streams *)

(** What was sent is a prefix, all of it exactly if no send failed. *)
Lemma send_all_prefix {A} send i (msgs : list A) sent res :
  send_all send i msgs = (sent, res) ->
  exists n, sent = take n msgs /\
    ((res = Ok tt /\ n = length msgs /\ forall j, (j < n)%nat -> send (i + j)%nat = None) \/
     exists e, res = Err e /\ (n < length msgs)%nat /\ send (i + n)%nat = Some e).
Proof.
  revert i sent res. induction msgs as [|m msgs IH]; intros i sent res; simpl.
  - intros [= <- <-]. exists 0%nat. split; [done|]. left. split_and!; [done..|]. lia.
  - destruct (send i) as [e|] eqn:Es.
    + intros [= <- <-]. exists 0%nat. split; [done|]. right. exists e. rewrite Nat.add_0_r.
      split_and!; [done|lia|done].
    + destruct (send_all send (S i) msgs) as [s r] eqn:Ea. intros [= <- <-].
      destruct (IH _ _ _ Ea) as (n & -> & [(-> & -> & Hj)|(e & -> & Hn & He)]);
        (eexists (S _); split; [reflexivity|]).
      * left. split_and!; [done..|]. intros [|j] Hlt; [by rewrite Nat.add_0_r|].
        rewrite Nat.add_succ_r. apply (Hj j). lia.
      * right. exists e. rewrite Nat.add_succ_r. split_and!; [done|simpl; lia|done].
Qed.

(** * Instances *)

Definition demo_report : pb.ReportResourceRequest :=
  {| pb.InventoryId := None; pb.Type_ := " K8s/Cluster"; pb.ReporterType := "ACM ";
     pb.ReporterInstanceId := "Inst-1"; pb.WriteVisibility_ := pb.MINIMIZE_LATENCY;
     pb.Representations := Some
       {| pb.Metadata := Some {| pb.LocalResourceId := " c-1 "; pb.ApiHref := "https://api";
                                 pb.ConsoleHref := None; pb.ReporterVersion := Some "1";
                                 pb.TransactionId := Some "" |};
          pb.Common := Some {["workspace_id" := JStr "w"]};
          pb.rp_Reporter := Some ∅ |} |}.

Lemma request_paths_same_key_witness :
  exists cmd, toReportResourceCommand demo_report = Ok cmd /\
  rc_ResourceType cmd = "k8s_cluster" /\
  exists key ref,
    NewReporterResourceKey (rc_LocalResourceId cmd) (rc_ResourceType cmd) (rc_ReporterType cmd)
      (rc_ReporterInstanceId cmd) = Ok key /\
    reporterKeyFromResourceReference (reference_of_report demo_report) = Ok key /\
    resourceReferenceFromProto (reference_of_report demo_report) = Ok ref /\
    reporterKeyFromResourceRef ref = Ok key.
Proof.
  eexists. split; [by vm_compute|]. split; [reflexivity|].
  apply (request_paths_same_key demo_report). by vm_compute.
Defined.

Definition demo_read_item : ReadTuplesItem :=
  {| rti_object := {| ref_resourceType := "Workspace"; ref_resourceId := "w 1";
                      ref_reporter := Some {| rref_reporterType := "RBAC"; rref_instanceId := None |} |};
     rti_relation := "parent";
     rti_subject := {| sub_resource :=
                         {| ref_resourceType := "group"; ref_resourceId := "g";
                            ref_reporter := Some {| rref_reporterType := "rbac";
                                                    rref_instanceId := None |} |};
                       sub_relation := Some "member" |};
     rti_continuationToken := ""; rti_consistencyToken := "1" |}.

Lemma read_tuple_roundtrip_witness :
  (trimmed "w 1" /\ trimmed "g") /\
  TupleService.relationshipToRelationsTuple
    (Some (pb.rdr_Tuple (TupleService.readTuplesItemToProto demo_read_item))) =
  Ok {| tup_object := rti_object demo_read_item; tup_relation := rti_relation demo_read_item;
        tup_subject := rti_subject demo_read_item |}.
Proof. split; [done|]. by apply (read_tuple_roundtrip demo_read_item "RBAC" "rbac"). Defined.
