(* ===== verification/Server.v ===== *)
(** The services behind the chains of the servers: the registration of the two
    services and the choice of the meta-authorizers of cmd/serve/serve.go, and
    what holds of a whole request. *)
From stdpp Require Import base tactics list strings gmap.
From Stdlib Require Import ZArith Lia Ascii.
From S2P Require Import Prelude GoStrings Common ReporterResource Representations Resource.
From S2P Require Import Outbox Store Tables Relations RelationsRepo Schema MetaAuthz Usecase TupleCrud.
From S2P Require Import Authn AuthnConfig Proto Service TupleService Middleware MiddlewareProps.
From S2P Require Import Examples SchemaProps UsecaseProps Duplicates AccessProps.

Local Open Scope string_scope.

Inductive Response :=
  | ReportResourceResponse
  | DeleteResourceResponse
  | CheckResponse (r : pb.CheckResponse)
  | CheckBulkResponse (r : pb.BulkResponse pb.CheckBulkRequestItem)
  | CheckSelfBulkResponse (r : pb.BulkResponse pb.CheckSelfBulkRequestItem)
  | TuplesResponse (r : pb.TuplesResponse)
  | AcquireLockResponse (r : pb.AcquireLockResponse).

(** The gRPC method of a request. *)
Definition full_method (req : Request) : string :=
  let inventory := "/kessel.inventory.v1beta2.KesselInventoryService/" in
  let tuples := "/kessel.inventory.v1beta2.KesselTupleService/" in
  match req with
  | ReportResourceRequest _ => inventory +:+ "ReportResource"
  | DeleteResourceRequest _ => inventory +:+ "DeleteResource"
  | CheckRequest _ => inventory +:+ "Check"
  | CheckForUpdateRequest _ => inventory +:+ "CheckForUpdate"
  | CheckBulkRequest _ => inventory +:+ "CheckBulk"
  | CheckForUpdateBulkRequest _ => inventory +:+ "CheckForUpdateBulk"
  | CheckSelfRequest _ => inventory +:+ "CheckSelf"
  | CheckSelfBulkRequest _ => inventory +:+ "CheckSelfBulk"
  | CreateTuplesRequest _ => tuples +:+ "CreateTuples"
  | DeleteTuplesRequest _ => tuples +:+ "DeleteTuples"
  | AcquireLockRequest _ => tuples +:+ "AcquireLock"
  end.

(** The requests of the tuple service. *)
Definition tuple_request (req : Request) : bool :=
  match req with
  | CreateTuplesRequest _ | DeleteTuplesRequest _ | AcquireLockRequest _ => true
  | _ => false
  end.

(** serve.go: the authorizer of the tuple service. *)
Definition tupleMetaAuthorizer (authnOptions : AuthnOptions) (tupleCrudAllowlist : list string)
    : MetaAuthorizer :=
  match ao_AllowUnauthenticated authnOptions with
  | Some true => SimpleMetaAuthorizer_Check
  | _ => WhitelistMetaAuthorizer_Check tupleCrudAllowlist
  end.

Section Server.
Context {R T S : Type} `{ResourceRepository R} `{RelationsRepository T} `{SchemaRepository S}
  `{JsonSchemaLib} `{AuthnLib} `{ProtoLib}.

(** What a call draws and meets. *)
Record call_env := {
  ce_newV7 : result string; ce_retryV7 : result string;
  ce_world : @world R; ce_world2 : @world R; ce_wait : option go_error }.

Definition lift_r {A} (t : T) (mk : A -> Response) (m : R * result A) : (R * T) * result Response :=
  let '(d, res) := m in ((d, t), let! a := res in Ok (mk a)).
Definition lift_t {A} (d : R) (mk : A -> Response) (m : T * result A) : (R * T) * result Response :=
  let '(t, res) := m in ((d, t), let! a := res in Ok (mk a)).

(** The registered services. *)
Definition handle (uc : @Usecase S) (tuc : option MetaAuthorizer) (e : call_env)
    (ctx : ReqCtx) (req : Request) (st : R * T) : (R * T) * result Response :=
  let '(d, t) := st in
  let authz := rq_authz ctx in
  match req with
  | ReportResourceRequest r =>
      lift_r t (fun _ => ReportResourceResponse)
        (InventoryService.ReportResource uc authz (ce_newV7 e) (ce_retryV7 e) (ce_world e)
           (ce_world2 e) (ce_wait e) r d)
  | DeleteResourceRequest r =>
      lift_r t (fun _ => DeleteResourceResponse)
        (InventoryService.DeleteResource uc authz (ce_newV7 e) (ce_world e) r d)
  | CheckRequest r => (st, let! a := InventoryService.Check uc authz d t r in Ok (CheckResponse a))
  | CheckForUpdateRequest r =>
      (st, let! a := InventoryService.CheckForUpdate uc authz t r in Ok (CheckResponse a))
  | CheckBulkRequest r =>
      (st, let! a := InventoryService.CheckBulk uc authz t r in Ok (CheckBulkResponse a))
  | CheckForUpdateBulkRequest r =>
      (st, let! a := InventoryService.CheckForUpdateBulk uc authz t r in Ok (CheckBulkResponse a))
  | CheckSelfRequest r =>
      (st, let! a := InventoryService.CheckSelf uc authz d t r in Ok (CheckResponse a))
  | CheckSelfBulkRequest r =>
      (st, let! a := InventoryService.CheckSelfBulk uc authz t r in Ok (CheckSelfBulkResponse a))
  | CreateTuplesRequest r => lift_t d TuplesResponse (TupleService.CreateTuples tuc authz r t)
  | DeleteTuplesRequest r => lift_t d TuplesResponse (TupleService.DeleteTuples tuc authz r t)
  | AcquireLockRequest r => lift_t d AcquireLockResponse (TupleService.AcquireLock tuc authz r t)
  end.

Context {KL : @KratosLib _ (R * T) Response} {KLaws : @KratosLaws _ (R * T) Response KL}.

(** A request over gRPC: the transport carries the method of the request. *)
Definition serve_grpc (authenticator : Authenticator) (readOnlyMode : bool) (uc : @Usecase S)
    (tuc : option MetaAuthorizer) (e : call_env) (header : string -> string) (req : Request)
    (st : R * T) : (R * T) * result Response :=
  let t := {| tr_Kind := KindGRPC; tr_Operation := full_method req; tr_Header := header |} in
  grpc_chain authenticator readOnlyMode (full_method req) (handle uc tuc e)
    {| rq_transport := Some t; rq_authz := None; rq_token := None; rq_rawToken := None |} req st.
End Server.

(** * Whole requests *)

Lemma full_method_selected req : full_method req ∉ whiteList.
Proof. destruct req; apply (bool_decide_unpack _); by vm_compute. Qed.

(** The methods that read-only mode blocks. *)
Lemma full_method_write req :
  IsWriteEndpoint (full_method req) =
    match req with ReportResourceRequest _ | DeleteResourceRequest _ => true | _ => false end.
Proof. by destruct req; vm_compute. Qed.

Section ServerProps.
Context {R T S : Type} `{ResourceRepository R} `{RelationsRepository T} `{SchemaRepository S}
  `{JsonSchemaLib} `{AuthnLib} `{ProtoLib}
  {KL : @KratosLib _ (R * T) Response} {KLaws : @KratosLaws _ (R * T) Response KL}.
Implicit Types (uc : @Usecase S) (e : @call_env R) (d : R) (t : T).

Lemma handle_tuple_store uc tuc e ctx req d t d' t' res :
  tuple_request req = false -> handle uc tuc e ctx req (d, t) = ((d', t'), res) -> t' = t.
Proof.
  intros Hr. destruct req; try done; simpl; unfold lift_r;
    try (intros [= <- <- <-]; done); case_match; by intros [= <- <- <-].
Qed.

Lemma handle_database uc tuc e ctx req d t d' t' res :
  IsWriteEndpoint (full_method req) = false ->
  handle uc tuc e ctx req (d, t) = ((d', t'), res) -> d' = d.
Proof.
  rewrite full_method_write. intros Hr. destruct req; try done; simpl; unfold lift_t;
    try (intros [= <- <- <-]; done); case_match; by intros [= <- <- <-].
Qed.

Lemma passed_on_method req req' : passed_on req req' -> full_method req' = full_method req.
Proof. destruct req; simpl; [intros (rr & _ & ->)|..]; by intros; subst. Qed.

Lemma passed_on_tuple req req' : passed_on req req' -> tuple_request req' = tuple_request req.
Proof. destruct req; simpl; [intros (rr & _ & ->)|..]; by intros; subst. Qed.

(** A request either leaves the state and fails, or its handler ran. *)
Lemma serve_grpc_run auth ro uc tuc e header req st st' res :
  serve_grpc auth ro uc tuc e header req st = (st', res) ->
  (st' = st /\ is_ok res = false) \/
  (ro && IsWriteEndpoint (full_method req) = false /\
   authenticated_run auth
     {| rq_transport := Some {| tr_Kind := KindGRPC; tr_Operation := full_method req;
                                tr_Header := header |};
        rq_authz := None; rq_token := None; rq_rawToken := None |}
     {| tr_Kind := KindGRPC; tr_Operation := full_method req; tr_Header := header |}
     (handle uc tuc e) req st st' res).
Proof.
  unfold serve_grpc, grpc_chain. intros Hrun.
  set (t := {| tr_Kind := KindGRPC; tr_Operation := full_method req; tr_Header := header |}) in *.
  apply (chain_run _ _ _ t) in Hrun as [|Hrun]; [by left| |done..|apply full_method_selected].
  destruct (ro && IsWriteEndpoint (full_method req)) eqn:Hw.
  - apply andb_true_iff in Hw as [-> Hw]. left. unfold UnaryReadOnlyInterceptor in Hrun.
    rewrite Hw in Hrun. destruct Hrun as (_ & ctx' & req' & r & _ & _ & _ & _ & [= <- <-] & Hr).
    split; [done|]. destruct res; [by specialize (Hr eq_refl)|done].
  - destruct (behind_guard_run _ _ _ _ _ _ _ _ _ (grpc_guards _ _ _) Hrun); [by left|by right].
Qed.

(** What a report or a delete is answered in read-only mode. *)
Lemma read_only_answer auth uc tuc e header req st :
  IsWriteEndpoint (full_method req) = true ->
  let transport :=
    {| tr_Kind := KindGRPC; tr_Operation := full_method req; tr_Header := header |} in
  let res := (serve_grpc auth true uc tuc e header req st).2 in
  (forall err, validator_Validate req = Err err ->
     res = Err (EKratos InvalidArgument "VALIDATOR" err)) /\
  (validator_Validate req = Ok tt -> forall req', passed_on req req' ->
     ((forall claims, auth transport <> (Some claims, Allow)) ->
        exists msg, res = Err (unauthorized msg)) /\
     (forall claims, auth transport = (Some claims, Allow) ->
        exists msg, res = Err (EStatus Unavailable msg))).
Proof.
  intros Hw transport. unfold serve_grpc, grpc_chain. fold transport.
  set (ctx := {| rq_transport := Some transport |}). split.
  { intros err Hv. by rewrite (chain_rejects_invalid _ _ _ _ _ Hv). }
  intros Hv req' Hp. split.
  - intros Hauth. destruct (chain_rejects_unauthenticated auth
      (ErrorMapping (UnaryReadOnlyInterceptor (full_method req) (handle uc tuc e)))
      ctx transport req req' st) as [msg ->]; [done|apply full_method_selected|done..|by exists msg].
  - intros claims Hauth. destruct (chain_admits auth
      (UnaryReadOnlyInterceptor (full_method req) (handle uc tuc e))
      ctx transport req req' claims st) as [ctx' ->]; [done|apply full_method_selected|done..|].
    rewrite recovery_law. unfold ErrorMapping, UnaryReadOnlyInterceptor. rewrite Hw. by eexists.
Qed.

(** C24. In read-only mode no gRPC request changes the inventory database, and
    only requests of the tuple service may change the tuple store.  Reports and
    deletes fail: they are validated and authenticated first, and answered
    InvalidArgument if they are not valid, Unauthenticated if the authenticator
    does not allow them, and Unavailable otherwise. *)
Theorem read_only_protects_database auth uc tuc e header req d t d' t' res :
  serve_grpc auth true uc tuc e header req (d, t) = ((d', t'), res) ->
  let transport :=
    {| tr_Kind := KindGRPC; tr_Operation := full_method req; tr_Header := header |} in
  d' = d /\ (tuple_request req = false -> t' = t) /\
  (IsWriteEndpoint (full_method req) = true ->
   (forall err, validator_Validate req = Err err ->
      res = Err (EKratos InvalidArgument "VALIDATOR" err)) /\
   (validator_Validate req = Ok tt -> forall req', passed_on req req' ->
      ((forall claims, auth transport <> (Some claims, Allow)) ->
         exists msg, res = Err (unauthorized msg)) /\
      (forall claims, auth transport = (Some claims, Allow) ->
         exists msg, res = Err (EStatus Unavailable msg))) /\
   is_ok res = false).
Proof.
  intros Hrun transport.
  pose proof (read_only_answer auth uc tuc e header req (d, t)) as Hanswer. rewrite Hrun in Hanswer.
  apply serve_grpc_run in Hrun as [[[= -> ->] Hf]|[Hro Hrun]].
  - split_and!; [done..|]. intros Hw. destruct (Hanswer Hw). by split_and!.
  - destruct Hrun as (claims & ctx' & req' & r & _ & _ & _ & Hp & Hh & _). simpl in Hro. split_and!.
    + apply handle_database in Hh; [done|]. by rewrite (passed_on_method _ _ Hp).
    + intros Ht. apply handle_tuple_store in Hh; [done|]. by rewrite (passed_on_tuple _ _ Hp).
    + by rewrite Hro.
Qed.

Lemma handle_tuple_change uc tuc e ctx req d t d' t' res :
  handle uc tuc e ctx req (d, t) = ((d', t'), res) -> t' <> t ->
  exists c, t' = run_tuple_command tuc (rq_authz ctx) c t.
Proof.
  intros Hh Ht. destruct (tuple_request req) eqn:Hr; [|by apply handle_tuple_store in Hh].
  destruct req; try done; revert Hh; cbn [handle];
    unfold TupleService.CreateTuples, TupleService.DeleteTuples, TupleService.AcquireLock, lift_t.
  - destruct (TupleService.toCreateTuplesCommand r) as [a|]; [|by intros [= <- <- <-]].
    destruct (TupleCrud.CreateTuples _ _ a t) as [x y] eqn:E. intros [= <- <- <-].
    exists (CmdCreate a). simpl. by rewrite E.
  - destruct (TupleService.toDeleteTuplesCommand r) as [a|]; [|by intros [= <- <- <-]].
    destruct (TupleCrud.DeleteTuples _ _ a t) as [x y] eqn:E. intros [= <- <- <-].
    exists (CmdDelete a). simpl. by rewrite E.
  - destruct (TupleService.toAcquireLockCommand r) as [a|]; [|by intros [= <- <- <-]].
    destruct (TupleCrud.AcquireLock _ _ a t) as [x y] eqn:E. intros [= <- <- <-].
    exists (CmdLock a). simpl. by rewrite E.
Qed.

Lemma WhitelistMetaAuthorizer_allows allowlist obj relation authz :
  WhitelistMetaAuthorizer_Check allowlist obj relation authz = Ok true ->
  exists c, ac_Subject authz = Some c /\ cl_AuthType c = AuthTypeOIDC /\ cl_ClientID c <> "" /\
    ("*" ∈ allowlist \/ cl_ClientID c ∈ allowlist).
Proof.
  unfold WhitelistMetaAuthorizer_Check, isInAllowlist. destruct (negb _); [done|].
  case_bool_decide; [done|]. destruct (ac_Subject authz) as [c|]; [|done].
  case_bool_decide as Ho; [done|]. case_bool_decide as Hc; [done|].
  intros [= Ha%allowed_by_iff]. exists c. split_and!; [done| |done..].
  by destruct (decide (cl_AuthType c = AuthTypeOIDC)).
Qed.

(** Unless the legacy option allows unauthenticated access, a gRPC request
    changes the tuple store only if the authenticator allowed it with the
    claims of an OIDC client that the allowlist names or its wildcard covers:
    the fall-back of the chain to unauthenticated callers gives no access. *)
Theorem tuple_writes_authenticated auth ro uc opts allowlist e header req d t d' t' res :
  ao_AllowUnauthenticated opts <> Some true ->
  serve_grpc auth ro uc (Some (tupleMetaAuthorizer opts allowlist)) e header req (d, t)
    = ((d', t'), res) ->
  t' <> t ->
  exists claims,
    auth {| tr_Kind := KindGRPC; tr_Operation := full_method req; tr_Header := header |} =
      (Some claims, Allow) /\
    cl_AuthType claims = AuthTypeOIDC /\ cl_ClientID claims <> "" /\
    ("*" ∈ allowlist \/ cl_ClientID claims ∈ allowlist).
Proof.
  intros Hopt Hrun Ht. apply serve_grpc_run in Hrun as [[[= -> ->] _]|[_ Hrun]]; [done|].
  destruct Hrun as (claims & ctx' & req' & r & Hauth & Hctx & _ & _ & Hh & _).
  exists claims. split; [exact Hauth|].
  destruct (handle_tuple_change _ _ _ _ _ _ _ _ _ _ Hh Ht) as [c Hc]. rewrite Hc in Ht.
  apply tuple_command_admitted in Ht as (authz & check & Ha & [= <-] & Hcheck).
  rewrite Hctx in Ha. injection Ha as <-. unfold tupleMetaAuthorizer in Hcheck.
  destruct (ao_AllowUnauthenticated opts) as [[]|]; [done|..];
    apply WhitelistMetaAuthorizer_allows in Hcheck as (x & [= <-] & Hx); exact Hx.
Qed.
End ServerProps.

(** * A server *)

(** A provider that knows one token, and middlewares of kratos that do what
    their documentation says. *)
#[local] Instance one_token_AuthnLib : AuthnLib :=
  {| IDToken := string;
     oidc_NewProvider _ := Ok tt;
     oidc_Verify _ token :=
       if bool_decide (token = "good") then Ok token else Err (EMsg "failed to verify signature");
     oidc_Claims tok := Ok {| tc_Audience := "inventory"; tc_Issuer := "https://sso";
                              tc_Subject := "u1"; tc_PreferredUsername := "u";
                              tc_ClientID := "rbac-service" |};
     DecodeAndCheckIdentity _ := Err (EMsg "bad header") |}.

#[local] Instance accepting_ProtoLib : ProtoLib :=
  {| validator_Validate _ := Ok tt; structpb_NewStruct m := Ok m |}.

#[local] Instance kratos {St Resp : Type} : @KratosLib _ St Resp :=
  {| selector_Server f m h ctx req st :=
       match rq_transport ctx with
       | Some t => if f (tr_Operation t) then m h ctx req st else h ctx req st
       | None => h ctx req st
       end;
     recovery_Recovery h ctx req st :=
       match h ctx req st with
       | (st, Err (EPanic _)) =>
           (st, Err (EKratos Internal "UNKNOWN" (EMsg "unknown request error")))
       | r => r
       end |}.

#[local] Instance kratos_laws {St Resp : Type} : @KratosLaws _ St Resp kratos.
Proof. split; [|done]. intros * Ht. simpl. by rewrite Ht. Qed.

Definition demo_tuple_write : Request :=
  CreateTuplesRequest
    {| pb.Upsert := true;
       pb.Tuples := [Some {| pb.r_Resource := Some {| pb.ro_Type := Some {| pb.Namespace := "rbac";
                                                       pb.Name := "workspace" |}; pb.Id := "w1" |};
                             pb.r_Relation := "parent";
                             pb.r_Subject := Some {| pb.rs_Relation := None;
                               pb.rs_Subject := Some {| pb.ro_Type := Some {| pb.Namespace := "rbac";
                                 pb.Name := "workspace" |}; pb.Id := "root" |} |} |}];
       pb.ct_FencingCheck := None |}.

Definition demo_header (k : string) : string :=
  if bool_decide (k = "Authorization") then "Bearer good" else "".

Definition demo_env : @call_env Tables :=
  {| ce_newV7 := Ok "tx-1"; ce_retryV7 := Ok "tx-2"; ce_world := ex_world 1 2;
     ce_world2 := ex_world 3 4; ce_wait := None |}.

Definition demo_request (readOnlyMode : bool) (header : string -> string) (req : Request)
    : (Tables * SimpleRelationsRepository) * result Response :=
  let _ := ex_validator in
  serve_grpc (OIDC_Authenticate (with_PrincipalUserDomain NewOIDCOptions "localhost"))
    readOnlyMode ex_usecase (Some (tupleMetaAuthorizer NewAuthnOptions ["rbac-service"]))
    demo_env header req (empty_tables, Simple.NewSimpleRelationsRepository).

Definition demo_serve (readOnlyMode : bool) := demo_request readOnlyMode demo_header demo_tuple_write.

Lemma demo_serve_writes : bool_decide (size (s_tuples (demo_serve true).1.2) = 1%nat) = true.
Proof. vm_compute. reflexivity. Qed.

(** In read-only mode a client of the tuple service still writes: the
    tuple endpoints are not among the write endpoints. *)
Theorem read_only_lets_tuple_writes_pass :
  (demo_serve true).1.2 <> Simple.NewSimpleRelationsRepository.
Proof.
  intros Heq. pose proof demo_serve_writes as Hs. rewrite Heq in Hs. by vm_compute in Hs.
Qed.

(** A report with the good token, and one without token. *)
Lemma read_only_protects_database_witness :
  let req := ReportResourceRequest dirty_report in
  let answer header := demo_request true header req in
  (answer demo_header).1.1 = empty_tables /\
  (exists msg, (answer demo_header).2 = Err (EStatus Unavailable msg)) /\
  (exists msg, (answer (fun _ => "")).2 = Err (unauthorized msg)).
Proof.
  intros req answer.
  assert (exists req', passed_on req req') as [req' Hp]
    by (eexists (ReportResourceRequest _), _; split; [vm_compute|]; reflexivity).
  split_and!.
  - destruct (answer demo_header) as [[d' t'] res] eqn:E. unfold answer, demo_request in E.
    exact (proj1 (read_only_protects_database _ _ _ _ _ _ _ _ _ _ _ E)).
  - destruct (answer demo_header) as [[d' t'] res] eqn:E. unfold answer, demo_request in E.
    apply read_only_protects_database in E as (_ & _ & Hw).
    destruct (Hw eq_refl) as (_ & Hv & _). destruct (Hv eq_refl req' Hp) as [_ Hauth].
    eapply Hauth. vm_compute. reflexivity.
  - destruct (answer (fun _ => "")) as [[d' t'] res] eqn:E. unfold answer, demo_request in E.
    apply read_only_protects_database in E as (_ & _ & Hw).
    destruct (Hw eq_refl) as (_ & Hv & _). destruct (Hv eq_refl req' Hp) as [Hauth _].
    apply Hauth. intros claims. vm_compute. discriminate.
Defined.

Lemma tuple_writes_authenticated_witness : exists claims,
  OIDC_Authenticate (with_PrincipalUserDomain NewOIDCOptions "localhost")
    {| tr_Kind := KindGRPC; tr_Operation := full_method demo_tuple_write;
       tr_Header := demo_header |} = (Some claims, Allow) /\
  cl_AuthType claims = AuthTypeOIDC /\ cl_ClientID claims <> "" /\
  ("*" ∈ ["rbac-service"] \/ cl_ClientID claims ∈ ["rbac-service"]).
Proof.
  pose proof demo_serve_writes as Hw.
  destruct (demo_serve true) as [[d' t'] res] eqn:E. unfold demo_serve, demo_request in E.
  assert (Ht : t' <> Simple.NewSimpleRelationsRepository).
  { intros Heq. rewrite Heq in Hw. vm_compute in Hw. discriminate Hw. }
  assert (Ho : ao_AllowUnauthenticated NewAuthnOptions <> Some true) by discriminate.
  exact (tuple_writes_authenticated _ _ _ _ _ _ _ _ _ _ _ _ _ Ho E Ht).
Defined.

(** A handler that counts its calls. *)
Definition count_calls (ctx : ReqCtx) (req : Request) (n : nat) : nat * result unit := (S n, Ok tt).

Definition demo_transport : Transporter :=
  {| tr_Kind := KindGRPC; tr_Operation := full_method demo_tuple_write; tr_Header := demo_header |}.

Definition demo_ctx : ReqCtx :=
  {| rq_transport := Some demo_transport; rq_authz := None; rq_token := None; rq_rawToken := None |}.

Lemma chains_authenticate_witness :
  (3%nat = 2%nat /\ is_ok (Ok tt) = false) \/
  authenticated_run (OIDC_Authenticate (with_PrincipalUserDomain NewOIDCOptions "localhost"))
    demo_ctx demo_transport count_calls demo_tuple_write 2 3 (Ok tt).
Proof.
  apply (chains_authenticate (OIDC_Authenticate (with_PrincipalUserDomain NewOIDCOptions "localhost"))
           true (full_method demo_tuple_write) count_calls demo_ctx demo_transport).
  - reflexivity.
  - reflexivity.
  - apply full_method_selected.
  - left. vm_compute. reflexivity.
Defined.

(** A stream whose handler counts its calls. *)
Definition demo_md : MD := {["authorization" := [demo_header "Authorization"]]}.
Definition count_stream (ctx : ReqCtx) (req : pb.ReadTuplesRequest) (n : nat)
    : nat * result unit := (S n, Ok tt).
Definition demo_read : pb.ReadTuplesRequest :=
  {| pb.rd_Filter := None; pb.rd_Pagination := None; pb.rd_Consistency := None |}.

Lemma streams_authenticate_witness :
  exists md' claims ctx' a req r,
    Some demo_md = Some md' /\
    OIDC_Authenticate (with_PrincipalUserDomain NewOIDCOptions "localhost")
      (grpcStreamTransporter md' "ReadTuples") = (Some claims, Allow) /\
    rq_authz ctx' = Some a /\ ac_Subject a = Some claims /\
    Ok demo_read = Ok req /\ (fun _ => Ok tt) req = Ok tt /\
    count_stream ctx' req 2 = (3, r) /\ is_ok r = is_ok (Ok tt).
Proof.
  destruct (streams_authenticate (fun _ => Ok tt)
    (OIDC_Authenticate (with_PrincipalUserDomain NewOIDCOptions "localhost")) (Some demo_md)
    "ReadTuples" count_stream (Ok demo_read) demo_ctx 2 3 (Ok tt)) as [[Hn _]|Hrun];
    [reflexivity|vm_compute; reflexivity|discriminate Hn|exact Hrun].
Defined.
