(* ===== verification/SpiceDBProps.v ===== *)
(** The SpiceDB repository: tuples survive the translation, writes and deletes
    do to the relationships what the tuple interface promises, and lock tokens
    fence. *)
From stdpp Require Import base tactics list strings gmap.
From Stdlib Require Import ZArith Lia Ascii Btauto.
From S2P Require Import Prelude GoStrings Common ReporterResource Relations RelationsRepo SpiceDB.

Local Open Scope string_scope.

(** * What the API's documentation says *)

(** A field of a filter: the empty string stands for any value. *)
Definition any_or (f v : string) : bool := bool_decide (f = "") || bool_decide (f = v).

Definition zed_matches (f : v1.RelationshipFilter) (r : v1.Relationship) : bool :=
  any_or (v1.ResourceType f) (v1.ObjectType (v1.Resource r))
  && any_or (v1.OptionalResourceId f) (v1.ObjectId (v1.Resource r))
  && any_or (v1.OptionalRelation f) (v1.Relation_ r)
  && match v1.OptionalSubjectFilter f with
     | None => true
     | Some sf =>
         bool_decide (v1.SubjectType sf = v1.ObjectType (v1.Object (v1.Subject r)))
         && any_or (v1.OptionalSubjectId sf) (v1.ObjectId (v1.Object (v1.Subject r)))
         && match v1.sf_OptionalRelation sf with
            | None => true
            | Some rel => bool_decide (rel = v1.sr_OptionalRelation (v1.Subject r))
            end
     end.

Definition removed (us : list v1.RelationshipUpdate) (r : v1.Relationship) : Prop :=
  {| v1.Operation_ := v1.OPERATION_DELETE; v1.u_Relationship := r |} ∈ us.

Definition written (us : list v1.RelationshipUpdate) (r : v1.Relationship) : Prop :=
  exists u, u ∈ us /\ v1.u_Relationship u = r /\ v1.Operation_ u <> v1.OPERATION_DELETE.

Section Laws.
Context {C : Type} `{SpiceDBClient C} (has : C -> v1.Relationship -> Prop).

Definition preconditions_hold (c : C) (ps : list v1.Precondition) : Prop :=
  forall p, p ∈ ps -> exists r, has c r /\ zed_matches (v1.must_match p) r = true.

(** The relationships of [c'] are those of [c] after the updates. *)
Definition updated (us : list v1.RelationshipUpdate) (c c' : C) : Prop :=
  forall r, has c' r <-> written us r \/ (has c r /\ ~ removed us r).

Definition fresh_creates (us : list v1.RelationshipUpdate) (c : C) : Prop :=
  forall r, {| v1.Operation_ := v1.OPERATION_CREATE; v1.u_Relationship := r |} ∈ us -> ~ has c r.

Definition same_relationships (c c' : C) : Prop := forall r, has c' r <-> has c r.
End Laws.

(** A write is a transaction under its preconditions, names a relationship
    once and creates only relationships that do not exist; a delete removes what its filter matches; a fully consistent read
    without limit yields what its filter matches.  A call that fails has had
    its effect or none. *)
Class SpiceDBLaws (C : Type) `{SpiceDBClient C} := {
  zed_has : C -> v1.Relationship -> Prop;
  schema_law : forall schema c, same_relationships zed_has c (zed_WriteSchema schema c).1;
  write_ok_law : forall req c c' token, zed_WriteRelationships req c = (c', Ok token) ->
    preconditions_hold zed_has c (v1.w_OptionalPreconditions req) /\
    NoDup (v1.u_Relationship <$> v1.Updates req) /\ fresh_creates zed_has (v1.Updates req) c /\
    updated zed_has (v1.Updates req) c c';
  write_err_law : forall req c c' e, zed_WriteRelationships req c = (c', Err e) ->
    same_relationships zed_has c c' \/
    (preconditions_hold zed_has c (v1.w_OptionalPreconditions req) /\
     updated zed_has (v1.Updates req) c c');
  delete_ok_law : forall req c c' token, zed_DeleteRelationships req c = (c', Ok token) ->
    preconditions_hold zed_has c (v1.d_OptionalPreconditions req) /\
    forall r, zed_has c' r <->
      zed_has c r /\ zed_matches (v1.RelationshipFilter_ req) r = false;
  delete_err_law : forall req c c' e, zed_DeleteRelationships req c = (c', Err e) ->
    same_relationships zed_has c c' \/
    (preconditions_hold zed_has c (v1.d_OptionalPreconditions req) /\
     forall r, zed_has c' r <->
       zed_has c r /\ zed_matches (v1.RelationshipFilter_ req) r = false);
  read_law : forall c f msgs last,
    zed_ReadRelationships c {| v1.rd_Consistency := v1.FullyConsistent; v1.rd_Filter := f;
                               v1.rd_OptionalLimit := 0; v1.rd_OptionalCursor := None |}
      = Ok (msgs, last) ->
    (forall m, m ∈ msgs -> exists r, v1.rd_Relationship m = Some r /\
       zed_has c r /\ zed_matches f r = true) /\
    (last = None -> forall r, zed_has c r -> zed_matches f r = true ->
       exists m, m ∈ msgs /\ v1.rd_Relationship m = Some r) /\
    (forall e, last = Some e -> errors_Is e EOF = false);
}.

(** * Translation *)

Definition no_slash (s : string) : Prop := ContainsAny s ["/"%char] = false.

(** A reference that has a SpiceDB type: its reporter is given, without an
    instance, and neither part has a slash. *)
Definition spice_reference (ref : ResourceReference) : Prop :=
  exists ns, ref_reporter ref = Some {| rref_reporterType := ns; rref_instanceId := None |} /\
    no_slash ns /\ no_slash (ref_resourceType ref).

Definition spice_tuple (t : RelationsTuple) : Prop :=
  spice_reference (tup_object t) /\ spice_reference (sub_resource (tup_subject t)) /\
  HasPrefix (tup_relation t) relationPrefix = false /\ sub_relation (tup_subject t) <> Some "".

Lemma Split_no_slash s : no_slash s -> Split s "/" = [s].
Proof.
  unfold no_slash. induction s as [|a s IH]; [done|]. cbn [ContainsAny Split].
  rewrite elem_slash. case_bool_decide; [done|]. simpl. intros Hs. by rewrite IH.
Qed.

Lemma Split_joined ns ty : no_slash ns -> Split (ns +:+ "/" +:+ ty) "/" = ns :: Split ty "/".
Proof.
  unfold no_slash. induction ns as [|a ns IH]; intros Hs; [done|].
  cbn [ContainsAny] in Hs. rewrite elem_slash in Hs.
  change (String a ns +:+ "/" +:+ ty) with (String a (ns +:+ "/" +:+ ty)). cbn [Split].
  revert Hs. case_bool_decide; [done|]. simpl. intros Hs. by rewrite IH.
Qed.

Lemma spice_type_roundtrip ref :
  spice_reference ref ->
  spiceDBTypeToResourceReference (resourceReferenceToSpiceDBType ref) (ref_resourceId ref) = Ok ref.
Proof.
  intros (ns & Hr & Hns & Hty). destruct ref as [rt id rep]. simpl in *. subst rep.
  unfold spiceDBTypeToResourceReference, resourceReferenceToSpiceDBType. simpl.
  by rewrite Split_joined, Split_no_slash.
Qed.

Lemma prefix_app p s : String.prefix p (p +:+ s) = true.
Proof. induction p as [|a p IH]; [by destruct s|]. simpl. by destruct (ascii_dec a a). Qed.

Lemma substring_full s : String.substring 0 (String.length s) s = s.
Proof. induction s as [|a s IH]; [done|]. simpl. by rewrite IH. Qed.

Lemma strip_addRelationPrefix r :
  HasPrefix r relationPrefix = false ->
  stripRelationPrefix (addRelationPrefix r relationPrefix) relationPrefix = r.
Proof.
  intros Hr. unfold stripRelationPrefix, addRelationPrefix, TrimPrefix, HasPrefix in *. rewrite Hr.
  cbn [negb]. rewrite prefix_app. change (relationPrefix +:+ r) with (String "t" (String "_" r)).
  simpl. rewrite Nat.sub_0_r. apply substring_full.
Qed.

(** A tuple written to SpiceDB and read back is the same tuple: its types are
    recovered from the slash, its relation from the prefix, and the subject's
    relation is kept apart. *)
Lemma written_tuple_read t cursor token :
  spice_tuple t ->
  readTuples_Recv {| v1.rd_Relationship := Some (relationsTupleToSpiceDBRelationship t);
                     v1.rd_AfterResultCursor := cursor; v1.ReadAt := token |} =
  Ok {| rti_object := tup_object t; rti_relation := tup_relation t; rti_subject := tup_subject t;
        rti_continuationToken := default "" cursor; rti_consistencyToken := token |}.
Proof.
  intros (Ho & Hs & Hr & Hsr). unfold readTuples_Recv. simpl.
  rewrite !spice_type_roundtrip by done. simpl. rewrite strip_addRelationPrefix by done.
  do 2 f_equal. destruct (tup_subject t) as [sres srel]. simpl in *.
  unfold NewSubjectReference, optionalRelationToString. f_equal.
  destruct srel as [r|]; simpl; [|done]. rewrite bool_decide_eq_true_2; [done|]. congruence.
Qed.

Lemma encode_inj t t' :
  spice_tuple t -> spice_tuple t' ->
  relationsTupleToSpiceDBRelationship t = relationsTupleToSpiceDBRelationship t' -> t = t'.
Proof.
  intros Ht Ht' He. pose proof (written_tuple_read t None "" Ht) as Hr.
  rewrite He, written_tuple_read in Hr by done. destruct t, t'. by simplify_eq/=.
Qed.

(** * Filters *)

(** A type filter of SpiceDB: both parts or none. *)
Definition spice_type (ns ty : option string) : Prop :=
  (ns = None /\ ty = None) \/
  (exists ns' ty', ns = Some ns' /\ ty = Some ty' /\ no_slash ns' /\ no_slash ty').

(** A filter that SpiceDB can express: no empty id, which it takes for "any",
    and a type in the subject's filter. *)
Definition spice_filter (f : TupleFilter) : Prop :=
  spice_type (tf_reporterType f) (tf_objectType f) /\ tf_objectId f <> Some "" /\
  (forall r, tf_relation f = Some r -> HasPrefix r relationPrefix = false) /\
  (forall sf, tf_subject f = Some sf ->
     spice_type (sf_reporterType sf) (sf_subjectType sf) /\ is_Some (sf_subjectType sf) /\
     sf_subjectId sf <> Some "").

(** What a filter means: the fields of the tuple's key, and the relation of the
    subject, where "" is a subject without relation. *)
Definition tuple_matches (f : TupleFilter) (t : RelationsTuple) : bool :=
  simpleMatchesTupleFilter (simpleTupleKeyFromModelTuple t) f
  && match tf_subject f with
     | None => true
     | Some sf => field_matches (sf_relation sf)
                    (optionalRelationToString (sub_relation (tup_subject t)))
     end.

Lemma joined_type_eq ns ty ns' ty' :
  no_slash ns -> no_slash ty -> no_slash ns' -> no_slash ty' ->
  bool_decide (ns +:+ "/" +:+ ty = ns' +:+ "/" +:+ ty') =
  bool_decide (ns = ns') && bool_decide (ty = ty').
Proof.
  intros H1 H2 H3 H4. rewrite <- bool_decide_and. apply bool_decide_ext.
  split; [|by intros [-> ->]]. intros He.
  assert (Split (ns +:+ "/" +:+ ty) "/" = Split (ns' +:+ "/" +:+ ty') "/") as Hs by by rewrite He.
  rewrite !Split_joined, !Split_no_slash in Hs by done. by simplify_eq.
Qed.

Lemma joined_nonempty ns ty : ns +:+ "/" +:+ ty <> "".
Proof. by destruct ns. Qed.

Lemma any_or_id id v :
  id <> Some "" -> any_or (optionalLocalResourceIdToString id) v = field_matches id v.
Proof.
  intros Hid. destruct id as [id|]; [|done]. unfold any_or. simpl.
  by rewrite (bool_decide_eq_false_2 (id = "")) by congruence.
Qed.

Lemma prefixed_relation_eq r v :
  HasPrefix r relationPrefix = false -> HasPrefix v relationPrefix = false ->
  any_or (addRelationPrefix r relationPrefix) (addRelationPrefix v relationPrefix) =
  bool_decide (r = v).
Proof.
  intros Hr Hv. unfold any_or. rewrite bool_decide_eq_false_2.
  2:{ unfold addRelationPrefix. rewrite Hr. by destruct r. }
  apply bool_decide_ext. split; [|by intros ->]. intros He.
  rewrite <- (strip_addRelationPrefix r), <- (strip_addRelationPrefix v) by done. by rewrite He.
Qed.

(** A type filter accepts the types of references that it describes. *)
Lemma type_filter_matches ns ty ns_name ty_name f ref :
  spice_type ns ty -> spice_reference ref -> type_filter ns ty ns_name ty_name = Ok f ->
  any_or f (resourceReferenceToSpiceDBType ref) =
    field_matches ns (default "" (rref_reporterType <$> ref_reporter ref))
    && field_matches ty (ref_resourceType ref).
Proof.
  intros [[-> ->]|(ns' & ty' & -> & -> & Hns & Hty)] (rns & Hr & ? & ?); intros [= <-]; [done|].
  unfold any_or, resourceReferenceToSpiceDBType. rewrite Hr. simpl.
  rewrite (bool_decide_eq_false_2 (_ = "")) by apply joined_nonempty. simpl.
  by apply joined_type_eq.
Qed.

Lemma tuple_filter_matches f zf t :
  spice_filter f -> spice_tuple t -> tupleFilterToSpiceDBFilter f = Ok zf ->
  zed_matches zf (relationsTupleToSpiceDBRelationship t) = tuple_matches f t.
Proof.
  intros (Hty & Hid & Hrel & Hsub) (Ho & Hs & Hr & _). unfold tupleFilterToSpiceDBFilter.
  destruct (type_filter _ _ "reporter type" _) as [rt|] eqn:Ert; [|done]. simpl.
  pose proof (type_filter_matches _ _ _ _ _ _ Hty Ho Ert) as Hrt.
  assert (Hrel' : any_or (optionalRelationToStringWithPrefix (tf_relation f))
                    (addRelationPrefix (tup_relation t) relationPrefix)
                  = field_matches (tf_relation f) (tup_relation t)).
  { destruct (tf_relation f) as [r|]; [|done]. simpl. apply prefixed_relation_eq; auto. }
  unfold tuple_matches, simpleMatchesTupleFilter, simpleTupleKeyFromModelTuple, key_of_fields.
  pose proof Hs as Hsref. destruct Ho as (ons & Hons & _), Hs as (sns & Hsns & _).
  unfold simpleResourceRefFields. rewrite Hons, Hsns in *. simpl in Hrt.
  destruct (tf_subject f) as [sf|].
  - destruct (Hsub sf eq_refl) as (Hsty & [sty Hsty'] & Hsid).
    destruct (type_filter _ _ "subject reporter type" _) as [st|] eqn:Est; [|done]. simpl. intros [= <-].
    pose proof (type_filter_matches _ _ _ _ _ _ Hsty Hsref Est) as Hst. rewrite Hsns in Hst. simpl in Hst.
    unfold zed_matches. simpl. rewrite Hrt, Hrel', any_or_id by done.
    rewrite any_or_id by done.
    replace (bool_decide (st = _)) with (any_or st (resourceReferenceToSpiceDBType
      (sub_resource (tup_subject t)))).
    2:{ unfold any_or. rewrite (bool_decide_eq_false_2 (st = "")); [done|].
        rewrite Hsty' in Est. destruct (sf_reporterType sf); simplify_eq/=.
        apply joined_nonempty. }
    rewrite Hst. destruct (sf_relation sf); simpl; btauto.
  - simpl. intros [= <-]. unfold zed_matches. simpl. rewrite Hrt, Hrel', any_or_id by done.
    btauto.
Qed.

(** * Writes and deletes *)
Section Repository.
Context {C : Type} `{SpiceDBLaws C}.
Implicit Types (s : SpiceDBRelationsRepository C) (c : C).

Definition holds s (t : RelationsTuple) : Prop :=
  zed_has (sp_client s) (relationsTupleToSpiceDBRelationship t).

(** The schema is written, once. *)
Definition ready s : Prop := sp_init s = Some None.

(** The fencing check holds: the lock's relationship is there. *)
Definition fence_holds c (fencing : option FencingCheck) : Prop :=
  preconditions_hold zed_has c (SpiceDB.fencing_precondition fencing).

Lemma initialize_relationships s :
  same_relationships zed_has (sp_client s) (sp_client (SpiceDB.initialize s).1).
Proof.
  unfold SpiceDB.initialize. destruct (sp_init s); [done|].
  destruct (sp_schemaFile s) as [schema|]; [|done].
  pose proof (schema_law schema (sp_client s)) as Hs.
  by destruct (zed_WriteSchema schema (sp_client s)) as [c' [?|?]].
Qed.

(** A successful call ran on a repository that is ready and has the same
    relationships. *)
Lemma initialized_ok {A} s (k : SpiceDBRelationsRepository C ->
    SpiceDBRelationsRepository C * result A) s' a :
  SpiceDB.initialized s k = (s', Ok a) ->
  exists s1, ready s1 /\ same_relationships zed_has (sp_client s) (sp_client s1) /\
             k s1 = (s', Ok a).
Proof.
  unfold SpiceDB.initialized. pose proof (initialize_relationships s) as Hr.
  destruct (SpiceDB.initialize s) as [s1 [e|]] eqn:Hi; [done|]. intros Hk. exists s1.
  split_and!; [|done..]. revert Hi. unfold SpiceDB.initialize, ready.
  destruct (sp_init s) eqn:Hs; [intros [= <- ->]; done|].
  destruct (sp_schemaFile s) as [schema|]; [|done].
  destruct (zed_WriteSchema schema (sp_client s)) as [c' [?|?]]; by intros [= <-].
Qed.

Lemma initialized_ready {A} s (k : SpiceDBRelationsRepository C ->
    SpiceDBRelationsRepository C * result A) :
  ready s -> SpiceDB.initialized s k = k s.
Proof. intros Hs. unfold SpiceDB.initialized, SpiceDB.initialize. by rewrite Hs. Qed.

Lemma fence_same c c' fencing :
  same_relationships zed_has c c' -> fence_holds c' fencing -> fence_holds c fencing.
Proof.
  intros Hs Hf p Hp. destruct (Hf p Hp) as (r & Hr & Hm). exists r. by rewrite <- (Hs r).
Qed.

Lemma written_tuples (tuples : list RelationsTuple) op t :
  op <> v1.OPERATION_DELETE -> Forall spice_tuple tuples -> spice_tuple t ->
  written ((fun tuple => {| v1.Operation_ := op;
              v1.u_Relationship := relationsTupleToSpiceDBRelationship tuple |}) <$> tuples)
    (relationsTupleToSpiceDBRelationship t) <-> t ∈ tuples.
Proof.
  intros Hop Hts Ht. unfold written. setoid_rewrite list_elem_of_fmap. split.
  - intros (u & (t' & -> & Hin) & He & _). simpl in He. rewrite Forall_forall in Hts.
    by rewrite <- (encode_inj t' t (Hts t' Hin) Ht He).
  - intros Hin. eexists. split_and!; [by exists t|done..].
Qed.

Lemma not_removed (tuples : list RelationsTuple) op r :
  op <> v1.OPERATION_DELETE ->
  ~ removed ((fun tuple => {| v1.Operation_ := op;
        v1.u_Relationship := relationsTupleToSpiceDBRelationship tuple |}) <$> tuples) r.
Proof. intros Hop (t & ? & _)%list_elem_of_fmap. by simplify_eq. Qed.

(** A call that fails to initialise changes no relationship; otherwise it runs
    on the same relationships. *)
Lemma initialized_step {A} s (k : SpiceDBRelationsRepository C ->
    SpiceDBRelationsRepository C * result A) s' res :
  SpiceDB.initialized s k = (s', res) ->
  (is_ok res = false /\ same_relationships zed_has (sp_client s) (sp_client s')) \/
  exists s1, same_relationships zed_has (sp_client s) (sp_client s1) /\ k s1 = (s', res).
Proof.
  unfold SpiceDB.initialized. pose proof (initialize_relationships s) as Hr.
  destruct (SpiceDB.initialize s) as [s1 [e|]]; [|eauto]. intros [= <- <-]. by left.
Qed.

Lemma same_trans c c1 c2 :
  same_relationships zed_has c c1 -> same_relationships zed_has c1 c2 ->
  same_relationships zed_has c c2.
Proof. intros H1 H2 r. by rewrite (H2 r), (H1 r). Qed.

Lemma is_ok_answer {A B} msg (ans : result A) (f : A -> B) :
  is_ok (let! a := wrap_err msg ans in Ok (f a)) = is_ok ans.
Proof. by destruct ans as [?|[]]. Qed.

(** A write and a delete, whatever they answer: a failure without effect, or
    the whole effect under the preconditions. *)
Lemma write_law req c c' ans :
  zed_WriteRelationships req c = (c', ans) ->
  (is_ok ans = false /\ same_relationships zed_has c c') \/
  (preconditions_hold zed_has c (v1.w_OptionalPreconditions req) /\
   (is_ok ans = true -> fresh_creates zed_has (v1.Updates req) c) /\
   updated zed_has (v1.Updates req) c c').
Proof.
  destruct ans as [token|e].
  - intros (Hpre & _ & Hfresh & Hup)%write_ok_law. by right.
  - intros [Hs|[Hpre Hup]]%write_err_law; [by left|by right].
Qed.

Lemma delete_law req c c' ans :
  zed_DeleteRelationships req c = (c', ans) ->
  (is_ok ans = false /\ same_relationships zed_has c c') \/
  (preconditions_hold zed_has c (v1.d_OptionalPreconditions req) /\
   forall r, zed_has c' r <->
     zed_has c r /\ zed_matches (v1.RelationshipFilter_ req) r = false).
Proof.
  destruct ans as [token|e].
  - intros Hd%delete_ok_law. by right.
  - intros [Hs|Hd]%delete_err_law; [by left|by right].
Qed.

Lemma tuples_written (tuples : list RelationsTuple) op c c' t :
  op <> v1.OPERATION_DELETE -> Forall spice_tuple tuples -> spice_tuple t ->
  updated zed_has ((fun tuple => {| v1.Operation_ := op;
      v1.u_Relationship := relationsTupleToSpiceDBRelationship tuple |}) <$> tuples) c c' ->
  zed_has c' (relationsTupleToSpiceDBRelationship t) <->
    t ∈ tuples \/ zed_has c (relationsTupleToSpiceDBRelationship t).
Proof.
  intros Hop Hts Ht Hup. rewrite (Hup _), written_tuples by done.
  split; [naive_solver|]. intros [?|?]; [by left|right]. split; [done|by apply not_removed].
Qed.

(** C13. The tuples that SpiceDB holds change as the interface promises.  A write
    adds its tuples and nothing else, and found none of them if it succeeds
    without upsert; a delete removes the tuples its filter matches and nothing
    else, the filter taken field by field, the relation of the subject included;
    both only if the fencing check held.  A call that fails has had this effect
    or none.  This is of tuples and filters that SpiceDB can express
    ([spice_tuple], [spice_filter]): references with a reporter and without
    reporter instance, no slash in a type, no relation that begins with "t_", no
    empty id or relation of a subject, and a type in a subject's filter. *)
Theorem spicedb_tuples_refine s s' res :
  (forall tuples upsert fencing,
     Forall spice_tuple tuples ->
     SpiceDB.CreateTuples tuples upsert fencing s = (s', res) ->
     (is_ok res = false /\ forall t, holds s' t <-> holds s t) \/
     (fence_holds (sp_client s) fencing /\
      (is_ok res = true -> upsert = false -> forall t, t ∈ tuples -> ~ holds s t) /\
      forall t, spice_tuple t -> (holds s' t <-> t ∈ tuples \/ holds s t))) /\
  (forall f fencing,
     spice_filter f ->
     SpiceDB.DeleteTuples f fencing s = (s', res) ->
     (is_ok res = false /\ forall t, holds s' t <-> holds s t) \/
     (fence_holds (sp_client s) fencing /\
      forall t, spice_tuple t -> (holds s' t <-> holds s t /\ tuple_matches f t = false))).
Proof.
  split.
  - intros tuples upsert fencing Hts [[? Hs]|(s1 & Hsame & Hk)]%initialized_step;
      [left; split; [done|intros t; apply Hs]|].
    revert Hk. simpl. destruct (zed_WriteRelationships _ _) as [c' ans] eqn:Hw.
    intros [= <- <-]. unfold holds. simpl. rewrite is_ok_answer.
    apply write_law in Hw as [[? Hs]|(Hpre & Hfresh & Hup)].
    { left. split; [done|]. intros t. by apply (same_trans _ _ _ Hsame Hs). }
    right. split_and!; [by eapply fence_same| |].
    + intros Hok -> t Hin Hold. apply (Hfresh Hok (relationsTupleToSpiceDBRelationship t)).
      * apply list_elem_of_fmap. by exists t.
      * by apply Hsame.
    + intros t Ht. rewrite <- (Hsame _). eapply tuples_written; [|done..|exact Hup].
      by destruct upsert.
  - intros f fencing Hf [[? Hs]|(s1 & Hsame & Hk)]%initialized_step;
      [left; split; [done|intros t; apply Hs]|].
    revert Hk. simpl. destruct (tupleFilterToSpiceDBFilter f) as [zf|] eqn:Hzf.
    2:{ intros [= <- <-]. left. split; [done|]. intros t. by apply Hsame. }
    destruct (zed_DeleteRelationships _ _) as [c' ans] eqn:Hd.
    intros [= <- <-]. unfold holds. simpl. rewrite is_ok_answer.
    apply delete_law in Hd as [[? Hs]|(Hpre & Hup)].
    { left. split; [done|]. intros t. by apply (same_trans _ _ _ Hsame Hs). }
    right. split; [by eapply fence_same|]. intros t Ht. simpl in Hup.
    rewrite (Hup _), (Hsame _). by rewrite (tuple_filter_matches f).
Qed.

(** ** The lock *)

(** The lock has exactly one token, or none. *)
Definition held_by c (id : LockId) (token : string) : Prop :=
  forall r, zed_matches (SpiceDB.lock_filter id) r = true ->
    (zed_has c r <-> r = SpiceDB.lock_relationship id token).

Definition unlocked c (id : LockId) : Prop :=
  forall r, zed_matches (SpiceDB.lock_filter id) r = true -> ~ zed_has c r.

Lemma lock_filter_own id token :
  zed_matches (SpiceDB.lock_filter id) (SpiceDB.lock_relationship id token) = true.
Proof.
  unfold zed_matches, any_or. simpl. rewrite (bool_decide_eq_true_2 (id = id)) by done.
  by rewrite orb_true_r.
Qed.

Lemma lock_relationship_inj id token token' :
  SpiceDB.lock_relationship id token = SpiceDB.lock_relationship id token' -> token = token'.
Proof. by intros [=]. Qed.

(** The filter of a token, in a fencing check and in the lock's replacement. *)
Definition token_filter (id : LockId) (token : string) : v1.RelationshipFilter :=
  {| v1.ResourceType := lockType; v1.OptionalResourceId := id;
     v1.OptionalRelation := addRelationPrefix lockVersionRelation relationPrefix;
     v1.OptionalSubjectFilter :=
       Some {| v1.SubjectType := lockVersionType; v1.OptionalSubjectId := token;
               v1.sf_OptionalRelation := None |} |}.

Lemma token_filter_matches id token r :
  token <> "" ->
  zed_matches (token_filter id token) r = true <->
  zed_matches (SpiceDB.lock_filter id) r = true /\
  v1.Object (v1.Subject r) = {| v1.ObjectType := lockVersionType; v1.ObjectId := token |}.
Proof.
  intros Htok. unfold zed_matches. cbn -[any_or lockType lockVersionType].
  rewrite !andb_true_r, !andb_true_iff. unfold any_or at 4.
  rewrite (bool_decide_eq_false_2 (token = "")) by done. cbn [orb].
  rewrite !bool_decide_eq_true. destruct (v1.Object (v1.Subject r)) as [ty oid]. simpl.
  split; [|naive_solver]. intros (? & ? & ?). subst. tauto.
Qed.

Lemma token_precondition c id cur token :
  held_by c id cur -> token <> "" ->
  preconditions_hold zed_has c [{| v1.must_match := token_filter id token |}] <-> token = cur.
Proof.
  intros Hheld Htok. unfold preconditions_hold. split.
  - intros Hp. destruct (Hp _ (list_elem_of_here _ _)) as (r & Hr & Hm). simpl in Hm.
    apply token_filter_matches in Hm as [Hm Hsub]; [|done].
    apply (Hheld r Hm) in Hr as ->. by simplify_eq/=.
  - intros -> p ->%list_elem_of_singleton. simpl. exists (SpiceDB.lock_relationship id cur).
    split; [by apply Hheld; [apply lock_filter_own|]|].
    apply token_filter_matches; [done|]. split; [apply lock_filter_own|done].
Qed.

(** While a lock is held, a fencing check passes for its token alone. *)
Lemma fence_holder c id cur token :
  held_by c id cur -> token <> "" ->
  fence_holds c (Some {| fc_lockId := id; fc_lockToken := token |}) <-> token = cur.
Proof. apply token_precondition. Qed.

Lemma held_same c c1 id cur :
  same_relationships zed_has c c1 -> held_by c id cur -> held_by c1 id cur.
Proof. intros Hs Hh r Hr. by rewrite (Hs r), (Hh r Hr). Qed.

(** The empty token is every holder's, and the empty lock id any lock's: SpiceDB
    takes an empty id for "any". *)
Lemma fence_empty c id cur lockId :
  held_by c id cur -> lockId = id \/ lockId = "" ->
  fence_holds c (Some {| fc_lockId := lockId; fc_lockToken := "" |}).
Proof.
  intros Hheld Hid p ->%list_elem_of_singleton. exists (SpiceDB.lock_relationship id cur).
  split; [by apply Hheld; [apply lock_filter_own|]|]. unfold zed_matches, any_or. simpl.
  destruct Hid as [-> | ->]; [|done]. by rewrite (bool_decide_eq_true_2 (id = id)), orb_true_r.
Qed.

(** C20. While a lock is held, the writes and the deletes that carry a non-empty
    token other than the holder's fail and change no relationship.  The empty
    token is not fenced: its check holds whoever holds the lock, as does the
    holder's own, and no other; with an empty lock id, as the consumer has both
    after its partitions were revoked, it holds if any lock is held. *)
Theorem stale_token_fenced s id cur :
  held_by (sp_client s) id cur ->
  (forall token tuples upsert f s' res,
     token <> "" -> token <> cur ->
     SpiceDB.CreateTuples tuples upsert
       (Some {| fc_lockId := id; fc_lockToken := token |}) s = (s', res) \/
     SpiceDB.DeleteTuples f (Some {| fc_lockId := id; fc_lockToken := token |}) s = (s', res) ->
     is_ok res = false /\ same_relationships zed_has (sp_client s) (sp_client s')) /\
  (forall token, fence_holds (sp_client s) (Some {| fc_lockId := id; fc_lockToken := token |}) <->
     token = "" \/ token = cur) /\
  fence_holds (sp_client s) (Some {| fc_lockId := ""; fc_lockToken := "" |}).
Proof.
  intros Hheld. split; [|split].
  3:{ eapply fence_empty; eauto. }
  2:{ intros token. destruct (decide (token = "")) as [->|Htok].
      - split; [by left|intros _; eapply fence_empty; eauto].
      - rewrite fence_holder by done. naive_solver. }
  intros token tuples upsert f s' res Htok Hne.
  intros [[?|(s1 & Hsame & Hk)]%initialized_step|[?|(s1 & Hsame & Hk)]%initialized_step];
    [done| |done|]; simpl in Hk; revert Hk;
    assert (~ fence_holds (sp_client s1) (Some {| fc_lockId := id; fc_lockToken := token |}))
      as Hfence by (rewrite fence_holder; [done|by eapply held_same|done]).
  - destruct (zed_WriteRelationships _ _) as [c' ans] eqn:Hw. intros [= <- <-].
    rewrite is_ok_answer. apply write_law in Hw as [[? Hs]|[? _]]; [|done].
    split; [done|by eapply same_trans].
  - destruct (tupleFilterToSpiceDBFilter f) as [zf|e]; [|by intros [= <- <-]].
    destruct (zed_DeleteRelationships _ _) as [c' ans] eqn:Hd. intros [= <- <-].
    rewrite is_ok_answer. apply delete_law in Hd as [[? Hs]|[? _]]; [|done].
    split; [done|by eapply same_trans].
Qed.

Lemma read_lock_held c id old x :
  held_by c id old -> SpiceDB.read_lock c id = Ok x -> x = Some (SpiceDB.lock_relationship id old).
Proof.
  intros Hheld. unfold SpiceDB.read_lock.
  destruct (zed_ReadRelationships _ _) as [[msgs last]|e] eqn:Hr; [|by destruct e]. simpl.
  apply read_law in Hr as (Hsound & Hcomplete & Heof). destruct msgs as [|m msgs].
  - destruct last as [e|]; [by rewrite (Heof e)|]. intros _.
    destruct (Hcomplete eq_refl (SpiceDB.lock_relationship id old)) as (m & Hm & _).
    + by apply Hheld; [apply lock_filter_own|].
    + apply lock_filter_own.
    + by apply elem_of_nil in Hm.
  - intros [= <-]. destruct (Hsound m) as (r & -> & Hr & Hm); [left|].
    by apply (Hheld r Hm) in Hr as ->.
Qed.

Lemma read_lock_unlocked c id x :
  unlocked c id -> SpiceDB.read_lock c id = Ok x -> x = None.
Proof.
  intros Hfree. unfold SpiceDB.read_lock.
  destruct (zed_ReadRelationships _ _) as [[msgs last]|e] eqn:Hr; [|by destruct e]. simpl.
  apply read_law in Hr as (Hsound & _ & Heof). destruct msgs as [|m msgs].
  - destruct last as [e|]; [by rewrite (Heof e)|]. by intros [= <-].
  - destruct (Hsound m) as (r & _ & Hr & Hm); [left|]. by apply Hfree in Hr.
Qed.

(** The replacement hands the lock over. *)
Lemma lock_handed_over c c' id old token :
  held_by c id old ->
  updated zed_has (v1.Updates (SpiceDB.lock_request id token
                                 (Some (SpiceDB.lock_relationship id old)))) c c' ->
  held_by c' id token.
Proof.
  intros Hheld Hup r Hr. rewrite (Hup r), (Hheld r Hr). simpl. unfold written, removed.
  setoid_rewrite elem_of_cons. setoid_rewrite list_elem_of_singleton.
  split; [|intros ->; left; naive_solver]. intros [(u & [-> | ->] & <- & ?)|[-> Hnot]]; [done..|].
  contradict Hnot. by left.
Qed.

Lemma written_lock id token x :
  written (v1.Updates (SpiceDB.lock_request id token x)) (SpiceDB.lock_relationship id token).
Proof.
  eexists. destruct x; simpl; split_and!; [right; left|done|done|left|done|done].
Qed.

Lemma lock_created c c' id token :
  updated zed_has (v1.Updates (SpiceDB.lock_request id token None)) c c' ->
  forall r, zed_has c' r <-> r = SpiceDB.lock_relationship id token \/ zed_has c r.
Proof.
  intros Hup r. rewrite (Hup r). simpl. unfold written, removed.
  setoid_rewrite list_elem_of_singleton. naive_solver.
Qed.

(** What other clients do to the backend: they acquire the lock themselves,
    having read it at some moment [c0] when it was held, or they change
    relationships that are not the lock's. *)
Inductive competes (id : LockId) : C -> C -> Prop :=
  | acquires c0 old seen token c c' res :
      held_by c0 id old -> old <> "" -> SpiceDB.read_lock c0 id = Ok seen ->
      SpiceDB.write_lock id token seen c = (c', res) -> competes id c c'
  | works_elsewhere c c' :
      (forall r, zed_matches (SpiceDB.lock_filter id) r = true -> (zed_has c' r <-> zed_has c r)) ->
      competes id c c'.

(** A replacement on a held lock: it fails without effect, or it was read from
    the holder and hands the lock over. *)
Lemma replaced c c' id old cur token res :
  old <> "" -> held_by c id cur ->
  SpiceDB.write_lock id token (Some (SpiceDB.lock_relationship id old)) c = (c', res) ->
  (is_ok res = false /\ held_by c' id cur) \/
  (old = cur /\ held_by c' id token /\
   (is_ok res = true -> res = Ok {| al_lockToken := token |})).
Proof.
  intros Hold Hheld. unfold SpiceDB.write_lock.
  destruct (zed_WriteRelationships _ _) as [c2 ans] eqn:Hw. intros [= <- <-].
  rewrite is_ok_answer. apply write_law in Hw as [[? Hs]|(Hpre & _ & Hup)].
  - left. split; [done|by eapply held_same].
  - right. apply (token_precondition _ _ cur) in Hpre; [|done..]. subst cur.
    split_and!; [done|by eapply lock_handed_over|by destruct ans].
Qed.

Lemma competes_held id c c' :
  rtc (competes id) c c' -> (exists cur, held_by c id cur) -> exists cur, held_by c' id cur.
Proof.
  induction 1 as [|c c1 c' Hstep _ IH]; [done|]. intros [cur Hcur]. apply IH.
  destruct Hstep as [c0 old seen token c c1 res Hheld Hold Hread Hw|c c1 Hsame].
  - apply (read_lock_held _ _ old) in Hread as ->; [|done].
    apply (replaced _ _ _ _ cur) in Hw as [[_ ?]|(_ & ? & _)]; eauto.
  - exists cur. intros r Hr. by rewrite (Hsame r Hr), (Hcur r Hr).
Qed.

(** C15. A lock that is held stays exclusive while any number of clients acquire
    it at once and others work elsewhere: after [AcquireLock] it has exactly one
    token, and if [AcquireLock] succeeds that is the token it answers with, and
    the token that it read was still the holder's when it wrote.  A client that
    read the lock while it was free is not among the competitors. *)
Theorem AcquireLock_exclusive s id token others old s' res :
  ready s -> old <> "" -> held_by (sp_client s) id old ->
  rtc (competes id) (sp_client s) (others (sp_client s)) ->
  SpiceDB.AcquireLock token others id s = (s', res) ->
  exists holder, held_by (sp_client s') id holder /\
    (is_ok res = true -> holder = token /\ res = Ok {| al_lockToken := token |} /\
       held_by (others (sp_client s)) id old).
Proof.
  intros Hready Hold Hheld Hrun Hacq. unfold SpiceDB.AcquireLock in Hacq.
  rewrite initialized_ready in Hacq by done. revert Hacq.
  destruct (SpiceDB.read_lock _ _) as [x|e] eqn:Hread.
  2:{ intros [= <- <-]. by exists old. }
  apply (read_lock_held _ _ old) in Hread as ->; [|done].
  apply competes_held in Hrun as [cur Hcur]; [|by exists old].
  destruct (SpiceDB.write_lock _ _ _ _) as [c' ans] eqn:Hw. intros [= <- <-]. simpl.
  destruct (replaced _ _ _ _ _ _ _ Hold Hcur Hw) as [[Hf ?]|(-> & ? & ?)].
  - exists cur. split; [done|]. by rewrite Hf.
  - exists token. split; [done|]. auto.
Qed.

Lemma fence_of_has c id token :
  token <> "" -> zed_has c (SpiceDB.lock_relationship id token) ->
  fence_holds c (Some {| fc_lockId := id; fc_lockToken := token |}).
Proof.
  intros Htok Hhas p ->%list_elem_of_singleton. exists (SpiceDB.lock_relationship id token).
  split; [done|]. apply token_filter_matches; [done|]. split; [apply lock_filter_own|done].
Qed.

(** The backend is up: it takes every write that it may take, and reads to the
    end. *)
Definition serves : Prop :=
  (forall req c,
     preconditions_hold zed_has c (v1.w_OptionalPreconditions req) ->
     NoDup (v1.u_Relationship <$> v1.Updates req) -> fresh_creates zed_has (v1.Updates req) c ->
     is_ok (zed_WriteRelationships req c).2 = true) /\
  (forall c f, exists msgs,
     zed_ReadRelationships c {| v1.rd_Consistency := v1.FullyConsistent; v1.rd_Filter := f;
                                v1.rd_OptionalLimit := 0; v1.rd_OptionalCursor := None |}
     = Ok (msgs, None)).

(** A token that is not there yet is added to a lock that was read as free,
    whoever holds it by now. *)
Lemma free_lock_acquired s id token others :
  serves -> ready s -> unlocked (sp_client s) id ->
  ~ zed_has (others (sp_client s)) (SpiceDB.lock_relationship id token) ->
  exists s', SpiceDB.AcquireLock token others id s = (s', Ok {| al_lockToken := token |}) /\
    forall r, zed_has (sp_client s') r <->
      r = SpiceDB.lock_relationship id token \/ zed_has (others (sp_client s)) r.
Proof.
  intros [Hwrite Hread] Hready Hfree Hnew. unfold SpiceDB.AcquireLock.
  rewrite initialized_ready by done.
  destruct (SpiceDB.read_lock (sp_client s) id) as [x|e] eqn:Hr.
  2:{ revert Hr. unfold SpiceDB.read_lock. destruct (Hread (sp_client s) (SpiceDB.lock_filter id))
        as [[|m msgs] ->]; done. }
  apply read_lock_unlocked in Hr as ->; [|done]. unfold SpiceDB.write_lock.
  pose proof (Hwrite (SpiceDB.lock_request id token None) (others (sp_client s))) as Hok.
  destruct (zed_WriteRelationships _ _) as [c' [t|e]] eqn:Hw.
  - apply write_ok_law in Hw as (_ & _ & _ & Hup). eexists. split; [done|]. by apply lock_created.
  - discriminate Hok.
    + by intros p ?%elem_of_nil.
    + apply NoDup_singleton.
    + intros r Hin%list_elem_of_singleton. by simplify_eq.
Qed.

(** C37. A free lock is not protected.  Two clients find the lock free; one
    acquires it and is its only holder; then the other, whose read was before
    that, acquires it too: both are told that they succeeded, and the fencing
    check holds for both tokens.  The backend is up, and the tokens drawn are
    two. *)
Theorem first_lock_race s1 s2 id token1 token2 :
  serves -> ready s1 -> ready s2 -> sp_client s1 = sp_client s2 ->
  unlocked (sp_client s1) id -> token1 <> "" -> token2 <> "" -> token1 <> token2 ->
  exists s1' s2',
    SpiceDB.AcquireLock token1 (fun c => c) id s1 = (s1', Ok {| al_lockToken := token1 |}) /\
    held_by (sp_client s1') id token1 /\
    SpiceDB.AcquireLock token2 (fun _ => sp_client s1') id s2
      = (s2', Ok {| al_lockToken := token2 |}) /\
    fence_holds (sp_client s2') (Some {| fc_lockId := id; fc_lockToken := token1 |}) /\
    fence_holds (sp_client s2') (Some {| fc_lockId := id; fc_lockToken := token2 |}).
Proof.
  intros Hup Hr1 Hr2 Hshared Hfree Ht1 Ht2 Hne.
  destruct (free_lock_acquired s1 id token1 (fun c => c)) as (s1' & Ha1 & Hhas1); [done..| |].
  { apply Hfree, lock_filter_own. }
  assert (held_by (sp_client s1') id token1) as Hheld.
  { intros r Hr. rewrite Hhas1. pose proof (Hfree r Hr). naive_solver. }
  destruct (free_lock_acquired s2 id token2 (fun _ => sp_client s1')) as (s2' & Ha2 & Hhas2);
    [done|done|by rewrite <- Hshared| |].
  { intros Hin. apply Hheld in Hin; [|apply lock_filter_own].
    by apply lock_relationship_inj in Hin. }
  exists s1', s2'. split_and!; [done..| |]; (apply fence_of_has; [done|]); rewrite Hhas2, ?Hhas1; auto.
Qed.
End Repository.
