(* ===== verification/SpiceDBZed.v ===== *)
(** A small store that satisfies the laws of SpiceDB, and the repository over
    it on concrete tuples and locks. *)
From stdpp Require Import base tactics list strings gmap.
From Stdlib Require Import ZArith Lia Ascii.
From S2P Require Import Prelude GoStrings Common ReporterResource Relations RelationsRepo SpiceDB SpiceDBProps.

Local Open Scope string_scope.

(** * A store that keeps the promises

    The relationships as a list; checks and lookups, which depend on the
    schema, answer nothing. *)
Module Zed.
Abbreviation store := (list v1.Relationship).

Definition holds_all (c : store) (ps : list v1.Precondition) : bool :=
  forallb (fun p => existsb (zed_matches (v1.must_match p)) c) ps.

Definition fresh (c : store) (us : list v1.RelationshipUpdate) : bool :=
  forallb (fun u => match v1.Operation_ u with
                    | v1.OPERATION_CREATE => negb (bool_decide (v1.u_Relationship u ∈ c))
                    | _ => true
                    end) us.

Definition additions (us : list v1.RelationshipUpdate) : store :=
  v1.u_Relationship <$>
    List.filter (fun u => match v1.Operation_ u with v1.OPERATION_DELETE => false | _ => true end) us.

Definition deletions (us : list v1.RelationshipUpdate) : store :=
  v1.u_Relationship <$>
    List.filter (fun u => match v1.Operation_ u with v1.OPERATION_DELETE => true | _ => false end) us.

Definition write (req : v1.WriteRelationshipsRequest) (c : store) : store * result string :=
  let us := v1.Updates req in
  if holds_all c (v1.w_OptionalPreconditions req)
     && bool_decide (NoDup (v1.u_Relationship <$> us)) && fresh c us
  then ((additions us ++ List.filter (fun r => negb (bool_decide (r ∈ deletions us))) c)%list,
        Ok "written")
  else (c, Err (EMsg "precondition failed")).

Definition delete (req : v1.DeleteRelationshipsRequest) (c : store) : store * result string :=
  if holds_all c (v1.d_OptionalPreconditions req)
  then (List.filter (fun r => negb (zed_matches (v1.RelationshipFilter_ req) r)) c, Ok "deleted")
  else (c, Err (EMsg "precondition failed")).

Definition read (c : store) (req : v1.ReadRelationshipsRequest)
    : result (stream v1.ReadRelationshipsResponse) :=
  Ok ((fun r => {| v1.rd_Relationship := Some r; v1.rd_AfterResultCursor := None;
                   v1.ReadAt := "read" |}) <$> List.filter (zed_matches (v1.rd_Filter req)) c,
      None).

#[export] Instance client : SpiceDBClient store := {|
  zed_WriteSchema _ c := (c, Ok tt);
  zed_Health _ := Ok v1.SERVING;
  zed_CheckPermission _ _ :=
    Ok {| v1.Permissionship_ := v1.NO_PERMISSION; v1.CheckedAt := "checked" |};
  zed_CheckBulkPermissions _ _ := Ok {| v1.b_Pairs := []; v1.b_CheckedAt := "checked" |};
  zed_LookupResources _ _ := Ok ([], None);
  zed_LookupSubjects _ _ := Ok ([], None);
  zed_WriteRelationships := write;
  zed_DeleteRelationships := delete;
  zed_ReadRelationships := read;
|}.

Lemma holds_all_spec c ps :
  holds_all c ps = true -> preconditions_hold (fun c r => r ∈ c) c ps.
Proof.
  intros Hp p Hin. unfold holds_all in Hp. rewrite forallb_forall in Hp.
  apply list_elem_of_In, Hp, existsb_exists in Hin as (r & Hr%list_elem_of_In & Hm). eauto.
Qed.

Lemma fresh_spec c us : fresh c us = true -> fresh_creates (fun c r => r ∈ c) us c.
Proof.
  intros Hf r Hin. unfold fresh in Hf. rewrite forallb_forall in Hf.
  apply list_elem_of_In, Hf in Hin. simpl in Hin. by case_bool_decide.
Qed.

Lemma elem_of_List_filter {A} (f : A -> bool) l x :
  x ∈ List.filter f l <-> x ∈ l /\ f x = true.
Proof. by rewrite !list_elem_of_In, filter_In. Qed.

Lemma additions_spec us r : r ∈ additions us <-> written us r.
Proof.
  unfold additions, written. rewrite list_elem_of_fmap. setoid_rewrite elem_of_List_filter. split.
  - intros (u & -> & Hin & Hop). exists u. by destruct (v1.Operation_ u).
  - intros (u & Hin & <- & Hop). exists u. by destruct (v1.Operation_ u).
Qed.

Lemma deletions_spec us r : r ∈ deletions us <-> removed us r.
Proof.
  unfold deletions, removed. rewrite list_elem_of_fmap. setoid_rewrite elem_of_List_filter. split.
  - intros ([op r'] & -> & Hin & Hop). simpl in *. by destruct op.
  - intros Hin. by eexists {| v1.Operation_ := v1.OPERATION_DELETE; v1.u_Relationship := r |}.
Qed.

#[export] Program Instance laws : SpiceDBLaws store := {| zed_has c r := r ∈ c |}.
Next Obligation. done. Qed.
Next Obligation.
  simpl. unfold write. intros req c c' token. case_match eqn:Hg; [|done]. intros [= <- _].
  apply andb_true_iff in Hg as [[Hp Hnd]%andb_true_iff Hf].
  split_and!; [by apply holds_all_spec|by apply bool_decide_eq_true in Hnd|by apply fresh_spec|].
  intros r. rewrite elem_of_app, additions_spec, elem_of_List_filter, negb_true_iff,
    bool_decide_eq_false, deletions_spec. tauto.
Qed.
Next Obligation. simpl. unfold write. intros req c c' e. case_match; intros [= <- _]. by left. Qed.
Next Obligation.
  simpl. unfold delete. intros req c c' token. case_match; [|done]. intros [= <- _].
  split; [by apply holds_all_spec|]. intros r. by rewrite elem_of_List_filter, negb_true_iff.
Qed.
Next Obligation. simpl. unfold delete. intros req c c' e. case_match; intros [= <- _]. by left. Qed.
Next Obligation.
  simpl. unfold read. intros c f msgs last [= <- <-]. split_and!; [| |done].
  - intros m (r & -> & Hin)%list_elem_of_fmap. apply elem_of_List_filter in Hin as [Hin Hm].
    by exists r.
  - intros _ r Hin Hm. eexists. split; [|shelve]. apply list_elem_of_fmap. exists r.
    split; [done|]. by apply elem_of_List_filter.
    Unshelve. done.
Qed.

Lemma store_serves : serves (C := store).
Proof.
  split; [|by eexists]. intros req c Hp Hnd Hf. simpl. unfold write.
  assert (holds_all c (v1.w_OptionalPreconditions req) = true) as ->.
  { apply forallb_forall. intros p Hin%list_elem_of_In. apply existsb_exists.
    destruct (Hp p Hin) as (r & Hr & Hm). exists r. by rewrite <- list_elem_of_In. }
  assert (fresh c (v1.Updates req) = true) as ->.
  { apply forallb_forall. intros [[] r] Hin%list_elem_of_In; [|done..]. simpl.
    rewrite bool_decide_eq_false_2; [done|]. by apply Hf. }
  by rewrite bool_decide_eq_true_2.
Qed.

Definition repo (c : store) : SpiceDBRelationsRepository store :=
  mkSpiceDB c (Some None) (Ok "schema") false.
End Zed.
#[local] Existing Instances Zed.client Zed.laws.

Definition ex_host (id : string) : ResourceReference :=
  NewResourceReference "host" id (Some (NewReporterReference "hbi" None)).
Definition ex_member : RelationsTuple := {|
  tup_object := ex_host "h1"; tup_relation := "workspace";
  tup_subject := NewSubjectReferenceWithoutRelation
    (NewResourceReference "workspace" "w1" (Some (NewReporterReference "rbac" None))) |}.

Lemma ex_member_spice : spice_tuple ex_member.
Proof. repeat split; [exists "hbi"|exists "rbac"|]; done. Qed.

Definition ex_by_object : TupleFilter :=
  WithObjectId (WithReporterType (WithObjectType NewTupleFilter "host") "hbi") "h1".

Lemma ex_by_object_spice : spice_filter ex_by_object.
Proof. repeat split; [right; by exists "hbi", "host"|done..]. Qed.

Definition ex_empty : SpiceDBRelationsRepository _ := Zed.repo [].
Definition ex_written := SpiceDB.CreateTuples [ex_member] false None ex_empty.
Definition ex_removed := SpiceDB.DeleteTuples ex_by_object None ex_written.1.

Lemma spicedb_tuples_refine_witness :
  holds ex_written.1 ex_member /\ ~ holds ex_removed.1 ex_member.
Proof.
  split.
  - destruct (proj1 (spicedb_tuples_refine ex_empty ex_written.1 ex_written.2) [ex_member] false
      None) as [[Hf _]|(_ & _ & Hadded)].
    + by constructor; [apply ex_member_spice|].
    + apply surjective_pairing.
    + vm_compute in Hf. discriminate Hf.
    + apply Hadded; [apply ex_member_spice|left; left].
  - destruct (proj2 (spicedb_tuples_refine ex_written.1 ex_removed.1 ex_removed.2) ex_by_object
      None ex_by_object_spice (surjective_pairing _)) as [[Hf _]|(_ & Hremoved)].
    + vm_compute in Hf. discriminate Hf.
    + rewrite (Hremoved ex_member ex_member_spice). intros [_ Hm]. vm_compute in Hm. discriminate Hm.
Defined.

(** The lock [l1], held with the token [a]. *)
Definition ex_locked : SpiceDBRelationsRepository _ :=
  Zed.repo [SpiceDB.lock_relationship "l1" "a"].

Lemma ex_locked_held : held_by (sp_client ex_locked) "l1" "a".
Proof. intros r _. simpl. apply list_elem_of_singleton. Qed.

Lemma stale_token_fenced_witness :
  let stale := SpiceDB.CreateTuples [ex_member] true
    (Some {| fc_lockId := "l1"; fc_lockToken := "b" |}) ex_locked in
  is_ok stale.2 = false /\ same_relationships zed_has (sp_client ex_locked) (sp_client stale.1) /\
  fence_holds (sp_client ex_locked) (Some {| fc_lockId := "l1"; fc_lockToken := "" |}).
Proof.
  destruct (stale_token_fenced ex_locked "l1" "a" ex_locked_held) as (Hstale & Hfence & _).
  intros stale. apply and_assoc. split; [|apply Hfence; by left].
  by apply (Hstale "b" [ex_member] true NewTupleFilter); [..|left; apply surjective_pairing].
Defined.

(** Another client that read the token [a] takes the lock with [c] in between. *)
Definition ex_taken (c : list v1.Relationship) : list v1.Relationship :=
  (SpiceDB.write_lock "l1" "c" (Some (SpiceDB.lock_relationship "l1" "a")) c).1.

Lemma ex_taken_competes c : competes "l1" c (ex_taken c).
Proof.
  eapply (acquires "l1" (sp_client ex_locked) "a" (Some (SpiceDB.lock_relationship "l1" "a")) "c"
    c _ _ ex_locked_held); [done|vm_compute; reflexivity|apply surjective_pairing].
Qed.

Lemma AcquireLock_exclusive_witness :
  let acquire others := SpiceDB.AcquireLock "b" others "l1" ex_locked in
  held_by (sp_client (acquire (fun c => c)).1) "l1" "b" /\
  (exists holder, held_by (sp_client (acquire ex_taken).1) "l1" holder) /\
  is_ok (acquire ex_taken).2 = false.
Proof.
  split_and!; [| |vm_compute; reflexivity].
  - destruct (AcquireLock_exclusive ex_locked "l1" "b" (fun c => c) "a" _ _ eq_refl
      ltac:(done) ex_locked_held (rtc_refl _ _) (surjective_pairing _)) as (holder & Hh & Hok).
    destruct (Hok ltac:(vm_compute; reflexivity)) as (-> & _). exact Hh.
  - destruct (AcquireLock_exclusive ex_locked "l1" "b" ex_taken "a" _ _ eq_refl
      ltac:(done) ex_locked_held (rtc_once _ _ (ex_taken_competes _)) (surjective_pairing _))
      as (holder & Hh & _). by exists holder.
Defined.

Lemma ex_empty_unlocked : unlocked (sp_client ex_empty) "l1".
Proof. intros r _. apply not_elem_of_nil. Qed.

Lemma first_lock_race_witness :
  exists s1' s2' : SpiceDBRelationsRepository (list v1.Relationship),
    SpiceDB.AcquireLock "a" (fun c => c) "l1" ex_empty = (s1', Ok {| al_lockToken := "a" |}) /\
    SpiceDB.AcquireLock "b" (fun _ => sp_client s1') "l1" ex_empty
      = (s2', Ok {| al_lockToken := "b" |}) /\
    fence_holds (sp_client s2') (Some {| fc_lockId := "l1"; fc_lockToken := "a" |}) /\
    fence_holds (sp_client s2') (Some {| fc_lockId := "l1"; fc_lockToken := "b" |}).
Proof.
  destruct (first_lock_race ex_empty ex_empty "l1" "a" "b" Zed.store_serves eq_refl eq_refl
    eq_refl ex_empty_unlocked) as (s1' & s2' & H1 & _ & H2 & H3 & H4); [done..|].
  by exists s1', s2'.
Defined.
