(* ===== verification/RelationsConfig.v ===== *)
(** The choice of the relations repository: internal/config/relations, its
    packages kessel and spicedb, internal/data/relations_repository_factory.go
    and the constructors of the two remote repositories.

    The file system, the gRPC and SpiceDB dialers, the system's certificates
    and the meter are parameters, each with the error it may return. *)
From stdpp Require Import base tactics list strings gmap.
From Stdlib Require Import ZArith Lia Ascii.
From S2P Require Import Prelude GoStrings Common Relations GRPCRelations.

Local Open Scope string_scope.

(** * Options and configuration of a Relations API (kessel) *)
Module kessel.
Record Options := {
  URL : string;
  Insecure : bool;
  EnableOidcAuth : bool;
  ClientId : string;
  ClientSecret : string;
  TokenEndpoint : string;
}.

Definition NewOptions : Options :=
  {| URL := ""; Insecure := false; EnableOidcAuth := true; ClientId := ""; ClientSecret := "";
     TokenEndpoint := "" |}.

Definition Validate (o : Options) : list go_error :=
  if bool_decide (URL o = "") then [EMsg "kessel url may not be empty"] else [].

(** [Config] embeds the options, which may be nil. *)
Definition Config : Type := option Options.
Definition NewConfig (o : option Options) : Config := o.

Record TokenClientConfig := {
  clientId : string;
  clientSecret : string;
  url : string;
  enableOIDCAuth : bool;
  insecure : bool;
}.

(** The connection, by its address and whether it has transport security. *)
Record completedConfig := { grpcConn : string * bool; tokenConfig : TokenClientConfig }.
End kessel.

(** * Options and configuration of SpiceDB (spicedb) *)
Module spicedb.
Record Options := {
  Endpoint : string;
  Token : string;
  TokenFile : string;
  SchemaFile : string;
  UseTLS : bool;
  FullyConsistent : bool;
}.

Definition NewOptions : Options :=
  {| Endpoint := ""; Token := ""; TokenFile := ""; SchemaFile := ""; UseTLS := true;
     FullyConsistent := false |}.

Definition Validate (o : Options) : list go_error :=
  ((if bool_decide (Endpoint o = "") then [EMsg "spicedb endpoint may not be empty"] else [])
   ++ (if bool_decide (Token o = "") && bool_decide (TokenFile o = "")
       then [EMsg "either spicedb token or token-file must be provided"] else [])
   ++ (if bool_decide (SchemaFile o = "")
       then [EMsg "spicedb schema-file may not be empty"] else []))%list.

Definition Config : Type := option Options.
Definition NewConfig (o : option Options) : Config := o.

(** [CompletedConfig] embeds the same options. *)
Definition Complete (c : Config) : Config * list go_error := (c, []).
End spicedb.

(** * The choice *)

Record RelationsOptions := {
  ro_Authz : string;
  ro_Kessel : option kessel.Options;
  ro_SpiceDB : option spicedb.Options;
}.

Definition AllowAll : string := "allow-all".
Definition Kessel : string := "kessel".
Definition SpiceDB : string := "spicedb".

Definition NewRelationsOptions : RelationsOptions :=
  {| ro_Authz := AllowAll; ro_Kessel := Some kessel.NewOptions;
     ro_SpiceDB := Some spicedb.NewOptions |}.

Definition invalid_impl (impl : string) : go_error :=
  EMsg ("invalid authz.impl: " +:+ impl +:+ ".  Options are 'allow-all', 'kessel', and 'spicedb'").

Definition ValidateRelations (o : RelationsOptions) : list go_error :=
  ((if bool_decide (ro_Authz o ∈ [AllowAll; Kessel; SpiceDB]) then []
    else [invalid_impl (ro_Authz o)])
   ++ (if bool_decide (ro_Authz o = Kessel)
       then match ro_Kessel o with
            | None => [EMsg "authz.kessel config is required"]
            | Some k => kessel.Validate k
            end
       else [])
   ++ (if bool_decide (ro_Authz o = SpiceDB)
       then match ro_SpiceDB o with
            | None => [EMsg "authz.spicedb config is required"]
            | Some s => spicedb.Validate s
            end
       else []))%list.

(** [cfg.Kessel] and [cfg.SpiceDB] are nil unless they are chosen. *)
Record RelationsConfig := {
  rc_Authz : string;
  rc_Kessel : option kessel.Config;
  rc_SpiceDB : option spicedb.Config;
}.

Definition NewRelationsConfig (o : RelationsOptions) : RelationsConfig :=
  {| rc_Authz := ro_Authz o;
     rc_Kessel := if bool_decide (ro_Authz o = Kessel)
                  then Some (kessel.NewConfig (ro_Kessel o)) else None;
     rc_SpiceDB := if bool_decide (ro_Authz o = SpiceDB)
                   then Some (spicedb.NewConfig (ro_SpiceDB o)) else None |}.

(** The completed configurations hold pointers, nil when not set. *)
Record completedRelations := {
  cc_Authz : string;
  cc_Kessel : option kessel.completedConfig;
  cc_SpiceDB : spicedb.Config;
}.

Definition nil_deref : go_error := EPanic "invalid memory address or nil pointer dereference".

Class Environment := {
  os_ReadFile : string -> result string;
  grpc_NewClient : string -> bool -> option go_error;
  system_certs : option go_error;
  authzed_NewClient : string -> string -> bool -> option go_error;
  meter_Int64Counter : string -> option go_error;
}.

(** [if err != nil { return fmt.Errorf(msg, err) }; k] *)
Definition unless_error {A} (err : option go_error) (f : go_error -> go_error) (k : result A)
    : result A :=
  match err with Some err => Err (f err) | None => k end.

(** The repository that was built. *)
Inductive relations_impl :=
  | AllowAllRelations
  | GRPCRelations (conn : string * bool) (tokens : tokenClient)
  | SpiceDBRelations (endpoint token : string) (tls : bool) (schemaFile : string)
      (fullyConsistent : bool).

Section Build.
Context `{Environment}.

(** [kessel.Config.Complete]: reads its options through the pointer; the error
    of the certificates is dropped. *)
Definition kessel_Complete (c : kessel.Config)
    : result (option kessel.completedConfig * list go_error) :=
  match c with
  | None => Err nil_deref
  | Some o =>
      match grpc_NewClient (kessel.URL o) (negb (kessel.Insecure o)) with
      | Some err => Ok (None, [err])
      | None =>
          Ok (Some {| kessel.grpcConn := (kessel.URL o, negb (kessel.Insecure o));
                      kessel.tokenConfig :=
                        {| kessel.clientId := kessel.ClientId o;
                           kessel.clientSecret := kessel.ClientSecret o;
                           kessel.url := kessel.TokenEndpoint o;
                           kessel.enableOIDCAuth := kessel.EnableOidcAuth o;
                           kessel.insecure := kessel.Insecure o |} |}, [])
      end
  end.

(** [Config.Complete]: the errors of the Relations API's configuration are not
    returned. *)
Definition CompleteRelations (c : RelationsConfig)
    : result (option completedRelations * list go_error) :=
  let! ksl :=
    (if bool_decide (rc_Authz c = Kessel) then
       let! r := match rc_Kessel c with None => Err nil_deref | Some k => kessel_Complete k end in
       Ok (if bool_decide (r.2 <> []) then None else Some r.1)
     else Ok (Some None)) in
  match ksl with
  | None => Ok (None, [])
  | Some ksl =>
      if bool_decide (rc_Authz c = SpiceDB) then
        match rc_SpiceDB c with
        | None => Ok (None, [EMsg "authz.spicedb config is required"])
        | Some sdb =>
            let '(sdb, errs) := spicedb.Complete sdb in
            if bool_decide (errs <> []) then Ok (None, errs)
            else Ok (Some {| cc_Authz := rc_Authz c; cc_Kessel := ksl; cc_SpiceDB := sdb |}, [])
        end
      else Ok (Some {| cc_Authz := rc_Authz c; cc_Kessel := ksl; cc_SpiceDB := None |}, [])
  end.

Definition CheckRelationsImpl (config : option completedRelations) : result string :=
  match config with
  | None => Err nil_deref
  | Some c => Ok (if bool_decide (cc_Authz c ∈ [AllowAll; Kessel; SpiceDB])
                  then cc_Authz c else "unknown")
  end.

Definition NewTokenClient (config : kessel.TokenClientConfig) : tokenClient :=
  {| ClientID := kessel.clientId config; ClientSecret := kessel.clientSecret config;
     URL := kessel.url config; EnableOIDCAuth := kessel.enableOIDCAuth config;
     Insecure := kessel.insecure config; cache := ∅ |}.

Definition NewGRPCRelationsRepository (config : option kessel.completedConfig)
    : result relations_impl :=
  match config with
  | None => Err nil_deref
  | Some c =>
      unless_error (meter_Int64Counter "inventory_relations_api_success")
        (EWrap "failed to create success counter")
        (unless_error (meter_Int64Counter "inventory_relations_api_failure")
           (EWrap "failed to create failure counter")
           (Ok (GRPCRelations (kessel.grpcConn c) (NewTokenClient (kessel.tokenConfig c)))))
  end.

Definition NewSpiceDBRelationsRepository (config : spicedb.Options) : result relations_impl :=
  let! token :=
    (if bool_decide (spicedb.TokenFile config <> "")
     then wrap_err "error creating spicedb client: error loading token file"
            (os_ReadFile (spicedb.TokenFile config))
     else Ok (spicedb.Token config)) in
  if bool_decide (token = "") then Err (EMsg "error creating spicedb client: token is empty")
  else
    unless_error (if spicedb.UseTLS config then system_certs else None)
      (EWrap "error loading system CA certs for spicedb client")
    (unless_error (authzed_NewClient (spicedb.Endpoint config) token (spicedb.UseTLS config))
      (EWrap "error creating spicedb client")
    (unless_error (grpc_NewClient (spicedb.Endpoint config) (spicedb.UseTLS config))
      (EWrap "error creating grpc health client")
    (unless_error (meter_Int64Counter "inventory_spicedb_success")
      (EWrap "failed to create success counter")
    (unless_error (meter_Int64Counter "inventory_spicedb_failure")
      (EWrap "failed to create failure counter")
      (Ok (SpiceDBRelations (spicedb.Endpoint config) token (spicedb.UseTLS config)
             (spicedb.SchemaFile config) (spicedb.FullyConsistent config))))))).

(** [NewSpiceDBConfigFromCompleted] copies the fields, through the pointer. *)
Definition NewSpiceDBConfigFromCompleted (c : spicedb.Config) : result spicedb.Options :=
  match c with None => Err nil_deref | Some o => Ok o end.

Definition NewRelationsRepository (config : option completedRelations) : result relations_impl :=
  match config with
  | None => Err nil_deref
  | Some c =>
      if bool_decide (cc_Authz c = AllowAll) then Ok AllowAllRelations
      else if bool_decide (cc_Authz c = Kessel) then NewGRPCRelationsRepository (cc_Kessel c)
      else if bool_decide (cc_Authz c = SpiceDB) then
        let! sdb := NewSpiceDBConfigFromCompleted (cc_SpiceDB c) in
        wrap_err "error creating spicedb relations repository" (NewSpiceDBRelationsRepository sdb)
      else Err (EMsg ("unrecognized relations implementation: " +:+ cc_Authz c))
  end.

(** What [serve] does with the options; an aggregate of errors is represented
    by its first. *)
Definition build_relations (o : RelationsOptions) : result relations_impl :=
  match ValidateRelations o with
  | err :: _ => Err err
  | [] =>
      let! completed := CompleteRelations (NewRelationsConfig o) in
      match completed.2 with
      | err :: _ => Err err
      | [] => NewRelationsRepository completed.1
      end
  end.

(** The token that a SpiceDB configuration stands for: the file wins. *)
Definition spicedb_token (o : spicedb.Options) : result string :=
  if bool_decide (spicedb.TokenFile o <> "") then os_ReadFile (spicedb.TokenFile o)
  else Ok (spicedb.Token o).

Lemma validated_kessel o :
  ro_Authz o = Kessel -> ValidateRelations o = [] ->
  exists k, ro_Kessel o = Some k /\ kessel.URL k <> "".
Proof.
  intros He. unfold ValidateRelations. rewrite He. simpl.
  destruct (ro_Kessel o) as [k|]; simpl; [|done]. rewrite app_nil_r. unfold kessel.Validate.
  case_bool_decide; [done|]. eauto.
Qed.

Lemma validated_spicedb o :
  ro_Authz o = SpiceDB -> ValidateRelations o = [] ->
  exists s, ro_SpiceDB o = Some s.
Proof.
  intros He. unfold ValidateRelations. rewrite He. simpl.
  destruct (ro_SpiceDB o) as [s|]; simpl; [|done]. eauto.
Qed.

Lemma validated_impl o :
  ValidateRelations o = [] -> ro_Authz o ∈ [AllowAll; Kessel; SpiceDB].
Proof. unfold ValidateRelations. by case_bool_decide. Qed.

(** Options that pass validation build the repository they name, with the
    settings they give; the one failure that is lost is the Relations API's
    connection: when it cannot be created the error is dropped and the nil
    configuration is dereferenced, so the process panics. *)
Theorem relations_built o :
  ValidateRelations o = [] ->
  (ro_Authz o = AllowAll /\ build_relations o = Ok AllowAllRelations) \/
  (exists k, ro_Authz o = Kessel /\ ro_Kessel o = Some k /\
     match grpc_NewClient (kessel.URL k) (negb (kessel.Insecure k)) with
     | Some _ => build_relations o = Err nil_deref
     | None => forall impl, build_relations o = Ok impl ->
         impl = GRPCRelations (kessel.URL k, negb (kessel.Insecure k))
           {| ClientID := kessel.ClientId k; ClientSecret := kessel.ClientSecret k;
              URL := kessel.TokenEndpoint k; EnableOIDCAuth := kessel.EnableOidcAuth k;
              Insecure := kessel.Insecure k; cache := ∅ |}
     end) \/
  (exists s, ro_Authz o = SpiceDB /\ ro_SpiceDB o = Some s /\
     forall impl, build_relations o = Ok impl ->
       exists token, spicedb_token s = Ok token /\ token <> "" /\
         impl = SpiceDBRelations (spicedb.Endpoint s) token (spicedb.UseTLS s)
                  (spicedb.SchemaFile s) (spicedb.FullyConsistent s)).
Proof.
  intros Hv. pose proof (validated_impl o Hv) as Hin. unfold build_relations. rewrite Hv.
  unfold CompleteRelations. cbn [NewRelationsConfig rc_Authz rc_Kessel rc_SpiceDB].
  rewrite !elem_of_cons, elem_of_nil in Hin. destruct Hin as [He|[He|[He|[]]]].
  - left. rewrite He. done.
  - right; left. destruct (validated_kessel o He Hv) as (k & Hk & _). exists k. rewrite He, Hk.
    simpl. destruct (grpc_NewClient _ _) as [e|]; simpl; [done|].
    split_and!; [done..|]. intros impl. unfold unless_error. repeat case_match; by intros [= <-].
  - right; right. destruct (validated_spicedb o He Hv) as (s & Hs). exists s. rewrite He, Hs. simpl.
    split_and!; [done..|]. intros impl [= Hb%wrap_err_ok]. revert Hb.
    unfold NewSpiceDBRelationsRepository, spicedb_token, unless_error.
    case_bool_decide; [destruct (os_ReadFile _) as [token|e]; [|by destruct e]|]; simpl;
      (case_bool_decide; [done|]); repeat case_match; intros [= <-]; eauto.
Qed.
End Build.

Lemma relations_built_witness :
  let env := {| os_ReadFile _ := Ok "secret"; grpc_NewClient _ _ := Some (EMsg "bad target");
                system_certs := None; authzed_NewClient _ _ _ := None;
                meter_Int64Counter _ := None |} in
  let o := {| ro_Authz := Kessel;
              ro_Kessel := Some {| kessel.URL := "%zz"; kessel.Insecure := true;
                                   kessel.EnableOidcAuth := false; kessel.ClientId := "";
                                   kessel.ClientSecret := ""; kessel.TokenEndpoint := "" |};
              ro_SpiceDB := None |} in
  @build_relations env o = Err nil_deref.
Proof.
  intros env o. destruct (@relations_built env o eq_refl)
    as [[He _]|[(k & _ & Hk & Hb)|(s & He & _)]]; [discriminate He| |discriminate He].
  exact Hb.
Defined.
