(* ===== verification/DeleteJob.v ===== *)
(** cmd/jobs/resource_delete_job.go: the batch deletion of the resources of a
    type and a reporter, over the tables of [Tables].

    The statements of the job run outside a transaction, so every batch that
    was deleted stays deleted; [exec_error n] is the error of the [n]-th
    statement, if it fails.  SELECT ... LIMIT yields some of the matching rows:
    [pick] chooses them.  Sleeps and logs are dropped. *)
From stdpp Require Import base tactics list strings gmap.
From Stdlib Require Import ZArith Lia Ascii.
From S2P Require Import Prelude GoStrings Common ReporterResource Representations Resource.
From S2P Require Import Json DataModel Outbox Store Tables StoreProps.

Local Open Scope string_scope.

Definition DefaultBatchSize : Z := 5000.
Definition DefaultBatchDelay : Z := 1000.

(** [LIMIT] refuses a negative count. *)
Definition negative_limit : go_error := EPg "2201W".

(** ** The three tables *)

Definition with_reporter_resources (d : Tables) (rrs : list ReporterResourceRow)
    (reps : list ReporterRepresentationRow) : Tables :=
  {| tb_resources := tb_resources d; tb_reporter_resources := rrs;
     tb_reporter_representations := reps;
     tb_common_representations := tb_common_representations d; tb_emitted := tb_emitted d;
     tb_error := tb_error d |}.

Definition with_common (d : Tables) (cs : list CommonRepresentationRow) : Tables :=
  {| tb_resources := tb_resources d; tb_reporter_resources := tb_reporter_resources d;
     tb_reporter_representations := tb_reporter_representations d;
     tb_common_representations := cs; tb_emitted := tb_emitted d; tb_error := tb_error d |}.

Definition with_resources (d : Tables) (rs : list ResourceRow) : Tables :=
  {| tb_resources := rs; tb_reporter_resources := tb_reporter_resources d;
     tb_reporter_representations := tb_reporter_representations d;
     tb_common_representations := tb_common_representations d; tb_emitted := tb_emitted d;
     tb_error := tb_error d |}.

(** A phase of the job: the table it counts, the rows it selects, and DELETE of
    the rows with the keys of a selection. *)
Record phase (A : Type) := {
  ph_rows : Tables -> list A;
  ph_match : A -> bool;
  ph_delete : list A -> Tables -> Tables;
}.
Arguments ph_rows {A}.
Arguments ph_match {A}.
Arguments ph_delete {A}.

(** [ON DELETE CASCADE] takes the representations along. *)
Definition reporter_resources_phase (resourceType reporterType : string)
    : phase ReporterResourceRow := {|
  ph_rows := tb_reporter_resources;
  ph_match r := bool_decide (rrw_ResourceType r = resourceType)
                && bool_decide (rrw_ReporterType r = reporterType);
  ph_delete sel d :=
    let ids := rrw_ID <$> sel in
    with_reporter_resources d
      (filter (fun r => rrw_ID r ∉ ids) (tb_reporter_resources d))
      (filter (fun p => rpw_ReporterResourceID p ∉ ids) (tb_reporter_representations d));
|}.

Definition common_phase (reporterType : string) : phase CommonRepresentationRow := {|
  ph_rows := tb_common_representations;
  ph_match c := bool_decide (cw_ReportedByReporterType c = reporterType);
  ph_delete sel d :=
    let keys := cw_key <$> sel in
    with_common d (filter (fun c => cw_key c ∉ keys) (tb_common_representations d));
|}.

Definition resources_phase (resourceType : string) : phase ResourceRow := {|
  ph_rows := tb_resources;
  ph_match r := bool_decide (rw_Type r = resourceType);
  ph_delete sel d :=
    let ids := rw_ID <$> sel in
    with_resources d (filter (fun r => rw_ID r ∉ ids) (tb_resources d));
|}.

Definition matching {A} (ph : phase A) (d : Tables) : list A :=
  List.filter (ph_match ph) (ph_rows ph d).

Section Job.
Context (pick : forall A, nat -> list A -> list A) (exec_error : nat -> option go_error).

(** An error of the connection fails every statement. *)
Definition statement_error (n : nat) (d : Tables) : option go_error :=
  match tb_error d with Some code => Some (EPg code) | None => exec_error n end.

(** The loop of [deleteBatchedByIDs] and of [deleteBatchedCommonRepresentations];
    [n] counts the statements of the job. *)
Fixpoint delete_batches {A} (ph : phase A) (fuel : nat) (batchSize : Z) (n : nat) (total : Z)
    (d : Tables) : option (Tables * nat * result Z) :=
  match fuel with
  | O => None
  | S fuel =>
      match statement_error n d with
      | Some err => Some (d, S n, Err err)
      | None =>
          if bool_decide (batchSize < 0)%Z then Some (d, S n, Err negative_limit)
          else
            let d' := ph_delete ph (pick A (Z.to_nat batchSize) (matching ph d)) d in
            let RowsAffected := Z.of_nat (length (ph_rows ph d) - length (ph_rows ph d')) in
            if bool_decide (RowsAffected = 0)%Z then Some (d', S n, Ok total)
            else delete_batches ph fuel batchSize (S n) (total + RowsAffected) d'
      end
  end.

(** The estimate of a dry run divides by the batch size. *)
Definition logDryRunEstimate (count batchSize batchDelayMs : Z) : result (Z * Z) :=
  if bool_decide (batchSize = 0)%Z then Err (EPanic "integer divide by zero")
  else
    let estimatedBatches := Z.quot (count + batchSize - 1) batchSize in
    Ok (estimatedBatches, Z.quot (estimatedBatches * batchDelayMs) 1000).

(** [deleteBatchedReporterResources] and its siblings: a dry run counts. *)
Definition run_phase {A} (ph : phase A) (fuel : nat) (dryRun : bool) (batchSize batchDelayMs : Z)
    (n : nat) (d : Tables) : option (Tables * nat * result Z) :=
  if dryRun then
    Some (d, S n,
          match statement_error n d with
          | Some err => Err err
          | None =>
              let count := Z.of_nat (length (matching ph d)) in
              let! _ := logDryRunEstimate count batchSize batchDelayMs in Ok count
          end)
  else delete_batches ph fuel batchSize n 0 d.

(** A phase, then the next one if it succeeded. *)
Definition then_phase {A B} (m : option (Tables * nat * result A))
    (k : A -> nat -> Tables -> option (Tables * nat * result B)) : option (Tables * nat * result B) :=
  match m with
  | None => None
  | Some (d, n, Err err) => Some (d, n, Err err)
  | Some (d, n, Ok a) => k a n d
  end.

(** The job over a database that [storage.New] has opened, with the totals that
    it logs. *)
Definition deleteResources (fuel : nat) (dryRun : bool) (resourceType reporterType : string)
    (batchSize batchDelayMs : Z) (d : Tables) : option (Tables * nat * result (Z * Z * Z)) :=
  if bool_decide (resourceType = "") then
    Some (d, 0%nat, Err (EMsg "resource-type flag is required"))
  else if bool_decide (reporterType = "") then
    Some (d, 0%nat, Err (EMsg "reporter-type flag is required"))
  else
    let run A (ph : phase A) := run_phase ph fuel dryRun batchSize batchDelayMs in
    then_phase (run _ (reporter_resources_phase resourceType reporterType) 0%nat d)
      (fun totalReporterResources n d =>
    then_phase (run _ (common_phase reporterType) n d)
      (fun totalCommonRepresentations n d =>
    then_phase (run _ (resources_phase resourceType) n d)
      (fun totalResources n d =>
         Some (d, n, Ok (totalReporterResources, totalCommonRepresentations, totalResources))))).
End Job.
