(* ===== verification/DeleteJobProps.v ===== *)
(** The delete job: it terminates, any number of failed runs followed by a
    successful one delete exactly the selected rows, a dry run counts them, and
    under the constraint that its documentation states the tables stay well
    formed. *)
From stdpp Require Import base tactics list strings gmap relations.
From Stdlib Require Import ZArith Lia Ascii.
From S2P Require Import Prelude GoStrings Common ReporterResource Representations Resource.
From S2P Require Import Json DataModel Outbox Store Tables StoreProps DeleteJob Examples.

Local Open Scope string_scope.

(** What SELECT ... LIMIT promises: rows of the selection, as many as there are
    up to the limit. *)
Definition limits (pick : forall A, nat -> list A -> list A) : Prop :=
  forall A n (l : list A),
    (forall x, x ∈ pick A n l -> x ∈ l) /\ length (pick A n l) = (n `min` length l)%nat.

Lemma elem_of_matching {A} (ph : phase A) d x :
  x ∈ matching ph d <-> x ∈ ph_rows ph d /\ ph_match ph x = true.
Proof. unfold matching. by rewrite !list_elem_of_In, filter_In. Qed.

(** A selection of a phase. *)
Definition selection {A} (ph : phase A) (d : Tables) (sel : list A) : Prop :=
  forall x, x ∈ sel -> x ∈ matching ph d.

Section Loop.
Context (pick : forall A, nat -> list A -> list A) (Hpick : limits pick)
  (exec_error : nat -> option go_error).
Context {A : Type} (ph : phase A).

Lemma pick_selection n d : selection ph d (pick A n (matching ph d)).
Proof. intros x. by apply Hpick. Qed.

(** Every batch but the last deletes a row. *)
Lemma delete_batches_returns fuel batchSize n total d :
  (length (ph_rows ph d) < fuel)%nat ->
  exists r, delete_batches pick exec_error ph fuel batchSize n total d = Some r.
Proof.
  revert n total d. induction fuel as [|fuel IH]; intros n total d Hf; [lia|]. simpl.
  destruct (statement_error _ _ _); [eauto|]. case_bool_decide; [eauto|].
  case_bool_decide as Hz; [eauto|]. apply IH. lia.
Qed.

Lemma delete_batches_inv (I : Tables -> Prop) :
  (forall d sel, I d -> selection ph d sel -> I (ph_delete ph sel d)) ->
  forall fuel batchSize n total d d' n' r, I d ->
  delete_batches pick exec_error ph fuel batchSize n total d = Some (d', n', r) -> I d'.
Proof.
  intros Hstep fuel batchSize. induction fuel as [|fuel IH]; intros n total d d' n' r Hd; [done|].
  simpl. destruct (statement_error _ _ _); [by intros [= <- _ _]|].
  case_bool_decide; [by intros [= <- _ _]|].
  pose proof (Hstep _ _ Hd (pick_selection (Z.to_nat batchSize) d)) as Hd'.
  case_bool_decide; [by intros [= <- _ _]|]. by apply IH.
Qed.

(** A loop that ends without error has nothing left to delete, and its total is
    what the table lost. *)
Lemma delete_batches_done (I : Tables -> Prop) :
  (forall d sel, I d -> selection ph d sel -> I (ph_delete ph sel d)) ->
  (forall d sel, I d -> selection ph d sel -> sel <> [] ->
     (length (ph_rows ph (ph_delete ph sel d)) < length (ph_rows ph d))%nat) ->
  (forall d, I d -> ph_delete ph [] d = d) ->
  forall fuel batchSize n total d d' n' t, I d -> (1 <= batchSize)%Z ->
  delete_batches pick exec_error ph fuel batchSize n total d = Some (d', n', Ok t) ->
  matching ph d' = [] /\
  t = (total + Z.of_nat (length (ph_rows ph d)) - Z.of_nat (length (ph_rows ph d')))%Z.
Proof.
  intros Hstep Hprog Hnil fuel batchSize.
  induction fuel as [|fuel IH]; intros n total d d' n' t Hd Hb; [done|]. simpl.
  destruct (statement_error _ _ _); [done|]. rewrite bool_decide_eq_false_2 by lia.
  set (sel := pick A (Z.to_nat batchSize) (matching ph d)).
  pose proof (pick_selection (Z.to_nat batchSize) d : selection ph d sel) as Hsel.
  case_bool_decide as Hz.
  - intros [= <- _ <-]. destruct sel as [|x sel'] eqn:Es.
    + rewrite Hnil by done. split; [|lia]. apply (f_equal length) in Es. unfold sel in Es.
      rewrite (proj2 (Hpick _ _ _)) in Es. simpl in Es. apply nil_length_inv. lia.
    + assert (length (ph_rows ph (ph_delete ph (x :: sel') d)) < length (ph_rows ph d))%nat
        by (by apply Hprog). lia.
  - intros Hr. apply IH in Hr as [Hm ->]; [|by apply Hstep|done]. split; [done|].
    lia.
Qed.

Lemma run_phase_spec (I : Tables -> Prop) batchSize delay :
  (1 <= batchSize)%Z ->
  (forall d sel, I d -> selection ph d sel -> I (ph_delete ph sel d)) ->
  (forall d sel, selection ph d sel -> sel <> [] ->
     (length (ph_rows ph (ph_delete ph sel d)) < length (ph_rows ph d))%nat) ->
  (forall d, ph_delete ph [] d = d) ->
  forall fuel n d d' n' r, I d ->
  run_phase pick exec_error ph fuel false batchSize delay n d = Some (d', n', r) ->
  I d' /\
  forall t, r = Ok t -> matching ph d' = [] /\
    t = (Z.of_nat (length (ph_rows ph d)) - Z.of_nat (length (ph_rows ph d')))%Z.
Proof.
  intros Hb Hstep Hshrinks Hnil fuel n d d' n' r Hd Hrun.
  split; [by eapply (delete_batches_inv I) in Hrun|]. intros t ->.
  eapply (delete_batches_done I) in Hrun as [? ->]; eauto with lia.
Qed.
End Loop.

(** * The rows that are selected *)

Section Lists.
Context {A : Type}.

Lemma filter_none_left (m : A -> bool) (P : A -> Prop) `{!forall x, Decision (P x)} (l : list A) :
  (forall x, x ∈ l -> m x = false -> P x) ->
  List.filter (fun x => negb (m x)) (filter P l) = List.filter (fun x => negb (m x)) l.
Proof.
  induction l as [|x l IH]; intros Hl; [done|]. rewrite filter_cons. simpl.
  assert (IH' := IH (fun y Hy => Hl y (list_elem_of_further _ _ _ Hy))).
  destruct (decide (P x)) as [Hp|Hp]; simpl; [by destruct (m x); simpl; rewrite IH'|].
  destruct (m x) eqn:Em; simpl; [done|]. destruct Hp. apply Hl; [left|done].
Qed.

Lemma filter_negb_split (m : A -> bool) l :
  (length (List.filter m l) + length (List.filter (fun x => negb (m x)) l) = length l)%nat.
Proof. induction l as [|x l IH]; [done|]. simpl. destruct (m x); simpl; lia. Qed.

Lemma filter_negb_all (m : A -> bool) l :
  List.filter m l = [] -> List.filter (fun x => negb (m x)) l = l.
Proof.
  induction l as [|x l IH]; [done|]. simpl. destruct (m x); [done|]. simpl. intros Hl.
  by rewrite IH.
Qed.

Lemma filter_all (P : A -> Prop) `{!forall x, Decision (P x)} (l : list A) :
  (forall x, x ∈ l -> P x) -> filter P l = l.
Proof.
  induction l as [|x l IH]; intros Hl; [done|]. rewrite filter_cons_True by (apply Hl; left).
  rewrite IH; [done|]. intros y Hy. apply Hl. by right.
Qed.
End Lists.

(** Keys that identify rows: a row that does not match keeps its place when a
    selection of matching rows is deleted by key. *)
Section Keyed.
Context {A K : Type} `{EqDecision K} (f : A -> K) (m : A -> bool).

Lemma keyed_kept (l sel : list A) x :
  distinct_on f l -> (forall y, y ∈ sel -> y ∈ l /\ m y = true) ->
  x ∈ l -> m x = false -> f x ∉ f <$> sel.
Proof.
  intros Hd Hsel Hx Hm (y & Hf & Hy)%list_elem_of_fmap. destruct (Hsel y Hy) as [Hyl Hym].
  rewrite (Hd x y Hx Hyl Hf) in Hm. congruence.
Qed.

Lemma keyed_shrinks (l sel : list A) :
  (forall y, y ∈ sel -> y ∈ l) -> sel <> [] ->
  (length (filter (fun x => f x ∉ f <$> sel) l) < length l)%nat.
Proof.
  intros Hsel Hne. destruct sel as [|y sel]; [done|].
  apply (length_filter_lt _ _ y); [apply Hsel; left|]. intros Hn. apply Hn. left.
Qed.

Lemma keyed_distinct {B} (g : A -> B) (l : list A) P `{!forall x : A, Decision (P x)} :
  distinct_on g l -> distinct_on g (filter P l).
Proof.
  intros Hd a b [_ Ha]%list_elem_of_filter [_ Hb]%list_elem_of_filter. by apply Hd.
Qed.
End Keyed.

(** * What the job leaves *)

Section Job.
Context (rt rep : string).
Abbreviation rrs := (reporter_resources_phase rt rep).
Abbreviation commons := (common_phase rep).
Abbreviation resources := (resources_phase rt).

Definition purged (d : Tables) : Tables :=
  {| tb_resources := List.filter (fun r => negb (ph_match resources r)) (tb_resources d);
     tb_reporter_resources :=
       List.filter (fun r => negb (ph_match rrs r)) (tb_reporter_resources d);
     tb_reporter_representations :=
       filter (fun p => rpw_ReporterResourceID p ∉ rrw_ID <$> matching rrs d)
         (tb_reporter_representations d);
     tb_common_representations :=
       List.filter (fun c => negb (ph_match commons c)) (tb_common_representations d);
     tb_emitted := tb_emitted d; tb_error := tb_error d |}.

(** The primary keys. *)
Definition keys_distinct (d : Tables) : Prop :=
  distinct_on rrw_ID (tb_reporter_resources d) /\
  distinct_on cw_key (tb_common_representations d) /\ distinct_on rw_ID (tb_resources d).

(** The state is on its way to [P]. *)
Definition towards (P d : Tables) : Prop := keys_distinct d /\ purged d = P.

Lemma selection_rows {A} (ph : phase A) d sel :
  selection ph d sel -> forall y, y ∈ sel -> y ∈ ph_rows ph d /\ ph_match ph y = true.
Proof. intros Hsel y Hy. by apply elem_of_matching, Hsel. Qed.

Lemma rrs_step P d sel : towards P d -> selection rrs d sel -> towards P (ph_delete rrs sel d).
Proof.
  intros [(Hr & Hc & Hs) Hp] Hsel. split.
  - split_and!; [by apply keyed_distinct|done..].
  - rewrite <- Hp. unfold purged. simpl. f_equal.
    + apply (filter_none_left (ph_match rrs)). intros x Hx Hm.
      by eapply keyed_kept; [|eapply (selection_rows rrs)|..].
    + rewrite list_filter_filter. apply list_filter_iff. intros p.
      set (id := rpw_ReporterResourceID p).
      assert (id ∈ rrw_ID <$> matching rrs d <->
              id ∈ rrw_ID <$> matching rrs (ph_delete rrs sel d) \/ id ∈ rrw_ID <$> sel) as Hids.
      { rewrite !list_elem_of_fmap. setoid_rewrite elem_of_matching. simpl.
        setoid_rewrite list_elem_of_filter. split.
        - intros (y & -> & Hy & Hm). destruct (decide (rrw_ID y ∈ rrw_ID <$> sel)) as [Hin|Hn];
            [right; by apply list_elem_of_fmap|left; eauto].
        - intros [(y & -> & (_ & Hy) & Hm)|(y & -> & Hy)]; [by exists y|].
          exists y. split; [done|]. by apply (selection_rows rrs d sel). }
      tauto.
Qed.

Lemma commons_step P d sel :
  towards P d -> selection commons d sel -> towards P (ph_delete commons sel d).
Proof.
  intros [(Hr & Hc & Hs) Hp] Hsel. split.
  - split_and!; [done|by apply keyed_distinct|done].
  - rewrite <- Hp. unfold purged. simpl. f_equal.
    apply (filter_none_left (ph_match commons)). intros x Hx Hm.
    by eapply keyed_kept; [|eapply (selection_rows commons)|..].
Qed.

Lemma resources_step P d sel :
  towards P d -> selection resources d sel -> towards P (ph_delete resources sel d).
Proof.
  intros [(Hr & Hc & Hs) Hp] Hsel. split.
  - split_and!; [done..|by apply keyed_distinct].
  - rewrite <- Hp. unfold purged. simpl. f_equal.
    apply (filter_none_left (ph_match resources)). intros x Hx Hm.
    by eapply keyed_kept; [|eapply (selection_rows resources)|..].
Qed.

(** Nothing is left to delete. *)
Lemma purged_fixed d :
  matching rrs d = [] -> matching commons d = [] -> matching resources d = [] -> purged d = d.
Proof.
  intros Hr Hc Hs. unfold purged. rewrite Hr. unfold matching in *. simpl in *.
  rewrite !filter_negb_all by done. rewrite filter_all; [by destruct d|].
  intros p _. apply not_elem_of_nil.
Qed.

Lemma rrs_shrinks d sel : selection rrs d sel -> sel <> [] ->
  (length (ph_rows rrs (ph_delete rrs sel d)) < length (ph_rows rrs d))%nat.
Proof. intros Hsel. apply keyed_shrinks. intros y Hy. by apply (selection_rows rrs d sel). Qed.

Lemma commons_shrinks d sel : selection commons d sel -> sel <> [] ->
  (length (ph_rows commons (ph_delete commons sel d)) < length (ph_rows commons d))%nat.
Proof. intros Hsel. apply keyed_shrinks. intros y Hy. by apply (selection_rows commons d sel). Qed.

Lemma resources_shrinks d sel : selection resources d sel -> sel <> [] ->
  (length (ph_rows resources (ph_delete resources sel d)) < length (ph_rows resources d))%nat.
Proof. intros Hsel. apply keyed_shrinks. intros y Hy. by apply (selection_rows resources d sel). Qed.

Lemma rrs_nil d : ph_delete rrs [] d = d.
Proof.
  destruct d. simpl. unfold with_reporter_resources. simpl.
  by rewrite !filter_all by (intros ??; apply not_elem_of_nil).
Qed.

Lemma commons_nil d : ph_delete commons [] d = d.
Proof.
  destruct d. simpl. unfold with_common. simpl.
  by rewrite filter_all by (intros ??; apply not_elem_of_nil).
Qed.

Lemma resources_nil d : ph_delete resources [] d = d.
Proof.
  destruct d. simpl. unfold with_resources. simpl.
  by rewrite filter_all by (intros ??; apply not_elem_of_nil).
Qed.

Section Run.
Context (pick : forall A, nat -> list A -> list A) (Hpick : limits pick)
  (exec_error : nat -> option go_error) (batchSize delay : Z) (Hb : (1 <= batchSize)%Z).
Abbreviation run ph fuel := (run_phase pick exec_error ph fuel false batchSize delay) (only parsing).

(** The tables that a phase leaves alone. *)
Definition but_rrs (P d0 d : Tables) : Prop :=
  towards P d /\ tb_common_representations d = tb_common_representations d0 /\
  tb_resources d = tb_resources d0.
Definition but_commons (P d0 d : Tables) : Prop :=
  towards P d /\ tb_reporter_resources d = tb_reporter_resources d0 /\
  tb_resources d = tb_resources d0.
Definition but_resources (P d0 d : Tables) : Prop :=
  towards P d /\ tb_reporter_resources d = tb_reporter_resources d0 /\
  tb_common_representations d = tb_common_representations d0.

Lemma run_rrs P d fuel n d' n' r : towards P d -> run rrs fuel n d = Some (d', n', r) ->
  but_rrs P d d' /\
  forall t, r = Ok t -> matching rrs d' = [] /\
    t = (Z.of_nat (length (ph_rows rrs d)) - Z.of_nat (length (ph_rows rrs d')))%Z.
Proof.
  intros Hd. apply (run_phase_spec pick Hpick exec_error rrs (but_rrs P d));
    [done| |apply rrs_shrinks|apply rrs_nil|by split_and!].
  intros d1 sel (? & ? & ?) ?. split_and!; [by apply rrs_step|done..].
Qed.

Lemma run_commons P d fuel n d' n' r : towards P d -> run commons fuel n d = Some (d', n', r) ->
  but_commons P d d' /\
  forall t, r = Ok t -> matching commons d' = [] /\
    t = (Z.of_nat (length (ph_rows commons d)) - Z.of_nat (length (ph_rows commons d')))%Z.
Proof.
  intros Hd. apply (run_phase_spec pick Hpick exec_error commons (but_commons P d));
    [done| |apply commons_shrinks|apply commons_nil|by split_and!].
  intros d1 sel (? & ? & ?) ?. split_and!; [by apply commons_step|done..].
Qed.

Lemma run_resources P d fuel n d' n' r : towards P d -> run resources fuel n d = Some (d', n', r) ->
  but_resources P d d' /\
  forall t, r = Ok t -> matching resources d' = [] /\
    t = (Z.of_nat (length (ph_rows resources d)) - Z.of_nat (length (ph_rows resources d')))%Z.
Proof.
  intros Hd. apply (run_phase_spec pick Hpick exec_error resources (but_resources P d));
    [done| |apply resources_shrinks|apply resources_nil|by split_and!].
  intros d1 sel (? & ? & ?) ?. split_and!; [by apply resources_step|done..].
Qed.

(** A run, whatever its outcome, stays on its way; a successful one arrives. *)
Lemma job_run P d fuel d' n r :
  rt <> "" -> rep <> "" -> towards P d ->
  deleteResources pick exec_error fuel false rt rep batchSize delay d = Some (d', n, r) ->
  towards P d' /\
  forall totals, r = Ok totals -> d' = P /\
    totals = (Z.of_nat (length (matching rrs d)), Z.of_nat (length (matching commons d)),
              Z.of_nat (length (matching resources d))).
Proof.
  intros Hrt Hrep Hd. unfold deleteResources. rewrite !bool_decide_eq_false_2 by done.
  cbv zeta. unfold then_phase.
  destruct (run rrs fuel 0%nat d) as [[[d1 n1] r1]|] eqn:E1; [|done].
  apply (run_rrs P) in E1 as [(H1 & Hc1 & Hs1) Ht1]; [|done].
  destruct r1 as [t1|e]; [|by intros [= <- _ <-]].
  destruct (run commons fuel n1 d1) as [[[d2 n2] r2]|] eqn:E2; [|done].
  apply (run_commons P) in E2 as [(H2 & Hr2 & Hs2) Ht2]; [|done].
  destruct r2 as [t2|e]; [|by intros [= <- _ <-]].
  destruct (run resources fuel n2 d2) as [[[d3 n3] r3]|] eqn:E3; [|done].
  apply (run_resources P) in E3 as [(H3 & Hr3 & Hc3) Ht3]; [|done].
  destruct r3 as [t3|e]; intros [= <- _ <-]; [|done]. split; [done|].
  intros totals [= <-]. destruct (Ht1 t1) as [Hm1 ->], (Ht2 t2) as [Hm2 ->], (Ht3 t3) as [Hm3 ->];
    try done.
  assert (d3 = P) as <-.
  { destruct H3 as [_ <-]. symmetry. apply purged_fixed; [|by unfold matching in *; simpl in *; rewrite Hc3|done].
    unfold matching in *. simpl in *. by rewrite Hr3, Hr2. }
  split; [done|]. destruct Hd as [_ Hd].
  assert (Hrows : tb_reporter_resources d3 = tb_reporter_resources (purged d) /\
    tb_common_representations d3 = tb_common_representations (purged d) /\
    tb_resources d3 = tb_resources (purged d)) by by rewrite Hd.
  destruct Hrows as (Hrow1 & Hrow2 & Hrow3). simpl in *.
  rewrite Hr3, Hr2 in Hrow1. rewrite Hc3 in Hrow2. rewrite Hs2, Hs1, Hrow3. rewrite Hc1, Hrow1, Hrow2.
  unfold matching. simpl.
  pose proof (filter_negb_split (ph_match rrs) (tb_reporter_resources d)).
  pose proof (filter_negb_split (ph_match commons) (tb_common_representations d)).
  pose proof (filter_negb_split (ph_match resources) (tb_resources d)).
  simpl in *. f_equal; [f_equal|]; lia.
Qed.
End Run.

(** A batch size below 1 deletes nothing: with 0 a phase ends at once, with a
    negative one its first statement fails. *)
Lemma idle_batches {A} (ph : phase A) pick exec_error fuel batchSize n d d' n' r :
  limits pick -> (batchSize <= 0)%Z -> ph_delete ph [] d = d ->
  delete_batches pick exec_error ph fuel batchSize n 0 d = Some (d', n', r) ->
  d' = d /\ forall total, r = Ok total -> total = 0%Z.
Proof.
  intros Hpick Hb Hnil. destruct fuel as [|fuel]; [done|]. cbn [delete_batches].
  destruct (statement_error _ _ _); [by intros [= <- _ <-]|].
  case_bool_decide; [by intros [= <- _ <-]|].
  destruct (Hpick A 0%nat (matching ph d)) as [_ Hlen]. apply nil_length_inv in Hlen.
  replace (Z.to_nat batchSize) with 0%nat by lia. rewrite Hlen, Hnil, Nat.sub_diag.
  intros [= <- _ <-]. split; [done|]. by intros ? [= <-].
Qed.

Lemma idle_job pick exec_error fuel batchSize delay d d' n r :
  limits pick -> (batchSize <= 0)%Z ->
  deleteResources pick exec_error fuel false rt rep batchSize delay d = Some (d', n, r) ->
  d' = d /\ forall totals, r = Ok totals -> totals = (0, 0, 0)%Z.
Proof.
  intros Hpick Hb. unfold deleteResources, run_phase, then_phase.
  case_bool_decide; [by intros [= <- _ <-]|]. case_bool_decide; [by intros [= <- _ <-]|].
  destruct (delete_batches _ _ rrs _ _ _ _ _) as [[[d1 n1] r1]|] eqn:E1; [|done].
  apply idle_batches in E1 as [-> H1]; [|done|done|apply rrs_nil].
  destruct r1 as [t1|]; [rewrite (H1 t1) by done|by intros [= <- _ <-]].
  destruct (delete_batches _ _ commons _ _ _ _ _) as [[[d2 n2] r2]|] eqn:E2; [|done].
  apply idle_batches in E2 as [-> H2]; [|done|done|apply commons_nil].
  destruct r2 as [t2|]; [rewrite (H2 t2) by done|by intros [= <- _ <-]].
  destruct (delete_batches _ _ resources _ _ _ _ _) as [[[d3 n3] r3]|] eqn:E3; [|done].
  apply idle_batches in E3 as [-> H3]; [|done|done|apply resources_nil].
  destruct r3 as [t3|]; [rewrite (H3 t3) by done|by intros [= <- _ <-]].
  intros [= <- _ <-]. split; [done|]. by intros ? [= <-].
Qed.

(** One run of the job, with the options, the rows and the failures it happens
    to meet. *)
Definition job_step (d d' : Tables) : Prop :=
  exists pick exec_error fuel batchSize delay n r, limits pick /\
    deleteResources pick exec_error fuel false rt rep batchSize delay d = Some (d', n, r).

Lemma job_steps_towards P d d' :
  rt <> "" -> rep <> "" -> towards P d -> rtc job_step d d' -> towards P d'.
Proof.
  intros Hrt Hrep Hd Hsteps. induction Hsteps as [|x y z Hs _ IH]; [done|]. apply IH.
  destruct Hs as (pick & ee & fuel & batchSize & delay & n & r & Hpick & Hrun).
  destruct (decide (1 <= batchSize)%Z) as [Hb|Hb]; [by eapply job_run|].
  apply idle_job in Hrun as [-> _]; [done..|lia].
Qed.

(** C34. The job is safe to re-run: after any number of runs, each with a batch
    size of its own, that failed half-way at any batch, a run that succeeds with
    a batch size of at least 1 leaves exactly the rows that were not selected in
    the first place, and its totals are the rows that were still there for it.
    A run that succeeds with a smaller batch size has deleted nothing. *)
Theorem delete_job_reruns pick exec_error fuel batchSize delay d d1 d2 n totals :
  limits pick -> rt <> "" -> rep <> "" -> keys_distinct d -> rtc job_step d d1 ->
  deleteResources pick exec_error fuel false rt rep batchSize delay d1 = Some (d2, n, Ok totals) ->
  if bool_decide (1 <= batchSize)%Z
  then d2 = purged d /\
       totals = (Z.of_nat (length (matching rrs d1)), Z.of_nat (length (matching commons d1)),
                 Z.of_nat (length (matching resources d1)))
  else d2 = d1 /\ totals = (0, 0, 0)%Z.
Proof.
  intros Hpick Hrt Hrep Hd Hsteps Hrun. case_bool_decide as Hb.
  - assert (towards (purged d) d1) as Hd1 by by eapply job_steps_towards.
    by eapply job_run in Hrun as [_ Hok]; [apply Hok|..].
  - apply idle_job in Hrun as [-> Ht]; [auto|done|lia].
Qed.

(** The job returns: fuel above the size of the largest of the three tables
    is enough, whatever fails. *)
Theorem delete_job_returns pick exec_error fuel dryRun batchSize delay d :
  limits pick -> (1 <= batchSize)%Z -> keys_distinct d ->
  (length (tb_reporter_resources d) < fuel)%nat ->
  (length (tb_common_representations d) < fuel)%nat -> (length (tb_resources d) < fuel)%nat ->
  is_Some (deleteResources pick exec_error fuel dryRun rt rep batchSize delay d).
Proof.
  intros Hpick Hb Hd H1 H2 H3. unfold deleteResources. case_bool_decide; [eauto|].
  case_bool_decide; [eauto|]. cbv zeta. unfold then_phase.
  destruct dryRun; [unfold run_phase; repeat case_match; simplify_eq; eauto|].
  destruct (run_phase _ _ rrs _ _ _ _ _ _) as [[[d1 n1] r1]|] eqn:E1.
  2:{ destruct (delete_batches_returns pick exec_error rrs fuel batchSize 0%nat 0 d) as [r Hr];
        [done|]. unfold run_phase in E1. congruence. }
  eapply (run_rrs pick Hpick exec_error _ _ Hb (purged d)) in E1 as [(Ht1 & Hc1 & Hs1) _]; [|done].
  destruct r1 as [t1|e]; [|eauto].
  destruct (run_phase _ _ commons _ _ _ _ _ _) as [[[d2 n2] r2]|] eqn:E2.
  2:{ destruct (delete_batches_returns pick exec_error commons fuel batchSize n1 0 d1) as [r Hr];
        [simpl; by rewrite Hc1|]. unfold run_phase in E2. congruence. }
  eapply (run_commons pick Hpick exec_error _ _ Hb (purged d)) in E2 as [(_ & _ & Hs2) _]; [|done].
  destruct r2 as [t2|e]; [|eauto].
  destruct (run_phase _ _ resources _ _ _ _ _ _) as [[[d3 n3] [t3|e]]|] eqn:E3; [eauto..|].
  destruct (delete_batches_returns pick exec_error resources fuel batchSize n2 0 d2) as [r Hr];
    [simpl; by rewrite Hs2, Hs1|]. unfold run_phase in E3. congruence.
Qed.

(** A dry run changes nothing and counts what a run would delete. *)
Lemma dry_run_counts pick exec_error fuel batchSize delay d d' n r :
  deleteResources pick exec_error fuel true rt rep batchSize delay d = Some (d', n, r) ->
  d' = d /\ forall totals, r = Ok totals ->
    totals = (Z.of_nat (length (matching rrs d)), Z.of_nat (length (matching commons d)),
              Z.of_nat (length (matching resources d))).
Proof.
  unfold deleteResources, run_phase, then_phase, logDryRunEstimate.
  repeat case_match; intros; simplify_eq/=; (split; [done|]); intros; by simplify_eq/=.
Qed.

(** A batch size of 0 is not refused: the job reports success and deletes
    nothing, and a dry run divides by zero. *)
Lemma zero_batches {A} (ph : phase A) pick fuel n d :
  limits pick -> tb_error d = None -> ph_delete ph [] d = d ->
  delete_batches pick (fun _ => None) ph (S fuel) 0 n 0 d = Some (d, S n, Ok 0%Z).
Proof.
  intros Hpick He Hnil. cbn [delete_batches]. unfold statement_error. rewrite He. rewrite bool_decide_eq_false_2 by lia.
  destruct (Hpick A 0%nat (matching ph d)) as [_ Hlen]. apply nil_length_inv in Hlen.
  change (Z.to_nat 0) with 0%nat. rewrite Hlen, Hnil, Nat.sub_diag. done.
Qed.

Lemma zero_batch_size pick fuel delay d :
  limits pick -> rt <> "" -> rep <> "" -> tb_error d = None ->
  deleteResources pick (fun _ => None) (S fuel) false rt rep 0 delay d
    = Some (d, 3%nat, Ok (0, 0, 0)%Z) /\
  deleteResources pick (fun _ => None) (S fuel) true rt rep 0 delay d
    = Some (d, 1%nat, Err (EPanic "integer divide by zero")).
Proof.
  intros Hpick Hrt Hrep He. unfold deleteResources, run_phase.
  rewrite !bool_decide_eq_false_2 by done. cbv zeta.
  split; [|by unfold then_phase, statement_error, logDryRunEstimate; rewrite He].
  rewrite (zero_batches rrs) by (done || apply rrs_nil). cbv beta iota delta [then_phase].
  rewrite (zero_batches commons) by (done || apply commons_nil).
  by rewrite (zero_batches resources) by (done || apply resources_nil).
Qed.
End Job.

(** * The documented constraint *)

(** The reporter reports this resource type only, and no other reporter does;
    common data is reported for resources of the reporter's type. *)
Record single_type (rt rep : string) (d : Tables) : Prop := {
  st_reporter : forall r, r ∈ tb_reporter_resources d ->
    rrw_ResourceType r = rt <-> rrw_ReporterType r = rep;
  st_resource : forall r res, r ∈ tb_reporter_resources d -> res ∈ tb_resources d ->
    rw_ID res = rrw_ResourceID r -> rw_Type res = rrw_ResourceType r;
  st_common : forall c res, c ∈ tb_common_representations d -> res ∈ tb_resources d ->
    rw_ID res = cw_ResourceId c -> rw_Type res = rt <-> cw_ReportedByReporterType c = rep;
}.

Section WellFormed.
Context `{OutboxLib} (rt rep : string).
Implicit Type d : Tables.

Lemma elem_of_kept {A} (m : A -> bool) (l : list A) x :
  x ∈ List.filter (fun x => negb (m x)) l <-> x ∈ l /\ m x = false.
Proof. by rewrite !list_elem_of_In, filter_In, negb_true_iff. Qed.

Lemma distinct_kept {A B} (f : A -> B) (m : A -> bool) (l : list A) :
  distinct_on f l -> distinct_on f (List.filter (fun x => negb (m x)) l).
Proof. intros Hd a b [Ha _]%elem_of_kept [Hb _]%elem_of_kept. by apply Hd. Qed.

Lemma sublist_List_filter {A} (m : A -> bool) (l : list A) : List.filter m l `sublist_of` l.
Proof. induction l as [|x l IH]; simpl; [done|]. destruct (m x); by constructor. Qed.

Lemma wf_keys_distinct d : db_wf d -> keys_distinct d.
Proof.
  intros [Hid Hrr _ _ _ _ _ _ _ _ Hck _ _]. split_and!; [done..|].
  intros a b (i & Ha)%list_elem_of_lookup (j & Hb)%list_elem_of_lookup He.
  assert (forall k x, tb_resources d !! k = Some x ->
    (rw_ID <$> resource_rows d) !! k = Some (rw_ID x)) as Hk.
  { intros k x Hx. rewrite list_lookup_fmap. change (resource_rows d) with (tb_resources d).
    by rewrite Hx. }
  apply Hk in Ha as Ha', Hb as Hb'. rewrite <- He in Hb'.
  rewrite (NoDup_lookup _ _ _ _ Hid Ha' Hb') in Ha. congruence.
Qed.

(** The resources of other types keep all their rows. *)
Lemma purged_common_at d id v :
  db_wf d -> single_type rt rep d ->
  (exists res, res ∈ tb_resources (purged rt rep d) /\ rw_ID res = id) ->
  common_at (purged rt rep d) id v <-> common_at d id v.
Proof.
  intros Hwf Hst (res & Hres & Hid). apply elem_of_kept in Hres as [Hres Hty].
  simpl in Hty. apply bool_decide_eq_false in Hty. unfold common_at. simpl.
  split; intros (c & Hc & Hci & Hcv); exists c; split_and!; try done.
  - by apply elem_of_kept in Hc as [? _].
  - apply elem_of_kept. split; [done|]. apply bool_decide_eq_false. intros Hrep. apply Hty.
    apply (st_common _ _ _ Hst c res Hc Hres); [congruence|done].
Qed.

Lemma common_parent_kept d c :
  db_wf d -> single_type rt rep d -> c ∈ tb_common_representations (purged rt rep d) ->
  exists res, res ∈ tb_resources (purged rt rep d) /\ rw_ID res = cw_ResourceId c.
Proof.
  intros Hwf Hst [Hc Hm]%elem_of_kept. simpl in Hm. apply bool_decide_eq_false in Hm.
  destruct (wf_common_parent _ Hwf c Hc) as (res & Hres & Hid). exists res. split; [|done].
  apply elem_of_kept. split; [done|]. apply bool_decide_eq_false. intros Hty. apply Hm.
  by apply (st_common _ _ _ Hst c res).
Qed.

(** What the job leaves is well formed. *)
Lemma purged_wf d : db_wf d -> single_type rt rep d -> db_wf (purged rt rep d).
Proof.
  intros Hwf Hst. pose proof Hwf as [Hid Hrr Hkey Hres Hpar Hran Hrepr _ Hcran Hdata Hck Hcont Hver].
  split; simpl.
  - eapply sublist_NoDup; [exact Hid|]. apply fmap_sublist, sublist_List_filter.
  - by apply distinct_kept.
  - by apply distinct_kept.
  - by apply distinct_kept.
  - intros r [Hr Hm]%elem_of_kept. destruct (Hpar r Hr) as (res & Hin & He). exists res.
    split; [|done]. apply elem_of_kept. split; [done|]. apply bool_decide_eq_false. intros Hty.
    rewrite (st_resource _ _ _ Hst r res Hr Hin He) in Hty.
    assert (rrw_ReporterType r = rep) by (by apply (st_reporter _ _ _ Hst)).
    by rewrite !bool_decide_eq_true_2 in Hm.
  - intros r [Hr _]%elem_of_kept. by apply Hran.
  - intros p [Hp Hin]%list_elem_of_filter. destruct (Hrepr p Hin) as (r & Hr & He & Hle).
    exists r. split_and!; [|done..]. apply elem_of_kept. split; [done|].
    destruct (ph_match (reporter_resources_phase rt rep) r) eqn:Em; [|exact Em].
    destruct Hp. rewrite <- He. apply list_elem_of_fmap_2, elem_of_matching. done.
  - intros c Hc. by apply common_parent_kept.
  - intros c [Hc _]%elem_of_kept. by apply Hcran.
  - intros c [Hc _]%elem_of_kept. by apply Hdata.
  - by apply distinct_kept.
  - intros id v w Hv Hw. pose proof Hv as (c & Hc & Hci & Hcv).
    destruct (common_parent_kept d c Hwf Hst Hc) as (res & Hr & He).
    assert (exists res, res ∈ tb_resources (purged rt rep d) /\ rw_ID res = id) as Hex
      by (exists res; split; [done|congruence]).
    rewrite purged_common_at in Hv |- * by done. eauto.
  - intros res v Hr Hv. assert (exists res', res' ∈ tb_resources (purged rt rep d) /\
      rw_ID res' = rw_ID res) as Hex by eauto.
    rewrite last_common_version_Some. setoid_rewrite purged_common_at; [|done..].
    apply last_common_version_Some, Hver; [by apply elem_of_kept in Hr as [? _]|done].
Qed.

(** Under the constraint that the job's documentation states, one reporter
    for the type and one type for the reporter, the job, also after runs that
    failed, leaves a well-formed database: no row lost its parent, and the
    common versions of every resource that is left are complete. *)
Theorem delete_job_keeps_wf pick exec_error fuel batchSize delay d d1 d2 n totals :
  limits pick -> (1 <= batchSize)%Z -> rt <> "" -> rep <> "" -> db_wf d -> single_type rt rep d ->
  rtc (job_step rt rep) d d1 ->
  deleteResources pick exec_error fuel false rt rep batchSize delay d1 = Some (d2, n, Ok totals) ->
  db_wf d2.
Proof.
  intros Hpick Hb Hrt Hrep Hwf Hst Hsteps Hrun.
  assert (towards rt rep (purged rt rep d) d1) as Hd1
    by (eapply job_steps_towards; [..|split; [by apply wf_keys_distinct|done]|done]; done).
  eapply job_run in Hrun as [_ Hok]; [|done..]. destruct (Hok totals) as [-> _]; [done|].
  by apply purged_wf.
Qed.
End WellFormed.

(** * Two hosts of one reporter and a cluster of another *)

Definition ex_resource (id : uuid) (ty : string) : ResourceRow :=
  {| rw_ID := id; rw_Type := ty; rw_CommonVersion := None; rw_ConsistencyToken := "";
     rw_CreatedAt := 0; rw_UpdatedAt := 0 |}.
Definition ex_reporter_resource (id : uuid) (local rt rep : string) : ReporterResourceRow :=
  {| rrw_ID := (100 + id)%Z; rrw_LocalResourceID := local; rrw_ReporterType := rep;
     rrw_ResourceType := rt; rrw_ReporterInstanceID := "i"; rrw_ResourceID := id;
     rrw_APIHref := ""; rrw_ConsoleHref := None; rrw_RepresentationVersion := 0;
     rrw_Generation := 0; rrw_Tombstone := false; rrw_CreatedAt := 0; rrw_UpdatedAt := 0 |}.

Definition ex_full : Tables :=
  {| tb_resources := [ex_resource 1 "host"; ex_resource 2 "host"; ex_resource 3 "k8s-cluster"];
     tb_reporter_resources := [ex_reporter_resource 1 "h1" "host" "hbi";
                               ex_reporter_resource 2 "h2" "host" "hbi";
                               ex_reporter_resource 3 "c1" "k8s-cluster" "ocm"];
     tb_reporter_representations := []; tb_common_representations := [];
     tb_emitted := []; tb_error := None |}.

Definition first_rows (A : Type) (n : nat) (l : list A) : list A := take n l.

Lemma first_rows_limits : limits first_rows.
Proof.
  intros A n l. unfold first_rows. split; [|apply length_take].
  intros x Hx. rewrite <- (take_drop n l). apply elem_of_app. by left.
Qed.

(** The job fails at its second statement, and at none. *)
Definition ex_failing (n : nat) : option go_error :=
  if bool_decide (n = 1%nat) then Some (EPg "08006") else None.
Definition ex_job (exec_error : nat -> option go_error) (d : Tables) :=
  deleteResources first_rows exec_error 4 false "host" "hbi" 1 0 d.
Definition ex_half : Tables := default ex_full ((fun r => r.1.1) <$> ex_job ex_failing ex_full).

Lemma ex_full_keys : keys_distinct ex_full.
Proof.
  split_and!; [..|intros a b ?%elem_of_nil; done|]; intros a b; simpl;
    rewrite !elem_of_cons, !elem_of_nil; naive_solver.
Qed.

Lemma ex_full_step : rtc (job_step "host" "hbi") ex_full ex_half.
Proof.
  apply rtc_once. eexists first_rows, ex_failing, 4%nat, 1%Z, 0%Z, _, _.
  split; [apply first_rows_limits|]. vm_compute. reflexivity.
Qed.

Definition ex_end : Tables :=
  {| tb_resources := [ex_resource 3 "k8s-cluster"];
     tb_reporter_resources := [ex_reporter_resource 3 "c1" "k8s-cluster" "ocm"];
     tb_reporter_representations := []; tb_common_representations := [];
     tb_emitted := []; tb_error := None |}.

Lemma ex_half_job : ex_job (fun _ => None) ex_half = Some (ex_end, 6%nat, Ok (1, 0, 2)%Z).
Proof. vm_compute. reflexivity. Qed.

Lemma delete_job_reruns_witness :
  ex_end = purged "host" "hbi" ex_full /\
  (1, 0, 2)%Z = (Z.of_nat (length (matching (reporter_resources_phase "host" "hbi") ex_half)),
                 Z.of_nat (length (matching (common_phase "hbi") ex_half)),
                 Z.of_nat (length (matching (resources_phase "host") ex_half))).
Proof.
  exact (delete_job_reruns "host" "hbi" first_rows (fun _ => None) 4 1 0 ex_full ex_half ex_end 6
    (1, 0, 2)%Z first_rows_limits ltac:(done) ltac:(done) ex_full_keys ex_full_step
    ex_half_job).
Defined.

Lemma ex_full_wf : db_wf ex_full.
Proof.
  split; simpl; try (intros; by match goal with Hx : _ ∈ [] |- _ => apply elem_of_nil in Hx end).
  - apply (bool_decide_eq_true_1 _). vm_compute. reflexivity.
  - apply ex_full_keys.
  - intros a b; rewrite !elem_of_cons, !elem_of_nil; naive_solver.
  - intros a b; rewrite !elem_of_cons, !elem_of_nil; naive_solver.
  - intros r. rewrite !elem_of_cons, elem_of_nil. setoid_rewrite elem_of_cons.
    setoid_rewrite elem_of_cons. setoid_rewrite elem_of_cons. naive_solver.
  - intros r. rewrite !elem_of_cons, elem_of_nil. unfold bigint. naive_solver lia.
  - intros a b ?%elem_of_nil. done.
  - intros id v w (c & Hc%elem_of_nil & _). done.
  - intros res v. rewrite !elem_of_cons, elem_of_nil. naive_solver.
Qed.

Lemma ex_full_single : single_type "host" "hbi" ex_full.
Proof.
  split; simpl.
  - intros r. rewrite !elem_of_cons, elem_of_nil. naive_solver.
  - intros r res. rewrite !elem_of_cons, !elem_of_nil. naive_solver.
  - intros c res ?%elem_of_nil. done.
Qed.

Lemma delete_job_keeps_wf_witness : db_wf ex_end.
Proof.
  exact (delete_job_keeps_wf "host" "hbi" first_rows (fun _ => None) 4 1 0 ex_full ex_half ex_end 6
    (1, 0, 2)%Z first_rows_limits ltac:(lia) ltac:(done) ltac:(done) ex_full_wf ex_full_single
    ex_full_step ex_half_job).
Defined.

Lemma delete_job_returns_witness :
  is_Some (deleteResources first_rows ex_failing 4 false "host" "hbi" 1 0 ex_full).
Proof.
  apply (delete_job_returns "host" "hbi");
    [apply first_rows_limits|lia|apply ex_full_keys|simpl; lia..].
Defined.
