(* ===== verification/Pubsub.v ===== *)
(** internal/pubsub: the wait of a report for its replication.

    A subscription is a pointer: the manager's map and the subscriber share it,
    so the model has a store of subscriptions beside the map.  A goroutine that
    waits takes turns with the others.  The driver keeps its mutex in its state,
    and locking a mutex that the same call holds is a deadlock. *)
From stdpp Require Import base tactics list strings gmap.
From Stdlib Require Import ZArith Lia Ascii.
From S2P Require Import Prelude GoStrings Common.

Local Open Scope string_scope.

(** * The listen manager *)

Record Notification := { nt_Channel : string; nt_Payload : string }.

Record subscription := {
  sub_txId : string;
  sub_listenChan : list string;
  sub_unsubscribed : bool;          (* [unsubOnce] *)
}.

Definition chan_capacity : nat := 2.

Record ListenManager := {
  lm_store : gmap nat subscription;
  lm_next : nat;
  lm_subscriptions : gmap string nat;
}.

Definition NewListenManager : ListenManager :=
  {| lm_store := ∅; lm_next := 0; lm_subscriptions := ∅ |}.

Definition set_sub (l : ListenManager) (ptr : nat) (s : subscription) : ListenManager :=
  {| lm_store := <[ptr := s]> (lm_store l); lm_next := lm_next l;
     lm_subscriptions := lm_subscriptions l |}.

Definition Subscribe (txId : string) (l : ListenManager) : ListenManager * nat :=
  let ptr := lm_next l in
  ({| lm_store := <[ptr := {| sub_txId := txId; sub_listenChan := [];
                              sub_unsubscribed := false |}]> (lm_store l);
      lm_next := S ptr;
      lm_subscriptions := <[txId := ptr]> (lm_subscriptions l) |}, ptr).

(** [select { case c <- payload: default: }] *)
Definition offer (payload : string) (s : subscription) : subscription :=
  if bool_decide (length (sub_listenChan s) < chan_capacity)%nat
  then {| sub_txId := sub_txId s; sub_listenChan := (sub_listenChan s ++ [payload])%list;
          sub_unsubscribed := sub_unsubscribed s |}
  else s.

(** The loop over the map: a pointer is in it once at most, so the order does
    not matter. *)
Definition registered (l : ListenManager) (ptr : nat) : bool :=
  bool_decide (Exists (fun kv => kv.2 = ptr) (map_to_list (lm_subscriptions l))).

Definition distribute (payload : string) (l : ListenManager) : ListenManager :=
  {| lm_store := map_imap (fun ptr s => Some (if registered l ptr then offer payload s else s))
                   (lm_store l);
     lm_next := lm_next l; lm_subscriptions := lm_subscriptions l |}.

(** [unsubscribe] removes the entry of the transaction. *)
Definition unsubscribe (s : subscription) (l : ListenManager) : ListenManager :=
  {| lm_store := lm_store l; lm_next := lm_next l;
     lm_subscriptions := delete (sub_txId s) (lm_subscriptions l) |}.

Definition Unsubscribe (ptr : nat) (l : ListenManager) : ListenManager :=
  match lm_store l !! ptr with
  | None => l
  | Some s =>
      if sub_unsubscribed s then l
      else set_sub (unsubscribe s l) ptr
             {| sub_txId := sub_txId s; sub_listenChan := sub_listenChan s;
                sub_unsubscribed := true |}
  end.

(** [WaitAndDistribute] with what the driver returned and [ctx.Err()]. *)
Definition WaitAndDistribute (driver : result Notification) (ctxErr : option go_error)
    (l : ListenManager) : ListenManager * option go_error :=
  match wrap_err "error waiting for notification" driver with
  | Err err =>
      if (errors_Is err ContextCanceled || errors_Is err ContextDeadlineExceeded)
         && bool_decide (ctxErr = None)
      then (l, None) else (l, Some err)
  | Ok notification => (distribute (nt_Payload notification) l, None)
  end.

(** [Run]: an iteration per answer of the driver; [None] while it goes on. *)
Fixpoint Run (answers : list (result Notification * option go_error)) (l : ListenManager)
    : ListenManager * option (option go_error) :=
  match answers with
  | [] => (l, None)
  | (driver, ctxErr) :: rest =>
      let '(l, err) := WaitAndDistribute driver ctxErr l in
      match err, ctxErr with
      | None, None => Run rest l
      | _, _ => (l, Some err)
      end
  end.

(** * Waiting *)

(** What the other goroutines do to the manager. *)
Inductive lm_op :=
  | OpSubscribe (txId : string)
  | OpUnsubscribe (ptr : nat)
  | OpDistribute (payload : string).

Definition apply_op (op : lm_op) (l : ListenManager) : ListenManager :=
  match op with
  | OpSubscribe txId => (Subscribe txId l).1
  | OpUnsubscribe ptr => Unsubscribe ptr l
  | OpDistribute payload => distribute payload l
  end.

(** A turn: the waiting goroutine receives, or sees its context done, or
    another goroutine acts. *)
Inductive turn := Receive | Done (cause : go_error) | Elsewhere (op : lm_op).

(** The receive on [listenChan]: [None] when it would block. *)
Definition receive (ptr : nat) (l : ListenManager) : option (string * string * ListenManager) :=
  match lm_store l !! ptr with
  | None => None
  | Some s =>
      match sub_listenChan s with
      | [] => None
      | p :: rest =>
          Some (sub_txId s, p,
                set_sub l ptr {| sub_txId := sub_txId s; sub_listenChan := rest;
                                 sub_unsubscribed := sub_unsubscribed s |})
      end
  end.

(** [None]: it is still waiting after these turns. *)
Fixpoint BlockForNotification (turns : list turn) (ptr : nat) (l : ListenManager)
    : option (ListenManager * result unit) :=
  match turns with
  | [] => None
  | Receive :: turns =>
      match receive ptr l with
      | None => BlockForNotification turns ptr l
      | Some (txId, notification, l) =>
          if bool_decide (notification = txId) then Some (l, Ok tt)
          else BlockForNotification turns ptr l
      end
  | Done _ :: _ => Some (l, Err (ESentinel ErrWaitContextCancelled))
  | Elsewhere op :: turns => BlockForNotification turns ptr (apply_op op l)
  end.

(** * The driver over PostgreSQL *)

(** A pooled connection: whether it is closed, and whether LISTEN was executed
    on it. *)
Record pgconn := { pc_closed : bool; pc_listening : bool }.

Record pgxdriver := { pd_conn : option pgconn; pd_mu : bool }.

(** The outcome of a call: a deadlock never returns. *)
Inductive outcome (A : Type) := Returns (d : pgxdriver) (r : result A) | Deadlock.
Arguments Returns {A} d r.
Arguments Deadlock {A}.

Definition with_conn (d : pgxdriver) (c : option pgconn) : pgxdriver :=
  {| pd_conn := c; pd_mu := pd_mu d |}.

(** [d.mu.Lock(); defer d.mu.Unlock(); body] *)
Definition locked {A} (body : pgxdriver -> outcome A) (d : pgxdriver) : outcome A :=
  if pd_mu d then Deadlock
  else match body {| pd_conn := pd_conn d; pd_mu := true |} with
       | Deadlock => Deadlock
       | Returns d r => Returns {| pd_conn := pd_conn d; pd_mu := false |} r
       end.

Definition nil_conn {A} (d : pgxdriver) : outcome A :=
  Returns d (Err (EPanic "invalid memory address or nil pointer dereference")).

Section Driver.
(** The pool and the server: the answers to Acquire, Close, Exec, Ping and
    WaitForNotification. *)
Class PgPool := {
  pool_Acquire : result unit;
  conn_Close : option go_error;
  conn_Exec : pgconn -> string -> option go_error;
  conn_Ping : pgconn -> option go_error;
  conn_WaitForNotification : pgconn -> result Notification;
}.
Context `{PgPool}.

Definition as_result (err : option go_error) : result unit :=
  match err with Some e => Err e | None => Ok tt end.

Definition Close : pgxdriver -> outcome unit := locked (fun d =>
  match pd_conn d with
  | None => Returns d (Ok tt)
  | Some _ => Returns (with_conn d None) (as_result conn_Close)
  end).

Definition Connect : pgxdriver -> outcome unit := locked (fun d =>
  match pd_conn d with
  | Some _ => Returns d (Err (EMsg "connection already established"))
  | None =>
      match pool_Acquire with
      | Err err => Returns d (Err err)
      | Ok _ => Returns (with_conn d (Some {| pc_closed := false; pc_listening := false |})) (Ok tt)
      end
  end).

Definition Listen : pgxdriver -> outcome unit := locked (fun d =>
  match pd_conn d with
  | None => nil_conn d
  | Some c =>
      match conn_Exec c "listen consumer_notifications" with
      | Some err => Returns d (Err err)
      | None => Returns (with_conn d (Some {| pc_closed := pc_closed c; pc_listening := true |}))
                  (Ok tt)
      end
  end).

Definition Ping : pgxdriver -> outcome unit := locked (fun d =>
  match pd_conn d with
  | None => nil_conn d
  | Some c => Returns d (as_result (conn_Ping c))
  end).

(** [ensureConnected] calls [Connect] with the mutex held. *)
Definition ensureConnected : pgxdriver -> outcome unit := locked (fun d =>
  if match pd_conn d with None => true | Some c => pc_closed c end
  then match Connect (with_conn d None) with
       | Deadlock => Deadlock
       | Returns d r => Returns d r
       end
  else Returns d (Ok tt)).

Definition WaitForNotification (d : pgxdriver) : outcome Notification :=
  match ensureConnected d with
  | Deadlock => Deadlock
  | Returns d (Err err) =>
      Returns d (wrap_err "WaitForNotification: error re-establishing connection" (Err err))
  | Returns d (Ok _) =>
      locked (fun d =>
        match pd_conn d with
        | None => nil_conn d
        | Some c => Returns d (conn_WaitForNotification c)
        end) d
  end.

Definition Notify (payload : string) (d : pgxdriver) : outcome unit :=
  match ensureConnected d with
  | Deadlock => Deadlock
  | Returns d (Err err) =>
      Returns d (wrap_err "Notify: error re-establishing connection" (Err err))
  | Returns d (Ok _) =>
      match pd_conn d with
      | None => nil_conn d
      | Some c =>
          Returns d (as_result (conn_Exec c "select pg_notify('consumer_notifications', $1)"))
      end
  end.

(** notifier.go *)
Definition PgxNotifier_Notify (payload : string) (driver : pgxdriver) : outcome unit :=
  Notify payload driver.
End Driver.
