(* ===== verification/PubsubProps.v ===== *)
(** The wait for replication: a notification that finds room wakes its
    subscriber whatever the other goroutines do, one that finds the channel full
    is lost, and a lost connection is never re-established. *)
From stdpp Require Import base tactics list strings gmap.
From Stdlib Require Import ZArith Lia Ascii.
From S2P Require Import Prelude GoStrings Common Pubsub.

Local Open Scope string_scope.

(** * Subscriptions *)

(** Another goroutine may only append to the channel. *)
Definition extends (s s' : subscription) : Prop :=
  sub_txId s' = sub_txId s /\ exists ext, sub_listenChan s' = (sub_listenChan s ++ ext)%list.

Lemma extends_refl s : extends s s.
Proof. split; [done|]. exists []. by rewrite app_nil_r. Qed.

Lemma extends_offer payload s : extends s (offer payload s).
Proof. unfold offer. case_bool_decide; [|apply extends_refl]. split; [done|]. by exists [payload]. Qed.

Lemma distribute_lookup payload l ptr s :
  lm_store l !! ptr = Some s ->
  lm_store (distribute payload l) !! ptr =
    Some (if registered l ptr then offer payload s else s).
Proof. intros Hs. simpl. by rewrite map_lookup_imap, Hs. Qed.

(** Pointers are fresh. *)
Definition fresh_next (l : ListenManager) : Prop :=
  forall ptr, is_Some (lm_store l !! ptr) -> (ptr < lm_next l)%nat.

Lemma apply_op_fresh op l : fresh_next l -> fresh_next (apply_op op l).
Proof.
  intros Hf. destruct op as [txId|p|payload]; simpl.
  - intros ptr. simpl. rewrite lookup_insert_is_Some. intros [<-|[_ Hs%Hf]]; simpl; lia.
  - unfold Unsubscribe. destruct (lm_store l !! p) as [s|] eqn:Ep; [|done].
    destruct (sub_unsubscribed s); [done|]. intros ptr. simpl. rewrite lookup_insert_is_Some.
    intros [<-|[_ Hs]]; [apply Hf; eauto|by apply Hf].
  - intros ptr [s Hs]. simpl in Hs. rewrite map_lookup_imap in Hs.
    destruct (lm_store l !! ptr) eqn:E; [|done]. by apply Hf.
Qed.

Lemma apply_op_extends op l ptr s :
  fresh_next l -> lm_store l !! ptr = Some s ->
  exists s', lm_store (apply_op op l) !! ptr = Some s' /\ extends s s'.
Proof.
  intros Hf Hs. destruct op as [txId|p|payload]; cbn [apply_op].
  - simpl. rewrite lookup_insert_ne; [eauto using extends_refl|].
    assert (ptr < lm_next l)%nat by (apply Hf; eauto). lia.
  - unfold Unsubscribe. destruct (lm_store l !! p) as [sp|] eqn:Ep; [|eauto using extends_refl].
    destruct (sub_unsubscribed sp); [eauto using extends_refl|]. simpl.
    destruct (decide (p = ptr)) as [->|Hne].
    + rewrite lookup_insert_eq. eexists. split; [done|]. simplify_eq.
      split; [done|]. exists []. simpl. by rewrite app_nil_r.
    + rewrite lookup_insert_ne by done. eauto using extends_refl.
  - rewrite (distribute_lookup _ _ _ s) by done. eexists. split; [done|].
    destruct (registered l ptr); [apply extends_offer|apply extends_refl].
Qed.

(** * Waking up *)

Definition receives (turns : list turn) : nat :=
  length (List.filter (fun t => match t with Receive => true | _ => false end) turns).

Definition not_done (t : turn) : bool := match t with Done _ => false | _ => true end.

Lemma queued_wakes turns ptr : forall l s pre post,
  fresh_next l -> lm_store l !! ptr = Some s ->
  sub_listenChan s = (pre ++ sub_txId s :: post)%list ->
  forallb not_done turns = true -> (length pre < receives turns)%nat ->
  exists l', BlockForNotification turns ptr l = Some (l', Ok tt).
Proof.
  induction turns as [|t turns IH]; intros l s pre post Hf Hs Hc Hd Hr; [cbn in Hr; lia|].
  simpl in Hd. apply andb_true_iff in Hd as [Ht Hd]. destruct t as [|cause|op]; [| done |].
  - simpl. unfold receive. rewrite Hs. destruct pre as [|p pre]; simpl in Hc; rewrite Hc.
    + rewrite bool_decide_eq_true_2 by done. eauto.
    + case_bool_decide; [eauto|].
      apply (IH _ {| sub_txId := sub_txId s; sub_listenChan := (pre ++ sub_txId s :: post)%list;
                     sub_unsubscribed := sub_unsubscribed s |} pre post); [| |done|done|].
      * intros q. simpl. rewrite lookup_insert_is_Some. intros [<-|[_ ?]]; apply Hf; eauto.
      * simpl. by rewrite lookup_insert_eq.
      * unfold receives in *. simpl in Hr. lia.
  - destruct (apply_op_extends op l ptr s Hf Hs) as (s' & Hs' & Htx & ext & Hext).
    simpl. eapply (IH _ s' pre (post ++ ext)%list); [by apply apply_op_fresh|done| |done|].
    + rewrite Hext, Hc, Htx. by rewrite <- app_assoc.
    + exact Hr.
Qed.

(** A notification that finds room in the channel of its registered
    subscriber wakes it: whatever the other goroutines subscribe, unsubscribe
    or distribute, one receive more than the channel held is enough. *)
Theorem notification_wakes l ptr s turns :
  fresh_next l -> lm_store l !! ptr = Some s -> registered l ptr = true ->
  (length (sub_listenChan s) < chan_capacity)%nat ->
  forallb not_done turns = true -> (length (sub_listenChan s) < receives turns)%nat ->
  exists l', BlockForNotification turns ptr (distribute (sub_txId s) l) = Some (l', Ok tt).
Proof.
  intros Hf Hs Hreg Hroom Hd Hr.
  eapply (queued_wakes _ _ _ _ (sub_listenChan s) []); [| | |done|exact Hr].
  - exact (apply_op_fresh (OpDistribute (sub_txId s)) l Hf).
  - by rewrite (distribute_lookup _ _ _ s), Hreg.
  - unfold offer. by rewrite bool_decide_eq_true_2.
Qed.

(** A turn that does not bring the transaction's notification again. *)
Definition not_again (txId : string) (t : turn) : Prop := t <> Elsewhere (OpDistribute txId).

Lemma apply_op_silent op l ptr s :
  fresh_next l -> lm_store l !! ptr = Some s -> op <> OpDistribute (sub_txId s) ->
  sub_txId s ∉ sub_listenChan s ->
  exists s', lm_store (apply_op op l) !! ptr = Some s' /\ sub_txId s' = sub_txId s /\
             sub_txId s ∉ sub_listenChan s'.
Proof.
  intros Hf Hs Hop Hn. destruct op as [txId|p|payload].
  - simpl. rewrite lookup_insert_ne; [eauto|]. assert (ptr < lm_next l)%nat by (apply Hf; eauto). lia.
  - simpl. unfold Unsubscribe. destruct (lm_store l !! p) as [sp|] eqn:Ep; [|eauto].
    destruct (sub_unsubscribed sp); [eauto|]. simpl. destruct (decide (p = ptr)) as [->|Hne].
    + rewrite lookup_insert_eq. eexists. split; [done|]. simplify_eq. done.
    + rewrite lookup_insert_ne by done. eauto.
  - cbn [apply_op]. rewrite (distribute_lookup _ _ _ s) by done. eexists. split; [done|].
    destruct (registered l ptr); [|done]. unfold offer. case_bool_decide; [|done].
    split; [done|]. simpl. rewrite elem_of_app, list_elem_of_singleton. naive_solver.
Qed.

Lemma absent_never_wakes turns ptr : forall l s,
  fresh_next l -> lm_store l !! ptr = Some s -> sub_txId s ∉ sub_listenChan s ->
  Forall (not_again (sub_txId s)) turns ->
  forall l', BlockForNotification turns ptr l <> Some (l', Ok tt).
Proof.
  induction turns as [|t turns IH]; intros l s Hf Hs Hn Ha l'; [done|].
  apply Forall_cons in Ha as [Ht Ha]. destruct t as [|cause|op]; simpl; [|done|].
  - unfold receive. rewrite Hs. destruct (sub_listenChan s) as [|p rest] eqn:Ec; [by eapply IH; rewrite ?Ec|].
    rewrite bool_decide_eq_false_2 by (intros ->; apply Hn; left).
    eapply IH; [|simpl; by rewrite lookup_insert_eq|simpl; intros Hin; apply Hn; by right|done].
    intros q. simpl. rewrite lookup_insert_is_Some. intros [<-|[_ ?]]; apply Hf; eauto.
  - destruct (apply_op_silent op l ptr s Hf Hs) as (s' & Hs' & Htx & Hn'); [congruence|done|].
    eapply IH; [by apply apply_op_fresh|exact Hs'|by rewrite Htx|by rewrite Htx].
Qed.

(** A notification that arrives when the channel holds two others is
    dropped: the subscriber then waits until its context is done, although its
    write was replicated. *)
Theorem full_channel_drops l ptr s turns :
  fresh_next l -> lm_store l !! ptr = Some s ->
  (chan_capacity <= length (sub_listenChan s))%nat -> sub_txId s ∉ sub_listenChan s ->
  Forall (not_again (sub_txId s)) turns ->
  forall l', BlockForNotification turns ptr (distribute (sub_txId s) l) <> Some (l', Ok tt).
Proof.
  intros Hf Hs Hfull Hn Ha.
  eapply absent_never_wakes; [exact (apply_op_fresh (OpDistribute (sub_txId s)) l Hf)| |done|done].
  rewrite (distribute_lookup _ _ _ s) by done. unfold offer.
  rewrite bool_decide_eq_false_2 by lia. by destruct (registered l ptr).
Qed.

(** * The driver *)

Definition lost (d : pgxdriver) : bool :=
  match pd_conn d with None => true | Some c => pc_closed c end.

Section Driver.
Context `{PgPool}.

(** With its connection open the driver asks the server once and keeps its
    connection. *)
Lemma open_driver_waits d c :
  pd_mu d = false -> pd_conn d = Some c -> pc_closed c = false ->
  WaitForNotification d = Returns d (conn_WaitForNotification c).
Proof.
  destruct d as [conn mu]. simpl. intros -> -> Hc.
  unfold WaitForNotification, ensureConnected, locked. simpl. rewrite Hc. done.
Qed.

(** C40. The driver cannot re-establish a connection: when it is lost,
    [ensureConnected] calls [Connect] while it holds the mutex that [Connect]
    locks, so the listener and the notifier block for ever. *)
Theorem reconnect_deadlocks d payload :
  pd_mu d = false -> lost d = true ->
  WaitForNotification d = Deadlock /\ Notify payload d = Deadlock.
Proof.
  destruct d as [conn mu]. unfold lost. simpl. intros -> Hl.
  unfold WaitForNotification, Notify, ensureConnected, locked. simpl. by rewrite Hl.
Qed.
End Driver.

(** * A subscriber *)

Definition ex_waiting (others : list string) : ListenManager :=
  foldl (fun l p => distribute p l) (Subscribe "tx-1" NewListenManager).1 others.

Lemma ex_waiting_fresh others : fresh_next (ex_waiting others).
Proof.
  unfold ex_waiting. assert (Hf : fresh_next (Subscribe "tx-1" NewListenManager).1).
  { apply (apply_op_fresh (OpSubscribe "tx-1")). intros ptr [s Hs]. done. }
  revert Hf. generalize (Subscribe "tx-1" NewListenManager).1 as l.
  induction others as [|p ps IH]; intros l Hf; [done|]. simpl. apply IH.
  by apply (apply_op_fresh (OpDistribute p)).
Qed.

Lemma notification_wakes_witness : exists l',
  BlockForNotification [Receive; Elsewhere (OpDistribute "tx-9"); Receive] 0
    (distribute "tx-1" (ex_waiting ["tx-0"])) = Some (l', Ok tt).
Proof.
  apply (notification_wakes (ex_waiting ["tx-0"]) 0
    {| sub_txId := "tx-1"; sub_listenChan := ["tx-0"]; sub_unsubscribed := false |});
    [apply ex_waiting_fresh|vm_compute; reflexivity..|vm_compute; lia|reflexivity|cbn; lia].
Defined.

Lemma full_channel_drops_witness : forall l',
  BlockForNotification [Receive; Receive; Receive] 0
    (distribute "tx-1" (ex_waiting ["tx-7"; "tx-8"])) <> Some (l', Ok tt).
Proof.
  apply (full_channel_drops (ex_waiting ["tx-7"; "tx-8"]) 0
    {| sub_txId := "tx-1"; sub_listenChan := ["tx-7"; "tx-8"]; sub_unsubscribed := false |});
    [apply ex_waiting_fresh|vm_compute; reflexivity|vm_compute; lia| |].
  - simpl. rewrite !elem_of_cons, elem_of_nil. naive_solver.
  - by repeat constructor.
Defined.

Lemma reconnect_deadlocks_witness :
  let pool := {| pool_Acquire := Ok tt; conn_Close := None; conn_Exec _ _ := None;
                 conn_Ping _ := None; conn_WaitForNotification _ := Err (EMsg "closed") |} in
  @WaitForNotification pool {| pd_conn := Some {| pc_closed := true; pc_listening := true |};
                               pd_mu := false |} = Deadlock.
Proof.
  intros pool.
  exact (proj1 (@reconnect_deadlocks pool
    {| pd_conn := Some {| pc_closed := true; pc_listening := true |}; pd_mu := false |} "p"
    eq_refl eq_refl)).
Defined.
