(* ===== verification/ReadYourWrites.v ===== *)
(** Reading one's own writes.  A report that asks for consistent visibility waits
    for the notification of its transaction (Pubsub.v), which the consumer sends
    after the delivery of the report's event (Consumer.v).  In the pipeline of
    Convergence.v the wait therefore only succeeds after the tuples of the report
    are in the store. *)
From stdpp Require Import base tactics list strings gmap sorting relations.
From Stdlib Require Import ZArith Lia Ascii.
From S2P Require Import Prelude GoStrings Common Pubsub PubsubProps ReporterResource.
From S2P Require Import Representations Resource.
From S2P Require Import ResourceProps Json DataModel Outbox Store Tables StoreProps StoreInv.
From S2P Require Import Relations RelationsRepo RelationsRepoProps Schema SchemaProps MetaAuthz.
From S2P Require Import Consumer Examples ConsumerProps Replication Usecase UsecaseProps OutboxProps.
From S2P Require Import FetchProps Convergence.

Local Open Scope string_scope.

(** The transaction id of an entry of the log. *)
Definition entry_txid (content : json) : option string :=
  match content with
  | JObj fs => match List.find (fun kv => bool_decide (kv.1 = "txid")) fs with
               | Some (_, JStr s) => Some s
               | _ => None
               end
  | _ => None
  end.

Section Notifications.
Context {D T K S : Type} `{GormDB D} `{OutboxLib} `{TupleStore T} `{KafkaClient K}
  `{SchemaRepository S} `{!GormLaws D}.
Context (cfg : ConsumerConfig) (schemas : S).
Implicit Type i : InventoryConsumer D T K.

(** * What a delivery notifies *)

Lemma ProcessMessage_notified fuel headers msg i i1 res :
  ProcessMessage cfg schemas fuel headers msg i = Some (i1, res) -> ic_notified i1 = ic_notified i.
Proof.
  unfold ProcessMessage, processRelationsOperation. intros Hp.
  repeat case_match; simplify_eq; done.
Qed.

Lemma UpdateConsistencyToken_notified id tok i i' err :
  UpdateConsistencyTokenIfPresent id tok i = (i', err) -> ic_notified i' = ic_notified i.
Proof.
  unfold UpdateConsistencyTokenIfPresent, UpdateConsistencyToken. intros Hp.
  repeat case_match; simplify_eq; done.
Qed.

Lemma finish_message_notified notify arrived headers msg i :
  let i' := finish_message cfg notify arrived headers msg i in
  ic_notified i' = ic_notified i \/
  ic_notified i' = (ic_notified i ++ [header headers "txid"])%list.
Proof.
  unfold finish_message.
  set (i1 := if cfg_notifier cfg && _ && _ then _ else _).
  assert (Hi1 : ic_notified i1 = ic_notified i \/
                ic_notified i1 = (ic_notified i ++ [header headers "txid"])%list)
    by (unfold i1; destruct (_ && _ && _); [by right|by left]).
  assert (Hc : forall j : InventoryConsumer D T K,
    ic_notified (commitStoredOffsets j arrived).1 = ic_notified j).
  { intros j. unfold commitStoredOffsets. destruct (ic_OffsetStorage j); [done|]. simpl.
    destruct (CommitOffsets _ _) as [k [e|]]; [|done]. unfold restore_offsets. by case_match. }
  cbv zeta. destruct (checkIfCommit _ _); [rewrite Hc|]; exact Hi1.
Qed.

(** Only the transaction of the entry is notified, and only if the loop goes on. *)
Lemma consume_message_notified fuel notify arrived content msg i i' f :
  routed content msg -> consume_message cfg schemas fuel notify arrived msg i = Some (i', f) ->
  ic_notified i' = ic_notified i \/
  exists txid, ic_notified i' = (ic_notified i ++ [txid])%list /\ entry_txid content = Some txid /\
    f = Continue.
Proof.
  intros Hr. unfold consume_message. destruct (ParseHeaders msg) as [headers|] eqn:Hh;
    [|intros [= <- <-]; by left].
  assert (Htx : exists txid, header headers "txid" = txid /\ entry_txid content = Some txid).
  { inversion Hr; subst. revert Hh. unfold ParseHeaders. case_match; [done|]. intros [= <-].
    eexists. split; [reflexivity|]. unfold header, collect_headers. simpl. reflexivity. }
  destruct Htx as (txid & Hhead & Htx).
  destruct (ProcessMessage _ _ _ _ _ _) as [[i1 [resp|e]]|] eqn:Hp; [..|done];
    apply ProcessMessage_notified in Hp; [|intros [= <- <-]; by left].
  assert (Hfin : forall i2 : InventoryConsumer D T K, ic_notified i2 = ic_notified i1 ->
    let i3 := finish_message cfg notify arrived headers msg i2 in
    ic_notified i3 = ic_notified i \/ ic_notified i3 = (ic_notified i ++ [txid])%list).
  { intros i2 Hi2 i3. rewrite <- Hhead, <- Hp, <- Hi2. apply finish_message_notified. }
  assert (Hdone : forall i2, ic_notified i2 = ic_notified i1 ->
    Some (finish_message cfg notify arrived headers msg i2, Continue) = Some (i', f) ->
    ic_notified i' = ic_notified i \/ exists txid, ic_notified i' = (ic_notified i ++ [txid])%list /\
      entry_txid content = Some txid /\ f = Continue).
  { intros i2 Hi2 [= <- <-]. destruct (Hfin i2 Hi2); eauto. }
  destruct (bool_decide _); [|by apply Hdone].
  destruct (ParseMessageKey _) as [id|[]]; try (intros [= <- <-]; by left);
    destruct (UpdateConsistencyTokenIfPresent _ _ _) as [i2 [e|]] eqn:Hu;
    apply UpdateConsistencyToken_notified in Hu;
    (intros [= <- <-]; left; congruence) || by apply Hdone.
Qed.

(** * Runs with their notifications *)

(** The next entry is delivered, and [txid] is notified. *)
Definition notifies (txid : string) (p p' : pipeline (D := D) (T := T) (K := K)) : Prop :=
  exists fuel notify arrived content msg f,
    tuple_messages (ic_DB (pl_consumer p)) !! pl_position p = Some content /\ routed content msg /\
    consume_message cfg schemas fuel notify arrived msg (pl_consumer p) = Some (pl_consumer p', f) /\
    pl_position p' = match f with Continue => Datatypes.S (pl_position p) | _ => pl_position p end /\
    ic_notified (pl_consumer p') = (ic_notified (pl_consumer p) ++ [txid])%list.

(** A run of the pipeline, with its notifications and the states that the
    deliveries which sent them led to. *)
Inductive notified_run (key : ReporterResourceKey) (p0 : pipeline)
    : list (string * pipeline) -> pipeline -> Prop :=
  | nr_refl : notified_run key p0 [] p0
  | nr_step ns p p' : notified_run key p0 ns p -> pipeline_step cfg schemas key p p' ->
      notified_run key p0 ns p'
  | nr_notify ns txid p p' : notified_run key p0 ns p -> notifies txid p p' ->
      notified_run key p0 (ns ++ [(txid, p')])%list p'.

Lemma notifies_step key txid p p' : notifies txid p p' ->
  pipeline_step cfg schemas key p p' /\
  exists content, tuple_messages (ic_DB (pl_consumer p)) !! pl_position p = Some content /\
    entry_txid content = Some txid /\ pl_position p' = Datatypes.S (pl_position p).
Proof.
  destruct p as [i pos], p' as [i' pos'].
  intros (fuel & notify & arrived & content & msg & f & Hm & Hr & Hc & Hpos & Hn). simpl in *. subst pos'.
  split; [by econstructor|]. exists content.
  destruct (consume_message_notified _ _ _ _ _ _ _ _ Hr Hc) as [E|(txid' & E & Htx & ->)].
  - exfalso. rewrite E in Hn. apply (f_equal length) in Hn. rewrite length_app in Hn. simpl in Hn. lia.
  - rewrite E in Hn. apply app_inv_head in Hn as [= ->]. done.
Qed.

Section Run.
Context (key : ReporterResourceKey) (rels : list RelationDef).
Context (Hinst : reporterInstanceId (reporter key) <> "").
Context (Hrels : relations_for schemas (resourceType key) = Some rels).
Context (Hdistinct : schemas_distinct schemas) (Henabled : relationsEnabled (T := T) = true).

Abbreviation state := (pipeline (D := D) (T := T) (K := K)).
Abbreviation db p := (ic_DB (pl_consumer p)).
Abbreviation converges := (converging key rels).

(** The state after a notification: the entry of its transaction was the last
    one delivered. *)
Definition noted (p : state) evs (p' : state) (n : string * state) : Prop :=
  exists evs4 hw4 pos content, converges n.2 evs4 hw4 /\
    grown key rels (db p) evs (db n.2) evs4 /\
    pl_position n.2 = Datatypes.S pos /\
    tuple_messages (db p') !! pos = Some content /\ entry_txid content = Some n.1.

Lemma notified_run_noted p evs hw ns p' : converges p evs hw -> notified_run key p ns p' ->
  exists evs' hw', converges p' evs' hw' /\ grown key rels (db p) evs (db p') evs' /\
    Forall (noted p evs p') ns.
Proof.
  intros Hc. induction 1 as [|ns p1 p2 _ IH Hs|ns txid p1 p2 _ IH Hn].
  - exists evs, hw. split; [done|]. split; [apply same_tables_grown; by left|done].
  - destruct IH as (evs1 & hw1 & Hc1 & Hg & Hns).
    destruct (converging_step_grown _ _ _ _ Hinst _ _ _ _ Hrels Hdistinct Henabled Hc1 Hs)
      as (evs2 & hw2 & Hc2 & Hg2).
    exists evs2, hw2. split; [done|]. split; [by eapply grown_trans|].
    eapply Forall_impl; [exact Hns|]. intros n (evs4 & hw4 & pos & content & ? & ? & ? & Hm & ?).
    exists evs4, hw4, pos, content. split_all; try done.
    eapply prefix_lookup_Some; [done|]. apply (gr_messages _ _ _ _ _ _ Hg2).
  - destruct IH as (evs1 & hw1 & Hc1 & Hg & Hns).
    destruct (notifies_step key _ _ _ Hn) as (Hs & content & Hm & Htx & Hpos).
    destruct (converging_step_grown _ _ _ _ Hinst _ _ _ _ Hrels Hdistinct Henabled Hc1 Hs)
      as (evs2 & hw2 & Hc2 & Hg2).
    assert (Hkeep := fun c n Hl => prefix_lookup_Some _ _ n c Hl (gr_messages _ _ _ _ _ _ Hg2)).
    exists evs2, hw2. split; [done|]. split; [by eapply grown_trans|]. apply Forall_app. split.
    + eapply Forall_impl; [exact Hns|]. intros n (evs4 & hw4 & pos & c & ? & ? & ? & Hm' & ?).
      exists evs4, hw4, pos, c. split_all; try done. by apply Hkeep.
    + apply Forall_singleton. exists evs2, hw2, (pl_position p1), content.
      split_all; [done|by eapply grown_trans|done|by apply Hkeep|done].
Qed.
(** [k] is as in the tables [d'] in every version of [key] that was stored
    later. *)
Definition undisturbed (d' d : D) (k : simpleTupleKey) : Prop :=
  forall c, c ∈ common_rows d key ->
    (forall c0, c0 ∈ common_rows d' key -> (cw_Version c0 < cw_Version c)%Z) ->
    k ∈ tuples_of rels (Some (rep_of_row c)) key <->
    k ∈ tuples_of rels (rep_of_row <$> latest_row (common_rows d' key)) key.

(** The store shows the last version of [key] in [d'], but for the tuples that
    a later version changed. *)
Definition visible (d' : D) (p : state) : Prop :=
  forall k, owned key k -> undisturbed d' (db p) k ->
    k ∈ stored (ic_Relations (pl_consumer p)) <->
    k ∈ tuples_of rels (rep_of_row <$> latest_row (common_rows d' key)) key.

Lemma version_row_common (d : D) v c : version_row d key v = Some c ->
  c ∈ common_rows d key /\ cw_Version c = v.
Proof.
  unfold version_row. destruct (filter _ _) as [|y l] eqn:Ef; [done|]. intros [= ->].
  assert (Hin : c ∈ c :: l) by left. rewrite <- Ef in Hin. by apply list_elem_of_filter in Hin as [? ?].
Qed.

(** Once the log of [d'] is delivered, its last version is visible. *)
Lemma delivered_visible (d' : D) evs' p evs hw : logged key d' evs' -> converges p evs hw ->
  grown key rels d' evs' (db p) evs -> (length evs' <= pl_position p)%nat -> visible d' p.
Proof.
  intros Hl' [Hl _ Hpos _ Ht] [[more ->] _ Hver] Hlen k Hk Hun.
  rewrite <- (latest_version_tuples _ _ Hinst _ _ Hl') in *.
  assert (Hlow : (seen key evs' <= seen key (take (pl_position p) (evs' ++ more)))%nat).
  { rewrite take_app_ge by done. rewrite seen_app. lia. }
  assert (Hat : forall u, (seen key evs' <= u <= seen key (evs' ++ more))%nat ->
    k ∈ version_tuples key rels (db p) u <-> k ∈ version_tuples key rels d' (seen key evs')).
  { intros u Hu. destruct (decide (u = seen key evs')) as [->|Hne]; [by rewrite Hver|].
    destruct (proj2 (lg_count _ _ _ Hl (Z.of_nat u - 1)%Z) ltac:(lia)) as [c Hc].
    unfold version_tuples at 1, rep_at. rewrite Hc. apply version_row_common in Hc as [Hc Hv].
    rewrite (latest_version_tuples _ _ Hinst _ _ Hl'). apply Hun; [done|]. intros c0 Hc0.
    assert (Hc0' := proj1 (lg_count _ _ _ Hl' (cw_Version c0))
      ltac:(eexists; by apply rows_at; [apply Hl'|..])). lia. }
  assert (Hhigh : forall n, (n <= length (evs' ++ more))%nat ->
    (seen key (take n (evs' ++ more)) <= seen key (evs' ++ more))%nat).
  { intros n Hn. assert (Hle := seen_take_mono key (evs' ++ more) _ _ Hn).
    by rewrite firstn_all in Hle. }
  pose proof (Hhigh (pl_position p) ltac:(lia)). pose proof (Hhigh hw ltac:(lia)).
  rewrite (Ht k Hk); [apply Hat; lia|]. intros u Hu. rewrite !Hat; [done|lia..].
Qed.
End Run.

(** A committed report appends the entry of its transaction. *)
Lemma report_entry e cmd txid (d d' : D) op : db_wf d -> fresh d e -> env_outboxMode e = "wal" ->
  report_tx e cmd (key_of_command cmd) txid d = Ok (d', op) ->
  exists content, tuple_messages d' = (tuple_messages d ++ [content])%list /\
    entry_txid content = Some txid.
Proof.
  intros Hwf Hfr Hw Hrun.
  destruct (report_effect _ _ _ _ _ _ Hwf Hfr Hw Hrun) as (_ & w & _ & Han & _).
  destruct Han as (_ & _ & rm & id & aid & payload & He & _).
  eexists. split; [unfold tuple_messages; by rewrite He, filter_app, fmap_app|done].
Qed.

(** The transaction id is that of one entry of the log at most. *)
Definition only_entry (txid : string) (d : D) : Prop :=
  forall n m c c', tuple_messages d !! n = Some c -> tuple_messages d !! m = Some c' ->
    entry_txid c = Some txid -> entry_txid c' = Some txid -> n = m.

(** The payloads that the other goroutines of the wait distribute. *)
Definition distributed (turns : list turn) : list string :=
  omap (fun t => match t with Elsewhere (OpDistribute p) => Some p | _ => None end) turns.

(** A wait that ends well was sent the notification of its transaction. *)
Lemma wait_distributed turns ptr l l' s : fresh_next l -> lm_store l !! ptr = Some s ->
  sub_txId s ∉ sub_listenChan s -> BlockForNotification turns ptr l = Some (l', Ok tt) ->
  sub_txId s ∈ distributed turns.
Proof.
  intros Hf Hs Hn Hw. destruct (decide (sub_txId s ∈ distributed turns)) as [|Hno]; [done|].
  exfalso. eapply absent_never_wakes; [done..| |exact Hw]. apply Forall_forall. intros t Ht ->.
  apply Hno, list_elem_of_omap. eauto.
Qed.

(** C5. A report that waits for its replication reads its own write.  Let a
    run of the pipeline lead to a committed report of [key], and go on from there
    in any way, with the notifications [ns] that the consumer sends.  If the
    transaction id of the report is that of no other entry of the log, and the
    subscription of the report returns without an error after the other
    goroutines distributed only notifications that the consumer sent, then the
    consumer delivered the entry of the report, and when it sent the
    notification each tuple of [key] was in the store just if it was a tuple of
    the reported version, unless a still later version changed it.  The same
    holds at the end of the run if the consumer was not moved back before the
    entry of the report. *)
Theorem read_your_writes key rels p0 i pos e cmd txid d' op ns p3 turns ptr l l' s
    (Hinst : reporterInstanceId (reporter key) <> "")
    (Hrels : relations_for schemas (resourceType key) = Some rels)
    (Hdistinct : schemas_distinct schemas) (Henabled : relationsEnabled (T := T) = true)
    (Hstart : pipeline_start key p0)
    (Hbefore : rtc (pipeline_step cfg schemas key) p0 {| pl_consumer := i; pl_position := pos |})
    (Hcmd : key_of_command cmd = key) (Hfresh : fresh (ic_DB i) e) (Hwal : env_outboxMode e = "wal")
    (Hreport : report_tx e cmd (key_of_command cmd) txid (ic_DB i) = Ok (d', op))
    (Hsmall : small_rows d')
    (Hafter : notified_run key {| pl_consumer := set_DB i d'; pl_position := pos |} ns p3)
    (Honly : only_entry txid (ic_DB (pl_consumer p3)))
    (Hfreshptr : fresh_next l) (Hsub : lm_store l !! ptr = Some s) (Htx : sub_txId s = txid)
    (Hempty : sub_listenChan s = []) (Hsent : distributed turns ⊆ ns.*1)
    (Hwait : BlockForNotification turns ptr l = Some (l', Ok tt)) :
  (exists p4, (txid, p4) ∈ ns /\ visible key rels d' p4) /\
  ((length (tuple_messages d') <= pl_position p3)%nat -> visible key rels d' p3).
Proof.
  apply (converging_start key rels) in Hstart.
  destruct (converging_run _ _ _ _ Hinst _ _ _ _ Hrels Hdistinct Henabled Hstart Hbefore)
    as (evs1 & hw1 & Hc1).
  assert (Hstep : pipeline_step cfg schemas key {| pl_consumer := i; pl_position := pos |}
    {| pl_consumer := set_DB i d'; pl_position := pos |}) by (by eapply pl_report).
  destruct (converging_step_grown _ _ _ _ Hinst _ _ _ _ Hrels Hdistinct Henabled Hc1 Hstep)
    as (evs2 & hw2 & Hc2 & _).
  destruct (report_entry _ _ _ _ _ _ (lg_wf _ _ _ (cg_logged _ _ _ _ _ Hc1)) Hfresh Hwal Hreport)
    as (content & Hm & Hcontent).
  pose proof (cg_logged _ _ _ _ _ Hc2) as Hl2. change (logged key d' evs2) in Hl2.
  pose proof (Forall2_length _ _ _ (lg_published _ _ _ Hl2)) as Hlen2.
  destruct (notified_run_noted _ _ Hinst Hrels Hdistinct Henabled _ _ _ _ _ Hc2 Hafter)
    as (evs3 & hw3 & Hc3 & Hg3 & Hnoted).
  split; [|intros Hpos; eapply delivered_visible; [done..|by rewrite Hlen2]].
  assert (Hin : txid ∈ ns.*1).
  { subst txid. apply Hsent. eapply wait_distributed; [done..| |done]. rewrite Hempty. apply not_elem_of_nil. }
  apply list_elem_of_fmap in Hin as ([txid' p4] & -> & Hp4). exists p4. split; [done|].
  rewrite Forall_forall in Hnoted.
  destruct (Hnoted _ Hp4) as (evs4 & hw4 & n & c & Hc4 & Hg4 & Hpos & Hn & Hc). simpl in *.
  assert (E : n = length (tuple_messages (ic_DB i))).
  { eapply Honly; [exact Hn| |exact Hc|exact Hcontent].
    eapply prefix_lookup_Some; [|apply (gr_messages _ _ _ _ _ _ Hg3)].
    change (ic_DB (pl_consumer _)) with d'. rewrite Hm. by apply list_lookup_middle. }
  eapply delivered_visible; [done..|]. rewrite Hlen2, Hm, length_app, Hpos, E. simpl. lia.
Qed.
End Notifications.

(** * A run *)

Lemma distinct_only_entry {D} `{GormDB D} txid (d : D) :
  NoDup (entry_txid <$> tuple_messages d) -> only_entry txid d.
Proof.
  intros Hnd n m c c' Hn Hm Hc Hc'. apply (NoDup_lookup _ n m (Some txid) Hnd);
    rewrite list_lookup_fmap; [rewrite Hn|rewrite Hm]; simpl; congruence.
Qed.

Lemma ex_deliver_notifies (p p' : ex_pipeline) txid : ex_act ExDeliver p = Some p' ->
  ic_notified (pl_consumer p') = (ic_notified (pl_consumer p) ++ [txid])%list ->
  notifies ex_config ex_schemas txid p p'.
Proof.
  intros Ha Hn. unfold ex_act in Ha.
  destruct (tuple_messages _ !! _) as [content|] eqn:Hc; [|done].
  destruct (route _ _) as [msg|] eqn:Hr; [|done]. apply route_routed in Hr.
  destruct (consume_message _ _ _ _ _ _ _) as [[i' f]|] eqn:E; [|done]. injection Ha as <-.
  exists 5%nat, None, [], content, msg, f. split_all; done.
Qed.

(** The host is in w1 when a report moves it to w2 and waits; the consumer
    delivers the move, and the notification of its transaction is distributed. *)
Definition ex_before : option ex_pipeline := ex_acts [ExReport 1 "w1"; ExDeliver] ex_pipeline_start.

Definition ex_move (i : InventoryConsumer Tables ex_relations ex_kafka)
    : result (Tables * eventOperationType) :=
  report_tx (ex_env 3 4) (ex_command "3" "w2") ex_host_key "3" (ic_DB i).

Definition ex_wait : option (ListenManager * result unit) :=
  BlockForNotification [Receive; Elsewhere (OpDistribute "3"); Receive] 0
    (Subscribe "3" NewListenManager).1.

Definition ex_moved : bool :=
  match ex_before with
  | Some {| pl_consumer := i; pl_position := pos |} =>
      match ex_move i with
      | Ok (d', op) =>
          match ex_act ExDeliver {| pl_consumer := set_DB i d'; pl_position := pos |}, ex_wait with
          | Some p3, Some (_, Ok tt) => bool_decide
              (ids_below 3 (ic_DB i) = true /\ small_rows_b d' = true /\
               ic_notified (pl_consumer p3) = (ic_notified i ++ ["3"])%list /\
               NoDup (entry_txid <$> tuple_messages (ic_DB (pl_consumer p3))) /\
               stored (ic_Relations i) = {[ tkey (ex_tuple "w1") ]} /\
               stored (ic_Relations (pl_consumer p3)) = {[ tkey (ex_tuple "w2") ]})
          | _, _ => false
          end
      | Err _ => false
      end
  | None => false
  end.

Lemma ex_moved_true : ex_moved = true.
Proof. vm_compute. reflexivity. Qed.

Lemma read_your_writes_witness :
  exists (i : InventoryConsumer Tables ex_relations ex_kafka) d' op (p4 : ex_pipeline) l',
    ex_move i = Ok (d', op) /\ ex_wait = Some (l', Ok tt) /\
    stored (ic_Relations i) = {[ tkey (ex_tuple "w1") ]} /\
    visible ex_host_key workspaceRelations d' p4.
Proof.
  pose proof ex_moved_true as Hf. unfold ex_moved in Hf.
  destruct ex_before as [[i pos]|] eqn:E1; [|discriminate Hf].
  destruct (ex_move i) as [[d' op]|] eqn:E2; [|discriminate Hf].
  destruct (ex_act ExDeliver _) as [p3|] eqn:E3; [|discriminate Hf].
  destruct ex_wait as [[l' [[]|]]|] eqn:E4; try discriminate Hf.
  apply bool_decide_eq_true in Hf as (Hid & Hsm & Hn & Hnd & Hst & _).
  destruct (read_your_writes ex_config ex_schemas ex_host_key workspaceRelations ex_pipeline_start
    i pos (ex_env 3 4) (ex_command "3" "w2") "3" d' op [("3", p3)] p3
    [Receive; Elsewhere (OpDistribute "3"); Receive] 0%nat (Subscribe "3" NewListenManager).1 l'
    {| sub_txId := "3"; sub_listenChan := []; sub_unsubscribed := false |})
    as [(p4 & _ & Hv) _];
    [discriminate|reflexivity|exact ex_schemas_distinct|reflexivity|exact ex_pipeline_starts
    |exact (ex_acts_run _ _ _ E1)|reflexivity|exact (ids_below_fresh 3 _ Hid)|reflexivity|exact E2
    |exact (small_rows_b_true _ Hsm)| |exact (distinct_only_entry _ _ Hnd)| |reflexivity..| |exact E4|].
  - exact (nr_notify _ _ _ _ [] "3" _ _ (nr_refl _ _ _ _) (ex_deliver_notifies _ _ _ E3 Hn)).
  - apply (apply_op_fresh (OpSubscribe "3") NewListenManager). intros q [x Hx]. discriminate Hx.
  - done.
  - exists i, d', op, p4, l'. split_all; done.
Defined.
