(* ===== verification/SchemaLoad.v ===== *)
(** Where the schemas come from: the directory loader and the JSON loader of
    internal/data/inmemory_schema_repository.go, the command of
    cmd/schema/schema.go that writes the JSON from the directory, and
    [newSchemaRepository] of cmd/serve/serve.go.

    A path is the list of the arguments of [filepath.Join].  Go iterates over a
    map in any order: [range n] is the order of the [n]-th loop. *)
From stdpp Require Import base tactics list strings gmap.
From Stdlib Require Import ZArith Lia Ascii.
From S2P Require Import Prelude GoStrings Common Json Schema.

Local Open Scope string_scope.

(** * The file system *)

Abbreviation path := (list string).

Inductive stat := Found | NotExist | StatError (err : go_error).
#[export] Instance stat_eq_dec : EqDecision stat.
Proof. solve_decision. Defined.

(** package os; a directory entry has a name and says whether it is a directory. *)
Class FileSystem := {
  os_ReadDir : path -> result (list (string * bool));
  os_ReadFile : path -> result string;
  os_Stat : path -> stat;
}.

(** gopkg.in/yaml.v3 *)
Class YamlLib := {
  yaml_Unmarshal : string -> result JsonObject;
  yaml_Marshal : JsonObject -> result string;
}.

(** [for x := range l { acc, err = f(x, acc); if err != nil { return err } }] *)
Fixpoint range_over {A B} (f : A -> B -> result B) (l : list A) (acc : B) : result B :=
  match l with
  | [] => Ok acc
  | x :: l => let! acc := f x acc in range_over f l acc
  end.

(** * base64.StdEncoding *)

Definition base64_alphabet : string :=
  "ABCDEFGHIJKLMNOPQRSTUVWXYZabcdefghijklmnopqrstuvwxyz0123456789+/".

Definition sextet (z : Z) : ascii :=
  default "="%char (String.get (Z.to_nat (z mod 64)) base64_alphabet).

Definition byte_of (c : ascii) : Z := Z.of_nat (nat_of_ascii c).

Fixpoint EncodeToString (s : string) : string :=
  match s with
  | "" => ""
  | String a "" =>
      let n := Z.shiftl (byte_of a) 16 in
      String (sextet (Z.shiftr n 18)) (String (sextet (Z.shiftr n 12)) "==")
  | String a (String b "") =>
      let n := Z.lor (Z.shiftl (byte_of a) 16) (Z.shiftl (byte_of b) 8) in
      String (sextet (Z.shiftr n 18)) (String (sextet (Z.shiftr n 12))
        (String (sextet (Z.shiftr n 6)) "="))
  | String a (String b (String c rest)) =>
      let n := Z.lor (Z.lor (Z.shiftl (byte_of a) 16) (Z.shiftl (byte_of b) 8)) (byte_of c) in
      String (sextet (Z.shiftr n 18)) (String (sextet (Z.shiftr n 12))
        (String (sextet (Z.shiftr n 6)) (String (sextet n) (EncodeToString rest))))
  end.

Example EncodeToString_kessel : EncodeToString "kessel" = "a2Vzc2Vs".
Proof. reflexivity. Qed.
Example EncodeToString_pad : EncodeToString "type" = "dHlwZQ==".
Proof. reflexivity. Qed.

Section Load.
Context `{FileSystem} `{YamlLib}.
Context (range : nat -> forall A, gmap string A -> list (string * A)).
Context (schemaFromString : ResourceType -> string -> Schema).
Implicit Type repository : InMemorySchemaRepository.

(** * From a directory *)

Definition loadCommonResourceDataSchema (resourceType : string) (baseSchemaDir : path)
    : result string :=
  wrap_err "failed to read common resource schema"
    (os_ReadFile (baseSchemaDir ++ [resourceType; "common_representation.json"])%list).

Definition loadResourceSchema (resourceType reporterType : string) (dir : path)
    : result (string * bool) :=
  let schemaPath :=
    (dir ++ [resourceType; "reporters"; reporterType; resourceType +:+ ".json"])%list in
  match os_Stat schemaPath with
  | NotExist => Ok ("", false)
  | StatError err => wrap_err "failed to check schema file" (Err err)
  | Found =>
      let! data := wrap_err "failed to read schema file" (os_ReadFile schemaPath) in
      Ok (data, true)
  end.

(** The body of the loop over the reporters. *)
Definition load_reporter (resourceDir : path) (resourceType : ResourceType)
    (reporter : string * bool) repository : result InMemorySchemaRepository :=
  if negb reporter.2 then Ok repository
  else
    let! reporterType := wrap_err "invalid reporter type" (NewReporterType reporter.1) in
    match loadResourceSchema resourceType reporterType resourceDir with
    | Ok (reporterSchema, true) =>
        let! reporterSchemaRepr := NewReporterSchemaRepresentation resourceType reporterType
                                     (Some (schemaFromString resourceType reporterSchema)) in
        InMemory.CreateReporterSchema repository reporterSchemaRepr
    | _ => Ok repository
    end.

Definition create_common (resourceType : ResourceType) (commonResourceSchema : string) repository
    : result InMemorySchemaRepository :=
  let! resourceSchema := NewResourceSchemaRepresentation resourceType
                           (Some (schemaFromString resourceType commonResourceSchema)) in
  InMemory.CreateResourceSchema repository resourceSchema.

(** The body of the loop over the resource directories. *)
Definition load_resource (resourceDir : path) (dir : string * bool) repository
    : result InMemorySchemaRepository :=
  if negb dir.2 then Ok repository
  else
    let! resourceType := wrap_err "invalid resource type directory" (NewResourceType dir.1) in
    let! repository :=
      match loadCommonResourceDataSchema resourceType resourceDir with
      | Ok commonResourceSchema => create_common resourceType commonResourceSchema repository
      | Err _ => Ok repository
      end in
    let reportersDir := (resourceDir ++ [resourceType; "reporters"])%list in
    if bool_decide (os_Stat reportersDir = NotExist) then Ok repository
    else match os_ReadDir reportersDir with
         | Err _ => Ok repository
         | Ok reporterDirs =>
             range_over (load_reporter resourceDir resourceType) reporterDirs repository
         end.

Definition NewInMemorySchemaRepositoryFromDir (resourceDir : path)
    : result InMemorySchemaRepository :=
  let! resourceDirs := wrap_err "failed to read schema directory" (os_ReadDir resourceDir) in
  range_over (load_resource resourceDir) resourceDirs InMemory.NewInMemorySchemaRepository.

(** * From JSON *)

Definition commonPrefix : string := "common:".

Fixpoint findResourceTypeFromJsonKey (jsonKey : string) (resourceTypes : list ResourceType)
    : ResourceType * string :=
  match resourceTypes with
  | [] => ("", "")
  | resourceType :: rest =>
      if HasPrefix jsonKey (resourceType +:+ ":")
      then (resourceType, TrimPrefix jsonKey (resourceType +:+ ":"))
      else findResourceTypeFromJsonKey jsonKey rest
  end.

(** The body of the first loop. *)
Definition json_common (kv : string * json) repository : result InMemorySchemaRepository :=
  if negb (HasPrefix kv.1 commonPrefix) then Ok repository
  else
    let! resourceType := wrap_err "invalid resource type in schema JSON key"
                           (NewResourceType (TrimPrefix kv.1 commonPrefix)) in
    match kv.2 with
    | JStr s => create_common resourceType s repository
    | _ => Err (EMsg "expected string schema value for resource type")
    end.

(** The body of the second loop. *)
Definition json_reporter (resourceTypes : list ResourceType) (kv : string * json) repository
    : result InMemorySchemaRepository :=
  let '(resourceType, remainder) := findResourceTypeFromJsonKey kv.1 resourceTypes in
  if bool_decide (resourceType = "") then Ok repository
  else
    let! reporterType := wrap_err "invalid reporter type in schema JSON key"
                           (NewReporterType remainder) in
    match kv.2 with
    | JStr s =>
        let! reporterSchemaRepr := NewReporterSchemaRepresentation resourceType reporterType
                                     (Some (schemaFromString resourceType s)) in
        InMemory.CreateReporterSchema repository reporterSchemaRepr
    | _ => Err (EMsg "expected string schema value for reporter type")
    end.

(** [jsonBytes] is the document; [None] when it is not JSON. *)
Definition NewFromJsonBytes (jsonBytes : option json) : result InMemorySchemaRepository :=
  let! jsonContent := wrap_err "failed to unmarshal schema cache JSON"
    (match jsonBytes with
     | None => Err (EMsg "invalid JSON")
     | Some j => unmarshal_object j ∅
     end) in
  let jsonContent := default ∅ jsonContent in
  let! repository :=
    range_over json_common (range 0%nat _ jsonContent) InMemory.NewInMemorySchemaRepository in
  let resourceTypes := (range 1%nat _ repository).*1 in
  range_over (json_reporter resourceTypes) (range 2%nat _ jsonContent) repository.

Definition NewInMemorySchemaRepositoryFromJsonFile (parse : string -> option json)
    (jsonFile : path) : result InMemorySchemaRepository :=
  let! jsonData := wrap_err "failed to read schema cache file" (os_ReadFile jsonFile) in
  NewFromJsonBytes (parse jsonData).

(** * Preloading (cmd/schema/schema.go) *)

Definition readJSONFile (filePath : path) : result string := os_ReadFile filePath.

Definition normalizeYAMLResourceType (yamlContent : string) : result string :=
  let! yamlData := wrap_err "failed to parse YAML" (yaml_Unmarshal yamlContent) in
  let! yamlData :=
    match default ∅ yamlData !! "type" with
    | Some (JStr resourceType) =>
        let! rt := wrap_err "invalid resource type in YAML" (NewResourceType resourceType) in
        Ok (<["type" := JStr rt]> <$> yamlData)
    | _ => Ok yamlData
    end in
  wrap_err "failed to serialize YAML" (yaml_Marshal yamlData).

Definition encodeYAMLToBase64 (filePath : path) : result string :=
  let! data := os_ReadFile filePath in
  let! normalizedData := normalizeYAMLResourceType data in
  Ok (EncodeToString normalizedData).

(** [if _, err := os.Stat(p); err == nil { if s, err := read(p); err == nil { cache[key] = s } }] *)
Definition cache_file (read : path -> result string) (p : path) (key : string)
    (schemaCache : gmap string json) : gmap string json :=
  if bool_decide (os_Stat p = Found)
  then match read p with Ok data => <[key := JStr data]> schemaCache | Err _ => schemaCache end
  else schemaCache.

Definition preload_reporter (reportersPath : path) (resourceName resourceType : string)
    (schemaCache : gmap string json) (reporter : string * bool) : gmap string json :=
  if negb reporter.2 then schemaCache
  else match NewReporterType reporter.1 with
       | Err _ => schemaCache
       | Ok reporterType =>
           let reporterPath := (reportersPath ++ [reporter.1])%list in
           let schemaCache := cache_file encodeYAMLToBase64 (reporterPath ++ ["config.yaml"])%list
                                ("config:" +:+ resourceType +:+ ":" +:+ reporterType)
                                schemaCache in
           cache_file readJSONFile (reporterPath ++ [resourceName +:+ ".json"])%list
             (resourceType +:+ ":" +:+ reporterType) schemaCache
       end.

Definition preload_resource (schemaDir : path) (schemaCache : gmap string json)
    (resource : string * bool) : gmap string json :=
  if negb resource.2 then schemaCache
  else match NewResourceType resource.1 with
       | Err _ => schemaCache
       | Ok resourceType =>
           let resourcePath := (schemaDir ++ [resource.1])%list in
           let schemaCache := cache_file readJSONFile
                                (resourcePath ++ ["common_representation.json"])%list
                                ("common:" +:+ resourceType) schemaCache in
           let schemaCache := cache_file encodeYAMLToBase64 (resourcePath ++ ["config.yaml"])%list
                                ("config:" +:+ resourceType) schemaCache in
           let reportersPath := (resourcePath ++ ["reporters"])%list in
           match os_ReadDir reportersPath with
           | Err _ => schemaCache
           | Ok reporterDirs =>
               foldl (preload_reporter reportersPath resource.1 resourceType) schemaCache
                 reporterDirs
           end
       end.

(** The cache is a global that the command fills. *)
Definition preloadSchemas (schemaDir : path) (schemaCache : gmap string json)
    : result (gmap string json) :=
  let! resources := wrap_err "failed to read schema directory" (os_ReadDir schemaDir) in
  Ok (foldl (preload_resource schemaDir) schemaCache resources).

(** [saveSchemaCache]: the document it writes, and the error of the write. *)
Definition saveSchemaCache (write : json -> option go_error) (schemaCache : gmap string json)
    : result json :=
  let data := marshal_object (Some schemaCache) in
  match write data with
  | Some err => wrap_err "failed to write schema cache to file" (Err err)
  | None => Ok data
  end.

(** The command [preload-schema]. *)
Definition preload_command (write : json -> option go_error) (schemaDir : path) : result json :=
  let! schemaCache := preloadSchemas schemaDir ∅ in
  saveSchemaCache write schemaCache.
End Load.

(** * The choice of the repository (serve.go, internal/config/schema) *)

Module inmemory.
Record Options := { Type_ : string; Path : string }.

Definition EmptyRepository : string := "empty".
Definition JSONRepository : string := "json".
Definition DirRepository : string := "dir".

Definition NewOptions : Options := {| Type_ := EmptyRepository; Path := "" |}.

Definition invalid_type (o : Options) : go_error :=
  EMsg ("invalid repository type: " +:+ Type_ o +:+ ". valid values are " +:+ EmptyRepository
        +:+ ", " +:+ JSONRepository +:+ " or " +:+ DirRepository).

Definition Validate (o : Options) : list go_error :=
  if negb (bool_decide (Type_ o = EmptyRepository) || bool_decide (Type_ o = JSONRepository)
           || bool_decide (Type_ o = DirRepository))
  then [invalid_type o]
  else if (bool_decide (Type_ o = JSONRepository) || bool_decide (Type_ o = DirRepository))
          && bool_decide (Path o = "")
  then [EMsg ("path is required when Type is set to " +:+ Type_ o)]
  else [].

(** [Config] embeds the options; the completed configuration has the same two
    fields. *)
Definition NewConfig (o : Options) : Options := o.
Definition Complete (c : Options) : result Options := Ok c.
End inmemory.

Record SchemaOptions := { sco_Repository : string; sco_InMemory : inmemory.Options }.

Definition InMemoryRepository : string := "in-memory".

Definition NewSchemaOptions : SchemaOptions :=
  {| sco_Repository := InMemoryRepository; sco_InMemory := inmemory.NewOptions |}.

Definition ValidateSchemaOptions (o : SchemaOptions) : list go_error :=
  ((if bool_decide (sco_Repository o <> InMemoryRepository)
    then [EMsg ("repository option must be set to " +:+ InMemoryRepository)] else [])
   ++ (if bool_decide (sco_Repository o = InMemoryRepository)
       then inmemory.Validate (sco_InMemory o) else []))%list.

(** [InMemory] is nil unless it is chosen. *)
Record SchemaConfig := { scc_Repository : string; scc_InMemory : option inmemory.Options }.

Definition NewSchemaConfig (o : SchemaOptions) : SchemaConfig :=
  {| scc_Repository := sco_Repository o;
     scc_InMemory := if bool_decide (sco_Repository o = InMemoryRepository)
                     then Some (inmemory.NewConfig (sco_InMemory o)) else None |}.

Definition CompleteSchema (c : SchemaConfig) : result (SchemaConfig * list go_error) :=
  if bool_decide (scc_Repository c = InMemoryRepository) then
    match scc_InMemory c with
    | None => Err (EPanic "invalid memory address or nil pointer dereference")
    | Some im =>
        match inmemory.Complete im with
        | Err err => Ok ({| scc_Repository := ""; scc_InMemory := None |}, [err])
        | Ok im => Ok ({| scc_Repository := scc_Repository c; scc_InMemory := Some im |}, [])
        end
    end
  else Ok ({| scc_Repository := scc_Repository c; scc_InMemory := None |}, []).

Definition newSchemaRepository `{FileSystem}
    (range : nat -> forall A, gmap string A -> list (string * A)) (parse : string -> option json)
    (c : SchemaConfig) : result InMemorySchemaRepository :=
  if bool_decide (scc_Repository c = InMemoryRepository) then
    match scc_InMemory c with
    | None => Err (EPanic "invalid memory address or nil pointer dereference")
    | Some im =>
        if bool_decide (inmemory.Type_ im = inmemory.EmptyRepository)
        then Ok InMemory.NewInMemorySchemaRepository
        else if bool_decide (inmemory.Type_ im = inmemory.JSONRepository)
        then NewInMemorySchemaRepositoryFromJsonFile range FeaturesAwareSchemaFactory parse
               [inmemory.Path im]
        else if bool_decide (inmemory.Type_ im = inmemory.DirRepository)
        then NewInMemorySchemaRepositoryFromDir FeaturesAwareSchemaFactory [inmemory.Path im]
        else Err (EMsg ("invalid repository type: " +:+ scc_Repository c +:+ "/"
                        +:+ inmemory.Type_ im))
    end
  else Err (EMsg ("invalid repository type: " +:+ scc_Repository c)).
