(* ===== verification/SchemaLoadProps.v ===== *)
(** The two ways to load the schemas agree: for a directory whose names are in
    normal form, the repository read from it is the repository read from the
    JSON that [preload-schema] writes for it, whatever the order in which Go
    iterates over its maps. *)
From stdpp Require Import base tactics list strings gmap.
From Stdlib Require Import ZArith Lia Ascii.
From S2P Require Import Prelude GoStrings Common Json Schema SchemaLoad.

Local Open Scope string_scope.

(** * Keys *)

Definition no_colon (s : string) : Prop := ContainsAny s [":"%char] = false.

Lemma no_colon_cons c s : no_colon (String c s) <-> c <> ":"%char /\ no_colon s.
Proof.
  unfold no_colon. cbn [ContainsAny]. rewrite orb_false_iff, bool_decide_eq_false.
  by rewrite list_elem_of_singleton.
Qed.

(** A key has one split at its first colon. *)
Lemma colon_inj n m r t :
  no_colon n -> no_colon m -> n +:+ ":" +:+ r = m +:+ ":" +:+ t -> n = m /\ r = t.
Proof.
  revert m. induction n as [|c n IH]; intros [|d m]; autorewrite with sapp.
  - by intros _ _ [= ->].
  - intros _ [Hd _]%no_colon_cons [= <- _]. done.
  - intros [Hd _]%no_colon_cons _ [= -> _]. done.
  - intros [_ Hn]%no_colon_cons [_ Hm]%no_colon_cons [= -> He].
    destruct (IH m Hn Hm He) as [-> ->]. done.
Qed.

Lemma HasPrefix_app p s : HasPrefix (p +:+ s) p = true.
Proof.
  unfold HasPrefix. induction p as [|c p IH]; autorewrite with sapp; [by destruct s|].
  simpl. by destruct (ascii_dec c c).
Qed.

Lemma HasPrefix_split p s : HasPrefix s p = true -> exists t, s = p +:+ t.
Proof.
  unfold HasPrefix. revert s. induction p as [|c p IH]; intros s; [by exists s|].
  destruct s as [|d s]; [done|]. simpl. destruct (ascii_dec c d) as [->|]; [|done].
  intros [t ->]%IH. by exists t.
Qed.

Lemma substring_all s : String.substring 0 (String.length s) s = s.
Proof. induction s as [|c s IH]; [done|]. simpl. by rewrite IH. Qed.

Lemma TrimPrefix_app p s : TrimPrefix (p +:+ s) p = s.
Proof.
  unfold TrimPrefix. rewrite HasPrefix_app. induction p as [|c p IH]; autorewrite with sapp; simpl.
  - rewrite Nat.sub_0_r. apply substring_all.
  - exact IH.
Qed.

Lemma find_type_found n r types :
  no_colon n -> Forall no_colon types -> n ∈ types ->
  findResourceTypeFromJsonKey (n +:+ ":" +:+ r) types = (n, r).
Proof.
  intros Hn Hts. induction Hts as [|m types Hm _ IH]; intros Hin; [by apply elem_of_nil in Hin|].
  simpl. destruct (HasPrefix _ _) eqn:Hp.
  - apply HasPrefix_split in Hp as Hs. destruct Hs as [t Ht].
    rewrite app_assoc_string in Ht. apply colon_inj in Ht as [-> ->]; [|done..].
    f_equal. by rewrite <- app_assoc_string, TrimPrefix_app.
  - apply elem_of_cons in Hin as [->|Hin]; [|by apply IH].
    by rewrite <- app_assoc_string, HasPrefix_app in Hp.
Qed.

Lemma find_type_none n r types :
  no_colon n -> Forall no_colon types -> n ∉ types ->
  findResourceTypeFromJsonKey (n +:+ ":" +:+ r) types = ("", "").
Proof.
  intros Hn Hts. induction Hts as [|m types Hm _ IH]; intros Hin; [done|].
  simpl. apply not_elem_of_cons in Hin as [Hnm Hin]. destruct (HasPrefix _ _) eqn:Hp; [|by apply IH].
  apply HasPrefix_split in Hp as [t Ht]. rewrite app_assoc_string in Ht.
  by apply colon_inj in Ht as [-> _].
Qed.

(** * What a repository holds *)

Definition common_view (repository : InMemorySchemaRepository) (n : string)
    : option ResourceSchemaRepresentation := re_schema <$> repository !! n.
Definition reporter_view (repository : InMemorySchemaRepository) (n r : string)
    : option ReporterSchemaRepresentation :=
  entry ← repository !! n; re_reporters entry !! r.

Lemma views_eq repo1 repo2 :
  (forall n, common_view repo1 n = common_view repo2 n) ->
  (forall n r, reporter_view repo1 n r = reporter_view repo2 n r) -> repo1 = repo2.
Proof.
  unfold common_view, reporter_view. intros Hc Hr. apply map_eq. intros n. specialize (Hc n).
  specialize (Hr n). destruct (repo1 !! n) as [[s1 m1]|], (repo2 !! n) as [[s2 m2]|]; simplify_eq/=;
    [|done]. f_equal. f_equal. apply map_eq. exact Hr.
Qed.

Lemma CreateResourceSchema_view repo s :
  common_view repo (rsr_resourceType s) = None ->
  exists repo', InMemory.CreateResourceSchema repo s = Ok repo' /\
    (forall n, common_view repo' n
       = if decide (n = rsr_resourceType s) then Some s else common_view repo n) /\
    (forall n r, reporter_view repo' n r = reporter_view repo n r).
Proof.
  unfold common_view, InMemory.CreateResourceSchema. intros Hn%fmap_None. rewrite Hn.
  eexists. split_and!; [done| |].
  - intros n. destruct (decide _) as [->|]; [by simplify_map_eq|by rewrite lookup_insert_ne].
  - intros n r. unfold reporter_view. destruct (decide (n = rsr_resourceType s)) as [->|].
    + rewrite lookup_insert_eq, Hn. simpl. apply lookup_empty.
    + by rewrite lookup_insert_ne.
Qed.

Lemma CreateReporterSchema_view repo p :
  is_Some (common_view repo (psr_resourceType p)) ->
  reporter_view repo (psr_resourceType p) (psr_reporterType p) = None ->
  exists repo', InMemory.CreateReporterSchema repo p = Ok repo' /\
    (forall n, common_view repo' n = common_view repo n) /\
    (forall n r, reporter_view repo' n r
       = if decide (n = psr_resourceType p /\ r = psr_reporterType p) then Some p
         else reporter_view repo n r).
Proof.
  unfold common_view, reporter_view, InMemory.CreateReporterSchema, InMemory.getResourceEntry.
  intros [s Hs] Hr. apply fmap_Some in Hs as (e & He & _). rewrite He in *. simpl in *.
  rewrite Hr. eexists. split_and!; [done| |]; unfold InMemory.set_reporters.
  - intros n. destruct (decide (n = psr_resourceType p)) as [->|].
    + by rewrite lookup_insert_eq, He.
    + by rewrite lookup_insert_ne.
  - intros n r. destruct (decide (n = psr_resourceType p)) as [->|].
    + rewrite lookup_insert_eq, He. simpl. destruct (decide (r = psr_reporterType p)) as [->|].
      * rewrite decide_True by done. by simplify_map_eq.
      * rewrite decide_False by naive_solver. by rewrite lookup_insert_ne.
    + rewrite decide_False by naive_solver. by rewrite lookup_insert_ne.
Qed.

(** * The directory *)

(** What package os documents. *)
Class FileSystemLaws `{FileSystem} := {
  readable_found : forall p s, os_ReadFile p = Ok s -> os_Stat p = Found;
  listed_found : forall p l, os_ReadDir p = Ok l -> os_Stat p = Found;
  entries_distinct : forall p l, os_ReadDir p = Ok l -> NoDup l.*1;
}.

Section Loaders.
Context `{FileSystemLaws} `{YamlLib}.
Context (range : nat -> forall A, gmap string A -> list (string * A)).
Context (f : ResourceType -> string -> Schema) (dir : path).

Definition readable (p : path) : option string :=
  match os_ReadFile p with Ok s => Some s | Err _ => None end.
Definition listed (p : path) : list (string * bool) :=
  match os_ReadDir p with Ok l => l | Err _ => [] end.

Definition common_file (n : string) : option string :=
  readable (dir ++ [n; "common_representation.json"])%list.
Definition reporter_dirs (n : string) : list (string * bool) := listed (dir ++ [n; "reporters"])%list.
Definition reporter_file (n r : string) : option string :=
  readable (dir ++ [n; "reporters"; r; n +:+ ".json"])%list.

(** A directory as the repository keeps it: the names are the normal forms of
    the types, no type reads like a prefix of the JSON keys, and a resource with
    a reporter's schema has a common schema. *)
Record tidy (dirs : list (string * bool)) : Prop := {
  td_list : os_ReadDir dir = Ok dirs;
  td_type : forall n, (n, true) ∈ dirs ->
    NewResourceType n = Ok n /\ no_colon n /\ n <> "common" /\ n <> "config";
  td_reporter : forall n r, (n, true) ∈ dirs -> (r, true) ∈ reporter_dirs n ->
    NewReporterType r = Ok r;
  td_common : forall n r, (n, true) ∈ dirs -> (r, true) ∈ reporter_dirs n ->
    is_Some (reporter_file n r) -> is_Some (common_file n);
}.

Definition common_repr (n s : string) : ResourceSchemaRepresentation :=
  {| rsr_resourceType := n; rsr_schema := Some (f n s) |}.
Definition reporter_repr (n r s : string) : ReporterSchemaRepresentation :=
  {| psr_resourceType := n; psr_reporterType := r; psr_schema := Some (f n s) |}.

(** What should be loaded. *)
Definition common_spec (dirs : list (string * bool)) (n : string) :=
  if decide ((n, true) ∈ dirs) then common_repr n <$> common_file n else None.
Definition reporter_spec (dirs : list (string * bool)) (n r : string) :=
  if decide ((n, true) ∈ dirs /\ (r, true) ∈ reporter_dirs n)
  then reporter_repr n r <$> reporter_file n r else None.

Lemma type_nonempty n : NewResourceType n = Ok n -> n <> "".
Proof. intros Hn%NewResourceType_spec. by destruct Hn. Qed.
Lemma reporter_nonempty r : NewReporterType r = Ok r -> r <> "".
Proof. intros Hr%NewReporterType_spec. by destruct Hr. Qed.

Lemma create_common_view n s repo :
  n <> "" -> common_view repo n = None ->
  exists repo', create_common f n s repo = Ok repo' /\
    (forall m, common_view repo' m
       = if decide (m = n) then Some (common_repr n s) else common_view repo m) /\
    (forall m r, reporter_view repo' m r = reporter_view repo m r).
Proof.
  intros Hn Hv. unfold create_common, NewResourceSchemaRepresentation.
  rewrite bool_decide_eq_false_2 by done. by apply (CreateResourceSchema_view repo (common_repr n s)).
Qed.

Lemma create_reporter_view n r s repo :
  n <> "" -> r <> "" -> is_Some (common_view repo n) -> reporter_view repo n r = None ->
  exists repo',
    (let! p := NewReporterSchemaRepresentation n r (Some (f n s)) in
     InMemory.CreateReporterSchema repo p) = Ok repo' /\
    (forall m, common_view repo' m = common_view repo m) /\
    (forall m t, reporter_view repo' m t
       = if decide (m = n /\ t = r) then Some (reporter_repr n r s) else reporter_view repo m t).
Proof.
  intros Hn Hr Hc Hv. unfold NewReporterSchemaRepresentation.
  rewrite !bool_decide_eq_false_2 by done. by apply (CreateReporterSchema_view repo (reporter_repr n r s)).
Qed.

Lemma loadResourceSchema_readable n r :
  match loadResourceSchema n r dir with
  | Ok (s, true) => reporter_file n r = Some s
  | _ => reporter_file n r = None
  end.
Proof.
  unfold loadResourceSchema, reporter_file, readable.
  destruct (os_ReadFile _) as [s|e] eqn:E.
  - by rewrite (readable_found _ _ E).
  - destruct (os_Stat _); simpl; [by destruct e|done|by destruct err].
Qed.

(** One reporter: its schema, if it can be read, joins the repository. *)
Lemma load_reporter_view n r b repo :
  n <> "" -> (b = true -> NewReporterType r = Ok r) ->
  (b = true -> is_Some (reporter_file n r) -> is_Some (common_view repo n)) ->
  (b = true -> reporter_view repo n r = None) ->
  exists repo1, load_reporter f dir n (r, b) repo = Ok repo1 /\
    (forall m, common_view repo1 m = common_view repo m) /\
    (forall m t, reporter_view repo1 m t
       = if decide (m = n /\ t = r /\ b = true) then reporter_repr n r <$> reporter_file n r
         else reporter_view repo m t).
Proof.
  intros Hn Hty Hcom Hfree. unfold load_reporter. simpl. destruct b; simpl.
  2:{ exists repo. split_and!; [done..|]. intros. rewrite decide_False by naive_solver. done. }
  rewrite Hty by done. simpl. pose proof (loadResourceSchema_readable n r) as Hl.
  destruct (loadResourceSchema n r dir) as [[s [|]]|]; rewrite ?Hl.
  - destruct (create_reporter_view n r s repo) as (repo1 & -> & Hc1 & Hr1);
      [done|by eapply reporter_nonempty, Hty|by apply Hcom|by apply Hfree|].
    exists repo1. split_and!; [done..|]. intros m t. rewrite Hr1.
    destruct (decide (m = n /\ t = r)); [rewrite decide_True by naive_solver; done|].
    by rewrite decide_False by naive_solver.
  - exists repo. split_and!; [done..|]. intros m t. case_decide; naive_solver.
  - exists repo. split_and!; [done..|]. intros m t. case_decide; naive_solver.
Qed.

Lemma load_reporters_view n l repo :
  n <> "" -> NoDup l.*1 -> (forall r, (r, true) ∈ l -> NewReporterType r = Ok r) ->
  (forall r, (r, true) ∈ l -> is_Some (reporter_file n r) -> is_Some (common_view repo n)) ->
  (forall r, (r, true) ∈ l -> reporter_view repo n r = None) ->
  exists repo', range_over (load_reporter f dir n) l repo = Ok repo' /\
    (forall m, common_view repo' m = common_view repo m) /\
    (forall m t, reporter_view repo' m t
       = if decide (m = n /\ (t, true) ∈ l) then reporter_repr n t <$> reporter_file n t
         else reporter_view repo m t).
Proof.
  intros Hn. revert repo. induction l as [|[r b] l IH]; intros repo Hnd Hty Hcom Hfree.
  { exists repo. split_and!; [done..|]. intros m t. rewrite decide_False; [done|].
    intros [_ Ht]. by apply elem_of_nil in Ht. }
  apply NoDup_cons in Hnd as [Hr Hnd]. cbn [range_over].
  destruct (load_reporter_view n r b repo) as (repo1 & -> & Hc1 & Hr1);
    [done|intros ->; apply Hty; left|intros ->; apply Hcom; left|intros ->; apply Hfree; left|].
  simpl. destruct (IH repo1) as (repo' & -> & Hc & Hrep).
  - done.
  - intros t Ht. apply Hty. by right.
  - intros t Ht. rewrite Hc1. apply Hcom. by right.
  - intros t Ht. rewrite Hr1, decide_False; [apply Hfree; by right|].
    intros (_ & -> & _). apply Hr. by apply (list_elem_of_fmap_2 fst _ (r, true)).
  - exists repo'. split_and!; [done|by intros; rewrite Hc, Hc1|]. intros m t. rewrite Hrep, Hr1.
    destruct (decide (m = n /\ (t, true) ∈ l)) as [[-> Ht]|Hno].
    + by rewrite decide_True by (split; [done|by right]).
    + destruct (decide (m = n /\ t = r /\ b = true)) as [(-> & -> & ->)|Hd].
      * by rewrite decide_True by (split; [done|left]).
      * rewrite decide_False; [done|]. rewrite elem_of_cons. naive_solver.
Qed.

(** One resource: its common schema and the schemas of its reporters. *)
Lemma load_resource_view dirs n repo :
  tidy dirs -> (n, true) ∈ dirs -> common_view repo n = None ->
  (forall r, reporter_view repo n r = None) ->
  exists repo', load_resource f dir (n, true) repo = Ok repo' /\
    (forall m, common_view repo' m
       = if decide (m = n) then common_repr n <$> common_file n else common_view repo m) /\
    (forall m t, reporter_view repo' m t
       = if decide (m = n) then reporter_spec dirs n t else reporter_view repo m t).
Proof.
  intros Ht Hin Hcn Hrn. destruct (td_type _ Ht n Hin) as (Hty & _). unfold load_resource. simpl.
  rewrite Hty. simpl. pose proof (type_nonempty _ Hty) as Hne.
  assert (exists repo1,
    match loadCommonResourceDataSchema n dir with
    | Ok s => create_common f n s repo | Err _ => Ok repo
    end = Ok repo1 /\
    (forall m, common_view repo1 m
       = if decide (m = n) then common_repr n <$> common_file n else common_view repo m) /\
    (forall m r, reporter_view repo1 m r = reporter_view repo m r)) as (repo1 & -> & Hc1 & Hr1).
  { unfold loadCommonResourceDataSchema, common_file, readable.
    destruct (os_ReadFile _) as [s|e]; simpl; [by apply create_common_view|].
    exists repo. destruct e; (split_and!; [done| |done]); intros m; case_decide; by subst. }
  simpl. unfold reporter_spec, reporter_dirs, listed.
  destruct (os_ReadDir (dir ++ [n; "reporters"])) as [l|e] eqn:El.
  - rewrite bool_decide_eq_false_2 by (by rewrite (listed_found _ _ El)).
    assert (reporter_dirs n = l) as Hl by (unfold reporter_dirs, listed; by rewrite El).
    destruct (load_reporters_view n l repo1) as (repo' & -> & Hc & Hr).
    + done.
    + by eapply entries_distinct.
    + intros r Hr. eapply (td_reporter _ Ht); [done|by rewrite Hl].
    + intros r Hr Hs. rewrite Hc1, decide_True by done. apply fmap_is_Some.
      eapply (td_common _ Ht); [done|by rewrite Hl|done].
    + intros r _. by rewrite Hr1.
    + exists repo'. split_and!; [done|intros; by rewrite Hc, Hc1|]. intros m t. rewrite Hr, Hr1.
      destruct (decide (m = n)) as [->|]; [|by rewrite decide_False by naive_solver].
      destruct (decide ((t, true) ∈ l)); [by rewrite !decide_True by done|].
      by rewrite !decide_False by naive_solver.
  - exists repo1. split_and!; [by destruct (bool_decide _)|done|]. intros m t. rewrite Hr1.
    destruct (decide (m = n)) as [->|]; [|done]. rewrite decide_False; [done|].
    intros [_ Hx]. by apply elem_of_nil in Hx.
Qed.

Lemma load_resources_view dirs l repo :
  tidy dirs -> NoDup l.*1 -> l ⊆ dirs ->
  (forall n, (n, true) ∈ l -> common_view repo n = None) ->
  (forall n r, (n, true) ∈ l -> reporter_view repo n r = None) ->
  exists repo', range_over (load_resource f dir) l repo = Ok repo' /\
    (forall n, common_view repo' n
       = if decide ((n, true) ∈ l) then common_repr n <$> common_file n else common_view repo n) /\
    (forall n r, reporter_view repo' n r
       = if decide ((n, true) ∈ l) then reporter_spec dirs n r else reporter_view repo n r).
Proof.
  intros Ht. revert repo. induction l as [|[n b] l IH]; intros repo Hnd Hsub Hc0 Hr0.
  { exists repo. split_and!; [done|intros; rewrite decide_False; [done|]..];
      intros Hx; by apply elem_of_nil in Hx. }
  apply NoDup_cons in Hnd as [Hn Hnd]. cbn [range_over].
  assert (forall m, (m, true) ∈ l -> m <> n) as Hne.
  { intros m Hm ->. apply Hn. by apply (list_elem_of_fmap_2 fst _ (n, true)). }
  assert (exists repo1, load_resource f dir (n, b) repo = Ok repo1 /\
    (forall m, common_view repo1 m = if decide (m = n /\ b = true)
       then common_repr n <$> common_file n else common_view repo m) /\
    (forall m t, reporter_view repo1 m t
       = if decide (m = n /\ b = true) then reporter_spec dirs n t else reporter_view repo m t))
    as (repo1 & -> & Hc1 & Hr1).
  { destruct b.
    - destruct (load_resource_view dirs n repo) as (repo1 & -> & Hc1 & Hr1);
        [done|apply Hsub; left|apply Hc0; left|intros; apply Hr0; left|].
      exists repo1. split_and!; [done|intros m; rewrite Hc1|intros m t; rewrite Hr1];
        destruct (decide (m = n)); [rewrite decide_True by done|rewrite decide_False by naive_solver|
          rewrite decide_True by done|rewrite decide_False by naive_solver]; done.
    - exists repo. split_and!; [done|intros..]; by rewrite decide_False by naive_solver. }
  simpl. destruct (IH repo1) as (repo' & -> & Hc & Hr).
  - done.
  - intros x Hx. apply Hsub. by right.
  - intros m Hm. rewrite Hc1, decide_False by (intros [? _]; by apply (Hne m)). apply Hc0. by right.
  - intros m r Hm. rewrite Hr1, decide_False by (intros [? _]; by apply (Hne m)).
    apply Hr0. by right.
  - assert (forall m, (m, true) ∈ (n, b) :: l <-> (m = n /\ b = true) \/ (m, true) ∈ l) as Hcons
      by (intros m; rewrite elem_of_cons; naive_solver).
    exists repo'. split_and!; [done|intros m; rewrite Hc, Hc1|intros m r; rewrite Hr, Hr1];
      pose proof (Hne m); repeat case_decide; naive_solver.
Qed.

Lemma FromDir_views dirs : tidy dirs ->
  exists repo, NewInMemorySchemaRepositoryFromDir f dir = Ok repo /\
    (forall n, common_view repo n = common_spec dirs n) /\
    (forall n r, reporter_view repo n r = reporter_spec dirs n r).
Proof.
  intros Ht. unfold NewInMemorySchemaRepositoryFromDir. rewrite (td_list _ Ht). simpl.
  destruct (load_resources_view dirs dirs InMemory.NewInMemorySchemaRepository)
    as (repo & -> & Hc & Hr); [done|by eapply entries_distinct, td_list|done|..].
  - intros n _. done.
  - intros n r _. done.
  - exists repo. split_and!; [done|done|]. intros n r. rewrite Hr. unfold reporter_spec.
    repeat case_decide; naive_solver.
Qed.

(** * The cache *)

Lemma cache_file_lookup read p key cache k :
  (forall q s, read q = Ok s -> os_Stat q = Found) ->
  cache_file read p key cache !! k
    = if decide (k = key) then match read p with Ok s => Some (JStr s) | Err _ => cache !! k end
      else cache !! k.
Proof.
  intros Hread. unfold cache_file. destruct (read p) as [s|e] eqn:E.
  - rewrite bool_decide_eq_true_2 by by eapply Hread.
    destruct (decide (k = key)) as [->|]; [by simplify_map_eq|by rewrite lookup_insert_ne].
  - destruct (bool_decide _); by case_decide.
Qed.

Lemma encodeYAML_found q s : encodeYAMLToBase64 q = Ok s -> os_Stat q = Found.
Proof.
  unfold encodeYAMLToBase64. destruct (os_ReadFile q) eqn:E; [|done]. intros _.
  by eapply readable_found.
Qed.

(** The keys that do not belong to a configuration. *)
Definition schema_key (k : string) : Prop := forall x, k <> "config:" +:+ x.

Lemma colon_key n r : no_colon n -> n <> "config" -> schema_key (n +:+ ":" +:+ r).
Proof.
  intros Hn Hne x Hx. change ("config:" +:+ x) with ("config" +:+ ":" +:+ x) in Hx.
  by apply colon_inj in Hx as [-> _].
Qed.

Lemma common_key_schema n : schema_key ("common:" +:+ n).
Proof. intros x Hx. by apply (colon_inj "common" "config" n x) in Hx as [? _]. Qed.

(** One reporter adds its schema. *)
Lemma preload_reporter_lookup n r b cache k :
  (b = true -> NewReporterType r = Ok r) -> schema_key k ->
  preload_reporter (dir ++ [n; "reporters"])%list n n cache (r, b) !! k
    = if decide (b = true /\ k = n +:+ ":" +:+ r)
      then match reporter_file n r with Some s => Some (JStr s) | None => cache !! k end
      else cache !! k.
Proof.
  intros Hty Hk. unfold preload_reporter. simpl. destruct b; simpl.
  2:{ done. }
  rewrite Hty by done. rewrite cache_file_lookup by (apply readable_found).
  rewrite cache_file_lookup by (apply encodeYAML_found).
  rewrite (decide_False (P := k = "config:" +:+ _)) by apply Hk.
  unfold reporter_file, readable, readJSONFile. rewrite <- !app_assoc. simpl.
  destruct (decide (k = _)) as [->|].
  - rewrite decide_True by done. by destruct (os_ReadFile _).
  - by rewrite decide_False by naive_solver.
Qed.

Lemma preload_reporters_lookup n l cache k :
  (forall r, (r, true) ∈ l -> NewReporterType r = Ok r) -> schema_key k ->
  (forall r, k <> n +:+ ":" +:+ r) ->
  foldl (preload_reporter (dir ++ [n; "reporters"])%list n n) cache l !! k = cache !! k.
Proof.
  intros Hty Hk Hne. revert cache. induction l as [|[r b] l IH]; intros cache; [done|].
  cbn [foldl]. rewrite IH by (intros t Ht; apply Hty; by right).
  rewrite preload_reporter_lookup; [|intros ->; apply Hty; left|done].
  rewrite decide_False; [done|]. intros [_ He]. by apply (Hne r).
Qed.

Lemma preload_reporters_found n l cache r :
  no_colon n -> n <> "config" -> (forall r, (r, true) ∈ l -> NewReporterType r = Ok r) ->
  foldl (preload_reporter (dir ++ [n; "reporters"])%list n n) cache l !! (n +:+ ":" +:+ r)
    = if decide ((r, true) ∈ l)
      then match reporter_file n r with
           | Some s => Some (JStr s) | None => cache !! (n +:+ ":" +:+ r)
           end
      else cache !! (n +:+ ":" +:+ r).
Proof.
  intros Hn Hcfg Hty. revert cache. induction l as [|[t b] l IH]; intros cache.
  { by rewrite decide_False by (intros Hx; by apply elem_of_nil in Hx). }
  cbn [foldl]. rewrite IH by (intros u Hu; apply Hty; by right).
  rewrite preload_reporter_lookup; [|intros ->; apply Hty; left|by apply colon_key].
  assert (n +:+ ":" +:+ r = n +:+ ":" +:+ t <-> r = t) as Hrt.
  { split; [intros He; by apply colon_inj in He as [_ ->]|by intros ->]. }
  assert ((r, true) ∈ (t, b) :: l <-> (b = true /\ r = t) \/ (r, true) ∈ l) as Hcons
    by (rewrite elem_of_cons; naive_solver).
  destruct (decide (b = true /\ n +:+ ":" +:+ r = n +:+ ":" +:+ t)) as [[-> ->%Hrt]|Hd].
  - rewrite (decide_True (P := (t, true) ∈ (t, true) :: l)) by (left).
    destruct (reporter_file n t); by case_decide.
  - repeat case_decide; naive_solver.
Qed.

(** [JStr s] if there is a file, else what was there. *)
Definition written (file : option string) (old : option json) : option json :=
  match file with Some s => Some (JStr s) | None => old end.

Section Cache.
Context (dirs : list (string * bool)) (Ht : tidy dirs).

Lemma common_key_colon n m r : (n, true) ∈ dirs -> "common:" +:+ m <> n +:+ ":" +:+ r.
Proof.
  intros Hn He. destruct (td_type _ Ht n Hn) as (_ & Hnc & Hne & _).
  by apply (colon_inj "common" n m r) in He as [<- _].
Qed.

(** The part of [preload_resource] before the reporters. *)
Lemma preload_head_lookup n cache k :
  schema_key k ->
  cache_file encodeYAMLToBase64 ((dir ++ [n]) ++ ["config.yaml"])%list ("config:" +:+ n)
    (cache_file readJSONFile ((dir ++ [n]) ++ ["common_representation.json"])%list
       ("common:" +:+ n) cache) !! k
  = if decide (k = "common:" +:+ n) then written (common_file n) (cache !! k) else cache !! k.
Proof.
  intros Hk. rewrite cache_file_lookup by (apply encodeYAML_found).
  rewrite decide_False by apply Hk. rewrite cache_file_lookup by (apply readable_found).
  unfold common_file, readable, readJSONFile. rewrite <- !app_assoc. simpl.
  by destruct (os_ReadFile _).
Qed.

Lemma preload_resource_unfold n cache : (n, true) ∈ dirs ->
  preload_resource dir cache (n, true)
  = foldl (preload_reporter (dir ++ [n; "reporters"])%list n n)
      (cache_file encodeYAMLToBase64 ((dir ++ [n]) ++ ["config.yaml"])%list ("config:" +:+ n)
        (cache_file readJSONFile ((dir ++ [n]) ++ ["common_representation.json"])%list
           ("common:" +:+ n) cache)) (reporter_dirs n).
Proof.
  intros Hn. destruct (td_type _ Ht n Hn) as (Hty & _). unfold preload_resource. simpl.
  rewrite Hty. unfold reporter_dirs, listed. rewrite <- !app_assoc. simpl.
  by destruct (os_ReadDir _).
Qed.

Lemma preload_resource_common n m cache : (n, true) ∈ dirs ->
  preload_resource dir cache (n, true) !! ("common:" +:+ m)
  = if decide (m = n) then written (common_file n) (cache !! ("common:" +:+ m))
    else cache !! ("common:" +:+ m).
Proof.
  intros Hn. rewrite preload_resource_unfold by done. rewrite preload_reporters_lookup.
  - rewrite preload_head_lookup by apply common_key_schema.
    destruct (decide (m = n)) as [->|Hne]; [by rewrite decide_True|].
    rewrite decide_False; [done|]. intros He. by apply (colon_inj "common" "common" m n) in He as [_ ->].
  - intros r Hr. by apply (td_reporter _ Ht n).
  - apply common_key_schema.
  - intros r. by apply common_key_colon.
Qed.

Lemma preload_resource_reporter n m r cache : (n, true) ∈ dirs -> (m, true) ∈ dirs ->
  preload_resource dir cache (n, true) !! (m +:+ ":" +:+ r)
  = if decide (m = n /\ (r, true) ∈ reporter_dirs n)
    then written (reporter_file n r) (cache !! (m +:+ ":" +:+ r))
    else cache !! (m +:+ ":" +:+ r).
Proof.
  intros Hn Hm. destruct (td_type _ Ht m Hm) as (_ & Hmc & _ & Hcfg).
  destruct (td_type _ Ht n Hn) as (_ & Hnc & _). rewrite preload_resource_unfold by done.
  assert (forall c, (if decide (m +:+ ":" +:+ r = "common:" +:+ n) then c
    else cache !! (m +:+ ":" +:+ r)) = cache !! (m +:+ ":" +:+ r)) as Hskip.
  { intros c. rewrite decide_False; [done|]. intros He. by apply (common_key_colon m n r Hm). }
  assert (forall t, (t, true) ∈ reporter_dirs n -> NewReporterType t = Ok t) as Hrt
    by (intros t; by apply (td_reporter _ Ht)).
  destruct (decide (m = n)) as [->|Hne].
  - rewrite preload_reporters_found by done. rewrite preload_head_lookup by (by apply colon_key).
    rewrite Hskip. unfold written. repeat case_decide; naive_solver.
  - rewrite decide_False by naive_solver. rewrite preload_reporters_lookup; [|done|by apply colon_key|].
    + by rewrite preload_head_lookup, Hskip by (by apply colon_key).
    + intros t He. by apply colon_inj in He as [? _].
Qed.

Lemma preload_resource_other n cache k : (n, true) ∈ dirs -> schema_key k ->
  k <> "common:" +:+ n -> (forall r, k <> n +:+ ":" +:+ r) ->
  preload_resource dir cache (n, true) !! k = cache !! k.
Proof.
  intros Hn Hk Hc Hr. rewrite preload_resource_unfold by done.
  rewrite preload_reporters_lookup; [|intros t; by apply (td_reporter _ Ht)|done..].
  by rewrite preload_head_lookup, decide_False by done.
Qed.

Lemma preloaded_common l m cache : l ⊆ dirs ->
  foldl (preload_resource dir) cache l !! ("common:" +:+ m)
  = if decide ((m, true) ∈ l) then written (common_file m) (cache !! ("common:" +:+ m))
    else cache !! ("common:" +:+ m).
Proof.
  revert cache. induction l as [|[n b] l IH]; intros cache Hsub.
  { by rewrite decide_False by (intros Hx; by apply elem_of_nil in Hx). }
  cbn [foldl]. rewrite IH by (intros x Hx; apply Hsub; by right).
  assert ((m, true) ∈ (n, b) :: l <-> (b = true /\ m = n) \/ (m, true) ∈ l) as Hcons
    by (rewrite elem_of_cons; naive_solver).
  destruct b; [|change (preload_resource dir cache (n, false)) with cache;
                repeat case_decide; naive_solver].
  rewrite preload_resource_common by (apply Hsub; left).
  unfold written. repeat case_decide; simplify_eq; try naive_solver; by case_match.
Qed.

Lemma preloaded_reporter l m r cache : l ⊆ dirs -> (m, true) ∈ dirs ->
  foldl (preload_resource dir) cache l !! (m +:+ ":" +:+ r)
  = if decide ((m, true) ∈ l /\ (r, true) ∈ reporter_dirs m)
    then written (reporter_file m r) (cache !! (m +:+ ":" +:+ r))
    else cache !! (m +:+ ":" +:+ r).
Proof.
  intros Hsub Hm. revert cache. induction l as [|[n b] l IH]; intros cache.
  { rewrite decide_False; [done|]. intros [Hx _]. by apply elem_of_nil in Hx. }
  cbn [foldl]. rewrite IH by (intros x Hx; apply Hsub; by right).
  assert ((m, true) ∈ (n, b) :: l <-> (b = true /\ m = n) \/ (m, true) ∈ l) as Hcons
    by (rewrite elem_of_cons; naive_solver).
  destruct b; [|change (preload_resource dir cache (n, false)) with cache;
                repeat case_decide; naive_solver].
  rewrite preload_resource_reporter by (done || apply Hsub; left).
  unfold written. repeat case_decide; destruct_and?; simplify_eq; try naive_solver; by case_match.
Qed.

Lemma preloaded_other l k cache : l ⊆ dirs -> schema_key k ->
  (forall m, (m, true) ∈ dirs -> k <> "common:" +:+ m /\ forall r, k <> m +:+ ":" +:+ r) ->
  foldl (preload_resource dir) cache l !! k = cache !! k.
Proof.
  intros Hsub Hk Hne. revert cache. induction l as [|[n b] l IH]; intros cache; [done|].
  cbn [foldl]. rewrite IH by (intros x Hx; apply Hsub; by right). destruct b; [|done].
  assert ((n, true) ∈ dirs) as Hn by (apply Hsub; left). destruct (Hne n Hn).
  by apply preload_resource_other.
Qed.

(** * Reading the cache *)

Definition preloaded : gmap string json := foldl (preload_resource dir) ∅ dirs.

Lemma preloaded_common_key m :
  preloaded !! ("common:" +:+ m)
  = if decide ((m, true) ∈ dirs) then JStr <$> common_file m else None.
Proof.
  unfold preloaded. rewrite preloaded_common by done. rewrite lookup_empty.
  case_decide; [|done]. by destruct (common_file m).
Qed.

Lemma preloaded_reporter_key m r : (m, true) ∈ dirs ->
  preloaded !! (m +:+ ":" +:+ r)
  = if decide ((r, true) ∈ reporter_dirs m) then JStr <$> reporter_file m r else None.
Proof.
  intros Hm. unfold preloaded. rewrite preloaded_reporter by done. rewrite lookup_empty.
  destruct (decide ((r, true) ∈ reporter_dirs m)).
  - rewrite decide_True by done. by destruct (reporter_file m r).
  - by rewrite decide_False by naive_solver.
Qed.

(** Every entry is a configuration, a common schema or a reporter's schema. *)
Lemma preloaded_entry k v : preloaded !! k = Some v ->
  (exists x, k = "config:" +:+ x) \/
  (exists m s, k = "common:" +:+ m /\ (m, true) ∈ dirs /\ common_file m = Some s /\ v = JStr s) \/
  (exists m r s, k = m +:+ ":" +:+ r /\ (m, true) ∈ dirs /\ (r, true) ∈ reporter_dirs m /\
     reporter_file m r = Some s /\ v = JStr s).
Proof.
  intros Hk. destruct (HasPrefix k "config:") eqn:Hcfg; [left; by apply HasPrefix_split|].
  assert (schema_key k) as Hsk by (intros x ->; by rewrite HasPrefix_app in Hcfg).
  right. destruct (HasPrefix k "common:") eqn:Hcom.
  { left. apply HasPrefix_split in Hcom as [m ->]. rewrite preloaded_common_key in Hk.
    case_decide; [|done]. apply fmap_Some in Hk as (s & ? & ->). by exists m, s. }
  right. destruct (decide (List.Exists (fun d => d.2 = true /\ HasPrefix k (d.1 +:+ ":") = true) dirs))
    as [Hex|Hno].
  - apply List.Exists_exists in Hex as ([m b] & Hin%list_elem_of_In & Hb & Hp). simpl in *. subst b.
    apply HasPrefix_split in Hp as [r ->]. rewrite app_assoc_string in *.
    rewrite preloaded_reporter_key in Hk by done. case_decide; [|done].
    apply fmap_Some in Hk as (s & ? & ->). by exists m, r, s.
  - unfold preloaded in Hk. rewrite preloaded_other in Hk; [by rewrite lookup_empty in Hk|done..|].
    intros m Hm. split.
    + intros ->. by rewrite HasPrefix_app in Hcom.
    + intros r ->. apply Hno, List.Exists_exists. exists (m, true). split; [by apply list_elem_of_In|].
      by rewrite <- app_assoc_string, HasPrefix_app.
Qed.

(** One entry of the first loop. *)
Lemma json_common_view k v repo :
  preloaded !! k = Some v -> (forall m, k = "common:" +:+ m -> common_view repo m = None) ->
  exists repo1, json_common f (k, v) repo = Ok repo1 /\
    (forall m, common_view repo1 m = if decide (k = "common:" +:+ m)
       then common_repr m <$> common_file m else common_view repo m) /\
    (forall m r, reporter_view repo1 m r = reporter_view repo m r).
Proof.
  intros Hkv Hfree. unfold json_common. simpl. destruct (HasPrefix k commonPrefix) eqn:Hp; simpl.
  - apply HasPrefix_split in Hp as [n ->]. rewrite TrimPrefix_app.
    unfold commonPrefix in Hkv |- *. rewrite preloaded_common_key in Hkv. case_decide as Hn; [|done].
    apply fmap_Some in Hkv as (s & Hs & ->). destruct (td_type _ Ht n Hn) as (Hty & _).
    rewrite Hty. simpl. destruct (create_common_view n s repo) as (repo1 & -> & Hc1 & Hr1);
      [by eapply type_nonempty|by apply Hfree|].
    exists repo1. split_and!; [done| |done]. intros m. rewrite Hc1.
    destruct (decide (m = n)) as [->|]; [by rewrite decide_True, Hs|].
    rewrite decide_False; [done|]. intros He. by apply (colon_inj "common" "common" n m) in He as [_ <-].
  - exists repo. split_and!; [done| |done]. intros m. rewrite decide_False; [done|].
    intros ->. unfold commonPrefix in Hp. by rewrite HasPrefix_app in Hp.
Qed.

Lemma json_commons_view l repo :
  NoDup l.*1 -> (forall kv, kv ∈ l -> preloaded !! kv.1 = Some kv.2) ->
  (forall m, "common:" +:+ m ∈ l.*1 -> common_view repo m = None) ->
  exists repo', range_over (json_common f) l repo = Ok repo' /\
    (forall m, common_view repo' m
       = if decide ("common:" +:+ m ∈ l.*1) then common_repr m <$> common_file m
         else common_view repo m) /\
    (forall m r, reporter_view repo' m r = reporter_view repo m r).
Proof.
  revert repo. induction l as [|[k v] l IH]; intros repo Hnd Hin Hfree.
  { exists repo. split_and!; [done|intros m; rewrite decide_False; [done|]|done].
    intros Hx. by apply elem_of_nil in Hx. }
  apply NoDup_cons in Hnd as [Hk Hnd]. cbn [range_over fmap list_fmap] in *.
  destruct (json_common_view k v repo) as (repo1 & -> & Hc1 & Hr1);
    [apply (Hin (k, v)); left|intros m ->; apply Hfree; left|].
  simpl. destruct (IH repo1) as (repo' & -> & Hc & Hr).
  - done.
  - intros kv Hkv'. apply Hin. by right.
  - intros m Hm. rewrite Hc1, decide_False by (intros ->; done). apply Hfree. by right.
  - exists repo'. split_and!; [done| |by intros; rewrite Hr, Hr1]. intros m. rewrite Hc, Hc1.
    assert ("common:" +:+ m ∈ k :: l.*1 <-> "common:" +:+ m = k \/ "common:" +:+ m ∈ l.*1) as Hcons
      by apply elem_of_cons.
    simpl. repeat case_decide; naive_solver.
Qed.

(** One entry of the second loop: the types are those with a common schema. *)
Lemma json_reporter_view types k v repo :
  (forall n, n ∈ types <-> (n, true) ∈ dirs /\ is_Some (common_file n)) ->
  (forall n, n ∈ types -> is_Some (common_view repo n)) ->
  preloaded !! k = Some v ->
  (forall m r, (m, true) ∈ dirs -> k = m +:+ ":" +:+ r -> reporter_view repo m r = None) ->
  exists repo1, json_reporter f types (k, v) repo = Ok repo1 /\
    (forall m, common_view repo1 m = common_view repo m) /\
    (forall m r, reporter_view repo1 m r = if decide ((m, true) ∈ dirs /\ k = m +:+ ":" +:+ r)
       then reporter_repr m r <$> reporter_file m r else reporter_view repo m r).
Proof.
  intros Htypes Hcom Hkv Hfree.
  assert (Forall no_colon types) as Hnc.
  { apply Forall_forall. intros n [Hn _]%Htypes. by destruct (td_type _ Ht n Hn) as (_ & ? & _). }
  assert (forall n x, no_colon n -> (n, true) ∉ dirs -> k = n +:+ ":" +:+ x ->
    exists repo1, json_reporter f types (k, v) repo = Ok repo1 /\
      (forall m, common_view repo1 m = common_view repo m) /\
      (forall m r, reporter_view repo1 m r = if decide ((m, true) ∈ dirs /\ k = m +:+ ":" +:+ r)
         then reporter_repr m r <$> reporter_file m r else reporter_view repo m r)) as Hskip.
  { intros n x Hn Hd ->. exists repo. unfold json_reporter. simpl.
    rewrite find_type_none; [|done..|by intros [? _]%Htypes]. simpl. split_and!; [done..|].
    intros m r. rewrite decide_False; [done|]. intros [Hm He].
    apply colon_inj in He as [<- _]; [done..|]. by destruct (td_type _ Ht m Hm) as (_ & ? & _). }
  destruct (preloaded_entry k v Hkv)
    as [[x ->]|[(m & s & -> & _)|(n & t & s & -> & Hn & Hr & Hs & ->)]].
  - apply (Hskip "config" x); [done| |done]. intros Hd. by destruct (td_type _ Ht _ Hd) as (_&_&_&?).
  - apply (Hskip "common" m); [done| |done]. intros Hd. by destruct (td_type _ Ht _ Hd) as (_&_&?&_).
  - destruct (td_type _ Ht n Hn) as (Hty & Hnn & _).
    assert (n ∈ types) as Hin by (apply Htypes; split; [done|eapply (td_common _ Ht); eauto]).
    unfold json_reporter. simpl. rewrite find_type_found by done.
    rewrite bool_decide_eq_false_2 by (by eapply type_nonempty).
    assert (NewReporterType t = Ok t) as Hrt by (by apply (td_reporter _ Ht n)). rewrite Hrt. simpl.
    destruct (create_reporter_view n t s repo) as (repo1 & -> & Hc1 & Hr1);
      [by eapply type_nonempty|by eapply reporter_nonempty|by apply Hcom|by apply Hfree|].
    exists repo1. split_and!; [done..|]. intros m r. rewrite Hr1.
    destruct (decide (m = n /\ r = t)) as [[-> ->]|Hd]; [by rewrite decide_True, Hs|].
    rewrite decide_False; [done|]. intros [Hm He]. apply Hd.
    apply colon_inj in He as [-> ->]; [done..|]. by destruct (td_type _ Ht m Hm) as (_ & ? & _).
Qed.

Lemma json_reporters_view types l repo :
  (forall n, n ∈ types <-> (n, true) ∈ dirs /\ is_Some (common_file n)) ->
  (forall n, n ∈ types -> is_Some (common_view repo n)) ->
  NoDup l.*1 -> (forall kv, kv ∈ l -> preloaded !! kv.1 = Some kv.2) ->
  (forall m r, (m, true) ∈ dirs -> m +:+ ":" +:+ r ∈ l.*1 -> reporter_view repo m r = None) ->
  exists repo', range_over (json_reporter f types) l repo = Ok repo' /\
    (forall m, common_view repo' m = common_view repo m) /\
    (forall m r, reporter_view repo' m r
       = if decide ((m, true) ∈ dirs /\ m +:+ ":" +:+ r ∈ l.*1)
         then reporter_repr m r <$> reporter_file m r else reporter_view repo m r).
Proof.
  intros Htypes. revert repo. induction l as [|[k v] l IH]; intros repo Hcom Hnd Hin Hfree.
  { exists repo. split_and!; [done..|]. intros m r. rewrite decide_False; [done|].
    intros [_ Hx]. by apply elem_of_nil in Hx. }
  apply NoDup_cons in Hnd as [Hk Hnd]. cbn [range_over fmap list_fmap] in *.
  destruct (json_reporter_view types k v repo) as (repo1 & -> & Hc1 & Hr1);
    [done|done|apply (Hin (k, v)); left|intros m r Hm ->; apply Hfree; [done|left]|].
  simpl. destruct (IH repo1) as (repo' & -> & Hc & Hr).
  - intros n Hn. rewrite Hc1. by apply Hcom.
  - done.
  - intros kv Hkv'. apply Hin. by right.
  - intros m r Hm Hkl. rewrite Hr1, decide_False by (intros [_ ->]; done).
    apply Hfree; [done|by right].
  - exists repo'. split_and!; [done|by intros; rewrite Hc, Hc1|]. intros m r. rewrite Hr, Hr1.
    assert (m +:+ ":" +:+ r ∈ k :: l.*1 <->
      m +:+ ":" +:+ r = k \/ m +:+ ":" +:+ r ∈ l.*1) as Hcons by apply elem_of_cons.
    simpl. repeat case_decide; naive_solver.
Qed.

Lemma range_entries {A} n (m : gmap string A) :
  (forall n A m, range n A m ≡ₚ map_to_list m) ->
  NoDup (range n A m).*1 /\ (forall kv, kv ∈ range n A m <-> m !! kv.1 = Some kv.2) /\
  (forall k, k ∈ (range n A m).*1 <-> is_Some (m !! k)).
Proof.
  intros Hrange. split_and!.
  - rewrite (Hrange n A m). apply NoDup_fst_map_to_list.
  - intros [k v]. rewrite (Hrange n A m). apply elem_of_map_to_list.
  - intros k. rewrite (Hrange n A m), list_elem_of_fmap. split.
    + intros ([k' v] & -> & Hx%elem_of_map_to_list). by exists v.
    + intros [v Hv]. exists (k, v). split; [done|]. by apply elem_of_map_to_list.
Qed.

(** The repository read from the cache. *)
Lemma FromJson_views doc : (forall n A m, range n A m ≡ₚ map_to_list m) ->
  unmarshal_object doc ∅ = Ok (Some preloaded) ->
  exists repo, NewFromJsonBytes range f (Some doc) = Ok repo /\
    (forall n, common_view repo n = common_spec dirs n) /\
    (forall n r, reporter_view repo n r = reporter_spec dirs n r).
Proof.
  intros Hrange Hdoc. unfold NewFromJsonBytes. rewrite Hdoc. simpl.
  destruct (range_entries 0 preloaded Hrange) as (Hnd0 & Hin0 & Hdom0).
  destruct (json_commons_view (range 0%nat _ preloaded) InMemory.NewInMemorySchemaRepository)
    as (repo1 & -> & Hc1 & Hr1); [done|intros; by apply Hin0|done|]. simpl.
  assert (forall m, common_view repo1 m = common_spec dirs m) as Hc.
  { intros m. rewrite Hc1. unfold common_spec.
    destruct (decide ("common:" +:+ m ∈ (range 0%nat json preloaded).*1)) as [Hd|Hd];
      rewrite Hdom0, preloaded_common_key in Hd; destruct (decide ((m, true) ∈ dirs)).
    - done.
    - by apply is_Some_None in Hd.
    - destruct (common_file m); [|done]. destruct Hd. by eexists.
    - done. }
  destruct (range_entries 1 repo1 Hrange) as (_ & _ & Hdom1).
  destruct (range_entries 2 preloaded Hrange) as (Hnd2 & Hin2 & Hdom2).
  assert (forall n, is_Some (repo1 !! n) <-> (n, true) ∈ dirs /\ is_Some (common_file n)) as Hiff.
  { intros n. rewrite <- (fmap_is_Some re_schema). change (re_schema <$> repo1 !! n) with (common_view repo1 n).
    rewrite Hc. unfold common_spec. case_decide; [by rewrite fmap_is_Some; naive_solver|].
    split; [by intros [? ?]|naive_solver]. }
  destruct (json_reporters_view (range 1%nat _ repo1).*1 (range 2%nat _ preloaded) repo1)
    as (repo' & -> & Hc' & Hr').
  - intros n. by rewrite Hdom1.
  - intros n Hn%Hdom1. by apply fmap_is_Some.
  - done.
  - intros. by apply Hin2.
  - intros m r _ _. by rewrite Hr1.
  - exists repo'. split_and!; [done|by intros; rewrite Hc', Hc|]. intros n r.
    rewrite Hr', Hr1. unfold reporter_spec.
    destruct (decide ((n, true) ∈ dirs)) as [Hn|Hn]; [|by rewrite !decide_False by naive_solver].
    destruct (decide ((r, true) ∈ reporter_dirs n)) as [Hrd|Hrd].
    + rewrite (decide_True (P := _ /\ (r, true) ∈ _)) by done.
      case_decide as Hd; [done|]. destruct (reporter_file n r) eqn:E; [|done]. destruct Hd.
      split; [done|]. rewrite Hdom2, preloaded_reporter_key, decide_True, E by done. by eexists.
    + rewrite !decide_False; [done|naive_solver|]. rewrite Hdom2, preloaded_reporter_key by naive_solver.
      rewrite decide_False by done. intros [_ Hx]. by apply is_Some_None in Hx.
Qed.
End Cache.

(** * The document *)

Definition strings (m : gmap string json) : Prop :=
  map_Forall (fun _ v => exists s, v = JStr s) m.

Lemma foldl_inv {A B} (P : A -> Prop) (g : A -> B -> A) l a :
  (forall a b, P a -> P (g a b)) -> P a -> P (foldl g a l).
Proof. intros Hg. revert a. induction l as [|b l IH]; intros a Ha; simpl; [done|]. by apply IH, Hg. Qed.

Lemma cache_file_strings read p key cache : strings cache -> strings (cache_file read p key cache).
Proof.
  intros Hs. unfold cache_file. repeat case_match; try done. apply map_Forall_insert_2; [by eexists|done].
Qed.

Lemma preload_strings cache d : strings cache -> strings (preload_resource dir cache d).
Proof.
  intros Hs. unfold preload_resource. repeat case_match; try done; repeat apply cache_file_strings; [|done].
  apply foldl_inv; [|by repeat apply cache_file_strings]. intros c [r b] Hc.
  unfold preload_reporter. repeat case_match; try done. by repeat apply cache_file_strings.
Qed.

Lemma foldl_insert_all (l : list (string * json)) (m0 : gmap string json) :
  foldl (fun acc kv => <[kv.1 := kv.2]> acc) m0 l = list_to_map (reverse l) ∪ m0.
Proof.
  revert m0. induction l as [|[k v] l IH]; intros m0; simpl; [by rewrite map_empty_union|].
  rewrite IH, reverse_cons, list_to_map_app, <- map_union_assoc. f_equal. simpl.
  by rewrite insert_empty, insert_union_singleton_l.
Qed.

Lemma marshal_strings m : strings m -> unmarshal_object (marshal_object (Some m)) ∅ = Ok (Some m).
Proof.
  intros Hs. unfold marshal_object, unmarshal_object. do 2 f_equal.
  assert (forall l : list (string * json), (forall kv, kv ∈ l -> exists s, kv.2 = JStr s) -> forall m0 : gmap string json,
    foldl (fun acc kv => <[kv.1 := unmarshal_any kv.2]> acc) m0
      (map (fun kv => (kv.1, marshal_any kv.2)) l)
    = foldl (fun acc kv => <[kv.1 := kv.2]> acc) m0 l) as Hl.
  { induction l as [|[k v] l IH]; intros Hall m0; simpl; [done|].
    destruct (Hall (k, v)) as [s Hv]; [left|]. simpl in Hv. subst v. simpl. apply IH.
    intros kv Hkv. apply Hall. by right. }
  rewrite Hl.
  - rewrite foldl_insert_all, map_union_empty.
    rewrite <- (list_to_map_to_list m) at 2. symmetry. apply list_to_map_proper.
    + apply NoDup_fst_map_to_list.
    + by rewrite reverse_Permutation.
  - intros [k v] Hkv%elem_of_map_to_list. by apply (Hs k).
Qed.

(** C32. Schemas read from a tidy directory and schemas read from the JSON that
    preload-schema writes for it are the same repository, whatever the order in
    which the maps are iterated over: one common schema per type and the
    schemas of its reporters, each under its own key. *)
Theorem preload_agrees_with_dir write dirs doc :
  (forall n A m, range n A m ≡ₚ map_to_list m) -> tidy dirs ->
  preload_command write dir = Ok doc ->
  exists repo, NewInMemorySchemaRepositoryFromDir f dir = Ok repo /\
    NewFromJsonBytes range f (Some doc) = Ok repo /\
    (forall n, InMemory.GetResourceSchema repo n
       = match common_spec dirs n with
         | Some schema => Ok schema
         | None => Err (ESentinel ErrResourceSchemaNotFound)
         end) /\
    (forall n r schema, InMemory.GetReporterSchema repo n r = Ok schema <->
       reporter_spec dirs n r = Some schema).
Proof.
  intros Hrange Ht Hdoc. destruct (FromDir_views dirs Ht) as (repo & Hdir & Hc & Hr).
  unfold preload_command, preloadSchemas in Hdoc. rewrite (td_list _ Ht) in Hdoc. simpl in Hdoc.
  unfold saveSchemaCache in Hdoc. case_match; [by destruct g|]. injection Hdoc as <-.
  destruct (FromJson_views dirs Ht (marshal_object (Some (preloaded dirs))))
    as (repo2 & Hjson & Hc2 & Hr2); [done|apply marshal_strings|].
  { unfold preloaded. apply foldl_inv; [intros; by apply preload_strings|apply map_Forall_empty]. }
  exists repo. split_and!; [done| | |].
  - etrans; [exact Hjson|]. f_equal. apply views_eq; intros; [by rewrite Hc, Hc2|by rewrite Hr, Hr2].
  - intros n. rewrite <- Hc. unfold InMemory.GetResourceSchema, common_view.
    by destruct (repo !! n).
  - intros n r schema. rewrite <- Hr. unfold InMemory.GetReporterSchema, reporter_view.
    unfold InMemory.getResourceEntry. destruct (repo !! n) as [entry|]; [|done]. simpl.
    destruct (re_reporters entry !! r); naive_solver.
Qed.
End Loaders.

(** * Two resource types with their reporters *)

Definition files_system (files : list (path * string)) (folders : list (path * list (string * bool)))
    : FileSystem := {|
  os_ReadDir p := match list_find (fun d => d.1 = p) folders with
                  | Some (_, d) => Ok d.2 | None => Err (EMsg "no such directory") end;
  os_ReadFile p := match list_find (fun d => d.1 = p) files with
                   | Some (_, d) => Ok d.2 | None => Err (EMsg "no such file") end;
  os_Stat p := if decide (p ∈ files.*1 \/ p ∈ folders.*1) then Found else NotExist;
|}.

Lemma files_system_laws files folders :
  Forall (fun d : path * list (string * bool) => NoDup d.2.*1) folders ->
  @FileSystemLaws (files_system files folders).
Proof.
  intros Hnd. split; simpl.
  - intros p s Hp. destruct (list_find _ _) as [[i d]|] eqn:Hf; [|done]. simplify_eq.
    apply list_find_Some in Hf as (Hi & <- & _). rewrite decide_True; [done|]. left.
    by apply (list_elem_of_fmap_2 fst), list_elem_of_lookup_2 with i.
  - intros p l Hp. destruct (list_find _ _) as [[i d]|] eqn:Hf; [|done]. simplify_eq.
    apply list_find_Some in Hf as (Hi & <- & _). rewrite decide_True; [done|]. right.
    by apply (list_elem_of_fmap_2 fst), list_elem_of_lookup_2 with i.
  - intros p l Hp. destruct (list_find _ _) as [[i d]|] eqn:Hf; [|done]. simplify_eq.
    apply list_find_Some in Hf as (Hi & _ & _). by apply (Forall_lookup_1 _ _ _ _ Hnd Hi).
Qed.

Definition ex_files : list (path * string) :=
  [(["schemas"; "host"; "common_representation.json"], "{host}");
   (["schemas"; "host"; "reporters"; "hbi"; "host.json"], "{hbi}");
   (["schemas"; "service"; "common_representation.json"], "{service}");
   (["schemas"; "service"; "reporters"; "features"; "service.json"], "{features}")].
Definition ex_folders : list (path * list (string * bool)) :=
  [(["schemas"], [("README.md", false); ("host", true); ("service", true)]);
   (["schemas"; "host"; "reporters"], [("hbi", true)]);
   (["schemas"; "service"; "reporters"], [("features", true); ("notes.txt", false)])].
Definition ex_fs : FileSystem := files_system ex_files ex_folders.

Definition ex_yaml : YamlLib :=
  {| yaml_Unmarshal _ := Err (EMsg "yaml"); yaml_Marshal _ := Err (EMsg "yaml") |}.

Definition ex_range (n : nat) (A : Type) (m : gmap string A) : list (string * A) :=
  if decide (n = 1%nat) then reverse (map_to_list m) else map_to_list m.

Lemma ex_range_order n A m : ex_range n A m ≡ₚ map_to_list m.
Proof. unfold ex_range. case_decide; [apply reverse_Permutation|done]. Qed.

Lemma ex_fs_laws : @FileSystemLaws ex_fs.
Proof. apply files_system_laws. repeat constructor; set_solver. Qed.

Lemma ex_fs_tidy : @tidy ex_fs ["schemas"] [("README.md", false); ("host", true); ("service", true)].
Proof.
  split.
  - reflexivity.
  - intros n Hn. rewrite !elem_of_cons, elem_of_nil in Hn.
    destruct Hn as [|[|[|[]]]]; simplify_eq; by split_and!.
  - intros n r Hn Hr. rewrite !elem_of_cons, elem_of_nil in Hn.
    destruct Hn as [|[|[|[]]]]; simplify_eq;
      change (reporter_dirs _ _) with [("hbi", true)] in Hr ||
      change (reporter_dirs _ _) with [("features", true); ("notes.txt", false)] in Hr;
      rewrite !elem_of_cons, elem_of_nil in Hr; naive_solver.
  - intros n r Hn _ _. rewrite !elem_of_cons, elem_of_nil in Hn.
    destruct Hn as [|[|[|[]]]]; simplify_eq; vm_compute; eauto.
Qed.

Definition ex_document : json :=
  match @preload_command ex_fs ex_yaml (fun _ => None) ["schemas"] with Ok d => d | Err _ => JNull end.

Lemma preload_agrees_with_dir_witness :
  exists repo, @NewInMemorySchemaRepositoryFromDir ex_fs FeaturesAwareSchemaFactory ["schemas"] = Ok repo /\
    NewFromJsonBytes ex_range FeaturesAwareSchemaFactory (Some ex_document) = Ok repo /\
    (forall n, InMemory.GetResourceSchema repo n
       = match @common_spec ex_fs FeaturesAwareSchemaFactory ["schemas"]
                 [("README.md", false); ("host", true); ("service", true)] n with
         | Some schema => Ok schema
         | None => Err (ESentinel ErrResourceSchemaNotFound)
         end) /\
    (forall n r schema, InMemory.GetReporterSchema repo n r = Ok schema <->
       @reporter_spec ex_fs FeaturesAwareSchemaFactory ["schemas"]
         [("README.md", false); ("host", true); ("service", true)] n r = Some schema).
Proof.
  exact (@preload_agrees_with_dir ex_fs ex_fs_laws ex_yaml ex_range FeaturesAwareSchemaFactory
    ["schemas"] (fun _ => None) _ ex_document ex_range_order ex_fs_tidy ltac:(reflexivity)).
Defined.

(** * A directory whose name is not in lower case *)

Definition mixed_fs : FileSystem :=
  files_system
    [(["schemas"; "Host"; "common_representation.json"], "{host}")]
    [(["schemas"], [("Host", true)])].

(** The directory loader looks for the schemas under the normalised name and
    silently loads nothing; the preload reads them. *)
Lemma mixed_case_directory :
  @NewInMemorySchemaRepositoryFromDir mixed_fs FeaturesAwareSchemaFactory ["schemas"] = Ok ∅ /\
  exists doc, @preload_command mixed_fs ex_yaml (fun _ => None) ["schemas"] = Ok doc /\
    (let! repo := NewFromJsonBytes ex_range FeaturesAwareSchemaFactory (Some doc) in
     Ok (InMemory.GetResourceSchemas repo)) = Ok ["host"].
Proof. split; [reflexivity|]. eexists. split; [reflexivity|]. vm_compute. reflexivity. Qed.
