(* ===== verification/Settings.v ===== *)
(** The settings of the process: internal/storage with its packages postgres
    and sqlite3, internal/server with grpc, http and pprof, internal/consumer
    with auth and retry, internal/consistency, the options of the
    meta-authorizer, and the injection of the ClowdApp configuration
    (internal/config/config.go).

    A configuration that only embeds its options is the options.  The command
    line flags (AddFlags) only bind fields to names and are left out. *)
From stdpp Require Import base tactics list strings gmap.
From Stdlib Require Import ZArith Lia Ascii.
From S2P Require Import Prelude GoStrings Common RelationsConfig.

Local Open Scope string_scope.

(** * Storage *)

Module postgres.
Record Options := {
  Host : string;
  Port : string;
  DbName : string;
  User : string;
  Password : string;
  SSLMode : string;
  SSLRootCert : string;
}.

Definition NewOptions : Options :=
  {| Host := "localhost"; Port := "5432"; DbName := ""; User := ""; Password := "";
     SSLMode := ""; SSLRootCert := "" |}.

Definition validModes : list string :=
  ["disable"; "allow"; "prefer"; "require"; "verify-ca"; "verify-full"].

Definition Validate (o : Options) : list go_error :=
  if bool_decide (SSLMode o <> "") && negb (bool_decide (SSLMode o ∈ validModes))
  then [EMsg ("invalid sslmode: " +:+ SSLMode o)] else [].

Record Config := { cfg_Options : Options; cfg_DSN : string }.

Definition NewConfig (o : Options) : Config := {| cfg_Options := o; cfg_DSN := "" |}.

(** [if v != "" { fmt.Fprintf(dsnBuilder, "key=%s ", v) }] *)
Definition dsn_param (key value : string) : string :=
  if bool_decide (value = "") then "" else key +:+ "=" +:+ value +:+ " ".

Definition Complete (c : Config) : string :=
  if bool_decide (cfg_DSN c <> "") then cfg_DSN c
  else
    let o := cfg_Options c in
    TrimSpace (dsn_param "host" (Host o) +:+ dsn_param "port" (Port o)
               +:+ dsn_param "dbname" (DbName o) +:+ dsn_param "user" (User o)
               +:+ dsn_param "password" (Password o) +:+ dsn_param "sslmode" (SSLMode o)
               +:+ dsn_param "sslrootcert" (SSLRootCert o)).
End postgres.

Module sqlite3.
Record Options := { DSN : string }.
Definition NewOptions : Options := {| DSN := "inventory.db" |}.
Definition Validate (o : Options) : list go_error := [].
Definition NewConfig (o : Options) : Options := o.
Definition Complete (c : Options) : Options := c.
End sqlite3.

Record StorageOptions := {
  so_Postgres : postgres.Options;
  so_SqlLite3 : sqlite3.Options;
  so_Database : string;
  so_MaxSerializationRetries : Z;
  so_OutboxMode : string;
}.

Definition Postgres : string := "postgres".
Definition Sqlite3 : string := "sqlite3".
Definition OutboxModeWAL : string := "wal".
Definition OutboxModeNone : string := "none".

Definition NewStorageOptions : StorageOptions :=
  {| so_Postgres := postgres.NewOptions; so_SqlLite3 := sqlite3.NewOptions;
     so_Database := "sqlite3"; so_MaxSerializationRetries := 10;
     so_OutboxMode := OutboxModeNone |}.

Definition ValidateStorage (o : StorageOptions) : list go_error :=
  ((if bool_decide (so_Database o <> "postgres") && bool_decide (so_Database o <> "sqlite3")
    then [EMsg "database must be either postgres or sqlite3"] else [])
   ++ (if bool_decide (so_Database o = "postgres") then postgres.Validate (so_Postgres o)
       else if bool_decide (so_Database o = "sqlite3") then sqlite3.Validate (so_SqlLite3 o)
       else [])
   ++ (if bool_decide (so_OutboxMode o <> OutboxModeNone)
          && bool_decide (so_OutboxMode o <> OutboxModeWAL)
       then [EMsg "outbox-mode must be either 'none' or 'wal'"] else [])
   ++ (if bool_decide (so_OutboxMode o = OutboxModeWAL) && bool_decide (so_Database o <> Postgres)
       then [EMsg "outbox-mode 'wal' is only supported with postgres"] else []))%list.

(** [Postgres] and [SqlLite3] are nil unless they are chosen. *)
Record StorageConfig := {
  stc_Options : StorageOptions;
  stc_DSN : string;
  stc_Postgres : option postgres.Config;
  stc_SqlLite3 : option sqlite3.Options;
}.

Definition NewStorageConfig (o : StorageOptions) : StorageConfig :=
  {| stc_Options := o; stc_DSN := "";
     stc_Postgres := if bool_decide (so_Database o = "postgres")
                     then Some (postgres.NewConfig (so_Postgres o)) else None;
     stc_SqlLite3 := if bool_decide (so_Database o = "sqlite3")
                     then Some (sqlite3.NewConfig (so_SqlLite3 o)) else None |}.

Record completedStorage := { cst_Options : StorageOptions; cst_DSN : string }.

Definition CompleteStorage (c : StorageConfig) : result completedStorage :=
  let done dsn := Ok {| cst_Options := stc_Options c; cst_DSN := dsn |} in
  if bool_decide (stc_DSN c <> "") then done (stc_DSN c)
  else if bool_decide (so_Database (stc_Options c) = "postgres") then
    match stc_Postgres c with None => Err nil_deref | Some p => done (postgres.Complete p) end
  else if bool_decide (so_Database (stc_Options c) = "sqlite3") then
    match stc_SqlLite3 c with
    | None => Err nil_deref
    | Some s => done (sqlite3.DSN (sqlite3.Complete s))
    end
  else done (stc_DSN c).

(** [storage.New] and [storage.NewPgx]: the database that was opened, by its
    driver and its DSN; the drivers may fail. *)
Definition NewStorage (gorm_Open : string -> string -> option go_error) (c : completedStorage)
    : result (string * string) :=
  let open driver := match gorm_Open driver (cst_DSN c) with
                     | Some _ => Err (EMsg "error opening database")
                     | None => Ok (driver, cst_DSN c)
                     end in
  if bool_decide (so_Database (cst_Options c) = "postgres") then open "postgres"
  else if bool_decide (so_Database (cst_Options c) = "sqlite3") then open "sqlite3"
  else Err (EMsg ("unrecognized database type: " +:+ so_Database (cst_Options c))).

Definition NewPgx (pgxpool_New pool_Ping : string -> option go_error) (c : completedStorage)
    : result (option string) :=
  if bool_decide (so_Database (cst_Options c) <> "postgres") then Ok None
  else match pgxpool_New (cst_DSN c) with
       | Some _ => Err (EMsg "error pgx connection to DB")
       | None =>
           match pool_Ping (cst_DSN c) with
           | Some _ => Err (EMsg "error pgx pinging DB")
           | None => Ok (Some (cst_DSN c))
           end
       end.

(** * Servers *)

(** The options of the gRPC and of the HTTP server have the same fields. *)
Module listener.
Record Options := {
  Addr : string;
  Timeout : Z;
  ServingCertFile : string;
  PrivateKeyFile : string;
  ClientCAFile : string;
  SNI : string;
  CertOpt : Z;
}.

Definition Validate (o : Options) : list go_error :=
  ((if bool_decide (Timeout o < 0)%Z then [EMsg "read-timeout-seconds must be >= 0"] else [])
   ++ (if (bool_decide (ServingCertFile o = "") && bool_decide (PrivateKeyFile o <> ""))
          || (bool_decide (ServingCertFile o <> "") && bool_decide (PrivateKeyFile o = ""))
       then [EMsg "both certfile and keyfile must be populated"] else [])
   ++ (if bool_decide (CertOpt o < 0)%Z || bool_decide (4 < CertOpt o)%Z
       then [EMsg "certOpt must be >= 0 and <= 4"] else []))%list.
End listener.

Definition grpc_NewOptions : listener.Options :=
  {| listener.Addr := "0.0.0.0:9000"; listener.Timeout := 300; listener.ServingCertFile := "";
     listener.PrivateKeyFile := ""; listener.ClientCAFile := ""; listener.SNI := "";
     listener.CertOpt := 3 |}.
Definition http_NewOptions : listener.Options :=
  {| listener.Addr := "0.0.0.0:8000"; listener.Timeout := 300; listener.ServingCertFile := "";
     listener.PrivateKeyFile := ""; listener.ClientCAFile := ""; listener.SNI := "";
     listener.CertOpt := 3 |}.
Definition http_Validate : listener.Options -> list go_error := listener.Validate.

(** [tls.Config]: the fields that are set; a nil pool means the roots of the
    host, [ClientAuth] 0 means that no client certificate is requested. *)
Record tls_Config {Certificate : Type} := {
  Certificates : list Certificate;
  ServerName : string;
  ClientAuth : Z;
  ClientCAs : option (list Certificate);
  MinVersion : Z;
}.
Arguments tls_Config : clear implicits.

Definition NoClientCert : Z := 0.
Definition VersionTLS12 : Z := 771.

(** crypto/tls, crypto/x509 and the file of the client CAs. *)
Class TLSLib := {
  Certificate : Type;
  tls_LoadX509KeyPair : string -> string -> result Certificate;
  os_Open : string -> result string;
  io_ReadAll : string -> result string;
  certs_from_PEM : string -> list Certificate;
}.

(** A server option of kratos. *)
Inductive ServerOption `{TLSLib} :=
  | Address (addr : string)
  | TLSConfig (c : option (tls_Config Certificate))
  | StrictSlash (strict : bool)
  | TimeoutOption (nanoseconds : Z).

Definition int64 (z : Z) : Z := ((z + 2 ^ 63) mod 2 ^ 64 - 2 ^ 63)%Z.

Section Servers.
Context `{TLSLib}.

Record ListenerConfig := {
  lc_Options : listener.Options;
  lc_TLSConfig : option (tls_Config Certificate);
}.

Definition NewListenerConfig (o : listener.Options) : ListenerConfig :=
  {| lc_Options := o; lc_TLSConfig := None |}.

(** The client CAs: a file that cannot be opened leaves the pool nil. *)
Definition client_ca_pool (file : string) : result (option (list Certificate)) :=
  match os_Open file with
  | Err _ => Ok None
  | Ok handle =>
      match wrap_err "failed to load CA certificate" (io_ReadAll handle) with
      | Err err => Err err
      | Ok caCert => Ok (Some (certs_from_PEM caCert))
      end
  end.

Definition getTSLConfig (c : ListenerConfig) : result (option (tls_Config Certificate)) :=
  match lc_TLSConfig c with
  | Some t => Ok (Some t)
  | None =>
      let o := lc_Options c in
      if bool_decide (listener.ServingCertFile o <> "")
         && bool_decide (listener.PrivateKeyFile o <> "")
      then
        let! cert := wrap_err "failed to load X509 key pair"
          (tls_LoadX509KeyPair (listener.ServingCertFile o) (listener.PrivateKeyFile o)) in
        if bool_decide (NoClientCert < listener.CertOpt o)%Z
           && bool_decide (listener.ClientCAFile o <> "")
        then
          let! caCertPool := client_ca_pool (listener.ClientCAFile o) in
          Ok (Some {| Certificates := [cert]; ServerName := listener.SNI o;
                      ClientAuth := listener.CertOpt o; ClientCAs := caCertPool;
                      MinVersion := VersionTLS12 |})
        else Ok (Some {| Certificates := [cert]; ServerName := ""; ClientAuth := NoClientCert;
                         ClientCAs := None; MinVersion := 0 |})
      else Ok None
  end.

(** The http package has its own copy. *)
Definition http_getTSLConfig : ListenerConfig -> result (option (tls_Config Certificate)) :=
  getTSLConfig.

(** [time.Duration(seconds) * time.Second] *)
Definition seconds (n : Z) : Z := int64 (n * 1000000000).

Definition grpc_CompleteConfig (c : ListenerConfig) : result (list ServerOption) :=
  let! tlsConfig := getTSLConfig c in
  Ok [Address (listener.Addr (lc_Options c)); TLSConfig tlsConfig;
      TimeoutOption (seconds (listener.Timeout (lc_Options c)))].

Definition http_CompleteConfig (c : ListenerConfig) : result (list ServerOption) :=
  let! tlsConfig := http_getTSLConfig c in
  Ok [Address (listener.Addr (lc_Options c)); TLSConfig tlsConfig; StrictSlash true;
      TimeoutOption (seconds (listener.Timeout (lc_Options c)))].
End Servers.

Module pprof.
Definition DefaultPprofPort : string := "5000".
Definition DefaultPprofAddr : string := "0.0.0.0".

Record Options := { Enabled : bool; Port : string; Addr : string }.

Definition NewOptions : Options :=
  {| Enabled := false; Port := DefaultPprofPort; Addr := DefaultPprofAddr |}.

(** Empty fields get their defaults. *)
Definition Complete (o : Options) : Options * list go_error :=
  ({| Enabled := Enabled o;
      Port := if bool_decide (Port o = "") then DefaultPprofPort else Port o;
      Addr := if bool_decide (Addr o = "") then DefaultPprofAddr else Addr o |}, []).

Definition Validate (o : Options) : list go_error :=
  if Enabled o
  then ((if bool_decide (Port o = "")
         then [EMsg "pprof port must be set when pprof is enabled"] else [])
        ++ (if bool_decide (Addr o = "")
            then [EMsg "pprof addr must be set when pprof is enabled"] else []))%list
  else [].

Definition GetListenAddr (o : Options) : string := Addr o +:+ ":" +:+ Port o.

(** The address of the server; nil when it is disabled. *)
Definition New (o : Options) : option string :=
  if Enabled o then Some (GetListenAddr o) else None.
End pprof.

Record ServerOptions := {
  svo_Id : string;
  svo_Name : string;
  svo_PublicUrl : string;
  svo_ReadOnlyMode : bool;
  svo_GrpcOptions : listener.Options;
  svo_HttpOptions : listener.Options;
  svo_PprofOptions : pprof.Options;
}.

Definition NewServerOptions (os_Hostname : string) : ServerOptions :=
  {| svo_Id := os_Hostname; svo_Name := "kessel-inventory-api";
     svo_PublicUrl := "http://localhost:8000"; svo_ReadOnlyMode := false;
     svo_GrpcOptions := grpc_NewOptions; svo_HttpOptions := http_NewOptions;
     svo_PprofOptions := pprof.NewOptions |}.

(** The gRPC and HTTP options have nothing to complete. *)
Definition CompleteServerOptions (o : ServerOptions) : ServerOptions * list go_error :=
  let '(p, errs) := pprof.Complete (svo_PprofOptions o) in
  ({| svo_Id := svo_Id o; svo_Name := svo_Name o; svo_PublicUrl := svo_PublicUrl o;
      svo_ReadOnlyMode := svo_ReadOnlyMode o; svo_GrpcOptions := svo_GrpcOptions o;
      svo_HttpOptions := svo_HttpOptions o; svo_PprofOptions := p |}, errs).

Definition ValidateServer (o : ServerOptions) : list go_error :=
  (listener.Validate (svo_GrpcOptions o) ++ http_Validate (svo_HttpOptions o)
   ++ pprof.Validate (svo_PprofOptions o))%list.

Section ServerConfig.
Context `{TLSLib}.

Record ServerConfig := {
  svc_Options : ServerOptions;
  svc_GrpcConfig : ListenerConfig;
  svc_HttpConfig : ListenerConfig;
}.

Definition NewServerConfig (o : ServerOptions) : ServerConfig :=
  {| svc_Options := o; svc_GrpcConfig := NewListenerConfig (svo_GrpcOptions o);
     svc_HttpConfig := NewListenerConfig (svo_HttpOptions o) |}.

(** Both configurations are completed and both errors are returned; a
    configuration that failed is left empty. *)
Definition CompleteServer (c : ServerConfig)
    : (list ServerOption * list ServerOption) * list go_error :=
  let errs_of (r : result (list ServerOption)) :=
    match r with Ok _ => [] | Err err => [err] end in
  let config_of (r : result (list ServerOption)) :=
    match r with Ok opts => opts | Err _ => [] end in
  let grpcConfig := grpc_CompleteConfig (svc_GrpcConfig c) in
  let httpConfig := http_CompleteConfig (svc_HttpConfig c) in
  ((config_of grpcConfig, config_of httpConfig), (errs_of grpcConfig ++ errs_of httpConfig)%list).
End ServerConfig.

(** * Consumer *)

Module retry.
Record Options := {
  ConsumerMaxRetries : Z;
  OperationMaxRetries : Z;
  BackoffFactor : Z;
  MaxBackoffSeconds : Z;
}.
Definition NewOptions : Options :=
  {| ConsumerMaxRetries := 2; OperationMaxRetries := 3; BackoffFactor := 5;
     MaxBackoffSeconds := 30 |}.
Definition NewConfig (o : Options) : Options := o.
End retry.

Module auth.
Record Options := {
  Enabled : bool;
  SecurityProtocol : string;
  SASLMechanism : string;
  SASLUsername : string;
  SASLPassword : string;
  CACertLocation : string;
}.
Definition NewOptions : Options :=
  {| Enabled := true; SecurityProtocol := ""; SASLMechanism := ""; SASLUsername := "";
     SASLPassword := ""; CACertLocation := "" |}.
Definition NewConfig (o : Options) : Options := o.
End auth.

Record ConsumerOptions := {
  co_Enabled : bool;
  co_BootstrapServers : list string;
  co_ConsumerGroupID : string;
  co_Topic : string;
  co_CommitModulo : Z;
  co_SessionTimeout : string;
  co_HeartbeatInterval : string;
  co_MaxPollInterval : string;
  co_EnableAutoCommit : string;
  co_AutoOffsetReset : string;
  co_StatisticsInterval : string;
  co_Debug : string;
  co_RetryOptions : retry.Options;
  co_AuthOptions : auth.Options;
  co_ReadAfterWriteEnabled : bool;
  co_ReadAfterWriteAllowlist : list string;
}.

Definition NewConsumerOptions : ConsumerOptions :=
  {| co_Enabled := true; co_BootstrapServers := []; co_ConsumerGroupID := "inventory-consumer";
     co_Topic := "outbox.event.kessel.tuples"; co_CommitModulo := 10; co_SessionTimeout := "45000";
     co_HeartbeatInterval := "3000"; co_MaxPollInterval := "300000";
     co_EnableAutoCommit := "false"; co_AutoOffsetReset := "earliest";
     co_StatisticsInterval := "60000"; co_Debug := ""; co_RetryOptions := retry.NewOptions;
     co_AuthOptions := auth.NewOptions; co_ReadAfterWriteEnabled := true;
     co_ReadAfterWriteAllowlist := [] |}.

Definition ValidateConsumer (o : ConsumerOptions) : list go_error :=
  ((if bool_decide (co_BootstrapServers o = []) && co_Enabled o
    then [EMsg "bootstrap servers can not be empty"] else [])
   ++ (if bool_decide (co_CommitModulo o <= 0)%Z
       then [EMsg "commit modulo must be a positive, non-zero integer value"] else []))%list.

Definition clientID : string := "inventory-consumer".

Definition authSettings (a : auth.Options) : list (string * string) :=
  [("security.protocol", auth.SecurityProtocol a); ("sasl.mechanism", auth.SASLMechanism a);
   ("sasl.username", auth.SASLUsername a); ("sasl.password", auth.SASLPassword a);
   ("ssl.ca.location", auth.CACertLocation a)].

Definition kafkaSettings (o : ConsumerOptions) : list (string * string) :=
  [("client.id", clientID); ("bootstrap.servers", Join (co_BootstrapServers o) ",");
   ("group.id", co_ConsumerGroupID o); ("session.timeout.ms", co_SessionTimeout o);
   ("heartbeat.interval.ms", co_HeartbeatInterval o);
   ("max.poll.interval.ms", co_MaxPollInterval o);
   ("enable.auto.commit", co_EnableAutoCommit o); ("auto.offset.reset", co_AutoOffsetReset o);
   ("statistics.interval.ms", co_StatisticsInterval o)].

(** [kafka.ConfigMap] with its method [SetKey]. *)
Class KafkaConfig := {
  ConfigMap : Type;
  empty_ConfigMap : ConfigMap;
  SetKey : string -> string -> ConfigMap -> result ConfigMap;
}.

Section ConsumerConfig.
Context `{KafkaConfig}.

(** A loop over a map of settings, in the order [range n] gives it; errors are
    collected. *)
Context (range : nat -> list (string * string) -> list (string * string)).

Definition set_key (acc : ConfigMap * list go_error) (kv : string * string)
    : ConfigMap * list go_error :=
  match SetKey kv.1 kv.2 acc.1 with
  | Ok m => (m, acc.2)
  | Err err => (acc.1, (acc.2 ++ [EWrap ("cannot set " +:+ kv.1 +:+ " value") err])%list)
  end.

Record ConsumerConfig := {
  cnc_Options : ConsumerOptions;
  cnc_KafkaConfig : option ConfigMap;
  cnc_RetryConfig : retry.Options;
  cnc_AuthConfig : auth.Options;
}.

Definition NewConsumerConfig (o : ConsumerOptions) : ConsumerConfig :=
  {| cnc_Options := o; cnc_KafkaConfig := None;
     cnc_RetryConfig := retry.NewConfig (co_RetryOptions o);
     cnc_AuthConfig := auth.NewConfig (co_AuthOptions o) |}.

Record completedConsumer := {
  ccn_Options : ConsumerOptions;
  ccn_Topic : string;
  ccn_KafkaConfig : ConfigMap;
  ccn_RetryConfig : retry.Options;
  ccn_AuthConfig : auth.Options;
  ccn_ReadAfterWriteEnabled : bool;
  ccn_ReadAfterWriteAllowlist : list string;
}.

Definition CompleteConsumer (c : ConsumerConfig) : option completedConsumer * list go_error :=
  let o := cnc_Options c in
  let '(config, errs) :=
    match cnc_KafkaConfig c with
    | Some config => (config, [])
    | None =>
        let acc := (empty_ConfigMap, []) in
        let acc := if bool_decide (co_Debug o <> "") then set_key acc ("debug", co_Debug o)
                   else acc in
        let acc := if auth.Enabled (cnc_AuthConfig c)
                   then foldl set_key acc (range 0%nat (authSettings (cnc_AuthConfig c)))
                   else acc in
        foldl set_key acc (range 1%nat (kafkaSettings o))
    end in
  if bool_decide (errs <> []) then (None, errs)
  else (Some {| ccn_Options := o; ccn_Topic := co_Topic o; ccn_KafkaConfig := config;
                ccn_RetryConfig := cnc_RetryConfig c; ccn_AuthConfig := cnc_AuthConfig c;
                ccn_ReadAfterWriteEnabled := co_ReadAfterWriteEnabled o;
                ccn_ReadAfterWriteAllowlist := co_ReadAfterWriteAllowlist o |}, []).
End ConsumerConfig.

(** * Consistency and the meta-authorizer *)

Record ConsistencyOptions := {
  cso_ReadAfterWriteEnabled : bool;
  cso_ReadAfterWriteAllowlist : list string;
  cso_DefaultToAtLeastAsAcknowledged : bool;
  cso_IdempotencyCheckEnabled : bool;
}.
Definition NewConsistencyOptions : ConsistencyOptions :=
  {| cso_ReadAfterWriteEnabled := true; cso_ReadAfterWriteAllowlist := [];
     cso_DefaultToAtLeastAsAcknowledged := true; cso_IdempotencyCheckEnabled := true |}.
(** The completed configuration copies the four fields. *)
Definition CompleteConsistency (o : ConsistencyOptions) : ConsistencyOptions * list go_error :=
  (o, []).

Record MetaAuthorizerOptions := { mao_TupleCrudAllowlist : list string }.
Definition NewMetaAuthorizerOptions : MetaAuthorizerOptions := {| mao_TupleCrudAllowlist := [] |}.
Definition CompleteMetaAuthorizer (o : MetaAuthorizerOptions)
    : MetaAuthorizerOptions * list go_error := (o, []).

(** * ClowdApp *)

(** The part of clowder.AppConfig that is read. *)
Module clowder.
Record DependencyEndpoint := { App : string; Hostname : string }.
Record DatabaseConfig := {
  db_Hostname : string;
  db_Port : Z;
  db_Username : string;
  db_Password : string;
  db_Name : string;
  db_RdsCa : option string;
}.
Record SASLConfig := {
  SaslMechanism : option string;
  Username : option string;
  Password : option string;
}.
Record BrokerConfig := {
  br_Hostname : string;
  br_Port : option Z;
  br_SecurityProtocol : option string;
  br_Sasl : option SASLConfig;
}.
Record AppConfig := {
  Endpoints : list DependencyEndpoint;
  Database : option DatabaseConfig;
  Kafka : option (list BrokerConfig);
}.
End clowder.

Definition RelationsAPI : string := "kessel-relations".

(** The options that the injection changes. *)
Record OptionsConfig := {
  oc_Authz : RelationsOptions;
  oc_Storage : StorageOptions;
  oc_Consumer : ConsumerOptions;
}.

Definition NewOptionsConfig : OptionsConfig :=
  {| oc_Authz := NewRelationsOptions; oc_Storage := NewStorageOptions;
     oc_Consumer := NewConsumerOptions |}.

Definition ConfigureAuthz (endpoint : clowder.DependencyEndpoint) (o : OptionsConfig)
    : result OptionsConfig :=
  match ro_Kessel (oc_Authz o) with
  | None => Err nil_deref
  | Some k =>
      let k := {| kessel.URL := clowder.Hostname endpoint +:+ ":" +:+ FormatInt 9000;
                  kessel.Insecure := kessel.Insecure k;
                  kessel.EnableOidcAuth := kessel.EnableOidcAuth k;
                  kessel.ClientId := kessel.ClientId k;
                  kessel.ClientSecret := kessel.ClientSecret k;
                  kessel.TokenEndpoint := kessel.TokenEndpoint k |} in
      Ok {| oc_Authz := {| ro_Authz := Kessel; ro_Kessel := Some k;
                           ro_SpiceDB := ro_SpiceDB (oc_Authz o) |};
            oc_Storage := oc_Storage o; oc_Consumer := oc_Consumer o |}
  end.

(** [RdsCa] of the library writes the certificate to a file and returns its
    path. *)
Definition ConfigureStorage (RdsCa : string -> result string) (db : clowder.DatabaseConfig)
    (o : OptionsConfig) : result OptionsConfig :=
  let p := so_Postgres (oc_Storage o) in
  let! ssl :=
    match clowder.db_RdsCa db with
    | None => Ok (postgres.SSLMode p, postgres.SSLRootCert p)
    | Some ca =>
        let! caPath := wrap_err "failed to load rds ca" (RdsCa ca) in
        Ok ("verify-full", caPath)
    end in
  Ok {| oc_Authz := oc_Authz o;
        oc_Storage :=
          {| so_Postgres :=
               {| postgres.Host := clowder.db_Hostname db;
                  postgres.Port := FormatInt (clowder.db_Port db);
                  postgres.DbName := clowder.db_Name db;
                  postgres.User := clowder.db_Username db;
                  postgres.Password := clowder.db_Password db;
                  postgres.SSLMode := ssl.1; postgres.SSLRootCert := ssl.2 |};
             so_SqlLite3 := so_SqlLite3 (oc_Storage o); so_Database := Postgres;
             so_MaxSerializationRetries := so_MaxSerializationRetries (oc_Storage o);
             so_OutboxMode := so_OutboxMode (oc_Storage o) |};
        oc_Consumer := oc_Consumer o |}.

(** [*p] *)
Definition deref {A} (p : option A) : result A :=
  match p with Some a => Ok a | None => Err nil_deref end.

Fixpoint broker_addresses (brokers : list clowder.BrokerConfig) : result (list string) :=
  match brokers with
  | [] => Ok []
  | broker :: rest =>
      let! port := deref (clowder.br_Port broker) in
      let! rest := broker_addresses rest in
      Ok ((clowder.br_Hostname broker +:+ ":" +:+ FormatInt port) :: rest)
  end.

Definition ConfigureConsumer (brokers : list clowder.BrokerConfig) (o : OptionsConfig)
    : result OptionsConfig :=
  let c := oc_Consumer o in
  let a := co_AuthOptions c in
  let! servers := broker_addresses brokers in
  let! a :=
    match brokers with
    | {| clowder.br_SecurityProtocol := Some protocol; clowder.br_Sasl := sasl |} :: _ =>
        let! sasl :=
          match sasl with
          | None => Ok (auth.SASLMechanism a, auth.SASLUsername a, auth.SASLPassword a)
          | Some s =>
              let! mechanism := deref (clowder.SaslMechanism s) in
              let! username := deref (clowder.Username s) in
              let! password := deref (clowder.Password s) in
              Ok (mechanism, username, password)
          end in
        Ok {| auth.Enabled := auth.Enabled a; auth.SecurityProtocol := protocol;
              auth.SASLMechanism := sasl.1.1; auth.SASLUsername := sasl.1.2;
              auth.SASLPassword := sasl.2; auth.CACertLocation := auth.CACertLocation a |}
    | _ => Ok a
    end in
  Ok {| oc_Authz := oc_Authz o; oc_Storage := oc_Storage o;
        oc_Consumer :=
          {| co_Enabled := co_Enabled c; co_BootstrapServers := servers;
             co_ConsumerGroupID := co_ConsumerGroupID c; co_Topic := co_Topic c;
             co_CommitModulo := co_CommitModulo c; co_SessionTimeout := co_SessionTimeout c;
             co_HeartbeatInterval := co_HeartbeatInterval c;
             co_MaxPollInterval := co_MaxPollInterval c;
             co_EnableAutoCommit := co_EnableAutoCommit c;
             co_AutoOffsetReset := co_AutoOffsetReset c;
             co_StatisticsInterval := co_StatisticsInterval c; co_Debug := co_Debug c;
             co_RetryOptions := co_RetryOptions c; co_AuthOptions := a;
             co_ReadAfterWriteEnabled := co_ReadAfterWriteEnabled c;
             co_ReadAfterWriteAllowlist := co_ReadAfterWriteAllowlist c |} |}.

(** The loop over the endpoints. *)
Fixpoint configure_endpoints (endpoints : list clowder.DependencyEndpoint) (o : OptionsConfig)
    : result OptionsConfig :=
  match endpoints with
  | [] => Ok o
  | endpoint :: rest =>
      let! o := (if bool_decide (clowder.App endpoint = RelationsAPI)
                 then ConfigureAuthz endpoint o else Ok o) in
      configure_endpoints rest o
  end.

Definition InjectClowdAppConfig (RdsCa : string -> result string) (appconfig : clowder.AppConfig)
    (o : OptionsConfig) : result OptionsConfig :=
  let! o := configure_endpoints (clowder.Endpoints appconfig) o in
  let! o := match clowder.Database appconfig with
            | None => Ok o
            | Some db => wrap_err "failed to configure storage" (ConfigureStorage RdsCa db o)
            end in
  match clowder.Kafka appconfig with
  | None => Ok o
  | Some brokers => ConfigureConsumer brokers o
  end.
