(* ===== verification/SettingsProps.v ===== *)
(** The settings: the connection string of PostgreSQL determines its parameters
    if no value has white space, and not otherwise; the client certificates of
    a listener; the settings of the Kafka client whatever the order in which
    they are set; the storage that a ClowdApp configuration selects. *)
From stdpp Require Import base tactics list strings gmap.
From Stdlib Require Import ZArith Lia Ascii.
From S2P Require Import Prelude GoStrings Common RelationsConfig Settings.

Local Open Scope string_scope.

(** * Words *)

Definition unspaced (s : string) : Prop := string_forall (fun c => negb (is_space c)) s = true.
#[export] Instance unspaced_dec s : Decision (unspaced s).
Proof. unfold unspaced. apply _. Defined.

Definition word (s : string) : Prop := s <> "" /\ unspaced s.

(** The words of a list, a space after each. *)
Definition spaced (ws : list string) : string := foldr (fun w acc => w +:+ " " +:+ acc) "" ws.

Lemma unspaced_cons c s : unspaced (String c s) <-> is_space c = false /\ unspaced s.
Proof. unfold unspaced. simpl. by rewrite andb_true_iff, negb_true_iff. Qed.

Lemma unspaced_app s t : unspaced s -> unspaced t -> unspaced (s +:+ t).
Proof.
  intros Hs Ht. induction s as [|c s IH]; autorewrite with sapp; [done|].
  apply unspaced_cons in Hs as [Hc Hs]. apply unspaced_cons. auto.
Qed.

Lemma trim_right_word w rest : word w ->
  trim_right (w +:+ rest) = w +:+ trim_right rest.
Proof.
  intros [Hne Hw]. induction w as [|c w IH]; [done|]. autorewrite with sapp.
  apply unspaced_cons in Hw as [Hc Hw]. rewrite trim_right_cons.
  destruct w as [|d w].
  - autorewrite with sapp. rewrite Hc. by destruct (trim_right rest).
  - rewrite IH by done. by autorewrite with sapp.
Qed.

Lemma trim_right_spaced ws : Forall word ws -> trim_right (spaced ws) = Join ws " ".
Proof.
  induction 1 as [|w ws Hw Hws IH]; [done|]. cbn [spaced foldr]. fold (spaced ws).
  rewrite trim_right_word by done. autorewrite with sapp. rewrite trim_right_cons, IH.
  destruct ws as [|v ws].
  - simpl. clear. induction w as [|c w IH]; [done|]. autorewrite with sapp. by rewrite IH.
  - apply Forall_cons in Hws as [[Hv _] _]. simpl Join.
    destruct (match ws with [] => v | _ => _ end) eqn:E; [|by autorewrite with sapp].
    exfalso. destruct ws; [done|]. destruct v; [done|]. by autorewrite with sapp in E.
Qed.

Lemma trim_left_spaced ws : Forall word ws -> trim_left (spaced ws) = spaced ws.
Proof.
  destruct 1 as [|w ws [Hne Hw] _]; [done|]. cbn [spaced foldr].
  destruct w as [|c w]; [done|]. apply unspaced_cons in Hw as [Hc _].
  autorewrite with sapp. simpl. by rewrite Hc.
Qed.

Lemma Split_word w rest : unspaced w -> Split (w +:+ " " +:+ rest) " " = w :: Split rest " ".
Proof.
  intros Hw. induction w as [|c w IH]; autorewrite with sapp; [done|].
  apply unspaced_cons in Hw as [Hc Hw]. cbn [Split].
  rewrite bool_decide_eq_false_2 by (by intros ->). autorewrite with sapp in IH. by rewrite IH.
Qed.

Lemma Split_single w : unspaced w -> Split w " " = [w].
Proof.
  intros Hw. induction w as [|c w IH]; [done|]. apply unspaced_cons in Hw as [Hc Hw]. cbn [Split].
  by rewrite bool_decide_eq_false_2, IH by (done || by intros ->).
Qed.

Lemma Split_Join ws : ws <> [] -> Forall word ws -> Split (Join ws " ") " " = ws.
Proof.
  intros Hne Hws. induction Hws as [|w ws [_ Hw] Hws IH]; [done|]. destruct ws as [|v ws].
  - by apply Split_single.
  - change (Join (w :: v :: ws) " ") with (w +:+ " " +:+ Join (v :: ws) " ").
    by rewrite Split_word, IH.
Qed.

(** * The connection string *)

(** The format that libpq documents, for values without quotes: pairs
    [keyword = value] separated by white space. *)
Definition keyword_values (dsn : string) : list (string * string) :=
  omap (fun w => Cut w "=") (Split dsn " ").

Definition present (l : list (string * string)) : list (string * string) :=
  filter (fun kv => kv.2 <> "") l.

Definition parameters (o : postgres.Options) : list (string * string) :=
  [("host", postgres.Host o); ("port", postgres.Port o); ("dbname", postgres.DbName o);
   ("user", postgres.User o); ("password", postgres.Password o);
   ("sslmode", postgres.SSLMode o); ("sslrootcert", postgres.SSLRootCert o)].

(** No value has white space, a quote or a backslash. *)
Definition plain_value (s : string) : Prop :=
  unspaced s /\ ContainsAny s ["'"%char; "\"%char] = false.
Definition plain (o : postgres.Options) : Prop := Forall (fun kv => plain_value kv.2) (parameters o).

Definition pair_word (kv : string * string) : string := kv.1 +:+ "=" +:+ kv.2.

Lemma dsn_params_spaced l :
  foldr (fun kv acc => postgres.dsn_param kv.1 kv.2 +:+ acc) "" l
  = spaced (pair_word <$> present l).
Proof.
  induction l as [|[k v] l IH]; [done|]. simpl foldr. rewrite IH. unfold present, postgres.dsn_param.
  rewrite filter_cons. simpl. destruct (decide (v <> "")) as [Hv|Hv].
  - rewrite bool_decide_eq_false_2 by done. unfold pair_word. simpl.
    by rewrite !app_assoc_string.
  - by rewrite bool_decide_eq_true_2 by (by destruct (decide (v = ""))).
Qed.

Definition no_equals (s : string) : Prop := ContainsAny s ["="%char] = false.

Lemma Cut_pair k v : no_equals k -> Cut (k +:+ "=" +:+ v) "=" = Some (k, v).
Proof.
  unfold no_equals. induction k as [|c k IH]; autorewrite with sapp; [done|].
  cbn [ContainsAny Cut]. intros [Hc Hk]%orb_false_iff. apply bool_decide_eq_false in Hc.
  rewrite bool_decide_eq_false_2 by set_solver. autorewrite with sapp in IH. by rewrite IH.
Qed.

Lemma Cut_pairs l : Forall (fun kv => no_equals kv.1) l ->
  omap (fun w => Cut w "=") (pair_word <$> l) = l.
Proof.
  induction 1 as [|[k v] l Hk _ IH]; [done|]. cbn [fmap list_fmap omap list_omap].
  unfold pair_word at 1. simpl in *. by rewrite Cut_pair, IH.
Qed.

Lemma keyword_values_spaced l :
  Forall (fun kv => no_equals kv.1 /\ unspaced kv.1 /\ unspaced kv.2) l ->
  keyword_values (TrimSpace (spaced (pair_word <$> l))) = l.
Proof.
  intros Hl.
  assert (Forall word (pair_word <$> l)) as Hw.
  { apply Forall_fmap. eapply Forall_impl; [exact Hl|]. intros [k v] (_ & Hk & Hv). simpl in *.
    split; [|by repeat apply unspaced_app]. unfold pair_word. simpl. destruct k; by autorewrite with sapp. }
  unfold TrimSpace, keyword_values. rewrite trim_left_spaced, trim_right_spaced by done.
  destruct l as [|kv l]; [done|]. rewrite Split_Join by done. apply Cut_pairs.
  eapply Forall_impl; [exact Hl|]. by intros ? [? _].
Qed.

Lemma parameters_keys o kv : kv ∈ parameters o -> no_equals kv.1 /\ unspaced kv.1.
Proof.
  unfold parameters. rewrite !elem_of_cons, elem_of_nil.
  intros Hkv. repeat destruct Hkv as [-> | Hkv]; [by split..|done].
Qed.

Lemma parameters_keys_distinct o : NoDup (parameters o).*1.
Proof. apply (bool_decide_eq_true_1 _). reflexivity. Qed.

Lemma key_unique {A} (l : list (string * A)) k v w :
  NoDup l.*1 -> (k, v) ∈ l -> (k, w) ∈ l -> v = w.
Proof.
  intros Hnd [i Hi]%list_elem_of_lookup_1 [j Hj]%list_elem_of_lookup_1.
  assert (i = j) as -> by (eapply (NoDup_lookup l.*1); [done|rewrite list_lookup_fmap..];
                           [by rewrite Hi|by rewrite Hj]).
  congruence.
Qed.

Lemma present_value l l' k v v' :
  NoDup l.*1 -> NoDup l'.*1 -> present l = present l' -> (k, v) ∈ l -> (k, v') ∈ l' -> v = v'.
Proof.
  intros Hl Hl' He Hv Hv'.
  assert (forall w, w <> "" -> (k, w) ∈ l <-> (k, w) ∈ l') as Hiff.
  { intros w Hw. assert ((k, w) ∈ present l <-> (k, w) ∈ present l') as Hp by by rewrite He.
    unfold present in Hp. rewrite !list_elem_of_filter in Hp. simpl in Hp. naive_solver. }
  destruct (decide (v = "")) as [->|Hne].
  - destruct (decide (v' = "")) as [->|Hne']; [done|]. apply Hiff in Hv'; [|done].
    by eapply (key_unique l).
  - apply Hiff in Hv; [|done]. by eapply (key_unique l').
Qed.

Lemma present_inj o o' : present (parameters o) = present (parameters o') -> o = o'.
Proof.
  intros He.
  pose proof (fun k v v' => present_value (parameters o) (parameters o') k v v'
    (parameters_keys_distinct o) (parameters_keys_distinct o') He) as Hv.
  destruct o, o'. unfold parameters in Hv. simpl in Hv. clear He.
  f_equal; [eapply (Hv "host")|eapply (Hv "port")|eapply (Hv "dbname")|eapply (Hv "user")|
            eapply (Hv "password")|eapply (Hv "sslmode")|eapply (Hv "sslrootcert")];
    rewrite !elem_of_cons; naive_solver.
Qed.

Lemma Complete_words o : plain o ->
  keyword_values (postgres.Complete (postgres.NewConfig o)) = present (parameters o).
Proof.
  intros Hp. unfold postgres.Complete, postgres.NewConfig. simpl.
  etrans; [|apply keyword_values_spaced].
  - do 2 f_equal. rewrite <- dsn_params_spaced. simpl. by rewrite app_nil_string.
  - apply Forall_forall. intros kv [_ Hkv]%list_elem_of_filter.
    destruct (parameters_keys o kv Hkv). split_and!; [done..|].
    unfold plain in Hp. rewrite Forall_forall in Hp. by apply Hp in Hkv as [? _].
Qed.

(** The connection string that is built from options without white space,
    quotes or backslashes, read as libpq documents it, has exactly the
    parameters that are set, in their order; two such options with the same
    connection string are equal. *)
Theorem dsn_roundtrip o : plain o ->
  keyword_values (postgres.Complete (postgres.NewConfig o)) = present (parameters o) /\
  (forall o', plain o' ->
     postgres.Complete (postgres.NewConfig o') = postgres.Complete (postgres.NewConfig o) ->
     o' = o).
Proof.
  intros Hp. split; [by apply Complete_words|]. intros o' Hp' He. apply present_inj.
  by rewrite <- !Complete_words, He.
Qed.

Definition ex_postgres : postgres.Options :=
  {| postgres.Host := "db"; postgres.Port := "5432"; postgres.DbName := "spicedb";
     postgres.User := "kessel"; postgres.Password := "s3cret"; postgres.SSLMode := "verify-full";
     postgres.SSLRootCert := "/tmp/ca.pem" |}.

Lemma dsn_roundtrip_witness :
  keyword_values (postgres.Complete (postgres.NewConfig ex_postgres))
    = present (parameters ex_postgres) /\
  (forall o', plain o' ->
     postgres.Complete (postgres.NewConfig o')
       = postgres.Complete (postgres.NewConfig ex_postgres) -> o' = ex_postgres).
Proof. apply (dsn_roundtrip ex_postgres). repeat constructor. Defined.

(** A password with a space is read as two parameters: the values are not
    quoted, and the connection string is that of other options. *)
Lemma dsn_unquoted :
  let o password sslrootcert :=
    {| postgres.Host := "db"; postgres.Port := ""; postgres.DbName := ""; postgres.User := "u";
       postgres.Password := password; postgres.SSLMode := ""; postgres.SSLRootCert := sslrootcert |} in
  postgres.Complete (postgres.NewConfig (o "a sslrootcert=/tmp/x" ""))
  = postgres.Complete (postgres.NewConfig (o "a" "/tmp/x")).
Proof. reflexivity. Qed.

(** * Client certificates *)

Section Certificates.
Context `{TLSLib}.
Implicit Type o : listener.Options.

(** Client certificates are asked for exactly if the option is set and a file
    of client CAs is named; without the file the option is silently ignored. *)
Lemma client_auth_iff o t :
  getTSLConfig (NewListenerConfig o) = Ok (Some t) -> (0 <= listener.CertOpt o)%Z ->
  ClientAuth t = (if bool_decide (listener.ClientCAFile o = "") then NoClientCert
                  else listener.CertOpt o).
Proof.
  unfold getTSLConfig, NewListenerConfig, NoClientCert. simpl. intros Ht Ho.
  case_match; [|done]. destruct (tls_LoadX509KeyPair _ _) as [cert|e]; simpl in Ht; [|by destruct e].
  destruct (bool_decide (0 < listener.CertOpt o)%Z) eqn:Eo; simpl in Ht.
  - destruct (decide (listener.ClientCAFile o = "")) as [Hf|Hf].
    + rewrite (bool_decide_eq_true_2 _ Hf). rewrite bool_decide_eq_false_2 in Ht by naive_solver.
      by simplify_eq/=.
    + rewrite (bool_decide_eq_false_2 _ Hf). rewrite (bool_decide_eq_true_2 _ Hf) in Ht.
      destruct (client_ca_pool _); simpl in Ht; by simplify_eq/=.
  - apply bool_decide_eq_false in Eo. simplify_eq/=. replace (listener.CertOpt o) with 0%Z by lia.
    by destruct (bool_decide (listener.ClientCAFile o = "")).
Qed.

(** If the file of the client CAs cannot be opened, the listener starts all
    the same: it asks for client certificates as configured, with a nil pool,
    which crypto/tls verifies against the root CAs of the host instead of the
    configured ones. *)
Theorem client_ca_ignored o cert err :
  listener.Validate o = [] -> listener.ServingCertFile o <> "" -> listener.ClientCAFile o <> "" ->
  (0 < listener.CertOpt o)%Z ->
  tls_LoadX509KeyPair (listener.ServingCertFile o) (listener.PrivateKeyFile o) = Ok cert ->
  os_Open (listener.ClientCAFile o) = Err err ->
  exists t,
    grpc_CompleteConfig (NewListenerConfig o)
      = Ok [Address (listener.Addr o); TLSConfig (Some t);
            TimeoutOption (seconds (listener.Timeout o))] /\
    http_CompleteConfig (NewListenerConfig o)
      = Ok [Address (listener.Addr o); TLSConfig (Some t); StrictSlash true;
            TimeoutOption (seconds (listener.Timeout o))] /\
    ClientAuth t = listener.CertOpt o /\ ClientCAs t = None.
Proof.
  intros Hv Hs Hca Ho Hcert Hopen. unfold listener.Validate in Hv.
  apply app_eq_nil in Hv as [_ Hv]. apply app_eq_nil in Hv as [Hv _].
  assert (listener.PrivateKeyFile o <> "") as Hk.
  { intros Hk. rewrite (bool_decide_eq_false_2 _ Hs), (bool_decide_eq_true_2 _ Hs),
      (bool_decide_eq_true_2 _ Hk) in Hv. done. }
  unfold grpc_CompleteConfig, http_CompleteConfig, http_getTSLConfig, getTSLConfig. simpl.
  rewrite !bool_decide_eq_true_2 by done. simpl. rewrite Hcert. simpl.
  unfold client_ca_pool. rewrite Hopen. simpl. eexists. by split_and!.
Qed.
End Certificates.

Definition ex_tls : TLSLib :=
  {| Certificate := string; tls_LoadX509KeyPair c _ := Ok c; os_Open _ := Err (EMsg "no such file");
     io_ReadAll h := Ok h; certs_from_PEM s := [s] |}.
Definition ex_listener : listener.Options :=
  {| listener.Addr := "0.0.0.0:9000"; listener.Timeout := 300; listener.ServingCertFile := "tls.crt";
     listener.PrivateKeyFile := "tls.key"; listener.ClientCAFile := "ca.crt"; listener.SNI := "";
     listener.CertOpt := 4 |}.

Lemma client_ca_ignored_witness :
  exists t : @tls_Config (@Certificate ex_tls),
    grpc_CompleteConfig (NewListenerConfig ex_listener)
      = Ok [Address "0.0.0.0:9000"; TLSConfig (Some t); TimeoutOption (seconds 300)] /\
    http_CompleteConfig (NewListenerConfig ex_listener)
      = Ok [Address "0.0.0.0:9000"; TLSConfig (Some t); StrictSlash true;
            TimeoutOption (seconds 300)] /\
    ClientAuth t = 4%Z /\ ClientCAs t = None.
Proof.
  exact (@client_ca_ignored ex_tls ex_listener "tls.crt" (EMsg "no such file") eq_refl
    ltac:(done) ltac:(done) ltac:(simpl; lia) eq_refl eq_refl).
Defined.

(** * The Kafka client *)

Section Kafka.
Context `{KafkaConfig} (range : nat -> list (string * string) -> list (string * string)).
Context (view : ConfigMap -> gmap string string).

(** [SetKey] sets a key that is not a topic setting. *)
Class KafkaConfigLaws := {
  view_empty : view empty_ConfigMap = ∅;
  view_SetKey : forall k v m, HasPrefix k "{topic}." = false ->
    exists m', SetKey k v m = Ok m' /\ view m' = <[k := v]> (view m);
  range_all : forall n l, range n l ≡ₚ l;
}.
Context `{KafkaConfigLaws}.

Lemma set_keys l acc :
  Forall (fun kv => HasPrefix kv.1 "{topic}." = false) l ->
  exists m, foldl set_key acc l = (m, acc.2) /\
    view m = foldl (fun acc kv => <[kv.1 := kv.2]> acc) (view acc.1) l.
Proof.
  revert acc. induction l as [|[k v] l IH]; intros [m errs] Hl; simpl; [by eexists|].
  apply Forall_cons in Hl as [Hk Hl]. unfold set_key at 2. simpl in *.
  destruct (view_SetKey k v m Hk) as (m' & -> & Hm'). simpl.
  destruct (IH (m', errs) Hl) as (m'' & -> & Hm''). exists m''. simpl in *.
  by rewrite Hm'', Hm'.
Qed.

Lemma foldl_insert_union (l : list (string * string)) (m0 : gmap string string) :
  NoDup l.*1 -> foldl (fun acc kv => <[kv.1 := kv.2]> acc) m0 l = list_to_map l ∪ m0.
Proof.
  revert m0. induction l as [|[k v] l IH]; intros m0 Hnd; simpl; [by rewrite map_empty_union|].
  apply NoDup_cons in Hnd as [Hk Hnd]. rewrite IH by done. simpl.
  rewrite <- insert_union_r by (by apply not_elem_of_list_to_map_1).
  by rewrite <- insert_union_l.
Qed.

(** One loop, in any order. *)
Lemma set_settings n l acc :
  Forall (fun kv => HasPrefix kv.1 "{topic}." = false) l -> NoDup l.*1 ->
  exists m, foldl set_key acc (range n l) = (m, acc.2) /\ view m = list_to_map l ∪ view acc.1.
Proof.
  intros Hl Hnd. destruct (set_keys (range n l) acc) as (m & -> & Hm); [by rewrite range_all|].
  exists m. split; [done|]. rewrite Hm, foldl_insert_union by (by rewrite range_all). f_equal.
  apply list_to_map_proper; [by rewrite range_all|apply range_all].
Qed.

Lemma settings_plain (o : ConsumerOptions) a :
  Forall (fun kv => HasPrefix kv.1 "{topic}." = false) (kafkaSettings o) /\
  Forall (fun kv => HasPrefix kv.1 "{topic}." = false) (authSettings a) /\
  NoDup (kafkaSettings o).*1 /\ NoDup (authSettings a).*1.
Proof.
  split_and!; [repeat constructor..| |]; apply (bool_decide_eq_true_1 _); reflexivity.
Qed.

(** The completion succeeds and the client gets every setting once, whatever
    the order of the loops: [enable.auto.commit] is the option's, which is off
    by default, so offsets are only committed by the consumer. *)
Lemma CompleteConsumer_settings o :
  co_Debug o = "" ->
  exists c, CompleteConsumer range (NewConsumerConfig o) = (Some c, []) /\
    view (ccn_KafkaConfig c) = list_to_map (kafkaSettings o) ∪
      (if auth.Enabled (co_AuthOptions o) then list_to_map (authSettings (co_AuthOptions o)) else ∅).
Proof.
  intros Hd. destruct (settings_plain o (co_AuthOptions o)) as (Hk & Ha & Hkn & Han).
  unfold CompleteConsumer, NewConsumerConfig, auth.NewConfig.
  cbn [cnc_Options cnc_KafkaConfig cnc_AuthConfig].
  rewrite (bool_decide_eq_false_2 (co_Debug o <> "")) by (intros Hx; by apply Hx).
  assert (exists m, (if auth.Enabled (co_AuthOptions o)
      then foldl set_key (empty_ConfigMap, []) (range 0%nat (authSettings (co_AuthOptions o)))
      else (empty_ConfigMap, [])) = (m, []) /\
    view m = (if auth.Enabled (co_AuthOptions o)
              then list_to_map (authSettings (co_AuthOptions o)) else ∅)) as (m & -> & Hm).
  { destruct (auth.Enabled _); [|by exists empty_ConfigMap; split; [done|apply view_empty]].
    destruct (set_settings 0 _ (empty_ConfigMap, []) Ha Han) as (m & -> & Hm). exists m.
    split; [done|]. rewrite Hm. cbn [fst]. by rewrite view_empty, map_union_empty. }
  destruct (set_settings 1 _ (m, []) Hk Hkn) as (m' & -> & Hm'). cbn [fst snd] in *.
  rewrite bool_decide_eq_false_2 by (intros Hx; by apply Hx). eexists. split; [done|].
  cbn [ccn_KafkaConfig]. by rewrite Hm', Hm.
Qed.
End Kafka.

(** * ClowdApp *)

Definition clowder_parameters (db : clowder.DatabaseConfig) (sslmode sslrootcert : string)
    : list (string * string) :=
  [("host", clowder.db_Hostname db); ("port", FormatInt (clowder.db_Port db));
   ("dbname", clowder.db_Name db); ("user", clowder.db_Username db);
   ("password", clowder.db_Password db); ("sslmode", sslmode); ("sslrootcert", sslrootcert)].

Lemma ConfigureConsumer_storage brokers o o' :
  ConfigureConsumer brokers o = Ok o' -> oc_Storage o' = oc_Storage o.
Proof.
  unfold ConfigureConsumer. destruct (broker_addresses _); simpl; [|done].
  intros Ho. repeat (case_match; simpl in *; try done); unfold deref in *;
    repeat (case_match; simpl in *; try done); by simplify_eq/=.
Qed.

(** With a ClowdApp that has a database and its CA certificate, the process
    connects to that database: the connection string that follows from the
    injected options has the host, port, name and credentials of the ClowdApp
    and verifies the server against the certificate, and the storage options
    are valid if the outbox mode is. *)
Theorem clowder_database RdsCa app o o' db ca caPath :
  clowder.Database app = Some db -> clowder.db_RdsCa db = Some ca -> RdsCa ca = Ok caPath ->
  Forall (fun kv => plain_value kv.2) (clowder_parameters db "verify-full" caPath) ->
  InjectClowdAppConfig RdsCa app o = Ok o' ->
  exists c, CompleteStorage (NewStorageConfig (oc_Storage o')) = Ok c /\
    keyword_values (cst_DSN c) = present (clowder_parameters db "verify-full" caPath) /\
    (so_OutboxMode (oc_Storage o) ∈ [OutboxModeNone; OutboxModeWAL] ->
     ValidateStorage (oc_Storage o') = []).
Proof.
  intros Hdb Hca Hpath Hplain. unfold InjectClowdAppConfig. rewrite Hdb.
  assert (forall es o1 o2, configure_endpoints es o1 = Ok o2 -> oc_Storage o2 = oc_Storage o1) as Hes.
  { induction es as [|e es IH]; intros o1 o2; simpl; [by intros [= ->]|].
    case_bool_decide; simpl; [|apply IH]. unfold ConfigureAuthz.
    destruct (ro_Kessel _); simpl; [|done]. intros He%IH. exact He. }
  destruct (configure_endpoints _ o) as [o1|] eqn:E1; [|done]. apply Hes in E1. simpl.
  unfold ConfigureStorage. rewrite Hca, Hpath. simpl. intros Ho.
  assert (oc_Storage o' = {|
    so_Postgres := {| postgres.Host := clowder.db_Hostname db;
      postgres.Port := FormatInt (clowder.db_Port db); postgres.DbName := clowder.db_Name db;
      postgres.User := clowder.db_Username db; postgres.Password := clowder.db_Password db;
      postgres.SSLMode := "verify-full"; postgres.SSLRootCert := caPath |};
    so_SqlLite3 := so_SqlLite3 (oc_Storage o1); so_Database := Postgres;
    so_MaxSerializationRetries := so_MaxSerializationRetries (oc_Storage o1);
    so_OutboxMode := so_OutboxMode (oc_Storage o1) |}) as ->.
  { destruct (clowder.Kafka app); [by apply ConfigureConsumer_storage in Ho|]. by injection Ho as <-. }
  eexists. split_and!; [reflexivity| |].
  - by apply Complete_words.
  - rewrite E1. intros Hm. unfold ValidateStorage. simpl.
    rewrite !elem_of_cons, elem_of_nil in Hm. by destruct Hm as [-> | [-> | []]].
Qed.

Definition ex_clowder : clowder.AppConfig :=
  {| clowder.Endpoints := [{| clowder.App := "kessel-relations"; clowder.Hostname := "relations" |}];
     clowder.Database := Some {| clowder.db_Hostname := "db"; clowder.db_Port := 5432;
       clowder.db_Username := "kessel"; clowder.db_Password := "s3cret";
       clowder.db_Name := "inventory"; clowder.db_RdsCa := Some "PEM" |};
     clowder.Kafka := Some [{| clowder.br_Hostname := "kafka"; clowder.br_Port := Some 9092%Z;
       clowder.br_SecurityProtocol := None; clowder.br_Sasl := None |}] |}.

Lemma clowder_database_witness :
  exists c,
    (let! o := InjectClowdAppConfig (fun _ => Ok "/tmp/rdsca") ex_clowder NewOptionsConfig in
     CompleteStorage (NewStorageConfig (oc_Storage o))) = Ok c /\
    keyword_values (cst_DSN c)
      = [("host", "db"); ("port", "5432"); ("dbname", "inventory"); ("user", "kessel");
         ("password", "s3cret"); ("sslmode", "verify-full"); ("sslrootcert", "/tmp/rdsca")].
Proof.
  destruct (InjectClowdAppConfig (fun _ => Ok "/tmp/rdsca") ex_clowder NewOptionsConfig)
    as [o'|] eqn:E; [|by vm_compute in E].
  destruct (clowder_database (fun _ => Ok "/tmp/rdsca") ex_clowder NewOptionsConfig o' _ "PEM"
    "/tmp/rdsca" eq_refl eq_refl eq_refl ltac:(repeat constructor) E) as (c & Hc & Hk & _).
  exists c. split; [exact Hc|]. rewrite Hk. vm_compute. reflexivity.
Defined.
