(* ===== verification/Serve.v ===== *)
(** cmd/serve/serve.go: how the process is configured, how it restarts its
    consumer, and how it shuts down.

    Every part of the configuration is completed and validated before anything
    is opened; the first part with errors ends the start.  The goroutine that
    runs the consumer is a loop over what its attempts meet; a send on the nil
    channel of the consumer never returns. *)
From stdpp Require Import base tactics list strings gmap.
From Stdlib Require Import ZArith Lia Ascii.
From S2P Require Import Prelude GoStrings Common Relations MetaAuthz Authn AuthnConfig.
From S2P Require Import RelationsConfig Schema SchemaLoad Settings.

Local Open Scope string_scope.

(** * Configuration *)

(** [errors.NewAggregate(errs)], or the configuration. *)
Abbreviation startup A := (list go_error + A)%type.

(** [if errs != nil { return errors.NewAggregate(errs) }] *)
Definition unless_errors {A} (errs : list go_error) (k : startup A) : startup A :=
  match errs with [] => k | _ => inl errs end.

(** A call that panics ends the process. *)
Definition must {A B} (r : result A) (k : A -> startup B) : startup B :=
  match r with Ok a => k a | Err err => inl [err] end.

Local Notation "'unless!' e ; k" := (unless_errors e k)
  (at level 200, e at level 100, right associativity).
Local Notation "'must!' x := r ; k" := (must r (fun x => k))
  (at level 200, x pattern, r at level 100, right associativity).

Record ServeOptions := {
  srv_Storage : StorageOptions;
  srv_Authn : AuthnOptions;
  srv_SelfSubject : option RedHatRbacOptions;
  srv_Authz : RelationsOptions;
  srv_Consumer : ConsumerOptions;
  srv_Consistency : ConsistencyOptions;
  srv_Schema : SchemaOptions;
  srv_MetaAuthorizer : MetaAuthorizerOptions;
  srv_Server : ServerOptions;
}.

Section Configure.
Context `{Environment} `{TLSLib} `{KafkaConfig}.
Context (range : nat -> list (string * string) -> list (string * string)).

Record configured := {
  cf_Storage : completedStorage;
  cf_Authn : option AuthenticatorCompletedConfig;
  cf_SelfSubjectStrategy : option RedHatRbacSelfSubjectStrategy;
  cf_Relations : option completedRelations;
  cf_Consumer : option completedConsumer;   (* the zero value when disabled *)
  cf_Consistency : ConsistencyOptions;
  cf_Schema : SchemaConfig;
  cf_MetaAuthorizer : MetaAuthorizerOptions;
  cf_Pprof : pprof.Options;
  cf_Grpc : list ServerOption;
  cf_Http : list ServerOption;
}.

(** The first part of [RunE]. *)
Definition configure (o : ServeOptions) : startup configured :=
  unless! ValidateStorage (srv_Storage o);
  must! storageConfig := CompleteStorage (NewStorageConfig (srv_Storage o));
  unless! AuthnOptions_Validate (srv_Authn o);
  let '(authnConfig, errs) := AuthnConfig_Complete (NewAuthnConfig (srv_Authn o)) in
  unless! errs;
  let '(selfSubjectOptions, errs) := SelfSubjectOptions_Complete (srv_SelfSubject o) in
  unless! errs;
  unless! SelfSubjectOptions_Validate selfSubjectOptions;
  unless! ValidateRelations (srv_Authz o);
  must! (authzConfig, errs) := CompleteRelations (NewRelationsConfig (srv_Authz o));
  unless! errs;
  unless! ValidateConsumer (srv_Consumer o);
  let '(consumerConfig, errs) :=
    if co_Enabled (srv_Consumer o)
    then CompleteConsumer range (NewConsumerConfig (srv_Consumer o)) else (None, []) in
  unless! errs;
  let '(consistencyConfig, errs) := CompleteConsistency (srv_Consistency o) in
  unless! errs;
  unless! ValidateSchemaOptions (srv_Schema o);
  must! (schemaConfig, errs) := CompleteSchema (NewSchemaConfig (srv_Schema o));
  unless! errs;
  let '(metaAuthorizerConfig, errs) := CompleteMetaAuthorizer (srv_MetaAuthorizer o) in
  unless! errs;
  let '(serverOptions, errs) := CompleteServerOptions (srv_Server o) in
  unless! errs;
  unless! ValidateServer serverOptions;
  let '(grpcConfig, httpConfig, errs) := CompleteServer (NewServerConfig serverOptions) in
  unless! errs;
  inr {| cf_Storage := storageConfig; cf_Authn := authnConfig;
         cf_SelfSubjectStrategy := SelfSubjectOptions_Build selfSubjectOptions;
         cf_Relations := authzConfig; cf_Consumer := consumerConfig;
         cf_Consistency := consistencyConfig; cf_Schema := schemaConfig;
         cf_MetaAuthorizer := metaAuthorizerConfig;
         cf_Pprof := svo_PprofOptions serverOptions;
         cf_Grpc := grpcConfig; cf_Http := httpConfig |}.
End Configure.

(** * The consumer's goroutine *)

(** The error channel of a consumer: [consumer.New] declares it and never makes
    it, so it is nil. *)
Definition errChan : option nat := None.

(** [consumer.New] with the errors of the Kafka client and of the metrics. *)
Definition consumer_New (kafka_NewConsumer metrics : option go_error) : result (option nat) :=
  match kafka_NewConsumer with
  | Some err => Err err
  | None => match metrics with Some err => Err err | None => Ok errChan end
  end.

(** What a call of [Consume] comes to: it returns an error, or it blocks. *)
Inductive consume_outcome := Returned (err : go_error) | Blocks.

(** [i.Errors <- err; return err] when the subscription fails, [loop] is the
    outcome of the rest; a nil channel takes nothing. *)
Definition Consume_outcome (Errors : option nat) (subscribe : option go_error) (loop : go_error)
    : consume_outcome :=
  match subscribe with
  | None => Returned loop
  | Some err => match Errors with None => Blocks | Some _ => Returned err end
  end.

(** What one round of the loop meets. *)
Record attempt := {
  at_NewConsumer : option go_error;   (* kafka.NewConsumer *)
  at_Metrics : option go_error;       (* mc.New *)
  at_Subscribe : option go_error;     (* SubscribeTopics *)
  at_Loop : go_error;                 (* how the poll loop ended *)
}.

Inductive serve_event :=
  | ConsumerCreated
  | Backoff (nanoseconds : Z)
  | ShutdownCalled (reason : go_error).

(** [Ended]: the goroutine returns; [Crashed]: it panics, and the process with
    it; [Stuck]: it blocks for ever; [Going]: it waits for its next attempt. *)
Inductive serve_outcome := Ended | Crashed | Stuck | Going.

Definition may_retry (max retries : Z) : bool :=
  bool_decide (max = -1)%Z || bool_decide (retries < max)%Z.

Definition milliseconds (n : Z) : Z := int64 (int64 n * 1000000).

(** [min(BackoffFactor*retries*300 ms, MaxBackoffSeconds s)] *)
Definition backoff (o : retry.Options) (retries : Z) : Z :=
  Z.min (milliseconds (retry.BackoffFactor o * retries * 300))
        (seconds (retry.MaxBackoffSeconds o)).

Definition max_retries_reached : go_error :=
  EMsg "consumer unable to process current message -- max retries reached".

(** A consumer that could not be created is the zero value: [shutdown] calls
    its Kafka client, which is nil, and panics. *)
Fixpoint run_consumer (o : retry.Options) (retries : Z) (attempts : list attempt)
    : list serve_event * serve_outcome :=
  if negb (may_retry (retry.ConsumerMaxRetries o) retries)
  then ([ShutdownCalled max_retries_reached], Ended)
  else
    match attempts with
    | [] => ([], Going)
    | a :: rest =>
        match consumer_New (at_NewConsumer a) (at_Metrics a) with
        | Err err => ([ShutdownCalled err], Crashed)
        | Ok errs =>
            match Consume_outcome errs (at_Subscribe a) (at_Loop a) with
            | Blocks => ([ConsumerCreated], Stuck)
            | Returned err =>
                if errors_Is err ErrClosed then
                  let retries := (retries + 1)%Z in
                  let wait := if may_retry (retry.ConsumerMaxRetries o) retries
                              then [Backoff (backoff o retries)] else [] in
                  let '(events, outcome) := run_consumer o retries rest in
                  ((ConsumerCreated :: wait ++ events)%list, outcome)
                else
                  let '(events, outcome) := run_consumer o retries rest in
                  (ConsumerCreated :: ShutdownCalled err :: events, outcome)
            end
        end
    end.

(** * Shutdown *)

Inductive shutdown_step := StopServer | StopPprof | CloseDatabase | CloseConsumer.

(** The function that [shutdown] returns: the steps that are run and the panic
    that ends it.  [cm] is the pointer to the consumer, whose Kafka client is
    nil until a consumer is created; the deferred calls run last to first. *)
Definition shutdown (pprofSrv : bool) (cm : option (option unit)) (dbError : bool)
    : list shutdown_step * option go_error :=
  let before := (StopServer :: (if pprofSrv then [StopPprof] else [])) in
  let close_db := if dbError then [] else [CloseDatabase] in
  match cm with
  | None => ((before ++ close_db)%list, None)
  | Some None => ((before ++ close_db)%list, Some nil_deref)
  | Some (Some _) => ((before ++ close_db ++ [CloseConsumer])%list, None)
  end.

(** The variable [inventoryConsumer] of [RunE], to which [shutdown] gets the
    address: the zero value until the goroutine has created a consumer. *)
Definition shutdown_of_serve (pprofSrv consumer_created dbError : bool)
    : list shutdown_step * option go_error :=
  shutdown pprofSrv (Some (if consumer_created then Some tt else None)) dbError.
