(* ===== verification/ServeProps.v ===== *)
(** The process: what a configuration that was accepted guarantees, how often
    the consumer is restarted and how long it waits, and the failures from
    which the goroutine of the consumer does not recover. *)
From stdpp Require Import base tactics list strings gmap.
From Stdlib Require Import ZArith Lia Ascii.
From S2P Require Import Prelude GoStrings Common Relations MetaAuthz Authn AuthnConfig.
From S2P Require Import RelationsConfig Schema SchemaLoad Settings SettingsProps Serve.

Local Open Scope string_scope.

(** * Configuration *)

Lemma unless_errors_inr {A} errs (k : startup A) a :
  unless_errors errs k = inr a -> errs = [] /\ k = inr a.
Proof. by destruct errs. Qed.

Lemma must_inr {A B} (r : result A) (k : A -> startup B) b :
  must r k = inr b -> exists a, r = Ok a /\ k a = inr b.
Proof. destruct r; [|done]. eauto. Qed.

Ltac startup_step :=
  match goal with
  | H : unless_errors _ _ = inr _ |- _ => apply unless_errors_inr in H as [? H]
  | H : must _ _ = inr _ |- _ =>
      let a := fresh "r" in apply must_inr in H as (a & ? & H); try (destruct a as [? ?])
  | H : (let '(_, _) := ?e in _) = inr _ |- _ => destruct e as [? ?] eqn:?
  end.

(** Closes a validator that found nothing. *)
Ltac nothing_found :=
  repeat match goal with
  | H : (_ ++ _)%list = [] |- _ => apply app_eq_nil in H as [? ?]
  | H : (if ?b then [_] else []) = [] |- _ => destruct b eqn:?; [discriminate H|clear H]
  end.

Section Accepted.
Context `{Environment} `{TLSLib} `{KafkaConfig}.
Context (range : nat -> list (string * string) -> list (string * string)).

Lemma ValidateStorage_ok o : ValidateStorage o = [] ->
  so_Database o ∈ ["postgres"; "sqlite3"] /\ so_OutboxMode o ∈ ["none"; "wal"] /\
  (so_OutboxMode o = "wal" -> so_Database o = "postgres").
Proof.
  unfold ValidateStorage. intros Hv. nothing_found.
  rewrite andb_false_iff, !bool_decide_eq_false in *.
  unfold OutboxModeNone, OutboxModeWAL, Postgres in *. rewrite !elem_of_cons, !elem_of_nil.
  split_and!; destruct_or?; repeat match goal with
    | Hx : ~ (_ <> _) |- _ => apply dec_stable in Hx end; try naive_solver.
Qed.

Lemma NewStorage_of_valid gorm_Open o c :
  so_Database o ∈ ["postgres"; "sqlite3"] -> CompleteStorage (NewStorageConfig o) = Ok c ->
  NewStorage gorm_Open c
  = match gorm_Open (so_Database o) (cst_DSN c) with
    | Some _ => Err (EMsg "error opening database")
    | None => Ok (so_Database o, cst_DSN c)
    end.
Proof.
  unfold CompleteStorage, NewStorageConfig, NewStorage. simpl. rewrite !elem_of_cons, elem_of_nil.
  intros [E|[E|[]]] Hc; rewrite E in Hc |- *; simpl in Hc; simplify_eq/=; rewrite E; by case_match.
Qed.

Lemma ValidateConsumer_ok o : ValidateConsumer o = [] ->
  (0 < co_CommitModulo o)%Z /\ (co_Enabled o = true -> co_BootstrapServers o <> []).
Proof.
  unfold ValidateConsumer. intros Hv. nothing_found.
  rewrite andb_false_iff, !bool_decide_eq_false in *. split; [lia|]. intros Hen. by destruct_or?; [|congruence].
Qed.

Lemma AuthnConfig_Complete_enabled c authnConfig : AuthnConfig_Complete c = (authnConfig, []) ->
  exists a, authnConfig = Some a /\ count_enabled cc_EnabledHTTP (acc_ChainConfigs a) <> 0%nat /\
    count_enabled cc_EnabledGRPC (acc_ChainConfigs a) <> 0%nat.
Proof.
  unfold AuthnConfig_Complete. destruct c as [a|]; [|done]. case_bool_decide; [done|].
  destruct (complete_chain (ag_Chain a)) as [configs errs]. intros Hc.
  case_match eqn:He; simplify_eq. nothing_found.
  eexists. split; [done|]. simpl. by rewrite !bool_decide_eq_false in *.
Qed.

Lemma ValidateSchema_ok o : ValidateSchemaOptions o = [] ->
  sco_Repository o = InMemoryRepository /\
  inmemory.Type_ (sco_InMemory o) ∈ ["empty"; "json"; "dir"] /\
  (inmemory.Type_ (sco_InMemory o) <> "empty" -> inmemory.Path (sco_InMemory o) <> "").
Proof.
  unfold ValidateSchemaOptions. intros Hv. apply app_eq_nil in Hv as [Ha Hb].
  destruct (bool_decide _) eqn:E in Ha; [done|]. apply bool_decide_eq_false, dec_stable in E.
  rewrite bool_decide_eq_true_2 in Hb by done. split; [done|]. unfold inmemory.Validate in Hb.
  unfold inmemory.EmptyRepository, inmemory.JSONRepository, inmemory.DirRepository in Hb.
  destruct (negb _) eqn:E1 in Hb; [done|]. destruct (_ && _) eqn:E2 in Hb; [done|].
  apply negb_false_iff in E1. rewrite !orb_true_iff, !bool_decide_eq_true in E1.
  apply andb_false_iff in E2. rewrite orb_false_iff, !bool_decide_eq_false in E2.
  rewrite !elem_of_cons, elem_of_nil. naive_solver.
Qed.

(** A process whose configuration was accepted has a database that can be
    chosen, a write-ahead-log outbox only with PostgreSQL, a commit modulo by
    which the consumer can divide and brokers if the consumer runs, an
    authenticator for each protocol, and a schema repository that can be loaded:
    nothing that the configuration names is refused later. *)
Theorem configured_safe o c : configure range o = inr c ->
  (forall gorm_Open, NewStorage gorm_Open (cf_Storage c)
     = match gorm_Open (so_Database (srv_Storage o)) (cst_DSN (cf_Storage c)) with
       | Some _ => Err (EMsg "error opening database")
       | None => Ok (so_Database (srv_Storage o), cst_DSN (cf_Storage c))
       end) /\
  (so_OutboxMode (srv_Storage o) = "wal" -> so_Database (srv_Storage o) = "postgres") /\
  (0 < co_CommitModulo (srv_Consumer o))%Z /\
  (co_Enabled (srv_Consumer o) = true ->
     co_BootstrapServers (srv_Consumer o) <> [] /\ is_Some (cf_Consumer c)) /\
  (exists a, cf_Authn c = Some a /\ count_enabled cc_EnabledHTTP (acc_ChainConfigs a) <> 0%nat /\
     count_enabled cc_EnabledGRPC (acc_ChainConfigs a) <> 0%nat) /\
  (exists im, cf_Schema c = {| scc_Repository := InMemoryRepository; scc_InMemory := Some im |} /\
     inmemory.Type_ im ∈ ["empty"; "json"; "dir"] /\
     (inmemory.Type_ im <> "empty" -> inmemory.Path im <> "")).
Proof.
  unfold configure. intros Hc. repeat startup_step. simplify_eq/=.
  destruct (ValidateStorage_ok (srv_Storage o)) as (Hdb & _ & Hwal); [done|].
  destruct (ValidateConsumer_ok (srv_Consumer o)) as (Hmod & Hbrokers); [done|].
  destruct (ValidateSchema_ok (srv_Schema o)) as (Hrepo & Hty & Hpath); [done|].
  split_and!.
  - intros gorm_Open. by apply NewStorage_of_valid.
  - done.
  - done.
  - intros Hen. split; [by apply Hbrokers|]. rewrite Hen in *.
    unfold CompleteConsumer in *. repeat case_match; simplify_eq; by eexists.
  - by eapply AuthnConfig_Complete_enabled.
  - unfold CompleteSchema, NewSchemaConfig in *. simpl in *. rewrite Hrepo in *.
    rewrite !bool_decide_eq_true_2 in * by done. simplify_eq/=. eauto.
Qed.
End Accepted.

(** * The consumer's goroutine *)

(** An attempt whose consumer runs and is closed: a message could not be
    processed, or the process was told to stop. *)
Definition closed (a : attempt) : Prop :=
  at_NewConsumer a = None /\ at_Metrics a = None /\ at_Subscribe a = None /\
  errors_Is (at_Loop a) ErrClosed = true.

(** The numbers do not overflow. *)
Record moderate (o : retry.Options) (n : Z) : Prop := {
  mo_factor : (0 <= retry.BackoffFactor o)%Z;
  mo_max : (0 <= retry.MaxBackoffSeconds o)%Z;
  mo_factor_fits : (retry.BackoffFactor o * n * 300 * 1000000 < 2 ^ 63)%Z;
  mo_max_fits : (retry.MaxBackoffSeconds o * 1000000000 < 2 ^ 63)%Z;
}.

Lemma int64_small z : (- 2 ^ 63 <= z < 2 ^ 63)%Z -> int64 z = z.
Proof. intros Hz. unfold int64. rewrite Z.mod_small by lia. lia. Qed.

(** The wait grows with the retries up to the limit. *)
Lemma backoff_moderate o n k : moderate o n -> (0 <= k <= n)%Z ->
  backoff o k = Z.min (retry.BackoffFactor o * k * 300000000) (retry.MaxBackoffSeconds o * 1000000000).
Proof.
  intros [Hf Hm Hff Hmf] Hk. unfold backoff, milliseconds, seconds.
  assert (0 <= retry.BackoffFactor o * k <= retry.BackoffFactor o * n)%Z as Hk' by nia.
  rewrite (int64_small (_ * _ * 300)) by lia. rewrite !int64_small by lia. f_equal. lia.
Qed.

(** What the goroutine does when it gives up after [n] more consumers, having
    created [k]: it waits between two consumers, and shuts the process down. *)
Fixpoint restarts (o : retry.Options) (k : Z) (n : nat) : list serve_event :=
  match n with
  | O => [ShutdownCalled max_retries_reached]
  | S O => [ConsumerCreated; ShutdownCalled max_retries_reached]
  | S n => ConsumerCreated ::
      Backoff (Z.min (retry.BackoffFactor o * (k + 1) * 300000000)
                     (retry.MaxBackoffSeconds o * 1000000000)) :: restarts o (k + 1) n
  end.

Lemma run_closed o a rest k : closed a -> may_retry (retry.ConsumerMaxRetries o) k = true ->
  run_consumer o k (a :: rest)
  = let '(events, outcome) := run_consumer o (k + 1) rest in
    ((ConsumerCreated ::
      (if may_retry (retry.ConsumerMaxRetries o) (k + 1)
       then [Backoff (backoff o (k + 1))] else []) ++ events)%list, outcome).
Proof.
  intros (Hn & Hm & Hs & Hc) Hr. cbn [run_consumer]. rewrite Hr. simpl.
  unfold consumer_New. rewrite Hn, Hm. simpl. unfold Consume_outcome. by rewrite Hs, Hc.
Qed.

Lemma run_restarts o attempts k n :
  moderate o (retry.ConsumerMaxRetries o) -> (0 <= k)%Z ->
  retry.ConsumerMaxRetries o = (k + Z.of_nat n)%Z ->
  Forall closed attempts -> (n <= length attempts)%nat ->
  run_consumer o k attempts = (restarts o k n, Ended).
Proof.
  intros Hmod. revert k attempts. induction n as [|n IH]; intros k attempts Hk Hmax Hall Hlen.
  - assert (may_retry (retry.ConsumerMaxRetries o) k = false) as Hno.
    { unfold may_retry. rewrite !bool_decide_eq_false_2 by lia. done. }
    destruct attempts; cbn [run_consumer]; by rewrite Hno.
  - destruct attempts as [|a rest]; [simpl in Hlen; lia|]. apply Forall_cons in Hall as [Ha Hall].
    rewrite run_closed; [|done|unfold may_retry; rewrite (bool_decide_eq_true_2 (k < _)%Z) by lia;
                          apply orb_true_r].
    rewrite (IH (k + 1)%Z rest) by (done || lia || (simpl in Hlen; lia)).
    destruct n as [|n].
    + unfold may_retry. rewrite !bool_decide_eq_false_2 by lia. done.
    + unfold may_retry. rewrite (bool_decide_eq_true_2 (k + 1 < _)%Z), orb_true_r by lia.
      rewrite (backoff_moderate o (retry.ConsumerMaxRetries o)) by (done || lia). done.
Qed.

Definition is_created (e : serve_event) : bool :=
  match e with ConsumerCreated => true | _ => false end.

Lemma run_unlimited o attempts k : retry.ConsumerMaxRetries o = (-1)%Z -> Forall closed attempts ->
  exists events, run_consumer o k attempts = (events, Going) /\
    length (List.filter is_created events) = length attempts /\
    Forall (fun e => forall err, e <> ShutdownCalled err) events.
Proof.
  intros Hmax Hall. revert k. induction Hall as [|a rest Ha _ IH]; intros k.
  - exists []. cbn [run_consumer]. unfold may_retry. rewrite Hmax. simpl. by split_and!.
  - rewrite run_closed by (done || by unfold may_retry; rewrite Hmax).
    destruct (IH (k + 1)%Z) as (events & -> & Hlen & Hno). eexists. split; [done|].
    unfold may_retry. rewrite Hmax. simpl. split; [|by repeat constructor].
    by rewrite Hlen.
Qed.

(** If every consumer stops at a message, the process creates exactly as
    many consumers as its retry limit says, waits between two of them for a time
    that grows with the retries up to the configured maximum, and then shuts
    down; without a limit it never gives up and never shuts down. *)
Theorem consumer_restarts o attempts : Forall closed attempts ->
  (moderate o (retry.ConsumerMaxRetries o) -> (0 <= retry.ConsumerMaxRetries o)%Z ->
   (Z.to_nat (retry.ConsumerMaxRetries o) <= length attempts)%nat ->
   run_consumer o 0 attempts = (restarts o 0 (Z.to_nat (retry.ConsumerMaxRetries o)), Ended)) /\
  (retry.ConsumerMaxRetries o = (-1)%Z ->
   exists events, run_consumer o 0 attempts = (events, Going) /\
     length (List.filter is_created events) = length attempts /\
     Forall (fun e => forall err, e <> ShutdownCalled err) events).
Proof.
  intros Hall. split; [|intros; by apply run_unlimited].
  intros Hmod Hmax Hlen. apply run_restarts; [done|lia|lia|done|done].
Qed.

(** A failed run before anything else. *)
Lemma run_prefix o pre a rest k : Forall closed pre ->
  (retry.ConsumerMaxRetries o = -1 \/ k + Z.of_nat (length pre) < retry.ConsumerMaxRetries o)%Z ->
  exists events, run_consumer o k (pre ++ a :: rest)%list
    = (let '(e, r) := run_consumer o (k + Z.of_nat (length pre)) (a :: rest) in
       ((events ++ e)%list, r)) /\
    Forall (fun e => forall err, e <> ShutdownCalled err) events.
Proof.
  intros Hall. revert k. induction Hall as [|b pre Hb _ IH]; intros k Hmax.
  - exists []. split; [|constructor]. simpl length. rewrite Z.add_0_r.
    change ([] ++ a :: rest)%list with (a :: rest). by destruct (run_consumer o k (a :: rest)).
  - change ((b :: pre) ++ a :: rest)%list with (b :: (pre ++ a :: rest))%list.
    simpl length in *. rewrite run_closed; [|done|].
    + destruct (IH (k + 1)%Z) as (events & -> & Hno); [lia|].
      replace (k + 1 + Z.of_nat (length pre))%Z with (k + Z.of_nat (S (length pre)))%Z by lia.
      destruct (run_consumer o (k + Z.of_nat (S (length pre))) (a :: rest)) as [e r].
      eexists (ConsumerCreated :: (if may_retry _ _ then [Backoff _] else []) ++ events)%list.
      split; [by rewrite <- app_comm_cons, <- app_assoc|].
      constructor; [done|]. apply Forall_app. split; [|done]. case_match; by repeat constructor.
    + unfold may_retry. apply orb_true_iff. rewrite !bool_decide_eq_true. lia.
Qed.

(** A consumer that cannot subscribe is lost: it reports on a channel that
    is nil, so its goroutine blocks for ever, is not restarted and does not shut
    the process down; and one that cannot be created ends the process with a
    panic, since the shutdown uses the client that was not created. *)
Theorem consumer_failures o pre a rest : Forall closed pre ->
  (retry.ConsumerMaxRetries o = -1 \/ Z.of_nat (length pre) < retry.ConsumerMaxRetries o)%Z ->
  (forall err, at_NewConsumer a = None -> at_Metrics a = None -> at_Subscribe a = Some err ->
     exists events, run_consumer o 0 (pre ++ a :: rest)%list = (events, Stuck) /\
       Forall (fun e => forall err, e <> ShutdownCalled err) events) /\
  (forall err, at_NewConsumer a = Some err ->
     exists events, run_consumer o 0 (pre ++ a :: rest)%list
       = ((events ++ [ShutdownCalled err])%list, Crashed) /\
     forall pprofSrv dbError, (shutdown_of_serve pprofSrv false dbError).2 = Some nil_deref).
Proof.
  intros Hall Hmax. destruct (run_prefix o pre a rest 0 Hall) as (events & Hrun & Hno); [lia|].
  assert (may_retry (retry.ConsumerMaxRetries o) (0 + Z.of_nat (length pre)) = true) as Hr.
  { unfold may_retry. apply orb_true_iff. rewrite !bool_decide_eq_true. lia. }
  split.
  - intros err Hn Hm Hs. rewrite Hrun. cbn [run_consumer]. rewrite Hr. simpl.
    unfold consumer_New. rewrite Hn, Hm. simpl. rewrite Hs. simpl. eexists. split; [done|].
    apply Forall_app. split; [done|]. by repeat constructor.
  - intros err Hn. rewrite Hrun. cbn [run_consumer]. rewrite Hr. simpl.
    unfold consumer_New. rewrite Hn. simpl. exists events. split; [done|]. done.
Qed.

(** * A process *)

Definition ex_environment : Environment :=
  {| RelationsConfig.os_ReadFile _ := Err (EMsg "no such file"); grpc_NewClient _ _ := None;
     system_certs := None; authzed_NewClient _ _ _ := None; meter_Int64Counter _ := None |}.

Definition ex_kafka : KafkaConfig :=
  {| ConfigMap := gmap string string; empty_ConfigMap := ∅;
     SetKey k v m := Ok (<[k := v]> m) |}.

Definition ex_consumer_options : ConsumerOptions :=
  {| co_Enabled := true; co_BootstrapServers := ["kafka:9092"];
     co_ConsumerGroupID := "inventory-consumer"; co_Topic := "outbox.event.kessel.tuples";
     co_CommitModulo := 10; co_SessionTimeout := "45000"; co_HeartbeatInterval := "3000";
     co_MaxPollInterval := "300000"; co_EnableAutoCommit := "false";
     co_AutoOffsetReset := "earliest"; co_StatisticsInterval := "60000"; co_Debug := "";
     co_RetryOptions := retry.NewOptions; co_AuthOptions := auth.NewOptions;
     co_ReadAfterWriteEnabled := true; co_ReadAfterWriteAllowlist := [] |}.

Definition ex_serve : ServeOptions :=
  {| srv_Storage := NewStorageOptions;
     srv_Authn := {| ao_Authenticator := None; ao_AllowUnauthenticated := Some true;
                     ao_OIDC := None |};
     srv_SelfSubject := NewSelfSubjectOptions; srv_Authz := NewRelationsOptions;
     srv_Consumer := ex_consumer_options; srv_Consistency := NewConsistencyOptions;
     srv_Schema := NewSchemaOptions; srv_MetaAuthorizer := NewMetaAuthorizerOptions;
     srv_Server := NewServerOptions "pod-1" |}.

Definition ex_configured : startup (@configured ex_tls ex_kafka) :=
  @configure ex_environment ex_tls ex_kafka (fun _ l => l) ex_serve.

Lemma ex_configured_ok : exists c, ex_configured = inr c.
Proof.
  assert ((if ex_configured then false else true) = true) as Hok by (vm_compute; reflexivity).
  destruct ex_configured as [|c]; [done|]. by exists c.
Qed.

Lemma configured_safe_witness :
  exists c, ex_configured = inr c /\ (0 < co_CommitModulo ex_consumer_options)%Z /\
    (forall gorm_Open, NewStorage gorm_Open (cf_Storage c)
       = match gorm_Open "sqlite3" (cst_DSN (cf_Storage c)) with
         | Some _ => Err (EMsg "error opening database")
         | None => Ok ("sqlite3", cst_DSN (cf_Storage c))
         end).
Proof.
  destruct ex_configured_ok as [c Hc]. exists c. split; [exact Hc|].
  pose proof (@configured_safe ex_environment ex_tls ex_kafka (fun _ l => l) ex_serve c Hc)
    as (Hstorage & _ & Hmod & _).
  split; [exact Hmod|exact Hstorage].
Defined.

Definition ex_closed : attempt :=
  {| at_NewConsumer := None; at_Metrics := None; at_Subscribe := None;
     at_Loop := ESentinel ErrClosed |}.
Definition ex_unsubscribed : attempt :=
  {| at_NewConsumer := None; at_Metrics := None; at_Subscribe := Some (EMsg "unknown topic");
     at_Loop := ESentinel ErrClosed |}.

Lemma ex_closed_all n : Forall closed (replicate n ex_closed).
Proof. by apply Forall_replicate. Qed.

Lemma consumer_restarts_witness :
  run_consumer retry.NewOptions 0 (replicate 3 ex_closed)
  = ([ConsumerCreated; Backoff 1500000000; ConsumerCreated;
      ShutdownCalled max_retries_reached], Ended).
Proof.
  destruct (consumer_restarts retry.NewOptions (replicate 3 ex_closed) (ex_closed_all 3))
    as [Hrun _].
  rewrite Hrun; [reflexivity|split; simpl; lia|simpl; lia|simpl; lia].
Defined.

Lemma consumer_failures_witness :
  exists events, run_consumer retry.NewOptions 0 [ex_closed; ex_unsubscribed] = (events, Stuck) /\
    Forall (fun e => forall err, e <> ShutdownCalled err) events.
Proof.
  destruct (consumer_failures retry.NewOptions [ex_closed] ex_unsubscribed [] (ex_closed_all 1)
    ltac:(right; simpl; lia)) as [Hstuck _].
  exact (Hstuck (EMsg "unknown topic") eq_refl eq_refl eq_refl).
Defined.
