(* ===== verification/FakeRepo.v ===== *)
(** The in-memory doubles of internal/data: fake_resource_repository.go, a second
    implementation of [ResourceRepository] that the tests of the use cases run on,
    and fake_transaction_manager.go.

    Every method runs under the mutex of the repository, so it is one step.  JSON
    values are immutable here; the order in which [range] visits a map is the
    class [GoRange].  The field [resources], which nothing reads, is left out. *)
From stdpp Require Import base tactics list strings gmap pretty.
From Stdlib Require Import ZArith Lia Ascii.
From S2P Require Import Prelude GoStrings Common ReporterResource Representations Resource.
From S2P Require Import Json DataModel Outbox Store.

Local Open Scope string_scope.

(** The order of a [range] over a map. *)
Class GoRange := {
  go_range : forall {K A : Type} `{Countable K}, gmap K A -> list (K * A);
  go_range_perm : forall {K A : Type} `{Countable K} (m : gmap K A),
    go_range m ≡ₚ map_to_list m;
}.

(** * The repository *)

Record storedResource := {
  st_resourceID : uuid;
  st_resourceType : string;
  st_commonVersion : option Z;
  st_commonData : JsonObject;
  st_consistencyToken : string;
  st_reporterResourceID : uuid;
  st_localResourceID : string;
  st_reporterType : string;
  st_reporterInstanceID : string;
  st_representationVersion : Z;
  st_generation : Z;
  st_tombstone : bool;
  st_createdAt : time;
  st_updatedAt : time;
}.

Record storedRepresentation := {
  sp_commonData : JsonObject;
  sp_commonVersion : Z;
}.

Record fakeResourceRepository := {
  fk_resourcesByPrimaryKey : gmap Z storedResource;
  fk_resourcesByCompositeKey : gmap string Z;
  fk_representationsByVersion : gmap string (gmap Z storedRepresentation);
  fk_processedTransactionIds : gset string;
  fk_maxCommonVersionByResourceID : gmap Z Z;
}.

Definition NewFakeResourceRepository : fakeResourceRepository :=
  {| fk_resourcesByPrimaryKey := ∅; fk_resourcesByCompositeKey := ∅;
     fk_representationsByVersion := ∅; fk_processedTransactionIds := ∅;
     fk_maxCommonVersionByResourceID := ∅ |}.

Definition fake_NextResourceId (e : env) : result ResourceId :=
  let! uuidV7 := env_resourceId e in NewResourceId uuidV7.

Definition fake_NextReporterResourceId (e : env) : result ReporterResourceId :=
  let! uuidV7 := env_reporterResourceId e in NewReporterResourceId uuidV7.

(** [%d] of a [uint]. *)
Definition fmt_uint (v : Z) : string := pretty (Z.to_N v).

Definition makeCompositeKey (localResourceID reporterType resourceType reporterInstanceID : string)
    (representationVersion generation : Z) : string :=
  localResourceID +:+ "|" +:+ reporterType +:+ "|" +:+ resourceType +:+ "|"
  +:+ reporterInstanceID +:+ "|" +:+ fmt_uint representationVersion +:+ "|"
  +:+ fmt_uint generation.

Definition makeHistoryKey (localResourceID reporterType resourceType reporterInstanceID : string)
    : string :=
  ToLower (localResourceID +:+ "|" +:+ reporterType +:+ "|" +:+ resourceType +:+ "|"
           +:+ reporterInstanceID).

(** A copy of the object and of the objects directly inside it. *)
Definition cloneJsonObject (src : JsonObject) : JsonObject :=
  match src with
  | None => None
  | Some m => Some ((fun v => match v with
                              | JObj nested => JObj ((fun e => (e.1, e.2)) <$> nested)
                              | v => v
                              end) <$> m)
  end.

Definition markTransactionIdAsProcessed (transactionId : string) (ids : gset string) : gset string :=
  if bool_decide (transactionId = "") then ids else {[transactionId]} ∪ ids.

(** The transaction id of a snapshot, if there is one and it is not empty. *)
Definition mark_opt (transactionId : option string) (ids : gset string) : gset string :=
  match transactionId with
  | Some t => if bool_decide (t = "") then ids else markTransactionIdAsProcessed t ids
  | None => ids
  end.

Definition track_max (id : uuid) (commonVersion : Z) (m : gmap Z Z) : gmap Z Z :=
  match m !! id with
  | None => <[id := commonVersion]> m
  | Some prev => if (prev <? commonVersion)%Z then <[id := commonVersion]> m else m
  end.

Definition stored_key (st : storedResource) : string :=
  makeCompositeKey (st_localResourceID st) (st_reporterType st) (st_resourceType st)
    (st_reporterInstanceID st) (st_representationVersion st) (st_generation st).

Definition fake_Save (now : time) (resource : Resource) (f : fakeResourceRepository)
    : result fakeResourceRepository :=
  let '(rs, rrs, rreps, creps) := Resource_Serialize now resource in
  let compositeKey :=
    makeCompositeKey (ks_LocalResourceID (rs_Key rrs)) (ks_ReporterType (rs_Key rrs))
      (ks_ResourceType (rs_Key rrs)) (ks_ReporterInstanceID (rs_Key rrs))
      (rs_RepresentationVersion rrs) (rs_Generation rrs) in
  let! byComposite :=
    match fk_resourcesByPrimaryKey f !! rs_ID rrs with
    | Some existingResource =>
        Ok (delete (stored_key existingResource) (fk_resourcesByCompositeKey f))
    | None =>
        match fk_resourcesByCompositeKey f !! compositeKey with
        | Some _ => Err (EMsg "duplicate key violation: reporter_resource_key_idx unique constraint failed")
        | None => Ok (fk_resourcesByCompositeKey f)
        end
    end in
  let '(commonData, commonVersion, maxCommon) :=
    match creps with
    | Some c => (creps_Data c, creps_Version c,
                 track_max (res_ID rs) (creps_Version c) (fk_maxCommonVersionByResourceID f))
    | None => (None, 0%Z, fk_maxCommonVersionByResourceID f)
    end in
  let stored :=
    {| st_resourceID := res_ID rs; st_resourceType := res_Type rs;
       st_commonVersion := res_CommonVersion rs; st_commonData := commonData;
       st_consistencyToken := res_ConsistencyToken rs; st_reporterResourceID := rs_ID rrs;
       st_localResourceID := ks_LocalResourceID (rs_Key rrs);
       st_reporterType := ks_ReporterType (rs_Key rrs);
       st_reporterInstanceID := ks_ReporterInstanceID (rs_Key rrs);
       st_representationVersion := rs_RepresentationVersion rrs;
       st_generation := rs_Generation rrs; st_tombstone := rs_Tombstone rrs;
       st_createdAt := rs_CreatedAt rrs; st_updatedAt := rs_UpdatedAt rrs |} in
  let historyKey := makeHistoryKey (st_localResourceID stored) (st_reporterType stored)
                      (st_resourceType stored) (st_reporterInstanceID stored) in
  let versions := default ∅ (fk_representationsByVersion f !! historyKey) in
  let entry := {| sp_commonData := cloneJsonObject (st_commonData stored);
                  sp_commonVersion := commonVersion |} in
  Ok {| fk_resourcesByPrimaryKey := <[rs_ID rrs := stored]> (fk_resourcesByPrimaryKey f);
        fk_resourcesByCompositeKey := <[compositeKey := rs_ID rrs]> byComposite;
        fk_representationsByVersion :=
          <[historyKey := <[st_representationVersion stored := entry]> versions]>
            (fk_representationsByVersion f);
        fk_processedTransactionIds :=
          mark_opt (creps_TransactionId <$> creps)
            (mark_opt (rreps_TransactionId <$> rreps) (fk_processedTransactionIds f));
        fk_maxCommonVersionByResourceID := maxCommon |}.

Section Find.
Context `{GoRange}.

(** The test on one stored resource; an empty reporter instance id matches any. *)
Definition fake_matches (key : ReporterResourceKey) (st : storedResource) : bool :=
  EqualFold (st_localResourceID st) (localResourceID key)
  && EqualFold (st_resourceType st) (resourceType key)
  && EqualFold (st_reporterType st) (reporterType (reporter key))
  && (bool_decide (reporterInstanceId (reporter key) = "")
      || EqualFold (st_reporterInstanceID st) (reporterInstanceId (reporter key))).

(** The scan, with [latestResource] so far. *)
Fixpoint scan (key : ReporterResourceKey) (l : list storedResource) (latest : option storedResource)
    : option storedResource :=
  match l with
  | [] => latest
  | stored :: l =>
      scan key l
        (if fake_matches key stored then
           match latest with
           | None => Some stored
           | Some lt =>
               if negb (st_tombstone stored) && st_tombstone lt then Some stored
               else if st_tombstone stored && negb (st_tombstone lt) then latest
               else if (st_representationVersion lt <? st_representationVersion stored)%Z
                       || ((st_representationVersion stored =? st_representationVersion lt)%Z
                           && (st_generation lt <? st_generation stored)%Z)
               then Some stored else latest
           end
         else latest)
  end.

Definition stored_snapshots (f : fakeResourceRepository) (st : storedResource)
    : ResourceSnapshot * ReporterResourceSnapshot :=
  ({| res_ID := st_resourceID st; res_Type := st_resourceType st;
      res_CommonVersion := st_commonVersion st;
      res_LastCommonVersion := fk_maxCommonVersionByResourceID f !! st_resourceID st;
      res_ConsistencyToken := st_consistencyToken st;
      res_CreatedAt := st_createdAt st; res_UpdatedAt := st_updatedAt st |},
   {| rs_ID := st_reporterResourceID st;
      rs_Key := {| ks_LocalResourceID := st_localResourceID st;
                   ks_ReporterType := st_reporterType st;
                   ks_ResourceType := st_resourceType st;
                   ks_ReporterInstanceID := st_reporterInstanceID st |};
      rs_ResourceID := st_resourceID st; rs_APIHref := ""; rs_ConsoleHref := None;
      rs_RepresentationVersion := st_representationVersion st;
      rs_Generation := st_generation st; rs_Tombstone := st_tombstone st;
      rs_CreatedAt := st_createdAt st; rs_UpdatedAt := st_updatedAt st |}).

Definition fake_FindResourceByKeys (f : fakeResourceRepository) (key : ReporterResourceKey)
    : result Resource :=
  match scan key ((go_range (fk_resourcesByPrimaryKey f)).*2) None with
  | Some latestResource =>
      let '(resourceSnapshot, reporterResourceSnapshot) := stored_snapshots f latestResource in
      match DeserializeResource (Some resourceSnapshot) [reporterResourceSnapshot] None None with
      | None => Err (EMsg "failed to deserialize resource")
      | Some resource => Ok resource
      end
  | None => Err (ESentinel ErrRecordNotFound)
  end.

Definition history_of (f : fakeResourceRepository) (key : ReporterResourceKey)
    : option (gmap Z storedRepresentation) :=
  fk_representationsByVersion f !!
    makeHistoryKey (localResourceID key) (reporterType (reporter key)) (resourceType key)
      (reporterInstanceId (reporter key)).

Definition entry_representations (entry : storedRepresentation) : result Representations :=
  NewRepresentations (cloneJsonObject (sp_commonData entry)) (Some (sp_commonVersion entry)) None None.

Definition entry_opt (entry : option storedRepresentation) : result (option Representations) :=
  match entry with
  | Some entry => let! r := entry_representations entry in Ok (Some r)
  | None => Ok None
  end.

Definition fake_FindCurrentAndPreviousVersionedRepresentations (f : fakeResourceRepository)
    (key : ReporterResourceKey) (currentVersion : option Version)
    (operationType : eventOperationType) : result (option Representations * option Representations) :=
  match currentVersion with
  | None => Ok (None, None)
  | Some cv =>
      match history_of f key with
      | None => Err (EMsg "no representations found for key")
      | Some versionMap =>
          let! current := entry_opt (versionMap !! cv) in
          let! previous := if (0 <? cv)%Z then entry_opt (versionMap !! (cv - 1)%Z) else Ok None in
          Ok (current, previous)
      end
  end.

(** The entry of the highest version. *)
Fixpoint latest_entry (l : list (Z * storedRepresentation))
    (latest : option (Z * storedRepresentation)) : option (Z * storedRepresentation) :=
  match l with
  | [] => latest
  | (version, entry) :: l =>
      latest_entry l
        (match latest with
         | None => Some (version, entry)
         | Some (maxVersion, _) => if (maxVersion <? version)%Z then Some (version, entry) else latest
         end)
  end.

Definition fake_FindLatestRepresentations (f : fakeResourceRepository) (key : ReporterResourceKey)
    : result Representations :=
  match latest_entry (go_range (default ∅ (history_of f key))) None with
  | None => Err (EMsg "no representations found for key")
  | Some (_, latest) => entry_representations latest
  end.

Definition fake_HasTransactionIdBeenProcessed (f : fakeResourceRepository)
    (transactionId : TransactionId) : result bool :=
  Ok (bool_decide (transactionId ∈ fk_processedTransactionIds f)).

#[export] Instance fakeRepository : ResourceRepository fakeResourceRepository := {|
  repo_NextResourceId := fake_NextResourceId;
  repo_NextReporterResourceId := fake_NextReporterResourceId;
  repo_Save e resource operationType txid f := fake_Save (env_now e) resource f;
  repo_FindResourceByKeys := fake_FindResourceByKeys;
  repo_FindCurrentAndPreviousVersionedRepresentations :=
    fake_FindCurrentAndPreviousVersionedRepresentations;
  repo_FindLatestRepresentations := fake_FindLatestRepresentations;
  repo_HasTransactionIdBeenProcessed := fake_HasTransactionIdBeenProcessed;
|}.
End Find.

(** * The transaction manager *)

Record fakeTransactionManager := {
  ft_shouldFailTransaction : bool;
  ft_shouldFailCommit : bool;
  ft_transactionCallCount : Z;
  ft_maxSerializationRetries : Z;
}.

Definition NewFakeTransactionManager (maxSerializationRetries : Z) : fakeTransactionManager :=
  {| ft_shouldFailTransaction := false; ft_shouldFailCommit := false;
     ft_transactionCallCount := 0; ft_maxSerializationRetries := maxSerializationRetries |}.

Definition SetShouldFailTransaction (shouldFail : bool) (ftm : fakeTransactionManager)
    : fakeTransactionManager :=
  {| ft_shouldFailTransaction := shouldFail; ft_shouldFailCommit := ft_shouldFailCommit ftm;
     ft_transactionCallCount := ft_transactionCallCount ftm;
     ft_maxSerializationRetries := ft_maxSerializationRetries ftm |}.

Definition SetShouldFailCommit (shouldFail : bool) (ftm : fakeTransactionManager)
    : fakeTransactionManager :=
  {| ft_shouldFailTransaction := ft_shouldFailTransaction ftm; ft_shouldFailCommit := shouldFail;
     ft_transactionCallCount := ft_transactionCallCount ftm;
     ft_maxSerializationRetries := ft_maxSerializationRetries ftm |}.

Definition GetTransactionCallCount (ftm : fakeTransactionManager) : Z := ft_transactionCallCount ftm.

Definition fake_Reset (ftm : fakeTransactionManager) : fakeTransactionManager :=
  {| ft_shouldFailTransaction := false; ft_shouldFailCommit := false;
     ft_transactionCallCount := 0; ft_maxSerializationRetries := ft_maxSerializationRetries ftm |}.

(** The function runs on the state itself: what it did before an error stays. *)
Definition fake_HandleSerializableTransaction {R} (txFunc : R -> R * option go_error)
    (ftm : fakeTransactionManager) (d : R) : fakeTransactionManager * R * option go_error :=
  let ftm' :=
    {| ft_shouldFailTransaction := ft_shouldFailTransaction ftm;
       ft_shouldFailCommit := ft_shouldFailCommit ftm;
       ft_transactionCallCount := (ft_transactionCallCount ftm + 1)%Z;
       ft_maxSerializationRetries := ft_maxSerializationRetries ftm |} in
  if ft_shouldFailTransaction ftm then (ftm', d, Some (EMsg "simulated transaction failure"))
  else
    match txFunc d with
    | (d, Some err) => (ftm', d, Some err)
    | (d, None) =>
        if ft_shouldFailCommit ftm then (ftm', d, Some (EMsg "simulated commit failure"))
        else (ftm', d, None)
    end.
