(* ===== verification/FakeRepoProps.v ===== *)
(** The fake repository (FakeRepo.v) against the real one (Store.v): over the same
    sequence of [Save]s both accept the calls and answer the same to
    [FindResourceByKeys] and [HasTransactionIdBeenProcessed], as long as keys do
    not differ by case only and have no bar in them.  The histories of common
    representations do not agree. *)
From stdpp Require Import base tactics list strings gmap pretty sorting.
From Stdlib Require Import ZArith Lia Ascii.
From S2P Require Import Prelude GoStrings Common ReporterResource Representations Resource.
From S2P Require Import ResourceProps Json DataModel Outbox Store StoreProps StoreInv FakeRepo.

Local Open Scope string_scope.

Lemma NoDup_distinct_on {A B} (f : A -> B) (l : list A) : NoDup (f <$> l) -> distinct_on f l.
Proof.
  intros Hn a b [i Hi]%list_elem_of_lookup [j Hj]%list_elem_of_lookup Heq.
  assert (i = j) as -> by (eapply (NoDup_lookup _ i j (f a)); [done|..];
    rewrite list_lookup_fmap, ?Hi, ?Hj; simpl; congruence).
  congruence.
Qed.

(** * Keys *)

Definition bar_free (s : string) : Prop := ContainsAny s ["|"%char] = false.

Lemma bar_split a b x y : bar_free a -> bar_free b ->
  a +:+ "|" +:+ x = b +:+ "|" +:+ y -> a = b /\ x = y.
Proof.
  unfold bar_free. revert b. induction a as [|c a IH]; intros [|c' b];
    cbn [ContainsAny String.append].
  - intros _ _ Heq. by injection Heq.
  - intros _ [Hb _]%orb_false_iff Heq. injection Heq as <- _.
    apply bool_decide_eq_false in Hb. set_solver.
  - intros [Ha _]%orb_false_iff _ Heq. injection Heq as -> _.
    apply bool_decide_eq_false in Ha. set_solver.
  - intros [_ Ha]%orb_false_iff [_ Hb]%orb_false_iff Heq. injection Heq as -> Heq.
    by destruct (IH b Ha Hb Heq) as [-> ->].
Qed.

(** The four names of a stored resource. *)
Definition stored_names (st : storedResource) : string * string * string * string :=
  (st_localResourceID st, st_resourceType st, st_reporterType st, st_reporterInstanceID st).

Definition names_bar_free (n : string * string * string * string) : Prop :=
  bar_free n.1.1.1 /\ bar_free n.1.1.2 /\ bar_free n.1.2 /\ bar_free n.2.

Lemma composite_names l rt t i v g l' rt' t' i' v' g' :
  names_bar_free (l, t, rt, i) -> names_bar_free (l', t', rt', i') ->
  makeCompositeKey l rt t i v g = makeCompositeKey l' rt' t' i' v' g' ->
  (l, t, rt, i) = (l', t', rt', i').
Proof.
  unfold names_bar_free, makeCompositeKey. simpl. intros (? & ? & ? & ?) (? & ? & ? & ?) Heq.
  apply bar_split in Heq as [-> Heq]; [|done..].
  apply bar_split in Heq as [-> Heq]; [|done..].
  apply bar_split in Heq as [-> Heq]; [|done..].
  by apply bar_split in Heq as [-> _]; [|done..].
Qed.

Lemma stored_key_names st st' :
  names_bar_free (stored_names st) -> names_bar_free (stored_names st') ->
  stored_key st = stored_key st' -> stored_names st = stored_names st'.
Proof. apply composite_names. Qed.

(** * The scan *)

(** ORDER BY tombstone ASC, representation_version DESC, generation DESC. *)
Definition stored_before (a b : storedResource) : Prop :=
  let rank s := ((if st_tombstone s then 1 else 0), - st_representationVersion s,
                 - st_generation s)%Z in
  let '(ta, va, ga) := rank a in
  let '(tb, vb, gb) := rank b in
  (ta < tb \/ ta = tb /\ (va < vb \/ va = vb /\ ga <= gb))%Z.

Lemma stored_before_refl a : stored_before a a.
Proof. unfold stored_before. lia. Qed.

Lemma stored_before_trans a b c : stored_before a b -> stored_before b c -> stored_before a c.
Proof. unfold stored_before. lia. Qed.

(** The candidates of a scan. *)
Definition candidate (key : ReporterResourceKey) (l : list storedResource)
    (latest : option storedResource) (st : storedResource) : Prop :=
  latest = Some st \/ (st ∈ l /\ fake_matches key st = true).

Lemma candidate_cons key x l latest st :
  candidate key (x :: l) latest st <->
  (st = x /\ fake_matches key x = true) \/ candidate key l latest st.
Proof. unfold candidate. rewrite elem_of_cons. naive_solver. Qed.

Lemma scan_best key l : forall latest,
  match scan key l latest with
  | Some m => candidate key l latest m /\ forall st, candidate key l latest st -> stored_before m st
  | None => forall st, ~ candidate key l latest st
  end.
Proof.
  induction l as [|x l IH]; intros latest; simpl.
  { unfold candidate. destruct latest as [m|].
    - split; [by left|]. intros st [[= ->]|[?%not_elem_of_nil _]]; [|done]. apply stored_before_refl.
    - by intros st [?|[?%not_elem_of_nil _]]. }
  destruct (fake_matches key x) eqn:Hx; last first.
  { specialize (IH latest). destruct (scan key l latest) as [m|];
      setoid_rewrite candidate_cons; rewrite Hx; naive_solver. }
  match goal with |- context [scan key l ?o] => set (next := o) end.
  assert (Hnext : exists m, next = Some m /\ stored_before m x /\
    (m = x \/ latest = Some m) /\ (forall y, latest = Some y -> stored_before m y)).
  { subst next. destruct latest as [y|]; [|exists x; split_and!; auto using stored_before_refl; done].
    unfold stored_before.
    destruct (st_tombstone x) eqn:E1, (st_tombstone y) eqn:E2; simpl;
      try destruct (Z.ltb_spec (st_representationVersion y) (st_representationVersion x));
      try destruct (Z.eqb_spec (st_representationVersion x) (st_representationVersion y));
      try destruct (Z.ltb_spec (st_generation y) (st_generation x)); simpl;
      (eexists; split; [reflexivity|]; rewrite ?E1, ?E2;
       split_and!; [lia|auto|intros ? [= <-]; rewrite ?E1, ?E2; lia]). }
  destruct Hnext as (m & -> & Hmx & Hm & Hl). specialize (IH (Some m)).
  destruct (scan key l (Some m)) as [b|]; setoid_rewrite candidate_cons; rewrite Hx.
  - destruct IH as [Hc Hb]. split.
    + destruct Hc as [[= ->]|Hc]; [|right; by right]. destruct Hm as [->|?]; [by left|right; by left].
    + intros st [[-> _]|[Hst|Hst]].
      * eapply stored_before_trans; [apply Hb; by left|done].
      * eapply stored_before_trans; [apply Hb; by left|by apply Hl].
      * apply Hb. by right.
  - exfalso. apply (IH m). by left.
Qed.

(** * The simulation *)

Section Mirrors.
Context {D : Type} `{GormDB D} `{OutboxLib} `{!GormLaws D} `{GoRange}.

(** A stored resource and the rows it stands for; the fake keeps neither links
    nor the timestamps of the resource. *)
Record mirrors_row (st : storedResource) (rr : ReporterResourceRow) (res : ResourceRow) : Prop := {
  mr_names : stored_names st = rrw_key rr;
  mr_id : st_reporterResourceID st = rrw_ID rr;
  mr_version : st_representationVersion st = rrw_RepresentationVersion rr;
  mr_generation : st_generation st = rrw_Generation rr;
  mr_tombstone : st_tombstone st = rrw_Tombstone rr;
  mr_resource : st_resourceID st = rw_ID res;
  mr_parent : rrw_ResourceID rr = rw_ID res;
  mr_commonVersion : st_commonVersion st = rw_CommonVersion res;
  mr_token : st_consistencyToken st = rw_ConsistencyToken res;
}.

Definition txid_stored (d : D) (t : string) : Prop :=
  (exists p, p ∈ reporter_representation_rows d /\ rpw_TransactionId p = t) \/
  (exists c, c ∈ common_representation_rows d /\ cw_TransactionId c = t).

Record mirrors (f : fakeResourceRepository) (d : D) : Prop := {
  mi_stored : forall id st, fk_resourcesByPrimaryKey f !! id = Some st ->
    names_bar_free (stored_names st) /\ exists rr res, rr ∈ reporter_resource_rows d /\
      rrw_ID rr = id /\ res ∈ resource_rows d /\ mirrors_row st rr res;
  mi_rows : forall rr, rr ∈ reporter_resource_rows d ->
    is_Some (fk_resourcesByPrimaryKey f !! rrw_ID rr);
  mi_composite : forall k id, fk_resourcesByCompositeKey f !! k = Some id <->
    exists st, fk_resourcesByPrimaryKey f !! id = Some st /\ stored_key st = k;
  mi_txids : forall t, t ∈ fk_processedTransactionIds f <-> t <> "" /\ txid_stored d t;
  mi_max : forall id, fk_maxCommonVersionByResourceID f !! id = last_common_version d id;
}.

(** The rows of a [Save] that the fake can follow: they continue the history of
    the resource, which has the type of its key, and the names have no bar. *)
Record mirrorable (d : D) (w : rows) : Prop := {
  mb_admissible : admissible d w;
  mb_type : rw_Type (ro_resource w) = rrw_ResourceType (ro_reporter w);
  mb_bars : names_bar_free (rrw_key (ro_reporter w));
}.

Lemma mark_opt_elem o ids t :
  t ∈ mark_opt o ids <-> (o = Some t /\ t <> "") \/ t ∈ ids.
Proof.
  destruct o as [t'|]; simpl; [|naive_solver]. unfold markTransactionIdAsProcessed.
  destruct (bool_decide_reflect (t' = "")) as [->|Hne]; [naive_solver|].
  rewrite elem_of_union, elem_of_singleton. naive_solver.
Qed.

Lemma track_max_lookup id v (m : gmap Z Z) id' :
  (forall p, m !! id = Some p -> (p < v)%Z) ->
  track_max id v m !! id' = if bool_decide (id' = id) then Some v else m !! id'.
Proof.
  intros Hv. unfold track_max. destruct (bool_decide_reflect (id' = id)) as [->|Hne].
  - destruct (m !! id) as [p|] eqn:E; [|apply lookup_insert_eq].
    specialize (Hv p eq_refl). destruct (Z.ltb_spec p v); [apply lookup_insert_eq|lia].
  - destruct (m !! id) as [p|]; [destruct (_ <? _)%Z|]; by rewrite ?lookup_insert_ne.
Qed.

(** The successful [fake_Save], field by field. *)
Record faked (w : rows) (f f' : fakeResourceRepository) : Prop := {
  fd_stored : exists st, mirrors_row st (ro_reporter w) (ro_resource w) /\
    fk_resourcesByPrimaryKey f'
      = <[rrw_ID (ro_reporter w) := st]> (fk_resourcesByPrimaryKey f) /\
    fk_resourcesByCompositeKey f' =
      <[stored_key st := rrw_ID (ro_reporter w)]>
        (match fk_resourcesByPrimaryKey f !! rrw_ID (ro_reporter w) with
         | Some old => delete (stored_key old) (fk_resourcesByCompositeKey f)
         | None => fk_resourcesByCompositeKey f
         end);
  fd_txids : fk_processedTransactionIds f' =
    mark_opt (cw_TransactionId <$> ro_common w)
      (mark_opt (rpw_TransactionId <$> ro_representation w) (fk_processedTransactionIds f));
  fd_max : fk_maxCommonVersionByResourceID f' =
    match ro_common w with
    | Some c => track_max (rw_ID (ro_resource w)) (cw_Version c) (fk_maxCommonVersionByResourceID f)
    | None => fk_maxCommonVersionByResourceID f
    end;
}.

Definition free_index (w : rows) (f : fakeResourceRepository) : Prop :=
  fk_resourcesByPrimaryKey f !! rrw_ID (ro_reporter w) = None ->
  forall id, fk_resourcesByCompositeKey f !!
    makeCompositeKey (rrw_LocalResourceID (ro_reporter w)) (rrw_ReporterType (ro_reporter w))
      (rrw_ResourceType (ro_reporter w)) (rrw_ReporterInstanceID (ro_reporter w))
      (rrw_RepresentationVersion (ro_reporter w)) (rrw_Generation (ro_reporter w)) <> Some id.

Lemma fake_Save_faked now r f :
  let w := rows_of now r in
  rw_Type (ro_resource w) = rrw_ResourceType (ro_reporter w) ->
  rrw_ResourceID (ro_reporter w) = rw_ID (ro_resource w) ->
  free_index w f -> exists f', fake_Save now r f = Ok f' /\ faked w f f'.
Proof.
  unfold rows_of, fake_Save, free_index.
  destruct (Resource_Serialize now r) as [[[rs rrs] rreps] creps]. simpl. intros Ht Hp Hfree.
  match goal with |- context [match ?m with Ok _ => _ | Err e => Err e end] =>
    assert (Hm : m = Ok (match fk_resourcesByPrimaryKey f !! rs_ID rrs with
                         | Some old => delete (stored_key old) (fk_resourcesByCompositeKey f)
                         | None => fk_resourcesByCompositeKey f
                         end)) end.
  { destruct (fk_resourcesByPrimaryKey f !! rs_ID rrs); [done|].
    destruct (fk_resourcesByCompositeKey f !! _) as [id|] eqn:Ec; [by destruct (Hfree eq_refl id)|done]. }
  rewrite Hm. destruct creps as [c|], rreps as [p|]; eexists; (split; [reflexivity|]);
    (split; simpl; [|done..]); eexists; (split; [|split; [reflexivity|]]).
  all: try (split; simpl; try done; unfold stored_names; simpl; by rewrite Ht).
  all: unfold stored_key; simpl; by rewrite Ht.
Qed.

(** ** The parts of the relation *)

Lemma mirrored_names f d id st : mirrors f d -> fk_resourcesByPrimaryKey f !! id = Some st ->
  exists rr, rr ∈ reporter_resource_rows d /\ rrw_ID rr = id /\ stored_names st = rrw_key rr /\
    names_bar_free (stored_names st).
Proof.
  intros Hm Hst. destruct (mi_stored _ _ Hm _ _ Hst) as (Hb & rr & res & Hrr & Hid & _ & Hr).
  exists rr. split_and!; [done|done|apply Hr|done].
Qed.

(** A stored resource with the names of the new row is the one it replaces. *)
Lemma mirrored_same f d w id st : mirrors f d -> mirrorable d w ->
  fk_resourcesByPrimaryKey f !! id = Some st -> stored_names st = rrw_key (ro_reporter w) ->
  id = rrw_ID (ro_reporter w).
Proof.
  intros Hm Hb Hst Hn. destruct (mirrored_names _ _ _ _ Hm Hst) as (rr & Hrr & <- & Hk & _).
  apply (ad_key _ _ (mb_admissible _ _ Hb) rr Hrr). congruence.
Qed.

Lemma mirrored_distinct f d id1 id2 st1 st2 : mirrors f d -> db_wf d ->
  fk_resourcesByPrimaryKey f !! id1 = Some st1 -> fk_resourcesByPrimaryKey f !! id2 = Some st2 ->
  stored_key st1 = stored_key st2 -> id1 = id2.
Proof.
  intros Hm Hwf Hs1 Hs2 Hk.
  destruct (mirrored_names _ _ _ _ Hm Hs1) as (rr1 & Hr1 & <- & Hn1 & Hb1).
  destruct (mirrored_names _ _ _ _ Hm Hs2) as (rr2 & Hr2 & <- & Hn2 & Hb2).
  f_equal. apply (wf_rr_key _ Hwf); [done|done|]. rewrite <- Hn1, <- Hn2.
  by apply stored_key_names.
Qed.

Lemma mirrors_free f d w : mirrors f d -> mirrorable d w -> free_index w f.
Proof.
  intros Hm Hb Hnone id Hk. apply (mi_composite _ _ Hm) in Hk as (st & Hst & Hk).
  destruct (mirrored_names _ _ _ _ Hm Hst) as (rr & _ & _ & _ & Hbar).
  assert (id = rrw_ID (ro_reporter w)) as -> by (eapply mirrored_same; [done..|];
    by apply (composite_names _ _ _ _ _ _ _ _ _ _ _ _ Hbar (mb_bars _ _ Hb) Hk)).
  congruence.
Qed.

Lemma mirrors_stored f f' d d' w : mirrors f d -> mirrorable d w -> written w d d' ->
  faked w f f' -> forall id st, fk_resourcesByPrimaryKey f' !! id = Some st ->
    names_bar_free (stored_names st) /\ exists rr res, rr ∈ reporter_resource_rows d' /\
      rrw_ID rr = id /\ res ∈ resource_rows d' /\ mirrors_row st rr res.
Proof.
  intros Hm Hb Hw Hf id st. destruct (fd_stored _ _ _ Hf) as (new & Hnew & -> & _).
  destruct (wr_resource _ _ _ Hw) as (res' & Sres & Ures).
  destruct (wr_reporter _ _ _ Hw) as (rr' & Srr & Urr).
  setoid_rewrite (upserted_elem _ _ _ _ _ _ Ures). setoid_rewrite (upserted_elem _ _ _ _ _ _ Urr).
  rewrite lookup_insert_Some. intros [[<- <-]|[Hne Hst]].
  - destruct Hnew. destruct Srr as (? & ? & ? & ? & ? & ? & ? & ? & ? & ? & ?).
    destruct Sres as (? & ? & ? & ?).
    assert (Hn : stored_names new = rrw_key rr') by (rewrite mr_names0; unfold rrw_key; congruence).
    split; [rewrite mr_names0; apply Hb|]. exists rr', res'.
    split_and!; [by left|congruence|by left|]. split; congruence.
  - destruct (mi_stored _ _ Hm _ _ Hst) as (Hbar & rr & res & Hrr & Hid & Hres & Hr).
    split; [done|]. exists rr, res. split_and!; [right; split; congruence|done| |done].
    right. split; [done|]. intros Hsame. destruct Hne. rewrite <- Hid. symmetry.
    apply (ad_same _ _ (mb_admissible _ _ Hb) rr Hrr). rewrite <- Hsame. apply Hr.
Qed.

Lemma mirrors_composite f f' d w : mirrors f d -> db_wf d -> mirrorable d w -> faked w f f' ->
  forall k id, fk_resourcesByCompositeKey f' !! k = Some id <->
    exists st, fk_resourcesByPrimaryKey f' !! id = Some st /\ stored_key st = k.
Proof.
  intros Hm Hwf Hb Hf k id. destruct (fd_stored _ _ _ Hf) as (new & Hnew & -> & ->).
  set (n := rrw_ID (ro_reporter w)).
  assert (Hbase : forall j,
    match fk_resourcesByPrimaryKey f !! n with
    | Some old => delete (stored_key old) (fk_resourcesByCompositeKey f)
    | None => fk_resourcesByCompositeKey f
    end !! k = Some j <->
    j <> n /\ exists st, fk_resourcesByPrimaryKey f !! j = Some st /\ stored_key st = k).
  { intros j. destruct (fk_resourcesByPrimaryKey f !! n) as [old|] eqn:E.
    - rewrite lookup_delete_Some, (mi_composite _ _ Hm). split.
      + intros (Hk & st & Hst & <-). split; [|eauto]. intros ->. congruence.
      + intros (Hj & st & Hst & <-). split; [|eauto]. intros Hk. destruct Hj.
        by eapply mirrored_distinct.
    - rewrite (mi_composite _ _ Hm). split; [|naive_solver].
      intros (st & Hst & <-). split; [|eauto]. intros ->. congruence. }
  rewrite lookup_insert_Some, Hbase. setoid_rewrite lookup_insert_Some. split.
  - intros [[<- <-]|(Hk & Hid & st & Hst & <-)]; [eauto|]. exists st. eauto.
  - intros (st & [[<- <-]|[Hid Hst]] & <-); [auto|]. right. split; [|split; [done|eauto]].
    intros Hk. destruct Hid. symmetry. eapply mirrored_same; [done..|].
    destruct (mirrored_names _ _ _ _ Hm Hst) as (rr & _ & _ & _ & Hbar).
    rewrite <- (mr_names _ _ _ Hnew). symmetry. apply stored_key_names; [|done..].
    rewrite (mr_names _ _ _ Hnew). apply Hb.
Qed.

Lemma mirrors_txids f f' d d' w : mirrors f d -> written w d d' -> faked w f f' ->
  forall t, t ∈ fk_processedTransactionIds f' <-> t <> "" /\ txid_stored d' t.
Proof.
  intros Hm Hw Hf t. rewrite (fd_txids _ _ _ Hf), !mark_opt_elem, (mi_txids _ _ Hm).
  unfold txid_stored. setoid_rewrite (wr_representation _ _ _ Hw).
  setoid_rewrite (wr_common _ _ _ Hw). setoid_rewrite elem_of_option_cons.
  destruct (ro_common w), (ro_representation w); simpl; naive_solver.
Qed.

Lemma mirrors_max f f' d d' w : mirrors f d -> mirrorable d w -> written w d d' -> faked w f f' ->
  forall id, fk_maxCommonVersionByResourceID f' !! id = last_common_version d' id.
Proof.
  intros Hm Hb Hw Hf id. assert (Ha := mb_admissible _ _ Hb). rewrite (fd_max _ _ _ Hf).
  destruct (ro_common w) as [c|] eqn:Hc.
  - rewrite track_max_lookup.
    + destruct (bool_decide_reflect (id = rw_ID (ro_resource w))) as [->|Hne].
      * by rewrite (written_last_same _ _ _ Hw Ha), Hc.
      * by rewrite (written_last_other _ _ _ _ Hw Ha), (mi_max _ _ Hm).
    + intros p Hp. rewrite (mi_max _ _ Hm) in Hp.
      destruct (ad_common _ _ Ha _ Hc) as (_ & _ & -> & _). rewrite Hp. simpl. lia.
  - rewrite (mi_max _ _ Hm). destruct (decide (id = rw_ID (ro_resource w))) as [->|Hne].
    + by rewrite (written_last_same _ _ _ Hw Ha), Hc.
    + by rewrite (written_last_other _ _ _ _ Hw Ha).
Qed.

Lemma mirrors_faked f f' d d' w : mirrors f d -> db_wf d -> mirrorable d w -> written w d d' ->
  faked w f f' -> mirrors f' d'.
Proof.
  intros Hm Hwf Hb Hw Hf. split; eauto using mirrors_stored, mirrors_composite, mirrors_txids, mirrors_max.
  intros rr Hrr. destruct (fd_stored _ _ _ Hf) as (new & _ & -> & _).
  destruct (wr_reporter _ _ _ Hw) as (rr' & _ & Urr).
  rewrite (upserted_elem _ _ _ _ _ _ Urr) in Hrr. rewrite lookup_insert_is_Some.
  destruct Hrr as [->|[Hrr Hne]]; [left; symmetry; apply Urr|right].
  split; [congruence|]. by apply (mi_rows _ _ Hm).
Qed.

(** Rows that are the same up to links, data and timestamps. *)
Record rows_like (w w' : rows) : Prop := {
  rl_resource : same_resource (ro_resource w) (ro_resource w');
  rl_id : rrw_ID (ro_reporter w') = rrw_ID (ro_reporter w);
  rl_key : rrw_key (ro_reporter w') = rrw_key (ro_reporter w);
  rl_parent : rrw_ResourceID (ro_reporter w') = rrw_ResourceID (ro_reporter w);
  rl_version : rrw_RepresentationVersion (ro_reporter w') = rrw_RepresentationVersion (ro_reporter w);
  rl_generation : rrw_Generation (ro_reporter w') = rrw_Generation (ro_reporter w);
  rl_tombstone : rrw_Tombstone (ro_reporter w') = rrw_Tombstone (ro_reporter w);
  rl_representation :
    rpw_TransactionId <$> ro_representation w' = rpw_TransactionId <$> ro_representation w;
  rl_common : (fun c => (cw_Version c, cw_TransactionId c)) <$> ro_common w'
              = (fun c => (cw_Version c, cw_TransactionId c)) <$> ro_common w;
}.

Lemma rows_like_refl w : rows_like w w.
Proof. by split. Qed.

Lemma faked_like w w' f f' : rows_like w w' -> faked w' f f' -> faked w f f'.
Proof.
  intros [(I1 & I2 & I3 & I4) Hid Hk Hp Hv Hg Ht Hr Hc] [(st & Hst & Hprim & Hcomp) Htx Hmax].
  rewrite Hid in *. split.
  - exists st. split; [|done]. destruct Hst. split; congruence.
  - rewrite Htx, Hr. f_equal. apply (f_equal (fmap snd)) in Hc.
    rewrite <- !option_fmap_compose in Hc. exact Hc.
  - rewrite Hmax, <- I1. destruct (ro_common w) as [c|], (ro_common w') as [c'|]; try done.
    injection Hc as -> _. done.
Qed.

(** One [Save] of both, the fake's of a resource it cannot tell apart. *)
Lemma mirrors_Save e r r' op txid f (d d' : D) :
  mirrors f d -> db_wf d -> mirrorable d (rows_of (env_now e) r) ->
  rows_like (rows_of (env_now e) r) (rows_of (env_now e) r') ->
  Save e r op txid d = Ok d' ->
  exists f', fake_Save (env_now e) r' f = Ok f' /\ mirrors f' d' /\ db_wf d'.
Proof.
  intros Hm Hwf Hb Hl Hs%Save_written.
  assert (Hk := rl_key _ _ Hl). unfold rrw_key in Hk. injection Hk as K1 K2 K3 K4.
  destruct (fake_Save_faked (env_now e) r' f) as (f' & Hf' & Hf).
  - destruct (rl_resource _ _ Hl) as (_ & <- & _). rewrite (mb_type _ _ Hb). congruence.
  - destruct (rl_resource _ _ Hl) as (<- & _). rewrite (rl_parent _ _ Hl).
    apply (ad_resource _ _ (mb_admissible _ _ Hb)).
  - assert (Hfree := mirrors_free _ _ _ Hm Hb). unfold free_index in *.
    rewrite (rl_id _ _ Hl), (rl_version _ _ Hl), (rl_generation _ _ Hl), K1, K2, K3, K4. done.
  - exists f'. split; [done|]. split; [by eapply mirrors_faked, faked_like|].
    eapply written_wf; [done|apply Hb|done].
Qed.

(** ** Finding a resource *)

(** The query of the fake on a row: [EqualFold] instead of equality. *)
Definition folded_query (key : ReporterResourceKey) (rr : ReporterResourceRow) : bool :=
  EqualFold (rrw_LocalResourceID rr) (localResourceID key)
  && EqualFold (rrw_ResourceType rr) (resourceType key)
  && EqualFold (rrw_ReporterType rr) (reporterType (reporter key))
  && (bool_decide (reporterInstanceId (reporter key) = "")
      || EqualFold (rrw_ReporterInstanceID rr) (reporterInstanceId (reporter key))).

(** No row differs from the key by case only. *)
Definition case_distinct (d : D) (key : ReporterResourceKey) : Prop :=
  forall rr, rr ∈ reporter_resource_rows d -> folded_query key rr = true ->
    buildReporterResourceKeyQuery key rr = true.

(** No two rows of the query are equal in its order. *)
Definition no_ties (d : D) (key : ReporterResourceKey) : Prop :=
  forall a b, a ∈ key_rows d key -> b ∈ key_rows d key -> row_before a b -> row_before b a -> a = b.

Lemma folded_of_query key rr :
  buildReporterResourceKeyQuery key rr = true -> folded_query key rr = true.
Proof.
  unfold buildReporterResourceKeyQuery, folded_query. rewrite !andb_true_iff, !orb_true_iff.
  rewrite !bool_decide_eq_true. intros (((-> & ->) & ->) & Hi). rewrite !EqualFold_refl.
  destruct Hi as [->| ->]; rewrite ?EqualFold_refl; auto.
Qed.

Lemma matches_folded key st rr res : mirrors_row st rr res ->
  fake_matches key st = folded_query key rr.
Proof.
  intros [Hn _ _ _ _ _ _ _ _]. unfold stored_names, rrw_key in Hn. simplify_eq.
  unfold fake_matches, folded_query. congruence.
Qed.

Lemma before_mirrored st1 st2 rr1 rr2 res1 res2 :
  mirrors_row st1 rr1 res1 -> mirrors_row st2 rr2 res2 ->
  stored_before st1 st2 <-> row_before rr1 rr2.
Proof.
  intros [] []. unfold stored_before, row_before.
  rewrite mr_version0, mr_version1, mr_generation0, mr_generation1, mr_tombstone0, mr_tombstone1.
  destruct (rrw_Tombstone rr1), (rrw_Tombstone rr2); split; intros Hb; try lia;
    destruct Hb as [?|[? ?]]; try lia; try done; right; (split; [done|lia]).
Qed.

Lemma range_elem f st :
  st ∈ (go_range (fk_resourcesByPrimaryKey f)).*2 <->
  exists id, fk_resourcesByPrimaryKey f !! id = Some st.
Proof.
  rewrite go_range_perm, list_elem_of_fmap. split.
  - intros ([id x] & -> & Hin). exists id. by apply elem_of_map_to_list.
  - intros [id Hid]. exists (id, st). split; [done|]. by apply elem_of_map_to_list.
Qed.

(** The candidates of the fake's scan are the rows of the query. *)
Lemma candidate_row f d key st : mirrors f d -> case_distinct d key ->
  candidate key (go_range (fk_resourcesByPrimaryKey f)).*2 None st ->
  exists rr res, rr ∈ key_rows d key /\ res ∈ resource_rows d /\ mirrors_row st rr res.
Proof.
  intros Hm Hc [?|[[id Hid]%range_elem Hq]]; [done|].
  destruct (mi_stored _ _ Hm _ _ Hid) as (_ & rr & res & Hrr & _ & Hres & Hr).
  rewrite (matches_folded _ _ _ _ Hr) in Hq. exists rr, res. split_and!; [|done|done].
  apply key_rows_elem. auto.
Qed.

Lemma row_candidate f d key rr : mirrors f d -> db_wf d -> rr ∈ key_rows d key ->
  exists st res, candidate key (go_range (fk_resourcesByPrimaryKey f)).*2 None st /\
    mirrors_row st rr res.
Proof.
  intros Hm Hwf [Hrr Hq]%key_rows_elem. destruct (mi_rows _ _ Hm _ Hrr) as [st Hst].
  destruct (mi_stored _ _ Hm _ _ Hst) as (_ & rr' & res & Hrr' & Hid & _ & Hr).
  assert (rr' = rr) as -> by (by apply (wf_rr_id _ Hwf)).
  exists st, res. split; [|done]. right. split; [apply range_elem; eauto|].
  rewrite (matches_folded _ _ _ _ Hr). by apply folded_of_query.
Qed.

(** What both repositories tell of a resource. *)
Record same_view (r r' : Resource) : Prop := {
  sv_id : r_id r' = r_id r;
  sv_type : r_resourceType r' = r_resourceType r;
  sv_commonVersion : r_commonVersion r' = r_commonVersion r;
  sv_lastCommonVersion : r_lastCommonVersion r' = r_lastCommonVersion r;
  sv_token : r_consistencyToken r' = r_consistencyToken r;
  sv_reporter : exists rr rr' rest,
    r_reporterResources r = rr :: rest /\ r_reporterResources r' = [rr'] /\
    rr_id rr' = rr_id rr /\ rr_key rr' = rr_key rr /\ rr_resourceID rr' = rr_resourceID rr /\
    rr_representationVersion rr' = rr_representationVersion rr /\
    rr_generation rr' = rr_generation rr /\ rr_tombstone rr' = rr_tombstone rr;
  sv_events : exists t1 t2 t1' t2',
    r_resourceReportEvents r = [DeserializeResourceEvent None None t1 t2] /\
    r_resourceReportEvents r' = [DeserializeResourceEvent None None t1' t2'];
  sv_deletes : r_resourceDeleteEvents r = [] /\ r_resourceDeleteEvents r' = [];
}.

Lemma same_view_of f d key r row res st res' : mirrors f d -> db_wf d ->
  found d key r row res -> res' ∈ resource_rows d -> mirrors_row st row res' ->
  forall r', fake_FindResourceByKeys f key = Ok r' ->
    scan key (go_range (fk_resourcesByPrimaryKey f)).*2 None = Some st -> same_view r r'.
Proof.
  intros Hm Hwf Hf Hres' Hr r' Hok Hscan. unfold fake_FindResourceByKeys in Hok.
  rewrite Hscan in Hok. simpl in Hok. injection Hok as <-.
  assert (res' = res) as ->.
  { apply (NoDup_distinct_on _ _ (wf_resource_id _ Hwf)); [done|apply Hf|].
    rewrite <- (mr_parent _ _ _ Hr). symmetry. apply Hf. }
  destruct Hf as [Hrow _ _ Hpar Hid Hty Hcv Hlast Htok [rest Hrest] (t1 & t2 & Hev) Hde].
  destruct Hr as [Hn Hri Hv Hg Htb Hsid _ Hc Ht]. unfold stored_names, rrw_key in Hn. simplify_eq.
  split; simpl; try congruence.
  - rewrite (mi_max _ _ Hm). congruence.
  - do 3 eexists. split; [exact Hrest|]. split; [reflexivity|]. simpl.
    by split_and!; try congruence.
  - do 4 eexists. split; [exact Hev|reflexivity].
  - by split.
Qed.

Lemma find_agrees f d key : mirrors f d -> db_wf d -> case_distinct d key -> no_ties d key ->
  match FindResourceByKeys d key with
  | Ok r => exists r', fake_FindResourceByKeys f key = Ok r' /\ same_view r r'
  | Err err => errors_Is err ErrRecordNotFound = true ->
               fake_FindResourceByKeys f key = Err (ESentinel ErrRecordNotFound)
  end.
Proof.
  intros Hm Hwf Hc Hn.
  assert (Hscan := scan_best key (go_range (fk_resourcesByPrimaryKey f)).*2 None).
  destruct (FindResourceByKeys d key) as [r|err] eqn:Hfind.
  - destruct (FindResourceByKeys_first _ _ _ Hwf Hfind) as (row & res & Hf & Hbest).
    assert (Hrow : row ∈ key_rows d key) by (apply key_rows_elem; split; apply Hf).
    destruct (row_candidate _ _ _ _ Hm Hwf Hrow) as (st0 & res0 & Hcand & Hr0).
    destruct (scan key _ None) as [st|] eqn:Hst; [|by destruct (Hscan st0)].
    destruct Hscan as [Hst' Hmin].
    destruct (candidate_row _ _ _ _ Hm Hc Hst') as (rr & res' & Hrr & Hres' & Hr).
    assert (rr = row) as ->.
    { apply Hn; [done|done| |by apply Hbest]. apply (before_mirrored _ _ _ _ _ _ Hr Hr0). auto. }
    assert (Hok : exists r', fake_FindResourceByKeys f key = Ok r')
      by (unfold fake_FindResourceByKeys; rewrite Hst; eexists; reflexivity).
    destruct Hok as [r' Hok]. exists r'. split; [done|]. by eapply same_view_of.
  - intros Herr. unfold fake_FindResourceByKeys.
    destruct (scan key _ None) as [st|] eqn:Hst; [|done]. destruct Hscan as [Hst' _].
    destruct (candidate_row _ _ _ _ Hm Hc Hst') as (rr & _ & [Hrr Hqr]%key_rows_elem & _).
    by rewrite (FindResourceByKeys_not_found _ _ _ Hwf Hfind (Is_true_true_2 _ Herr) rr Hrr) in Hqr.
Qed.

Lemma processed_agrees f d t : mirrors f d -> query_error d = None -> t <> "" ->
  fake_HasTransactionIdBeenProcessed f t = HasTransactionIdBeenProcessed d t.
Proof.
  intros Hm Hq Ht. unfold fake_HasTransactionIdBeenProcessed, HasTransactionIdBeenProcessed.
  rewrite Hq. f_equal. apply eq_bool_prop_intro.
  rewrite !Is_true_true, orb_true_iff, bool_decide_eq_true, (mi_txids _ _ Hm), !existsb_exists.
  unfold txid_stored. setoid_rewrite bool_decide_eq_true. setoid_rewrite <- list_elem_of_In.
  naive_solver.
Qed.

End Mirrors.
