(* ===== verification/FakeUsecase.v ===== *)
(** The write use cases on the fake repository: a report or a delete that commits
    on the real repository does the same on the fake one, with the same operation,
    and keeps the relation of FakeRepoProps.v.  A test on the fake therefore
    shows what the real repository would do, within the limits stated there. *)
From stdpp Require Import base tactics list strings gmap sorting relations.
From Stdlib Require Import ZArith Lia Ascii.
From S2P Require Import Prelude GoStrings Common ReporterResource Representations Resource.
From S2P Require Import ResourceProps Json DataModel Outbox Store Tables StoreProps StoreInv.
From S2P Require Import Relations RelationsRepo Schema MetaAuthz Consumer Examples Usecase.
From S2P Require Import UsecaseProps FetchProps FakeRepo FakeRepoProps.

Local Open Scope string_scope.

(** * Resources the fake cannot tell apart *)

Definition first_matches (r : Resource) (key : ReporterResourceKey) : Prop :=
  exists rr rest, r_reporterResources r = rr :: rest /\ key_matches (rr_key rr) key = true.

Lemma find_first r key rr rest :
  r_reporterResources r = rr :: rest -> key_matches (rr_key rr) key = true ->
  findReporterResourceToUpdateByKey r key = Ok (0%nat, rr).
Proof.
  intros Hr Hk. unfold findReporterResourceToUpdateByKey. rewrite Hr. simpl.
  by rewrite decide_True.
Qed.

(** Both as records that share what the view shows. *)
Ltac view_fields Hsv :=
  match type of Hsv with same_view ?r ?r' => destruct r, r' end;
  destruct Hsv as [? ? ? ? ? (rr & rr' & rest & ? & ? & ? & ? & ? & ? & ? & ?)
                   (t1 & t2 & t1' & t2' & ? & ?) [? ?]];
  simpl in *; subst; destruct rr, rr'; simpl in *; subst.

Lemma Update_like now r r' key h c rver repd comd tx u :
  same_view r r' -> first_matches r key ->
  Resource_Update now r key h c rver repd comd tx = (u, None) ->
  exists u', Resource_Update now r' key h c rver repd comd tx = (u', None) /\
    rows_like (rows_of now u) (rows_of now u').
Proof.
  intros Hsv (rr0 & rest0 & Hr0 & Hk). view_fields Hsv. injection Hr0 as <- <-. simpl in Hk.
  unfold Resource_Update.
  destruct (has_data comd); simpl;
    (erewrite find_first; [|reflexivity|exact Hk]; simpl;
     erewrite find_first; [|reflexivity|exact Hk]; simpl).
  all: unfold next_common_version, ReporterResource_Update, tombstoned, startNewGeneration; simpl;
    destruct rr_tombstone; simpl.
  all: match goal with |- context [resourceEventAndRepresentations ?a ?b ?c ?d ?e ?f ?g ?h ?i ?j ?k ?l ?m ?n ?o] =>
    destruct (resourceEventAndRepresentations a b c d e f g h i j k l m n o) as [ev|]; [|done] end.
  all: intros [= <-]; eexists; (split; [reflexivity|]).
  all: split; try done; by destruct ev as [? ? ? ? ? ? [?|] [?|] ? ?].
Qed.

Lemma Delete_like now r r' key u :
  same_view r r' -> first_matches r key -> Resource_Delete now r key = (u, None) ->
  exists u', Resource_Delete now r' key = (u', None) /\ rows_like (rows_of now u) (rows_of now u').
Proof.
  intros Hsv (rr0 & rest0 & Hr0 & Hk). view_fields Hsv. injection Hr0 as <- <-. simpl in Hk.
  unfold Resource_Delete.
  erewrite find_first; [|reflexivity|exact Hk]. simpl.
  erewrite find_first; [|reflexivity|exact Hk]. simpl.
  destruct rr_tombstone.
  { intros [= <-]. eexists. split; [reflexivity|]. by split. }
  destruct (deleteEventAndRepresentations _ _ _ _ _ _ _ _) as [ev|]; [|done].
  intros [= <-]. eexists. split; [reflexivity|]. by split.
Qed.

Definition key_names (key : ReporterResourceKey) : string * string * string * string :=
  (localResourceID key, resourceType key, reporterType (reporter key),
   reporterInstanceId (reporter key)).

(** The names are ASCII text, where [strings.EqualFold] compares the letters of
    ASCII. *)
Definition ascii_key (key : ReporterResourceKey) : bool :=
  is_ascii (localResourceID key) && is_ascii (resourceType key)
  && is_ascii (reporterType (reporter key)) && is_ascii (reporterInstanceId (reporter key)).

Section FakeUsecases.
Context {D : Type} `{GormDB D} `{OutboxLib} `{!GormLaws D} `{GoRange}.

Lemma rows_of_type now r : rw_Type (ro_resource (rows_of now r)) = r_resourceType r.
Proof. unfold rows_of, Resource_Serialize. by destruct (GetTimestamps r). Qed.

(** A row of the tables has no bar in its names: the fake has stored it. *)
Lemma row_bar_free f (d : D) row : mirrors f d -> db_wf d -> row ∈ reporter_resource_rows d ->
  names_bar_free (rrw_key row).
Proof.
  intros Hm Hwf Hrow. destruct (mi_rows _ _ Hm _ Hrow) as [st Hst].
  destruct (mirrored_names _ _ _ _ Hm Hst) as (rr & Hrr & Hid & Hn & Hb).
  assert (rr = row) as -> by (by apply (wf_rr_id _ Hwf)). by rewrite <- Hn.
Qed.

Lemma successor_mirrorable now f (d : D) key r row res u rr rest :
  mirrors f d -> db_wf d -> found d key r row res -> admissible d (rows_of now u) ->
  r_resourceType u = r_resourceType r -> r_reporterResources u = rr :: rest ->
  rr_key rr = row_key row -> mirrorable d (rows_of now u).
Proof.
  intros Hm Hwf Hf Ha Ht Hr Hk.
  assert (Hkey : rrw_key (ro_reporter (rows_of now u)) = rrw_key row).
  { rewrite (rows_of_reporter _ _ _ _ Hr). unfold rrw_key. simpl. by rewrite Hk. }
  split; [done| |].
  - rewrite rows_of_type, Ht, (fo_type _ _ _ _ _ Hf). unfold rrw_key in Hkey. congruence.
  - rewrite Hkey. eapply row_bar_free; [done..|apply Hf].
Qed.

Lemma found_first_matches (d : D) key r row res : found d key r row res -> first_matches r key.
Proof.
  intros Hf. destruct (fo_reporters _ _ _ _ _ Hf) as [rest Hr]. exists (rr_of_row d row res), rest.
  split; [done|]. apply query_key_matches, Hf.
Qed.

(** ** The transactions *)

Lemma update_mirrors e cmd txid f (d d' : D) r r' row res :
  mirrors f d -> db_wf d -> found d (key_of_command cmd) r row res -> same_view r r' ->
  updateResource e cmd r txid d = Ok d' ->
  exists f', updateResource e cmd r' txid f = Ok f' /\ mirrors f' d' /\ db_wf d'.
Proof.
  intros Hm Hwf Hf Hsv Hu. apply updateResource_inv in Hu as (tx & u & Htx & Hu & Hs).
  destruct (Update_like _ _ _ _ _ _ _ _ _ _ _ Hsv (found_first_matches _ _ _ _ _ Hf) Hu)
    as (u' & Hu' & Hlike).
  destruct (updated_admissible _ _ _ _ _ _ _ _ _ _ _ _ _ Hwf Hf Hu) as [Ha _].
  destruct (Resource_Update_ok _ _ _ _ _ _ _ _ _ _ Hu) as (i & rr & Hup).
  pose proof (up_found _ _ _ _ _ _ _ _ _ _ _ _ Hup) as Hi.
  rewrite (found_first _ _ _ _ _ Hf) in Hi. injection Hi as <- <-.
  destruct (fo_reporters _ _ _ _ _ Hf) as [rest Hrest].
  pose proof (up_reporters _ _ _ _ _ _ _ _ _ _ _ _ Hup) as Hrr. rewrite Hrest in Hrr.
  destruct (mirrors_Save e u u' OperationTypeUpdated txid f d d') as (f' & Hf' & Hm' & Hwf');
    [done|done| |done|done|].
  { eapply successor_mirrorable; [done..|apply Hup|exact Hrr|by rewrite RR_Update_key]. }
  exists f'. split; [|done]. unfold updateResource, key_of_command in *. simpl.
  unfold NewReporterId. by rewrite Htx, Hu'.
Qed.

Lemma create_mirrors e cmd txid f (d d' : D) :
  mirrors f d -> db_wf d -> fresh d e -> names_bar_free (key_names (key_of_command cmd)) ->
  (forall row, row ∈ reporter_resource_rows d ->
     buildReporterResourceKeyQuery (key_of_command cmd) row = false) ->
  createResource e cmd txid d = Ok d' ->
  exists f', createResource e cmd txid f = Ok f' /\ mirrors f' d' /\ db_wf d'.
Proof.
  intros Hm Hwf [F1 F2] Hbar Hno Hc. unfold createResource in Hc |- *. simpl in Hc |- *.
  change (fake_NextResourceId e) with (NextResourceId e).
  change (fake_NextReporterResourceId e) with (NextReporterResourceId e).
  destruct (NextResourceId e) as [id|] eqn:E1; [|done]. simpl in Hc |- *.
  destruct (NextReporterResourceId e) as [rrid|] eqn:E2; [|done]. simpl in Hc |- *.
  destruct (rc_TransactionId cmd) as [tx|]; [|done].
  destruct (NewResource _ _ _ _ _ _ _ _ _ _ _ _ _) as [r|] eqn:E; [|done]. simpl in Hc |- *.
  apply NewResource_ok in E. fold (key_of_command cmd) in E.
  eapply mirrors_Save; [done..| |apply rows_like_refl|exact Hc].
  destruct (cr_reporters _ _ _ _ _ _ _ _ _ E) as (rr & Hrr & _ & Hk & _).
  split.
  - eapply created_admissible; [done| |exact Hno|exact E].
    unfold NextResourceId, NextReporterResourceId, NewResourceId, NewReporterResourceId in E1, E2.
    destruct (env_resourceId e) as [id'|] eqn:G1; simpl in E1; [|done].
    destruct (env_reporterResourceId e) as [rrid'|] eqn:G2; simpl in E2; [|done].
    destruct (bool_decide _) in E1; [done|]. destruct (bool_decide _) in E2; [done|].
    simplify_eq. split; eauto.
  - rewrite rows_of_type, (rows_of_reporter _ _ _ _ Hrr), (cr_type _ _ _ _ _ _ _ _ _ E).
    simpl. by rewrite Hk.
  - rewrite (rows_of_reporter _ _ _ _ Hrr). unfold rrw_key. simpl. by rewrite Hk.
Qed.

Lemma report_mirrors e cmd txid f (d d' : D) op :
  mirrors f d -> db_wf d -> fresh d e -> names_bar_free (key_names (key_of_command cmd)) ->
  case_distinct d (key_of_command cmd) -> no_ties d (key_of_command cmd) ->
  report_tx e cmd (key_of_command cmd) txid d = Ok (d', op) ->
  exists f', report_tx e cmd (key_of_command cmd) txid f = Ok (f', op) /\ mirrors f' d' /\ db_wf d'.
Proof.
  intros Hm Hwf Hfr Hbar Hcase Hties. unfold report_tx. simpl.
  assert (Hfind := find_agrees _ _ _ Hm Hwf Hcase Hties).
  destruct (FindResourceByKeys d _) as [r|err] eqn:Hr.
  - destruct Hfind as (r' & -> & Hsv). intros Hu. inv_ok Hu. simplify_eq.
    destruct (FindResourceByKeys_Ok _ _ _ Hwf Hr) as (row & res & Hf).
    destruct (update_mirrors _ _ _ _ _ _ _ _ _ _ Hm Hwf Hf Hsv E) as (f' & -> & Hm').
    by exists f'.
  - destruct (errors_Is err ErrRecordNotFound) eqn:Hn; [|done]. rewrite Hfind by done. simpl.
    intros Hu. inv_ok Hu. simplify_eq.
    destruct (create_mirrors e cmd txid f d d') as (f' & -> & Hm'); [done..| |done|by exists f'].
    eapply FindResourceByKeys_not_found; [done..|by rewrite Hn].
Qed.

Lemma delete_mirrors e key txid f (d d' : D) :
  mirrors f d -> db_wf d -> case_distinct d key -> no_ties d key ->
  delete_tx e key txid d = Ok d' ->
  exists f', delete_tx e key txid f = Ok f' /\ mirrors f' d' /\ db_wf d'.
Proof.
  intros Hm Hwf Hcase Hties. unfold delete_tx. simpl.
  assert (Hfind := find_agrees _ _ _ Hm Hwf Hcase Hties).
  destruct (FindResourceByKeys d _) as [r|err] eqn:Hr; [|by destruct (errors_Is _ _)].
  destruct Hfind as (r' & -> & Hsv).
  destruct (FindResourceByKeys_Ok _ _ _ Hwf Hr) as (row & res & Hf).
  destruct (Resource_Delete _ _ _) as [u [err|]] eqn:Hd; [done|]. intros Hs.
  destruct (Delete_like _ _ _ _ _ Hsv (found_first_matches _ _ _ _ _ Hf) Hd) as (u' & -> & Hlike).
  eapply mirrors_Save; [done..| |done|exact Hs].
  destruct (fo_reporters _ _ _ _ _ Hf) as [rest Hrest].
  assert (Ha := deleted_admissible _ _ _ _ _ _ _ Hwf Hf Hd).
  destruct (Resource_Delete_ok _ _ _ _ Hd) as (i & rr & Hi & Hu).
  rewrite (found_first _ _ _ _ _ Hf) in Hi. injection Hi as <- <-.
  destruct (rr_tombstone _); [subst u; by eapply successor_mirrorable|].
  destruct Hu as (ev & _ & -> & _). eapply successor_mirrorable; [done..|simpl; by rewrite Hrest|done].
Qed.

(** With a reporter instance in the key there is at most one row. *)
Lemma no_ties_instance (d : D) key : db_wf d -> reporterInstanceId (reporter key) <> "" ->
  no_ties d key.
Proof.
  intros Hwf Hi a b [Ha Qa]%key_rows_elem [Hb Qb]%key_rows_elem _ _.
  apply (wf_rr_key _ Hwf); [done|done|]. unfold buildReporterResourceKeyQuery in Qa, Qb.
  rewrite !andb_true_iff, !orb_true_iff, !bool_decide_eq_true in Qa, Qb. unfold rrw_key.
  destruct Qa as (((-> & ->) & ->) & [?| ->]), Qb as (((-> & ->) & ->) & [?| ->]); done.
Qed.

(** * Runs *)

Inductive action :=
  | Report (e : env) (cmd : ReportResourceCommand) (txid : TransactionId)
  | Remove (e : env) (key : ReporterResourceKey) (txid : TransactionId).

(** One call on a repository, and the operation a report did. *)
Definition act {R} `{ResourceRepository R} (a : action) (d : R) : result (R * option eventOperationType) :=
  match a with
  | Report e cmd txid =>
      let! r := report_tx e cmd (key_of_command cmd) txid d in Ok (r.1, Some r.2)
  | Remove e key txid => let! d := delete_tx e key txid d in Ok (d, None)
  end.

Fixpoint acts {R} `{ResourceRepository R} (l : list action) (d : R)
    : result (R * list (option eventOperationType)) :=
  match l with
  | [] => Ok (d, [])
  | a :: l =>
      let! r := act a d in
      let! rest := acts l r.1 in
      Ok (rest.1, r.2 :: rest.2)
  end.

(** The calls the fake can follow: names in ASCII, fresh ids, no bar in a new
    key, no other key that differs by case only, no tie in the order of the
    query. *)
Definition faithful (d : D) (a : action) : Prop :=
  match a with
  | Report e cmd txid =>
      fresh d e /\ names_bar_free (key_names (key_of_command cmd)) /\
      ascii_key (key_of_command cmd) = true /\
      case_distinct d (key_of_command cmd) /\ no_ties d (key_of_command cmd)
  | Remove e key txid => ascii_key key = true /\ case_distinct d key /\ no_ties d key
  end.

Fixpoint all_faithful (l : list action) (d : D) : Prop :=
  match l with
  | [] => True
  | a :: l => faithful d a /\ forall d' op, act a d = Ok (d', op) -> all_faithful l d'
  end.

Lemma act_mirrors a f (d d' : D) op : mirrors f d -> db_wf d -> faithful d a ->
  act a d = Ok (d', op) -> exists f', act a f = Ok (f', op) /\ mirrors f' d' /\ db_wf d'.
Proof.
  destruct a as [e cmd txid|e key txid]; cbn [act faithful]; intros Hm Hwf Hf Ha.
  - destruct Hf as (Hfr & Hbar & _ & Hc & Hn). destruct (report_tx _ _ _ _ _) as [[d1 op1]|] eqn:E; [|done].
    injection Ha as <- <-.
    destruct (report_mirrors _ _ _ _ _ _ _ Hm Hwf Hfr Hbar Hc Hn E) as (f' & -> & Hm').
    by exists f'.
  - destruct Hf as (_ & Hc & Hn). destruct (delete_tx _ _ _ _) as [d1|] eqn:E; [|done]. injection Ha as <- <-.
    destruct (delete_mirrors _ _ _ _ _ _ Hm Hwf Hc Hn E) as (f' & -> & Hm'). by exists f'.
Qed.

Lemma acts_mirror l : forall f (d d' : D) ops, mirrors f d -> db_wf d -> all_faithful l d ->
  acts l d = Ok (d', ops) -> exists f', acts l f = Ok (f', ops) /\ mirrors f' d' /\ db_wf d'.
Proof.
  induction l as [|a l IH]; cbn [acts all_faithful]; intros f d d' ops Hm Hwf Hf Ha.
  - simplify_eq. by exists f.
  - destruct Hf as [Hfa Hl]. destruct (act a d) as [[d1 op]|] eqn:E; [|done]. simpl in Ha.
    destruct (acts l d1) as [[d2 ops']|] eqn:E'; [|done]. simpl in Ha. simplify_eq.
    destruct (act_mirrors _ _ _ _ _ Hm Hwf Hfa E) as (f1 & -> & Hm1 & Hwf1).
    destruct (IH _ _ _ _ Hm1 Hwf1 (Hl _ _ eq_refl) E') as (f2 & Hf2 & Hm2). simpl. rewrite Hf2.
    by exists f2.
Qed.

Lemma mirrors_empty (d : D) : no_rows d -> mirrors NewFakeResourceRepository d.
Proof.
  intros (E1 & E2 & E3 & E4). split; simpl.
  - by intros id st ?%lookup_empty_Some.
  - rewrite E2. by intros rr ?%not_elem_of_nil.
  - intros k id. rewrite lookup_empty. split; [done|]. by intros (st & ?%lookup_empty_Some & _).
  - intros t. unfold txid_stored. rewrite E3, E4. setoid_rewrite elem_of_nil. set_solver.
  - intros id. rewrite lookup_empty. symmetry. unfold last_common_version. by rewrite E4.
Qed.
End FakeUsecases.

(** C14. The fake repository stands in for the real one: any sequence of reports
    and deletes that commits on a database that started empty also succeeds on a
    new fake repository, each report with the same operation; afterwards both
    find the same resources, with the same ids, versions, generations and
    tombstones, or both none, and both know the same transaction ids.  This is
    for every order in which the fake may visit its maps, under the conditions
    of [faithful] on each call and on the key that is looked up: the names are
    ASCII text without a bar, ids are fresh, no row that a key finds differs from
    it by case only, and no two rows that a key without reporter instance finds
    tie in the order of the query, where the answer does depend on the order of
    the map. *)
Theorem fake_repository_refines (D : Type) (HD : GormDB D) (HO : OutboxLib) (HL : GormLaws D)
    (HR : GoRange) (l : list action) (d0 d : D) (ops : list (option eventOperationType)) :
  no_rows d0 -> all_faithful l d0 -> acts l d0 = Ok (d, ops) ->
  exists f, acts l NewFakeResourceRepository = Ok (f, ops) /\
    (forall key, ascii_key key = true -> case_distinct d key -> no_ties d key ->
     match FindResourceByKeys d key with
     | Ok r => exists r', fake_FindResourceByKeys f key = Ok r' /\ same_view r r'
     | Err err => errors_Is err ErrRecordNotFound = true ->
                  fake_FindResourceByKeys f key = Err (ESentinel ErrRecordNotFound)
     end) /\
    (forall t, query_error d = None -> t <> "" ->
     fake_HasTransactionIdBeenProcessed f t = HasTransactionIdBeenProcessed d t).
Proof.
  intros Hno Hf Ha.
  destruct (acts_mirror l _ _ _ _ (mirrors_empty _ Hno) (no_rows_wf _ Hno) Hf Ha)
    as (f & Hf' & Hm & Hwf).
  exists f. split; [done|]. split; intros; [by apply find_agrees|by apply processed_agrees].
Qed.

(** * A run on the concrete tables *)

#[local] Instance range_in_order : GoRange.
Proof. by refine {| go_range K A _ _ m := map_to_list m |}. Defined.

(** A check of [faithful] that computes; a query of one row has no tie. *)
Definition key_check (d : Tables) (key : ReporterResourceKey) : bool :=
  forallb (fun rr => negb (folded_query key rr) || buildReporterResourceKeyQuery key rr)
    (reporter_resource_rows d)
  && bool_decide (length (key_rows d key) <= 1)%nat.

Definition names_check (n : string * string * string * string) : bool :=
  forallb (fun s => negb (ContainsAny s ["|"%char])) [n.1.1.1; n.1.1.2; n.1.2; n.2].

Definition fresh_check (d : Tables) (e : env) : bool :=
  match env_resourceId e with
  | Ok id => forallb (fun r => negb (rw_ID r =? id)%Z) (resource_rows d)
  | Err _ => true
  end
  && match env_reporterResourceId e with
     | Ok id => forallb (fun r => negb (rrw_ID r =? id)%Z) (reporter_resource_rows d)
     | Err _ => true
     end.

Definition faithful_check (d : Tables) (a : action) : bool :=
  match a with
  | Report e cmd txid =>
      fresh_check d e && names_check (key_names (key_of_command cmd))
      && ascii_key (key_of_command cmd) && key_check d (key_of_command cmd)
  | Remove e key txid => ascii_key key && key_check d key
  end.

Fixpoint all_check (l : list action) (d : Tables) : bool :=
  match l with
  | [] => true
  | a :: l => faithful_check d a && match act a d with Ok r => all_check l r.1 | Err _ => true end
  end.

Lemma key_check_ok d key : key_check d key = true -> case_distinct d key /\ no_ties d key.
Proof.
  unfold key_check. rewrite andb_true_iff, forallb_forall, bool_decide_eq_true.
  setoid_rewrite <- list_elem_of_In. intros [Hc Hl]. split.
  - intros rr Hrr Hq. specialize (Hc rr Hrr). by rewrite Hq in Hc.
  - intros a b Ha Hb _ _. destruct (key_rows d key) as [|x [|? ?]]; simpl in *; [|set_solver|lia].
    by apply not_elem_of_nil in Ha.
Qed.

Lemma names_check_ok n : names_check n = true -> names_bar_free n.
Proof.
  unfold names_check, names_bar_free, bar_free. simpl.
  rewrite !andb_true_iff, !negb_true_iff. by intros (? & ? & ? & ? & _).
Qed.

Lemma fresh_check_ok d e : fresh_check d e = true -> fresh d e.
Proof.
  unfold fresh_check. intros [H1 H2]%andb_true_iff. split; intros id Hid r Hr.
  - rewrite Hid, forallb_forall in H1. setoid_rewrite <- list_elem_of_In in H1.
    specialize (H1 r Hr). by apply negb_true_iff, Z.eqb_neq in H1.
  - rewrite Hid, forallb_forall in H2. setoid_rewrite <- list_elem_of_In in H2.
    specialize (H2 r Hr). by apply negb_true_iff, Z.eqb_neq in H2.
Qed.

Lemma all_check_ok l : forall d, all_check l d = true -> all_faithful l d.
Proof.
  induction l as [|a l IH]; intros d; cbn [all_check all_faithful]; [done|].
  intros [Ha Hl]%andb_true_iff. split.
  - destruct a; cbn [faithful_check faithful] in *.
    + apply andb_true_iff in Ha as [[[Hf Hn]%andb_true_iff Hc]%andb_true_iff Hk].
      split_and!; [by apply fresh_check_ok|by apply names_check_ok|done|by apply key_check_ok..].
    + apply andb_true_iff in Ha as [Hc Hk]. split; [done|]. by apply key_check_ok.
  - intros d' op Hact. rewrite Hact in Hl. by apply IH.
Qed.

(** A host that is reported, moved, deleted and reported again. *)
Definition ex_life : list action :=
  [Report (ex_env 1 2) (ex_command "tx-1" "w1") "tx-1";
   Report (ex_env 3 4) (ex_command "tx-2" "w2") "tx-2";
   Remove (ex_env 5 6) ex_host_key "tx-3";
   Report (ex_env 7 8) (ex_command "tx-4" "w2") "tx-4"].

Definition ex_life_ops : list (option eventOperationType) :=
  [Some OperationTypeCreated; Some OperationTypeUpdated; None; Some OperationTypeUpdated].

Definition ex_life_check : bool :=
  match acts ex_life empty_tables with
  | Ok (d, ops) =>
      bool_decide (ops = ex_life_ops)
      && key_check d ex_host_key && bool_decide (query_error d = None)
      && match FindResourceByKeys d ex_host_key, HasTransactionIdBeenProcessed d "tx-2" with
         | Ok r, Ok b => bool_decide (r_commonVersion r = Some 2%Z) && b
         | _, _ => false
         end
  | Err _ => false
  end.

Lemma fake_repository_refines_witness : exists f r',
  acts ex_life NewFakeResourceRepository = Ok (f, ex_life_ops) /\
  fake_FindResourceByKeys f ex_host_key = Ok r' /\ r_commonVersion r' = Some 2%Z /\
  fake_HasTransactionIdBeenProcessed f "tx-2" = Ok true.
Proof.
  assert (Hc : ex_life_check = true) by (vm_compute; reflexivity). unfold ex_life_check in Hc.
  destruct (acts ex_life empty_tables) as [[d ops]|] eqn:E; [|discriminate Hc].
  apply andb_true_iff in Hc as [[[Ho Hk]%andb_true_iff Hq]%andb_true_iff Hf].
  apply bool_decide_eq_true in Ho, Hq. subst ops. apply key_check_ok in Hk as [Hk1 Hk2].
  destruct (fake_repository_refines Tables _ _ _ _ ex_life empty_tables d ex_life_ops)
    as (f & Hf' & Hfind & Htx).
  - repeat split.
  - apply all_check_ok. vm_compute. reflexivity.
  - exact E.
  - specialize (Hfind ex_host_key eq_refl Hk1 Hk2). specialize (Htx "tx-2" Hq ltac:(discriminate)).
    destruct (FindResourceByKeys d ex_host_key) as [r|]; [|discriminate Hf].
    destruct (HasTransactionIdBeenProcessed d "tx-2") as [[]|];
      [|rewrite andb_false_r in Hf; discriminate Hf|discriminate Hf].
    destruct Hfind as (r' & Hr' & Hsv). apply andb_true_iff in Hf as [Hv _].
    apply bool_decide_eq_true in Hv. exists f, r'.
    split; [exact Hf'|]. split; [exact Hr'|]. split; [rewrite (sv_commonVersion _ _ Hsv); exact Hv|].
    exact Htx.
Defined.

(** * The histories differ

    The fake files a common representation under the version of the reporter
    representation it came with, the tables under its own version. *)

(** A host moved from w1 to w2 with a report without common data in between. *)
Definition ex_gap : list action :=
  [Report (ex_env 1 2) (ex_command "tx-1" "w1") "tx-1";
   Report (ex_env 3 4) (with_common None (ex_command "tx-2" "")) "tx-2";
   Report (ex_env 5 6) (ex_command "tx-3" "w2") "tx-3"].

Definition versions_read (m : result (option Representations * option Representations))
    : option (option Z * option Z) :=
  match m with
  | Ok (cur, prev) => Some (cur ≫= commonVersion, prev ≫= commonVersion)
  | Err _ => None
  end.

Definition ex_gap_check : bool :=
  match acts ex_gap empty_tables, acts ex_gap NewFakeResourceRepository with
  | Ok (d, ops), Ok (f, ops') =>
      bool_decide (ops = ops' /\
        versions_read (FindCurrentAndPreviousVersionedRepresentations d ex_host_key (Some 1%Z)
                         OperationTypeUpdated) = Some (Some 1%Z, Some 0%Z) /\
        versions_read (fake_FindCurrentAndPreviousVersionedRepresentations f ex_host_key (Some 1%Z)
                         OperationTypeUpdated) = None)
  | _, _ => false
  end.

(** Reading the representations of common version 1, of a host whose second
    report had no common data: the real repository answers with versions 1 and 0,
    the fake one fails, although every call before succeeded on both. *)
Theorem fake_history_differs : exists (d : Tables) f ops,
  acts ex_gap empty_tables = Ok (d, ops) /\ acts ex_gap NewFakeResourceRepository = Ok (f, ops) /\
  versions_read (FindCurrentAndPreviousVersionedRepresentations d ex_host_key (Some 1%Z)
                   OperationTypeUpdated) = Some (Some 1%Z, Some 0%Z) /\
  versions_read (fake_FindCurrentAndPreviousVersionedRepresentations f ex_host_key (Some 1%Z)
                   OperationTypeUpdated) = None.
Proof.
  assert (Hc : ex_gap_check = true) by (vm_compute; reflexivity). unfold ex_gap_check in Hc.
  destruct (acts ex_gap empty_tables) as [[d ops]|]; [|discriminate Hc].
  destruct (acts ex_gap NewFakeResourceRepository) as [[f ops']|]; [|discriminate Hc].
  apply bool_decide_eq_true in Hc as (-> & H1 & H2). by exists d, f, ops'.
Qed.

(** * The fake transaction manager *)

(** A function that changes nothing when it fails, as the fake calls it. *)
Definition fake_tx {R A} (tx : R -> result (R * A)) (d : R) : R * option go_error :=
  match tx d with Ok (d', _) => (d', None) | Err err => (d, Some err) end.

(** Without a simulated failure the fake manager does what the real one does
    when nothing runs beside it and the COMMIT succeeds; a simulated failure of
    the COMMIT reports an error but keeps the changes, which the real manager
    never does. *)
Theorem fake_transaction_manager_agrees {R A} (tx : R -> result (R * A)) ftm d d' a n err :
  tx d = Ok (d', a) -> ft_shouldFailTransaction ftm = false -> isSerializationFailure err = false ->
  let '(ftm', dfake, res) := fake_HandleSerializableTransaction (fake_tx tx) ftm d in
  ft_transactionCallCount ftm' = (ft_transactionCallCount ftm + 1)%Z /\
  dfake = d' /\
  (if ft_shouldFailCommit ftm
   then is_Some res /\
        HandleSerializableTransaction (fun _ d => d) (fun _ => Some err) (S n) (fun _ => tx) d
        = (d, Err (EWrap "committing transaction failed" err))
   else res = None /\
        HandleSerializableTransaction (fun _ d => d) (fun _ => None) (S n) (fun _ => tx) d
        = (d', Ok a)).
Proof.
  intros Htx Hf Herr.
  unfold fake_HandleSerializableTransaction, HandleSerializableTransaction, fake_tx. simpl.
  rewrite Hf, Htx. destruct (ft_shouldFailCommit ftm); [rewrite Herr|]; simpl; eauto.
Qed.
