(* ===== verification/HealthCheck.v ===== *)
(** The health endpoints: internal/service/health, internal/biz/health and
    internal/data/health.  The database is its name and the error of reaching it;
    the relations repository is the interface of RelationsRepo.v.  Logging and the
    flags that remember whether it was announced are left out. *)
From stdpp Require Import base tactics list strings.
From Stdlib Require Import ZArith Lia.
From S2P Require Import Prelude GoStrings Common Relations RelationsRepo RelationsConfig.

Local Open Scope string_scope.

(** The storage as the check sees it: [DB.Name()], the error of [DB.DB()] and the
    one of the ping. *)
Record health_db := {
  hd_name : string;
  hd_handle : option go_error;
  hd_ping : option go_error;
}.

Definition NewHealthResult (status : string) (code : Z) : HealthResult :=
  {| hr_status := status; hr_code := code |}.

Section Health.
Context {T : Type} `{RelationsRepository T}.

Record healthRepo := {
  he_DB : health_db;
  he_Relations : T;
  he_RelationsConfig : option completedRelations;
}.

Definition db_error (db : health_db) : option go_error :=
  match hd_handle db with Some err => Some err | None => hd_ping db end.

Definition IsBackendAvailable (r : healthRepo) : result HealthResult :=
  let storageType := hd_name (he_DB r) in
  match db_error (he_DB r), rel_Health (he_Relations r) with
  | Some _, Err _ =>
      Ok (NewHealthResult ("STORAGE UNHEALTHY: " +:+ storageType +:+ " and RELATIONS-API UNHEALTHY") 500)
  | Some _, Ok _ => Ok (NewHealthResult ("STORAGE UNHEALTHY: " +:+ storageType) 500)
  | None, Err _ => Ok (NewHealthResult "RELATIONS-API UNHEALTHY" 500)
  | None, Ok _ =>
      let! relImpl := CheckRelationsImpl (he_RelationsConfig r) in
      if bool_decide (relImpl = Kessel) || bool_decide (relImpl = SpiceDB)
      then Ok (NewHealthResult ("STORAGE " +:+ storageType +:+ " and RELATIONS-API (" +:+ relImpl +:+ ")") 200)
      else Ok (NewHealthResult ("Storage type " +:+ storageType) 200)
  end.

Definition IsRelationsAvailable (r : healthRepo) : result HealthResult :=
  match rel_Health (he_Relations r) with
  | Err _ => Ok (NewHealthResult "RELATIONS-API UNHEALTHY" 500)
  | Ok _ =>
      let! relImpl := CheckRelationsImpl (he_RelationsConfig r) in
      Ok (NewHealthResult ("RELATIONS-API (" +:+ relImpl +:+ ")") 200)
  end.

(** internal/biz/health *)
Definition usecase_IsBackendAvailable (repo : healthRepo) : result HealthResult :=
  IsBackendAvailable repo.

(** internal/service/health: the status and the code, as [uint32]. *)
Definition GetLivez : result (string * Z) := Ok ("OK", 200%Z).

Definition GetReadyz (repo : healthRepo) : result (string * Z) :=
  let! r := usecase_IsBackendAvailable repo in
  Ok (hr_status r, hr_code r mod 2 ^ 32)%Z.

(** The readiness endpoint, on a process whose relations are configured, always
    answers; its code is 200 exactly when the database can be reached and the
    relations backend is healthy, and 500 otherwise; then the status names
    what is down. *)
Theorem readyz_reports (repo : healthRepo) cfg : he_RelationsConfig repo = Some cfg ->
  exists status code, GetReadyz repo = Ok (status, code) /\
    (code = 200%Z <-> db_error (he_DB repo) = None /\ exists h, rel_Health (he_Relations repo) = Ok h) /\
    (code <> 200%Z -> code = 500%Z) /\
    (is_Some (db_error (he_DB repo)) ->
     exists rest, status = "STORAGE UNHEALTHY: " +:+ hd_name (he_DB repo) +:+ rest).
Proof.
  intros Hc. unfold GetReadyz, usecase_IsBackendAvailable, IsBackendAvailable. rewrite Hc. simpl.
  destruct (db_error (he_DB repo)) as [e|], (rel_Health (he_Relations repo)) as [h|e']; simpl.
  - eexists _, _. split; [reflexivity|]. simpl. split; [split; [done|by intros [? _]]|].
    split; [done|]. intros _. exists "". by rewrite app_nil_string.
  - eexists _, _. split; [reflexivity|]. simpl. split; [split; [done|by intros [? _]]|].
    split; [done|]. intros _. by eexists.
  - destruct (_ || _); (eexists _, _; split; [reflexivity|]; simpl; split; [split; [eauto|done]|];
      split; [done|]; by intros [? ?]).
  - eexists _, _. split; [reflexivity|]. simpl. split; [split; [done|by intros [_ [? ?]]]|].
    split; [done|]. by intros [? ?].
Qed.
End Health.
