(* ===== verification/Metrics.v ===== *)
(** Metrics: the job that counts the resources (cmd/jobs/metrics_collect_job.go),
    the collector that publishes its last summary and the one that publishes the
    statistics of Kafka (internal/metricscollector).

    The instruments of OpenTelemetry are outside the repository: an instrument
    is its name, and recording is appending to a list.  The database groups the
    rows of a query in an order of its own, [shuffle]; [pg_text] is the operator
    [->>] on a field of a JSON column.  A count is printed like a [float64],
    which for the [int64] of the second query is the same below 2^53.  Logs are
    dropped. *)
From stdpp Require Import base tactics list strings gmap sorting.
From Stdlib Require Import ZArith Lia Ascii.
From S2P Require Import Prelude GoStrings Common ReporterResource Representations Resource.
From S2P Require Import Json DataModel Outbox Store.

Local Open Scope string_scope.

(** * The database's part *)

(** [GROUP BY] with [COUNT( * )]. *)
Definition group_count {K} `{Countable K} (l : list K) : gmap K Z :=
  foldr (fun k m => <[k := (default 0 (m !! k) + 1)%Z]> m) ∅ l.

Class MetricsDB := {
  shuffle : forall {A}, list A -> list A;
  shuffle_Permutation : forall {A} (l : list A), shuffle l ≡ₚ l;
  pg_text : json -> option string;
  pg_text_string : forall s, pg_text (JStr s) = Some s;
  pg_text_null : pg_text JNull = None;
}.

(** internal/data/model/metrics_summary.go; times are in nanoseconds. *)
Record MetricsSummary := {
  ms_ID : uuid;
  ms_CollectedAt : time;
  ms_Metrics : JsonObject;
}.

(** The column is JSON: what is read is what [json.Unmarshal] makes of what
    [json.Marshal] wrote. *)
Definition JsonObject_Value (data : JsonObject) : json := marshal_object data.
Definition JsonObject_Scan (value : json) : result JsonObject := unmarshal_object value ∅.

(** * metrics-collect-job *)

Definition DefaultRetentionDays : Z := 30.
Definition day : Z := 86400000000000.

Record workspaceResult := { wr_ResourceType : string; wr_Count : Z }.
Record reporterResult := {
  rp_ResourceType : string; rp_ReporterType : string; rp_ReporterInstanceID : string;
  rp_Count : Z;
}.

Section Job.
Context {D : Type} `{GormDB D} `{MetricsDB}.

(** The rows of the first query: a resource joined with its current common
    representation, with a workspace and a reporter that did not delete it. *)
Definition workspace_rows (d : D) : list (string * string) :=
  r ← resource_rows d;
  cr ← filter (fun cr => cw_ResourceId cr = rw_ID r /\ rw_CommonVersion r = Some (cw_Version cr))
         (common_representation_rows d);
  match rep_get (cw_Data cr) "workspace_id" ≫= pg_text with
  | Some workspace =>
      if existsb (fun rr => bool_decide (rrw_ResourceID rr = rw_ID r) && negb (rrw_Tombstone rr))
           (reporter_resource_rows d)
      then [(rw_Type r, workspace)] else []
  | None => []
  end.

Definition workspace_results (d : D) : list workspaceResult :=
  (fun g => {| wr_ResourceType := g.1.1; wr_Count := g.2 |}) <$>
    shuffle (map_to_list (group_count (workspace_rows d))).

(** The rows of the second query. *)
Definition reporter_rows (d : D) : list (string * string * string) :=
  (fun rr => (rrw_ResourceType rr, rrw_ReporterType rr, rrw_ReporterInstanceID rr)) <$>
    filter (fun rr => rrw_Tombstone rr = false) (reporter_resource_rows d).

Definition reporter_results (d : D) : list reporterResult :=
  (fun g => {| rp_ResourceType := g.1.1.1; rp_ReporterType := g.1.1.2;
               rp_ReporterInstanceID := g.1.2; rp_Count := g.2 |}) <$>
    shuffle (map_to_list (group_count (reporter_rows d))).

(** What the job meets outside: the errors of its statements, the clock when
    it writes and when it cleans up, and the id it draws. *)
Record job_env := {
  je_workMem : option go_error;
  je_query1 : option go_error;
  je_query2 : option go_error;
  je_id : uuid;
  je_written : time;
  je_create : option go_error;
  je_cleanup : time;
  je_delete : option go_error;
}.

Definition collectResourcesPerWorkspaceJob (e : job_env) (d : D) (metrics : gmap string json)
    : result (gmap string json) :=
  match je_query1 e with
  | Some err => Err (EWrap "resources_per_workspace query failed" err)
  | None =>
      let out := (fun r => JObj [("resource_type", JStr (wr_ResourceType r));
                                 ("count", JNum (wr_Count r))]) <$> workspace_results d in
      Ok (<["resources_per_workspace" := JArr out]> metrics)
  end.

Definition collectResourceCountJob (e : job_env) (d : D) (metrics : gmap string json)
    : result (gmap string json) :=
  match je_query2 e with
  | Some err => Err (EWrap "resource_count query failed" err)
  | None =>
      let out := (fun r => JObj [("resource_type", JStr (rp_ResourceType r));
                                 ("reporter_type", JStr (rp_ReporterType r));
                                 ("reporter_instance_id", JStr (rp_ReporterInstanceID r));
                                 ("count", JNum (rp_Count r))]) <$> reporter_results d in
      Ok (<["resource_count" := JArr out]> metrics)
  end.

Definition retention (retentionDays : Z) : Z :=
  if (retentionDays <=? 0)%Z then DefaultRetentionDays else retentionDays.

Definition cutoff (e : job_env) (retentionDays : Z) : time :=
  (je_cleanup e - retention retentionDays * day)%Z.

(** [collectMetricsWithDB] on the table of summaries; the statements are not
    one transaction.  [SET work_mem] may fail. *)
Definition collectMetricsWithDB (e : job_env) (retentionDays : Z) (d : D)
    (summaries : list MetricsSummary) : list MetricsSummary * option go_error :=
  match collectResourcesPerWorkspaceJob e d ∅ with
  | Err err => (summaries, Some err)
  | Ok metrics =>
      match collectResourceCountJob e d metrics with
      | Err err => (summaries, Some err)
      | Ok metrics =>
          match je_create e with
          | Some err => (summaries, Some err)
          | None =>
              let summary := {| ms_ID := je_id e; ms_CollectedAt := je_written e;
                                ms_Metrics := Some metrics |} in
              let summaries := summary :: summaries in
              match je_delete e with
              | Some err => (summaries, Some err)
              | None => (filter (fun s => ~ (ms_CollectedAt s < cutoff e retentionDays)%Z) summaries,
                         None)
              end
          end
      end
  end.
End Job.

(** * The business metrics *)

(** ORDER BY collected_at DESC, and the primary key that [First] adds. *)
Definition newer (a b : MetricsSummary) : Prop :=
  (ms_CollectedAt b < ms_CollectedAt a)%Z \/
  (ms_CollectedAt a = ms_CollectedAt b /\ ms_ID a <= ms_ID b)%Z.

#[export] Instance newer_dec : RelDecision newer.
Proof. intros a b. unfold newer. apply _. Defined.

(** The rows of a histogram and of a gauge. *)
Record BusinessMetrics := {
  bm_ResourcesPerWorkspace : list (string * Z);
  bm_ResourceCount : list ((string * string * string) * Z);
}.

(** [e[k].(string)], [e[k].(float64)] with the zero value otherwise. *)
Definition string_entry (e : gmap string json) (k : string) : string :=
  match e !! k with Some (JStr s) => s | _ => "" end.
Definition number_entry (e : gmap string json) (k : string) : Z :=
  match e !! k with Some (JNum z) => z | _ => 0%Z end.

Definition entry_object (item : json) : option (gmap string json) :=
  match item with JObj fs => Some (list_to_map (reverse fs)) | _ => None end.

(** An array keeps its objects; any other value takes the detour over JSON,
    where only [null] is accepted. *)
Definition parseMetricEntries (raw : json) : result (list (gmap string json)) :=
  match raw with
  | JArr v => Ok (omap entry_object v)
  | JNull => Ok []
  | _ => Err (EMsg "json: cannot unmarshal into Go value of type []map[string]interface {}")
  end.

Definition recordResourcesPerWorkspace (metrics : gmap string json) (mc : BusinessMetrics)
    : BusinessMetrics :=
  match metrics !! "resources_per_workspace" with
  | None => mc
  | Some raw =>
      match parseMetricEntries raw with
      | Err _ => mc
      | Ok entries =>
          {| bm_ResourcesPerWorkspace :=
               (bm_ResourcesPerWorkspace mc ++
                ((fun e => (string_entry e "resource_type", number_entry e "count")) <$> entries))%list;
             bm_ResourceCount := bm_ResourceCount mc |}
      end
  end.

Definition recordResourceCount (metrics : gmap string json) (mc : BusinessMetrics)
    : BusinessMetrics :=
  match metrics !! "resource_count" with
  | None => mc
  | Some raw =>
      match parseMetricEntries raw with
      | Err _ => mc
      | Ok entries =>
          {| bm_ResourcesPerWorkspace := bm_ResourcesPerWorkspace mc;
             bm_ResourceCount :=
               (bm_ResourceCount mc ++
                ((fun e => ((string_entry e "resource_type", string_entry e "reporter_type",
                             string_entry e "reporter_instance_id"), number_entry e "count"))
                   <$> entries))%list |}
      end
  end.

(** One round: the newest summary, if it can be read. *)
Definition collectBusinessMetrics (readError : option go_error) (summaries : list MetricsSummary)
    (mc : BusinessMetrics) : BusinessMetrics :=
  match readError, head (merge_sort newer summaries) with
  | None, Some summary =>
      match JsonObject_Scan (JsonObject_Value (ms_Metrics summary)) with
      | Ok metrics =>
          let metrics := default ∅ metrics in
          recordResourceCount metrics (recordResourcesPerWorkspace metrics mc)
      | Err _ => mc
      end
  | _, _ => mc
  end.

(** [StartBusinessMetricsCollector]: one round at the start and one for each
    tick, until the context is done. *)
Definition StartBusinessMetricsCollector (rounds : list (option go_error * list MetricsSummary))
    (mc : BusinessMetrics) : BusinessMetrics :=
  foldl (fun mc r => collectBusinessMetrics r.1 r.2 mc) mc rounds.

(** * The statistics of Kafka *)

Definition outboxTopic : string := "outbox.event.kessel.tuples".
Definition statsPrefix : string := "consumer_stats_".
Definition consumerPrefix : string := "consumer_".
Definition prefix : string := "kessel_inventory_".

Record PartitionData := {
  pd_FetchqCnt : Z; pd_FetchqSize : Z; pd_FetchState : string;
  pd_LoOffset : Z; pd_HiOffset : Z; pd_LsOffset : Z;
  pd_ConsumerLag : Z; pd_ConsumerLagStored : Z;
}.

Record TopicData := { td_Topic : string; td_Partitions : gmap string PartitionData }.

Record CGRPData := {
  cg_State : string; cg_StateAge : Z; cg_RebalanceAge : Z; cg_RebalanceCnt : Z;
  cg_RebalanceReason : string; cg_AssignmentSize : Z;
}.

Record StatsData := {
  sd_Name : string; sd_ClientID : string; sd_Replyq : Z;
  sd_Topics : gmap string TopicData; sd_CGRP : CGRPData;
}.

Abbreviation attributes := (list (string * string)) (only parsing).

Definition LabelSet (s : StatsData) (key : string) : attributes :=
  if bool_decide (key = "")
  then [("name", sd_Name s); ("client_id", sd_ClientID s)]
  else [("name", sd_Name s); ("client_id", sd_ClientID s); ("topic", outboxTopic);
        ("partition", key)].

(** Decoding by the tags of the structs. *)
Definition unmarshal_int (j : json) (old : Z) : result Z :=
  match j with
  | JNum z => if bool_decide (- 2 ^ 63 <= z < 2 ^ 63)%Z then Ok z else Err type_error
  | JNull => Ok old
  | _ => Err type_error
  end.

Definition CGRPData_fields : list string :=
  ["state"; "stageage"; "rebalance_age"; "rebalance_cnt"; "rebalance_reason"; "assignment_size"].

Definition CGRPData_set (f : string) (j : json) (c : CGRPData) : result CGRPData :=
  let '(Build_CGRPData st age rage cnt reason size) := c in
  if bool_decide (f = "state")
  then (let! v := unmarshal_string j st in Ok (Build_CGRPData v age rage cnt reason size))
  else if bool_decide (f = "stageage")
  then (let! v := unmarshal_int j age in Ok (Build_CGRPData st v rage cnt reason size))
  else if bool_decide (f = "rebalance_age")
  then (let! v := unmarshal_int j rage in Ok (Build_CGRPData st age v cnt reason size))
  else if bool_decide (f = "rebalance_cnt")
  then (let! v := unmarshal_int j cnt in Ok (Build_CGRPData st age rage v reason size))
  else if bool_decide (f = "rebalance_reason")
  then (let! v := unmarshal_string j reason in Ok (Build_CGRPData st age rage cnt v size))
  else (let! v := unmarshal_int j size in Ok (Build_CGRPData st age rage cnt reason v)).

Definition CGRPData_Unmarshal (j : json) : result CGRPData :=
  unmarshal_struct CGRPData_fields CGRPData_set j (Build_CGRPData "" 0 0 0 "" 0).

(** A measurement: the instrument, its attributes and the value. *)
Record measurement := { me_instrument : string; me_attributes : attributes; me_value : Z }.

Definition Record_ (instrument : string) (attrs : attributes) (value : Z) : measurement :=
  {| me_instrument := instrument; me_attributes := attrs; me_value := value |}.

Definition zero_topic : TopicData := {| td_Topic := ""; td_Partitions := ∅ |}.

Definition partition_measurements (stats : StatsData) (partitionKey : string) (p : PartitionData)
    : list measurement :=
  if bool_decide (partitionKey = "-1") then []
  else
    [Record_ (statsPrefix +:+ "fetchq_cnt") (LabelSet stats partitionKey) (pd_FetchqCnt p);
     Record_ (statsPrefix +:+ "fetchq_size") (LabelSet stats partitionKey) (pd_FetchqSize p);
     Record_ (statsPrefix +:+ "fetchq_state")
       (LabelSet stats "" ++ [("fetch_state", pd_FetchState p)])%list
       (if bool_decide (pd_FetchState p = "active") then 0 else 1)%Z;
     Record_ (statsPrefix +:+ "lo_offset") (LabelSet stats partitionKey) (pd_LoOffset p);
     Record_ (statsPrefix +:+ "hi_offset") (LabelSet stats partitionKey) (pd_HiOffset p);
     Record_ (statsPrefix +:+ "ls_offset") (LabelSet stats partitionKey) (pd_LsOffset p);
     Record_ (statsPrefix +:+ "consumer_lag") (LabelSet stats partitionKey) (pd_ConsumerLag p);
     Record_ (statsPrefix +:+ "consumer_lag_stored") (LabelSet stats partitionKey)
       (pd_ConsumerLagStored p)].

(** [Collect]: the measurements of one message; the map of the partitions is
    ranged over in any order, here that of [map_to_list]. *)
Definition Collect (stats : StatsData) : list measurement :=
  let topic := default zero_topic (sd_Topics stats !! outboxTopic) in
  let cgrp := sd_CGRP stats in
  ([Record_ (statsPrefix +:+ "replyq") (LabelSet stats "") (sd_Replyq stats)]
   ++ mjoin ((fun kp => partition_measurements stats kp.1 kp.2)
               <$> map_to_list (td_Partitions topic))
   ++ [Record_ (statsPrefix +:+ "state") (LabelSet stats "" ++ [("state", cg_State cgrp)])%list
         (if bool_decide (cg_State cgrp = "up") then 0 else 1)%Z;
       Record_ (statsPrefix +:+ "stateage") (LabelSet stats "") (cg_StateAge cgrp);
       Record_ (statsPrefix +:+ "rebalance_age")
         (LabelSet stats "" ++ [("last_rebalance_reason", cg_RebalanceReason cgrp)])%list
         (cg_RebalanceAge cgrp);
       Record_ (statsPrefix +:+ "rebalance_cnt") (LabelSet stats "") (cg_RebalanceCnt cgrp);
       Record_ (statsPrefix +:+ "assignment_size") (LabelSet stats "") (cg_AssignmentSize cgrp)])%list.

(** The value of a gauge is the last one recorded, that of a counter the sum. *)
Definition gauge (instrument : string) (attrs : attributes) (ms : list measurement) : option Z :=
  me_value <$> last (filter (fun m => me_instrument m = instrument /\ me_attributes m = attrs) ms).

Definition counter (instrument : string) (attrs : attributes) (ms : list measurement) : Z :=
  foldr Z.add 0%Z
    (me_value <$> filter (fun m => me_instrument m = instrument /\ me_attributes m = attrs) ms).

Definition Incr (instrument operation : string) (extraAttrs : attributes) : measurement :=
  Record_ instrument (("operation", operation) :: extraAttrs) 1.

(** [New] creates the instruments in this order and stops at the first error. *)
Definition instruments : list string :=
  ((fun n => statsPrefix +:+ n) <$>
     ["replyq"; "fetchq_cnt"; "fetchq_size"; "fetchq_state"; "lo_offset"; "hi_offset"; "ls_offset";
      "consumer_lag"; "consumer_lag_stored"; "state"; "stateage"; "rebalance_age"; "rebalance_cnt";
      "assignment_size"])
  ++ ((fun n => consumerPrefix +:+ n) <$>
        ["msgs_processed"; "msg_process_failures"; "consumer_errors"; "kafka_error_events"])
  ++ ((fun n => prefix +:+ n) <$>
        ["outbox_event_writes"; "serialization_failures"; "serialization_exhaustions";
         "resources_per_workspace"; "resource_count"]).

Fixpoint create_instruments (create : string -> option go_error) (names : list string)
    : list string * option go_error :=
  match names with
  | [] => ([], None)
  | n :: names' =>
      match create n with
      | Some err => ([], Some err)
      | None => let '(made, err) := create_instruments create names' in (n :: made, err)
      end
  end.

Definition MetricsCollector_New (create : string -> option go_error)
    : list string * option go_error :=
  create_instruments create instruments.
