(* ===== verification/MetricsProps.v ===== *)
(** Properties of the metrics (Metrics.v): what the job counts reaches the
    instruments unchanged, the clean-up keeps what it should, and two statistics
    of Kafka that do not mean what their names say. *)
From stdpp Require Import base tactics list strings gmap sorting.
From Stdlib Require Import ZArith Lia Ascii.
From S2P Require Import Prelude GoStrings Common ReporterResource Representations Resource.
From S2P Require Import Json DataModel Outbox Store Tables Examples Metrics.

Local Open Scope string_scope.

(** * Counting *)

Section Groups.
Context {K : Type} `{Countable K}.

Definition occurrences (k : K) (l : list K) : nat := length (filter (fun x => x = k) l).

Lemma group_count_lookup (l : list K) k n :
  group_count l !! k = Some n <-> n = Z.of_nat (occurrences k l) /\ (0 < n)%Z.
Proof.
  revert n. unfold occurrences. induction l as [|x l IH]; intros n; simpl.
  { rewrite lookup_empty. split; [done|lia]. }
  rewrite filter_cons. destruct (decide (x = k)) as [->|Hne]; simpl.
  - rewrite lookup_insert_eq. destruct (group_count l !! k) as [m|] eqn:E; simpl.
    + destruct (proj1 (IH m) eq_refl) as [-> _]. split; [intros [= <-]; lia|intros [-> _]; f_equal; lia].
    + assert (Hz : length (filter (fun x => x = k) l) = 0%nat).
      { destruct (length _) as [|c] eqn:Hl; [done|]. exfalso.
        assert (@None Z = Some (Z.of_nat (S c))) as [=]. apply IH. lia. }
      rewrite Hz. split; [intros [= <-]; lia|intros [-> _]; done].
  - by rewrite lookup_insert_ne.
Qed.

Lemma group_count_pos (l : list K) k n : group_count l !! k = Some n -> (0 < n)%Z.
Proof. by intros [_ ?]%group_count_lookup. Qed.

Lemma group_count_le (l : list K) k n :
  group_count l !! k = Some n -> (n <= Z.of_nat (length l))%Z.
Proof.
  intros [-> _]%group_count_lookup. unfold occurrences.
  pose proof (length_filter (fun x => x = k) l). lia.
Qed.

(** The groups cover all rows. *)
Definition total (l : list (K * Z)) : Z := foldr Z.add 0%Z l.*2.

Lemma total_Permutation l l' : l ≡ₚ l' -> total l = total l'.
Proof.
  intros Hp%(fmap_Permutation snd). unfold total. revert Hp. generalize l.*2, l'.*2.
  induction 1; simpl; lia.
Qed.

Lemma total_insert (m : gmap K Z) k n : m !! k = None ->
  total (map_to_list (<[k := n]> m)) = (n + total (map_to_list m))%Z.
Proof. intros Hk. by rewrite (total_Permutation _ _ (map_to_list_insert _ _ _ Hk)). Qed.

Lemma group_count_total (l : list K) :
  total (map_to_list (group_count l)) = Z.of_nat (length l).
Proof.
  induction l as [|k l IH]; [by unfold group_count; simpl; rewrite map_to_list_empty|].
  cbn [group_count foldr length]. fold (group_count l).
  destruct (group_count l !! k) as [n|] eqn:E; cbn [default].
  - rewrite <- (insert_delete_id _ _ _ E) in IH. rewrite total_insert in IH by apply lookup_delete_eq.
    rewrite <- insert_delete_eq, total_insert by apply lookup_delete_eq. simpl in *. lia.
  - rewrite total_insert by done. simpl in *. lia.
Qed.
End Groups.

(** * A column of JSON *)

Lemma scan_fields (f : json -> json) l (m : gmap string json) k : NoDup l.*1 ->
  foldl (fun acc kv => <[kv.1 := f kv.2]> acc) m l !! k
  = match (list_to_map l : gmap string json) !! k with Some v => Some (f v) | None => m !! k end.
Proof.
  revert m. induction l as [|[k' v] l IH]; intros m Hnd; simpl; [done|].
  apply NoDup_cons in Hnd as [Hk Hnd]. simpl in Hk. rewrite IH by done.
  destruct (decide (k = k')) as [->|Hne].
  - by rewrite (not_elem_of_list_to_map_1 l k' Hk), !lookup_insert_eq.
  - rewrite (lookup_insert_ne _ k' k v) by done. case_match; [done|]. by rewrite lookup_insert_ne.
Qed.

(** A map written and read again has its values as JSON reads them back. *)
Lemma JsonObject_roundtrip (m : gmap string json) :
  exists m', JsonObject_Scan (JsonObject_Value (Some m)) = Ok (Some m') /\
    forall k, m' !! k = (fun v => unmarshal_any (marshal_any v)) <$> m !! k.
Proof.
  unfold JsonObject_Scan, JsonObject_Value, marshal_object, unmarshal_object.
  eexists. split; [done|]. intros k.
  assert (Hkeys : (map (fun kv => (kv.1, marshal_any kv.2)) (map_to_list m)).*1 = (map_to_list m).*1).
  { rewrite <- !list_fmap_compose. by apply list_fmap_ext. }
  rewrite scan_fields by (rewrite Hkeys; apply NoDup_fst_map_to_list).
  destruct (m !! k) as [v|] eqn:E; simpl.
  - rewrite (elem_of_list_to_map_1 _ k (marshal_any v)); [done|rewrite Hkeys; apply NoDup_fst_map_to_list|].
    apply list_elem_of_fmap. exists (k, v). split; [done|]. by apply elem_of_map_to_list.
  - rewrite not_elem_of_list_to_map_1; [by rewrite lookup_empty|]. rewrite Hkeys.
    intros ([k' v] & -> & Hin)%list_elem_of_fmap. apply elem_of_map_to_list in Hin. simpl in E. congruence.
Qed.

Lemma map_numbers_id (f : Z -> Z) (l : list json) : Forall (fun j => map_numbers f j = j) l ->
  map_numbers f (JArr l) = JArr l.
Proof. intros Hl. simpl. f_equal. induction Hl as [|j l Hj _ IH]; simpl; [done|]. by rewrite Hj, IH. Qed.

(** * From the tables to the instruments *)

#[local] Instance newer_trans : Transitive newer.
Proof. unfold newer. intros a b c. lia. Qed.
#[local] Instance newer_total : Total newer.
Proof. unfold newer. intros a b. lia. Qed.

(** The only summary of its instant, and no later one, is the newest. *)
Lemma newest_summary s l : s ∈ l ->
  (forall x, x ∈ l -> x = s \/ (ms_CollectedAt x < ms_CollectedAt s)%Z) ->
  head (merge_sort newer l) = Some s.
Proof.
  intros Hs Hall. pose proof (StronglySorted_merge_sort newer l) as Hsort.
  pose proof (merge_sort_Permutation newer l) as Hp.
  destruct (merge_sort newer l) as [|h t]; [by rewrite <- Hp in Hs; apply not_elem_of_nil in Hs|].
  simpl. f_equal. apply StronglySorted_inv in Hsort as [_ Ht]. rewrite Forall_forall in Ht.
  destruct (Hall h) as [?|Hlt]; [rewrite <- Hp; left|done|]. exfalso.
  rewrite <- Hp in Hs. apply elem_of_cons in Hs as [->|Hs]; [lia|].
  specialize (Ht s Hs). unfold newer in Ht. lia.
Qed.

Lemma entries_of {A} (f : A -> list (string * json)) (l : list A) :
  omap entry_object ((fun a => JObj (f a)) <$> l) = (fun a => list_to_map (reverse (f a))) <$> l.
Proof. induction l as [|a l IH]; simpl; [done|]. by f_equal. Qed.

Section Published.
Context {D : Type} `{GormDB D} `{MetricsDB}.

Definition small_count (n : Z) : Prop := (0 <= n < two53)%Z.

Lemma small_number n : small_count n -> read_number (print_number n) = n.
Proof. intros Hn. by rewrite print_number_small, read_number_small. Qed.

(** An array of entries is read back as it was written. *)
Lemma entries_roundtrip {A} (f : A -> list (string * json)) (l : list A) :
  Forall (fun a => map (fun kv => (kv.1, map_numbers read_number (map_numbers print_number kv.2))) (f a) = f a) l ->
  unmarshal_any (marshal_any (JArr ((fun a => JObj (f a)) <$> l))) = JArr ((fun a => JObj (f a)) <$> l).
Proof.
  intros Hl. unfold unmarshal_any, marshal_any. simpl. f_equal.
  induction Hl as [|a l Ha _ IH]; simpl; [done|]. f_equal; [|done]. f_equal.
  by rewrite map_map.
Qed.

Definition counts_small (d : D) : Prop :=
  (Z.of_nat (length (workspace_rows d)) < two53)%Z /\ (Z.of_nat (length (reporter_rows d)) < two53)%Z.

Lemma shuffled_small {K} `{Countable K} (l : list K) : (Z.of_nat (length l) < two53)%Z ->
  Forall (fun g => small_count g.2) (shuffle (map_to_list (group_count l))).
Proof.
  intros Hl. rewrite shuffle_Permutation. apply Forall_forall. intros [k n] Hg.
  apply elem_of_map_to_list in Hg. unfold small_count. simpl.
  pose proof (group_count_pos _ _ _ Hg). pose proof (group_count_le _ _ _ Hg). lia.
Qed.

(** What a summary of the tables [d] records. *)
Definition business_metrics (d : D) : BusinessMetrics :=
  {| bm_ResourcesPerWorkspace :=
       (fun g => (g.1.1, g.2)) <$> shuffle (map_to_list (group_count (workspace_rows d)));
     bm_ResourceCount := shuffle (map_to_list (group_count (reporter_rows d))) |}.

Lemma collect_entries e d metrics metrics' : counts_small d ->
  collectResourcesPerWorkspaceJob e d ∅ = Ok metrics ->
  collectResourceCountJob e d metrics = Ok metrics' ->
  exists m, JsonObject_Scan (JsonObject_Value (Some metrics')) = Ok (Some m) /\
    m !! "resources_per_workspace" = metrics !! "resources_per_workspace" /\
    m !! "resource_count" = metrics' !! "resource_count".
Proof.
  intros [Hw Hr]. unfold collectResourcesPerWorkspaceJob, collectResourceCountJob.
  destruct (je_query1 e); [done|]. intros [= <-]. destruct (je_query2 e); [done|]. intros [= <-].
  destruct (JsonObject_roundtrip
    (<["resource_count" := JArr ((fun r => JObj [("resource_type", JStr (rp_ResourceType r));
         ("reporter_type", JStr (rp_ReporterType r));
         ("reporter_instance_id", JStr (rp_ReporterInstanceID r));
         ("count", JNum (rp_Count r))]) <$> reporter_results d)]>
     (<["resources_per_workspace" := JArr ((fun r => JObj [("resource_type", JStr (wr_ResourceType r));
         ("count", JNum (wr_Count r))]) <$> workspace_results d)]> ∅)))
    as (m & Hm & Hget).
  exists m. split; [done|]. rewrite !Hget, !lookup_insert_eq, lookup_insert_ne by done.
  rewrite lookup_insert_eq. simpl. split; f_equal.
  - apply (entries_roundtrip (fun r => [("resource_type", JStr (wr_ResourceType r));
             ("count", JNum (wr_Count r))])).
    unfold workspace_results. apply Forall_fmap. eapply Forall_impl; [by apply shuffled_small|].
    intros g Hg. simpl. by rewrite small_number.
  - apply (entries_roundtrip (fun r => [("resource_type", JStr (rp_ResourceType r));
             ("reporter_type", JStr (rp_ReporterType r));
             ("reporter_instance_id", JStr (rp_ReporterInstanceID r));
             ("count", JNum (rp_Count r))])).
    unfold reporter_results. apply Forall_fmap. eapply Forall_impl; [by apply shuffled_small|].
    intros g Hg. simpl. by rewrite small_number.
Qed.

Lemma recorded_metrics e d metrics metrics' m mc :
  collectResourcesPerWorkspaceJob e d ∅ = Ok metrics ->
  collectResourceCountJob e d metrics = Ok metrics' ->
  m !! "resources_per_workspace" = metrics !! "resources_per_workspace" ->
  m !! "resource_count" = metrics' !! "resource_count" ->
  recordResourceCount m (recordResourcesPerWorkspace m mc)
  = {| bm_ResourcesPerWorkspace :=
         (bm_ResourcesPerWorkspace mc ++ bm_ResourcesPerWorkspace (business_metrics d))%list;
       bm_ResourceCount := (bm_ResourceCount mc ++ bm_ResourceCount (business_metrics d))%list |}.
Proof.
  unfold collectResourcesPerWorkspaceJob, collectResourceCountJob.
  destruct (je_query1 e); [done|]. intros [= <-]. destruct (je_query2 e); [done|]. intros [= <-].
  rewrite !lookup_insert_eq. intros Hm1 Hm2. unfold recordResourcesPerWorkspace, recordResourceCount.
  rewrite Hm1, Hm2. cbn [parseMetricEntries].
  rewrite (entries_of (fun r => [("resource_type", JStr (wr_ResourceType r));
             ("count", JNum (wr_Count r))])).
  rewrite (entries_of (fun r => [("resource_type", JStr (rp_ResourceType r));
             ("reporter_type", JStr (rp_ReporterType r));
             ("reporter_instance_id", JStr (rp_ReporterInstanceID r));
             ("count", JNum (rp_Count r))])).
  cbn [bm_ResourcesPerWorkspace bm_ResourceCount]. unfold business_metrics, workspace_results, reporter_results.
  cbn [bm_ResourcesPerWorkspace bm_ResourceCount]. f_equal; f_equal; rewrite <- !list_fmap_compose.
  - by apply list_fmap_ext.
  - rewrite <- (list_fmap_id (shuffle _)) at 2. apply list_fmap_ext. by intros ? [[[? ?] ?] ?].
Qed.

Lemma collect_success e n d ms ms' : collectMetricsWithDB e n d ms = (ms', None) ->
  exists metrics metrics', collectResourcesPerWorkspaceJob e d ∅ = Ok metrics /\
    collectResourceCountJob e d metrics = Ok metrics' /\
    ms' = filter (fun s => ~ (ms_CollectedAt s < cutoff e n)%Z)
            ({| ms_ID := je_id e; ms_CollectedAt := je_written e; ms_Metrics := Some metrics' |} :: ms).
Proof.
  unfold collectMetricsWithDB. destruct (collectResourcesPerWorkspaceJob e d ∅) as [m1|]; [|done].
  destruct (collectResourceCountJob e d m1) as [m2|] eqn:E; [|done].
  destruct (je_create e); [done|]. destruct (je_delete e); [done|]. intros [= <-]. eauto.
Qed.

(** The reporter resources of a group that are not deleted. *)
Definition live_reporters (d : D) (k : string * string * string) : list ReporterResourceRow :=
  filter (fun rr => rrw_Tombstone rr = false /\
            (rrw_ResourceType rr, rrw_ReporterType rr, rrw_ReporterInstanceID rr) = k)
    (reporter_resource_rows d).

Lemma live_reporters_count d k : occurrences k (reporter_rows d) = length (live_reporters d k).
Proof.
  unfold occurrences, reporter_rows, live_reporters.
  induction (reporter_resource_rows d) as [|rr l IH]; [done|]. rewrite !filter_cons.
  destruct (decide (rrw_Tombstone rr = false)) as [Ht|Ht]; simpl.
  - rewrite filter_cons. destruct (decide (_ = k)) as [Hk|Hk].
    + rewrite decide_True by done. simpl. by f_equal.
    + rewrite decide_False by naive_solver. done.
  - rewrite decide_False by naive_solver. done.
Qed.

(** C30. What the job counts is what the instruments show: after a run that
    succeeded, a round of the collector records, for every resource type,
    reporter type and reporter instance that has one, the number of reporter
    resources that are not deleted, and nothing else; the counts add up to the
    number of these rows. *)
Theorem metrics_published e n d ms ms'
    (Hrun : collectMetricsWithDB e n d ms = (ms', None))
    (Hsmall : counts_small d)
    (Hkept : (cutoff e n <= je_written e)%Z)
    (Holder : Forall (fun s => ms_CollectedAt s < je_written e)%Z ms) :
  exists w c,
    collectBusinessMetrics None ms' {| bm_ResourcesPerWorkspace := []; bm_ResourceCount := [] |}
    = {| bm_ResourcesPerWorkspace := w; bm_ResourceCount := c |} /\
    (forall k v, (k, v) ∈ c <-> v = Z.of_nat (length (live_reporters d k)) /\ (0 < v)%Z) /\
    NoDup c.*1 /\
    total c = Z.of_nat (length (filter (fun rr => rrw_Tombstone rr = false) (reporter_resource_rows d))) /\
    w ≡ₚ (fun g => (g.1.1, g.2)) <$> map_to_list (group_count (workspace_rows d)).
Proof.
  destruct (collect_success _ _ _ _ _ Hrun) as (m1 & m2 & E1 & E2 & ->).
  exists (bm_ResourcesPerWorkspace (business_metrics d)), (bm_ResourceCount (business_metrics d)).
  split_all.
  - unfold collectBusinessMetrics.
    rewrite (newest_summary {| ms_ID := je_id e; ms_CollectedAt := je_written e; ms_Metrics := Some m2 |}).
    + destruct (collect_entries _ _ _ _ Hsmall E1 E2) as (m & Hm & G1 & G2).
      cbn [ms_Metrics]. rewrite Hm. cbn [default]. by apply (recorded_metrics e d m1 m2).
    + apply list_elem_of_filter. split; [simpl; lia|left].
    + intros x [_ [->|Hx]%elem_of_cons]%list_elem_of_filter; [by left|right].
      rewrite Forall_forall in Holder. by apply Holder.
  - intros k v. simpl. rewrite shuffle_Permutation, elem_of_map_to_list, <- live_reporters_count.
    apply group_count_lookup.
  - simpl. rewrite shuffle_Permutation. apply NoDup_fst_map_to_list.
  - simpl. rewrite (total_Permutation _ _ (shuffle_Permutation _)), group_count_total.
    unfold reporter_rows. by rewrite length_fmap.
  - simpl. by rewrite shuffle_Permutation.
Qed.

(** The job loses no summary that it should keep: a failure leaves the
    table as it was or with the new summary added; a success also removes the
    summaries older than the retention period, counted from the clean-up and
    30 days if the flag is not positive, and no other. *)
Theorem metrics_retention e n d ms ms' err
    (Hrun : collectMetricsWithDB e n d ms = (ms', err)) :
  ms' = ms \/
  exists new, ms_CollectedAt new = je_written e /\
    match err with
    | Some _ => ms' = new :: ms
    | None => forall s, s ∈ ms' <-> (s = new \/ s ∈ ms) /\
        (je_cleanup e - (if (0 <? n)%Z then n else 30) * day <= ms_CollectedAt s)%Z
    end.
Proof.
  revert Hrun. unfold collectMetricsWithDB.
  destruct (collectResourcesPerWorkspaceJob e d ∅) as [m1|]; [|by intros [= <- <-]; left].
  destruct (collectResourceCountJob e d m1) as [m2|]; [|by intros [= <- <-]; left].
  destruct (je_create e); [by intros [= <- <-]; left|].
  destruct (je_delete e); intros [= <- <-]; right;
    exists {| ms_ID := je_id e; ms_CollectedAt := je_written e; ms_Metrics := Some m2 |};
    (split; [done|]); [done|].
  intros s. rewrite list_elem_of_filter, elem_of_cons. unfold cutoff, retention, DefaultRetentionDays.
  destruct (Z.leb_spec n 0), (Z.ltb_spec 0 n); try lia; intuition lia.
Qed.
End Published.

(** * The statistics of Kafka *)

Lemma counter_cons i a m l : counter i a (m :: l)
  = ((if decide (me_instrument m = i /\ me_attributes m = a) then me_value m else 0) + counter i a l)%Z.
Proof. unfold counter. rewrite filter_cons. by case_decide. Qed.

Lemma counter_app i a l1 l2 : counter i a (l1 ++ l2)%list = (counter i a l1 + counter i a l2)%Z.
Proof.
  induction l1 as [|m l1 IH]; [done|]. rewrite <- app_comm_cons, !counter_cons, IH. lia.
Qed.

Lemma mjoin_fmap_cons {A B} (f : A -> list B) x l :
  mjoin (f <$> x :: l) = (f x ++ mjoin (f <$> l))%list.
Proof. done. Qed.

(** No measurement of a partition is one of the counter. *)
Lemma partitions_not_counted stats a l :
  counter (statsPrefix +:+ "rebalance_cnt") a
    (mjoin ((fun kp => partition_measurements stats kp.1 kp.2) <$> l)) = 0%Z.
Proof.
  induction l as [|[k p] l IH]; [done|].
  rewrite mjoin_fmap_cons, counter_app, IH. unfold partition_measurements. simpl. by destruct (bool_decide _).
Qed.

(** The counter of rebalances is wrong from the second message on: each
    message carries the number of rebalances so far, and [Collect] adds it to a
    counter, so the counter shows the sum of all the totals that were ever
    reported. *)
Theorem rebalances_overcounted (msgs : list StatsData) name client
    (Hsame : Forall (fun s => sd_Name s = name /\ sd_ClientID s = client) msgs) :
  counter (statsPrefix +:+ "rebalance_cnt") [("name", name); ("client_id", client)]
    (mjoin (Collect <$> msgs))
  = foldr (fun s acc => cg_RebalanceCnt (sd_CGRP s) + acc)%Z 0%Z msgs.
Proof.
  induction Hsame as [|s msgs [Hn Hc] _ IH]; [done|]. cbn [foldr].
  rewrite mjoin_fmap_cons, counter_app, IH. f_equal. unfold Collect. rewrite !counter_app, partitions_not_counted.
  rewrite !counter_cons. unfold LabelSet. rewrite Hn, Hc.
  repeat (rewrite decide_False by (by intros [? _])). rewrite decide_True by done.
  repeat (rewrite decide_False by (by intros [? _])). unfold counter. simpl. lia.
Qed.

Lemma CGRPData_set_age f j c c' : f <> "stageage" -> CGRPData_set f j c = Ok c' ->
  cg_StateAge c' = cg_StateAge c.
Proof.
  destruct c. unfold CGRPData_set. intros Hf Hs.
  rewrite (bool_decide_eq_false_2 (f = "stageage")) in Hs by done. by inv_ok Hs.
Qed.

Lemma struct_field_age k : struct_field CGRPData_fields k = Some "stageage" ->
  EqualFold k "stageage" = true.
Proof.
  unfold struct_field. case_bool_decide; [intros [= ->]; apply EqualFold_refl|].
  by intros [_ ?]%List.find_some.
Qed.

(** The age of the consumer group's state is never read: the field is
    tagged [stageage], librdkafka sends [stateage], so for every message
    without a key of the misspelt name the gauge [stateage] shows 0. *)
Theorem state_age_lost fs c
    (Hsent : Forall (fun kv => EqualFold kv.1 "stageage" = false) fs)
    (Hread : CGRPData_Unmarshal (JObj fs) = Ok c) :
  cg_StateAge c = 0%Z.
Proof.
  unfold CGRPData_Unmarshal, unmarshal_struct in Hread.
  assert (Hgen : forall c0, unmarshal_fields CGRPData_fields CGRPData_set fs c0 = Ok c ->
                   cg_StateAge c = cg_StateAge c0).
  { clear Hread. induction Hsent as [|[k j] fs Hk _ IH]; intros c0; simpl; [by intros [= ->]|].
    destruct (struct_field CGRPData_fields k) as [f|] eqn:Ef; [|by apply IH].
    destruct (CGRPData_set f j c0) as [c1|] eqn:Es; [|done]. intros Hr.
    rewrite (IH _ Hr). apply (CGRPData_set_age f j); [|done]. intros ->.
    apply struct_field_age in Ef. simpl in Hk. congruence. }
  by rewrite (Hgen _ Hread).
Qed.

(** The collector registers every instrument once, and [New] creates all
    of them or fails with the error of the first that cannot be created. *)
Theorem instruments_created create made err
    (Hnew : MetricsCollector_New create = (made, err)) :
  NoDup instruments /\
  match err with
  | None => made = instruments /\ Forall (fun n => create n = None) instruments
  | Some e => exists n rest, instruments = (made ++ n :: rest)%list /\ create n = Some e /\
      Forall (fun n => create n = None) made
  end.
Proof.
  split; [apply (bool_decide_unpack _); by vm_compute|].
  unfold MetricsCollector_New in Hnew. revert made err Hnew.
  induction instruments as [|n names IH]; simpl; intros made err; [by intros [= <- <-]|].
  destruct (create n) as [e|] eqn:En; [intros [= <- <-]; by exists n, names|].
  destruct (create_instruments create names) as [made' err'] eqn:E. intros [= <- <-].
  specialize (IH _ _ eq_refl). destruct err' as [e|].
  - destruct IH as (m & rest & -> & ? & ?). exists m, rest. by split_all; [..|constructor].
  - destruct IH as [-> ?]. by split; [|constructor].
Qed.

(** * Concrete runs *)

#[export] Program Instance ex_metrics_db : MetricsDB := {|
  shuffle := fun A l => l;
  pg_text := fun j => match j with JStr s => Some s | JNull => None | JNum z => Some (FormatInt z)
                      | _ => Some "" end;
|}.
Solve Obligations with done.

Definition ex_job : job_env :=
  {| je_workMem := None; je_query1 := None; je_query2 := None; je_id := 7; je_written := 1000 * day;
     je_create := None; je_cleanup := (1000 * day + 1); je_delete := None |}.

Definition ex_old_summary (days : Z) : MetricsSummary :=
  {| ms_ID := days; ms_CollectedAt := (1000 - days) * day; ms_Metrics := Some ∅ |}.

Definition ex_summaries : list MetricsSummary := [ex_old_summary 1; ex_old_summary 40].

Lemma metrics_published_witness : exists ms' w c,
  collectMetricsWithDB ex_job 30 ex_moved_host ex_summaries = (ms', None) /\
  collectBusinessMetrics None ms' {| bm_ResourcesPerWorkspace := []; bm_ResourceCount := [] |}
  = {| bm_ResourcesPerWorkspace := w; bm_ResourceCount := c |} /\
  (("host", "hbi", "i1"), 1%Z) ∈ c.
Proof.
  destruct (collectMetricsWithDB ex_job 30 ex_moved_host ex_summaries) as [ms' err] eqn:E.
  assert (Herr : err = None) by (vm_compute in E; congruence). subst err.
  destruct (metrics_published ex_job 30 ex_moved_host ex_summaries ms') as (w & c & Hc & Hin & _).
  - exact E.
  - split; vm_compute; reflexivity.
  - vm_compute. discriminate.
  - repeat constructor.
  - exists ms', w, c. split; [done|]. split; [exact Hc|]. apply Hin. split; vm_compute; reflexivity.
Defined.

Lemma metrics_retention_witness : exists ms',
  collectMetricsWithDB ex_job 30 ex_moved_host ex_summaries = (ms', None) /\
  ex_old_summary 1 ∈ ms' /\ ex_old_summary 40 ∉ ms'.
Proof.
  destruct (collectMetricsWithDB ex_job 30 ex_moved_host ex_summaries) as [ms' err] eqn:E.
  assert (Herr : err = None) by (vm_compute in E; congruence). subst err.
  exists ms'. split; [done|].
  destruct (metrics_retention _ _ _ _ _ _ E) as [->|(new & _ & Hin)].
  - vm_compute in E. discriminate E.
  - split; [apply Hin; split; [right; left|vm_compute; discriminate]|].
    intros [_ Hlt]%Hin. vm_compute in Hlt. by apply Hlt.
Defined.

Definition ex_stats (rebalances : Z) : StatsData :=
  {| sd_Name := "c"; sd_ClientID := "id"; sd_Replyq := 0; sd_Topics := ∅;
     sd_CGRP := Build_CGRPData "up" 0 0 rebalances "" 1 |}.

(** One rebalance, seen in three messages, counts three times. *)
Lemma rebalances_overcounted_witness :
  counter (statsPrefix +:+ "rebalance_cnt") [("name", "c"); ("client_id", "id")]
    (mjoin (Collect <$> [ex_stats 1; ex_stats 1; ex_stats 1])) = 3%Z.
Proof.
  exact (rebalances_overcounted [ex_stats 1; ex_stats 1; ex_stats 1] "c" "id"
           ltac:(repeat constructor)).
Defined.

Lemma state_age_lost_witness : exists c,
  CGRPData_Unmarshal (JObj [("state", JStr "up"); ("stateage", JNum 5000)]) = Ok c /\
  cg_StateAge c = 0%Z.
Proof.
  eexists. split; [reflexivity|].
  apply (state_age_lost [("state", JStr "up"); ("stateage", JNum 5000)]);
    [repeat constructor|reflexivity].
Defined.

Definition ex_create (n : string) : option go_error :=
  if bool_decide (n = statsPrefix +:+ "state") then Some (EMsg "no") else None.

Lemma instruments_created_witness :
  MetricsCollector_New ex_create = (take 9 instruments, Some (EMsg "no")) /\ NoDup instruments.
Proof.
  assert (E : MetricsCollector_New ex_create = (take 9 instruments, Some (EMsg "no")))
    by (vm_compute; reflexivity).
  split; [exact E|]. exact (proj1 (instruments_created ex_create _ _ E)).
Defined.
