(* ===== verification/Streams.v ===== *)
(** The interceptors that count and log streams:
    internal/server/grpc/streamcounter.go and streamlogger.go.

    The stream below an interceptor is any [ServerStream]; a handler is the tree
    of the calls it makes on its stream, with the error it returns at the
    leaves.  The instruments of OpenTelemetry and the logger are lists of what
    they were given; durations, the stream id, the reason and the stack of the
    last log entry are dropped.  [FromGRPCCode] is the table of Kratos.
    The streams of the in-process relations repository (relations_simple.go) and the
    loops of the endpoints that read them come last: the endpoints of Service.v and
    TupleService.v send a list, which is what these loops receive until io.EOF. *)
From stdpp Require Import base tactics list strings gmap.
From Stdlib Require Import ZArith Lia Ascii.
From S2P Require Import Prelude GoStrings Common ReporterResource Relations RelationsRepo Proto.
From S2P Require Import Service TupleService.

Local Open Scope string_scope.

(** * Streams and handlers *)

(** [grpc.ServerStream]: [M] are the messages. *)
Class ServerStream (M S : Type) := {
  SendMsg : M -> S -> S * option go_error;
  RecvMsg : S -> S * result M;
}.

Inductive Handler (M : Type) :=
  | Return (err : option go_error)
  | Send (m : M) (k : option go_error -> Handler M)
  | Recv (k : result M -> Handler M).
Arguments Return {M} err.
Arguments Send {M} m k.
Arguments Recv {M} k.

(** [handler(srv, stream)] *)
Fixpoint run {M S} `{ServerStream M S} (h : Handler M) (s : S) : S * option go_error :=
  match h with
  | Return err => (s, err)
  | Send m k => let '(s, err) := SendMsg m s in run (k err) s
  | Recv k => let '(s, res) := RecvMsg s in run (k res) s
  end.

(** [codes.OK], or the code of the status of the error, or [codes.Unknown]. *)
Definition stream_code (err : option go_error) : grpc_code :=
  match err with None => OK | Some e => status_Code e end.

(** * Counting *)

Inductive direction := sent | received.

(** The instruments that exist: a nil one records nothing. *)
Record streamMetrics := {
  sm_counter : bool;
  sm_messageCounter : bool;
  sm_firstResponseLatencyHistogram : bool;
  sm_messageLatencyHistogram : bool;
}.

(** What was recorded: a stream with its code, a message, the latency of a
    message, the latency of the first response. *)
Inductive record :=
  | StreamCount (operation : string) (code : Z)
  | MessageCount (operation : string) (d : direction)
  | MessageLatency (operation : string) (d : direction)
  | FirstResponse (operation : string).

#[export] Instance direction_eq_dec : EqDecision direction.
Proof. solve_decision. Defined.
#[export] Instance record_eq_dec : EqDecision record.
Proof. solve_decision. Defined.

Definition StreamCounterName : string := "grpc_server_streams_total".
Definition StreamMessageCounterName : string := "grpc_server_stream_messages_total".
Definition StreamFirstResponseLatencyHistogramName : string :=
  "grpc_server_stream_first_response_duration_seconds".
Definition StreamMessageLatencyHistogramName : string :=
  "grpc_server_stream_message_duration_seconds".

(** [newStreamMetrics]: no meter, no metrics; the first error ends it. *)
Definition newStreamMetrics (meter : option (string -> option go_error))
    : result (option streamMetrics) :=
  match meter with
  | None => Ok None
  | Some create =>
      match create StreamCounterName, create StreamMessageCounterName,
            create StreamFirstResponseLatencyHistogramName,
            create StreamMessageLatencyHistogramName with
      | Some err, _, _, _ => Err err
      | None, Some err, _, _ => Err err
      | None, None, Some err, _ => Err err
      | None, None, None, Some err => Err err
      | None, None, None, None =>
          Ok (Some {| sm_counter := true; sm_messageCounter := true;
                      sm_firstResponseLatencyHistogram := true;
                      sm_messageLatencyHistogram := true |})
      end
  end.

Record monitoredStream (S : Type) := {
  mo_ServerStream : S;
  mo_metrics : streamMetrics;
  mo_operation : string;
  mo_firstResponseRecorded : bool;   (* the sync.Once *)
  mo_records : list record;
}.
Arguments mo_ServerStream {S}.
Arguments mo_metrics {S}.
Arguments mo_operation {S}.
Arguments mo_firstResponseRecorded {S}.
Arguments mo_records {S}.

Section Counter.
Context {M S : Type} `{ServerStream M S} (FromGRPCCode : grpc_code -> Z).

Definition message_records (m : streamMetrics) (operation : string) (d : direction) : list record :=
  ((if sm_messageCounter m then [MessageCount operation d] else [])
   ++ (if sm_messageLatencyHistogram m then [MessageLatency operation d] else []))%list.

Definition monitored_SendMsg (msg : M) (s : monitoredStream S)
    : monitoredStream S * option go_error :=
  let '(inner, err) := SendMsg msg (mo_ServerStream s) in
  match err with
  | Some _ => ({| mo_ServerStream := inner; mo_metrics := mo_metrics s;
                  mo_operation := mo_operation s;
                  mo_firstResponseRecorded := mo_firstResponseRecorded s;
                  mo_records := mo_records s |}, err)
  | None =>
      let records := (mo_records s ++ message_records (mo_metrics s) (mo_operation s) sent)%list in
      let first := sm_firstResponseLatencyHistogram (mo_metrics s)
                   && negb (mo_firstResponseRecorded s) in
      ({| mo_ServerStream := inner; mo_metrics := mo_metrics s; mo_operation := mo_operation s;
          mo_firstResponseRecorded := mo_firstResponseRecorded s || first;
          mo_records := (records ++ if first then [FirstResponse (mo_operation s)] else [])%list |},
       None)
  end.

Definition monitored_RecvMsg (s : monitoredStream S) : monitoredStream S * result M :=
  let '(inner, res) := RecvMsg (mo_ServerStream s) in
  ({| mo_ServerStream := inner; mo_metrics := mo_metrics s; mo_operation := mo_operation s;
      mo_firstResponseRecorded := mo_firstResponseRecorded s;
      mo_records := match res with
                    | Ok _ => (mo_records s
                               ++ message_records (mo_metrics s) (mo_operation s) received)%list
                    | Err _ => mo_records s
                    end |}, res).

#[export] Instance monitoredStream_stream : ServerStream M (monitoredStream S) := {|
  SendMsg := monitored_SendMsg;
  RecvMsg := monitored_RecvMsg;
|}.

(** The interceptor: the stream, its error, and what was recorded. *)
Definition newStreamCounterInterceptor (m : option streamMetrics) (operation : string)
    (handler : Handler M) (ss : S) : S * option go_error * list record :=
  match m with
  | None => let '(s, err) := run handler ss in (s, err, [])
  | Some m =>
      let '(inner, err, records) :=
        if sm_messageCounter m || sm_messageLatencyHistogram m || sm_firstResponseLatencyHistogram m
        then
          let '(w, err) := run handler
            {| mo_ServerStream := ss; mo_metrics := m; mo_operation := operation;
               mo_firstResponseRecorded := false; mo_records := [] |} in
          (mo_ServerStream w, err, mo_records w)
        else let '(s, err) := run handler ss in (s, err, []) in
      (inner, err,
       if sm_counter m
       then (records ++ [StreamCount operation (FromGRPCCode (stream_code err))])%list
       else records)
  end.
End Counter.

(** * Logging *)

Inductive level := LevelInfo | LevelWarn | LevelError.

Definition levelForCode (code : grpc_code) : level :=
  match code with
  | OK | Canceled | DeadlineExceeded => LevelInfo
  | InvalidArgument | NotFound | AlreadyExists | PermissionDenied | Unauthenticated
  | FailedPrecondition | OutOfRange => LevelWarn
  | Unknown | Internal | Unimplemented | Unavailable | DataLoss => LevelError
  | ResourceExhausted | Aborted => LevelWarn
  end.

Inductive entry (M : Type) :=
  | StreamOpened (operation : string)
  | StreamRequest (operation : string) (args : M)
  | StreamClosed (l : level) (operation : string) (code : Z) (sentCount receivedCount : Z).
Arguments StreamOpened {M} operation.
Arguments StreamRequest {M} operation args.
Arguments StreamClosed {M} l operation code sentCount receivedCount.

Record loggingStream (M S : Type) := {
  lo_ServerStream : S;
  lo_operation : string;
  lo_sent : Z;
  lo_received : Z;
  lo_argsLogged : bool;   (* the sync.Once *)
  lo_entries : list (entry M);
}.
Arguments lo_ServerStream {M S}.
Arguments lo_operation {M S}.
Arguments lo_sent {M S}.
Arguments lo_received {M S}.
Arguments lo_argsLogged {M S}.
Arguments lo_entries {M S}.

Section Logger.
Context {M S : Type} `{ServerStream M S} (FromGRPCCode : grpc_code -> Z).

Definition logging_SendMsg (msg : M) (s : loggingStream M S)
    : loggingStream M S * option go_error :=
  let '(inner, err) := SendMsg msg (lo_ServerStream s) in
  ({| lo_ServerStream := inner; lo_operation := lo_operation s;
      lo_sent := match err with None => (lo_sent s + 1)%Z | Some _ => lo_sent s end;
      lo_received := lo_received s; lo_argsLogged := lo_argsLogged s;
      lo_entries := lo_entries s |}, err).

Definition logging_RecvMsg (s : loggingStream M S) : loggingStream M S * result M :=
  let '(inner, res) := RecvMsg (lo_ServerStream s) in
  match res with
  | Err _ => ({| lo_ServerStream := inner; lo_operation := lo_operation s; lo_sent := lo_sent s;
                 lo_received := lo_received s; lo_argsLogged := lo_argsLogged s;
                 lo_entries := lo_entries s |}, res)
  | Ok m =>
      ({| lo_ServerStream := inner; lo_operation := lo_operation s; lo_sent := lo_sent s;
          lo_received := (lo_received s + 1)%Z; lo_argsLogged := true;
          lo_entries := if lo_argsLogged s then lo_entries s
                        else (lo_entries s ++ [StreamRequest (lo_operation s) m])%list |}, res)
  end.

#[export] Instance loggingStream_stream : ServerStream M (loggingStream M S) := {|
  SendMsg := logging_SendMsg;
  RecvMsg := logging_RecvMsg;
|}.

Definition newStreamLoggingInterceptor (operation : string) (handler : Handler M) (ss : S)
    : S * option go_error * list (entry M) :=
  let '(w, err) := run handler
    {| lo_ServerStream := ss; lo_operation := operation; lo_sent := 0; lo_received := 0;
       lo_argsLogged := false; lo_entries := [StreamOpened operation] |} in
  let code := stream_code err in
  (lo_ServerStream w, err,
   lo_entries w ++ [StreamClosed (levelForCode code) operation (FromGRPCCode code)
                      (lo_sent w) (lo_received w)])%list.
End Logger.

(** * The streams *)

Record simpleStream (A : Type) := { ss_results : list A; ss_index : nat }.
Arguments ss_results {A}.
Arguments ss_index {A}.

(** [result := s.results[s.index]; s.index++] *)
Definition stream_next {A} (s : simpleStream A) : simpleStream A * result A :=
  match ss_results s !! ss_index s with
  | None => (s, Err (ESentinel EOF))
  | Some a => ({| ss_results := ss_results s; ss_index := S (ss_index s) |}, Ok a)
  end.

Definition simpleLookupObjects_Recv : simpleStream LookupObjectsItem ->
  simpleStream LookupObjectsItem * result LookupObjectsItem := stream_next.
Definition simpleLookupSubjects_Recv : simpleStream LookupSubjectsItem ->
  simpleStream LookupSubjectsItem * result LookupSubjectsItem := stream_next.
Definition simpleReadTuples_Recv : simpleStream ReadTuplesItem ->
  simpleStream ReadTuplesItem * result ReadTuplesItem := stream_next.

(** * The loops *)

(** [for { item, err := clientStream.Recv(); ...; stream.Send(conv(item)) }];
    [None] when [fuel] rounds do not end it.  [send i] is the error of the [i]-th
    call of Send. *)
Fixpoint stream_loop {A B S : Type} (recv : S -> S * result A) (conv : A -> B)
    (send : nat -> option go_error) (fuel i : nat) (s : S) : option (list B * result unit) :=
  match fuel with
  | O => None
  | S fuel =>
      match recv s with
      | (_, Err err) => Some ([], if bool_decide (err = ESentinel EOF) then Ok tt else Err err)
      | (s, Ok item) =>
          match send i with
          | Some err => Some ([], Err err)
          | None =>
              match stream_loop recv conv send fuel (Datatypes.S i) s with
              | None => None
              | Some (msgs, res) => Some (conv item :: msgs, res)
              end
          end
      end
  end.

Definition StreamedListObjects_loop (send : nat -> option go_error) (fuel : nat)
    (s : simpleStream LookupObjectsItem) :=
  stream_loop simpleLookupObjects_Recv ToLookupObjectsResponse send fuel 0 s.
Definition StreamedListSubjects_loop (send : nat -> option go_error) (fuel : nat)
    (s : simpleStream LookupSubjectsItem) :=
  stream_loop simpleLookupSubjects_Recv ToLookupSubjectsResponse send fuel 0 s.
Definition ReadTuples_loop (send : nat -> option go_error) (fuel : nat)
    (s : simpleStream ReadTuplesItem) :=
  stream_loop simpleReadTuples_Recv TupleService.readTuplesItemToProto send fuel 0 s.

(** One round per item and one for [io.EOF] are enough: the loop sends what is
    left of the results, in order, until a send fails. *)
Lemma stream_loop_sends {A B} (conv : A -> B) send fuel : forall i (s : simpleStream A),
  (length (ss_results s) - ss_index s < fuel)%nat ->
  stream_loop stream_next conv send fuel i s
  = Some (send_all send i (conv <$> drop (ss_index s) (ss_results s))).
Proof.
  induction fuel as [|fuel IH]; intros i [l n] Hf; simpl in *; [lia|].
  unfold stream_next. simpl. destruct (l !! n) as [a|] eqn:Ha.
  - rewrite (drop_S _ _ _ Ha). simpl. destruct (send i); [done|].
    apply lookup_lt_Some in Ha. rewrite IH by (simpl; lia). simpl.
    by destruct (send_all send (S i) _).
  - apply lookup_ge_None in Ha. by rewrite drop_ge.
Qed.

(** The endpoints: their loops over a fresh stream are the calls of [send_all]. *)
Lemma endpoint_loops send : 
  (forall l, StreamedListObjects_loop send (S (length l)) {| ss_results := l; ss_index := 0 |}
             = Some (send_all send 0 (ToLookupObjectsResponse <$> l))) /\
  (forall l, StreamedListSubjects_loop send (S (length l)) {| ss_results := l; ss_index := 0 |}
             = Some (send_all send 0 (ToLookupSubjectsResponse <$> l))) /\
  (forall l, ReadTuples_loop send (S (length l)) {| ss_results := l; ss_index := 0 |}
             = Some (send_all send 0 (TupleService.readTuplesItemToProto <$> l))).
Proof. split_and!; intros l; by apply stream_loop_sends; simpl; lia. Qed.
