(* ===== verification/StreamsProps.v ===== *)
(** Properties of the stream interceptors (Streams.v): they do not change what a
    handler does or returns, and what they count and log is what happened on the
    stream. *)
From stdpp Require Import base tactics list strings gmap.
From Stdlib Require Import ZArith Lia Ascii.
From S2P Require Import Prelude GoStrings Common Streams.

Local Open Scope string_scope.

(** What happened on a stream: the messages sent and received without error. *)
Inductive happening (M : Type) := Sent (m : M) | Received (m : M).
Arguments Sent {M} m.
Arguments Received {M} m.

Section History.
Context {M S : Type} `{ServerStream M S}.

Fixpoint history (h : Handler M) (s : S) : list (happening M) :=
  match h with
  | Return _ => []
  | Send m k =>
      let '(s, err) := SendMsg m s in
      match err with None => Sent m :: history (k err) s | Some _ => history (k err) s end
  | Recv k =>
      let '(s, res) := RecvMsg s in
      match res with Ok m => Received m :: history (k res) s | Err _ => history (k res) s end
  end.

Definition is_sent (e : happening M) : bool := match e with Sent _ => true | Received _ => false end.
Definition sent_count (l : list (happening M)) : nat := length (List.filter is_sent l).
Definition received_count (l : list (happening M)) : nat :=
  length (List.filter (fun e => negb (is_sent e)) l).

Fixpoint first_received (l : list (happening M)) : option M :=
  match l with [] => None | Sent _ :: l => first_received l | Received m :: _ => Some m end.

(** * Counting *)

(** The records of a history; [first] says that a response was recorded. *)
Fixpoint records_of (m : streamMetrics) (op : string) (first : bool) (l : list (happening M))
    : list record :=
  match l with
  | [] => []
  | Received _ :: l => (message_records m op received ++ records_of m op first l)%list
  | Sent _ :: l =>
      let now := sm_firstResponseLatencyHistogram m && negb first in
      (message_records m op sent ++ (if now then [FirstResponse op] else [])
       ++ records_of m op (first || now) l)%list
  end.

Lemma monitored_run h : forall (w : monitoredStream S),
  let '(w', err) := run h w in
  run h (mo_ServerStream w) = (mo_ServerStream w', err) /\
  mo_records w' = (mo_records w ++ records_of (mo_metrics w) (mo_operation w)
                     (mo_firstResponseRecorded w) (history h (mo_ServerStream w)))%list.
Proof.
  induction h as [err|m k IH|k IH]; intros w; simpl.
  - by rewrite app_nil_r.
  - unfold monitored_SendMsg. destruct (SendMsg m (mo_ServerStream w)) as [inner err].
    destruct err as [e|]; simpl;
      match goal with |- match run (?kk ?e) ?w' with _ => _ end => specialize (IH e w'); destruct (run (kk e) w') as [w2 err2] end;
      cbn [mo_ServerStream mo_metrics mo_operation mo_firstResponseRecorded mo_records] in IH;
      destruct IH as [-> ->]; (split; [done|]); [done|].
    by rewrite <- !(assoc_L app).
  - unfold monitored_RecvMsg. destruct (RecvMsg (mo_ServerStream w)) as [inner res].
    match goal with |- match run (?kk ?e) ?w' with _ => _ end => specialize (IH e w'); destruct (run (kk e) w') as [w2 err2] end.
    cbn [mo_ServerStream mo_metrics mo_operation mo_firstResponseRecorded mo_records] in IH.
    destruct IH as [-> ->]. split; [done|]. destruct res; simpl; [|done]. by rewrite <- (assoc_L app).
Qed.

Definition counted_records (r : record) (l : list record) : nat :=
  length (filter (fun x => x = r) l).

Lemma counted_app r l1 l2 :
  counted_records r (l1 ++ l2)%list = (counted_records r l1 + counted_records r l2)%nat.
Proof. unfold counted_records. by rewrite filter_app, length_app. Qed.

Lemma counted_single r x : counted_records r [x] = if decide (x = r) then 1%nat else 0%nat.
Proof. unfold counted_records. rewrite filter_cons. by case_decide. Qed.

Definition full_metrics : streamMetrics :=
  {| sm_counter := true; sm_messageCounter := true; sm_firstResponseLatencyHistogram := true;
     sm_messageLatencyHistogram := true |}.

Lemma records_counted op l : forall first,
  let recs := records_of full_metrics op first l in
  counted_records (MessageCount op sent) recs = sent_count l /\
  counted_records (MessageCount op received) recs = received_count l /\
  counted_records (FirstResponse op) recs
  = (if first then 0 else if (0 <? sent_count l)%nat then 1 else 0)%nat /\
  (forall c, counted_records (StreamCount op c) recs = 0%nat).
Proof.
  induction l as [|[m|m] l IH]; intros first; simpl.
  - unfold counted_records. simpl. by destruct first.
  - unfold message_records. simpl. destruct (IH (first || negb first)) as (E1 & E2 & E3 & E4).
    destruct first; simpl in *; unfold counted_records in *; simpl;
      repeat (rewrite filter_cons; case_decide; try done; simpl); rewrite ?E1, ?E2, ?E3;
      by split_all; try (intros c; specialize (E4 c); repeat (rewrite filter_cons; case_decide; try done; simpl)).
  - unfold message_records. simpl. destruct (IH first) as (E1 & E2 & E3 & E4).
    unfold counted_records in *; simpl; repeat (rewrite filter_cons; case_decide; try done; simpl);
      rewrite ?E1, ?E2, ?E3;
      by split_all; try (intros c; specialize (E4 c); repeat (rewrite filter_cons; case_decide; try done; simpl)).
Qed.

(** * Logging *)

Lemma logging_run h : forall (w : loggingStream M S),
  let '(w', err) := run h w in
  let l := history h (lo_ServerStream w) in
  run h (lo_ServerStream w) = (lo_ServerStream w', err) /\
  lo_sent w' = (lo_sent w + Z.of_nat (sent_count l))%Z /\
  lo_received w' = (lo_received w + Z.of_nat (received_count l))%Z /\
  lo_entries w' = (lo_entries w ++
    if lo_argsLogged w then []
    else match first_received l with
         | Some m => [StreamRequest (lo_operation w) m] | None => [] end)%list.
Proof.
  induction h as [err|m k IH|k IH]; intros w; simpl.
  - unfold sent_count, received_count. simpl. rewrite !Z.add_0_r.
    by destruct (lo_argsLogged w); rewrite app_nil_r.
  - unfold logging_SendMsg. destruct (SendMsg m (lo_ServerStream w)) as [inner err].
    match goal with |- match run (?kk ?e) ?w' with _ => _ end =>
      specialize (IH e w'); destruct (run (kk e) w') as [w2 err2] end.
    cbn [lo_ServerStream lo_operation lo_sent lo_received lo_argsLogged lo_entries] in IH.
    destruct IH as (-> & -> & -> & ->). unfold sent_count, received_count.
    destruct err as [e|]; simpl; split_all; done || lia.
  - unfold logging_RecvMsg. destruct (RecvMsg (lo_ServerStream w)) as [inner [m|e]]; simpl;
      (match goal with |- match run (?kk ?e) ?w' with _ => _ end =>
         specialize (IH e w'); destruct (run (kk e) w') as [w2 err2] end);
      cbn [lo_ServerStream lo_operation lo_sent lo_received lo_argsLogged lo_entries] in IH;
      destruct IH as (-> & -> & -> & ->); [|done].
    unfold sent_count, received_count. simpl. split_all; [done..|lia|].
    destruct (lo_argsLogged w); by rewrite ?app_nil_r.
Qed.

(** A stream is counted once, whatever happens on it: the interceptor
    calls the handler once and returns its error, records one stream with the
    code of that error, one message for each that was sent or received without
    error, and the latency of the first response exactly if there is one. *)
Theorem stream_counted_once FromGRPCCode operation handler (ss : S) s' err records
    (Hrun : newStreamCounterInterceptor FromGRPCCode (Some full_metrics) operation handler ss
            = (s', err, records)) :
  let l := history handler ss in
  run handler ss = (s', err) /\
  counted_records (StreamCount operation (FromGRPCCode (stream_code err))) records = 1%nat /\
  counted_records (MessageCount operation sent) records = sent_count l /\
  counted_records (MessageCount operation received) records = received_count l /\
  counted_records (FirstResponse operation) records
  = (if (0 <? sent_count l)%nat then 1 else 0)%nat.
Proof.
  unfold newStreamCounterInterceptor in Hrun. simpl in Hrun.
  match type of Hrun with context [run handler ?w] =>
    pose proof (monitored_run handler w) as Hm; destruct (run handler w) as [w' err'] end.
  injection Hrun as <- <- <-. simpl in Hm. destruct Hm as [Hs Hr]. rewrite Hr.
  destruct (records_counted operation (history handler ss) false) as (E1 & E2 & E3 & E4).
  simpl in *. rewrite !counted_app, E1, E2, E3, E4, !counted_single.
  split_all; [done|by case_decide|..]; case_decide; try done; by rewrite Nat.add_0_r.
Qed.

(** The log of a stream: it is opened and closed once, with the level and
    the code of the error that the handler returned and the numbers of messages
    that were sent and received without error; in between, the first request is
    logged and no other. *)
Theorem stream_logged FromGRPCCode operation handler (ss : S) :
  let l := history handler ss in
  let '(s', err) := run handler ss in
  newStreamLoggingInterceptor FromGRPCCode operation handler ss =
  (s', err,
   (StreamOpened operation ::
      match first_received l with Some m => [StreamRequest operation m] | None => [] end ++
    [StreamClosed (levelForCode (stream_code err)) operation (FromGRPCCode (stream_code err))
       (Z.of_nat (sent_count l)) (Z.of_nat (received_count l))])%list).
Proof.
  simpl. unfold newStreamLoggingInterceptor.
  match goal with |- context [run handler (Build_loggingStream ?a ?b ?c ?d ?e ?f ?g ?h)] =>
    pose proof (logging_run handler (Build_loggingStream a b c d e f g h)) as Hl;
    destruct (run handler (Build_loggingStream a b c d e f g h)) as [w' err'] end.
  simpl in Hl. destruct Hl as (-> & -> & -> & ->). done.
Qed.
End History.

(** * A stream *)

(** It receives what is in its list and accepts two messages. *)
#[export] Instance ex_stream : ServerStream string (list string * nat) := {|
  SendMsg m s := if (s.2 <? 2)%nat then ((s.1, Datatypes.S s.2), None)
                 else (s, Some (EStatus Unavailable "closed"));
  RecvMsg s := match s.1 with
               | [] => (s, Err (EMsg "EOF"))
               | m :: l => ((l, s.2), Ok m)
               end;
|}.

(** Read one request, answer three times, return the last error. *)
Definition ex_handler : Handler string :=
  Recv (fun r => match r with
                 | Err e => Return (Some e)
                 | Ok m => Send m (fun _ => Send m (fun _ => Send m (fun e => Return e)))
                 end).

Lemma stream_counted_once_witness :
  exists s' err records,
    newStreamCounterInterceptor (fun _ => 503%Z) (Some full_metrics) "op" ex_handler (["q"], 0%nat)
    = (s', err, records) /\
    counted_records (StreamCount "op" 503) records = 1%nat /\
    counted_records (MessageCount "op" sent) records = 2%nat /\
    counted_records (FirstResponse "op") records = 1%nat.
Proof.
  destruct (newStreamCounterInterceptor (fun _ => 503%Z) (Some full_metrics) "op" ex_handler
              (["q"], 0%nat)) as [[s' err] records] eqn:E.
  exists s', err, records. split; [done|].
  destruct (stream_counted_once (fun _ => 503%Z) "op" ex_handler (["q"], 0%nat) s' err records E)
    as (_ & H1 & H2 & _ & H4).
  exact (conj H1 (conj H2 H4)).
Defined.
