(* ===== verification/Migrations.v ===== *)
(** Schema migrations: internal/data/migrate.go and internal/data/migrations.

    GORM and the database are the class [SchemaDB]: the name of the dialect and
    the statements the migrations execute.  gormigrate is a library: its engine
    is the class [Gormigrate], a function of the migrations and the database.
    The advisory lock of PostgreSQL is modelled twice: as the statements one call
    issues here, and for several processes as a step relation in which the lock
    has one holder, in MigrationsProps.v.  Loggers only matter for the wrapping of the migrations. *)
From stdpp Require Import base tactics list strings gmap relations.
From Stdlib Require Import ZArith Lia Ascii.
From S2P Require Import Prelude GoStrings Common.

Local Open Scope string_scope.

(** * Migrations *)

Inductive statement :=
  | AutoMigrate (tables : list string)
  | DropTable (table : string)
  | Exec (sql : string).

Class SchemaDB (DB : Type) := {
  db_Name : DB -> string;
  exec : statement -> DB -> DB * option go_error;
}.

Record Migration (DB : Type) := {
  mig_ID : string;
  mig_Migrate : DB -> DB * option go_error;
  mig_Rollback : option (DB -> DB * option go_error);
}.
Arguments mig_ID {DB}.
Arguments mig_Migrate {DB}.
Arguments mig_Rollback {DB}.

(** ** The schema migrations *)

Section Schema.
Context {DB : Type} `{SchemaDB DB}.

Definition InitialSchema : Migration DB :=
  {| mig_ID := "20251210120000";
     mig_Migrate := exec (AutoMigrate ["resource"; "reporter_resources"; "reporter_representations";
                                       "common_representations"; "outbox_events"]);
     mig_Rollback := Some (fun tx => (tx, None)) |}.

Definition MetricsSummaryMigration : Migration DB :=
  {| mig_ID := "20260325120000";
     mig_Migrate := exec (AutoMigrate ["metrics_summaries"]);
     mig_Rollback := Some (exec (DropTable "metrics_summaries")) |}.

Definition index_body : string :=
  "IF NOT EXISTS idx_reporter_resources_not_tombstone ON reporter_resources (resource_type, reporter_type, reporter_instance_id) WHERE NOT tombstone".

Definition ReporterResourcesNotTombstoneIdxMigration : Migration DB :=
  {| mig_ID := "20260326120000";
     mig_Migrate := fun tx =>
       if bool_decide (db_Name tx = "postgres")
       then exec (Exec ("CREATE INDEX CONCURRENTLY " +:+ index_body)) tx
       else exec (Exec ("CREATE INDEX " +:+ index_body)) tx;
     mig_Rollback := Some (exec (Exec "DROP INDEX IF EXISTS idx_reporter_resources_not_tombstone")) |}.

Definition DropOutboxEventsMigration : Migration DB :=
  {| mig_ID := "20260803120000";
     mig_Migrate := fun tx =>
       match exec (Exec "DROP TABLE IF EXISTS outbox_events") tx with
       | (tx, Some err) => (tx, Some (EWrap "failed to drop outbox_events table" err))
       | (tx, None) => (tx, None)
       end;
     mig_Rollback := Some (fun tx =>
       (tx, Some (EMsg "irreversible migration: outbox_events table has been dropped and cannot be restored"))) |}.

Definition MigrationsList : list (Migration DB) :=
  [InitialSchema; MetricsSummaryMigration; ReporterResourcesNotTombstoneIdxMigration;
   DropOutboxEventsMigration].
End Schema.

(** * Timestamps

    [time.Parse("20060102150405", s)]: four digits for the year, two for each
    other field, and, although the layout has none, a fraction of a second of
    any length after a period or a comma.  The result orders as the instants
    do. *)
Definition digit (c : ascii) : option Z :=
  let n := Z.of_nat (nat_of_ascii c) in
  if ((48 <=? n) && (n <=? 57))%Z then Some (n - 48)%Z else None.

(** The number of the first [n] characters, all digits. *)
Fixpoint take_digits (n : nat) (s : string) (acc : Z) : option (Z * string) :=
  match n with
  | O => Some (acc, s)
  | S n' =>
      match s with
      | String c s' => match digit c with
                       | Some d => take_digits n' s' (acc * 10 + d)%Z
                       | None => None
                       end
      | EmptyString => None
      end
  end.

Definition is_leap (y : Z) : bool :=
  ((y mod 4 =? 0) && (negb (y mod 100 =? 0) || (y mod 400 =? 0)))%Z.

Definition daysIn (m y : Z) : Z :=
  if (m =? 2)%Z then (if is_leap y then 29 else 28)%Z
  else if ((m =? 4) || (m =? 6) || (m =? 9) || (m =? 11))%Z then 30%Z else 31%Z.

(** The rest after the seconds: nothing, or a fraction; nanoseconds, further
    digits dropped.  [scale] is the weight of the next digit. *)
Fixpoint fraction (s : string) (scale acc : Z) : option Z :=
  match s with
  | EmptyString => Some acc
  | String c s' => match digit c with
                   | Some d => fraction s' (scale / 10)%Z (acc + d * scale)%Z
                   | None => None
                   end
  end.

Definition parse_fraction (s : string) : option Z :=
  match s with
  | EmptyString => Some 0%Z
  | String c s' =>
      if bool_decide (c = "."%char) || bool_decide (c = ","%char)
      then (if bool_decide (s' = "") then None else fraction s' 100000000 0) else None
  end.

Definition in_range (lo hi z : Z) : option unit := if ((lo <=? z) && (z <=? hi))%Z then Some tt else None.

Definition parse_timestamp (s : string) : option Z :=
  '(year, s) ← take_digits 4 s 0;
  '(month, s) ← take_digits 2 s 0;
  _ ← in_range 1 12 month;
  '(day, s) ← take_digits 2 s 0;
  '(hour, s) ← take_digits 2 s 0;
  _ ← in_range 0 23 hour;
  '(minute, s) ← take_digits 2 s 0;
  _ ← in_range 0 59 minute;
  '(second, s) ← take_digits 2 s 0;
  _ ← in_range 0 59 second;
  nsec ← parse_fraction s;
  _ ← in_range 1 (daysIn month year) day;
  Some ((((((year * 12 + (month - 1)) * 31 + (day - 1)) * 24 + hour) * 60 + minute) * 60 + second)
        * 1000000000 + nsec)%Z.

(** * The list of migrations *)

(** An entry of the slice is a pointer.  [i] is the index and [prev] the instant
    of the entry before. *)
Fixpoint validate_from {DB} (prev : option Z) (migrations : list (option (Migration DB)))
    : result unit :=
  match migrations with
  | [] => Ok tt
  | None :: _ => Err (EMsg "migration is nil")
  | Some m :: rest =>
      if bool_decide (mig_ID m = "") then Err (EMsg "migration has empty ID")
      else
        match parse_timestamp (mig_ID m) with
        | None => Err (EMsg "migration ID is not a valid timestamp")
        | Some current =>
            if match prev with Some p => negb (p <? current)%Z | None => false end
            then Err (EMsg "migration ID must be strictly later than previous ID")
            else validate_from (Some current) rest
        end
  end.

Definition validateMigrationsList {DB} (migrations : list (option (Migration DB))) : result unit :=
  validate_from None migrations.

(** * The engine *)

Section Engine.
Context {DB : Type} `{SchemaDB DB}.

(** With a logger every migration is wrapped; a missing rollback becomes one
    that does nothing. *)
Definition wrap_migration (mig : Migration DB) : Migration DB :=
  {| mig_ID := mig_ID mig;
     mig_Migrate := fun tx => match mig_Migrate mig tx with
                              | (tx, Some err) => (tx, Some err)
                              | (tx, None) => (tx, None)
                              end;
     mig_Rollback := Some (fun tx =>
       match mig_Rollback mig with
       | None => (tx, None)
       | Some rollbackFn => match rollbackFn tx with
                            | (tx, Some err) => (tx, Some err)
                            | (tx, None) => (tx, None)
                            end
       end) |}.

Definition wrapGormigrateMigrationsWithLogger (migrations : list (Migration DB))
    : list (Migration DB) :=
  wrap_migration <$> migrations.

(** gormigrate with the options of [NewEngine]. *)
Class Gormigrate := {
  gm_Migrate : list (Migration DB) -> DB -> DB * option go_error;
  gm_MigrateTo : list (Migration DB) -> string -> DB -> DB * option go_error;
}.

Context `{Gormigrate}.

Definition engine_migrations (logger : bool) : list (Migration DB) :=
  if logger then wrapGormigrateMigrationsWithLogger MigrationsList else MigrationsList.

(** * The advisory lock *)

Definition MigrationAdvisoryLockKey : Z := 1234567890.
Definition SQLitePragmaForeignKeysOn : string := "PRAGMA foreign_keys = ON".

(** What one call does on its dedicated connection. *)
Inductive lock_event := GetConn | AdvisoryLock | Body | AdvisoryUnlock | CloseConn.

(** The errors it may meet: of [db.DB()], of [sqlDB.Conn], of the statement
    that locks.  The one of the unlock is ignored. *)
Record lock_env := {
  le_db : option go_error;
  le_conn : option go_error;
  le_lock : option go_error;
}.

Definition isPostgres (db : DB) : bool := bool_decide (db_Name db = "postgres").

Definition WithAdvisoryLock (e : lock_env) (fn : DB -> DB * option go_error) (db : DB)
    : DB * option go_error * list lock_event :=
  if negb (isPostgres db) then let '(db, err) := fn db in (db, err, [Body])
  else
    match le_db e, le_conn e, le_lock e with
    | Some err, _, _ => (db, Some err, [])
    | None, Some err, _ => (db, Some err, [])
    | None, None, Some err => (db, Some err, [GetConn; CloseConn])
    | None, None, None =>
        let '(db, err) := fn db in
        (db, err, [GetConn; AdvisoryLock; Body; AdvisoryUnlock; CloseConn])
    end.

(** * The runner *)

(** The function passed to [withAdvisoryLock]. *)
Definition locked_body (migrateFn : DB -> DB * option go_error) (tx : DB) : DB * option go_error :=
  match migrateFn tx with
  | (tx, Some err) => (tx, Some err)
  | (tx, None) =>
      if bool_decide (db_Name tx = "sqlite")
      then exec (Exec SQLitePragmaForeignKeysOn) tx else (tx, None)
  end.

Definition runMigrations (e : lock_env) (migrateFn : DB -> DB * option go_error) (db : option DB)
    : option DB * option go_error * list lock_event :=
  match db with
  | None => (None, Some (EMsg "cannot run migrations with nil db"), [])
  | Some db =>
      let '(db, err, evs) := WithAdvisoryLock e (locked_body migrateFn) db in
      (Some db, err, evs)
  end.

Definition Run (e : lock_env) (logger : bool) (db : option DB)
    : option DB * option go_error * list lock_event :=
  runMigrations e (gm_Migrate (engine_migrations logger)) db.

Definition RunTo (e : lock_env) (logger : bool) (targetID : string) (db : option DB)
    : option DB * option go_error * list lock_event :=
  if bool_decide (targetID = "")
  then (db, Some (EMsg "cannot run migrations with empty targetID"), [])
  else runMigrations e (gm_MigrateTo (engine_migrations logger) targetID) db.

(** internal/data/migrate.go *)
Definition data_Migrate (e : lock_env) (logger : bool) (db : option DB)
    : option DB * option go_error * list lock_event :=
  match db with
  | None => (None, Some (EMsg "cannot migrate with nil db"), [])
  | Some _ => Run e logger db
  end.

Definition data_MigrateTo (e : lock_env) (logger : bool) (targetID : string) (db : option DB)
    : option DB * option go_error * list lock_event :=
  match db with
  | None => (None, Some (EMsg "cannot migrate with nil db"), [])
  | Some _ =>
      if bool_decide (targetID = "")
      then (db, Some (EMsg "cannot migrate with empty targetID"), [])
      else RunTo e logger targetID db
  end.
End Engine.
