(* ===== verification/MigrationsProps.v ===== *)
(** Properties of the migrations (Migrations.v): which lists the start-up check
    accepts, what the wrapping for logging keeps, and that several processes
    migrating one PostgreSQL database behave as if they did it one after the
    other. *)
From stdpp Require Import base tactics list strings gmap relations sorting.
From Stdlib Require Import ZArith Lia Ascii.
From S2P Require Import Prelude GoStrings Common Migrations.

Local Open Scope string_scope.

(** * The start-up check *)

Section Validate.
Context {DB : Type}.
Implicit Types (m : Migration DB) (ms : list (option (Migration DB))).

(** The instants of a list of migrations. *)
Definition instants (l : list (Migration DB)) (ts : list Z) : Prop :=
  Forall2 (fun m t => parse_timestamp (mig_ID m) = Some t) l ts.

Definition later_than (prev : option Z) (t : Z) : Prop :=
  match prev with Some p => (p < t)%Z | None => True end.

Lemma validate_from_spec ms : forall prev,
  validate_from prev ms = Ok tt <->
  exists l ts, ms = Some <$> l /\ instants l ts /\ Forall (later_than prev) ts /\
               StronglySorted Z.lt ts.
Proof.
  induction ms as [|[m|] ms IH]; intros prev; simpl.
  - split; [|done]. intros _. exists [], []. repeat constructor.
  - destruct (bool_decide_reflect (mig_ID m = "")) as [Hid|Hid].
    { split; [done|]. intros ([|m' l] & ts & Hms & Hts & _); [done|]. simplify_eq/=.
      apply Forall2_cons_inv_l in Hts as (t & ts' & Ht & _). by rewrite Hid in Ht. }
    destruct (parse_timestamp (mig_ID m)) as [t|] eqn:Ht; last first.
    { split; [done|]. intros ([|m' l] & ts & Hms & Hts & _); [done|]. simplify_eq/=.
      apply Forall2_cons_inv_l in Hts as (t & ts' & Ht' & _). congruence. }
    assert (Hb : (if match prev with Some p => negb (p <? t)%Z | None => false end
                  then False else True) <-> later_than prev t).
    { destruct prev as [p|]; simpl; [|done]. destruct (Z.ltb_spec p t); simpl; split; (done || lia). }
    destruct (match prev with Some p => negb (p <? t)%Z | None => false end).
    + split; [done|]. intros ([|m' l] & ts & Hms & Hts & Hl & _); [done|]. simplify_eq/=.
      apply Forall2_cons_inv_l in Hts as (t' & ts' & Ht' & _ & ->).
      apply Forall_cons in Hl as [Hl _]. simplify_eq. destruct (proj2 Hb Hl).
    + rewrite IH. split.
      * intros (l & ts & -> & Hts & Hl & Hs). exists (m :: l), (t :: ts).
        assert (Forall (Z.lt t) ts) by done.
        split; [done|]. split; [by constructor|]. split; [|by constructor].
        constructor; [by apply Hb|]. eapply Forall_impl; [done|]. intros u Hu.
        destruct prev as [p|]; [|done]. simpl in *. assert (p < t)%Z by by apply Hb. lia.
      * intros ([|m' l] & ts & Hms & Hts & Hl & Hs); [done|]. simplify_eq/=.
        apply Forall2_cons_inv_l in Hts as (t' & ts' & Ht' & Hts & ->). simplify_eq.
        inversion Hs; subst. by exists l, ts'.
  - split; [done|]. by intros ([|m' l] & ts & Hms & _).
Qed.

Lemma instants_NoDup l ts :
  instants l ts -> StronglySorted Z.lt ts -> NoDup (mig_ID <$> l).
Proof.
  unfold instants. induction 1 as [|m t l ts Hm Hl IH]; intros Hs; simpl; constructor.
  - intros (m' & Hid & Hin)%list_elem_of_fmap. apply list_elem_of_lookup in Hin as [i Hi].
    destruct (Forall2_lookup_l _ _ _ _ _ Hl Hi) as (t' & Ht' & Hp).
    inversion Hs as [|? ? _ Hlt]; subst. rewrite Forall_lookup in Hlt. apply Hlt in Ht'.
    rewrite <- Hid, Hm in Hp. simplify_eq. lia.
  - inversion Hs; auto.
Qed.
End Validate.

(** The check of the list of migrations at start-up (which panics on an
    error) accepts a list exactly when no entry is nil, every ID is a timestamp
    and the instants strictly increase; an accepted list has no ID twice.  The
    list of the program is accepted on every database, with its IDs as they are
    or wrapped for logging. *)
Theorem migrations_validated (DB : Type) (HDB : SchemaDB DB) (ms : list (option (Migration DB))) :
  (validateMigrationsList ms = Ok tt <->
   exists l ts, ms = Some <$> l /\ instants l ts /\ StronglySorted Z.lt ts) /\
  (validateMigrationsList ms = Ok tt ->
   exists l, ms = Some <$> l /\ NoDup (mig_ID <$> l)) /\
  validateMigrationsList (Some <$> MigrationsList (DB := DB)) = Ok tt /\
  validateMigrationsList (Some <$> wrapGormigrateMigrationsWithLogger (MigrationsList (DB := DB)))
    = Ok tt.
Proof.
  assert (Hspec : validateMigrationsList ms = Ok tt <->
    exists l ts, ms = Some <$> l /\ instants l ts /\ StronglySorted Z.lt ts).
  { unfold validateMigrationsList. rewrite validate_from_spec.
    split; intros (l & ts & ?); exists l, ts; intuition.
    by apply Forall_true. }
  split; [exact Hspec|]. split; [|done].
  intros (l & ts & -> & Hts & Hs)%Hspec. exists l. split; [done|]. by eapply instants_NoDup.
Qed.

(** * Several processes

    Each process calls [data.Migrate] on one PostgreSQL database.  The body
    under the lock is a sequence of statements of the engine, [body_step] with a
    local state [L]; statements of different processes interleave as the lock
    allows.  The lock of PostgreSQL has one holder and waits. *)

Inductive proc_phase (L : Type) :=
  | Waiting                              (* before pg_advisory_lock returns *)
  | Running (l : L)                      (* inside fn *)
  | Releasing (err : option go_error)    (* fn has returned, the deferred unlock has not run *)
  | Done (err : option go_error).        (* Migrate has returned *)
Arguments Waiting {L}.
Arguments Running {L} l.
Arguments Releasing {L} err.
Arguments Done {L} err.

Record system (L DB : Type) := {
  sys_db : DB;
  sys_lock : option nat;
  sys_procs : list (proc_phase L);
}.
Arguments Build_system {L DB}.
Arguments sys_db {L DB}.
Arguments sys_lock {L DB}.
Arguments sys_procs {L DB}.

(** The error a call meets before it has the lock. *)
Definition lock_failure (e : lock_env) : option go_error :=
  match le_db e, le_conn e, le_lock e with
  | Some err, _, _ | None, Some err, _ | None, None, Some err => Some err
  | None, None, None => None
  end.

Definition in_section {L} (p : proc_phase L) : Prop :=
  match p with Running _ | Releasing _ => True | Waiting | Done _ => False end.

Definition finished {L} (p : proc_phase L) : Prop :=
  match p with Done _ => True | _ => False end.

(** Case analysis on a lookup in a list with an updated entry. *)
Ltac updated H :=
  apply list_lookup_insert_Some in H as [(<- & H & _)|[? H]];
  [first [discriminate H | injection H as <- | subst]|].

Section Processes.
Context {DB : Type} `{SchemaDB DB} `{!Gormigrate (DB := DB)}.
Context {L : Type} (start : L) (body_step : L -> DB -> DB * (L + option go_error)).
Context (envs : list lock_env) (logger : bool).
Notation system := (system L DB).

Definition body : DB -> DB * option go_error :=
  locked_body (gm_Migrate (engine_migrations logger)).

Inductive migration_step : system -> system -> Prop :=
  | step_fail s i e err :
      sys_procs s !! i = Some Waiting -> envs !! i = Some e -> lock_failure e = Some err ->
      migration_step s {| sys_db := sys_db s; sys_lock := sys_lock s;
                          sys_procs := <[i := Done (Some err)]> (sys_procs s) |}
  | step_lock s i e :
      sys_procs s !! i = Some Waiting -> envs !! i = Some e -> lock_failure e = None ->
      sys_lock s = None ->
      migration_step s {| sys_db := sys_db s; sys_lock := Some i;
                          sys_procs := <[i := Running start]> (sys_procs s) |}
  | step_work s i l db l' :
      sys_procs s !! i = Some (Running l) -> body_step l (sys_db s) = (db, inl l') ->
      migration_step s {| sys_db := db; sys_lock := sys_lock s;
                          sys_procs := <[i := Running l']> (sys_procs s) |}
  | step_return s i l db err :
      sys_procs s !! i = Some (Running l) -> body_step l (sys_db s) = (db, inr err) ->
      migration_step s {| sys_db := db; sys_lock := sys_lock s;
                          sys_procs := <[i := Releasing err]> (sys_procs s) |}
  | step_unlock s i err :
      sys_procs s !! i = Some (Releasing err) ->
      migration_step s {| sys_db := sys_db s; sys_lock := None;
                          sys_procs := <[i := Done err]> (sys_procs s) |}.

Definition launched (db : DB) : system :=
  {| sys_db := db; sys_lock := None; sys_procs := replicate (length envs) Waiting |}.

(** The steps of one body, uninterrupted. *)
Inductive body_star : L -> DB -> L -> DB -> Prop :=
  | body_refl l db : body_star l db l db
  | body_snoc l db l1 db1 l2 db2 :
      body_star l db l1 db1 -> body_step l1 db1 = (db2, inl l2) -> body_star l db l2 db2.

(** What a call does on its connection, as the phases have it: the body runs
    between lock and unlock, and not at all without the lock. *)
Definition lock_discipline (e : lock_env) (evs : list lock_event) : Prop :=
  match lock_failure e with
  | None => evs = [GetConn; AdvisoryLock; Body; AdvisoryUnlock; CloseConn]
  | Some _ => evs = [] \/ evs = [GetConn; CloseConn]
  end.

(** Calls of [Migrate] one after the other, with what each answers. *)
Inductive serial (db : DB) : list (nat * option go_error) -> DB -> Prop :=
  | serial_nil : serial db [] db
  | serial_snoc h db1 i e db2 err evs :
      serial db h db1 -> envs !! i = Some e ->
      data_Migrate e logger (Some db1) = (Some db2, err, evs) -> lock_discipline e evs ->
      serial db (h ++ [(i, err)])%list db2.

(** Uninterrupted, the steps compute the function; statements do not change
    the dialect. *)
Hypothesis body_steps : forall l db1 db db' err,
  body_star start db1 l db -> body_step l db = (db', inr err) -> body db1 = (db', err).
Hypothesis body_dialect : forall l db1 db,
  body_star start db1 l db -> isPostgres db1 = true -> isPostgres (fst (body_step l db)) = true.

Lemma Migrate_locked e db db' err :
  isPostgres db = true -> lock_failure e = None -> body db = (db', err) ->
  data_Migrate e logger (Some db)
  = (Some db', err, [GetConn; AdvisoryLock; Body; AdvisoryUnlock; CloseConn]).
Proof.
  intros Hp He Hb. unfold data_Migrate, Run, runMigrations, WithAdvisoryLock. rewrite Hp. simpl.
  unfold lock_failure in He. destruct (le_db e), (le_conn e), (le_lock e); try done.
  unfold body in Hb. by rewrite Hb.
Qed.

Lemma Migrate_not_locked e db err :
  isPostgres db = true -> lock_failure e = Some err ->
  exists evs, data_Migrate e logger (Some db) = (Some db, Some err, evs) /\ lock_discipline e evs.
Proof.
  intros Hp He. unfold data_Migrate, Run, runMigrations, WithAdvisoryLock. rewrite Hp. simpl.
  unfold lock_discipline, lock_failure in *.
  destruct (le_db e), (le_conn e), (le_lock e); simplify_eq; eauto.
Qed.

(** The invariant: [h] are the calls that have taken effect, [db1] the database
    after them, and the holder of the lock is somewhere in its body on it. *)
Record serialized (db0 : DB) (s : system) (h : list (nat * option go_error)) (db1 : DB) : Prop := {
  sz_length : length (sys_procs s) = length envs;
  sz_serial : serial db0 h db1;
  sz_nodup : NoDup h.*1;
  sz_history : forall i err,
    (i, err) ∈ h <-> sys_procs s !! i = Some (Done err) \/ sys_procs s !! i = Some (Releasing err);
  sz_dialect : isPostgres db1 = true;
  sz_holder : forall i p, sys_procs s !! i = Some p -> (in_section p <-> sys_lock s = Some i);
  sz_locked : forall i, sys_lock s = Some i ->
    exists e p, envs !! i = Some e /\ lock_failure e = None /\ sys_procs s !! i = Some p;
  sz_running : forall i l, sys_procs s !! i = Some (Running l) -> body_star start db1 l (sys_db s);
  sz_idle : (forall i l, sys_procs s !! i <> Some (Running l)) -> sys_db s = db1;
}.

Lemma serialized_launched db : isPostgres db = true -> serialized db (launched db) [] db.
Proof.
  intros Hp. split; simpl; try done.
  - apply length_replicate.
  - constructor.
  - constructor.
  - intros i err. split; [by intros ?%not_elem_of_nil|].
    intros [Hi|Hi]; by apply lookup_replicate in Hi as [? _].
  - intros i p [-> _]%lookup_replicate. split; done.
  - by intros i l [? _]%lookup_replicate.
Qed.

Lemma pending_not_in_history db0 s h db1 i p :
  serialized db0 s h db1 -> sys_procs s !! i = Some p ->
  (p = Waiting \/ exists l, p = Running l) -> i ∉ h.*1.
Proof.
  intros Hs Hi Hp ([j err] & -> & Hin)%list_elem_of_fmap.
  apply (sz_history _ _ _ _ Hs) in Hin. simpl in *. destruct Hp as [->|[l ->]]; intuition congruence.
Qed.

(** The history with one call more. *)
Lemma history_snoc (procs : list (proc_phase L)) h i p q err :
  procs !! i = Some p ->
  (forall j e, (j, e) ∈ h <-> procs !! j = Some (Done e) \/ procs !! j = Some (Releasing e)) ->
  i ∉ h.*1 -> (q = Done err \/ q = Releasing err) ->
  forall j e, (j, e) ∈ (h ++ [(i, err)])%list <->
    <[i := q]> procs !! j = Some (Done e) \/ <[i := q]> procs !! j = Some (Releasing e).
Proof.
  intros Hi Hh Hn Hq j e. rewrite elem_of_app, list_elem_of_singleton, Hh.
  assert (Hlt := lookup_lt_Some _ _ _ Hi).
  destruct (decide (j = i)) as [->|Hj].
  - rewrite list_lookup_insert_eq by done. rewrite <- Hh. split.
    + intros [Hin|?]; [|destruct Hq; simplify_eq; auto].
      destruct Hn. apply list_elem_of_fmap. by exists (i, e).
    + intros [?|?]; destruct Hq; simplify_eq; auto.
  - rewrite list_lookup_insert_ne by done. intuition congruence.
Qed.

(** The history when no call takes effect. *)
Lemma history_same (procs : list (proc_phase L)) (h : list (nat * option go_error)) i p q :
  procs !! i = Some p ->
  (forall j e, (j, e) ∈ h <-> procs !! j = Some (Done e) \/ procs !! j = Some (Releasing e)) ->
  (forall e, p = Done e \/ p = Releasing e <-> q = Done e \/ q = Releasing e) ->
  forall j e, (j, e) ∈ h <->
    <[i := q]> procs !! j = Some (Done e) \/ <[i := q]> procs !! j = Some (Releasing e).
Proof.
  intros Hi Hh Hpq j e. rewrite Hh. assert (Hlt := lookup_lt_Some _ _ _ Hi).
  destruct (decide (j = i)) as [->|Hj].
  - rewrite list_lookup_insert_eq, Hi by done. specialize (Hpq e).
    split; intros [?|?]; simplify_eq.
    all: first [ destruct (proj1 Hpq (or_introl eq_refl)) | destruct (proj1 Hpq (or_intror eq_refl))
               | destruct (proj2 Hpq (or_introl eq_refl)) | destruct (proj2 Hpq (or_intror eq_refl)) ];
      subst; auto.
  - by rewrite !list_lookup_insert_ne by done.
Qed.

Lemma NoDup_history_snoc (h : list (nat * option go_error)) i err :
  NoDup h.*1 -> i ∉ h.*1 -> NoDup (h ++ [(i, err)])%list.*1.
Proof.
  intros Hn Hi. rewrite fmap_app. apply NoDup_app. split; [done|].
  split; [|apply NoDup_singleton]. intros j Hj [= ->]%list_elem_of_singleton. done.
Qed.

Lemma serialized_fail db0 s h db1 i e err :
  serialized db0 s h db1 ->
  sys_procs s !! i = Some Waiting -> envs !! i = Some e -> lock_failure e = Some err ->
  serialized db0 {| sys_db := sys_db s; sys_lock := sys_lock s;
                    sys_procs := <[i := Done (Some err)]> (sys_procs s) |}
    (h ++ [(i, Some err)])%list db1.
Proof.
  intros Hs Hi He Hf.
  assert (Hn : i ∉ h.*1) by (eapply pending_not_in_history; eauto).
  destruct Hs as [Hlen Hser Hnd Hh Hd Hho Hlo Hr Hid].
  assert (Hnl : sys_lock s <> Some i) by (rewrite <- (Hho _ _ Hi); simpl; auto).
  split; simpl.
  - by rewrite length_insert.
  - destruct (Migrate_not_locked e db1 err Hd Hf) as (evs & Hev & Hdis). by eapply serial_snoc.
  - by apply NoDup_history_snoc.
  - by apply history_snoc with (p := Waiting); auto.
  - done.
  - intros j q Hj. updated Hj; [by split|]. by apply Hho.
  - intros j Hj. destruct (Hlo j Hj) as (e' & q & ? & ? & ?). exists e', q.
    split_and!; [done|done|]. rewrite list_lookup_insert_ne by congruence. done.
  - intros j l Hj. updated Hj. by apply (Hr j).
  - intros Hno. apply Hid. intros j l Hj. apply (Hno j l).
    rewrite list_lookup_insert_ne; [done|]. congruence.
Qed.

Lemma serialized_lock db0 s h db1 i e :
  serialized db0 s h db1 ->
  sys_procs s !! i = Some Waiting -> envs !! i = Some e -> lock_failure e = None ->
  sys_lock s = None ->
  serialized db0 {| sys_db := sys_db s; sys_lock := Some i;
                    sys_procs := <[i := Running start]> (sys_procs s) |} h db1.
Proof.
  intros [Hlen Hser Hnd Hh Hd Hho Hlo Hr Hid] Hi He Hf Hl.
  assert (Hlt := lookup_lt_Some _ _ _ Hi).
  assert (Hno : forall j l, sys_procs s !! j <> Some (Running l)).
  { intros j l Hj. apply Hho in Hj. rewrite Hl in Hj. assert (None = Some j) by (by apply Hj). done. }
  split; simpl; try done.
  - by rewrite length_insert.
  - eapply history_same; [done|done|]. intros err. split; intros [|]; done.
  - intros j q Hj. updated Hj; [by split|]. specialize (Hho j q Hj). rewrite Hl in Hho.
    split; [by intros ?%Hho|]. intros [=]. congruence.
  - intros j [= <-]. exists e, (Running start). split_and!; [done|done|].
    by apply list_lookup_insert_eq.
  - intros j l Hj. updated Hj; [|by destruct (Hno j l)]. rewrite (Hid Hno). constructor.
  - intros Hno'. destruct (Hno' i start). by apply list_lookup_insert_eq.
Qed.

(** The process that runs holds the lock, and no other one runs. *)
Lemma running_alone db0 s h db1 i l :
  serialized db0 s h db1 -> sys_procs s !! i = Some (Running l) ->
  sys_lock s = Some i /\ forall j l', j <> i -> sys_procs s !! j <> Some (Running l').
Proof.
  intros Hs Hi. assert (Hl : sys_lock s = Some i) by (by apply (sz_holder _ _ _ _ Hs _ _ Hi)).
  split; [done|]. intros j l' Hne Hj. apply (sz_holder _ _ _ _ Hs) in Hj.
  assert (sys_lock s = Some j) by (by apply Hj). congruence.
Qed.

(** Rows of the invariant that a step of the holder keeps. *)
Lemma holder_updated db0 s h db1 i p q :
  serialized db0 s h db1 -> sys_procs s !! i = Some p -> in_section p -> in_section q ->
  (forall j r, <[i := q]> (sys_procs s) !! j = Some r -> (in_section r <-> sys_lock s = Some j)) /\
  (forall j, sys_lock s = Some j -> exists e r,
     envs !! j = Some e /\ lock_failure e = None /\ <[i := q]> (sys_procs s) !! j = Some r).
Proof.
  intros Hs Hi Hp Hq. assert (Hlt := lookup_lt_Some _ _ _ Hi).
  assert (Hl : sys_lock s = Some i) by (by apply (sz_holder _ _ _ _ Hs _ _ Hi)).
  split.
  - intros j r Hj. updated Hj; [by split|]. by apply (sz_holder _ _ _ _ Hs).
  - intros j Hj. destruct (sz_locked _ _ _ _ Hs j Hj) as (e & r & ? & ? & ?).
    assert (j = i) as -> by congruence. exists e, q. split_and!; [done|done|].
    by apply list_lookup_insert_eq.
Qed.

Lemma serialized_work db0 s h db1 i l db l' :
  serialized db0 s h db1 ->
  sys_procs s !! i = Some (Running l) -> body_step l (sys_db s) = (db, inl l') ->
  serialized db0 {| sys_db := db; sys_lock := sys_lock s;
                    sys_procs := <[i := Running l']> (sys_procs s) |} h db1.
Proof.
  intros Hs Hi Hb. assert (Hlt := lookup_lt_Some _ _ _ Hi).
  destruct (running_alone _ _ _ _ _ _ Hs Hi) as [Hl Ha].
  destruct (holder_updated _ _ _ _ _ _ (Running l') Hs Hi I I) as [H1 H2].
  destruct Hs as [Hlen Hser Hnd Hh Hd Hho Hlo Hr Hid]. split; simpl; try done.
  - by rewrite length_insert.
  - eapply history_same; [done|done|]. intros err. split; intros [|]; done.
  - intros j k Hj. updated Hj; [|by destruct (Ha j k)]. by eapply body_snoc; [apply (Hr i)|].
  - intros Hno. destruct (Hno i l'). by apply list_lookup_insert_eq.
Qed.

Lemma serialized_return db0 s h db1 i l db err :
  serialized db0 s h db1 ->
  sys_procs s !! i = Some (Running l) -> body_step l (sys_db s) = (db, inr err) ->
  serialized db0 {| sys_db := db; sys_lock := sys_lock s;
                    sys_procs := <[i := Releasing err]> (sys_procs s) |}
    (h ++ [(i, err)])%list db.
Proof.
  intros Hs Hi Hb.
  destruct (running_alone _ _ _ _ _ _ Hs Hi) as [Hl Ha].
  assert (Hn : i ∉ h.*1) by (eapply pending_not_in_history; eauto).
  destruct (holder_updated _ _ _ _ _ _ (Releasing err) Hs Hi I I) as [H1 H2].
  destruct Hs as [Hlen Hser Hnd Hh Hd Hho Hlo Hr Hid].
  destruct (Hlo i Hl) as (e & _ & He & Hf & _).
  split; simpl; try done.
  - by rewrite length_insert.
  - eapply serial_snoc; [done|done| |unfold lock_discipline; by rewrite Hf].
    apply Migrate_locked; [done|done|]. by eapply body_steps; [apply (Hr i)|].
  - by apply NoDup_history_snoc.
  - by eapply history_snoc; [done|done|done|right].
  - specialize (body_dialect l _ _ (Hr i l Hi) Hd). by rewrite Hb in body_dialect.
  - intros j k Hj. updated Hj. by destruct (Ha j k).
Qed.

Lemma serialized_unlock db0 s h db1 i err :
  serialized db0 s h db1 -> sys_procs s !! i = Some (Releasing err) ->
  serialized db0 {| sys_db := sys_db s; sys_lock := None;
                    sys_procs := <[i := Done err]> (sys_procs s) |} h db1.
Proof.
  intros [Hlen Hser Hnd Hh Hd Hho Hlo Hr Hid] Hi. assert (Hlt := lookup_lt_Some _ _ _ Hi).
  assert (Hl : sys_lock s = Some i) by (by apply (Hho _ _ Hi)).
  split; simpl; try done.
  - by rewrite length_insert.
  - eapply history_same; [done|done|]. intros e. split; intros [|]; simplify_eq; auto.
  - intros j q Hj. updated Hj; [by split|]. split; [|done].
    intros Hq. apply Hho in Hj. assert (sys_lock s = Some j) by (by apply Hj). congruence.
  - intros j l Hj. updated Hj. by apply (Hr j).
  - intros Hno. apply Hid. intros j l Hj. apply (Hno j l).
    rewrite list_lookup_insert_ne; [done|]. congruence.
Qed.

Lemma serialized_reachable db0 s :
  isPostgres db0 = true -> rtc migration_step (launched db0) s ->
  exists h db1, serialized db0 s h db1.
Proof.
  intros Hp Hr. pattern s. eapply rtc_ind_r; [| |exact Hr]; simpl.
  { exists [], db0. by apply serialized_launched. }
  intros s1 s2 _ Hstep (h & db1 & Hs).
  destruct Hstep; eauto using serialized_fail, serialized_lock, serialized_work,
    serialized_return, serialized_unlock.
Qed.

(** The step a given process can take, if any: a scheduler for examples. *)
Definition advance (s : system) (i : nat) : option system :=
  match sys_procs s !! i, envs !! i with
  | Some Waiting, Some e =>
      match lock_failure e, sys_lock s with
      | Some err, _ => Some {| sys_db := sys_db s; sys_lock := sys_lock s;
                               sys_procs := <[i := Done (Some err)]> (sys_procs s) |}
      | None, None => Some {| sys_db := sys_db s; sys_lock := Some i;
                              sys_procs := <[i := Running start]> (sys_procs s) |}
      | None, Some _ => None
      end
  | Some (Running l), _ =>
      match body_step l (sys_db s) with
      | (db, inl l') => Some {| sys_db := db; sys_lock := sys_lock s;
                                sys_procs := <[i := Running l']> (sys_procs s) |}
      | (db, inr err) => Some {| sys_db := db; sys_lock := sys_lock s;
                                 sys_procs := <[i := Releasing err]> (sys_procs s) |}
      end
  | Some (Releasing err), _ => Some {| sys_db := sys_db s; sys_lock := None;
                                       sys_procs := <[i := Done err]> (sys_procs s) |}
  | _, _ => None
  end.

Lemma advance_step s i s' : advance s i = Some s' -> migration_step s s'.
Proof.
  unfold advance. intros Ha.
  destruct (sys_procs s !! i) as [[|l|err|err]|] eqn:Hi; [|  | | |done].
  - destruct (envs !! i) as [e|] eqn:He; [|done].
    destruct (lock_failure e) eqn:Hf; [|destruct (sys_lock s) eqn:Hl]; simplify_eq.
    + by eapply step_fail.
    + by eapply step_lock.
  - destruct (body_step l (sys_db s)) as [db [l'|err]] eqn:Hb; simplify_eq;
      [by eapply step_work|by eapply step_return].
  - simplify_eq. by eapply step_unlock.
  - done.
Qed.

Lemma schedule_rtc sched : forall s s',
  foldl (fun o i => s ← o; advance s i) (Some s) sched = Some s' -> rtc migration_step s s'.
Proof.
  induction sched as [|i sched IH]; simpl; intros s s' Hs; [by simplify_eq|].
  destruct (advance s i) as [s1|] eqn:Ha; simpl in Hs.
  - eapply rtc_l; [by apply (advance_step _ _ _ Ha)|]. by apply IH.
  - exfalso. clear -Hs. induction sched; simpl in Hs; [done|auto].
Qed.

Lemma serialized_progress db0 s h db1 :
  serialized db0 s h db1 -> ~ Forall finished (sys_procs s) -> exists s', migration_step s s'.
Proof.
  intros Hs Hn.
  assert (Hrun : forall i l, sys_procs s !! i = Some (Running l) -> exists s', migration_step s s').
  { intros i l Hi. destruct (body_step l (sys_db s)) as [db [l'|err]] eqn:Hb;
      eexists; [by eapply step_work|by eapply step_return]. }
  destruct (sys_lock s) as [i|] eqn:Hl.
  - destruct (sz_locked _ _ _ _ Hs i Hl) as (e & p & He & Hf & Hp).
    destruct p as [|l|err|err].
    all: first [by destruct (proj2 (sz_holder _ _ _ _ Hs i _ Hp) Hl) | by eapply Hrun
               | eexists; by eapply step_unlock].
  - apply not_Forall_Exists in Hn; [|intros []; simpl; apply _].
    apply Exists_exists in Hn as (p & (i & Hi)%list_elem_of_lookup & Hp).
    destruct p as [|l|err|err]; [|by eapply Hrun|eexists; by eapply step_unlock|by destruct Hp].
    destruct (lookup_lt_is_Some_2 envs i) as [e He].
    { rewrite <- (sz_length _ _ _ _ Hs). by eapply lookup_lt_Some. }
    destruct (lock_failure e) eqn:Hf; eexists; [by eapply step_fail|by eapply step_lock].
Qed.
End Processes.

(** C16. Any number of processes that migrate one PostgreSQL database at the same
    time: at most one of them is between taking the advisory lock and giving it
    back; while one has not returned, some step is possible (no deadlock); and
    when all have returned, the database and the answers are those of calling
    [Migrate] once per process, one call after the other, in some order, each
    with the body between lock and unlock or without the body.  The
    processes interleave statement by statement ([body_step], of which the
    uninterrupted sequence is the engine's function), and any of them may fail
    before it has the lock. *)
Theorem migrations_serialized (DB L : Type) (HDB : SchemaDB DB) (HG : Gormigrate (DB := DB))
    (start : L) (body_step : L -> DB -> DB * (L + option go_error))
    (envs : list lock_env) (logger : bool) (db0 : DB) (s : system L DB) :
  (forall l db1 db db' err, body_star body_step start db1 l db ->
     body_step l db = (db', inr err) -> body logger db1 = (db', err)) ->
  (forall l db1 db, body_star body_step start db1 l db -> isPostgres db1 = true ->
     isPostgres (fst (body_step l db)) = true) ->
  isPostgres db0 = true ->
  rtc (migration_step start body_step envs) (launched envs db0) s ->
  (forall i j p q, sys_procs s !! i = Some p -> sys_procs s !! j = Some q ->
     in_section p -> in_section q -> i = j) /\
  (~ Forall finished (sys_procs s) -> exists s', migration_step start body_step envs s s') /\
  (Forall finished (sys_procs s) ->
   exists h, serial envs logger db0 h (sys_db s) /\ h.*1 ≡ₚ seq 0 (length envs) /\
     forall i err, (i, err) ∈ h <-> sys_procs s !! i = Some (Done err)).
Proof.
  intros Hb Hd Hp Hr.
  destruct (serialized_reachable start body_step envs logger Hb Hd db0 s Hp Hr) as (h & db1 & Hs).
  split_and!.
  - intros i j p q Hi Hj Hip Hjq.
    apply (sz_holder _ _ _ _ _ _ _ _ Hs) in Hi, Hj.
    apply Hi in Hip. apply Hj in Hjq. congruence.
  - by eapply serialized_progress.
  - intros Hf. exists h.
    assert (Hfin : forall i p, sys_procs s !! i = Some p -> finished p)
      by (intros i p Hi; by eapply (Forall_lookup_1 _ _ _ _ Hf)).
    rewrite (sz_idle _ _ _ _ _ _ _ _ Hs) by (intros i l Hi; by apply Hfin in Hi).
    split; [apply Hs|].
    assert (Hh : forall i err, (i, err) ∈ h <-> sys_procs s !! i = Some (Done err)).
    { intros i err. rewrite (sz_history _ _ _ _ _ _ _ _ Hs). split; [|auto].
      intros [Hi|Hi]; [done|by apply Hfin in Hi]. }
    split; [|done]. apply NoDup_Permutation; [apply Hs|apply NoDup_seq|].
    intros i. rewrite elem_of_seq, <- (sz_length _ _ _ _ _ _ _ _ Hs).
    split; [intros ([j err] & -> & Hin)%list_elem_of_fmap|intros [_ [p Hi]%lookup_lt_is_Some]].
    + apply Hh, lookup_lt_Some in Hin. simpl in *. lia.
    + assert (Hp' := Hfin i p Hi). destruct p as [| | |err]; try done.
      apply list_elem_of_fmap. exists (i, err). split; [done|]. by apply Hh.
Qed.

(** A database with a journal of statements, and an engine that runs the
    migrations not in its table, in order. *)
Record toy_db := { toy_dialect : string; toy_applied : list string; toy_log : list statement }.

#[local] Instance toy_SchemaDB : SchemaDB toy_db :=
  {| db_Name := toy_dialect;
     exec st db := ({| toy_dialect := toy_dialect db; toy_applied := toy_applied db;
                       toy_log := (toy_log db ++ [st])%list |}, None) |}.

Definition toy_record (id : string) (db : toy_db) : toy_db :=
  {| toy_dialect := toy_dialect db; toy_applied := (toy_applied db ++ [id])%list;
     toy_log := toy_log db |}.

Fixpoint toy_migrate (ms : list (Migration toy_db)) (db : toy_db) : toy_db * option go_error :=
  match ms with
  | [] => (db, None)
  | m :: rest =>
      if bool_decide (mig_ID m ∈ toy_applied db) then toy_migrate rest db
      else match mig_Migrate m db with
           | (db, Some err) => (db, Some err)
           | (db, None) => toy_migrate rest (toy_record (mig_ID m) db)
           end
  end.

#[local] Instance toy_Gormigrate : Gormigrate (DB := toy_db) :=
  {| gm_Migrate := toy_migrate;
     gm_MigrateTo ms id := toy_migrate (filter (fun m => String.leb (mig_ID m) id) ms) |}.

Definition toy_step (ms : list (Migration toy_db)) (db : toy_db)
    : toy_db * (list (Migration toy_db) + option go_error) :=
  match ms with
  | [] => let '(db, err) := locked_body (fun db => (db, None)) db in (db, inr err)
  | m :: rest =>
      if bool_decide (mig_ID m ∈ toy_applied db) then (db, inl rest)
      else match mig_Migrate m db with
           | (db, Some err) => (db, inr (Some err))
           | (db, None) => (toy_record (mig_ID m) db, inl rest)
           end
  end.

Lemma toy_steps l0 l db1 db db' err :
  body_star toy_step l0 db1 l db -> toy_step l db = (db', inr err) ->
  locked_body (toy_migrate l0) db1 = (db', err).
Proof.
  intros Hs Hl.
  assert (Heq : locked_body (toy_migrate l0) db1 = locked_body (toy_migrate l) db).
  { clear Hl. induction Hs as [|l0 db1 l1 dbm l2 db2 _ IH Hstep]; [done|]. rewrite IH.
    destruct l1 as [|m l1]; simpl in Hstep; [by destruct (locked_body _ _)|].
    unfold locked_body. simpl.
    destruct (bool_decide _); [by simplify_eq|].
    destruct (mig_Migrate m dbm) as [d [e|]]; by simplify_eq. }
  rewrite Heq. destruct l as [|m l]; simpl in Hl.
  - unfold locked_body in *. simpl. by destruct (bool_decide _); simpl in *; simplify_eq.
  - unfold locked_body. simpl. destruct (bool_decide _); [done|].
    by destruct (mig_Migrate m db) as [d [e|]]; simplify_eq.
Qed.

Definition keeps_dialect (m : Migration toy_db) : Prop :=
  forall db, toy_dialect (fst (mig_Migrate m db)) = toy_dialect db.

Lemma toy_step_dialect l db :
  Forall keeps_dialect l ->
  toy_dialect (fst (toy_step l db)) = toy_dialect db /\
  (forall l', snd (toy_step l db) = inl l' -> Forall keeps_dialect l').
Proof.
  destruct l as [|m l]; simpl.
  - intros _. unfold locked_body. by destruct (bool_decide _).
  - intros [Hm Hl]%Forall_cons. specialize (Hm db).
    destruct (bool_decide _); [by split; [|intros ? [= <-]]|].
    destruct (mig_Migrate m db) as [d [e|]]; by split; [|intros ? [=]; subst].
Qed.

Lemma toy_star_dialect l0 db1 l db :
  body_star toy_step l0 db1 l db -> Forall keeps_dialect l0 ->
  Forall keeps_dialect l /\ toy_dialect db = toy_dialect db1.
Proof.
  induction 1 as [|l0 db1 l1 dbm l2 db2 _ IH Hs]; [done|]. intros [H1 H2]%IH.
  destruct (toy_step_dialect l1 dbm H1) as [H3 H4]. rewrite Hs in H3, H4. simpl in *.
  split; [by apply H4|congruence].
Qed.

Lemma toy_list_dialect logger : Forall keeps_dialect (engine_migrations logger).
Proof.
  destruct logger; repeat constructor; intros db; try done; simpl.
  all: by destruct (bool_decide _).
Qed.

Definition lock_ok : lock_env := {| le_db := None; le_conn := None; le_lock := None |}.

(** Three processes on an empty database, one of which gets no connection: each
    statement is executed once. *)
Lemma migrations_serialized_witness :
  let envs := [lock_ok; {| le_db := None; le_conn := Some (EMsg "too many clients"); le_lock := None |};
               lock_ok] in
  let db0 := {| toy_dialect := "postgres"; toy_applied := []; toy_log := [] |} in
  exists s h,
    rtc (migration_step (engine_migrations true) toy_step envs) (launched envs db0) s /\
    length (toy_log (sys_db s)) = 4 /\ toy_applied (sys_db s) = mig_ID <$> MigrationsList (DB := toy_db) /\
    serial envs true db0 h (sys_db s) /\ h.*1 ≡ₚ [0; 1; 2].
Proof.
  intros envs db0.
  set (final := foldl (fun o i => s ← o; advance (engine_migrations true) toy_step envs s i)
                  (Some (launched envs db0)) [2; 2; 2; 1; 2; 2; 2; 2; 0; 0; 0; 0; 0; 0; 0]).
  vm_compute in final.
  match eval unfold final in final with Some ?x => set (s := x) end. clear final.
  assert (Hr : rtc (migration_step (engine_migrations true) toy_step envs) (launched envs db0) s).
  { apply (schedule_rtc _ _ _ [2; 2; 2; 1; 2; 2; 2; 2; 0; 0; 0; 0; 0; 0; 0]). vm_compute. reflexivity. }
  destruct (migrations_serialized toy_db _ _ _ (engine_migrations true) toy_step envs true db0 s)
    as (_ & _ & Hfin); [| |done|exact Hr|].
  - intros l db1 db db' err. apply toy_steps.
  - intros l db1 db Hs Hp. destruct (toy_star_dialect _ _ _ _ Hs (toy_list_dialect true)) as [Hl Hd].
    destruct (toy_step_dialect l db Hl) as [Hd' _]. unfold isPostgres in *. simpl in *.
    by rewrite Hd', Hd.
  - destruct Hfin as (h & Hs & Hh & _); [repeat constructor|].
    by exists s, h.
Defined.
