(* ===== verification/Columns.v ===== *)
(** The columns and indices of the tables: the structs with GORM tags that
    internal/data/migrations/schema freezes, those of internal/data/model that
    the repository stores, and what a unique index and a column size demand of
    the rows. *)
From stdpp Require Import base tactics list strings gmap.
From Stdlib Require Import ZArith Lia Ascii.
From S2P Require Import Prelude GoStrings Common DataModel.

Local Open Scope string_scope.

(** * Structs and tags *)

Inductive go_type := GoUUID | GoString | GoUint | GoBool | GoTime | GoMap | GoPtr (t : go_type).

#[export] Instance go_type_eq_dec : EqDecision go_type.
Proof. solve_decision. Defined.

Inductive index_option := Unique | Priority (n : Z) | Where (clause : string).

(** The settings of a tag: type:, size:, primaryKey, not null, check:, column:
    and index:. *)
Inductive tag :=
  | TypeTag (t : string) | Size (n : Z) | PrimaryKey | NotNull | CheckTag (clause : string)
  | Column (name : string) | Index (name : string) (options : list index_option).

#[export] Instance index_option_eq_dec : EqDecision index_option.
Proof. solve_decision. Defined.
#[export] Instance tag_eq_dec : EqDecision tag.
Proof. solve_decision. Defined.

Record field := Field { f_name : string; f_type : go_type; f_tags : list tag }.

(** The clause of the indices on a transaction id. *)
Definition txid_where : string := "transaction_id IS NOT NULL AND transaction_id != ''".

(** ** The frozen structs of the migrations *)

Module Frozen.
Definition OutboxEvent_struct : list field :=
  [Field "ID" GoUUID [TypeTag "uuid"; PrimaryKey; NotNull];
   Field "AggregateType" GoString [Column "aggregatetype"; TypeTag "varchar(255)"; NotNull];
   Field "AggregateID" GoString [Column "aggregateid"; TypeTag "varchar(255)"; NotNull];
   Field "Operation" GoString [TypeTag "varchar(255)"; NotNull];
   Field "TxId" GoString [Column "txid"; TypeTag "varchar(255)"];
   Field "Payload" GoMap [TypeTag "jsonb"]].

Definition CommonRepresentation_struct : list field :=
  [Field "Data" GoMap [TypeTag "jsonb"];
   Field "ResourceId" GoUUID [TypeTag "uuid"; PrimaryKey];
   Field "Version" GoUint [TypeTag "bigint"; PrimaryKey; CheckTag "version >= 0"];
   Field "ReportedByReporterType" GoString [Size 128];
   Field "ReportedByReporterInstance" GoString [Size 128];
   Field "TransactionId" GoString
     [Size 128; Index "ux_common_reps_txid_nn" [Where txid_where; Unique]];
   Field "CreatedAt" GoTime []].

Definition ReporterResource_struct : list field :=
  [Field "ID" GoUUID [TypeTag "uuid"; PrimaryKey];
   Field "LocalResourceID" GoString
     [Size 256; Index "reporter_resource_key_idx" [Unique];
      Index "reporter_resource_search_idx" [Priority 1]; NotNull];
   Field "ReporterType" GoString
     [Size 128; Index "reporter_resource_key_idx" [Unique];
      Index "reporter_resource_search_idx" [Priority 2]; NotNull];
   Field "ResourceType" GoString
     [Size 128; Index "reporter_resource_key_idx" [Unique];
      Index "reporter_resource_search_idx" [Priority 3]; NotNull];
   Field "ReporterInstanceID" GoString
     [Size 256; Index "reporter_resource_key_idx" [Unique];
      Index "reporter_resource_search_idx" [Priority 4]; NotNull];
   Field "ResourceID" GoUUID
     [Index "reporter_resource_resource_id_idx" []; TypeTag "uuid"; NotNull];
   Field "APIHref" GoString [Size 512; NotNull];
   Field "ConsoleHref" GoString [Size 512];
   Field "RepresentationVersion" GoUint [Index "reporter_resource_key_idx" [Unique]; NotNull];
   Field "Generation" GoUint [Index "reporter_resource_key_idx" [Unique]; NotNull];
   Field "Tombstone" GoBool [NotNull];
   Field "CreatedAt" GoTime [];
   Field "UpdatedAt" GoTime []].

(** Less the association [ReporterResource], which is the foreign key to the
    table of that name and no column. *)
Definition ReporterRepresentation_struct : list field :=
  [Field "Data" GoMap [TypeTag "jsonb"];
   Field "ReporterResourceID" GoUUID [Size 128; PrimaryKey];
   Field "Version" GoUint [TypeTag "bigint"; PrimaryKey; CheckTag "version >= 0"];
   Field "Generation" GoUint [TypeTag "bigint"; PrimaryKey; CheckTag "generation >= 0"];
   Field "ReporterVersion" (GoPtr GoString) [Size 128];
   Field "CommonVersion" GoUint [TypeTag "bigint"; CheckTag "common_version >= 0"];
   Field "TransactionId" GoString
     [Size 128; Index "ux_reporter_reps_txid_nn" [Where txid_where; Unique]];
   Field "Tombstone" GoBool [NotNull];
   Field "CreatedAt" GoTime []].

Definition Resource_struct : list field :=
  [Field "ID" GoUUID [TypeTag "uuid"; PrimaryKey];
   Field "Type" GoString [Size 128; NotNull];
   Field "CommonVersion" GoUint [TypeTag "bigint"; CheckTag "common_version >= 0"];
   Field "ConsistencyToken" GoString [Size 1024; Column "ktn"];
   Field "CreatedAt" GoTime [];
   Field "UpdatedAt" GoTime []].

Definition MetricsSummary_struct : list field :=
  [Field "ID" GoUUID [TypeTag "uuid"; PrimaryKey; NotNull];
   Field "CollectedAt" GoTime [NotNull; Index "idx_metrics_summary_collected_at" []];
   Field "Metrics" GoMap [TypeTag "jsonb"; NotNull]].
End Frozen.

(** ** The structs the repository stores *)

Module Stored.
(** Embedded in the structs below. *)
Definition Representation_struct : list field := [Field "Data" GoMap [TypeTag "jsonb"]].

Definition ReporterResourceKey_struct : list field :=
  [Field "LocalResourceID" GoString
     [Size 256; Index "reporter_resource_key_idx" [Unique];
      Index "reporter_resource_search_idx" [Priority 1]; NotNull];
   Field "ReporterType" GoString
     [Size 128; Index "reporter_resource_key_idx" [Unique];
      Index "reporter_resource_search_idx" [Priority 2]; NotNull];
   Field "ResourceType" GoString
     [Size 128; Index "reporter_resource_key_idx" [Unique];
      Index "reporter_resource_search_idx" [Priority 3]; NotNull];
   Field "ReporterInstanceID" GoString
     [Size 256; Index "reporter_resource_key_idx" [Unique];
      Index "reporter_resource_search_idx" [Priority 4]; NotNull]].

Definition CommonRepresentation_struct : list field :=
  (Representation_struct ++
  [Field "ResourceId" GoUUID [TypeTag "uuid"; PrimaryKey];
   Field "Version" GoUint [TypeTag "bigint"; PrimaryKey; CheckTag "version >= 0"];
   Field "ReportedByReporterType" GoString [Size 128];
   Field "ReportedByReporterInstance" GoString [Size 128];
   Field "TransactionId" GoString
     [Size 128; Index "ux_common_reps_txid_nn" [Where txid_where; Unique]];
   Field "CreatedAt" GoTime []])%list.

Definition ReporterResource_struct : list field :=
  (Field "ID" GoUUID [TypeTag "uuid"; PrimaryKey] :: ReporterResourceKey_struct ++
  [Field "ResourceID" GoUUID
     [Index "reporter_resource_resource_id_idx" []; TypeTag "uuid"; NotNull];
   Field "APIHref" GoString [Size 512; NotNull];
   Field "ConsoleHref" (GoPtr GoString) [Size 512];
   Field "RepresentationVersion" GoUint [Index "reporter_resource_key_idx" [Unique]; NotNull];
   Field "Generation" GoUint [Index "reporter_resource_key_idx" [Unique]; NotNull];
   Field "Tombstone" GoBool [NotNull];
   Field "CreatedAt" GoTime [];
   Field "UpdatedAt" GoTime []])%list.

Definition ReporterRepresentation_struct : list field :=
  (Representation_struct ++
  [Field "ReporterResourceID" GoUUID [Size 128; PrimaryKey];
   Field "Version" GoUint [TypeTag "bigint"; PrimaryKey; CheckTag "version >= 0"];
   Field "Generation" GoUint [TypeTag "bigint"; PrimaryKey; CheckTag "generation >= 0"];
   Field "ReporterVersion" (GoPtr GoString) [Size 128];
   Field "CommonVersion" (GoPtr GoUint) [TypeTag "bigint"; CheckTag "common_version >= 0"];
   Field "TransactionId" GoString
     [Size 128; Index "ux_reporter_reps_txid_nn" [Where txid_where; Unique]];
   Field "Tombstone" GoBool [NotNull];
   Field "CreatedAt" GoTime []])%list.

Definition Resource_struct : list field :=
  [Field "ID" GoUUID [TypeTag "uuid"; PrimaryKey];
   Field "Type" GoString [Size 128; NotNull];
   Field "CommonVersion" (GoPtr GoUint) [TypeTag "bigint"; CheckTag "common_version >= 0"];
   Field "ConsistencyToken" GoString [Size 1024; Column "ktn"];
   Field "CreatedAt" GoTime [];
   Field "UpdatedAt" GoTime []].

Definition MetricsSummary_struct : list field :=
  [Field "ID" GoUUID [TypeTag "uuid"; PrimaryKey; NotNull];
   Field "CollectedAt" GoTime [NotNull; Index "idx_metrics_summary_collected_at" []];
   Field "Metrics" GoMap [TypeTag "jsonb"; NotNull]].
End Stored.

(** * Columns *)

(** A pointer is the column of what it points to: that it may be NULL is in the
    tags. *)
Definition pointed (t : go_type) : go_type := match t with GoPtr t => t | t => t end.

Definition column_of (f : field) : field := Field (f_name f) (pointed (f_type f)) (f_tags f).

(** * Rows *)

(** The values of a row by the names of the fields; the fields that neither an
    index nor a size concerns are [VOther]. *)
Inductive value := VNull | VUUID (u : uuid) | VText (s : string) | VInt (z : Z) | VOther.

#[export] Instance value_eq_dec : EqDecision value.
Proof. solve_decision. Defined.

Definition nullable {A} (v : A -> value) (o : option A) : value :=
  match o with Some x => v x | None => VNull end.

Definition lookup_value (l : list (string * value)) (f : string) : value :=
  default VOther (snd <$> head (List.filter (fun p => String.eqb p.1 f) l)).

Definition resource_value (r : ResourceRow) : string -> value :=
  lookup_value [("ID", VUUID (rw_ID r)); ("Type", VText (rw_Type r));
    ("CommonVersion", nullable VInt (rw_CommonVersion r));
    ("ConsistencyToken", VText (rw_ConsistencyToken r))].

Definition reporter_resource_value (r : ReporterResourceRow) : string -> value :=
  lookup_value [("ID", VUUID (rrw_ID r)); ("LocalResourceID", VText (rrw_LocalResourceID r));
    ("ReporterType", VText (rrw_ReporterType r)); ("ResourceType", VText (rrw_ResourceType r));
    ("ReporterInstanceID", VText (rrw_ReporterInstanceID r));
    ("ResourceID", VUUID (rrw_ResourceID r)); ("APIHref", VText (rrw_APIHref r));
    ("ConsoleHref", nullable VText (rrw_ConsoleHref r));
    ("RepresentationVersion", VInt (rrw_RepresentationVersion r));
    ("Generation", VInt (rrw_Generation r))].

Definition reporter_representation_value (r : ReporterRepresentationRow) : string -> value :=
  lookup_value [("ReporterResourceID", VUUID (rpw_ReporterResourceID r));
    ("Version", VInt (rpw_Version r)); ("Generation", VInt (rpw_Generation r));
    ("ReporterVersion", nullable VText (rpw_ReporterVersion r));
    ("CommonVersion", nullable VInt (rpw_CommonVersion r));
    ("TransactionId", VText (rpw_TransactionId r))].

Definition common_representation_value (r : CommonRepresentationRow) : string -> value :=
  lookup_value [("ResourceId", VUUID (cw_ResourceId r)); ("Version", VInt (cw_Version r));
    ("ReportedByReporterType", VText (cw_ReportedByReporterType r));
    ("ReportedByReporterInstance", VText (cw_ReportedByReporterInstance r));
    ("TransactionId", VText (cw_TransactionId r))].

(** * What the database enforces

    As the documentation of GORM and of PostgreSQL says: the fields marked
    primaryKey together are a key, those of a unique index too, for the rows that
    its clause selects; NULL equals nothing; a size bounds the characters of a
    text. *)

Definition index_options (n : string) (f : field) : option (list index_option) :=
  head (omap (fun t => match t with
                       | Index m opts => if String.eqb n m then Some opts else None
                       | _ => None
                       end) (f_tags f)).

Definition is_unique (o : index_option) : bool := match o with Unique => true | _ => false end.

(** The names of the unique indices. *)
Definition unique_indices (t : list field) : list string :=
  remove_dups (mjoin ((fun f =>
    omap (fun x => match x with
                   | Index n opts => if existsb is_unique opts then Some n else None
                   | _ => None
                   end) (f_tags f)) <$> t)).

Definition index_fields (n : string) (t : list field) : list string :=
  omap (fun f => match index_options n f with Some _ => Some (f_name f) | None => None end) t.

Definition index_where (n : string) (t : list field) : option string :=
  head (omap (fun o => match o with Where w => Some w | _ => None end)
    (mjoin (omap (index_options n) t))).

Definition primary_key (t : list field) : list string :=
  f_name <$> filter (fun f => PrimaryKey ∈ f_tags f) t.

Definition unique_keys (t : list field) : list (list string * option string) :=
  (primary_key t, None) :: ((fun n => (index_fields n t, index_where n t)) <$> unique_indices t).

(** The only clause is [txid_where]. *)
Definition selected (w : option string) (v : string -> value) : Prop :=
  match w with
  | None => True
  | Some w => w = txid_where /\ v "TransactionId" <> VNull /\ v "TransactionId" <> VText ""
  end.

Definition same_value (a b : value) : Prop := a = b /\ a <> VNull.

(** Two rows that cannot both be stored. *)
Definition clash (t : list field) (a b : string -> value) : Prop :=
  Exists (fun k => selected k.2 a /\ selected k.2 b /\
                   Forall (fun f => same_value (a f) (b f)) k.1) (unique_keys t).

(** The characters of a text in UTF-8: its bytes less those that continue a
    character. *)
Fixpoint characters (s : string) : Z :=
  match s with
  | EmptyString => 0
  | String c s =>
      (if (128 <=? nat_of_ascii c)%nat && (nat_of_ascii c <? 192)%nat then 0 else 1) + characters s
  end.

Definition tag_fits (v : value) (t : tag) : Prop :=
  match t, v with
  | Size n, VText s => (characters s <= n)%Z
  | NotNull, VNull => False
  | _, _ => True
  end.

(** A row fits the sizes of its columns, and is set where it must be. *)
Definition fits (t : list field) (v : string -> value) : Prop :=
  Forall (fun f => Forall (tag_fits (v (f_name f))) (f_tags f)) t.
