(* ===== verification/ColumnsProps.v ===== *)
(** The schema of the migrations (Columns.v) against the rest of the development:
    the structs the repository stores have the columns that were frozen, the
    unique indices are the conflicts of Store.v, and the rows that the
    validators of DataModel.v accept fit their columns, but for one. *)
From stdpp Require Import base tactics list strings gmap.
From Stdlib Require Import ZArith Lia Ascii.
From S2P Require Import Prelude GoStrings Common Json DataModel Outbox Store StoreProps StoreInv.
From S2P Require Import Columns.

Local Open Scope string_scope.

(** * The validators of the rows *)

Local Open Scope Z_scope.

Lemma validated_ok {A} (x : A) err : (exists y, validated x err = Ok y) <-> err = None.
Proof. destruct err; simpl; naive_solver. Qed.

(** * The checks *)

Definition required (value : string) (maxLength : Z) : Prop :=
  TrimSpace value <> "" /\ len value <= maxLength.

Definition optional_url (url_ok : string -> bool) (value : string) (maxLength : Z) : Prop :=
  value = "" \/ len value <= maxLength /\ url_ok value = true.

Lemma ValidateStringRequired_None f v :
  ValidateStringRequired f v = None <-> TrimSpace v <> "".
Proof. unfold ValidateStringRequired, ValidateRequired. case_bool_decide; naive_solver. Qed.

Lemma ValidateUUIDRequired_None f id : ValidateUUIDRequired f id = None <-> id <> uuid_Nil.
Proof. unfold ValidateUUIDRequired. case_bool_decide; naive_solver. Qed.

Lemma ValidateMaxLength_None f v n : ValidateMaxLength f v n = None <-> len v <= n.
Proof. unfold ValidateMaxLength. case_bool_decide; split; (done || lia). Qed.

Lemma ValidateMinValue_None f v m : ValidateMinValue f v m = None <-> m <= v.
Proof. unfold ValidateMinValue. case_bool_decide; split; (done || lia). Qed.

Lemma ValidateOptionalURL_None u f v n :
  ValidateOptionalURL u f v n = None <-> optional_url u v n.
Proof.
  unfold ValidateOptionalURL, optional_url. case_bool_decide; [by split; auto|].
  case_bool_decide; [split; [done|intros [?|[? _]]; [done|lia]]|].
  destruct (u v); simpl; split; try done.
  - intros _. right. split; [lia|done].
  - by intros [?|[_ ?]].
Qed.

Lemma ValidateOptionalString_None f (v : option string) n :
  ValidateOptionalString f v n = None <-> forall s, v = Some s -> len s <= n.
Proof.
  destruct v as [s|]; simpl; [|by split]. rewrite ValidateMaxLength_None. naive_solver.
Qed.

Create HintDb checks.
#[export] Hint Rewrite AggregateErrors_None @Forall_cons ValidateStringRequired_None
  ValidateUUIDRequired_None ValidateMaxLength_None ValidateMinValue_None
  ValidateOptionalURL_None ValidateOptionalString_None : checks.

(** * Properties *)

(** A reporter resource row is accepted exactly when both ids are set, the
    four key fields are not blank and within their sizes, and the links are
    absent or parse and fit. *)
Theorem NewReporterResourceRow_accepts url_ok id l rt ty inst rid api console v g t
    (Hv : is_u64 v) (Hg : is_u64 g) :
  (exists row, NewReporterResourceRow url_ok id l rt ty inst rid api console v g t = Ok row) <->
  id <> uuid_Nil /\ rid <> uuid_Nil /\
  required l MaxLocalResourceIDLength /\ required rt MaxReporterTypeLength /\
  required ty MaxResourceTypeLength /\ required inst MaxReporterInstanceIDLength /\
  optional_url url_ok api MaxAPIHrefLength /\
  optional_url url_ok (default "" console) MaxConsoleHrefLength.
Proof.
  unfold NewReporterResourceRow. rewrite validated_ok. unfold validateReporterResource, required.
  simpl. autorewrite with checks. unfold MinGenerationValue, is_u64 in *.
  split; [|intros; split_all; try lia; try tauto; by constructor]. intuition lia.
Qed.

Lemma NewReporterResourceRow_accepts_witness : exists row,
  NewReporterResourceRow (fun _ => true) 1 "host-1" "hbi" "host" "i1" 2 "http://x" None 0 0 false
  = Ok row.
Proof.
  apply (NewReporterResourceRow_accepts (fun _ => true) 1 "host-1" "hbi" "host" "i1" 2
           "http://x" None 0 0 false); [vm_compute; done|vm_compute; done|].
  unfold required, optional_url.
  repeat split; try (vm_compute; discriminate); try (left; reflexivity).
  right. split; [vm_compute; discriminate|reflexivity].
Defined.

(** A reporter representation row is accepted exactly when its reporter
    resource is set, a tombstone carries no common version, and the
    transaction id and the reporter version fit. *)
Theorem NewReporterRepresentationRow_accepts data rrid v g cv tx tomb rver
    (Hv : is_u64 v) (Hg : is_u64 g) (Hcv : forall c, cv = Some c -> is_u64 c) :
  (exists row, NewReporterRepresentationRow data rrid v g cv tx tomb rver = Ok row) <->
  rrid <> uuid_Nil /\ (tomb = true -> cv = None) /\ len tx <= MaxTransactionIdLength /\
  (forall s, rver = Some s -> len s <= MaxReporterVersionLength).
Proof.
  unfold NewReporterRepresentationRow. rewrite validated_ok.
  unfold validateReporterRepresentation. simpl.
  assert (Hb : forall c, cv = Some c -> 0 <= c) by (intros c E; by apply Hcv in E as [? _]).
  destruct Hv as [Hv _], Hg as [Hg _].
  destruct tomb, cv as [c|]; simpl.
  { split; [done|]. intros (_ & Hc & _). by discriminate (Hc eq_refl). }
  all: unfold ValidateMinValueUint; autorewrite with checks; unfold MinVersionValue, MinGenerationValue, MinCommonVersion; specialize (Hb c) || clear Hb.
  all: split; [intuition discriminate|intros (? & ? & ? & ?); split_all; auto].
Qed.

Lemma NewReporterRepresentationRow_accepts_witness : exists row,
  NewReporterRepresentationRow None 7 3 1 None "" true None = Ok row.
Proof.
  apply (NewReporterRepresentationRow_accepts None 7 3 1 None "" true None).
  - vm_compute; done.
  - vm_compute; done.
  - intros c Hc. discriminate Hc.
  - repeat split; vm_compute; discriminate.
Defined.
Local Close Scope Z_scope.

(** * Unique keys *)

Lemma VInt_inj a b : VInt a = VInt b <-> a = b.
Proof. naive_solver. Qed.
Lemma VUUID_inj a b : VUUID a = VUUID b <-> a = b.
Proof. naive_solver. Qed.
Lemma VText_inj a b : VText a = VText b <-> a = b.
Proof. naive_solver. Qed.

Lemma same_int a b : same_value (VInt a) (VInt b) <-> a = b.
Proof. unfold same_value. naive_solver. Qed.
Lemma same_uuid a b : same_value (VUUID a) (VUUID b) <-> a = b.
Proof. unfold same_value. naive_solver. Qed.
Lemma same_text a b : same_value (VText a) (VText b) <-> a = b.
Proof. unfold same_value. naive_solver. Qed.

Lemma Resource_keys : unique_keys Frozen.Resource_struct = [(["ID"], None)].
Proof. vm_compute. reflexivity. Qed.

Lemma ReporterResource_keys : unique_keys Frozen.ReporterResource_struct =
  [(["ID"], None);
   (["LocalResourceID"; "ReporterType"; "ResourceType"; "ReporterInstanceID";
     "RepresentationVersion"; "Generation"], None)].
Proof. vm_compute. reflexivity. Qed.

Lemma ReporterRepresentation_keys : unique_keys Frozen.ReporterRepresentation_struct =
  [(["ReporterResourceID"; "Version"; "Generation"], None); (["TransactionId"], Some txid_where)].
Proof. vm_compute. reflexivity. Qed.

Lemma CommonRepresentation_keys : unique_keys Frozen.CommonRepresentation_struct =
  [(["ResourceId"; "Version"], None); (["TransactionId"], Some txid_where)].
Proof. vm_compute. reflexivity. Qed.

Ltac clash_keys keys :=
  unfold clash; rewrite keys, ?Exists_cons, Exists_nil; cbn -[txid_where];
  rewrite ?Forall_cons, ?Forall_nil; cbn -[txid_where same_value];
  rewrite ?same_int, ?same_uuid, ?same_text, ?VText_inj.

(** C17. The schema and the conflicts.  The structs that the repository stores
    have the columns, sizes and indices that the migrations created; and two rows
    of a table clash in one of its primary keys and unique indices exactly when
    the laws of the database call them a conflict: in the key or a non-empty
    transaction id for the representations, in the id or the natural key with
    version and generation for the reporter resources, in the id for the
    resources. *)
Theorem conflicts_are_indices :
  (column_of <$> Stored.Resource_struct = column_of <$> Frozen.Resource_struct /\
   column_of <$> Stored.ReporterResource_struct = column_of <$> Frozen.ReporterResource_struct /\
   column_of <$> Stored.ReporterRepresentation_struct = column_of <$> Frozen.ReporterRepresentation_struct /\
   column_of <$> Stored.CommonRepresentation_struct = column_of <$> Frozen.CommonRepresentation_struct /\
   column_of <$> Stored.MetricsSummary_struct = column_of <$> Frozen.MetricsSummary_struct) /\
  (forall a b, clash Frozen.ReporterRepresentation_struct (reporter_representation_value a)
                 (reporter_representation_value b) <-> rpw_conflict a b) /\
  (forall a b, clash Frozen.CommonRepresentation_struct (common_representation_value a)
                 (common_representation_value b) <-> cw_conflict a b) /\
  (forall a b, clash Frozen.ReporterResource_struct (reporter_resource_value a)
                 (reporter_resource_value b) <-> rrw_ID b = rrw_ID a \/ rrw_conflict a b) /\
  (forall a b, clash Frozen.Resource_struct (resource_value a) (resource_value b) <-> rw_ID b = rw_ID a).
Proof.
  split; [vm_compute; tauto|].
  split; [|split; [|split]]; intros a b.
  - clash_keys ReporterRepresentation_keys. unfold rpw_conflict, rpw_key, txid_clash.
    rewrite !pair_equal_spec. intuition congruence.
  - clash_keys CommonRepresentation_keys. unfold cw_conflict, cw_key, txid_clash.
    rewrite !pair_equal_spec. intuition congruence.
  - clash_keys ReporterResource_keys. unfold rrw_conflict, rrw_index.
    rewrite !pair_equal_spec. destruct (decide (rrw_ID b = rrw_ID a)); intuition congruence.
  - clash_keys Resource_keys. intuition congruence.
Qed.

(** * Sizes *)

Lemma characters_len s : (characters s <= len s)%Z.
Proof.
  unfold len. induction s as [|c s IH]; cbn [characters String.length]; [lia|]. case_match; lia.
Qed.

Lemma characters_within s m n : (len s <= m)%Z -> (m <= n)%Z -> (characters s <= n)%Z.
Proof. pose proof (characters_len s). lia. Qed.

Lemma optional_url_len url_ok s n : (0 <= n)%Z -> optional_url url_ok s n -> (len s <= n)%Z.
Proof. intros Hn [->|[? _]]; [exact Hn|done]. Qed.

Ltac fits_columns table :=
  unfold fits, table; rewrite ?Forall_cons, ?Forall_nil; cbn -[characters];
  rewrite ?Forall_cons, ?Forall_nil; cbn -[characters].

Lemma reporter_resource_fits url_ok r : validateReporterResource url_ok r = None ->
  fits Frozen.ReporterResource_struct (reporter_resource_value r).
Proof.
  unfold validateReporterResource. autorewrite with checks.
  intros (_ & _ & Hl & _ & Hrt & _ & Hty & _ & Hin & _ & _ & _ & Ha & Hc & _).
  apply optional_url_len in Ha, Hc; [|done..].
  assert (Hconsole : tag_fits (nullable VText (rrw_ConsoleHref r)) (Size 512)).
  { destruct (rrw_ConsoleHref r) as [s|]; [|done]. simpl in *. by apply (characters_within _ 512). }
  fits_columns Frozen.ReporterResource_struct.
  split_all; try done; try (eapply characters_within; [eassumption|done]).
Qed.

Lemma reporter_representation_fits r : validateReporterRepresentation r = None ->
  fits Frozen.ReporterRepresentation_struct (reporter_representation_value r).
Proof.
  unfold validateReporterRepresentation. case_match; [done|].
  autorewrite with checks. intros (_ & _ & _ & _ & Ht & Hv & _).
  assert (Hver : tag_fits (nullable VText (rpw_ReporterVersion r)) (Size 128)).
  { destruct (rpw_ReporterVersion r) as [s|]; [|done]. simpl.
    eapply characters_within; [by apply Hv|done]. }
  assert (Hcv : forall c, tag_fits (nullable VInt (rpw_CommonVersion r)) (CheckTag c)).
  { by destruct (rpw_CommonVersion r). }
  fits_columns Frozen.ReporterRepresentation_struct.
  split_all; try done; try (eapply characters_within; [eassumption|done]).
Qed.

Lemma common_representation_fits r : validateCommonRepresentation r = None ->
  fits Frozen.CommonRepresentation_struct (common_representation_value r) <->
  (characters (cw_ReportedByReporterInstance r) <= 128)%Z.
Proof.
  unfold validateCommonRepresentation. autorewrite with checks.
  intros (_ & _ & _ & Ht & _ & _ & Htx & _). fits_columns Frozen.CommonRepresentation_struct.
  split; [tauto|]. intros Hi. split_all; try done; (eapply characters_within; [eassumption|done]).
Qed.

(** C36. Validated rows and their columns.  A reporter resource or a reporter
    representation that its validator accepts fits the sizes of its columns and
    is set where they are not null.  A common representation that its validator
    accepts fits exactly when the instance that reported it has at most 128
    characters: the validator allows 256. *)
Theorem validated_rows_fit :
  (forall url_ok r, validateReporterResource url_ok r = None ->
     fits Frozen.ReporterResource_struct (reporter_resource_value r)) /\
  (forall r, validateReporterRepresentation r = None ->
     fits Frozen.ReporterRepresentation_struct (reporter_representation_value r)) /\
  (forall r, validateCommonRepresentation r = None ->
     fits Frozen.CommonRepresentation_struct (common_representation_value r) <->
     (characters (cw_ReportedByReporterInstance r) <= 128)%Z).
Proof.
  split; [|split]; intros.
  - by eapply reporter_resource_fits.
  - by apply reporter_representation_fits.
  - by apply common_representation_fits.
Qed.

(** An instance id of 200 letters. *)
Definition ex_long_instance : CommonRepresentationRow :=
  {| cw_Data := None; cw_ResourceId := 1; cw_Version := 0; cw_ReportedByReporterType := "hbi";
     cw_ReportedByReporterInstance := String.concat "" (replicate 200 "a");
     cw_TransactionId := "tx-1"; cw_CreatedAt := zero_time |}.

Lemma validated_rows_fit_witness :
  validateCommonRepresentation ex_long_instance = None /\
  ~ fits Frozen.CommonRepresentation_struct (common_representation_value ex_long_instance).
Proof.
  assert (Hv : validateCommonRepresentation ex_long_instance = None) by (vm_compute; reflexivity).
  split; [exact Hv|]. intros Hf.
  apply (proj2 (proj2 validated_rows_fit) ex_long_instance Hv) in Hf. revert Hf. vm_compute. tauto.
Defined.

(** The comment on ReporterResourceKey says that its four attributes are unique;
    the index also has the version and the generation, so two rows that differ
    in one of them are both stored. *)
Lemma natural_key_not_unique :
  let row v := {| rrw_ID := 1 + v; rrw_LocalResourceID := "host-1"; rrw_ReporterType := "hbi";
    rrw_ResourceType := "host"; rrw_ReporterInstanceID := "i1"; rrw_ResourceID := 2 + v;
    rrw_APIHref := ""; rrw_ConsoleHref := None; rrw_RepresentationVersion := v;
    rrw_Generation := 0; rrw_Tombstone := false; rrw_CreatedAt := 0; rrw_UpdatedAt := 0 |}%Z in
  rrw_key (row 0%Z) = rrw_key (row 1%Z) /\
  ~ clash Frozen.ReporterResource_struct (reporter_resource_value (row 0%Z)) (reporter_resource_value (row 1%Z)).
Proof.
  intros row. split; [done|]. clash_keys ReporterResource_keys. intuition lia.
Qed.
