(* ===== verification/Flags.v ===== *)
(** Flags, environment and configuration file: cmd/root.go, the struct tags of
    every Options struct and its AddFlags.

    A field of the options is named by its path in Go ("Storage.Postgres.Host").
    pflag writes a flag that is given straight into its field; viper then collects
    the flags bound to it, the environment and the file by key, and Unmarshal
    writes what it found into the fields by their mapstructure tags.  viper is the
    class [Viper], with what its documentation says as [ViperLaws]. *)
From stdpp Require Import base tactics list strings gmap.
From Stdlib Require Import ZArith Lia Ascii.
From S2P Require Import Prelude GoStrings.

Local Open Scope string_scope.

(** * The keys of the fields *)

(** The fields of a struct at [o] with their keys below [k]. *)
Definition tags (o k : string) (l : list (string * string)) : list (string * string) :=
  (fun p => (o ++ "." ++ p.1, k ++ "." ++ p.2)) <$> l.

Definition grpc_tags (o k : string) : list (string * string) :=
  tags o k
    [("Addr", "address"); ("Timeout", "timeout-seconds"); ("ServingCertFile", "certfile");
     ("PrivateKeyFile", "keyfile"); ("ClientCAFile", "client-ca-file");
     ("SNI", "sni-servername"); ("CertOpt", "certopt")].

Definition http_tags (o k : string) : list (string * string) :=
  tags o k
    [("Addr", "address"); ("Timeout", "timeout-seconds"); ("ServingCertFile", "certfile");
     ("PrivateKeyFile", "keyfile"); ("ClientCAFile", "client-ca-file");
     ("SNI", "sni-servername"); ("CertOpt", "certopt")].

Definition pprof_tags (o k : string) : list (string * string) :=
  tags o k
    [("Enabled", "enabled"); ("Port", "port"); ("Addr", "addr")].

Definition server_tags (o k : string) : list (string * string) :=
  (tags o k
    [("Id", "id"); ("Name", "name"); ("PublicUrl", "public_url"); ("ReadOnlyMode", "read-only")]
   ++ grpc_tags (o ++ ".GrpcOptions") (k ++ ".grpc")
   ++ http_tags (o ++ ".HttpOptions") (k ++ ".http")
   ++ pprof_tags (o ++ ".PprofOptions") (k ++ ".pprof"))%list.

Definition inmemory_tags (o k : string) : list (string * string) :=
  tags o k
    [("Type", "type"); ("Path", "path")].

Definition schema_tags (o k : string) : list (string * string) :=
  (tags o k
    [("Repository", "repository")]
   ++ inmemory_tags (o ++ ".InMemory") (k ++ ".in-memory"))%list.

Definition spicedb_tags (o k : string) : list (string * string) :=
  tags o k
    [("Endpoint", "endpoint"); ("Token", "token"); ("TokenFile", "token-file");
     ("SchemaFile", "schema-file"); ("UseTLS", "use-tls");
     ("FullyConsistent", "fully-consistent")].

Definition kessel_tags (o k : string) : list (string * string) :=
  tags o k
    [("URL", "url"); ("Insecure", "insecure-client"); ("EnableOidcAuth", "enable-oidc-auth");
     ("ClientId", "sa-client-id"); ("ClientSecret", "sa-client-secret");
     ("TokenEndpoint", "sso-token-endpoint")].

Definition relations_tags (o k : string) : list (string * string) :=
  (tags o k
    [("Authz", "impl")]
   ++ kessel_tags (o ++ ".Kessel") (k ++ ".kessel")
   ++ spicedb_tags (o ++ ".SpiceDB") (k ++ ".spicedb"))%list.

Definition consistency_tags (o k : string) : list (string * string) :=
  tags o k
    [("ReadAfterWriteEnabled", "read-after-write-enabled");
     ("ReadAfterWriteAllowlist", "read-after-write-allowlist");
     ("DefaultToAtLeastAsAcknowledged", "default-to-at-least-as-acknowledged");
     ("IdempotencyCheckEnabled", "idempotency-check-enabled")].

Definition auth_tags (o k : string) : list (string * string) :=
  tags o k
    [("Enabled", "enabled"); ("SecurityProtocol", "security-protocol");
     ("SASLMechanism", "sasl-mechanism"); ("SASLUsername", "sasl-username");
     ("SASLPassword", "sasl-password"); ("CACertLocation", "ca-cert-location")].

Definition retry_tags (o k : string) : list (string * string) :=
  tags o k
    [("ConsumerMaxRetries", "consumer-max-retries");
     ("OperationMaxRetries", "operation-max-retries"); ("BackoffFactor", "backoff-factor");
     ("MaxBackoffSeconds", "max-backoff-seconds")].

Definition consumer_tags (o k : string) : list (string * string) :=
  (tags o k
    [("Enabled", "enabled"); ("BootstrapServers", "bootstrap-servers");
     ("ConsumerGroupID", "consumer-group-id"); ("Topic", "topic");
     ("CommitModulo", "commit-modulo"); ("SessionTimeout", "session-timeout");
     ("HeartbeatInterval", "heartbeat-interval"); ("MaxPollInterval", "max-poll-interval");
     ("EnableAutoCommit", "enable-auto-commit"); ("AutoOffsetReset", "auto-offset-reset");
     ("StatisticsInterval", "statistics-interval-ms"); ("Debug", "debug");
     ("ReadAfterWriteEnabled", "read-after-write-enabled");
     ("ReadAfterWriteAllowlist", "read-after-write-allowlist")]
   ++ retry_tags (o ++ ".RetryOptions") (k ++ ".retry-options")
   ++ auth_tags (o ++ ".AuthOptions") (k ++ ".auth"))%list.

Definition oidc_tags (o k : string) : list (string * string) :=
  tags o k
    [("ClientId", "client-id"); ("AuthorizationServerURL", "authn-server-url");
     ("InsecureClient", "insecure-client"); ("SkipClientIDCheck", "skip-client-id-check");
     ("EnforceAudCheck", "enforce-aud-check"); ("SkipIssuerCheck", "skip-issuer-check");
     ("PrincipalUserDomain", "principal-user-domain"); ("GrpcEndpoints", "grpc-endpoints")].

Definition postgres_tags (o k : string) : list (string * string) :=
  tags o k
    [("Host", "host"); ("Port", "port"); ("DbName", "dbname"); ("User", "user");
     ("Password", "password"); ("SSLMode", "sslmode"); ("SSLRootCert", "sslrootcert")].

Definition sqlite3_tags (o k : string) : list (string * string) :=
  tags o k
    [("DSN", "dsn")].

Definition storage_tags (o k : string) : list (string * string) :=
  (tags o k
    [("Database", "database"); ("MaxSerializationRetries", "max-serialization-retries");
     ("OutboxMode", "outbox-mode")]
   ++ postgres_tags (o ++ ".Postgres") (k ++ ".postgres")
   ++ sqlite3_tags (o ++ ".SqlLite3") (k ++ ".sqlite3"))%list.

Definition redhat_rbac_tags (o k : string) : list (string * string) :=
  tags o k
    [("Enabled", "enabled"); ("XRhIdentityDomain", "issuerDomain");
     ("OIDCIssuerDomains", "oidcIssuerDomains"); ("OIDCIssuerDomainMap", "oidcIssuerDomainMap")].

Definition selfsubject_tags (o k : string) : list (string * string) :=
  redhat_rbac_tags (o ++ ".RedHatRbac") (k ++ ".redhatRbacSelfSubjectStrategy").

Definition metaauthorizer_tags (o k : string) : list (string * string) :=
  tags o k
    [("TupleCrudAllowlist", "tuple-crud-allowlist")].

Definition metricscollector_tags (o k : string) : list (string * string) :=
  tags o k
    [("Enabled", "enabled")].

(** A slice and a pointer to a scalar are one field. *)
Definition authn_tags (o k : string) : list (string * string) :=
  (tags o k [("AllowUnauthenticated", "allow-unauthenticated")]
   ++ tags (o ++ ".Authenticator") (k ++ ".authenticator") [("Type", "type"); ("Chain", "chain")]
   ++ oidc_tags (o ++ ".OIDC") (k ++ ".oidc"))%list.

(** [OptionsConfig]; a field without a tag has its own name as key. *)
Definition OptionsConfig_tags : list (string * string) :=
  (authn_tags "Authn" "Authn" ++ relations_tags "Authz" "Authz" ++ storage_tags "Storage" "Storage"
   ++ consumer_tags "Consumer" "Consumer" ++ server_tags "Server" "Server"
   ++ consistency_tags "Consistency" "Consistency" ++ schema_tags "Schema" "Schema"
   ++ selfsubject_tags "SelfSubjectStrategy" "SelfSubjectStrategy"
   ++ metricscollector_tags "BusinessMetrics" "business-metrics"
   ++ metaauthorizer_tags "MetaAuthorizer" "metaauthorizer")%list.

(** Keys are compared without regard to case. *)
Definition key_of (field : string) : option string :=
  ToLower <$> (snd <$> head (List.filter (fun p => String.eqb p.1 field) OptionsConfig_tags)).

(** * Flags *)

Inductive flag_kind := FlagString | FlagInt | FlagBool | FlagStringSlice | FlagStringArray.

Record flag := { fl_kind : flag_kind; fl_field : string; fl_name : string; fl_shorthand : string }.

Definition StringVar (field name : string) : flag :=
  {| fl_kind := FlagString; fl_field := field; fl_name := name; fl_shorthand := "" |}.
Definition IntVar (field name : string) : flag :=
  {| fl_kind := FlagInt; fl_field := field; fl_name := name; fl_shorthand := "" |}.
Definition BoolVar (field name : string) : flag :=
  {| fl_kind := FlagBool; fl_field := field; fl_name := name; fl_shorthand := "" |}.
Definition BoolVarP (field name shorthand : string) : flag :=
  {| fl_kind := FlagBool; fl_field := field; fl_name := name; fl_shorthand := shorthand |}.
Definition StringSliceVar (field name : string) : flag :=
  {| fl_kind := FlagStringSlice; fl_field := field; fl_name := name; fl_shorthand := "" |}.
Definition StringArrayVar (field name : string) : flag :=
  {| fl_kind := FlagStringArray; fl_field := field; fl_name := name; fl_shorthand := "" |}.

(** [if prefix != "" { prefix = prefix + "." }] *)
Definition dotted (prefix : string) : string :=
  if bool_decide (prefix = "") then prefix else prefix ++ ".".

Definition grpc_AddFlags (o prefix : string) : list flag :=
  let prefix := dotted prefix in
  [StringVar (o ++ ".Addr") (prefix ++ "address");
   IntVar (o ++ ".Timeout") (prefix ++ "timeout-seconds");
   StringVar (o ++ ".ServingCertFile") (prefix ++ "certfile");
   StringVar (o ++ ".PrivateKeyFile") (prefix ++ "keyfile");
   StringVar (o ++ ".ClientCAFile") (prefix ++ "client-ca-file");
   StringVar (o ++ ".SNI") (prefix ++ "sni-servername");
   IntVar (o ++ ".CertOpt") (prefix ++ "certopt")].

Definition http_AddFlags (o prefix : string) : list flag :=
  let prefix := dotted prefix in
  [StringVar (o ++ ".Addr") (prefix ++ "address");
   IntVar (o ++ ".Timeout") (prefix ++ "timeout-seconds");
   StringVar (o ++ ".ServingCertFile") (prefix ++ "certfile");
   StringVar (o ++ ".PrivateKeyFile") (prefix ++ "keyfile");
   StringVar (o ++ ".ClientCAFile") (prefix ++ "client-ca-file");
   StringVar (o ++ ".SNI") (prefix ++ "sni-servername");
   IntVar (o ++ ".CertOpt") (prefix ++ "certopt")].

Definition pprof_AddFlags (o prefix : string) : list flag :=
  let prefix := dotted prefix in
  [BoolVar (o ++ ".Enabled") (prefix ++ "enabled");
   StringVar (o ++ ".Port") (prefix ++ "port");
   StringVar (o ++ ".Addr") (prefix ++ "addr")].

Definition server_AddFlags (o prefix : string) : list flag :=
  let prefix := dotted prefix in
  ([StringVar (o ++ ".Id") (prefix ++ "id");
    StringVar (o ++ ".Name") (prefix ++ "name");
    StringVar (o ++ ".PublicUrl") (prefix ++ "public_url");
    BoolVar (o ++ ".ReadOnlyMode") (prefix ++ "read-only")]
   ++ grpc_AddFlags (o ++ ".GrpcOptions") (prefix ++ "grpc")
   ++ http_AddFlags (o ++ ".HttpOptions") (prefix ++ "http")
   ++ pprof_AddFlags (o ++ ".PprofOptions") (prefix ++ "pprof"))%list.

Definition inmemory_AddFlags (o prefix : string) : list flag :=
  let prefix := dotted prefix in
  [StringVar (o ++ ".Type") (prefix ++ "Type");
   StringVar (o ++ ".Path") (prefix ++ "Path")].

Definition schema_AddFlags (o prefix : string) : list flag :=
  let prefix := dotted prefix in
  ([StringVar (o ++ ".Repository") (prefix ++ "schemas")]
   ++ inmemory_AddFlags (o ++ ".InMemory") (prefix ++ "in-memory"))%list.

Definition spicedb_AddFlags (o prefix : string) : list flag :=
  let prefix := dotted prefix in
  [StringVar (o ++ ".Endpoint") (prefix ++ "endpoint");
   StringVar (o ++ ".Token") (prefix ++ "token");
   StringVar (o ++ ".TokenFile") (prefix ++ "token-file");
   StringVar (o ++ ".SchemaFile") (prefix ++ "schema-file");
   BoolVar (o ++ ".UseTLS") (prefix ++ "use-tls");
   BoolVar (o ++ ".FullyConsistent") (prefix ++ "fully-consistent")].

Definition kessel_AddFlags (o prefix : string) : list flag :=
  let prefix := dotted prefix in
  [StringVar (o ++ ".URL") (prefix ++ "url");
   StringVar (o ++ ".ClientId") (prefix ++ "sa-client-id");
   StringVar (o ++ ".ClientSecret") (prefix ++ "sa-client-secret");
   StringVar (o ++ ".TokenEndpoint") (prefix ++ "sso-token-endpoint");
   BoolVar (o ++ ".EnableOidcAuth") (prefix ++ "enable-oidc-auth");
   BoolVar (o ++ ".Insecure") (prefix ++ "insecure-client")].

Definition relations_AddFlags (o prefix : string) : list flag :=
  let prefix := dotted prefix in
  ([StringVar (o ++ ".Authz") (prefix ++ "impl")]
   ++ kessel_AddFlags (o ++ ".Kessel") (prefix ++ "kessel")
   ++ spicedb_AddFlags (o ++ ".SpiceDB") (prefix ++ "spicedb"))%list.

Definition consistency_AddFlags (o prefix : string) : list flag :=
  let prefix := dotted prefix in
  [BoolVar (o ++ ".ReadAfterWriteEnabled") (prefix ++ "read-after-write-enabled");
   StringArrayVar (o ++ ".ReadAfterWriteAllowlist") (prefix ++ "read-after-write-allowlist");
   BoolVar (o ++ ".DefaultToAtLeastAsAcknowledged") (prefix ++ "default-to-at-least-as-acknowledged");
   BoolVar (o ++ ".IdempotencyCheckEnabled") (prefix ++ "idempotency-check-enabled")].

Definition auth_AddFlags (o prefix : string) : list flag :=
  let prefix := dotted prefix in
  [BoolVar (o ++ ".Enabled") (prefix ++ "enabled");
   StringVar (o ++ ".SecurityProtocol") (prefix ++ "security-protocol");
   StringVar (o ++ ".SASLMechanism") (prefix ++ "sasl-mechanism");
   StringVar (o ++ ".SASLUsername") (prefix ++ "sasl-username");
   StringVar (o ++ ".SASLPassword") (prefix ++ "sasl-password");
   StringVar (o ++ ".CACertLocation") (prefix ++ "ca-cert-location")].

Definition retry_AddFlags (o prefix : string) : list flag :=
  let prefix := dotted prefix in
  [IntVar (o ++ ".ConsumerMaxRetries") (prefix ++ "consumer-max-retries");
   IntVar (o ++ ".OperationMaxRetries") (prefix ++ "operation-max-retries");
   IntVar (o ++ ".BackoffFactor") (prefix ++ "backoff-factor");
   IntVar (o ++ ".MaxBackoffSeconds") (prefix ++ "max-backoff-seconds")].

Definition consumer_AddFlags (o prefix : string) : list flag :=
  let prefix := dotted prefix in
  ([BoolVar (o ++ ".Enabled") (prefix ++ "enabled");
    StringSliceVar (o ++ ".BootstrapServers") (prefix ++ "bootstrap-servers");
    StringVar (o ++ ".ConsumerGroupID") (prefix ++ "consumer-group-id");
    StringVar (o ++ ".Topic") (prefix ++ "topic");
    IntVar (o ++ ".CommitModulo") (prefix ++ "commit-modulo");
    BoolVar (o ++ ".ReadAfterWriteEnabled") (prefix ++ "read-after-write-enabled");
    StringArrayVar (o ++ ".ReadAfterWriteAllowlist") (prefix ++ "read-after-write-allowlist");
    StringVar (o ++ ".SessionTimeout") (prefix ++ "session-timeout");
    StringVar (o ++ ".HeartbeatInterval") (prefix ++ "heartbeat-interval");
    StringVar (o ++ ".MaxPollInterval") (prefix ++ "max-poll-interval");
    StringVar (o ++ ".EnableAutoCommit") (prefix ++ "enable-auto-commit");
    StringVar (o ++ ".AutoOffsetReset") (prefix ++ "auto-offset-reset");
    StringVar (o ++ ".StatisticsInterval") (prefix ++ "statistics-interval-ms");
    StringVar (o ++ ".Debug") (prefix ++ "debug")]
   ++ auth_AddFlags (o ++ ".AuthOptions") (prefix ++ "auth")
   ++ retry_AddFlags (o ++ ".RetryOptions") (prefix ++ "retry-options"))%list.

Definition oidc_AddFlags (o prefix : string) : list flag :=
  let prefix := dotted prefix in
  [StringVar (o ++ ".ClientId") (prefix ++ "client-id");
   StringVar (o ++ ".AuthorizationServerURL") (prefix ++ "authn-server-url");
   StringVar (o ++ ".PrincipalUserDomain") (prefix ++ "principal-user-domain");
   BoolVarP (o ++ ".InsecureClient") (prefix ++ "insecure-client") "k";
   BoolVarP (o ++ ".SkipClientIDCheck") (prefix ++ "skip-client-id-check") "";
   BoolVarP (o ++ ".EnforceAudCheck") (prefix ++ "enforce-aud-check") "";
   BoolVarP (o ++ ".SkipIssuerCheck") (prefix ++ "skip-issuer-check") ""].

Definition postgres_AddFlags (o prefix : string) : list flag :=
  let prefix := dotted prefix in
  [StringVar (o ++ ".Host") (prefix ++ "host");
   StringVar (o ++ ".Port") (prefix ++ "port");
   StringVar (o ++ ".DbName") (prefix ++ "dbname");
   StringVar (o ++ ".User") (prefix ++ "user");
   StringVar (o ++ ".Password") (prefix ++ "password");
   StringVar (o ++ ".SSLMode") (prefix ++ "sslmode");
   StringVar (o ++ ".SSLRootCert") (prefix ++ "sslrootcert")].

Definition sqlite3_AddFlags (o prefix : string) : list flag :=
  let prefix := dotted prefix in
  [StringVar (o ++ ".DSN") (prefix ++ "dsn")].

Definition storage_AddFlags (o prefix : string) : list flag :=
  let prefix := dotted prefix in
  ([StringVar (o ++ ".Database") (prefix ++ "database");
    IntVar (o ++ ".MaxSerializationRetries") (prefix ++ "max-serialization-retries");
    StringVar (o ++ ".OutboxMode") (prefix ++ "outbox-mode")]
   ++ postgres_AddFlags (o ++ ".Postgres") (prefix ++ "postgres")
   ++ sqlite3_AddFlags (o ++ ".SqlLite3") (prefix ++ "sqlite3"))%list.

Definition selfsubject_AddFlags (o prefix : string) : list flag :=
  let prefix := dotted prefix in
  [BoolVar (o ++ ".RedHatRbac.Enabled") (prefix ++ "redhat-rbac.enabled");
   StringVar (o ++ ".RedHatRbac.XRhIdentityDomain") (prefix ++ "redhat-rbac.issuer-domain")].

Definition metaauthorizer_AddFlags (o prefix : string) : list flag :=
  let prefix := dotted prefix in
  [StringArrayVar (o ++ ".TupleCrudAllowlist") (prefix ++ "tuple-crud-allowlist")].

Definition metricscollector_AddFlags (o prefix : string) : list flag :=
  let prefix := dotted prefix in
  [BoolVar (o ++ ".Enabled") (prefix ++ "enabled")].

(** The flags of the authenticators are reserved; the oidc options are not
    bound. *)
Definition authn_AddFlags (_ _ : string) : list flag := [].

(** ** The commands *)

Definition Name : string := "inventory-api".

(** The flags of the serve command. *)
Definition serve_flags : list flag :=
  (server_AddFlags "Server" "server" ++ authn_AddFlags "Authn" "authn"
   ++ relations_AddFlags "Authz" "authz" ++ consumer_AddFlags "Consumer" "consumer"
   ++ consistency_AddFlags "Consistency" "consistency" ++ schema_AddFlags "Schema" "schema"
   ++ selfsubject_AddFlags "SelfSubjectStrategy" "selfsubjectstrategy"
   ++ metricscollector_AddFlags "BusinessMetrics" "business-metrics"
   ++ metaauthorizer_AddFlags "MetaAuthorizer" "metaauthorizer")%list.

(** The persistent flags of the root command; --config sets [cfgFile], which is
    no option. *)
Definition root_flags : list flag := storage_AddFlags "Storage" "storage".

Definition config_flag : flag := StringVar "cfgFile" "config".

(** Every flag that init binds to viper. *)
Definition bound_flags : list flag := (config_flag :: root_flags ++ serve_flags)%list.

(** * Reading the configuration *)

Definition upper (c : ascii) : ascii :=
  let n := nat_of_ascii c in
  if ((97 <=? n) && (n <=? 122))%nat then ascii_of_nat (n - 32) else c.
Definition ToUpper (s : string) : string := string_map upper s.

(** SetEnvPrefix(strings.ReplaceAll(Name, "-", "_")) *)
Definition env_prefix : string := ReplaceAll1 Name "-" "_".

(** SetEnvKeyReplacer(strings.NewReplacer(".", "_")), and viper's upper case. *)
Definition env_name (key : string) : string := ToUpper (env_prefix ++ "_" ++ ReplaceAll1 key "." "_").

Section Config.
Context {V : Type}.

(** What a run finds: the flags given, by name; the environment, where an empty
    variable counts as none; the file, by key in lower case. *)
Record sources := {
  src_flag : string -> option V;
  src_env : string -> option V;
  src_file : string -> option V;
}.

Abbreviation options := (string -> V) (only parsing).

(** [Get] of a key, with the flags bound and the fields they point to. *)
Class Viper := {
  viper_get : list flag -> sources -> options -> string -> option V;
}.

(** A key is known if a flag or the file has it. *)
Definition bound_to (fs : list flag) (k : string) (f : flag) : Prop :=
  f ∈ fs /\ ToLower (fl_name f) = k.

(** Each item takes precedence over the item below it: a flag that is given, the
    environment, the file, the default of a flag, which is what its variable
    holds.  AutomaticEnv is asked for the keys that are known. *)
Class ViperLaws `{Viper} : Prop := {
  viper_flag : forall fs src o k f v, bound_to fs k f -> src_flag src (fl_name f) = Some v ->
    NoDup (ToLower ∘ fl_name <$> fs) -> viper_get fs src o k = Some v;
  viper_env : forall fs src o k v,
    (forall f, bound_to fs k f -> src_flag src (fl_name f) = None) ->
    (exists f, bound_to fs k f) \/ is_Some (src_file src k) ->
    src_env src (env_name k) = Some v -> viper_get fs src o k = Some v;
  viper_file : forall fs src o k v,
    (forall f, bound_to fs k f -> src_flag src (fl_name f) = None) ->
    src_env src (env_name k) = None -> src_file src k = Some v -> viper_get fs src o k = Some v;
  viper_default : forall fs src o k f, bound_to fs k f -> src_flag src (fl_name f) = None ->
    NoDup (ToLower ∘ fl_name <$> fs) ->
    src_env src (env_name k) = None -> src_file src k = None ->
    viper_get fs src o k = Some (o (fl_field f));
  viper_unknown : forall fs src o k, (forall f, ~ bound_to fs k f) -> src_file src k = None ->
    viper_get fs src o k = None;
}.

(** pflag has written the flags that were given into their fields. *)
Definition parsed (fs : list flag) (src : sources) (o : options) : options := fun field =>
  default (o field)
    (head (omap (fun f => if String.eqb (fl_field f) field then src_flag src (fl_name f) else None)
             fs)).

(** viper.Unmarshal(&options): every field whose key has a value is set to it;
    [decode] is the conversion to the type of the field. *)
Definition unmarshal (decode : string -> V -> option V) (get : string -> option V) (o : options)
    (field : string) : option V :=
  match key_of field with
  | Some k => match get k with Some v => decode field v | None => Some (o field) end
  | None => Some (o field)
  end.

(** ** The file *)

Inductive location := ConfigFile (path : string) | ConfigSearch (paths : list string) (name : string).

Inductive exit := Fatal (msg : string) | Panicked (e : go_error).

(** The outcomes of the calls to the system. *)
Record system := {
  sys_config : option string;              (* os.LookupEnv("INVENTORY_API_CONFIG") *)
  sys_abs : string -> string + go_error;   (* filepath.Abs *)
  sys_home : string + go_error;            (* os.UserHomeDir *)
  sys_read : location -> option go_error;  (* viper.ReadInConfig *)
}.

Definition config_location (s : system) (cfgFile : string) : location + exit :=
  if bool_decide (cfgFile <> "") then inl (ConfigFile cfgFile)
  else match sys_config s with
       | Some path =>
           match sys_abs s path with
           | inr _ => inr (Fatal "Failed to resolve absolute path for config file")
           | inl absPath =>
               match sys_read s (ConfigFile absPath) with
               | Some _ => inr (Fatal "Error reading INVENTORY_API_CONFIG file")
               | None => inl (ConfigFile absPath)
               end
           end
       | None =>
           match sys_home s with
           | inr _ => inr (Fatal "Error")
           | inl home => inl (ConfigSearch ["."; home] ("." ++ Name))
           end
       end.

(** [initConfig]: the fields after it, or how the process ended.  [found loc] is
    the content of the file that is read. *)
Definition initConfig `{Viper} (s : system) (cfgFile : string)
    (decode : string -> V -> option V) (found : location -> sources) (o : options)
    : (string -> V) + exit :=
  match config_location s cfgFile with
  | inr e => inr e
  | inl loc =>
      match sys_read s loc with
      | Some err => inr (Panicked err)
      | None =>
          let src := found loc in
          let o := parsed bound_flags src o in
          let get := viper_get bound_flags src o in
          if forallb (fun p => match unmarshal decode get o p.1 with Some _ => true | None => false end)
               OptionsConfig_tags
          then inl (fun field => default (o field) (unmarshal decode get o field))
          else inr (Panicked (EMsg "decoding failed"))
      end
  end.
End Config.

Arguments sources : clear implicits.
Arguments Viper : clear implicits.
Arguments ViperLaws V {_}.
