(* ===== verification/Startup.v ===== *)
(** The start of every command: cmd/root.go, cmd/common/common.go, the log of the
    configuration (internal/config/config.go) and cmd/migrate.

    cobra runs the initializers of the root command after it has parsed the
    command line and before it runs the command; the logger of the root command
    is nil until then.  A message is its format with its arguments. *)
From stdpp Require Import base tactics list strings gmap.
From Stdlib Require Import ZArith Lia Ascii.
From S2P Require Import Prelude GoStrings Common Authn AuthnConfig RelationsConfig Schema.
From S2P Require Import Settings Serve Migrations Flags.

Local Open Scope string_scope.

(** * Loggers *)

Inductive level := LevelDebug | LevelInfo | LevelWarn | LevelError | LevelFatal.

#[export] Instance level_eq_dec : EqDecision level.
Proof. solve_decision. Defined.

(** The order of kratos: Debug is -1, Fatal is 3. *)
Definition level_rank (l : level) : Z :=
  match l with
  | LevelDebug => -1 | LevelInfo => 0 | LevelWarn => 1 | LevelError => 2 | LevelFatal => 3
  end.

(** [InitLogger]: the level below which the logger drops messages, and whether
    the default was taken. *)
Definition InitLogger (logLevel : string) : level * bool :=
  let l := ToLower logLevel in
  if bool_decide (l = "debug") then (LevelDebug, true)
  else if bool_decide (l = "info") then (LevelInfo, true)
  else if bool_decide (l = "warn") then (LevelWarn, true)
  else if bool_decide (l = "error") then (LevelError, true)
  else if bool_decide (l = "fatal") then (LevelFatal, true)
  else (LevelInfo, false).

(** [log.FilterLevel] *)
Definition logged_at (logger l : level) : bool := bool_decide (level_rank logger <= level_rank l)%Z.

(** * The configuration in the log *)

Inductive log_arg :=
  | LString (s : string) | LBool (b : bool) | LInt (z : Z) | LStrings (l : list string).

Record message := { msg_format : string; msg_args : list log_arg }.

(** [entry.Config[key].(string)] *)
Definition config_string (config : JsonObject) (key : string) : option string :=
  match config with
  | Some m => match m !! key with Some (JStr s) => Some s | _ => None end
  | None => None
  end.

(** The loop ends at the first entry of type oidc. *)
Fixpoint log_chain (chain : list ChainEntry) : list message :=
  match chain with
  | [] => []
  | entry :: rest =>
      if bool_decide (ce_Type entry = TypeOIDC) then
        match config_string (ce_Config entry) OIDCConfigKeyAuthServerURL with
        | Some authServerURL =>
            if bool_decide (authServerURL <> "")
            then [{| msg_format := "Authn Configuration: URL: %s, ClientID: %s";
                     msg_args := [LString authServerURL;
                       LString (default "" (config_string (ce_Config entry) OIDCConfigKeyClientID))] |}]
            else []
        | None => []
        end
      else log_chain rest
  end.

Definition log_storage (o : StorageOptions) : list message :=
  if bool_decide (so_Database o = Postgres)
  then let p := so_Postgres o in
    [{| msg_format := "Storage Configuration: Host: %s, DB: %s, Port: %s, SSLMode: %s, RDSCACert: %s";
        msg_args := [LString (postgres.Host p); LString (postgres.DbName p);
                     LString (postgres.Port p); LString (postgres.SSLMode p);
                     LString (postgres.SSLRootCert p)] |}]
  else [].

(** The options of the backend that is chosen are dereferenced. *)
Definition log_authz (o : RelationsOptions) : list message + go_error :=
  if bool_decide (ro_Authz o = Kessel) then
    match ro_Kessel o with
    | None => inr nil_deref
    | Some k =>
        inl [{| msg_format := "Authz Configuration: URL: %s, Insecure?: %t, OIDC?: %t";
                msg_args := [LString (kessel.URL k); LBool (kessel.Insecure k);
                             LBool (kessel.EnableOidcAuth k)] |}]
    end
  else if bool_decide (ro_Authz o = SpiceDB) then
    match ro_SpiceDB o with
    | None => inr nil_deref
    | Some s =>
        inl [{| msg_format := "Authz Configuration: SpiceDB Endpoint: %s, TLS?: %t, FullyConsistent?: %t";
                msg_args := [LString (spicedb.Endpoint s); LBool (spicedb.UseTLS s);
                             LBool (spicedb.FullyConsistent s)] |}]
    end
  else inl [].

Definition log_consumer (o : ConsumerOptions) : list message :=
  let r := co_RetryOptions o in
  let a := co_AuthOptions o in
  [{| msg_format := "Consumer Configuration: Bootstrap Server: %s, Topic: %s, Consumer Max Retries: %d, Operation Max Retries: %d, Backoff Factor: %d, Max Backoff Seconds: %d";
      msg_args := [LStrings (co_BootstrapServers o); LString (co_Topic o);
                   LInt (retry.ConsumerMaxRetries r); LInt (retry.OperationMaxRetries r);
                   LInt (retry.BackoffFactor r); LInt (retry.MaxBackoffSeconds r)] |};
   {| msg_format := "Consumer Auth Settings: Enabled: %v, Security Protocol: %s, Mechanism: %s, Username: %s";
      msg_args := [LBool (auth.Enabled a); LString (auth.SecurityProtocol a);
                   LString (auth.SASLMechanism a); LString (auth.SASLUsername a)] |}].

(** The messages, and the panic that cut them short. *)
Definition LogConfigurationInfo (o : ServeOptions) : list message * option go_error :=
  let s := srv_Server o in
  let before :=
    ({| msg_format := "Server Configuration: Public URL: %s, HTTP Listener: %s, GRPC Listener: %s";
        msg_args := [LString (svo_PublicUrl s); LString (listener.Addr (svo_HttpOptions s));
                     LString (listener.Addr (svo_GrpcOptions s))] |}
     :: match ao_Authenticator (srv_Authn o) with
        | Some a => log_chain (ag_Chain a)
        | None => []
        end ++ log_storage (srv_Storage o))%list in
  match log_authz (srv_Authz o) with
  | inr panic => (before, Some panic)
  | inl authz =>
      ((before ++ authz ++ log_consumer (srv_Consumer o)
        ++ [{| msg_format := "Consistency Configuration: Read-After-Write Enabled: %t, Read-After-Write Allowlist: %+s";
               msg_args := [LBool (cso_ReadAfterWriteEnabled (srv_Consistency o));
                            LStrings (cso_ReadAfterWriteAllowlist (srv_Consistency o))] |}])%list,
       None)
  end.

(** * The root command *)

(** How a process ends: its exit status, or the panic that ends it. *)
Inductive ending := Exited (status : Z) | Panics (what : go_error).

(** The commands below the root. *)
Definition subcommands : list string := ["migrate"; "serve"; "schema"; "run-job"].

(** [init]: the flags of the root are bound before the configuration of a ClowdApp
    is put into the options, those of the commands after it; [bind] is the error
    of viper.BindPFlags for a command. *)
Definition root_init (bind : string -> option go_error) (IsClowderEnabled : bool)
    (RdsCa : string -> result string) (LoadedConfig : clowder.AppConfig) (o : OptionsConfig)
    : OptionsConfig + ending :=
  match bind Name with
  | Some err => inr (Panics err)
  | None =>
      match (if IsClowderEnabled then InjectClowdAppConfig RdsCa LoadedConfig o else Ok o) with
      | Err err => inr (Panics err)
      | Ok o => match head (omap bind subcommands) with
                | Some err => inr (Panics err)
                | None => inl o
                end
      end
  end.

(** [Initialize] once [initConfig] has returned the options [o] and viper the
    level: the logger and what is logged. *)
Definition Initialize (logLevel : string) (o : ServeOptions)
    : level * list message * option go_error :=
  let logger := (InitLogger logLevel).1 in
  if bool_decide (logLevel = "debug")
  then let '(msgs, panic) := LogConfigurationInfo o in (logger, msgs, panic)
  else (logger, [], None).

(** What a run of the root command meets: an error of the command line, which
    cobra returns before it runs the initializers, the outcome of [initConfig],
    the level, and the error of the command that is run. *)
Record run := {
  run_parse : option go_error;
  run_config : ServeOptions + exit;
  run_level : string;
  run_command : ServeOptions -> option go_error;
}.

(** [Execute]: the messages and the end; [logger.Error] goes through the pointer
    to the logger. *)
Definition Execute (r : run) : list message * ending :=
  match run_parse r with
  | Some _ => ([], Panics nil_deref)
  | None =>
      match run_config r with
      | inr (Fatal _) => ([], Exited 1)
      | inr (Panicked e) => ([], Panics e)
      | inl o =>
          match Initialize (run_level r) o with
          | (_, msgs, Some panic) => (msgs, Panics panic)
          | (logger, msgs, None) =>
              match run_command r o with
              | None => (msgs, Exited 0)
              | Some err =>
                  ((msgs ++ if logged_at logger LevelError
                            then [{| msg_format := error_text err; msg_args := [] |}] else [])%list,
                   Exited 1)
              end
          end
      end
  end.

(** * The migrate command *)

Section Migrate.
Context {DB : Type} `{SchemaDB DB} `{!Gormigrate (DB := DB)}.

(** [options.Complete()] has nothing to do.  [opened] is the database that a
    driver gives for a DSN; an aggregate of errors is represented by its list. *)
Definition migrate_RunE (gorm_Open : string -> string -> option go_error)
    (opened : string -> string -> DB) (e : lock_env) (o : StorageOptions)
    : option DB * list go_error * list lock_event :=
  match ValidateStorage o with
  | err :: errs => (None, err :: errs, [])
  | [] =>
      match CompleteStorage (NewStorageConfig o) with
      | Err panic => (None, [panic], [])
      | Ok config =>
          match NewStorage gorm_Open config with
          | Err err => (None, [err], [])
          | Ok (driver, dsn) =>
              let '(db, err, evs) := data_Migrate e true (Some (opened driver dsn)) in
              (db, match err with Some err => [err] | None => [] end, evs)
          end
      end
  end.
End Migrate.
