(* ===== verification/StartupProps.v ===== *)
(** What the start of a command does with its configuration.  All flags but three
    are named after the key of their field, so that a flag, the environment, the
    file and the default take precedence in this order; the other three lose
    against the file, and the environment does not reach their fields.  The log of
    the configuration has no secrets.  The migrate command works under the lock. *)
From stdpp Require Import base tactics list strings gmap.
From Stdlib Require Import ZArith Lia Ascii.
From S2P Require Import Prelude GoStrings Common Schema MetaAuthz Authn AuthnConfig.
From S2P Require Import RelationsConfig SchemaLoad Settings Serve Migrations MigrationsProps.
From S2P Require Import Flags Startup.

Local Open Scope string_scope.

(** * The names *)

(** A flag that is named after the key of its field. *)
Definition own_key (f : flag) : Prop := key_of (fl_field f) = Some (ToLower (fl_name f)).

#[export] Instance own_key_dec f : Decision (own_key f).
Proof. unfold own_key. apply _. Defined.

Definition misnamed : list string :=
  ["schema.schemas"; "selfsubjectstrategy.redhat-rbac.enabled";
   "selfsubjectstrategy.redhat-rbac.issuer-domain"].

(** No flag is defined twice, whatever the case of its name; a second definition
    makes pflag panic. *)
Lemma bound_flags_names : NoDup (ToLower ∘ fl_name <$> bound_flags).
Proof. apply (bool_decide_unpack _). vm_compute. exact I. Qed.

Lemma bound_flags_fields : NoDup (fl_field <$> bound_flags).
Proof. apply (bool_decide_unpack _). vm_compute. exact I. Qed.

Lemma bound_flags_keys f : f ∈ bound_flags ->
  own_key f \/ f = config_flag \/ fl_name f ∈ misnamed.
Proof.
  assert (Hall : forallb (fun f => bool_decide (own_key f) || String.eqb (fl_name f) "config"
                            || bool_decide (fl_name f ∈ misnamed)) bound_flags = true)
    by (vm_compute; reflexivity).
  rewrite forallb_forall in Hall. intros Hf. pose proof (Hall f ltac:(by apply list_elem_of_In)) as Hc.
  apply orb_true_iff in Hc as [Hc|Hc]; [|by apply bool_decide_eq_true in Hc; auto].
  apply orb_true_iff in Hc as [Hc|Hc]; [by apply bool_decide_eq_true in Hc; auto|].
  apply String.eqb_eq in Hc. right. left.
  apply list_elem_of_lookup in Hf as [i Hi].
  assert (i = 0%nat) as ->; [|by injection Hi].
  eapply (NoDup_lookup _ i 0 "config" bound_flags_names); [|done].
  rewrite list_lookup_fmap, Hi. simpl. by rewrite Hc.
Qed.

(** The fields of the misnamed flags have keys, and no flag has these keys. *)
Lemma misnamed_unbound f : f ∈ bound_flags -> fl_name f ∈ misnamed ->
  exists k, key_of (fl_field f) = Some k /\ forall g, ~ bound_to bound_flags k g.
Proof.
  assert (Hall : forallb (fun f => negb (bool_decide (fl_name f ∈ misnamed)) ||
    match key_of (fl_field f) with
    | Some k => negb (existsb (fun g => String.eqb (ToLower (fl_name g)) k) bound_flags)
    | None => false
    end) bound_flags = true) by (vm_compute; reflexivity).
  rewrite forallb_forall in Hall. intros Hf Hm.
  pose proof (Hall f ltac:(by apply list_elem_of_In)) as Hc.
  rewrite bool_decide_eq_true_2 in Hc by done. cbn [negb orb] in Hc.
  destruct (key_of (fl_field f)) as [k|]; [|done]. exists k. split; [done|].
  intros g [Hg Hk]. apply negb_true_iff, not_true_iff_false in Hc. apply Hc, existsb_exists.
  exists g. split; [by apply list_elem_of_In|by apply String.eqb_eq].
Qed.

Lemma key_of_listed field k : key_of field = Some k -> field ∈ OptionsConfig_tags.*1.
Proof.
  unfold key_of. destruct (List.filter _ _) as [|p l] eqn:E; [done|]. intros _.
  assert (Hp : In p (List.filter (fun p => String.eqb p.1 field) OptionsConfig_tags))
    by (rewrite E; by left).
  apply filter_In in Hp as [Hp <-%String.eqb_eq]. apply list_elem_of_fmap.
  exists p. split; [done|by apply list_elem_of_In].
Qed.

Section Precedence.
Context {V : Type} `{!Viper V} `{!ViperLaws V}.
Implicit Types (src : sources V) (o : string -> V).

(** * What pflag wrote *)

Lemma parsed_unique fs src o f : NoDup (fl_field <$> fs) -> f ∈ fs ->
  parsed fs src o (fl_field f) = default (o (fl_field f)) (src_flag src (fl_name f)).
Proof.
  intros Hnd Hf. unfold parsed. f_equal.
  set (hit g := if String.eqb (fl_field g) (fl_field f) then src_flag src (fl_name g) else None).
  change (head (omap hit fs) = src_flag src (fl_name f)).
  assert (Hself : hit f = src_flag src (fl_name f)) by (unfold hit; by rewrite String.eqb_refl).
  assert (Hother : forall g, fl_field g <> fl_field f -> hit g = None).
  { intros g Hg. unfold hit. by rewrite (proj2 (String.eqb_neq _ _) Hg). }
  clearbody hit. rewrite <- Hself. clear Hself.
  induction fs as [|g fs IH]; [by apply not_elem_of_nil in Hf|].
  apply NoDup_cons in Hnd as [Hg Hnd]. apply elem_of_cons in Hf as [->|Hf].
  - assert (Hrest : omap hit fs = []).
    { clear -Hg Hother. induction fs as [|h fs IH]; [done|]. cbn in Hg.
      apply not_elem_of_cons in Hg as [Hne Hg]. cbn. rewrite (Hother h) by congruence. by apply IH. }
    cbn. rewrite Hrest. by destruct (hit g).
  - cbn. rewrite (Hother g); [by apply IH|]. intros E. apply Hg. rewrite E.
    by apply (list_elem_of_fmap_2 fl_field).
Qed.

(** * The order of the sources *)

(** A flag that is given, else the environment, else the file, else what the
    field held: the default, or what a ClowdApp put there. *)
Definition preferred src o (f : flag) (k : string) : V :=
  match src_flag src (fl_name f), src_env src (env_name k), src_file src k with
  | Some v, _, _ | None, Some v, _ | None, None, Some v => v
  | None, None, None => o (fl_field f)
  end.

Lemma bound_unique k f g : bound_to bound_flags k f -> bound_to bound_flags k g -> g = f.
Proof.
  intros [Hf <-] [Hg Hk]. apply list_elem_of_lookup in Hf as [i Hi], Hg as [j Hj].
  assert (j = i) as ->; [|congruence].
  eapply (NoDup_lookup _ j i (ToLower (fl_name f)) bound_flags_names);
    rewrite list_lookup_fmap, ?Hi, ?Hj; simpl; congruence.
Qed.

Lemma viper_get_preferred src o f : f ∈ bound_flags ->
  viper_get bound_flags src (parsed bound_flags src o) (ToLower (fl_name f))
  = Some (preferred src o f (ToLower (fl_name f))).
Proof.
  intros Hf. set (k := ToLower (fl_name f)).
  assert (Hb : bound_to bound_flags k f) by done. unfold preferred.
  destruct (src_flag src (fl_name f)) as [v|] eqn:Hfl.
  { by apply (viper_flag _ _ _ _ f); [..|apply bound_flags_names]. }
  assert (Hno : forall g, bound_to bound_flags k g -> src_flag src (fl_name g) = None)
    by (intros g Hg; by rewrite (bound_unique _ _ _ Hb Hg)).
  destruct (src_env src (env_name k)) as [v|] eqn:He; [by apply viper_env; [|left; exists f|]|].
  destruct (src_file src k) as [v|] eqn:Hfile; [by apply viper_file|].
  rewrite (viper_default _ _ _ _ f) by (done || apply bound_flags_names).
  by rewrite (parsed_unique _ _ _ _ bound_flags_fields Hf), Hfl.
Qed.

(** The misnamed flags: a key of the file, or its variable, wins. *)
Lemma viper_get_misnamed src o k : (forall g, ~ bound_to bound_flags k g) ->
  viper_get bound_flags src o k
  = match src_file src k with Some v => Some (default v (src_env src (env_name k))) | None => None end.
Proof.
  intros Hno. assert (Hn : forall g, bound_to bound_flags k g -> src_flag src (fl_name g) = None)
    by (intros g Hg; by destruct (Hno g)).
  destruct (src_file src k) as [v|] eqn:Hf; [|by apply viper_unknown].
  destruct (src_env src (env_name k)) as [w|] eqn:He; simpl.
  - apply viper_env; [done|right; by rewrite Hf|done].
  - by apply viper_file.
Qed.
End Precedence.

(** C31. The precedence of the sources of an option.  When initConfig returns, it
    has read a file.  Every flag but --config either has the key of its field as
    its name: then the field holds the flag that was given, else the variable of
    the environment, else the value of the file, else what it held before; or it
    is one of the three misnamed flags: then a value of the file, or the variable
    of its key, takes precedence over the flag, and without a value of the file
    the variable has no effect. *)
Theorem option_precedence (V : Type) (HV : Viper V) (HL : ViperLaws V) (s : system)
    (cfgFile : string) (decode : string -> V -> option V) (found : location -> sources V)
    (o o' : string -> V) (Hinit : initConfig s cfgFile decode found o = inl o') :
  exists loc, config_location s cfgFile = inl loc /\ sys_read s loc = None /\
    forall f, f ∈ bound_flags -> f <> config_flag ->
      exists k, key_of (fl_field f) = Some k /\
        if decide (fl_name f ∈ misnamed)
        then match src_file (found loc) k with
             | Some v => decode (fl_field f) (default v (src_env (found loc) (env_name k)))
                         = Some (o' (fl_field f))
             | None => o' (fl_field f)
                       = default (o (fl_field f)) (src_flag (found loc) (fl_name f))
             end
        else k = ToLower (fl_name f) /\
             decode (fl_field f) (preferred (found loc) o f k) = Some (o' (fl_field f)).
Proof.
  unfold initConfig in Hinit. destruct (config_location s cfgFile) as [loc|]; [|done].
  destruct (sys_read s loc) eqn:Hread; [done|].
  destruct (forallb _ _) eqn:Hall; [|done]. injection Hinit as <-.
  exists loc. split; [done|]. split; [done|]. intros f Hf Hne. rewrite forallb_forall in Hall.
  set (get := viper_get bound_flags (found loc) (parsed bound_flags (found loc) o)) in *.
  assert (Hdec : forall k, key_of (fl_field f) = Some k -> forall v, get k = Some v ->
    decode (fl_field f) v = Some (default (parsed bound_flags (found loc) o (fl_field f))
      (unmarshal decode get (parsed bound_flags (found loc) o) (fl_field f)))).
  { intros k Hk v Hv. pose proof (key_of_listed _ _ Hk) as Hin.
    apply list_elem_of_fmap in Hin as (p & Hp & Hin%list_elem_of_In). apply Hall in Hin.
    rewrite <- Hp in Hin. unfold unmarshal in *. rewrite Hk, Hv in *.
    by destruct (decode (fl_field f) v). }
  case_decide as Hm.
  - destruct (misnamed_unbound f Hf Hm) as (k & Hk & Hno). exists k. split; [done|].
    pose proof (viper_get_misnamed (found loc) (parsed bound_flags (found loc) o) k Hno) as Hg.
    fold get in Hg. destruct (src_file (found loc) k) as [v|]; [by apply (Hdec k)|].
    unfold unmarshal. rewrite Hk, Hg. simpl. by apply parsed_unique; [apply bound_flags_fields|].
  - destruct (bound_flags_keys f Hf) as [Ho|[?|?]]; [|done..].
    exists (ToLower (fl_name f)). split; [done|]. split; [done|].
    apply (Hdec _ Ho). by apply viper_get_preferred.
Qed.

(** * A run *)

(** The first source that has the key, as the documentation of viper says. *)
Definition documented_get (fs : list flag) (src : sources string) (o : string -> string) (k : string)
    : option string :=
  match List.find (fun f => String.eqb (ToLower (fl_name f)) k) fs with
  | Some f =>
      match src_flag src (fl_name f), src_env src (env_name k), src_file src k with
      | Some v, _, _ | None, Some v, _ | None, None, Some v => Some v
      | None, None, None => Some (o (fl_field f))
      end
  | None => match src_file src k with
            | Some v => Some (default v (src_env src (env_name k)))
            | None => None
            end
  end.

#[export] Instance documented_viper : Viper string := {| viper_get := documented_get |}.

Lemma find_bound fs k f : List.find (fun f => String.eqb (ToLower (fl_name f)) k) fs = Some f ->
  bound_to fs k f.
Proof.
  intros [Hin E]%List.find_some. split; [by apply list_elem_of_In|by apply String.eqb_eq].
Qed.

Lemma find_unbound fs k : List.find (fun f => String.eqb (ToLower (fl_name f)) k) fs = None ->
  forall f, ~ bound_to fs k f.
Proof.
  intros Hnone f [Hin E]. pose proof (List.find_none _ _ Hnone f ltac:(by apply list_elem_of_In)) as Hf.
  simpl in Hf. by rewrite E, String.eqb_refl in Hf.
Qed.

Lemma find_unique fs k f : NoDup (ToLower ∘ fl_name <$> fs) -> bound_to fs k f ->
  List.find (fun f => String.eqb (ToLower (fl_name f)) k) fs = Some f.
Proof.
  intros Hnd Hb. destruct (List.find _ fs) as [g|] eqn:E; [|by destruct (find_unbound _ _ E f)].
  apply find_bound in E as [Hg Hkg]. destruct Hb as [Hf Hkf]. f_equal.
  apply list_elem_of_lookup in Hf as [i Hi], Hg as [j Hj].
  assert (j = i) as ->; [|congruence].
  eapply (NoDup_lookup _ j i k Hnd); rewrite list_lookup_fmap, ?Hi, ?Hj; simpl; congruence.
Qed.

#[export] Instance documented_viper_laws : ViperLaws string.
Proof.
  split; unfold viper_get, documented_viper, documented_get.
  - intros fs src o k f v Hb Hv Hnd. by rewrite (find_unique _ _ _ Hnd Hb), Hv.
  - intros fs src o k v Hno Hkn He. destruct (List.find _ fs) as [f|] eqn:E.
    + by rewrite (Hno f (find_bound _ _ _ E)), He.
    + destruct Hkn as [[f Hf]|[w ->]]; [by destruct (find_unbound _ _ E f)|]. by rewrite He.
  - intros fs src o k v Hno He Hf. destruct (List.find _ fs) as [f|] eqn:E.
    + by rewrite (Hno f (find_bound _ _ _ E)), He, Hf.
    + by rewrite Hf, He.
  - intros fs src o k f Hb Hv Hnd He Hf. by rewrite (find_unique _ _ _ Hnd Hb), Hv, He, Hf.
  - intros fs src o k Hno Hf. destruct (List.find _ fs) as [f|] eqn:E; [|by rewrite Hf].
    by destruct (Hno f (find_bound _ _ _ E)).
Qed.

(** A file with a schema repository, a database and an address; a flag for the
    repository and for the database, and a variable for the address. *)
Definition ex_sources : sources string :=
  {| src_flag n := if String.eqb n "schema.schemas" then Some "from-flag"
                   else if String.eqb n "storage.database" then Some "postgres" else None;
     src_env n := if String.eqb n "INVENTORY_API_SERVER_HTTP_ADDRESS" then Some "0.0.0.0:8081"
                  else None;
     src_file k := if String.eqb k "schema.repository" then Some "from-file"
                   else if String.eqb k "storage.database" then Some "sqlite3"
                   else if String.eqb k "server.http.address" then Some "localhost:8081" else None |}.

Definition ex_system : system :=
  {| sys_config := None; sys_abs p := inl p; sys_home := inl "/root"; sys_read _ := None |}.

Definition ex_init : (string -> string) + exit :=
  initConfig ex_system "" (fun _ v => Some v) (fun _ => ex_sources) (fun _ => "").

Lemma ex_init_ok : match ex_init with inl _ => true | inr _ => false end = true.
Proof. vm_compute. reflexivity. Qed.

Lemma option_precedence_witness : exists o', ex_init = inl o' /\
  o' "Storage.Database" = "postgres" /\ o' "Server.HttpOptions.Addr" = "0.0.0.0:8081" /\
  o' "Schema.Repository" = "from-file".
Proof.
  pose proof ex_init_ok as Hok. destruct ex_init as [o'|] eqn:E; [|discriminate Hok].
  exists o'. split; [reflexivity|].
  destruct (option_precedence string documented_viper documented_viper_laws ex_system ""
    (fun _ v => Some v) (fun _ => ex_sources) (fun _ => "") o' E) as (loc & _ & _ & Hf).
  assert (Hin : forall f, existsb (fun g => String.eqb (fl_name g) (fl_name f) &&
      String.eqb (fl_field g) (fl_field f) && String.eqb (fl_shorthand g) (fl_shorthand f) &&
      match fl_kind g, fl_kind f with FlagString, FlagString => true | _, _ => false end)
      bound_flags = true -> f ∈ bound_flags).
  { intros f Hb. apply existsb_exists in Hb as (g & Hg & Hb). apply list_elem_of_In in Hg.
    repeat rewrite andb_true_iff in Hb. rewrite !String.eqb_eq in Hb.
    destruct Hb as [[[E1 E2] E3] E4], f, g. simpl in *. by destruct fl_kind, fl_kind0; subst. }
  destruct (Hf (StringVar "Storage.Database" "storage.database")) as (k1 & _ & H1);
    [apply Hin; vm_compute; reflexivity|discriminate|].
  destruct (Hf (StringVar "Server.HttpOptions.Addr" "server.http.address")) as (k2 & _ & H2);
    [apply Hin; vm_compute; reflexivity|discriminate|].
  destruct (Hf (StringVar "Schema.Repository" "schema.schemas")) as (k3 & Hk3 & H3);
    [apply Hin; vm_compute; reflexivity|discriminate|].
  rewrite decide_False in H1 by (apply (bool_decide_unpack _); vm_compute; exact I).
  rewrite decide_False in H2 by (apply (bool_decide_unpack _); vm_compute; exact I).
  rewrite decide_True in H3 by (apply (bool_decide_unpack _); vm_compute; exact I).
  destruct H1 as [-> H1], H2 as [-> H2].
  assert (k3 = "schema.repository") as -> by (revert Hk3; vm_compute; congruence).
  split; [exact (eq_sym (f_equal (default "") H1))|].
  split; [exact (eq_sym (f_equal (default "") H2))|exact (eq_sym (f_equal (default "") H3))].
Defined.

(** * Secrets *)

(** The options without their credentials. *)
Definition redact_postgres (p : postgres.Options) : postgres.Options :=
  {| postgres.Host := postgres.Host p; postgres.Port := postgres.Port p;
     postgres.DbName := postgres.DbName p; postgres.User := postgres.User p;
     postgres.Password := ""; postgres.SSLMode := postgres.SSLMode p;
     postgres.SSLRootCert := postgres.SSLRootCert p |}.

Definition redact_storage (o : StorageOptions) : StorageOptions :=
  {| so_Postgres := redact_postgres (so_Postgres o);
     so_SqlLite3 := {| sqlite3.DSN := "" |}; so_Database := so_Database o;
     so_MaxSerializationRetries := so_MaxSerializationRetries o; so_OutboxMode := so_OutboxMode o |}.

Definition redact_kessel (k : kessel.Options) : kessel.Options :=
  {| kessel.URL := kessel.URL k; kessel.Insecure := kessel.Insecure k;
     kessel.EnableOidcAuth := kessel.EnableOidcAuth k; kessel.ClientId := kessel.ClientId k;
     kessel.ClientSecret := ""; kessel.TokenEndpoint := kessel.TokenEndpoint k |}.

Definition redact_spicedb (s : spicedb.Options) : spicedb.Options :=
  {| spicedb.Endpoint := spicedb.Endpoint s; spicedb.Token := "";
     spicedb.TokenFile := spicedb.TokenFile s; spicedb.SchemaFile := spicedb.SchemaFile s;
     spicedb.UseTLS := spicedb.UseTLS s; spicedb.FullyConsistent := spicedb.FullyConsistent s |}.

Definition redact_authz (o : RelationsOptions) : RelationsOptions :=
  {| ro_Authz := ro_Authz o; ro_Kessel := redact_kessel <$> ro_Kessel o;
     ro_SpiceDB := redact_spicedb <$> ro_SpiceDB o |}.

Definition redact_auth (a : auth.Options) : auth.Options :=
  {| auth.Enabled := auth.Enabled a; auth.SecurityProtocol := auth.SecurityProtocol a;
     auth.SASLMechanism := auth.SASLMechanism a; auth.SASLUsername := auth.SASLUsername a;
     auth.SASLPassword := ""; auth.CACertLocation := auth.CACertLocation a |}.

Definition redact_consumer (o : ConsumerOptions) : ConsumerOptions :=
  {| co_Enabled := co_Enabled o; co_BootstrapServers := co_BootstrapServers o;
     co_ConsumerGroupID := co_ConsumerGroupID o; co_Topic := co_Topic o;
     co_CommitModulo := co_CommitModulo o; co_SessionTimeout := co_SessionTimeout o;
     co_HeartbeatInterval := co_HeartbeatInterval o; co_MaxPollInterval := co_MaxPollInterval o;
     co_EnableAutoCommit := co_EnableAutoCommit o; co_AutoOffsetReset := co_AutoOffsetReset o;
     co_StatisticsInterval := co_StatisticsInterval o; co_Debug := co_Debug o;
     co_RetryOptions := co_RetryOptions o; co_AuthOptions := redact_auth (co_AuthOptions o);
     co_ReadAfterWriteEnabled := co_ReadAfterWriteEnabled o;
     co_ReadAfterWriteAllowlist := co_ReadAfterWriteAllowlist o |}.

(** The configuration of an authenticator is a free-form map: all of it but the
    URL of the server and the client id. *)
Definition public_keys : list string := [OIDCConfigKeyAuthServerURL; OIDCConfigKeyClientID].

Definition redact_entry (e : ChainEntry) : ChainEntry :=
  {| ce_Type := ce_Type e; ce_Enable := ce_Enable e; ce_Transport := ce_Transport e;
     ce_Config := (fun m => filter (fun kv => kv.1 ∈ public_keys) m) <$> ce_Config e |}.

Definition redact_authn (o : AuthnOptions) : AuthnOptions :=
  {| ao_Authenticator := (fun a => {| ag_Type := ag_Type a; ag_Chain := redact_entry <$> ag_Chain a |})
                           <$> ao_Authenticator o;
     ao_AllowUnauthenticated := ao_AllowUnauthenticated o; ao_OIDC := ao_OIDC o |}.

Definition redact (o : ServeOptions) : ServeOptions :=
  {| srv_Storage := redact_storage (srv_Storage o); srv_Authn := redact_authn (srv_Authn o);
     srv_SelfSubject := srv_SelfSubject o; srv_Authz := redact_authz (srv_Authz o);
     srv_Consumer := redact_consumer (srv_Consumer o); srv_Consistency := srv_Consistency o;
     srv_Schema := srv_Schema o; srv_MetaAuthorizer := srv_MetaAuthorizer o;
     srv_Server := srv_Server o |}.

Lemma config_string_redacted config key : key ∈ public_keys ->
  config_string ((fun m => filter (fun kv => kv.1 ∈ public_keys) m) <$> config) key
  = config_string config key.
Proof.
  intros Hk. destruct config as [m|]; [|done]. simpl.
  destruct (m !! key) as [v|] eqn:E.
  - by rewrite (map_lookup_filter_Some_2 _ _ _ _ E Hk).
  - by rewrite (map_lookup_filter_None_2 _ m key (or_introl E)).
Qed.

Lemma log_chain_redacted chain : log_chain (redact_entry <$> chain) = log_chain chain.
Proof.
  induction chain as [|e chain IH]; [done|]. cbn [fmap list_fmap log_chain redact_entry ce_Type ce_Config].
  rewrite !config_string_redacted by (unfold public_keys; set_solver). by rewrite IH.
Qed.

Lemma log_authz_redacted o : log_authz (redact_authz o) = log_authz o.
Proof. unfold log_authz. destruct o as [impl [k|] [s|]]; reflexivity. Qed.

Lemma LogConfigurationInfo_redacted o : LogConfigurationInfo (redact o) = LogConfigurationInfo o.
Proof.
  unfold LogConfigurationInfo. cbn [redact srv_Authz srv_Authn srv_Storage srv_Consumer srv_Server srv_Consistency].
  rewrite log_authz_redacted. unfold redact_authn. cbn [ao_Authenticator].
  destruct (ao_Authenticator (srv_Authn o)) as [a|]; [|done]. cbn [fmap option_fmap option_map ag_Chain].
  by rewrite log_chain_redacted.
Qed.

(** C33. The comment of LogConfigurationInfo, "no secret data is output": whatever
    the log level, two configurations that differ only in secrets (the password
    and the DSNs of the databases, the client secret and the pre-shared key of the
    relations backends, the SASL password of Kafka, and everything that the
    configuration of an authenticator holds beside its URL and its client id) give
    the same messages, the same logger and the same outcome at the start. *)
Theorem no_secret_logged (logLevel : string) (o1 o2 : ServeOptions) (Hsame : redact o1 = redact o2) :
  Initialize logLevel o1 = Initialize logLevel o2.
Proof.
  unfold Initialize. rewrite <- (LogConfigurationInfo_redacted o1), <- (LogConfigurationInfo_redacted o2).
  by rewrite Hsame.
Qed.

(** A configuration of a deployment, with its secrets. *)
Definition ex_options (password token secret sasl : string) : ServeOptions :=
  {| srv_Storage :=
       {| so_Postgres := {| postgres.Host := "db.example.com"; postgres.Port := "5432";
            postgres.DbName := "inventory"; postgres.User := "inventory";
            postgres.Password := password; postgres.SSLMode := "verify-full";
            postgres.SSLRootCert := "/etc/ca.pem" |};
          so_SqlLite3 := sqlite3.NewOptions; so_Database := "postgres";
          so_MaxSerializationRetries := 10; so_OutboxMode := OutboxModeWAL |};
     srv_Authn :=
       {| ao_Authenticator := Some {| ag_Type := "first_match";
            ag_Chain := [{| ce_Type := "guest"; ce_Enable := None; ce_Transport := None;
                            ce_Config := None |};
                         {| ce_Type := "oidc"; ce_Enable := None; ce_Transport := None;
                            ce_Config := Some (list_to_map
                              [("authn-server-url", JStr "https://sso.example.com");
                               ("client-id", JStr "inventory"); ("client-secret", JStr secret)]) |}] |};
          ao_AllowUnauthenticated := None; ao_OIDC := None |};
     srv_SelfSubject := NewSelfSubjectOptions;
     srv_Authz := {| ro_Authz := SpiceDB; ro_Kessel := None;
                     ro_SpiceDB := Some {| spicedb.Endpoint := "spicedb:50051"; spicedb.Token := token;
                       spicedb.TokenFile := ""; spicedb.SchemaFile := "schema.zed";
                       spicedb.UseTLS := true; spicedb.FullyConsistent := false |} |};
     srv_Consumer :=
       {| co_Enabled := true; co_BootstrapServers := ["kafka:9092"];
          co_ConsumerGroupID := "inventory-consumer"; co_Topic := "outbox.event.kessel.tuples";
          co_CommitModulo := 10; co_SessionTimeout := "45000"; co_HeartbeatInterval := "3000";
          co_MaxPollInterval := "300000"; co_EnableAutoCommit := "false";
          co_AutoOffsetReset := "earliest"; co_StatisticsInterval := "60000"; co_Debug := "";
          co_RetryOptions := retry.NewOptions;
          co_AuthOptions := {| auth.Enabled := true; auth.SecurityProtocol := "SASL_SSL";
            auth.SASLMechanism := "SCRAM-SHA-512"; auth.SASLUsername := "inventory";
            auth.SASLPassword := sasl; auth.CACertLocation := "" |};
          co_ReadAfterWriteEnabled := true; co_ReadAfterWriteAllowlist := [] |};
     srv_Consistency := NewConsistencyOptions; srv_Schema := NewSchemaOptions;
     srv_MetaAuthorizer := NewMetaAuthorizerOptions; srv_Server := NewServerOptions "pod-1" |}.

(** Two such configurations: seven messages at the level debug. *)
Lemma no_secret_logged_witness :
  let o1 := ex_options "hunter2" "key1" "s3cret" "sasl1" in
  let o2 := ex_options "letmein" "key2" "other" "sasl2" in
  o1 <> o2 /\ length (Initialize "debug" o1).1.2 = 7 /\ Initialize "debug" o1 = Initialize "debug" o2.
Proof.
  split; [intros E; discriminate (f_equal (fun o => postgres.Password (so_Postgres (srv_Storage o))) E)|].
  split; [vm_compute; reflexivity|].
  apply (no_secret_logged "debug"). vm_compute. reflexivity.
Defined.

(** * The migrate command *)

Section Migrate.
Context {DB : Type} `{SchemaDB DB} `{!Gormigrate (DB := DB)}.
Variables (gorm_Open : string -> string -> option go_error) (opened : string -> string -> DB)
  (e : lock_env).

(** A driver gives a database of its dialect. *)
Hypothesis opened_dialect : forall dsn, isPostgres (opened "postgres" dsn) = true.

(** Nothing is opened unless the options are valid. *)
Lemma migrate_RunE_invalid o : ValidateStorage o <> [] ->
  migrate_RunE gorm_Open opened e o = (None, ValidateStorage o, []).
Proof. unfold migrate_RunE. by destruct (ValidateStorage o). Qed.

(** On PostgreSQL the command succeeds only if the migrations ran between taking
    and giving back the advisory lock, on the database that its options name. *)
Lemma migrate_RunE_postgres o db evs :
  so_Database o = "postgres" -> migrate_RunE gorm_Open opened e o = (db, [], evs) ->
  evs = [GetConn; AdvisoryLock; Body; AdvisoryUnlock; CloseConn] /\
  exists db', db = Some db' /\
    locked_body (gm_Migrate (engine_migrations true))
      (opened "postgres" (postgres.Complete (postgres.NewConfig (so_Postgres o)))) = (db', None).
Proof.
  intros Hdb. unfold migrate_RunE. destruct (ValidateStorage o); [|done].
  unfold CompleteStorage, NewStorageConfig, NewStorage. simpl. rewrite Hdb.
  rewrite !bool_decide_eq_true_2 by done. simpl. destruct (gorm_Open _ _); [done|].
  set (d := opened _ _). unfold data_Migrate, Run, runMigrations, WithAdvisoryLock.
  replace (isPostgres d) with true by (symmetry; apply opened_dialect). simpl.
  destruct (le_db e), (le_conn e), (le_lock e); simpl; try done.
  destruct (locked_body _ d) as [db' [err|]]; intros E; simplify_eq. eauto.
Qed.
End Migrate.
