(* ===== verification/Wiring.v ===== *)
(** cmd/serve/serve.go after its configuration phase: what [RunE] opens and
    creates, in its order, and how it wires the services; with [New] of
    internal/server and of its HTTP and gRPC servers, the stream interceptors
    (internal/middleware/stream_authn.go) and [common.IsNil].

    The libraries answer with an error or not; a process that is started is the
    record [process]. *)
From stdpp Require Import base tactics list strings gmap.
From Stdlib Require Import ZArith Lia Ascii.
From S2P Require Import Prelude GoStrings Common Relations RelationsRepo Schema SchemaLoad MetaAuthz.
From S2P Require Import Store Outbox Usecase Authn AuthnConfig Proto Middleware Server RelationsConfig.
From S2P Require Import Pubsub Settings Serve Startup Metrics Streams.

Local Open Scope string_scope.

(** * Interfaces *)

(** A value in an interface: its kind, and whether it is the zero of its type. *)
Inductive kind :=
  | KChan | KFunc | KMap | KPointer | KUnsafePointer | KInterface | KSlice | KArray | KOther.

Inductive iface := NilInterface | Value (k : kind) (zero : bool).

Definition IsNil (i : iface) : bool :=
  match i with
  | NilInterface => true
  | Value (KChan | KFunc | KMap | KPointer | KUnsafePointer | KInterface | KSlice) zero => zero
  | Value KArray zero => zero
  | Value KOther _ => false
  end.

(** A pointer variable that is passed as an interface: never the nil interface. *)
Definition of_pointer {A} (p : option A) : iface := Value KPointer (is_nil p).

(** * The servers *)

Inductive interceptor :=
  | StreamCounter | StreamLogging | StreamAuth (a : Authenticator) | StreamValidation
  | ErrorMappingStream.

Definition NewStreamAuthInterceptorFromAuthenticator (authenticator : option Authenticator)
    : result Authenticator :=
  match authenticator with
  | None => Err (EMsg "authenticator is required")
  | Some a => Ok a
  end.

(** What the libraries answer while a server is created. *)
Record server_libs := {
  sl_requests : option go_error;                  (* metrics.DefaultRequestsCounter *)
  sl_seconds : option go_error;                   (* metrics.DefaultSecondsHistogram *)
  sl_validator : option go_error;                 (* protovalidate.New *)
  sl_meter : option (string -> option go_error);  (* the instruments of newStreamMetrics *)
}.

(** A kratos server: who authenticates its unary calls, the interceptors of its
    streams, and whether it refuses writes. *)
Record kserver := {
  ks_authn : option Authenticator;
  ks_streams : list interceptor;
  ks_readOnly : bool;
}.

(** [err] of a library call. *)
Definition try {A} (err : option go_error) (k : result A) : result A :=
  match err with Some e => Err e | None => k end.

Section Servers.
Context `{AuthnLib}.

Definition NewStreamAuthInterceptor (config : CompletedConfig) (authenticator : option Authenticator)
    : result Authenticator :=
  let! authenticator :=
    match authenticator with
    | None => let! a := Authn_New config in Ok (Some a)
    | Some a => Ok (Some a)
    end in
  NewStreamAuthInterceptorFromAuthenticator authenticator.

(** [NewWithDeps] of internal/server/grpc: an authenticator that is missing only
    costs the stream interceptor. *)
Definition grpc_NewWithDeps (libs : server_libs) (authnMiddleware authenticator : option Authenticator)
    (readOnlyMode : bool) : result kserver :=
  let! _ := newStreamMetrics (sl_meter libs) in
  Ok {| ks_authn := match authnMiddleware with Some m => Some m | None => authenticator end;
        ks_streams := ([StreamCounter; StreamLogging]
          ++ match NewStreamAuthInterceptorFromAuthenticator authenticator with
             | Err _ => []
             | Ok a => [StreamAuth a]
             end ++ [StreamValidation; ErrorMappingStream])%list;
        ks_readOnly := readOnlyMode |}.

Definition grpc_New (libs : server_libs) (authnMiddleware : option Authenticator)
    (authnConfig : CompletedConfig) (authenticator : option Authenticator) (readOnlyMode : bool)
    : result kserver :=
  try (sl_requests libs) (try (sl_seconds libs) (try (sl_validator libs)
    (let! authenticator :=
       match authenticator with
       | None => let! a := Authn_New authnConfig in Ok (Some a)
       | Some a => Ok (Some a)
       end in
     grpc_NewWithDeps libs authnMiddleware authenticator readOnlyMode))).

Definition http_New (libs : server_libs) (authnMiddleware : option Authenticator)
    (readOnlyMode : bool) : result kserver :=
  try (sl_requests libs) (try (sl_seconds libs) (try (sl_validator libs)
    (Ok {| ks_authn := authnMiddleware; ks_streams := []; ks_readOnly := readOnlyMode |}))).

Record Server_ := { sv_Id : string; sv_Name : string; sv_Http : kserver; sv_Grpc : kserver }.

(** [New] of internal/server; [exporter] is the error of [NewMeterProvider]. *)
Definition server_New (exporter : option go_error) (http_libs grpc_libs : server_libs)
    (o : ServerOptions) (authn : option Authenticator) (authnConfig : CompletedConfig)
    (authenticator : option Authenticator) : result Server_ :=
  try ((fun e => EWrap "init meter provider failed"
               (EWrap "failed to setup exporter for meter provider" e)) <$> exporter)
    (let! httpServer := wrap_err "init http server failed"
       (http_New http_libs authn (svo_ReadOnlyMode o)) in
     let! grpcServer := wrap_err "init grpc server failed"
       (grpc_New grpc_libs authn authnConfig authenticator (svo_ReadOnlyMode o)) in
     Ok {| sv_Id := svo_Id o; sv_Name := svo_Name o; sv_Http := httpServer; sv_Grpc := grpcServer |}).
End Servers.

(** * The process *)

(** [resources.New]: no meta-authorizer stands for the simple one. *)
Definition usecase_New {S} (schemas : S) (listenManager : iface) (config : UsecaseConfig)
    (metaAuthorizer : option MetaAuthorizer) (selfSubject : option RedHatRbacSelfSubjectStrategy)
    (maxSerializationRetries : nat) : @Usecase S :=
  {| u_schemas := schemas;
     u_MetaAuthorizer := Some (default SimpleMetaAuthorizer_Check metaAuthorizer);
     u_Config := config; u_ListenManager := negb (IsNil listenManager);
     u_SelfSubjectStrategy := selfSubject; u_maxSerializationRetries := maxSerializationRetries |}.

(** The configuration of the use cases. *)
Definition usecaseConfig (o : ServeOptions) (consistency : ConsistencyOptions) : UsecaseConfig :=
  {| uc_ReadAfterWriteEnabled := cso_ReadAfterWriteEnabled consistency;
     uc_ReadAfterWriteAllowlist := cso_ReadAfterWriteAllowlist consistency;
     uc_ConsumerEnabled := co_Enabled (srv_Consumer o);
     uc_DefaultToAtLeastAsAcknowledged := cso_DefaultToAtLeastAsAcknowledged consistency;
     uc_IdempotencyCheckEnabled := cso_IdempotencyCheckEnabled consistency |}.

(** What the process has opened and created. *)
Record process := {
  pr_database : string * string;          (* the driver and the DSN *)
  pr_listener : option pgxdriver;         (* the driver of the listen manager *)
  pr_notifier : option pgxdriver;
  pr_relations : relations_impl;
  pr_server : Server_;
  pr_businessMetrics : bool;
  pr_pprof : option string;
  pr_outboxMode : string;
  pr_usecase : @Usecase InMemorySchemaRepository;
  pr_tuples : MetaAuthorizer;
}.

(** What the calls of the start answer. *)
Record world_of_start := {
  ws_gorm_Open : string -> string -> option go_error;
  ws_instrument : string -> option go_error;
  ws_pgxpool_New : string -> option go_error;
  ws_pool_Ping : string -> option go_error;
  ws_listener_pool : PgPool;
  ws_notifier_pool : PgPool;
  ws_exporter : option go_error;
  ws_http : server_libs;
  ws_grpc : server_libs;
}.

Definition NewPgxDriver : pgxdriver := {| pd_conn := None; pd_mu := false |}.

(** [if err := call; err != nil { return fmt.Errorf(msg, err) }] on a driver; a
    deadlock would not return. *)
Definition on_driver (call : outcome unit) (msg : string) : result pgxdriver :=
  match call with
  | Returns d (Ok _) => Ok d
  | Returns _ (Err _) => Err (EMsg msg)
  | Deadlock => Err (EPanic "all goroutines are asleep - deadlock!")
  end.

(** The listener and the notifier, on two connections of one pool; only with
    PostgreSQL. *)
Definition construct_pubsub (w : world_of_start) (c : completedStorage)
    : result (option pgxdriver * option pgxdriver) :=
  if bool_decide (so_Database (cst_Options c) = "postgres") then
    let! _ := NewPgx (ws_pgxpool_New w) (ws_pool_Ping w) c in
    let! l := on_driver (@Connect (ws_listener_pool w) NewPgxDriver)
                "error setting up listenerDriver" in
    let! l := on_driver (@Listen (ws_listener_pool w) l) "error setting up listener" in
    let! n := on_driver (@Connect (ws_notifier_pool w) NewPgxDriver)
                "error setting up notifierDriver" in
    Ok (Some l, Some n)
  else Ok (None, None).

Section Construct.
Context `{AuthnLib} `{Environment} `{TLSLib} `{KafkaConfig} `{FileSystem} `{YamlLib}.
Context (range : nat -> forall A, gmap string A -> list (string * A)) (parse : string -> option json).

(** [RunE] from storage.New on.  [pprof.New] does not fail. *)
Definition construct (w : world_of_start) (businessMetrics : bool) (o : ServeOptions)
    (c : configured) : result process :=
  let! db := NewStorage (ws_gorm_Open w) (cf_Storage c) in
  try (MetricsCollector_New (ws_instrument w)).2
  (let! drivers := construct_pubsub w (cf_Storage c) in
   let! authenticator := Authn_New (cf_Authn c) in
   let! relationsRepo := NewRelationsRepository (cf_Relations c) in
   let! schemaRepository := newSchemaRepository range parse (cf_Schema c) in
   let! server := server_New (ws_exporter w) (ws_http w) (ws_grpc w) (srv_Server o)
                    (Some authenticator) (cf_Authn c) (Some authenticator) in
   Ok {| pr_database := db; pr_listener := drivers.1; pr_notifier := drivers.2;
         pr_relations := relationsRepo; pr_server := server;
         pr_businessMetrics := businessMetrics; pr_pprof := pprof.New (cf_Pprof c);
         pr_outboxMode := so_OutboxMode (cst_Options (cf_Storage c));
         pr_usecase :=
           usecase_New schemaRepository (of_pointer drivers.1) (usecaseConfig o (cf_Consistency c))
             (Some SimpleMetaAuthorizer_Check) (cf_SelfSubjectStrategy c)
             (Z.to_nat (so_MaxSerializationRetries (cst_Options (cf_Storage c))));
         pr_tuples := tupleMetaAuthorizer (srv_Authn o)
                        (mao_TupleCrudAllowlist (cf_MetaAuthorizer c)) |}).

(** [RunE] up to the listeners of the servers. *)
Definition start (krange : nat -> list (string * string) -> list (string * string))
    (w : world_of_start) (businessMetrics : bool) (o : ServeOptions) : startup process :=
  match configure krange o with
  | inl errs => inl errs
  | inr c => match construct w businessMetrics o c with Err err => inl [err] | Ok p => inr p end
  end.
End Construct.

(** * Requests to the process *)

Section Requests.
Context {R T : Type} `{ResourceRepository R} `{RelationsRepository T}
  `{SchemaRepository InMemorySchemaRepository} `{JsonSchemaLib} `{AuthnLib} `{ProtoLib}
  {KL : @KratosLib _ (R * T) Response}.

(** A call over gRPC; a server without authenticator would panic. *)
Definition process_grpc (p : process) (e : @call_env R) (header : string -> string) (req : Request)
    (st : R * T) : (R * T) * result Response :=
  match ks_authn (sv_Grpc (pr_server p)) with
  | Some a => serve_grpc a (ks_readOnly (sv_Grpc (pr_server p))) (pr_usecase p)
                (Some (pr_tuples p)) e header req st
  | None => (st, Err nil_deref)
  end.
End Requests.

(** * The end of the process *)

Inductive stop := ServerError | PprofError | ListenManagerError | Signal | ConsumerError.

(** What the select can receive: nobody sends on the channels of the parts that
    were not created, and the channel of the consumer is nil. *)
Definition can_receive (p : process) (s : stop) : bool :=
  match s with
  | ServerError | Signal => true
  | PprofError => negb (is_nil (pr_pprof p))
  | ListenManagerError => negb (is_nil (pr_listener p))
  | ConsumerError => negb (is_nil errChan)
  end.

(** The end of [RunE], which returns nil whatever was received: the steps of the
    shutdown and the end of the process. *)
Definition serve_stops (p : process) (s : stop) (consumer_created dbError : bool)
    : option (list shutdown_step * ending) :=
  if can_receive p s then
    let '(steps, panic) := shutdown_of_serve (negb (is_nil (pr_pprof p))) consumer_created dbError in
    Some (steps, match panic with Some e => Panics e | None => Exited 0 end)
  else None.
