(* ===== verification/WiringProps.v ===== *)
(** What the options promise of the process that serve starts from them: who may
    change the tuple store, what read-only mode protects, that streams are
    authenticated, and when a report waits for the consumer. *)
From stdpp Require Import base tactics list strings gmap.
From Stdlib Require Import ZArith Lia Ascii FunctionalExtensionality.
From S2P Require Import Prelude GoStrings Common Relations RelationsRepo Schema SchemaLoad MetaAuthz.
From S2P Require Import Resource Store Outbox Usecase TupleCrud Authn AuthnConfig Proto Service.
From S2P Require Import TupleService Middleware MiddlewareProps AccessProps Server RelationsConfig.
From S2P Require Import Pubsub Settings SettingsProps Serve ServeProps Startup Metrics Streams Wiring.
From S2P Require Import Tables SchemaProps Examples Duplicates.

Local Open Scope string_scope.

(** * The configuration *)

Lemma configure_copies `{Environment} `{TLSLib} `{KafkaConfig} krange o c :
  configure krange o = inr c ->
  AuthnConfig_Complete (NewAuthnConfig (srv_Authn o)) = (cf_Authn c, []) /\
  cst_Options (cf_Storage c) = srv_Storage o /\
  cf_Consistency c = srv_Consistency o /\ cf_MetaAuthorizer c = srv_MetaAuthorizer o.
Proof.
  unfold configure. intros Hc. repeat startup_step.
  unfold CompleteConsistency, CompleteMetaAuthorizer in *. simplify_eq/=. split; [done|].
  split; [|done].
  match goal with Hs : CompleteStorage _ = Ok _ |- _ => revert Hs end.
  unfold CompleteStorage. repeat case_match; by intros; simplify_eq.
Qed.

Lemma try_Ok {A} err (k : result A) a : try err k = Ok a -> err = None /\ k = Ok a.
Proof. by destruct err. Qed.

(** * The process *)

Section Process.
Context `{AuthnLib} `{Environment} `{TLSLib} `{KafkaConfig} `{FileSystem} `{YamlLib}.
Context (range : nat -> forall A, gmap string A -> list (string * A)) (parse : string -> option json).
Context (krange : nat -> list (string * string) -> list (string * string)).

(** The parts of a process that was started, in terms of the options. *)
Record started (o : ServeOptions) (p : process) (config : CompletedConfig) (a : Authenticator)
    : Prop := {
  st_config : AuthnConfig_Complete (NewAuthnConfig (srv_Authn o)) = (config, []);
  st_authenticator : Authn_New config = Ok a;
  st_unary : ks_authn (sv_Grpc (pr_server p)) = Some a;
  st_http : ks_authn (sv_Http (pr_server p)) = Some a;
  st_streams : ks_streams (sv_Grpc (pr_server p))
    = [StreamCounter; StreamLogging; StreamAuth a; StreamValidation; ErrorMappingStream];
  st_readOnly : ks_readOnly (sv_Grpc (pr_server p)) = svo_ReadOnlyMode (srv_Server o) /\
                ks_readOnly (sv_Http (pr_server p)) = svo_ReadOnlyMode (srv_Server o);
  st_tuples : pr_tuples p
    = tupleMetaAuthorizer (srv_Authn o) (mao_TupleCrudAllowlist (srv_MetaAuthorizer o));
  st_usecase : u_Config (pr_usecase p) = usecaseConfig o (srv_Consistency o);
  st_listener : u_ListenManager (pr_usecase p)
    = bool_decide (so_Database (srv_Storage o) = "postgres");
}.

Lemma server_New_Ok exporter hl gl o a config s :
  server_New exporter hl gl o (Some a) config (Some a) = Ok s ->
  ks_authn (sv_Grpc s) = Some a /\ ks_authn (sv_Http s) = Some a /\
  ks_streams (sv_Grpc s)
    = [StreamCounter; StreamLogging; StreamAuth a; StreamValidation; ErrorMappingStream] /\
  ks_readOnly (sv_Grpc s) = svo_ReadOnlyMode o /\ ks_readOnly (sv_Http s) = svo_ReadOnlyMode o.
Proof.
  unfold server_New. intros [_ Hs]%try_Ok.
  destruct (wrap_err _ (http_New _ _ _)) as [h|] eqn:Hh; [|done]. apply wrap_err_ok in Hh.
  destruct (wrap_err _ (grpc_New _ _ _ _ _)) as [g|] eqn:Hg; [|done]. apply wrap_err_ok in Hg.
  injection Hs as <-. simpl.
  unfold http_New in Hh. apply try_Ok in Hh as [_ [_ [_ Hh]%try_Ok]%try_Ok]. injection Hh as <-.
  unfold grpc_New in Hg. apply try_Ok in Hg as [_ [_ [_ Hg]%try_Ok]%try_Ok]. simpl in Hg.
  unfold grpc_NewWithDeps in Hg. destruct (newStreamMetrics _); [|done]. by injection Hg as <-.
Qed.

Lemma construct_pubsub_Ok w c drivers : construct_pubsub w c = Ok drivers ->
  negb (IsNil (of_pointer drivers.1)) = bool_decide (so_Database (cst_Options c) = "postgres").
Proof.
  unfold construct_pubsub. case_bool_decide; [|by intros [= <-]].
  destruct (NewPgx _ _ _); [|done]. repeat (destruct (on_driver _ _); [|done]). by intros [= <-].
Qed.

Lemma start_Ok w bm o p : start range parse krange w bm o = inr p ->
  exists config a, started o p config a.
Proof.
  unfold start. destruct (configure krange o) as [|c] eqn:Hc; [done|].
  apply configure_copies in Hc as (Ha & Hst & Hcs & Hm).
  destruct (construct _ _ _ _ _ _) as [p'|] eqn:Hp; [|done]. intros [= <-].
  unfold construct in Hp. destruct (NewStorage _ _) as [db|]; [|done].
  apply try_Ok in Hp as [_ Hp].
  destruct (construct_pubsub w (cf_Storage c)) as [drivers|] eqn:Hd; [|done].
  destruct (Authn_New (cf_Authn c)) as [a|] eqn:Hauth; [|done].
  destruct (NewRelationsRepository _); [|done]. destruct (newSchemaRepository _ _ _); [|done].
  destruct (server_New _ _ _ _ _ _ _) as [s|] eqn:Hs; [|done]. injection Hp as <-.
  apply server_New_Ok in Hs as (Hu & Hh & Hi & Hg & Hr).
  exists (cf_Authn c), a. split; simpl; try done.
  - by rewrite Hm.
  - by rewrite Hcs.
  - rewrite <- Hst. by apply (construct_pubsub_Ok w).
Qed.
End Process.

(** * Requests *)

Section Requests.
Context {R T : Type} `{ResourceRepository R} `{RelationsRepository T}
  `{SchemaRepository InMemorySchemaRepository} `{JsonSchemaLib} `{AuthnLib} `{ProtoLib}
  {KL : @KratosLib _ (R * T) Response} {KLaws : @KratosLaws _ (R * T) Response KL}.

(** The same call with another outcome of waiting for the consumer. *)
Definition with_wait (e : @call_env R) (wait : option go_error) : @call_env R :=
  {| ce_newV7 := ce_newV7 e; ce_retryV7 := ce_retryV7 e; ce_world := ce_world e;
     ce_world2 := ce_world2 e; ce_wait := wait |}.

(** A use case that never waits. *)
Definition no_wait {S} (uc : @Usecase S) : Prop :=
  u_ListenManager uc = false \/ uc_ReadAfterWriteEnabled (u_Config uc) = false \/
  uc_ConsumerEnabled (u_Config uc) = false.

Lemma ReportResource_no_wait {S} `{SchemaRepository S} (uc : @Usecase S) ctx v v2 w w2 wait wait' cmd
    (d : R) : no_wait uc ->
  Usecase.ReportResource uc ctx v v2 w w2 wait cmd d
  = Usecase.ReportResource uc ctx v v2 w w2 wait' cmd d.
Proof.
  intros Hn. unfold Usecase.ReportResource.
  assert (Hoff : forall vis subject,
    computeReadAfterWrite uc vis subject && uc_ConsumerEnabled (u_Config uc) = false).
  { intros vis subject. unfold computeReadAfterWrite.
    destruct vis, Hn as [Hn|[Hn|Hn]]; rewrite ?Hn, ?andb_false_r; done. }
  repeat (case_match; try done); by rewrite Hoff in *.
Qed.

Lemma handle_no_wait uc tuc e wait : no_wait uc ->
  handle (T := T) uc tuc (with_wait e wait) = handle uc tuc e.
Proof.
  intros Hn. extensionality ctx. extensionality req. extensionality st. destruct st as [d t].
  destruct req; try reflexivity. cbn [handle]. unfold InventoryService.ReportResource.
  destruct (invalid_argument _); [|done]. by rewrite (ReportResource_no_wait uc _ _ _ _ _ _ (ce_wait e)).
Qed.
Context `{Environment} `{TLSLib} `{KafkaConfig} `{FileSystem} `{YamlLib}.
Context (range : nat -> forall A, gmap string A -> list (string * A)) (parse : string -> option json).
Context (krange : nat -> list (string * string) -> list (string * string)).

Lemma process_grpc_started o p config a (e : @call_env R) header req (st : R * T) :
  started o p config a ->
  process_grpc p e header req st =
    serve_grpc a (svo_ReadOnlyMode (srv_Server o)) (pr_usecase p)
      (Some (tupleMetaAuthorizer (srv_Authn o) (mao_TupleCrudAllowlist (srv_MetaAuthorizer o))))
      e header req st.
Proof.
  intros Hs. unfold process_grpc.
  by rewrite (st_unary _ _ _ _ Hs), (proj1 (st_readOnly _ _ _ _ Hs)), (st_tuples _ _ _ _ Hs).
Qed.

(** C23. The process enforces its options.  If serve starts a process from some
    options, then one authenticator, built from their authn part, guards the
    unary calls and the streams of both servers; and for every gRPC call: a
    change of the database or of the tuple store needs its consent; in read-only
    mode the database does not change; unless unauthenticated access is allowed,
    the tuple store changes only for an OIDC client of the configured allowlist;
    and without PostgreSQL, without read-after-write or without the consumer no
    call waits for a notification: its outcome does not depend on one. *)
Theorem process_enforces_options (w : world_of_start) (bm : bool) (o : ServeOptions) (p : process)
    (e : @call_env R) (header : string -> string) (req : Request) (d d' : R) (t t' : T)
    (res : result Response)
    (Hstart : start range parse krange w bm o = inr p)
    (Hrun : process_grpc p e header req (d, t) = ((d', t'), res)) :
  exists config a,
    AuthnConfig_Complete (NewAuthnConfig (srv_Authn o)) = (config, []) /\
    Authn_New config = Ok a /\
    ks_authn (sv_Http (pr_server p)) = Some a /\ StreamAuth a ∈ ks_streams (sv_Grpc (pr_server p)) /\
    (d' <> d \/ t' <> t -> exists claims,
      a {| tr_Kind := KindGRPC; tr_Operation := full_method req; tr_Header := header |}
      = (Some claims, Allow)) /\
    (svo_ReadOnlyMode (srv_Server o) = true -> d' = d) /\
    (ao_AllowUnauthenticated (srv_Authn o) <> Some true -> t' <> t -> exists claims,
      a {| tr_Kind := KindGRPC; tr_Operation := full_method req; tr_Header := header |}
      = (Some claims, Allow) /\
      cl_AuthType claims = AuthTypeOIDC /\ cl_ClientID claims <> "" /\
      ("*" ∈ mao_TupleCrudAllowlist (srv_MetaAuthorizer o)
       \/ cl_ClientID claims ∈ mao_TupleCrudAllowlist (srv_MetaAuthorizer o))) /\
    (so_Database (srv_Storage o) <> "postgres" \/
     cso_ReadAfterWriteEnabled (srv_Consistency o) = false \/
     co_Enabled (srv_Consumer o) = false ->
     forall wait, process_grpc p (with_wait e wait) header req (d, t) = ((d', t'), res)).
Proof.
  apply start_Ok in Hstart as (config & a & Hs). rewrite (process_grpc_started _ _ _ _ _ _ _ _ Hs) in Hrun.
  exists config, a. split; [apply Hs|]. split; [apply Hs|]. split; [apply Hs|].
  split; [rewrite (st_streams _ _ _ _ Hs); set_solver|]. split; [|split; [|split]].
  - intros Hne. apply serve_grpc_run in Hrun as [[[= -> ->] _]|[_ Hrun]]; [by destruct Hne|].
    destruct Hrun as (claims & _ & _ & _ & Hauth & _). by exists claims.
  - intros Hro. rewrite Hro in Hrun. apply serve_grpc_run in Hrun as [[[= -> ->] _]|[Hw Hrun]]; [done|].
    destruct Hrun as (claims & ctx' & req' & r & _ & _ & _ & Hp & Hh & _).
    apply handle_database in Hh; [done|]. by rewrite (passed_on_method _ _ Hp).
  - intros Ha Ht. exact (tuple_writes_authenticated _ _ _ _ _ _ _ _ _ _ _ _ _ Ha Hrun Ht).
  - intros Hoff wait. rewrite (process_grpc_started _ _ _ _ _ _ _ _ Hs). rewrite <- Hrun.
    unfold serve_grpc. rewrite (handle_no_wait _ _ e wait); [done|]. unfold no_wait.
    rewrite (st_listener _ _ _ _ Hs), (st_usecase _ _ _ _ Hs). simpl.
    destruct Hoff as [Hd|Hoff]; [left; by apply bool_decide_eq_false|tauto].
Qed.
End Requests.

(** Whatever stops the process, it ends with status 0 if a consumer was created,
    and with a panic if none was; an error of the consumer does not stop it. *)
Lemma serve_stops_status p s created dbError :
  match serve_stops p s created dbError with
  | None => s = ConsumerError \/ s = PprofError /\ pr_pprof p = None
            \/ s = ListenManagerError /\ pr_listener p = None
  | Some (steps, e) => s <> ConsumerError /\ StopServer ∈ steps /\
      e = if created then Exited 0 else Panics nil_deref
  end.
Proof.
  unfold serve_stops, can_receive, shutdown_of_serve, shutdown.
  destruct s, created, dbError, (pr_pprof p), (pr_listener p); simpl; tauto || set_solver.
Qed.

(** * A process *)

#[local] Existing Instance one_token_AuthnLib.
#[local] Existing Instance accepting_ProtoLib.
#[local] Existing Instance kratos.
#[local] Existing Instance kratos_laws.
#[local] Existing Instance ex_environment.
#[local] Existing Instance ex_tls.
#[local] Existing Instance ServeProps.ex_kafka.

#[local] Instance no_files : FileSystem :=
  {| os_ReadDir _ := Err (EMsg "no such directory");
     SchemaLoad.os_ReadFile _ := Err (EMsg "no such file");
     os_Stat _ := NotExist |}.

(** An OIDC chain, one client on the allowlist, SQLite. *)
Definition ex_process_options : ServeOptions :=
  {| srv_Storage := NewStorageOptions;
     srv_Authn := {| ao_Authenticator := Some {| ag_Type := "first_match";
         ag_Chain := [{| ce_Type := "oidc"; ce_Enable := None; ce_Transport := None;
           ce_Config := Some (list_to_map [("authn-server-url", JStr "https://sso");
             ("client-id", JStr "inventory"); ("principal-user-domain", JStr "localhost");
             ("skip-client-id-check", JBool true)]) |}] |};
       ao_AllowUnauthenticated := None; ao_OIDC := None |};
     srv_SelfSubject := NewSelfSubjectOptions; srv_Authz := NewRelationsOptions;
     srv_Consumer := ex_consumer_options; srv_Consistency := NewConsistencyOptions;
     srv_Schema := {| sco_Repository := "in-memory";
       sco_InMemory := {| inmemory.Type_ := "empty"; inmemory.Path := "" |} |};
     srv_MetaAuthorizer := {| mao_TupleCrudAllowlist := ["rbac-service"] |};
     srv_Server := NewServerOptions "pod-1" |}.

#[local] Instance no_yaml : YamlLib :=
  {| yaml_Unmarshal _ := Err (EMsg "bad yaml"); yaml_Marshal _ := Err (EMsg "bad value") |}.

#[local] Instance idle_pool : PgPool :=
  {| pool_Acquire := Ok tt; conn_Close := None; conn_Exec _ _ := None; conn_Ping _ := None;
     conn_WaitForNotification _ := Err (EMsg "none") |}.

Definition working_libs : server_libs :=
  {| sl_requests := None; sl_seconds := None; sl_validator := None; sl_meter := Some (fun _ => None) |}.

Definition ex_start_world : world_of_start :=
  {| ws_gorm_Open _ _ := None; ws_instrument _ := None; ws_pgxpool_New _ := None;
     ws_pool_Ping _ := None; ws_listener_pool := idle_pool; ws_notifier_pool := idle_pool;
     ws_exporter := None; ws_http := working_libs; ws_grpc := working_libs |}.

Definition ex_start : startup process :=
  start (fun _ _ m => map_to_list m) (fun _ => None) (fun _ l => l) ex_start_world false
    ex_process_options.

Definition ex_request (p : process) : (Tables * SimpleRelationsRepository) * result Response :=
  let _ := ex_validator in
  process_grpc p demo_env demo_header demo_tuple_write
    (empty_tables, Simple.NewSimpleRelationsRepository).

Lemma ex_start_ok : match ex_start with
  | inr p => bool_decide (size (s_tuples (ex_request p).1.2) = 1%nat) = true
  | inl _ => False
  end.
Proof. vm_compute. reflexivity. Qed.

Lemma process_enforces_options_witness : exists p claims,
  ex_start = inr p /\
  (ex_request p).1.2 <> Simple.NewSimpleRelationsRepository /\
  cl_AuthType claims = AuthTypeOIDC /\ cl_ClientID claims ∈ ["rbac-service"].
Proof.
  pose proof ex_start_ok as Hok. destruct ex_start as [|p] eqn:Hs; [contradiction|].
  destruct (ex_request p) as [[d' t'] res] eqn:Hr. unfold ex_start in Hs.
  pose proof Hr as Hr'. unfold ex_request in Hr'.
  assert (Ht : t' <> Simple.NewSimpleRelationsRepository).
  { intros E. rewrite E in Hok. vm_compute in Hok. discriminate Hok. }
  destruct (process_enforces_options _ _ _ _ _ _ _ _ _ _ _ _ _ _ _ Hs Hr')
    as (config & a & _ & _ & _ & _ & _ & _ & Htuples & _).
  destruct (Htuples ltac:(discriminate) Ht) as (claims & _ & Htype & _ & Hin).
  exists p, claims. split; [reflexivity|]. split; [rewrite Hr; exact Ht|].
  split; [exact Htype|].
  destruct Hin as [Hin|Hin]; [|exact Hin]. exfalso. revert Hin. apply (bool_decide_unpack _).
  vm_compute. exact I.
Defined.
