(* ===== verification/Waiting.v ===== *)
(** Waiting for the consumer behind the circuit breaker: the end of ReportResource
    of internal/biz/usecase/resources/resource_service.go, and the breaker that
    cmd/serve/serve.go configures.

    gobreaker is a library: its breaker is the class [GoBreaker], and what its
    documentation says of a breaker with these settings is the machine [circuit],
    which the class [GoBreakerLaws] asks it to follow.  Requests run concurrently:
    [run_events] interleaves the beginnings and the ends of their waits.
    A consumer that does not answer costs its clients little: after three waits that
    timed out, reports return at once, but for one wait in a minute. *)
From stdpp Require Import base tactics list strings gmap.
From Stdlib Require Import ZArith Lia Ascii.
From S2P Require Import Prelude GoStrings Common Usecase Settings.

Local Open Scope Z_scope.

(** * Settings *)

(** The settings that serve sets; MaxRequests and Interval are 0. *)
Record breaker_settings := {
  bs_Timeout : Z;
  bs_ReadyToTrip : nat -> bool;   (* of counts.ConsecutiveFailures *)
}.

Definition ReadyToTrip (consecutiveFailures : nat) : bool := bool_decide (2 < consecutiveFailures)%nat.

Definition waitForNotifCircuitBreaker : breaker_settings :=
  {| bs_Timeout := seconds 60; bs_ReadyToTrip := ReadyToTrip |}.

Definition listenTimeout : Z := seconds 10.

(** * What the documentation says of a breaker *)

Inductive circuit_state := StateClosed | StateHalfOpen | StateOpen (expiry : Z).

(** The counts are cleared on every change of the state, which begins a new
    generation. *)
Record circuit := {
  ci_state : circuit_state;
  ci_requests : nat;
  ci_failures : nat;       (* ConsecutiveFailures *)
  ci_generation : nat;
}.

Definition enter (st : circuit_state) (c : circuit) : circuit :=
  {| ci_state := st; ci_requests := 0; ci_failures := 0; ci_generation := S (ci_generation c) |}.

(** Timeout is the period of the open state, after which the state becomes
    half-open. *)
Definition current (now : Z) (c : circuit) : circuit :=
  match ci_state c with
  | StateOpen expiry => if bool_decide (expiry < now) then enter StateHalfOpen c else c
  | _ => c
  end.

Definition counted (c : circuit) : circuit :=
  {| ci_state := ci_state c; ci_requests := S (ci_requests c); ci_failures := ci_failures c;
     ci_generation := ci_generation c |}.

Definition with_failures (n : nat) (c : circuit) : circuit :=
  {| ci_state := ci_state c; ci_requests := ci_requests c; ci_failures := n;
     ci_generation := ci_generation c |}.

(** Whether a request is let through, with its generation, or the error of its
    rejection; a half-open breaker lets one request through if MaxRequests is 0. *)
Definition circuit_allow (now : Z) (c : circuit) : circuit * (nat + sentinel) :=
  let c := current now c in
  match ci_state c with
  | StateOpen _ => (c, inr ErrOpenState)
  | StateHalfOpen =>
      if bool_decide (1 <= ci_requests c)%nat then (c, inr ErrTooManyRequests)
      else (counted c, inl (ci_generation c))
  | StateClosed => (counted c, inl (ci_generation c))
  end.

(** The results of requests sent before the counts were cleared are ignored. *)
Definition circuit_done (s : breaker_settings) (now : Z) (generation : nat) (success : bool)
    (c : circuit) : circuit :=
  let c := current now c in
  if bool_decide (generation <> ci_generation c) then c
  else match ci_state c, success with
       | StateClosed, true => with_failures 0 c
       | StateClosed, false =>
           let c := with_failures (S (ci_failures c)) c in
           if bs_ReadyToTrip s (ci_failures c) then enter (StateOpen (now + bs_Timeout s)) c else c
       | StateHalfOpen, true => enter StateClosed c
       | StateHalfOpen, false => enter (StateOpen (now + bs_Timeout s)) c
       | StateOpen _, _ => c
       end.

(** * The library *)

Class GoBreaker (B : Type) := {
  NewCircuitBreaker : breaker_settings -> B;
  breaker_allow : Z -> B -> B * (nat + sentinel);
  breaker_done : Z -> nat -> bool -> B -> B;
}.

Class GoBreakerLaws (B : Type) `{GoBreaker B} := {
  view : B -> circuit;
  settings_of : B -> breaker_settings;
  view_new s : ci_state (view (NewCircuitBreaker s)) = StateClosed /\
               ci_failures (view (NewCircuitBreaker s)) = 0%nat;
  settings_new s : settings_of (NewCircuitBreaker s) = s;
  view_allow now b : view (breaker_allow now b).1 = (circuit_allow now (view b)).1 /\
                     (breaker_allow now b).2 = (circuit_allow now (view b)).2;
  settings_allow now b : settings_of (breaker_allow now b).1 = settings_of b;
  view_done now g ok b :
    view (breaker_done now g ok b) = circuit_done (settings_of b) now g ok (view b);
  settings_done now g ok b : settings_of (breaker_done now g ok b) = settings_of b;
}.

(** * One wait *)

Section Wait.
Context {B : Type} `{GoBreaker B}.

(** [uc.waitForNotifBreaker.Execute(...)] when nothing else uses the breaker in
    the meantime: [blocked] is what [BlockForNotification] returned, at [ended]. *)
Definition wait_for_notification (began ended : Z) (blocked : result unit) (b : B)
    : B * option go_error :=
  match breaker_allow began b with
  | (b, inr e) => (b, Some (ESentinel e))
  | (b, inl generation) =>
      match blocked with
      | Ok _ => (breaker_done ended generation true b, None)
      | Err err => (breaker_done ended generation false b, Some err)
      end
  end.

(** * Concurrent waits *)

(** Request [i] asks the breaker; request [i] that waits gets what it waited for,
    or its error. *)
Inductive wait_event := Begin (i : nat) | End (i : nat) (err : option go_error).

(** The breaker, and the requests that wait, by their generations. *)
Record waits := { ws_breaker : B; ws_waiting : gmap nat nat }.

(** The state when serve has created the breaker. *)
Definition fresh_waits : waits :=
  {| ws_breaker := NewCircuitBreaker waitForNotifCircuitBreaker; ws_waiting := ∅ |}.

(** What an event shows: a wait that begins, or the outcome of a request. *)
Inductive wait_result := Waits | Answers (wait : option go_error) | Nothing.

Definition wait_step (now : Z) (e : wait_event) (w : waits) : waits * wait_result :=
  match e with
  | Begin i =>
      match breaker_allow now (ws_breaker w) with
      | (b, inr err) => ({| ws_breaker := b; ws_waiting := ws_waiting w |},
                         Answers (Some (ESentinel err)))
      | (b, inl g) => ({| ws_breaker := b; ws_waiting := <[i := g]> (ws_waiting w) |}, Waits)
      end
  | End i err =>
      match ws_waiting w !! i with
      | None => (w, Nothing)
      | Some g =>
          ({| ws_breaker := breaker_done now g (is_nil err) (ws_breaker w);
              ws_waiting := delete i (ws_waiting w) |}, Answers err)
      end
  end.

Fixpoint run_events (es : list (Z * wait_event)) (w : waits) : waits * list (Z * wait_result) :=
  match es with
  | [] => (w, [])
  | (now, e) :: es =>
      let '(w, r) := wait_step now e w in
      let '(w, rs) := run_events es w in
      (w, (now, r) :: rs)
  end.

(** The times at which waits began. *)
Definition begun (rs : list (Z * wait_result)) : list Z :=
  omap (fun p => match p.2 with Waits => Some p.1 | _ => None end) rs.
End Wait.

(** * Statements *)

(** Every wait that ends has timed out. *)
Definition outage (es : list (Z * wait_event)) : Prop :=
  Forall (fun p => match p.2 with
                   | End _ (Some err) => errors_Is err ErrWaitContextCancelled = true
                   | End _ None => False
                   | Begin _ => True
                   end) es.

(** The times do not decrease from [t] on. *)
Fixpoint ordered (t : Z) (es : list (Z * wait_event)) : Prop :=
  match es with [] => True | (t', _) :: es => t <= t' /\ ordered t' es end.

(** Each time is more than a minute after the one before it. *)
Fixpoint spaced (last : Z) (l : list Z) : Prop :=
  match l with [] => True | t :: l => last + seconds 60 < t /\ spaced t l end.

(** The waits that timed out. *)
Definition timed_out (rs : list (Z * wait_result)) : list (Z * wait_result) :=
  List.filter (fun p => match p.2 with
                        | Answers (Some err) => errors_Is err ErrWaitContextCancelled
                        | _ => false
                        end) rs.

(** No report fails because of its wait. *)
Definition all_succeed (rs : list (Z * wait_result)) : Prop :=
  Forall (fun p => match p.2 with Answers wait => wait_outcome wait = Ok tt | _ => True end) rs.

Lemma minute : seconds 60 = 60000000000.
Proof. reflexivity. Qed.

Lemma spaced_count last l T : spaced last l -> last <= T ->
  Z.of_nat (length (List.filter (fun x => x <=? T) l)) * seconds 60 <= T - last.
Proof.
  rewrite minute. revert last. induction l as [|t l IH]; intros last; [simpl; lia|].
  cbn [spaced List.filter]. rewrite minute. intros [Ht Hl] HT.
  destruct (t <=? T) eqn:E; [apply Z.leb_le in E; specialize (IH t Hl E); simpl length; lia|].
  apply Z.leb_gt in E. specialize (IH t Hl). 
  assert (Hnone : List.filter (fun x => x <=? T) l = []).
  { clear IH HT Ht. revert t E Hl. induction l as [|u l IHl]; intros t E Hl; [done|].
    cbn [spaced List.filter] in *. rewrite minute in Hl. destruct Hl as [Hu Hl].
    rewrite (proj2 (Z.leb_gt u T)) by lia. apply (IHl u); [lia|done]. }
  rewrite Hnone. simpl. lia.
Qed.

Lemma rejected_succeeds e : e = ErrOpenState \/ e = ErrTooManyRequests ->
  wait_outcome (Some (ESentinel e)) = Ok tt /\ errors_Is (ESentinel e) ErrWaitContextCancelled = false.
Proof. by intros [->| ->]. Qed.

Lemma timeout_succeeds err : errors_Is err ErrWaitContextCancelled = true ->
  wait_outcome (Some err) = Ok tt.
Proof. unfold wait_outcome. by intros ->. Qed.

(** * The machine *)

Section Outage.
Context {B : Type} `{GoBreaker B} `{!GoBreakerLaws B}.
Implicit Types (w : @waits B) (es : list (Z * wait_event)).

Definition configured_breaker w : Prop := settings_of (ws_breaker w) = waitForNotifCircuitBreaker.

Abbreviation circuit_of w := (view (ws_breaker w)).

(** What an event does, in terms of the machine. *)
Lemma wait_step_begin now i w : configured_breaker w ->
  exists w', configured_breaker w' /\ circuit_of w' = (circuit_allow now (circuit_of w)).1 /\
  match (circuit_allow now (circuit_of w)).2 with
  | inl g => wait_step now (Begin i) w = (w', Waits) /\ ws_waiting w' = <[i := g]> (ws_waiting w)
  | inr err => wait_step now (Begin i) w = (w', Answers (Some (ESentinel err))) /\
               ws_waiting w' = ws_waiting w
  end.
Proof.
  intros Hc. pose proof (view_allow now (ws_breaker w)) as [Hv He].
  pose proof (settings_allow now (ws_breaker w)) as Hs. unfold wait_step.
  destruct (breaker_allow now (ws_breaker w)) as [b r]. simpl in *. rewrite <- He.
  destruct r as [g|err]; eexists; (split; [|split; [|split; [reflexivity|reflexivity]]]); simpl;
    unfold configured_breaker; simpl; congruence.
Qed.

Lemma wait_step_end now i err w : configured_breaker w ->
  match ws_waiting w !! i with
  | None => wait_step now (End i err) w = (w, Nothing)
  | Some g => exists w', wait_step now (End i err) w = (w', Answers err) /\ configured_breaker w' /\
      circuit_of w' = circuit_done waitForNotifCircuitBreaker now g (is_nil err) (circuit_of w) /\
      ws_waiting w' = delete i (ws_waiting w)
  end.
Proof.
  intros Hc. unfold wait_step. destruct (ws_waiting w !! i) as [g|]; [|done].
  eexists. split; [reflexivity|]. unfold configured_breaker in *. simpl.
  rewrite settings_done, view_done, Hc. done.
Qed.

(** A report whose wait nothing interleaves with: it begins, and it ends if it
    was let through. *)
Lemma wait_for_notification_steps i began ended blocked w :
  ws_waiting w !! i = None ->
  let '(b, wait) := wait_for_notification began ended blocked (ws_breaker w) in
  let err := match blocked with Ok _ => None | Err err => Some err end in
  let '(w1, r1) := wait_step began (Begin i) w in
  match r1 with
  | Waits => wait_step ended (End i err) w1
             = ({| ws_breaker := b; ws_waiting := ws_waiting w |}, Answers wait)
  | r => r = Answers wait /\ w1 = {| ws_breaker := b; ws_waiting := ws_waiting w |}
  end.
Proof.
  intros Hi. unfold wait_for_notification. simpl.
  destruct (breaker_allow began (ws_breaker w)) as [b [g|e]]; simpl; [|done].
  destruct blocked; simpl; rewrite lookup_insert_eq; simpl; rewrite delete_insert_id; done.
Qed.

(** ** After the breaker has tripped *)

(** [last] is the beginning of the last wait, or the time of the trip: the
    breaker is open for a minute after it at least, or may probe, or probes. *)
Inductive open_phase (last now : Z) (c : circuit) : Prop :=
  | ph_open expiry : ci_state c = StateOpen expiry -> last + seconds 60 <= expiry -> open_phase last now c
  | ph_idle : ci_state c = StateHalfOpen -> ci_requests c = 0%nat -> last + seconds 60 < now ->
      open_phase last now c
  | ph_probe : ci_state c = StateHalfOpen -> ci_requests c = 1%nat -> last <= now -> open_phase last now c.

(** A wait of the current generation is the probe. *)
Definition probing (c : circuit) (g : nat) : Prop :=
  (g < ci_generation c)%nat \/
  g = ci_generation c /\ ci_state c = StateHalfOpen /\ ci_requests c = 1%nat.

Record tripped (last now : Z) w : Prop := {
  tr_configured : configured_breaker w;
  tr_open : open_phase last now (circuit_of w);
  tr_waiting : forall i g, ws_waiting w !! i = Some g -> probing (circuit_of w) g;
}.

Lemma open_later last now now' c : open_phase last now c -> now <= now' -> open_phase last now' c.
Proof. intros [] ?; [eapply ph_open|apply ph_idle|apply ph_probe]; eauto; lia. Qed.

Lemma open_allow last now c : open_phase last now c ->
  let '(c', r) := circuit_allow now c in
  (forall g0, probing c g0 -> probing c' g0) /\
  match r with
  | inl g => last + seconds 60 < now /\ open_phase now now c' /\ probing c' g
  | inr err => open_phase last now c' /\ (err = ErrOpenState \/ err = ErrTooManyRequests)
  end.
Proof.
  destruct c as [st n f gen]. unfold probing, circuit_allow, current. rewrite minute. simpl.
  intros [expiry Hs He|Hs Hr Hl|Hs Hr Hl]; simpl in *; subst; rewrite ?minute in *; simpl.
  - case_bool_decide; simpl.
    + split; [intros g0 Hg; left; intuition (congruence || lia)|]. split; [lia|].
      split; [apply ph_probe; simpl; done || lia|by right].
    + split; [done|]. split; [eapply ph_open; simpl; [done|rewrite minute; lia]|by left].
  - split; [intros g0 Hg; left; intuition (congruence || lia)|]. split; [lia|].
    split; [apply ph_probe; simpl; done || lia|by right].
  - split; [done|]. split; [by apply ph_probe|by right].
Qed.

Lemma open_done last now c g : open_phase last now c -> probing c g ->
  let c' := circuit_done waitForNotifCircuitBreaker now g false c in
  open_phase last now c' /\ forall g0, probing c g0 -> probing c' g0.
Proof.
  destruct c as [st n f gen]. unfold probing, circuit_done, current. simpl.
  intros [expiry Hs He|Hs Hr Hl|Hs Hr Hl] Hg; simpl in *; subst; rewrite ?minute in *; simpl.
  - assert (g < gen)%nat by intuition congruence.
    destruct (bool_decide (expiry < now)) eqn:E; simpl;
      [apply bool_decide_eq_true in E|apply bool_decide_eq_false in E];
      rewrite bool_decide_eq_true_2 by lia; simpl.
    + split; [apply ph_idle; simpl; rewrite ?minute; done || lia|].
      intros g0 Hg0. left. intuition (congruence || lia).
    + split; [eapply ph_open; simpl; [done|rewrite minute; lia]|done].
  - assert (g < gen)%nat by intuition congruence.
    rewrite bool_decide_eq_true_2 by lia. simpl.
    split; [apply ph_idle; simpl; rewrite ?minute; done || lia|done].
  - case_bool_decide; simpl.
    + split; [by apply ph_probe|]. done.
    + split; [|intros g0 Hg0; left; intuition lia].
      eapply ph_open; [reflexivity|]. change (last + 60000000000 <= now + 60000000000). lia.
Qed.

(** An event after the trip. *)
Lemma tripped_step last now t e w w' r : tripped last now w -> now <= t -> outage [(t, e)] ->
  wait_step t e w = (w', r) ->
  all_succeed [(t, r)] /\
  (r = Waits /\ last + seconds 60 < t /\ tripped t t w' \/ r <> Waits /\ tripped last t w').
Proof.
  intros [Hc Hp Hw] Ht Ho Hrun. apply (open_later _ _ t) in Hp; [|done].
  unfold outage in Ho. rewrite Forall_singleton in Ho. unfold all_succeed. rewrite Forall_singleton.
  cbn [snd] in *.
  destruct e as [i|i err].
  - destruct (wait_step_begin t i w Hc) as (w1 & Hc1 & Hv & Hr).
    pose proof (open_allow last t _ Hp) as Ha. destruct (circuit_allow t _) as [c' [g|err]]; simpl in *;
      destruct Ha as [Hmono Ha], Hr as [Hr Hw1]; rewrite Hr in Hrun; injection Hrun as <- <-.
    + split; [done|]. left. split; [done|]. split; [apply Ha|]. split; [done|rewrite Hv; apply Ha|].
      intros j g' Hj. rewrite Hw1 in Hj. rewrite Hv.
      apply lookup_insert_Some in Hj as [[_ <-]|[_ Hj]]; [apply Ha|eauto].
    + split; [apply rejected_succeeds; apply Ha|]. right. split; [done|].
      split; [done|rewrite Hv; apply Ha|]. intros j g' Hj. rewrite Hw1 in Hj. rewrite Hv. eauto.
  - pose proof (wait_step_end t i err w Hc) as He.
    destruct (ws_waiting w !! i) as [g|] eqn:Hi; [|rewrite He in Hrun; injection Hrun as <- <-; split; [done|right; by split]].
    destruct He as (w1 & He & Hc1 & Hv & Hw1). rewrite He in Hrun. injection Hrun as <- <-.
    destruct err as [err|]; [|contradiction]. split; [by apply timeout_succeeds|]. right. split; [done|].
    destruct (open_done last t _ g Hp (Hw _ _ Hi)) as [Hp1 Hmono]. simpl in Hv.
    split; [done|by rewrite Hv|]. intros j g' Hj. rewrite Hw1 in Hj. rewrite Hv.
    apply lookup_delete_Some in Hj as [_ Hj]. eauto.
Qed.

Lemma tripped_run es : forall last now w, tripped last now w -> ordered now es -> outage es ->
  spaced last (begun (run_events es w).2) /\ all_succeed (run_events es w).2.
Proof.
  induction es as [|[t e] es IH]; intros last now w Hw Hord Ho; [by split; [|constructor]|].
  destruct Hord as [Ht Hord]. apply Forall_cons in Ho as [He Ho].
  cbn [run_events]. destruct (wait_step t e w) as [w1 r] eqn:Hs.
  apply (tripped_step last now) in Hs as [Hok Hs]; [|done|done|by apply Forall_singleton].
  destruct (run_events es w1) as [w2 rs] eqn:Hr. cbn [snd].
  unfold all_succeed in Hok. rewrite Forall_singleton in Hok.
  destruct Hs as [(-> & Hl & Hw1)|[Hr' Hw1]].
  - destruct (IH t t w1 Hw1 Hord Ho) as [Hsp Hall]. rewrite Hr in *. split; [by split|by constructor].
  - destruct (IH last t w1 Hw1 Hord Ho) as [Hsp Hall]. rewrite Hr in *.
    split; [|by constructor]. by destruct r.
Qed.

(** ** Before it has tripped *)

(** Closed, with [n] waits that timed out; every wait is of this generation. *)
Record closed (n : nat) w : Prop := {
  cl_configured : configured_breaker w;
  cl_state : ci_state (circuit_of w) = StateClosed;
  cl_failures : ci_failures (circuit_of w) = n;
  cl_waiting : forall i g, ws_waiting w !! i = Some g -> g = ci_generation (circuit_of w);
}.

Lemma closed_step n t e w w' r : (n < 3)%nat -> closed n w -> outage [(t, e)] ->
  wait_step t e w = (w', r) ->
  all_succeed [(t, r)] /\
  (timed_out [(t, r)] = [] /\ closed n w' \/
   timed_out [(t, r)] = [(t, r)] /\
   if decide (n = 2)%nat then tripped t t w' else closed (S n) w').
Proof.
  intros Hn [Hc Hs Hf Hw] Ho Hrun. unfold outage in Ho. rewrite Forall_singleton in Ho.
  unfold all_succeed. rewrite Forall_singleton. cbn [snd] in *. destruct e as [i|i err].
  - destruct (wait_step_begin t i w Hc) as (w1 & Hc1 & Hv & Hr).
    unfold circuit_allow, current in *. rewrite Hs in *. cbn [fst snd] in *. rewrite Hs in *.
    destruct Hr as [Hr Hw1]. rewrite Hr in Hrun. injection Hrun as <- <-. split; [done|]. left.
    split; [done|]. split; rewrite ?Hv; simpl; [done..|]. intros j g. rewrite Hw1.
    intros [[_ <-]|[_ Hj]]%lookup_insert_Some; eauto.
  - pose proof (wait_step_end t i err w Hc) as He. destruct (ws_waiting w !! i) as [g|] eqn:Hi.
    2:{ rewrite He in Hrun. injection Hrun as <- <-. split; [done|]. left. by split. }
    destruct He as (w1 & He & Hc1 & Hv & Hw1). rewrite He in Hrun. injection Hrun as <- <-.
    destruct err as [err|]; [|contradiction]. split; [by apply timeout_succeeds|]. right.
    unfold timed_out. cbn [List.filter snd]. rewrite Ho. split; [done|].
    unfold circuit_done, current in Hv. rewrite Hs in Hv.
    rewrite bool_decide_eq_false_2 in Hv by (rewrite (Hw _ _ Hi); tauto).
    rewrite Hs in Hv. cbn [is_nil bs_ReadyToTrip waitForNotifCircuitBreaker with_failures ci_failures] in Hv.
    unfold ReadyToTrip in Hv. rewrite Hf in Hv. destruct (decide (n = 2)%nat) as [H2|H2].
    + rewrite bool_decide_eq_true_2 in Hv by lia. split; [done|rewrite Hv|rewrite Hv].
      * eapply ph_open; [reflexivity|]. done.
      * intros j g' Hj. rewrite Hw1 in Hj. apply lookup_delete_Some in Hj as [_ Hj].
        left. rewrite (Hw _ _ Hj). simpl. lia.
    + rewrite bool_decide_eq_false_2 in Hv by lia. split; rewrite ?Hv; simpl; [done..|].
      intros j g' Hj. rewrite Hw1 in Hj. apply lookup_delete_Some in Hj as [_ Hj]. eauto.
Qed.

Lemma run_events_app es1 es2 : forall w,
  run_events (es1 ++ es2) w =
  let '(w1, rs1) := run_events es1 w in
  let '(w2, rs2) := run_events es2 w1 in (w2, rs1 ++ rs2)%list.
Proof.
  induction es1 as [|[t e] es1 IH]; intros w; simpl; [by destruct (run_events es2 w)|].
  destruct (wait_step t e w) as [w1 r]. rewrite IH.
  destruct (run_events es1 w1) as [w2 rs]. by destruct (run_events es2 w2).
Qed.

Lemma timed_out_cons p rs : timed_out (p :: rs) = (timed_out [p] ++ timed_out rs)%list.
Proof. unfold timed_out. simpl. by repeat case_match. Qed.

(** With fewer than three timeouts the breaker is closed and has counted them. *)
Lemma closed_run es : forall n w, closed n w -> outage es ->
  (n + length (timed_out (run_events es w).2) < 3)%nat ->
  closed (n + length (timed_out (run_events es w).2)) (run_events es w).1 /\
  all_succeed (run_events es w).2.
Proof.
  induction es as [|[t e] es IH]; intros n w Hw Ho; cbn [run_events].
  { simpl. rewrite Nat.add_0_r. intros _. by split; [|constructor]. }
  apply Forall_cons in Ho as [He Ho]. destruct (wait_step t e w) as [w1 r] eqn:Hs.
  destruct (run_events es w1) as [w2 rs] eqn:Hr. cbn [fst snd].
  rewrite timed_out_cons, length_app. intros Hlt.
  apply (closed_step n) in Hs as [Hok Hs]; [|lia|done|by apply Forall_singleton].
  unfold all_succeed in *. rewrite Forall_singleton in Hok.
  destruct Hs as [[E Hw1]|[E Hw1]]; rewrite E in *; cbn [length] in *.
  - destruct (IH n w1 Hw1 Ho) as [Hc Hall]; rewrite Hr in *; cbn [fst snd] in *; [lia|].
    split; [done|by constructor].
  - rewrite decide_False in Hw1 by lia.
    destruct (IH (S n) w1 Hw1 Ho) as [Hc Hall]; rewrite Hr in *; cbn [fst snd] in *; [lia|].
    replace (n + (1 + length (timed_out rs)))%nat with (S n + length (timed_out rs))%nat by lia.
    split; [done|by constructor].
Qed.
End Outage.

(** C29. A consumer that does not answer cannot hold up the clients.  Take the
    breaker as serve configures it and any interleaving of reports that wait for
    the consumer, in which every wait that ends has timed out.  Then no report
    fails because of its wait.  And from the third timeout on, which happens at
    [t], the next report that waits begins more than a minute later, and so does
    each one after it: up to any later time [T], at most one report for each
    minute since [t] has waited, while all others were answered at once. *)
Theorem outage_bounds_waiting (B : Type) (HB : GoBreaker B) (HL : GoBreakerLaws B)
    (pre post : list (Z * wait_event)) (t : Z) (e : wait_event)
    (Hout : outage (pre ++ (t, e) :: post)) (Hord : ordered t post)
    (Htwo : length (timed_out (run_events pre fresh_waits).2) = 2%nat)
    (Hthree : length (timed_out (run_events (pre ++ [(t, e)]) fresh_waits).2) = 3%nat) :
  all_succeed (run_events (pre ++ (t, e) :: post) fresh_waits).2 /\
  let later := begun (run_events post (run_events (pre ++ [(t, e)]) fresh_waits).1).2 in
  spaced t later /\
  forall T, t <= T ->
    Z.of_nat (length (List.filter (fun x => x <=? T) later)) * seconds 60 <= T - t.
Proof.
  cbv zeta. set (w0 := fresh_waits) in *. set (third := run_events (pre ++ [(t, e)]) w0) in *.
  unfold outage in Hout. rewrite Forall_app, Forall_cons in Hout. destruct Hout as (Hpre & He & Hpost).
  assert (Hw0 : closed 0 w0).
  { split; simpl; [apply settings_new|apply view_new..|]. intros i g Hi. by rewrite lookup_empty in Hi. }
  destruct (closed_run pre 0 w0 Hw0 Hpre) as [Hc Hall]; [lia|]. rewrite Htwo in Hc. simpl in Hc.
  assert (Htrip : tripped t t third.1 /\ all_succeed third.2).
  { revert Hthree. unfold third. rewrite run_events_app. destruct (run_events pre w0) as [w1 rs1].
    cbn [run_events fst snd] in *. destruct (wait_step t e w1) as [w2 r] eqn:Hs. cbn [fst snd].
    apply (closed_step 2) in Hs as [Hok Hs]; [|lia|done|by apply Forall_singleton].
    unfold timed_out in *. rewrite List.filter_app, length_app, Htwo.
    destruct Hs as [[E _]|[E Htr]]; [rewrite E; simpl; lia|]. intros _. split; [done|].
    unfold all_succeed in *. by apply Forall_app. }
  destruct Htrip as [Htrip Hthird].
  destruct (tripped_run post t t _ Htrip Hord Hpost) as [Hsp Hall'].
  split; [|split; [done|intros T HT; by apply spaced_count]].
  replace (pre ++ (t, e) :: post)%list with ((pre ++ [(t, e)]) ++ post)%list by (by rewrite <- app_assoc).
  rewrite run_events_app. fold third. destruct third as [w1 rs1]. simpl in *.
  destruct (run_events post w1) as [w2 rs2]. by apply Forall_app.
Qed.

(** * A run *)

(** The machine of the documentation is such a breaker. *)
Record documented := { doc_settings : breaker_settings; doc_circuit : circuit }.

#[export] Instance documented_breaker : GoBreaker documented :=
  {| NewCircuitBreaker s :=
       {| doc_settings := s;
          doc_circuit := {| ci_state := StateClosed; ci_requests := 0; ci_failures := 0;
                            ci_generation := 0 |} |};
     breaker_allow now b :=
       let '(c, r) := circuit_allow now (doc_circuit b) in
       ({| doc_settings := doc_settings b; doc_circuit := c |}, r);
     breaker_done now g ok b :=
       {| doc_settings := doc_settings b;
          doc_circuit := circuit_done (doc_settings b) now g ok (doc_circuit b) |} |}.

#[export, refine] Instance documented_breaker_laws : GoBreakerLaws documented :=
  {| view := doc_circuit; settings_of := doc_settings |}.
Proof. all: intros; simpl; try done; by destruct (circuit_allow _ _). Defined.

Definition timeout : option go_error := Some (ESentinel ErrWaitContextCancelled).

(** Three reports wait for ten seconds; of five later ones, two wait. *)
Definition ex_pre : list (Z * wait_event) :=
  [(seconds 0, Begin 1); (seconds 1, Begin 2); (seconds 2, Begin 3);
   (seconds 10, End 1 timeout); (seconds 11, End 2 timeout)].

Definition ex_post : list (Z * wait_event) :=
  [(seconds 30, Begin 4); (seconds 73, Begin 5); (seconds 74, Begin 6); (seconds 83, End 5 timeout);
   (seconds 100, Begin 7); (seconds 144, Begin 8)].

Definition ex_tripped : @waits documented :=
  (run_events (ex_pre ++ [(seconds 12, End 3 timeout)]) fresh_waits).1.

Lemma outage_bounds_waiting_witness :
  begun (run_events ex_post ex_tripped).2 = [seconds 73; seconds 144] /\
  2 * seconds 60 <= seconds 144 - seconds 12.
Proof.
  destruct (outage_bounds_waiting documented documented_breaker documented_breaker_laws
    ex_pre ex_post (seconds 12) (End 3 timeout)) as (_ & _ & Hcount).
  - repeat constructor.
  - simpl. repeat split; vm_compute; discriminate.
  - vm_compute. reflexivity.
  - vm_compute. reflexivity.
  - split; [vm_compute; reflexivity|]. exact (Hcount (seconds 144) ltac:(vm_compute; discriminate)).
Defined.
